(* ===== verification/_CoqProject ===== *)
-Q . S2P
Prelude.v
GoStrings.v
PathMatch.v
Effect.v
Availability.v
AvailabilityFacts.v
AvailabilityProps.v
Classify.v
Ledger.v
LedgerFacts.v
LedgerProps.v
Recharge.v
RechargeProps.v
CivilTime.v
PurchasePolicy.v
PurchasePolicyProps.v
Subscription.v
SubscriptionFacts.v
SubscriptionPlans.v
SubscriptionSystem.v
SubscriptionProps.v
SubscriptionDemo.v
SubscriptionMeter.v
Topup.v
TopupProps.v
Payment.v
PaymentFacts.v
PaymentSystem.v
PaymentProps.v
Decimal.v
PriceTiers.v
UsageEvidence.v
Request.v
ConcurrencyLimit.v
ConcurrencyFacts.v
ConcurrencyProps.v
CommercialDB.v
Surfaces.v
PriceBooks.v
Commercial.v
CommercialService.v
CommercialFacts.v
CommercialTargets.v
CommercialVersion.v
CommercialProps.v
Dispatch.v
DispatchProps.v
Upstream.v
Binder.v
Candidates.v
RouteSelector.v
ExecState.v
RouteSelection.v
RouteSelectionFacts.v
Execute.v
ExecuteFacts.v
ExecuteLoop.v
ExecuteProps.v
PriceBookBilling.v
PricingProps.v
Settlement.v
SettlementFacts.v
SettlementSystem.v
SettlementProps.v
AsyncTask.v
AsyncTaskEngine.v
AsyncTaskSystem.v
AsyncTaskProps.v
AsyncTaskPages.v
AsyncTaskDemo.v
Pipeline.v
RouteFacts.v
RoutePlanProps.v
PipelineFacts.v
PipelineProps.v
Auth.v
AuthSystem.v
AuthProps.v
Invite.v
APIKeys.v
