(* ===== verification/Prelude.v ===== *)
(** * D-AI money, entitlement and routing core: a verification development

    D-AI is a multi-tenant AI gateway written in Go: tenants and their users call
    models through it, the platform charges the tenant for each request, the
    tenant charges its user, and both sides top up, subscribe and refund.  This
    development models the part of the program that decides who pays what — every
    balance, entitlement and charge, as the code and its SQL compute them — the
    queue that runs the long requests, and the part that decides which upstream
    serves a request and how often it is called.

    ** The program and its model

    - The _balance ledger_ ([src/internal/billing/ledger], tables [bill_accounts]
      and [bill_credit_lots]) is the only writer of balances: charges, funded
      charges, grants, reversals, expiry and refund reversals.  [Ledger] has one
      definition per operation, [LedgerFacts] the lemmas on lots and balances,
      [LedgerProps] the theorems.
    - _Manual recharge_ ([src/internal/billing/service], [.../pg]) grants and reverses
      credit for administrators and tenants on top of the ledger: [Recharge],
      [RechargeProps].
    - The _purchase policy_ of subscription plans
      ([src/internal/ai/subscription/purchase_policy.go]) limits who may buy what and
      when, over Go's calendar ([CivilTime]): [PurchasePolicy],
      [PurchasePolicyProps].
    - The _subscription shop_ ([src/internal/ai/subscription] and
      [.../adapters/postgres/subscription.go]): orders and their reservation, debit
      and finalization, the janitor that resumes them, activation and expiry of the
      queue, the gate, metering and plan management.  [Subscription] and
      [SubscriptionPlans] hold the operations, [SubscriptionFacts] the lemmas,
      [SubscriptionSystem] the interleavings of all of them, [SubscriptionProps] and
      [SubscriptionDemo] purchase and recovery, [SubscriptionMeter] the usage
      windows.
    - _Top-up pricing_ and _payment orders_ ([src/internal/payment], [src/internal/money]):
      the settings documents and the price of a top-up ([Topup], [TopupProps]);
      orders, gateway settlement, the sweep, refunds and withdrawals ([Payment],
      [PaymentFacts]), as a system of concurrent transactions ([PaymentSystem]) and
      operation by operation ([PaymentProps]).
    - _Pricing a request_ ([src/internal/ai/domain], [.../core/billing],
      [.../formats/usage_evidence.go], [.../serving],
      [.../adapters/postgres/pricebook_billing.go]): exact decimal arithmetic
      ([Decimal]), price tiers and image sizes ([PriceTiers]), the usage a provider
      reports ([UsageEvidence]), the request and its completion decision
      ([Request]), the two sides of its charge ([PriceBookBilling], [PricingProps]).
    - _Settling a request_ ([.../adapters/postgres/request_store.go],
      [request_settlement.go], [request_maintenance.go]): registration, sealing,
      posting, refunds, recovery and retirement ([Settlement], [SettlementFacts]),
      as a step relation ([SettlementSystem], [SettlementProps]).  A posting runs
      [Ledger.Charge] and the subscription's debit, a refund [Ledger.Grant]: the
      three components meet there.
    - The _asynchronous task queue_ ([src/internal/ai/asynctask]): every statement on
      [ai_async_tasks] and [ai_async_task_deliveries] ([AsyncTask]), the engine's
      submission, workers, reaper, queries and webhooks ([AsyncTaskEngine]), their
      interleavings and what their attempt counters count ([AsyncTaskSystem]) and what
      they guarantee ([AsyncTaskProps], [AsyncTaskPages]; [AsyncTaskDemo] has the
      witnesses).  Each attempt runs a request whose id the queue chose, so the
      queue and the settlement together bound what a task costs.

    - _Upstream availability_ ([src/internal/ai/routing/availability.lua] and
      [availability.go]): the health of fault scopes in Redis, cooling, recovery
      probes and admission permits ([Availability]), all callers interleaved and
      replies lost ([AvailabilityFacts]), and what is guaranteed of a recovering
      scope ([AvailabilityProps]).
    - _Executing a request_ ([src/internal/ai/serving]: [execute.go],
      [execute_attempt.go], [execute_candidates.go], [availability.go],
      [pool_selection.go], [scorer.go], [classifier.go], [budget.go]): the outcome
      of a response ([Classify]), candidates and their tiers ([Candidates]), the
      state of the step and the world it calls ([ExecState]), the choice of the
      next candidate ([RouteSelection], [RouteSelectionFacts]), attempts and the
      retry loop ([Execute], [ExecuteFacts], [ExecuteLoop]) and their properties
      ([ExecuteProps], with runs in a scripted world).  It fills
      the [Request] that pricing and settlement read.

    - _Concurrency limits_ ([.../adapters/redis/ratelimit.go],
      [upstream_concurrency.go]): the Redis scripts and the limiters of callers and
      upstream accounts ([ConcurrencyLimit]), all requests interleaved and replies
      lost ([ConcurrencyFacts]), and what they bound ([ConcurrencyProps]).
    - _Groups and price books_ ([src/internal/ai/commercial],
      [src/internal/ai/billingcontrol] and their transactions in
      [.../adapters/postgres]): the tables ([CommercialDB]), the books and their
      entries ([PriceBooks]), groups with their targets, rules and surfaces
      ([Commercial]), the service, the import of one planned group, the deletion of a
      tenant and the histories of all of them ([CommercialService]), the
      invariant ([CommercialFacts]), batches of targets ([CommercialTargets]), the
      version of a group ([CommercialVersion]) and the theorems
      ([CommercialProps]).
    - _Dispatching a request_ ([src/internal/ai/commercial/resolution.go]): Go's
      [path.Match], which matches the patterns of rules ([PathMatch]); client
      surfaces and the matrix of bridges between them ([.../runtimecompat],
      [.../adapters/bridgefmt/runtime.go]; [Surfaces]); the groups a caller may use,
      the rule that decides the model and the targets that may serve it ([Dispatch],
      [DispatchProps]).
    - _Upstream resources_ ([.../upstreamaccess], [upstream_access.go]): accounts,
      credential pools, their models and endpoints, and which tenant may use which at
      what multiplier ([Upstream]).
    - _Routing a request_ ([runtime_target_binder.go], [src/internal/ai/core/runtime],
      [gateway/runtime_route_selector.go]): a target is bound to an upstream, an
      endpoint, a protocol and its prices ([Binder]); the planner, the
      resolver and the selector make the candidates of a request ([RouteSelector],
      [RouteFacts]), with dispatch and binder behind the interfaces
      [CommercialDispatcher] and [RuntimeBindingResolver], whose laws
      ([DispatcherLaws], [BinderLaws]) [RoutePlanProps] discharges for the two
      implementations.
    - The _serving pipeline_ ([src/internal/ai/serving/pipeline.go], [steps.go] and the
      gates beside them, wired in [src/cmd/server/ai_modules.go]): the steps of a
      request in order, their rollback and the finalizers, and the admission gate of
      queued tasks ([Pipeline]), the gates and the checks one by one ([PipelineFacts]),
      the theorems and runs over concrete collaborators ([PipelineProps]).  It is where
      the other components meet: its steps ask the subscriptions, the ledger, the
      selector and the price books (classes of [Pipeline]), register and complete the
      request in the settlement tables, take and give back the slots of
      [ConcurrencyLimit] and run [Execute].

    - _Accounts, sessions and credentials_ ([src/internal/auth], [.../user/pg],
      [.../tenant/pg] and their tables with the trigger in [src/internal/db/init.sql]):
      sign-in, refresh tokens, activation tokens, second factors, the writers of accounts
      and the validation of tokens and of queued tasks ([Auth]), all of them interleaved
      ([AuthSystem]), and what they guarantee ([AuthProps]).  _Invitations_
      ([src/internal/invite], [.../tenant/self_service.go]) and the registration that
      creates an account with one are [Invite].  _API keys_ ([src/internal/ai/identitycontrol],
      [.../adapters/postgres/apikey_repo.go]): their management, the authentication of a
      gateway request by the secret it presents, and the resolvers that authorise a
      request and a queued task by its key ([APIKeys]).

    This file has what they share: machine integers, the transaction monad with
    its inversion tactic [tx_inv], preservation lemmas (hint database
    [tx_preserves]), tables as lists of rows keyed by a column, and [ORDER BY].
    [GoStrings] has the string functions of Go the code calls.

    ** State and operations

    A table is a [gmap] by its key, or the list of its rows in order of insertion
    where the code orders or scans them; a nullable column is an [option]. A
    database transaction is a state transformer [Tx] that returns a value and the
    new state, or an error and no state: the deferred rollback. Row and advisory
    locks are why a transaction is one step (where one of [CommercialService] relies
    on rows it does not lock, [CommercialProps] shows what an interleaving can do);
    what runs between transactions is explicit, as a program of transactions
    ([Subscription.txprog]), or as a step relation whose steps are single
    transactions and which allows any interleaving of them ([PaymentSystem],
    [SubscriptionSystem], [SettlementSystem], [AsyncTaskSystem],
    [AvailabilityFacts], [ConcurrencyFacts], [AuthSystem], [Invite]), or as the
    histories of [CommercialService]. Code that keeps what it did when it fails is
    written in the state monad of [Effect], whose [wp] includes termination; the
    collaborators of the execute step are the operations of the class
    [ExecState.Ports] over an abstract world. A step "other" stands for writers
    outside the component.

    ** What the theorems show

    The retry loop of a request ends within its budget on any answers of the world,
    finishes every admission, and calls an upstream again only where the code means
    to; selection picks by group, manual priority and conversion. A recovering scope
    is probed by one request at a time, and a cooled one returns to service once its
    cooldown is over and two probes went well. Reachability invariants: the ledger's
    lots and balances, one row per reservation and sale, each payment credited once,
    each request charged once, also across retirement, the phases, limits and
    notifications of tasks and what their attempt counters count, the slots a scope
    holds, a price for every active rule of an active group. Authorisation, end to
    end: a candidate belongs to a group its caller may use, is bound to a resource
    its tenant was granted, speaks a protocol the group and the bridges allow, at
    the prices of both, and within the plan when a subscription pays; dispatch gives
    every such option and no other, and the first matching rule decides. A request
    reaches execution only known, in quota, in credit, routed, priced and on record;
    one that is refused costs nothing; every run ends and gives back what it took. A
    session that ended stays ended, an access token follows its account and is
    accepted until it or its session expires, refresh and activation tokens work
    once, an invitation is used as often as it says. An API key's secret
    authenticates its owner and nobody else, while key, owner and tenant are active,
    and a queued task is authorised exactly as a request with its key is, but for
    the ban list, which only the gateway reads. Nothing of a group's routing changes
    without its version. The cost of a task across retries, zombies and shutdowns.
    Finality of paid orders and of task outcomes. Refinement of an abstract debit.
    The effect of each operation on every branch: charges and grants, recharge,
    eligibility, metering, pricing, settlement, withdrawal, refund, submission.
    Liveness: purchases complete and crashes are repaired, refunds are accepted,
    loops and page walks end. Equivalence of tier selection with intervals, and the
    round trip of a refund. Where the code does not do what it means to, a theorem
    says exactly when: [LedgerProps.refund_then_expiry_overdebits], the two runs of
    [SubscriptionDemo], the gate at a window's last instant ([SubscriptionMeter]),
    stored settings that cannot be loaded ([TopupProps]),
    [SettlementProps.unconfirmed_stream_is_billed], two deletions of prices that
    race with the groups that sell from them, an import that races with the
    disabling of its price book and one that stores rules with the spaces its check
    ignored ([CommercialProps]), a reaper round that meets more orphans than its
    batch ([AsyncTaskProps]), [AsyncTaskPages.zone_escapes_prefixes], and a
    subscriber without a balance who is served pay-as-you-go
    ([PipelineProps.zero_balance_is_served_payg]).

    ** Bounds and assumptions

    Go's [int] and [int64] are [Z] with [wrap64] written where the code computes;
    [bigint] columns raise out of range. Loops are structural; the clean-up, the
    retry delay and the settlement worker take the fuel the code gives them (its
    batch limits), [PaymentProps.CleanupClosedOrders_exact] shows it suffices, and a
    walk over pages needs no more pages than there are tasks. Selection needs more
    fuel than there are unused candidates and the retry loop more than its budget
    and those together ([ExecuteProps]). Times are integers (nanoseconds).
    Parameters: the clock of each transaction, generated UUIDs, text collation, the
    time-zone database, SHA-256, regular expressions, the decryption of upstream
    keys, URL parsing, the expiry check of JWTs, bcrypt and random tokens (which do
    not repeat), the answers of the payment gateway, of task handlers and of webhook
    receivers, and the rows other sessions hold locked. Rates and multipliers of
    subscriptions and fees are in ten-thousandths; prices and multipliers of
    requests are the exact decimals of their floats. JSON columns are the values
    they encode.

    ** Not modelled

    HTTP transport, the reports of what keys used, configuration, caching,
    scheduling and the portal frontend are glue around the operations above; so are
    the binding cache and the coalescing of concurrent loads, and the re-encryption
    of stored keys. Of the export and import of groups only the transaction that
    writes one planned group is modelled, for any plan: reading a bundle, planning
    and previewing its import and exporting are not, nor the administration of limit
    policies. The relay of a response and the conversion between provider protocols
    are ports of the execute step (which bridges exist is modelled, what they
    rewrite is not), as are the reviews of prompts; the audit payload, debug
    captures, times, latencies, logs and error texts of attempts are left out. The
    float scores of candidates are a port. Of signing in, the keys and signatures of
    tokens, login limits, one-time codes, bans in Redis and the policies of actors
    are left out. The risk-control engine and the audit trail decide what is
    executed or recorded, not what is charged. [src/internal/ai/db/gen] is generated
    from the queries, which are modelled where an operation runs them. The journal's
    triggers and checkpoints and partition maintenance are left out. *)

From Stdlib Require Export Sorted.
From stdpp Require Export base gmap strings list fin_maps.

#[global] Open Scope Z_scope.

(** ** Machine integers

    Go's [int64] arithmetic wraps; PostgreSQL's [bigint] arithmetic raises
    "bigint out of range".  Both are needed: totals accumulated in Go use
    [wrap64], column updates use [sql_bigint]. *)

Definition int64_min : Z := - 2 ^ 63.
Definition int64_max : Z := 2 ^ 63 - 1.
Definition int32_min : Z := - 2 ^ 31.
Definition int32_max : Z := 2 ^ 31 - 1.

Definition in_int64 (z : Z) : bool := (int64_min <=? z) && (z <=? int64_max).
Definition in_int32 (z : Z) : bool := (int32_min <=? z) && (z <=? int32_max).

Definition wrap64 (z : Z) : Z := (z - int64_min) mod 2 ^ 64 + int64_min.
Definition wrap32 (z : Z) : Z := (z - int32_min) mod 2 ^ 32 + int32_min.

Lemma in_int64_spec z : in_int64 z = true <-> int64_min <= z <= int64_max.
Proof. unfold in_int64. rewrite andb_true_iff, !Z.leb_le. done. Qed.

Lemma wrap64_id z : int64_min <= z <= int64_max -> wrap64 z = z.
Proof.
  unfold wrap64, int64_min, int64_max. intros H.
  rewrite Z.mod_small by lia. lia.
Qed.

Lemma wrap64_range z : int64_min <= wrap64 z <= int64_max.
Proof.
  unfold wrap64, int64_min, int64_max.
  pose proof (Z.mod_pos_bound (z - - 2 ^ 63) (2 ^ 64) ltac:(lia)). lia.
Qed.

Lemma wrap32_id z : int32_min <= z <= int32_max -> wrap32 z = z.
Proof.
  unfold wrap32, int32_min, int32_max. intros H.
  rewrite Z.mod_small by lia. lia.
Qed.

(** ** Results and transactions

    A database transaction is a function from the database state to either a
    value with the new state, or an error.  An error carries no state: the
    deferred [tx.Rollback] of the source discards every write made so far. *)

Inductive result (E A : Type) : Type :=
| Ok (a : A)
| Err (e : E).
Arguments Ok {E A} a.
Arguments Err {E A} e.

Definition Tx (S E A : Type) : Type := S -> result E (A * S).

Section Transactions.
Context {S E : Type}.

Definition tx_ret {A} (a : A) : Tx S E A := fun s => Ok (a, s).
Definition tx_bind {A B} (m : Tx S E A) (k : A -> Tx S E B) : Tx S E B :=
  fun s => match m s with
           | Ok (a, s') => k a s'
           | Err e => Err e
           end.
Definition tx_fail {A} (e : E) : Tx S E A := fun _ => Err e.
Definition tx_get : Tx S E S := fun s => Ok (s, s).
Definition tx_put (s : S) : Tx S E unit := fun _ => Ok (tt, s).
(** [if cond { return err }] *)
Definition tx_guard (b : bool) (e : E) : Tx S E unit :=
  if b then tx_fail e else tx_ret tt.
(** [for _, x := range l { ... }] whose body may fail *)
Fixpoint tx_iter {A} (f : A -> Tx S E unit) (l : list A) : Tx S E unit :=
  match l with
  | [] => tx_ret tt
  | x :: l' => tx_bind (f x) (fun _ => tx_iter f l')
  end.
(** the same loop threading the local variables the body updates *)
Fixpoint tx_fold {A V} (f : V -> A -> Tx S E V) (l : list A) (v : V) : Tx S E V :=
  match l with
  | [] => tx_ret v
  | x :: l' => tx_bind (f v x) (tx_fold f l')
  end.
(** Commit: the state of a failed transaction is the state it started from. *)
Definition run_tx {A} (m : Tx S E A) (s : S) : S * result E A :=
  match m s with
  | Ok (a, s') => (s', Ok a)
  | Err e => (s, Err e)
  end.
(** [errors.Is]-style rewriting of the error of a call. *)
Definition tx_map_err {E' A} (f : E -> E') (m : Tx S E A) : Tx S E' A :=
  fun s => match m s with Ok r => Ok r | Err e => Err (f e) end.
End Transactions.

(** Running a transaction of a component on the part of a larger database
    that the component owns. *)
Definition tx_zoom {S T E A} (get : S -> T) (set : T -> S -> S)
    (m : Tx T E A) : Tx S E A :=
  fun s => match m (get s) with
           | Ok (a, t) => Ok (a, set t s)
           | Err e => Err e
           end.

Declare Scope tx_scope.
Delimit Scope tx_scope with tx.
Notation "'let!' x ':=' m 'in' k" := (tx_bind m (fun x => k))
  (at level 10, x pattern, m at level 200, k at level 200) : tx_scope.
Notation "m ';;;' k" := (tx_bind m (fun _ => k))
  (at level 199, k at level 200, right associativity) : tx_scope.
#[global] Open Scope tx_scope.

Lemma tx_bind_ok {S E A B} (m : Tx S E A) (k : A -> Tx S E B) s b s' :
  tx_bind m k s = Ok (b, s') <->
  exists a s0, m s = Ok (a, s0) /\ k a s0 = Ok (b, s').
Proof.
  unfold tx_bind. split.
  - destruct (m s) as [[a s0] | e]; [eauto | done].
  - intros (a & s0 & -> & H). done.
Qed.

Lemma tx_guard_ok {S E} b (e : E) (s : S) u s' :
  tx_guard b e s = Ok (u, s') -> b = false /\ s' = s.
Proof. unfold tx_guard. destruct b; intros H; [discriminate H | by injection H]. Qed.

Lemma tx_get_bind {S E A} (k : S -> Tx S E A) s : tx_bind tx_get k s = k s s.
Proof. done. Qed.
Lemma tx_guard_pass {S E A} b (e : E) (k : unit -> Tx S E A) s :
  b = false -> tx_bind (tx_guard b e) k s = k tt s.
Proof. by intros ->. Qed.
Lemma tx_guard_stop {S E A} b (e : E) (k : unit -> Tx S E A) s :
  b = true -> tx_bind (tx_guard b e) k s = Err e.
Proof. by intros ->. Qed.

Lemma tx_zoom_ok {S T E A} (get : S -> T) set (m : Tx T E A) s a s' :
  tx_zoom get set m s = Ok (a, s') <->
  exists t, m (get s) = Ok (a, t) /\ s' = set t s.
Proof.
  unfold tx_zoom. destruct (m (get s)) as [[x t] | e].
  - split; [intros [= -> <-]; eauto | intros (t' & [= -> ->] & ->); done].
  - split; [done | intros (t & [=] & _)].
Qed.

(** Invert a successful run into its steps.  Stops at calls it does not know,
    leaving an equation for each of them. *)
Ltac tx_close H := first [injection H as <- <- | injection H as -> <- | simplify_eq].
Ltac tx_step H :=
  match type of H with
  | tx_bind _ _ _ = Ok _ =>
      let a := fresh "r" in let s := fresh "s" in
      let H1 := fresh "Hrun" in let H2 := fresh "Hrun" in
      apply tx_bind_ok in H; destruct H as (a & s & H1 & H2);
      tx_step H1; tx_step H2
  | tx_ret _ _ = Ok _ => unfold tx_ret in H; tx_close H
  | tx_get _ = Ok _ => unfold tx_get in H; tx_close H
  | tx_put _ _ = Ok _ => unfold tx_put in H; tx_close H
  | tx_fail _ _ = Ok _ => unfold tx_fail in H; discriminate H
  | Ok _ = Ok _ => tx_close H
  | Err _ = Ok _ => discriminate H
  | tx_guard ?b _ _ = Ok _ =>
      let Hb := fresh "Hg" in
      unfold tx_guard in H; destruct b eqn:Hb;
      [unfold tx_fail in H; discriminate H | tx_step H]
  | (if ?b then _ else _) _ = Ok _ =>
      let Hb := fresh "Hg" in destruct b eqn:Hb; tx_step H
  | match ?x with _ => _ end _ = Ok _ =>
      let Hb := fresh "Hm" in destruct x eqn:Hb; tx_step H
  | match ?x with _ => _ end = Ok _ =>
      let Hb := fresh "Hm" in destruct x eqn:Hb; tx_step H
  | _ => idtac
  end.
Ltac tx_inv H := cbn beta in H; tx_step H.

(** Boolean guards of the source turned into the propositions [lia] and
    [simplify_eq] use. *)
Ltac bool_prop :=
  repeat match goal with
  | H : (_ && _) = true |- _ => apply andb_true_iff in H as [? ?]
  | H : (_ || _) = false |- _ => apply orb_false_iff in H as [? ?]
  | H : negb _ = true |- _ => apply negb_true_iff in H
  | H : negb _ = false |- _ => apply negb_false_iff in H
  | H : (_ <=? _) = true |- _ => apply Z.leb_le in H
  | H : (_ <=? _) = false |- _ => apply Z.leb_gt in H
  | H : (_ <? _) = true |- _ => apply Z.ltb_lt in H
  | H : (_ <? _) = false |- _ => apply Z.ltb_ge in H
  | H : (_ =? _) = true |- _ => apply Z.eqb_eq in H
  | H : (_ =? _) = false |- _ => apply Z.eqb_neq in H
  | H : bool_decide _ = true |- _ => apply bool_decide_eq_true in H
  | H : bool_decide _ = false |- _ => apply bool_decide_eq_false in H
  end.

(** Case analysis on a lookup in an updated map, in the goal only. *)
Ltac case_key H :=
  match goal with |- context [decide (?a = ?b)] => destruct (decide (a = b)) as [H | H] end.

(** [preserves I m]: a committed run of [m] keeps the invariant [I]. *)
Definition preserves {S E A} (I : S -> Prop) (m : Tx S E A) : Prop :=
  forall s a s', I s -> m s = Ok (a, s') -> I s'.

Create HintDb tx_preserves.

Section Preservation.
Context {S E : Type} (I : S -> Prop).

Lemma preserves_ret {A} (a : A) : preserves (E := E) I (tx_ret a).
Proof. intros s x s' HI H. tx_inv H. done. Qed.
Lemma preserves_get : preserves (E := E) I tx_get.
Proof. intros s x s' HI H. tx_inv H. done. Qed.
Lemma preserves_fail {A} e : preserves (S := S) (E := E) (A := A) I (tx_fail e).
Proof. intros s x s' HI H. tx_inv H. Qed.
Lemma preserves_guard b e : preserves (S := S) (E := E) I (tx_guard b e).
Proof. intros s x s' HI H. tx_inv H. done. Qed.
Lemma preserves_bind {A B} (m : Tx S E A) (k : A -> Tx S E B) :
  preserves I m -> (forall a, preserves I (k a)) -> preserves I (tx_bind m k).
Proof. intros Hm Hk s b s' HI H. tx_inv H. eapply Hk; [|done]. by eapply Hm. Qed.
Lemma preserves_iter {A} (f : A -> Tx S E unit) l :
  (forall x, preserves I (f x)) -> preserves I (tx_iter f l).
Proof.
  intros Hf. induction l as [|x l IH]; simpl;
    [apply preserves_ret | by apply preserves_bind].
Qed.
Lemma preserves_run_tx {A} (m : Tx S E A) s :
  preserves I m -> I s -> I (run_tx m s).1.
Proof.
  intros Hm HI. unfold run_tx. destruct (m s) as [[a s'] | e] eqn:Hrun; [|done].
  by eapply Hm.
Qed.
End Preservation.
#[export] Hint Resolve preserves_ret preserves_get preserves_fail preserves_guard
  preserves_bind preserves_iter : tx_preserves.

(** ** Rows

    Tables whose order of insertion matters are lists of rows.  An [UPDATE]
    maps over the rows its [WHERE] clause selects. *)

Definition sumZ {A} (f : A -> Z) (l : list A) : Z := foldr (fun a acc => f a + acc) 0 l.

Definition update_where {A} (p : A -> bool) (f : A -> A) (l : list A) : list A :=
  (fun a => if p a then f a else a) <$> l.

Definition count_where {A} (p : A -> bool) (l : list A) : Z :=
  sumZ (fun a => if p a then 1 else 0) l.

Lemma sumZ_cons {A} (f : A -> Z) a l : sumZ f (a :: l) = f a + sumZ f l.
Proof. done. Qed.

Lemma sumZ_app {A} (f : A -> Z) l1 l2 : sumZ f (l1 ++ l2) = sumZ f l1 + sumZ f l2.
Proof. induction l1 as [|a l1 IH]; simpl; lia. Qed.
Lemma count_where_app {A} (p : A -> bool) l1 l2 : count_where p (l1 ++ l2) = count_where p l1 + count_where p l2.
Proof. apply sumZ_app. Qed.

Lemma sumZ_ext {A} (f g : A -> Z) l :
  (forall a, a ∈ l -> f a = g a) -> sumZ f l = sumZ g l.
Proof.
  induction l as [|a l IH]; intros H; simpl; [done|].
  rewrite H by apply list_elem_of_here. rewrite IH; [done|].
  intros b Hb. apply H. by apply list_elem_of_further.
Qed.

Lemma sumZ_nonneg {A} (f : A -> Z) l :
  (forall a, a ∈ l -> 0 <= f a) -> 0 <= sumZ f l.
Proof.
  induction l as [|a l IH]; intros H; simpl; [lia|].
  assert (0 <= f a) by (apply H, list_elem_of_here).
  assert (0 <= sumZ f l) by (apply IH; intros b Hb; apply H; by apply list_elem_of_further).
  lia.
Qed.

Lemma sumZ_elem_le {A} (f : A -> Z) l a :
  (forall b, b ∈ l -> 0 <= f b) -> a ∈ l -> f a <= sumZ f l.
Proof.
  induction l as [|b l IH]; intros H Ha; [by apply not_elem_of_nil in Ha|]; simpl.
  assert (0 <= f b) by (apply H, list_elem_of_here).
  assert (0 <= sumZ f l)
    by (apply sumZ_nonneg; intros c Hc; apply H; by apply list_elem_of_further).
  apply elem_of_cons in Ha as [-> | Ha]; [lia|].
  assert (f a <= sumZ f l); [|lia].
  apply IH; [|done]. intros c Hc. apply H. by apply list_elem_of_further.
Qed.

Lemma sumZ_Permutation {A} (f : A -> Z) l1 l2 : l1 ≡ₚ l2 -> sumZ f l1 = sumZ f l2.
Proof. induction 1; simpl; lia. Qed.

Lemma sumZ_zero {A} (f : A -> Z) l : (forall a, a ∈ l -> f a = 0) -> sumZ f l = 0.
Proof.
  intros H. rewrite (sumZ_ext f (fun _ => 0)) by done. clear H.
  induction l as [|a l IH]; simpl; lia.
Qed.

Lemma update_where_id {A} (p : A -> bool) f (l : list A) :
  (forall a, a ∈ l -> p a = false) -> update_where p f l = l.
Proof.
  induction l as [|a l IH]; intros H; simpl; [done|].
  rewrite H by apply list_elem_of_here. f_equal. apply IH.
  intros b Hb. apply H. by apply list_elem_of_further.
Qed.

Lemma elem_of_update_where {A} (p : A -> bool) f (l : list A) b :
  b ∈ update_where p f l <->
  exists a, a ∈ l /\ b = (if p a then f a else a).
Proof.
  unfold update_where. rewrite list_elem_of_fmap.
  split; intros (a & H1 & H2); by exists a.
Qed.

Lemma length_update_where {A} (p : A -> bool) f (l : list A) :
  length (update_where p f l) = length l.
Proof. apply length_fmap. Qed.

Section KeyedRows.
Context {A K : Type} `{EqDecision K} (key : A -> K).

Definition has_key (k : K) (a : A) : bool := bool_decide (key a = k).

Lemma keyed_unique l a b :
  NoDup (key <$> l) -> a ∈ l -> b ∈ l -> key a = key b -> a = b.
Proof.
  induction l as [|c l IH]; simpl; intros Hnd Ha Hb Heq;
    [by apply not_elem_of_nil in Ha|].
  apply NoDup_cons in Hnd as [Hc Hnd].
  apply elem_of_cons in Ha as [-> | Ha]; apply elem_of_cons in Hb as [-> | Hb]; try done.
  - destruct Hc. rewrite Heq. by apply list_elem_of_fmap_2.
  - destruct Hc. rewrite <- Heq. by apply list_elem_of_fmap_2.
  - by apply IH.
Qed.

Lemma keys_update_where p (f : A -> A) l :
  (forall a, key (f a) = key a) -> key <$> update_where p f l = key <$> l.
Proof.
  intros Hf. unfold update_where. rewrite <- list_fmap_compose. apply list_fmap_ext.
  intros i a _. simpl. destruct (p a); [apply Hf | done].
Qed.

(** Updating the one row with a given key moves any sum by that row's change. *)
Lemma sumZ_update_key (g : A -> Z) (f : A -> A) l a :
  NoDup (key <$> l) -> a ∈ l ->
  sumZ g (update_where (has_key (key a)) f l) = sumZ g l - g a + g (f a).
Proof.
  unfold has_key. induction l as [|c l IH]; intros Hnd Ha;
    [by apply not_elem_of_nil in Ha|]; simpl in Hnd |- *.
  apply NoDup_cons in Hnd as [Hc Hnd].
  apply elem_of_cons in Ha as [-> | Ha].
  - rewrite bool_decide_true by done.
    rewrite update_where_id; [lia|]. intros b Hb.
    apply bool_decide_false. intros Heq. apply Hc. rewrite <- Heq.
    by apply list_elem_of_fmap_2.
  - rewrite bool_decide_false; [rewrite IH by done; lia|].
    intros Heq. apply Hc. rewrite Heq. by apply list_elem_of_fmap_2.
Qed.

(** The rows after an update of the row with one key. *)
Lemma elem_update_key (f : A -> A) l a x :
  NoDup (key <$> l) -> a ∈ l ->
  x ∈ update_where (has_key (key a)) f l <-> x = f a \/ (x ∈ l /\ key x <> key a).
Proof.
  intros Hnd Hin. rewrite elem_of_update_where. unfold has_key. split.
  - intros (b & Hb & ->). case_bool_decide as Heq; [left | by right].
    f_equal. by apply (keyed_unique l).
  - intros [-> | [Hx Hne]].
    + exists a. by rewrite bool_decide_true.
    + exists x. by rewrite bool_decide_false.
Qed.

Definition find_key (k : K) (l : list A) : option A := List.find (has_key k) l.

Lemma find_key_Some k l a : find_key k l = Some a -> a ∈ l /\ key a = k.
Proof.
  unfold find_key. intros H. apply List.find_some in H as [Hin Hk].
  unfold has_key in Hk. bool_prop. split; [by apply list_elem_of_In | done].
Qed.

Lemma find_key_None k l : find_key k l = None -> forall a, a ∈ l -> key a <> k.
Proof.
  unfold find_key. intros H a Ha Heq. apply list_elem_of_In in Ha.
  pose proof (List.find_none _ _ H a Ha) as Hf. unfold has_key in Hf. by bool_prop.
Qed.

Lemma find_key_elem l a : NoDup (key <$> l) -> a ∈ l -> find_key (key a) l = Some a.
Proof.
  intros Hnd Ha. destruct (find_key (key a) l) as [b|] eqn:Hf.
  - apply find_key_Some in Hf as [Hb Hk]. f_equal. by eapply keyed_unique.
  - by destruct (find_key_None _ _ Hf a Ha).
Qed.

Lemma find_key_update k (f : A -> A) l :
  (forall a, key (f a) = key a) ->
  find_key k (update_where (has_key k) f l) = f <$> find_key k l.
Proof.
  intros Hf. unfold find_key, update_where. induction l as [|a l IH]; [done|].
  rewrite fmap_cons. cbn [List.find]. destruct (has_key k a) eqn:Ha.
  - assert (Hfa : has_key k (f a) = true) by (unfold has_key in *; by rewrite Hf).
    by rewrite Hfa.
  - by rewrite Ha.
Qed.

Lemma find_key_update_other k k' (f : A -> A) l :
  (forall a, key (f a) = key a) -> k <> k' ->
  find_key k (update_where (has_key k') f l) = find_key k l.
Proof.
  intros Hf Hne. unfold find_key, update_where. induction l as [|a l IH]; [done|].
  rewrite fmap_cons. cbn [List.find].
  destruct (has_key k' a) eqn:Ha; [|by rewrite IH].
  assert (has_key k (f a) = false /\ has_key k a = false) as [-> ->]; [|done].
  unfold has_key in *. bool_prop. rewrite Hf.
  split; apply bool_decide_false; congruence.
Qed.

Lemma find_key_app k l1 l2 :
  find_key k (l1 ++ l2) = match find_key k l1 with Some a => Some a | None => find_key k l2 end.
Proof.
  unfold find_key. induction l1 as [|a l1 IH]; simpl; [done|]. by destruct (has_key k a).
Qed.
End KeyedRows.

(** Rows selected by a predicate. *)
Lemma filter_rows_none {A} (p : A -> bool) l : (forall x, x ∈ l -> p x = false) -> List.filter p l = [].
Proof.
  induction l as [|x l IH]; intros H; [done|]. simpl. rewrite (H x) by left. apply IH. intros; apply H; by right.
Qed.
Lemma elem_of_filter_rows {A} (p : A -> bool) l x :
  x ∈ List.filter p l <-> p x = true /\ x ∈ l.
Proof. rewrite !list_elem_of_In, List.filter_In. tauto. Qed.

Lemma NoDup_filter_rows {A K} (key : A -> K) (p : A -> bool) l :
  NoDup (key <$> l) -> NoDup (key <$> List.filter p l).
Proof.
  induction l as [|a l IH]; simpl; [done|]. intros [Ha Hnd]%NoDup_cons.
  destruct (p a); simpl; [|auto]. apply NoDup_cons. split; [|auto].
  intros Hin. apply Ha. apply list_elem_of_fmap in Hin as (b & Hb & Hin).
  rewrite Hb. apply list_elem_of_fmap_2. by apply elem_of_filter_rows in Hin as [_ ?].
Qed.

Lemma filter_twice {A} (p q : A -> bool) l :
  List.filter p (List.filter q l) = List.filter (fun x => q x && p x) l.
Proof.
  induction l as [|x l IH]; [done|]. simpl. destruct (q x); simpl; rewrite IH; done.
Qed.

(** Deleting by key some of the rows a predicate selects. *)
Lemma filter_remove {A K} `{EqDecision K} (key : A -> K) (p : A -> bool) l gone :
  NoDup (key <$> l) -> NoDup (key <$> gone) -> (forall x, x ∈ gone -> x ∈ l /\ p x = true) ->
  let kept := List.filter (fun x => negb (bool_decide (key x ∈ key <$> gone))) l in
  List.filter (fun x => negb (p x)) kept = List.filter (fun x => negb (p x)) l /\
  (length (List.filter p kept) + length gone = length (List.filter p l))%nat.
Proof.
  intros Hnd Hgn Hg kept.
  assert (Hmem : forall x, x ∈ l -> key x ∈ key <$> gone -> x ∈ gone).
  { intros x Hx (y & Hk & Hy)%list_elem_of_fmap. rewrite (keyed_unique key l x y); try done. by apply Hg. }
  assert (Hndl : NoDup l) by (by eapply NoDup_fmap_1). assert (Hndg : NoDup gone) by (by eapply NoDup_fmap_1).
  unfold kept. rewrite !filter_twice. split.
  - apply List.filter_ext_in. intros x Hx%list_elem_of_In. case_bool_decide as Hk; [|done]. simpl.
    by destruct (Hg x (Hmem x Hx Hk)) as [_ ->].
  - rewrite <- length_app. apply Permutation_length, NoDup_Permutation.
    + apply NoDup_app. split; [by eapply (NoDup_fmap_1 key), NoDup_filter_rows, Hnd|]. split; [|done].
      intros x [Hx _]%elem_of_filter_rows Hxg. apply andb_true_iff in Hx as [Hx _].
      apply negb_true_iff, bool_decide_eq_false in Hx. by apply Hx, list_elem_of_fmap_2.
    + by eapply (NoDup_fmap_1 key), NoDup_filter_rows, Hnd.
    + intros x. rewrite elem_of_app, !elem_of_filter_rows. split.
      * intros [[[_ Hp]%andb_true_iff Hx] | Hx]; [done | split; by apply Hg].
      * intros [Hp Hx]. case_bool_decide as Hk; [right; by apply Hmem | left]. by rewrite Hp.
Qed.

(** ** [ORDER BY]: a stable insertion sort on the rows' order of insertion. *)

Section OrderBy.
Context {A : Type} (leb : A -> A -> bool).

Fixpoint insert_by (x : A) (l : list A) : list A :=
  match l with
  | [] => [x]
  | y :: l' => if leb x y then x :: y :: l' else y :: insert_by x l'
  end.
Fixpoint order_by (l : list A) : list A :=
  match l with
  | [] => []
  | x :: l' => insert_by x (order_by l')
  end.

Lemma insert_by_Permutation x l : insert_by x l ≡ₚ x :: l.
Proof.
  induction l as [|y l IH]; simpl; [done|]. destruct (leb x y); [done|].
  rewrite IH. apply Permutation_swap.
Qed.
Lemma order_by_Permutation l : order_by l ≡ₚ l.
Proof. induction l as [|x l IH]; simpl; [done|]. by rewrite insert_by_Permutation, IH. Qed.
Lemma elem_of_order_by l x : x ∈ order_by l <-> x ∈ l.
Proof. by rewrite order_by_Permutation. Qed.

Context (Htotal : forall x y, leb x y = false -> leb y x = true).
Context (Htrans : forall x y z, leb x y = true -> leb y z = true -> leb x z = true).

Lemma insert_by_sorted x l :
  StronglySorted (fun a b => leb a b = true) l ->
  StronglySorted (fun a b => leb a b = true) (insert_by x l).
Proof.
  induction 1 as [|y l Hl IH Hy]; simpl; [repeat constructor|].
  destruct (leb x y) eqn:Hxy.
  - constructor; [by constructor|]. constructor; [done|].
    eapply Forall_impl; [exact Hy|]. intros z Hz. by eapply Htrans.
  - constructor; [done|]. rewrite insert_by_Permutation. constructor; [by apply Htotal | done].
Qed.
Lemma order_by_sorted l : StronglySorted (fun a b => leb a b = true) (order_by l).
Proof. induction l as [|x l IH]; simpl; [constructor | by apply insert_by_sorted]. Qed.
End OrderBy.

(** [ORDER BY col NULLS LAST] on an optional timestamp. *)
Definition leb_nulls_last (a b : option Z) : bool :=
  match a, b with
  | Some x, Some y => x <=? y
  | Some _, None => true
  | None, Some _ => false
  | None, None => true
  end.
