(* ===== verification/GoStrings.v ===== *)
(** * Go string operations

    The functions of Go's [strings] and [strconv] packages the modelled code
    calls, on byte strings (UTF-8 text).  [TrimSpace] recognises every rune of
    [unicode.IsSpace] by its UTF-8 bytes.  [ToLower] and [EqualFold] are given on
    ASCII: the callers compare with ASCII words no other rune folds to. *)

From Stdlib Require Import Ascii String.
From S2P Require Import Prelude.

Definition byte_of (a : ascii) : Z := Z.of_N (N_of_ascii a).

Definition ascii_space (b : Z) : bool := ((9 <=? b) && (b <=? 13)) || (b =? 32).

(** The number of bytes of the white-space rune that starts the list, or 0. *)
Definition space_rune (s : list Z) : nat :=
  match s with
  | b :: _ =>
      if ascii_space b then 1%nat
      else match s with
      | 194 :: c :: _ => if (c =? 133) || (c =? 160) then 2%nat else 0%nat
      | 225 :: 154 :: 128 :: _ => 3%nat
      | 226 :: 128 :: c :: _ =>
          if ((128 <=? c) && (c <=? 138)) || (c =? 168) || (c =? 169) || (c =? 175)
          then 3%nat else 0%nat
      | 226 :: 129 :: 159 :: _ => 3%nat
      | 227 :: 128 :: 128 :: _ => 3%nat
      | _ => 0%nat
      end
  | [] => 0%nat
  end.

(** The same at the end of a list given in reverse. *)
Definition space_rune_rev (s : list Z) : nat :=
  match s with
  | b :: _ =>
      if ascii_space b then 1%nat
      else match s with
      | c :: 194 :: _ => if (c =? 133) || (c =? 160) then 2%nat else 0%nat
      | 128 :: 154 :: 225 :: _ => 3%nat
      | c :: 128 :: 226 :: _ =>
          if ((128 <=? c) && (c <=? 138)) || (c =? 168) || (c =? 169) || (c =? 175)
          then 3%nat else 0%nat
      | 159 :: 129 :: 226 :: _ => 3%nat
      | 128 :: 128 :: 227 :: _ => 3%nat
      | _ => 0%nat
      end
  | [] => 0%nat
  end.

Fixpoint trim_front (rune : list Z -> nat) (fuel : nat) (s : list Z) : list Z :=
  match fuel with
  | O => s
  | S fuel' => match rune s with
               | O => s
               | n => trim_front rune fuel' (drop n s)
               end
  end.

Definition bytes_of (s : string) : list Z := byte_of <$> list_ascii_of_string s.
Definition string_of_bytes (l : list Z) : string :=
  string_of_list_ascii ((fun b => ascii_of_N (Z.to_N b)) <$> l).

Definition trim_bytes (l : list Z) : list Z :=
  let front := trim_front space_rune (length l) l in
  rev (trim_front space_rune_rev (length front) (rev front)).

(** [strings.TrimSpace] *)
Definition TrimSpace (s : string) : string := string_of_bytes (trim_bytes (bytes_of s)).

(** [strings.TrimSpace(s) == ""] *)
Definition blank (s : string) : bool :=
  match trim_bytes (bytes_of s) with [] => true | _ => false end.

Definition lower_byte (b : Z) : Z := if (65 <=? b) && (b <=? 90) then b + 32 else b.
(** [strings.ToLower] *)
Definition ToLower (s : string) : string := string_of_bytes (lower_byte <$> bytes_of s).
(** [strings.EqualFold] with an ASCII word *)
Definition EqualFold (s t : string) : bool :=
  bool_decide (lower_byte <$> bytes_of s = lower_byte <$> bytes_of t).

(** [strings.Cut] at a one-byte separator *)
Fixpoint cut_bytes (sep : Z) (l : list Z) : option (list Z * list Z) :=
  match l with
  | [] => None
  | b :: l' => if b =? sep then Some ([], l')
               else (fun '(x, y) => (b :: x, y)) <$> cut_bytes sep l'
  end.

(** [strings.TrimPrefix] *)
Definition TrimPrefix (s prefix : string) : string :=
  if String.prefix prefix s
  then String.substring (String.length prefix) (String.length s - String.length prefix) s
  else s.

(** [strconv.Atoi] on a 64-bit platform: an optional sign, then decimal digits,
    in range; anything else is an error. *)
Definition digit_value (b : Z) : option Z :=
  if (48 <=? b) && (b <=? 57) then Some (b - 48) else None.
Fixpoint digits_value (acc : Z) (l : list Z) : option Z :=
  match l with
  | [] => Some acc
  | b :: l' => match digit_value b with
               | Some d => digits_value (acc * 10 + d) l'
               | None => None
               end
  end.
Definition atoi_bytes (l : list Z) : option Z :=
  let '(neg, ds) := match l with
                    | 45 :: l' => (true, l')
                    | 43 :: l' => (false, l')
                    | _ => (false, l)
                    end in
  match ds with
  | [] => None
  | _ => match digits_value 0 ds with
         | Some v => let v := if neg then - v else v in
                     if in_int64 v then Some v else None
         | None => None
         end
  end.

Example trim_space_example : TrimSpace "  a b	" = "a b"%string.
Proof. reflexivity. Qed.
Example blank_example : blank " 	 " = true /\ blank " x " = false.
Proof. split; reflexivity. Qed.
Example atoi_example :
  atoi_bytes (bytes_of "-12") = Some (-12) /\ atoi_bytes (bytes_of "1x") = None /\
  atoi_bytes (bytes_of "9223372036854775808") = None.
Proof. split_and!; vm_compute; reflexivity. Qed.

Lemma prefix_app p s : String.prefix p (p +:+ s) = true.
Proof. induction p as [|a p IH]; simpl; [by destruct s|]. by destruct (ascii_dec a a). Qed.

Lemma substring_all s : String.substring 0 (String.length s) s = s.
Proof. induction s as [|a s IH]; simpl; [done | by rewrite IH]. Qed.

Lemma substring_skip p s n : String.substring (String.length p) n (p +:+ s) = String.substring 0 n s.
Proof. induction p as [|a p IH]; simpl; [done | exact IH]. Qed.

Lemma length_append p s : String.length (p +:+ s) = (String.length p + String.length s)%nat.
Proof. induction p as [|a p IH]; simpl; [done | by rewrite IH]. Qed.

Lemma TrimPrefix_app p s : TrimPrefix (p +:+ s) p = s.
Proof.
  unfold TrimPrefix. rewrite prefix_app, length_append.
  replace (String.length p + String.length s - String.length p)%nat with (String.length s) by lia.
  by rewrite substring_skip, substring_all.
Qed.

(** ** Trimming twice is trimming once *)

Lemma trim_front_suffix rune fuel : forall s, exists p, s = p ++ trim_front rune fuel s.
Proof.
  induction fuel as [|fuel IH]; intros s; [by exists []|]. cbn [trim_front].
  destruct (rune s) as [|n]; [by exists []|]. destruct (IH (drop (S n) s)) as [p Hp].
  exists (take (S n) s ++ p). by rewrite <- app_assoc, <- Hp, take_drop.
Qed.

Lemma trim_front_zero rune fuel s : rune s = O -> trim_front rune fuel s = s.
Proof. intros H. destruct fuel; [done|]. cbn [trim_front]. by rewrite H. Qed.

Lemma trim_front_done rune fuel : forall s,
  rune [] = O -> (length s <= fuel)%nat -> rune (trim_front rune fuel s) = O.
Proof.
  induction fuel as [|fuel IH]; intros s Hnil Hl.
  - destruct s; [done | simpl in Hl; lia].
  - cbn [trim_front]. destruct (rune s) as [|n] eqn:Hr; [done|].
    apply IH; [done|]. rewrite length_drop. lia.
Qed.

(** Only the first three bytes decide, and shortening a text never turns its
    start into a space. *)
Lemma space_rune_prefix a b : space_rune (a ++ b) = O -> space_rune a = O.
Proof.
  destruct a as [|x [|y [|z a]]]; intros H; [done | | | exact H].
  - unfold space_rune in *. simpl in H. destruct (ascii_space x); [done|].
    clear H. repeat (case_match; try done).
  - unfold space_rune in *. simpl in H. destruct (ascii_space x); [done|].
    repeat (case_match; try done).
Qed.

Lemma trim_bytes_idem l : trim_bytes (trim_bytes l) = trim_bytes l.
Proof.
  unfold trim_bytes at 1. set (f := trim_bytes l).
  assert (Hfront : space_rune f = O).
  { unfold f, trim_bytes. set (g := trim_front space_rune (length l) l).
    assert (Hg : space_rune g = O) by (apply trim_front_done; [done | lia]).
    destruct (trim_front_suffix space_rune_rev (length g) (rev g)) as [p Hp].
    apply (space_rune_prefix _ (rev p)). rewrite <- rev_app_distr, <- Hp.
    by rewrite rev_involutive. }
  rewrite (trim_front_zero _ _ _ Hfront).
  rewrite trim_front_zero; [by rewrite rev_involutive|].
  unfold f, trim_bytes. rewrite rev_involutive. apply trim_front_done; [done | by rewrite length_rev].
Qed.

Lemma elem_of_rev {A} (l : list A) x : x ∈ rev l <-> x ∈ l.
Proof. rewrite !list_elem_of_In. symmetry. apply in_rev. Qed.

Lemma trim_bytes_elem l b : b ∈ trim_bytes l -> b ∈ l.
Proof.
  unfold trim_bytes. set (g := trim_front space_rune (length l) l). rewrite elem_of_rev. intros Hb.
  destruct (trim_front_suffix space_rune_rev (length g) (rev g)) as [p Hp].
  assert (Hb' : b ∈ g) by (apply elem_of_rev; rewrite Hp; apply elem_of_app; by right).
  destruct (trim_front_suffix space_rune (length l) l) as [q Hq]. rewrite Hq.
  apply elem_of_app. by right.
Qed.

Lemma bytes_of_range s b : b ∈ bytes_of s -> 0 <= b < 256.
Proof.
  unfold bytes_of. intros (a & -> & _)%list_elem_of_fmap. unfold byte_of.
  pose proof (N_ascii_bounded a). lia.
Qed.

Lemma bytes_of_string_of_bytes l : (forall b, b ∈ l -> 0 <= b < 256) -> bytes_of (string_of_bytes l) = l.
Proof.
  unfold bytes_of, string_of_bytes. rewrite list_ascii_of_string_of_list_ascii. intros H.
  rewrite <- list_fmap_compose. rewrite <- (list_fmap_id l) at 2. apply list_fmap_ext.
  intros i b Hb. apply list_elem_of_lookup_2, H in Hb. unfold compose, byte_of. simpl.
  rewrite N_ascii_embedding by lia. lia.
Qed.

Lemma TrimSpace_idem s : TrimSpace (TrimSpace s) = TrimSpace s.
Proof.
  unfold TrimSpace at 1. unfold TrimSpace at 1. rewrite bytes_of_string_of_bytes.
  - by rewrite trim_bytes_idem.
  - intros b Hb. by apply trim_bytes_elem, bytes_of_range in Hb.
Qed.
