(* ===== verification/PathMatch.v ===== *)
(** * Go's path.Match

    Wildcard rules are matched by the standard library's [path.Match], over the bytes
    of a string; [commercial/service.go] refuses a pattern it cannot parse when a rule
    is written, [commercial/resolution.go] ignores one when a request is dispatched.
    [Match_error] shows that the two agree: whether a pattern parses does not depend on
    the name. *)

From S2P Require Import Prelude GoStrings.
#[global] Open Scope Z_scope.

(** ** Runes ([utf8.DecodeRune]) *)

Definition RuneError : Z := 65533.
Definition cont (lo hi b : Z) : bool := (lo <=? b) && (b <=? hi).

(** The first rune of a byte string and its width; an invalid encoding is one byte
    wide. *)
Definition DecodeRune (s : list Z) : Z * nat :=
  match s with
  | [] => (RuneError, 0%nat)
  | a :: s =>
      if a <? 128 then (a, 1%nat)
      else if cont 194 223 a then
        match s with
        | b :: _ => if cont 128 191 b then (Z.land a 31 * 64 + Z.land b 63, 2%nat) else (RuneError, 1%nat)
        | _ => (RuneError, 1%nat)
        end
      else if cont 224 239 a then
        match s with
        | b :: c :: _ =>
            if cont (if a =? 224 then 160 else 128) (if a =? 237 then 159 else 191) b && cont 128 191 c
            then (Z.land a 15 * 4096 + Z.land b 63 * 64 + Z.land c 63, 3%nat) else (RuneError, 1%nat)
        | _ => (RuneError, 1%nat)
        end
      else if cont 240 244 a then
        match s with
        | b :: c :: d :: _ =>
            if cont (if a =? 240 then 144 else 128) (if a =? 244 then 143 else 191) b
               && cont 128 191 c && cont 128 191 d
            then (Z.land a 7 * 262144 + Z.land b 63 * 4096 + Z.land c 63 * 64 + Z.land d 63, 4%nat)
            else (RuneError, 1%nat)
        | _ => (RuneError, 1%nat)
        end
      else (RuneError, 1%nat)
  end.

(** ** Patterns ([match.go]) *)

Definition star : Z := 42.
Definition question : Z := 63.
Definition backslash : Z := 92.
Definition lbracket : Z := 91.
Definition rbracket : Z := 93.
Definition caret : Z := 94.
Definition dash : Z := 45.
Definition slash : Z := 47.

(** [getEsc]: a rune of a class, maybe escaped; [None] is [ErrBadPattern]. *)
Definition getEsc (chunk : list Z) : option (Z * list Z) :=
  let rune chunk :=
    let '(r, n) := DecodeRune chunk in
    if (r =? RuneError) && (Nat.eqb n 1) then None
    else match drop n chunk with [] => None | rest => Some (r, rest) end in
  match chunk with
  | [] => None
  | c :: rest =>
      if (c =? dash) || (c =? rbracket) then None
      else if c =? backslash then match rest with [] => None | _ => rune rest end
      else rune chunk
  end.

(** The ranges of a class, up to its closing bracket: whether one holds [r], and what
    follows. *)
Fixpoint ranges (fuel : nat) (r : Z) (chunk : list Z) (matched : bool) (nrange : nat) : option (bool * list Z) :=
  match fuel with
  | O => None
  | S fuel =>
      match chunk with
      | c :: rest' =>
          if (c =? rbracket) && negb (Nat.eqb nrange 0) then Some (matched, rest')
          else match getEsc chunk with
          | None => None
          | Some (lo, rest) =>
              match match rest with
                    | c :: after => if c =? dash then getEsc after else Some (lo, rest)
                    | [] => Some (lo, rest)
                    end with
              | None => None
              | Some (hi, rest) => ranges fuel r rest (matched || ((lo <=? r) && (r <=? hi))) (S nrange)
              end
          end
      | [] => None   (* [getEsc] refuses the empty string *)
      end
  end.

Inductive chunk_result := BadPattern | Unmatched | Rest (s : list Z).

(** [matchChunk]: [None] for a match that has failed already, whose chunk is still
    checked. *)
Fixpoint match_chunk (fuel : nat) (chunk : list Z) (s : option (list Z)) : chunk_result :=
  match fuel with
  | O => BadPattern
  | S fuel =>
      match chunk with
      | [] => match s with Some s => Rest s | None => Unmatched end
      | c :: rest =>
          let s := match s with Some [] => None | _ => s end in
          let literal c rest :=
            match_chunk fuel rest (match s with Some (b :: t) => if c =? b then Some t else None | _ => None end) in
          if c =? lbracket then
            let '(r, n) := match s with Some t => DecodeRune t | None => (0, 0%nat) end in
            let negated := match rest with a :: _ => a =? caret | [] => false end in
            match ranges (length chunk) r (if negated then tail rest else rest) false 0 with
            | None => BadPattern
            | Some (matched, rest) =>
                match_chunk fuel rest (match s with
                                       | Some t => if Bool.eqb matched negated then None else Some (drop n t)
                                       | None => None
                                       end)
            end
          else if c =? question then
            match_chunk fuel rest (match s with
                                   | Some ((b :: _) as t) => if b =? slash then None else Some (drop (DecodeRune t).2 t)
                                   | _ => None
                                   end)
          else if c =? backslash then
            match rest with [] => BadPattern | c :: rest => literal c rest end
          else literal c rest
      end
  end.
Definition matchChunk (chunk : list Z) (s : option (list Z)) : chunk_result :=
  match_chunk (S (length chunk)) chunk s.

(** The loop of [scanChunk]: a chunk ends at a star that is not in a class. *)
Fixpoint scan (inrange : bool) (pattern : list Z) : list Z * list Z :=
  match pattern with
  | [] => ([], [])
  | c :: rest =>
      if c =? backslash then
        match rest with
        | [] => ([c], [])
        | d :: rest' => let '(chunk, rest'') := scan inrange rest' in (c :: d :: chunk, rest'')
        end
      else if (c =? star) && negb inrange then ([], pattern)
      else
        let inrange := if c =? lbracket then true else if c =? rbracket then false else inrange in
        let '(chunk, rest') := scan inrange rest in (c :: chunk, rest')
  end.
Fixpoint drop_stars (pattern : list Z) : bool * list Z :=
  match pattern with
  | c :: rest => if c =? star then (true, (drop_stars rest).2) else (false, pattern)
  | [] => (false, [])
  end.
Definition scanChunk (pattern : list Z) : bool * list Z * list Z :=
  let '(starred, pattern) := drop_stars pattern in
  let '(chunk, rest) := scan false pattern in (starred, chunk, rest).

(** Looking for a chunk after a star, which does not skip a slash: [last] when no
    pattern follows. *)
Fixpoint skip_to (chunk : list Z) (last : bool) (name : list Z) : chunk_result :=
  match name with
  | [] => Unmatched
  | b :: rest =>
      if b =? slash then Unmatched
      else match matchChunk chunk (Some rest) with
      | BadPattern => BadPattern
      | Unmatched => skip_to chunk last rest
      | Rest t => if last && negb (Nat.eqb (length t) 0) then skip_to chunk last rest else Rest t
      end
  end.

(** The remainder of a pattern, checked only. *)
Fixpoint well_formed (fuel : nat) (pattern : list Z) : bool :=
  match fuel with
  | O => true
  | S fuel =>
      match pattern with
      | [] => true
      | _ =>
          let '(_, chunk, rest) := scanChunk pattern in
          match matchChunk chunk (Some []) with BadPattern => false | _ => well_formed fuel rest end
      end
  end.

Definition remainder_ok (pattern : list Z) : bool := well_formed (S (length pattern)) pattern.

(** [Match]: [None] is [ErrBadPattern]. *)
Fixpoint match_loop (fuel : nat) (pattern name : list Z) : option bool :=
  match fuel with
  | O => None
  | S fuel =>
      match pattern with
      | [] => Some (Nat.eqb (length name) 0)
      | _ =>
          let '(starred, chunk, rest) := scanChunk pattern in
          if starred && Nat.eqb (length chunk) 0 then Some (negb (existsb (Z.eqb slash) name))
          else
            let last := Nat.eqb (length rest) 0 in
            let no_match := if remainder_ok rest then Some false else None in
            let here := matchChunk chunk (Some name) in
            match (match here with Rest t => if Nat.eqb (length t) 0 || negb last then Some t else None | _ => None end) with
            | Some t => match_loop fuel rest t
            | None =>
                match here with
                | BadPattern => None
                | _ =>
                    if starred then
                      match skip_to chunk last name with
                      | BadPattern => None
                      | Rest t => match_loop fuel rest t
                      | Unmatched => no_match
                      end
                    else no_match
                end
            end
      end
  end.
Definition Match (pattern name : string) : option bool :=
  match_loop (S (String.length pattern)) (bytes_of pattern) (bytes_of name).

Example match_star : Match "gpt-*" "gpt-4o" = Some true /\ Match "*-mini" "gpt-4o-mini" = Some true
  /\ Match "gpt-?[a-z]" "gpt-4o" = Some true /\ Match "*" "openai/gpt" = Some false
  /\ Match "a*[" "b" = None /\ Match "[^a-c]*x" "dyx" = Some true /\ Match "a\*b" "a*b" = Some true.
Proof. repeat split; vm_compute; reflexivity. Qed.

(** ** Whether a pattern parses *)

Lemma ranges_rest fuel r r' chunk m m' n :
  snd <$> ranges fuel r chunk m n = snd <$> ranges fuel r' chunk m' n.
Proof.
  revert chunk m m' n. induction fuel as [|fuel IH]; intros chunk m m' n; [done|]. cbn [ranges].
  destruct chunk as [|c rest]; [done|]. destruct (_ && _); [done|].
  destruct (getEsc _) as [[lo rest1]|]; [|done].
  destruct (match rest1 with [] => _ | _ => _ end) as [[hi rest2]|]; [|done]. apply IH.
Qed.

Lemma match_chunk_bad fuel chunk s s' :
  match_chunk fuel chunk s = BadPattern -> match_chunk fuel chunk s' = BadPattern.
Proof.
  revert chunk s s'. induction fuel as [|fuel IH]; intros chunk s s'; [done|]. cbn [match_chunk].
  destruct chunk as [|c rest]; [by destruct s|]. cbv zeta.
  destruct (c =? lbracket).
  - set (negated := match rest with [] => false | a :: _ => a =? caret end).
    destruct (match match s with Some [] => None | _ => s end with Some t => DecodeRune t | None => _ end) as [r n].
    destruct (match match s' with Some [] => None | _ => s' end with Some t => DecodeRune t | None => _ end) as [r' n'].
    pose proof (ranges_rest (length (c :: rest)) r r' (if negated then tail rest else rest) false false 0) as Hr.
    destruct (ranges _ r _ _ _) as [[m1 rest1]|], (ranges _ r' _ _ _) as [[m2 rest2]|]; try done.
    cbn in Hr. injection Hr as <-. apply IH.
  - destruct (c =? question); [apply IH|]. destruct (c =? backslash); [destruct rest; [done|]|]; apply IH.
Qed.

Definition bad_chunk (chunk : list Z) : bool :=
  match matchChunk chunk None with BadPattern => true | _ => false end.
Lemma matchChunk_bad chunk s : matchChunk chunk s = BadPattern <-> bad_chunk chunk = true.
Proof.
  unfold bad_chunk. split.
  - intros H. unfold matchChunk in *. by rewrite (match_chunk_bad _ _ _ None H).
  - destruct (matchChunk chunk None) eqn:H; [|done..]. intros _. by apply (match_chunk_bad _ _ _ s) in H.
Qed.

Lemma skip_to_bad chunk last name : bad_chunk chunk = false -> skip_to chunk last name <> BadPattern.
Proof.
  intros Hb. induction name as [|b rest IH]; [done|]. cbn [skip_to]. destruct (b =? slash); [done|].
  destruct (matchChunk chunk (Some rest)) eqn:Hm; [|done|by destruct (_ && _)].
  apply matchChunk_bad in Hm. congruence.
Qed.

Lemma scan_app pattern : forall inrange chunk rest, scan inrange pattern = (chunk, rest) -> pattern = chunk ++ rest.
Proof.
  remember (length pattern) as k eqn:Hk. revert pattern Hk. induction (Nat.lt_wf_0 k) as [k _ IH].
  intros pattern -> inrange chunk rest H. destruct pattern as [|c p]; cbn [scan] in H; [by simplify_eq|].
  destruct (c =? backslash).
  - destruct p as [|d p]; [by simplify_eq|].
    destruct (scan inrange p) as [ch r] eqn:Hs. simplify_eq. simpl. do 2 f_equal.
    eapply IH; [|done|done]. simpl. lia.
  - destruct (_ && _); [by simplify_eq|].
    destruct (scan _ p) as [ch r] eqn:Hs. simplify_eq. simpl. f_equal. eapply IH; [|done|done]. simpl. lia.
Qed.

Lemma drop_stars_shorter pattern b rest :
  drop_stars pattern = (b, rest) -> (length rest <= length pattern)%nat /\ (b = true -> (length rest < length pattern)%nat)
  /\ (b = false -> rest = pattern) /\ (forall c r, rest = c :: r -> (c =? star) = false).
Proof.
  revert b rest. induction pattern as [|c p IH]; intros b rest H; cbn [drop_stars] in H; [by simplify_eq|].
  destruct (c =? star) eqn:Hc.
  - destruct (drop_stars p) as [b' r'] eqn:Hd. simplify_eq. destruct (IH b' r' eq_refl) as (Hle & _ & _ & Hh).
    simpl. split; [lia|]. split; [lia|]. by split.
  - simplify_eq. split; [done|]. split; [done|]. split; [done|]. by intros ?? [= -> ->].
Qed.

(** A chunk takes something from a pattern that is not empty, and only a lone star
    takes an empty chunk. *)
Lemma scanChunk_shorter pattern starred chunk rest :
  pattern <> [] -> scanChunk pattern = (starred, chunk, rest) ->
  (length rest < length pattern)%nat /\ (chunk = [] -> rest = []).
Proof.
  intros Hne H. unfold scanChunk in H. destruct (drop_stars pattern) as [b p] eqn:Hd.
  destruct (scan false p) as [ch r] eqn:Hs. simplify_eq.
  apply drop_stars_shorter in Hd as (Hle & Hlt & Hsame & Hhead).
  pose proof (scan_app _ _ _ _ Hs) as Hp. assert (Hlen : length p = (length chunk + length rest)%nat) by (by rewrite Hp, length_app).
  rewrite Hp in Hhead, Hs.
  assert (chunk = [] -> rest = []) as Hempty.
  { intros ->. destruct rest as [|c r]; [done|]. exfalso. cbn [scan app] in Hs.
    rewrite (Hhead c r eq_refl) in Hs. destruct (c =? backslash); [destruct r as [|d r]; [done|]; by destruct (scan false r)|].
    simpl in Hs. by destruct (scan _ r). }
  split; [|done]. destruct starred; [specialize (Hlt eq_refl); lia|].
  rewrite (Hsame eq_refl) in Hp, Hlen. destruct chunk; [|simpl in Hlen; lia]. by rewrite (Hempty eq_refl) in Hp.
Qed.

Lemma well_formed_fuel fuel fuel' pattern :
  (length pattern < fuel)%nat -> (length pattern < fuel')%nat -> well_formed fuel pattern = well_formed fuel' pattern.
Proof.
  revert fuel' pattern. induction fuel as [|fuel IH]; intros [|fuel'] pattern H H'; [lia..|]. cbn [well_formed].
  destruct pattern as [|c p]; [done|]. destruct (scanChunk (c :: p)) as [[b chunk] rest] eqn:Hs.
  apply scanChunk_shorter in Hs as [Hlt _]; [|done]. destruct (matchChunk _ _); [done|..]; apply IH; lia.
Qed.

Lemma match_loop_error fuel pattern name :
  (length pattern < fuel)%nat -> match_loop fuel pattern name = None <-> well_formed fuel pattern = false.
Proof.
  revert pattern name. induction fuel as [|fuel IH]; intros pattern name Hf; [lia|]. cbn [match_loop well_formed].
  destruct pattern as [|c p]; [done|]. destruct (scanChunk (c :: p)) as [[b chunk] rest] eqn:Hs.
  apply scanChunk_shorter in Hs as [Hlt Hempty]; [|done].
  assert (Hrest : forall t, match_loop fuel rest t = None <-> well_formed fuel rest = false) by (intros t; apply IH; lia).
  assert (Hok : remainder_ok rest = well_formed fuel rest) by (apply well_formed_fuel; lia). rewrite Hok. cbv zeta.
  destruct (b && Nat.eqb (length chunk) 0) eqn:Hstar.
  { apply andb_true_iff in Hstar as [_ Hl%Nat.eqb_eq%length_zero_iff_nil]. rewrite Hl, (Hempty Hl). by destruct fuel. }
  assert (Hgood : matchChunk chunk (Some []) = BadPattern <-> bad_chunk chunk = true) by apply matchChunk_bad.
  assert (Hhere : matchChunk chunk (Some name) = BadPattern <-> bad_chunk chunk = true) by apply matchChunk_bad.
  assert (Hno : (if well_formed fuel rest then Some false else None) = None <-> well_formed fuel rest = false)
    by (by destruct (well_formed fuel rest)).
  destruct (bad_chunk chunk) eqn:Hbad.
  { rewrite (proj2 Hgood eq_refl), (proj2 Hhere eq_refl). by destruct (_ && _). }
  replace (match matchChunk chunk (Some []) with BadPattern => false | _ => well_formed fuel rest end) with (well_formed fuel rest)
    by (destruct (matchChunk chunk (Some [])); [by destruct Hgood as [Hx _]; specialize (Hx eq_refl) | done..]).
  set (last := Nat.eqb (length rest) 0).
  assert (Hskip : (if b then match skip_to chunk last name with BadPattern => None | Rest t => match_loop fuel rest t
      | Unmatched => if well_formed fuel rest then Some false else None end
    else if well_formed fuel rest then Some false else None) = None <-> well_formed fuel rest = false).
  { destruct b; [|done]. pose proof (skip_to_bad chunk last name Hbad). by destruct (skip_to chunk last name). }
  destruct (matchChunk chunk (Some name)) as [| |t]; [by destruct Hhere as [Hx _]; specialize (Hx eq_refl) | exact Hskip |].
  destruct (_ || _); [apply Hrest | exact Hskip].
Qed.

Lemma Match_error pattern name name' : Match pattern name = None -> Match pattern name' = None.
Proof.
  unfold Match. assert (Hl : length (bytes_of pattern) = String.length pattern).
  { unfold bytes_of. rewrite length_fmap. induction pattern as [|c p IH]; [done|]. simpl. by rewrite IH. }
  intros H%match_loop_error; [|lia]. apply match_loop_error; [lia | done].
Qed.

(** The fuel of a chunk is enough. *)
Lemma DecodeRune_width s : s <> [] -> (0 < (DecodeRune s).2)%nat.
Proof. intros Hs. unfold DecodeRune. destruct s as [|a s]; [done|]. repeat case_match; simpl; lia. Qed.

Lemma getEsc_shorter chunk r rest : getEsc chunk = Some (r, rest) -> (length rest < length chunk)%nat.
Proof.
  assert (Hrune : forall chunk r rest, chunk <> [] ->
    (let '(r, n) := DecodeRune chunk in
     if (r =? RuneError) && (Nat.eqb n 1) then None
     else match drop n chunk with [] => None | rest => Some (r, rest) end) = Some (r, rest) ->
    (length rest < length chunk)%nat).
  { intros l r0 rest0 Hne H. pose proof (DecodeRune_width l Hne) as Hw. destruct (DecodeRune l) as [r1 n]. cbn [snd] in Hw.
    destruct (_ && _); [done|]. destruct (drop n l) as [|x y] eqn:Hd; [done|]. injection H as _ <-. rewrite <- Hd, length_drop.
    destruct l; [done|]. simpl. lia. }
  unfold getEsc. cbv zeta. destruct chunk as [|c rest0]; [done|]. destruct (_ || _); [done|].
  destruct (c =? backslash).
  - destruct rest0 as [|d rest0]; [done|]. intros H%Hrune; [simpl in *; lia | done].
  - intros H%Hrune; [done | done].
Qed.
