(* ===== verification/Effect.v ===== *)
(** * Effectful code

    A state monad for code that reads and writes one request and calls the
    outside world, whose errors do not undo what was done before them.  [None] is
    fuel that ran out: [wp] holds only of a run that ends, so a property proved
    with it includes termination. *)

From S2P Require Import Prelude.

Definition M (S A : Type) : Type := S -> option (A * S).

Section Monad.
Context {S : Type}.

#[global] Instance M_ret : MRet (M S) := fun A a s => Some (a, s).
#[global] Instance M_bind : MBind (M S) := fun A B k m s =>
  match m s with Some (a, s') => k a s' | None => None end.

Definition gets {A} (f : S -> A) : M S A := fun s => Some (f s, s).
Definition modify (f : S -> S) : M S unit := fun s => Some (tt, f s).
Definition out_of_fuel {A} : M S A := fun _ => None.

(** The weakest precondition of a run. *)
Definition wp {A} (m : M S A) (Q : A -> S -> Prop) (s : S) : Prop :=
  match m s with Some (a, s') => Q a s' | None => False end.

Lemma wp_ret {A} (a : A) Q s : Q a s -> wp (mret a) Q s.
Proof. done. Qed.

Lemma wp_bind {A B} (m : M S A) (k : A -> M S B) Q s :
  wp m (fun a s' => wp (k a) Q s') s -> wp (m ≫= k) Q s.
Proof. unfold wp, mbind, M_bind. by destruct (m s) as [[a s']|]. Qed.

Lemma wp_gets {A} (f : S -> A) Q s : Q (f s) s -> wp (gets f) Q s.
Proof. done. Qed.

Lemma wp_modify f (Q : unit -> S -> Prop) s : Q tt (f s) -> wp (modify f) Q s.
Proof. done. Qed.

Lemma wp_mono {A} (m : M S A) (P Q : A -> S -> Prop) s :
  wp m P s -> (forall a s', P a s' -> Q a s') -> wp m Q s.
Proof. unfold wp. destruct (m s) as [[a s']|]; [auto | done]. Qed.

Lemma wp_and {A} (m : M S A) (P Q : A -> S -> Prop) s :
  wp m P s -> wp m Q s -> wp m (fun a s' => P a s' /\ Q a s') s.
Proof. unfold wp. destruct (m s) as [[a s']|]; auto. Qed.

Lemma wp_run {A} (m : M S A) Q s : wp m Q s -> exists a s', m s = Some (a, s') /\ Q a s'.
Proof. unfold wp. destruct (m s) as [[a s']|]; [eauto | done]. Qed.

(** Every run ends and relates its start to its end. *)
Definition does {A} (R : S -> S -> Prop) (m : M S A) : Prop := forall s, wp m (fun _ s' => R s s') s.

Section Does.
Context (R : S -> S -> Prop) `{!PreOrder R}.

Lemma does_ret {A} (a : A) : does R (mret a).
Proof. intros s. apply wp_ret. reflexivity. Qed.
Lemma does_gets {A} (f : S -> A) : does R (gets f).
Proof. intros s. apply wp_gets. reflexivity. Qed.
Lemma does_modify f : (forall s, R s (f s)) -> does R (modify f).
Proof. intros H s. apply wp_modify, H. Qed.
Lemma does_bind {A B} (m : M S A) (k : A -> M S B) :
  does R m -> (forall a, does R (k a)) -> does R (m ≫= k).
Proof.
  intros Hm Hk s. apply wp_bind. eapply wp_mono; [apply Hm|]. intros a s1 H1.
  eapply wp_mono; [apply Hk|]. intros b s2 H2. by transitivity s1.
Qed.
End Does.

(** Running the first of two steps whose relation is known. *)
Lemma wp_does {A} (R : S -> S -> Prop) (m : M S A) (Q : A -> S -> Prop) s :
  does R m -> (forall a s', R s s' -> Q a s') -> wp m Q s.
Proof. intros Hm HQ. eapply wp_mono; [apply Hm|]. intros a s' H. by apply HQ. Qed.

Lemma does_mono {A} (R R' : S -> S -> Prop) (m : M S A) :
  (forall s s', R s s' -> R' s s') -> does R m -> does R' m.
Proof. intros HR Hm s. eapply wp_mono; [apply Hm|]. intros a s1 Hs. by apply HR. Qed.
End Monad.

Create HintDb effects.

(** Walk through a program, leaving the steps the hints do not know. *)
Ltac effects :=
  repeat match goal with
  | |- does _ (@mbind _ _ _ _ _ _) => apply does_bind; [apply _ | | intros ?]
  | |- does _ (@mret _ _ _ _) => apply does_ret, _
  | |- does _ (@gets _ _ _) => apply does_gets, _
  | |- does _ (if ?b then _ else _) => destruct b
  | |- does _ (match ?x with _ => _ end) => destruct x
  | |- does _ _ => solve [eauto with effects]
  end.
