(* ===== verification/Availability.v ===== *)
(** * Upstream availability

    Models [src/internal/ai/routing]: [availability.lua], the script Redis runs
    atomically for every availability operation, and [availability.go], its
    callers.  Each physical scope of an upstream (its transport, a credential's
    authentication, a model, a rate limit) has a circuit breaker: it serves while
    [Available], refuses while [Cooling], and admits one probe at a time while
    [Recovering].  Times are Redis [TIME] in milliseconds; a key with a time to
    live is kept with its expiry and ignored once that has passed. *)

From S2P Require Import Prelude.
#[global] Open Scope Z_scope.

(** ** Scopes, permits and verdicts ([availability.go]) *)

Inductive AvailabilityPhase := Available | Cooling | Recovering.
#[global] Instance AvailabilityPhase_eq_dec : EqDecision AvailabilityPhase.
Proof. solve_decision. Defined.

(** [FaultScope].  Its key encodes the array of its fields, so that array stands
    for the key. *)
Definition scope_key : Type := list string.
Record FaultScope := MkScope {
  fs_Key : scope_key;
  fs_Kind : string;
  fs_ResourceKind : string;
  fs_ResourceID : string;
  fs_EndpointID : string;
  fs_CredentialID : string;
  fs_Model : string;
  fs_Operation : string }.

(** [NewFaultScope] *)
Definition NewFaultScope (kind resourceKind resourceID endpointID credentialID model operation : string)
    : FaultScope :=
  MkScope [kind; resourceKind; resourceID; endpointID; credentialID; model; operation]
    kind resourceKind resourceID endpointID credentialID model operation.

(** [AdmissionPermit], with the scopes the script keeps in it. *)
Record AdmissionPermit := MkPermit {
  pm_Token : string;
  pm_Epochs : gmap scope_key Z;
  pm_ExpiresAt : Z;
  pm_Scopes : list FaultScope }.

(** [AvailabilityOutcome]; an empty failure scope is [None]. *)
Record AvailabilityOutcome := MkOutcome {
  ao_Success : bool;
  ao_FailureScope : option scope_key;
  ao_Reason : string;
  ao_HealthFailure : bool;
  ao_CooldownUntil : Z;
  ao_Authentication : bool }.
Definition neutral_outcome : AvailabilityOutcome := MkOutcome false None "" false 0 false.

(** ** The record of a scope

    The JSON document of a scope.  An absent time is 0 where the script reads it
    with [or 0], and [None] where it tests for it. *)

Record health := MkHealth {
  h_phase : AvailabilityPhase;
  h_epoch : Z;
  h_trips : Z;
  h_consecutive_failures : Z;
  h_recovery_successes : Z;
  h_recent_trips : list Z;
  h_window : gmap Z (Z * Z);
  h_stable_at : option Z;
  h_stable_successes : Z;
  h_owner : option string;
  h_lease_until : Z;
  h_retry_at : Z;
  h_reason : string;
  h_verified_at : option Z;
  h_last_failure_at : option Z }.

Definition fresh_health : health :=
  MkHealth Available 0 0 0 0 [] ∅ None 0 None 0 0 "" None None.

Definition set_phase (x0 : AvailabilityPhase) (s : health) : health :=
  MkHealth x0 (h_epoch s) (h_trips s) (h_consecutive_failures s) (h_recovery_successes s)
    (h_recent_trips s) (h_window s) (h_stable_at s) (h_stable_successes s) (h_owner s)
    (h_lease_until s) (h_retry_at s) (h_reason s) (h_verified_at s) (h_last_failure_at s).
Definition set_owner (x0 : option string) (x1 : Z) (s : health) : health :=
  MkHealth (h_phase s) (h_epoch s) (h_trips s) (h_consecutive_failures s) (h_recovery_successes s)
    (h_recent_trips s) (h_window s) (h_stable_at s) (h_stable_successes s) x0 x1 (h_retry_at
    s) (h_reason s) (h_verified_at s) (h_last_failure_at s).
Definition set_recent (x0 : list Z) (s : health) : health :=
  MkHealth (h_phase s) (h_epoch s) (h_trips s) (h_consecutive_failures s) (h_recovery_successes s) x0
    (h_window s) (h_stable_at s) (h_stable_successes s) (h_owner s) (h_lease_until s)
    (h_retry_at s) (h_reason s) (h_verified_at s) (h_last_failure_at s).
Definition set_window (x0 : gmap Z (Z * Z)) (s : health) : health :=
  MkHealth (h_phase s) (h_epoch s) (h_trips s) (h_consecutive_failures s) (h_recovery_successes s)
    (h_recent_trips s) x0 (h_stable_at s) (h_stable_successes s) (h_owner s) (h_lease_until s)
    (h_retry_at s) (h_reason s) (h_verified_at s) (h_last_failure_at s).
Definition set_stable (x0 : option Z) (x1 : Z) (s : health) : health :=
  MkHealth (h_phase s) (h_epoch s) (h_trips s) (h_consecutive_failures s) (h_recovery_successes s)
    (h_recent_trips s) (h_window s) x0 x1 (h_owner s) (h_lease_until s) (h_retry_at s)
    (h_reason s) (h_verified_at s) (h_last_failure_at s).
Definition set_trips (x0 : Z) (s : health) : health :=
  MkHealth (h_phase s) (h_epoch s) x0 (h_consecutive_failures s) (h_recovery_successes s)
    (h_recent_trips s) (h_window s) (h_stable_at s) (h_stable_successes s) (h_owner s)
    (h_lease_until s) (h_retry_at s) (h_reason s) (h_verified_at s) (h_last_failure_at s).
Definition set_verified (x0 : option Z) (s : health) : health :=
  MkHealth (h_phase s) (h_epoch s) (h_trips s) (h_consecutive_failures s) (h_recovery_successes s)
    (h_recent_trips s) (h_window s) (h_stable_at s) (h_stable_successes s) (h_owner s)
    (h_lease_until s) (h_retry_at s) (h_reason s) x0 (h_last_failure_at s).
Definition set_failures (x0 : Z) (s : health) : health :=
  MkHealth (h_phase s) (h_epoch s) (h_trips s) x0 (h_recovery_successes s) (h_recent_trips s)
    (h_window s) (h_stable_at s) (h_stable_successes s) (h_owner s) (h_lease_until s)
    (h_retry_at s) (h_reason s) (h_verified_at s) (h_last_failure_at s).
Definition set_recovery (x0 : Z) (s : health) : health :=
  MkHealth (h_phase s) (h_epoch s) (h_trips s) (h_consecutive_failures s) x0 (h_recent_trips s)
    (h_window s) (h_stable_at s) (h_stable_successes s) (h_owner s) (h_lease_until s)
    (h_retry_at s) (h_reason s) (h_verified_at s) (h_last_failure_at s).
Definition set_retry (x0 : Z) (s : health) : health :=
  MkHealth (h_phase s) (h_epoch s) (h_trips s) (h_consecutive_failures s) (h_recovery_successes s)
    (h_recent_trips s) (h_window s) (h_stable_at s) (h_stable_successes s) (h_owner s)
    (h_lease_until s) x0 (h_reason s) (h_verified_at s) (h_last_failure_at s).
Definition set_epoch (x0 : Z) (s : health) : health :=
  MkHealth (h_phase s) x0 (h_trips s) (h_consecutive_failures s) (h_recovery_successes s)
    (h_recent_trips s) (h_window s) (h_stable_at s) (h_stable_successes s) (h_owner s)
    (h_lease_until s) (h_retry_at s) (h_reason s) (h_verified_at s) (h_last_failure_at s).
Definition set_failed (x0 : option Z) (x1 : string) (s : health) : health :=
  MkHealth (h_phase s) (h_epoch s) (h_trips s) (h_consecutive_failures s) (h_recovery_successes s)
    (h_recent_trips s) (h_window s) (h_stable_at s) (h_stable_successes s) (h_owner s)
    (h_lease_until s) (h_retry_at s) x1 (h_verified_at s) x0.

(** ** The script ([availability.lua]) *)

(** Seven days. *)
Definition state_ttl : Z := 7 * 24 * 60 * 60 * 1000.

(** [AvailabilitySnapshot] *)
Record AvailabilitySnapshot := MkSnap {
  sn_Busy : bool;
  sn_Scope : FaultScope;
  sn_Phase : AvailabilityPhase;
  sn_Epoch : Z;
  sn_RetryAt : Z;
  sn_LeaseUntil : Z;
  sn_VerifiedAt : option Z;
  sn_LastFailureAt : option Z;
  sn_Reason : string;
  sn_ConsecutiveFailures : Z;
  sn_RecoverySuccesses : Z;
  sn_Trips : Z;
  sn_RecentTrips : list Z }.

(** [AvailabilitySnapshot.Blocked] *)
Definition Blocked (s : AvailabilitySnapshot) (now : Z) : bool :=
  (bool_decide (sn_Phase s = Cooling) && (now <? sn_RetryAt s))
  || (bool_decide (sn_Phase s = Recovering) && sn_Busy s).

(** The keys of the script: a value and the time it expires at. *)
Record availability_db := MkDb {
  db_scopes : gmap scope_key (health * Z);
  db_index : gset scope_key;
  db_resources : gmap (string * string) (gset scope_key);
  db_permits : gmap string (AdmissionPermit * Z);
  db_canceled : gmap string Z;
  db_turns : gmap string (Z * Z);
  db_cursors : gmap string (Z * Z) }.

Definition empty_availability : availability_db := MkDb ∅ ∅ ∅ ∅ ∅ ∅ ∅.

Definition set_permits (m : gmap string (AdmissionPermit * Z)) (db : availability_db) : availability_db :=
  MkDb (db_scopes db) (db_index db) (db_resources db) m (db_canceled db) (db_turns db) (db_cursors db).
Definition set_canceled (m : gmap string Z) (db : availability_db) : availability_db :=
  MkDb (db_scopes db) (db_index db) (db_resources db) (db_permits db) m (db_turns db) (db_cursors db).
Definition set_rounds (turns cursors : gmap string (Z * Z)) (db : availability_db) : availability_db :=
  MkDb (db_scopes db) (db_index db) (db_resources db) (db_permits db) (db_canceled db) turns cursors.

(** [GET] of a key with a time to live. *)
Definition unexpired {A} (now : Z) (v : option (A * Z)) : option A :=
  match v with
  | Some (a, until) => if now <=? until then Some a else None
  | None => None
  end.

(** [load]: the stored record, brought up to date. *)
Definition stored (now : Z) (key : scope_key) (db : availability_db) : health :=
  default fresh_health (unexpired now (db_scopes db !! key)).

Definition refresh (now : Z) (s : health) : health :=
  let s := if bool_decide (h_phase s = Cooling) && (h_retry_at s <=? now)
           then set_phase Recovering s else s in
  let s := if h_lease_until s <=? now then set_owner None 0 s else s in
  set_recent (List.filter (fun t => now - 3600000 <? t) (h_recent_trips s)) s.

Definition load (now : Z) (key : scope_key) (db : availability_db) : health :=
  refresh now (stored now key db).

(** [save] *)
Definition save (now : Z) (scope : FaultScope) (s : health) (db : availability_db) : availability_db :=
  let key := fs_Key scope in
  let resource := (fs_ResourceKind scope, fs_ResourceID scope) in
  MkDb (<[key := (s, now + Z.max state_ttl (h_retry_at s - now + 86400000))]> (db_scopes db))
    ({[key]} ∪ db_index db)
    (<[resource := {[key]} ∪ default ∅ (db_resources db !! resource)]> (db_resources db))
    (db_permits db) (db_canceled db) (db_turns db) (db_cursors db).

(** [snapshot] *)
Definition snapshot (scope : FaultScope) (s : health) : AvailabilitySnapshot :=
  MkSnap (bool_decide (is_Some (h_owner s))) scope (h_phase s) (h_epoch s) (h_retry_at s)
    (h_lease_until s) (h_verified_at s) (h_last_failure_at s) (h_reason s)
    (h_consecutive_failures s) (h_recovery_successes s) (h_trips s) (h_recent_trips s).

(** [observe]: the new record, the calls of the last minute and the failed ones. *)
Definition observe (now : Z) (failed : bool) (s : health) : health * Z * Z :=
  let sec := now / 1000 in
  let kept := filter (fun kb => sec - 60 < kb.1) (h_window s) in
  let total := map_fold (fun _ b acc => acc + fst b) 0 kept in
  let failures := map_fold (fun _ b acc => acc + snd b) 0 kept in
  let b := default (0, 0) (kept !! sec) in
  let one := if failed then 1 else 0 in
  (set_window (<[sec := (fst b + 1, snd b + one)]> kept) s, total + 1, failures + one).

(** The delay a scope cools for on its own verdict. *)
Definition cool_delay (trips : Z) (v : AvailabilityOutcome) : Z :=
  if ao_Authentication v then 1800000
  else Z.min 300000 (30000 * 2 ^ Z.min (trips - 1) 4).

(** [cool] *)
Definition cool (now : Z) (v : AvailabilityOutcome) (s : health) : health :=
  let s := set_epoch (h_epoch s + 1) (set_trips (h_trips s + 1) s) in
  let s := set_retry (now + cool_delay (h_trips s) v) s in
  let s := if (now <? ao_CooldownUntil v) && negb (ao_Authentication v)
           then set_retry (ao_CooldownUntil v) s else s in
  set_recent (h_recent_trips s ++ [now])
    (set_stable None 0 (set_recovery 0 (set_owner None 0 (set_phase Cooling s)))).

(** The verdict of a call on a scope it holds. *)
Definition succeeded (now : Z) (s : health) : health :=
  let s := set_failures 0 (set_verified (Some now) s) in
  if bool_decide (h_phase s = Recovering) then
    let s := set_recovery (h_recovery_successes s + 1) s in
    if 2 <=? h_recovery_successes s
    then set_stable (Some now) 0 (set_window ∅ (set_retry 0 (set_phase Available s)))
    else s
  else
    let '(s, _, _) := observe now false s in
    let since := default now (h_stable_at s) in
    let s := set_stable (Some since) (h_stable_successes s + 1) s in
    if (600000 <=? now - since) && (10 <=? h_stable_successes s) then set_trips 0 s else s.

Definition failed_in_scope (now : Z) (v : AvailabilityOutcome) (s : health) : health :=
  let s := set_stable None 0 (set_failed (Some now) (ao_Reason v) s) in
  if negb (ao_HealthFailure v) then cool now v s
  else
    let s := set_failures (h_consecutive_failures s + 1) s in
    let '(s, n, f) := observe now true s in
    if bool_decide (h_phase s = Recovering) || (5 <=? h_consecutive_failures s)
       || ((20 <=? n) && (n <=? 2 * f))
    then cool now v s else s.

Definition judge (now : Z) (token : string) (v : AvailabilityOutcome) (key : scope_key) (s : health) : health :=
  let s := if bool_decide (h_owner s = Some token) then set_owner None 0 s else s in
  if ao_Success v then succeeded now s
  else if bool_decide (ao_FailureScope v = Some key) then failed_in_scope now v s
  else s.

(** One scope of a completed permit. *)
Definition complete_scope (now : Z) (p : AdmissionPermit) (token : string) (v : AvailabilityOutcome)
    (acc : list AvailabilitySnapshot * availability_db) (scope : FaultScope)
    : list AvailabilitySnapshot * availability_db :=
  let '(out, db) := acc in
  let s := load now (fs_Key scope) db in
  if bool_decide (pm_Epochs p !! fs_Key scope = Some (h_epoch s))
     && (negb (bool_decide (h_phase s = Recovering)) || bool_decide (h_owner s = Some token))
  then let s := judge now token v (fs_Key scope) s in
       (out ++ [snapshot scope s], save now scope s db)
  else (out, db).

(** [action == 'complete'] *)
Definition complete (now : Z) (token : string) (v : AvailabilityOutcome) (db : availability_db)
    : list AvailabilitySnapshot * availability_db :=
  match unexpired now (db_permits db !! token) with
  | None => ([], db)
  | Some p =>
      let db := set_permits (delete token (db_permits db)) db in
      if pm_ExpiresAt p <=? now then ([], db)
      else foldl (complete_scope now p token v) ([], db) (pm_Scopes p)
  end.

(** [action == 'cancel'] *)
Definition cancel (now : Z) (token : string) (lease : Z) (db : availability_db)
    : list AvailabilitySnapshot * availability_db :=
  complete now token neutral_outcome
    (set_canceled (<[token := now + Z.max lease 60000]> (db_canceled db)) db).

(** [action == 'read'] *)
Definition read (now : Z) (scopes : list FaultScope) (db : availability_db) : list AvailabilitySnapshot :=
  (fun scope => snapshot scope (load now (fs_Key scope) db)) <$> scopes.

(** [action == 'import'] and [action == 'suspend'] *)
Definition suspended (now : Z) (v : AvailabilityOutcome) (s : health) : health :=
  set_failed (Some now) (ao_Reason v) (set_recovery 0 (set_owner None 0
    (set_retry (ao_CooldownUntil v) (set_epoch (h_epoch s + 1) (set_phase Cooling s))))).

Definition suspend (now : Z) (import : bool) (v : AvailabilityOutcome) (scopes : list FaultScope)
    (db : availability_db) : availability_db :=
  let states := (fun scope => (scope, load now (fs_Key scope) db)) <$> scopes in
  foldl (fun db ss =>
    if negb import || negb (bool_decide (is_Some (unexpired now (db_scopes db !! fs_Key (fst ss)))))
    then save now (fst ss) (suspended now v (snd ss)) db else db) db states.

(** [action == 'resume'] and [action == 'reset'] *)
Definition resumed (reset : bool) (s : health) : health :=
  let s := set_stable None 0 (set_failures 0 (set_window ∅ (set_recovery 0 (set_owner None 0
             (set_retry 0 (set_phase Recovering (set_epoch (h_epoch s + 1) s))))))) in
  if reset then set_verified None s else s.

Definition resume (now : Z) (reset : bool) (scopes : list FaultScope) (db : availability_db)
    : availability_db :=
  let states := (fun scope => (scope, load now (fs_Key scope) db)) <$> scopes in
  foldl (fun db ss =>
    if reset || bool_decide (h_phase (snd ss) = Cooling)
    then save now (fst ss) (resumed reset (snd ss)) db else db) db states.

(** The latest time one of the scopes is denied until, and why. *)
Definition deny (acc : Z * string) (ss : FaultScope * health) : Z * string :=
  let s := snd ss in
  let acc := if bool_decide (h_phase s = Cooling) && (fst acc <? h_retry_at s)
             then (h_retry_at s, if bool_decide (h_reason s = "") then "cooling"%string else h_reason s)
             else acc in
  if bool_decide (h_phase s = Recovering) && bool_decide (is_Some (h_owner s))
     && (fst acc <? h_lease_until s)
  then (h_lease_until s, "recovery_busy"%string) else acc.

Definition denial (states : list (FaultScope * health)) : Z * string := foldl deny (0, ""%string) states.

Inductive admission := Granted (p : AdmissionPermit) | Denied (retry_at : Z) (reason : string).

(** [action == 'acquire'] *)
Definition acquire (now : Z) (token : string) (lease : Z) (scopes : list FaultScope)
    (db : availability_db) : admission * availability_db :=
  if bool_decide (is_Some (unexpired now ((fun u => (tt, u)) <$> db_canceled db !! token)))
  then (Denied 0 "canceled", db)
  else
    let states := (fun scope => (scope, load now (fs_Key scope) db)) <$> scopes in
    let '(deniedAt, reason) := denial states in
    if 0 <? deniedAt then (Denied deniedAt reason, db)
    else
      let expires := now + lease in
      let p := MkPermit token
                 (foldl (fun m ss => <[fs_Key (fst ss) := h_epoch (snd ss)]> m) ∅ states)
                 expires scopes in
      let db := foldl (fun db ss =>
                  save now (fst ss)
                    (if bool_decide (h_phase (snd ss) = Recovering)
                     then set_owner (Some token) expires (snd ss) else snd ss) db) db states in
      (Granted p, set_permits (<[token := (p, now + lease)]> (db_permits db)) db).

(** [recoveryTurnScript]: [INCR] and [EXPIRE] of the two counters of a tier. *)
Definition incr (now : Z) (key : string) (m : gmap string (Z * Z)) : Z * gmap string (Z * Z) :=
  let n := default 0 (unexpired now (m !! key)) + 1 in (n, <[key := (n, now + 3600000)]> m).

Definition recovery_turn (now : Z) (tier : string) (hasAvailable : bool) (candidates : Z)
    (db : availability_db) : Z * availability_db :=
  let '(n, turns) := incr now tier (db_turns db) in
  if hasAvailable && negb ((n - 1) mod 10 =? 0) then (-1, set_rounds turns (db_cursors db) db)
  else let '(p, cursors) := incr now tier (db_cursors db) in
       ((p - 1) mod candidates, set_rounds turns cursors db).

(** ** The callers ([availability.go])

    [run] reaches the script or not, and its reply may be lost on the way back. *)

Inductive delivery := Executed | ReplyLost | NotExecuted.
#[global] Instance delivery_eq_dec : EqDecision delivery.
Proof. solve_decision. Defined.

Inductive availability_error :=
| ErrAvailabilityUnavailable
| AdmissionDenied (RetryAt : Z) (Reason : string).

(** [run] of an operation without a decision: what reaches Redis and whether the
    caller learns of it. *)
Definition run {A} (d : delivery) (op : availability_db -> A * availability_db) (db : availability_db)
    : result availability_error A * availability_db :=
  match d with
  | Executed => let '(a, db') := op db in (Ok a, db')
  | ReplyLost => (Err ErrAvailabilityUnavailable, snd (op db))
  | NotExecuted => (Err ErrAvailabilityUnavailable, db)
  end.

(** [RedisAvailability.Read], as the map from keys to snapshots. *)
Definition Read (d : delivery) (now : Z) (scopes : list FaultScope) (db : availability_db)
    : result availability_error (gmap scope_key AvailabilitySnapshot) :=
  if bool_decide (scopes = []) then Ok ∅
  else match fst (run d (fun db => (read now scopes db, db)) db) with
       | Ok records => Ok (foldl (fun m r => <[fs_Key (sn_Scope r) := r]> m) ∅ records)
       | Err e => Err e
       end.

(** [RedisAvailability.Acquire]: the lease in milliseconds; [d'] and [now'] are
    the fate and the time of the cleanup of a failed call. *)
Definition Acquire (d d' : delivery) (now now' : Z) (token : string) (lease : Z)
    (scopes : list FaultScope) (db : availability_db)
    : result availability_error AdmissionPermit * availability_db :=
  let lease := if lease <=? 0 then 17 * 60 * 1000 else lease in
  match run d (acquire now token lease scopes) db with
  | (Ok (Granted p), db) => (Ok p, db)
  | (Ok (Denied at_ reason), db) => (Err (AdmissionDenied at_ reason), db)
  | (Err e, db) => (Err e, snd (run d' (cancel now' token lease) db))
  end.

(** [RedisAvailability.Complete] *)
Definition Complete (d : delivery) (now : Z) (permit : option AdmissionPermit) (v : AvailabilityOutcome)
    (db : availability_db) : result availability_error (list AvailabilitySnapshot) * availability_db :=
  match permit with
  | None => (Ok [], db)
  | Some p => run d (complete now (pm_Token p) v) db
  end.

(** [RedisAvailability.RecoveryTurn]; the empty candidate is no turn. *)
Definition RecoveryTurn (d : delivery) (now : Z) (tier : string) (candidates : list string)
    (hasAvailable : bool) (db : availability_db) : result availability_error string * availability_db :=
  if bool_decide (candidates = []) then (Ok ""%string, db)
  else
    let candidates := order_by String.leb candidates in
    match run d (recovery_turn now tier hasAvailable (Z.of_nat (length candidates))) db with
    | (Ok n, db) => (Ok (if n <? 0 then ""%string else default ""%string (candidates !! Z.to_nat n)), db)
    | (Err e, db) => (Err e, db)
    end.

(** [RedisAvailability.Reset], [Resume] (on the scopes it lists),
    [ImportCooldown] and [Suspend]. *)
Definition Reset (d : delivery) (now : Z) (scopes : list FaultScope) (db : availability_db)
    : result availability_error unit * availability_db :=
  if bool_decide (scopes = []) then (Ok tt, db)
  else run d (fun db => (tt, resume now true scopes db)) db.

Definition Resume (d : delivery) (now : Z) (scopes : list FaultScope) (db : availability_db)
    : result availability_error unit * availability_db :=
  if bool_decide (scopes = []) then (Ok tt, db)
  else run d (fun db => (tt, resume now false scopes db)) db.

Definition cooldown_outcome (until : Z) (reason : string) : AvailabilityOutcome :=
  MkOutcome false None reason false until false.

Definition ImportCooldown (d : delivery) (now : Z) (scope : FaultScope) (until : Z) (reason : string)
    (db : availability_db) : result availability_error unit * availability_db :=
  run d (fun db => (tt, suspend now true (cooldown_outcome until reason) [scope] db)) db.

Definition Suspend (d : delivery) (now : Z) (scope : FaultScope) (until : Z) (reason : string)
    (db : availability_db) : result availability_error unit * availability_db :=
  run d (fun db => (tt, suspend now false (cooldown_outcome until reason) [scope] db)) db.
