(* ===== verification/AvailabilityFacts.v ===== *)
(** * Upstream availability: reachable states

    The step relation of the availability store under its callers, with lost
    requests and lost replies and a clock that never runs backwards, and the
    invariant of its reachable states: every live permit fits the records of its
    scopes, and a recovering record belongs to the one permit of its epoch. *)

From S2P Require Import Prelude Availability.

(** ** Steps *)

Inductive av_step : Z * availability_db -> Z * availability_db -> Prop :=
| av_acquire now now1 now2 d d' token lease scopes db :
    now <= now1 <= now2 -> lease <= state_ttl ->
    av_step (now, db) (now2, snd (Acquire d d' now1 now2 token lease scopes db))
| av_complete now now1 d permit v db :
    now <= now1 -> av_step (now, db) (now1, snd (Complete d now1 permit v db))
| av_delayed now now1 token lease scopes db :
    now <= now1 -> 0 < lease <= state_ttl ->
    av_step (now, db) (now1, snd (acquire now1 token lease scopes db))
| av_turn now now1 d tier candidates flag db :
    now <= now1 -> av_step (now, db) (now1, snd (RecoveryTurn d now1 tier candidates flag db))
| av_reset now now1 d scopes db :
    now <= now1 -> av_step (now, db) (now1, snd (Reset d now1 scopes db))
| av_resume now now1 d scopes db :
    now <= now1 -> av_step (now, db) (now1, snd (Resume d now1 scopes db))
| av_import now now1 d scope until reason db :
    now <= now1 -> av_step (now, db) (now1, snd (ImportCooldown d now1 scope until reason db))
| av_suspend now now1 d scope until reason db :
    now <= now1 -> av_step (now, db) (now1, snd (Suspend d now1 scope until reason db)).

Inductive av_reachable : Z -> availability_db -> Prop :=
| av_start now : 0 <= now -> av_reachable now empty_availability
| av_next now db now' db' :
    av_reachable now db -> av_step (now, db) (now', db') -> av_reachable now' db'.

(** ** What every step keeps

    A predicate of the tables that every operation of the script keeps is kept by
    every step of the callers. *)

Section Closed.
Context (I : Z -> availability_db -> Prop).
Context (Ilater : forall now now' db, now <= now' -> I now db -> I now' db).
Context (Isame : forall now db db', db_permits db' = db_permits db -> db_scopes db' = db_scopes db ->
  I now db -> I now db').
Context (Icomplete : forall now t v db, I now db -> I now (complete now t v db).2).
Context (Iacquire : forall now t lease scopes db, I now db -> 0 < lease <= state_ttl ->
  I now (acquire now t lease scopes db).2).
Context (Isuspend : forall now import v scopes db, I now db -> I now (suspend now import v scopes db)).
Context (Iresume : forall now reset scopes db, I now db -> I now (resume now reset scopes db)).

Lemma run_closed {A} now d (op : availability_db -> A * availability_db) db :
  I now db -> I now (op db).2 -> I now (run d op db).2.
Proof. intros H1 H2. unfold run. destruct d; [|done | done]. by destruct (op db). Qed.

Lemma cancel_closed now t lease db : I now db -> I now (cancel now t lease db).2.
Proof. intros H. unfold cancel. by apply Icomplete, (Isame now db). Qed.

Lemma recovery_turn_closed now tier flag n db : I now db -> I now (recovery_turn now tier flag n db).2.
Proof.
  intros H. unfold recovery_turn. destruct (incr now tier (db_turns db)) as [k turns].
  destruct (_ && _); [by apply (Isame now db)|].
  destruct (incr now tier (db_cursors db)). by apply (Isame now db).
Qed.

Lemma Acquire_closed now1 now2 d d' token lease scopes db :
  I now1 db -> now1 <= now2 -> lease <= state_ttl ->
  I now2 (Acquire d d' now1 now2 token lease scopes db).2.
Proof.
  intros H Hle Hlease. unfold Acquire. cbn zeta. set (l := if lease <=? 0 then _ else _).
  assert (Hl : 0 < l <= state_ttl).
  { unfold l, state_ttl in *. destruct (lease <=? 0) eqn:?; bool_prop; lia. }
  pose proof (run_closed now1 d _ db H (Iacquire now1 token l scopes db H Hl)) as Hr.
  apply (Ilater now1 now2) in Hr; [|done].
  destruct (run d (acquire now1 token l scopes) db) as [[[p | at_ reason] | e] db1];
    [done | done |]. apply run_closed; [done | by apply cancel_closed].
Qed.

Lemma RecoveryTurn_closed now d tier candidates flag db :
  I now db -> I now (RecoveryTurn d now tier candidates flag db).2.
Proof.
  intros H. unfold RecoveryTurn. destruct (bool_decide _); [done|]. cbn zeta.
  pose proof (run_closed now d _ db H (recovery_turn_closed now tier flag
    (Z.of_nat (length (order_by String.leb candidates))) db H)) as Hr.
  by destruct (run d _ db) as [[n | e] db1].
Qed.

Lemma step_closed now db now' db' : I now db -> av_step (now, db) (now', db') -> I now' db'.
Proof.
  intros H Hstep.
  assert (Hlater : forall n, now <= n -> I n db) by (intros n Hn; by apply (Ilater now)).
  clear H. inversion Hstep; subst.
  - apply Acquire_closed; [apply Hlater; lia | lia | done].
  - unfold Complete. destruct permit as [p|]; [|auto]. apply run_closed; [auto | apply Icomplete; auto].
  - apply Iacquire; auto.
  - apply RecoveryTurn_closed; auto.
  - unfold Reset. destruct (bool_decide _); [auto|]. apply run_closed; [auto | apply Iresume; auto].
  - unfold Resume. destruct (bool_decide _); [auto|]. apply run_closed; [auto | apply Iresume; auto].
  - apply run_closed; [auto | apply Isuspend; auto].
  - apply run_closed; [auto | apply Isuspend; auto].
Qed.
End Closed.

(** ** The invariant *)

(** A permit still held at [now]. *)
Definition live (now : Z) (db : availability_db) (token : string) (p : AdmissionPermit) : Prop :=
  (exists until, db_permits db !! token = Some (p, until)) /\ now < pm_ExpiresAt p.

(** How a permit that saw epoch [e] of a scope relates to the scope's record. *)
Definition fits (token : string) (p : AdmissionPermit) (e : Z) (s : health) : Prop :=
  e <= h_epoch s /\
  (e = h_epoch s ->
   h_phase s <> Cooling /\
   (h_phase s = Recovering -> h_owner s = Some token /\ h_lease_until s = pm_ExpiresAt p)).

Record av_ok (now : Z) (db : availability_db) : Prop := {
  ok_now : 0 <= now;
  ok_permits token p until :
    db_permits db !! token = Some (p, until) ->
    pm_Token p = token /\ until = pm_ExpiresAt p /\ pm_ExpiresAt p <= now + state_ttl;
  ok_fits token p k e :
    live now db token p -> pm_Epochs p !! k = Some e ->
    exists s until, db_scopes db !! k = Some (s, until) /\ pm_ExpiresAt p <= until /\ fits token p e s }.

Lemma live_later now now' db token p : now <= now' -> live now' db token p -> live now db token p.
Proof. intros Hle [H1 H2]. split; [done | lia]. Qed.

Lemma av_ok_later now now' db : now <= now' -> av_ok now db -> av_ok now' db.
Proof.
  intros Hle [H0 Hp Hf]. constructor; [lia | |].
  - intros token p until H. destruct (Hp _ _ _ H) as (? & ? & ?). split_and!; [done | done | lia].
  - intros token p k e Hl. apply Hf. by apply (live_later now now').
Qed.

Lemma av_ok_empty now : 0 <= now -> av_ok now empty_availability.
Proof.
  intros H. constructor; [done | |].
  - intros token p until. unfold empty_availability. simpl. by rewrite lookup_empty.
  - intros token p k e [[until Hp] _]. simpl in Hp. by rewrite lookup_empty in Hp.
Qed.

(** ** Loading and saving *)

Lemma refresh_epoch now s : h_epoch (refresh now s) = h_epoch s.
Proof. unfold refresh. destruct (bool_decide _ && _); simpl; by destruct (h_lease_until s <=? now). Qed.

Lemma refresh_phase now s :
  h_phase (refresh now s) =
  if bool_decide (h_phase s = Cooling) && (h_retry_at s <=? now) then Recovering else h_phase s.
Proof. unfold refresh. destruct (bool_decide _ && _); simpl; by destruct (h_lease_until s <=? now). Qed.

Lemma refresh_retry now s : h_retry_at (refresh now s) = h_retry_at s.
Proof. unfold refresh. destruct (bool_decide _ && _); simpl; by destruct (h_lease_until s <=? now). Qed.

Lemma refresh_owner now s :
  h_owner (refresh now s) = if h_lease_until s <=? now then None else h_owner s.
Proof. unfold refresh. destruct (bool_decide _ && _); simpl; by destruct (h_lease_until s <=? now). Qed.

Lemma refresh_lease now s :
  h_lease_until (refresh now s) = if h_lease_until s <=? now then 0 else h_lease_until s.
Proof. unfold refresh. destruct (bool_decide _ && _); simpl; by destruct (h_lease_until s <=? now). Qed.

Lemma refresh_cooling now s : h_phase (refresh now s) = Cooling -> now < h_retry_at (refresh now s).
Proof.
  rewrite refresh_phase, refresh_retry. destruct (bool_decide _ && _) eqn:Hc; [done|].
  intros Hp. rewrite bool_decide_true in Hc by done. simpl in Hc. by bool_prop.
Qed.

Lemma refresh_owned now s o : h_owner (refresh now s) = Some o -> now < h_lease_until (refresh now s).
Proof.
  rewrite refresh_owner, refresh_lease. destruct (h_lease_until s <=? now) eqn:Hl; [done|].
  intros _. by bool_prop.
Qed.

Lemma stored_live now k db s until :
  db_scopes db !! k = Some (s, until) -> now <= until -> stored now k db = s.
Proof. intros Hs Hu. unfold stored. rewrite Hs. simpl. by rewrite (proj2 (Z.leb_le now until)). Qed.

(** A live permit fits the record its scope is loaded with. *)
Lemma load_fits now db token p k e :
  av_ok now db -> live now db token p -> pm_Epochs p !! k = Some e ->
  fits token p e (load now k db).
Proof.
  intros Hok Hl He. destruct (ok_fits _ _ Hok _ _ _ _ Hl He) as (s & until & Hs & Hu & Hle & Hf).
  pose proof (proj2 Hl) as Hnow. unfold load. rewrite (stored_live _ _ _ _ _ Hs) by lia.
  split; rewrite refresh_epoch; [done|]. intros Heq. destruct (Hf Heq) as [Hp Hr].
  rewrite refresh_phase, bool_decide_false by done. split; [done|]. intros Hrec.
  destruct (Hr Hrec) as [Ho Hle']. rewrite refresh_owner, refresh_lease.
  by rewrite (proj2 (Z.leb_gt (h_lease_until s) now)) by lia.
Qed.

Lemma save_scopes now scope s db :
  db_scopes (save now scope s db) =
  <[fs_Key scope := (s, now + Z.max state_ttl (h_retry_at s - now + 86400000))]> (db_scopes db).
Proof. done. Qed.

(** Saving a record that every live permit on it still fits keeps the invariant. *)
Lemma save_ok now scope s db :
  av_ok now db ->
  (forall token p e, live now db token p -> pm_Epochs p !! fs_Key scope = Some e -> fits token p e s) ->
  av_ok now (save now scope s db).
Proof.
  intros Hok Hs. constructor; [by eapply ok_now | by apply (ok_permits _ _ Hok)|].
  intros token p k e Hl He. rewrite save_scopes.
  destruct (decide (k = fs_Key scope)) as [-> | Hne].
  - rewrite lookup_insert_eq. eexists _, _. split; [done|]. split; [|by apply Hs].
    destruct Hl as [[until Hp] _]. destruct (ok_permits _ _ Hok _ _ _ Hp) as (_ & _ & ?). lia.
  - rewrite lookup_insert_ne by done. by apply (ok_fits _ _ Hok).
Qed.

Lemma set_permits_ok now db m :
  (forall t v, m !! t = Some v -> db_permits db !! t = Some v) ->
  av_ok now db -> av_ok now (set_permits m db).
Proof.
  intros Hm Hok. constructor; [by eapply ok_now | |].
  - intros t p u H. apply (ok_permits _ _ Hok t p u), Hm, H.
  - intros t p k e [[u Hp] Hnow]. apply (ok_fits _ _ Hok). split; [|done]. exists u. by apply Hm.
Qed.

Lemma same_tables_ok now db db' :
  db_permits db' = db_permits db -> db_scopes db' = db_scopes db -> av_ok now db -> av_ok now db'.
Proof.
  intros Hp Hs [H0 H1 H2]. constructor; [done | by rewrite Hp|].
  intros t p k e [[u Hpu] Hnow]. rewrite Hs. apply H2. split; [|done]. exists u. by rewrite <- Hp.
Qed.

(** Saving a record for each of a list of scopes. *)
Lemma saves_ok {X} now (test : availability_db -> X -> bool) scope (g : X -> health) l : forall db,
  av_ok now db ->
  (forall x token p e, x ∈ l -> live now db token p ->
     pm_Epochs p !! fs_Key (scope x) = Some e -> fits token p e (g x)) ->
  let db' := foldl (fun db x => if test db x then save now (scope x) (g x) db else db) db l in
  av_ok now db' /\ db_permits db' = db_permits db.
Proof.
  induction l as [|x l IH]; intros db Hok Hg; [done|]. cbn [foldl].
  assert (Hx : av_ok now (if test db x then save now (scope x) (g x) db else db)).
  { destruct (test db x); [|done]. apply save_ok; [done|]. intros t p e. apply Hg. constructor. }
  assert (Hperm : db_permits (if test db x then save now (scope x) (g x) db else db) = db_permits db)
    by by destruct (test db x).
  destruct (IH _ Hx) as [H1 H2].
  - intros y t p e Hy [Hl Hnow]. apply Hg; [by constructor|]. split; [|done]. by rewrite Hperm in Hl.
  - split; [done|]. by rewrite <- Hperm.
Qed.

(** ** What a verdict does to the permits of others *)

Lemma fits_bump token p e s s' :
  h_epoch s' = h_epoch s + 1 -> fits token p e s -> fits token p e s'.
Proof. intros Heq [Hle _]. split; [lia|]. intros ->. lia. Qed.

Lemma fits_keep token p e s s' :
  h_epoch s' = h_epoch s -> (h_phase s' = h_phase s \/ h_phase s' = Available) ->
  h_owner s' = h_owner s -> h_lease_until s' = h_lease_until s ->
  fits token p e s -> fits token p e s'.
Proof.
  intros He Hp Ho Hl [Hle Hf]. split; [lia|]. rewrite He, Ho, Hl. intros Heq.
  destruct (Hf Heq) as [Hc Hr]. destruct Hp as [-> | ->]; done.
Qed.

Lemma cool_epoch now v s : h_epoch (cool now v s) = h_epoch s + 1.
Proof. unfold cool. by destruct ((now <? ao_CooldownUntil v) && negb (ao_Authentication v)). Qed.

Lemma cool_phase now v s : h_phase (cool now v s) = Cooling.
Proof. unfold cool. by destruct ((now <? ao_CooldownUntil v) && negb (ao_Authentication v)). Qed.

Lemma observe_keeps now b s :
  let s' := (observe now b s).1.1 in
  h_epoch s' = h_epoch s /\ h_phase s' = h_phase s /\ h_owner s' = h_owner s /\
  h_lease_until s' = h_lease_until s.
Proof. done. Qed.

Lemma succeeded_fits now token p e s : fits token p e s -> fits token p e (succeeded now s).
Proof.
  apply fits_keep; unfold succeeded; simpl; destruct (decide (h_phase s = Recovering)) as [Hr | Hr];
    rewrite ?bool_decide_true, ?bool_decide_false by done; simpl;
    try (destruct (2 <=? _); simpl; tauto);
    destruct ((600000 <=? _) && _); simpl; tauto.
Qed.

Lemma failed_fits now v token p e s : fits token p e s -> fits token p e (failed_in_scope now v s).
Proof.
  intros Hf. unfold failed_in_scope. destruct (negb (ao_HealthFailure v)).
  - eapply fits_bump; [by rewrite cool_epoch | exact Hf].
  - cbn. match goal with |- context [if ?b then _ else _] => destruct b end.
    + eapply fits_bump; [by rewrite cool_epoch | exact Hf].
    + eapply fits_keep; [.. | exact Hf]; simpl; tauto.
Qed.

Lemma judge_fits now token v key t' p e s :
  t' <> token -> fits t' p e s -> fits t' p e (judge now token v key s).
Proof.
  intros Hne Hf. unfold judge.
  assert (Hs : fits t' p e (if bool_decide (h_owner s = Some token) then set_owner None 0 s else s)).
  { case_bool_decide as Ho; [|done]. destruct Hf as [Hle Hf]. split; [done|]. simpl. intros Heq.
    destruct (Hf Heq) as [Hc Hr]. split; [done|]. intros Hrec. destruct (Hr Hrec) as [Ho' _]. congruence. }
  revert Hs. generalize (if bool_decide (h_owner s = Some token) then set_owner None 0 s else s).
  intros s1 Hs. destruct (ao_Success v); [by apply succeeded_fits|].
  destruct (bool_decide _); [by apply failed_fits | done].
Qed.

(** ** The operations keep the invariant *)

Lemma complete_scope_ok now p token v acc scope :
  db_permits (acc.2) !! token = None -> av_ok now acc.2 ->
  let acc' := complete_scope now p token v acc scope in
  db_permits acc'.2 = db_permits acc.2 /\ av_ok now acc'.2.
Proof.
  destruct acc as [out db]. intros Hnone Hok. unfold complete_scope. simpl in *.
  destruct (_ && _); [|done]. split; [done|]. apply save_ok; [done|]. intros t p' e Hl He.
  apply judge_fits; [|by eapply load_fits]. intros ->. destruct Hl as [[u Hu] _]. by rewrite Hnone in Hu.
Qed.

Lemma complete_av_ok now token v db : av_ok now db -> av_ok now (complete now token v db).2.
Proof.
  intros Hok. unfold complete. destruct (unexpired now _) as [p|]; [|done].
  assert (Hd : av_ok now (set_permits (delete token (db_permits db)) db)).
  { apply set_permits_ok; [|done]. intros t w Hw. by apply lookup_delete_Some in Hw as [_ ?]. }
  destruct (pm_ExpiresAt p <=? now); [done|].
  assert (Hnone : db_permits (set_permits (delete token (db_permits db)) db) !! token = None)
    by apply lookup_delete_eq.
  revert Hd Hnone. generalize ([] : list AvailabilitySnapshot) as out.
  generalize (set_permits (delete token (db_permits db)) db) as db1.
  induction (pm_Scopes p) as [|scope l IH]; intros db1 out Hd Hnone; [done|]. cbn [foldl].
  destruct (complete_scope_ok now p token v (out, db1) scope Hnone Hd) as [Hp Ha].
  destruct (complete_scope now p token v (out, db1) scope) as [out' db2]. apply IH; [done|].
  simpl in Hp. by rewrite Hp.
Qed.

(** The time a record alone denies admission until. *)
Definition blocks (s : health) (until : Z) : Prop :=
  (h_phase s = Cooling /\ until = h_retry_at s) \/
  (h_phase s = Recovering /\ is_Some (h_owner s) /\ until = h_lease_until s).

Lemma deny_bound acc ss :
  fst acc <= fst (deny acc ss) /\ (forall until, blocks (snd ss) until -> until <= fst (deny acc ss)).
Proof.
  destruct acc as [d r], ss as [sc s]. unfold deny, blocks. cbn [fst snd].
  destruct (h_phase s) eqn:Hp; simpl.
  - split; [lia|]. intros u [[[=] _] | [[=] _]].
  - destruct (d <? h_retry_at s) eqn:Hd; cbn [fst]; bool_prop; (split; [lia|]);
      intros u [[_ ->] | [[=] _]]; lia.
  - destruct (decide (is_Some (h_owner s))) as [Ho | Ho].
    + rewrite bool_decide_true by done. simpl.
      destruct (d <? h_lease_until s) eqn:Hd; cbn [fst]; bool_prop; (split; [lia|]);
        intros u [[[=] _] | (_ & _ & ->)]; lia.
    + rewrite bool_decide_false by done. simpl. split; [lia|].
      intros u [[[=] _] | (_ & Ho' & _)]; done.
Qed.

Lemma denial_bound states ss until acc :
  ss ∈ states -> blocks (snd ss) until -> until <= fst (foldl deny acc states).
Proof.
  assert (Hmono : forall l acc, fst acc <= fst (foldl deny acc l)).
  { induction l as [|x l IH]; intros a; [simpl; lia|]. cbn [foldl].
    pose proof (proj1 (deny_bound a x)). pose proof (IH (deny a x)). lia. }
  intros Hin Hb. revert acc. induction Hin as [x l | x y l Hin IH]; intros acc; cbn [foldl]; [|by apply IH].
  pose proof (proj2 (deny_bound acc x) until Hb). pose proof (Hmono l (deny acc x)). lia.
Qed.

Lemma epochs_lookup (states : list (FaultScope * health)) k e : forall m : gmap scope_key Z,
  foldl (fun m ss => <[fs_Key (fst ss) := h_epoch (snd ss)]> m) m states !! k = Some e ->
  m !! k = Some e \/ exists ss, ss ∈ states /\ fs_Key (fst ss) = k /\ h_epoch (snd ss) = e.
Proof.
  induction states as [|x l IH]; intros m H; [by left|]. cbn [foldl] in H.
  apply IH in H as [H | (ss & Hin & H)]; [|right; exists ss; split; [by constructor | done]].
  apply lookup_insert_Some in H as [[Hk He] | [_ H]]; [|by left].
  right. exists x. split; [constructor | done].
Qed.

Lemma saves_lookup {X} now scope (g : X -> health) l k : forall db,
  (exists x, x ∈ l /\ fs_Key (scope x) = k) ->
  let db' := foldl (fun db x => save now (scope x) (g x) db) db l in
  exists x, x ∈ l /\ fs_Key (scope x) = k /\
    db_scopes db' !! k = Some (g x, now + Z.max state_ttl (h_retry_at (g x) - now + 86400000)).
Proof.
  induction l as [|y l IH] using rev_ind; intros db (x & Hx & Hk); [by apply not_elem_of_nil in Hx|].
  cbn zeta. rewrite foldl_app. cbn [foldl]. rewrite save_scopes.
  destruct (decide (fs_Key (scope y) = k)) as [Hy | Hy].
  - exists y. rewrite Hy, lookup_insert_eq. split_and!; [|done..]. apply elem_of_app. right. constructor.
  - rewrite lookup_insert_ne by done.
    apply elem_of_app in Hx as [Hx | ->%list_elem_of_singleton]; [|done].
    destruct (IH db) as (z & Hz & Hkz & Hl); [by exists x|].
    exists z. split_and!; [|done..]. apply elem_of_app. by left.
Qed.

Section Acquiring.
Context (now : Z) (token : string) (lease : Z) (scopes : list FaultScope) (db : availability_db).
Context (Hok : av_ok now db) (Hlease : 0 < lease <= state_ttl).

Let states := (fun scope => (scope, load now (fs_Key scope) db)) <$> scopes.
Let claimed (ss : FaultScope * health) : health :=
  if bool_decide (h_phase ss.2 = Recovering) then set_owner (Some token) (now + lease) ss.2 else ss.2.

Lemma elem_states ss : ss ∈ states -> ss.2 = load now (fs_Key ss.1) db.
Proof. unfold states. by intros (scope & -> & _)%list_elem_of_fmap. Qed.

Context (Hfree : forall ss until, ss ∈ states -> blocks ss.2 until -> until <= 0).

Lemma states_free ss : ss ∈ states ->
  h_phase ss.2 <> Cooling /\ (h_phase ss.2 = Recovering -> h_owner ss.2 = None).
Proof.
  intros Hin. pose proof (ok_now _ _ Hok) as H0. split.
  - intros Hp. assert (Hr : h_retry_at ss.2 <= 0) by (apply (Hfree ss); [done | by left]).
    rewrite (elem_states ss Hin) in Hp, Hr. unfold load in Hp, Hr. apply refresh_cooling in Hp. lia.
  - intros Hp. destruct (h_owner ss.2) as [o|] eqn:Ho; [|done].
    assert (Hr : h_lease_until ss.2 <= 0) by (apply (Hfree ss); [done | right; rewrite Ho; eauto]).
    rewrite (elem_states ss Hin) in Ho, Hr. unfold load in Ho, Hr. apply refresh_owned in Ho. lia.
Qed.

Lemma claimed_fits ss t p e :
  ss ∈ states -> live now db t p -> pm_Epochs p !! fs_Key ss.1 = Some e -> fits t p e (claimed ss).
Proof.
  intros Hin Hl He. destruct (states_free ss Hin) as [Hc Hr].
  pose proof (load_fits now db t p (fs_Key ss.1) e Hok Hl He) as [Hle Hf].
  rewrite <- (elem_states ss Hin) in Hle, Hf. unfold claimed.
  case_bool_decide as Hp; [|split; [done|]; intros Heq; split; [done | intros ?; by destruct Hp]].
  split; [done|]. simpl. intros Heq. destruct (Hf Heq) as [_ Ho]. destruct (Ho Hp) as [Ho' _].
  by rewrite Hr in Ho'.
Qed.

Lemma granted_ok p :
  pm_Token p = token -> pm_ExpiresAt p = now + lease ->
  (forall k e, pm_Epochs p !! k = Some e ->
     exists ss, ss ∈ states /\ fs_Key ss.1 = k /\ h_epoch ss.2 = e) ->
  let db1 := foldl (fun db ss => save now ss.1 (claimed ss) db) db states in
  av_ok now (set_permits (<[token := (p, now + lease)]> (db_permits db1)) db1).
Proof.
  intros Htok Hexp Hep db1.
  destruct (saves_ok now (fun _ _ => true) fst claimed states db Hok) as [Hs Hperm].
  { intros ss t p' e Hin Hl He. by apply claimed_fits. }
  cbn [andb] in Hs, Hperm. fold db1 in Hs, Hperm. rewrite Hperm. constructor; [by eapply ok_now | |].
  - intros t q u. simpl. rewrite lookup_insert_Some. intros [[<- [= <- <-]] | [_ H]].
    + rewrite Hexp. split_and!; [done | done | lia].
    + by apply (ok_permits _ _ Hok).
  - intros t q k e [[u Hq] Hnow] He. simpl in Hq |- *.
    apply lookup_insert_Some in Hq as [[<- [= <- <-]] | [_ Hq]].
    + destruct (Hep k e He) as (ss & Hin & Hk & Heq).
      destruct (saves_lookup now fst claimed states k db) as (y & Hy & Hky & Hl); [by exists ss|].
      eexists _, _. split; [exact Hl|]. split; [lia|].
      assert (Hyl : y.2 = ss.2) by (rewrite (elem_states y Hy), (elem_states ss Hin); congruence).
      destruct (states_free y Hy) as [Hc Hr]. unfold claimed. rewrite Hyl in *.
      case_bool_decide as Hp; (split; [simpl; lia|]); simpl; intros _; split; try done.
    + apply (ok_fits _ _ Hs t q k e); [|done]. split; [|done]. exists u. by rewrite Hperm.
Qed.
End Acquiring.

Lemma acquire_ok now token lease scopes db :
  av_ok now db -> 0 < lease <= state_ttl -> av_ok now (acquire now token lease scopes db).2.
Proof.
  intros Hok Hlease. unfold acquire. destruct (bool_decide _); [done|]. cbn zeta.
  destruct (denial _) as [deniedAt reason] eqn:Hd. destruct (0 <? deniedAt) eqn:H0; [done|].
  bool_prop. apply granted_ok; [done | done | | done | done |].
  - intros ss until Hin Hb. pose proof (denial_bound _ ss until (0, ""%string) Hin Hb) as Hle.
    unfold denial in Hd. rewrite Hd in Hle. simpl in Hle. lia.
  - intros k e He. apply epochs_lookup in He as [He | He]; [by rewrite lookup_empty in He | done].
Qed.

Lemma suspend_ok now import v scopes db : av_ok now db -> av_ok now (suspend now import v scopes db).
Proof.
  intros Hok. unfold suspend.
  apply (saves_ok now (fun db (ss : FaultScope * health) => negb import ||
    negb (bool_decide (is_Some (unexpired now (db_scopes db !! fs_Key ss.1)))))
    fst (fun ss => suspended now v ss.2)); [done|].
  intros ss t p e (scope & -> & _)%list_elem_of_fmap Hl He.
  eapply fits_bump; [|by eapply load_fits]. done.
Qed.

Lemma resume_ok now reset scopes db : av_ok now db -> av_ok now (resume now reset scopes db).
Proof.
  intros Hok. unfold resume.
  apply (saves_ok now (fun _ (ss : FaultScope * health) => reset || bool_decide (h_phase ss.2 = Cooling))
    fst (fun ss => resumed reset ss.2)); [done|].
  intros ss t p e (scope & -> & _)%list_elem_of_fmap Hl He.
  eapply fits_bump; [|by eapply load_fits]. by destruct reset.
Qed.

Lemma av_step_ok now db now' db' : av_ok now db -> av_step (now, db) (now', db') -> av_ok now' db'.
Proof.
  apply (step_closed av_ok); intros.
  - by eapply av_ok_later.
  - by eapply same_tables_ok.
  - by apply complete_av_ok.
  - by apply acquire_ok.
  - by apply suspend_ok.
  - by apply resume_ok.
Qed.

Lemma av_reachable_ok now db : av_reachable now db -> av_ok now db.
Proof. induction 1; [by apply av_ok_empty | by eapply av_step_ok]. Qed.

(** ** A property of every stored record *)

Section StoredAll.
Context (P : health -> Prop).
Context (Pfresh : P fresh_health) (Prefresh : forall now s, P s -> P (refresh now s)).
Context (Pjudge : forall now t v k s, P s -> P (judge now t v k s)).
Context (Powner : forall t l s, h_phase s = Recovering -> P s -> P (set_owner t l s)).
Context (Psuspended : forall now v s, P s -> P (suspended now v s)).
Context (Presumed : forall b s, P s -> P (resumed b s)).

Definition stored_all (db : availability_db) : Prop :=
  forall k s until, db_scopes db !! k = Some (s, until) -> P s.

Lemma all_load now k db : stored_all db -> P (load now k db).
Proof.
  intros H. apply Prefresh. unfold stored. destruct (db_scopes db !! k) as [[s u]|] eqn:Hk; simpl; [|done].
  destruct (now <=? u); simpl; [by apply (H k s u) | done].
Qed.

Lemma all_save now sc s db : P s -> stored_all db -> stored_all (save now sc s db).
Proof.
  intros Hs H k s' u. rewrite save_scopes, lookup_insert_Some. intros [[_ [= <- _]] | [_ Hk]]; [done|].
  by apply (H k s' u).
Qed.

Lemma all_saves {X} now (test : availability_db -> X -> bool) scope (g : X -> health) l : forall db,
  stored_all db -> (forall x, x ∈ l -> P (g x)) ->
  stored_all (foldl (fun db x => if test db x then save now (scope x) (g x) db else db) db l).
Proof.
  induction l as [|x l IH]; intros db Hdb Hg; [done|]. cbn [foldl]. apply IH.
  - destruct (test db x); [|done]. apply all_save; [|done]. apply Hg. constructor.
  - intros y Hy. apply Hg. by constructor.
Qed.

Lemma all_complete now t v db : stored_all db -> stored_all (complete now t v db).2.
Proof.
  intros H. unfold complete. destruct (unexpired now _) as [p|]; [|done].
  destruct (pm_ExpiresAt p <=? now); [done|].
  assert (Hf : forall l out db1, stored_all db1 ->
    stored_all (foldl (complete_scope now p t v) (out, db1) l).2); [|by apply Hf].
  induction l as [|sc l IH]; intros out db1 Hd; [done|]. cbn [foldl]. unfold complete_scope at 2.
  destruct (_ && _); apply IH; [|done]. apply all_save; [|done]. by apply Pjudge, all_load.
Qed.

Lemma all_acquire now t lease scopes db : stored_all db -> stored_all (acquire now t lease scopes db).2.
Proof.
  intros H. unfold acquire. destruct (bool_decide _); [done|]. cbn zeta.
  destruct (denial _) as [d r]. destruct (0 <? d); [done|]. cbn [snd].
  apply (all_saves now (fun _ _ => true) fst (fun ss =>
    if bool_decide (h_phase ss.2 = Recovering) then set_owner (Some t) (now + lease) ss.2 else ss.2)); [done|].
  intros ss (sc & -> & _)%list_elem_of_fmap. cbn [fst snd].
  case_bool_decide; [apply Powner; [done|]|]; by apply all_load.
Qed.

Lemma all_suspend now import v scopes db : stored_all db -> stored_all (suspend now import v scopes db).
Proof.
  intros H. unfold suspend.
  apply (all_saves now (fun db (ss : FaultScope * health) => negb import ||
    negb (bool_decide (is_Some (unexpired now (db_scopes db !! fs_Key ss.1)))))
    fst (fun ss => suspended now v ss.2)); [done|].
  intros ss (sc & -> & _)%list_elem_of_fmap. by apply Psuspended, all_load.
Qed.

Lemma all_resume now reset scopes db : stored_all db -> stored_all (resume now reset scopes db).
Proof.
  intros H. unfold resume.
  apply (all_saves now (fun _ (ss : FaultScope * health) => reset || bool_decide (h_phase ss.2 = Cooling))
    fst (fun ss => resumed reset ss.2)); [done|].
  intros ss (sc & -> & _)%list_elem_of_fmap. by apply Presumed, all_load.
Qed.

Lemma reachable_all now db : av_reachable now db -> stored_all db.
Proof.
  induction 1 as [now H0 | now db now' db' _ IH Hstep].
  - intros k s u Hk. simpl in Hk. by rewrite lookup_empty in Hk.
  - revert IH Hstep. apply (step_closed (fun _ db => stored_all db)); intros.
    + done.
    + unfold stored_all. by rewrite H0.
    + by apply all_complete.
    + by apply all_acquire.
    + by apply all_suspend.
    + by apply all_resume.
Qed.
End StoredAll.

Definition sane (s : health) : Prop :=
  0 <= h_trips s /\ 0 <= h_recovery_successes s /\ (h_phase s = Cooling -> h_owner s = None).

Lemma sane_keep s s' :
  0 <= h_trips s' -> h_recovery_successes s' = h_recovery_successes s ->
  h_owner s' = h_owner s -> (h_phase s' = Cooling -> h_phase s = Cooling) -> sane s -> sane s'.
Proof. intros Ht Hr Ho Hp (H1 & H2 & H3). unfold sane. rewrite Ho, Hr. auto. Qed.

Lemma cool_sane now v s : 0 <= h_trips s -> sane (cool now v s).
Proof. intros H. unfold sane, cool. destruct (_ && _); simpl; (split_and!; [lia | lia | done]). Qed.

Lemma refresh_sane now s : sane s -> sane (refresh now s).
Proof.
  intros (H1 & H2 & H3). unfold sane. rewrite refresh_phase, refresh_owner. split_and!.
  - unfold refresh. destruct (_ && _); simpl; by destruct (h_lease_until s <=? now).
  - unfold refresh. destruct (_ && _); simpl; by destruct (h_lease_until s <=? now).
  - destruct (_ && _); [done|]. intros Hp. rewrite (H3 Hp). by destruct (_ <=? now).
Qed.

Lemma judge_sane now t v k s : sane s -> sane (judge now t v k s).
Proof.
  intros Hs. unfold judge.
  assert (Hs1 : sane (if bool_decide (h_owner s = Some t) then set_owner None 0 s else s)).
  { destruct Hs as (H1 & H2 & H3). by case_bool_decide. }
  revert Hs1. generalize (if bool_decide (h_owner s = Some t) then set_owner None 0 s else s).
  clear Hs s. intros s Hs. destruct Hs as (H1 & H2 & H3) eqn:E. clear E.
  destruct (ao_Success v).
  - unfold succeeded. simpl. destruct (decide (h_phase s = Recovering)) as [Hr | Hr];
      rewrite ?bool_decide_true, ?bool_decide_false by done; simpl.
    + unfold sane. destruct (2 <=? _); simpl; (split_and!; [done | lia | done || by rewrite Hr]).
    + unfold sane. destruct ((600000 <=? _) && _); simpl; (split_and!; [lia | done | done]).
  - destruct (bool_decide _); [|done]. unfold failed_in_scope.
    destruct (negb (ao_HealthFailure v)); [by apply cool_sane|].
    cbn. match goal with |- context [if ?b then _ else _] => destruct b end; [by apply cool_sane | done].
Qed.

Lemma reachable_sane now db : av_reachable now db -> stored_all sane db.
Proof.
  apply reachable_all.
  - done.
  - intros. by apply refresh_sane.
  - intros. by apply judge_sane.
  - intros t l s Hr (H1 & H2 & H3). unfold sane. simpl. rewrite Hr. done.
  - intros n v s (H1 & H2 & H3). done.
  - intros b s (H1 & H2 & H3). by destruct b.
Qed.
