(* ===== verification/AvailabilityProps.v ===== *)
(** * Upstream availability: theorems

    What the availability store guarantees its callers: a recovering scope is
    probed by one request at a time and only that request's verdict counts, and a
    scope that a verdict cooled comes back after its cooldown and two good probes. *)

From S2P Require Import Prelude Availability AvailabilityFacts.

(** ** One probe at a time *)

(** The caller of [token] holds the scope [k] as it stands at [now]. *)
Definition holds (now : Z) (db : availability_db) (k : scope_key) (token : string) : Prop :=
  exists p, live now db token p /\ pm_Epochs p !! k = Some (h_epoch (load now k db)).

Lemma held_owner now db k token :
  av_ok now db -> holds now db k token -> h_phase (load now k db) = Recovering ->
  h_owner (load now k db) = Some token.
Proof.
  intros Hok (p & Hl & He) Hr. destruct (load_fits now db token p k _ Hok Hl He) as [_ Hf].
  by destruct (Hf eq_refl) as [_ [? _]].
Qed.

Lemma complete_other now db k t t' v :
  av_ok now db -> h_phase (load now k db) = Recovering -> h_owner (load now k db) = Some t -> t' <> t ->
  db_scopes (complete now t' v db).2 !! k = db_scopes db !! k.
Proof.
  intros Hok Hr Ho Hne. unfold complete. destruct (unexpired now _) as [p|]; [|done].
  destruct (pm_ExpiresAt p <=? now); [done|].
  assert (H : forall l out db1, db_scopes db1 !! k = db_scopes db !! k ->
    db_scopes (foldl (complete_scope now p t' v) (out, db1) l).2 !! k = db_scopes db !! k); [|by apply H].
  induction l as [|scope l IH]; intros out db1 Hk; [done|]. cbn [foldl].
  unfold complete_scope at 2. set (s := load now (fs_Key scope) db1).
  destruct (_ && _) eqn:Hc; [|by apply IH]. apply IH. rewrite save_scopes.
  destruct (decide (fs_Key scope = k)) as [Hk' | Hk']; [|by rewrite lookup_insert_ne, Hk by done].
  assert (Hs : s = load now k db) by (unfold s, load, stored; by rewrite Hk', Hk).
  apply andb_true_iff in Hc as [_ Hc]. rewrite Hs, Hr, Ho in Hc.
  rewrite (bool_decide_true (Recovering = Recovering)) in Hc by done.
  by rewrite (bool_decide_false (Some t = Some t')) in Hc by congruence.
Qed.

Lemma acquire_denied now token lease scopes db scope until :
  scope ∈ scopes -> blocks (load now (fs_Key scope) db) until -> 0 < until ->
  exists at_ reason, acquire now token lease scopes db = (Denied at_ reason, db).
Proof.
  intros Hin Hb H0. unfold acquire. destruct (bool_decide _); [by eexists _, _|]. cbn zeta.
  set (states := _ <$> scopes).
  pose proof (denial_bound states (scope, load now (fs_Key scope) db) until (0, ""%string)) as Hle.
  unfold denial. destruct (foldl deny _ states) as [d r]. simpl in Hle.
  rewrite (proj2 (Z.ltb_lt 0 d)); [by eexists _, _|].
  enough (until <= d) by lia. apply Hle; [|done].
  apply list_elem_of_fmap. by exists scope.
Qed.

(** C33: however the calls of the gateways interleave and whatever replies are
    lost, a scope that is recovering is probed by one request at a time: while a
    request holds it, no other request holds it, every admission that needs the
    scope is refused without a trace, and the verdict of any other request leaves
    the record of the scope untouched. *)
Theorem recovering_admits_one_probe now db k t :
  av_reachable now db -> h_phase (load now k db) = Recovering -> holds now db k t ->
  (forall t', holds now db k t' -> t' = t) /\
  (forall t' lease scopes, k ∈ fs_Key <$> scopes ->
     exists at_ reason, acquire now t' lease scopes db = (Denied at_ reason, db)) /\
  (forall t' v, t' <> t -> db_scopes (complete now t' v db).2 !! k = db_scopes db !! k).
Proof.
  intros Hreach Hr Hh. pose proof (av_reachable_ok now db Hreach) as Hok.
  pose proof (held_owner now db k t Hok Hh Hr) as Ho. split_and!.
  - intros t' Hh'. pose proof (held_owner now db k t' Hok Hh' Hr) as Ho'. congruence.
  - intros t' lease scopes (scope & -> & Hin)%list_elem_of_fmap.
    apply (acquire_denied _ _ _ _ _ scope (h_lease_until (load now (fs_Key scope) db)) Hin).
    + right. rewrite Ho. eauto.
    + apply refresh_owned in Ho. pose proof (ok_now _ _ Hok). unfold load. lia.
  - intros t' v. by apply complete_other.
Qed.

(** ** A scope comes back *)

Definition ready (s : health) : Prop :=
  h_phase s = Available \/ (h_phase s = Recovering /\ h_owner s = None).

Section Probe.
Context (sc : FaultScope) (t1 t2 lease : Z) (a : string) (good : AvailabilityOutcome) (db : availability_db).
Context (Hlease : 0 < lease <= state_ttl) (Ht : t1 <= t2 < t1 + lease).
Context (Hgood : ao_Success good = true) (Hcan : db_canceled db !! a = None).
Context (s : health) (Hs : load t1 (fs_Key sc) db = s) (Hready : ready s).
#[local] Abbreviation k := (fs_Key sc).

Definition probing : health :=
  if bool_decide (h_phase s = Recovering) then set_owner (Some a) (t1 + lease) s else s.
Definition probe_permit : AdmissionPermit := MkPermit a {[k := h_epoch s]} (t1 + lease) [sc].
Definition probe_db : availability_db :=
  set_permits (<[a := (probe_permit, t1 + lease)]> (db_permits (save t1 sc probing db)))
    (save t1 sc probing db).

Lemma probe_granted : acquire t1 a lease [sc] db = (Granted probe_permit, probe_db).
Proof.
  unfold acquire. rewrite Hcan, bool_decide_false by (intros [x [=]]). cbn zeta.
  change ((fun scope => (scope, load t1 (fs_Key scope) db)) <$> [sc]) with [(sc, load t1 k db)].
  rewrite Hs. assert (Hd : denial [(sc, s)] = (0, ""%string)).
  { unfold denial, deny. cbn [foldl fst snd]. destruct Hready as [Hr | [Hr Ho]]; rewrite Hr, ?Ho; done. }
  by rewrite Hd.
Qed.

Lemma probe_loaded :
  let x := load t2 k probe_db in
  h_phase x = h_phase s /\ h_epoch x = h_epoch s /\ h_recovery_successes x = h_recovery_successes s /\
  (h_phase s = Recovering -> h_owner x = Some a).
Proof.
  unfold load. rewrite (stored_live t2 k probe_db probing
    (t1 + Z.max state_ttl (h_retry_at probing - t1 + 86400000))); [|apply lookup_insert_eq | lia].
  assert (Hp : h_phase probing = h_phase s /\ h_epoch probing = h_epoch s /\
               h_recovery_successes probing = h_recovery_successes s)
    by (unfold probing; by destruct (bool_decide _)).
  destruct Hp as (Hp & He & Hrs). cbn zeta.
  assert (Hc : h_phase s <> Cooling) by (by destruct Hready as [Hr | [Hr _]]; rewrite Hr).
  rewrite refresh_phase, refresh_epoch, refresh_owner, Hp, He, (bool_decide_false _ Hc).
  split_and!; [done | done | unfold refresh; simpl; by destruct (_ && _), (_ <=? _) |].
  intros Hr. unfold probing. rewrite bool_decide_true by done. simpl.
  by rewrite (proj2 (Z.leb_gt (t1 + lease) t2)) by lia.
Qed.

Definition probed : health := judge t2 a good k (load t2 k probe_db).

Lemma probe_completed :
  (complete t2 a good probe_db).2 =
  save t2 sc probed (set_permits (delete a (db_permits probe_db)) probe_db).
Proof.
  unfold complete. unfold probe_db at 1. cbn [db_permits set_permits]. rewrite lookup_insert_eq.
  cbn [unexpired]. rewrite (proj2 (Z.leb_le t2 (t1 + lease))) by lia. cbn [pm_ExpiresAt probe_permit].
  rewrite (proj2 (Z.leb_gt (t1 + lease) t2)) by lia. cbn [pm_Scopes probe_permit foldl]. unfold complete_scope.
  change (load t2 k (set_permits _ probe_db)) with (load t2 k probe_db).
  destruct probe_loaded as (Hp & He & Hr & Ho). cbn [pm_Epochs probe_permit].
  rewrite lookup_singleton_eq, He, bool_decide_true by done. cbn [andb].
  destruct (decide (h_phase (load t2 k probe_db) = Recovering)) as [Hd | Hd].
  - rewrite Ho by congruence. by rewrite (bool_decide_true (Some a = Some a)), orb_true_r by done.
  - by rewrite (bool_decide_false _ Hd).
Qed.

Lemma succeeded_phase now x :
  h_phase (succeeded now x) =
  (if bool_decide (h_phase x = Recovering)
   then if 2 <=? h_recovery_successes x + 1 then Available else Recovering
   else h_phase x) /\
  (h_phase x = Recovering -> h_owner (succeeded now x) = h_owner x /\
     (h_recovery_successes (succeeded now x) = h_recovery_successes x + 1)).
Proof.
  unfold succeeded. simpl. case_bool_decide as Hr; simpl.
  - by destruct (2 <=? _).
  - by destruct ((600000 <=? _) && _).
Qed.

Lemma probe_outcome t3 :
  t2 <= t3 ->
  let y := load t3 k (complete t2 a good probe_db).2 in
  ready y /\
  (h_phase y = Recovering -> h_phase s = Recovering /\
     h_recovery_successes y = h_recovery_successes s + 1 /\ h_recovery_successes s + 1 < 2).
Proof.
  intros Ht3. rewrite probe_completed. destruct probe_loaded as (Hp & He & Hr & Ho).
  set (db' := set_permits _ probe_db). unfold load, stored. rewrite save_scopes, lookup_insert_eq. cbn [unexpired].
  destruct (t3 <=? _); cbn [default from_option id];
    [|unfold ready; rewrite refresh_phase; split; [by left | done]].
  set (x := load t2 k probe_db) in *.
  set (x' := if bool_decide (h_owner x = Some a) then set_owner None 0 x else x).
  assert (Hx' : probed = succeeded t2 x' /\ h_phase x' = h_phase s /\
                h_recovery_successes x' = h_recovery_successes s /\ (h_phase s = Recovering -> h_owner x' = None)).
  { unfold probed, judge. rewrite Hgood. fold x x'. split; [done|]. unfold x'.
    case_bool_decide as Hox; simpl; split_and!; try done. intros Hs'. by destruct Hox; rewrite Ho. }
  destruct Hx' as (Hpr & Hxp & Hxr & Hxo). destruct (succeeded_phase t2 x') as [Hph Hrec].
  rewrite <- Hpr in Hph, Hrec. rewrite Hxp, Hxr in Hph, Hrec.
  unfold ready. rewrite refresh_phase, refresh_owner.
  destruct Hready as [Hs' | [Hs' _]]; rewrite Hs' in Hph, Hrec; simpl in Hph.
  - rewrite Hph. simpl. split; [by left | done].
  - destruct (Hrec eq_refl) as [Howner Hsucc]. rewrite Howner, (Hxo Hs').
    destruct (2 <=? _) eqn:H2; bool_prop; rewrite Hph; simpl; [split; [by left | done]|]. split.
    + right. split; [done|]. by destruct (_ <=? t3).
    + intros _. split_and!; [done | | lia]. rewrite <- Hsucc. unfold refresh.
      by destruct (_ && _); simpl; destruct (_ <=? t3).
Qed.
End Probe.

Lemma load_save now t k sc s db :
  now <= t -> t <= now + state_ttl ->
  load t k (save now sc s db) = if bool_decide (k = fs_Key sc) then refresh t s else load t k db.
Proof.
  intros H1 H2. unfold load, stored. rewrite save_scopes. case_bool_decide as Hk.
  - subst k. rewrite lookup_insert_eq. cbn [unexpired].
    by rewrite (proj2 (Z.leb_le t (now + Z.max state_ttl (h_retry_at s - now + 86400000)))) by lia.
  - by rewrite lookup_insert_ne by done.
Qed.

Lemma complete_canceled now t v db : db_canceled (complete now t v db).2 = db_canceled db.
Proof.
  unfold complete. destruct (unexpired now _) as [p|]; [|done]. destruct (_ <=? now); [done|].
  assert (H : forall l out db1, db_canceled db1 = db_canceled db ->
    db_canceled (foldl (complete_scope now p t v) (out, db1) l).2 = db_canceled db); [|by apply H].
  induction l as [|sc l IH]; intros out db1 Hd; [done|]. cbn [foldl]. unfold complete_scope at 2.
  destruct (_ && _); by apply IH.
Qed.

(** How long the verdict of a call cools a scope, at most: half an hour when it is about
    authentication, until the time it names when it names one, and five minutes
    otherwise. *)
Definition cooled_until (now : Z) (v : AvailabilityOutcome) : Z :=
  if ao_Authentication v then now + 1800000
  else if now <? ao_CooldownUntil v then ao_CooldownUntil v else now + 300000.

Lemma cool_bound now v s : 0 <= h_trips s -> h_retry_at (cool now v s) <= cooled_until now v.
Proof.
  intros Ht. unfold cool, cooled_until, cool_delay. destruct (ao_Authentication v); simpl.
  - rewrite andb_false_r. simpl. lia.
  - rewrite andb_true_r. destruct (now <? ao_CooldownUntil v); simpl; lia.
Qed.

Lemma judge_cooled now t v k s :
  sane s -> (h_phase s = Cooling -> h_retry_at s <= cooled_until now v) ->
  h_phase (judge now t v k s) = Cooling -> h_retry_at (judge now t v k s) <= cooled_until now v.
Proof.
  intros (Ht & _) Hs. unfold judge.
  assert (Hs1 : let s1 := if bool_decide (h_owner s = Some t) then set_owner None 0 s else s in
    0 <= h_trips s1 /\ (h_phase s1 = Cooling -> h_retry_at s1 <= cooled_until now v)) by by destruct (bool_decide _).
  revert Hs1. cbn zeta. generalize (if bool_decide (h_owner s = Some t) then set_owner None 0 s else s).
  clear s Ht Hs. intros s [Ht Hs]. destruct (ao_Success v).
  - rewrite (proj1 (succeeded_phase now s)). unfold succeeded. simpl.
    case_bool_decide; simpl; [by destruct (2 <=? _)|]. by destruct ((600000 <=? _) && _).
  - destruct (bool_decide _); [|done]. unfold failed_in_scope.
    destruct (negb (ao_HealthFailure v)); [intros _; by apply cool_bound|].
    cbn. match goal with |- context [if ?b then _ else _] => destruct b end; [|done].
    intros _. by apply cool_bound.
Qed.

Lemma complete_cooled now t v db k :
  stored_all sane db -> h_phase (load now k db) <> Cooling ->
  let db0 := (complete now t v db).2 in
  h_phase (load now k db0) = Cooling -> h_retry_at (load now k db0) <= cooled_until now v.
Proof.
  intros Hall Hk. unfold complete. destruct (unexpired now _) as [p|]; [|done].
  destruct (_ <=? now); [done|].
  assert (H : forall l out db1, stored_all sane db1 ->
    (h_phase (load now k db1) = Cooling -> h_retry_at (load now k db1) <= cooled_until now v) ->
    let db0 := (foldl (complete_scope now p t v) (out, db1) l).2 in
    h_phase (load now k db0) = Cooling -> h_retry_at (load now k db0) <= cooled_until now v).
  { induction l as [|sc l IH]; intros out db1 Hd Hb; [done|]. cbn [foldl]. unfold complete_scope at 2 4.
    destruct (_ && _); apply IH; [| | done | done].
    - apply all_save; [|done]. apply judge_sane, all_load; [done | intros; by apply refresh_sane | done].
    - rewrite load_save by (unfold state_ttl; lia). case_bool_decide as Heq; [|done].
      set (s := load now (fs_Key sc) db1). set (s' := judge now t v (fs_Key sc) s).
      rewrite refresh_phase, refresh_retry. destruct (_ && _); [done|]. intros Hp.
      assert (Hsane : sane s) by (apply all_load; [done | intros; by apply refresh_sane | done]).
      apply judge_cooled; [done | | done]. unfold s. by rewrite <- Heq. }
  apply H; [done | by intros ?].
Qed.

Lemma cooled_ready now t1 k db :
  stored_all sane db -> now <= t1 -> h_phase (load now k db) = Cooling -> h_retry_at (load now k db) <= t1 ->
  ready (load t1 k db) /\ 0 <= h_recovery_successes (load t1 k db).
Proof.
  intros Hall Ht. unfold load. rewrite refresh_phase, refresh_retry. destruct (_ && _); [done|].
  intros Hc Hr. unfold stored in *. destruct (db_scopes db !! k) as [[s u]|] eqn:Hk; [|done]. cbn [unexpired] in *.
  destruct (now <=? u) eqn:Hu; [|done]. cbn [default from_option id] in *.
  destruct (Hall k s u Hk) as (_ & Hrec & Ho). unfold ready.
  destruct (t1 <=? u); cbn [default from_option id]; rewrite refresh_phase, refresh_owner.
  - rewrite Hc, (proj2 (Z.leb_le _ t1) Hr), (Ho Hc). simpl.
    split; [right; split; [done|]; by destruct (_ <=? t1)|].
    unfold refresh. destruct (_ && _); simpl; by destruct (h_lease_until s <=? t1).
  - split; [by left|]. unfold refresh. simpl. by destruct (0 <=? t1).
Qed.

(** C34: in every reachable state a scope that the verdict of a call cools is back in
    service after the cooldown and two good probes. The cooldown is over by
    [cooled_until]: half an hour after a verdict about authentication, the time the
    verdict names when it is still to come, and five minutes later otherwise. From
    then on a caller asking for a permit of that scope alone is admitted; when its
    call succeeds within its lease a second one is; and once that succeeds within its
    lease the scope is available, for any lease up to the seven days a record is kept.
    The four calls are the only ones in between, and the two tokens are not canceled:
    a competitor holding the single probe, or a failure, delays the recovery. *)
Theorem cooled_scope_recovers t0 t1 t2 t3 t4 db tok v sc a b lease good :
  av_reachable t0 db ->
  let db0 := (complete t0 tok v db).2 in
  h_phase (load t0 (fs_Key sc) db) <> Cooling -> h_phase (load t0 (fs_Key sc) db0) = Cooling ->
  db_canceled db !! a = None -> db_canceled db !! b = None ->
  ao_Success good = true -> 0 < lease <= state_ttl ->
  cooled_until t0 v <= t1 -> t1 <= t2 < t1 + lease -> t2 <= t3 -> t3 <= t4 < t3 + lease ->
  exists p db1 out1 db2 p' db3 out2 db4,
    acquire t1 a lease [sc] db0 = (Granted p, db1) /\ complete t2 a good db1 = (out1, db2) /\
    acquire t3 b lease [sc] db2 = (Granted p', db3) /\ complete t4 b good db3 = (out2, db4) /\
    h_phase (load t4 (fs_Key sc) db4) = Available.
Proof.
  intros Hreach db0 Hnc Hc Ha Hb Hgood Hl H1 H2 H3 H4.
  pose proof (ok_now _ _ (av_reachable_ok _ _ Hreach)) as H0.
  pose proof (reachable_sane _ _ Hreach) as Hsane.
  assert (Hr := complete_cooled t0 tok v db (fs_Key sc) Hsane Hnc Hc).
  assert (Hsane0 : stored_all sane db0).
  { apply all_complete; [done | intros; by apply refresh_sane | intros; by apply judge_sane | done]. }
  assert (Hcan0 : db_canceled db0 = db_canceled db) by apply complete_canceled.
  fold db0 in Hr.
  assert (Hle : t0 <= cooled_until t0 v)
    by (unfold cooled_until; destruct (ao_Authentication v); [lia|]; destruct (Z.ltb_spec t0 (ao_CooldownUntil v)); lia).
  destruct (cooled_ready t0 t1 (fs_Key sc) db0 Hsane0 ltac:(lia) Hc (Z.le_trans _ _ _ Hr H1)) as [Hr1 Hrec1].
  assert (Ha0 : db_canceled db0 !! a = None) by (by rewrite Hcan0).
  pose proof (probe_granted sc t1 lease a db0 Ha0 _ eq_refl Hr1) as Hg1.
  set (db1 := probe_db sc t1 lease a db0 (load t1 (fs_Key sc) db0)) in *.
  set (db2 := (complete t2 a good db1).2).
  destruct (probe_outcome sc t1 t2 lease a good db0 Hl H2 Hgood _ Hr1 t3 H3) as [Hr3 Hrec3].
  fold db1 db2 in Hr3, Hrec3.
  assert (Hb2 : db_canceled db2 !! b = None) by (unfold db2; by rewrite complete_canceled; simpl; rewrite Hcan0).
  pose proof (probe_granted sc t3 lease b db2 Hb2 _ eq_refl Hr3) as Hg3.
  set (db3 := probe_db sc t3 lease b db2 (load t3 (fs_Key sc) db2)) in *.
  destruct (probe_outcome sc t3 t4 lease b good db2 Hl H4 Hgood _ Hr3 t4 (Z.le_refl t4)) as [Hr4 Hrec4].
  fold db3 in Hr4, Hrec4.
  eexists _, db1, _, db2, _, db3, _, _. split_and!;
    [exact Hg1 | apply surjective_pairing | exact Hg3 | apply surjective_pairing |].
  destruct Hr4 as [Hr4 | [Hr4 _]]; [done|]. destruct (Hrec4 Hr4) as (Hp3 & _ & Hlt).
  destruct (Hrec3 Hp3) as (_ & Heq & _). lia.
Qed.

(** ** Witnesses *)

Definition demo_scope : FaultScope := NewFaultScope "transport" "direct_upstream" "acc" "ep" "" "" "".
Definition demo_paused : availability_db :=
  (Suspend Executed 1000 demo_scope 2000 "manual" empty_availability).2.
Definition demo_probe := Acquire Executed Executed 3000 3000 "t1" 60000 [demo_scope] demo_paused.

Lemma demo_av_reachable : av_reachable 3000 demo_probe.2.
Proof.
  apply (av_next 1000 demo_paused); [apply (av_next 0 empty_availability)|].
  - apply av_start. lia.
  - apply av_suspend. lia.
  - apply av_acquire; [lia | unfold state_ttl; lia].
Qed.

Lemma demo_holds : holds 3000 demo_probe.2 (fs_Key demo_scope) "t1".
Proof.
  exists (MkPermit "t1" {[fs_Key demo_scope := 1]} 63000 [demo_scope]).
  split; [split; [exists 63000; vm_compute; reflexivity | vm_compute; reflexivity] | vm_compute; reflexivity].
Qed.

Lemma recovering_admits_one_probe_witness :
  holds 3000 demo_probe.2 (fs_Key demo_scope) "t1" /\
  exists at_ reason, acquire 3000 "t2" 60000 [demo_scope] demo_probe.2 = (Denied at_ reason, demo_probe.2).
Proof.
  split; [exact demo_holds|].
  apply (proj1 (proj2 (recovering_admits_one_probe 3000 demo_probe.2 (fs_Key demo_scope) "t1" demo_av_reachable
    ltac:(vm_compute; reflexivity) demo_holds)) "t2" 60000 [demo_scope]).
  constructor.
Defined.

Definition demo_limited : AvailabilityOutcome :=
  MkOutcome false (Some (fs_Key demo_scope)) "rate_limited" false 0 false.
Definition demo_good : AvailabilityOutcome := MkOutcome true None "success" false 0 false.
Definition demo_called : availability_db :=
  (Acquire Executed Executed 1000 1000 "t0" 60000 [demo_scope] empty_availability).2.

Lemma demo_called_reachable : av_reachable 1000 demo_called.
Proof.
  apply (av_next 0 empty_availability); [apply av_start; lia|].
  apply av_acquire; [lia | unfold state_ttl; lia].
Qed.

(** A verdict about authentication: the scope cools for half an hour. *)
Definition demo_refused : AvailabilityOutcome :=
  MkOutcome false (Some (fs_Key demo_scope)) "auth" false 0 true.

Lemma cooled_scope_recovers_witness :
  (exists p db1 out1 db2 p' db3 out2 db4,
    acquire 301000 "a" 60000 [demo_scope] (complete 1000 "t0" demo_limited demo_called).2 = (Granted p, db1) /\
    complete 302000 "a" demo_good db1 = (out1, db2) /\
    acquire 303000 "b" 60000 [demo_scope] db2 = (Granted p', db3) /\
    complete 304000 "b" demo_good db3 = (out2, db4) /\
    h_phase (load 304000 (fs_Key demo_scope) db4) = Available) /\
  (exists p db1 out1 db2 p' db3 out2 db4,
    acquire 1801000 "a" 60000 [demo_scope] (complete 1000 "t0" demo_refused demo_called).2 = (Granted p, db1) /\
    complete 1802000 "a" demo_good db1 = (out1, db2) /\
    acquire 1803000 "b" 60000 [demo_scope] db2 = (Granted p', db3) /\
    complete 1804000 "b" demo_good db3 = (out2, db4) /\
    h_phase (load 1804000 (fs_Key demo_scope) db4) = Available) /\
  exists at_ reason db1, acquire 1800000 "a" 60000 [demo_scope] (complete 1000 "t0" demo_refused demo_called).2 =
    (Denied at_ reason, db1).
Proof.
  split; [|split; [|do 3 eexists; vm_compute; reflexivity]].
  - apply (cooled_scope_recovers 1000 301000 302000 303000 304000 demo_called "t0" demo_limited demo_scope
      "a" "b" 60000 demo_good demo_called_reachable);
      first [vm_compute; reflexivity | vm_compute; discriminate | unfold state_ttl; cbn; lia].
  - apply (cooled_scope_recovers 1000 1801000 1802000 1803000 1804000 demo_called "t0" demo_refused demo_scope
      "a" "b" 60000 demo_good demo_called_reachable);
      first [vm_compute; reflexivity | vm_compute; discriminate | unfold state_ttl; cbn; lia].
Defined.
