(* ===== verification/Classify.v ===== *)
(** * Outcomes of an upstream call

    Models [src/internal/ai/serving/classifier.go], the verdicts of
    [availability.go] on them, and [src/internal/ai/upstreamquota/errors.go].  A
    response is given by what the code reads of it: the status, the decoded error
    envelope and the limits its headers report, with the times they name already
    parsed. *)

From S2P Require Import Prelude GoStrings.
#[global] Open Scope Z_scope.

Definition Contains (s sub : string) : bool := bool_decide (is_Some (String.index 0 sub s)).
Definition HasSuffix (s suffix : string) : bool :=
  let n := String.length s in let m := String.length suffix in
  (m <=? n)%nat && String.eqb (String.substring (n - m) m s) suffix.
(** [strings.Trim] of double quotes *)
Fixpoint trim_left_quotes (l : list Ascii.ascii) : list Ascii.ascii :=
  match l with
  | c :: l' => if (Ascii.nat_of_ascii c =? 34)%nat then trim_left_quotes l' else l
  | [] => []
  end.
Definition TrimQuotes (s : string) : string :=
  String.string_of_list_ascii
    (rev (trim_left_quotes (rev (trim_left_quotes (String.list_ascii_of_string s))))).

(** ** Results and decisions *)

Inductive ResultStatus :=
| ResultUnknown | ResultSuccess | ResultClientError | ResultUnauthorized | ResultRateLimited
| ResultServerError | ResultTimeout | ResultNetwork | ResultCanceled | ResultCircuitOpen
| ResultRejected | ResultModelError | ResultPolicyRejected | ResultQuotaExhausted
| ResultCapacityExhausted.
#[global] Instance ResultStatus_eq_dec : EqDecision ResultStatus.
Proof. solve_decision. Defined.

(** [ResultStatus.String] *)
Definition status_string (s : ResultStatus) : string :=
  match s with
  | ResultQuotaExhausted => "quota_exhausted"
  | ResultCapacityExhausted => "capacity_exhausted"
  | ResultPolicyRejected => "policy_rejected"
  | ResultModelError => "model_error"
  | ResultSuccess => "success"
  | ResultClientError => "client_error"
  | ResultUnauthorized => "unauthorized"
  | ResultRateLimited => "rate_limited"
  | ResultServerError => "server_error"
  | ResultTimeout => "timeout"
  | ResultNetwork => "network_error"
  | ResultCanceled => "canceled"
  | ResultCircuitOpen => "circuit_open"
  | ResultRejected => "rejected"
  | ResultUnknown => "unknown"
  end.

(** What the code asks of a transport error: [errors.Is] of a cancellation, of a
    phase timeout or a deadline or a timed out [net.Error], [errors.As] of a
    [net.DNSError], and of a [net.OpError] while dialling. *)
Record call_error := MkCallError {
  ce_Canceled : bool; ce_Timeout : bool; ce_DNS : bool; ce_Dial : bool }.

(** [AttemptOutcome] *)
Record Outcome := MkAttemptOutcome {
  oc_ErrorCode : string;
  oc_Status : ResultStatus;
  oc_RetryAt : Z;
  oc_HTTPStatus : Z;
  oc_Err : option call_error }.

Inductive Decision :=
| DecisionAccept | DecisionRetry | DecisionRetryNewCred | DecisionGiveUp | DecisionRetrySameCred.
#[global] Instance Decision_eq_dec : EqDecision Decision.
Proof. solve_decision. Defined.

(** [ClassifyOutcome] *)
Definition ClassifyOutcome (httpStatus : Z) (err : option call_error) : Outcome :=
  match err with
  | Some e =>
      let s := if ce_Canceled e then ResultCanceled else if ce_Timeout e then ResultTimeout
               else ResultNetwork in
      MkAttemptOutcome "" s 0 0 err
  | None =>
      let s := if (200 <=? httpStatus) && (httpStatus <? 300) then ResultSuccess
               else if (httpStatus =? 401) || (httpStatus =? 403) then ResultUnauthorized
               else if httpStatus =? 429 then ResultRateLimited
               else if 500 <=? httpStatus then ResultServerError
               else if 400 <=? httpStatus then ResultClientError
               else ResultUnknown in
      MkAttemptOutcome "" s 0 httpStatus None
  end.

(** [Outcome.Decision] *)
Definition decide_outcome (o : Outcome) (hasCredential : bool) : Decision :=
  match oc_Status o with
  | ResultSuccess => DecisionAccept
  | ResultUnauthorized => if hasCredential then DecisionRetryNewCred else DecisionRetry
  | ResultPolicyRejected | ResultModelError | ResultRateLimited | ResultQuotaExhausted
  | ResultCapacityExhausted | ResultServerError | ResultTimeout | ResultNetwork => DecisionRetry
  | ResultClientError | ResultCanceled => DecisionGiveUp
  | _ => DecisionRetry
  end.

(** ** Error bodies ([upstreamquota/errors.go]) *)

(** A detail of the error: its type, the retry time of a [RetryInfo] and the
    number of violations of a [QuotaFailure]. *)
Record error_detail := MkDetail { ed_Type : string; ed_RetryAt : Z; ed_Violations : Z }.

(** The decoded [error] object, its code as the raw text. *)
Record error_envelope := MkEnvelope {
  ee_Code : string; ee_Type : string; ee_Status : string; ee_Message : string;
  ee_Resets : list Z; ee_RetryAfter : Z; ee_Details : list error_detail }.
Definition no_envelope : error_envelope := MkEnvelope "" "" "" "" [] 0 [].

(** What the headers of a response report: the retry time of [retryAfter], the
    mark of [upstreamcompat.ProbeBlock] and the resets of exhausted limits. *)
Record header_facts := MkHeaders {
  hf_RetryAfter : Z; hf_ProbeBlocked : bool; hf_Resets : list Z }.
Definition no_headers : header_facts := MkHeaders 0 false [].

Record ErrorFacts := MkFacts {
  ef_QuotaExhausted : bool; ef_CapacityExhausted : bool; ef_RetryAt : Z }.

Definition quota_codes : list string :=
  ["usage_limit_reached"; "insufficient_quota"; "quota_exceeded"; "quota_exhausted";
   "billing_hard_limit_reached"]%string.

Definition max_list (l : list Z) : Z := foldl Z.max 0 l.

(** [upstreamquota.ClassifyError] *)
Definition ClassifyError (status : Z) (h : header_facts) (e : error_envelope) : ErrorFacts :=
  if negb ((status =? 429) || (status =? 503) || (status =? 402)) then MkFacts false false 0
  else
    let code := ToLower (ee_Code e +:+ " " +:+ ee_Type e +:+ " " +:+ ee_Status e) in
    let quota := existsb (Contains code) quota_codes
      || existsb (fun d => HasSuffix (ed_Type d) "google.rpc.QuotaFailure" && (0 <? ed_Violations d))
           (ee_Details e) in
    let retries := (fun d => if HasSuffix (ed_Type d) "google.rpc.RetryInfo" then ed_RetryAt d else 0)
                     <$> ee_Details e in
    let message := ToLower (ee_Message e) in
    MkFacts quota
      (negb quota && (Contains code "capacity_exhausted" || Contains code "model_overloaded"
        || Contains message "resource exhausted, please try again later"
        || Contains message "model is at capacity" || Contains message "shared capacity"))
      (max_list (retries ++ ee_Resets e ++ [ee_RetryAfter e] ++ hf_Resets h)).

(** [upstreamcompat.ProbeBlockedCode], [ProbeBlockedMessage] *)
Definition ProbeBlockedCode : string := "upstream_probe_blocked".
Definition ProbeBlockedMessage : string :=
  "the upstream rejected this request as a probe; check the upstream anti-probe policy or use a representative request".

Definition model_codes : list string :=
  ["model_not_found"; "model_not_available"; "model_access"; "unsupported_model"; "insufficient_quota"]%string.
Definition auth_codes : list string :=
  ["invalid_api_key"; "invalid_token"; "authentication_error"; "invalid_grant"; "unauthenticated"]%string.

Definition set_result_status (s : ResultStatus) (o : Outcome) : Outcome :=
  MkAttemptOutcome (oc_ErrorCode o) s (oc_RetryAt o) (oc_HTTPStatus o) (oc_Err o).

(** [ClassifyResponse] *)
Definition ClassifyResponse (status : Z) (h : header_facts) (e : error_envelope)
    (err : option call_error) : Outcome :=
  let out := ClassifyOutcome status err in
  if bool_decide (err = None) && (200 <=? status) && (status <? 300) && hf_ProbeBlocked h
  then MkAttemptOutcome ProbeBlockedCode ResultPolicyRejected 0 status None
  else match err with
  | Some _ => MkAttemptOutcome "" (oc_Status out) (hf_RetryAfter h) (oc_HTTPStatus out) err
  | None =>
      let code := TrimQuotes (ee_Code e) in
      let code := if String.eqb code "" || String.eqb code "null" then ee_Type e else code in
      let code := if String.eqb code "" then ee_Status e else code in
      let lower := ToLower (code +:+ " " +:+ ee_Type e +:+ " " +:+ ee_Status e) in
      let facts := ClassifyError status h e in
      let out := MkAttemptOutcome code (oc_Status out) (Z.max (hf_RetryAfter h) (ef_RetryAt facts))
                   (oc_HTTPStatus out) None in
      if ef_QuotaExhausted facts then set_result_status ResultQuotaExhausted out
      else if ef_CapacityExhausted facts then set_result_status ResultCapacityExhausted out
      else if status =? 429 then out
      else
        let modelError := existsb (Contains lower) model_codes in
        let authError := existsb (Contains lower) auth_codes in
        let out := if (status =? 403) && negb authError && negb modelError
                   then set_result_status ResultServerError out else out in
        let out := if (status =? 404) || modelError then set_result_status ResultModelError out else out in
        if authError then set_result_status ResultUnauthorized out else out
  end.

(** [upstreamStatusToGateway] *)
Definition upstreamStatusToGateway (code : Z) : Z :=
  if code =? 0 then 502
  else if code =? 429 then 429
  else if 500 <=? code then 502
  else if (code =? 401) || (code =? 403) then 502
  else code.

(** [ambiguousImageTransport] *)
Definition ambiguousImageTransport (o : Outcome) : bool :=
  bool_decide (oc_Status o = ResultTimeout)
  || (bool_decide (oc_Status o = ResultNetwork)
      && match oc_Err o with
         | Some e => negb (ce_DNS e) && negb (ce_Dial e)
         | None => true
         end).

(** ** Facts *)

Lemma ClassifyOutcome_success st err :
  oc_Status (ClassifyOutcome st err) = ResultSuccess -> err = None /\ 200 <= st < 300.
Proof.
  unfold ClassifyOutcome. destruct err as [e|]; cbn [oc_Status].
  - by repeat case_match.
  - destruct (_ && _) eqn:H; [|by repeat case_match]. intros _. bool_prop. split; [done | lia].
Qed.

(** The status code of the response, none when the call failed. *)
Lemma ClassifyResponse_http st h e err :
  oc_HTTPStatus (ClassifyResponse st h e err) = match err with Some _ => 0 | None => st end.
Proof.
  unfold ClassifyResponse. destruct err as [er|]; [done|]. cbn zeta.
  destruct (_ && _); [done|]. by repeat case_match.
Qed.

(** Only a successful status is a success. *)
Lemma ClassifyResponse_success st h e err :
  oc_Status (ClassifyResponse st h e err) = ResultSuccess -> err = None /\ 200 <= st < 300.
Proof.
  unfold ClassifyResponse. destruct (_ && _); [done|]. destruct err as [er|]; cbn [oc_Status].
  - by intros ?%ClassifyOutcome_success.
  - intros Hs. split; [done|]. apply (ClassifyOutcome_success st None). revert Hs. cbn zeta.
    repeat case_match; simpl; done.
Qed.

(** A credential is replaced only where there is one. *)
Lemma decide_new_credential o cred :
  decide_outcome o cred = DecisionRetryNewCred -> cred = true.
Proof. unfold decide_outcome. destruct (oc_Status o), cred; done. Qed.
Lemma decide_accept o cred : decide_outcome o cred = DecisionAccept -> oc_Status o = ResultSuccess.
Proof. unfold decide_outcome. destruct (oc_Status o), cred; done. Qed.
