(* ===== verification/Ledger.v ===== *)
(** * The balance ledger

    Models [src/internal/billing/ledger]: the signed account balance, the
    credit lots that attribute it, and every operation that moves money.  The
    state is the pair of tables [bill_accounts] and [bill_credit_lots]; lots are
    kept in order of insertion (their [id] column).  Columns no operation reads
    ([updated_at], the accounts' [created_at]) are left out.  Timestamps are
    integers.  Each operation runs inside the caller's transaction, so it is a
    [Tx]: an error discards its writes. *)

From S2P Require Import Prelude.

(** ** Data *)

Definition KindTenant : Z := 1.
Definition KindUser : Z := 2.

(** [Kind.Valid] *)
Definition kind_valid (k : Z) : bool := (k =? KindTenant) || (k =? KindUser).

(** [ledger.Ref] *)
Record Ref := MkRef { ref_kind : Z; ref_id : string; ref_tenant_id : string }.

Record account := Account {
  account_kind : Z;
  account_tenant_id : string;
  balance_micro : Z }.

Record credit_lot := CreditLot {
  lot_id : string;
  lot_account_id : string;
  granted_micro : Z;
  consumed_micro : Z;
  expires_at : option Z;
  expired_at : option Z;
  expired_unused_micro : option Z;
  revoked_at : option Z;
  lot_source : string;
  recharge_order_id : option string;
  lot_created_at : Z }.

Record ledger_db := LedgerDB {
  bill_accounts : gmap string account;
  bill_credit_lots : list credit_lot }.

Inductive ledger_error :=
| ErrAccountNotFound (id : string)
| ErrInsufficientBalance (id : string)
| ErrRefundReversalUnreconciled (order : string)
| ErrLedgerText (msg : string)
| ErrLedgerSQL (msg : string).

Abbreviation LTx := (Tx ledger_db ledger_error).

(** ** Statements on the two tables *)

Definition set_accounts (m : gmap string account) (db : ledger_db) : ledger_db :=
  LedgerDB m (bill_credit_lots db).
Definition set_lots (l : list credit_lot) (db : ledger_db) : ledger_db :=
  LedgerDB (bill_accounts db) l.

(** A [bigint] expression of an UPDATE: the statement fails out of range. *)
Definition sql_bigint (z : Z) : LTx Z :=
  if in_int64 z then tx_ret z else tx_fail (ErrLedgerSQL "bigint out of range").

(** [UPDATE bill_accounts SET balance_micro = balance_micro + delta
     WHERE account_id = id AND cond]; the result is [RowsAffected]. *)
Definition update_balance (id : string) (delta : Z) (cond : account -> bool) : LTx Z :=
  let! db := tx_get in
  match bill_accounts db !! id with
  | None => tx_ret 0
  | Some a =>
      if cond a then
        let! b := sql_bigint (balance_micro a + delta) in
        tx_put (set_accounts
          (<[id := Account (account_kind a) (account_tenant_id a) b]> (bill_accounts db)) db) ;;;
        tx_ret 1
      else tx_ret 0
  end.

(** [UPDATE bill_credit_lots SET f WHERE p] *)
Definition update_lots (p : credit_lot -> bool) (f : credit_lot -> credit_lot) : LTx unit :=
  let! db := tx_get in
  tx_put (set_lots (update_where p f (bill_credit_lots db)) db).

Definition with_consumed (c : Z) (l : credit_lot) : credit_lot :=
  CreditLot (lot_id l) (lot_account_id l) (granted_micro l) c (expires_at l)
    (expired_at l) (expired_unused_micro l) (revoked_at l) (lot_source l)
    (recharge_order_id l) (lot_created_at l).
(** [SET revoked_at = now(), consumed_micro = granted_micro] *)
Definition revoke_lot (now : Z) (l : credit_lot) : credit_lot :=
  CreditLot (lot_id l) (lot_account_id l) (granted_micro l) (granted_micro l) (expires_at l)
    (expired_at l) (expired_unused_micro l) (Some now) (lot_source l)
    (recharge_order_id l) (lot_created_at l).
(** [SET expired_at = now, expired_unused_micro = unused] *)
Definition expire_lot (now unused : Z) (l : credit_lot) : credit_lot :=
  CreditLot (lot_id l) (lot_account_id l) (granted_micro l) (consumed_micro l) (expires_at l)
    (Some now) (Some unused) (revoked_at l) (lot_source l)
    (recharge_order_id l) (lot_created_at l).

(** [expired_at IS NULL AND revoked_at IS NULL] *)
Definition lot_open (l : credit_lot) : bool :=
  match expired_at l, revoked_at l with None, None => true | _, _ => false end.

Definition lot_of_order (order : string) (l : credit_lot) : bool :=
  bool_decide (recharge_order_id l = Some order).
Definition lot_of_account (id : string) (l : credit_lot) : bool :=
  bool_decide (lot_account_id l = id).

(** The CHECK on [bill_credit_lots.source]. *)
Definition lot_source_ok (s : string) : bool :=
  bool_decide (s ∈ ["ADMIN_RECHARGE"; "TENANT_RECHARGE"; "REFUND"; "ONLINE_TOPUP";
                    "USER_TOPUP_INCOME"]).

(** ** Reads *)

(** [Balances]: the balance of every named account that has a row. *)
Definition Balances (refs : list Ref) (db : ledger_db) : gmap string Z :=
  filter (fun '(id, _) => id <> ""%string /\ id ∈ (ref_id <$> refs))
         (balance_micro <$> bill_accounts db).

Definition Balance (ref : Ref) : LTx Z :=
  let! db := tx_get in
  match Balances [ref] db !! ref_id ref with
  | None => tx_fail (ErrAccountNotFound (ref_id ref))
  | Some b => tx_ret b
  end.

(** ** Writes *)

Definition EnsureAccount (ref : Ref) : LTx unit :=
  tx_guard (negb (kind_valid (ref_kind ref)) || bool_decide (ref_id ref = ""%string))
    (ErrLedgerText "invalid account ref") ;;;
  let tenantID := if ref_kind ref =? KindTenant then ref_id ref else ref_tenant_id ref in
  tx_guard (bool_decide (tenantID = ""%string))
    (ErrLedgerText "tenant id is required for account") ;;;
  let! db := tx_get in
  match bill_accounts db !! ref_id ref with
  | Some _ => tx_ret tt
  | None => tx_put (set_accounts
      (<[ref_id ref := Account (ref_kind ref) tenantID 0]> (bill_accounts db)) db)
  end.

(** The rows [consumeLots] reads: open lots with something left, soonest
    expiry first, permanent lots last, oldest first among equals. *)
Definition lot_leb (a b : credit_lot) : bool :=
  match expires_at a, expires_at b with
  | Some x, Some y => (x <? y) || ((x =? y) && (lot_created_at a <=? lot_created_at b))
  | Some _, None => true
  | None, Some _ => false
  | None, None => lot_created_at a <=? lot_created_at b
  end.
Definition consumable (accountID : string) (l : credit_lot) : bool :=
  lot_of_account accountID l && lot_open l && (consumed_micro l <? granted_micro l).
Definition consumable_lots (accountID : string) (db : ledger_db) : list (string * Z) :=
  (fun l => (lot_id l, granted_micro l - consumed_micro l)) <$>
    order_by lot_leb (List.filter (consumable accountID) (bill_credit_lots db)).

(** [SET consumed_micro = consumed_micro + applied WHERE lot_id = id] *)
Definition add_consumed (id : string) (applied : Z) : LTx unit :=
  update_lots (has_key lot_id id) (fun l => with_consumed (consumed_micro l + applied) l).

Fixpoint consume_loop (lots : list (string * Z)) (outstanding : Z) : LTx unit :=
  match lots with
  | [] => tx_ret tt
  | (id, remaining) :: lots' =>
      if outstanding <=? 0 then tx_ret tt (* break *)
      else
        let applied := Z.min outstanding remaining in
        if applied <=? 0 then consume_loop lots' outstanding (* continue *)
        else add_consumed id applied ;;;
             consume_loop lots' (outstanding - applied)
  end.

Definition consumeLots (accountID : string) (micro : Z) : LTx unit :=
  let! db := tx_get in
  consume_loop (consumable_lots accountID db) micro.

Definition Charge (ref : Ref) (micro : Z) : LTx unit :=
  if micro <? 0 then tx_fail (ErrLedgerText "charge amount must not be negative")
  else if micro =? 0 then tx_ret tt
  else if bool_decide (ref_id ref = ""%string)
  then tx_fail (ErrLedgerText "charge requires an account id")
  else
    let! n := update_balance (ref_id ref) (- micro) (fun _ => true) in
    if n =? 0 then tx_fail (ErrAccountNotFound (ref_id ref))
    else consumeLots (ref_id ref) micro.

Definition ChargeIfFunded (ref : Ref) (micro : Z) : LTx unit :=
  if micro <? 0 then tx_fail (ErrLedgerText "charge amount must not be negative")
  else if micro =? 0 then tx_ret tt
  else if bool_decide (ref_id ref = ""%string)
  then tx_fail (ErrLedgerText "charge requires an account id")
  else
    let! n := update_balance (ref_id ref) (- micro) (fun a => micro <=? balance_micro a) in
    if n =? 0 then
      let! db := tx_get in
      match bill_accounts db !! ref_id ref with
      | None => tx_fail (ErrAccountNotFound (ref_id ref))
      | Some _ => tx_fail (ErrInsufficientBalance (ref_id ref))
      end
    else consumeLots (ref_id ref) micro.

(** [INSERT INTO bill_credit_lots] with the table's UNIQUE and CHECK constraints. *)
Definition insert_lot (l : credit_lot) : LTx unit :=
  let! db := tx_get in
  tx_guard (bool_decide (lot_id l ∈ (lot_id <$> bill_credit_lots db)))
    (ErrLedgerSQL "duplicate lot_id") ;;;
  tx_guard (negb (lot_source_ok (lot_source l)) || (granted_micro l <=? 0))
    (ErrLedgerSQL "bill_credit_lots check") ;;;
  tx_put (set_lots (bill_credit_lots db ++ [l]) db).

(** [NULLIF(s, '')] *)
Definition nullif (s : string) : option string :=
  if bool_decide (s = ""%string) then None else Some s.

(** [uuid] is the text of the generated UUID and [now] the transaction's time. *)
Definition Grant (now : Z) (uuid : string) (ref : Ref) (micro : Z) (expiresAt : option Z)
    (source rechargeOrderID : string) : LTx string :=
  if micro <=? 0 then tx_fail (ErrLedgerText "grant amount must be positive")
  else if bool_decide (ref_id ref = ""%string)
  then tx_fail (ErrLedgerText "grant requires an account id")
  else
    let! db := tx_get in
    match bill_accounts db !! ref_id ref with
    | None => tx_fail (ErrAccountNotFound (ref_id ref))
    | Some a =>
        update_balance (ref_id ref) micro (fun _ => true) ;;;
        let balanceBefore := balance_micro a in
        let lotMicro := if balanceBefore <? 0 then wrap64 (micro + balanceBefore) else micro in
        if lotMicro <=? 0 then tx_ret ""%string
        else
          let lotID := ("LOT_" +:+ String.substring 0 24 uuid)%string in
          insert_lot (CreditLot lotID (ref_id ref) lotMicro 0 expiresAt None None None
                        source (nullif rechargeOrderID) now) ;;;
          tx_ret lotID
    end.

(** ** Reversal and expiry *)

Section LockingOperations.
(** The collation [ORDER BY account_id] uses. *)
Context (text_leb : string -> string -> bool).

(** [SELECT DISTINCT account_id ... ORDER BY account_id] *)
Definition distinct_accounts (p : credit_lot -> bool) (db : ledger_db) : list string :=
  order_by text_leb
    (remove_dups (lot_account_id <$> List.filter p (bill_credit_lots db))).

Definition activeOrderAccountIDs (order : string) (db : ledger_db) : list string :=
  distinct_accounts (fun l => lot_of_order order l && lot_open l) db.

Definition lot_due (now : Z) (l : credit_lot) : bool :=
  lot_open l && match expires_at l with Some t => t <=? now | None => false end.

Definition dueLotAccountIDs (now limit : Z) (db : ledger_db) : list string :=
  take (Z.to_nat limit) (distinct_accounts (lot_due now) db).

(** [SELECT ... FOR UPDATE] on each account row, which must exist. *)
Definition lockAccounts (accountIDs : list string) : LTx unit :=
  tx_iter (fun id =>
    let! db := tx_get in
    match bill_accounts db !! id with
    | None => tx_fail (ErrAccountNotFound id)
    | Some _ => tx_ret tt
    end) accountIDs.

Record Revocation := MkRevocation {
  LotIDs : list string;
  GrantedMicro : Z;
  ReclaimedMicro : Z }.

Definition SpentMicro (r : Revocation) : Z := wrap64 (GrantedMicro r - ReclaimedMicro r).

(** [lot.remaining = max(grantedMicro-consumedMicro, 0)] *)
Definition lot_remaining (l : credit_lot) : Z :=
  Z.max (wrap64 (granted_micro l - consumed_micro l)) 0.

Definition revoke_step (now : Z) (out : Revocation) (l : credit_lot) : LTx Revocation :=
  let out := MkRevocation (LotIDs out ++ [lot_id l])
               (wrap64 (GrantedMicro out + granted_micro l)) (ReclaimedMicro out) in
  let! out :=
    (if 0 <? lot_remaining l then
       update_balance (lot_account_id l) (- lot_remaining l) (fun _ => true) ;;;
       tx_ret (MkRevocation (LotIDs out) (GrantedMicro out)
                 (wrap64 (ReclaimedMicro out + lot_remaining l)))
     else tx_ret out) in
  update_lots (has_key lot_id (lot_id l)) (revoke_lot now) ;;;
  tx_ret out.

Definition RevokeOrderLots (now : Z) (rechargeOrderID : string) : LTx Revocation :=
  if bool_decide (rechargeOrderID = ""%string)
  then tx_fail (ErrLedgerText "revoke requires a recharge order id")
  else
    let! db := tx_get in
    lockAccounts (activeOrderAccountIDs rechargeOrderID db) ;;;
    let lots := List.filter (fun l => lot_of_order rechargeOrderID l && lot_open l)
                  (bill_credit_lots db) in
    tx_fold (revoke_step now) lots (MkRevocation [] 0 0).

(** [UPDATE ... SET expired_at, expired_unused_micro] with the column's CHECK. *)
Definition expire_step (now : Z) (l : credit_lot) : LTx unit :=
  let remaining := granted_micro l - consumed_micro l in
  (if 0 <? remaining
   then update_balance (lot_account_id l) (- remaining) (fun _ => true) ;;; tx_ret tt
   else tx_ret tt) ;;;
  tx_guard (negb ((0 <=? remaining) && (remaining <=? granted_micro l)))
    (ErrLedgerSQL "expired_unused_micro check") ;;;
  update_lots (has_key lot_id (lot_id l)) (expire_lot now remaining).

Definition due_leb (a b : credit_lot) : bool := leb_nulls_last (expires_at a) (expires_at b).

(** [skip] names the lots other transactions hold ([SKIP LOCKED]). *)
Definition due_lots (skip : string -> bool) (now limit : Z) (ids : list string)
    (db : ledger_db) : list credit_lot :=
  take (Z.to_nat limit) (order_by due_leb
    (List.filter (fun l => lot_due now l && bool_decide (lot_account_id l ∈ ids)
                           && negb (skip (lot_id l))) (bill_credit_lots db))).

Definition ExpireDueLots (skip : string -> bool) (now limit : Z) : LTx Z :=
  let limit := if limit <=? 0 then 500 else limit in
  let! db := tx_get in
  let accountIDs := dueLotAccountIDs now limit db in
  lockAccounts accountIDs ;;;
  let due := due_lots skip now limit accountIDs db in
  tx_iter (expire_step now) due ;;;
  tx_ret (Z.of_nat (length due)).
End LockingOperations.

(** ** Refund reversal ([refund_reversal.go]) *)

Record RefundReversal := MkRefundReversal {
  CreditMicro : Z;
  AvailableReclaimedMicro : Z;
  NonAvailableDebitMicro : Z;
  ExpiredMicro : Z;
  AccountDebitMicro : Z;
  BalanceAfterMicro : Z }.

(** The loop over the order's lots: the running components and [grantedByLots]. *)
Record refund_acc := MkRefundAcc {
  acc_available : Z; acc_nonavailable : Z; acc_expired : Z; acc_granted : Z }.

Definition refund_lot_step (order : string) (acc : refund_acc) (l : credit_lot)
    : result ledger_error refund_acc :=
  let granted := granted_micro l in
  let consumed := Z.min (consumed_micro l) granted in
  match revoked_at l with
  | Some _ => Err (ErrLedgerText "contains an already revoked lot")
  | None =>
      let grantedByLots := wrap64 (acc_granted acc + granted) in
      let remaining := granted - consumed in
      match expired_at l with
      | Some _ =>
          match expired_unused_micro l with
          | Some unused =>
              if unused =? remaining
              then Ok (MkRefundAcc (acc_available acc)
                         (wrap64 (acc_nonavailable acc + consumed))
                         (wrap64 (acc_expired acc + unused)) grantedByLots)
              else Err (ErrRefundReversalUnreconciled order)
          | None => Err (ErrRefundReversalUnreconciled order)
          end
      | None =>
          match expired_unused_micro l with
          | Some _ => Err (ErrLedgerText "expiry snapshot without expiry")
          | None => Ok (MkRefundAcc (wrap64 (acc_available acc + remaining))
                          (wrap64 (acc_nonavailable acc + consumed))
                          (acc_expired acc) grantedByLots)
          end
      end
  end.

Fixpoint refund_lots (order : string) (acc : refund_acc) (lots : list credit_lot)
    : result ledger_error refund_acc :=
  match lots with
  | [] => Ok acc
  | l :: lots' =>
      match refund_lot_step order acc l with
      | Ok acc' => refund_lots order acc' lots'
      | Err e => Err e
      end
  end.

Definition ReverseGrantForRefund (now : Z) (accountID rechargeOrderID : string)
    (creditMicro : Z) : LTx RefundReversal :=
  if bool_decide (accountID = ""%string) || bool_decide (rechargeOrderID = ""%string)
     || (creditMicro <=? 0)
  then tx_fail (ErrLedgerText "refund reversal requires account, recharge order and positive credit")
  else
    lockAccounts [accountID] ;;;
    let! db := tx_get in
    let lots := List.filter (lot_of_order rechargeOrderID) (bill_credit_lots db) in
    match refund_lots rechargeOrderID (MkRefundAcc 0 0 0 0) lots with
    | Err e => tx_fail e
    | Ok acc =>
        if creditMicro <? acc_granted acc
        then tx_fail (ErrLedgerText "refund reversal lots exceed recharge credit")
        else
          let nonAvailable := wrap64 (acc_nonavailable acc + wrap64 (creditMicro - acc_granted acc)) in
          let accountDebit := wrap64 (acc_available acc + nonAvailable) in
          if negb (wrap64 (accountDebit + acc_expired acc) =? creditMicro)
          then tx_fail (ErrLedgerText "refund reversal does not reconcile")
          else
            update_balance accountID (- accountDebit) (fun _ => true) ;;;
            let! db1 := tx_get in
            match bill_accounts db1 !! accountID with
            | None => tx_fail (ErrLedgerSQL "no rows in result set")
            | Some a =>
                update_lots (fun l => lot_of_order rechargeOrderID l && lot_open l)
                  (revoke_lot now) ;;;
                tx_ret (MkRefundReversal creditMicro (acc_available acc) nonAvailable
                          (acc_expired acc) accountDebit (balance_micro a))
            end
    end.
