(* ===== verification/LedgerFacts.v ===== *)
(** * Correctness of the balance ledger

    The invariant of the ledger and the behaviour of its operations
    ([Ledger.v]): what a lot row may hold, conservation between an account's
    balance and its open lots, and the effect of each operation. *)

From S2P Require Import Prelude Ledger.

(** ** The invariant *)

Record lot_wf (accts : gmap string account) (l : credit_lot) : Prop := LotWf {
  lot_granted : 0 < granted_micro l <= int64_max;
  lot_consumed : 0 <= consumed_micro l <= granted_micro l;
  lot_expired_unused :
    expired_unused_micro l =
      match expired_at l with
      | Some _ => Some (granted_micro l - consumed_micro l)
      | None => None
      end;
  lot_revoked_consumed : revoked_at l <> None -> consumed_micro l = granted_micro l;
  lot_has_account : is_Some (accts !! lot_account_id l) }.

Definition lots_wf (accts : gmap string account) (lots : list credit_lot) : Prop :=
  NoDup (lot_id <$> lots) /\ forall l, l ∈ lots -> lot_wf accts l.

(** What a lot still contributes to its account's spendable balance. *)
Definition lot_available (l : credit_lot) : Z :=
  if lot_open l then Z.max (granted_micro l - consumed_micro l) 0 else 0.

Definition open_total (id : string) (lots : list credit_lot) : Z :=
  sumZ (fun l => if lot_of_account id l then lot_available l else 0) lots.

(** The open lots of an account add up to its balance, or to nothing when the
    balance is a debt. *)
Record ledger_ok (db : ledger_db) : Prop := LedgerOk {
  ok_lots : lots_wf (bill_accounts db) (bill_credit_lots db);
  ok_range : forall id a, bill_accounts db !! id = Some a ->
    int64_min <= balance_micro a <= int64_max;
  ok_conserved : forall id a, bill_accounts db !! id = Some a ->
    open_total id (bill_credit_lots db) = Z.max (balance_micro a) 0 }.

Lemma lot_available_nonneg l : 0 <= lot_available l.
Proof. unfold lot_available. destruct (lot_open l); lia. Qed.

Lemma open_total_nonneg id lots : 0 <= open_total id lots.
Proof.
  apply sumZ_nonneg. intros l _.
  destruct (lot_of_account id l); [apply lot_available_nonneg | lia].
Qed.

Lemma open_total_app id l1 l2 : open_total id (l1 ++ l2) = open_total id l1 + open_total id l2.
Proof. apply sumZ_app. Qed.

(** [lot_wf] only asks that the account exists. *)
Lemma lot_wf_accounts accts accts' l :
  (forall id, is_Some (accts !! id) -> is_Some (accts' !! id)) ->
  lot_wf accts l -> lot_wf accts' l.
Proof. intros Hsub []. split; auto. Qed.

Lemma lots_wf_insert_account accts lots id a :
  lots_wf accts lots -> lots_wf (<[id := a]> accts) lots.
Proof.
  intros [Hnd Hwf]. split; [done|]. intros l Hl.
  eapply lot_wf_accounts; [|by apply Hwf].
  intros id' Hid. rewrite lookup_insert. case_decide; eauto.
Qed.

(** An account without lots owns nothing. *)
Lemma open_total_no_lots accts lots id :
  lots_wf accts lots -> accts !! id = None -> open_total id lots = 0.
Proof.
  intros [_ Hwf] Hid. apply sumZ_zero. intros l Hl.
  unfold lot_of_account. case_bool_decide as Heq; [|done].
  destruct (lot_has_account _ _ (Hwf l Hl)) as [a Ha]. by rewrite Heq, Hid in Ha.
Qed.

(** ** Balance updates *)

Definition set_balance (b : Z) (a : account) : account :=
  Account (account_kind a) (account_tenant_id a) b.

Lemma update_balance_spec id d cond db :
  update_balance id d cond db =
    match bill_accounts db !! id with
    | None => Ok (0, db)
    | Some a =>
        if cond a then
          if in_int64 (balance_micro a + d)
          then Ok (1, set_accounts (<[id := set_balance (balance_micro a + d) a]> (bill_accounts db)) db)
          else Err (ErrLedgerSQL "bigint out of range")
        else Ok (0, db)
    end.
Proof.
  unfold update_balance, sql_bigint, tx_bind, tx_get. destruct (bill_accounts db !! id) as [a|]; [|done].
  destruct (cond a); [|done]. by destruct (in_int64 _).
Qed.

Lemma update_balance_ok id d cond db n db' a :
  bill_accounts db !! id = Some a -> cond a = true ->
  update_balance id d cond db = Ok (n, db') ->
  n = 1 /\ int64_min <= balance_micro a + d <= int64_max /\
  db' = set_accounts (<[id := set_balance (balance_micro a + d) a]> (bill_accounts db)) db.
Proof.
  intros Ha Hc. rewrite update_balance_spec, Ha, Hc.
  destruct (in_int64 _) eqn:Hr; [|done]. apply in_int64_spec in Hr. intros [= <- <-]. done.
Qed.

(** ** Single-lot updates *)

Lemma lots_wf_update accts lots f l :
  (forall x, lot_id (f x) = lot_id x) -> lot_wf accts (f l) -> l ∈ lots ->
  lots_wf accts lots -> lots_wf accts (update_where (has_key lot_id (lot_id l)) f lots).
Proof.
  intros Hf Hl Hin [Hnd Hwf]. split; [by rewrite keys_update_where|].
  intros x Hx. apply elem_of_update_where in Hx as (y & Hy & ->).
  destruct (has_key lot_id (lot_id l) y) eqn:Hk; [|auto].
  unfold has_key in Hk. bool_prop. by rewrite (keyed_unique lot_id lots y l).
Qed.

Lemma open_total_update accts lots f l id :
  lots_wf accts lots -> l ∈ lots -> lot_account_id (f l) = lot_account_id l ->
  open_total id (update_where (has_key lot_id (lot_id l)) f lots) =
    open_total id lots
    - (if lot_of_account id l then lot_available l - lot_available (f l) else 0).
Proof.
  intros [Hnd _] Hin Hacc. unfold open_total.
  rewrite (sumZ_update_key lot_id) by done.
  unfold lot_of_account. rewrite Hacc. case_bool_decide; lia.
Qed.

Lemma elem_of_update_other lots f (l x : credit_lot) :
  x ∈ lots -> lot_id x <> lot_id l ->
  x ∈ update_where (has_key lot_id (lot_id l)) f lots.
Proof.
  intros Hx Hne. apply elem_of_update_where. exists x. split; [done|].
  unfold has_key. by rewrite bool_decide_false.
Qed.

(** ** Attribution of a charge to lots *)

Definition lot_row (l : credit_lot) : string * Z := (lot_id l, granted_micro l - consumed_micro l).
Definition lot_left (l : credit_lot) : Z := granted_micro l - consumed_micro l.

Lemma consumable_facts id l :
  consumable id l = true ->
  lot_account_id l = id /\ lot_open l = true /\ consumed_micro l < granted_micro l.
Proof. unfold consumable, lot_of_account. intros H. bool_prop. auto. Qed.

Lemma lot_open_with_consumed c l : lot_open (with_consumed c l) = lot_open l.
Proof. done. Qed.

Lemma lot_wf_consume accts l k :
  lot_wf accts l -> lot_open l = true -> 0 <= k <= lot_left l ->
  lot_wf accts (with_consumed (consumed_micro l + k) l).
Proof.
  intros [Hg Hc He Hr Ha] Ho Hk. unfold lot_left in Hk. unfold lot_open in Ho.
  destruct (expired_at l) eqn:Hexp; [done|]. destruct (revoked_at l) eqn:Hrev; [done|].
  split; simpl; [done | lia | by rewrite Hexp | by rewrite Hrev | done].
Qed.

Lemma lot_available_consume l k :
  lot_open l = true -> 0 <= k <= lot_left l ->
  lot_available (with_consumed (consumed_micro l + k) l) = lot_available l - k.
Proof.
  unfold lot_available, lot_left. rewrite lot_open_with_consumed. intros -> Hk. simpl. lia.
Qed.

Lemma add_consumed_spec accts id k l db :
  bill_accounts db = accts -> lots_wf accts (bill_credit_lots db) ->
  l ∈ bill_credit_lots db -> consumable id l = true -> 0 <= k <= lot_left l ->
  exists db', add_consumed (lot_id l) k db = Ok (tt, db') /\
    bill_accounts db' = accts /\ lots_wf accts (bill_credit_lots db') /\
    (forall i, open_total i (bill_credit_lots db') =
       open_total i (bill_credit_lots db) - (if bool_decide (i = id) then k else 0)) /\
    (forall x, x ∈ bill_credit_lots db -> lot_id x <> lot_id l -> x ∈ bill_credit_lots db') /\
    with_consumed (consumed_micro l + k) l ∈ bill_credit_lots db'.
Proof.
  intros <- Hwf Hin Hcons Hk. apply consumable_facts in Hcons as (Hacc & Hopen & Hlt).
  set (f := fun l => with_consumed (consumed_micro l + k) l).
  exists (set_lots (update_where (has_key lot_id (lot_id l)) f (bill_credit_lots db)) db).
  split; [done|]. split; [done|]. split; [|split_and!; simpl].
  - apply lots_wf_update; try done. apply lot_wf_consume; try done. by apply Hwf.
  - intros i. rewrite (open_total_update (bill_accounts db)) by done.
    unfold f. rewrite lot_available_consume by done.
    unfold lot_of_account. rewrite Hacc. repeat case_bool_decide; simplify_eq; lia.
  - intros x Hx Hne. by apply elem_of_update_other.
  - apply elem_of_update_where. exists l. split; [done|].
    unfold has_key. by rewrite bool_decide_true.
Qed.

(** The loop takes [min outstanding left] from the listed lots and nothing from
    any other account; it cannot fail. *)
Lemma consume_loop_spec accts id ls : forall outstanding db,
  bill_accounts db = accts -> lots_wf accts (bill_credit_lots db) ->
  NoDup (lot_id <$> ls) ->
  (forall l, l ∈ ls -> l ∈ bill_credit_lots db /\ consumable id l = true) ->
  0 <= outstanding ->
  exists db', consume_loop (lot_row <$> ls) outstanding db = Ok (tt, db') /\
    bill_accounts db' = accts /\ lots_wf accts (bill_credit_lots db') /\
    forall i, open_total i (bill_credit_lots db') =
      open_total i (bill_credit_lots db)
      - (if bool_decide (i = id) then Z.min outstanding (sumZ lot_left ls) else 0).
Proof.
  induction ls as [|l ls IH]; intros out db Hdb Hwf Hnd Hls Hout; simpl.
  { exists db. split; [done|]. split; [done|]. split; [done|].
    intros i. case_bool_decide; lia. }
  assert (Hrest : 0 <= sumZ lot_left ls).
  { apply sumZ_nonneg. intros x Hx.
    destruct (Hls x (list_elem_of_further _ _ _ Hx)) as [_ Hc].
    apply consumable_facts in Hc as (_ & _ & Hlt). unfold lot_left. lia. }
  destruct (Hls l (list_elem_of_here _ _)) as [Hin Hcons].
  pose proof (consumable_facts _ _ Hcons) as (_ & _ & Hlt).
  assert (Hleft : 0 < lot_left l) by (unfold lot_left; lia).
  destruct (Z.leb_spec out 0) as [Hle | Hgt].
  { exists db. split; [done|]. split; [done|]. split; [done|]. intros i.
    case_bool_decide; unfold lot_left in *; lia. }
  fold (lot_left l). rewrite (proj2 (Z.leb_gt (Z.min out (lot_left l)) 0)) by lia.
  apply NoDup_cons in Hnd as [Hnotin Hnd].
  destruct (add_consumed_spec accts id (Z.min out (lot_left l)) l db)
    as (db1 & Hrun & Hacc1 & Hwf1 & Htot1 & Hother & _); try done; [lia|].
  destruct (IH (out - Z.min out (lot_left l)) db1) as (db' & Hrun' & Hacc' & Hwf' & Htot');
    try done; [|lia|].
  { intros x Hx. destruct (Hls x (list_elem_of_further _ _ _ Hx)) as [Hxin Hxc].
    split; [|done]. apply Hother; [done|]. intros Heq. apply Hnotin. rewrite <- Heq.
    by apply list_elem_of_fmap_2. }
  exists db'. unfold tx_bind at 1. rewrite Hrun.
  split; [done|]. split; [done|]. split; [done|]. intros i. rewrite Htot', Htot1.
  case_bool_decide; lia.
Qed.

(** On any tables the loop returns, and leaves the accounts alone. *)
Lemma consume_loop_returns ls : forall outstanding db,
  exists db', consume_loop ls outstanding db = Ok (tt, db') /\ bill_accounts db' = bill_accounts db.
Proof.
  induction ls as [|[id remaining] ls IH]; intros out db; simpl; [by exists db|].
  destruct (out <=? 0); [by exists db|]. destruct (Z.min out remaining <=? 0); [apply IH|].
  apply (IH _ (set_lots (update_where (has_key lot_id id)
    (fun l => with_consumed (consumed_micro l + Z.min out remaining) l) (bill_credit_lots db)) db)).
Qed.

Lemma lot_leb_total x y : lot_leb x y = false -> lot_leb y x = true.
Proof.
  unfold lot_leb. destruct (expires_at x), (expires_at y); try done; lia.
Qed.

Lemma lot_leb_trans x y z : lot_leb x y = true -> lot_leb y z = true -> lot_leb x z = true.
Proof.
  unfold lot_leb. destruct (expires_at x), (expires_at y), (expires_at z); try done; lia.
Qed.

Lemma sumZ_filter {A} (f : A -> Z) p l :
  sumZ f (List.filter p l) = sumZ (fun a => if p a then f a else 0) l.
Proof. induction l as [|a l IH]; simpl; [done|]. destruct (p a); simpl; lia. Qed.

Definition consume_queue (id : string) (db : ledger_db) : list credit_lot :=
  order_by lot_leb (List.filter (consumable id) (bill_credit_lots db)).

Lemma consume_queue_elem id db l :
  l ∈ consume_queue id db <-> l ∈ bill_credit_lots db /\ consumable id l = true.
Proof. unfold consume_queue. rewrite elem_of_order_by, elem_of_filter_rows. tauto. Qed.

Lemma consume_queue_NoDup id db :
  NoDup (lot_id <$> bill_credit_lots db) -> NoDup (lot_id <$> consume_queue id db).
Proof.
  intros H. unfold consume_queue.
  rewrite (order_by_Permutation lot_leb). by apply NoDup_filter_rows.
Qed.

Lemma consume_queue_total accts id db :
  lots_wf accts (bill_credit_lots db) ->
  sumZ lot_left (consume_queue id db) = open_total id (bill_credit_lots db).
Proof.
  intros [_ Hwf]. unfold consume_queue.
  rewrite (sumZ_Permutation _ _ _ (order_by_Permutation lot_leb _)), sumZ_filter.
  apply sumZ_ext. intros l Hl. destruct (lot_consumed _ _ (Hwf l Hl)).
  unfold consumable, lot_available, lot_left.
  destruct (lot_of_account id l); [|done]. destruct (lot_open l); [|done]. simpl.
  destruct (Z.ltb_spec (consumed_micro l) (granted_micro l)); lia.
Qed.

Lemma consumeLots_spec accts id micro db :
  bill_accounts db = accts -> lots_wf accts (bill_credit_lots db) -> 0 <= micro ->
  exists db', consumeLots id micro db = Ok (tt, db') /\
    bill_accounts db' = accts /\ lots_wf accts (bill_credit_lots db') /\
    forall i, open_total i (bill_credit_lots db') =
      open_total i (bill_credit_lots db)
      - (if bool_decide (i = id)
         then Z.min micro (open_total id (bill_credit_lots db)) else 0).
Proof.
  intros Hdb Hwf Hm.
  destruct (consume_loop_spec accts id (consume_queue id db) micro db)
    as (db' & Hrun & Ha & Hw & Ht); try done.
  - apply consume_queue_NoDup, Hwf.
  - intros l. apply consume_queue_elem.
  - exists db'. split; [exact Hrun|]. split; [done|]. split; [done|].
    intros i. by rewrite Ht, (consume_queue_total accts) by done.
Qed.

(** ** Debits *)

(** The two writes both debits make, once the account row has been found. *)
Lemma debit_spec db id a micro :
  ledger_ok db -> bill_accounts db !! id = Some a ->
  0 <= micro -> int64_min <= balance_micro a - micro ->
  exists db',
    consumeLots id micro
      (set_accounts (<[id := set_balance (balance_micro a - micro) a]> (bill_accounts db)) db)
      = Ok (tt, db') /\
    bill_accounts db' = <[id := set_balance (balance_micro a - micro) a]> (bill_accounts db) /\
    ledger_ok db'.
Proof.
  intros [Hwf Hrange Hcons] Ha Hm Hlow.
  set (accts := <[id := set_balance (balance_micro a - micro) a]> (bill_accounts db)).
  destruct (consumeLots_spec accts id micro (set_accounts accts db))
    as (db' & Hrun & Hacc & Hwf' & Htot); try done; [by apply lots_wf_insert_account|].
  exists db'. split; [done|]. split; [done|].
  pose proof (Hrange id a Ha) as Hra. pose proof (Hcons id a Ha) as Hca.
  split; rewrite Hacc.
  - done.
  - intros i b. unfold accts. rewrite lookup_insert. case_decide; [|apply Hrange].
    intros [= <-]. simpl. lia.
  - intros i b. rewrite Htot. unfold accts. rewrite lookup_insert. simpl.
    case_decide as Hi; [subst i; intros [= <-]; rewrite bool_decide_true by done |
      intros Hb; rewrite bool_decide_false by congruence; rewrite (Hcons i b Hb); lia].
    simpl. rewrite Hca. lia.
Qed.

Lemma Charge_run db ref micro a :
  ledger_ok db -> bill_accounts db !! ref_id ref = Some a -> ref_id ref <> ""%string ->
  0 < micro -> int64_min <= balance_micro a - micro ->
  exists db', Charge ref micro db = Ok (tt, db') /\
    bill_accounts db' =
      <[ref_id ref := set_balance (balance_micro a - micro) a]> (bill_accounts db) /\
    ledger_ok db'.
Proof.
  intros Hok Ha Hid Hm Hlow. pose proof (ok_range db Hok _ a Ha) as Hra.
  destruct (debit_spec db (ref_id ref) a micro) as (db' & Hrun & Hacc & Hok'); try done; [lia|].
  exists db'. split; [|done]. unfold Charge.
  rewrite (proj2 (Z.ltb_ge micro 0)), (proj2 (Z.eqb_neq micro 0)) by lia.
  rewrite bool_decide_false by done. unfold tx_bind. rewrite update_balance_spec, Ha.
  replace (balance_micro a + - micro) with (balance_micro a - micro) by lia.
  rewrite (proj2 (in_int64_spec _)) by lia. exact Hrun.
Qed.

Lemma ChargeIfFunded_run db ref micro a :
  ledger_ok db -> bill_accounts db !! ref_id ref = Some a -> ref_id ref <> ""%string ->
  0 < micro <= balance_micro a ->
  exists db', ChargeIfFunded ref micro db = Ok (tt, db') /\
    bill_accounts db' =
      <[ref_id ref := set_balance (balance_micro a - micro) a]> (bill_accounts db) /\
    ledger_ok db'.
Proof.
  intros Hok Ha Hid Hm. pose proof (ok_range db Hok _ a Ha) as Hra.
  destruct (debit_spec db (ref_id ref) a micro) as (db' & Hrun & Hacc & Hok');
    try done; [lia | unfold int64_min; lia |].
  exists db'. split; [|done]. unfold ChargeIfFunded.
  rewrite (proj2 (Z.ltb_ge micro 0)), (proj2 (Z.eqb_neq micro 0)) by lia.
  rewrite bool_decide_false by done. unfold tx_bind. rewrite update_balance_spec, Ha.
  rewrite (proj2 (Z.leb_le micro _)) by lia.
  replace (balance_micro a + - micro) with (balance_micro a - micro) by lia.
  rewrite (proj2 (in_int64_spec _)) by (unfold int64_min; lia). exact Hrun.
Qed.

(** The error branches, which leave nothing behind. *)
Lemma Charge_missing db ref micro :
  0 < micro -> ref_id ref <> ""%string -> bill_accounts db !! ref_id ref = None ->
  Charge ref micro db = Err (ErrAccountNotFound (ref_id ref)).
Proof.
  intros Hm Hid Ha. unfold Charge.
  rewrite (proj2 (Z.ltb_ge micro 0)), (proj2 (Z.eqb_neq micro 0)) by lia.
  rewrite bool_decide_false by done. unfold tx_bind. by rewrite update_balance_spec, Ha.
Qed.

Lemma ChargeIfFunded_refused db ref micro :
  0 < micro -> ref_id ref <> ""%string ->
  match bill_accounts db !! ref_id ref with
  | None => ChargeIfFunded ref micro db = Err (ErrAccountNotFound (ref_id ref))
  | Some a => balance_micro a < micro ->
      ChargeIfFunded ref micro db = Err (ErrInsufficientBalance (ref_id ref))
  end.
Proof.
  intros Hm Hid. unfold ChargeIfFunded.
  rewrite (proj2 (Z.ltb_ge micro 0)), (proj2 (Z.eqb_neq micro 0)) by lia.
  rewrite bool_decide_false by done. unfold tx_bind. rewrite update_balance_spec.
  destruct (bill_accounts db !! ref_id ref) as [a|] eqn:Ha; [intros Hlow | ].
  - rewrite (proj2 (Z.leb_gt micro _)) by lia. simpl. unfold tx_get. by rewrite Ha.
  - simpl. unfold tx_get. by rewrite Ha.
Qed.

(** ** Grants *)

(** The part of a grant that becomes spendable. *)
Definition grant_lot_micro (balance micro : Z) : Z := Z.max 0 (Z.min micro (micro + balance)).

Lemma insert_lot_ok l db db' :
  insert_lot l db = Ok (tt, db') ->
  (lot_id l ∉ (lot_id <$> bill_credit_lots db)) /\
  db' = set_lots (bill_credit_lots db ++ [l]) db.
Proof.
  unfold insert_lot. intros H. tx_inv H. bool_prop. done.
Qed.

Lemma Grant_run db now uuid ref micro exp src order lotID db' :
  ledger_ok db -> micro <= int64_max ->
  Grant now uuid ref micro exp src order db = Ok (lotID, db') ->
  exists a, bill_accounts db !! ref_id ref = Some a /\ 0 < micro /\
    balance_micro a + micro <= int64_max /\
    bill_accounts db' =
      <[ref_id ref := set_balance (balance_micro a + micro) a]> (bill_accounts db) /\
    bill_credit_lots db' = bill_credit_lots db ++
      (if decide (0 < grant_lot_micro (balance_micro a) micro)
       then [CreditLot ("LOT_" +:+ String.substring 0 24 uuid) (ref_id ref)
               (grant_lot_micro (balance_micro a) micro) 0 exp None None None
               src (nullif order) now]
       else []).
Proof.
  intros Hok Hmax H. unfold Grant in H.
  destruct (Z.leb_spec micro 0) as [?|Hm]; [done|].
  destruct (bool_decide (ref_id ref = ""%string)); [done|].
  apply tx_bind_ok in H as (s & s0 & Hget & H). unfold tx_get in Hget. injection Hget as <- <-.
  destruct (bill_accounts db !! ref_id ref) as [acct|] eqn:Ha; [|done].
  apply tx_bind_ok in H as (n & db1 & Hupd & H).
  pose proof (ok_range db Hok _ _ Ha) as Hra.
  apply (update_balance_ok _ _ _ _ _ _ acct) in Hupd as (_ & Hr & ->); [|done..].
  cbv zeta in H.
  set (lm := if balance_micro acct <? 0 then wrap64 (micro + balance_micro acct) else micro) in *.
  assert (Hlm : lm = Z.min micro (micro + balance_micro acct)).
  { unfold lm. destruct (Z.ltb_spec (balance_micro acct) 0); [|lia].
    rewrite wrap64_id by (unfold int64_min, int64_max in *; lia). lia. }
  exists acct. unfold grant_lot_micro. split; [done|]. split; [done|]. split; [lia|].
  rewrite Hlm in H. clearbody lm.
  destruct (Z.leb_spec (Z.min micro (micro + balance_micro acct)) 0) as [Hz | Hz]; tx_inv H.
  - rewrite decide_False by lia. simpl. by rewrite app_nil_r.
  - destruct r. apply insert_lot_ok in Hrun as [_ ->]. rewrite decide_True by lia. simpl.
    by replace (0 `max` _) with (micro `min` (micro + balance_micro acct)) by lia.
Qed.

Lemma Grant_fresh db now uuid ref micro exp src order lotID db' :
  Grant now uuid ref micro exp src order db = Ok (lotID, db') ->
  NoDup (lot_id <$> bill_credit_lots db) -> NoDup (lot_id <$> bill_credit_lots db').
Proof.
  unfold Grant. intros H Hnd.
  destruct (micro <=? 0); [done|]. destruct (bool_decide _); [done|].
  apply tx_bind_ok in H as (s & s0 & Hget & H). unfold tx_get in Hget. injection Hget as <- <-.
  destruct (bill_accounts db !! ref_id ref) as [acct|] eqn:Ha; [|done].
  apply tx_bind_ok in H as (n & db1 & Hupd & H). rewrite update_balance_spec, Ha in Hupd.
  destruct (in_int64 _); [|done]. injection Hupd as <- <-. cbv zeta in H.
  destruct (_ <=? 0) in H; tx_inv H; [done|]. destruct r.
  apply insert_lot_ok in Hrun as [Hf ->]. simpl in *.
  rewrite fmap_app. apply NoDup_app. split; [done|]. split; [|apply NoDup_singleton].
  intros x Hx Hin. apply list_elem_of_singleton in Hin as ->. done.
Qed.

Lemma Grant_ok db now uuid ref micro exp src order lotID db' :
  ledger_ok db -> micro <= int64_max ->
  Grant now uuid ref micro exp src order db = Ok (lotID, db') -> ledger_ok db'.
Proof.
  intros Hok Hmax H. pose proof (Grant_fresh _ _ _ _ _ _ _ _ _ _ H (proj1 (ok_lots db Hok))) as Hnd.
  apply Grant_run in H as (a & Ha & Hm & Hr & Hacc & Hlots); try done.
  destruct Hok as [[_ Hwf] Hrange Hcons]. pose proof (Hrange _ _ Ha). pose proof (Hcons _ _ Ha) as Hca.
  set (g := grant_lot_micro (balance_micro a) micro) in *.
  assert (Hg : g = Z.max 0 (Z.min micro (micro + balance_micro a))) by done.
  assert (Htot : forall i, open_total i (bill_credit_lots db') =
    open_total i (bill_credit_lots db) + (if bool_decide (i = ref_id ref) then g else 0)).
  { intros i. rewrite Hlots, open_total_app. f_equal. case_decide as Hpos; simpl.
    - unfold lot_of_account, lot_available. simpl. repeat case_bool_decide; simplify_eq; lia.
    - case_bool_decide; lia. }
  split; rewrite Hacc.
  - split; [done|]. intros l Hl. rewrite Hlots in Hl. apply elem_of_app in Hl as [Hl | Hl].
    + apply (lots_wf_insert_account _ (bill_credit_lots db)); [|done]. split; [|done].
      rewrite Hlots, fmap_app in Hnd. by apply NoDup_app in Hnd as [? _].
    + case_decide as Hpos; [|by apply not_elem_of_nil in Hl].
      apply list_elem_of_singleton in Hl as ->. split; simpl; try done; [lia..|].
      rewrite lookup_insert_eq. eauto.
  - clear Hlots. intros i b. rewrite lookup_insert. case_decide; [|apply Hrange].
    intros [= <-]. simpl. lia.
  - clear Hlots. intros i b. rewrite Htot, lookup_insert. case_decide as Hi.
    + subst i. intros [= <-]. rewrite bool_decide_true by done. simpl. lia.
    + intros Hb. rewrite bool_decide_false by congruence. rewrite (Hcons i b Hb). lia.
Qed.

Lemma EnsureAccount_ok db ref db' :
  ledger_ok db -> EnsureAccount ref db = Ok (tt, db') -> ledger_ok db'.
Proof.
  intros Hok H. unfold EnsureAccount in H. tx_inv H; [done|].
  destruct Hok as [Hwf Hrange Hcons]. split; simpl.
  - by apply lots_wf_insert_account.
  - intros i b. rewrite lookup_insert. case_key Hi; [|apply Hrange].
    intros [= <-]. unfold int64_min, int64_max. simpl. lia.
  - intros i b. rewrite lookup_insert. case_key Hi; [|apply Hcons].
    subst i. intros [= <-]. simpl. by rewrite (open_total_no_lots (bill_accounts db)).
Qed.

(** ** Taking a lot out of circulation *)

Definition retire_accounts (l : credit_lot) (a : account) (accts : gmap string account) :=
  <[lot_account_id l := set_balance (balance_micro a - lot_left l) a]> accts.

Definition retire_db (l : credit_lot) (a : account) (f : credit_lot -> credit_lot)
    (db : ledger_db) : ledger_db :=
  LedgerDB (retire_accounts l a (bill_accounts db))
    (update_where (has_key lot_id (lot_id l)) f (bill_credit_lots db)).

(** Reversal and expiry end a lot the same way: its unspent part leaves the
    balance and the row is stamped. *)
Definition stamps (f : credit_lot -> credit_lot) (accts : gmap string account) (l : credit_lot) : Prop :=
  (forall x, lot_id (f x) = lot_id x) /\ lot_account_id (f l) = lot_account_id l /\
  lot_open (f l) = false /\ (lot_wf accts l -> lot_wf accts (f l)).

Lemma stamps_accounts f accts accts' l :
  (forall id, is_Some (accts !! id) <-> is_Some (accts' !! id)) ->
  stamps f accts l -> stamps f accts' l.
Proof.
  intros Hiff (H1 & H2 & H3 & H4). split_and!; try done. intros Hwf.
  apply (lot_wf_accounts accts); [intros; by apply Hiff|]. apply H4.
  apply (lot_wf_accounts accts'); [intros; by apply Hiff | done].
Qed.

Lemma open_lot_covered db l a :
  ledger_ok db -> l ∈ bill_credit_lots db -> lot_open l = true ->
  bill_accounts db !! lot_account_id l = Some a ->
  0 <= lot_left l /\ (0 < lot_left l -> lot_left l <= balance_micro a).
Proof.
  intros [[_ Hwf] _ Hcons] Hl Ho Ha. destruct (lot_consumed _ _ (Hwf l Hl)).
  unfold lot_left. split; [lia|]. intros Hpos. pose proof (Hcons _ _ Ha) as Hc.
  assert (lot_available l <= open_total (lot_account_id l) (bill_credit_lots db)) as Hle.
  { unfold open_total.
    pose proof (sumZ_elem_le (fun x => if lot_of_account (lot_account_id l) x
      then lot_available x else 0) (bill_credit_lots db) l) as Hs. simpl in Hs.
    unfold lot_of_account at 2 in Hs. rewrite bool_decide_true in Hs by done. apply Hs; [|done].
    intros b _. destruct (lot_of_account _ b); [apply lot_available_nonneg | lia]. }
  unfold lot_available in Hle. rewrite Ho in Hle. lia.
Qed.

Lemma retire_ok db l a f :
  ledger_ok db -> l ∈ bill_credit_lots db -> lot_open l = true ->
  bill_accounts db !! lot_account_id l = Some a -> stamps f (bill_accounts db) l ->
  ledger_ok (retire_db l a f db).
Proof.
  intros Hok Hl Ho Ha (Hid & Hacc & Hclosed & Hfwf).
  destruct (open_lot_covered db l a) as [Hnn Hcov]; try done.
  pose proof Hok as [Hwf Hrange Hcons]. pose proof (Hrange _ _ Ha) as Hr.
  assert (Hav : lot_available l = lot_left l)
    by (unfold lot_available; rewrite Ho; unfold lot_left in *; lia).
  assert (Hav' : lot_available (f l) = 0) by (unfold lot_available; by rewrite Hclosed).
  split; simpl.
  - apply lots_wf_insert_account, lots_wf_update; try done. by apply Hfwf, Hwf.
  - intros i b. unfold retire_accounts. rewrite lookup_insert. case_key Hi; [|apply Hrange].
    intros [= <-]. cbn [balance_micro set_balance]. unfold int64_min, int64_max in *. lia.
  - intros i b. rewrite (open_total_update (bill_accounts db)) by done.
    unfold retire_accounts. rewrite lookup_insert, Hav, Hav'. unfold lot_of_account.
    case_key Hi.
    + subst i. intros [= <-]. rewrite bool_decide_true by done. simpl.
      rewrite (Hcons _ _ Ha). lia.
    + intros Hb. rewrite bool_decide_false by done. rewrite (Hcons i b Hb). lia.
Qed.

Lemma retire_accounts_dom l a accts :
  accts !! lot_account_id l = Some a ->
  forall id, is_Some (accts !! id) <-> is_Some (retire_accounts l a accts !! id).
Proof.
  intros Ha id. unfold retire_accounts. rewrite lookup_insert. case_key Hi; [|done].
  subst id. rewrite Ha. split; eauto.
Qed.

(** The conditional debit both loops make. *)
Lemma retire_debit_run {A} db l a (k : LTx A) :
  ledger_ok db -> l ∈ bill_credit_lots db -> lot_open l = true ->
  bill_accounts db !! lot_account_id l = Some a -> 0 < lot_left l ->
  tx_bind (update_balance (lot_account_id l) (- lot_left l) (fun _ => true)) (fun _ => k) db =
  k (set_accounts (retire_accounts l a (bill_accounts db)) db).
Proof.
  intros Hok Hl Ho Ha Hpos. destruct (open_lot_covered db l a) as [_ Hcov]; try done.
  pose proof (ok_range db Hok _ _ Ha) as Hr.
  unfold tx_bind. rewrite update_balance_spec, Ha.
  replace (balance_micro a + - lot_left l) with (balance_micro a - lot_left l) by lia.
  by rewrite (proj2 (in_int64_spec _)) by (unfold int64_min; lia).
Qed.

Lemma retire_accounts_zero l a accts :
  accts !! lot_account_id l = Some a -> lot_left l = 0 -> retire_accounts l a accts = accts.
Proof.
  intros Ha H0. unfold retire_accounts. apply insert_id. rewrite Ha, H0. f_equal.
  unfold set_balance. rewrite Z.sub_0_r. by destruct a.
Qed.

(** ** Loops that retire lots *)

Definition retire_all (f : credit_lot -> credit_lot -> credit_lot) (ls lots : list credit_lot) :=
  (fun x => if bool_decide (lot_id x ∈ (lot_id <$> ls)) then f x x else x) <$> lots.

Definition retired_from (id : string) (ls : list credit_lot) : Z :=
  sumZ (fun l => if lot_of_account id l then lot_left l else 0) ls.

Definition retired (f : credit_lot -> credit_lot -> credit_lot) (ls : list credit_lot)
    (db db' : ledger_db) : Prop :=
  bill_credit_lots db' = retire_all f ls (bill_credit_lots db) /\
  forall id, bill_accounts db' !! id =
    (fun a => set_balance (balance_micro a - retired_from id ls) a) <$> bill_accounts db !! id.

Section RetireLoop.
Context {V : Type} (step : V -> credit_lot -> LTx V) (upd : V -> credit_lot -> V)
  (f : credit_lot -> credit_lot -> credit_lot).
Context (f_id : forall l x, lot_id (f l x) = lot_id x).
Context (Hstamps : forall accts l, lot_wf accts l -> lot_open l = true -> stamps (f l) accts l).
Context (Hstep : forall db v l a, ledger_ok db -> l ∈ bill_credit_lots db ->
  lot_open l = true -> bill_accounts db !! lot_account_id l = Some a ->
  step v l db = Ok (upd v l, retire_db l a (f l) db)).

Lemma retire_loop ls : forall db v,
  ledger_ok db -> NoDup (lot_id <$> ls) ->
  (forall l, l ∈ ls -> l ∈ bill_credit_lots db /\ lot_open l = true) ->
  exists db', tx_fold step ls v db = Ok (foldl upd v ls, db') /\
    ledger_ok db' /\ retired f ls db db'.
Proof using f_id Hstamps Hstep.
  induction ls as [|l ls IH]; intros db v Hok Hnd Hls; simpl.
  { exists db. split; [done|]. split; [done|]. split.
    - unfold retire_all. rewrite <- (list_fmap_id (bill_credit_lots db)) at 1.
      by apply list_fmap_ext.
    - intros id. destruct (bill_accounts db !! id) as [a|]; simpl; [|done].
      f_equal. unfold retired_from. simpl. rewrite Z.sub_0_r. by destruct a. }
  apply NoDup_cons in Hnd as [Hnotin Hnd].
  destruct (Hls l (list_elem_of_here _ _)) as [Hin Hopen].
  pose proof (proj2 (ok_lots db Hok) l Hin) as Hwf.
  destruct (lot_has_account _ _ Hwf) as [a Ha].
  pose proof (retire_ok db l a (f l) Hok Hin Hopen Ha (Hstamps _ _ Hwf Hopen)) as Hok1.
  destruct (IH (retire_db l a (f l) db) (upd v l) Hok1 Hnd) as (db' & Hrun & Hok' & Hlots & Haccs).
  { intros x Hx. destruct (Hls x (list_elem_of_further _ _ _ Hx)) as [Hxin Hxo].
    split; [|done]. apply elem_of_update_other; [done|]. intros Heq. apply Hnotin.
    rewrite <- Heq. by apply list_elem_of_fmap_2. }
  exists db'. unfold tx_bind. rewrite (Hstep db v l a) by done.
  split; [exact Hrun|]. split; [done|]. split.
  - rewrite Hlots. simpl. unfold retire_all, update_where. rewrite <- list_fmap_compose.
    apply list_fmap_ext. intros i x Hx. simpl. unfold has_key.
    assert (x ∈ bill_credit_lots db) as Hxin by (apply list_elem_of_lookup; eauto).
    destruct (decide (lot_id x = lot_id l)) as [Heq | Hne].
    + rewrite (bool_decide_true (lot_id x = lot_id l)), f_id, Heq by done.
      assert (x = l) as -> by (eapply (keyed_unique lot_id); [apply Hok | ..]; done).
      rewrite bool_decide_false by done. rewrite bool_decide_true by apply list_elem_of_here.
      done.
    + rewrite (bool_decide_false (lot_id x = lot_id l)) by done.
      erewrite bool_decide_ext; [done|]. rewrite elem_of_cons. tauto.
  - intros id. rewrite Haccs. simpl. unfold retire_accounts. rewrite lookup_insert.
    unfold retired_from at 2. simpl. unfold lot_of_account at 1. case_key Hi.
    + subst id. rewrite bool_decide_true by done. rewrite Ha. simpl. f_equal.
      unfold set_balance, retired_from. simpl. f_equal. lia.
    + rewrite bool_decide_false by done. done.
Qed.
End RetireLoop.

Lemma tx_iter_fold {S E A} (g : A -> Tx S E unit) l s :
  tx_iter g l s = tx_fold (fun _ : unit => g) l tt s.
Proof.
  revert s. induction l as [|x l IH]; intros s; simpl; [done|]. unfold tx_bind.
  destruct (g x s) as [[[] s1]|]; [apply IH | done].
Qed.

Lemma stamps_revoke now accts l :
  lot_wf accts l -> lot_open l = true -> stamps (revoke_lot now) accts l.
Proof.
  intros _ Ho. split_and!; try done.
  - unfold lot_open. simpl. by destruct (expired_at l).
  - unfold lot_open in Ho. destruct (expired_at l) eqn:He; [done|].
    intros [Hg Hc Hu Hr Ha]. rewrite He in Hu.
    split; simpl; [done | lia | by rewrite He | done | done].
Qed.

Lemma stamps_expire now accts l :
  lot_wf accts l -> lot_open l = true -> stamps (expire_lot now (lot_left l)) accts l.
Proof.
  intros _ Ho. split_and!; try done.
  unfold lot_open in Ho. destruct (expired_at l) eqn:He; [done|].
  destruct (revoked_at l) eqn:Hv; [done|].
  intros [Hg Hc Hu Hr Ha]. by split.
Qed.

Lemma lot_remaining_left accts l : lot_wf accts l -> lot_remaining l = lot_left l.
Proof.
  intros Hwf. destruct (lot_granted _ _ Hwf), (lot_consumed _ _ Hwf).
  unfold lot_remaining, lot_left. rewrite wrap64_id; unfold int64_min, int64_max in *; lia.
Qed.

Definition revoke_upd (out : Revocation) (l : credit_lot) : Revocation :=
  MkRevocation (LotIDs out ++ [lot_id l]) (wrap64 (GrantedMicro out + granted_micro l))
    (if 0 <? lot_left l then wrap64 (ReclaimedMicro out + lot_left l) else ReclaimedMicro out).

Lemma revoke_step_run now db out l a :
  ledger_ok db -> l ∈ bill_credit_lots db -> lot_open l = true ->
  bill_accounts db !! lot_account_id l = Some a ->
  revoke_step now out l db = Ok (revoke_upd out l, retire_db l a (revoke_lot now) db).
Proof.
  intros Hok Hl Ho Ha. pose proof (proj2 (ok_lots db Hok) l Hl) as Hwf.
  destruct (open_lot_covered db l a) as [Hnn _]; try done.
  unfold revoke_step, revoke_upd. rewrite (lot_remaining_left _ _ Hwf). simpl.
  destruct (Z.ltb_spec 0 (lot_left l)) as [Hpos | Hz].
  - unfold tx_bind at 1. by rewrite (retire_debit_run db l a).
  - unfold tx_bind, tx_ret, retire_db. simpl.
    by rewrite (retire_accounts_zero l a) by (done || lia).
Qed.

Lemma expire_step_run now db l a :
  ledger_ok db -> l ∈ bill_credit_lots db -> lot_open l = true ->
  bill_accounts db !! lot_account_id l = Some a ->
  expire_step now l db = Ok (tt, retire_db l a (expire_lot now (lot_left l)) db).
Proof.
  intros Hok Hl Ho Ha. pose proof (proj2 (ok_lots db Hok) l Hl) as Hwf.
  destruct (lot_granted _ _ Hwf), (lot_consumed _ _ Hwf).
  unfold expire_step. fold (lot_left l).
  assert (Hc : negb ((0 <=? lot_left l) && (lot_left l <=? granted_micro l)) = false)
    by (unfold lot_left; lia).
  rewrite Hc. destruct (Z.ltb_spec 0 (lot_left l)) as [Hpos | Hz].
  - unfold tx_bind at 1. by rewrite (retire_debit_run db l a).
  - unfold tx_bind, tx_ret, retire_db. simpl.
    rewrite (retire_accounts_zero l a); [done.. | unfold lot_left in *; lia].
Qed.

Lemma lockAccounts_run ids db :
  (forall id, id ∈ ids -> is_Some (bill_accounts db !! id)) ->
  lockAccounts ids db = Ok (tt, db).
Proof.
  unfold lockAccounts. induction ids as [|id ids IH]; intros H; simpl; [done|].
  unfold tx_bind at 1. unfold tx_bind, tx_get.
  destruct (H id (list_elem_of_here _ _)) as [a ->]. apply IH.
  intros i Hi. apply H. by apply list_elem_of_further.
Qed.

Lemma distinct_accounts_exist text_leb p db id :
  ledger_ok db -> id ∈ distinct_accounts text_leb p db -> is_Some (bill_accounts db !! id).
Proof.
  intros [[_ Hwf] _ _] Hid. unfold distinct_accounts in Hid.
  rewrite elem_of_order_by, elem_of_remove_dups in Hid.
  apply list_elem_of_fmap in Hid as (l & -> & Hl). apply elem_of_filter_rows in Hl as [_ Hl].
  apply (lot_has_account _ _ (Hwf l Hl)).
Qed.

(** ** Reversal of a recharge *)

Definition order_open_lots (order : string) (db : ledger_db) : list credit_lot :=
  List.filter (fun l => lot_of_order order l && lot_open l) (bill_credit_lots db).

Lemma order_open_lots_elem order db l :
  l ∈ order_open_lots order db -> l ∈ bill_credit_lots db /\ lot_open l = true.
Proof. intros [H1 H2]%elem_of_filter_rows. by bool_prop. Qed.

Lemma revoke_totals ls out :
  (forall l, l ∈ ls -> 0 <= lot_left l <= granted_micro l) ->
  0 <= GrantedMicro out -> 0 <= ReclaimedMicro out <= GrantedMicro out ->
  GrantedMicro out + sumZ granted_micro ls <= int64_max ->
  foldl revoke_upd out ls =
    MkRevocation (LotIDs out ++ (lot_id <$> ls)) (GrantedMicro out + sumZ granted_micro ls)
      (ReclaimedMicro out + sumZ lot_left ls).
Proof.
  revert out. induction ls as [|l ls IH]; intros out Hls Hg Hr Hmax; simpl.
  { destruct out. simpl. by rewrite app_nil_r, !Z.add_0_r. }
  pose proof (Hls l (list_elem_of_here _ _)) as Hl. simpl in Hmax.
  assert (0 <= sumZ granted_micro ls).
  { apply sumZ_nonneg. intros x Hx. pose proof (Hls x (list_elem_of_further _ _ _ Hx)). lia. }
  assert (Hupd : revoke_upd out l = MkRevocation (LotIDs out ++ [lot_id l])
      (GrantedMicro out + granted_micro l) (ReclaimedMicro out + lot_left l)).
  { unfold revoke_upd. f_equal.
    - apply wrap64_id. unfold int64_min, int64_max in *. lia.
    - destruct (Z.ltb_spec 0 (lot_left l)); [|lia].
      apply wrap64_id. unfold int64_min, int64_max in *. lia. }
  rewrite Hupd, IH; simpl; try lia.
  - f_equal; [by rewrite <- app_assoc | lia..].
  - intros x Hx. apply Hls. by apply list_elem_of_further.
Qed.

Lemma RevokeOrderLots_run text_leb now order db :
  ledger_ok db -> order <> ""%string ->
  exists db', RevokeOrderLots text_leb now order db =
      Ok (foldl revoke_upd (MkRevocation [] 0 0) (order_open_lots order db), db') /\
    ledger_ok db' /\ retired (fun _ => revoke_lot now) (order_open_lots order db) db db'.
Proof.
  intros Hok Hne.
  destruct (retire_loop (revoke_step now) revoke_upd (fun _ => revoke_lot now))
    with (ls := order_open_lots order db) (db := db) (v := MkRevocation [] 0 0)
    as (db' & Hrun & H); try done.
  - intros accts l. apply stamps_revoke.
  - intros. by apply revoke_step_run.
  - apply NoDup_filter_rows, Hok.
  - intros l. apply order_open_lots_elem.
  - exists db'. split; [|done]. unfold RevokeOrderLots. rewrite bool_decide_false by done.
    unfold tx_bind at 1, tx_get. unfold tx_bind.
    rewrite lockAccounts_run; [exact Hrun|].
    intros id. by apply distinct_accounts_exist.
Qed.

(** ** Expiry *)

Lemma due_lots_elem skip now limit ids db l :
  l ∈ due_lots skip now limit ids db ->
  l ∈ bill_credit_lots db /\ lot_open l = true /\ lot_due now l = true.
Proof.
  unfold due_lots. intros H. apply elem_of_take in H as (i & H & _).
  apply list_elem_of_lookup_2 in H. rewrite elem_of_order_by, elem_of_filter_rows in H.
  destruct H as [H1 H2]. bool_prop. split_and!; try done.
  unfold lot_due in *. bool_prop. done.
Qed.

Lemma due_lots_NoDup skip now limit ids db :
  NoDup (lot_id <$> bill_credit_lots db) -> NoDup (lot_id <$> due_lots skip now limit ids db).
Proof.
  intros H. unfold due_lots. rewrite fmap_take.
  apply (sublist_NoDup _ (lot_id <$> order_by due_leb
    (List.filter (fun l => lot_due now l && bool_decide (lot_account_id l ∈ ids)
                             && negb (skip (lot_id l))) (bill_credit_lots db)))).
  - rewrite (order_by_Permutation due_leb). by apply NoDup_filter_rows.
  - apply sublist_take.
Qed.

Definition expiry_limit (limit : Z) : Z := if limit <=? 0 then 500 else limit.
Definition expiry_batch text_leb skip now limit db : list credit_lot :=
  due_lots skip now (expiry_limit limit)
    (dueLotAccountIDs text_leb now (expiry_limit limit) db) db.

Lemma ExpireDueLots_run text_leb skip now limit db :
  ledger_ok db ->
  let due := expiry_batch text_leb skip now limit db in
  exists db', ExpireDueLots text_leb skip now limit db = Ok (Z.of_nat (length due), db') /\
    ledger_ok db' /\ retired (fun l => expire_lot now (lot_left l)) due db db'.
Proof.
  intros Hok due.
  destruct (retire_loop (fun _ : unit => expire_step now) (fun _ _ => tt)
      (fun l => expire_lot now (lot_left l)))
    with (ls := due) (db := db) (v := tt) as (db' & Hrun & H); try done.
  - intros accts l. apply stamps_expire.
  - intros. by apply expire_step_run.
  - apply due_lots_NoDup, Hok.
  - intros l Hl. apply due_lots_elem in Hl. tauto.
  - exists db'. split; [|done]. unfold ExpireDueLots. fold (expiry_limit limit).
    unfold tx_bind at 1, tx_get. unfold tx_bind at 1.
    rewrite lockAccounts_run.
    + unfold tx_bind. fold (expiry_batch text_leb skip now limit db). fold due.
      by rewrite tx_iter_fold, Hrun.
    + intros id Hid. apply (distinct_accounts_exist text_leb (lot_due now)); [done|].
      unfold dueLotAccountIDs in Hid. apply elem_of_take in Hid as (i & Hi & _).
      by eapply list_elem_of_lookup_2.
Qed.

(** ** First in, first out *)

(** What each queued lot contributes to a charge. *)
Fixpoint fifo (ls : list credit_lot) (out : Z) : list (credit_lot * Z) :=
  match ls with
  | [] => []
  | l :: ls' =>
      let k := Z.max 0 (Z.min out (lot_left l)) in
      (l, k) :: fifo ls' (out - k)
  end.

Lemma fifo_nonpos ls out p : out <= 0 -> p ∈ fifo ls out -> p.2 = 0.
Proof.
  revert out. induction ls as [|l ls IH]; intros out Hout Hp; simpl in Hp;
    [by apply not_elem_of_nil in Hp|].
  apply elem_of_cons in Hp as [-> | Hp]; [simpl; lia|]. eapply IH; [|exact Hp]. lia.
Qed.

Lemma fifo_lookup ls out i l :
  ls !! i = Some l -> exists k, fifo ls out !! i = Some (l, k).
Proof.
  revert out i. induction ls as [|x ls IH]; intros out [|i] H; simpl in *; simplify_eq; eauto.
Qed.

Lemma fifo_elem ls out l k : (l, k) ∈ fifo ls out -> l ∈ ls.
Proof.
  revert out. induction ls as [|a ls IH]; intros out H; simpl in H; [by apply not_elem_of_nil in H|].
  apply elem_of_cons in H as [[= -> _] | H]; [apply list_elem_of_here|].
  apply list_elem_of_further. by eapply IH.
Qed.

Lemma fifo_range ls out l k :
  (forall x, x ∈ ls -> 0 < lot_left x) -> (l, k) ∈ fifo ls out -> 0 <= k <= lot_left l.
Proof.
  revert out. induction ls as [|a ls IH]; intros out Hpos H; simpl in H;
    [by apply not_elem_of_nil in H|].
  apply elem_of_cons in H as [[= -> ->] | H].
  - pose proof (Hpos a (list_elem_of_here _ _)). lia.
  - eapply IH; [|exact H]. intros b Hb. apply Hpos. by apply list_elem_of_further.
Qed.

(** A later lot is touched only once every earlier one is exhausted. *)
Lemma fifo_order ls out i j x kx y ky :
  (forall l, l ∈ ls -> 0 < lot_left l) ->
  fifo ls out !! i = Some (x, kx) -> fifo ls out !! j = Some (y, ky) ->
  (i < j)%nat -> 0 < ky -> kx = lot_left x.
Proof.
  revert out i j. induction ls as [|l ls IH]; intros out i j Hpos Hi Hj Hij Hky; [done|].
  simpl in Hi, Hj. destruct j as [|j]; [lia|]. simpl in Hj. destruct i as [|i].
  - injection Hi as <- <-. pose proof (Hpos l (list_elem_of_here _ _)).
    destruct (Z.le_gt_cases (lot_left l) out); [lia|].
    apply list_elem_of_lookup_2, fifo_nonpos in Hj; simpl in Hj; lia.
  - eapply (IH _ i j); [| exact Hi | exact Hj | lia | lia].
    intros x' Hx'. apply Hpos. by apply list_elem_of_further.
Qed.

Lemma fifo_total ls out :
  0 <= out -> (forall l, l ∈ ls -> 0 < lot_left l) ->
  sumZ snd (fifo ls out) = Z.min out (sumZ lot_left ls).
Proof.
  revert out. induction ls as [|l ls IH]; intros out Hout Hpos; simpl; [lia|].
  pose proof (Hpos l (list_elem_of_here _ _)).
  assert (forall x, x ∈ ls -> 0 < lot_left x) by (intros; apply Hpos; by apply list_elem_of_further).
  assert (0 <= sumZ lot_left ls) by (apply sumZ_nonneg; intros x Hx; specialize (H0 x Hx); lia).
  rewrite IH by (done || lia). lia.
Qed.

Lemma consume_loop_untouched ls : forall out db db' x,
  consume_loop (lot_row <$> ls) out db = Ok (tt, db') ->
  x ∈ bill_credit_lots db -> lot_id x ∉ (lot_id <$> ls) -> x ∈ bill_credit_lots db'.
Proof.
  induction ls as [|l ls IH]; intros out db db' x Hrun Hx Hni; simpl in Hrun.
  { unfold tx_ret in Hrun. by injection Hrun as <-. }
  apply not_elem_of_cons in Hni as [Hne Hni].
  destruct (out <=? 0). { unfold tx_ret in Hrun. by injection Hrun as <-. }
  destruct (_ <=? 0) in Hrun; [by eapply IH|].
  apply tx_bind_ok in Hrun as ([] & db1 & Hadd & Hrun). eapply IH; [done| |done].
  unfold add_consumed, update_lots in Hadd. tx_inv Hadd. by apply elem_of_update_other.
Qed.

Lemma consume_loop_fifo accts id ls : forall out db db',
  bill_accounts db = accts -> lots_wf accts (bill_credit_lots db) ->
  NoDup (lot_id <$> ls) ->
  (forall l, l ∈ ls -> l ∈ bill_credit_lots db /\ consumable id l = true) ->
  consume_loop (lot_row <$> ls) out db = Ok (tt, db') ->
  forall l k, (l, k) ∈ fifo ls out ->
    with_consumed (consumed_micro l + k) l ∈ bill_credit_lots db'.
Proof.
  induction ls as [|l ls IH]; intros out db db' Hdb Hwf Hnd Hls Hrun x k Hxk;
    [by apply not_elem_of_nil in Hxk|].
  assert (Hsame : forall y, with_consumed (consumed_micro y + 0) y = y)
    by (intros []; unfold with_consumed; simpl; by rewrite Z.add_0_r).
  destruct (Hls l (list_elem_of_here _ _)) as [Hin Hcons].
  pose proof (consumable_facts _ _ Hcons) as (_ & _ & Hlt).
  pose proof Hnd as [Hnotin Hnd']%NoDup_cons. simpl in Hrun, Hxk. fold (lot_left l) in Hrun.
  assert (Hleft : 0 < lot_left l) by (unfold lot_left; lia).
  destruct (Z.leb_spec out 0) as [Hle | Hgt].
  { unfold tx_ret in Hrun. injection Hrun as <-.
    pose proof (fifo_nonpos (l :: ls) out (x, k) Hle Hxk) as Hk. simpl in Hk. subst k.
    rewrite Hsame. by apply Hls, (fifo_elem _ out _ 0). }
  rewrite (proj2 (Z.leb_gt (Z.min out (lot_left l)) 0)) in Hrun by lia.
  apply tx_bind_ok in Hrun as ([] & db1 & Hadd & Hrun).
  destruct (add_consumed_spec accts id (Z.min out (lot_left l)) l db)
    as (db1' & Hadd' & Hacc1 & Hwf1 & _ & Hother & Hnew); try done; [lia|].
  rewrite Hadd in Hadd'. injection Hadd' as <-.
  apply elem_of_cons in Hxk as [[= -> ->] | Hxk].
  - replace (Z.max 0 (Z.min out (lot_left l))) with (Z.min out (lot_left l)) by lia.
    by eapply consume_loop_untouched.
  - replace (Z.max 0 (Z.min out (lot_left l))) with (Z.min out (lot_left l)) in Hxk by lia.
    eapply (IH _ db1); try done. intros y Hy.
    destruct (Hls y (list_elem_of_further _ _ _ Hy)) as [Hyin Hyc]. split; [|done].
    apply Hother; [done|]. intros Heq. apply Hnotin. rewrite <- Heq. by apply list_elem_of_fmap_2.
Qed.

Lemma sorted_before {A} (leb : A -> A -> bool) l x y :
  StronglySorted (fun a b => leb a b = true) l -> x ∈ l -> y ∈ l ->
  (forall a, leb a a = true) -> leb y x = false ->
  exists i j, l !! i = Some x /\ l !! j = Some y /\ (i < j)%nat.
Proof.
  induction 1 as [|a l Hl IH Ha]; intros Hx Hy Hrefl Hlt; [by apply not_elem_of_nil in Hx|].
  rewrite Forall_forall in Ha. apply elem_of_cons in Hx as [-> | Hx].
  - apply elem_of_cons in Hy as [-> | Hy]; [by rewrite Hrefl in Hlt|].
    apply list_elem_of_lookup in Hy as [j Hj]. exists O, (S j). split_and!; [done | done | lia].
  - apply elem_of_cons in Hy as [-> | Hy]; [by rewrite Ha in Hlt|].
    destruct IH as (i & j & Hi & Hj & Hij); try done.
    exists (S i), (S j). split_and!; [done | done | lia].
Qed.

(** ** Refund reversal *)

Definition is_expired (l : credit_lot) : bool :=
  match expired_at l with Some _ => true | None => false end.
Definition order_lots (order : string) (db : ledger_db) : list credit_lot :=
  List.filter (lot_of_order order) (bill_credit_lots db).

Definition sum_available (ls : list credit_lot) : Z :=
  sumZ (fun l => if is_expired l then 0 else lot_left l) ls.
Definition sum_expired (ls : list credit_lot) : Z :=
  sumZ (fun l => if is_expired l then lot_left l else 0) ls.

Lemma sum_components ls :
  sum_available ls + sumZ consumed_micro ls + sum_expired ls = sumZ granted_micro ls.
Proof.
  unfold sum_available, sum_expired. induction ls as [|l ls IH]; simpl; [done|].
  unfold lot_left in *. destruct (is_expired l); lia.
Qed.

Lemma refund_lots_run order accts ls : forall acc,
  (forall l, l ∈ ls -> lot_wf accts l /\ revoked_at l = None) ->
  0 <= acc_available acc -> 0 <= acc_nonavailable acc -> 0 <= acc_expired acc ->
  acc_available acc + acc_nonavailable acc + acc_expired acc = acc_granted acc ->
  acc_granted acc + sumZ granted_micro ls <= int64_max ->
  refund_lots order acc ls =
    Ok (MkRefundAcc (acc_available acc + sum_available ls)
          (acc_nonavailable acc + sumZ consumed_micro ls)
          (acc_expired acc + sum_expired ls) (acc_granted acc + sumZ granted_micro ls)).
Proof.
  unfold sum_available, sum_expired.
  induction ls as [|l ls IH]; intros acc Hls H1 H2 H3 Hsum Hmax; simpl.
  { rewrite !Z.add_0_r. by destruct acc. }
  destruct (Hls l (list_elem_of_here _ _)) as [Hwf Hrev].
  destruct (lot_granted _ _ Hwf), (lot_consumed _ _ Hwf).
  pose proof (lot_expired_unused _ _ Hwf) as Hu. simpl in Hmax.
  assert (0 <= sumZ granted_micro ls).
  { apply sumZ_nonneg. intros x Hx. destruct (Hls x (list_elem_of_further _ _ _ Hx)) as [Hx' _].
    destruct (lot_granted _ _ Hx'). lia. }
  assert (Hstep : refund_lot_step order acc l = Ok (MkRefundAcc
      (acc_available acc + if is_expired l then 0 else lot_left l)
      (acc_nonavailable acc + consumed_micro l)
      (acc_expired acc + if is_expired l then lot_left l else 0)
      (acc_granted acc + granted_micro l))).
  { unfold refund_lot_step, is_expired, lot_left. rewrite Hrev.
    rewrite (Z.min_l (consumed_micro l)) by lia.
    destruct (expired_at l); rewrite Hu; rewrite ?Z.eqb_refl, ?Z.add_0_r;
      rewrite !wrap64_id by (unfold int64_min, int64_max in *; lia); done. }
  rewrite Hstep, IH; simpl.
  - do 2 f_equal; lia.
  - intros x Hx. apply Hls. by apply list_elem_of_further.
  - destruct (is_expired l); unfold lot_left; lia.
  - lia.
  - destruct (is_expired l); unfold lot_left; lia.
  - destruct (is_expired l); unfold lot_left; lia.
  - lia.
Qed.

Lemma refund_lots_run0 order accts ls :
  (forall l, l ∈ ls -> lot_wf accts l /\ revoked_at l = None) ->
  sumZ granted_micro ls <= int64_max ->
  refund_lots order (MkRefundAcc 0 0 0 0) ls =
    Ok (MkRefundAcc (sum_available ls) (sumZ consumed_micro ls) (sum_expired ls)
          (sumZ granted_micro ls)).
Proof. intros Hls Hmax. by rewrite (refund_lots_run order accts). Qed.

Definition refund_result (credit bal : Z) (ls : list credit_lot) : RefundReversal :=
  MkRefundReversal credit (sum_available ls)
    (sumZ consumed_micro ls + (credit - sumZ granted_micro ls))
    (sum_expired ls) (credit - sum_expired ls) (bal - (credit - sum_expired ls)).

Lemma ReverseGrantForRefund_run now acct order credit db a :
  ledger_ok db -> bill_accounts db !! acct = Some a ->
  acct <> ""%string -> order <> ""%string ->
  let ls := order_lots order db in
  (forall l, l ∈ ls -> revoked_at l = None) ->
  0 < credit <= int64_max -> sumZ granted_micro ls <= credit ->
  int64_min <= balance_micro a - (credit - sum_expired ls) ->
  ReverseGrantForRefund now acct order credit db =
    Ok (refund_result credit (balance_micro a) ls,
        LedgerDB (<[acct := set_balance (balance_micro a - (credit - sum_expired ls)) a]>
                    (bill_accounts db))
          (update_where (fun l => lot_of_order order l && lot_open l) (revoke_lot now)
             (bill_credit_lots db))).
Proof.
  intros Hok Ha Hacct Horder ls Hrev Hcredit Hsum Hlow.
  pose proof (ok_range db Hok _ _ Ha) as Hr.
  assert (Hwf : forall l, l ∈ ls -> lot_wf (bill_accounts db) l /\ revoked_at l = None).
  { intros l Hl. split; [|by apply Hrev]. apply elem_of_filter_rows in Hl as [_ Hl].
    by apply (ok_lots db Hok). }
  assert (Hpos : 0 <= sum_available ls /\ 0 <= sum_expired ls /\ 0 <= sumZ consumed_micro ls).
  { split_and!; apply sumZ_nonneg; intros l Hl; destruct (Hwf l Hl) as [Hw _];
      destruct (lot_consumed _ _ Hw); cbn beta; try destruct (is_expired l); unfold lot_left; lia. }
  pose proof (sum_components ls) as Hcomp.
  unfold ReverseGrantForRefund. rewrite !bool_decide_false by done.
  rewrite (proj2 (Z.leb_gt credit 0)) by lia. cbn [orb].
  unfold tx_bind at 1. rewrite lockAccounts_run.
  2:{ intros id Hid. apply list_elem_of_singleton in Hid as ->. eauto. }
  unfold tx_bind at 1, tx_get. fold (order_lots order db). fold ls.
  rewrite (refund_lots_run0 order (bill_accounts db)) by (done || lia).
  cbn [acc_available acc_nonavailable acc_expired acc_granted].
  rewrite (proj2 (Z.ltb_ge credit _)) by lia.
  assert (Hw : forall z, 0 <= z <= credit -> wrap64 z = z)
    by (intros; apply wrap64_id; unfold int64_min, int64_max in *; lia).
  rewrite (Hw (credit - sumZ granted_micro ls)) by lia.
  rewrite (Hw (sumZ consumed_micro ls + _)) by lia.
  rewrite (Hw (sum_available ls + _)) by lia. rewrite Hw by lia.
  replace (sum_available ls + (sumZ consumed_micro ls + (credit - sumZ granted_micro ls)))
    with (credit - sum_expired ls) by lia.
  rewrite (proj2 (Z.eqb_eq _ credit)) by lia. cbn [negb].
  unfold tx_bind at 1. rewrite update_balance_spec, Ha.
  replace (balance_micro a + - (credit - sum_expired ls))
    with (balance_micro a - (credit - sum_expired ls)) by lia.
  rewrite (proj2 (in_int64_spec _)) by (unfold int64_min, int64_max in *; lia).
  unfold tx_bind. simpl. by rewrite lookup_insert_eq.
Qed.

(** Every lot of the order is closed, so its account's open total drops by what
    was still available in it. *)
Lemma refund_open_total now order db id :
  ledger_ok db ->
  (forall l, l ∈ order_lots order db -> revoked_at l = None) ->
  open_total id (update_where (fun l => lot_of_order order l && lot_open l) (revoke_lot now)
                   (bill_credit_lots db)) =
  open_total id (bill_credit_lots db)
  - sum_available (List.filter (lot_of_account id) (order_lots order db)).
Proof.
  intros [[_ Hwf] _ _]. unfold open_total, update_where, order_lots, sum_available.
  induction (bill_credit_lots db) as [|l lots IH]; intros Hrev; [done|].
  rewrite fmap_cons, !sumZ_cons. cbn [List.filter].
  assert (Hl : lot_wf (bill_accounts db) l) by (apply Hwf, list_elem_of_here).
  assert (Hwf' : forall x, x ∈ lots -> lot_wf (bill_accounts db) x)
    by (intros; by apply Hwf, list_elem_of_further).
  rewrite IH; [|done|].
  2:{ intros x Hx. apply Hrev. cbn [List.filter]. destruct (lot_of_order order l); [|done].
      by apply list_elem_of_further. }
  destruct (lot_of_order order l) eqn:Ho; cbn [andb]; [|lia].
  assert (Hrl : revoked_at l = None).
  { apply Hrev. cbn [List.filter]. rewrite Ho. apply list_elem_of_here. }
  destruct (lot_consumed _ _ Hl). cbn [List.filter].
  assert (Hacc : lot_of_account id (revoke_lot now l) = lot_of_account id l) by done.
  destruct (lot_of_account id l) eqn:Hid; rewrite ?sumZ_cons;
    unfold lot_open, is_expired; destruct (expired_at l) eqn:He; rewrite ?Hrl, ?Hacc, ?Hid;
    unfold lot_available, lot_open, lot_left; simpl; rewrite ?He, ?Hrl; lia.
Qed.

(** ** After a retiring loop *)

Lemma filter_rows_nil {A} (p : A -> bool) l :
  (forall x, x ∈ l -> p x = false) -> List.filter p l = [].
Proof.
  induction l as [|a l IH]; intros H; simpl; [done|].
  rewrite H by apply list_elem_of_here. apply IH. intros x Hx. apply H.
  by apply list_elem_of_further.
Qed.

Lemma length_filter_le {A} (p q : A -> bool) l :
  (forall x, q x = true -> p x = true) ->
  (length (List.filter q l) <= length (List.filter p l))%nat.
Proof.
  intros H. induction l as [|a l IH]; simpl; [lia|].
  destruct (q a) eqn:Hq; [rewrite (H a Hq); simpl; lia | destruct (p a); simpl; lia].
Qed.

(** No open lot selected by [p] survives when the loop took all of them. *)
Lemma retired_none_left f ls db db' (p : credit_lot -> bool) :
  retired f ls db db' ->
  (forall l, lot_open (f l l) = false) ->
  (forall l, l ∈ bill_credit_lots db -> p l = true -> lot_open l = true -> l ∈ ls) ->
  forall x, x ∈ bill_credit_lots db' -> p x && lot_open x = false.
Proof.
  intros [Hlots _] Hclosed Hall x Hx. rewrite Hlots in Hx. unfold retire_all in Hx.
  apply list_elem_of_fmap in Hx as (l & -> & Hl). case_bool_decide as Hin.
  - rewrite Hclosed. apply andb_false_r.
  - apply andb_false_iff. destruct (p l) eqn:Hp; [|by left]. right.
    destruct (lot_open l) eqn:Ho; [|done]. destruct Hin.
    by apply list_elem_of_fmap_2, Hall.
Qed.

Lemma length_remove_dups {A} `{EqDecision A} (l : list A) :
  (length (remove_dups l) <= length l)%nat.
Proof. induction l as [|a l IH]; simpl; [lia|]. case_match; simpl; lia. Qed.

Lemma distinct_accounts_length text_leb p db :
  (length (distinct_accounts text_leb p db) <= length (List.filter p (bill_credit_lots db)))%nat.
Proof.
  unfold distinct_accounts. rewrite (order_by_Permutation text_leb).
  rewrite length_remove_dups. by rewrite length_fmap.
Qed.

(** With room for every due lot, the batch is all of them. *)
Lemma expiry_batch_complete text_leb now limit db l :
  Z.of_nat (length (List.filter (lot_due now) (bill_credit_lots db))) <= expiry_limit limit ->
  l ∈ bill_credit_lots db -> lot_due now l = true ->
  l ∈ expiry_batch text_leb (fun _ => false) now limit db.
Proof.
  intros Hroom Hl Hdue. unfold expiry_batch, due_lots, dueLotAccountIDs.
  pose proof (distinct_accounts_length text_leb (lot_due now) db) as Hlen.
  rewrite (take_ge (distinct_accounts _ _ _)) by lia.
  set (q := fun l0 : credit_lot => _).
  assert (Hqlen : (length (List.filter q (bill_credit_lots db)) <=
                   length (List.filter (lot_due now) (bill_credit_lots db)))%nat).
  { apply length_filter_le. unfold q. intros x Hx. by bool_prop. }
  rewrite take_ge by (rewrite (order_by_Permutation due_leb); lia).
  rewrite elem_of_order_by, elem_of_filter_rows. split; [|done].
  unfold q. rewrite Hdue, bool_decide_true; [done|].
  unfold distinct_accounts. rewrite elem_of_order_by, elem_of_remove_dups.
  apply list_elem_of_fmap_2. by apply elem_of_filter_rows.
Qed.

Lemma RevokeOrderLots_nothing text_leb now order db :
  order <> ""%string -> order_open_lots order db = [] ->
  RevokeOrderLots text_leb now order db = Ok (MkRevocation [] 0 0, db).
Proof.
  intros Hne Hnil. unfold RevokeOrderLots. rewrite bool_decide_false by done.
  unfold tx_bind at 1, tx_get. unfold activeOrderAccountIDs, distinct_accounts.
  unfold order_open_lots in Hnil. by rewrite Hnil.
Qed.

Lemma ExpireDueLots_nothing text_leb skip now limit db :
  (forall x, x ∈ bill_credit_lots db -> lot_due now x = false) ->
  ExpireDueLots text_leb skip now limit db = Ok (0, db).
Proof.
  intros Hnone. unfold ExpireDueLots. fold (expiry_limit limit).
  unfold tx_bind at 1, tx_get. unfold dueLotAccountIDs, distinct_accounts, due_lots.
  rewrite (filter_rows_nil (lot_due now)) by done. simpl. rewrite take_nil.
  rewrite filter_rows_nil by (intros x Hx; by rewrite Hnone). simpl. by rewrite take_nil.
Qed.

Lemma retired_balances f ls db db' id :
  retired f ls db db' ->
  balance_micro <$> bill_accounts db' !! id =
  (fun b => b - retired_from id ls) <$> (balance_micro <$> bill_accounts db !! id).
Proof. intros [_ H]. rewrite H. by destruct (bill_accounts db !! id). Qed.
