(* ===== verification/LedgerProps.v ===== *)
(** * Properties of the balance ledger

    The statements a user of [src/internal/billing/ledger] relies on: the money
    invariant on every reachable ledger, refinement of the two debits to an
    abstract ledger that has balances only, first-in-first-out attribution, and
    the effect of grants, reversals, expiry and refund reversals. *)

From S2P Require Import Prelude Ledger LedgerFacts.

(** ** Reachable ledgers *)

(** A committed call of the ledger, from one state to the next.  Amounts are
    Go [int64] values. *)
Inductive ledger_step : ledger_db -> ledger_db -> Prop :=
| step_ensure ref db db' :
    EnsureAccount ref db = Ok (tt, db') -> ledger_step db db'
| step_charge ref micro db db' :
    Charge ref micro db = Ok (tt, db') -> ledger_step db db'
| step_charge_if_funded ref micro db db' :
    ChargeIfFunded ref micro db = Ok (tt, db') -> ledger_step db db'
| step_grant now uuid ref micro exp src order lotID db db' :
    micro <= int64_max ->
    Grant now uuid ref micro exp src order db = Ok (lotID, db') -> ledger_step db db'
| step_revoke text_leb now order rev db db' :
    RevokeOrderLots text_leb now order db = Ok (rev, db') -> ledger_step db db'
| step_expire text_leb skip now limit n db db' :
    ExpireDueLots text_leb skip now limit db = Ok (n, db') -> ledger_step db db'.

Definition empty_ledger : ledger_db := LedgerDB ∅ [].

Definition ledger_reachable : ledger_db -> Prop := rtc ledger_step empty_ledger.

Lemma empty_ledger_ok : ledger_ok empty_ledger.
Proof.
  split; simpl; [|by intros id a; rewrite lookup_empty..].
  split; [constructor|]. intros l Hl. by apply not_elem_of_nil in Hl.
Qed.

Lemma Charge_ok db ref micro db' :
  ledger_ok db -> Charge ref micro db = Ok (tt, db') -> ledger_ok db'.
Proof.
  intros Hok H. destruct (Z.ltb_spec micro 0) as [?|Hm];
    [unfold Charge in H; by rewrite (proj2 (Z.ltb_lt micro 0)) in H by lia|].
  destruct (Z.eq_dec micro 0) as [-> | Hm0]; [unfold Charge in H; by injection H as <-|].
  destruct (decide (ref_id ref = ""%string)) as [He | He].
  { unfold Charge in H. rewrite (proj2 (Z.ltb_ge micro 0)), (proj2 (Z.eqb_neq micro 0)) in H by lia.
    by rewrite bool_decide_true in H. }
  destruct (bill_accounts db !! ref_id ref) as [a|] eqn:Ha;
    [|by rewrite Charge_missing in H by (done || lia)].
  destruct (Z.le_gt_cases int64_min (balance_micro a - micro)) as [Hr | Hr].
  - destruct (Charge_run db ref micro a) as (db1 & Hrun & _ & Hok'); try done; [lia|].
    rewrite Hrun in H. by injection H as <-.
  - unfold Charge in H. rewrite (proj2 (Z.ltb_ge micro 0)), (proj2 (Z.eqb_neq micro 0)) in H by lia.
    rewrite bool_decide_false in H by done. unfold tx_bind in H at 1.
    rewrite update_balance_spec, Ha in H. unfold in_int64 in H.
    rewrite (proj2 (Z.leb_gt int64_min _)) in H by lia. done.
Qed.

Lemma ChargeIfFunded_ok db ref micro db' :
  ledger_ok db -> ChargeIfFunded ref micro db = Ok (tt, db') -> ledger_ok db'.
Proof.
  intros Hok H. destruct (Z.ltb_spec micro 0) as [?|Hm];
    [unfold ChargeIfFunded in H; by rewrite (proj2 (Z.ltb_lt micro 0)) in H by lia|].
  destruct (Z.eq_dec micro 0) as [-> | Hm0]; [unfold ChargeIfFunded in H; by injection H as <-|].
  destruct (decide (ref_id ref = ""%string)) as [He | He].
  { unfold ChargeIfFunded in H.
    rewrite (proj2 (Z.ltb_ge micro 0)), (proj2 (Z.eqb_neq micro 0)) in H by lia.
    by rewrite bool_decide_true in H. }
  pose proof (ChargeIfFunded_refused db ref micro) as Href.
  destruct (bill_accounts db !! ref_id ref) as [a|] eqn:Ha;
    [|by rewrite Href in H by (done || lia)].
  destruct (Z.le_gt_cases micro (balance_micro a)) as [Hr | Hr];
    [|by rewrite Href in H by (done || lia)].
  destruct (ChargeIfFunded_run db ref micro a) as (db1 & Hrun & _ & Hok'); try done; [lia|].
  rewrite Hrun in H. by injection H as <-.
Qed.

Lemma ledger_step_ok db db' : ledger_step db db' -> ledger_ok db -> ledger_ok db'.
Proof.
  destruct 1 as [ref db db' H|ref m db db' H|ref m db db' H|now u ref m ex src o lotID db db' Hm H
    |le now o rev db db' H|le sk now lim n db db' H]; intros Hok.
  - by eapply EnsureAccount_ok.
  - by eapply Charge_ok.
  - by eapply ChargeIfFunded_ok.
  - by eapply Grant_ok.
  - destruct (decide (o = ""%string)) as [-> | Ho]; [done|].
    destruct (RevokeOrderLots_run le now o db Hok Ho) as (db1 & Hrun & Hok' & _).
    rewrite Hrun in H. by injection H as _ <-.
  - destruct (ExpireDueLots_run le sk now lim db Hok) as (db1 & Hrun & Hok' & _).
    rewrite Hrun in H. by injection H as _ <-.
Qed.

(** C1: in every ledger reached from the empty one by any sequence of account
    provisioning, charges, funded charges, grants, recharge reversals and expiry
    runs, each lot row is well formed (consumed within granted, an expiry stamp
    exactly with its unspent snapshot, a revoked lot fully consumed), and for
    each account the unspent amounts of its open lots add up to its balance, or
    to zero when the balance is a debt. *)
Theorem ledger_reachable_ok db : ledger_reachable db -> ledger_ok db.
Proof.
  unfold ledger_reachable. intros Hreach.
  refine (rtc_ind_r (fun d => ledger_ok d) _ empty_ledger_ok _ db Hreach).
  intros x y _ Hstep. by apply ledger_step_ok.
Qed.

(** ** The abstract ledger *)

(** A ledger without lots: one signed number per account. *)
Definition balances_of (db : ledger_db) : gmap string Z := balance_micro <$> bill_accounts db.

Definition observe {A} (r : result ledger_error (A * ledger_db)) : result ledger_error (gmap string Z) :=
  match r with Ok (_, db) => Ok (balances_of db) | Err e => Err e end.

Definition spec_charge (id : string) (micro : Z) (m : gmap string Z)
    : result ledger_error (gmap string Z) :=
  if micro <? 0 then Err (ErrLedgerText "charge amount must not be negative")
  else if micro =? 0 then Ok m
  else if bool_decide (id = ""%string) then Err (ErrLedgerText "charge requires an account id")
  else match m !! id with
       | None => Err (ErrAccountNotFound id)
       | Some b => if in_int64 (b - micro) then Ok (<[id := b - micro]> m)
                   else Err (ErrLedgerSQL "bigint out of range")
       end.

Definition spec_charge_if_funded (id : string) (micro : Z) (m : gmap string Z)
    : result ledger_error (gmap string Z) :=
  if micro <? 0 then Err (ErrLedgerText "charge amount must not be negative")
  else if micro =? 0 then Ok m
  else if bool_decide (id = ""%string) then Err (ErrLedgerText "charge requires an account id")
  else match m !! id with
       | None => Err (ErrAccountNotFound id)
       | Some b => if micro <=? b then Ok (<[id := b - micro]> m)
                   else Err (ErrInsufficientBalance id)
       end.

Lemma balances_of_lookup db id : balances_of db !! id = balance_micro <$> bill_accounts db !! id.
Proof. apply lookup_fmap. Qed.

Lemma balances_of_set db db' id b a :
  bill_accounts db' = <[id := set_balance b a]> (bill_accounts db) ->
  balances_of db' = <[id := b]> (balances_of db).
Proof. intros H. unfold balances_of. by rewrite H, fmap_insert. Qed.

(** C25: [Charge] refines the abstract debit: for every amount, account and state of the
    tables it has the outcome of the specification [spec_charge], which never looks at
    the funds or the lots; the only failures are a negative amount, an account id that is
    empty, an account that does not exist, and a balance outside [int64], and a failure
    moves nothing.  The state need not satisfy the invariant of C1: the conservation that
    a refund followed by an expiry can break (refund_then_expiry_overdebits) is not
    needed for a debit. *)
Theorem Charge_refines_spec db ref micro :
  observe (Charge ref micro db) = spec_charge (ref_id ref) micro (balances_of db).
Proof.
  unfold spec_charge, Charge. destruct (micro <? 0); [done|]. destruct (micro =? 0); [done|].
  case_bool_decide; [done|]. unfold tx_bind. rewrite balances_of_lookup, update_balance_spec.
  destruct (bill_accounts db !! ref_id ref) as [a|] eqn:Ha; simpl; [|done].
  replace (balance_micro a + - micro) with (balance_micro a - micro) by lia.
  destruct (in_int64 (balance_micro a - micro)); [|done]. simpl. unfold consumeLots, tx_bind, tx_get.
  set (db1 := set_accounts _ db).
  destruct (consume_loop_returns (consumable_lots (ref_id ref) db1) micro db1) as (db' & Hrun & Hacc).
  rewrite Hrun. simpl. f_equal. apply (balances_of_set db db' (ref_id ref) _ a). by rewrite Hacc.
Qed.

(** [ChargeIfFunded] refines the guarded abstract debit: it moves the whole
    amount exactly when the balance covers it, answers [ErrInsufficientBalance]
    without moving anything otherwise, and keeps a missing account distinct. *)
Theorem ChargeIfFunded_refines_spec db ref micro :
  ledger_ok db ->
  observe (ChargeIfFunded ref micro db) =
    spec_charge_if_funded (ref_id ref) micro (balances_of db).
Proof.
  intros Hok. unfold spec_charge_if_funded. destruct (Z.ltb_spec micro 0) as [Hm | Hm];
    [unfold ChargeIfFunded; by rewrite (proj2 (Z.ltb_lt micro 0)) by lia|].
  destruct (Z.eqb_spec micro 0) as [-> | Hm0]; [done|].
  case_bool_decide as He.
  { unfold ChargeIfFunded. rewrite (proj2 (Z.ltb_ge micro 0)), (proj2 (Z.eqb_neq micro 0)) by lia.
    by rewrite bool_decide_true. }
  rewrite balances_of_lookup. pose proof (ChargeIfFunded_refused db ref micro) as Href.
  destruct (bill_accounts db !! ref_id ref) as [a|] eqn:Ha; simpl;
    [|by rewrite Href by (done || lia)].
  destruct (Z.leb_spec micro (balance_micro a)); [|by rewrite Href by (done || lia)].
  destruct (ChargeIfFunded_run db ref micro a) as (db' & Hrun & Hacc & _); try done; [lia|].
  rewrite Hrun. simpl. f_equal. by eapply balances_of_set.
Qed.

(** ** Attribution *)

Lemma lot_leb_refl l : lot_leb l l = true.
Proof. unfold lot_leb. destruct (expires_at l); lia. Qed.

(** C26: a charge is attributed first in, first out.  For any two open, unspent
    lots of the account where the first sorts strictly before the second (sooner
    expiry, permanent lots last, older first), the committed charge leaves both
    rows in the table with some amounts added to what they had consumed, and the
    second contributes only if the first contributed everything it had left. *)
Theorem Charge_fifo db db' ref micro x y :
  ledger_ok db -> 0 < micro -> Charge ref micro db = Ok (tt, db') ->
  x ∈ bill_credit_lots db -> y ∈ bill_credit_lots db ->
  consumable (ref_id ref) x = true -> consumable (ref_id ref) y = true ->
  lot_leb y x = false ->
  exists kx ky,
    with_consumed (consumed_micro x + kx) x ∈ bill_credit_lots db' /\
    with_consumed (consumed_micro y + ky) y ∈ bill_credit_lots db' /\
    0 <= kx <= lot_left x /\ 0 <= ky <= lot_left y /\
    (0 < ky -> kx = lot_left x).
Proof.
  intros Hok Hm Hrun Hx Hy Hcx Hcy Hlt. unfold Charge in Hrun.
  rewrite (proj2 (Z.ltb_ge micro 0)), (proj2 (Z.eqb_neq micro 0)) in Hrun by lia.
  destruct (bool_decide _); [done|]. apply tx_bind_ok in Hrun as (n & db1 & Hupd & Hrun).
  destruct (n =? 0); [done|].
  assert (Hdb1 : bill_credit_lots db1 = bill_credit_lots db /\
    lots_wf (bill_accounts db1) (bill_credit_lots db)).
  { rewrite update_balance_spec in Hupd. destruct Hok as [Hwf _ _].
    destruct (bill_accounts db !! ref_id ref) as [a|]; [|by injection Hupd as _ <-].
    destruct (in_int64 _); [|done]. injection Hupd as _ <-. simpl. split; [done|].
    by apply lots_wf_insert_account. }
  destruct Hdb1 as [Hlots Hwf1]. unfold consumeLots, tx_bind, tx_get in Hrun.
  change (consumable_lots (ref_id ref) db1) with (lot_row <$> consume_queue (ref_id ref) db1) in Hrun.
  set (q := consume_queue (ref_id ref) db1) in *.
  assert (Hq : forall l, l ∈ q -> l ∈ bill_credit_lots db1 /\ consumable (ref_id ref) l = true)
    by (intros l; apply consume_queue_elem).
  assert (Hpos : forall l, l ∈ q -> 0 < lot_left l).
  { intros l [_ Hl]%Hq. apply consumable_facts in Hl as (_ & _ & ?). unfold lot_left. lia. }
  destruct (sorted_before lot_leb q x y) as (i & j & Hi & Hj & Hij).
  { apply order_by_sorted; [apply lot_leb_total | apply lot_leb_trans]. }
  { apply consume_queue_elem. by rewrite Hlots. }
  { apply consume_queue_elem. by rewrite Hlots. }
  { apply lot_leb_refl. } { done. }
  destruct (fifo_lookup q micro i x Hi) as [kx Hkx], (fifo_lookup q micro j y Hj) as [ky Hky].
  assert (Hin : forall l k, (l, k) ∈ fifo q micro ->
    with_consumed (consumed_micro l + k) l ∈ bill_credit_lots db').
  { eapply (consume_loop_fifo (bill_accounts db1) (ref_id ref)); [done | by rewrite Hlots | | done | done].
    apply consume_queue_NoDup. rewrite Hlots. apply Hok. }
  exists kx, ky. apply list_elem_of_lookup_2 in Hkx as Hx', Hky as Hy'.
  split; [by apply Hin|]. split; [by apply Hin|].
  split; [by eapply fifo_range|]. split; [by eapply fifo_range|].
  intros Hpk. by eapply fifo_order.
Qed.

(** A committed grant adds its whole amount to the balance, in [int64], and
    turns into a lot only what it left above zero after absorbing the debt; no
    lot is recorded (and the empty id returned) exactly when the debt absorbed
    everything. *)
Theorem Grant_correct db now uuid ref micro exp src order lotID db' :
  ledger_ok db -> micro <= int64_max ->
  Grant now uuid ref micro exp src order db = Ok (lotID, db') ->
  exists b, balances_of db !! ref_id ref = Some b /\ 0 < micro /\
    balances_of db' = <[ref_id ref := b + micro]> (balances_of db) /\
    b + micro <= int64_max /\
    open_total (ref_id ref) (bill_credit_lots db') =
      open_total (ref_id ref) (bill_credit_lots db) + (Z.max 0 (Z.min micro (micro + b))) /\
    (bill_credit_lots db' = bill_credit_lots db <-> b + micro <= 0).
Proof.
  intros Hok Hmax H. apply Grant_run in H as (a & Ha & Hm & Hr & Hacc & Hlots); try done.
  exists (balance_micro a). fold (grant_lot_micro (balance_micro a) micro).
  split; [by rewrite balances_of_lookup, Ha|]. split; [done|].
  split; [by eapply balances_of_set|]. split; [done|].
  pose proof (eq_refl (grant_lot_micro (balance_micro a) micro)) as Hg.
  unfold grant_lot_micro at 1 in Hg. rewrite Hlots. split.
  - rewrite open_total_app. f_equal. destruct (decide _) as [Hp | Hp]; simpl.
    + unfold lot_of_account, lot_available. simpl. rewrite bool_decide_true by done. lia.
    + lia.
  - destruct (decide _) as [Hp | Hp]; simpl.
    + split; [|lia]. intros Heq. apply (f_equal length) in Heq.
      rewrite length_app in Heq. simpl in Heq. lia.
    + rewrite app_nil_r. split; [lia | done].
Qed.

(** ** Reversal and expiry *)

(** Reversing a recharge always succeeds on a well-formed ledger and takes
    back exactly what its open lots have not been spent on: every account loses
    the unspent amount of its own lots of the order and nothing else, the report
    carries the exact totals, no open lot of the order is left, and a second
    reversal reclaims nothing and changes nothing. *)
Theorem RevokeOrderLots_correct text_leb now order db :
  ledger_ok db -> order <> ""%string ->
  sumZ granted_micro (order_open_lots order db) <= int64_max ->
  let ls := order_open_lots order db in
  exists db',
    RevokeOrderLots text_leb now order db =
      Ok (MkRevocation (lot_id <$> ls) (sumZ granted_micro ls) (sumZ lot_left ls), db') /\
    (forall id, balances_of db' !! id =
       (fun b => b - retired_from id ls) <$> balances_of db !! id) /\
    order_open_lots order db' = [] /\
    RevokeOrderLots text_leb now order db' = Ok (MkRevocation [] 0 0, db').
Proof.
  intros Hok Hne Hmax ls.
  destruct (RevokeOrderLots_run text_leb now order db Hok Hne) as (db' & Hrun & Hok' & Hret).
  exists db'. assert (Hnone : order_open_lots order db' = []).
  { apply filter_rows_nil. eapply retired_none_left; [exact Hret | |].
    - intros l. unfold lot_open. simpl. by destruct (expired_at l).
    - intros l Hl Hp Ho. apply elem_of_filter_rows. by rewrite Hp, Ho. }
  split; [|split_and!; [|done | by apply RevokeOrderLots_nothing]].
  - rewrite Hrun, revoke_totals; simpl; try done; try lia.
    intros l Hl. apply order_open_lots_elem in Hl as [Hl _].
    destruct (lot_consumed _ _ (proj2 (ok_lots db Hok) l Hl)). unfold lot_left. lia.
  - intros id. rewrite !balances_of_lookup. by apply (retired_balances _ _ _ _ id Hret).
Qed.

(** An expiry run always succeeds on a well-formed ledger, settles at most
    its limit, and takes from every account exactly the unspent amount of its
    settled lots; when the limit covers the due lots and no other transaction
    holds one, no lot stays due and running again at that time is a no-op. *)
Theorem ExpireDueLots_correct text_leb skip now limit db :
  ledger_ok db ->
  let due := expiry_batch text_leb skip now limit db in
  exists db',
    ExpireDueLots text_leb skip now limit db = Ok (Z.of_nat (length due), db') /\
    Z.of_nat (length due) <= expiry_limit limit /\
    (forall id, balances_of db' !! id =
       (fun b => b - retired_from id due) <$> balances_of db !! id) /\
    ((forall id, skip id = false) ->
     Z.of_nat (length (List.filter (lot_due now) (bill_credit_lots db))) <= expiry_limit limit ->
     ExpireDueLots text_leb skip now limit db' = Ok (0, db')).
Proof.
  intros Hok due.
  destruct (ExpireDueLots_run text_leb skip now limit db Hok) as (db' & Hrun & Hok' & Hret).
  fold due in Hrun, Hret. exists db'. split; [done|]. split; [|split].
  - unfold due, expiry_batch, due_lots. rewrite length_take. unfold expiry_limit.
    destruct (Z.leb_spec limit 0); lia.
  - intros id. rewrite !balances_of_lookup. by apply (retired_balances _ _ _ _ id Hret).
  - intros Hskip Hroom. apply ExpireDueLots_nothing. intros x Hx. unfold lot_due.
    rewrite andb_comm. eapply (retired_none_left _ _ _ _
      (fun l => match expires_at l with Some t => t <=? now | None => false end) Hret); [done| |done].
    intros l Hl Hp Ho. assert (Hd : lot_due now l = true) by (unfold lot_due; by rewrite Ho).
    pose proof (expiry_batch_complete text_leb now limit db l Hroom Hl Hd) as Hin.
    replace due with (expiry_batch text_leb (fun _ => false) now limit db); [done|].
    unfold due, expiry_batch, due_lots. do 2 f_equal.
    apply List.filter_ext. intros a. by rewrite Hskip.
Qed.

(** ** Refund reversal *)

(** Reversing a grant for a completed refund reconciles: for a well-formed
    ledger, an existing account and an order none of whose lots was revoked and
    which granted no more than the credit, the reported parts are the unspent,
    the already consumed (with the credit that never became a lot) and the
    expired amounts, they add up to the credit, and the account is debited the
    credit less what had expired. *)
Theorem ReverseGrantForRefund_correct now acct order credit db a :
  ledger_ok db -> bill_accounts db !! acct = Some a ->
  acct <> ""%string -> order <> ""%string ->
  (forall l, l ∈ order_lots order db -> revoked_at l = None) ->
  0 < credit <= int64_max -> sumZ granted_micro (order_lots order db) <= credit ->
  int64_min <= balance_micro a - (credit - sum_expired (order_lots order db)) ->
  exists r db', ReverseGrantForRefund now acct order credit db = Ok (r, db') /\
    AvailableReclaimedMicro r = sum_available (order_lots order db) /\
    ExpiredMicro r = sum_expired (order_lots order db) /\
    AvailableReclaimedMicro r + NonAvailableDebitMicro r + ExpiredMicro r = credit /\
    AccountDebitMicro r = credit - ExpiredMicro r /\
    BalanceAfterMicro r = balance_micro a - AccountDebitMicro r /\
    balances_of db' = <[acct := BalanceAfterMicro r]> (balances_of db) /\
    order_open_lots order db' = [].
Proof.
  intros Hok Ha Hacct Horder Hrev Hcredit Hsum Hlow.
  pose proof (sum_components (order_lots order db)) as Hc.
  eexists _, _. split; [by apply ReverseGrantForRefund_run|]. simpl.
  split; [done|]. split; [done|]. split; [lia|]. split; [done|]. split; [done|]. split.
  - by eapply balances_of_set.
  - apply filter_rows_nil. intros x Hx. apply elem_of_update_where in Hx as (l & Hl & ->).
    destruct (lot_of_order order l) eqn:Ho; simpl; [|by rewrite Ho].
    destruct (lot_open l) eqn:Hop; [|by rewrite Ho, Hop].
    unfold lot_open. simpl. destruct (expired_at l); apply andb_false_r.
Qed.

(** A refund reversal keeps the books in balance for the refunded account in
    exactly two cases: nothing of the refunded credit had been spent, or the
    account's whole positive balance was the refunded lots' unspent part.
    Otherwise the debit exceeds the lots it closes and the account is left with
    open lots worth more than its balance. *)
Theorem refund_conservation_iff now acct order credit db a r db' :
  ledger_ok db -> bill_accounts db !! acct = Some a ->
  acct <> ""%string -> order <> ""%string ->
  (forall l, l ∈ order_lots order db -> revoked_at l = None /\ lot_account_id l = acct) ->
  0 < credit <= int64_max -> sumZ granted_micro (order_lots order db) <= credit ->
  int64_min <= balance_micro a - (credit - sum_expired (order_lots order db)) ->
  ReverseGrantForRefund now acct order credit db = Ok (r, db') ->
  open_total acct (bill_credit_lots db') = Z.max (BalanceAfterMicro r) 0 <->
  NonAvailableDebitMicro r = 0 \/
    Z.max (balance_micro a) 0 = AvailableReclaimedMicro r.
Proof.
  intros Hok Ha Hacct Horder Hall Hcredit Hsum Hlow Hrun.
  assert (Hrev : forall l, l ∈ order_lots order db -> revoked_at l = None) by (intros; by apply Hall).
  rewrite (ReverseGrantForRefund_run now acct order credit db a) in Hrun by done.
  injection Hrun as <- <-. simpl.
  rewrite refund_open_total by done. rewrite (ok_conserved db Hok _ _ Ha).
  replace (List.filter (lot_of_account acct) (order_lots order db)) with (order_lots order db).
  2:{ symmetry. apply List.forallb_filter_id, List.forallb_forall. intros l Hl.
      apply list_elem_of_In, Hall in Hl as [_ Hl]. unfold lot_of_account.
      by rewrite bool_decide_true. }
  pose proof (sum_components (order_lots order db)) as Hc.
  assert (Hopen : sum_available (order_lots order db) <= Z.max (balance_micro a) 0).
  { rewrite <- (ok_conserved db Hok _ _ Ha).
    pose proof (refund_open_total now order db acct Hok Hrev) as Ht.
    replace (List.filter (lot_of_account acct) (order_lots order db)) with (order_lots order db) in Ht.
    - pose proof (open_total_nonneg acct (update_where (fun l => lot_of_order order l && lot_open l)
        (revoke_lot now) (bill_credit_lots db))). lia.
    - symmetry. apply List.forallb_filter_id, List.forallb_forall. intros l Hl.
      apply list_elem_of_In, Hall in Hl as [_ Hl]. unfold lot_of_account.
      by rewrite bool_decide_true. }
  assert (Hnn : 0 <= sumZ consumed_micro (order_lots order db) /\
                0 <= sum_available (order_lots order db)).
  { split; apply sumZ_nonneg; intros l Hl; apply elem_of_filter_rows in Hl as [_ Hl];
      destruct (lot_consumed _ _ (proj2 (ok_lots db Hok) l Hl)); cbn beta;
      try destruct (is_expired l); unfold lot_left; lia. }
  lia.
Qed.

(** ** Concrete ledgers *)

Definition state_of {A} (r : result ledger_error (A * ledger_db)) : ledger_db :=
  match r with Ok (_, db) => db | Err _ => empty_ledger end.

Definition user_ref : Ref := MkRef KindUser "U" "T".
Definition uuid_a : string := "aaaaaaaa-aaaa-4aaa-8aaa-aaaaaaaaaaaa".
Definition uuid_b : string := "bbbbbbbb-bbbb-4bbb-8bbb-bbbbbbbbbbbb".

Definition demo_empty : ledger_db := state_of (EnsureAccount user_ref empty_ledger).
(** A permanent grant of 100 from order A, of which 40 are spent, then a grant
    of 50 from order B that expires at time 10. *)
Definition demo_granted : ledger_db :=
  state_of (Grant 1 uuid_a user_ref 100 None "ADMIN_RECHARGE" "A" demo_empty).
Definition demo_spent : ledger_db := state_of (Charge user_ref 40 demo_granted).
Definition demo : ledger_db :=
  state_of (Grant 2 uuid_b user_ref 50 (Some 10) "ADMIN_RECHARGE" "B" demo_spent).

Lemma demo_steps :
  ledger_step empty_ledger demo_empty /\ ledger_step demo_empty demo_granted /\
  ledger_step demo_granted demo_spent /\ ledger_step demo_spent demo.
Proof.
  split_and!.
  - apply (step_ensure user_ref). vm_compute. reflexivity.
  - eapply (step_grant 1 uuid_a user_ref 100 None "ADMIN_RECHARGE" "A"); [done|]. vm_compute. reflexivity.
  - apply (step_charge user_ref 40). vm_compute. reflexivity.
  - eapply (step_grant 2 uuid_b user_ref 50 (Some 10) "ADMIN_RECHARGE" "B"); [done|].
    vm_compute. reflexivity.
Qed.

Lemma demo_reachable : ledger_reachable demo.
Proof.
  destruct demo_steps as (H1 & H2 & H3 & H4).
  eapply rtc_l; [exact H1|]. eapply rtc_l; [exact H2|]. eapply rtc_l; [exact H3|].
  by apply rtc_once.
Qed.

Lemma demo_oks : ledger_ok demo_granted /\ ledger_ok demo_spent /\ ledger_ok demo.
Proof.
  destruct demo_steps as (H1 & H2 & H3 & H4).
  pose proof (ledger_step_ok _ _ H1 empty_ledger_ok) as K1.
  pose proof (ledger_step_ok _ _ H2 K1) as K2. pose proof (ledger_step_ok _ _ H3 K2) as K3.
  pose proof (ledger_step_ok _ _ H4 K3). done.
Qed.
Lemma demo_ok : ledger_ok demo.
Proof. apply demo_oks. Qed.
Lemma demo_spent_ok : ledger_ok demo_spent.
Proof. apply demo_oks. Qed.

Lemma ledger_reachable_ok_witness : ledger_reachable demo /\ ledger_ok demo.
Proof. split; [exact demo_reachable | exact (ledger_reachable_ok demo demo_reachable)]. Defined.

Lemma Charge_refines_spec_witness :
  observe (Charge user_ref 200 demo) = Ok {["U"%string := -90]}.
Proof.
  rewrite (Charge_refines_spec demo user_ref 200). vm_compute. reflexivity.
Defined.

Lemma ChargeIfFunded_refines_spec_witness :
  observe (ChargeIfFunded user_ref 200 demo) = Err (ErrInsufficientBalance "U").
Proof.
  rewrite (ChargeIfFunded_refines_spec demo user_ref 200 demo_ok). vm_compute. reflexivity.
Defined.

(** The two lots of [demo]: B expires, A is permanent, so B is drained first. *)
Definition demo_lot (i : nat) : credit_lot :=
  List.nth i (bill_credit_lots demo) (CreditLot "" "" 0 0 None None None None "" None 0).

Lemma Charge_fifo_witness :
  exists kb ka,
    with_consumed (consumed_micro (demo_lot 1) + kb) (demo_lot 1)
      ∈ bill_credit_lots (state_of (Charge user_ref 60 demo)) /\
    with_consumed (consumed_micro (demo_lot 0) + ka) (demo_lot 0)
      ∈ bill_credit_lots (state_of (Charge user_ref 60 demo)) /\
    0 <= kb <= 50 /\ 0 <= ka <= 60 /\ (0 < ka -> kb = 50).
Proof.
  apply (Charge_fifo demo (state_of (Charge user_ref 60 demo)) user_ref 60
           (demo_lot 1) (demo_lot 0) demo_ok); [lia | vm_compute; reflexivity | | |
           vm_compute; reflexivity | vm_compute; reflexivity | vm_compute; reflexivity].
  - apply list_elem_of_lookup. exists 1%nat. vm_compute. reflexivity.
  - apply list_elem_of_lookup. exists 0%nat. vm_compute. reflexivity.
Defined.

Definition demo_debt : ledger_db := state_of (Charge user_ref 130 demo_spent).
Lemma demo_debt_ok : ledger_ok demo_debt.
Proof.
  apply (ledger_step_ok demo_spent); [|exact demo_spent_ok].
  apply (step_charge user_ref 130). vm_compute. reflexivity.
Qed.

(** A grant of 100 on a debt of 70 leaves a lot of 30. *)
Lemma Grant_correct_witness :
  exists lotID db', Grant 3 uuid_b user_ref 100 None "ADMIN_RECHARGE" "C" demo_debt = Ok (lotID, db') /\
    exists b, balances_of demo_debt !! "U"%string = Some b /\ 0 < 100 /\
      balances_of db' = <["U"%string := b + 100]> (balances_of demo_debt) /\
      b + 100 <= int64_max /\
      open_total "U" (bill_credit_lots db') =
        open_total "U" (bill_credit_lots demo_debt) + (Z.max 0 (Z.min 100 (100 + b))) /\
      (bill_credit_lots db' = bill_credit_lots demo_debt <-> b + 100 <= 0).
Proof.
  eexists _, _. split; [vm_compute; reflexivity|].
  eapply (Grant_correct demo_debt 3 uuid_b user_ref 100 None "ADMIN_RECHARGE" "C");
    [exact demo_debt_ok | done | vm_compute; reflexivity].
Defined.

Lemma RevokeOrderLots_correct_witness :
  exists db', RevokeOrderLots String.leb 5 "A" demo =
      Ok (MkRevocation ["LOT_aaaaaaaa-aaaa-4aaa-8aaa-"%string] 100 60, db') /\
    order_open_lots "A" db' = [].
Proof.
  destruct (RevokeOrderLots_correct String.leb 5 "A" demo demo_ok) as (db' & Hrun & _ & Hnil & _);
    [done | vm_compute; done |].
  exists db'. split; [exact Hrun | exact Hnil].
Defined.

Lemma ExpireDueLots_correct_witness :
  exists db', ExpireDueLots String.leb (fun _ => false) 20 0 demo = Ok (1, db') /\
    ExpireDueLots String.leb (fun _ => false) 20 0 db' = Ok (0, db').
Proof.
  destruct (ExpireDueLots_correct String.leb (fun _ => false) 20 0 demo demo_ok)
    as (db' & Hrun & _ & _ & Hagain).
  exists db'. split; [exact Hrun | apply Hagain; [done | vm_compute; done]].
Defined.

Lemma order_a_lots : order_lots "A" demo = [demo_lot 0].
Proof. vm_compute. reflexivity. Qed.

Lemma order_a_facts l :
  l ∈ order_lots "A" demo -> revoked_at l = None /\ lot_account_id l = "U"%string.
Proof.
  rewrite order_a_lots. intros Hl. apply list_elem_of_singleton in Hl as ->.
  split; vm_compute; reflexivity.
Qed.

Definition demo_account : account := Account KindUser "T" 110.
Definition demo_refund := ReverseGrantForRefund 6 "U" "A" 100 demo.
Definition demo_refund_result : RefundReversal := MkRefundReversal 100 60 40 0 100 10.

Lemma ReverseGrantForRefund_correct_witness :
  exists r db', demo_refund = Ok (r, db') /\ order_open_lots "A" db' = [].
Proof.
  destruct (ReverseGrantForRefund_correct 6 "U" "A" 100 demo demo_account demo_ok)
    as (r & db' & Hrun & _ & _ & _ & _ & _ & _ & Hnil); try done.
  - intros l Hl. by apply order_a_facts.
  - exists r, db'. split; [exact Hrun | exact Hnil].
Defined.

(** Here 40 of the refunded 100 had been spent and other lots remain, so
    neither case of the theorem holds and the books no longer balance. *)
Lemma refund_conservation_iff_witness :
  demo_refund = Ok (demo_refund_result, state_of demo_refund) /\
  (open_total "U" (bill_credit_lots (state_of demo_refund)) = Z.max 10 0 <->
   40 = 0 \/ Z.max 110 0 = 60).
Proof.
  split; [vm_compute; reflexivity|].
  eapply (refund_conservation_iff 6 "U" "A" 100 demo demo_account demo_refund_result);
    try done; [exact demo_ok | exact order_a_facts | vm_compute; done..].
Defined.

(** From a reachable ledger, refunding a partly spent recharge and then
    letting another grant expire charges the same 40 twice: the balance of 110
    (60 of A, 50 of B) drops to 10 with B's 50 still open, and when B expires
    unspent the account is driven to a debt of 40, although the holder spent
    only 40 in all and B had covered it. *)
Theorem refund_then_expiry_overdebits :
  exists db r db1 db2,
    ledger_reachable db /\ balances_of db !! "U"%string = Some 110 /\
    ReverseGrantForRefund 6 "U" "A" 100 db = Ok (r, db1) /\
    balances_of db1 !! "U"%string = Some 10 /\ open_total "U" (bill_credit_lots db1) = 50 /\
    ExpireDueLots String.leb (fun _ => false) 20 0 db1 = Ok (1, db2) /\
    balances_of db2 !! "U"%string = Some (-40) /\ open_total "U" (bill_credit_lots db2) = 0.
Proof.
  exists demo, demo_refund_result, (state_of demo_refund),
    (state_of (ExpireDueLots String.leb (fun _ => false) 20 0 (state_of demo_refund))).
  split; [exact demo_reachable|]. split_and!; vm_compute; reflexivity.
Qed.
