(* ===== verification/Recharge.v ===== *)
(** * Recharges and their reversal

    Models [src/internal/billing/service/recharge.go] and [deduction.go]: the
    recharge order that records where a grant came from, the manual grant with
    its identity lock, and the audited reversal.  The state adds to the ledger
    the tables [bill_recharge_orders] and [bill_repair_audits], the identity
    rows the lock reads, and the set of payment order ids that a foreign key
    refers to.  Audit snapshots are kept as the records the source encodes to
    JSON objects. *)

From S2P Require Import Prelude GoStrings Ledger.

(** ** Data *)

Definition OrderTypePlatformToTenant : string := "platform_to_tenant".
Definition OrderTypeTenantToUser : string := "tenant_to_user".
Definition OrderTypeOnlineUserTopup : string := "online_user_topup".
Definition OrderTypeOnlineTenantTopup : string := "online_tenant_topup".
Definition OrderTypeUserTopupIncome : string := "user_topup_income".

Definition PackageSourceAdminRecharge : string := "ADMIN_RECHARGE".
Definition PackageSourceTenantRecharge : string := "TENANT_RECHARGE".
Definition PackageSourceOnlineTopup : string := "ONLINE_TOPUP".
Definition PackageSourceUserTopupIncome : string := "USER_TOPUP_INCOME".

Definition OrderStatusActive : string := "active".
Definition OrderStatusReversed : string := "reversed".

(** One row of [bill_recharge_orders]. *)
Record recharge_order := RechargeOrder {
  ro_order_id : string;
  ro_order_type : string;
  ro_tenant_id : string;
  ro_user_id : option string;
  ro_credit_amount : Z;
  ro_paid_amount : Z;
  ro_payment_ref : option string;
  ro_payment_order_id : option string;
  ro_expires_at : option Z;
  ro_operator_id : string;
  ro_note : option string;
  ro_status : string;
  ro_reversed_at : option Z;
  ro_reversed_by : option string;
  ro_reversal_reason : option string;
  ro_reversed_amount_micro : Z;
  ro_lost_amount_micro : Z;
  ro_created_at : Z }.

(** The facts of a [recharge_reversal] audit event: the order before, and the
    values the reversal wrote. *)
Record audit_event := AuditEvent {
  ev_repair_id : string;
  ev_action : string;
  ev_idempotency_key : string;
  ev_target_type : string;
  ev_target_id : string;
  ev_operator_id : string;
  ev_reason : string;
  ev_before : recharge_order;
  ev_after_reversed : Z;
  ev_after_lost : Z;
  ev_after_fulfillment : string }.

Record iam_account := IamAccount {
  ia_user_id : string;
  ia_tenant_id : option string;
  ia_user_type : Z;
  ia_status : string }.

Record billing_db := BillingDB {
  b_ledger : ledger_db;
  b_orders : list recharge_order;
  b_audits : list audit_event;
  b_tenants : list string;
  b_accounts : list iam_account;
  b_pay_orders : list string }.

Inductive billing_error :=
| ErrBadRequest (detail : string)
| ErrInvalidAmount
| ErrForbidden
| ErrRechargeNotFound
| ErrRechargeAlreadyReversed
| ErrRechargeNotReversible
| ErrRechargeCreditsExhausted
| ErrInvalidEvent
| ErrBillingLedger (e : ledger_error)
| ErrBillingSQL (msg : string).

Abbreviation BTx := (Tx billing_db billing_error).

Definition set_ledger (l : ledger_db) (db : billing_db) : billing_db :=
  BillingDB l (b_orders db) (b_audits db) (b_tenants db) (b_accounts db) (b_pay_orders db).
Definition set_orders (o : list recharge_order) (db : billing_db) : billing_db :=
  BillingDB (b_ledger db) o (b_audits db) (b_tenants db) (b_accounts db) (b_pay_orders db).
Definition set_audits (a : list audit_event) (db : billing_db) : billing_db :=
  BillingDB (b_ledger db) (b_orders db) a (b_tenants db) (b_accounts db) (b_pay_orders db).

(** A ledger call inside a billing transaction. *)
Definition on_ledger {A} (m : LTx A) : BTx A :=
  tx_zoom b_ledger set_ledger (tx_map_err ErrBillingLedger m).

(** ** Parameters of a grant *)

Record GrantParams := MkGrantParams {
  gp_OrderType : string;
  gp_TenantID : string;
  gp_UserID : string;
  gp_AmountMicroUSD : Z;
  gp_PaidAmount : Z;
  gp_PaymentRef : string;
  gp_PaymentOrderID : string;
  gp_Note : string;
  gp_OperatorID : string;
  gp_Source : string;
  gp_ExpiresAt : option Z }.

Record GrantResult := MkGrantResult {
  gr_TenantID : string;
  gr_OrderID : string;
  gr_BalanceLotID : string;
  gr_ClearedDebtMicroUSD : Z;
  gr_LotAmountMicroUSD : Z;
  gr_OrderTime : Z }.

Definition empty_str (s : string) : bool := bool_decide (s = ""%string).
Definition str_eqb (s t : string) : bool := bool_decide (s = t).

(** [validateGrantParamsInternal]; [None] is a nil error. *)
Definition validateGrantParamsInternal (p : GrantParams) (allowTenantResolution : bool)
    : option billing_error :=
  if empty_str (gp_TenantID p) &&
     negb (allowTenantResolution && str_eqb (gp_OrderType p) OrderTypeTenantToUser
           && negb (empty_str (gp_UserID p)))
  then Some (ErrBadRequest "tenant id is required")
  else if empty_str (gp_OperatorID p) then Some (ErrBadRequest "operator id is required")
  else if gp_AmountMicroUSD p <=? 0 then Some ErrInvalidAmount
  else if gp_PaidAmount p <? 0 then Some (ErrBadRequest "paid amount must not be negative")
  else
    let user := negb (empty_str (gp_UserID p)) in
    let pay := negb (empty_str (gp_PaymentOrderID p)) in
    let finish (online : bool) (expectedSource : string) : option billing_error :=
      if negb (str_eqb (gp_Source p) expectedSource)
      then Some (ErrBadRequest "recharge source does not match order type")
      else if online && empty_str (gp_PaymentRef p)
      then Some (ErrBadRequest "online recharge requires a payment reference")
      else None in
    if str_eqb (gp_OrderType p) OrderTypePlatformToTenant then
      if user || pay
      then Some (ErrBadRequest "platform recharge cannot target a user or payment order")
      else finish false PackageSourceAdminRecharge
    else if str_eqb (gp_OrderType p) OrderTypeTenantToUser then
      if negb user || pay
      then Some (ErrBadRequest "tenant recharge requires a user and cannot link a payment order")
      else finish false PackageSourceTenantRecharge
    else if str_eqb (gp_OrderType p) OrderTypeOnlineUserTopup then
      if negb user || negb pay
      then Some (ErrBadRequest "online user recharge requires a user and payment order")
      else finish true PackageSourceOnlineTopup
    else if str_eqb (gp_OrderType p) OrderTypeOnlineTenantTopup then
      if user || negb pay
      then Some (ErrBadRequest "online tenant recharge requires a payment order and no user")
      else finish true PackageSourceOnlineTopup
    else if str_eqb (gp_OrderType p) OrderTypeUserTopupIncome then
      if user || negb pay
      then Some (ErrBadRequest "user topup income requires a payment order and no user")
      else finish true PackageSourceUserTopupIncome
    else Some (ErrBadRequest "unsupported recharge order type").

Definition validateGrantParams (p : GrantParams) := validateGrantParamsInternal p false.
Definition validateManualGrantParams (p : GrantParams) := validateGrantParamsInternal p true.

(** [if err := f(); err != nil { return nil, err }] *)
Definition check (e : option billing_error) : BTx unit :=
  match e with Some err => tx_fail err | None => tx_ret tt end.

(** [GrantRef] *)
Definition GrantRef (tenantID userID : string) : Ref :=
  if empty_str userID then MkRef KindTenant tenantID tenantID
  else MkRef KindUser userID tenantID.

(** ** The order table *)

(** CHECK, UNIQUE and FOREIGN KEY constraints of [bill_recharge_orders]. *)
Definition order_online (t : string) : bool :=
  bool_decide (t ∈ [OrderTypeOnlineUserTopup; OrderTypeOnlineTenantTopup; OrderTypeUserTopupIncome]).
Definition order_has_user (t : string) : bool :=
  bool_decide (t ∈ [OrderTypeTenantToUser; OrderTypeOnlineUserTopup]).
Definition order_type_ok (t : string) : bool :=
  bool_decide (t ∈ [OrderTypePlatformToTenant; OrderTypeTenantToUser; OrderTypeOnlineUserTopup;
                    OrderTypeOnlineTenantTopup; OrderTypeUserTopupIncome]).
Definition is_some {A} (o : option A) : bool := match o with Some _ => true | None => false end.

Definition order_row_ok (o : recharge_order) : bool :=
  order_type_ok (ro_order_type o) && (0 <? ro_credit_amount o) && (0 <=? ro_paid_amount o)
  && bool_decide (ro_status o ∈ [OrderStatusActive; OrderStatusReversed])
  && (0 <=? ro_reversed_amount_micro o) && (0 <=? ro_lost_amount_micro o)
  && eqb (is_some (ro_user_id o)) (order_has_user (ro_order_type o))
  && (ro_reversed_amount_micro o + ro_lost_amount_micro o <=? ro_credit_amount o)
  && eqb (is_some (ro_payment_order_id o)) (order_online (ro_order_type o)).

(** The partial unique index on the payment reference of topup income. *)
Definition income_ref_clash (o o' : recharge_order) : bool :=
  str_eqb (ro_order_type o) OrderTypeUserTopupIncome
  && str_eqb (ro_order_type o') OrderTypeUserTopupIncome
  && is_some (ro_payment_ref o) && bool_decide (ro_payment_ref o = ro_payment_ref o').

Definition insert_order (o : recharge_order) : BTx unit :=
  let! db := tx_get in
  tx_guard (bool_decide (ro_order_id o ∈ (ro_order_id <$> b_orders db)))
    (ErrBillingSQL "duplicate order_id") ;;;
  tx_guard (negb (order_row_ok o)) (ErrBillingSQL "bill_recharge_orders check") ;;;
  tx_guard (existsb (income_ref_clash o) (b_orders db)) (ErrBillingSQL "duplicate payment_ref") ;;;
  tx_guard (match ro_payment_order_id o with
            | Some id => negb (bool_decide (id ∈ b_pay_orders db))
            | None => false
            end) (ErrBillingSQL "payment_order_id foreign key") ;;;
  tx_put (set_orders (b_orders db ++ [o]) db).

(** ** Grants *)

(** [db_now] is the transaction's time, [now] is [billing.NowUTC()]; the UUIDs
    are the generated identifiers. *)
Definition GrantBalance (db_now now : Z) (order_uuid lot_uuid : string) (p : GrantParams) : BTx GrantResult :=
  check (validateGrantParams p) ;;;
  let orderID := ("ORD_" +:+ String.substring 0 24 order_uuid)%string in
  insert_order (RechargeOrder orderID (gp_OrderType p) (gp_TenantID p) (nullif (gp_UserID p))
    (gp_AmountMicroUSD p) (gp_PaidAmount p) (nullif (gp_PaymentRef p))
    (nullif (gp_PaymentOrderID p)) (gp_ExpiresAt p) (gp_OperatorID p) (nullif (gp_Note p))
    OrderStatusActive None None None 0 0 now) ;;;
  let ref := GrantRef (gp_TenantID p) (gp_UserID p) in
  let! balanceBefore := on_ledger (Balance ref) in
  let! lotID := on_ledger (Grant db_now lot_uuid ref (gp_AmountMicroUSD p) (gp_ExpiresAt p)
                             (gp_Source p) orderID) in
  let clearedDebt :=
    if balanceBefore <? 0 then Z.min (wrap64 (- balanceBefore)) (gp_AmountMicroUSD p) else 0 in
  tx_ret (MkGrantResult (gp_TenantID p) orderID lotID clearedDebt
            (wrap64 (gp_AmountMicroUSD p - clearedDebt)) now).

(** [SELECT tenant_id FROM iam_accounts WHERE user_id AND user_type = 4 AND
    status = 'active'] *)
Definition active_end_user (userID : string) (a : iam_account) : bool :=
  str_eqb (ia_user_id a) userID && (ia_user_type a =? 4) && str_eqb (ia_status a) "active".

(** [pgx.ErrNoRows], or a NULL tenant that does not scan into a string. *)
Inductive lock_error := NoRows | ScanError.

(** [TenantRepository.LockManualRechargeTarget] *)
Definition LockManualRechargeTarget (tenantID userID : string) (db : billing_db)
    : result lock_error string :=
  let resolved :=
    if empty_str tenantID then
      if empty_str userID then Err NoRows
      else match List.find (active_end_user userID) (b_accounts db) with
           | Some a => match ia_tenant_id a with Some t => Ok t | None => Err ScanError end
           | None => Err NoRows
           end
    else Ok tenantID in
  match resolved with
  | Err e => Err e
  | Ok tid =>
      if bool_decide (tid ∈ b_tenants db) then
        if empty_str userID then Ok tid
        else match List.find (fun a => active_end_user userID a
                        && bool_decide (ia_tenant_id a = Some tid)) (b_accounts db) with
             | Some _ => Ok tid
             | None => Err NoRows
             end
      else Err NoRows
  end.

Definition with_tenant (t : string) (p : GrantParams) : GrantParams :=
  MkGrantParams (gp_OrderType p) t (gp_UserID p) (gp_AmountMicroUSD p) (gp_PaidAmount p)
    (gp_PaymentRef p) (gp_PaymentOrderID p) (gp_Note p) (gp_OperatorID p) (gp_Source p)
    (gp_ExpiresAt p).

Definition GrantManual (db_now now : Z) (order_uuid lot_uuid : string) (p : GrantParams) : BTx GrantResult :=
  check (validateManualGrantParams p) ;;;
  tx_guard (negb (str_eqb (gp_OrderType p) OrderTypePlatformToTenant)
            && negb (str_eqb (gp_OrderType p) OrderTypeTenantToUser))
    (ErrBadRequest "manual recharge requires a manual order type") ;;;
  let! db := tx_get in
  match LockManualRechargeTarget (gp_TenantID p) (gp_UserID p) db with
  | Err NoRows => tx_fail (if negb (empty_str (gp_UserID p))
                           then ErrBadRequest "user missing, deleted or disabled"
                           else ErrBadRequest "target tenant does not exist")
  | Err ScanError => tx_fail (ErrBillingSQL "cannot scan NULL tenant_id")
  | Ok resolvedTenantID =>
      let p := if empty_str (gp_TenantID p) then with_tenant resolvedTenantID p else p in
      check (validateGrantParams p) ;;;
      GrantBalance db_now now order_uuid lot_uuid p
  end.

(** ** Reversal *)

Record ReverseResult := MkReverseResult {
  rr_OrderID : string;
  rr_PaymentOrderID : string;
  rr_FulfillmentStatus : string;
  rr_BalanceLotID : string;
  rr_OriginalCredits : Z;
  rr_ReversedCredits : Z;
  rr_LostCredits : Z;
  rr_IsPartial : bool }.

(** [audit.Append], with the table's UNIQUE keys; the snapshots are JSON objects
    by construction. *)
Definition audit_Append (e : audit_event) : BTx unit :=
  tx_guard (blank (ev_repair_id e) || blank (ev_action e) || blank (ev_idempotency_key e)
            || blank (ev_target_type e) || blank (ev_target_id e) || blank (ev_operator_id e)
            || blank (ev_reason e)) ErrInvalidEvent ;;;
  let! db := tx_get in
  tx_guard (bool_decide (ev_repair_id e ∈ (ev_repair_id <$> b_audits db))
            || bool_decide (ev_idempotency_key e ∈ (ev_idempotency_key <$> b_audits db)))
    (ErrBillingSQL "append billing repair audit") ;;;
  tx_put (set_audits (b_audits db ++ [e]) db).

Definition mark_reversed (now : Z) (operatorID reason : string) (reversed lost : Z)
    (o : recharge_order) : recharge_order :=
  RechargeOrder (ro_order_id o) (ro_order_type o) (ro_tenant_id o) (ro_user_id o)
    (ro_credit_amount o) (ro_paid_amount o) (ro_payment_ref o) (ro_payment_order_id o)
    (ro_expires_at o) (ro_operator_id o) (ro_note o) OrderStatusReversed (Some now)
    (Some operatorID) (Some reason) reversed lost (ro_created_at o).

Definition reverseOrder (text_leb : string -> string -> bool) (db_now now : Z) (repair_uuid : string)
    (orderID tenantID reason operatorID : string) : BTx ReverseResult :=
  let! db := tx_get in
  match find_key ro_order_id orderID (b_orders db) with
  | None => tx_fail ErrRechargeNotFound
  | Some o =>
      if negb (empty_str tenantID) &&
         (negb (str_eqb (ro_tenant_id o) tenantID)
          || negb (str_eqb (ro_order_type o) OrderTypeTenantToUser))
      then tx_fail ErrForbidden
      else if str_eqb (ro_status o) OrderStatusReversed then tx_fail ErrRechargeAlreadyReversed
      else if negb (str_eqb (ro_status o) OrderStatusActive) then tx_fail ErrRechargeNotReversible
      else if str_eqb (ro_order_type o) OrderTypeUserTopupIncome
      then tx_fail ErrRechargeNotReversible
      else if match ro_payment_order_id o with Some id => negb (empty_str id) | None => false end
      then tx_fail ErrRechargeNotReversible
      else
        let! revocation := on_ledger (RevokeOrderLots text_leb db_now orderID) in
        if ReclaimedMicro revocation =? 0 then tx_fail ErrRechargeCreditsExhausted
        else
          let reclaimed := ReclaimedMicro revocation in
          let lostMicro := wrap64 (ro_credit_amount o - reclaimed) in
          let o' := mark_reversed now operatorID reason reclaimed lostMicro o in
          tx_guard (negb (order_row_ok o')) (ErrBillingSQL "bill_recharge_orders check") ;;;
          let! db1 := tx_get in
          tx_put (set_orders (update_where (has_key ro_order_id orderID)
                    (mark_reversed now operatorID reason reclaimed lostMicro) (b_orders db1)) db1) ;;;
          let fulfillmentStatus :=
            if 0 <? lostMicro then "partially_reversed"%string else "reversed"%string in
          audit_Append (AuditEvent ("REPAIR_" +:+ String.substring 0 24 repair_uuid)
            "recharge_reversal" ("recharge-reversal:" +:+ orderID) "bill_recharge_orders"
            orderID operatorID reason o reclaimed lostMicro fulfillmentStatus) ;;;
          tx_ret (MkReverseResult orderID
            (match ro_payment_order_id o with Some id => id | None => "" end)
            fulfillmentStatus
            (match LotIDs revocation with id :: _ => id | [] => "" end)
            (ro_credit_amount o) reclaimed lostMicro (0 <? lostMicro))
  end.

Definition ReverseOrder text_leb db_now now repair_uuid (orderID reason operatorID : string) :=
  reverseOrder text_leb db_now now repair_uuid orderID "" reason operatorID.

Definition ReverseTenantOrder text_leb db_now now repair_uuid
    (orderID tenantID reason operatorID : string) : BTx ReverseResult :=
  if empty_str tenantID then tx_fail ErrForbidden
  else reverseOrder text_leb db_now now repair_uuid orderID tenantID reason operatorID.
