(* ===== verification/RechargeProps.v ===== *)
(** * Properties of recharges and reversals *)

From S2P Require Import Prelude GoStrings Ledger LedgerFacts LedgerProps Recharge.

(** ** Calls into the ledger *)

Lemma on_ledger_ok {A} (m : LTx A) db a db' :
  on_ledger m db = Ok (a, db') <->
  exists l, m (b_ledger db) = Ok (a, l) /\ db' = set_ledger l db.
Proof.
  unfold on_ledger. rewrite tx_zoom_ok. unfold tx_map_err.
  split; intros (l & H & ->); exists l; (split; [|done]);
    destruct (m (b_ledger db)) as [[]|]; by simplify_eq.
Qed.

Lemma check_ok e db u db' : check e db = Ok (u, db') -> e = None /\ db' = db.
Proof. unfold check. intros H. destruct e; tx_inv H. done. Qed.

Lemma Balance_ok ref db b db' :
  Balance ref db = Ok (b, db') -> db' = db /\ balances_of db !! ref_id ref = Some b.
Proof.
  unfold Balance, Balances. intros H. tx_inv H. split; [done|].
  apply map_lookup_filter_Some in Hm as [Hm _]. done.
Qed.

Lemma insert_order_ok o db u db' :
  insert_order o db = Ok (u, db') ->
  (ro_order_id o ∉ (ro_order_id <$> b_orders db)) /\ order_row_ok o = true /\
  db' = set_orders (b_orders db ++ [o]) db.
Proof. unfold insert_order. intros H. tx_inv H; bool_prop; done. Qed.

(** What a committed [GrantBalance] did. *)
Lemma GrantBalance_run db db_now now u1 u2 p r db' :
  ledger_ok (b_ledger db) -> gp_AmountMicroUSD p <= int64_max ->
  GrantBalance db_now now u1 u2 p db = Ok (r, db') ->
  let acct := ref_id (GrantRef (gp_TenantID p) (gp_UserID p)) in
  balances_of (b_ledger db) !! acct <> Some int64_min ->
  exists b o, validateGrantParams p = None /\
    balances_of (b_ledger db) !! acct = Some b /\
    balances_of (b_ledger db') = <[acct := b + gp_AmountMicroUSD p]> (balances_of (b_ledger db)) /\
    ledger_ok (b_ledger db') /\
    b_orders db' = b_orders db ++ [o] /\
    ro_order_id o = gr_OrderID r /\ ro_status o = OrderStatusActive /\
    ro_credit_amount o = gp_AmountMicroUSD p /\ ro_tenant_id o = gp_TenantID p /\
    ro_order_type o = gp_OrderType p /\
    gr_ClearedDebtMicroUSD r = Z.max 0 (Z.min (- b) (gp_AmountMicroUSD p)) /\
    gr_ClearedDebtMicroUSD r + gr_LotAmountMicroUSD r = gp_AmountMicroUSD p /\
    (gr_LotAmountMicroUSD r = 0 <-> bill_credit_lots (b_ledger db') = bill_credit_lots (b_ledger db)).
Proof.
  intros Hok Hmax H acct Hmin. unfold GrantBalance in H.
  apply tx_bind_ok in H as ([] & d0 & Hc & H). apply check_ok in Hc as [Hv ->].
  apply tx_bind_ok in H as (u & d1 & Hins & H). apply insert_order_ok in Hins as (_ & _ & ->).
  apply tx_bind_ok in H as (b & d2 & Hbal & H). apply on_ledger_ok in Hbal as (l1 & Hbal & ->).
  apply Balance_ok in Hbal as [-> Hb].
  apply tx_bind_ok in H as (lot & d3 & Hgr & H). apply on_ledger_ok in Hgr as (l2 & Hgr & ->).
  unfold tx_ret in H. injection H as <- <-. simpl in *.
  pose proof (Grant_ok _ _ _ _ _ _ _ _ _ _ Hok Hmax Hgr) as Hok'.
  apply Grant_run in Hgr as (a & Ha & Hm & Hr & Hacc & Hlots); try done.
  fold acct in Hb, Ha, Hacc. rewrite balances_of_lookup, Ha in Hb. injection Hb as <-.
  pose proof (ok_range _ Hok _ _ Ha) as Hra.
  exists (balance_micro a). eexists. split; [done|]. split; [by rewrite balances_of_lookup, Ha|].
  split; [by eapply balances_of_set|]. split; [done|]. split; [done|].
  do 5 (split; [done|]).
  set (c := if balance_micro a <? 0 then _ else 0).
  assert (Hcl : c = Z.max 0 (Z.min (- balance_micro a) (gp_AmountMicroUSD p))).
  { unfold c. destruct (Z.ltb_spec (balance_micro a) 0); [|lia].
    assert (balance_micro a <> int64_min)
      by (intros He; apply Hmin; by rewrite balances_of_lookup, Ha, <- He).
    rewrite wrap64_id by (unfold int64_min, int64_max in *; lia). lia. }
  split; [done|]. rewrite wrap64_id by (unfold int64_min, int64_max in *; lia).
  clearbody c. split; [lia|]. rewrite Hlots. unfold grant_lot_micro.
  destruct (decide _) as [Hp | Hp]; unfold grant_lot_micro in Hp.
  - split; [intros Hc0; exfalso; lia|]. intros Heq. apply (f_equal length) in Heq.
    rewrite length_app in Heq. simpl in Heq. lia.
  - rewrite app_nil_r. split; [done | intros; lia].
Qed.

(** ** Manual grants *)

Lemma LockManualRechargeTarget_ok tenantID userID db tenant :
  LockManualRechargeTarget tenantID userID db = Ok tenant ->
  (tenantID = ""%string \/ tenant = tenantID) /\ tenant ∈ b_tenants db /\
  (userID = ""%string \/
   exists a, a ∈ b_accounts db /\ ia_user_id a = userID /\ ia_tenant_id a = Some tenant /\
             ia_status a = "active"%string /\ ia_user_type a = 4).
Proof.
  intros Hlock. unfold LockManualRechargeTarget in Hlock. cbv zeta in Hlock.
  destruct (if empty_str tenantID then _ else _) as [tid|] eqn:Hres; [|done].
  case_bool_decide as Hin; [|done].
  assert (Ht : tenantID = ""%string \/ tid = tenantID).
  { unfold empty_str in Hres. case_bool_decide; [by left | right; by injection Hres]. }
  unfold empty_str at 1 in Hlock. case_bool_decide as Hue.
  - injection Hlock as <-. auto.
  - match type of Hlock with context [List.find ?f ?l] =>
      destruct (List.find f l) as [a|] eqn:Hf end; [|done]. injection Hlock as <-.
    split; [done|]. split; [done|]. right. exists a.
    apply List.find_some in Hf as [Ha Hf]. unfold active_end_user, str_eqb in Hf.
    bool_prop. apply list_elem_of_In in Ha. done.
Qed.

(** A manual grant that commits went to a target that was locked valid: the
    tenant exists and, when a user is named, an active end user of that very
    tenant does; it credits the whole amount to that one account (the user's if
    one is named, the tenant's otherwise), splits it exactly into cleared debt
    and a new lot, records one active order for it, and keeps the ledger's
    invariant. *)
Theorem GrantManual_correct db db_now now u1 u2 p r db' :
  ledger_ok (b_ledger db) -> gp_AmountMicroUSD p <= int64_max ->
  (forall id, balances_of (b_ledger db) !! id <> Some int64_min) ->
  GrantManual db_now now u1 u2 p db = Ok (r, db') ->
  exists tenant b o,
    LockManualRechargeTarget (gp_TenantID p) (gp_UserID p) db = Ok tenant /\
    (gp_TenantID p = ""%string \/ tenant = gp_TenantID p) /\
    tenant ∈ b_tenants db /\
    (gp_UserID p = ""%string \/
     exists a, a ∈ b_accounts db /\ ia_user_id a = gp_UserID p /\ ia_tenant_id a = Some tenant /\
               ia_status a = "active"%string /\ ia_user_type a = 4) /\
    let acct := if empty_str (gp_UserID p) then tenant else gp_UserID p in
    balances_of (b_ledger db) !! acct = Some b /\
    balances_of (b_ledger db') = <[acct := b + gp_AmountMicroUSD p]> (balances_of (b_ledger db)) /\
    gr_ClearedDebtMicroUSD r = Z.max 0 (Z.min (- b) (gp_AmountMicroUSD p)) /\
    gr_ClearedDebtMicroUSD r + gr_LotAmountMicroUSD r = gp_AmountMicroUSD p /\
    b_orders db' = b_orders db ++ [o] /\ ro_order_id o = gr_OrderID r /\
    ro_status o = OrderStatusActive /\ ro_credit_amount o = gp_AmountMicroUSD p /\
    ro_tenant_id o = tenant /\ ledger_ok (b_ledger db').
Proof.
  intros Hok Hmax Hmin H. unfold GrantManual in H.
  apply tx_bind_ok in H as ([] & d0 & Hc & H). apply check_ok in Hc as [_ ->].
  apply tx_bind_ok in H as ([] & d0 & Hg & H). tx_inv Hg.
  apply tx_bind_ok in H as (d1 & d2 & Hget & H). unfold tx_get in Hget. injection Hget as <- <-.
  destruct (LockManualRechargeTarget _ _ _) as [tenant|[]] eqn:Hlock; [|done..].
  apply tx_bind_ok in H as ([] & d0' & Hc & H). apply check_ok in Hc as [_ ->].
  set (p' := if empty_str (gp_TenantID p) then with_tenant tenant p else p) in *.
  assert (Hp' : gp_UserID p' = gp_UserID p /\ gp_AmountMicroUSD p' = gp_AmountMicroUSD p)
    by (unfold p'; by destruct (empty_str _)).
  destruct Hp' as [Hu Hamt].
  pose proof (LockManualRechargeTarget_ok _ _ _ _ Hlock) as Hlk.
  destruct Hlk as (Ht & Hin & Huser).
  assert (Htp : gp_TenantID p' = tenant).
  { unfold p', empty_str. destruct (decide (gp_TenantID p = ""%string)) as [He | He].
    - by rewrite bool_decide_true.
    - rewrite bool_decide_false by done. by destruct Ht as [Ht | ->]. }
  apply GrantBalance_run in H as (b & o & _ & Hb & Hbal & Hok' & Hords & Hid & Hst & Hcr & Hten & _ & Hcl & Hsum & _);
    [|done | by rewrite Hamt | apply Hmin].
  rewrite Hu, Htp in Hb, Hbal. rewrite Hamt in Hbal, Hcl, Hsum, Hcr. rewrite Htp in Hten.
  exists tenant, b, o. split; [done|]. split; [done|]. split; [done|]. split; [done|].
  assert (Hacct : ref_id (GrantRef tenant (gp_UserID p)) =
    if empty_str (gp_UserID p) then tenant else gp_UserID p).
  { unfold GrantRef. by destruct (empty_str (gp_UserID p)). }
  rewrite Hacct in Hb, Hbal. simpl. split_and!; done.
Qed.

(** ** Reversal *)

Lemma mark_reversed_key now op reason r l o :
  ro_order_id (mark_reversed now op reason r l o) = ro_order_id o.
Proof. done. Qed.

Lemma audit_Append_ok e db u db' :
  audit_Append e db = Ok (u, db') ->
  blank (ev_reason e) = false /\ (ev_idempotency_key e ∉ (ev_idempotency_key <$> b_audits db)) /\
  db' = set_audits (b_audits db ++ [e]) db.
Proof. unfold audit_Append. intros H. tx_inv H. bool_prop. done. Qed.

(** What a committed reversal found and did. *)
Lemma reverseOrder_run le t now u orderID tenantID reason op db r db' :
  ledger_ok (b_ledger db) -> orderID <> ""%string ->
  sumZ granted_micro (order_open_lots orderID (b_ledger db)) <= int64_max ->
  (forall o, o ∈ b_orders db -> 0 < ro_credit_amount o <= int64_max) ->
  reverseOrder le t now u orderID tenantID reason op db = Ok (r, db') ->
  exists o e l', find_key ro_order_id orderID (b_orders db) = Some o /\
    ro_status o = OrderStatusActive /\ ro_order_type o <> OrderTypeUserTopupIncome /\
    (ro_payment_order_id o = None \/ ro_payment_order_id o = Some ""%string) /\
    (tenantID = ""%string \/
     ro_tenant_id o = tenantID /\ ro_order_type o = OrderTypeTenantToUser) /\
    rr_OriginalCredits r = ro_credit_amount o /\
    rr_ReversedCredits r = sumZ lot_left (order_open_lots orderID (b_ledger db)) /\
    rr_ReversedCredits r + rr_LostCredits r = ro_credit_amount o /\
    0 < rr_ReversedCredits r /\ 0 <= rr_LostCredits r /\
    RevokeOrderLots le t orderID (b_ledger db) =
      Ok (MkRevocation (lot_id <$> order_open_lots orderID (b_ledger db))
            (sumZ granted_micro (order_open_lots orderID (b_ledger db)))
            (sumZ lot_left (order_open_lots orderID (b_ledger db))), l') /\
    b_ledger db' = l' /\
    b_orders db' = update_where (has_key ro_order_id orderID)
      (mark_reversed now op reason (rr_ReversedCredits r) (rr_LostCredits r)) (b_orders db) /\
    b_audits db' = b_audits db ++ [e] /\ ev_target_id e = orderID /\ ev_reason e = reason /\
    blank reason = false.
Proof.
  intros Hok Hne Hmax Hcred H. unfold reverseOrder in H.
  apply tx_bind_ok in H as (d0 & d1 & Hget & H). unfold tx_get in Hget. injection Hget as <- <-.
  destruct (find_key ro_order_id orderID (b_orders db)) as [o|] eqn:Hf; [|done].
  destruct (_ && _) eqn:Hscope in H; [done|].
  destruct (str_eqb (ro_status o) OrderStatusReversed); [done|].
  destruct (negb _) eqn:Hst in H; [done|].
  destruct (str_eqb (ro_order_type o) OrderTypeUserTopupIncome) eqn:Hty; [done|].
  destruct (match ro_payment_order_id o with Some id => _ | None => _ end) eqn:Hpay in H; [done|].
  apply tx_bind_ok in H as (rev & d1 & Hrev & H). apply on_ledger_ok in Hrev as (l' & Hrev & ->).
  destruct (RevokeOrderLots_run le t orderID (b_ledger db) Hok Hne) as (l2 & Hrun & _).
  assert (Hls : forall l, l ∈ order_open_lots orderID (b_ledger db) -> 0 <= lot_left l <= granted_micro l).
  { intros l [Hl _]%order_open_lots_elem.
    destruct (lot_consumed _ _ (proj2 (ok_lots _ Hok) l Hl)). unfold lot_left. lia. }
  rewrite revoke_totals in Hrun by (simpl; done || lia). simpl in Hrun.
  change (0 + ?x) with x in Hrun.
  rewrite Hrun in Hrev. injection Hrev as <- <-.
  destruct (Z.eqb_spec (sumZ lot_left (order_open_lots orderID (b_ledger db))) 0) as [?|Hnz];
    cbn [ReclaimedMicro] in H; [by rewrite (proj2 (Z.eqb_eq _ 0)) in H|].
  rewrite (proj2 (Z.eqb_neq _ 0)) in H by done.
  set (rc := sumZ lot_left (order_open_lots orderID (b_ledger db))) in *.
  assert (Hrc : 0 <= rc <= sumZ granted_micro (order_open_lots orderID (b_ledger db))).
  { split; [apply sumZ_nonneg; intros; by apply Hls|]. unfold rc. clear -Hls.
    induction (order_open_lots orderID (b_ledger db)) as [|a ls IH]; simpl; [lia|].
    pose proof (Hls a (list_elem_of_here _ _)).
    assert (sumZ lot_left ls <= sumZ granted_micro ls); [|lia].
    apply IH. intros x Hx. apply Hls. by apply list_elem_of_further. }
  pose proof (find_key_Some _ _ _ _ Hf) as [Ho Hid]. pose proof (Hcred o Ho) as Hco.
  rewrite wrap64_id in H by (unfold int64_min, int64_max in *; lia).
  apply tx_bind_ok in H as ([] & d2 & Hg & H). unfold tx_guard in Hg.
  destruct (negb _) eqn:Hrow in Hg; [done|]. unfold tx_ret in Hg. injection Hg as <-.
  unfold order_row_ok in Hrow. simpl in Hrow. bool_prop.
  apply tx_bind_ok in H as (d3 & d4 & Hget & H). unfold tx_get in Hget. injection Hget as <- <-.
  apply tx_bind_ok in H as ([] & d5 & Hput & H). unfold tx_put in Hput. injection Hput as <-.
  apply tx_bind_ok in H as (uu & d6 & Haud & H). apply audit_Append_ok in Haud as (Hbl & _ & ->).
  unfold tx_ret in H. injection H as <- <-. simpl in *.
  exists o. eexists _, l2. unfold str_eqb, empty_str in *. bool_prop.
  split; [done|]. split; [done|]. split; [done|]. split.
  { destruct (ro_payment_order_id o) as [id|]; [|by left]. right. by bool_prop; subst. }
  split.
  { destruct (bool_decide (tenantID = ""%string)) eqn:Ht; bool_prop; [by left|]. right.
    simpl in Hscope. bool_prop. done. }
  split_and!; try done; try lia.
Qed.

(** A reversal that commits acted on an active manual order the caller may
    reverse (a tenant only its own grants to users; an order linked to an online
    payment never), took back from every account exactly what the order's open
    lots had left, split the credited amount exactly into reversed and lost, left
    an audit event with a reason, and cannot be repeated: the same request on the
    new state answers [ErrRechargeAlreadyReversed]. *)
Theorem reverseOrder_correct le t now u orderID tenantID reason op db r db' :
  ledger_ok (b_ledger db) -> orderID <> ""%string ->
  sumZ granted_micro (order_open_lots orderID (b_ledger db)) <= int64_max ->
  (forall o, o ∈ b_orders db -> 0 < ro_credit_amount o <= int64_max) ->
  reverseOrder le t now u orderID tenantID reason op db = Ok (r, db') ->
  exists o e, find_key ro_order_id orderID (b_orders db) = Some o /\
    ro_status o = OrderStatusActive /\
    (ro_payment_order_id o = None \/ ro_payment_order_id o = Some ""%string) /\
    (tenantID = ""%string \/
     ro_tenant_id o = tenantID /\ ro_order_type o = OrderTypeTenantToUser) /\
    0 < rr_ReversedCredits r /\ 0 <= rr_LostCredits r /\
    rr_ReversedCredits r + rr_LostCredits r = ro_credit_amount o /\
    (forall id, balances_of (b_ledger db') !! id =
       (fun b => b - retired_from id (order_open_lots orderID (b_ledger db)))
         <$> balances_of (b_ledger db) !! id) /\
    rr_ReversedCredits r = sumZ lot_left (order_open_lots orderID (b_ledger db)) /\
    ledger_ok (b_ledger db') /\
    b_audits db' = b_audits db ++ [e] /\ ev_target_id e = orderID /\
    blank (ev_reason e) = false /\
    (forall le2 t2 now2 u2 reason2 op2,
       reverseOrder le2 t2 now2 u2 orderID tenantID reason2 op2 db' =
         Err ErrRechargeAlreadyReversed).
Proof.
  intros Hok Hne Hmax Hcred H.
  apply reverseOrder_run in H as (o & e & l' & Hf & Hst & Hty & Hpay & Hsc & _ & Hrev & Hsum & Hpos
    & Hlost & Hrun & Hl & Hords & Haud & Htgt & Hrs & Hbl); try done.
  destruct (RevokeOrderLots_run le t orderID (b_ledger db) Hok Hne) as (l2 & Hrun2 & Hok' & Hret).
  rewrite Hrun2 in Hrun. injection Hrun as _ <-. subst l2.
  exists o, e. do 7 (split; [done|]). split.
  { intros id. rewrite !balances_of_lookup. by apply (retired_balances _ _ _ _ id Hret). }
  split; [done|]. split; [done|]. split; [done|]. split; [done|]. split; [by rewrite Hrs|].
  intros le2 t2 now2 u2 reason2 op2. unfold reverseOrder, tx_bind at 1, tx_get.
  rewrite Hords, find_key_update, Hf by apply mark_reversed_key. simpl.
  assert (Hscope : negb (empty_str tenantID) && (negb (str_eqb (ro_tenant_id o) tenantID)
     || negb (str_eqb (ro_order_type o) OrderTypeTenantToUser)) = false).
  { destruct Hsc as [-> | [<- ->]]; [done|]. unfold str_eqb. rewrite bool_decide_true by done.
    by rewrite andb_false_r. }
  by rewrite Hscope.
Qed.

(** ** Concrete requests *)

Definition demo_billing : billing_db :=
  BillingDB (state_of (EnsureAccount user_ref empty_ledger)) [] [] ["T"]
    [IamAccount "U" (Some "T") 4 "active"] [].

Definition demo_params : GrantParams :=
  MkGrantParams OrderTypeTenantToUser "" "U" 100 0 "" "" "" "op" PackageSourceTenantRecharge None.

Definition billing_of {A} (r : result billing_error (A * billing_db)) : billing_db :=
  match r with Ok (_, db) => db | Err _ => demo_billing end.

(** The user was granted 100 and has spent 30. *)
Definition demo_recharged : billing_db := billing_of (GrantManual 1 1 uuid_a uuid_b demo_params demo_billing).
Definition demo_recharged_spent : billing_db :=
  billing_of (on_ledger (Charge user_ref 30) demo_recharged).
Definition demo_order : string := "ORD_aaaaaaaa-aaaa-4aaa-8aaa-".
Definition demo_leb (s1 s2 : string) : bool := true.

Lemma demo_billing_ok : ledger_ok (b_ledger demo_billing).
Proof.
  eapply (ledger_step_ok empty_ledger); [|apply empty_ledger_ok].
  apply (step_ensure user_ref). vm_compute. reflexivity.
Qed.

Lemma demo_recharged_spent_ok : ledger_ok (b_ledger demo_recharged_spent).
Proof.
  eapply (ledger_step_ok (b_ledger demo_recharged)).
  { apply (step_charge user_ref 30). vm_compute. reflexivity. }
  eapply (ledger_step_ok (b_ledger demo_billing)); [|apply demo_billing_ok].
  eapply (step_grant 1 uuid_b user_ref 100 None PackageSourceTenantRecharge demo_order); [done|].
  vm_compute. reflexivity.
Qed.

Lemma demo_billing_range id : balances_of (b_ledger demo_billing) !! id <> Some int64_min.
Proof.
  intros H. assert (Hall : map_Forall (fun _ b => b <> int64_min) (balances_of (b_ledger demo_billing)))
    by (apply (bool_decide_unpack _); vm_compute; done).
  by apply (Hall id int64_min H).
Qed.

Lemma GrantManual_correct_witness :
  exists r db' tenant,
    GrantManual 1 1 uuid_a uuid_b demo_params demo_billing = Ok (r, db') /\
    LockManualRechargeTarget "" "U" demo_billing = Ok tenant /\
    gr_ClearedDebtMicroUSD r + gr_LotAmountMicroUSD r = 100 /\ ledger_ok (b_ledger db').
Proof.
  destruct (GrantManual 1 1 uuid_a uuid_b demo_params demo_billing) as [[r db']|e] eqn:H.
  - destruct (GrantManual_correct demo_billing 1 1 uuid_a uuid_b demo_params r db'
      demo_billing_ok ltac:(vm_compute; discriminate) demo_billing_range H)
      as (t & b & o & Hl & _ & _ & _ & _ & _ & _ & Hs & _ & _ & _ & _ & _ & Hok).
    exists r, db', t. split; [done|]. split; [exact Hl|]. split; [exact Hs | exact Hok].
  - vm_compute in H. discriminate H.
Defined.

Lemma reverseOrder_correct_witness :
  exists r db',
    reverseOrder demo_leb 5 5 uuid_a demo_order "T" "mistake" "op" demo_recharged_spent = Ok (r, db') /\
    rr_ReversedCredits r + rr_LostCredits r = 100 /\
    reverseOrder demo_leb 6 6 uuid_b demo_order "T" "again" "op" db' = Err ErrRechargeAlreadyReversed.
Proof.
  destruct (reverseOrder demo_leb 5 5 uuid_a demo_order "T" "mistake" "op" demo_recharged_spent)
    as [[r db']|e] eqn:H.
  - destruct (reverseOrder_correct demo_leb 5 5 uuid_a demo_order "T" "mistake" "op"
      demo_recharged_spent r db' demo_recharged_spent_ok) as (o & e & Hf & _ & _ & _ & _ & _ & Hs & Hrest);
      [discriminate | vm_compute; discriminate | | exact H |].
    + intros o Ho. change (b_orders demo_recharged_spent)
        with (b_orders (billing_of (GrantManual 1 1 uuid_a uuid_b demo_params demo_billing))) in Ho.
      apply list_elem_of_In in Ho. vm_compute in Ho. destruct Ho as [<- | []].
      vm_compute. split; [reflexivity | discriminate].
    + exists r, db'. split; [done|]. split.
      * rewrite Hs. vm_compute in Hf. injection Hf as <-. reflexivity.
      * apply Hrest.
  - vm_compute in H. discriminate H.
Defined.
