(* ===== verification/CivilTime.v ===== *)
(** * The calendar of Go's [time] package

    An instant is a number of nanoseconds since 1970-01-01 UTC, a duration a
    number of nanoseconds.  A [Location] is the function
    [( *Location).lookup] computes from the time-zone database: for a Unix
    second, the offset from UTC in force and the interval on which it is.
    Everything the source asks of [time] in a location is defined from it:
    [In], [Date], [Clock], [Weekday], [time.Date] and [AddDate]. *)

From Stdlib Require Import Lia.
From S2P Require Import Prelude.

(** Linear arithmetic with division by constants. *)
Ltac zdiv := Z.to_euclidean_division_equations; lia.

Definition Second : Z := 1000000000.
Definition Hour : Z := 3600 * Second.
Definition day_seconds : Z := 86400.
(** The zero [time.Time], 1 January of year 1 UTC ([Time.IsZero]). *)
Definition zero_time : Z := -62135596800 * Second.

(** ** The proleptic Gregorian calendar

    Days are counted from 1970-01-01; an era is 400 years from 1 March. *)

Definition days_from_civil (y m d : Z) : Z :=
  let y' := if m <=? 2 then y - 1 else y in
  let era := y' / 400 in
  let yoe := y' - era * 400 in
  let mp := (m + 9) mod 12 in
  let doy := (153 * mp + 2) / 5 + d - 1 in
  let doe := yoe * 365 + yoe / 4 - yoe / 100 + doy in
  era * 146097 + doe - 719468.

(** Year of the era and day of that year: whole centuries, whole four-year
    cycles, whole years; the last century and the last year of a cycle are the
    ones that may be one day longer. *)
Definition year_of_doe (doe : Z) : Z * Z :=
  let n100 := doe / 36524 - doe / 36524 / 4 in
  let d1 := doe - 36524 * n100 in
  let n4 := d1 / 1461 in
  let d2 := d1 - 1461 * n4 in
  let n := d2 / 365 - d2 / 365 / 4 in
  (100 * n100 + 4 * n4 + n, d2 - 365 * n).

(** Year, month and day of day [doe] of an era, relative to the era's year. *)
Definition civil_of_doe (doe : Z) : Z * Z * Z :=
  let '(yoe, doy) := year_of_doe doe in
  let mp := (5 * doy + 2) / 153 in
  let d := doy - (153 * mp + 2) / 5 + 1 in
  let m := if mp <? 10 then mp + 3 else mp - 9 in
  (if m <=? 2 then yoe + 1 else yoe, m, d).

Definition civil_from_days (days : Z) : Z * Z * Z :=
  let z := days + 719468 in
  let era := z / 146097 in
  match civil_of_doe (z mod 146097) with (y, m, d) => (y + era * 400, m, d) end.

(** [time.Weekday]: Sunday is 0; 1970-01-01 was a Thursday. *)
Definition weekday_of_days (days : Z) : Z := (days + 4) mod 7.

(** [time.Date] accepts any month and day and normalises them. *)
Definition norm_days (y m d : Z) : Z :=
  let m0 := m - 1 in
  days_from_civil (y + m0 / 12) (m0 mod 12 + 1) 1 + (d - 1).

(** ** Locations *)

Definition Location : Type := Z -> Z * option Z * option Z.

Definition zone_offset (loc : Location) (sec : Z) : Z := (loc sec).1.1.
Definition in_zone (loc : Location) (sec utc : Z) : bool :=
  let '(_, lo, hi) := loc sec in
  match lo with Some s => s <=? utc | None => true end
  && match hi with Some e => utc <? e | None => true end.

(** Local seconds of an instant, as if the local clock were UTC. *)
Definition local_seconds (loc : Location) (t : Z) : Z :=
  let sec := t / Second in sec + zone_offset loc sec.
Definition local_days (loc : Location) (t : Z) : Z := local_seconds loc t / day_seconds.
Definition local_clock (loc : Location) (t : Z) : Z := local_seconds loc t mod day_seconds.

(** [time.Date]: guess the offset from the local seconds, and look it up again
    when the guess falls outside the interval it is valid on. *)
Definition date_at (loc : Location) (days clock nsec : Z) : Z :=
  let unix := days * day_seconds + clock in
  let offset := zone_offset loc unix in
  let unix' :=
    if offset =? 0 then unix
    else
      let utc := unix - offset in
      if in_zone loc unix utc then utc else unix - zone_offset loc utc in
  unix' * Second + nsec.

Definition Date (loc : Location) (y m d clock nsec : Z) : Z :=
  date_at loc (norm_days y m d) clock nsec.

(** [t.AddDate(0, months, days)] *)
Definition AddDate (loc : Location) (t months days : Z) : Z :=
  let '(y, m, d) := civil_from_days (local_days loc t) in
  Date loc y (m + months) (d + days) (local_clock loc t) (t mod Second).

Definition Weekday (loc : Location) (t : Z) : Z := weekday_of_days (local_days loc t).

Definition fixed_zone (offset : Z) : Location := fun _ => (offset, None, None).
Definition UTC : Location := fixed_zone 0.

(** ** The calendar is a bijection *)

(** Days of an era before its year [yoe]. *)
Definition year_start (yoe : Z) : Z := 365 * yoe + yoe / 4 - yoe / 100.

Lemma year_of_doe_spec doe :
  0 <= doe < 146097 ->
  let '(yoe, doy) := year_of_doe doe in
  0 <= yoe < 400 /\ 0 <= doy <= 365 /\ doe = year_start yoe + doy /\
  (yoe < 399 -> doe < year_start (yoe + 1)).
Proof.
  intros H. unfold year_of_doe.
  set (n100 := doe / 36524 - doe / 36524 / 4). set (d1 := doe - 36524 * n100).
  set (n4 := d1 / 1461). set (d2 := d1 - 1461 * n4).
  set (n := d2 / 365 - d2 / 365 / 4).
  assert (Hn100 : 0 <= n100 <= 3 /\ 0 <= d1 /\ (n100 < 3 -> d1 < 36524) /\ d1 <= 36524)
    by (unfold d1, n100; clear -H; zdiv).
  assert (Hn4 : 0 <= n4 <= 24 /\ 0 <= d2 <= 1460 /\ (n4 = 24 -> n100 < 3 -> d2 < 1460))
    by (unfold d2, n4; clear -Hn100; clearbody d1 n100; zdiv).
  assert (Hn : 0 <= n <= 3 /\ 0 <= d2 - 365 * n <= 365 /\ (n < 3 -> d2 - 365 * n < 365))
    by (unfold n; clear -Hn4; clearbody d2 n4; zdiv).
  unfold year_start.
  assert (Hq4 : (100 * n100 + 4 * n4 + n) / 4 = 25 * n100 + n4) by zdiv.
  assert (Hq100 : (100 * n100 + 4 * n4 + n) / 100 = n100) by zdiv.
  rewrite Hq4, Hq100. clearbody n n4 n100.
  split; [lia|]. split; [lia|]. split; [unfold d2, d1; lia|]. intros Hlt.
  destruct (decide (n < 3)) as [Hn3 | Hn3].
  - replace ((100 * n100 + 4 * n4 + n + 1) / 4) with (25 * n100 + n4) by zdiv.
    replace ((100 * n100 + 4 * n4 + n + 1) / 100) with n100 by zdiv. unfold d2, d1 in *. lia.
  - replace n with 3 in * by lia.
    replace ((100 * n100 + 4 * n4 + 3 + 1) / 4) with (25 * n100 + n4 + 1) by zdiv.
    destruct (decide (n4 = 24)) as [-> | Hne].
    + replace ((100 * n100 + 4 * 24 + 3 + 1) / 100) with (n100 + 1) by zdiv. unfold d2, d1 in *. lia.
    + replace ((100 * n100 + 4 * n4 + 3 + 1) / 100) with n100 by zdiv. unfold d2, d1 in *. lia.
Qed.

Lemma days_from_civil_era y m d k :
  days_from_civil (y + k * 400) m d = days_from_civil y m d + k * 146097.
Proof.
  unfold days_from_civil.
  assert (Hy : (if m <=? 2 then y + k * 400 - 1 else y + k * 400)
    = (if m <=? 2 then y - 1 else y) + k * 400) by (destruct (m <=? 2); lia).
  rewrite Hy. generalize (if m <=? 2 then y - 1 else y) as y'. intros y'.
  rewrite Z.div_add by lia.
  replace (y' + k * 400 - (y' / 400 + k) * 400) with (y' - y' / 400 * 400) by lia. lia.
Qed.

(** Days of the March-based year before its month [mp]. *)
Definition month_start (mp : Z) : Z := (153 * mp + 2) / 5.

Lemma days_from_civil_march yoe mp d :
  0 <= yoe < 400 -> 0 <= mp <= 11 ->
  days_from_civil (if mp <? 10 then yoe else yoe + 1) (if mp <? 10 then mp + 3 else mp - 9) d
  = year_start yoe + month_start mp + d - 1 - 719468.
Proof.
  intros Hy Hm. unfold days_from_civil.
  assert (Hy' : (if (if mp <? 10 then mp + 3 else mp - 9) <=? 2
    then (if mp <? 10 then yoe else yoe + 1) - 1 else (if mp <? 10 then yoe else yoe + 1)) = yoe).
  { destruct (Z.ltb_spec mp 10); [destruct (Z.leb_spec (mp + 3) 2) | destruct (Z.leb_spec (mp - 9) 2)]; lia. }
  rewrite Hy'.
  assert (Hmp : ((if mp <? 10 then mp + 3 else mp - 9) + 9) mod 12 = mp)
    by (destruct (Z.ltb_spec mp 10); zdiv).
  rewrite Hmp, (Z.div_small yoe 400) by lia. unfold year_start, month_start.
  replace (yoe - 0 * 400) with yoe by lia. lia.
Qed.

Lemma civil_of_doe_spec doe :
  0 <= doe < 146097 ->
  exists y m d, civil_of_doe doe = (y, m, d) /\ 1 <= m <= 12 /\ 1 <= d /\
    doe - 719468 = days_from_civil y m 1 + (d - 1) /\ doe - 719468 < norm_days y (m + 1) 1.
Proof.
  intros H. pose proof (year_of_doe_spec doe H) as Hy. unfold civil_of_doe.
  destruct (year_of_doe doe) as [yoe doy]. destruct Hy as (Hyoe & Hdoy & Hdoe & Hnext).
  set (mp := (5 * doy + 2) / 153).
  assert (Hmp : 0 <= mp <= 11 /\ month_start mp <= doy /\ (mp < 11 -> doy < month_start (mp + 1)))
    by (unfold month_start, mp; clear -Hdoy; zdiv).
  clearbody mp. destruct Hmp as (Hmp & Hlo & Hhi).
  eexists _, _, _. split; [done|].
  assert (Hyear : (if (if mp <? 10 then mp + 3 else mp - 9) <=? 2 then yoe + 1 else yoe)
    = (if mp <? 10 then yoe else yoe + 1)).
  { destruct (Z.ltb_spec mp 10); [destruct (Z.leb_spec (mp + 3) 2) | destruct (Z.leb_spec (mp - 9) 2)]; lia. }
  rewrite Hyear. clear Hyear.
  split; [destruct (Z.ltb_spec mp 10); lia|]. fold (month_start mp). split; [lia|].
  split; [rewrite days_from_civil_march by lia; lia|].
  unfold norm_days. cbv zeta. destruct (decide (mp = 11)) as [-> | Hne].
  - change (11 <? 10) with false. cbv iota. change ((11 - 9 + 1 - 1) / 12) with 0.
    change ((11 - 9 + 1 - 1) mod 12 + 1) with 3. rewrite (Z.add_0_r (yoe + 1)).
    destruct (decide (yoe = 399)) as [-> | Hne].
    + change (days_from_civil (399 + 1) 3 1) with (146097 - 719468). clear Hnext. lia.
    + pose proof (days_from_civil_march (yoe + 1) 0 1 ltac:(lia) ltac:(lia)) as Hd.
      change (0 <? 10) with true in Hd. cbv iota in Hd. change (0 + 3) with 3 in Hd. rewrite Hd. change (month_start 0) with 0. lia.
  - assert (Hn : days_from_civil
        ((if mp <? 10 then yoe else yoe + 1) + ((if mp <? 10 then mp + 3 else mp - 9) + 1 - 1) / 12)
        (((if mp <? 10 then mp + 3 else mp - 9) + 1 - 1) mod 12 + 1) 1
      = year_start yoe + month_start (mp + 1) + 1 - 1 - 719468); [|lia].
    rewrite <- days_from_civil_march by lia. f_equal.
    + destruct (Z.ltb_spec mp 10), (Z.ltb_spec (mp + 1) 10); zdiv.
    + destruct (Z.ltb_spec mp 10), (Z.ltb_spec (mp + 1) 10); zdiv.
Qed.

(** Year, month and day of a day name it, with the month in range; the next
    month starts after it. *)
Lemma civil_from_days_spec days :
  exists y m d, civil_from_days days = (y, m, d) /\ 1 <= m <= 12 /\ 1 <= d /\
    days = days_from_civil y m 1 + (d - 1) /\ days < norm_days y (m + 1) 1.
Proof.
  unfold civil_from_days. set (z := days + 719468).
  pose proof (Z.mod_pos_bound z 146097 ltac:(lia)) as Hm.
  pose proof (Z.div_mod z 146097 ltac:(lia)) as Hz.
  destruct (civil_of_doe_spec _ Hm) as (y & m & d & Heq & Hmr & Hd & Hdays & Hnext). rewrite Heq.
  exists (y + z / 146097 * 400), m, d. split; [done|]. split; [done|]. split; [done|].
  unfold norm_days in *. cbv zeta in *.
  replace (y + z / 146097 * 400 + (m + 1 - 1) / 12)
    with (y + (m + 1 - 1) / 12 + z / 146097 * 400) by lia.
  rewrite !days_from_civil_era. unfold z in *. lia.
Qed.

(** ** Fixed-offset locations *)

Section FixedZone.
Context (offset : Z).

Lemma fixed_local_seconds t : local_seconds (fixed_zone offset) t = t / Second + offset.
Proof. done. Qed.

Lemma fixed_date_at days clock nsec :
  date_at (fixed_zone offset) days clock nsec = (days * day_seconds + clock - offset) * Second + nsec.
Proof.
  unfold date_at, zone_offset, in_zone, fixed_zone. simpl.
  destruct (Z.eqb_spec offset 0) as [-> | Hne]; lia.
Qed.

(** Local midnight of a day reads back as that day. *)
Lemma fixed_midnight days :
  local_days (fixed_zone offset) (date_at (fixed_zone offset) days 0 0) = days /\
  local_clock (fixed_zone offset) (date_at (fixed_zone offset) days 0 0) = 0 /\
  date_at (fixed_zone offset) days 0 0 mod Second = 0.
Proof.
  rewrite fixed_date_at. unfold local_days, local_clock. rewrite fixed_local_seconds.
  rewrite !Z.add_0_r, Z.div_mul, Z.mod_mul by (unfold Second; lia).
  rewrite Z.sub_add, Z.div_mul, Z.mod_mul by (unfold day_seconds; lia). done.
Qed.
End FixedZone.

(** ** Months follow each other *)

(** The first day of month [k], counting months from year 0. *)
Definition month_days (k : Z) : Z := days_from_civil (k / 12) (k mod 12 + 1) 1.

Lemma norm_days_month y m : norm_days y m 1 = month_days (12 * y + (m - 1)).
Proof.
  unfold norm_days, month_days. cbv zeta.
  replace ((12 * y + (m - 1)) / 12) with (y + (m - 1) / 12) by zdiv.
  replace ((12 * y + (m - 1)) mod 12) with ((m - 1) mod 12) by zdiv. lia.
Qed.

Lemma days_from_civil_year y m :
  1 <= m <= 12 ->
  let y' := if m <=? 2 then y - 1 else y in
  days_from_civil y m 1 =
    365 * y' + y' / 4 - y' / 100 + y' / 400 + month_start ((m + 9) mod 12) - 719468.
Proof.
  intros Hm y'. unfold days_from_civil, month_start. fold y'. clearbody y'. zdiv.
Qed.

Lemma month_days_lt k : month_days k < month_days (k + 1).
Proof.
  unfold month_days.
  assert (Hy : exists y m, k = 12 * y + m /\ 0 <= m < 12)
    by (exists (k / 12), (k mod 12); zdiv).
  destruct Hy as (y & m & -> & Hm).
  replace ((12 * y + m) / 12) with y by zdiv. replace ((12 * y + m) mod 12) with m by zdiv.
  destruct (decide (m = 11)) as [-> | Hne].
  - replace ((12 * y + 11 + 1) / 12) with (y + 1) by zdiv.
    replace ((12 * y + 11 + 1) mod 12) with 0 by zdiv.
    rewrite !days_from_civil_year by lia.
    change (11 + 1 <=? 2) with false. change (0 + 1 <=? 2) with true. cbv iota.
    change (month_start ((11 + 1 + 9) mod 12)) with 275. change (month_start ((0 + 1 + 9) mod 12)) with 306.
    zdiv.
  - replace ((12 * y + m + 1) / 12) with y by zdiv. replace ((12 * y + m + 1) mod 12) with (m + 1) by zdiv.
    rewrite !days_from_civil_year by lia.
    destruct (decide (m = 1)) as [-> | Hne1].
    + change (1 + 1 <=? 2) with true. change (1 + 1 + 1 <=? 2) with false. cbv iota.
      change (month_start ((1 + 1 + 9) mod 12)) with 337. change (month_start ((1 + 1 + 1 + 9) mod 12)) with 0.
      zdiv.
    + assert (Hle : (m + 1 <=? 2) = (m + 1 + 1 <=? 2))
        by (destruct (Z.leb_spec (m + 1) 2), (Z.leb_spec (m + 1 + 1) 2); lia).
      rewrite Hle. generalize (if m + 1 + 1 <=? 2 then y - 1 else y) as y'. intros y'.
      unfold month_start. clear Hle. zdiv.
Qed.

Lemma month_days_mono a b : a < b -> month_days a < month_days b.
Proof.
  intros H. replace b with (a + 1 + Z.of_nat (Z.to_nat (b - a - 1))) by lia.
  generalize (Z.to_nat (b - a - 1)) as n. clear. induction n as [|n IH].
  - rewrite Z.add_0_r. apply month_days_lt.
  - replace (a + 1 + Z.of_nat (S n)) with (a + 1 + Z.of_nat n + 1) by lia.
    etransitivity; [exact IH | apply month_days_lt].
Qed.

(** The first of a month is read back as such. *)
Lemma civil_from_month k :
  exists y m, civil_from_days (month_days k) = (y, m, 1) /\ 12 * y + (m - 1) = k.
Proof.
  destruct (civil_from_days_spec (month_days k)) as (y & m & d & Heq & Hm & Hd & Hdays & Hnext).
  exists y, m. rewrite norm_days_month in Hnext.
  assert (Hk : days_from_civil y m 1 = month_days (12 * y + (m - 1))).
  { unfold month_days. replace ((12 * y + (m - 1)) / 12) with y by zdiv.
    replace ((12 * y + (m - 1)) mod 12 + 1) with m by zdiv. done. }
  rewrite Hk in Hdays.
  assert (Hge : ~ k < 12 * y + (m - 1)).
  { intros Hlt%month_days_mono. lia. }
  assert (Hle : ~ 12 * y + (m - 1) < k).
  { intros Hlt. replace (12 * y + (m + 1 - 1)) with (12 * y + (m - 1) + 1) in Hnext by lia.
    destruct (decide (12 * y + (m - 1) + 1 = k)) as [He | He]; [rewrite He in Hnext; lia|].
    pose proof (month_days_mono (12 * y + (m - 1) + 1) k ltac:(lia)). lia. }
  assert (Hkk : 12 * y + (m - 1) = k) by lia. split; [|done].
  rewrite Heq. rewrite Hkk in Hdays. do 2 f_equal. lia.
Qed.
