(* ===== verification/PurchasePolicy.v ===== *)
(** * Purchase policies of subscription plans

    [ai/subscription/purchase_policy.go]: the per-user limits on buying a plan
    and the one evaluator used by purchase reservation and by the storefront. *)

From S2P Require Import Prelude GoStrings CivilTime.

Definition PurchasePeriodNone : string := "none".
Definition PurchasePeriodRolling : string := "rolling".
Definition PurchasePeriodCalendar : string := "calendar".
Definition MaxRollingWindowHours : Z := 100 * 365 * 24.
Definition CalendarUnitDay : string := "day".
Definition CalendarUnitWeek : string := "week".
Definition CalendarUnitMonth : string := "month".

Inductive PurchaseBlockReason :=
| PurchaseAllowed
| PurchaseOrderProcessing
| PurchasePlanAlreadyQueued
| PurchaseQueueFull
| PurchaseAdvanceNotAllowed
| PurchaseLifetimeLimitReached
| PurchaseRollingLimitReached
| PurchaseCalendarLimitReached.

#[global] Instance reason_eq_dec : EqDecision PurchaseBlockReason.
Proof. solve_decision. Defined.

(** Every error wraps [ErrPurchasePolicyInvalid]; the text is its detail. *)
Inductive policy_error := ErrPurchasePolicyInvalid (detail : string).

Record PurchasePolicy := MkPurchasePolicy {
  LifetimeMaxPurchases : option Z;
  PeriodType : string;
  PeriodMaxPurchases : option Z;
  RollingWindowHours : option Z;
  CalendarUnit : string;
  CalendarTimezone : string;
  AllowAdvancePurchase : bool;
  Version : Z;
  pp_CreatedAt : Z;
  pp_UpdatedAt : Z }.

Definition DefaultPurchasePolicy : PurchasePolicy :=
  MkPurchasePolicy None PurchasePeriodNone None None "" "" true 1 zero_time zero_time.

Definition is_nil {A} (o : option A) : bool := match o with None => true | Some _ => false end.
Definition seq_str (s t : string) : bool := bool_decide (s = t).

Definition NormalizePurchasePolicy (p : PurchasePolicy) : PurchasePolicy :=
  if seq_str (PeriodType p) "" && is_nil (LifetimeMaxPurchases p) && is_nil (PeriodMaxPurchases p)
     && is_nil (RollingWindowHours p) && seq_str (CalendarUnit p) ""
     && seq_str (CalendarTimezone p) "" && (Version p =? 0)
  then DefaultPurchasePolicy
  else MkPurchasePolicy (LifetimeMaxPurchases p)
         (if seq_str (PeriodType p) "" then PurchasePeriodNone else PeriodType p)
         (PeriodMaxPurchases p) (RollingWindowHours p) (CalendarUnit p) (CalendarTimezone p)
         (AllowAdvancePurchase p) (if Version p <=? 0 then 1 else Version p)
         (pp_CreatedAt p) (pp_UpdatedAt p).

(** [p == nil || *p <= 0] *)
Definition nil_or_nonpos (o : option Z) : bool := match o with None => true | Some v => v <=? 0 end.

Record PurchaseFacts := MkPurchaseFacts {
  Now : Z;
  PaidOrderTimes : list Z;
  OpenOrderCount : Z;
  OpenSamePlanOrder : bool;
  LiveSubscriptionCount : Z;
  PendingSamePlan : bool;
  ActiveSamePlanExpiresAt : option Z;
  MaxQueue : Z }.

Record PurchaseRuleDecision := MkRule {
  rule_Reason : PurchaseBlockReason;
  rule_RetryAt : option Z;
  rule_Limit : option Z;
  rule_Used : Z }.

Record PurchaseDecision := MkDecision {
  Allowed : bool;
  PrimaryReason : PurchaseBlockReason;
  BlockingRules : list PurchaseRuleDecision;
  RetryAt : option Z }.

Definition zero_decision : PurchaseDecision := MkDecision false PurchaseAllowed [] None.

(** The closure [add]. *)
Definition add_rule (d : PurchaseDecision) (rule : PurchaseRuleDecision) : PurchaseDecision :=
  MkDecision false
    (if bool_decide (PrimaryReason d = PurchaseAllowed) then rule_Reason rule else PrimaryReason d)
    (BlockingRules d ++ [rule])
    (match rule_RetryAt rule with
     | None => RetryAt d
     | Some t => match RetryAt d with
                 | None => Some t
                 | Some t' => if t' <? t then Some t else Some t'
                 end
     end).

Definition add_if (b : bool) (rule : PurchaseRuleDecision) (d : PurchaseDecision) : PurchaseDecision :=
  if b then add_rule d rule else d.

Definition permanent_reason (r : PurchaseBlockReason) : bool :=
  bool_decide (r ∈ [PurchaseLifetimeLimitReached; PurchasePlanAlreadyQueued; PurchaseQueueFull;
                    PurchaseOrderProcessing]).

(** [ *PurchaseDeniedError.Is] against the two sentinel errors it knows. *)
Inductive denied_target := TargetQueueFull | TargetPlanAlreadyQueued | TargetOther.
Definition denied_is (d : PurchaseDecision) (target : denied_target) : bool :=
  existsb (fun rule => match target with
    | TargetQueueFull => bool_decide (rule_Reason rule = PurchaseQueueFull)
    | TargetPlanAlreadyQueued =>
        bool_decide (rule_Reason rule ∈ [PurchasePlanAlreadyQueued; PurchaseOrderProcessing])
    | TargetOther => false
    end) (BlockingRules d).

(** [time.Duration(hours) * time.Hour] *)
Definition window_of_hours (h : Z) : Z := wrap64 (h * Hour).

(** The purchases inside a rolling window that ends now. *)
Definition recent_purchases (now window : Z) (times : list Z) : list Z :=
  List.filter (fun t => (now - window <? t) && negb (now <? t)) times.

(** The body of [case PurchasePeriodRolling]: [None] when the window has room. *)
Definition rolling_rule (now window max : Z) (times : list Z) : option PurchaseRuleDecision :=
  let recent := recent_purchases now window times in
  if max <=? Z.of_nat (length recent) then
    let sorted := order_by Z.leb recent in
    let idx := Z.of_nat (length recent) - max in
    let oldest := default 0 (sorted !! Z.to_nat idx) in
    Some (MkRule PurchaseRollingLimitReached (Some (oldest + window)) (Some max)
            (wrap32 (Z.of_nat (length recent))))
  else None.

(** [var used int32 ... used++] over the purchases of the period. *)
Definition calendar_used (start stop : Z) (times : list Z) : Z :=
  fold_left (fun used t => if negb (t <? start) && (t <? stop) then wrap32 (used + 1) else used) times 0.

Section Zones.
(** [time.LoadLocation]: the installed time-zone database. *)
Context (LoadLocation : string -> option Location).

Definition ValidatePurchasePolicy (p0 : PurchasePolicy) : option policy_error :=
  let p := NormalizePurchasePolicy p0 in
  let bad s := Some (ErrPurchasePolicyInvalid s) in
  if match LifetimeMaxPurchases p with Some v => v <=? 0 | None => false end
  then bad "lifetime_max_purchases must be positive"%string
  else if seq_str (PeriodType p) PurchasePeriodNone then
    if negb (is_nil (PeriodMaxPurchases p)) || negb (is_nil (RollingWindowHours p))
       || negb (seq_str (CalendarUnit p) "") || negb (seq_str (CalendarTimezone p) "")
    then bad "period fields require a period type"%string
    else None
  else if seq_str (PeriodType p) PurchasePeriodRolling then
    if nil_or_nonpos (PeriodMaxPurchases p) || nil_or_nonpos (RollingWindowHours p)
    then bad "rolling period requires positive max purchases and window hours"%string
    else if MaxRollingWindowHours <? default 0 (RollingWindowHours p)
    then bad "rolling_window_hours must not exceed 876000"%string
    else if negb (seq_str (CalendarUnit p) "") || negb (seq_str (CalendarTimezone p) "")
    then bad "rolling period cannot have calendar fields"%string
    else None
  else if seq_str (PeriodType p) PurchasePeriodCalendar then
    if nil_or_nonpos (PeriodMaxPurchases p) || negb (is_nil (RollingWindowHours p))
    then bad "calendar period requires positive max purchases"%string
    else if negb (bool_decide (CalendarUnit p ∈ [CalendarUnitDay; CalendarUnitWeek; CalendarUnitMonth]))
    then bad "calendar_unit must be day/week/month"%string
    else if seq_str (CalendarTimezone p) "" then bad "calendar_timezone is required"%string
    else match LoadLocation (CalendarTimezone p) with
         | None => bad "unknown calendar timezone"%string
         | Some _ => None
         end
  else bad "period_type must be none/rolling/calendar"%string.

Definition calendarPeriodBounds (now : Z) (unit timezone : string) : result policy_error (Z * Z) :=
  match LoadLocation timezone with
  | None => Err (ErrPurchasePolicyInvalid "unknown calendar timezone")
  | Some loc =>
      let '(y, m, d) := civil_from_days (local_days loc now) in
      let start := Date loc y m d 0 0 in
      if seq_str unit CalendarUnitDay then Ok (start, AddDate loc start 0 1)
      else if seq_str unit CalendarUnitWeek then
        let daysSinceMonday := (Weekday loc start + 6) mod 7 in
        let start := AddDate loc start 0 (- daysSinceMonday) in
        Ok (start, AddDate loc start 0 7)
      else if seq_str unit CalendarUnitMonth then
        let start := Date loc y m 1 0 0 in
        Ok (start, AddDate loc start 1 0)
      else Err (ErrPurchasePolicyInvalid "invalid calendar unit")
  end.

Definition EvaluatePurchaseEligibility (policy0 : PurchasePolicy) (facts : PurchaseFacts)
    : result policy_error PurchaseDecision :=
  let policy := NormalizePurchasePolicy policy0 in
  match ValidatePurchasePolicy policy with
  | Some err => Err err
  | None =>
      let simple r := MkRule r None None 0 in
      let paid := Z.of_nat (length (PaidOrderTimes facts)) in
      let decision := MkDecision true PurchaseAllowed [] None in
      let decision := add_if (OpenSamePlanOrder facts) (simple PurchaseOrderProcessing) decision in
      let decision := add_if (PendingSamePlan facts) (simple PurchasePlanAlreadyQueued) decision in
      let decision := add_if ((0 <? MaxQueue facts)
          && (1 + MaxQueue facts <=? LiveSubscriptionCount facts + OpenOrderCount facts))
          (simple PurchaseQueueFull) decision in
      let decision := add_if (negb (AllowAdvancePurchase policy)
          && negb (is_nil (ActiveSamePlanExpiresAt facts)))
          (MkRule PurchaseAdvanceNotAllowed (ActiveSamePlanExpiresAt facts) None 0) decision in
      let decision := match LifetimeMaxPurchases policy with
        | Some max => add_if (max <=? paid)
            (MkRule PurchaseLifetimeLimitReached None (Some max) (wrap32 paid)) decision
        | None => decision
        end in
      let periodMax := default 0 (PeriodMaxPurchases policy) in
      let checked : result policy_error PurchaseDecision :=
        if seq_str (PeriodType policy) PurchasePeriodRolling then
          let window := window_of_hours (default 0 (RollingWindowHours policy)) in
          Ok (match rolling_rule (Now facts) window periodMax (PaidOrderTimes facts) with
              | Some rule => add_rule decision rule
              | None => decision
              end)
        else if seq_str (PeriodType policy) PurchasePeriodCalendar then
          match calendarPeriodBounds (Now facts) (CalendarUnit policy) (CalendarTimezone policy) with
          | Err e => Err e
          | Ok (start, stop) =>
              let used := calendar_used start stop (PaidOrderTimes facts) in
              Ok (add_if (periodMax <=? used)
                    (MkRule PurchaseCalendarLimitReached (Some stop) (Some periodMax) used) decision)
          end
        else Ok decision in
      match checked with
      | Err e => Err e
      | Ok decision =>
          Ok (if existsb (fun rule => permanent_reason (rule_Reason rule)) (BlockingRules decision)
              then MkDecision (Allowed decision) (PrimaryReason decision) (BlockingRules decision) None
              else decision)
      end
  end.
End Zones.
