(* ===== verification/PurchasePolicyProps.v ===== *)
(** * Properties of purchase policies *)

From S2P Require Import Prelude GoStrings CivilTime PurchasePolicy.

(** ** Decisions *)

Lemma Normalize_idem p : NormalizePurchasePolicy (NormalizePurchasePolicy p) = NormalizePurchasePolicy p.
Proof.
  unfold NormalizePurchasePolicy at 2 3. destruct (_ && _) eqn:Hzero; [done|].
  unfold NormalizePurchasePolicy. cbn [PeriodType Version LifetimeMaxPurchases PeriodMaxPurchases
    RollingWindowHours CalendarUnit CalendarTimezone AllowAdvancePurchase pp_CreatedAt pp_UpdatedAt].
  assert (Hne : seq_str (if seq_str (PeriodType p) "" then PurchasePeriodNone else PeriodType p) "" = false).
  { destruct (seq_str (PeriodType p) "") eqn:He; [done | exact He]. }
  rewrite Hne. cbn [andb].
  destruct (Z.leb_spec (Version p) 0).
  - done.
  - by rewrite (proj2 (Z.leb_gt (Version p) 0)).
Qed.

Lemma Validate_Normalize L p :
  ValidatePurchasePolicy L (NormalizePurchasePolicy p) = ValidatePurchasePolicy L p.
Proof. unfold ValidatePurchasePolicy. by rewrite Normalize_idem. Qed.

(** What every decision under construction satisfies. *)
Record decision_wf (d : PurchaseDecision) : Prop := {
  wf_allowed : Allowed d = true <-> BlockingRules d = [];
  wf_primary : PrimaryReason d =
    match BlockingRules d with [] => PurchaseAllowed | r :: _ => rule_Reason r end;
  wf_reasons : forall r, r ∈ BlockingRules d -> rule_Reason r <> PurchaseAllowed;
  wf_retry : forall t, RetryAt d = Some t ->
    (exists r, r ∈ BlockingRules d /\ rule_RetryAt r = Some t);
  wf_retry_max : forall r t, r ∈ BlockingRules d -> rule_RetryAt r = Some t ->
    exists t', RetryAt d = Some t' /\ t <= t' }.

Lemma zero_decision_wf : decision_wf (MkDecision true PurchaseAllowed [] None).
Proof.
  split; simpl; try done.
  - intros r Hr. by apply not_elem_of_nil in Hr.
  - intros r t Hr. by apply not_elem_of_nil in Hr.
Qed.

Lemma add_rule_wf rule d :
  rule_Reason rule <> PurchaseAllowed -> decision_wf d -> decision_wf (add_rule d rule).
Proof.
  intros Hr [Ha Hp Hrs Ht Hm]. split; simpl.
  - split; [done|]. intros Hn. by destruct (BlockingRules d).
  - destruct (BlockingRules d) as [|r rs] eqn:Hrules; simpl.
    + rewrite bool_decide_true by done. done.
    + rewrite bool_decide_false; [done|]. rewrite Hp. apply Hrs. apply list_elem_of_here.
  - intros r [Hr1 | ->%list_elem_of_singleton]%elem_of_app; [by apply Hrs | done].
  - intros t Heq. destruct (rule_RetryAt rule) as [t1|] eqn:H1.
    + destruct (RetryAt d) as [t2|] eqn:H2; [destruct (Z.ltb_spec t2 t1)|]; injection Heq as <-.
      * exists rule. split; [|done]. apply elem_of_app. right. by apply list_elem_of_singleton.
      * destruct (Ht t2 eq_refl) as (r & Hin & Hrt). exists r. split; [|done].
        apply elem_of_app. by left.
      * exists rule. split; [|done]. apply elem_of_app. right. by apply list_elem_of_singleton.
    + destruct (Ht t Heq) as (r & Hin & Hrt). exists r. split; [|done]. apply elem_of_app. by left.
  - intros r t Hin Hrt. apply elem_of_app in Hin as [Hin | ->%list_elem_of_singleton].
    + destruct (Hm r t Hin Hrt) as (t' & Ht' & Hle). rewrite Ht'.
      destruct (rule_RetryAt rule) as [t1|]; [|by exists t'].
      destruct (Z.ltb_spec t' t1); [exists t1 | exists t']; split; try done; lia.
    + rewrite Hrt. destruct (RetryAt d) as [t2|]; [|by exists t].
      destruct (Z.ltb_spec t2 t); [exists t | exists t2]; split; try done; lia.
Qed.

Lemma add_if_wf b rule d :
  rule_Reason rule <> PurchaseAllowed -> decision_wf d -> decision_wf (add_if b rule d).
Proof. destruct b; [apply add_rule_wf | done]. Qed.

Lemma Allowed_add_if b rule d : Allowed (add_if b rule d) = negb b && Allowed d.
Proof. by destruct b. Qed.

(** ** The specification *)

(** How many purchases fall into the half-open calendar period. *)
Definition purchases_in (start stop : Z) (times : list Z) : Z :=
  count_where (fun t => (start <=? t) && (t <? stop)) times.

Definition period_room (L : string -> option Location) (p : PurchasePolicy) (f : PurchaseFacts) : Prop :=
  (PeriodType p = PurchasePeriodRolling -> forall max hours,
     PeriodMaxPurchases p = Some max -> RollingWindowHours p = Some hours ->
     Z.of_nat (length (recent_purchases (Now f) (hours * Hour) (PaidOrderTimes f))) < max) /\
  (PeriodType p = PurchasePeriodCalendar -> forall max start stop,
     PeriodMaxPurchases p = Some max ->
     calendarPeriodBounds L (Now f) (CalendarUnit p) (CalendarTimezone p) = Ok (start, stop) ->
     purchases_in start stop (PaidOrderTimes f) < max).

Definition eligible (L : string -> option Location) (p : PurchasePolicy) (f : PurchaseFacts) : Prop :=
  OpenSamePlanOrder f = false /\ PendingSamePlan f = false /\
  (0 < MaxQueue f -> LiveSubscriptionCount f + OpenOrderCount f <= MaxQueue f) /\
  (AllowAdvancePurchase p = true \/ ActiveSamePlanExpiresAt f = None) /\
  (forall max, LifetimeMaxPurchases p = Some max -> Z.of_nat (length (PaidOrderTimes f)) < max) /\
  period_room L p f.

(** ** What validation establishes *)

Lemma seq_str_true s t : seq_str s t = true <-> s = t.
Proof. unfold seq_str. by rewrite bool_decide_eq_true. Qed.
Lemma seq_str_false s t : seq_str s t = false <-> s <> t.
Proof. unfold seq_str. by rewrite bool_decide_eq_false. Qed.

(** The period fields of an accepted policy. *)
Lemma Validate_period L p :
  NormalizePurchasePolicy p = p -> ValidatePurchasePolicy L p = None ->
  (PeriodType p = PurchasePeriodNone /\ PeriodMaxPurchases p = None) \/
  (PeriodType p = PurchasePeriodRolling /\ exists max hours,
     PeriodMaxPurchases p = Some max /\ RollingWindowHours p = Some hours /\
     0 < max /\ 0 < hours <= MaxRollingWindowHours) \/
  (PeriodType p = PurchasePeriodCalendar /\ exists max loc,
     PeriodMaxPurchases p = Some max /\ 0 < max /\ L (CalendarTimezone p) = Some loc /\
     CalendarUnit p ∈ [CalendarUnitDay; CalendarUnitWeek; CalendarUnitMonth]).
Proof.
  intros Hn H. unfold ValidatePurchasePolicy in H. rewrite Hn in H.
  destruct (match LifetimeMaxPurchases p with Some v => v <=? 0 | None => false end); [done|].
  destruct (seq_str (PeriodType p) PurchasePeriodNone) eqn:H1.
  { apply seq_str_true in H1. left. split; [done|].
    destruct (PeriodMaxPurchases p); [done | done]. }
  destruct (seq_str (PeriodType p) PurchasePeriodRolling) eqn:H2.
  { apply seq_str_true in H2. right. left. split; [done|].
    destruct (PeriodMaxPurchases p) as [max|]; [|done].
    destruct (RollingWindowHours p) as [hours|]; [|by rewrite orb_true_r in H].
    simpl in H. destruct ((max <=? 0) || (hours <=? 0)) eqn:H3; [done|].
    destruct (MaxRollingWindowHours <? hours) eqn:H4; [done|]. bool_prop. exists max, hours. auto. }
  destruct (seq_str (PeriodType p) PurchasePeriodCalendar) eqn:H3; [|done].
  apply seq_str_true in H3. right. right. split; [done|].
  destruct (PeriodMaxPurchases p) as [max|]; [|done]. simpl in H.
  destruct ((max <=? 0) || _) eqn:H4; [done|].
  destruct (negb (bool_decide _)) eqn:H5; [done|].
  destruct (seq_str (CalendarTimezone p) ""); [done|].
  destruct (L (CalendarTimezone p)) as [loc|]; [|done]. bool_prop. exists max, loc. auto.
Qed.

(** The hour cap of [ValidatePurchasePolicy] is what keeps the window an int64. *)
Lemma window_of_hours_exact h : 0 <= h <= MaxRollingWindowHours -> window_of_hours h = h * Hour.
Proof.
  intros H. unfold window_of_hours. apply wrap64_id.
  unfold MaxRollingWindowHours, Hour, Second, int64_min, int64_max in *. lia.
Qed.

Lemma calendarPeriodBounds_total L now unit tz loc :
  L tz = Some loc -> unit ∈ [CalendarUnitDay; CalendarUnitWeek; CalendarUnitMonth] ->
  exists start stop, calendarPeriodBounds L now unit tz = Ok (start, stop).
Proof.
  intros HL Hu. unfold calendarPeriodBounds. rewrite HL.
  destruct (civil_from_days _) as [[y m] d].
  apply elem_of_cons in Hu as [-> | [-> | [-> | []%not_elem_of_nil]%elem_of_cons]%elem_of_cons];
    eexists _, _; reflexivity.
Qed.

Lemma calendar_used_count start stop times n :
  0 <= n -> n + Z.of_nat (length times) <= int32_max ->
  fold_left (fun used t => if negb (t <? start) && (t <? stop) then wrap32 (used + 1) else used) times n
  = n + purchases_in start stop times.
Proof.
  revert n. induction times as [|t times IH]; intros n Hn Hlen;
    [unfold purchases_in, count_where; simpl; lia|].
  cbn [length] in Hlen. cbn [fold_left]. unfold purchases_in, count_where in *. rewrite sumZ_cons.
  replace (negb (t <? start)) with (start <=? t) by (destruct (Z.leb_spec start t), (Z.ltb_spec t start); simpl; lia).
  destruct (_ && _).
  - rewrite wrap32_id by (unfold int32_min, int32_max in *; lia). rewrite IH by lia. lia.
  - rewrite IH by lia. lia.
Qed.

(** ** Evaluation *)

(** What a finished decision reports: rules in the order they were checked, the
    first one as primary reason, and a retry time only when every blocker is
    temporary: the latest of theirs. *)
Record decision_report (d : PurchaseDecision) : Prop := {
  rep_allowed : Allowed d = true <-> BlockingRules d = [];
  rep_primary : PrimaryReason d =
    match BlockingRules d with [] => PurchaseAllowed | r :: _ => rule_Reason r end;
  rep_reasons : forall r, r ∈ BlockingRules d -> rule_Reason r <> PurchaseAllowed;
  rep_retry : forall t, RetryAt d = Some t ->
    (exists r, r ∈ BlockingRules d /\ rule_RetryAt r = Some t) /\
    (forall r, r ∈ BlockingRules d -> permanent_reason (rule_Reason r) = false /\
       forall t', rule_RetryAt r = Some t' -> t' <= t) }.

Definition finish (d : PurchaseDecision) : PurchaseDecision :=
  if existsb (fun rule => permanent_reason (rule_Reason rule)) (BlockingRules d)
  then MkDecision (Allowed d) (PrimaryReason d) (BlockingRules d) None
  else d.

Lemma finish_report d : decision_wf d -> Allowed (finish d) = Allowed d /\ decision_report (finish d).
Proof.
  intros [Ha Hp Hrs Ht Hm]. unfold finish. destruct (existsb _ _) eqn:Hperm; simpl; [split; [done|]; by split|].
  split; [done|]. split; try done. intros t Hrt. split; [by apply Ht|]. intros r Hr. split.
  - apply not_true_iff_false. intros Hpr. apply not_true_iff_false in Hperm. apply Hperm.
    apply existsb_exists. exists r. by rewrite <- list_elem_of_In.
  - intros t' Ht'. destruct (Hm r t' Hr Ht') as (t2 & Heq & Hle). rewrite Hrt in Heq. by injection Heq as <-.
Qed.

(** The rules that do not depend on the period. *)
Definition base_decision (p : PurchasePolicy) (f : PurchaseFacts) : PurchaseDecision :=
  let simple r := MkRule r None None 0 in
  let paid := Z.of_nat (length (PaidOrderTimes f)) in
  let d := MkDecision true PurchaseAllowed [] None in
  let d := add_if (OpenSamePlanOrder f) (simple PurchaseOrderProcessing) d in
  let d := add_if (PendingSamePlan f) (simple PurchasePlanAlreadyQueued) d in
  let d := add_if ((0 <? MaxQueue f) && (1 + MaxQueue f <=? LiveSubscriptionCount f + OpenOrderCount f))
             (simple PurchaseQueueFull) d in
  let d := add_if (negb (AllowAdvancePurchase p) && negb (is_nil (ActiveSamePlanExpiresAt f)))
             (MkRule PurchaseAdvanceNotAllowed (ActiveSamePlanExpiresAt f) None 0) d in
  match LifetimeMaxPurchases p with
  | Some max => add_if (max <=? paid)
      (MkRule PurchaseLifetimeLimitReached None (Some max) (wrap32 paid)) d
  | None => d
  end.

Definition base_eligible (p : PurchasePolicy) (f : PurchaseFacts) : Prop :=
  OpenSamePlanOrder f = false /\ PendingSamePlan f = false /\
  (0 < MaxQueue f -> LiveSubscriptionCount f + OpenOrderCount f <= MaxQueue f) /\
  (AllowAdvancePurchase p = true \/ ActiveSamePlanExpiresAt f = None) /\
  (forall max, LifetimeMaxPurchases p = Some max -> Z.of_nat (length (PaidOrderTimes f)) < max).

Lemma base_decision_wf p f : decision_wf (base_decision p f).
Proof.
  unfold base_decision. cbv zeta. destruct (LifetimeMaxPurchases p);
    repeat (apply add_if_wf; [done|]); apply zero_decision_wf.
Qed.

Lemma base_decision_allowed p f : Allowed (base_decision p f) = true <-> base_eligible p f.
Proof.
  assert (Hall : Allowed (base_decision p f) =
    match LifetimeMaxPurchases p with
    | Some max => negb (max <=? Z.of_nat (length (PaidOrderTimes f)))
    | None => true
    end && (negb (negb (AllowAdvancePurchase p) && negb (is_nil (ActiveSamePlanExpiresAt f)))
    && (negb ((0 <? MaxQueue f) && (1 + MaxQueue f <=? LiveSubscriptionCount f + OpenOrderCount f))
    && (negb (PendingSamePlan f) && (negb (OpenSamePlanOrder f) && true))))).
  { unfold base_decision. cbv zeta. destruct (LifetimeMaxPurchases p); by rewrite !Allowed_add_if. }
  rewrite Hall. clear Hall. unfold base_eligible. rewrite !andb_true_iff, !negb_true_iff. split.
  - intros (Hl & Ha & Hq & Hp & Ho & _). split; [done|]. split; [done|]. split; [|split].
    + intros Hpos. rewrite (proj2 (Z.ltb_lt _ _) Hpos) in Hq. simpl in Hq. bool_prop. lia.
    + destruct (AllowAdvancePurchase p); [by left | right].
      by destruct (ActiveSamePlanExpiresAt f).
    + intros max Hmax. rewrite Hmax in Hl. bool_prop. lia.
  - intros (Ho & Hp & Hq & Ha & Hl). split; [|split; [|split; [|done]]].
    + destruct (LifetimeMaxPurchases p) as [max|]; [|done]. specialize (Hl max eq_refl).
      apply negb_true_iff, Z.leb_gt. lia.
    + destruct Ha as [-> | ->]; [done|]. by rewrite andb_false_r.
    + destruct (Z.ltb_spec 0 (MaxQueue f)); [|done]. simpl. apply Z.leb_gt. lia.
Qed.

Lemma rolling_rule_room now window max times :
  rolling_rule now window max times = None <->
  Z.of_nat (length (recent_purchases now window times)) < max.
Proof.
  unfold rolling_rule. cbv zeta.
  destruct (Z.leb_spec max (Z.of_nat (length (recent_purchases now window times)))); split; intros; try done; lia.
Qed.

(** The three shapes of an evaluation of an accepted policy. *)
Lemma Evaluate_shape L p f :
  ValidatePurchasePolicy L p = None ->
  let q := NormalizePurchasePolicy p in
  (PeriodType q = PurchasePeriodNone /\
   EvaluatePurchaseEligibility L p f = Ok (finish (base_decision q f))) \/
  (exists max hours, PeriodType q = PurchasePeriodRolling /\ PeriodMaxPurchases q = Some max /\
   RollingWindowHours q = Some hours /\ 0 < max /\ 0 < hours <= MaxRollingWindowHours /\
   EvaluatePurchaseEligibility L p f = Ok (finish
     match rolling_rule (Now f) (hours * Hour) max (PaidOrderTimes f) with
     | Some rule => add_rule (base_decision q f) rule
     | None => base_decision q f
     end)) \/
  (exists max start stop, PeriodType q = PurchasePeriodCalendar /\ PeriodMaxPurchases q = Some max /\
   calendarPeriodBounds L (Now f) (CalendarUnit q) (CalendarTimezone q) = Ok (start, stop) /\
   let used := calendar_used start stop (PaidOrderTimes f) in
   EvaluatePurchaseEligibility L p f = Ok (finish (add_if (max <=? used)
     (MkRule PurchaseCalendarLimitReached (Some stop) (Some max) used) (base_decision q f)))).
Proof.
  intros Hv q. unfold EvaluatePurchaseEligibility. rewrite Validate_Normalize, Hv. fold q.
  assert (Hvq : ValidatePurchasePolicy L q = None) by (unfold q; by rewrite Validate_Normalize).
  destruct (Validate_period L q (Normalize_idem p) Hvq)
    as [[Hty _] | [(Hty & max & hours & Hm & Hh & Hpos & Hrange) | (Hty & max & loc & Hm & Hpos & Hloc & Hu)]];
    rewrite Hty.
  - left. done.
  - right. left. exists max, hours. rewrite Hm, Hh.
    change (default 0 (Some hours)) with hours. rewrite (window_of_hours_exact hours) by lia.
    split_and!; done || lia.
  - right. right. destruct (calendarPeriodBounds_total L (Now f) _ _ _ Hloc Hu) as (start & stop & Hb).
    exists max, start, stop. rewrite Hm, Hb. done.
Qed.

(** C38: purchase eligibility.  A rejected policy is reported as such; for an
    accepted one the answer is [Allowed] exactly when every rule has room (no
    open order or queued copy of the plan, queue below its cap, no running copy
    unless advance purchase is allowed, fewer purchases than the lifetime cap and
    than the period cap); the primary reason is the first rule that blocks, and a
    retry time is reported only when no blocker is permanent, as the latest of
    the blockers' own. *)
Theorem EvaluatePurchaseEligibility_correct L p f :
  Z.of_nat (length (PaidOrderTimes f)) <= int32_max ->
  match EvaluatePurchaseEligibility L p f with
  | Err e => ValidatePurchasePolicy L p = Some e
  | Ok d => ValidatePurchasePolicy L p = None /\ decision_report d /\
            (Allowed d = true <-> eligible L (NormalizePurchasePolicy p) f)
  end.
Proof.
  intros Hlen. destruct (ValidatePurchasePolicy L p) as [e|] eqn:Hv.
  { unfold EvaluatePurchaseEligibility. by rewrite Validate_Normalize, Hv. }
  assert (Hel : forall room : Prop, (period_room L (NormalizePurchasePolicy p) f <-> room) ->
    (base_eligible (NormalizePurchasePolicy p) f /\ room <-> eligible L (NormalizePurchasePolicy p) f))
    by (intros room Hr; unfold eligible, base_eligible; tauto).
  set (q := NormalizePurchasePolicy p) in *.
  destruct (Evaluate_shape L p f Hv) as [[Hty ->] | [(max & hours & Hty & Hm & Hh & Hpos & Hrange & ->)
    | (max & start & stop & Hty & Hm & Hb & ->)]]; fold q in Hty |- *.
  - destruct (finish_report _ (base_decision_wf q f)) as [-> Hrep].
    split; [done|]. split; [done|]. rewrite base_decision_allowed, <- (Hel True); [tauto|].
    unfold period_room. rewrite Hty. done.
  - fold q in Hm, Hh. rewrite <- (Hel (rolling_rule (Now f) (hours * Hour) max (PaidOrderTimes f) = None)).
    2:{ rewrite rolling_rule_room. unfold period_room. rewrite Hty, Hm, Hh. split; [intros [H _]; by apply H|].
        intros Hroom. split; [|done]. intros _ max' hours' [= <-] [= <-]. done. }
    rewrite <- base_decision_allowed.
    destruct (rolling_rule _ _ _ _) as [rule|] eqn:Hrule.
    + assert (Hreason : rule_Reason rule = PurchaseRollingLimitReached).
      { unfold rolling_rule in Hrule. cbv zeta in Hrule. destruct (_ <=? _); [by injection Hrule as <- | done]. }
      destruct (finish_report (add_rule (base_decision q f) rule)) as [-> Hrep].
      { apply add_rule_wf; [by rewrite Hreason | apply base_decision_wf]. }
      split; [done|]. split; [done|]. split; [done | intros [_ ?]; done].
    + destruct (finish_report _ (base_decision_wf q f)) as [-> Hrep]. tauto.
  - fold q in Hm, Hb.
    assert (Hused : calendar_used start stop (PaidOrderTimes f) = purchases_in start stop (PaidOrderTimes f)).
    { unfold calendar_used. rewrite calendar_used_count by lia. lia. }
    rewrite Hused. rewrite <- (Hel (purchases_in start stop (PaidOrderTimes f) < max)).
    2:{ unfold period_room. rewrite Hty, Hm, Hb. split; [intros [_ H]; by apply (H eq_refl max start stop)|].
        intros Hroom. split; [done|]. intros _ max' start' stop' [= <-] [= <- <-]. done. }
    rewrite <- base_decision_allowed.
    match goal with |- context [finish ?d] => destruct (finish_report d) as [-> Hrep] end.
    { apply add_if_wf; [done | apply base_decision_wf]. }
    split; [done|]. split; [done|]. rewrite Allowed_add_if, andb_true_iff, negb_true_iff, Z.leb_gt. tauto.
Qed.

(** ** Rolling windows *)

Definition after_count (x : Z) (l : list Z) : Z :=
  Z.of_nat (length (List.filter (fun t => x <? t) l)).

Lemma after_count_Permutation x l1 l2 : l1 ≡ₚ l2 -> after_count x l1 = after_count x l2.
Proof.
  unfold after_count. induction 1 as [|a l1 l2 _ IH|a b l|]; simpl; [done| | |lia].
  - destruct (x <? a); simpl; lia.
  - destruct (x <? a), (x <? b); simpl; lia.
Qed.

Lemma after_count_le x l : 0 <= after_count x l <= Z.of_nat (length l).
Proof.
  unfold after_count. induction l as [|a l IH]; simpl; [lia|]. destruct (x <? a); simpl; lia.
Qed.

(** In a sorted list, what comes after the element at [i]. *)
Lemma after_count_sorted_lt l i v x :
  StronglySorted (fun a b => (a <=? b) = true) l -> l !! i = Some v -> x < v ->
  Z.of_nat (length l) - Z.of_nat i <= after_count x l.
Proof.
  intros Hs. revert i. induction Hs as [|a l Hs IH Ha]; intros i Hi Hx; [done|].
  unfold after_count in *. cbn [List.filter length]. destruct i as [|i].
  - injection Hi as ->. rewrite (proj2 (Z.ltb_lt x v)) by done. cbn [length].
    assert (List.filter (fun t => x <? t) l = l) as ->; [|lia].
    clear -Ha Hx. induction Ha as [|b l Hb _ IHl]; simpl; [done|].
    apply Z.leb_le in Hb. rewrite (proj2 (Z.ltb_lt x b)) by lia. by rewrite IHl.
  - specialize (IH i Hi Hx). destruct (x <? a); cbn [length]; lia.
Qed.

Lemma after_count_sorted_ge l i v :
  StronglySorted (fun a b => (a <=? b) = true) l -> l !! i = Some v ->
  after_count v l < Z.of_nat (length l) - Z.of_nat i.
Proof.
  intros Hs. revert i. induction Hs as [|a l Hs IH Ha]; intros i Hi; [done|].
  unfold after_count in *. cbn [List.filter length]. destruct i as [|i].
  - injection Hi as ->. rewrite (proj2 (Z.ltb_ge v v)) by lia.
    pose proof (after_count_le v l). unfold after_count in *. lia.
  - specialize (IH i Hi). assert (Hva : (v <? a) = false); [|rewrite Hva; lia].
    apply Z.ltb_ge. rewrite Forall_forall in Ha. apply (list_elem_of_lookup_2 l i v) in Hi.
    apply Ha in Hi. by apply Z.leb_le in Hi.
Qed.

Lemma recent_after now window times :
  (forall t, t ∈ times -> t <= now) ->
  Z.of_nat (length (recent_purchases now window times)) = after_count (now - window) times.
Proof.
  intros H. unfold recent_purchases, after_count. do 2 f_equal. apply List.filter_ext_in.
  intros t Ht%list_elem_of_In%H. rewrite (proj2 (Z.ltb_ge now t)) by lia. by rewrite andb_true_r.
Qed.

Lemma after_count_filter x y times :
  y <= x -> after_count x (List.filter (fun t => y <? t) times) = after_count x times.
Proof.
  intros Hle. unfold after_count. do 2 f_equal. induction times as [|t times IH]; simpl; [done|].
  destruct (Z.ltb_spec y t); simpl; [destruct (x <? t); by rewrite IH|].
  rewrite IH. by rewrite (proj2 (Z.ltb_ge x t)) by lia.
Qed.

Lemma Zleb_total x y : (x <=? y) = false -> (y <=? x) = true.
Proof. intros. bool_prop. apply Z.leb_le. lia. Qed.
Lemma Zleb_trans x y z : (x <=? y) = true -> (y <=? z) = true -> (x <=? z) = true.
Proof. intros. bool_prop. apply Z.leb_le. lia. Qed.

(** The rule blocks until its retry time and not a nanosecond longer. *)
Lemma rolling_rule_retry now window max times rule t :
  0 < max -> (forall x, x ∈ times -> x <= now) ->
  rolling_rule now window max times = Some rule -> rule_RetryAt rule = Some t ->
  now < t /\
  (forall now', now <= now' < t -> rolling_rule now' window max times <> None) /\
  rolling_rule t window max times = None.
Proof.
  intros Hmax Hpast H Ht. unfold rolling_rule in H. cbv zeta in H.
  destruct (Z.leb_spec max (Z.of_nat (length (recent_purchases now window times)))) as [Hge|]; [|done].
  injection H as <-. cbn [rule_RetryAt] in Ht. injection Ht as <-.
  set (rec := recent_purchases now window times) in *.
  pose proof (order_by_sorted Z.leb Zleb_total Zleb_trans rec) as Hs.
  pose proof (order_by_Permutation Z.leb rec) as Hp.
  pose proof (Permutation_length Hp) as Hl.
  set (i := Z.to_nat (Z.of_nat (length rec) - max)).
  assert (Hi : Z.of_nat i = Z.of_nat (length rec) - max) by (unfold i; lia).
  destruct (lookup_lt_is_Some_2 (order_by Z.leb rec) i ltac:(lia)) as [v Hv]. rewrite Hv. simpl.
  assert (Hin : v ∈ rec) by (rewrite <- Hp; by eapply list_elem_of_lookup_2).
  assert (Hvr : now - window < v <= now).
  { unfold rec, recent_purchases in Hin. apply list_elem_of_In, List.filter_In in Hin as [_ Hb].
    bool_prop. lia. }
  assert (Hafter : forall x, now - window <= x -> after_count x times = after_count x (order_by Z.leb rec)).
  { intros x Hx. rewrite (after_count_Permutation _ _ _ Hp). symmetry.
    rewrite <- (after_count_filter x (now - window) times) by lia. unfold rec, recent_purchases.
    f_equal. apply List.filter_ext_in. intros a Ha%list_elem_of_In%Hpast.
    by rewrite (proj2 (Z.ltb_ge now a)), andb_true_r by lia. }
  split; [lia|]. split.
  - intros now' Hn. rewrite rolling_rule_room, recent_after by (intros x Hx%Hpast; lia).
    rewrite Hafter by lia. pose proof (after_count_sorted_lt _ i v (now' - window) Hs Hv ltac:(lia)). lia.
  - rewrite rolling_rule_room, recent_after by (intros x Hx%Hpast; lia).
    replace (v + window - window) with v by lia. rewrite Hafter by lia.
    pose proof (after_count_sorted_ge _ i v Hs Hv). lia.
Qed.

Definition at_time (now : Z) (f : PurchaseFacts) : PurchaseFacts :=
  MkPurchaseFacts now (PaidOrderTimes f) (OpenOrderCount f) (OpenSamePlanOrder f)
    (LiveSubscriptionCount f) (PendingSamePlan f) (ActiveSamePlanExpiresAt f) (MaxQueue f).

Lemma finish_allowed d : Allowed (finish d) = Allowed d.
Proof. unfold finish. by destruct (existsb _ _). Qed.

Lemma Evaluate_rolling L p f max hours :
  ValidatePurchasePolicy L p = None ->
  let q := NormalizePurchasePolicy p in
  PeriodType q = PurchasePeriodRolling -> PeriodMaxPurchases q = Some max ->
  RollingWindowHours q = Some hours ->
  0 < max /\
  EvaluatePurchaseEligibility L p f = Ok (finish
    match rolling_rule (Now f) (hours * Hour) max (PaidOrderTimes f) with
    | Some rule => add_rule (base_decision q f) rule
    | None => base_decision q f
    end).
Proof.
  intros Hv q Hty Hm Hh.
  destruct (Evaluate_shape L p f Hv) as [[Hty2 _] | [(max2 & hours2 & _ & Hm2 & Hh2 & Hpos & _ & ->)
    | (max2 & s & t & Hty2 & _)]]; fold q in Hty2 || fold q in Hm2, Hh2 |- *.
  - rewrite Hty in Hty2. discriminate Hty2.
  - rewrite Hm in Hm2. rewrite Hh in Hh2. by injection Hm2 as <-; injection Hh2 as <-.
  - rewrite Hty in Hty2. discriminate Hty2.
Qed.

(** The retry time of a rolling limit is exact.  When the only thing that
    blocks a user at [Now] is the rolling limit, the decision carries a retry time
    in the future; with no further purchase the user stays blocked at every
    instant before it and is allowed at that very instant. *)
Theorem rolling_retry_exact L p f d max hours :
  let q := NormalizePurchasePolicy p in
  PeriodType q = PurchasePeriodRolling -> PeriodMaxPurchases q = Some max ->
  RollingWindowHours q = Some hours ->
  (forall t, t ∈ PaidOrderTimes f -> t <= Now f) -> base_eligible q f ->
  EvaluatePurchaseEligibility L p f = Ok d -> Allowed d = false ->
  exists t, RetryAt d = Some t /\ Now f < t /\
    (forall now, Now f <= now < t -> exists d', Allowed d' = false /\
       EvaluatePurchaseEligibility L p (at_time now f) = Ok d') /\
    (exists d', Allowed d' = true /\ EvaluatePurchaseEligibility L p (at_time t f) = Ok d').
Proof.
  intros q Hty Hm Hh Hpast Hbase Hev Hden.
  destruct (ValidatePurchasePolicy L p) eqn:Hv.
  { unfold EvaluatePurchaseEligibility in Hev. by rewrite Validate_Normalize, Hv in Hev. }
  destruct (Evaluate_rolling L p f max hours Hv Hty Hm Hh) as [Hmax Heq].
  fold q in Heq. rewrite Hev in Heq. injection Heq as Heq.
  pose proof (proj2 (base_decision_allowed q f) Hbase) as Hall.
  destruct (rolling_rule (Now f) (hours * Hour) max (PaidOrderTimes f)) as [rule|] eqn:Hrule;
    [|subst d; rewrite finish_allowed, Hall in Hden; done].
  assert (Hreason : rule_Reason rule = PurchaseRollingLimitReached /\ exists t, rule_RetryAt rule = Some t).
  { unfold rolling_rule in Hrule. cbv zeta in Hrule.
    destruct (_ <=? _); [injection Hrule as <-; split; [done | by eexists] | done]. }
  destruct Hreason as [Hreason [t Ht]].
  destruct (rolling_rule_retry _ _ _ _ _ _ Hmax Hpast Hrule Ht) as (Hlt & Hblock & Hfree).
  exists t. split; [|split; [done|]].
  { subst d. destruct (base_decision_wf q f) as [Ha _ _ Hr _]. pose proof (proj1 Ha Hall) as Hnil.
    unfold finish, add_rule. cbn [BlockingRules RetryAt]. rewrite Hnil, Hreason, Ht. simpl. rewrite Hreason.
    change (permanent_reason PurchaseRollingLimitReached || false) with false. cbv iota.
    cbn [RetryAt]. destruct (RetryAt (base_decision q f)) as [t'|] eqn:Hrt; [|done].
    destruct (Hr t' eq_refl) as (r & Hin & _). rewrite Hnil in Hin. by apply not_elem_of_nil in Hin. }
  split.
  - intros now Hn. destruct (Evaluate_rolling L p (at_time now f) max hours Hv Hty Hm Hh) as [_ ->].
    eexists. split; [|reflexivity]. cbn [Now PaidOrderTimes at_time].
    destruct (rolling_rule now _ _ _) eqn:Hr; [by rewrite finish_allowed|]. by destruct (Hblock now Hn).
  - destruct (Evaluate_rolling L p (at_time t f) max hours Hv Hty Hm Hh) as [_ ->].
    eexists. split; [|reflexivity]. cbn [Now PaidOrderTimes at_time]. rewrite Hfree, finish_allowed.
    by apply base_decision_allowed.
Qed.

(** ** Calendar periods *)

Section FixedOffset.
Context (off : Z).
Let loc := fixed_zone off.

(** Local midnight of a day. *)
Definition midnight (days : Z) : Z := date_at loc days 0 0.

Lemma Date_midnight y m d : Date loc y m d 0 0 = midnight (norm_days y m d).
Proof. done. Qed.

Lemma norm_days_same y m d days :
  1 <= m <= 12 -> days = days_from_civil y m 1 + (d - 1) -> norm_days y m d = days.
Proof.
  intros Hm ->. unfold norm_days. cbv zeta. rewrite (Z.div_small (m - 1)), (Z.mod_small (m - 1)) by lia.
  by rewrite Z.add_0_r, Z.sub_add.
Qed.

Lemma norm_days_shift y m d n : norm_days y m (d + n) = norm_days y m d + n.
Proof. unfold norm_days. cbv zeta. lia. Qed.

Lemma AddDate_midnight_days days n : AddDate loc (midnight days) 0 n = midnight (days + n).
Proof.
  unfold AddDate. destruct (fixed_midnight off days) as (Hd & Hc & Hn).
  fold loc in Hd, Hc, Hn. fold (midnight days) in Hd, Hc, Hn. rewrite Hd, Hc, Hn.
  destruct (civil_from_days_spec days) as (y & m & d & Heq & Hm & _ & Hdays & _). rewrite Heq.
  rewrite Z.add_0_r, Date_midnight, norm_days_shift. by rewrite (norm_days_same y m d days).
Qed.

Lemma AddDate_midnight_month k : AddDate loc (midnight (month_days k)) 1 0 = midnight (month_days (k + 1)).
Proof.
  unfold AddDate. destruct (fixed_midnight off (month_days k)) as (Hd & Hc & Hn).
  fold loc in Hd, Hc, Hn. fold (midnight (month_days k)) in Hd, Hc, Hn. rewrite Hd, Hc, Hn.
  destruct (civil_from_month k) as (y & m & Heq & Hk). rewrite Heq.
  rewrite Z.add_0_r, Date_midnight, norm_days_month. do 2 f_equal. lia.
Qed.

Lemma midnight_le a now : a <= local_days loc now -> midnight a <= now.
Proof.
  unfold midnight, loc. rewrite fixed_date_at. unfold local_days. rewrite fixed_local_seconds.
  unfold day_seconds, Second. intros H. zdiv.
Qed.
Lemma midnight_gt a now : local_days loc now < a -> now < midnight a.
Proof.
  unfold midnight, loc. rewrite fixed_date_at. unfold local_days. rewrite fixed_local_seconds.
  unfold day_seconds, Second. intros H. zdiv.
Qed.
Lemma local_days_midnight a : local_days loc (midnight a) = a.
Proof. apply (fixed_midnight off a). Qed.

Lemma Weekday_midnight a : Weekday loc (midnight a) = weekday_of_days a.
Proof. unfold Weekday. by rewrite local_days_midnight. Qed.

(** First day of the period of a day, and of the next one. *)
Definition period_first (unit : string) (days : Z) : Z :=
  if seq_str unit CalendarUnitDay then days
  else if seq_str unit CalendarUnitWeek then days - (weekday_of_days days + 6) mod 7
  else let '(y, m, _) := civil_from_days days in month_days (12 * y + (m - 1)).
Definition period_next (unit : string) (days : Z) : Z :=
  if seq_str unit CalendarUnitDay then days + 1
  else if seq_str unit CalendarUnitWeek then days - (weekday_of_days days + 6) mod 7 + 7
  else let '(y, m, _) := civil_from_days days in month_days (12 * y + (m - 1) + 1).

Lemma calendarPeriodBounds_fixed L tz unit now :
  L tz = Some loc -> unit ∈ [CalendarUnitDay; CalendarUnitWeek; CalendarUnitMonth] ->
  calendarPeriodBounds L now unit tz =
    Ok (midnight (period_first unit (local_days loc now)),
        midnight (period_next unit (local_days loc now))).
Proof.
  intros HL Hu. unfold calendarPeriodBounds. rewrite HL.
  destruct (civil_from_days_spec (local_days loc now)) as (y & m & d & Heq & Hm & _ & Hdays & _).
  unfold period_first, period_next. rewrite Heq. rewrite !Date_midnight, norm_days_month.
  rewrite (norm_days_same y m d (local_days loc now)) by done.
  destruct (seq_str unit CalendarUnitDay) eqn:H1; [by rewrite AddDate_midnight_days|].
  destruct (seq_str unit CalendarUnitWeek) eqn:H2;
    [by rewrite Weekday_midnight, !AddDate_midnight_days, Z.add_opp_r|].
  destruct (seq_str unit CalendarUnitMonth) eqn:H3; [by rewrite AddDate_midnight_month|].
  exfalso. apply seq_str_false in H1, H2, H3.
  by apply elem_of_cons in Hu as [? | [? | [? | []%not_elem_of_nil]%elem_of_cons]%elem_of_cons].
Qed.

Lemma period_contains unit days : period_first unit days <= days < period_next unit days.
Proof.
  unfold period_first, period_next. destruct (seq_str unit CalendarUnitDay); [lia|].
  destruct (seq_str unit CalendarUnitWeek); [unfold weekday_of_days; zdiv|].
  destruct (civil_from_days_spec days) as (y & m & d & Heq & Hm & Hd & Hdays & Hnext).
  rewrite Heq. rewrite norm_days_month in Hnext. replace (m + 1 - 1) with (m - 1 + 1) in Hnext by lia.
  rewrite Z.add_assoc in Hnext. split; [|done].
  rewrite <- norm_days_month, (norm_days_same y m 1 (days_from_civil y m 1)); lia.
Qed.

Lemma period_next_first unit days : period_first unit (period_next unit days) = period_next unit days.
Proof.
  unfold period_first, period_next. destruct (seq_str unit CalendarUnitDay); [done|].
  destruct (seq_str unit CalendarUnitWeek); [unfold weekday_of_days; zdiv|].
  destruct (civil_from_days days) as [[y m] d].
  destruct (civil_from_month (12 * y + (m - 1) + 1)) as (y' & m' & -> & ->). done.
Qed.
End FixedOffset.

(** Calendar periods tile time.  In any zone with a fixed offset the period
    of an instant contains it, is delimited by local midnights, starts on the day,
    on a Monday or on the first of a month as its unit says, and the period of its
    end starts exactly there, so the advertised retry time opens a fresh period. *)
Theorem calendarPeriodBounds_tiles L tz unit off now :
  L tz = Some (fixed_zone off) -> unit ∈ [CalendarUnitDay; CalendarUnitWeek; CalendarUnitMonth] ->
  exists start stop, calendarPeriodBounds L now unit tz = Ok (start, stop) /\
    start <= now < stop /\
    local_clock (fixed_zone off) start = 0 /\ local_clock (fixed_zone off) stop = 0 /\
    (unit = CalendarUnitDay -> local_days (fixed_zone off) start = local_days (fixed_zone off) now) /\
    (unit = CalendarUnitWeek -> Weekday (fixed_zone off) start = 1) /\
    (unit = CalendarUnitMonth -> exists y m d d',
       civil_from_days (local_days (fixed_zone off) start) = (y, m, d) /\ d = 1 /\
       civil_from_days (local_days (fixed_zone off) now) = (y, m, d')) /\
    exists stop', calendarPeriodBounds L stop unit tz = Ok (stop, stop').
Proof.
  intros HL Hu. rewrite (calendarPeriodBounds_fixed off L tz unit now HL Hu).
  set (D := local_days (fixed_zone off) now).
  exists (midnight off (period_first unit D)), (midnight off (period_next unit D)).
  pose proof (period_contains unit D) as Hin.
  split; [done|]. split; [split; [apply midnight_le | apply midnight_gt]; fold D; lia|].
  split; [apply fixed_midnight|]. split; [apply fixed_midnight|].
  split; [intros ->; by rewrite local_days_midnight|].
  split; [intros ->; rewrite Weekday_midnight; unfold period_first, weekday_of_days; simpl; zdiv|].
  split.
  - intros ->. rewrite local_days_midnight. unfold period_first.
    change (seq_str CalendarUnitMonth CalendarUnitDay) with false.
    change (seq_str CalendarUnitMonth CalendarUnitWeek) with false. cbv iota.
    destruct (civil_from_days_spec D) as (y & m & d & Heq & Hm & _). rewrite Heq.
    destruct (civil_from_month (12 * y + (m - 1))) as (y' & m' & Heq' & Hk).
    exists y', m', 1, d. split; [done|]. split; [done|].
    assert (y' = y /\ m' = m) as [-> ->]; [|done].
    destruct (civil_from_days_spec (month_days (12 * y + (m - 1)))) as (y2 & m2 & d2 & Heq2 & Hm2 & _).
    rewrite Heq' in Heq2. injection Heq2 as <- <- <-. lia.
  - eexists. rewrite (calendarPeriodBounds_fixed off L tz unit _ HL Hu), local_days_midnight, period_next_first.
    reflexivity.
Qed.

(** ** Concrete policies *)

(** A database that knows UTC and a fixed zone eight hours ahead. *)
Definition demo_zones (tz : string) : option Location :=
  if seq_str tz "UTC" then Some UTC
  else if seq_str tz "Asia/Shanghai" then Some (fixed_zone 28800) else None.

(** At most two purchases in any 24 hours, and at most five ever. *)
Definition demo_rolling : PurchasePolicy :=
  MkPurchasePolicy (Some 5) PurchasePeriodRolling (Some 2) (Some 24) "" "" true 3 0 0.
Definition demo_monthly : PurchasePolicy :=
  MkPurchasePolicy None PurchasePeriodCalendar (Some 1) None CalendarUnitMonth "Asia/Shanghai" true 1 0 0.

(** 2024-03-01 00:30 in Shanghai; purchases 30, 10 and 5 hours earlier. *)
Definition demo_now : Z := 1709224200 * Second.
Definition demo_facts : PurchaseFacts :=
  MkPurchaseFacts demo_now [demo_now - 30 * Hour; demo_now - 10 * Hour; demo_now - 5 * Hour]
    0 false 1 false None 2.

Lemma EvaluatePurchaseEligibility_correct_witness :
  exists d, EvaluatePurchaseEligibility demo_zones demo_rolling demo_facts = Ok d /\
    Allowed d = false /\ ~ eligible demo_zones (NormalizePurchasePolicy demo_rolling) demo_facts.
Proof.
  pose proof (EvaluatePurchaseEligibility_correct demo_zones demo_rolling demo_facts
    ltac:(vm_compute; discriminate)) as H.
  destruct (EvaluatePurchaseEligibility demo_zones demo_rolling demo_facts) as [d|] eqn:Hd.
  - destruct H as (_ & _ & Hel). exists d. split; [done|].
    assert (Ha : Allowed d = false) by (vm_compute in Hd; injection Hd as <-; reflexivity).
    split; [done|]. intros Hc. apply Hel in Hc. rewrite Ha in Hc. discriminate Hc.
  - vm_compute in Hd. discriminate Hd.
Defined.

Lemma rolling_retry_exact_witness :
  exists d, EvaluatePurchaseEligibility demo_zones demo_rolling demo_facts = Ok d /\
    RetryAt d = Some (demo_now + 14 * Hour) /\
    exists d', Allowed d' = true /\
      EvaluatePurchaseEligibility demo_zones demo_rolling (at_time (demo_now + 14 * Hour) demo_facts) = Ok d'.
Proof.
  destruct (EvaluatePurchaseEligibility demo_zones demo_rolling demo_facts) as [d|] eqn:Hd;
    [|vm_compute in Hd; discriminate Hd].
  assert (Hda : Allowed d = false /\ RetryAt d = Some (demo_now + 14 * Hour))
    by (vm_compute in Hd; injection Hd as <-; split; reflexivity).
  destruct Hda as [Ha Hr]. exists d. split; [done|]. split; [done|].
  destruct (rolling_retry_exact demo_zones demo_rolling demo_facts d 2 24) as (t & Ht & _ & _ & Hfree);
    [done | done | done | | | done | done |].
  - intros t Ht%list_elem_of_In. vm_compute in Ht. destruct Ht as [<- | [<- | [<- | []]]]; vm_compute; discriminate.
  - split; [done|]. split; [done|]. split; [vm_compute; discriminate|]. split; [by left|].
    intros max [= <-]. vm_compute. reflexivity.
  - rewrite Hr in Ht. injection Ht as <-. exact Hfree.
Defined.

Lemma calendarPeriodBounds_tiles_witness :
  exists start stop, calendarPeriodBounds demo_zones demo_now CalendarUnitMonth "Asia/Shanghai" = Ok (start, stop) /\
    start = demo_now - Hour / 2 /\ stop = start + 31 * 24 * Hour /\ start <= demo_now < stop.
Proof.
  destruct (calendarPeriodBounds_tiles demo_zones "Asia/Shanghai" CalendarUnitMonth 28800 demo_now)
    as (start & stop & Hb & Hin & _); [done | set_solver |].
  exists start, stop. split; [exact Hb|]. vm_compute in Hb. injection Hb as <- <-.
  split; [reflexivity|]. split; [reflexivity | exact Hin].
Defined.
