(* ===== verification/Subscription.v ===== *)
(** * Subscription plans: purchase, activation and metering

    [ai/subscription] (service, janitor, strict purchaser) over the tables of
    [ai/adapters/postgres/subscription.go].  Every statement list between a
    [Begin] and a [Commit] is one [STx]; a service call that runs several
    transactions is a [txprog], a program whose steps are whole transactions, so
    that the same definition is run alone and interleaved with others.

    Timestamps are nanoseconds; UUID columns are strings; a group's quota
    multiplier is its NUMERIC(10,4) column in ten-thousandths.  [now] is the
    transaction's [now()]; intervals of days are 24-hour days. *)

From S2P Require Import Prelude GoStrings CivilTime PurchasePolicy Ledger.

(** ** Tables *)

Definition PlanDraft : string := "draft".
Definition PlanOnSale : string := "on_sale".
Definition PlanOffSale : string := "off_sale".
Definition SubPending : string := "pending".
Definition SubActive : string := "active".
Definition SubExpired : string := "expired".
Definition OrderCreated : string := "created".
Definition OrderDeducting : string := "deducting".
Definition OrderPaid : string := "paid".
Definition OrderFailed : string := "failed".

Record Plan := MkPlan {
  pl_ID : string;
  pl_TenantID : string;
  pl_Name : string;
  pl_Description : string;
  pl_PriceMicroUSD : Z;
  pl_DurationDays : Z;
  pl_TotalLimitMicro : Z;
  pl_Window5hLimitMicro : option Z;
  pl_Window7dLimitMicro : option Z;
  pl_Status : string;
  pl_SortOrder : Z;
  pl_SaleLimit : option Z;
  pl_SoldCount : Z;
  pl_ReservedCount : Z;
  pl_CreatedBy : string;
  pl_CreatedAt : Z }.

Record PlanGroup := MkPlanGroup {
  pg_PlanID : string;
  pg_GroupID : string;
  pg_QuotaDebitMultiplier : Z;
  pg_SortOrder : Z }.

(** [ai_groups] and [ai_user_groups], as far as visibility needs them. *)
Record access_group := AccessGroup {
  ag_ID : string;
  ag_TenantID : string;
  ag_Name : string;
  ag_Status : string;
  ag_UserDefaultVisible : bool }.
Record user_group := UserGroup { ug_TenantID : string; ug_UserID : string; ug_GroupID : string }.

Record Order := MkOrder {
  so_ID : string;
  so_OrderNo : string;
  so_TenantID : string;
  so_UserID : string;
  so_PlanID : string;
  so_PlanNameSnapshot : string;
  so_PriceMicroUSD : Z;
  so_DurationDaysSnapshot : Z;
  so_TotalLimitMicroSnapshot : Z;
  so_Window5hLimitMicroSnapshot : option Z;
  so_Window7dLimitMicroSnapshot : option Z;
  so_GroupQuotaDebitMultipliersSnapshot : list (string * Z);
  so_PurchasePolicySnapshot : PurchasePolicy;
  so_InventoryReserved : bool;
  so_Status : string;
  so_DebitReference : option string;
  so_DebitedAt : option Z;
  so_SubscriptionID : option string;
  so_FailReason : option string;
  so_PaidAt : option Z;
  so_CreatedAt : Z;
  so_UpdatedAt : Z }.

Record Subscription := MkSub {
  ss_ID : string;
  ss_TenantID : string;
  ss_UserID : string;
  ss_PlanID : string;
  ss_OrderID : string;
  ss_DurationDays : Z;
  ss_TotalLimitMicro : Z;
  ss_Window5hLimitMicro : option Z;
  ss_Window7dLimitMicro : option Z;
  ss_Status : string;
  ss_ActivatedAt : option Z;
  ss_ExpiresAt : option Z;
  ss_TotalUsedMicro : Z;
  ss_Win5hStart : option Z;
  ss_Win5hUsedMicro : Z;
  ss_Win7dStart : option Z;
  ss_Win7dUsedMicro : Z;
  ss_GroupQuotaDebitMultipliers : list (string * Z);
  ss_CreatedAt : Z }.

(** A row of [ai_sub_plan_purchase_policy_revisions]. *)
Record PurchasePolicyRevision := MkRevision {
  rev_PlanID : string;
  rev_Version : Z;
  rev_Policy : PurchasePolicy;
  rev_ChangedBy : option string;
  rev_ChangedAt : Z }.

Record sub_db := SubDB {
  s_plans : list Plan;
  s_plan_groups : list PlanGroup;
  s_policies : list (string * PurchasePolicy);
  s_revisions : list PurchasePolicyRevision;
  s_groups : list access_group;
  s_user_groups : list user_group;
  s_orders : list Order;
  s_subs : list Subscription;
  s_ledger : ledger_db }.

Inductive sub_error :=
| ErrPlanNotFound
| ErrPlanNotOnSale
| ErrPlanForbidden
| ErrSubInsufficientBalance
| ErrOrderProcessing
| ErrIdempotencyConflict
| ErrSubNotFound
| ErrInvalidStatus
| ErrInvalidDuration
| ErrPlanQuotaInvalid
| ErrPlanWindow7dInvalid
| ErrPlanNeedsGroups
| ErrPlanGroupsInvalid
| ErrPlanNotAccessible
| ErrPlanSoldOut
| ErrPlanSaleLimitInvalid
| ErrPlanReorderInvalid
| ErrPurchaseDenied (d : PurchaseDecision)
| ErrPolicy (e : policy_error)
| ErrSubLedger (e : ledger_error)
| ErrSubNoRows
| ErrSubText (msg : string)
| ErrSubSQL (msg : string).

Abbreviation STx := (Tx sub_db sub_error).

Definition set_plans (x : list Plan) (db : sub_db) : sub_db :=
  SubDB x (s_plan_groups db) (s_policies db) (s_revisions db) (s_groups db) (s_user_groups db) (s_orders db)
    (s_subs db) (s_ledger db).
Definition set_plan_groups (x : list PlanGroup) (db : sub_db) : sub_db :=
  SubDB (s_plans db) x (s_policies db) (s_revisions db) (s_groups db) (s_user_groups db) (s_orders db)
    (s_subs db) (s_ledger db).
Definition set_policies (x : list (string * PurchasePolicy)) (r : list PurchasePolicyRevision)
    (db : sub_db) : sub_db :=
  SubDB (s_plans db) (s_plan_groups db) x r (s_groups db) (s_user_groups db) (s_orders db)
    (s_subs db) (s_ledger db).
Definition set_sub_orders (x : list Order) (db : sub_db) : sub_db :=
  SubDB (s_plans db) (s_plan_groups db) (s_policies db) (s_revisions db) (s_groups db) (s_user_groups db) x
    (s_subs db) (s_ledger db).
Definition set_subs (x : list Subscription) (db : sub_db) : sub_db :=
  SubDB (s_plans db) (s_plan_groups db) (s_policies db) (s_revisions db) (s_groups db) (s_user_groups db) (s_orders db)
    x (s_ledger db).
Definition set_sub_ledger (x : ledger_db) (db : sub_db) : sub_db :=
  SubDB (s_plans db) (s_plan_groups db) (s_policies db) (s_revisions db) (s_groups db) (s_user_groups db) (s_orders db)
    (s_subs db) x.

(** ** Statements on plans *)

(** CHECK [ai_sub_plans_inventory_within_limit_check] and the counts' bounds. *)
Definition plan_inventory_ok (p : Plan) : bool :=
  (0 <=? pl_SoldCount p) && (0 <=? pl_ReservedCount p)
  && match pl_SaleLimit p with
     | Some n => pl_SoldCount p + pl_ReservedCount p <=? n
     | None => true
     end.

Definition set_counts (sold reserved : Z) (p : Plan) : Plan :=
  MkPlan (pl_ID p) (pl_TenantID p) (pl_Name p) (pl_Description p) (pl_PriceMicroUSD p)
    (pl_DurationDays p) (pl_TotalLimitMicro p) (pl_Window5hLimitMicro p) (pl_Window7dLimitMicro p)
    (pl_Status p) (pl_SortOrder p) (pl_SaleLimit p) sold reserved (pl_CreatedBy p) (pl_CreatedAt p).

(** An [UPDATE] of one plan's counters: the affected rows, or an INTEGER overflow
    or CHECK violation. *)
Definition update_counts (id : string) (cond : Plan -> bool) (f : Plan -> Plan) : STx Z :=
  let! db := tx_get in
  match find_key pl_ID id (s_plans db) with
  | Some p =>
      if cond p then
        tx_guard (negb (in_int32 (pl_SoldCount (f p)) && in_int32 (pl_ReservedCount (f p))
                        && plan_inventory_ok (f p)))
          (ErrSubSQL "ai_sub_plans check") ;;;
        tx_put (set_plans (update_where (has_key pl_ID id) f (s_plans db)) db) ;;;
        tx_ret 1
      else tx_ret 0
  | None => tx_ret 0
  end.

Definition reserve_one (p : Plan) : Plan := set_counts (pl_SoldCount p) (pl_ReservedCount p + 1) p.
Definition release_one (p : Plan) : Plan := set_counts (pl_SoldCount p) (pl_ReservedCount p - 1) p.
Definition commit_one (p : Plan) : Plan := set_counts (pl_SoldCount p + 1) (pl_ReservedCount p - 1) p.

Definition ReservePlanInventory (id : string) : STx Z :=
  update_counts id (fun p => match pl_SaleLimit p with
                             | None => true
                             | Some n => pl_SoldCount p + pl_ReservedCount p <? n
                             end) reserve_one.
Definition ReleasePlanInventory (id : string) : STx Z :=
  update_counts id (fun p => 0 <? pl_ReservedCount p) release_one.
Definition CommitPlanInventorySale (id : string) : STx Z :=
  update_counts id (fun p => 0 <? pl_ReservedCount p) commit_one.

(** [ListPlanGroupsForPlans] of one plan.  The rows' display order is left out:
    the callers only count them or turn them into a map. *)
Definition loadPlanGroups (planID : string) (db : sub_db) : list PlanGroup :=
  List.filter (fun g => seq_str (pg_PlanID g) planID
    && bool_decide (pg_GroupID g ∈ (ag_ID <$> s_groups db))) (s_plan_groups db).

Definition GetPlanPurchasePolicy (planID : string) (db : sub_db) : option PurchasePolicy :=
  snd <$> find_key fst planID (s_policies db).

(** [CountUserAccessiblePlanGroups]: the plan's groups that are active, of the
    tenant, and visible to the user by default or by exception. *)
Definition group_accessible (tenantID userID : string) (db : sub_db) (g : access_group) : bool :=
  seq_str (ag_Status g) "active" && seq_str (ag_TenantID g) tenantID
  && (ag_UserDefaultVisible g
      || existsb (fun u => seq_str (ug_GroupID u) (ag_ID g) && seq_str (ug_TenantID u) tenantID
                           && seq_str (ug_UserID u) userID) (s_user_groups db)).
Definition CountUserAccessiblePlanGroups (planID tenantID userID : string) (db : sub_db) : Z :=
  count_where (fun pg => seq_str (pg_PlanID pg) planID
      && existsb (fun g => seq_str (ag_ID g) (pg_GroupID pg) && group_accessible tenantID userID db g)
           (s_groups db)) (s_plan_groups db).

(** ** Statements on orders *)

Definition order_open (o : Order) : bool :=
  bool_decide (so_Status o ∈ [OrderCreated; OrderDeducting]).

Definition with_status (status : string) (now : Z) (o : Order) : Order :=
  MkOrder (so_ID o) (so_OrderNo o) (so_TenantID o) (so_UserID o) (so_PlanID o) (so_PlanNameSnapshot o)
    (so_PriceMicroUSD o) (so_DurationDaysSnapshot o) (so_TotalLimitMicroSnapshot o)
    (so_Window5hLimitMicroSnapshot o) (so_Window7dLimitMicroSnapshot o)
    (so_GroupQuotaDebitMultipliersSnapshot o) (so_PurchasePolicySnapshot o) (so_InventoryReserved o)
    status (so_DebitReference o) (so_DebitedAt o) (so_SubscriptionID o) (so_FailReason o) (so_PaidAt o)
    (so_CreatedAt o) now.
Definition with_fail_reason (reason : string) (o : Order) : Order :=
  MkOrder (so_ID o) (so_OrderNo o) (so_TenantID o) (so_UserID o) (so_PlanID o) (so_PlanNameSnapshot o)
    (so_PriceMicroUSD o) (so_DurationDaysSnapshot o) (so_TotalLimitMicroSnapshot o)
    (so_Window5hLimitMicroSnapshot o) (so_Window7dLimitMicroSnapshot o)
    (so_GroupQuotaDebitMultipliersSnapshot o) (so_PurchasePolicySnapshot o) (so_InventoryReserved o)
    (so_Status o) (so_DebitReference o) (so_DebitedAt o) (so_SubscriptionID o) (nullif reason) (so_PaidAt o)
    (so_CreatedAt o) (so_UpdatedAt o).
Definition with_debit (ref : option string) (debitedAt : option Z) (now : Z) (o : Order) : Order :=
  MkOrder (so_ID o) (so_OrderNo o) (so_TenantID o) (so_UserID o) (so_PlanID o) (so_PlanNameSnapshot o)
    (so_PriceMicroUSD o) (so_DurationDaysSnapshot o) (so_TotalLimitMicroSnapshot o)
    (so_Window5hLimitMicroSnapshot o) (so_Window7dLimitMicroSnapshot o)
    (so_GroupQuotaDebitMultipliersSnapshot o) (so_PurchasePolicySnapshot o) (so_InventoryReserved o)
    (so_Status o) ref debitedAt (so_SubscriptionID o) (so_FailReason o) (so_PaidAt o)
    (so_CreatedAt o) now.
Definition with_paid (ref subID : string) (now : Z) (o : Order) : Order :=
  MkOrder (so_ID o) (so_OrderNo o) (so_TenantID o) (so_UserID o) (so_PlanID o) (so_PlanNameSnapshot o)
    (so_PriceMicroUSD o) (so_DurationDaysSnapshot o) (so_TotalLimitMicroSnapshot o)
    (so_Window5hLimitMicroSnapshot o) (so_Window7dLimitMicroSnapshot o)
    (so_GroupQuotaDebitMultipliersSnapshot o) (so_PurchasePolicySnapshot o) (so_InventoryReserved o)
    OrderPaid (nullif ref) (Some (default now (so_DebitedAt o))) (Some subID) (so_FailReason o) (Some now)
    (so_CreatedAt o) now.

(** An [UPDATE ai_sub_orders] keyed by id: the affected rows. *)
Definition update_order (id : string) (cond : Order -> bool) (f : Order -> Order) : STx Z :=
  let! db := tx_get in
  match find_key so_ID id (s_orders db) with
  | Some o =>
      if cond o then
        tx_put (set_sub_orders (update_where (has_key so_ID id) f (s_orders db)) db) ;;; tx_ret 1
      else tx_ret 0
  | None => tx_ret 0
  end.

(** The unique index on [debit_reference]. *)
Definition reference_taken (id : string) (ref : option string) (db : sub_db) : bool :=
  match ref with
  | None => false
  | Some _ => existsb (fun o => negb (seq_str (so_ID o) id) && bool_decide (so_DebitReference o = ref))
                (s_orders db)
  end.

Definition MarkOrderDeducting (now : Z) (id : string) : STx bool :=
  let! n := update_order id (fun o => seq_str (so_Status o) OrderCreated) (with_status OrderDeducting now) in
  tx_ret (0 <? n).

Definition MarkOrderFailed (now : Z) (id reason : string) : STx bool :=
  let! db := tx_get in
  match find_key so_ID id (s_orders db) with
  | None => tx_fail ErrSubNoRows
  | Some order =>
      let! n := update_order id order_open (fun o => with_fail_reason reason (with_status OrderFailed now o)) in
      if (0 <? n) && so_InventoryReserved order then
        let! released := ReleasePlanInventory (so_PlanID order) in
        tx_guard (released =? 0) (ErrSubText "failed order inventory reservation is missing") ;;;
        tx_ret (0 <? n)
      else tx_ret (0 <? n)
  end.

(** ** Statements on subscriptions *)

Definition sub_live (tenantID userID : string) (s : Subscription) : bool :=
  seq_str (ss_TenantID s) tenantID && seq_str (ss_UserID s) userID
  && bool_decide (ss_Status s ∈ [SubPending; SubActive]).
(** [GetLiveSubsForUser], [LockLiveSubsForUser] *)
Definition live_subs (tenantID userID : string) (db : sub_db) : list Subscription :=
  order_by (fun a b => ss_CreatedAt a <=? ss_CreatedAt b) (List.filter (sub_live tenantID userID) (s_subs db)).

Definition with_sub_state (status : string) (activated expires : option Z) (s : Subscription) : Subscription :=
  MkSub (ss_ID s) (ss_TenantID s) (ss_UserID s) (ss_PlanID s) (ss_OrderID s) (ss_DurationDays s)
    (ss_TotalLimitMicro s) (ss_Window5hLimitMicro s) (ss_Window7dLimitMicro s) status activated expires
    (ss_TotalUsedMicro s) (ss_Win5hStart s) (ss_Win5hUsedMicro s) (ss_Win7dStart s) (ss_Win7dUsedMicro s)
    (ss_GroupQuotaDebitMultipliers s) (ss_CreatedAt s).
Definition expire_sub (s : Subscription) : Subscription :=
  with_sub_state SubExpired (ss_ActivatedAt s) (ss_ExpiresAt s) s.
Definition days_ns (days : Z) : Z := days * 24 * Hour.
Definition activate_sub (now : Z) (s : Subscription) : Subscription :=
  with_sub_state SubActive (Some now) (Some (now + days_ns (ss_DurationDays s))) s.

(** [status='active' AND expires_at < now()] *)
Definition sub_due (now : Z) (s : Subscription) : bool :=
  seq_str (ss_Status s) SubActive && match ss_ExpiresAt s with Some t => t <? now | None => false end.

Definition update_sub (id : string) (cond : Subscription -> bool) (f : Subscription -> Subscription) : STx Z :=
  let! db := tx_get in
  match find_key ss_ID id (s_subs db) with
  | Some s => if cond s then tx_put (set_subs (update_where (has_key ss_ID id) f (s_subs db)) db) ;;; tx_ret 1
              else tx_ret 0
  | None => tx_ret 0
  end.

Definition ExpireSubscriptionIfDue (now : Z) (id : string) : STx Z :=
  update_sub id (sub_due now) expire_sub.
Definition ActivateSubscription (now : Z) (id : string) : STx Z :=
  update_sub id (fun s => seq_str (ss_Status s) SubPending) (activate_sub now).
Definition ExpireDueSubscriptions (now : Z) : STx Z :=
  let! db := tx_get in
  tx_put (set_subs (update_where (sub_due now) expire_sub (s_subs db)) db) ;;;
  tx_ret (count_where (sub_due now) (s_subs db)).
Definition GetSubscription (id : string) : STx Subscription :=
  let! db := tx_get in
  match find_key ss_ID id (s_subs db) with Some s => tx_ret s | None => tx_fail ErrSubNotFound end.

(** *** Metering: [DebitSubscription]

    Every CASE reads the row as it was before the update. *)
Definition win_flipped (start : option Z) (len now : Z) : bool :=
  match start with None => true | Some t => t + len <=? now end.
Definition win_next (limit start : option Z) (used len now micro : Z) : option Z * Z :=
  match limit with
  | None => (start, used)
  | Some _ => if win_flipped start len now then (Some now, micro) else (start, used + micro)
  end.
Definition window5h : Z := 5 * Hour.
Definition window7d : Z := 7 * 24 * Hour.
Definition debit_sub (now micro : Z) (s : Subscription) : Subscription :=
  let '(st5, u5) := win_next (ss_Window5hLimitMicro s) (ss_Win5hStart s) (ss_Win5hUsedMicro s) window5h now micro in
  let '(st7, u7) := win_next (ss_Window7dLimitMicro s) (ss_Win7dStart s) (ss_Win7dUsedMicro s) window7d now micro in
  MkSub (ss_ID s) (ss_TenantID s) (ss_UserID s) (ss_PlanID s) (ss_OrderID s) (ss_DurationDays s)
    (ss_TotalLimitMicro s) (ss_Window5hLimitMicro s) (ss_Window7dLimitMicro s) (ss_Status s)
    (ss_ActivatedAt s) (ss_ExpiresAt s) (ss_TotalUsedMicro s + micro) st5 u5 st7 u7
    (ss_GroupQuotaDebitMultipliers s) (ss_CreatedAt s).
Definition sub_counters_ok (s : Subscription) : bool :=
  let ok z := (0 <=? z) && (z <=? int64_max) in
  ok (ss_TotalUsedMicro s) && ok (ss_Win5hUsedMicro s) && ok (ss_Win7dUsedMicro s).
Definition Debit (now : Z) (id : string) (micro : Z) : STx Z :=
  let! db := tx_get in
  match find_key ss_ID id (s_subs db) with
  | None => tx_fail ErrSubNotFound
  | Some s =>
      let s' := debit_sub now micro s in
      tx_guard (negb (sub_counters_ok s')) (ErrSubSQL "counter out of range") ;;;
      tx_put (set_subs (update_where (has_key ss_ID id) (debit_sub now micro) (s_subs db)) db) ;;;
      tx_ret (ss_TotalUsedMicro s')
  end.
Definition DebitAdmitted (now : Z) (id : string) (micro : Z) : STx unit :=
  if micro <=? 0 then tx_ret tt else Debit now id micro ;;; tx_ret tt.

(** ** Transaction programs

    A service call outside a transaction: each [Call] is one transaction, run
    against the database of that moment with its time and a fresh UUID; its
    result, an error included, is handed to the continuation. *)

Record env := MkEnv { e_now : Z; e_uuid : string }.

Inductive txprog (A : Type) : Type :=
| Done (a : A)
| Call {R : Type} (m : env -> STx R) (k : result sub_error R -> txprog A).
Arguments Done {A} a.
Arguments Call {A R} m k.

(** Run alone, transaction [i] in the environment [es] gives for it. *)
Fixpoint run_prog {A} (es : nat -> env) (p : txprog A) (db : sub_db) : A * sub_db :=
  match p with
  | Done a => (a, db)
  | Call m k => let '(db', r) := run_tx (m (es O)) db in run_prog (fun i => es (S i)) (k r) db'
  end.

Fixpoint prog_bind {A B} (p : txprog A) (q : A -> txprog B) : txprog B :=
  match p with
  | Done a => q a
  | Call m k => Call m (fun r => prog_bind (k r) q)
  end.

(** ** Purchase *)

Record PurchaseParams := MkPurchaseParams {
  pu_TenantID : string;
  pu_UserID : string;
  pu_PlanID : string;
  pu_IdempotencyKey : string }.

(** The policy as the order's JSON snapshot keeps it: its own timestamps are
    not serialised. *)
Definition policy_snapshot (p : PurchasePolicy) : PurchasePolicy :=
  let q := NormalizePurchasePolicy p in
  MkPurchasePolicy (LifetimeMaxPurchases q) (PeriodType q) (PeriodMaxPurchases q) (RollingWindowHours q)
    (CalendarUnit q) (CalendarTimezone q) (AllowAdvancePurchase q) (Version q) zero_time zero_time.

(** CHECK constraints of [ai_sub_orders] that the snapshot must satisfy. *)
Definition order_row_check (o : Order) : bool :=
  (0 <? so_PriceMicroUSD o) && (0 <? so_DurationDaysSnapshot o) && (0 <? so_TotalLimitMicroSnapshot o)
  && match so_Window5hLimitMicroSnapshot o with
     | Some w => (0 <? w) && (w <=? so_TotalLimitMicroSnapshot o) | None => true end
  && match so_Window7dLimitMicroSnapshot o with
     | Some w => (0 <? w) && (w <=? so_TotalLimitMicroSnapshot o) && (7 <=? so_DurationDaysSnapshot o)
     | None => true end
  && match so_GroupQuotaDebitMultipliersSnapshot o with [] => false | _ => true end
  && (0 <? Version (so_PurchasePolicySnapshot o)).

Definition createOrder (now : Z) (uuid orderNo : string) (p : PurchaseParams) (plan : Plan)
    (groups : list PlanGroup) (policy : PurchasePolicy) (inventoryReserved : bool) : STx Order :=
  let o := MkOrder uuid orderNo (pu_TenantID p) (pu_UserID p) (pl_ID plan) (pl_Name plan)
    (pl_PriceMicroUSD plan) (pl_DurationDays plan) (pl_TotalLimitMicro plan)
    (pl_Window5hLimitMicro plan) (pl_Window7dLimitMicro plan)
    ((fun g => (pg_GroupID g, pg_QuotaDebitMultiplier g)) <$> groups)
    (policy_snapshot policy) inventoryReserved OrderCreated None None None None None now now in
  let! db := tx_get in
  tx_guard (bool_decide (so_ID o ∈ (so_ID <$> s_orders db))
            || bool_decide (so_OrderNo o ∈ (so_OrderNo <$> s_orders db))) (ErrSubSQL "duplicate order") ;;;
  tx_guard (negb (order_row_check o)) (ErrSubSQL "ai_sub_orders check") ;;;
  tx_put (set_sub_orders (s_orders db ++ [o]) db) ;;;
  tx_ret o.

Record purchaseUserState := MkUserState {
  us_now : Z;
  us_live : list Subscription;
  us_openPlanIDs : list string;
  us_paid : list (string * Z) }.

(** The index loop shared by [advanceLiveSubscriptions] and
    [classifyLiveSubscriptions]: the last active row and the first pending one. *)
Definition classify (live : list Subscription) : option Subscription * option Subscription :=
  fold_left (fun '(active, pending) s =>
      if seq_str (ss_Status s) SubActive then (Some s, pending)
      else if seq_str (ss_Status s) SubPending then
        (active, match pending with None => Some s | Some _ => pending end)
      else (active, pending)) live (None, None).

Definition advanceLiveSubscriptions (now : Z) (tenantID userID : string) : STx (list Subscription) :=
  let! db := tx_get in
  let rows := live_subs tenantID userID db in
  let '(active, pending) := classify rows in
  let! expired :=
    match active with
    | Some a => if negb (is_nil (ss_ExpiresAt a)) then ExpireSubscriptionIfDue now (ss_ID a) else tx_ret 0
    | None => tx_ret 0
    end in
  let no_active := match active with Some _ => 0 <? expired | None => true end in
  let! activated :=
    match pending with
    | Some p => if no_active then ActivateSubscription now (ss_ID p) else tx_ret 0
    | None => tx_ret 0
    end in
  let! db' := tx_get in
  tx_ret (if (0 <? expired) || (0 <? activated) then live_subs tenantID userID db' else rows).

Definition order_of_user (tenantID userID : string) (o : Order) : bool :=
  seq_str (so_TenantID o) tenantID && seq_str (so_UserID o) userID.

Definition loadPurchaseUserState (now : Z) (tenantID userID : string) (planIDs : list string)
    : STx purchaseUserState :=
  let! live := advanceLiveSubscriptions now tenantID userID in
  let! db := tx_get in
  let mine := List.filter (order_of_user tenantID userID) (s_orders db) in
  tx_ret (MkUserState now live (so_PlanID <$> List.filter order_open mine)
    ((fun o => (so_PlanID o, so_CreatedAt o)) <$>
       order_by (fun a b => so_CreatedAt a <=? so_CreatedAt b)
         (List.filter (fun o => seq_str (so_Status o) OrderPaid
                                && bool_decide (so_PlanID o ∈ planIDs)) mine))).

Definition purchaseFactsForPlan (st : purchaseUserState) (planID : string) (maxQueue : Z) : PurchaseFacts :=
  let same := List.filter (fun s => seq_str (ss_PlanID s) planID) (us_live st) in
  MkPurchaseFacts (us_now st)
    (snd <$> List.filter (fun x => seq_str (fst x) planID) (us_paid st))
    (Z.of_nat (length (us_openPlanIDs st)))
    (existsb (fun id => seq_str id planID) (us_openPlanIDs st))
    (Z.of_nat (length (us_live st)))
    (existsb (fun s => seq_str (ss_Status s) SubPending) same)
    (fold_left (fun acc s => if seq_str (ss_Status s) SubActive then ss_ExpiresAt s else acc) same None)
    maxQueue.

(** A denial commits (the lazy expiry and activation stay), so it is a value of
    the transaction and not its error. *)
Inductive reservation := Reserved (order : Order) (replayed : bool) | Denied (d : PurchaseDecision).

Section Zones.
Context (LoadLocation : string -> option Location).

Definition EvaluatePlansForUser (now : Z) (tenantID userID : string) (plans : list (string * PurchasePolicy))
    (maxQueue : Z) : STx (list (string * PurchaseDecision)) :=
  let! st := loadPurchaseUserState now tenantID userID (fst <$> plans) in
  tx_fold (fun acc '(id, policy) =>
      match EvaluatePurchaseEligibility LoadLocation policy (purchaseFactsForPlan st id maxQueue) with
      | Err e => tx_fail (ErrPolicy e)
      | Ok d => tx_ret (acc ++ [(id, d)])
      end) plans [].

Definition ReservePurchase (now : Z) (uuid orderNo : string) (p : PurchaseParams) (maxQueue : Z)
    : STx reservation :=
  let! db := tx_get in
  match find_key so_OrderNo orderNo (s_orders db) with
  | Some existing =>
      tx_guard (negb (seq_str (so_TenantID existing) (pu_TenantID p))
                || negb (seq_str (so_UserID existing) (pu_UserID p))
                || negb (seq_str (so_PlanID existing) (pu_PlanID p))) ErrIdempotencyConflict ;;;
      tx_ret (Reserved existing true)
  | None =>
      match find_key pl_ID (pu_PlanID p) (s_plans db) with
      | None => tx_fail ErrPlanNotFound
      | Some plan =>
          tx_guard (negb (seq_str (pl_TenantID plan) (pu_TenantID p))) ErrPlanForbidden ;;;
          tx_guard (negb (seq_str (pl_Status plan) PlanOnSale)) ErrPlanNotOnSale ;;;
          let groups := loadPlanGroups (pl_ID plan) db in
          match GetPlanPurchasePolicy (pl_ID plan) db with
          | None => tx_fail ErrSubNoRows
          | Some policy =>
              tx_guard (CountUserAccessiblePlanGroups (pl_ID plan) (pu_TenantID p) (pu_UserID p) db =? 0)
                ErrPlanNotAccessible ;;;
              let! st := loadPurchaseUserState now (pu_TenantID p) (pu_UserID p) [pu_PlanID p] in
              match EvaluatePurchaseEligibility LoadLocation policy
                      (purchaseFactsForPlan st (pu_PlanID p) maxQueue) with
              | Err e => tx_fail (ErrPolicy e)
              | Ok decision =>
                  if negb (Allowed decision) then tx_ret (Denied decision)
                  else
                    let! reserved := ReservePlanInventory (pl_ID plan) in
                    tx_guard (reserved =? 0) ErrPlanSoldOut ;;;
                    let! order := createOrder now uuid orderNo p plan groups policy true in
                    tx_ret (Reserved order false)
              end
          end
      end
  end.
End Zones.

(** *** The strict debit: [BillingPurchaser.DebitStrict] *)

Record DebitRequest := MkDebitRequest {
  dr_IdempotencyKey : string;
  dr_TenantID : string;
  dr_UserID : string;
  dr_TenantMicro : Z;
  dr_UserMicro : Z }.

Definition mapLedgerError (e : ledger_error) : sub_error :=
  match e with
  | ErrInsufficientBalance _ => ErrSubInsufficientBalance
  | _ => ErrSubLedger e
  end.
Definition on_sub_ledger {A} (m : LTx A) : STx A :=
  tx_zoom s_ledger set_sub_ledger (tx_map_err mapLedgerError m).

Definition keyPrefix : string := "ai-sub-".
Definition debit_reference_of (orderNo : string) : string := ("subscription:" +:+ orderNo)%string.
#[global] Arguments debit_reference_of : simpl never.

Definition DebitStrict (now : Z) (req : DebitRequest) : STx string :=
  tx_guard (seq_str (dr_IdempotencyKey req) "")
    (ErrSubText "subscription debit requires an idempotency key") ;;;
  tx_guard (seq_str (dr_TenantID req) "") (ErrSubText "subscription debit requires a tenant id") ;;;
  tx_guard ((dr_TenantMicro req <? 0) || (dr_UserMicro req <? 0))
    (ErrSubText "subscription debit amounts must not be negative") ;;;
  let orderNo := TrimPrefix (dr_IdempotencyKey req) keyPrefix in
  tx_guard (seq_str orderNo "" || seq_str orderNo (dr_IdempotencyKey req))
    (ErrSubText "subscription debit idempotency key has invalid format") ;;;
  let! db := tx_get in
  match find_key so_OrderNo orderNo (s_orders db) with
  | None => tx_fail (ErrSubText "subscription order not found")
  | Some o =>
      tx_guard (negb (seq_str (so_TenantID o) (dr_TenantID req))
                || negb (seq_str (so_UserID o) (dr_UserID req)))
        (ErrSubText "subscription debit order ownership mismatch") ;;;
      let existing := default ""%string (so_DebitReference o) in
      if negb (seq_str existing "") then tx_ret existing
      else
        tx_guard (negb (seq_str (so_Status o) OrderDeducting) && negb (seq_str (so_Status o) OrderCreated))
          (ErrSubText "subscription order is not debitable") ;;;
        (if 0 <? dr_TenantMicro req
         then on_sub_ledger (ChargeIfFunded (MkRef KindTenant (dr_TenantID req) (dr_TenantID req)) (dr_TenantMicro req))
         else tx_ret tt) ;;;
        (if 0 <? dr_UserMicro req
         then tx_guard (seq_str (dr_UserID req) "") (ErrSubText "subscription user debit requires a user id") ;;;
              on_sub_ledger (ChargeIfFunded (MkRef KindUser (dr_UserID req) (dr_TenantID req)) (dr_UserMicro req))
         else tx_ret tt) ;;;
        let ref := debit_reference_of orderNo in
        let! db1 := tx_get in
        tx_guard (is_nil (so_DebitReference o) && reference_taken (so_ID o) (Some ref) db1) (ErrSubSQL "uq_ai_sub_orders_debit_reference") ;;;
        update_order (so_ID o) (fun o => is_nil (so_DebitReference o)) (with_debit (Some ref) (Some now) now) ;;;
        tx_ret ref
  end.

(** *** Opening the subscription: [FinalizeOrder] *)

Definition createSubscription (now : Z) (uuid : string) (cur : Order) (status : string) : STx Subscription :=
  let active := seq_str status SubActive in
  let s := MkSub uuid (so_TenantID cur) (so_UserID cur) (so_PlanID cur) (so_ID cur)
    (so_DurationDaysSnapshot cur) (so_TotalLimitMicroSnapshot cur) (so_Window5hLimitMicroSnapshot cur)
    (so_Window7dLimitMicroSnapshot cur) status
    (if active then Some now else None)
    (if active then Some (now + days_ns (so_DurationDaysSnapshot cur)) else None)
    0 None 0 None 0 (so_GroupQuotaDebitMultipliersSnapshot cur) now in
  let! db := tx_get in
  tx_guard (bool_decide (ss_ID s ∈ (ss_ID <$> s_subs db))
            || bool_decide (ss_OrderID s ∈ (ss_OrderID <$> s_subs db))) (ErrSubSQL "duplicate subscription") ;;;
  tx_put (set_subs (s_subs db ++ [s]) db) ;;;
  tx_ret s.

Definition MarkOrderPaid (now : Z) (id ref subID : string) : STx Z :=
  let! db := tx_get in
  tx_guard (reference_taken id (nullif ref) db) (ErrSubSQL "uq_ai_sub_orders_debit_reference") ;;;
  update_order id order_open (with_paid ref subID now).

Definition FinalizeOrder (now : Z) (uuid orderID debitReference : string) : STx Subscription :=
  let! db := tx_get in
  match find_key so_ID orderID (s_orders db) with
  | None => tx_fail ErrSubNoRows
  | Some cur =>
      if seq_str (so_Status cur) OrderPaid then
        match so_SubscriptionID cur with
        | None => tx_fail (ErrSubText "paid order missing subscription id")
        | Some id => match find_key ss_ID id (s_subs db) with
                     | Some s => tx_ret s
                     | None => tx_fail ErrSubNoRows
                     end
        end
      else
        let live := live_subs (so_TenantID cur) (so_UserID cur) db in
        let status := if existsb (fun s => seq_str (ss_Status s) SubActive) live then SubPending else SubActive in
        let! sub := createSubscription now uuid cur status in
        let! n := MarkOrderPaid now (so_ID cur) debitReference (ss_ID sub) in
        tx_guard (n =? 0) (ErrSubText "finalize: mark order paid affected 0 rows") ;;;
        (if so_InventoryReserved cur then
           let! committed := CommitPlanInventorySale (so_PlanID cur) in
           tx_guard (committed =? 0) (ErrSubText "finalize: inventory reservation is missing")
         else tx_ret tt) ;;;
        tx_ret sub
  end.

(** *** [Service.Purchase] *)

Inductive purchase_outcome :=
| Bought (order : Order) (sub : Subscription)
| NotBought (order : option Order) (e : sub_error).

Definition debit_request_of (order : Order) (tenantID userID : string) : DebitRequest :=
  MkDebitRequest (keyPrefix +:+ so_OrderNo order)%string tenantID userID 0 (so_PriceMicroUSD order).

Section Purchase.
Context (LoadLocation : string -> option Location).
(** [purchaseOrderNo]: "SUBI" and 32 hex digits of a SHA-256. *)
Context (purchaseOrderNo : PurchaseParams -> string).
Context (maxQueue : Z).

(** From the debit on. *)
Definition purchase_debit (p : PurchaseParams) (order : Order) : txprog purchase_outcome :=
  Call (fun e => DebitStrict (e_now e) (debit_request_of order (pu_TenantID p) (pu_UserID p))) (fun r =>
    match r with
    | Err ErrSubInsufficientBalance =>
        Call (fun e => MarkOrderFailed (e_now e) (so_ID order) "insufficient_balance")
          (fun _ => Done (NotBought None ErrSubInsufficientBalance))
    | Err _ => Done (NotBought (Some order) ErrOrderProcessing)
    | Ok ref =>
        Call (fun e => FinalizeOrder (e_now e) (e_uuid e) (so_ID order) ref) (fun r =>
          match r with
          | Err _ => Done (NotBought (Some order) ErrOrderProcessing)
          | Ok sub =>
              Call (fun _ db => match find_key so_ID (so_ID order) (s_orders db) with
                                | Some o => Ok (o, db) | None => Err ErrSubNoRows end)
                (fun r => Done (Bought (match r with Ok paid => paid | Err _ => order end) sub))
          end)
    end).

Definition Purchase (p : PurchaseParams) : txprog purchase_outcome :=
  if seq_str (pu_IdempotencyKey p) ""
  then Done (NotBought None (ErrSubText "subscription: idempotency key is required"))
  else
    Call (fun e => ReservePurchase LoadLocation (e_now e) (e_uuid e) (purchaseOrderNo p) p maxQueue) (fun r =>
      match r with
      | Err e => Done (NotBought None e)
      | Ok (Denied d) => Done (NotBought None (ErrPurchaseDenied d))
      | Ok (Reserved order replayed) =>
          let go :=
            if so_PriceMicroUSD order <=? 0 then Done (NotBought None ErrPlanQuotaInvalid)
            else Call (fun e => MarkOrderDeducting (e_now e) (so_ID order)) (fun r =>
                   match r with
                   | Err e => Done (NotBought None e)
                   | Ok _ => purchase_debit p order
                   end) in
          if replayed then
            if seq_str (so_Status order) OrderPaid then
              Call (fun _ => GetSubscription (default ""%string (so_SubscriptionID order))) (fun r =>
                match r with
                | Ok sub => Done (Bought order sub)
                | Err e => Done (NotBought (Some order) e)
                end)
            else if order_open order then Done (NotBought (Some order) ErrOrderProcessing)
            else if seq_str (so_Status order) OrderFailed then
              if bool_decide (so_FailReason order = Some "insufficient_balance"%string)
              then Done (NotBought None ErrSubInsufficientBalance)
              else Done (NotBought (Some order) ErrOrderProcessing)
            else go
          else go
      end).
End Purchase.

(** ** The janitor *)

(** [reconcileOrder]: the order is the row [ListReconcileOrders] returned. *)
Definition reconcileOrder (order : Order) : txprog unit :=
  if so_PriceMicroUSD order <=? 0
  then Call (fun e => MarkOrderFailed (e_now e) (so_ID order) "invalid_price") (fun _ => Done tt)
  else
    Call (fun e => DebitStrict (e_now e) (debit_request_of order (so_TenantID order) (so_UserID order))) (fun r =>
      match r with
      | Err ErrSubInsufficientBalance =>
          Call (fun e => MarkOrderFailed (e_now e) (so_ID order) "insufficient_balance") (fun _ => Done tt)
      | Err _ => Done tt
      | Ok ref => Call (fun e => FinalizeOrder (e_now e) (e_uuid e) (so_ID order) ref) (fun _ => Done tt)
      end).

Definition ListReconcileOrders (cutoff limit : Z) (db : sub_db) : list Order :=
  take (Z.to_nat limit) (order_by (fun a b => so_UpdatedAt a <=? so_UpdatedAt b)
    (List.filter (fun o => order_open o && (so_UpdatedAt o <? cutoff)) (s_orders db))).

Definition reconcileCutoff : Z := 60 * Second.
Definition reconcileLimit : Z := 32.

(** [sweepOnce]; [app_now] is the janitor's own clock. *)
Definition sweepOnce (app_now : Z) : txprog unit :=
  Call (fun e => ExpireDueSubscriptions (e_now e)) (fun _ =>
  Call (fun _ db => Ok (ListReconcileOrders (app_now - reconcileCutoff) reconcileLimit db, db)) (fun r =>
    match r with
    | Err _ => Done tt
    | Ok orders => foldr (fun o rest => prog_bind (reconcileOrder o) (fun _ => rest)) (Done tt) orders
    end)).

(** ** The gate *)

Definition read_live (tenantID userID : string) : env -> STx (list Subscription) :=
  fun _ db => Ok (live_subs tenantID userID db, db).

Definition first_active (live : list Subscription) : option Subscription :=
  List.find (fun s => seq_str (ss_Status s) SubActive) live.

(** The second half of [resolveActive]: activate the earliest pending one. *)
Definition resolve_activate (tenantID userID : string) (active pending : option Subscription)
    : txprog (result sub_error (option Subscription)) :=
  match active, pending with
  | None, Some p =>
      Call (fun e => ActivateSubscription (e_now e) (ss_ID p)) (fun r =>
        match r with
        | Err e => Done (Err e)
        | Ok n =>
            if 0 <? n then
              Call (fun _ => GetSubscription (ss_ID p)) (fun r =>
                match r with
                | Err e => Done (Err e)
                | Ok s => Done (Ok (if seq_str (ss_Status s) SubActive then Some s else None))
                end)
            else
              Call (read_live tenantID userID) (fun r =>
                match r with
                | Err e => Done (Err e)
                | Ok refreshed => Done (Ok (first_active refreshed))
                end)
        end)
  | _, _ => Done (Ok active)
  end.

(** [resolveActive]; [app_now] is [time.Now()] of the gate. *)
Definition resolveActive (app_now : Z) (tenantID userID : string)
    : txprog (result sub_error (option Subscription)) :=
  Call (read_live tenantID userID) (fun r =>
    match r with
    | Err e => Done (Err e)
    | Ok live =>
        let '(active, pending) := classify live in
        match active with
        | Some a =>
            if match ss_ExpiresAt a with Some t => t <? app_now | None => false end then
              Call (fun e => ExpireSubscriptionIfDue (e_now e) (ss_ID a)) (fun r =>
                match r with
                | Err e => Done (Err e)
                | Ok n =>
                    if 0 <? n then resolve_activate tenantID userID None pending
                    else
                      Call (read_live tenantID userID) (fun r =>
                        match r with
                        | Err e => Done (Err e)
                        | Ok refreshed =>
                            let '(active, pending) := classify refreshed in
                            resolve_activate tenantID userID active pending
                        end)
                end)
            else resolve_activate tenantID userID active pending
        | None => resolve_activate tenantID userID active pending
        end
    end).

(** [windowHasRemaining] *)
Definition windowHasRemaining (limit start : option Z) (used dur now : Z) : bool :=
  match limit with
  | None => true
  | Some l =>
      if match start with None => true | Some t => t + dur <? now end then 0 <? l
      else 0 <? wrap64 (l - used)
  end.

Definition hasRemaining (s : Subscription) (now : Z) : bool :=
  if wrap64 (ss_TotalLimitMicro s - ss_TotalUsedMicro s) <=? 0 then false
  else windowHasRemaining (ss_Window5hLimitMicro s) (ss_Win5hStart s) (ss_Win5hUsedMicro s) window5h now
       && windowHasRemaining (ss_Window7dLimitMicro s) (ss_Win7dStart s) (ss_Win7dUsedMicro s) window7d now.

Record GateDecision := MkGate {
  gate_Covered : bool;
  gate_SubscriptionID : string;
  gate_GroupQuotaDebitMultipliers : list (string * Z) }.

(** What [ResolveForGate] answers once [resolveActive] returned; [app_now] is
    its second reading of the clock. *)
Definition gate_of (app_now : Z) (active : option Subscription) : GateDecision :=
  match active with
  | None => MkGate false "" []
  | Some s => MkGate (hasRemaining s app_now) (ss_ID s) (ss_GroupQuotaDebitMultipliers s)
  end.

Definition ResolveForGate (app_now app_now2 : Z) (tenantID userID : string)
    : txprog (result sub_error GateDecision) :=
  prog_bind (resolveActive app_now tenantID userID) (fun r =>
    Done match r with Ok active => Ok (gate_of app_now2 active) | Err e => Err e end).
