(* ===== verification/SubscriptionFacts.v ===== *)
(** * The subscription invariant

    What every state of the subscription tables satisfies ([sub_ok]), what every
    committed transaction leaves true of earlier ones ([sub_trans]), and the proof
    that each transaction of the component keeps both. *)

From S2P Require Import Prelude GoStrings CivilTime PurchasePolicy PurchasePolicyProps Ledger LedgerFacts LedgerProps Subscription.

(** ** The invariant *)

(** What a subscription is an instance of: fixed once it is created. *)
Definition sub_ident (s : Subscription) :=
  (ss_ID s, ss_OrderID s, (ss_TenantID s, ss_UserID s, ss_PlanID s),
   (ss_DurationDays s, ss_TotalLimitMicro s, ss_Window5hLimitMicro s, ss_Window7dLimitMicro s)).
(** The entitlement an order's snapshot promises. *)
Definition order_ident (subID : string) (o : Order) :=
  (subID, so_ID o, (so_TenantID o, so_UserID o, so_PlanID o),
   (so_DurationDaysSnapshot o, so_TotalLimitMicroSnapshot o, so_Window5hLimitMicroSnapshot o,
    so_Window7dLimitMicroSnapshot o)).

Definition order_paid (o : Order) : bool := seq_str (so_Status o) OrderPaid.
Definition held_by (plan : string) (o : Order) : bool :=
  order_open o && so_InventoryReserved o && seq_str (so_PlanID o) plan.
Definition sold_by (plan : string) (o : Order) : bool :=
  order_paid o && so_InventoryReserved o && seq_str (so_PlanID o) plan.

(** The plan counters are exactly the open and the paid reservations. *)
Definition inventory_ok (plans : list Plan) (orders : list Order) : Prop :=
  forall p, p ∈ plans ->
    pl_ReservedCount p = count_where (held_by (pl_ID p)) orders /\
    pl_SoldCount p = count_where (sold_by (pl_ID p)) orders /\ plan_inventory_ok p = true.

Record orders_ok (orders : list Order) : Prop := {
  oo_ids : NoDup (so_ID <$> orders);
  oo_nos : NoDup (so_OrderNo <$> orders);
  oo_prices : forall o, o ∈ orders -> 0 < so_PriceMicroUSD o;
  oo_refs : forall o r, o ∈ orders -> so_DebitReference o = Some r ->
    r = debit_reference_of (so_OrderNo o) }.

(** Paid orders and subscriptions are the two halves of one sale: each paid
    order was debited and names its subscription, each subscription carries the
    snapshot of its paid order. *)
Record sales_ok (orders : list Order) (subs : list Subscription) : Prop := {
  sa_ids : NoDup (ss_ID <$> subs);
  sa_orders : NoDup (ss_OrderID <$> subs);
  sa_paid : forall o, o ∈ orders -> so_Status o = OrderPaid ->
    exists id r, so_SubscriptionID o = Some id /\ so_DebitReference o = Some r /\
      order_ident id o ∈ (sub_ident <$> subs);
  sa_subs : forall s, s ∈ subs -> exists o, o ∈ orders /\ so_Status o = OrderPaid /\
      so_SubscriptionID o = Some (ss_ID s) /\ sub_ident s = order_ident (ss_ID s) o }.

Record sub_ok (db : sub_db) : Prop := {
  so_orders : orders_ok (s_orders db);
  so_sales : sales_ok (s_orders db) (s_subs db);
  so_plan_ids : NoDup (pl_ID <$> s_plans db);
  so_plan_refs : forall o, o ∈ s_orders db -> so_PlanID o ∈ (pl_ID <$> s_plans db);
  so_inventory : inventory_ok (s_plans db) (s_orders db);
  so_ledger_ok : ledger_ok (s_ledger db) }.

(** ** What transactions preserve *)

Definition order_key (o : Order) :=
  (so_ID o, so_OrderNo o, (so_TenantID o, so_UserID o, so_PlanID o), so_PriceMicroUSD o,
   so_InventoryReserved o).

Definition order_evolves (o o' : Order) : Prop :=
  order_key o' = order_key o /\
  (forall r, so_DebitReference o = Some r -> so_DebitReference o' = Some r) /\
  (order_open o = false -> so_Status o' = so_Status o).

Definition user_balance (db : sub_db) (u : string) : Z := default 0 (balances_of (s_ledger db) !! u).
(** The prices of the user's debited orders. *)
Definition debited_price (u : string) (o : Order) : Z :=
  if seq_str (so_UserID o) u && negb (is_nil (so_DebitReference o)) then so_PriceMicroUSD o else 0.
Definition debited (orders : list Order) (u : string) : Z := sumZ (debited_price u) orders.

Definition orders_evolve (db db' : sub_db) : Prop :=
  forall o, o ∈ s_orders db -> exists o', o' ∈ s_orders db' /\ order_evolves o o'.

Record sub_trans (db db' : sub_db) : Prop := {
  st_orders : orders_evolve db db';
  st_money : forall u, user_balance db' u + debited (s_orders db') u
                     = user_balance db u + debited (s_orders db) u }.

Lemma order_evolves_refl o : order_evolves o o.
Proof. done. Qed.

Lemma order_evolves_trans o1 o2 o3 : order_evolves o1 o2 -> order_evolves o2 o3 -> order_evolves o1 o3.
Proof.
  intros (K1 & R1 & C1) (K2 & R2 & C2). split; [congruence|]. split; [eauto|].
  intros Hc. pose proof (C1 Hc) as Hs. rewrite C2; [done|].
  unfold order_open in *. by rewrite Hs.
Qed.

#[global] Instance orders_evolve_preorder : PreOrder orders_evolve.
Proof.
  split.
  - intros db o Ho. exists o. by split.
  - intros a b c O1 O2 o Ho. destruct (O1 o Ho) as (o1 & Ho1 & E1). destruct (O2 o1 Ho1) as (o2 & Ho2 & E2).
    exists o2. split; [done|]. by eapply order_evolves_trans.
Qed.

#[global] Instance sub_trans_preorder : PreOrder sub_trans.
Proof.
  split.
  - intros db. by split.
  - intros a b c [O1 M1] [O2 M2]. split; [by etransitivity | intros u; by rewrite M2].
Qed.

Create HintDb sub_safe.

(** A transaction is safe when it keeps the invariant and its commits are
    transitions. *)
Definition safe {A} (m : STx A) : Prop :=
  forall db a db', sub_ok db -> m db = Ok (a, db') -> sub_ok db' /\ sub_trans db db'.

Lemma safe_bind {A B} (m : STx A) (k : A -> STx B) :
  safe m -> (forall a, safe (k a)) -> safe (tx_bind m k).
Proof.
  intros Hm Hk db b db' Hok H. apply tx_bind_ok in H as (a & d & H1 & H2).
  destruct (Hm _ _ _ Hok H1) as [Hok1 T1]. destruct (Hk a _ _ _ Hok1 H2) as [Hok2 T2].
  split; [done|]. by etransitivity.
Qed.

Lemma safe_same {A} (m : STx A) :
  (forall db a db', m db = Ok (a, db') -> db' = db) -> safe m.
Proof. intros H db a db' Hok Hrun. apply H in Hrun as ->. by split. Qed.

Lemma safe_ret {A} (a : A) : safe (tx_ret a).
Proof. apply safe_same. intros db x db' H. by tx_inv H. Qed.
Lemma safe_get : safe tx_get.
Proof. apply safe_same. intros db x db' H. by tx_inv H. Qed.
Lemma safe_fail {A} e : safe (A := A) (tx_fail e).
Proof. intros db a db' _ H. discriminate H. Qed.
Lemma safe_guard b e : safe (tx_guard b e).
Proof. destruct b; [apply safe_fail | apply safe_ret]. Qed.
#[export] Hint Resolve safe_ret safe_get safe_fail safe_guard : sub_safe.

(** Changes to subscriptions that keep every identity. *)
Lemma sub_ok_idents db subs :
  sub_ident <$> subs = sub_ident <$> s_subs db -> sub_ok db ->
  sub_ok (set_subs subs db) /\ sub_trans db (set_subs subs db).
Proof.
  intros Hid [Ho [Ha1 Ha2 Ha3 Ha4] Hp Hpr Hi Hl]. split; [|split; [|done]].
  2:{ intros o Hin. exists o. split; [done | apply order_evolves_refl]. }
  assert (Hfst : ss_ID <$> subs = ss_ID <$> s_subs db).
  { apply (f_equal (fmap (fun i => i.1.1.1))) in Hid. by rewrite <- !list_fmap_compose in Hid. }
  assert (Hsnd : ss_OrderID <$> subs = ss_OrderID <$> s_subs db).
  { apply (f_equal (fmap (fun i => i.1.1.2))) in Hid. by rewrite <- !list_fmap_compose in Hid. }
  split; simpl; try done. split.
  - by rewrite Hfst.
  - by rewrite Hsnd.
  - by rewrite Hid.
  - intros s Hs. apply (list_elem_of_fmap_2 sub_ident) in Hs as Hin. rewrite Hid in Hin.
    apply list_elem_of_fmap in Hin as (s0 & Heq & Hs0). destruct (Ha4 s0 Hs0) as (o & Hin & Hpd & Hsid & Hio).
    exists o. assert (ss_ID s = ss_ID s0) as Hss by (unfold sub_ident in Heq; congruence).
    rewrite Hss. split; [done|]. split; [done|]. split; [done|]. congruence.
Qed.

(** ** Single-row updates *)

Lemma update_sub_run id cond f db n db' :
  update_sub id cond f db = Ok (n, db') ->
  (n = 0 /\ db' = db) \/
  (exists s, find_key ss_ID id (s_subs db) = Some s /\ cond s = true /\ n = 1 /\
     db' = set_subs (update_where (has_key ss_ID id) f (s_subs db)) db).
Proof.
  unfold update_sub. intros H. tx_inv H; [right | by left..]. by eexists.
Qed.

Lemma update_where_idents (p : Subscription -> bool) f l :
  (forall s, sub_ident (f s) = sub_ident s) -> sub_ident <$> update_where p f l = sub_ident <$> l.
Proof. intros Hf. by apply (keys_update_where sub_ident). Qed.

Lemma safe_update_sub id cond f :
  (forall s, sub_ident (f s) = sub_ident s) -> safe (update_sub id cond f).
Proof.
  intros Hf db n db' Hok H. apply update_sub_run in H as [[_ ->] | (s & _ & _ & _ & ->)]; [by split|].
  apply sub_ok_idents; [by apply update_where_idents | done].
Qed.

Lemma safe_ExpireSubscriptionIfDue now id : safe (ExpireSubscriptionIfDue now id).
Proof. by apply safe_update_sub. Qed.
Lemma safe_ActivateSubscription now id : safe (ActivateSubscription now id).
Proof. by apply safe_update_sub. Qed.
Lemma safe_ExpireDueSubscriptions now : safe (ExpireDueSubscriptions now).
Proof.
  intros db n db' Hok H. unfold ExpireDueSubscriptions in H. tx_inv H.
  apply sub_ok_idents; [by apply update_where_idents | done].
Qed.
Lemma debit_sub_ident now micro s : sub_ident (debit_sub now micro s) = sub_ident s.
Proof.
  unfold debit_sub. destruct (win_next _ _ _ window5h _ _), (win_next _ _ _ window7d _ _). done.
Qed.
Lemma safe_Debit now id micro : safe (Debit now id micro).
Proof.
  intros db n db' Hok H. unfold Debit in H. tx_inv H.
  apply sub_ok_idents; [|done]. apply update_where_idents. intros x. apply debit_sub_ident.
Qed.
Lemma safe_DebitAdmitted now id micro : safe (DebitAdmitted now id micro).
Proof.
  unfold DebitAdmitted. destruct (_ <=? _); [apply safe_ret|].
  apply safe_bind; [apply safe_Debit | intros; apply safe_ret].
Qed.
Lemma safe_GetSubscription id : safe (GetSubscription id).
Proof. apply safe_same. intros db x db' H. unfold GetSubscription in H. by tx_inv H. Qed.
#[export] Hint Resolve safe_ExpireSubscriptionIfDue safe_ActivateSubscription
  safe_ExpireDueSubscriptions safe_DebitAdmitted safe_GetSubscription : sub_safe.

Lemma safe_advanceLiveSubscriptions now tenantID userID :
  safe (advanceLiveSubscriptions now tenantID userID).
Proof.
  unfold advanceLiveSubscriptions. apply safe_bind; [apply safe_get|]. intros db.
  destruct (classify _) as [active pending].
  apply safe_bind; [|intros expired; apply safe_bind; [|intros activated]].
  - destruct active as [a|]; [destruct (negb _)|]; auto with sub_safe.
  - destruct pending as [p|]; [destruct (match active with Some _ => _ | None => _ end)|]; auto with sub_safe.
  - apply safe_bind; [apply safe_get | intros; apply safe_ret].
Qed.

Lemma safe_loadPurchaseUserState now tenantID userID ids :
  safe (loadPurchaseUserState now tenantID userID ids).
Proof.
  apply safe_bind; [apply safe_advanceLiveSubscriptions|]. intros live.
  apply safe_bind; [apply safe_get | intros; apply safe_ret].
Qed.

(** ** Updates of one order *)

Lemma update_order_run id cond f db n db' :
  update_order id cond f db = Ok (n, db') ->
  (n = 0 /\ db' = db /\ forall o, find_key so_ID id (s_orders db) = Some o -> cond o = false) \/
  (exists o, find_key so_ID id (s_orders db) = Some o /\ cond o = true /\ n = 1 /\
     db' = set_sub_orders (update_where (has_key so_ID id) f (s_orders db)) db).
Proof.
  unfold update_order. intros H. tx_inv H.
  - right. by eexists.
  - left. split; [done|]. split; [done|]. intros x [= <-]. done.
  - left. split; [done|]. by split.
Qed.

Lemma update_counts_run id cond f db n db' :
  update_counts id cond f db = Ok (n, db') ->
  (n = 0 /\ db' = db) \/
  (exists p, find_key pl_ID id (s_plans db) = Some p /\ cond p = true /\ plan_inventory_ok (f p) = true /\
     n = 1 /\ db' = set_plans (update_where (has_key pl_ID id) f (s_plans db)) db).
Proof.
  unfold update_counts. intros H. tx_inv H; [right | by left..].
  eexists. split; [done|]. split; [done|]. split; [by bool_prop | done].
Qed.

Section OrderUpdate.
Context (l : list Order) (o : Order) (f : Order -> Order).
Context (Hnd : NoDup (so_ID <$> l)) (Hin : o ∈ l).
Let l' := update_where (has_key so_ID (so_ID o)) f l.

Lemma elem_update_order x : x ∈ l' <-> (x = f o \/ (x ∈ l /\ so_ID x <> so_ID o)).
Proof. by apply (elem_update_key so_ID). Qed.

Lemma count_update_order P :
  count_where P l' = count_where P l - (if P o then 1 else 0) + (if P (f o) then 1 else 0).
Proof. unfold count_where, l'. by rewrite (sumZ_update_key so_ID). Qed.

Lemma debited_update_order u :
  debited l' u = debited l u - debited_price u o + debited_price u (f o).
Proof. unfold debited, l'. by rewrite (sumZ_update_key so_ID). Qed.

Context (Hkey : forall x, order_key (f x) = order_key x).

Lemma update_order_keys : order_key <$> l' = order_key <$> l.
Proof. unfold l'. by apply (keys_update_where order_key). Qed.

Lemma orders_ok_update :
  orders_ok l -> (forall r, so_DebitReference (f o) = Some r -> r = debit_reference_of (so_OrderNo o)) ->
  orders_ok l'.
Proof.
  intros [H1 H2 H3 H4] Href. pose proof (Hkey o) as Hk. pose proof update_order_keys as Hks.
  assert (Hid : so_ID <$> l' = so_ID <$> l).
  { apply (f_equal (fmap (fun k => k.1.1.1.1))) in Hks. by rewrite <- !list_fmap_compose in Hks. }
  assert (Hno : so_OrderNo <$> l' = so_OrderNo <$> l).
  { apply (f_equal (fmap (fun k => k.1.1.1.2))) in Hks. by rewrite <- !list_fmap_compose in Hks. }
  split; [by rewrite Hid | by rewrite Hno | |].
  - intros x [-> | [Hx _]]%elem_update_order; [|by apply H3].
    unfold order_key in Hk. injection Hk as _ _ _ _ _ -> _. by apply H3.
  - intros x r [-> | [Hx _]]%elem_update_order Hr; [|by apply H4].
    unfold order_key in Hk. injection Hk as _ -> _ _ _ _ _. by apply Href.
Qed.

Lemma plan_refs_update (ids : list string) :
  (forall x, x ∈ l -> so_PlanID x ∈ ids) -> forall x, x ∈ l' -> so_PlanID x ∈ ids.
Proof.
  intros H x [-> | [Hx _]]%elem_update_order; [|by apply H].
  pose proof (Hkey o) as Hk. unfold order_key in Hk. injection Hk as _ _ _ _ -> _ _. by apply H.
Qed.

Lemma evolves_update x :
  order_evolves o (f o) -> x ∈ l -> exists x', x' ∈ l' /\ order_evolves x x'.
Proof.
  intros He Hx. destruct (decide (so_ID x = so_ID o)) as [Heq | Hne].
  - assert (x = o) as -> by by apply (keyed_unique so_ID l).
    exists (f o). split; [apply elem_update_order; by left | done].
  - exists x. split; [apply elem_update_order; by right | apply order_evolves_refl].
Qed.

(** No sale is touched while the order is unpaid before and after. *)
Lemma sales_ok_update subs :
  sales_ok l subs -> so_Status o <> OrderPaid -> so_Status (f o) <> OrderPaid -> sales_ok l' subs.
Proof.
  intros [H1 H2 H3 H4] Hu Hu'. split; [done | done | |].
  - intros x [-> | [Hx _]]%elem_update_order Hp; [done | by apply H3].
  - intros s Hs. destruct (H4 s Hs) as (x & Hx & Hp & Hrest). exists x. split; [|done].
    apply elem_update_order. right. split; [done|]. intros Heq. apply Hu.
    by rewrite <- (keyed_unique so_ID l x o Hnd Hx Hin Heq).
Qed.

(** Counters survive an update that moves no reservation. *)
Lemma inventory_ok_same plans :
  inventory_ok plans l -> (forall p, held_by p (f o) = held_by p o) ->
  (forall p, sold_by p (f o) = sold_by p o) -> inventory_ok plans l'.
Proof.
  intros H Hh Hs p Hp. destruct (H p Hp) as (Hr & Hsd & Hok).
  rewrite !count_update_order, Hh, Hs, Hr, Hsd. split; [|split; [|done]].
  - destruct (held_by (pl_ID p) o); lia.
  - destruct (sold_by (pl_ID p) o); lia.
Qed.

(** Releasing or committing the reservation of this order. *)
Lemma inventory_ok_move plans (g : Plan -> Plan) (dr ds : Z) :
  NoDup (pl_ID <$> plans) -> inventory_ok plans l ->
  (forall p, pl_ID (g p) = pl_ID p) ->
  (forall p, pl_ReservedCount (g p) = pl_ReservedCount p + dr) ->
  (forall p, pl_SoldCount (g p) = pl_SoldCount p + ds) ->
  (forall p, p ∈ plans -> pl_ID p = so_PlanID o -> plan_inventory_ok (g p) = true) ->
  (forall p, (if held_by p (f o) then 1 else 0) =
     (if held_by p o then 1 else 0) + (if seq_str (so_PlanID o) p then dr else 0)) ->
  (forall p, (if sold_by p (f o) then 1 else 0) =
     (if sold_by p o then 1 else 0) + (if seq_str (so_PlanID o) p then ds else 0)) ->
  inventory_ok (update_where (has_key pl_ID (so_PlanID o)) g plans) l'.
Proof.
  intros Hndp H Hgid Hgr Hgs Hchk Hh Hs p Hp. apply elem_of_update_where in Hp as (p0 & Hp0 & ->).
  destruct (H p0 Hp0) as (Hr & Hsd & Hok).
  assert (Hid : pl_ID (if has_key pl_ID (so_PlanID o) p0 then g p0 else p0) = pl_ID p0)
    by (destruct (has_key _ _ _); [apply Hgid | done]).
  rewrite Hid, !count_update_order. specialize (Hh (pl_ID p0)). specialize (Hs (pl_ID p0)).
  unfold has_key, seq_str in *.
  destruct (decide (pl_ID p0 = so_PlanID o)) as [Heq | Hne].
  - rewrite bool_decide_true by done. rewrite bool_decide_true in Hh, Hs by done.
    rewrite Hgr, Hgs. split; [lia|]. split; [lia | by apply Hchk].
  - rewrite bool_decide_false by done. rewrite bool_decide_false in Hh, Hs by done.
    split; [lia|]. split; [lia | done].
Qed.
End OrderUpdate.

(** ** The transactions of an order's life *)

Lemma order_open_status o : order_open o = true <-> so_Status o = OrderCreated \/ so_Status o = OrderDeducting.
Proof.
  unfold order_open. rewrite bool_decide_eq_true, elem_of_cons, list_elem_of_singleton. done.
Qed.

Lemma open_not_paid o : order_open o = true -> so_Status o <> OrderPaid.
Proof. intros [-> | ->]%order_open_status; done. Qed.

(** A status change of an open order that leaves everything else alone. *)
Lemma transition_ok db o f plans' :
  sub_ok db -> o ∈ s_orders db -> order_open o = true ->
  (forall x, order_key (f x) = order_key x) -> so_Status (f o) <> OrderPaid ->
  so_DebitReference (f o) = so_DebitReference o ->
  pl_ID <$> plans' = pl_ID <$> s_plans db ->
  inventory_ok plans' (update_where (has_key so_ID (so_ID o)) f (s_orders db)) ->
  let db' := set_plans plans' (set_sub_orders (update_where (has_key so_ID (so_ID o)) f (s_orders db)) db) in
  sub_ok db' /\ sub_trans db db'.
Proof.
  intros [Ho Hs Hp Hpr Hi Hl] Hin Hopen Hkey Hst Href Hplans Hinv db'.
  pose proof (oo_ids _ Ho) as Hnd.
  split; split; simpl; try done.
  - apply orders_ok_update; try done. rewrite Href. intros r. by apply (oo_refs _ Ho o).
  - apply sales_ok_update; try done. by apply open_not_paid.
  - by rewrite Hplans.
  - rewrite Hplans. by apply plan_refs_update.
  - intros x Hx. apply evolves_update; try done. split; [done|]. split; [by rewrite Href|].
    by rewrite Hopen.
  - intros u. rewrite debited_update_order by done. unfold debited_price.
    pose proof (Hkey o) as Hk. unfold order_key in Hk. injection Hk as _ _ _ Hu _ Hprice _.
    rewrite Href, Hu, Hprice. unfold user_balance. simpl. lia.
Qed.

Lemma set_plans_same db : set_plans (s_plans db) db = db.
Proof. by destruct db. Qed.

Lemma safe_MarkOrderDeducting now id : safe (MarkOrderDeducting now id).
Proof.
  intros db b db' Hok H. unfold MarkOrderDeducting in H.
  apply tx_bind_ok in H as (n & d & H & Hret). tx_inv Hret.
  apply update_order_run in H as [(_ & -> & _) | (o & Hf & Hc & _ & ->)]; [by split|].
  apply find_key_Some in Hf as [Hin <-]. unfold seq_str in Hc. bool_prop.
  assert (Hopen : order_open o = true) by (apply order_open_status; by left).
  assert (Hopen' : order_open (with_status OrderDeducting now o) = true)
    by (apply order_open_status; by right).
  rewrite <- (set_plans_same (set_sub_orders _ _)).
  apply transition_ok; try done. apply inventory_ok_same; try done; [apply Hok | apply Hok | |].
  - intros p. unfold held_by. rewrite Hopen, Hopen'. done.
  - intros p. unfold sold_by, order_paid, seq_str. simpl. by rewrite Hc.
Qed.

Lemma safe_MarkOrderFailed now id reason : safe (MarkOrderFailed now id reason).
Proof.
  intros db b db' Hok H. unfold MarkOrderFailed in H.
  apply tx_bind_ok in H as (d0 & d1 & Hget & H). unfold tx_get in Hget. injection Hget as <- <-.
  destruct (find_key so_ID id (s_orders db)) as [o|] eqn:Hf; [|done].
  apply tx_bind_ok in H as (n & d & Hu & H).
  apply find_key_Some in Hf as Hf2. destruct Hf2 as [Hin Hid].
  apply update_order_run in Hu as [(-> & -> & _) | (o' & Hf' & Hopen & -> & ->)].
  { simpl in H. tx_inv H. by split. }
  rewrite Hf in Hf'. injection Hf' as <-. subst id.
  pose proof Hok as [Ho Hs Hp Hpr Hi Hl]. pose proof (oo_ids _ Ho) as Hnd.
  set (f := fun x => with_fail_reason reason (with_status OrderFailed now x)) in *.
  assert (Hsold : forall p, sold_by p (f o) = sold_by p o).
  { intros p. unfold sold_by, order_paid, seq_str. simpl.
    rewrite (bool_decide_false (so_Status o = OrderPaid)) by by apply open_not_paid. done. }
  simpl in H. destruct (so_InventoryReserved o) eqn:Hinv.
  - apply tx_bind_ok in H as (m & d2 & Hrel & H). tx_inv H. bool_prop.
    unfold ReleasePlanInventory in Hrel.
    apply update_counts_run in Hrel as [[-> _] | (p & Hfp & Hres & Hchk & _ & ->)]; [done|].
    apply find_key_Some in Hfp as [Hpin Hpid]. simpl in Hpin.
    apply (transition_ok db o f (update_where (has_key pl_ID (so_PlanID o)) release_one (s_plans db))); try done.
    { by apply (keys_update_where pl_ID). }
    apply (inventory_ok_move _ _ _ Hnd Hin _ _ (-1) 0); try done.
    + intros q. simpl. lia.
    + intros q Hq Hqid. simpl in Hchk. rewrite <- Hchk. f_equal. f_equal.
      apply (keyed_unique pl_ID (s_plans db)); try done. by rewrite Hqid, Hpid.
    + intros q. unfold held_by. rewrite Hopen, Hinv. simpl. destruct (seq_str _ _); done.
    + intros q. rewrite Hsold. destruct (seq_str _ _); lia.
  - tx_inv H. rewrite <- (set_plans_same (set_sub_orders _ _)).
    apply (transition_ok db o f); try done. apply inventory_ok_same; try done.
    intros p. unfold held_by. simpl. rewrite Hinv, andb_false_r. done.
Qed.

(** ** Reservation *)

Lemma transition_plans db plans' orders' :
  sub_ok db -> pl_ID <$> plans' = pl_ID <$> s_plans db -> orders_ok orders' ->
  sales_ok orders' (s_subs db) -> inventory_ok plans' orders' ->
  (forall o, o ∈ orders' -> so_PlanID o ∈ (pl_ID <$> s_plans db)) ->
  sub_ok (set_plans plans' (set_sub_orders orders' db)).
Proof. intros [] Hp Ho Hs Hi Hr. split; simpl; try done; by rewrite Hp. Qed.

Lemma createOrder_run now uuid orderNo p plan groups policy inv db o db' :
  createOrder now uuid orderNo p plan groups policy inv db = Ok (o, db') ->
  (so_ID o ∉ (so_ID <$> s_orders db)) /\ (so_OrderNo o ∉ (so_OrderNo <$> s_orders db)) /\
  order_row_check o = true /\ db' = set_sub_orders (s_orders db ++ [o]) db /\
  so_OrderNo o = orderNo /\ so_PlanID o = pl_ID plan /\ so_InventoryReserved o = inv /\
  so_Status o = OrderCreated /\ so_DebitReference o = None /\ so_ID o = uuid /\
  so_PriceMicroUSD o = pl_PriceMicroUSD plan /\ so_TenantID o = pu_TenantID p /\ so_UserID o = pu_UserID p.
Proof. unfold createOrder. cbv zeta. intros H. tx_inv H. bool_prop. done. Qed.

(** A fresh open order backed by one more reserved unit. *)
Lemma reserve_ok db o :
  sub_ok db ->
  (so_ID o ∉ (so_ID <$> s_orders db)) -> (so_OrderNo o ∉ (so_OrderNo <$> s_orders db)) ->
  order_row_check o = true -> so_Status o = OrderCreated -> so_DebitReference o = None ->
  so_InventoryReserved o = true -> so_PlanID o ∈ (pl_ID <$> s_plans db) ->
  (forall p, p ∈ s_plans db -> pl_ID p = so_PlanID o -> plan_inventory_ok (reserve_one p) = true) ->
  let plans' := update_where (has_key pl_ID (so_PlanID o)) reserve_one (s_plans db) in
  let db' := set_plans plans' (set_sub_orders (s_orders db ++ [o]) db) in
  sub_ok db' /\ sub_trans db db'.
Proof.
  intros Hok Hid Hno Hrow Hst Href Hinv Hpin Hchk plans' db'. pose proof Hok as [Ho Hs Hp Hpr Hi Hl].
  split.
  - apply transition_plans; try done.
    + by apply (keys_update_where pl_ID).
    + destruct Ho as [H1 H2 H3 H4]. split.
      * rewrite fmap_app. apply NoDup_app. split; [done|]. split; [|apply NoDup_singleton].
        intros x Hx Hx2. apply list_elem_of_singleton in Hx2 as ->. done.
      * rewrite fmap_app. apply NoDup_app. split; [done|]. split; [|apply NoDup_singleton].
        intros x Hx Hx2. apply list_elem_of_singleton in Hx2 as ->. done.
      * intros x [Hx | ->%list_elem_of_singleton]%elem_of_app; [by apply H3|].
        unfold order_row_check in Hrow. by bool_prop.
      * intros x r [Hx | ->%list_elem_of_singleton]%elem_of_app Hr; [by apply H4 | congruence].
    + destruct Hs as [H1 H2 H3 H4]. split; [done | done | |].
      * intros x [Hx | ->%list_elem_of_singleton]%elem_of_app Hpd; [by apply H3|]. by rewrite Hst in Hpd.
      * intros s Hin. destruct (H4 s Hin) as (x & Hx & Hrest). exists x. split; [|done].
        apply elem_of_app. by left.
    + intros p Hq. apply elem_of_update_where in Hq as (p0 & Hp0 & ->).
      destruct (Hi p0 Hp0) as (Hr & Hsd & Hpok). rewrite !count_where_app.
      assert (Hheld : forall q, held_by q o = seq_str (so_PlanID o) q).
      { intros q. unfold held_by, order_open. rewrite Hst, Hinv. done. }
      assert (Hsold : forall q, sold_by q o = false).
      { intros q. unfold sold_by, order_paid. by rewrite Hst. }
      unfold count_where at 2 4. simpl. rewrite Hheld, Hsold. unfold has_key, seq_str.
      destruct (decide (pl_ID p0 = so_PlanID o)) as [Heq | Hne].
      * rewrite bool_decide_true by done. simpl. rewrite bool_decide_true by done.
        split; [lia|]. split; [lia | by apply Hchk].
      * rewrite bool_decide_false by done. rewrite bool_decide_false by done.
        split; [lia|]. split; [lia | done].
    + intros x [Hx | ->%list_elem_of_singleton]%elem_of_app; [by apply Hpr | done].
  - split; simpl.
    + intros x Hx. exists x. split; [apply elem_of_app; by left | apply order_evolves_refl].
    + intros u. unfold debited. rewrite sumZ_app. simpl. unfold debited_price at 2.
      rewrite Href, andb_false_r. unfold user_balance. simpl. lia.
Qed.

Section Reserve.
Context (L : string -> option Location) (now : Z) (uuid orderNo : string) (p : PurchaseParams) (maxQueue : Z).

(** What a committed reservation did: nothing but lazy advancement, or that and
    one new order with one reserved unit of its plan. *)
Lemma ReservePurchase_run db r db' :
  sub_ok db -> ReservePurchase L now uuid orderNo p maxQueue db = Ok (r, db') ->
  sub_ok db' /\ sub_trans db db' /\
  match r with
  | Denied d => Allowed d = false
  | Reserved o true => o ∈ s_orders db /\ db' = db /\ so_OrderNo o = orderNo
  | Reserved o false => o ∈ s_orders db' /\ so_OrderNo o = orderNo /\ so_Status o = OrderCreated
  end.
Proof.
  intros Hok H. unfold ReservePurchase in H.
  rewrite tx_get_bind in H.
  destruct (find_key so_OrderNo orderNo (s_orders db)) as [o|] eqn:Hf.
  { apply tx_bind_ok in H as (? & ? & Hg & H); apply tx_guard_ok in Hg as [Hg ->]. unfold tx_ret in H. injection H as <- <-.
    apply find_key_Some in Hf as [Hin Hno]. by split. }
  destruct (find_key pl_ID (pu_PlanID p) (s_plans db)) as [plan|] eqn:Hplan; [|done].
  apply tx_bind_ok in H as (? & ? & Hg & H); apply tx_guard_ok in Hg as [Hg ->].
  apply tx_bind_ok in H as (? & ? & Hg2 & H); apply tx_guard_ok in Hg2 as [Hg2 ->].
  destruct (GetPlanPurchasePolicy _ _) as [policy|]; [|done].
  apply tx_bind_ok in H as (? & ? & Hg3 & H); apply tx_guard_ok in Hg3 as [Hg3 ->].
  apply tx_bind_ok in H as (st & d3 & Hst & H).
  destruct (safe_loadPurchaseUserState _ _ _ _ _ _ _ Hok Hst) as [Hok3 T3].
  destruct (EvaluatePurchaseEligibility _ _ _) as [dec|]; [|done].
  destruct (negb (Allowed dec)) eqn:Hall.
  { unfold tx_ret in H. injection H as <- <-. bool_prop. done. }
  apply tx_bind_ok in H as (n & d4 & Hres & H).
  apply tx_bind_ok in H as (? & ? & Hg4 & H); apply tx_guard_ok in Hg4 as [Hg4 ->]. bool_prop.
  apply tx_bind_ok in H as (o & d6 & Hcr & H). unfold tx_ret in H. injection H as <- <-.
  unfold ReservePlanInventory in Hres.
  apply update_counts_run in Hres as [[-> _] | (p0 & Hfp & _ & Hchk & _ & ->)]; [done|].
  apply createOrder_run in Hcr as (Hid & Hno & Hrow & -> & Hono & Hpl & Hinv & Hos & Href & _). simpl in *.
  apply find_key_Some in Hfp as [Hp0 Hp0id].
  destruct (reserve_ok d3 o) as [Hok6 T6]; try done.
  { rewrite Hpl, <- Hp0id. by apply list_elem_of_fmap_2. }
  { intros q Hq Hqid. rewrite <- Hchk. f_equal. f_equal.
    apply (keyed_unique pl_ID (s_plans d3)); try done; [apply Hok3|]. by rewrite Hqid, Hp0id. }
  rewrite Hpl in Hok6, T6. split; [exact Hok6|]. split; [etransitivity; [exact T3 | exact T6]|].
  split; [|by split]. apply elem_of_app. right. by apply list_elem_of_singleton.
Qed.
End Reserve.

(** ** The debit *)

(** What a program knows of an order it holds a copy of. *)
Definition order_known (db : sub_db) (o : Order) : Prop :=
  exists x, x ∈ s_orders db /\ order_key x = order_key o.
Definition order_debited (db : sub_db) (o : Order) (r : string) : Prop :=
  exists x, x ∈ s_orders db /\ order_key x = order_key o /\ so_DebitReference x = Some r.

Lemma order_known_trans db db' o : orders_evolve db db' -> order_known db o -> order_known db' o.
Proof.
  intros H (x & Hx & Hk). destruct (H x Hx) as (x' & Hx' & Hk' & _). exists x'. split; [done|]. congruence.
Qed.
Lemma order_debited_trans db db' o r : orders_evolve db db' -> order_debited db o r -> order_debited db' o r.
Proof.
  intros H (x & Hx & Hk & Hr). destruct (H x Hx) as (x' & Hx' & Hk' & Hr' & _).
  exists x'. split; [done|]. split; [congruence | by apply Hr'].
Qed.

Lemma ChargeIfFunded_inv l ref micro l' :
  ledger_ok l -> 0 < micro -> ref_id ref <> ""%string -> ChargeIfFunded ref micro l = Ok (tt, l') ->
  ledger_ok l' /\ exists b, balances_of l !! ref_id ref = Some b /\ micro <= b /\
    balances_of l' = <[ref_id ref := b - micro]> (balances_of l).
Proof.
  intros Hok Hm Hid H. split; [by eapply ChargeIfFunded_ok|].
  pose proof (ChargeIfFunded_refused l ref micro Hm Hid) as Href.
  destruct (bill_accounts l !! ref_id ref) as [a|] eqn:Ha; [|by rewrite Href in H].
  destruct (Z.le_gt_cases micro (balance_micro a)) as [Hle | Hgt]; [|by rewrite Href in H].
  destruct (ChargeIfFunded_run l ref micro a) as (l1 & Hrun & Hacc & _); try done.
  rewrite Hrun in H. injection H as <-. exists (balance_micro a).
  rewrite balances_of_lookup, Ha. split; [done|]. split; [done|]. by eapply balances_of_set.
Qed.

Lemma on_sub_ledger_ok {A} (m : LTx A) db a db' :
  on_sub_ledger m db = Ok (a, db') <-> exists l, m (s_ledger db) = Ok (a, l) /\ db' = set_sub_ledger l db.
Proof.
  unfold on_sub_ledger. rewrite tx_zoom_ok. unfold tx_map_err.
  split; intros (l & H & ->); exists l; (split; [|done]);
    destruct (m (s_ledger db)) as [[]|]; by simplify_eq.
Qed.

Lemma debit_reference_nonempty no : debit_reference_of no <> ""%string.
Proof. done. Qed.

Lemma order_by_no db o x :
  sub_ok db -> x ∈ s_orders db -> order_key x = order_key o ->
  find_key so_OrderNo (so_OrderNo o) (s_orders db) = Some x.
Proof.
  intros Hok Hx Hk. unfold order_key in Hk. injection Hk as _ <- _ _ _ _ _.
  apply find_key_elem; [|done]. apply Hok.
Qed.

(** The debit of a known order: it was debited before, or it takes exactly its
    price from its user, who can afford it. *)
Lemma DebitStrict_run now o tenantID userID db r db' :
  sub_ok db -> order_known db o ->
  DebitStrict now (debit_request_of o tenantID userID) db = Ok (r, db') ->
  sub_ok db' /\ sub_trans db db' /\ order_debited db' o r /\
  s_plans db' = s_plans db /\ s_subs db' = s_subs db /\
  exists x y, x ∈ s_orders db /\ order_key x = order_key o /\ y ∈ s_orders db' /\ order_key y = order_key o /\
    so_DebitReference y = Some r /\ so_Status y = so_Status x /\
    match so_DebitReference x with
    | Some _ => db' = db
    | None => so_PriceMicroUSD o <= user_balance db (so_UserID o) /\
        forall u, user_balance db' u =
          user_balance db u - (if seq_str (so_UserID o) u then so_PriceMicroUSD o else 0)
    end.
Proof.
  intros Hok (x & Hx & Hk) H. pose proof Hok as [Ho Hs Hp Hpr Hi Hl]. unfold DebitStrict in H. cbv zeta in H.
  do 4 (apply tx_bind_ok in H as (? & ? & Hg & H); apply tx_guard_ok in Hg as [_ ->]).
  simpl in H. rewrite TrimPrefix_app, tx_get_bind, (order_by_no db o x) in H by done.
  apply tx_bind_ok in H as (? & ? & Hown & H). apply tx_guard_ok in Hown as [Hown ->].
  unfold seq_str in Hown. bool_prop. subst tenantID userID.
  assert (Hxkey : so_ID x = so_ID o /\ so_OrderNo x = so_OrderNo o /\ so_UserID x = so_UserID o /\
    so_PriceMicroUSD x = so_PriceMicroUSD o).
  { unfold order_key in Hk. by injection Hk as -> -> _ -> _ -> _. }
  destruct Hxkey as (Hkid & Hkno & Hku & Hkp).
  destruct (so_DebitReference x) as [ref|] eqn:Href.
  { pose proof (oo_refs _ Ho x ref Hx Href) as ->. simpl in H.
    unfold tx_ret in H. injection H as <- <-. split; [done|]. split; [done|]. split; [by exists x|].
    split; [done|]. split; [done|]. exists x, x. rewrite Href. done. }
  simpl in H. apply tx_bind_ok in H as (? & ? & Hst & H). apply tx_guard_ok in Hst as [Hst ->].
  pose proof (oo_prices _ Ho x Hx) as Hpos. rewrite (proj2 (Z.ltb_lt 0 (so_PriceMicroUSD o))) in H by lia.
  apply tx_bind_ok in H as (? & ? & Hu & H). unfold tx_ret in Hu. injection Hu as _ <-.
  apply tx_bind_ok in H as ([] & d1 & Hch & H).
  apply tx_bind_ok in Hch as (? & ? & Huid & Hch). apply tx_guard_ok in Huid as [Huid ->].
  apply on_sub_ledger_ok in Hch as (l' & Hch & ->).
  apply ChargeIfFunded_inv in Hch as (Hl' & b & Hb & Hle & Hbal); [|done|lia|unfold seq_str in Huid; by bool_prop].
  simpl in Hb, Hbal. rewrite tx_get_bind in H.
  apply tx_bind_ok in H as (? & ? & Hq & H). apply tx_guard_ok in Hq as [_ ->].
  apply tx_bind_ok in H as (n & d2 & Hupd & H). unfold tx_ret in H. injection H as <- <-.
  assert (Hfind : find_key so_ID (so_ID x) (s_orders db) = Some x) by (apply find_key_elem; [apply Ho | done]).
  apply update_order_run in Hupd as [(_ & _ & Hno) | (y & Hf & _ & _ & ->)].
  { simpl in Hno. specialize (Hno x Hfind). by rewrite Href in Hno. }
  simpl in Hf. rewrite Hfind in Hf. injection Hf as <-. simpl.
  pose proof (oo_ids _ Ho) as Hnd. set (f := with_debit _ _ _).
  assert (Hkey : forall z, order_key (f z) = order_key z) by done.
  split; [|split; [split|split; [|split; [done|split; [done|]]]]]; simpl.
  - split; simpl; try done.
    + apply orders_ok_update; try done. intros r [= <-]. by rewrite Hkno.
    + destruct Hs as [S1 S2 S3 S4]. split; [done | done | |].
      * intros z Hz Hpd. apply elem_update_order in Hz as [-> | [Hz _]]; [|by apply S3|done|done].
        destruct (S3 x Hx Hpd) as (id & r & _ & Hr & _). congruence.
      * intros s Hs. destruct (S4 s Hs) as (z & Hz & Hpd & Hid & Hident).
        destruct (decide (so_ID z = so_ID x)) as [Heq | Hne].
        -- assert (z = x) as -> by by apply (keyed_unique so_ID (s_orders db)).
           exists (f x). split; [|done]. apply elem_update_order; [done | done | by left].
        -- exists z. split; [|done]. apply elem_update_order; [done | done | by right].
    + by apply plan_refs_update.
    + apply inventory_ok_same; done.
  - intros z Hz. apply evolves_update; try done. split; [done|]. split; [by rewrite Href | done].
  - intros u. rewrite debited_update_order by done. unfold user_balance. simpl. rewrite Hbal.
    unfold debited_price. simpl. rewrite Href, Hku, Hkp. unfold seq_str.
    destruct (decide (so_UserID o = u)) as [<- | Hne].
    + rewrite lookup_insert, decide_True, bool_decide_true by done.
      rewrite <- Hku, Hb. simpl. lia.
    + rewrite lookup_insert_ne by congruence. rewrite bool_decide_false by done. simpl. lia.
  - exists (f x). split; [apply elem_update_order; [done | done | by left]|]. split; [exact Hk|].
    simpl. by rewrite <- Hkno.
  - exists x, (f x). split; [done|]. split; [done|].
    split; [apply elem_update_order; [done | done | by left]|]. split; [exact Hk|].
    split; [simpl; by rewrite <- Hkno|]. split; [done|]. rewrite Href.
    unfold user_balance. simpl. rewrite Hbal, <- Hku, Hb. split; [simpl; lia|]. intros u. unfold seq_str.
    destruct (decide (so_UserID x = u)) as [<- | Hne].
    + rewrite lookup_insert, decide_True, bool_decide_true, Hb by done. simpl. lia.
    + rewrite lookup_insert_ne, bool_decide_false by done. lia.
Qed.

(** ** Opening the subscription *)

Lemma createSubscription_run now uuid cur status db s db' :
  createSubscription now uuid cur status db = Ok (s, db') ->
  (ss_ID s ∉ (ss_ID <$> s_subs db)) /\ (ss_OrderID s ∉ (ss_OrderID <$> s_subs db)) /\
  db' = set_subs (s_subs db ++ [s]) db /\ ss_ID s = uuid /\ ss_Status s = status /\
  sub_ident s = order_ident uuid cur.
Proof. unfold createSubscription. cbv zeta. intros H. tx_inv H. bool_prop. done. Qed.

Lemma order_key_snapshot_free o x : order_key x = order_key o -> so_ID x = so_ID o.
Proof. unfold order_key. intros H. by injection H as ->. Qed.

Lemma sales_ok_pay l subs x f s :
  NoDup (so_ID <$> l) -> x ∈ l -> sales_ok l subs -> so_Status x <> OrderPaid ->
  so_Status (f x) = OrderPaid -> so_SubscriptionID (f x) = Some (ss_ID s) ->
  (exists r, so_DebitReference (f x) = Some r) ->
  order_ident (ss_ID s) (f x) = sub_ident s -> so_ID x = ss_OrderID s ->
  (ss_ID s ∉ (ss_ID <$> subs)) -> (ss_OrderID s ∉ (ss_OrderID <$> subs)) ->
  sales_ok (update_where (has_key so_ID (so_ID x)) f l) (subs ++ [s]).
Proof.
  intros Hnd Hx [S1 S2 S3 S4] Hunpaid Hpaid Hsid Href Hident Hoid Hfresh1 Hfresh2. split.
  - rewrite fmap_app. apply NoDup_app. split; [done|]. split; [|apply NoDup_singleton].
    intros y Hy Hy2. by apply list_elem_of_singleton in Hy2 as ->.
  - rewrite fmap_app. apply NoDup_app. split; [done|]. split; [|apply NoDup_singleton].
    intros y Hy Hy2. by apply list_elem_of_singleton in Hy2 as ->.
  - intros z Hz Hpd. rewrite fmap_app. apply elem_update_order in Hz as [-> | [Hz _]]; [| |done|done].
    + destruct Href as [r Hr]. exists (ss_ID s), r. split; [done|]. split; [done|]. apply elem_of_app. right.
      rewrite Hident. by apply list_elem_of_singleton.
    + destruct (S3 z Hz Hpd) as (id & r & Hi & Hr & Hin). exists id, r. split; [done|]. split; [done|]. apply elem_of_app. by left.
  - intros s' [Hs' | ->%list_elem_of_singleton]%elem_of_app.
    + destruct (S4 s' Hs') as (z & Hz & Hpd & Hrest). exists z. split; [|done].
      apply elem_update_order; [done | done |]. right. split; [done|]. intros Heq. apply Hunpaid.
      by rewrite <- (keyed_unique so_ID l z x Hnd Hz Hx Heq).
    + exists (f x). split; [apply elem_update_order; [done | done | by left]|]. done.
Qed.

Lemma order_not_open o : order_open o = false -> so_Status o <> OrderCreated /\ so_Status o <> OrderDeducting.
Proof.
  intros H. split; intros Hs; assert (order_open o = true) by (apply order_open_status; tauto); congruence.
Qed.

(** Finalizing a debited order: the order is paid afterwards, and the answer is
    its one subscription. *)
Lemma FinalizeOrder_run now uuid o ref db s db' :
  sub_ok db -> order_debited db o ref ->
  FinalizeOrder now uuid (so_ID o) ref db = Ok (s, db') ->
  sub_ok db' /\ sub_trans db db' /\
  exists x, x ∈ s_orders db' /\ order_key x = order_key o /\ so_Status x = OrderPaid /\
    so_SubscriptionID x = Some (ss_ID s) /\ s ∈ s_subs db' /\ ss_OrderID s = so_ID o.
Proof.
  intros Hok (x & Hx & Hk & Href) H. pose proof Hok as [Ho Hs Hp Hpr Hi Hl]. pose proof (oo_ids _ Ho) as Hnd.
  pose proof (order_key_snapshot_free _ _ Hk) as Hxid.
  assert (Hfind : find_key so_ID (so_ID o) (s_orders db) = Some x)
    by (rewrite <- Hxid; by apply find_key_elem).
  unfold FinalizeOrder in H. rewrite tx_get_bind, Hfind in H.
  destruct (seq_str (so_Status x) OrderPaid) eqn:Hpd.
  { apply seq_str_true in Hpd. destruct (sa_paid _ _ Hs x Hx Hpd) as (id & r & Hid & _ & Hin).
    rewrite Hid in H. destruct (find_key ss_ID id (s_subs db)) as [s0|] eqn:Hfs; [|done].
    unfold tx_ret in H. injection H as <- <-. split; [done|]. split; [done|].
    apply find_key_Some in Hfs as [Hs0 Hs0id]. exists x. split; [done|]. split; [done|]. split; [done|].
    split; [by rewrite Hs0id|]. split; [done|].
    apply list_elem_of_fmap in Hin as (s1 & Heq & Hs1).
    assert (s1 = s0) as ->.
    { apply (keyed_unique ss_ID (s_subs db)); try done; [apply Hs|].
      unfold sub_ident, order_ident in Heq. congruence. }
    unfold sub_ident, order_ident in Heq. congruence. }
  apply seq_str_false in Hpd. cbv zeta in H.
  apply tx_bind_ok in H as (s0 & d1 & Hcr & H).
  apply createSubscription_run in Hcr as (Hf1 & Hf2 & -> & Hu & _ & Hident).
  apply tx_bind_ok in H as (n & d2 & Hmp & H). unfold MarkOrderPaid in Hmp. rewrite tx_get_bind in Hmp.
  apply tx_bind_ok in Hmp as (? & ? & Hrt & Hmp). apply tx_guard_ok in Hrt as [Hrt ->].
  apply tx_bind_ok in H as (? & ? & Hn & H). apply tx_guard_ok in Hn as [Hn ->]. bool_prop.
  apply update_order_run in Hmp as [(-> & _) | (y & Hf & Hopen & _ & ->)]; [done|].
  simpl in Hf. rewrite Hxid, Hfind in Hf. injection Hf as <-.
  apply tx_bind_ok in H as ([] & d3 & Hinvt & H). unfold tx_ret in H. injection H as <- <-.
  set (f := with_paid ref (ss_ID s0) now) in *. simpl in Hinvt.
  assert (Hrefo : so_DebitReference (f x) = Some ref).
  { simpl. unfold nullif. rewrite bool_decide_false; [done|].
    rewrite (oo_refs _ Ho x ref Hx Href). apply debit_reference_nonempty. }
  assert (Hev : order_evolves x (f x)).
  { split; [done|]. split; [intros r Hr; rewrite Href in Hr; injection Hr as <-; exact Hrefo|]. by rewrite Hopen. }
  assert (Hoid : so_ID x = ss_OrderID s0) by (unfold sub_ident, order_ident in Hident; congruence).
  assert (Hident' : order_ident (ss_ID s0) (f x) = sub_ident s0) by (rewrite Hident, <- Hu; done).
  assert (Hsales : sales_ok (update_where (has_key so_ID (so_ID x)) f (s_orders db)) (s_subs db ++ [s0])).
  { apply sales_ok_pay; try done. by exists ref. }
  assert (Horders : orders_ok (update_where (has_key so_ID (so_ID x)) f (s_orders db))).
  { apply orders_ok_update; try done. intros r Hr. rewrite Hrefo in Hr. injection Hr as <-.
    by apply (oo_refs _ Ho x ref). }
  assert (Hmoney : forall u, debited (update_where (has_key so_ID (so_ID x)) f (s_orders db)) u = debited (s_orders db) u).
  { intros u. rewrite debited_update_order by done. unfold debited_price. rewrite Hrefo, Href. simpl. lia. }
  assert (Hplans : exists plans', d3 = set_plans plans' (set_sub_orders
      (update_where (has_key so_ID (so_ID x)) f (s_orders db)) (set_subs (s_subs db ++ [s0]) db)) /\
    pl_ID <$> plans' = pl_ID <$> s_plans db /\
    inventory_ok plans' (update_where (has_key so_ID (so_ID x)) f (s_orders db))).
  { destruct (so_InventoryReserved x) eqn:Hinv.
    - apply tx_bind_ok in Hinvt as (m & d4 & Hcm & Hinvt). apply tx_guard_ok in Hinvt as [Hm ->]. bool_prop.
      unfold CommitPlanInventorySale in Hcm.
      apply update_counts_run in Hcm as [[-> _] | (p & Hfp & _ & Hchk & _ & ->)]; [done|].
      apply find_key_Some in Hfp as [Hpin Hpid]. simpl in Hpin.
      exists (update_where (has_key pl_ID (so_PlanID x)) commit_one (s_plans db)).
      split; [done|]. split; [by apply (keys_update_where pl_ID)|].
      apply (inventory_ok_move _ _ _ Hnd Hx _ _ (-1) 1); try done.
      + intros q Hq Hqid. rewrite <- Hchk. f_equal. f_equal.
        apply (keyed_unique pl_ID (s_plans db)); try done. by rewrite Hqid, Hpid.
      + intros q. unfold held_by. rewrite Hopen, Hinv. simpl. by destruct (seq_str _ _).
      + intros q. unfold sold_by, order_paid. rewrite Hinv. rewrite (proj2 (seq_str_false _ _) Hpd).
        simpl. rewrite Hinv. simpl. by destruct (seq_str _ _).
    - unfold tx_ret in Hinvt. injection Hinvt as <-. exists (s_plans db). split; [done|]. split; [done|].
      apply inventory_ok_same; try done.
      + intros q. unfold held_by. simpl. by rewrite Hinv, !andb_false_r.
      + intros q. unfold sold_by. simpl. by rewrite Hinv, !andb_false_r. }
  destruct Hplans as (plans' & -> & Hpids & Hinv').
  split; [|split; [split|]]; simpl.
  - split; simpl; try done; rewrite Hpids; [done | by apply plan_refs_update].
  - intros z Hz. by apply evolves_update.
  - intros u. rewrite Hmoney. done.
  - exists (f x). split; [apply elem_update_order; [done | done | by left]|]. split; [exact Hk|].
    split; [done|]. split; [done|]. split; [apply elem_of_app; right; by apply list_elem_of_singleton|].
    by rewrite <- Hoid, Hxid.
Qed.
