(* ===== verification/SubscriptionPlans.v ===== *)
(** * Managing subscription plans

    The tenant's side of [ai/subscription/service.go]: creating, editing,
    reordering and listing plans, with the validation of their shape, and the
    transactions of [ai/adapters/postgres/subscription.go] behind them.  Purchase
    policies are versioned; every version leaves a revision row. *)

From S2P Require Import Prelude GoStrings CivilTime PurchasePolicy Ledger Subscription.

(** A requested group binding; the multiplier is in ten-thousandths. *)
Record GroupBinding := MkBinding {
  gb_GroupID : string;
  gb_QuotaDebitMultiplier : Z;
  gb_SortOrder : Z }.

Record CreatePlanParams := MkCreatePlan {
  cp_TenantID : string;
  cp_Name : string;
  cp_Description : string;
  cp_PriceMicroUSD : Z;
  cp_DurationDays : Z;
  cp_TotalLimitMicro : Z;
  cp_Window5hLimitMicro : option Z;
  cp_Window7dLimitMicro : option Z;
  cp_SaleLimit : option Z;
  cp_CreatedBy : string;
  cp_Groups : list GroupBinding;
  cp_PurchasePolicy : PurchasePolicy }.

Record UpdatePlanParams := MkUpdatePlan {
  up_ID : string;
  up_TenantID : string;
  up_Name : string;
  up_Description : string;
  up_PriceMicroUSD : Z;
  up_DurationDays : Z;
  up_TotalLimitMicro : Z;
  up_Window5hLimitMicro : option Z;
  up_Window7dLimitMicro : option Z;
  up_SaleLimit : option Z;
  up_Groups : list GroupBinding;
  up_PurchasePolicy : option PurchasePolicy;
  up_UpdatedBy : string }.

(** ** Validation *)

Definition window_bad (w : option Z) (totalLimit : Z) : bool :=
  match w with Some v => (v <=? 0) || (totalLimit <? v) | None => false end.

Definition validatePlanShape (durationDays price totalLimit : Z) (w5h w7d : option Z) : option sub_error :=
  if negb (bool_decide (durationDays ∈ [1; 3; 7; 30])) then Some ErrInvalidDuration
  else if (price <=? 0) || (totalLimit <=? 0) then Some ErrPlanQuotaInvalid
  else if window_bad w5h totalLimit || window_bad w7d totalLimit then Some ErrPlanQuotaInvalid
  else if (durationDays <? 7) && negb (is_nil w7d) then Some ErrPlanWindow7dInvalid
  else None.

(** The loop of [validatePlanGroups] with its [seen] set. *)
Fixpoint validate_groups_loop (seen : gset string) (groups : list GroupBinding) : option sub_error :=
  match groups with
  | [] => None
  | g :: rest =>
      if seq_str (gb_GroupID g) "" || (gb_QuotaDebitMultiplier g <=? 0) then Some ErrPlanGroupsInvalid
      else if bool_decide (gb_GroupID g ∈ seen) then Some ErrPlanGroupsInvalid
      else validate_groups_loop ({[gb_GroupID g]} ∪ seen) rest
  end.
Definition validatePlanGroups (groups : list GroupBinding) : option sub_error :=
  match groups with
  | [] => Some ErrPlanNeedsGroups
  | _ => validate_groups_loop ∅ groups
  end.

(** The loop of [ReorderPlans]. *)
Fixpoint reorder_ids_ok (seen : gset string) (ids : list string) : bool :=
  match ids with
  | [] => true
  | id :: rest => negb (seq_str id "") && negb (bool_decide (id ∈ seen)) && reorder_ids_ok ({[id]} ∪ seen) rest
  end.
Definition validReorder (tenantID : string) (ids : list string) : bool :=
  negb (seq_str tenantID "") && negb (Nat.eqb (length ids) 0)
  && (Z.of_nat (length ids) <=? 2000) && reorder_ids_ok ∅ ids.

Definition clampPage (limit offset : Z) : Z * Z :=
  let limit := if limit <=? 0 then 20 else limit in
  let limit := if 200 <? limit then 200 else limit in
  (limit, if offset <? 0 then 0 else offset).

(** ** Statements *)

(** [ValidateGroupsForTenant]: the active groups of the tenant among those asked
    for, one row each. *)
Definition ValidateGroupsForTenant (tenantID : string) (ids : list string) (db : sub_db) : list string :=
  ag_ID <$> List.filter (fun g => bool_decide (ag_ID g ∈ ids) && seq_str (ag_Status g) "active"
                                  && seq_str (ag_TenantID g) tenantID) (s_groups db).

Definition ensureGroupsVisible (tenantID : string) (ids : list string) : STx unit :=
  let! db := tx_get in
  tx_guard (negb (Nat.eqb (length (ValidateGroupsForTenant tenantID ids db)) (length ids)))
    ErrPlanGroupsInvalid.

(** CHECK and UNIQUE constraints of [ai_sub_plans]. *)
Definition plan_row_check (p : Plan) : bool :=
  (0 <? pl_PriceMicroUSD p) && (0 <? pl_DurationDays p) && (0 <? pl_TotalLimitMicro p)
  && negb (window_bad (pl_Window5hLimitMicro p) (pl_TotalLimitMicro p))
  && negb (window_bad (pl_Window7dLimitMicro p) (pl_TotalLimitMicro p))
  && match pl_SaleLimit p with Some n => 0 <? n | None => true end
  && ((7 <=? pl_DurationDays p) || is_nil (pl_Window7dLimitMicro p))
  && plan_inventory_ok p.
Definition plan_name_taken (p : Plan) (db : sub_db) : bool :=
  existsb (fun q => negb (seq_str (pl_ID q) (pl_ID p)) && seq_str (pl_TenantID q) (pl_TenantID p)
                    && seq_str (pl_Name q) (pl_Name p)) (s_plans db).

Definition NextPlanSortOrder (tenantID : string) (db : sub_db) : Z :=
  let orders := pl_SortOrder <$> List.filter (fun p => seq_str (pl_TenantID p) tenantID) (s_plans db) in
  match orders with [] => 0 | x :: rest => foldr Z.max x rest end + 10.

(** [insertPlanGroups]: a zero sort order becomes the position. *)
Definition plan_group_rows (planID : string) (groups : list GroupBinding) : list PlanGroup :=
  imap (fun i g => MkPlanGroup planID (gb_GroupID g) (gb_QuotaDebitMultiplier g)
          (if gb_SortOrder g =? 0 then wrap32 (Z.of_nat i) else gb_SortOrder g)) groups.
Definition insertPlanGroups (planID : string) (groups : list GroupBinding) : STx unit :=
  tx_iter (fun r =>
    let! db := tx_get in
    tx_guard (pg_QuotaDebitMultiplier r <=? 0) (ErrSubSQL "ai_sub_plan_groups check") ;;;
    tx_guard (existsb (fun x => seq_str (pg_PlanID x) (pg_PlanID r) && seq_str (pg_GroupID x) (pg_GroupID r))
                (s_plan_groups db)) (ErrSubSQL "duplicate plan group") ;;;
    tx_put (set_plan_groups (s_plan_groups db ++ [r]) db)) (plan_group_rows planID groups).

Definition with_version (v created updated : Z) (p : PurchasePolicy) : PurchasePolicy :=
  MkPurchasePolicy (LifetimeMaxPurchases p) (PeriodType p) (PeriodMaxPurchases p) (RollingWindowHours p)
    (CalendarUnit p) (CalendarTimezone p) (AllowAdvancePurchase p) v created updated.

(** The seven columns compared by [IS DISTINCT FROM]. *)
Definition policy_columns (p : PurchasePolicy) :=
  (LifetimeMaxPurchases p, PeriodType p, PeriodMaxPurchases p, RollingWindowHours p, CalendarUnit p,
   CalendarTimezone p, AllowAdvancePurchase p).

(** [INSERT ... ON CONFLICT (plan_id, version) DO NOTHING] *)
Definition insertPurchasePolicyRevision (now : Z) (planID changedBy : string) (policy : PurchasePolicy) : STx unit :=
  let! db := tx_get in
  if existsb (fun r => seq_str (rev_PlanID r) planID && (rev_Version r =? Version policy)) (s_revisions db)
  then tx_ret tt
  else tx_put (set_policies (s_policies db) (s_revisions db ++
         [MkRevision planID (Version policy) (policy_snapshot policy) (nullif changedBy) now]) db).

Definition CreatePlanPurchasePolicy (now : Z) (planID : string) (p : PurchasePolicy) : STx PurchasePolicy :=
  let q := with_version 1 now now (NormalizePurchasePolicy p) in
  let! db := tx_get in
  tx_guard (bool_decide (planID ∈ (fst <$> s_policies db))) (ErrSubSQL "duplicate policy") ;;;
  tx_put (set_policies (s_policies db ++ [(planID, q)]) (s_revisions db) db) ;;;
  tx_ret q.

(** [UpdatePlanPurchasePolicy]: the new row, or no row when nothing changes. *)
Definition UpdatePlanPurchasePolicy (now : Z) (planID : string) (p : PurchasePolicy) : STx (option PurchasePolicy) :=
  let! db := tx_get in
  match find_key fst planID (s_policies db) with
  | None => tx_ret None
  | Some (_, cur) =>
      let q := NormalizePurchasePolicy p in
      if bool_decide (policy_columns q = policy_columns cur) then tx_ret None
      else
        let next := with_version (Version cur + 1) (pp_CreatedAt cur) now q in
        tx_guard (negb (in_int64 (Version next))) (ErrSubSQL "bigint out of range") ;;;
        tx_put (set_policies (update_where (has_key fst planID) (fun '(id, _) => (id, next)) (s_policies db))
                  (s_revisions db) db) ;;;
        tx_ret (Some next)
  end.

Definition repo_CreatePlan (now : Z) (uuid : string) (p : CreatePlanParams) : STx Plan :=
  let! db := tx_get in
  let sortOrder := NextPlanSortOrder (cp_TenantID p) db in
  let row := MkPlan uuid (cp_TenantID p) (cp_Name p) (cp_Description p) (cp_PriceMicroUSD p)
    (cp_DurationDays p) (cp_TotalLimitMicro p) (cp_Window5hLimitMicro p) (cp_Window7dLimitMicro p)
    PlanDraft sortOrder (cp_SaleLimit p) 0 0 (cp_CreatedBy p) now in
  tx_guard (negb (in_int32 sortOrder)) (ErrSubSQL "integer out of range") ;;;
  tx_guard (negb (plan_row_check row)) (ErrSubSQL "ai_sub_plans check") ;;;
  tx_guard (bool_decide (uuid ∈ (pl_ID <$> s_plans db)) || plan_name_taken row db) (ErrSubSQL "duplicate plan") ;;;
  tx_put (set_plans (s_plans db ++ [row]) db) ;;;
  insertPlanGroups uuid (cp_Groups p) ;;;
  let! policy := CreatePlanPurchasePolicy now uuid (cp_PurchasePolicy p) in
  insertPurchasePolicyRevision now uuid (cp_CreatedBy p) policy ;;;
  tx_ret row.

(** The columns [UpdatePlanByTenant] sets; counters, status and owner stay. *)
Definition edit_plan (sortOrder : Z) (p : UpdatePlanParams) (x : Plan) : Plan :=
  MkPlan (pl_ID x) (pl_TenantID x) (up_Name p) (up_Description p) (up_PriceMicroUSD p) (up_DurationDays p)
    (up_TotalLimitMicro p) (up_Window5hLimitMicro p) (up_Window7dLimitMicro p) (pl_Status x) sortOrder
    (up_SaleLimit p) (pl_SoldCount x) (pl_ReservedCount x) (pl_CreatedBy x) (pl_CreatedAt x).

Definition repo_UpdatePlanByTenant (now sortOrder : Z) (p : UpdatePlanParams) : STx bool :=
  let! db := tx_get in
  match find_key pl_ID (up_ID p) (s_plans db) with
  | None => tx_ret false
  | Some x =>
      if negb (seq_str (pl_TenantID x) (up_TenantID p)) then tx_ret false
      else
        let row := edit_plan sortOrder p x in
        tx_guard (negb (plan_row_check row)) (ErrSubSQL "ai_sub_plans check") ;;;
        tx_guard (plan_name_taken row db) (ErrSubSQL "ai_sub_plans_name_unique") ;;;
        tx_put (set_plans (update_where (has_key pl_ID (up_ID p)) (edit_plan sortOrder p) (s_plans db)) db) ;;;
        let! db1 := tx_get in
        tx_put (set_plan_groups (List.filter (fun g => negb (seq_str (pg_PlanID g) (up_ID p))) (s_plan_groups db1)) db1) ;;;
        insertPlanGroups (up_ID p) (up_Groups p) ;;;
        (match up_PurchasePolicy p with
         | None => tx_ret tt
         | Some q =>
             let! updated := UpdatePlanPurchasePolicy now (up_ID p) q in
             match updated with
             | None => tx_ret tt
             | Some next => insertPurchasePolicyRevision now (up_ID p) (up_UpdatedBy p) next
             end
         end) ;;;
        tx_ret true
  end.

Definition with_plan_status (status : string) (x : Plan) : Plan :=
  MkPlan (pl_ID x) (pl_TenantID x) (pl_Name x) (pl_Description x) (pl_PriceMicroUSD x) (pl_DurationDays x)
    (pl_TotalLimitMicro x) (pl_Window5hLimitMicro x) (pl_Window7dLimitMicro x) status (pl_SortOrder x)
    (pl_SaleLimit x) (pl_SoldCount x) (pl_ReservedCount x) (pl_CreatedBy x) (pl_CreatedAt x).
Definition with_sort_order (n : Z) (x : Plan) : Plan :=
  MkPlan (pl_ID x) (pl_TenantID x) (pl_Name x) (pl_Description x) (pl_PriceMicroUSD x) (pl_DurationDays x)
    (pl_TotalLimitMicro x) (pl_Window5hLimitMicro x) (pl_Window7dLimitMicro x) (pl_Status x) n
    (pl_SaleLimit x) (pl_SoldCount x) (pl_ReservedCount x) (pl_CreatedBy x) (pl_CreatedAt x).

Definition repo_SetPlanStatusByTenant (id tenantID status : string) : STx bool :=
  let! db := tx_get in
  let p x := seq_str (pl_ID x) id && seq_str (pl_TenantID x) tenantID in
  tx_put (set_plans (update_where p (with_plan_status status) (s_plans db)) db) ;;;
  tx_ret (0 <? count_where p (s_plans db)).

(** One statement: positions are written only when every id is a plan of the
    tenant. *)
Fixpoint position (id : string) (ids : list string) : option Z :=
  match ids with
  | [] => None
  | x :: rest => if seq_str x id then Some 1 else (fun n => n + 1) <$> position id rest
  end.
Definition repo_ReorderPlansByTenant (tenantID : string) (ids : list string) : STx unit :=
  let! db := tx_get in
  let mine id := existsb (fun x => seq_str (pl_ID x) id && seq_str (pl_TenantID x) tenantID) (s_plans db) in
  tx_guard (negb (forallb mine ids)) ErrPlanReorderInvalid ;;;
  tx_put (set_plans ((fun x => match position (pl_ID x) ids with
                               | Some n => with_sort_order (n * 10) x
                               | None => x
                               end) <$> s_plans db) db).

(** ** The service *)

Section Zones.
Context (LoadLocation : string -> option Location).

(** [if err := f(); err != nil { return err }] over pure validations. *)
Definition first_error (checks : list (option sub_error)) : option sub_error :=
  match List.find (fun c => negb (is_nil c)) checks with Some c => c | None => None end.

Definition policy_check (p : PurchasePolicy) : option sub_error :=
  ErrPolicy <$> ValidatePurchasePolicy LoadLocation p.
Definition sale_limit_check (n : option Z) : option sub_error :=
  match n with Some v => if v <? 1 then Some ErrPlanSaleLimitInvalid else None | None => None end.

Definition CreatePlan (p : CreatePlanParams) : txprog (result sub_error Plan) :=
  match first_error [policy_check (NormalizePurchasePolicy (cp_PurchasePolicy p));
      validatePlanShape (cp_DurationDays p) (cp_PriceMicroUSD p) (cp_TotalLimitMicro p)
        (cp_Window5hLimitMicro p) (cp_Window7dLimitMicro p);
      sale_limit_check (cp_SaleLimit p); validatePlanGroups (cp_Groups p)] with
  | Some e => Done (Err e)
  | None =>
      Call (fun _ => ensureGroupsVisible (cp_TenantID p) (gb_GroupID <$> cp_Groups p)) (fun r =>
        match r with
        | Err e => Done (Err e)
        | Ok _ => Call (fun e => repo_CreatePlan (e_now e) (e_uuid e) p) Done
        end)
  end.

Definition UpdatePlan (p : UpdatePlanParams) : txprog (result sub_error bool) :=
  match first_error [match up_PurchasePolicy p with Some q => policy_check (NormalizePurchasePolicy q) | None => None end;
      validatePlanShape (up_DurationDays p) (up_PriceMicroUSD p) (up_TotalLimitMicro p)
        (up_Window5hLimitMicro p) (up_Window7dLimitMicro p);
      sale_limit_check (up_SaleLimit p); validatePlanGroups (up_Groups p)] with
  | Some e => Done (Err e)
  | None =>
      Call (fun _ => ensureGroupsVisible (up_TenantID p) (gb_GroupID <$> up_Groups p)) (fun r =>
        match r with
        | Err e => Done (Err e)
        | Ok _ =>
            Call (fun _ db => match find_key pl_ID (up_ID p) (s_plans db) with
                              | Some x => Ok (x, db) | None => Err ErrPlanNotFound end) (fun r =>
              match r with
              | Err e => Done (Err e)
              | Ok current =>
                  if negb (seq_str (pl_TenantID current) (up_TenantID p)) then Done (Ok false)
                  else if match up_SaleLimit p with
                          | Some n => n <? wrap32 (pl_SoldCount current + pl_ReservedCount current)
                          | None => false end
                  then Done (Err ErrPlanSaleLimitInvalid)
                  else Call (fun e => repo_UpdatePlanByTenant (e_now e) (pl_SortOrder current) p) Done
              end)
        end)
  end.
End Zones.

Definition ReorderPlans (tenantID : string) (ids : list string) : txprog (result sub_error unit) :=
  if negb (validReorder tenantID ids) then Done (Err ErrPlanReorderInvalid)
  else Call (fun _ => repo_ReorderPlansByTenant tenantID ids) Done.

Definition SetPlanStatus (id tenantID status : string) : txprog (result sub_error bool) :=
  let set := Call (fun _ => repo_SetPlanStatusByTenant id tenantID status) Done in
  if negb (bool_decide (status ∈ [PlanDraft; PlanOnSale; PlanOffSale])) then Done (Err ErrInvalidStatus)
  else if seq_str status PlanOnSale then
    Call (fun _ db => match find_key pl_ID id (s_plans db) with
                      | Some x => Ok ((x, loadPlanGroups id db), db) | None => Err ErrPlanNotFound end) (fun r =>
      match r with
      | Err e => Done (Err e)
      | Ok (plan, groups) =>
          if negb (seq_str (pl_TenantID plan) tenantID) then Done (Ok false)
          else match groups with
               | [] => Done (Err ErrPlanNeedsGroups)
               | _ => Call (fun _ => ensureGroupsVisible tenantID (pg_GroupID <$> groups)) (fun r =>
                        match r with Err e => Done (Err e) | Ok _ => set end)
               end
      end)
  else set.
