(* ===== verification/SubscriptionSystem.v ===== *)
(** * The subscription system under concurrency

    Any number of purchases, janitor sweeps, gates, meters and plan edits run at
    once; one step runs the next transaction of one of them, crashes one, or lets
    the rest of the program move money in the ledger.  The invariant of
    [SubscriptionFacts] holds in every reachable state. *)

From S2P Require Import Prelude GoStrings CivilTime PurchasePolicy PurchasePolicyProps Ledger LedgerFacts LedgerProps Subscription SubscriptionFacts SubscriptionPlans.

(** ** Plan management is safe *)

Lemma sub_ok_other db db' :
  s_orders db' = s_orders db -> s_subs db' = s_subs db -> s_plans db' = s_plans db ->
  s_ledger db' = s_ledger db -> sub_ok db -> sub_ok db' /\ sub_trans db db'.
Proof.
  intros Ho Hs Hp Hl [H1 H2 H3 H4 H5 H6]. split; [split; by rewrite ?Ho, ?Hs, ?Hp, ?Hl|].
  split; [intros o Hin; exists o; rewrite Ho; by split|]. intros u. unfold user_balance. by rewrite Ho, Hl.
Qed.

(** The part of a plan the invariant reads. *)
Definition plan_counters (p : Plan) := (pl_ID p, pl_SoldCount p, pl_ReservedCount p).

Lemma sub_ok_edit_plans db plans' :
  sub_ok db -> plan_counters <$> plans' = plan_counters <$> s_plans db ->
  (forall p, p ∈ plans' -> plan_inventory_ok p = true) ->
  sub_ok (set_plans plans' db) /\ sub_trans db (set_plans plans' db).
Proof.
  intros [H1 H2 H3 H4 H5 H6] Hc Hchk.
  assert (Hids : pl_ID <$> plans' = pl_ID <$> s_plans db).
  { apply (f_equal (fmap (fun i => i.1.1))) in Hc. by rewrite <- !list_fmap_compose in Hc. }
  split; [split; simpl; try done; try by rewrite Hids|].
  - intros p Hp. assert (Hin : plan_counters p ∈ (plan_counters <$> s_plans db))
      by (rewrite <- Hc; by apply list_elem_of_fmap_2).
    apply list_elem_of_fmap in Hin as (q & Heq & Hq). destruct (H5 q Hq) as (Hr & Hs & _).
    unfold plan_counters in Heq. injection Heq as -> -> ->. by split_and!; [| |apply Hchk].
  - split; [|done]. intros o Ho. exists o. by split.
Qed.

Lemma edit_where_ok db (p : Plan -> bool) f :
  sub_ok db -> (forall x, plan_counters (f x) = plan_counters x) ->
  (forall x, x ∈ s_plans db -> p x = true -> plan_inventory_ok (f x) = true) ->
  sub_ok (set_plans (update_where p f (s_plans db)) db) /\
  sub_trans db (set_plans (update_where p f (s_plans db)) db).
Proof.
  intros Hok Hf Hchk. apply sub_ok_edit_plans; [done | by apply (keys_update_where plan_counters)|].
  intros x Hx. apply elem_of_update_where in Hx as (a & Ha & ->). destruct (p a) eqn:Hpa; [by apply Hchk|].
  by apply (so_inventory _ Hok).
Qed.

Lemma safe_other {A} (m : STx A) :
  (forall db a db', m db = Ok (a, db') -> s_orders db' = s_orders db /\ s_subs db' = s_subs db /\
     s_plans db' = s_plans db /\ s_ledger db' = s_ledger db) -> safe m.
Proof. intros H db a db' Hok Hrun. apply H in Hrun as (?&?&?&?). by apply sub_ok_other. Qed.

Lemma safe_iter {A} (f : A -> STx unit) l : (forall x, safe (f x)) -> safe (tx_iter f l).
Proof.
  intros Hf. induction l as [|x l IH]; simpl; [apply safe_ret | by apply safe_bind].
Qed.

Lemma safe_insertPlanGroups id groups : safe (insertPlanGroups id groups).
Proof. apply safe_iter. intros r. apply safe_other. intros db a db' H. by tx_inv H. Qed.
Lemma safe_insertPurchasePolicyRevision now id by_ p : safe (insertPurchasePolicyRevision now id by_ p).
Proof. apply safe_other. intros db a db' H. unfold insertPurchasePolicyRevision in H. by tx_inv H. Qed.
Lemma safe_CreatePlanPurchasePolicy now id p : safe (CreatePlanPurchasePolicy now id p).
Proof. apply safe_other. intros db a db' H. unfold CreatePlanPurchasePolicy in H. by tx_inv H. Qed.
Lemma safe_UpdatePlanPurchasePolicy now id p : safe (UpdatePlanPurchasePolicy now id p).
Proof. apply safe_other. intros db a db' H. unfold UpdatePlanPurchasePolicy in H. by tx_inv H. Qed.
Lemma safe_ensureGroupsVisible t ids : safe (ensureGroupsVisible t ids).
Proof. apply safe_bind; auto with sub_safe. Qed.
#[export] Hint Resolve safe_insertPlanGroups safe_insertPurchasePolicyRevision safe_CreatePlanPurchasePolicy
  safe_UpdatePlanPurchasePolicy safe_ensureGroupsVisible : sub_safe.

Lemma plan_row_check_inventory p : plan_row_check p = true -> plan_inventory_ok p = true.
Proof. unfold plan_row_check. intros H. by bool_prop. Qed.

Lemma insert_plan_ok db row :
  sub_ok db -> (pl_ID row ∉ (pl_ID <$> s_plans db)) -> pl_SoldCount row = 0 -> pl_ReservedCount row = 0 ->
  plan_inventory_ok row = true ->
  sub_ok (set_plans (s_plans db ++ [row]) db) /\ sub_trans db (set_plans (s_plans db ++ [row]) db).
Proof.
  intros [H1 H2 H3 H4 H5 H6] Hfresh Hs Hr Hchk.
  assert (Hzero : forall f, (forall o, f o = true -> so_PlanID o = pl_ID row) -> count_where f (s_orders db) = 0).
  { intros f Hf. apply sumZ_zero. intros o Ho. destruct (f o) eqn:Hfo; [|done].
    destruct Hfresh. rewrite <- (Hf o Hfo). by apply H4. }
  split; [|split; [intros o Ho; exists o; by split | done]].
  split; simpl; try done.
  - rewrite fmap_app. apply NoDup_app. split; [done|]. split; [|apply NoDup_singleton].
    intros x Hx Hx2. by apply list_elem_of_singleton in Hx2 as ->.
  - intros o Ho. rewrite fmap_app. apply elem_of_app. left. by apply H4.
  - intros p [Hp | ->%list_elem_of_singleton]%elem_of_app; [by apply H5|].
    rewrite !Hzero; [done | |]; intros o Ho; unfold held_by, sold_by, seq_str in Ho; by bool_prop.
Qed.

Lemma safe_repo_CreatePlan now uuid p : safe (repo_CreatePlan now uuid p).
Proof.
  intros db a db' Hok H. unfold repo_CreatePlan in H. rewrite tx_get_bind in H. cbv zeta in H.
  apply tx_bind_ok in H as (? & ? & Hg & H). apply tx_guard_ok in Hg as [_ ->].
  apply tx_bind_ok in H as (? & ? & Hg & H). apply tx_guard_ok in Hg as [Hg ->].
  apply tx_bind_ok in H as (? & ? & Hd & H). apply tx_guard_ok in Hd as [Hd ->].
  apply tx_bind_ok in H as (? & d & Hput & H). unfold tx_put in Hput. injection Hput as _ <-. bool_prop.
  match type of H with ?m (set_plans (_ ++ [?row]) _) = _ =>
    destruct (insert_plan_ok db row) as [Hok1 T1]; [done | done | done | done | by apply plan_row_check_inventory|];
    assert (Hm : safe m) end.
  { apply safe_bind; [auto with sub_safe|]. intros _. apply safe_bind; [auto with sub_safe|]. intros q.
    apply safe_bind; [auto with sub_safe|]. intros _. apply safe_ret. }
  destruct (Hm _ _ _ Hok1 H) as [Hok2 T2]. split; [done | by etransitivity].
Qed.

Lemma safe_repo_UpdatePlanByTenant now sortOrder p : safe (repo_UpdatePlanByTenant now sortOrder p).
Proof.
  intros db a db' Hok H. unfold repo_UpdatePlanByTenant in H. rewrite tx_get_bind in H.
  destruct (find_key pl_ID (up_ID p) (s_plans db)) as [x|] eqn:Hf; [|by unfold tx_ret in H; injection H as <- <-].
  destruct (negb _); [by unfold tx_ret in H; injection H as <- <-|]. cbv zeta in H.
  apply tx_bind_ok in H as (? & ? & Hg & H). apply tx_guard_ok in Hg as [Hg ->]. bool_prop.
  apply tx_bind_ok in H as (? & ? & Hd & H). apply tx_guard_ok in Hd as [_ ->].
  apply tx_bind_ok in H as (? & d & Hput & H). unfold tx_put in Hput. injection Hput as _ <-.
  destruct (edit_where_ok db (has_key pl_ID (up_ID p)) (edit_plan sortOrder p) Hok) as [Hok1 T1]; [done | |].
  { intros y Hy Hyid. unfold has_key in Hyid. bool_prop. apply find_key_Some in Hf as [Hx Hxid].
    rewrite (keyed_unique pl_ID (s_plans db) y x) by (done || apply Hok || congruence).
    by apply plan_row_check_inventory. }
  rewrite tx_get_bind in H. apply tx_bind_ok in H as (? & d & Hput & H).
  unfold tx_put in Hput. injection Hput as _ <-.
  match type of H with ?m ?d0 = _ =>
    assert (Hm : safe m); [|destruct (sub_ok_other (set_plans (update_where (has_key pl_ID (up_ID p))
      (edit_plan sortOrder p) (s_plans db)) db) d0) as [Hok2 T2]; [done..|]] end.
  { apply safe_bind; [auto with sub_safe|]. intros _. apply safe_bind; [|intros; apply safe_ret].
    destruct (up_PurchasePolicy p); [|apply safe_ret]. apply safe_bind; [auto with sub_safe|].
    intros [q|]; auto with sub_safe. }
  destruct (Hm _ _ _ Hok2 H) as [Hok3 T3]. split; [done|]. etransitivity; [exact T1|]. by etransitivity.
Qed.

Lemma safe_SetPlanStatus_tx id tenantID status : safe (repo_SetPlanStatusByTenant id tenantID status).
Proof.
  intros db a db' Hok H. unfold repo_SetPlanStatusByTenant in H. tx_inv H.
  apply edit_where_ok; try done. intros x Hx _. pose proof (so_inventory _ Hok x Hx) as (_ & _ & Hc). exact Hc.
Qed.

Lemma safe_Reorder_tx tenantID ids : safe (repo_ReorderPlansByTenant tenantID ids).
Proof.
  intros db a db' Hok H. unfold repo_ReorderPlansByTenant in H. tx_inv H.
  apply sub_ok_edit_plans; [done | |].
  - rewrite <- list_fmap_compose. apply list_fmap_ext. intros i x _. simpl. by destruct (position _ _).
  - intros x (y & -> & Hy)%list_elem_of_fmap. pose proof (so_inventory _ Hok y Hy) as (_ & _ & Hc).
    by destruct (position _ _).
Qed.

(** ** Programs that keep the invariant whatever happens between their steps

    Between two steps of a program the others may do anything that keeps the
    invariant and lets orders evolve forward; its own steps are transitions. *)

Fixpoint thread_safe {A} (p : txprog A) (db : sub_db) : Prop :=
  match p with
  | Done _ => True
  | Call m k => forall db1 e, sub_ok db1 -> orders_evolve db db1 ->
      let '(db2, r) := run_tx (m e) db1 in
      sub_ok db2 /\ sub_trans db1 db2 /\ thread_safe (k r) db2
  end.

Lemma thread_safe_evolve {A} (p : txprog A) db db' :
  orders_evolve db db' -> thread_safe p db -> thread_safe p db'.
Proof.
  intros T. destruct p as [a | R m k]; simpl; [done|]. intros H db1 e Hok T1. apply H; [done|].
  by etransitivity.
Qed.

(** A step whose result the rest of the program does not depend on knowing. *)
Lemma thread_safe_call {A R} (m : env -> STx R) (k : result sub_error R -> txprog A) db :
  (forall e, safe (m e)) -> (forall r db', sub_ok db' -> thread_safe (k r) db') -> thread_safe (Call m k) db.
Proof.
  intros Hm Hk db1 e Hok T. unfold run_tx. destruct (m e db1) as [[a d] | err] eqn:Hrun.
  - destruct (Hm e db1 a d Hok Hrun) as [Hok' T']. split; [done|]. split; [done|]. by apply Hk.
  - split; [done|]. split; [done|]. by apply Hk.
Qed.

Lemma thread_safe_bind {A B} (p : txprog A) (q : A -> txprog B) db :
  thread_safe p db -> (forall a db', orders_evolve db db' -> thread_safe (q a) db') ->
  thread_safe (prog_bind p q) db.
Proof.
  revert db. induction p as [a | R m k IH]; intros db Hp Hq; simpl; [by apply Hq|].
  intros db1 e Hok T. specialize (Hp db1 e Hok T). destruct (run_tx (m e) db1) as [db2 r].
  destruct Hp as (Hok2 & T2 & Hk). split; [done|]. split; [done|]. apply IH; [done|].
  intros a db' T'. apply Hq. etransitivity; [exact T|]. etransitivity; [apply T2 | done].
Qed.

Lemma safe_read_live t u e : safe (read_live t u e).
Proof. apply safe_same. intros db a db' H. by injection H. Qed.

Lemma finalize_safe o ref {A} (k : result sub_error Subscription -> txprog A) db :
  order_debited db o ref -> (forall r db', sub_ok db' -> thread_safe (k r) db') ->
  thread_safe (Call (fun e => FinalizeOrder (e_now e) (e_uuid e) (so_ID o) ref) k) db.
Proof.
  intros Hd Hk db1 e Hok T. unfold run_tx.
  destruct (FinalizeOrder (e_now e) (e_uuid e) (so_ID o) ref db1) as [[s d] | err] eqn:Hrun.
  - apply FinalizeOrder_run in Hrun as (Hok' & T' & _); [|done | by eapply order_debited_trans].
    split; [done|]. split; [done|]. by apply Hk.
  - split; [done|]. split; [done|]. by apply Hk.
Qed.

Lemma debit_safe o t u {A} (k : result sub_error string -> txprog A) db :
  order_known db o ->
  (forall ref db', sub_ok db' -> order_debited db' o ref -> thread_safe (k (Ok ref)) db') ->
  (forall e db', sub_ok db' -> thread_safe (k (Err e)) db') ->
  thread_safe (Call (fun e => DebitStrict (e_now e) (debit_request_of o t u)) k) db.
Proof.
  intros Hkn Hk Hke db1 e Hok T. unfold run_tx.
  destruct (DebitStrict (e_now e) (debit_request_of o t u) db1) as [[ref d] | err] eqn:Hrun.
  - apply DebitStrict_run in Hrun as (Hok' & T' & Hd & _); [|done | by eapply order_known_trans].
    split; [done|]. split; [done|]. by apply Hk.
  - split; [done|]. split; [done|]. by apply Hke.
Qed.

Lemma fail_safe o reason {A} (k : result sub_error bool -> txprog A) db :
  (forall r db', sub_ok db' -> thread_safe (k r) db') ->
  thread_safe (Call (fun e => MarkOrderFailed (e_now e) (so_ID o) reason) k) db.
Proof. intros Hk. apply thread_safe_call; [intros; apply safe_MarkOrderFailed | done]. Qed.

Lemma purchase_debit_safe p o db : order_known db o -> thread_safe (purchase_debit p o) db.
Proof.
  intros Hkn. unfold purchase_debit. apply debit_safe; [done | |].
  - intros ref db' Hok' Hd. apply finalize_safe; [done|]. intros r db2 Hok2. destruct r as [s|e]; [|done].
    apply thread_safe_call; [|done]. intros e.
    apply safe_same. intros d a d' H. by destruct (find_key _ _ _); [injection H|].
  - intros e db' Hok'. destruct e; try exact I. by apply fail_safe.
Qed.

Lemma Purchase_safe L no mq p db : thread_safe (Purchase L no mq p) db.
Proof.
  unfold Purchase. destruct (seq_str _ _); [done|]. intros db1 e Hok T. unfold run_tx.
  destruct (ReservePurchase L (e_now e) (e_uuid e) (no p) p mq db1) as [[r d] | err] eqn:Hrun; [|done].
  apply ReservePurchase_run in Hrun as (Hok' & T' & Hr); [|done]. split; [done|]. split; [done|].
  assert (Hgo : forall o, order_known d o -> thread_safe
    (if so_PriceMicroUSD o <=? 0 then Done (NotBought None ErrPlanQuotaInvalid)
     else Call (fun e => MarkOrderDeducting (e_now e) (so_ID o)) (fun r =>
            match r with Err e => Done (NotBought None e) | Ok _ => purchase_debit p o end)) d).
  { intros o Hkn. destruct (_ <=? 0); [done|]. intros db2 e2 Hok2 T2. unfold run_tx.
    destruct (MarkOrderDeducting (e_now e2) (so_ID o) db2) as [[b d2] | err] eqn:Hrun2; [|done].
    destruct (safe_MarkOrderDeducting _ _ _ _ _ Hok2 Hrun2) as [Hok3 T3]. split; [done|]. split; [done|].
    apply purchase_debit_safe. eapply order_known_trans; [apply T3|]. by eapply order_known_trans. }
  destruct r as [o replayed | dec]; [|done].
  assert (Hkn : order_known d o).
  { exists o. split; [|done]. destruct replayed; [destruct Hr as (Ho & -> & _) | destruct Hr as (Ho & _)]; done. }
  destruct replayed; [|by apply Hgo].
  destruct (seq_str (so_Status o) OrderPaid).
  { apply thread_safe_call; [intros; apply safe_GetSubscription|]. by intros [s|er]. }
  destruct (order_open o); [done|]. destruct (seq_str (so_Status o) OrderFailed); [|by apply Hgo].
  by case_bool_decide.
Qed.

Lemma reconcileOrder_safe o db : order_known db o -> thread_safe (reconcileOrder o) db.
Proof.
  intros Hkn. unfold reconcileOrder. destruct (_ <=? 0).
  { apply (fail_safe o "invalid_price"). done. }
  apply debit_safe; [done | |].
  - intros ref db' Hok' Hd. by apply finalize_safe.
  - intros e db' Hok'. destruct e; try exact I. by apply fail_safe.
Qed.

Lemma ListReconcileOrders_known cutoff limit db o :
  o ∈ ListReconcileOrders cutoff limit db -> order_known db o.
Proof.
  unfold ListReconcileOrders. intros H. apply elem_of_take in H as (i & H & _).
  apply list_elem_of_lookup_2 in H. rewrite elem_of_order_by in H.
  apply list_elem_of_In, List.filter_In in H as [H _]. exists o. split; [by apply list_elem_of_In | done].
Qed.

Lemma reconcile_all_safe orders : forall db,
  (forall o, o ∈ orders -> order_known db o) ->
  thread_safe (foldr (fun o rest => prog_bind (reconcileOrder o) (fun _ => rest)) (Done tt) orders) db.
Proof.
  induction orders as [|o orders IH]; intros db Hall; [done|]. simpl. apply thread_safe_bind.
  - apply reconcileOrder_safe, Hall, list_elem_of_here.
  - intros _ db' T'. apply IH. intros x Hx. eapply order_known_trans; [exact T'|].
    apply Hall. by apply list_elem_of_further.
Qed.

Lemma sweepOnce_safe now db : thread_safe (sweepOnce now) db.
Proof.
  unfold sweepOnce. apply thread_safe_call; [auto with sub_safe|]. intros _ d Hokd db1 e Hok T.
  unfold run_tx. cbv beta. split; [done|]. split; [done|].
  apply reconcile_all_safe. apply ListReconcileOrders_known.
Qed.

Lemma resolve_activate_safe t u a p db : thread_safe (resolve_activate t u a p) db.
Proof.
  unfold resolve_activate. destruct a; [done|]. destruct p; [|done].
  apply thread_safe_call; [auto with sub_safe|]. intros [n|] d Hok; [|done].
  destruct (0 <? n); (apply thread_safe_call; [intros; auto using safe_read_live with sub_safe | by intros []]).
Qed.

Lemma resolveActive_safe now t u db : thread_safe (resolveActive now t u) db.
Proof.
  apply thread_safe_call; [apply safe_read_live|]. intros [live|] d Hok; [|done].
  destruct (classify live) as [[a|] p]; [|apply resolve_activate_safe].
  destruct (match ss_ExpiresAt a with Some _ => _ | None => _ end); [|apply resolve_activate_safe].
  apply thread_safe_call; [auto with sub_safe|]. intros [n|] d2 Hok2; [|done].
  destruct (0 <? n); [apply resolve_activate_safe|].
  apply thread_safe_call; [apply safe_read_live|]. intros [l2|] d3 Hok3; [|done].
  destruct (classify l2). apply resolve_activate_safe.
Qed.

Lemma ResolveForGate_safe now now2 t u db : thread_safe (ResolveForGate now now2 t u) db.
Proof. apply thread_safe_bind; [apply resolveActive_safe | done]. Qed.

Definition meter (id : string) (micro : Z) : txprog (result sub_error unit) :=
  Call (fun e => DebitAdmitted (e_now e) id micro) Done.
Lemma meter_safe id micro db : thread_safe (meter id micro) db.
Proof. apply thread_safe_call; [auto with sub_safe | done]. Qed.

Lemma CreatePlan_safe L p db : thread_safe (CreatePlan L p) db.
Proof.
  unfold CreatePlan. destruct (first_error _); [done|].
  apply thread_safe_call; [auto with sub_safe|]. intros [[]|] d Hok; [|done].
  apply thread_safe_call; [intros; apply safe_repo_CreatePlan | done].
Qed.
Lemma UpdatePlan_safe L p db : thread_safe (UpdatePlan L p) db.
Proof.
  unfold UpdatePlan. destruct (first_error _); [done|].
  apply thread_safe_call; [auto with sub_safe|]. intros [[]|] d Hok; [|done].
  apply thread_safe_call.
  { intros _. apply safe_same. intros x a y H. destruct (find_key _ _ _); [by injection H | done]. }
  intros [cur|] d2 Hok2; [|done]. destruct (negb _); [done|].
  destruct (match up_SaleLimit p with Some _ => _ | None => _ end); [done|].
  apply thread_safe_call; [intros; apply safe_repo_UpdatePlanByTenant | done].
Qed.
Lemma ReorderPlans_safe t ids db : thread_safe (ReorderPlans t ids) db.
Proof.
  unfold ReorderPlans. destruct (negb _); [done|].
  apply thread_safe_call; [intros; apply safe_Reorder_tx | done].
Qed.
Lemma SetPlanStatus_safe id t status db : thread_safe (SetPlanStatus id t status) db.
Proof.
  unfold SetPlanStatus. destruct (negb (bool_decide _)); [done|]. cbv zeta.
  assert (Hset : forall d, thread_safe (Call (fun _ => repo_SetPlanStatusByTenant id t status) Done) d)
    by (intros d; apply thread_safe_call; [intros; apply safe_SetPlanStatus_tx | done]).
  destruct (seq_str status PlanOnSale); [|apply Hset]. apply thread_safe_call.
  { intros _. apply safe_same. intros x a y H. destruct (find_key _ _ _); [by injection H | done]. }
  intros [[plan groups]|] d Hok; [|done]. destruct (negb _); [done|]. destruct groups; [done|].
  apply thread_safe_call; [auto with sub_safe|]. intros [[]|] d2 Hok2; [apply Hset | done].
Qed.

(** ** The system *)

Section System.
Context (LoadLocation : string -> option Location) (purchaseOrderNo : PurchaseParams -> string) (maxQueue : Z).

(** The entry points of the component. *)
Inductive entry :=
| EPurchase (p : PurchaseParams)
| ESweep (app_now : Z)
| EGate (app_now app_now2 : Z) (tenantID userID : string)
| EMeter (id : string) (micro : Z)
| ECreatePlan (p : CreatePlanParams)
| EUpdatePlan (p : UpdatePlanParams)
| EReorder (tenantID : string) (ids : list string)
| ESetStatus (id tenantID status : string).

Definition forget {A} (p : txprog A) : txprog unit := prog_bind p (fun _ => Done tt).
Definition program (e : entry) : txprog unit :=
  match e with
  | EPurchase p => forget (Purchase LoadLocation purchaseOrderNo maxQueue p)
  | ESweep now => sweepOnce now
  | EGate n n2 t u => forget (ResolveForGate n n2 t u)
  | EMeter id micro => forget (meter id micro)
  | ECreatePlan p => forget (CreatePlan LoadLocation p)
  | EUpdatePlan p => forget (UpdatePlan LoadLocation p)
  | EReorder t ids => forget (ReorderPlans t ids)
  | ESetStatus id t s => forget (SetPlanStatus id t s)
  end.

Lemma program_safe e db : thread_safe (program e) db.
Proof.
  destruct e; [| apply sweepOnce_safe | ..]; (apply thread_safe_bind; [|done]);
    auto using Purchase_safe, ResolveForGate_safe, meter_safe, CreatePlan_safe, UpdatePlan_safe,
      ReorderPlans_safe, SetPlanStatus_safe.
Qed.

(** The database, the running calls, and for every account what it would hold
    had this component never debited it. *)
Record sys := Sys {
  sys_db : sub_db;
  sys_threads : list (txprog unit);
  sys_funds : string -> Z }.

Definition balance_change (l l' : ledger_db) (u : string) : Z :=
  default 0 (balances_of l' !! u) - default 0 (balances_of l !! u).

Inductive sys_step : sys -> sys -> Prop :=
| sys_spawn db ts ext e : sys_step (Sys db ts ext) (Sys db (ts ++ [program e]) ext)
| sys_run db ts ext i R (m : env -> STx R) k e :
    ts !! i = Some (Call m k) ->
    sys_step (Sys db ts ext) (Sys (run_tx (m e) db).1 (<[i := k (run_tx (m e) db).2]> ts) ext)
| sys_crash db ts ext i : sys_step (Sys db ts ext) (Sys db (delete i ts) ext)
| sys_ledger db ts ext l' :
    ledger_step (s_ledger db) l' ->
    sys_step (Sys db ts ext)
      (Sys (set_sub_ledger l' db) ts (fun u => ext u + balance_change (s_ledger db) l' u)).

Definition sys_start (db : sub_db) : sys :=
  Sys db [] (fun u => user_balance db u + debited (s_orders db) u).

Definition sys_ok (s : sys) : Prop :=
  sub_ok (sys_db s) /\ (forall p, p ∈ sys_threads s -> thread_safe p (sys_db s)) /\
  (forall u, user_balance (sys_db s) u + debited (s_orders (sys_db s)) u = sys_funds s u).

Lemma sys_step_ok s s' : sys_step s s' -> sys_ok s -> sys_ok s'.
Proof.
  destruct 1 as [db ts ext e | db ts ext i R m k e Hi | db ts ext i | db ts ext l' Hl];
    intros (Hok & Hts & Hm); simpl in *.
  - split; [done|]. split; [|done]. simpl. intros p [Hp | ->%list_elem_of_singleton]%elem_of_app;
      [by apply Hts | apply program_safe].
  - pose proof (Hts _ (list_elem_of_lookup_2 _ _ _ Hi)) as Hthr. simpl in Hthr.
    specialize (Hthr db e Hok (reflexivity db)). destruct (run_tx (m e) db) as [db2 r]. simpl.
    destruct Hthr as (Hok2 & T2 & Hk). split; [done|]. split; [|intros u; by rewrite (st_money _ _ T2)].
    intros p Hp. simpl in Hp |- *. apply list_elem_of_lookup in Hp as [j Hj].
    destruct (decide (i = j)) as [<- | Hne].
    + apply lookup_lt_Some in Hi. rewrite list_lookup_insert in Hj. rewrite decide_True in Hj by done.
      by injection Hj as <-.
    + rewrite list_lookup_insert_ne in Hj by done. apply list_elem_of_lookup_2 in Hj.
      eapply thread_safe_evolve; [apply T2 | by apply Hts].
  - split; [done|]. split; [|done]. simpl. intros p Hp. apply Hts.
    apply list_elem_of_lookup in Hp as [j Hj].
    destruct (decide (j < i)%nat).
    + rewrite list_lookup_delete_lt in Hj by lia. by eapply list_elem_of_lookup_2.
    + rewrite list_lookup_delete_ge in Hj by lia. by eapply list_elem_of_lookup_2.
  - destruct Hok as [H1 H2 H3 H4 H5 H6]. pose proof (ledger_step_ok _ _ Hl H6) as H6'.
    split; [by split|]. split.
    + intros p Hp. eapply thread_safe_evolve; [|by apply Hts]. intros o Ho. exists o. by split.
    + intros u. simpl. rewrite <- Hm. unfold user_balance, balance_change. simpl. lia.
Qed.

(** C4: whatever runs at once — purchases, janitor sweeps, gates, meters, plan
    edits, crashes, other ledger traffic — every reachable state of the
    subscription tables is consistent: the plan counters are exactly the open
    and the paid reservations and never exceed the sale limit, paid orders and
    subscriptions correspond one to one with the order's snapshot as
    entitlement, and every account holds exactly its funds less the price of
    each of its debited orders, each charged once. *)
Theorem subscription_system_safe db s :
  sub_ok db -> rtc sys_step (sys_start db) s ->
  sub_ok (sys_db s) /\
  (forall u, user_balance (sys_db s) u = sys_funds s u - debited (s_orders (sys_db s)) u).
Proof.
  intros Hok Hreach. cut (sys_ok s).
  { intros (H1 & _ & H3). split; [done|]. intros u. rewrite <- H3. lia. }
  refine (rtc_ind_r (fun s => sys_ok s) (sys_start db) _ _ s Hreach).
  - split; [done|]. split; [|done]. intros p Hp. by apply not_elem_of_nil in Hp.
  - intros x y _ Hstep. by apply sys_step_ok.
Qed.
End System.
