(* ===== verification/SubscriptionProps.v ===== *)
(** * Properties of subscription purchases *)

From S2P Require Import Prelude GoStrings CivilTime PurchasePolicy PurchasePolicyProps Ledger LedgerFacts LedgerProps Subscription SubscriptionFacts SubscriptionPlans SubscriptionSystem.

#[local] Arguments reference_taken : simpl never.

(** ** Progress of the single transactions *)

Lemma debit_reference_inj a b : debit_reference_of a = debit_reference_of b -> a = b.
Proof. unfold debit_reference_of. simpl. intros H. by injection H. Qed.

(** No other order carries this order's reference. *)
Lemma reference_free db x :
  sub_ok db -> x ∈ s_orders db ->
  reference_taken (so_ID x) (Some (debit_reference_of (so_OrderNo x))) db = false.
Proof.
  intros Hok Hx. unfold reference_taken. apply not_true_iff_false. rewrite existsb_exists.
  intros (y & Hy & Hb). apply list_elem_of_In in Hy. unfold seq_str in Hb. bool_prop.
  pose proof (oo_refs _ (so_orders _ Hok) y _ Hy H0) as Heq%debit_reference_inj.
  apply H. f_equal. apply (keyed_unique so_OrderNo (s_orders db)); try done. apply Hok.
Qed.

Lemma orderNo_not_key no : seq_str no (keyPrefix +:+ no) = false.
Proof.
  apply seq_str_false. intros H. apply (f_equal String.length) in H.
  rewrite length_append in H. simpl in H. lia.
Qed.

Lemma order_found db x :
  sub_ok db -> x ∈ s_orders db ->
  find_key so_ID (so_ID x) (s_orders db) = Some x /\ find_key so_OrderNo (so_OrderNo x) (s_orders db) = Some x.
Proof. intros Hok Hx. split; apply find_key_elem; try done; apply Hok. Qed.

(** A user who can pay, or has paid, for an open order. *)
Definition covered (db : sub_db) (x : Order) : Prop :=
  so_TenantID x <> ""%string /\ so_UserID x <> ""%string /\ so_OrderNo x <> ""%string /\
  (so_DebitReference x <> None \/ so_PriceMicroUSD x <= user_balance db (so_UserID x)).

Lemma seq_str_refl s : seq_str s s = true.
Proof. by apply seq_str_true. Qed.

Lemma DebitStrict_total now x db :
  sub_ok db -> x ∈ s_orders db -> order_open x = true -> covered db x ->
  exists db', DebitStrict now (debit_request_of x (so_TenantID x) (so_UserID x)) db =
    Ok (debit_reference_of (so_OrderNo x), db').
Proof.
  intros Hok Hx Hopen (Ht & Hu & Hno & Hfund). destruct (order_found db x Hok Hx) as [Hfid Hfno].
  pose proof (oo_prices _ (so_orders _ Hok) x Hx) as Hpos.
  unfold DebitStrict. cbv zeta. cbn [dr_IdempotencyKey dr_TenantID dr_UserID dr_TenantMicro dr_UserMicro debit_request_of].
  rewrite TrimPrefix_app, orderNo_not_key, (proj2 (seq_str_false _ _) Ht), (proj2 (seq_str_false _ _) Hno).
  rewrite (proj2 (Z.ltb_ge (so_PriceMicroUSD x) 0)) by lia. unfold tx_bind at 1 2 3 4. simpl.
  rewrite tx_get_bind, Hfno, !seq_str_refl. unfold tx_bind at 1. simpl.
  destruct (so_DebitReference x) as [ref|] eqn:Href.
  { rewrite (oo_refs _ (so_orders _ Hok) x ref Hx Href). simpl. by eexists. }
  simpl. destruct Hfund as [Hf | Hfund]; [done|].
  assert (Hst : negb (seq_str (so_Status x) OrderDeducting) && negb (seq_str (so_Status x) OrderCreated) = false).
  { apply order_open_status in Hopen as [-> | ->]; done. }
  rewrite Hst. rewrite (proj2 (Z.ltb_lt 0 (so_PriceMicroUSD x))) by lia.
  rewrite (proj2 (seq_str_false _ _) Hu).
  unfold user_balance in Hfund. rewrite balances_of_lookup in Hfund.
  destruct (bill_accounts (s_ledger db) !! so_UserID x) as [a|] eqn:Ha; [|simpl in Hfund; lia].
  destruct (ChargeIfFunded_run (s_ledger db) (MkRef KindUser (so_UserID x) (so_TenantID x)) (so_PriceMicroUSD x) a)
    as (l' & Hrun & _); [apply Hok | done | done | simpl in Hfund; lia |].
  unfold tx_bind, tx_guard, tx_ret, tx_get, on_sub_ledger, tx_zoom, tx_map_err. rewrite Hrun.
  change (reference_taken (so_ID x) (Some (debit_reference_of (so_OrderNo x))) (set_sub_ledger l' db))
    with (reference_taken (so_ID x) (Some (debit_reference_of (so_OrderNo x))) db).
  rewrite reference_free by done. simpl. unfold update_order, tx_bind, tx_get. simpl. rewrite Hfid, Href. simpl.
  by eexists.
Qed.

(** Plan counters that still fit their INTEGER columns. *)
Definition counters_fit (db : sub_db) : Prop :=
  forall p, p ∈ s_plans db -> pl_SoldCount p < int32_max /\ pl_ReservedCount p <= int32_max.

Lemma FinalizeOrder_total now uuid x ref db :
  sub_ok db -> counters_fit db -> x ∈ s_orders db -> order_open x = true ->
  so_DebitReference x = Some ref -> (uuid ∉ (ss_ID <$> s_subs db)) ->
  exists s db', FinalizeOrder now uuid (so_ID x) ref db = Ok (s, db').
Proof.
  intros Hok Hfit Hx Hopen Href Hfresh. destruct (order_found db x Hok Hx) as [Hfid _].
  pose proof (open_not_paid _ Hopen) as Hunpaid.
  unfold FinalizeOrder. rewrite tx_get_bind, Hfid, (proj2 (seq_str_false _ _) Hunpaid). cbv zeta.
  set (status := if existsb _ _ then _ else _). unfold createSubscription. cbv zeta. cbn [ss_ID ss_OrderID].
  assert (Hnew : bool_decide (uuid ∈ (ss_ID <$> s_subs db))
                 || bool_decide (so_ID x ∈ (ss_OrderID <$> s_subs db)) = false).
  { rewrite bool_decide_false by done. apply bool_decide_false.
    intros (s & Heq & Hs)%list_elem_of_fmap. destruct (sa_subs _ _ (so_sales _ Hok) s Hs) as (o & Ho & Hpd & _ & Hid).
    unfold sub_ident, order_ident in Hid.
    assert (o = x) as -> by (apply (keyed_unique so_ID (s_orders db)); try done; [apply Hok | congruence]). done. }
  unfold tx_bind at 1. unfold tx_bind at 1, tx_get at 1. unfold tx_bind at 1, tx_guard at 1. rewrite Hnew.
  unfold tx_ret at 1, tx_bind at 1, tx_put at 1, tx_ret at 1.
  unfold MarkOrderPaid. unfold tx_bind at 1. unfold tx_bind at 1, tx_get at 1. unfold tx_bind at 1, tx_guard at 1.
  assert (Hnull : nullif ref = Some ref /\ ref = debit_reference_of (so_OrderNo x)).
  { pose proof (oo_refs _ (so_orders _ Hok) x ref Hx Href) as ->. split; [|done].
    unfold nullif. by rewrite bool_decide_false. }
  destruct Hnull as [Hnull Hrefeq]. rewrite Hnull, Hrefeq.
  match goal with |- context [reference_taken ?i ?r ?d] =>
    change (reference_taken i r d) with (reference_taken i r db) end.
  rewrite reference_free by done. unfold tx_ret at 1.
  unfold update_order, tx_bind at 1. unfold tx_get at 1. cbn [s_orders set_subs].
  unfold tx_bind at 1. rewrite Hfid, Hopen. unfold tx_bind at 1, tx_put at 1, tx_ret at 1.
  unfold tx_bind at 1, tx_guard at 1. change (1 =? 0) with false. unfold tx_ret at 1.
  destruct (so_InventoryReserved x) eqn:Hinv; [|by eexists _, _].
  unfold CommitPlanInventorySale, update_counts.
  pose proof (so_plan_refs _ Hok x Hx) as (p & Hpid & Hp)%list_elem_of_fmap.
  assert (Hfp : find_key pl_ID (so_PlanID x) (s_plans db) = Some p)
    by (rewrite Hpid; apply find_key_elem; [apply Hok | done]).
  destruct (so_inventory _ Hok p Hp) as (Hr & Hs & Hc). destruct (Hfit p Hp) as [Hs32 Hr32].
  assert (Hge : 1 <= pl_ReservedCount p).
  { rewrite Hr. unfold count_where.
    pose proof (sumZ_elem_le (fun a => if held_by (pl_ID p) a then 1 else 0) (s_orders db) x
      ltac:(intros b _; simpl; destruct (held_by _ b); lia) Hx) as Hle.
    simpl in Hle. unfold held_by in Hle at 1. rewrite Hopen, Hinv, Hpid, seq_str_refl in Hle. simpl in Hle. lia. }
  assert (Hcheck : negb (in_int32 (pl_SoldCount (commit_one p)) && in_int32 (pl_ReservedCount (commit_one p))
     && plan_inventory_ok (commit_one p)) = false).
  { unfold plan_inventory_ok, in_int32, commit_one, int32_min, int32_max in *. simpl. bool_prop.
    rewrite !(proj2 (Z.leb_le _ _)) by lia. simpl.
    destruct (pl_SaleLimit p); [|done]. bool_prop. rewrite (proj2 (Z.leb_le _ _)) by lia. done. }
  unfold tx_bind, tx_get, tx_guard, tx_put, tx_ret. cbn [s_plans set_sub_orders set_subs].
  rewrite Hfp, (proj2 (Z.ltb_lt 0 _)) by lia. rewrite Hcheck. simpl. by eexists _, _.
Qed.

(** ** Transactions that move no money *)

Definition keeps_ledger {A} (m : STx A) : Prop :=
  forall db a db', m db = Ok (a, db') -> s_ledger db' = s_ledger db.

Create HintDb sub_ledger.

Lemma keeps_bind {A B} (m : STx A) (k : A -> STx B) :
  keeps_ledger m -> (forall a, keeps_ledger (k a)) -> keeps_ledger (tx_bind m k).
Proof.
  intros Hm Hk db b db' H. apply tx_bind_ok in H as (a & d & H1 & H2).
  rewrite (Hk _ _ _ _ H2). by eapply Hm.
Qed.
Lemma keeps_ret {A} (a : A) : keeps_ledger (tx_ret a).
Proof. intros db x db' H. by tx_inv H. Qed.
Lemma keeps_fail {A} e : keeps_ledger (A := A) (tx_fail e).
Proof. intros db x db' H. by tx_inv H. Qed.
Lemma keeps_get : keeps_ledger tx_get.
Proof. intros db x db' H. by tx_inv H. Qed.
Lemma keeps_guard b e : keeps_ledger (tx_guard b e).
Proof. destruct b; [apply keeps_fail | apply keeps_ret]. Qed.
Lemma keeps_update_sub id c f : keeps_ledger (update_sub id c f).
Proof. intros db a db' H. by apply update_sub_run in H as [[_ ->] | (s & _ & _ & _ & ->)]. Qed.
Lemma keeps_update_order id c f : keeps_ledger (update_order id c f).
Proof. intros db a db' H. by apply update_order_run in H as [(_ & -> & _) | (s & _ & _ & _ & ->)]. Qed.
Lemma keeps_update_counts id c f : keeps_ledger (update_counts id c f).
Proof. intros db a db' H. by apply update_counts_run in H as [[_ ->] | (s & _ & _ & _ & _ & ->)]. Qed.
Lemma keeps_Expire now id : keeps_ledger (ExpireSubscriptionIfDue now id).
Proof. apply keeps_update_sub. Qed.
Lemma keeps_Activate now id : keeps_ledger (ActivateSubscription now id).
Proof. apply keeps_update_sub. Qed.
Lemma keeps_Reserve id : keeps_ledger (ReservePlanInventory id).
Proof. apply keeps_update_counts. Qed.
Lemma keeps_Release id : keeps_ledger (ReleasePlanInventory id).
Proof. apply keeps_update_counts. Qed.
Lemma keeps_Commit id : keeps_ledger (CommitPlanInventorySale id).
Proof. apply keeps_update_counts. Qed.
Lemma keeps_Deducting now id : keeps_ledger (MarkOrderDeducting now id).
Proof. apply keeps_bind; [apply keeps_update_order | intros; apply keeps_ret]. Qed.
#[export] Hint Resolve keeps_bind keeps_ret keeps_fail keeps_get keeps_guard keeps_update_order
  keeps_Expire keeps_Activate keeps_Reserve keeps_Release keeps_Commit keeps_Deducting : sub_ledger.

Lemma keeps_createOrder now uuid no p plan gs pol inv : keeps_ledger (createOrder now uuid no p plan gs pol inv).
Proof.
  intros db o db' H. apply createOrder_run in H. by destruct H as (_ & _ & _ & -> & _).
Qed.

Lemma keeps_advance now t u : keeps_ledger (advanceLiveSubscriptions now t u).
Proof.
  unfold advanceLiveSubscriptions. apply keeps_bind; [apply keeps_get|]. intros db.
  destruct (classify _) as [active pending]. apply keeps_bind.
  { destruct active; [destruct (negb _)|]; auto with sub_ledger. }
  intros n. apply keeps_bind; [|auto with sub_ledger].
  destruct pending; [destruct (match active with Some _ => _ | None => _ end)|]; auto with sub_ledger.
Qed.

Lemma keeps_ReservePurchase L now uuid no p mq : keeps_ledger (ReservePurchase L now uuid no p mq).
Proof.
  unfold ReservePurchase. apply keeps_bind; [apply keeps_get|]. intros db.
  destruct (find_key _ _ _); [auto with sub_ledger|].
  destruct (find_key _ _ _) as [plan|]; [|apply keeps_fail].
  apply keeps_bind; [auto with sub_ledger|]. intros _. apply keeps_bind; [auto with sub_ledger|]. intros _.
  destruct (GetPlanPurchasePolicy _ _); [|apply keeps_fail].
  apply keeps_bind; [auto with sub_ledger|]. intros _. apply keeps_bind.
  { apply keeps_bind; [apply keeps_advance | auto with sub_ledger]. }
  intros st. destruct (EvaluatePurchaseEligibility _ _ _); [|apply keeps_fail].
  destruct (negb _); [apply keeps_ret|]. apply keeps_bind; [auto with sub_ledger|]. intros n.
  apply keeps_bind; [auto with sub_ledger|]. intros _.
  apply keeps_bind; [apply keeps_createOrder | auto with sub_ledger].
Qed.

Lemma keeps_FinalizeOrder now uuid id ref : keeps_ledger (FinalizeOrder now uuid id ref).
Proof.
  unfold FinalizeOrder. apply keeps_bind; [apply keeps_get|]. intros db.
  destruct (find_key _ _ _) as [cur|]; [|apply keeps_fail]. destruct (seq_str _ _).
  { destruct (so_SubscriptionID cur); [|apply keeps_fail]. destruct (find_key _ _ _); auto with sub_ledger. }
  cbv zeta. apply keeps_bind.
  { intros d s d' H. apply createSubscription_run in H. by destruct H as (_ & _ & -> & _). }
  intros s. apply keeps_bind.
  { apply keeps_bind; [apply keeps_get|]. auto with sub_ledger. }
  intros n. apply keeps_bind; [auto with sub_ledger|]. intros _. apply keeps_bind; [|auto with sub_ledger].
  destruct (so_InventoryReserved cur); auto with sub_ledger.
Qed.

Lemma keeps_MarkOrderFailed now id reason : keeps_ledger (MarkOrderFailed now id reason).
Proof.
  unfold MarkOrderFailed. apply keeps_bind; [apply keeps_get|]. intros db.
  destruct (find_key _ _ _); [|apply keeps_fail]. apply keeps_bind; [auto with sub_ledger|]. intros n.
  destruct (_ && _); auto with sub_ledger.
Qed.

Lemma keeps_balance {A} (m : STx A) db a db' u :
  keeps_ledger m -> m db = Ok (a, db') -> user_balance db' u = user_balance db u.
Proof. intros Hm H. unfold user_balance. by rewrite (Hm _ _ _ H). Qed.

(** ** From debit to subscription *)

(** What a completed sale of order [x] looks like. *)
Definition sold_to (db' : sub_db) (x paid : Order) (s : Subscription) : Prop :=
  sub_ok db' /\ paid ∈ s_orders db' /\ order_key paid = order_key x /\ so_Status paid = OrderPaid /\
  so_SubscriptionID paid = Some (ss_ID s) /\ s ∈ s_subs db' /\ ss_OrderID s = so_ID x.

Lemma same_order db x y : sub_ok db -> x ∈ s_orders db -> y ∈ s_orders db -> order_key x = order_key y -> x = y.
Proof.
  intros Hok Hx Hy Hk. apply (keyed_unique so_ID (s_orders db)); try done; [apply Hok|].
  unfold order_key in Hk. congruence.
Qed.

Lemma debit_then_finalize now1 now2 uuid x db :
  sub_ok db -> counters_fit db -> x ∈ s_orders db -> order_open x = true -> covered db x ->
  (uuid ∉ (ss_ID <$> s_subs db)) ->
  exists ref db1 s db2 paid,
    DebitStrict now1 (debit_request_of x (so_TenantID x) (so_UserID x)) db = Ok (ref, db1) /\
    FinalizeOrder now2 uuid (so_ID x) ref db1 = Ok (s, db2) /\
    sold_to db2 x paid s /\ sub_trans db db2 /\
    forall u, user_balance db2 u = user_balance db u -
      (if is_nil (so_DebitReference x) && seq_str (so_UserID x) u then so_PriceMicroUSD x else 0).
Proof.
  intros Hok Hfit Hx Hopen Hcov Hfresh.
  destruct (DebitStrict_total now1 x db Hok Hx Hopen Hcov) as [db1 Hdeb].
  destruct (DebitStrict_run now1 x _ _ db _ db1 Hok ltac:(by exists x) Hdeb)
    as (Hok1 & T1 & Hod & Hpl & Hsubs & x' & y & Hx' & Hxk & Hy & Hyk & Hyr & Hyst & Hbal).
  rewrite (same_order db x' x Hok Hx' Hx Hxk) in *. clear x' Hx' Hxk.
  assert (Hyid : so_ID y = so_ID x) by (unfold order_key in Hyk; congruence).
  assert (Hyopen : order_open y = true) by (unfold order_open in *; by rewrite Hyst).
  destruct (FinalizeOrder_total now2 uuid y _ db1 Hok1 ltac:(unfold counters_fit; by rewrite Hpl) Hy Hyopen Hyr
    ltac:(by rewrite Hsubs)) as (s & db2 & Hfin).
  rewrite Hyid in Hfin.
  destruct (FinalizeOrder_run now2 uuid x _ db1 s db2 Hok1 Hod Hfin) as (Hok2 & T2 & paid & Hp).
  exists (debit_reference_of (so_OrderNo x)), db1, s, db2, paid.
  split; [done|]. split; [done|]. split; [by split|]. split; [by etransitivity|].
  intros u. rewrite (keeps_balance _ _ _ _ u (keeps_FinalizeOrder _ _ _ _) Hfin).
  destruct (so_DebitReference x) as [r|]; simpl; [by subst db1; lia|]. by apply Hbal.
Qed.

(** ** Purchase *)

Section PurchaseRuns.
Context (L : string -> option Location) (no : PurchaseParams -> string) (mq : Z) (p : PurchaseParams).

(** The reservation of a new order, as the first transaction of the purchase. *)
Definition reserves (e : env) (db : sub_db) (o : Order) (db1 : sub_db) : Prop :=
  ReservePurchase L (e_now e) (e_uuid e) (no p) p mq db = Ok (Reserved o false, db1).

Lemma reserves_facts e db o db1 :
  sub_ok db -> reserves e db o db1 ->
  sub_ok db1 /\ sub_trans db db1 /\ o ∈ s_orders db1 /\ so_Status o = OrderCreated /\
  so_OrderNo o = no p /\ so_TenantID o = pu_TenantID p /\ so_UserID o = pu_UserID p /\
  so_PlanID o = pu_PlanID p /\ so_DebitReference o = None /\ so_InventoryReserved o = true /\
  (forall u, user_balance db1 u = user_balance db u).
Proof.
  intros Hok H. pose proof (fun u => keeps_balance _ _ _ _ u (keeps_ReservePurchase _ _ _ _ _ _) H) as Hbal.
  pose proof H as H2. apply ReservePurchase_run in H2 as (Hok1 & T & Ho & Hno & Hst); [|done].
  do 5 (split; [done|]). unfold reserves, ReservePurchase in H. rewrite tx_get_bind in H.
  destruct (find_key so_OrderNo _ _); [apply tx_bind_ok in H as (? & ? & _ & H); discriminate H|].
  destruct (find_key pl_ID _ _) as [plan|] eqn:Hplan; [|done].
  apply tx_bind_ok in H as (? & ? & _ & H). apply tx_bind_ok in H as (? & ? & _ & H).
  destruct (GetPlanPurchasePolicy _ _); [|done].
  apply tx_bind_ok in H as (? & ? & _ & H). apply tx_bind_ok in H as (? & ? & _ & H).
  destruct (EvaluatePurchaseEligibility _ _ _); [|done]. destruct (negb _); [discriminate H|].
  apply tx_bind_ok in H as (? & ? & _ & H). apply tx_bind_ok in H as (? & ? & _ & H).
  apply tx_bind_ok in H as (o' & ? & Hcr & H). unfold tx_ret in H. injection H as -> ->.
  apply createOrder_run in Hcr as (_ & _ & _ & _ & _ & Hpl & Hinv & _ & Href & _ & _ & Ht & Hu).
  apply find_key_Some in Hplan as [_ Hpid]. rewrite Hpl, Hpid. done.
Qed.

Lemma Deducting_total now o db :
  sub_ok db -> o ∈ s_orders db -> so_Status o = OrderCreated ->
  exists db', MarkOrderDeducting now (so_ID o) db = Ok (true, db') /\ sub_ok db' /\ sub_trans db db' /\
    with_status OrderDeducting now o ∈ s_orders db' /\ s_plans db' = s_plans db /\ s_subs db' = s_subs db /\
    (forall u, user_balance db' u = user_balance db u).
Proof.
  intros Hok Ho Hst. destruct (order_found db o Hok Ho) as [Hf _].
  set (db' := set_sub_orders (update_where (has_key so_ID (so_ID o)) (with_status OrderDeducting now) (s_orders db)) db).
  assert (Hrun : MarkOrderDeducting now (so_ID o) db = Ok (true, db')).
  { unfold MarkOrderDeducting, update_order, tx_bind, tx_get, tx_put, tx_ret. rewrite Hf, Hst. done. }
  destruct (safe_MarkOrderDeducting _ _ _ _ _ Hok Hrun) as [Hok' T].
  exists db'. split; [done|]. split; [done|]. split; [done|]. split; [|done].
  apply elem_update_order; [apply Hok | done | by left].
Qed.

(** C37: an accepted purchase by a user who can pay completes: run alone it
    answers with the paid order and its subscription, takes exactly the price
    from that user and nothing from anyone else, and asking again with the same
    key returns the same order and subscription without changing anything. *)
Theorem Purchase_completes es db o db1 :
  sub_ok db -> pu_IdempotencyKey p <> ""%string -> no p <> ""%string ->
  pu_TenantID p <> ""%string -> pu_UserID p <> ""%string ->
  reserves (es 0%nat) db o db1 -> counters_fit db1 ->
  so_PriceMicroUSD o <= user_balance db (pu_UserID p) ->
  (e_uuid (es 3%nat) ∉ (ss_ID <$> s_subs db1)) ->
  exists paid s db',
    run_prog es (Purchase L no mq p) db = (Bought paid s, db') /\ sold_to db' o paid s /\
    (forall u, user_balance db' u =
       user_balance db u - (if seq_str (pu_UserID p) u then so_PriceMicroUSD o else 0)) /\
    (forall es2, run_prog es2 (Purchase L no mq p) db' = (Bought paid s, db')).
Proof.
  intros Hok Hkey Hno Ht Hu Hres Hfit Hfund Hfresh.
  destruct (reserves_facts (es 0%nat) db o db1 Hok Hres)
    as (Hok1 & T1 & Ho & Hst & Hono & Hot & Hou & Hopl & Href & _ & Hb1).
  destruct (Deducting_total (e_now (es 1%nat)) o db1 Hok1 Ho Hst) as (db2 & Hded & Hok2 & T2 & Hx & Hpl2 & Hsub2 & Hb2).
  set (x := with_status OrderDeducting (e_now (es 1%nat)) o) in *.
  pose proof (oo_prices _ (so_orders _ Hok1) o Ho) as Hpos.
  destruct (debit_then_finalize (e_now (es 2%nat)) (e_now (es 3%nat)) (e_uuid (es 3%nat)) x db2)
    as (ref & db3 & s & db4 & paid & Hdeb & Hfin & Hsold & T4 & Hb4); try done.
  { unfold counters_fit. by rewrite Hpl2. }
  { split; [simpl; by rewrite Hot|]. split; [simpl; by rewrite Hou|]. split; [simpl; by rewrite Hono|].
    right. simpl. rewrite Hb2, Hb1, Hou. done. }
  { by rewrite Hsub2. }
  change (debit_request_of x (so_TenantID x) (so_UserID x))
    with (debit_request_of o (so_TenantID o) (so_UserID o)) in Hdeb. rewrite Hot, Hou in Hdeb.
  change (so_ID x) with (so_ID o) in Hfin.
  destruct Hsold as (Hok4 & Hpin & Hpk & Hpst & Hpsub & Hsin & Hsord). change (order_key x) with (order_key o) in Hpk.
  assert (Hpid : so_ID paid = so_ID o) by (unfold order_key in Hpk; congruence).
  destruct (order_found db4 paid Hok4 Hpin) as [Hfid Hfno]. rewrite Hpid in Hfid.
  exists paid, s, db4. split; [|split; [by split|split]].
  - unfold Purchase. rewrite (proj2 (seq_str_false _ _) Hkey). cbn [run_prog]. unfold run_tx at 1.
    unfold reserves in Hres. rewrite Hres. rewrite (proj2 (Z.leb_gt _ 0)) by lia.
    cbn [run_prog]. unfold run_tx at 1. rewrite Hded. unfold purchase_debit. cbn [run_prog].
    unfold run_tx at 1. rewrite Hdeb. cbn [run_prog]. unfold run_tx at 1. rewrite Hfin. cbn [run_prog].
    unfold run_tx. by rewrite Hfid.
  - intros u. rewrite Hb4, Hb2, Hb1. simpl. rewrite Href, Hou. done.
  - intros es2. unfold Purchase. rewrite (proj2 (seq_str_false _ _) Hkey). cbn [run_prog]. unfold run_tx at 1.
    unfold ReservePurchase. rewrite tx_get_bind.
    assert (Hpno : so_OrderNo paid = no p) by (unfold order_key in Hpk; congruence).
    rewrite <- Hpno, Hfno.
    assert (Hown : so_TenantID paid = pu_TenantID p /\ so_UserID paid = pu_UserID p /\ so_PlanID paid = pu_PlanID p)
      by (unfold order_key in Hpk; split; [|split]; congruence).
    destruct Hown as (-> & -> & ->). rewrite !seq_str_refl. unfold tx_bind, tx_guard, tx_ret. simpl.
    rewrite Hpst. change (seq_str OrderPaid OrderPaid) with true. cbv iota. cbn [run_prog]. unfold run_tx.
    unfold GetSubscription. rewrite tx_get_bind, Hpsub. simpl.
    rewrite (find_key_elem ss_ID (s_subs db4) s); [done | apply Hok4 | done].
Qed.
End PurchaseRuns.

(** ** Refusal *)

Lemma DebitStrict_insufficient now x db a :
  sub_ok db -> x ∈ s_orders db -> order_open x = true -> so_DebitReference x = None ->
  so_TenantID x <> ""%string -> so_UserID x <> ""%string -> so_OrderNo x <> ""%string ->
  balances_of (s_ledger db) !! so_UserID x = Some a -> a < so_PriceMicroUSD x ->
  DebitStrict now (debit_request_of x (so_TenantID x) (so_UserID x)) db = Err ErrSubInsufficientBalance.
Proof.
  intros Hok Hx Hopen Href Ht Hu Hno Ha Hlow. destruct (order_found db x Hok Hx) as [_ Hfno].
  pose proof (oo_prices _ (so_orders _ Hok) x Hx) as Hpos.
  unfold DebitStrict. cbv zeta. cbn [dr_IdempotencyKey dr_TenantID dr_UserID dr_TenantMicro dr_UserMicro debit_request_of].
  rewrite TrimPrefix_app, orderNo_not_key, (proj2 (seq_str_false _ _) Ht), (proj2 (seq_str_false _ _) Hno).
  rewrite (proj2 (Z.ltb_ge (so_PriceMicroUSD x) 0)) by lia. unfold tx_bind at 1 2 3 4. simpl.
  rewrite tx_get_bind, Hfno, !seq_str_refl, Href. unfold tx_bind at 1. simpl.
  assert (Hst : negb (seq_str (so_Status x) OrderDeducting) && negb (seq_str (so_Status x) OrderCreated) = false).
  { apply order_open_status in Hopen as [-> | ->]; done. }
  rewrite Hst, (proj2 (Z.ltb_lt 0 (so_PriceMicroUSD x))) by lia. rewrite (proj2 (seq_str_false _ _) Hu).
  pose proof (ChargeIfFunded_refused (s_ledger db) (MkRef KindUser (so_UserID x) (so_TenantID x))
    (so_PriceMicroUSD x) Hpos Hu) as Hrun. simpl in Hrun.
  rewrite balances_of_lookup in Ha. destruct (bill_accounts (s_ledger db) !! so_UserID x) as [acc|]; [|done].
  simpl in Ha. injection Ha as <-. specialize (Hrun Hlow).
  unfold tx_bind, tx_guard, tx_ret, on_sub_ledger, tx_zoom, tx_map_err. by rewrite Hrun.
Qed.

Lemma MarkOrderFailed_total now reason x db :
  sub_ok db -> counters_fit db -> x ∈ s_orders db -> order_open x = true ->
  exists db', MarkOrderFailed now (so_ID x) reason db = Ok (true, db') /\ sub_ok db' /\ sub_trans db db' /\
    exists y, y ∈ s_orders db' /\ order_key y = order_key x /\ so_Status y = OrderFailed /\
      so_FailReason y = nullif reason /\ so_DebitReference y = so_DebitReference x /\
      so_SubscriptionID y = so_SubscriptionID x.
Proof.
  intros Hok Hfit Hx Hopen. destruct (order_found db x Hok Hx) as [Hfid _].
  set (f := fun o => with_fail_reason reason (with_status OrderFailed now o)).
  assert (Hy : forall pl', f x ∈ s_orders (set_plans pl'
    (set_sub_orders (update_where (has_key so_ID (so_ID x)) f (s_orders db)) db)))
    by (intros; apply elem_update_order; [apply Hok | done | by left]).
  assert (Hrun : exists pl', MarkOrderFailed now (so_ID x) reason db = Ok (true, set_plans pl'
    (set_sub_orders (update_where (has_key so_ID (so_ID x)) f (s_orders db)) db))).
  { unfold MarkOrderFailed. rewrite tx_get_bind, Hfid.
    unfold update_order, tx_bind at 1. unfold tx_bind at 1. unfold tx_get at 1. rewrite Hfid, Hopen.
    unfold tx_bind at 1, tx_put at 1, tx_ret at 1. simpl.
    destruct (so_InventoryReserved x) eqn:Hinv; [|exists (s_plans db); by destruct db].
    unfold ReleasePlanInventory, update_counts.
    pose proof (so_plan_refs _ Hok x Hx) as (p & Hpid & Hp)%list_elem_of_fmap.
    assert (Hfp : find_key pl_ID (so_PlanID x) (s_plans db) = Some p)
      by (rewrite Hpid; apply find_key_elem; [apply Hok | done]).
    destruct (so_inventory _ Hok p Hp) as (Hr & Hs & Hc). destruct (Hfit p Hp) as [Hs32 Hr32].
    assert (Hge : 1 <= pl_ReservedCount p).
    { rewrite Hr. unfold count_where.
      pose proof (sumZ_elem_le (fun a => if held_by (pl_ID p) a then 1 else 0) (s_orders db) x
        ltac:(intros b _; simpl; destruct (held_by _ b); lia) Hx) as Hle.
      simpl in Hle. unfold held_by in Hle at 1. rewrite Hopen, Hinv, Hpid, seq_str_refl in Hle. simpl in Hle. lia. }
    assert (Hcheck : negb (in_int32 (pl_SoldCount (release_one p)) && in_int32 (pl_ReservedCount (release_one p))
       && plan_inventory_ok (release_one p)) = false).
    { unfold plan_inventory_ok, in_int32, release_one, int32_min, int32_max in *. simpl. bool_prop.
      rewrite !(proj2 (Z.leb_le _ _)) by lia. simpl.
      destruct (pl_SaleLimit p); [|done]. bool_prop. rewrite (proj2 (Z.leb_le _ _)) by lia. done. }
    unfold tx_bind, tx_get, tx_guard, tx_put, tx_ret. cbn [s_plans set_sub_orders].
    rewrite Hfp, (proj2 (Z.ltb_lt 0 _)) by lia. rewrite Hcheck. simpl. by eexists. }
  destruct Hrun as [pl' Hrun]. destruct (safe_MarkOrderFailed _ _ _ _ _ _ Hok Hrun) as [Hok' T'].
  eexists. split; [exact Hrun|]. split; [done|]. split; [done|]. exists (f x). split; [apply Hy|]. done.
Qed.

(** An accepted purchase the user cannot pay for is refused without a trace
    on any balance: the answer is [ErrInsufficientBalance], the order ends failed
    and undebited, its reserved unit is back on sale (the plan counters are again
    exactly the open and the paid orders), and the order stays failed whatever is
    asked with that key later. *)
Theorem Purchase_refused L no mq p es db o db1 a :
  sub_ok db -> pu_IdempotencyKey p <> ""%string -> no p <> ""%string ->
  pu_TenantID p <> ""%string -> pu_UserID p <> ""%string ->
  reserves L no mq p (es 0%nat) db o db1 -> counters_fit db1 ->
  balances_of (s_ledger db) !! pu_UserID p = Some a -> a < so_PriceMicroUSD o ->
  exists failed db',
    run_prog es (Purchase L no mq p) db = (NotBought None ErrSubInsufficientBalance, db') /\
    sub_ok db' /\ failed ∈ s_orders db' /\ order_key failed = order_key o /\ so_Status failed = OrderFailed /\
    so_DebitReference failed = None /\ (forall u, user_balance db' u = user_balance db u) /\
    (forall es2, run_prog es2 (Purchase L no mq p) db' = (NotBought None ErrSubInsufficientBalance, db')).
Proof.
  intros Hok Hkey Hno Ht Hu Hres Hfit Ha Hlow.
  destruct (reserves_facts L no mq p (es 0%nat) db o db1 Hok Hres)
    as (Hok1 & T1 & Ho & Hst & Hono & Hot & Hou & Hopl & Href & _ & Hb1).
  assert (Hl1 : s_ledger db1 = s_ledger db) by (eapply keeps_ReservePurchase; exact Hres).
  destruct (Deducting_total (e_now (es 1%nat)) o db1 Hok1 Ho Hst) as (db2 & Hded & Hok2 & T2 & Hx & Hpl2 & Hsub2 & Hb2).
  assert (Hl2 : s_ledger db2 = s_ledger db1) by (eapply keeps_Deducting; exact Hded).
  set (x := with_status OrderDeducting (e_now (es 1%nat)) o) in *.
  pose proof (oo_prices _ (so_orders _ Hok1) o Ho) as Hpos.
  pose proof (DebitStrict_insufficient (e_now (es 2%nat)) x db2 a Hok2 Hx eq_refl Href) as Hdeb.
  simpl in Hdeb. rewrite Hot, Hou, Hono, Hl2, Hl1 in Hdeb. specialize (Hdeb Ht Hu Hno Ha Hlow).
  destruct (MarkOrderFailed_total (e_now (es 3%nat)) "insufficient_balance" x db2 Hok2)
    as (db3 & Hfail & Hok3 & T3 & y & Hy & Hyk & Hyst & Hyr & Hyd & _); [unfold counters_fit; by rewrite Hpl2 | done | done|].
  change (so_ID x) with (so_ID o) in Hfail. change (order_key x) with (order_key o) in Hyk.
  exists y, db3. split; [|split; [done|split; [done|split; [done|split; [done|split; [by rewrite Hyd|]]]]]].
  - unfold Purchase. rewrite (proj2 (seq_str_false _ _) Hkey). cbn [run_prog]. unfold run_tx at 1.
    unfold reserves in Hres. rewrite Hres. rewrite (proj2 (Z.leb_gt _ 0)) by lia.
    cbn [run_prog]. unfold run_tx at 1. rewrite Hded. unfold purchase_debit. cbn [run_prog]. unfold run_tx at 1.
    change (debit_request_of x (pu_TenantID p) (pu_UserID p))
      with (debit_request_of o (pu_TenantID p) (pu_UserID p)) in Hdeb. rewrite Hdeb.
    cbn [run_prog]. unfold run_tx. by rewrite Hfail.
  - split.
    + intros u. rewrite (keeps_balance _ _ _ _ u (keeps_MarkOrderFailed _ _ _) Hfail). by rewrite Hb2, Hb1.
    + intros es2. unfold Purchase. rewrite (proj2 (seq_str_false _ _) Hkey). cbn [run_prog]. unfold run_tx at 1.
      unfold ReservePurchase. rewrite tx_get_bind. destruct (order_found db3 y Hok3 Hy) as [_ Hfno].
      assert (Hpno : so_OrderNo y = no p) by (unfold order_key in Hyk; congruence).
      rewrite <- Hpno, Hfno.
      assert (Hown : so_TenantID y = pu_TenantID p /\ so_UserID y = pu_UserID p /\ so_PlanID y = pu_PlanID p)
        by (unfold order_key in Hyk; split; [|split]; congruence).
      destruct Hown as (-> & -> & ->). rewrite !seq_str_refl. unfold tx_bind, tx_guard, tx_ret. simpl.
      unfold order_open. rewrite Hyst, Hyr. done.
Qed.

(** ** The janitor *)

(** The janitor finishes what a crash left behind.  For every order still
    open, whether its purchase died before or after the debit, one reconciliation
    opens its subscription, charges the price exactly when it was not charged yet,
    and reconciling the same order again changes nothing. *)
Theorem reconcileOrder_completes es db x :
  sub_ok db -> counters_fit db -> x ∈ s_orders db -> order_open x = true -> covered db x ->
  (e_uuid (es 1%nat) ∉ (ss_ID <$> s_subs db)) ->
  exists paid s db', run_prog es (reconcileOrder x) db = (tt, db') /\ sold_to db' x paid s /\
    (forall u, user_balance db' u = user_balance db u -
       (if is_nil (so_DebitReference x) && seq_str (so_UserID x) u then so_PriceMicroUSD x else 0)) /\
    (forall es2, run_prog es2 (reconcileOrder x) db' = (tt, db')).
Proof.
  intros Hok Hfit Hx Hopen Hcov Hfresh. pose proof (oo_prices _ (so_orders _ Hok) x Hx) as Hpos.
  destruct (debit_then_finalize (e_now (es 0%nat)) (e_now (es 1%nat)) (e_uuid (es 1%nat)) x db)
    as (ref & db1 & s & db2 & paid & Hdeb & Hfin & Hsold & T & Hb); try done.
  exists paid, s, db2. split; [|split; [done|split; [done|]]].
  - unfold reconcileOrder. rewrite (proj2 (Z.leb_gt _ 0)) by lia. cbn [run_prog]. unfold run_tx at 1.
    rewrite Hdeb. cbn [run_prog]. unfold run_tx. by rewrite Hfin.
  - intros es2. destruct Hsold as (Hok2 & Hpin & Hpk & Hpst & Hpsub & Hsin & Hsord).
    destruct (order_found db2 paid Hok2 Hpin) as [Hfid Hfno].
    destruct (sa_paid _ _ (so_sales _ Hok2) paid Hpin Hpst) as (id & r & Hid & Hr & _).
    rewrite (oo_refs _ (so_orders _ Hok2) paid r Hpin Hr) in Hr.
    assert (Hk : so_ID paid = so_ID x /\ so_OrderNo paid = so_OrderNo x /\ so_TenantID paid = so_TenantID x /\
      so_UserID paid = so_UserID x) by (unfold order_key in Hpk; split; [|split; [|split]]; congruence).
    destruct Hk as (Hk1 & Hk2 & Hk3 & Hk4). rewrite Hk1 in Hfid. rewrite Hk2 in Hfno, Hr.
    destruct Hcov as (Ht & Hu & Hno & _).
    assert (Hdeb2 : forall now, DebitStrict now (debit_request_of x (so_TenantID x) (so_UserID x)) db2
      = Ok (debit_reference_of (so_OrderNo x), db2)).
    { intros now. unfold DebitStrict. cbv zeta.
      cbn [dr_IdempotencyKey dr_TenantID dr_UserID dr_TenantMicro dr_UserMicro debit_request_of].
      rewrite TrimPrefix_app, orderNo_not_key, (proj2 (seq_str_false _ _) Ht), (proj2 (seq_str_false _ _) Hno).
      rewrite (proj2 (Z.ltb_ge (so_PriceMicroUSD x) 0)) by lia. unfold tx_bind at 1 2 3 4. simpl.
      rewrite tx_get_bind, Hfno, Hk3, Hk4, !seq_str_refl, Hr. done. }
    unfold reconcileOrder. rewrite (proj2 (Z.leb_gt _ 0)) by lia. cbn [run_prog]. unfold run_tx at 1.
    rewrite Hdeb2. cbn [run_prog]. unfold run_tx, FinalizeOrder. rewrite tx_get_bind, Hfid, Hpst.
    change (seq_str OrderPaid OrderPaid) with true. rewrite Hpsub.
    rewrite (find_key_elem ss_ID (s_subs db2) s); [done | apply Hok2 | done].
Qed.
