(* ===== verification/SubscriptionDemo.v ===== *)
(** * Concrete subscription systems

    Witnesses of the theorems of [SubscriptionSystem] and [SubscriptionProps],
    and two schedules that reach states the component does not intend. *)

From S2P Require Import Prelude GoStrings CivilTime PurchasePolicy PurchasePolicyProps Ledger LedgerFacts LedgerProps Subscription SubscriptionFacts SubscriptionPlans SubscriptionSystem SubscriptionProps.

(** ** A shop with two plans *)

Definition demo_plan (id name : string) : Plan :=
  MkPlan id "T" name "" 50 30 1000 (Some 400) (Some 800) PlanOnSale 10 (Some 5) 0 0 "op" 0.

Definition demo_shop (l : ledger_db) : sub_db :=
  SubDB [demo_plan "X" "basic"; demo_plan "Y" "pro"]
    [MkPlanGroup "X" "G" 10000 0; MkPlanGroup "Y" "G" 10000 0]
    [("X"%string, DefaultPurchasePolicy); ("Y"%string, DefaultPurchasePolicy)] []
    [AccessGroup "G" "T" "group" "active" true] [] [] [] l.

Definition poor_ledger : ledger_db := state_of (EnsureAccount user_ref empty_ledger).
Definition rich_ledger : ledger_db :=
  state_of (Grant 1 "fund" user_ref 1000 None "ADMIN_RECHARGE" "A" poor_ledger).

Definition demo_no (p : PurchaseParams) : string := ("SUBI" +:+ pu_IdempotencyKey p)%string.
Definition demo_request (plan key : string) : PurchaseParams := MkPurchaseParams "T" "U" plan key.

Lemma poor_ledger_ok : ledger_ok poor_ledger.
Proof.
  eapply (ledger_step_ok empty_ledger); [|apply empty_ledger_ok].
  apply (step_ensure user_ref). vm_compute. reflexivity.
Qed.
Lemma rich_ledger_step : ledger_step poor_ledger rich_ledger.
Proof.
  eapply (step_grant 1 "fund" user_ref 1000 None "ADMIN_RECHARGE" "A"); [done|]. vm_compute. reflexivity.
Qed.
Lemma rich_ledger_ok : ledger_ok rich_ledger.
Proof. eapply ledger_step_ok; [apply rich_ledger_step | apply poor_ledger_ok]. Qed.

Lemma demo_shop_ok l : ledger_ok l -> sub_ok (demo_shop l).
Proof.
  intros Hl. split; simpl.
  - split; try (intros o Ho; by apply not_elem_of_nil in Ho); [constructor | constructor |].
    intros o r Ho. by apply not_elem_of_nil in Ho.
  - split; [constructor | constructor | |]; intros x Hx; by apply not_elem_of_nil in Hx.
  - apply (bool_decide_unpack _). vm_compute. exact I.
  - intros o Ho. by apply not_elem_of_nil in Ho.
  - intros p Hp. apply elem_of_cons in Hp as [-> | ->%list_elem_of_singleton]; done.
  - exact Hl.
Qed.

(** ** Running schedules *)

Inductive action :=
| ASpawn (e : entry)
| ARun (i : nat) (e : env)
| ATopUp (now : Z) (uuid : string) (micro : Z).

Section Schedules.
Let step := sys_step demo_zones demo_no 2.

Definition act (s : sys) (a : action) : sys :=
  match a with
  | ASpawn e => Sys (sys_db s) (sys_threads s ++ [program demo_zones demo_no 2 e]) (sys_funds s)
  | ARun i e =>
      match sys_threads s !! i with
      | Some (Call m k) =>
          let '(db, r) := run_tx (m e) (sys_db s) in Sys db (<[i := k r]> (sys_threads s)) (sys_funds s)
      | _ => s
      end
  | ATopUp now uuid micro =>
      if micro <=? int64_max then
        match Grant now uuid user_ref micro None "ADMIN_RECHARGE" "A" (s_ledger (sys_db s)) with
        | Ok (_, l) => Sys (set_sub_ledger l (sys_db s)) (sys_threads s)
            (fun u => sys_funds s u + balance_change (s_ledger (sys_db s)) l u)
        | Err _ => s
        end
      else s
  end.

Lemma act_steps s a : rtc step s (act s a).
Proof.
  destruct s as [db ts f]. destruct a as [e | i e | now uuid micro]; simpl.
  - apply rtc_once, sys_spawn.
  - destruct (ts !! i) as [[a | R m k]|] eqn:Hi; [done | | done].
    pose proof (sys_run demo_zones demo_no 2 db ts f i R m k e Hi) as Hs.
    destruct (run_tx (m e) db) as [db' r]. by apply rtc_once.
  - destruct (Z.leb_spec micro int64_max); [|done].
    destruct (Grant _ _ _ _ _ _ _ _) as [[lot l]|] eqn:Hg; [|done].
    apply rtc_once, sys_ledger. by eapply step_grant.
Qed.

Lemma acts_reach s l : rtc step s (fold_left act l s).
Proof.
  revert s. induction l as [|a l IH]; intros s; simpl; [done|].
  etransitivity; [apply act_steps | apply IH].
Qed.
End Schedules.

Definition at_ns (n : Z) (uuid : string) : env := MkEnv n uuid.

(** A purchase finds the account empty; before it marks its order failed, a
    top-up arrives and the janitor retries the debit. *)
Definition lost_debit : list action :=
  [ASpawn (EPurchase (demo_request "X" "k1"));
   ARun 0 (at_ns 0 "o1"); ARun 0 (at_ns 1 ""); ARun 0 (at_ns 2 "");
   ATopUp 3 "fund" 100;
   ASpawn (ESweep (61 * Second));
   ARun 1 (at_ns (61 * Second) ""); ARun 1 (at_ns (61 * Second) ""); ARun 1 (at_ns (61 * Second) "");
   ARun 0 (at_ns (61 * Second + 1) "");
   ARun 1 (at_ns (61 * Second + 2) "s1")].

Definition lost_debit_state : sys := fold_left act lost_debit (sys_start (demo_shop poor_ledger)).

(** A debited order can end failed.  From a consistent shop there is a
    schedule of one purchase, one top-up and one janitor sweep after which the
    user has been charged the price of an order that is marked failed and has no
    subscription, and nothing in the system will look at the order again. *)
Theorem debited_order_can_fail :
  sub_ok (demo_shop poor_ledger) /\
  exists s, rtc (sys_step demo_zones demo_no 2) (sys_start (demo_shop poor_ledger)) s /\
    exists o, o ∈ s_orders (sys_db s) /\ so_Status o = OrderFailed /\ so_DebitReference o <> None /\
      s_subs (sys_db s) = [] /\ user_balance (sys_db s) "U" = sys_funds s "U" - so_PriceMicroUSD o /\
      (forall cutoff limit, ListReconcileOrders cutoff limit (sys_db s) = []) /\
      (forall p, p ∈ sys_threads s -> p = Done tt).
Proof.
  split; [apply demo_shop_ok, poor_ledger_ok|].
  exists lost_debit_state. split; [apply acts_reach|].
  assert (Hdb : exists o l, s_orders (sys_db lost_debit_state) = [o] /\ s_subs (sys_db lost_debit_state) = [] /\
    so_Status o = OrderFailed /\ so_DebitReference o = Some "subscription:SUBIk1"%string /\ so_PriceMicroUSD o = 50 /\
    sys_threads lost_debit_state = l /\ (forall p, p ∈ l -> p = Done tt)).
  { unfold lost_debit_state. vm_compute. eexists _, _. split; [reflexivity|]. split; [reflexivity|].
    split; [reflexivity|]. split; [reflexivity|]. split; [reflexivity|]. split; [reflexivity|].
    intros p Hp. apply elem_of_cons in Hp as [-> | ->%list_elem_of_singleton]; reflexivity. }
  destruct Hdb as (o & l & Hords & Hsubs & Hst & Href & Hpr & Hth & Hdone).
  exists o. rewrite Hords, Hsubs, Hth. split; [by apply list_elem_of_singleton|]. split; [done|].
  split; [by rewrite Href|]. split; [done|]. split; [rewrite Hpr; vm_compute; reflexivity|].
  split; [|done]. intros cutoff limit. unfold ListReconcileOrders. rewrite Hords. simpl.
  unfold order_open. rewrite Hst. simpl. by rewrite take_nil.
Qed.

Definition day31 : Z := 31 * 24 * Hour.

Definition buy (i : nat) (n : Z) (order sub : string) : list action :=
  [ARun i (at_ns n order); ARun i (at_ns n ""); ARun i (at_ns n ""); ARun i (at_ns n sub); ARun i (at_ns n "")].

(** One plan runs out while another is queued and a third purchase is between
    its debit and its last transaction; a gate that has just expired the first
    lets that purchase finish before it activates the queued one. *)
Definition double_activation : list action :=
  [ASpawn (EPurchase (demo_request "X" "k1"))] ++ buy 0 10 "o1" "s1" ++
  [ASpawn (EPurchase (demo_request "Y" "k2"))] ++ buy 1 20 "o2" "s2" ++
  [ASpawn (EPurchase (demo_request "X" "k3"));
   ARun 2 (at_ns 30 "o3"); ARun 2 (at_ns 30 ""); ARun 2 (at_ns 30 "");
   ASpawn (EGate day31 day31 "T" "U");
   ARun 3 (at_ns day31 ""); ARun 3 (at_ns day31 "");
   ARun 2 (at_ns (day31 + 1) "s3");
   ARun 3 (at_ns (day31 + 2) "")].

Definition double_activation_state : sys :=
  fold_left act double_activation (sys_start (demo_shop rich_ledger)).

(** A user can hold two active subscriptions.  The activation statement of
    the gate checks only that its row is still pending, so a purchase finalized
    between the gate's expiry and its activation leaves both active: two periods
    run down at once. *)
Theorem two_subscriptions_can_be_active :
  sub_ok (demo_shop rich_ledger) /\
  exists s, rtc (sys_step demo_zones demo_no 2) (sys_start (demo_shop rich_ledger)) s /\
    exists a b, a ∈ s_subs (sys_db s) /\ b ∈ s_subs (sys_db s) /\ ss_ID a <> ss_ID b /\
      ss_TenantID a = ss_TenantID b /\ ss_UserID a = ss_UserID b /\
      ss_Status a = SubActive /\ ss_Status b = SubActive.
Proof.
  split; [apply demo_shop_ok, rich_ledger_ok|].
  exists double_activation_state. split; [apply acts_reach|].
  assert (Hdb : exists x a b, s_subs (sys_db double_activation_state) = [x; a; b] /\
    ss_ID a = "s2"%string /\ ss_ID b = "s3"%string /\ ss_TenantID a = ss_TenantID b /\
    ss_UserID a = ss_UserID b /\ ss_Status a = SubActive /\ ss_Status b = SubActive).
  { unfold double_activation_state. vm_compute. eexists _, _, _. split_and!; reflexivity. }
  destruct Hdb as (x & a & b & Hsubs & Ha & Hb & Ht & Hu & Hsa & Hsb).
  exists a, b. rewrite Hsubs. split; [apply list_elem_of_further, list_elem_of_here|].
  split; [apply list_elem_of_further, list_elem_of_further, list_elem_of_here|].
  split; [rewrite Ha, Hb; discriminate|]. exact (conj Ht (conj Hu (conj Hsa Hsb))).
Qed.

(** ** Witnesses *)

Lemma subscription_system_safe_witness :
  exists s, rtc (sys_step demo_zones demo_no 2) (sys_start (demo_shop rich_ledger)) s /\
    sub_ok (sys_db s) /\ user_balance (sys_db s) "U" = 850.
Proof.
  pose proof (subscription_system_safe demo_zones demo_no 2 (demo_shop rich_ledger) double_activation_state
    (demo_shop_ok _ rich_ledger_ok) (acts_reach _ _)) as [Hok _].
  exists double_activation_state. split; [apply acts_reach|]. split; [exact Hok|]. vm_compute. reflexivity.
Defined.

Definition demo_envs (i : nat) : env :=
  MkEnv (Z.of_nat i) (match i with O => "o1" | S (S (S O)) => "s1" | _ => "" end).

Definition demo_reservation (l : ledger_db) :=
  ReservePurchase demo_zones 0 "o1" "SUBIk1" (demo_request "X" "k1") 2 (demo_shop l).

Lemma Purchase_completes_witness :
  exists paid s db', run_prog demo_envs (Purchase demo_zones demo_no 2 (demo_request "X" "k1"))
      (demo_shop rich_ledger) = (Bought paid s, db') /\ user_balance db' "U" = 950 /\
    run_prog demo_envs (Purchase demo_zones demo_no 2 (demo_request "X" "k1")) db' = (Bought paid s, db').
Proof.
  destruct (demo_reservation rich_ledger) as [[[o [|]|d] db1]|e] eqn:Hr; try (vm_compute in Hr; discriminate Hr).
  destruct (Purchase_completes demo_zones demo_no 2 (demo_request "X" "k1") demo_envs (demo_shop rich_ledger) o db1)
    as (paid & s & db' & Hrun & _ & Hb & Hagain);
    [apply demo_shop_ok, rich_ledger_ok | done | done | done | done | exact Hr | | | |].
  - vm_compute in Hr. injection Hr as _ <-. intros p Hp%list_elem_of_In.
    vm_compute in Hp. destruct Hp as [<- | [<- | []]]; vm_compute; split; [reflexivity | discriminate | reflexivity | discriminate].
  - vm_compute in Hr. injection Hr as <- _. vm_compute. discriminate.
  - vm_compute in Hr. injection Hr as _ <-. intros H. by apply not_elem_of_nil in H.
  - exists paid, s, db'. split; [exact Hrun|]. split; [|apply Hagain].
    rewrite Hb. vm_compute in Hr. injection Hr as <- _. vm_compute. reflexivity.
Defined.

Lemma Purchase_refused_witness :
  exists db', run_prog demo_envs (Purchase demo_zones demo_no 2 (demo_request "X" "k1"))
      (demo_shop poor_ledger) = (NotBought None ErrSubInsufficientBalance, db') /\ user_balance db' "U" = 0.
Proof.
  destruct (demo_reservation poor_ledger) as [[[o [|]|d] db1]|e] eqn:Hr; try (vm_compute in Hr; discriminate Hr).
  destruct (Purchase_refused demo_zones demo_no 2 (demo_request "X" "k1") demo_envs (demo_shop poor_ledger) o db1 0)
    as (failed & db' & Hrun & _ & _ & _ & _ & _ & Hb & _);
    [apply demo_shop_ok, poor_ledger_ok | done | done | done | done | exact Hr | | | |].
  - vm_compute in Hr. injection Hr as _ <-. intros p Hp%list_elem_of_In.
    vm_compute in Hp. destruct Hp as [<- | [<- | []]]; vm_compute; split; [reflexivity | discriminate | reflexivity | discriminate].
  - vm_compute. reflexivity.
  - vm_compute in Hr. injection Hr as <- _. vm_compute. reflexivity.
  - exists db'. split; [exact Hrun|]. rewrite Hb. vm_compute. reflexivity.
Defined.

(** The purchase crashed after its debit. *)
Definition crashed : sys := fold_left act
  [ASpawn (EPurchase (demo_request "X" "k1")); ARun 0 (at_ns 0 "o1"); ARun 0 (at_ns 1 ""); ARun 0 (at_ns 2 "")]
  (sys_start (demo_shop rich_ledger)).

Lemma reconcileOrder_completes_witness :
  exists x paid s db', run_prog (fun _ => at_ns 100 "s1") (reconcileOrder x) (sys_db crashed) = (tt, db') /\
    sold_to db' x paid s /\ user_balance db' "U" = 950.
Proof.
  assert (Hok : sub_ok (sys_db crashed)).
  { assert (Hs : sys_ok crashed); [|apply Hs].
    refine (rtc_ind_r (fun s => sys_ok s) (sys_start (demo_shop rich_ledger)) _ _ crashed (acts_reach _ _)).
    - split; [apply demo_shop_ok, rich_ledger_ok|]. split; [|done]. intros p Hp. by apply not_elem_of_nil in Hp.
    - intros a b _ Hstep. by eapply sys_step_ok. }
  destruct (s_orders (sys_db crashed)) as [|x [|]] eqn:Ho; try (vm_compute in Ho; discriminate Ho).
  destruct (reconcileOrder_completes (fun _ => at_ns 100 "s1") (sys_db crashed) x) as (paid & s & db' & Hrun & Hsold & Hb & _);
    [exact Hok | | rewrite Ho; apply list_elem_of_here | | | |].
  - intros p Hp%list_elem_of_In.
    vm_compute in Hp. destruct Hp as [<- | [<- | []]]; vm_compute; split; [reflexivity | discriminate | reflexivity | discriminate].
  - vm_compute in Ho. injection Ho as <-. reflexivity.
  - vm_compute in Ho. injection Ho as <-. split; [discriminate|]. split; [discriminate|]. split; [discriminate|].
    left. discriminate.
  - intros H. by apply not_elem_of_nil in H.
  - exists x, paid, s, db'. split; [exact Hrun|]. split; [exact Hsold|]. rewrite Hb.
    vm_compute in Ho. injection Ho as <-. vm_compute. reflexivity.
Defined.
