(* ===== verification/SubscriptionMeter.v ===== *)
(** * Metering of subscriptions

    The usage windows of [DebitSubscription] and the gate's reading of them. *)

From S2P Require Import Prelude GoStrings CivilTime PurchasePolicy Ledger Subscription.

(** A run of debits of one subscription, each with its database time. *)
Definition meter_all (l : list (Z * Z)) (s : Subscription) : Subscription :=
  fold_left (fun s '(t, m) => debit_sub t m s) l s.

(** One window alone. *)
Definition win_all (limit : option Z) (len : Z) (l : list (Z * Z)) (w : option Z * Z) : option Z * Z :=
  fold_left (fun '(st, u) '(t, m) => win_next limit st u len t m) l w.

Lemma debit_sub_fields now m s :
  let s' := debit_sub now m s in
  ss_TotalUsedMicro s' = ss_TotalUsedMicro s + m /\
  (ss_Win5hStart s', ss_Win5hUsedMicro s') =
    win_next (ss_Window5hLimitMicro s) (ss_Win5hStart s) (ss_Win5hUsedMicro s) window5h now m /\
  (ss_Win7dStart s', ss_Win7dUsedMicro s') =
    win_next (ss_Window7dLimitMicro s) (ss_Win7dStart s) (ss_Win7dUsedMicro s) window7d now m /\
  ss_Window5hLimitMicro s' = ss_Window5hLimitMicro s /\ ss_Window7dLimitMicro s' = ss_Window7dLimitMicro s.
Proof.
  unfold debit_sub. destruct (win_next _ _ _ window5h _ _), (win_next _ _ _ window7d _ _). done.
Qed.

Lemma meter_all_fields l : forall s,
  ss_TotalUsedMicro (meter_all l s) = ss_TotalUsedMicro s + sumZ snd l /\
  (ss_Win5hStart (meter_all l s), ss_Win5hUsedMicro (meter_all l s)) =
    win_all (ss_Window5hLimitMicro s) window5h l (ss_Win5hStart s, ss_Win5hUsedMicro s) /\
  (ss_Win7dStart (meter_all l s), ss_Win7dUsedMicro (meter_all l s)) =
    win_all (ss_Window7dLimitMicro s) window7d l (ss_Win7dStart s, ss_Win7dUsedMicro s).
Proof.
  induction l as [|[t m] l IH]; intros s; [simpl; split; [lia | done]|].
  change (meter_all ((t, m) :: l) s) with (meter_all l (debit_sub t m s)).
  destruct (debit_sub_fields t m s) as (Ht & H5 & H7 & HL5 & HL7).
  destruct (IH (debit_sub t m s)) as (It & I5 & I7).
  rewrite It, I5, I7, Ht, HL5, HL7, H5, H7. cbn [sumZ foldr snd win_all fold_left]. unfold sumZ.
  split; [lia|]. split; done.
Qed.

(** A window is a suffix of the debits: it opens at its first one, which is the
    start on record, holds every later one, and all of them came before its end. *)
Definition window_of (limit : option Z) (len : Z) (l : list (Z * Z)) (start : option Z) (used : Z) : Prop :=
  match limit with
  | None => start = None /\ used = 0
  | Some _ => exists l1 l2, l = l1 ++ l2 /\ used = sumZ snd l2 /\
      start = fst <$> head l2 /\ (l2 = [] -> l = []) /\
      forall t0 t m, start = Some t0 -> (t, m) ∈ l2 -> t < t0 + len
  end.

Lemma win_all_app limit len l x w : win_all limit len (l ++ [x]) w =
  let '(st, u) := win_all limit len l w in let '(t, m) := x in win_next limit st u len t m.
Proof. unfold win_all. rewrite fold_left_app. simpl. by destruct (fold_left _ l w), x. Qed.

Lemma win_all_window limit len l :
  0 < len ->
  let '(st, u) := win_all limit len l (None, 0) in window_of limit len l st u.
Proof.
  intros Hlen. induction l as [|[t m] l IH] using rev_ind.
  - destruct limit; simpl; [|done]. exists [], []. split_and!; try done.
  - rewrite win_all_app. destruct (win_all limit len l (None, 0)) as [st u]. unfold window_of in *.
    destruct limit as [n|]; [|done]. destruct IH as (l1 & l2 & -> & -> & -> & Hne & Hin). simpl.
    destruct (win_flipped (fst <$> head l2) len t) eqn:Hf.
    + exists (l1 ++ l2), [(t, m)]. split; [done|]. split; [simpl; lia|]. split; [done|]. split; [done|].
      intros t0 t' m' [= <-] [= -> _]%list_elem_of_singleton. lia.
    + exists l1, (l2 ++ [(t, m)]). split; [by rewrite app_assoc|].
      split; [rewrite sumZ_app; simpl; lia|]. destruct l2 as [|[t1 m1] l2]; [discriminate Hf|]. simpl in *.
      split; [done|]. split; [done|]. intros t0 t' m' [= <-] Hin'.
      apply Z.leb_gt in Hf. rewrite app_comm_cons in Hin'.
      apply elem_of_app in Hin' as [Hin' | [= -> _]%list_elem_of_singleton]; [by eapply Hin | lia].
Qed.

(** Metering.  After any run of debits of a fresh subscription the total is
    the sum of all of them, and each limited window shows exactly the debits since
    it opened: it opened at one of them, counts that one and all later ones, and
    none of those came at or after its end.  An unlimited window counts nothing. *)
Theorem metering_windows l s :
  ss_TotalUsedMicro s = 0 -> ss_Win5hStart s = None -> ss_Win5hUsedMicro s = 0 ->
  ss_Win7dStart s = None -> ss_Win7dUsedMicro s = 0 ->
  let s' := meter_all l s in
  ss_TotalUsedMicro s' = sumZ snd l /\
  window_of (ss_Window5hLimitMicro s) window5h l (ss_Win5hStart s') (ss_Win5hUsedMicro s') /\
  window_of (ss_Window7dLimitMicro s) window7d l (ss_Win7dStart s') (ss_Win7dUsedMicro s').
Proof.
  intros Ht H5 U5 H7 U7 s'. destruct (meter_all_fields l s) as (It & I5 & I7).
  rewrite H5, U5 in I5. rewrite H7, U7 in I7. fold s' in It, I5, I7.
  pose proof (win_all_window (ss_Window5hLimitMicro s) window5h l eq_refl) as W5. rewrite <- I5 in W5.
  pose proof (win_all_window (ss_Window7dLimitMicro s) window7d l eq_refl) as W7. rewrite <- I7 in W7.
  split; [lia|]. split; [exact W5 | exact W7].
Qed.

(** ** The gate *)

(** What the window already holds when a debit at [now] is added to it. *)
Definition win_before (start : option Z) (used len now : Z) : Z :=
  if win_flipped start len now then 0 else used.
Definition win_room (limit start : option Z) (used len now : Z) : Prop :=
  match limit with None => True | Some l => win_before start used len now < l end.

Definition sub_room (now : Z) (s : Subscription) : Prop :=
  ss_TotalUsedMicro s < ss_TotalLimitMicro s /\
  win_room (ss_Window5hLimitMicro s) (ss_Win5hStart s) (ss_Win5hUsedMicro s) window5h now /\
  win_room (ss_Window7dLimitMicro s) (ss_Win7dStart s) (ss_Win7dUsedMicro s) window7d now.

(** The instant at which a window ends; gate and meter read it differently. *)
Definition at_boundary (now : Z) (s : Subscription) : Prop :=
  ss_Win5hStart s = Some (now - window5h) \/ ss_Win7dStart s = Some (now - window7d).

Lemma windowHasRemaining_room limit start used len now :
  0 <= used <= int64_max -> (forall l, limit = Some l -> 0 <= l <= int64_max) ->
  (windowHasRemaining limit start used len now = true -> win_room limit start used len now) /\
  (start <> Some (now - len) -> win_room limit start used len now ->
   windowHasRemaining limit start used len now = true).
Proof.
  intros Hu Hl. unfold windowHasRemaining, win_room, win_before, win_flipped.
  destruct limit as [l|]; [|done]. specialize (Hl l eq_refl).
  rewrite wrap64_id by (unfold int64_min, int64_max in *; lia).
  destruct start as [t|].
  - split.
    + destruct (Z.ltb_spec (t + len) now), (Z.leb_spec (t + len) now); intros Hlt%Z.ltb_lt; lia.
    + intros Hne H. assert (t + len <> now) by (intros <-; apply Hne; f_equal; lia).
      destruct (Z.ltb_spec (t + len) now), (Z.leb_spec (t + len) now); apply Z.ltb_lt; lia.
  - split; [intros Hlt%Z.ltb_lt; lia | intros _ Hlt; apply Z.ltb_lt; lia].
Qed.

(** C39: the gate never admits a request to an exhausted subscription: when it
    answers that quota remains, a debit at that instant finds room in the total
    and in both windows.  It refuses a subscription with room only at the exact
    instant a window ends, which the meter already counts to the next window. *)
Theorem gate_agrees_with_meter s now :
  sub_counters_ok s = true -> 0 <= ss_TotalLimitMicro s <= int64_max ->
  (forall l, ss_Window5hLimitMicro s = Some l -> 0 <= l <= int64_max) ->
  (forall l, ss_Window7dLimitMicro s = Some l -> 0 <= l <= int64_max) ->
  (hasRemaining s now = true -> sub_room now s) /\
  (~ at_boundary now s -> sub_room now s -> hasRemaining s now = true).
Proof.
  intros Hc Ht H5 H7. unfold sub_counters_ok in Hc. bool_prop. unfold hasRemaining, sub_room, at_boundary.
  rewrite wrap64_id by (unfold int64_min, int64_max in *; lia).
  destruct (windowHasRemaining_room (ss_Window5hLimitMicro s) (ss_Win5hStart s) (ss_Win5hUsedMicro s) window5h now
    ltac:(lia) H5) as [A5 B5].
  destruct (windowHasRemaining_room (ss_Window7dLimitMicro s) (ss_Win7dStart s) (ss_Win7dUsedMicro s) window7d now
    ltac:(lia) H7) as [A7 B7].
  destruct (Z.leb_spec (ss_TotalLimitMicro s - ss_TotalUsedMicro s) 0) as [Hle | Hgt].
  - split; [done | intros _ (? & _); lia].
  - rewrite andb_true_iff. split; [intros [? ?]; split; [lia | auto]|].
    intros Hb (_ & R5 & R7). split; [apply B5 | apply B7]; auto.
Qed.

(** ** Witnesses *)

Definition demo_sub : Subscription :=
  MkSub "s" "T" "U" "X" "o" 30 1000 (Some 400) None SubActive (Some 0) (Some (days_ns 30)) 0 None 0 None 0 [] 0.

Lemma metering_windows_witness :
  let s' := meter_all [(0, 100); (Hour, 50); (5 * Hour, 30); (6 * Hour, 5)] demo_sub in
  ss_TotalUsedMicro s' = 185 /\ ss_Win5hStart s' = Some (5 * Hour) /\ ss_Win5hUsedMicro s' = 35.
Proof.
  destruct (metering_windows [(0, 100); (Hour, 50); (5 * Hour, 30); (6 * Hour, 5)] demo_sub
    eq_refl eq_refl eq_refl eq_refl eq_refl) as (Ht & _ & _).
  simpl in Ht |- *. split; [exact Ht|]. split; reflexivity.
Defined.

Lemma gate_agrees_with_meter_witness :
  let s := meter_all [(0, 400)] demo_sub in
  hasRemaining s Hour = false /\ hasRemaining s (5 * Hour) = false /\ sub_room (5 * Hour) s /\
  hasRemaining s (5 * Hour + 1) = true.
Proof.
  set (s := meter_all [(0, 400)] demo_sub).
  assert (Hagree : forall now, (hasRemaining s now = true -> sub_room now s) /\
    (~ at_boundary now s -> sub_room now s -> hasRemaining s now = true)).
  { intros now. apply (gate_agrees_with_meter s now); [reflexivity | vm_compute; split; discriminate | |].
    - intros l [= <-]. vm_compute. split; discriminate.
    - intros l H. discriminate H. }
  split; [reflexivity|]. split; [reflexivity|]. split; [vm_compute; split; [reflexivity | split; [reflexivity | exact I]]|].
  apply (Hagree (5 * Hour + 1)).
  - intros [H | H]; vm_compute in H; discriminate H.
  - vm_compute. split; [reflexivity | split; [reflexivity | exact I]].
Defined.
