(* ===== verification/Topup.v ===== *)
(** * Top-up offers: fee arithmetic, payment settings and the price of an order

    Models [src/internal/money/usd.go] (basis points and whole dollars),
    [src/internal/payment/settings.go] (the global and per-tenant settings, their
    normalisation, validation and storage) and the pricing helpers of
    [src/internal/payment/service/service.go].  Stored settings are JSON of
    these records, which [encoding/json] decodes to what was encoded; the one
    difference that matters, a [nil] slice against an empty one, is the [option]
    of [ts_UserTopupPackages]. *)

From S2P Require Import Prelude GoStrings.

(** ** Money *)

Definition MicrosPerUSD : Z := 1000000.
Definition MaxWholeUSD : Z := int64_max `div` MicrosPerUSD.

Definition WholeUSDToMicros (value : Z) : option Z :=
  if (value <? 0) || (MaxWholeUSD <? value) then None else Some (wrap64 (value * MicrosPerUSD)).

(** The product is a [big.Int]; [None] is the error. *)
Definition ApplyBasisPointsCeil (amount basisPoints : Z) : option Z :=
  if (amount <? 0) || (basisPoints <? 0) || (10000 <? basisPoints) then None
  else
    let product := Z.quot (amount * basisPoints + 9999) 10000 in
    if in_int64 product then Some product else None.

(** ** Settings *)

Definition TopupModeCustom : string := "custom".
Definition TopupModePackage : string := "package".
Definition TopupMinAmountMicroUSD : Z := 10000000.
Definition TopupMaxAmountMicroUSD : Z := 10000000000.
Definition MaxTopupPackages : Z := 12.
Definition MaxPackageAmountMicroUSD : Z := 10000000000000.

Record TopupPackage := MkPackage {
  tp_ID : string;
  tp_Name : string;
  tp_PaymentAmountMicroUSD : Z;
  tp_FeeEnabled : bool;
  tp_ValidityDays : option Z;
  tp_Badge : string;
  tp_Enabled : bool;
  tp_SortOrder : Z }.

Record GlobalSettings := MkGlobal {
  gs_TenantCustomTopupFeeBp : Z;
  gs_TenantWithdrawFeeBp : Z;
  gs_TenantCustomValidityDays : option Z;
  gs_TenantTopupPackages : list TopupPackage }.

Record TenantSettings := MkTenantSettings {
  ts_UserCustomTopupFeeBp : Z;
  ts_UserCustomValidityDays : option Z;
  ts_UserTopupPackages : option (list TopupPackage) }.

Record TopupParams := MkTopupParams {
  tq_FeeRateBp : Z;
  tq_ValidityDays : option Z;
  tq_Packages : list TopupPackage;
  tq_MinMicroUSD : Z;
  tq_MaxMicroUSD : Z }.

Inductive settings_error :=
| ErrFeeRange
| ErrValidityDays
| ErrPackageCount
| ErrPackageID
| ErrPackageDuplicateID
| ErrPackageName
| ErrPackageRange
| ErrPackageOverflow
| ErrPackageCents.

Definition default_package (id name : string) (amount sort : Z) : TopupPackage :=
  MkPackage id name amount false None "" true sort.
Definition DefaultTopupPackages : list TopupPackage :=
  [default_package "p10" "$10 体验包" 10000000 10; default_package "p20" "$20 基础包" 20000000 20;
   default_package "p50" "$50 常用包" 50000000 30; default_package "p100" "$100 进阶包" 100000000 40].
Definition DefaultGlobalSettings : GlobalSettings := MkGlobal 160 160 None DefaultTopupPackages.
Definition DefaultTenantSettings (g : GlobalSettings) : TenantSettings :=
  MkTenantSettings (gs_TenantCustomTopupFeeBp g) (gs_TenantCustomValidityDays g)
    (Some (gs_TenantTopupPackages g)).

(** [normalizePackages]: the first twelve, trimmed, with a default position,
    sorted stably by position and then price. *)
Definition normalize_package (idx : Z) (p : TopupPackage) : TopupPackage :=
  MkPackage (TrimSpace (tp_ID p)) (TrimSpace (tp_Name p)) (tp_PaymentAmountMicroUSD p)
    (tp_FeeEnabled p) (tp_ValidityDays p) (TrimSpace (tp_Badge p)) (tp_Enabled p)
    (if tp_SortOrder p =? 0 then (idx + 1) * 10 else tp_SortOrder p).
Fixpoint normalize_loop (idx : Z) (l : list TopupPackage) : list TopupPackage :=
  match l with
  | [] => []
  | p :: l' => if MaxTopupPackages <=? idx then [] (* break *)
               else normalize_package idx p :: normalize_loop (idx + 1) l'
  end.
Definition package_leb (a b : TopupPackage) : bool :=
  (tp_SortOrder a <? tp_SortOrder b)
  || ((tp_SortOrder a =? tp_SortOrder b) && (tp_PaymentAmountMicroUSD a <=? tp_PaymentAmountMicroUSD b)).
Definition normalizePackages (l : list TopupPackage) : list TopupPackage :=
  order_by package_leb (normalize_loop 0 l).

Definition normalizeGlobalSettings (g : GlobalSettings) : GlobalSettings :=
  MkGlobal (gs_TenantCustomTopupFeeBp g) (gs_TenantWithdrawFeeBp g) (gs_TenantCustomValidityDays g)
    (normalizePackages (gs_TenantTopupPackages g)).
Definition normalizeTenantSettings (ts : TenantSettings) (g : GlobalSettings) : TenantSettings :=
  MkTenantSettings (ts_UserCustomTopupFeeBp ts) (ts_UserCustomValidityDays ts)
    (Some (normalizePackages
             (match ts_UserTopupPackages ts with
              | Some l => l
              | None => default [] (ts_UserTopupPackages (DefaultTenantSettings g))
              end))).

Definition validValidityDays (days : option Z) : bool :=
  match days with None => true | Some d => (0 <? d) && (d <=? 36500) end.

(** *** Validation

    [settings.go] and [service.go] each have a [validatePackages] over the same
    price rules.  The first sees normalised packages and checks the validity
    days; the second trims what it checks and does not look at the days. *)
Definition package_price_error (feeRateBp : Z) (p : TopupPackage) : option settings_error :=
  let amount := tp_PaymentAmountMicroUSD p in
  if (amount <? TopupMinAmountMicroUSD) || (TopupMaxAmountMicroUSD <? amount) then Some ErrPackageRange
  else if MaxPackageAmountMicroUSD <? amount then Some ErrPackageOverflow
  else
    let cents paymentMicroUSD :=
      if negb (Z.rem paymentMicroUSD (MicrosPerUSD `quot` 100) =? 0) then Some ErrPackageCents else None in
    if tp_FeeEnabled p then
      match ApplyBasisPointsCeil amount feeRateBp with
      | None => Some ErrPackageOverflow
      | Some fee => if int64_max - amount <? fee then Some ErrPackageOverflow else cents (amount + fee)
      end
    else cents amount.

Fixpoint validate_packages_loop (trim : string -> string) (days : bool) (feeRateBp : Z)
    (seen : gset string) (l : list TopupPackage) : option settings_error :=
  match l with
  | [] => None
  | p :: l' =>
      let id := trim (tp_ID p) in
      if bool_decide (id = ""%string) then Some ErrPackageID
      else if bool_decide (id ∈ seen) then Some ErrPackageDuplicateID
      else if bool_decide (trim (tp_Name p) = ""%string) then Some ErrPackageName
      else match package_price_error feeRateBp p with
           | Some e => Some e
           | None => if days && negb (validValidityDays (tp_ValidityDays p)) then Some ErrValidityDays
                     else validate_packages_loop trim days feeRateBp ({[id]} ∪ seen) l'
           end
  end.
Definition validate_packages trim days (l : list TopupPackage) (feeRateBp : Z) : option settings_error :=
  if MaxTopupPackages <? Z.of_nat (length l) then Some ErrPackageCount
  else validate_packages_loop trim days feeRateBp ∅ l.

(** [settings.go] *)
Definition validatePackages := validate_packages (fun s => s) true.
(** [service.go] *)
Definition service_validatePackages := validate_packages TrimSpace false.

Definition fee_out_of_range (bp : Z) : bool := (bp <? 0) || (10000 <? bp).

Definition validateGlobalSettings (g : GlobalSettings) : option settings_error :=
  if fee_out_of_range (gs_TenantCustomTopupFeeBp g) || fee_out_of_range (gs_TenantWithdrawFeeBp g)
  then Some ErrFeeRange
  else if negb (validValidityDays (gs_TenantCustomValidityDays g)) then Some ErrValidityDays
  else validatePackages (gs_TenantTopupPackages g) (gs_TenantCustomTopupFeeBp g).
Definition validateTenantSettings (ts : TenantSettings) : option settings_error :=
  if fee_out_of_range (ts_UserCustomTopupFeeBp ts) then Some ErrFeeRange
  else if negb (validValidityDays (ts_UserCustomValidityDays ts)) then Some ErrValidityDays
  else validatePackages (default [] (ts_UserTopupPackages ts)) (ts_UserCustomTopupFeeBp ts).

Definition service_validateGlobalSettings (g : GlobalSettings) : option settings_error :=
  if fee_out_of_range (gs_TenantCustomTopupFeeBp g) || fee_out_of_range (gs_TenantWithdrawFeeBp g)
  then Some ErrFeeRange
  else service_validatePackages (gs_TenantTopupPackages g) (gs_TenantCustomTopupFeeBp g).
Definition service_validateTenantSettings (ts : TenantSettings) : option settings_error :=
  if fee_out_of_range (ts_UserCustomTopupFeeBp ts) then Some ErrFeeRange
  else service_validatePackages (default [] (ts_UserTopupPackages ts)) (ts_UserCustomTopupFeeBp ts).

(** *** The two settings tables *)

Record settings_db := SettingsDB {
  sys_settings_payment : option GlobalSettings;
  pay_tenant_settings : gmap string TenantSettings }.

Definition LoadGlobal (db : settings_db) : result settings_error GlobalSettings :=
  match sys_settings_payment db with
  | None => Ok DefaultGlobalSettings
  | Some stored =>
      let g := normalizeGlobalSettings stored in
      match validateGlobalSettings g with Some e => Err e | None => Ok g end
  end.
Definition SaveGlobal (g : GlobalSettings) (db : settings_db) : settings_db :=
  SettingsDB (Some (normalizeGlobalSettings g)) (pay_tenant_settings db).

Definition LoadTenantSettings (tenantID : string) (g : GlobalSettings) (db : settings_db)
    : result settings_error TenantSettings :=
  match pay_tenant_settings db !! tenantID with
  | None => Ok (DefaultTenantSettings g)
  | Some stored =>
      let ts := normalizeTenantSettings stored g in
      match validateTenantSettings ts with Some e => Err e | None => Ok ts end
  end.
Definition SaveTenantSettings (tenantID : string) (ts : TenantSettings) (g : GlobalSettings)
    (db : settings_db) : settings_db :=
  SettingsDB (sys_settings_payment db)
    (<[tenantID := normalizeTenantSettings ts g]> (pay_tenant_settings db)).

(** [PaymentService.UpdateGlobalSettings] and [UpdateTenantPaymentSettings] *)
Definition UpdateGlobalSettings (g : GlobalSettings) : Tx settings_db settings_error unit :=
  match service_validateGlobalSettings g with
  | Some e => tx_fail e
  | None => let! db := tx_get in tx_put (SaveGlobal g db)
  end.
Definition UpdateTenantPaymentSettings (tenantID : string) (ts : TenantSettings)
    : Tx settings_db settings_error unit :=
  let! db := tx_get in
  match LoadGlobal db with
  | Err e => tx_fail e
  | Ok global =>
      match service_validateTenantSettings ts with
      | Some e => tx_fail e
      | None => tx_put (SaveTenantSettings tenantID ts global db)
      end
  end.

Definition ResolveTenantTopup (g : GlobalSettings) : TopupParams :=
  MkTopupParams (gs_TenantCustomTopupFeeBp g) (gs_TenantCustomValidityDays g)
    (gs_TenantTopupPackages g) TopupMinAmountMicroUSD TopupMaxAmountMicroUSD.
Definition ResolveUserTopup (ts : TenantSettings) : TopupParams :=
  MkTopupParams (ts_UserCustomTopupFeeBp ts) (ts_UserCustomValidityDays ts)
    (default [] (ts_UserTopupPackages ts)) TopupMinAmountMicroUSD TopupMaxAmountMicroUSD.

(** ** Pricing *)

Inductive topup_error :=
| TopupBadRequest (detail : string)
| TopupInvalidAmount
| TopupOutOfRange.

Record topupSnapshot := MkSnapshot {
  sn_Mode : string;
  sn_PackageID : string;
  sn_PackageName : string;
  sn_PackageBadge : string;
  sn_PaymentAmountMicroUSD : Z;
  sn_PaymentAmountMinor : Z;
  sn_GrossAmountMicroUSD : Z;
  sn_FeeRateBp : Z;
  sn_FeeAmountMicroUSD : Z;
  sn_CreditedAmountMicroUSD : Z;
  sn_ValidityDays : option Z }.

Definition paymentMinorFromMicroUSD (amount : Z) : result topup_error Z :=
  let microPerCent := MicrosPerUSD `quot` 100 in
  if (amount <=? 0) || negb (Z.rem amount microPerCent =? 0) then Err TopupInvalidAmount
  else Ok (amount `quot` microPerCent).

Definition find_package (packageID : string) (l : list TopupPackage) : option TopupPackage :=
  List.find (fun p => bool_decide (tp_ID p = packageID) && tp_Enabled p) l.

(** The body of the package branch: the fee is added to the credited amount. *)
Definition package_snapshot (params : TopupParams) (amountMicroUSD : Z) (p : TopupPackage)
    : result topup_error topupSnapshot :=
  let credited := tp_PaymentAmountMicroUSD p in
  if (0 <? amountMicroUSD) && negb (amountMicroUSD =? credited)
  then Err (TopupBadRequest "package amount mismatch")
  else
    let finish feeRateBp fee paymentMicroUSD :=
      match paymentMinorFromMicroUSD paymentMicroUSD with
      | Err e => Err e
      | Ok minor => Ok (MkSnapshot TopupModePackage (tp_ID p) (tp_Name p) (tp_Badge p) paymentMicroUSD
                          minor credited feeRateBp fee credited (tp_ValidityDays p))
      end in
    if tp_FeeEnabled p then
      match ApplyBasisPointsCeil credited (tq_FeeRateBp params) with
      | None => Err TopupInvalidAmount
      | Some fee => if int64_max - credited <? fee then Err TopupInvalidAmount
                    else finish (tq_FeeRateBp params) fee (credited + fee)
      end
    else finish 0 0 credited.

(** The custom branch: the fee is taken out of the paid amount. *)
Definition custom_snapshot (params : TopupParams) (amountMicroUSD : Z) : result topup_error topupSnapshot :=
  if (amountMicroUSD <? tq_MinMicroUSD params) || (tq_MaxMicroUSD params <? amountMicroUSD)
  then Err TopupOutOfRange
  else
    match paymentMinorFromMicroUSD amountMicroUSD with
    | Err e => Err e
    | Ok minor =>
        match ApplyBasisPointsCeil amountMicroUSD (tq_FeeRateBp params) with
        | None => Err TopupInvalidAmount
        | Some fee =>
            let credited := amountMicroUSD - fee in
            if credited <=? 0 then Err TopupOutOfRange
            else Ok (MkSnapshot TopupModeCustom "" "" "" amountMicroUSD minor amountMicroUSD
                       (tq_FeeRateBp params) fee credited (tq_ValidityDays params))
        end
    end.

Definition calculateTopupSnapshot (params : TopupParams) (amountMicroUSD : Z) (packageID0 : string)
    : result topup_error topupSnapshot :=
  let packageID := TrimSpace packageID0 in
  if bool_decide (packageID = ""%string) then custom_snapshot params amountMicroUSD
  else match find_package packageID (tq_Packages params) with
       | Some p => package_snapshot params amountMicroUSD p
       | None => Err (TopupBadRequest "package does not exist or is disabled")
       end.

Definition enabledTopupPackages (l : list TopupPackage) : list TopupPackage := List.filter tp_Enabled l.
