(* ===== verification/TopupProps.v ===== *)
(** * Properties of top-up offers and payment settings *)

From S2P Require Import Prelude GoStrings CivilTime Topup.

(** ** Fees *)

(** [fee] is the least whole number of micro-dollars that covers [rate]
    ten-thousandths of [amount]. *)
Definition ceil_fee (amount rate fee : Z) : Prop :=
  0 <= fee <= amount /\ amount * rate <= fee * 10000 < amount * rate + 10000.

Lemma ApplyBasisPointsCeil_ok amount bp :
  0 <= amount <= int64_max -> 0 <= bp <= 10000 ->
  exists fee, ApplyBasisPointsCeil amount bp = Some fee /\ ceil_fee amount bp fee.
Proof.
  intros Ha Hb. unfold ApplyBasisPointsCeil.
  rewrite (proj2 (Z.ltb_ge amount 0)), (proj2 (Z.ltb_ge bp 0)), (proj2 (Z.ltb_ge 10000 bp)) by lia.
  cbn [orb]. cbv zeta. set (n := amount * bp).
  assert (Hn : 0 <= n <= amount * 10000) by (unfold n; nia).
  assert (Hq : n <= Z.quot (n + 9999) 10000 * 10000 < n + 10000) by zdiv.
  assert (Hin : in_int64 (Z.quot (n + 9999) 10000) = true)
    by (apply in_int64_spec; unfold int64_min, int64_max in *; lia).
  rewrite Hin. eexists. split; [done|]. unfold ceil_fee. fold n. lia.
Qed.

Lemma ApplyBasisPointsCeil_inv amount bp fee :
  ApplyBasisPointsCeil amount bp = Some fee -> amount <= int64_max -> ceil_fee amount bp fee.
Proof.
  intros H Hm. assert (Hr : 0 <= amount /\ 0 <= bp <= 10000).
  { unfold ApplyBasisPointsCeil in H.
    destruct ((amount <? 0) || (bp <? 0) || (10000 <? bp)) eqn:Hb; [done|]. bool_prop. lia. }
  destruct (ApplyBasisPointsCeil_ok amount bp) as (f & Hf & Hc); [lia..|].
  rewrite Hf in H. by injection H as <-.
Qed.

Lemma paymentMinor_ok amount minor :
  paymentMinorFromMicroUSD amount = Ok minor <-> 0 < amount /\ amount = minor * 10000.
Proof.
  unfold paymentMinorFromMicroUSD. change (MicrosPerUSD `quot` 100) with 10000. cbv zeta.
  destruct ((amount <=? 0) || negb (Z.rem amount 10000 =? 0)) eqn:Hb.
  - split; [done|]. intros [Hp ->]. apply orb_true_iff in Hb as [Hb | Hb]; bool_prop; [lia|].
    rewrite Z.rem_mul in Hb by lia. done.
  - bool_prop. split; [intros [= <-]; split; [done | zdiv] |].
    intros [Hp ->]. by rewrite Z.quot_mul by lia.
Qed.

(** ** Validated packages *)

Definition package_ok (feeRateBp : Z) (p : TopupPackage) : Prop :=
  TopupMinAmountMicroUSD <= tp_PaymentAmountMicroUSD p <= TopupMaxAmountMicroUSD /\
  exists fee, ceil_fee (tp_PaymentAmountMicroUSD p) (if tp_FeeEnabled p then feeRateBp else 0) fee /\
    exists minor, tp_PaymentAmountMicroUSD p + fee = minor * 10000.

Lemma ceil_fee_unique a r f g : ceil_fee a r f -> ceil_fee a r g -> f = g.
Proof. unfold ceil_fee. lia. Qed.

Lemma cents_iff x : Z.rem x 10000 = 0 <-> exists m, x = m * 10000.
Proof.
  split; [intros H; exists (Z.quot x 10000); zdiv|]. intros [m ->]. by rewrite Z.rem_mul.
Qed.

Lemma package_price_ok bp p :
  0 <= bp <= 10000 -> package_price_error bp p = None <-> package_ok bp p.
Proof.
  intros Hbp. unfold package_price_error, package_ok, TopupMinAmountMicroUSD, TopupMaxAmountMicroUSD,
    MaxPackageAmountMicroUSD. change (MicrosPerUSD `quot` 100) with 10000. cbv zeta.
  set (a := tp_PaymentAmountMicroUSD p).
  destruct ((a <? 10000000) || (10000000000 <? a)) eqn:Hr.
  { split; [done|]. intros [Hr' _]. apply orb_true_iff in Hr as [Hr | Hr]; bool_prop; lia. }
  bool_prop. rewrite (proj2 (Z.ltb_ge 10000000000000 a)) by lia.
  assert (Hmx : int64_max = 9223372036854775807) by done.
  assert (Hcents : forall x, (if negb (Z.rem x 10000 =? 0) then Some ErrPackageCents else None) = None
            <-> exists m, x = m * 10000).
  { intros x. rewrite <- cents_iff. destruct (Z.eqb_spec (Z.rem x 10000) 0) as [Hx | Hx]; done. }
  destruct (tp_FeeEnabled p).
  - destruct (ApplyBasisPointsCeil_ok a bp) as (fee & -> & Hfee); [lia..|].
    rewrite (proj2 (Z.ltb_ge (int64_max - a) fee)) by (unfold ceil_fee in Hfee; lia).
    rewrite Hcents. split; [intros Hm; split; [lia|]; by exists fee |].
    intros (_ & f & Hf & Hm). by rewrite (ceil_fee_unique _ _ _ _ Hfee Hf).
  - rewrite Hcents. split.
    + intros [m Hm]. split; [lia|]. exists 0. split; [unfold ceil_fee; lia | exists m; lia].
    + intros (_ & f & Hf & m & Hm). exists m. unfold ceil_fee in Hf. lia.
Qed.

(** The validation loop, whatever order the packages come in. *)
Definition packages_wf (trim : string -> string) (days : bool) (bp : Z) (l : list TopupPackage) : Prop :=
  NoDup ((fun p => trim (tp_ID p)) <$> l) /\
  forall p, p ∈ l -> trim (tp_ID p) <> ""%string /\ trim (tp_Name p) <> ""%string /\ package_ok bp p /\
    (days = true -> validValidityDays (tp_ValidityDays p) = true).

Lemma validate_loop_ok trim days bp l : forall seen,
  0 <= bp <= 10000 ->
  validate_packages_loop trim days bp seen l = None <->
  packages_wf trim days bp l /\ (forall p, p ∈ l -> (trim (tp_ID p) ∉ seen)).
Proof.
  induction l as [|p l IH]; intros seen Hbp; cbn [validate_packages_loop].
  { split; [|done]. intros _. split; [split; [constructor|]|]; intros q Hq; by apply not_elem_of_nil in Hq. }
  assert (Hcons : packages_wf trim days bp (p :: l) /\ (forall q, q ∈ p :: l -> (trim (tp_ID q) ∉ seen)) <->
    (trim (tp_ID p) <> ""%string /\ trim (tp_Name p) <> ""%string /\ package_ok bp p /\
     (days = true -> validValidityDays (tp_ValidityDays p) = true)) /\ (trim (tp_ID p) ∉ seen) /\
    packages_wf trim days bp l /\ (forall q, q ∈ l -> (trim (tp_ID q) ∉ {[trim (tp_ID p)]} ∪ seen))).
  { unfold packages_wf. rewrite fmap_cons, NoDup_cons. split.
    - intros ([[Hn Hnd] Hall] & Hseen).
      split; [apply Hall, list_elem_of_here|]. split; [apply Hseen, list_elem_of_here|].
      split; [split; [done|]; intros q Hq; by apply Hall, list_elem_of_further|].
      intros q Hq. rewrite not_elem_of_union, not_elem_of_singleton. split.
      + intros He. apply Hn. rewrite <- He. by apply (list_elem_of_fmap_2 (fun p => trim (tp_ID p))).
      + by apply Hseen, list_elem_of_further.
    - intros (Hp & Hs & (Hnd & Hall) & Hseen). split; [split; [split; [|done]|]|].
      + intros (q & He & Hq)%list_elem_of_fmap. specialize (Hseen _ Hq).
        apply not_elem_of_union in Hseen as [Hne _]. apply Hne. apply elem_of_singleton. by rewrite He.
      + intros q [-> | Hq]%elem_of_cons; [done | by apply Hall].
      + intros q [-> | Hq]%elem_of_cons; [done|]. specialize (Hseen _ Hq).
        by apply not_elem_of_union in Hseen as [_ ?]. }
  rewrite Hcons. clear Hcons.
  case_bool_decide as H1; [split; [done | by intros ((? & _) & _)]|].
  case_bool_decide as H2; [split; [done | by intros (_ & ? & _)]|].
  case_bool_decide as H3; [split; [done | by intros ((_ & ? & _) & _)]|].
  pose proof (package_price_ok bp p Hbp) as Hp.
  destruct (package_price_error bp p); [split; [done | intros ((_ & _ & Hok & _) & _); by apply Hp in Hok]|].
  destruct (days && negb (validValidityDays (tp_ValidityDays p))) eqn:H4.
  { split; [done|]. intros ((_ & _ & _ & Hd) & _). apply andb_true_iff in H4 as [Ht Hv].
    by rewrite Hd in Hv. }
  rewrite IH by done. split; [|by intros (_ & _ & ?)]. intros ?. split; [|done].
  split; [done|]. split; [done|]. split; [by apply Hp|]. intros ->. by apply negb_false_iff in H4.
Qed.

Lemma validate_packages_ok trim days bp l :
  0 <= bp <= 10000 ->
  validate_packages trim days l bp = None <-> (length l <= 12)%nat /\ packages_wf trim days bp l.
Proof.
  intros Hbp. unfold validate_packages. destruct (MaxTopupPackages <? Z.of_nat (length l)) eqn:Hl.
  - unfold MaxTopupPackages in Hl. bool_prop. split; [done | lia].
  - unfold MaxTopupPackages in Hl. bool_prop. rewrite validate_loop_ok by done.
    split; [intros [? _]; split; [lia | done] | intros [_ ?]; split; [done | intros p _; apply not_elem_of_empty]].
Qed.

(** ** Normalisation *)

Lemma normalize_loop_index idx l :
  0 <= idx -> idx + Z.of_nat (length l) <= 12 ->
  normalize_loop idx l = imap (fun i p => normalize_package (idx + Z.of_nat i) p) l.
Proof.
  revert idx. induction l as [|p l IH]; intros idx H0 Hl; [done|]. cbn [length] in Hl.
  cbn [normalize_loop]. unfold MaxTopupPackages. rewrite (proj2 (Z.leb_gt 12 idx)) by lia.
  rewrite IH by lia. simpl. f_equal; [f_equal; lia|].
  apply imap_ext. intros i q _. unfold compose. simpl. f_equal. lia.
Qed.

(** What validation looks at is unchanged by normalisation, up to trimming. *)
Lemma normalize_fields (l : list TopupPackage) (f : TopupPackage -> Prop) :
  (length l <= 12)%nat ->
  (forall p i, f p <-> f (normalize_package i p)) ->
  ((forall p, p ∈ normalizePackages l -> f p) <-> (forall p, p ∈ l -> f p)).
Proof.
  intros Hl Hf. unfold normalizePackages. rewrite normalize_loop_index by lia.
  assert (H : forall p, p ∈ order_by package_leb (imap (fun i q => normalize_package (0 + Z.of_nat i) q) l) <->
    exists i q, p = normalize_package (0 + Z.of_nat i) q /\ l !! i = Some q)
    by (intros p; rewrite elem_of_order_by; apply elem_of_lookup_imap).
  split; intros HA p Hp.
  - apply list_elem_of_lookup in Hp as [i Hi]. apply (Hf p (0 + Z.of_nat i)), HA, H. eauto.
  - apply H in Hp as (i & q & -> & Hq). apply Hf, HA. by apply list_elem_of_lookup_2 in Hq.
Qed.

Lemma normalize_ids (l : list TopupPackage) :
  (length l <= 12)%nat ->
  tp_ID <$> normalizePackages l ≡ₚ (fun p => TrimSpace (tp_ID p)) <$> l.
Proof.
  intros Hl. unfold normalizePackages. rewrite order_by_Permutation, normalize_loop_index by lia.
  rewrite fmap_imap, <- (imap_const (fun p => TrimSpace (tp_ID p)) l). apply Permutation_refl'.
  apply imap_ext. done.
Qed.
Lemma normalize_length (l : list TopupPackage) :
  (length l <= 12)%nat -> length (normalizePackages l) = length l.
Proof.
  intros Hl. unfold normalizePackages. rewrite order_by_Permutation, normalize_loop_index by lia.
  apply length_imap.
Qed.

Lemma normalize_packages_wf bp l :
  (length l <= 12)%nat -> packages_wf TrimSpace false bp l ->
  (packages_wf (fun s => s) true bp (normalizePackages l) <->
   forall p, p ∈ l -> validValidityDays (tp_ValidityDays p) = true).
Proof.
  intros Hl [Hnd Hall].
  pose proof (normalize_ids l Hl) as Hids.
  pose proof (normalize_fields l (fun p => validValidityDays (tp_ValidityDays p) = true) Hl) as Hdays.
  unfold packages_wf. split.
  - intros [_ H]. apply Hdays; [done|]. intros p Hp. by apply H.
  - intros Hd. split; [by rewrite Hids|]. intros p Hp.
    assert (Hd' : validValidityDays (tp_ValidityDays p) = true) by (revert p Hp; by apply Hdays).
    assert (Hb : package_ok bp p).
    { revert p Hp Hd'. intros p Hp _. revert p Hp.
      apply (normalize_fields l (package_ok bp) Hl); [done|]. intros q Hq. by apply Hall. }
    assert (Hnn : exists q, q ∈ l /\ tp_ID p = TrimSpace (tp_ID q) /\ tp_Name p = TrimSpace (tp_Name q)).
    { unfold normalizePackages in Hp. rewrite elem_of_order_by, normalize_loop_index in Hp by lia.
      apply elem_of_lookup_imap in Hp as (i & q & -> & Hq). exists q.
      split; [by apply list_elem_of_lookup_2 in Hq | done]. }
    destruct Hnn as (q & Hq & -> & ->). destruct (Hall q Hq) as (? & ? & _). done.
Qed.

Lemma normalize_elem (l : list TopupPackage) p :
  (length l <= 12)%nat -> p ∈ normalizePackages l ->
  exists q i, q ∈ l /\ p = normalize_package i q.
Proof.
  intros Hl Hp. unfold normalizePackages in Hp. rewrite elem_of_order_by, normalize_loop_index in Hp by lia.
  apply elem_of_lookup_imap in Hp as (i & q & -> & Hq). exists q, (0 + Z.of_nat i).
  split; [by apply list_elem_of_lookup_2 in Hq | done].
Qed.

(** A second normalisation changes nothing validation looks at. *)
Lemma normalize_wf_again bp l :
  (length l <= 12)%nat -> packages_wf TrimSpace false bp l ->
  packages_wf TrimSpace false bp (normalizePackages l).
Proof.
  intros Hl [Hnd Hall]. split.
  - rewrite (list_fmap_compose tp_ID TrimSpace), normalize_ids by done.
    rewrite <- list_fmap_compose. erewrite list_fmap_ext; [exact Hnd|].
    intros i p _. apply TrimSpace_idem.
  - intros p Hp. destruct (normalize_elem l p Hl Hp) as (q & i & Hq & ->). simpl.
    rewrite !TrimSpace_idem. exact (Hall q Hq).
Qed.

(** ** Loaded settings *)

Definition params_ok (params : TopupParams) : Prop :=
  0 <= tq_FeeRateBp params <= 10000 /\
  packages_wf (fun s => s) true (tq_FeeRateBp params) (tq_Packages params) /\
  tq_MinMicroUSD params = TopupMinAmountMicroUSD /\ tq_MaxMicroUSD params = TopupMaxAmountMicroUSD.

Lemma fee_in_range bp : fee_out_of_range bp = false <-> 0 <= bp <= 10000.
Proof. unfold fee_out_of_range. rewrite orb_false_iff, !Z.ltb_ge. done. Qed.

Lemma validateGlobalSettings_ok g :
  validateGlobalSettings g = None ->
  (0 <= gs_TenantCustomTopupFeeBp g <= 10000) /\ (0 <= gs_TenantWithdrawFeeBp g <= 10000) /\
  validValidityDays (gs_TenantCustomValidityDays g) = true /\
  packages_wf (fun s => s) true (gs_TenantCustomTopupFeeBp g) (gs_TenantTopupPackages g).
Proof.
  unfold validateGlobalSettings. destruct (_ || _) eqn:Hf; [done|].
  apply orb_false_iff in Hf as [H1 H2]. apply fee_in_range in H1. apply fee_in_range in H2.
  destruct (negb _) eqn:Hv; [done|]. apply negb_false_iff in Hv. intros Hp.
  apply validate_packages_ok in Hp as [_ Hp]; done.
Qed.

Lemma LoadGlobal_ok db g : LoadGlobal db = Ok g -> validateGlobalSettings g = None.
Proof.
  unfold LoadGlobal. destruct (sys_settings_payment db) as [stored|].
  - destruct (validateGlobalSettings _) eqn:Hv; [done|]. by intros [= <-].
  - intros [= <-]. by vm_compute.
Qed.

(** What the storefront prices an order with: the tenant's terms or the user's. *)
Inductive offered (db : settings_db) : TopupParams -> Prop :=
| offered_tenant g : LoadGlobal db = Ok g -> offered db (ResolveTenantTopup g)
| offered_user g tenantID ts :
    LoadGlobal db = Ok g -> LoadTenantSettings tenantID g db = Ok ts ->
    offered db (ResolveUserTopup ts).

Lemma offered_params_ok db params : offered db params -> params_ok params.
Proof.
  destruct 1 as [g Hg | g tenantID ts Hg Hts]; apply LoadGlobal_ok, validateGlobalSettings_ok in Hg
    as (Hfee & _ & _ & Hp); [done|].
  unfold LoadTenantSettings in Hts. destruct (pay_tenant_settings db !! tenantID) as [stored|].
  - destruct (validateTenantSettings _) eqn:Hv; [done|]. injection Hts as <-.
    unfold validateTenantSettings in Hv.
    destruct (fee_out_of_range _) eqn:Hf; [done|]. apply fee_in_range in Hf.
    destruct (negb _); [done|]. apply validate_packages_ok in Hv as [_ Hv]; [|done].
    split; [done|]. split; [exact Hv | done].
  - injection Hts as <-. split; [done|]. split; [exact Hp | done].
Qed.

(** ** Pricing *)

(** The parts of a priced order agree with each other to the last micro-dollar,
    and the fee is exactly what the snapshot's own rate says. *)
Definition priced (s : topupSnapshot) : Prop :=
  0 < sn_CreditedAmountMicroUSD s /\
  sn_PaymentAmountMicroUSD s = sn_CreditedAmountMicroUSD s + sn_FeeAmountMicroUSD s /\
  sn_PaymentAmountMicroUSD s = sn_PaymentAmountMinor s * 10000 /\ 0 < sn_PaymentAmountMinor s /\
  sn_PaymentAmountMicroUSD s <= 2 * TopupMaxAmountMicroUSD /\
  ceil_fee (sn_GrossAmountMicroUSD s) (sn_FeeRateBp s) (sn_FeeAmountMicroUSD s).

Lemma package_ok_snapshot params p :
  params_ok params -> p ∈ tq_Packages params ->
  exists s, package_snapshot params 0 p = Ok s /\ priced s /\
    sn_CreditedAmountMicroUSD s = tp_PaymentAmountMicroUSD p.
Proof.
  intros (Hfee & [_ Hall] & _) Hp. destruct (Hall p Hp) as (_ & _ & (Hr & f & Hf & m & Hm) & _).
  unfold TopupMinAmountMicroUSD, TopupMaxAmountMicroUSD in Hr.
  assert (Hmx : int64_max = 9223372036854775807) by done.
  assert (Hminor : paymentMinorFromMicroUSD (tp_PaymentAmountMicroUSD p + f) = Ok m)
    by (apply paymentMinor_ok; unfold ceil_fee in Hf; lia).
  assert (Hpriced : forall rate s, sn_CreditedAmountMicroUSD s = tp_PaymentAmountMicroUSD p ->
    sn_GrossAmountMicroUSD s = tp_PaymentAmountMicroUSD p -> sn_FeeAmountMicroUSD s = f ->
    sn_FeeRateBp s = rate -> sn_PaymentAmountMinor s = m -> ceil_fee (tp_PaymentAmountMicroUSD p) rate f ->
    sn_PaymentAmountMicroUSD s = tp_PaymentAmountMicroUSD p + f -> priced s).
  { intros rate s Hc Hg Hff Hrt Hmn Hce Hpay. unfold priced, TopupMaxAmountMicroUSD.
    rewrite Hc, Hg, Hff, Hrt, Hmn, Hpay. unfold ceil_fee in *. lia. }
  unfold package_snapshot. cbn [Z.ltb Z.compare andb]. cbv zeta.
  destruct (tp_FeeEnabled p).
  - destruct (ApplyBasisPointsCeil_ok (tp_PaymentAmountMicroUSD p) (tq_FeeRateBp params)) as (g & -> & Hg);
      [lia..|]. rewrite (ceil_fee_unique _ _ _ _ Hg Hf).
    rewrite (proj2 (Z.ltb_ge (int64_max - tp_PaymentAmountMicroUSD p) f)) by (unfold ceil_fee in Hf; lia).
    rewrite Hminor. eexists. split; [done|]. split; [|done]. by eapply Hpriced.
  - assert (f = 0) as -> by (unfold ceil_fee in Hf; lia). rewrite Z.add_0_r in Hminor. rewrite Hminor.
    eexists. split; [done|]. split; [|done]. eapply Hpriced; try done. simpl. lia.
Qed.

Lemma calculate_priced params amount packageID s :
  params_ok params -> calculateTopupSnapshot params amount packageID = Ok s -> priced s.
Proof.
  intros Hok H. unfold calculateTopupSnapshot in H. case_bool_decide.
  - unfold custom_snapshot in H. destruct Hok as (Hfee & _ & Hmin & Hmax). rewrite Hmin, Hmax in H.
    unfold TopupMinAmountMicroUSD, TopupMaxAmountMicroUSD in H.
    destruct (_ || _) eqn:Hr; [done|]. bool_prop.
    destruct (paymentMinorFromMicroUSD amount) as [m|] eqn:Hm; [|done]. apply paymentMinor_ok in Hm as [Hpos Hm].
    destruct (ApplyBasisPointsCeil _ _) as [f|] eqn:Hf; [|done].
    apply ApplyBasisPointsCeil_inv in Hf; [|by unfold int64_max; lia].
    destruct (amount - f <=? 0) eqn:Hc; [done|]. bool_prop. injection H as <-.
    unfold priced, TopupMaxAmountMicroUSD. simpl. unfold ceil_fee in *. lia.
  - unfold find_package in H. destruct (List.find _ _) as [p|] eqn:Hf; [|done].
    apply List.find_some in Hf as [Hp _]. apply list_elem_of_In in Hp.
    destruct (package_ok_snapshot params p Hok Hp) as (s' & Hs' & Hpr & _).
    assert (package_snapshot params amount p = package_snapshot params 0 p \/
            exists e, package_snapshot params amount p = Err e) as [He | [e He]].
    { unfold package_snapshot. destruct (0 <? amount), (amount =? tp_PaymentAmountMicroUSD p); cbn [negb andb Z.ltb Z.compare]; eauto. }
    + rewrite He, Hs' in H. by injection H as <-.
    + by rewrite He in H.
Qed.

(** Pricing a top-up under stored settings. Whatever an order is priced at, the
    payment is exactly the credit plus the fee, a whole positive number of cents,
    and the fee is the exact ceiling of its own rate. Every enabled package on the
    storefront can be bought and credits its face amount; a custom amount is
    accepted exactly when it lies between the limits, is a whole number of cents
    and the fee leaves something to credit. *)
Theorem calculateTopupSnapshot_correct db params :
  offered db params ->
  (forall amount packageID s, calculateTopupSnapshot params amount packageID = Ok s -> priced s) /\
  (forall p packageID, p ∈ enabledTopupPackages (tq_Packages params) -> TrimSpace packageID = tp_ID p ->
     exists s, calculateTopupSnapshot params 0 packageID = Ok s /\ sn_PackageID s = tp_ID p /\
       sn_CreditedAmountMicroUSD s = tp_PaymentAmountMicroUSD p) /\
  (forall amount packageID, TrimSpace packageID = ""%string ->
     ((exists s, calculateTopupSnapshot params amount packageID = Ok s) <->
      TopupMinAmountMicroUSD <= amount <= TopupMaxAmountMicroUSD /\ (exists cents, amount = cents * 10000) /\
      tq_FeeRateBp params < 10000)).
Proof.
  intros Hoff. apply offered_params_ok in Hoff as Hok. split; [|split].
  - intros amount packageID s. by apply calculate_priced.
  - intros p packageID Hp Hid. unfold enabledTopupPackages in Hp.
    apply list_elem_of_In, filter_In in Hp as [Hp Hen]. apply list_elem_of_In in Hp.
    destruct Hok as (Hfee & [Hnd Hall] & Hrest). destruct (Hall p Hp) as (Hne & _).
    unfold calculateTopupSnapshot. rewrite Hid, bool_decide_false by done.
    assert (Hfind : find_package (tp_ID p) (tq_Packages params) = Some p).
    { unfold find_package. destruct (List.find _ _) as [q|] eqn:Hf.
      - apply List.find_some in Hf as [Hq Hq2]. apply list_elem_of_In in Hq. bool_prop. f_equal.
        by apply (keyed_unique tp_ID (tq_Packages params)).
      - apply list_elem_of_In in Hp. pose proof (List.find_none _ _ Hf p Hp) as Hn. cbv beta in Hn.
        by rewrite bool_decide_true, Hen in Hn. }
    rewrite Hfind. destruct (package_ok_snapshot params p) as (s & Hs & _ & Hc); [done..|].
    exists s. split; [done|]. split; [|done]. clear -Hs. unfold package_snapshot in Hs.
    repeat (case_match; try done); simplify_eq; done.
  - intros amount packageID Hid. destruct Hok as (Hfee & _ & Hmin & Hmax).
    unfold calculateTopupSnapshot, custom_snapshot. rewrite Hid, bool_decide_true, Hmin, Hmax by done.
    unfold TopupMinAmountMicroUSD, TopupMaxAmountMicroUSD.
    destruct ((amount <? 10000000) || (10000000000 <? amount)) eqn:Hr.
    { split; [by intros [s H]|]. intros (Hr' & _). apply orb_true_iff in Hr as [Hr | Hr]; bool_prop; lia. }
    bool_prop. destruct (paymentMinorFromMicroUSD amount) as [m|] eqn:Hm.
    + apply paymentMinor_ok in Hm as [_ Hm].
      destruct (ApplyBasisPointsCeil_ok amount (tq_FeeRateBp params)) as (f & -> & Hf); [unfold int64_max; lia..|].
      assert (Hiff : amount - f <= 0 <-> tq_FeeRateBp params = 10000) by (unfold ceil_fee in Hf; nia).
      destruct (Z.leb_spec (amount - f) 0); (split; [intros [s Hs]|]).
      * done.
      * intros (_ & _ & Hlt). lia.
      * split; [lia|]. split; [by exists m | lia].
      * intros _. by eexists.
    + split; [by intros [s Hs]|]. intros (_ & [m Hm'] & _).
      assert (Hx : paymentMinorFromMicroUSD amount = Ok m) by (apply paymentMinor_ok; lia).
      by rewrite Hx in Hm.
Qed.

(** What the administrator may store. An update of the global settings that is
    accepted can be loaded again exactly when every validity period in it is nil
    or between 1 and 36500 days: the update does not check them, and settings
    that fail the check on load make every operation that loads them fail. *)
Theorem settings_reload_iff g db db' :
  UpdateGlobalSettings g db = Ok (tt, db') ->
  ((exists g', LoadGlobal db' = Ok g') <->
   validValidityDays (gs_TenantCustomValidityDays g) = true /\
   forall p, p ∈ gs_TenantTopupPackages g -> validValidityDays (tp_ValidityDays p) = true).
Proof.
  intros H. unfold UpdateGlobalSettings in H.
  destruct (service_validateGlobalSettings g) eqn:Hv; [done|]. tx_inv H.
  unfold service_validateGlobalSettings in Hv. destruct (_ || _) eqn:Hf; [done|].
  pose proof Hf as Hf2. apply orb_false_iff in Hf as [H1 H2].
  apply fee_in_range in H1. apply validate_packages_ok in Hv as [Hlen Hwf]; [|done].
  pose proof (normalize_packages_wf _ _ Hlen Hwf) as Hiff.
  set (days := validValidityDays (gs_TenantCustomValidityDays g)) in *.
  assert (Hload : (exists g', LoadGlobal (SaveGlobal g db) = Ok g') <->
    validateGlobalSettings (normalizeGlobalSettings (normalizeGlobalSettings g)) = None).
  { unfold LoadGlobal, SaveGlobal. simpl.
    destruct (validateGlobalSettings _) eqn:E; (split; [intros [g' Hg'] | intros ?]); try done. by eexists. }
  rewrite Hload. unfold validateGlobalSettings, normalizeGlobalSettings. simpl. rewrite Hf2.
  set (l := gs_TenantTopupPackages g) in *.
  assert (Hlen2 : (length (normalizePackages l) <= 12)%nat) by (by rewrite normalize_length).
  rewrite <- (normalize_fields l (fun p => validValidityDays (tp_ValidityDays p) = true) Hlen) by done.
  rewrite <- (normalize_packages_wf _ _ Hlen2 (normalize_wf_again _ _ Hlen Hwf)).
  fold days. destruct days; simpl; [|by split; [|intros []]].
  unfold validatePackages. rewrite validate_packages_ok by done. split; [by intros [_ ?]|]. intros [_ ?].
  split; [|done]. by rewrite !normalize_length.
Qed.

(** ** Witnesses *)

Definition demo_settings : settings_db := SettingsDB None ∅.

Lemma calculateTopupSnapshot_correct_witness :
  exists s, calculateTopupSnapshot (ResolveTenantTopup DefaultGlobalSettings) 10000000 "" = Ok s /\
    sn_FeeAmountMicroUSD s = 160000 /\ sn_CreditedAmountMicroUSD s = 9840000 /\ priced s.
Proof.
  eexists. split; [vm_compute; reflexivity|]. split; [reflexivity|]. split; [reflexivity|].
  apply (calculateTopupSnapshot_correct demo_settings (ResolveTenantTopup DefaultGlobalSettings)
    (offered_tenant demo_settings DefaultGlobalSettings eq_refl)) with (amount := 10000000) (packageID := ""%string).
  vm_compute. reflexivity.
Defined.

(** A zero validity period is accepted and stored, and nothing can be loaded any
    more. *)
Definition zero_days : GlobalSettings := MkGlobal 160 160 (Some 0) DefaultTopupPackages.

Lemma settings_reload_iff_witness :
  exists db', UpdateGlobalSettings zero_days demo_settings = Ok (tt, db') /\ ~ exists g', LoadGlobal db' = Ok g'.
Proof.
  eexists. split; [vm_compute; reflexivity|]. intros H.
  apply (settings_reload_iff zero_days demo_settings _ eq_refl) in H as [H _]. discriminate H.
Defined.
