(* ===== verification/Payment.v ===== *)
(** * Payment orders: top-ups, settlement, refunds and withdrawals

    Models [src/internal/payment/model.go], [payment/pg] ([orders.go], [cash.go],
    [refunds.go], [withdrawals.go]) and [payment/service] ([service.go],
    [refund.go]) over the tables [pay_orders], [pay_refunds],
    [bill_refund_reversal_effects], [pay_cash_ledger] and [pay_withdrawals], with
    the billing tables of [Recharge.v].  A statement on the connection pool and
    a [Begin]..[Commit] block are one [PTx] each.  The payment gateway is code
    outside the database: what it answered is an argument.  Generated
    identifiers and clock readings are arguments too ([db_now] is the
    transaction's [now()]).  Columns that hold a constant ([payment_currency],
    [ledger_currency], [channel]) and the raw notification are left out. *)

From Stdlib Require Import Ascii.
From S2P Require Import Prelude GoStrings CivilTime Ledger Recharge Topup.

(** ** Data *)

Definition SceneUserTopup : string := "user_topup".
Definition SceneTenantTopup : string := "tenant_topup".
Definition FulfillmentStatusPending : string := "pending".
Definition FulfillmentStatusCredited : string := "credited".
Definition FulfillmentStatusPartiallyReversed : string := "partially_reversed".
Definition FulfillmentStatusReversed : string := "reversed".
Definition RefundStatusNone : string := "none".
Definition RefundStatusRefunded : string := "refunded".
Definition RefundMethodWechat : string := "wechat".
Definition RefundMethodOffline : string := "offline".
Definition PayCreated : string := "created".
Definition PayPaying : string := "paying".
Definition PayPaid : string := "paid".
Definition PayClosed : string := "closed".
Definition PayExpired : string := "expired".
Definition CashTxnTopupIncome : string := "topup_income".
Definition CashTxnRefundReversal : string := "refund_reversal".
Definition CashTxnWithdraw : string := "withdraw".
Definition WithdrawalStatusPaid : string := "paid".
Definition WithdrawalFeeFromBalance : string := "balance".
Definition WithdrawalFeeFromPayout : string := "payout".
Definition TradeStateSuccess : string := "SUCCESS".
Definition TradeStateNotPay : string := "NOTPAY".
Definition TradeStateUserPaying : string := "USERPAYING".

(** The columns of [payment.Order] that are written once, at creation.  An
    empty [UserID] is the column's NULL. *)
Record pay_offer := MkOffer {
  of_OrderID : string;
  of_OutTradeNo : string;
  of_Scene : string;
  of_TenantID : string;
  of_UserID : string;
  of_TopupMode : string;
  of_PackageID : string;
  of_PackageName : string;
  of_PackageBadge : string;
  of_PaymentAmountMinor : Z;
  of_GrossAmountMicroUSD : Z;
  of_FeeRateBp : Z;
  of_FeeAmountMicroUSD : Z;
  of_GiftAmountMicroUSD : Z;
  of_CreditedAmountMicroUSD : Z;
  of_TenantIncomeMicroUSD : Z;
  of_BalanceExpiresAt : option Z;
  of_ExpiresAt : Z;
  of_CreatedAt : Z }.

(** [payment.Order]: the offer and the columns that change. *)
Record pay_order := MkPayOrder {
  po_Offer : pay_offer;
  po_CodeURL : option string;
  po_TransactionID : option string;
  po_Status : string;
  po_FulfillmentStatus : string;
  po_RefundStatus : string;
  po_PaidAt : option Z;
  po_BalanceOrderID : option string;
  po_FailNote : option string;
  po_SweepAttempts : Z;
  po_SweepNextAttemptAt : option Z;
  po_SweepLastAttemptAt : option Z;
  po_SweepLastError : option string;
  po_UpdatedAt : Z }.

Definition po_OrderID (o : pay_order) : string := of_OrderID (po_Offer o).
Definition po_OutTradeNo (o : pay_order) : string := of_OutTradeNo (po_Offer o).

Record Refund := MkRefund {
  rf_RefundID : string;
  rf_PaymentOrderID : string;
  rf_Method : string;
  rf_RefundReference : string;
  rf_ChannelRefundID : string;
  rf_RefundAmountMinor : Z;
  rf_RefundedAt : Z;
  rf_Reason : string;
  rf_Note : string;
  rf_OperatorID : string;
  rf_CreatedAt : Z }.

Record RefundReversalEffect := MkEffect {
  re_ReversalID : string;
  re_RefundID : string;
  re_RechargeOrderID : string;
  re_AccountID : string;
  re_CreditAmountMicroUSD : Z;
  re_AvailableReclaimedMicroUSD : Z;
  re_NonAvailableDebitMicroUSD : Z;
  re_ExpiredAmountMicroUSD : Z;
  re_AccountDebitMicroUSD : Z;
  re_BalanceAfterMicroUSD : Z }.

Record CashLedgerEntry := MkCash {
  ce_TxnID : string;
  ce_TenantID : string;
  ce_TxnType : string;
  ce_AmountMicroUSD : Z;
  ce_BalanceAfterMicroUSD : Z;
  ce_RefType : string;
  ce_RefID : string;
  ce_OperatorID : string;
  ce_Note : string;
  ce_IdempotencyKey : option string }.

Record Withdrawal := MkWithdrawal {
  wd_WithdrawalID : string;
  wd_TenantID : string;
  wd_AmountMicroUSD : Z;
  wd_FeeAmountMicroUSD : Z;
  wd_PayoutAmountMicroUSD : Z;
  wd_FeeDeductionMode : string;
  wd_AccountName : string;
  wd_BankName : string;
  wd_AccountNo : string;
  wd_ApplyNote : string;
  wd_Status : string;
  wd_AppliedBy : string;
  wd_PaidBy : string;
  wd_PaymentRef : string }.

(** A [payment_refund] row of [bill_repair_audits]: the order before, the
    grants and what was reversed of each. *)
Record refund_audit := MkRefundAudit {
  ra_repair_id : string;
  ra_idempotency_key : string;
  ra_target_id : string;
  ra_operator_id : string;
  ra_reason : string;
  ra_before : pay_order;
  ra_grants : list recharge_order;
  ra_refund_id : string;
  ra_effects : list RefundReversal }.

Record pay_db := PayDB {
  p_billing : billing_db;
  p_orders : list pay_order;
  p_refunds : list Refund;
  p_effects : list RefundReversalEffect;
  p_cash : list CashLedgerEntry;
  p_withdrawals : list Withdrawal;
  p_audits : list refund_audit;
  p_settings : settings_db }.

Inductive pay_error :=
| ErrPayBadRequest
| ErrPayInvalidAmount
| ErrPaymentDisabled
| ErrPaymentAmountOutOfRange
| ErrPaymentOrderNotFound
| ErrPaymentRefundNotAllowed
| ErrPaymentAlreadyRefunded
| ErrDuplicateRequest
| ErrCashInsufficientBalance
| ErrPayInvalidEvent
| ErrPaySettings (e : settings_error)
| ErrPayTopup (e : topup_error)
| ErrPayBilling (e : billing_error)
| ErrPayGateway (msg : string)
| ErrPaySQL (msg : string).

Abbreviation PTx := (Tx pay_db pay_error).

Definition set_billing (b : billing_db) (db : pay_db) : pay_db :=
  PayDB b (p_orders db) (p_refunds db) (p_effects db) (p_cash db) (p_withdrawals db) (p_audits db) (p_settings db).
Definition set_pay_orders (x : list pay_order) (db : pay_db) : pay_db :=
  PayDB (p_billing db) x (p_refunds db) (p_effects db) (p_cash db) (p_withdrawals db) (p_audits db) (p_settings db).
Definition set_refunds (x : list Refund) (db : pay_db) : pay_db :=
  PayDB (p_billing db) (p_orders db) x (p_effects db) (p_cash db) (p_withdrawals db) (p_audits db) (p_settings db).
Definition set_effects (x : list RefundReversalEffect) (db : pay_db) : pay_db :=
  PayDB (p_billing db) (p_orders db) (p_refunds db) x (p_cash db) (p_withdrawals db) (p_audits db) (p_settings db).
Definition set_cash (x : list CashLedgerEntry) (db : pay_db) : pay_db :=
  PayDB (p_billing db) (p_orders db) (p_refunds db) (p_effects db) x (p_withdrawals db) (p_audits db) (p_settings db).
Definition set_withdrawals (x : list Withdrawal) (db : pay_db) : pay_db :=
  PayDB (p_billing db) (p_orders db) (p_refunds db) (p_effects db) (p_cash db) x (p_audits db) (p_settings db).
Definition set_pay_audits (x : list refund_audit) (db : pay_db) : pay_db :=
  PayDB (p_billing db) (p_orders db) (p_refunds db) (p_effects db) (p_cash db) (p_withdrawals db) x (p_settings db).

(** The billing tables as a billing transaction sees them: their foreign key
    refers to the payment orders there are now. *)
Definition billing_view (db : pay_db) : billing_db :=
  let b := p_billing db in
  BillingDB (b_ledger b) (b_orders b) (b_audits b) (b_tenants b) (b_accounts b) (po_OrderID <$> p_orders db).
Definition on_billing {A} (m : BTx A) : PTx A :=
  tx_zoom billing_view set_billing (tx_map_err ErrPayBilling m).

(** ** The order table ([pg/orders.go]) *)

(** Its CHECK constraints. *)
Definition pay_row_ok (o : pay_order) : bool :=
  let f := po_Offer o in
  bool_decide (of_Scene f ∈ [SceneUserTopup; SceneTenantTopup])
  && bool_decide (of_TopupMode f ∈ [TopupModeCustom; TopupModePackage])
  && (0 <? of_PaymentAmountMinor f) && (0 <? of_GrossAmountMicroUSD f) && (0 <=? of_FeeAmountMicroUSD f)
  && (0 <=? of_GiftAmountMicroUSD f) && (0 <? of_CreditedAmountMicroUSD f) && (0 <=? of_TenantIncomeMicroUSD f)
  && bool_decide (po_Status o ∈ [PayCreated; PayPaying; PayPaid; PayClosed; PayExpired])
  && (0 <=? po_SweepAttempts o)
  && eqb (str_eqb (of_Scene f) SceneUserTopup) (negb (empty_str (of_UserID f)))
  && (if str_eqb (po_Status o) PayPaid
      then bool_decide (po_FulfillmentStatus o ∈
             [FulfillmentStatusCredited; FulfillmentStatusPartiallyReversed; FulfillmentStatusReversed])
      else str_eqb (po_FulfillmentStatus o) FulfillmentStatusPending)
  && (str_eqb (po_RefundStatus o) RefundStatusNone
      || (str_eqb (po_RefundStatus o) RefundStatusRefunded && str_eqb (po_Status o) PayPaid
          && str_eqb (po_FulfillmentStatus o) FulfillmentStatusReversed)).

Definition txn_taken (o : pay_order) (l : list pay_order) : bool :=
  is_some (po_TransactionID o) &&
  existsb (fun o' => negb (str_eqb (po_OrderID o') (po_OrderID o))
                     && bool_decide (po_TransactionID o' = po_TransactionID o)) l.

(** [UPDATE pay_orders SET f WHERE order_id = id AND cond]; [RowsAffected]. *)
Definition update_pay (id : string) (cond : pay_order -> bool) (f : pay_order -> pay_order) : PTx Z :=
  let! db := tx_get in
  match find_key po_OrderID id (p_orders db) with
  | Some o =>
      if cond o then
        tx_guard (negb (pay_row_ok (f o))) (ErrPaySQL "pay_orders check") ;;;
        tx_guard (txn_taken (f o) (p_orders db)) (ErrPaySQL "uq_pay_orders_txn") ;;;
        tx_put (set_pay_orders (update_where (has_key po_OrderID id) f (p_orders db)) db) ;;;
        tx_ret 1
      else tx_ret 0
  | None => tx_ret 0
  end.
Definition any_order (_ : pay_order) : bool := true.
Definition has_status (status : string) (o : pay_order) : bool := str_eqb (po_Status o) status.

Definition InsertOrder (o : pay_order) : PTx unit :=
  let! db := tx_get in
  tx_guard (negb (pay_row_ok o)) (ErrPaySQL "pay_orders check") ;;;
  tx_guard (bool_decide (po_OrderID o ∈ (po_OrderID <$> p_orders db))
            || bool_decide (po_OutTradeNo o ∈ (po_OutTradeNo <$> p_orders db))) (ErrPaySQL "duplicate order") ;;;
  tx_put (set_pay_orders (p_orders db ++ [o]) db).

Definition with_code_url (url : string) (now : Z) (o : pay_order) : pay_order :=
  MkPayOrder (po_Offer o) (Some url) (po_TransactionID o) (po_Status o) (po_FulfillmentStatus o)
    (po_RefundStatus o) (po_PaidAt o) (po_BalanceOrderID o) (po_FailNote o) (po_SweepAttempts o)
    (po_SweepNextAttemptAt o) (po_SweepLastAttemptAt o) (po_SweepLastError o) now.
Definition SetCodeURL (now : Z) (id url : string) : PTx unit :=
  update_pay id any_order (with_code_url url now) ;;; tx_ret tt.

(** [SET status, fail_note, sweep_* reset] *)
Definition with_pay_status (status : string) (note : option string) (reset : bool) (now : Z) (o : pay_order)
    : pay_order :=
  MkPayOrder (po_Offer o) (po_CodeURL o) (po_TransactionID o) status (po_FulfillmentStatus o)
    (po_RefundStatus o) (po_PaidAt o) (po_BalanceOrderID o) note
    (if reset then 0 else po_SweepAttempts o) (if reset then None else po_SweepNextAttemptAt o)
    (if reset then None else po_SweepLastAttemptAt o) (if reset then None else po_SweepLastError o) now.
Definition terminal_reset (status : string) : bool := bool_decide (status ∈ [PayClosed; PayPaid]).

Definition MarkPayOrderFailed (now : Z) (id note : string) : PTx unit :=
  update_pay id any_order (with_pay_status PayClosed (Some note) true now) ;;; tx_ret tt.
Definition UpdateStatusTx (now : Z) (id status failNote : string) : PTx unit :=
  update_pay id any_order (with_pay_status status (nullif failNote) (terminal_reset status) now) ;;; tx_ret tt.
Definition UpdateStatusIfCurrent (now : Z) (id expectedStatus status failNote : string) : PTx bool :=
  let! n := update_pay id (has_status expectedStatus)
              (with_pay_status status (nullif failNote) (terminal_reset status) now) in
  tx_ret (n =? 1).

Definition with_paid_mark (txn balanceOrderID : string) (now : Z) (o : pay_order) : pay_order :=
  MkPayOrder (po_Offer o) (po_CodeURL o) (Some txn) PayPaid FulfillmentStatusCredited
    (po_RefundStatus o) (Some now) (Some balanceOrderID) (po_FailNote o) 0 None None None now.
Definition MarkPaidTx (now : Z) (id txn balanceOrderID : string) : PTx unit :=
  update_pay id any_order (with_paid_mark txn balanceOrderID now) ;;; tx_ret tt.

Definition with_sweep_failure (status : string) (next : Z) (lastError : string) (now : Z) (o : pay_order)
    : pay_order :=
  MkPayOrder (po_Offer o) (po_CodeURL o) (po_TransactionID o) status (po_FulfillmentStatus o)
    (po_RefundStatus o) (po_PaidAt o) (po_BalanceOrderID o)
    (if str_eqb status PayExpired then nullif lastError else po_FailNote o)
    (po_SweepAttempts o + 1) (Some next) (Some now) (nullif lastError) now.
Definition RecordSweepFailureIfCurrent (now : Z) (id expectedStatus status : string) (next : Z)
    (lastError : string) : PTx bool :=
  let! n := update_pay id (has_status expectedStatus) (with_sweep_failure status next lastError now) in
  tx_ret (n =? 1).

Definition with_sweep_retry (next now : Z) (o : pay_order) : pay_order :=
  MkPayOrder (po_Offer o) (po_CodeURL o) (po_TransactionID o) (po_Status o) (po_FulfillmentStatus o)
    (po_RefundStatus o) (po_PaidAt o) (po_BalanceOrderID o) (po_FailNote o) (po_SweepAttempts o)
    (Some next) (Some now) None now.
Definition ScheduleSweepRetryIfCurrent (now : Z) (id expectedStatus : string) (next : Z) : PTx bool :=
  let! n := update_pay id (has_status expectedStatus) (with_sweep_retry next now) in
  tx_ret (n =? 1).

Definition links_of (id : string) (orders : list recharge_order) : list recharge_order :=
  List.filter (fun r => bool_decide (ro_payment_order_id r = Some id)) orders.

(** [DeleteStaleClosedOrders]; [skip] names the rows other transactions hold. *)
Definition stale (before : Z) (db : pay_db) (o : pay_order) : bool :=
  has_status PayClosed o && str_eqb (po_FulfillmentStatus o) FulfillmentStatusPending
  && str_eqb (po_RefundStatus o) RefundStatusNone && negb (is_some (po_PaidAt o))
  && negb (is_some (po_TransactionID o)) && negb (is_some (po_BalanceOrderID o))
  && (po_UpdatedAt o <? before)
  && negb (existsb (fun r => bool_decide (ro_payment_order_id r = Some (po_OrderID o))) (b_orders (p_billing db)))
  && negb (existsb (fun f => str_eqb (rf_PaymentOrderID f) (po_OrderID o)) (p_refunds db)).
Definition updated_leb (a b : pay_order) : bool := po_UpdatedAt a <=? po_UpdatedAt b.
Definition DeleteStaleClosedOrders (skip : string -> bool) (before limit : Z) : PTx Z :=
  let limit := if limit <=? 0 then 500 else limit in
  let! db := tx_get in
  let gone := take (Z.to_nat limit) (order_by updated_leb
    (List.filter (fun o => stale before db o && negb (skip (po_OrderID o))) (p_orders db))) in
  tx_put (set_pay_orders
    (List.filter (fun o => negb (bool_decide (po_OrderID o ∈ (po_OrderID <$> gone)))) (p_orders db)) db) ;;;
  tx_ret (Z.of_nat (length gone)).

Definition sweep_due (now : Z) (o : pay_order) : bool :=
  match po_SweepNextAttemptAt o with None => true | Some t => t <=? now end.
Definition expires_leb (a b : pay_order) : bool := of_ExpiresAt (po_Offer a) <=? of_ExpiresAt (po_Offer b).
Definition created_leb (a b : pay_order) : bool := of_CreatedAt (po_Offer a) <=? of_CreatedAt (po_Offer b).
Definition ListSweepCandidates (now limit : Z) (db : pay_db) : list pay_order :=
  take (Z.to_nat limit) (order_by expires_leb (List.filter (fun o =>
    bool_decide (po_Status o ∈ [PayCreated; PayPaying; PayExpired])
    && (of_ExpiresAt (po_Offer o) <? now) && sweep_due now o) (p_orders db))).
Definition ListInFlightCandidates (createdBefore now limit : Z) (db : pay_db) : list pay_order :=
  take (Z.to_nat limit) (order_by created_leb (List.filter (fun o =>
    bool_decide (po_Status o ∈ [PayCreated; PayPaying])
    && (of_CreatedAt (po_Offer o) <? createdBefore) && (now <? of_ExpiresAt (po_Offer o))
    && sweep_due now o) (p_orders db))).

(** ** The tenant's cash ([pg/cash.go], [pg/withdrawals.go]) *)

Definition on_pay_ledger {A} (m : LTx A) : PTx A := on_billing (on_ledger m).
Definition tenant_ref (tenantID : string) : Ref := MkRef KindTenant tenantID tenantID.

Definition DeductTenantBalanceTx (tenantID : string) (amount : Z) : PTx unit :=
  on_pay_ledger (ChargeIfFunded (tenant_ref tenantID) amount).
Definition TenantBalanceAfterTx (tenantID : string) : PTx Z := on_pay_ledger (Balance (tenant_ref tenantID)).

(** [SELECT balance_micro FROM bill_accounts WHERE account_id FOR UPDATE] *)
Definition GetBalanceAccountForUpdate (tenantID : string) : PTx Z :=
  let! db := tx_get in
  match bill_accounts (b_ledger (p_billing db)) !! tenantID with
  | None => tx_fail (ErrPaySQL "no rows in result set")
  | Some a => tx_ret (balance_micro a)
  end.

Definition ExistsCashLedgerIdempotencyKey (key : string) (db : pay_db) : bool :=
  existsb (fun e => bool_decide (ce_IdempotencyKey e = Some key)) (p_cash db).

(** [InsertCashLedgerTx] with the table's unique keys. *)
Definition InsertCashLedgerTx (e : CashLedgerEntry) : PTx unit :=
  let! db := tx_get in
  tx_guard (bool_decide (ce_TxnID e ∈ (ce_TxnID <$> p_cash db))
            || (is_some (ce_IdempotencyKey e)
                && existsb (fun x => bool_decide (ce_IdempotencyKey x = ce_IdempotencyKey e)) (p_cash db)))
    (ErrPaySQL "duplicate cash ledger entry") ;;;
  tx_put (set_cash (p_cash db ++ [e]) db).

Definition withdrawal_row_ok (w : Withdrawal) : bool :=
  (0 <? wd_AmountMicroUSD w) && (0 <=? wd_FeeAmountMicroUSD w) && (0 <=? wd_PayoutAmountMicroUSD w)
  && bool_decide (wd_FeeDeductionMode w ∈ [WithdrawalFeeFromBalance; WithdrawalFeeFromPayout]).
(** [applied_by] is NOT NULL and written as [NULLIF($12, '')]. *)
Definition InsertWithdrawalTx (w : Withdrawal) : PTx unit :=
  let! db := tx_get in
  tx_guard (bool_decide (wd_WithdrawalID w ∈ (wd_WithdrawalID <$> p_withdrawals db)))
    (ErrPaySQL "duplicate withdrawal") ;;;
  tx_guard (negb (withdrawal_row_ok w) || empty_str (wd_AppliedBy w)) (ErrPaySQL "pay_withdrawals check") ;;;
  tx_put (set_withdrawals (p_withdrawals db ++ [w]) db).

Record CreateWithdrawalParams := MkWithdrawalParams {
  cw_TenantID : string;
  cw_AmountMicroUSD : Z;
  cw_FeeDeductionMode : string;
  cw_AccountName : string;
  cw_BankName : string;
  cw_AccountNo : string;
  cw_Note : string;
  cw_OperatorID : string;
  cw_PaymentRef : string }.

Definition withdrawal_mode (p : CreateWithdrawalParams) : string :=
  let mode := TrimSpace (cw_FeeDeductionMode p) in
  if empty_str mode then WithdrawalFeeFromBalance else mode.

(** Fee, balance deduction and payout. *)
Definition withdrawal_amounts (mode : string) (amount feeBp : Z) : result pay_error (Z * Z * Z) :=
  match ApplyBasisPointsCeil amount feeBp with
  | None => Err ErrPayInvalidAmount
  | Some fee =>
      if str_eqb mode WithdrawalFeeFromPayout then
        if int64_max - amount <? fee then Err ErrPayInvalidAmount
        else Ok (fee, amount + fee, amount)
      else Ok (fee, amount, Z.max (amount - fee) 0)
  end.

Definition load_global (db : pay_db) : result pay_error GlobalSettings :=
  match LoadGlobal (p_settings db) with Ok g => Ok g | Err e => Err (ErrPaySettings e) end.

Definition cash_id (uuid : string) : string := ("CSH_" +:+ String.substring 0 24 uuid)%string.

Definition CreateWithdrawal (wid cid : string) (p : CreateWithdrawalParams) : PTx Withdrawal :=
  let mode := withdrawal_mode p in
  let tenantID := TrimSpace (cw_TenantID p) in
  tx_guard (negb (str_eqb mode WithdrawalFeeFromBalance) && negb (str_eqb mode WithdrawalFeeFromPayout))
    ErrPayBadRequest ;;;
  tx_guard (empty_str tenantID || (cw_AmountMicroUSD p <=? 0)) ErrPayInvalidAmount ;;;
  let! db := tx_get in
  match load_global db with
  | Err e => tx_fail e
  | Ok global =>
      match withdrawal_amounts mode (cw_AmountMicroUSD p) (gs_TenantWithdrawFeeBp global) with
      | Err e => tx_fail e
      | Ok (fee, balanceDeduction, payout) =>
          let! balance := GetBalanceAccountForUpdate tenantID in
          tx_guard (balance <? balanceDeduction) ErrCashInsufficientBalance ;;;
          (fun db => match DeductTenantBalanceTx tenantID balanceDeduction db with
                     | Ok r => Ok r
                     | Err _ => Err ErrCashInsufficientBalance
                     end) ;;;
          let withdrawalID := ("WDR_" +:+ String.substring 0 24 wid)%string in
          let operatorID := TrimSpace (cw_OperatorID p) in
          let w := MkWithdrawal withdrawalID tenantID balanceDeduction fee payout mode
            (TrimSpace (cw_AccountName p)) (TrimSpace (cw_BankName p)) (TrimSpace (cw_AccountNo p))
            (TrimSpace (cw_Note p)) WithdrawalStatusPaid operatorID operatorID (TrimSpace (cw_PaymentRef p)) in
          InsertWithdrawalTx w ;;;
          let! balanceAfter := TenantBalanceAfterTx tenantID in
          InsertCashLedgerTx (MkCash (cash_id cid) tenantID CashTxnWithdraw (- balanceDeduction) balanceAfter
            "withdrawal" withdrawalID operatorID (TrimSpace (cw_Note p)) (nullif ("withdrawal:" +:+ withdrawalID))) ;;;
          tx_ret w
      end
  end.

(** ** Creating an order ([CreateTopupOrder]) *)

Record MerchantConfig := MkMerchant {
  mc_Enabled : bool;
  mc_Mock : bool;
  mc_AppID : string;
  mc_MchID : string;
  mc_OrderTTL : Z }.

Record CreateTopupOrderParams := MkTopupOrder {
  ct_Scene : string;
  ct_TenantID : string;
  ct_UserID : string;
  ct_AmountMicroUSD : Z;
  ct_PackageID : string }.

Definition topup_params (scene tenantID : string) (db : pay_db) : result pay_error TopupParams :=
  match load_global db with
  | Err e => Err e
  | Ok global =>
      if str_eqb scene SceneUserTopup then
        match LoadTenantSettings tenantID global (p_settings db) with
        | Err e => Err (ErrPaySettings e)
        | Ok ts => Ok (ResolveUserTopup ts)
        end
      else Ok (ResolveTenantTopup global)
  end.

(** Everything [CreateTopupOrder] decides before it writes the order. *)
Definition topup_offer (db_now now : Z) (uuid outTradeNo : string) (cfg : MerchantConfig) (p : CreateTopupOrderParams)
    (db : pay_db) : result pay_error pay_offer :=
  if negb (mc_Enabled cfg) then Err ErrPaymentDisabled
  else if ct_AmountMicroUSD p <? 0 then Err ErrPayInvalidAmount
  else if empty_str (TrimSpace (ct_PackageID p)) && (ct_AmountMicroUSD p <=? 0) then Err ErrPayInvalidAmount
  else
    match topup_params (ct_Scene p) (ct_TenantID p) db with
    | Err e => Err e
    | Ok params =>
        match calculateTopupSnapshot params (ct_AmountMicroUSD p) (TrimSpace (ct_PackageID p)) with
        | Err e => Err (ErrPayTopup e)
        | Ok calc =>
            if sn_CreditedAmountMicroUSD calc <=? 0 then Err ErrPaymentAmountOutOfRange
            else Ok (MkOffer ("PAY_" +:+ String.substring 0 24 uuid) outTradeNo (ct_Scene p) (ct_TenantID p)
              (ct_UserID p) (sn_Mode calc) (sn_PackageID calc) (sn_PackageName calc) (sn_PackageBadge calc)
              (sn_PaymentAmountMinor calc) (sn_GrossAmountMicroUSD calc) (sn_FeeRateBp calc)
              (sn_FeeAmountMicroUSD calc) 0 (sn_CreditedAmountMicroUSD calc)
              (if str_eqb (ct_Scene p) SceneUserTopup then sn_PaymentAmountMicroUSD calc else 0)
              ((fun days => now + wrap64 (days * 24 * Hour)) <$> sn_ValidityDays calc)
              (now + mc_OrderTTL cfg) db_now)
        end
    end.

Definition new_order (now : Z) (f : pay_offer) : pay_order :=
  MkPayOrder f None None PayCreated FulfillmentStatusPending RefundStatusNone None None None 0 None None None now.

(** [prepay] is what the gateway answered for the stored order; the insert and the
    statement after it have their own [now()]. *)
Definition CreateTopupOrder (t1 t2 now : Z) (uuid outTradeNo : string) (cfg : MerchantConfig)
    (p : CreateTopupOrderParams) (prepay : result string string) (db : pay_db)
    : pay_db * result pay_error pay_order :=
  match topup_offer t1 now uuid outTradeNo cfg p db with
  | Err e => (db, Err e)
  | Ok f =>
      let o := new_order t1 f in
      let '(db1, r) := run_tx (InsertOrder o) db in
      match r with
      | Err e => (db1, Err e)
      | Ok tt =>
          match prepay with
          | Err msg => ((run_tx (MarkPayOrderFailed t2 (po_OrderID o) msg) db1).1, Err (ErrPayGateway msg))
          | Ok url =>
              let '(db2, r) := run_tx (SetCodeURL t2 (po_OrderID o) url) db1 in
              (db2, match r with Err e => Err e | Ok tt => Ok (with_code_url url t2 o) end)
          end
      end
  end.

Definition orderOwnedByScope (o : pay_order) (scene tenantID userID : string) : bool :=
  let f := po_Offer o in
  if empty_str scene || negb (str_eqb (of_Scene f) scene) || empty_str tenantID
     || negb (str_eqb (of_TenantID f) tenantID) then false
  else if str_eqb scene SceneTenantTopup then empty_str userID && empty_str (of_UserID f)
  else if str_eqb scene SceneUserTopup then negb (empty_str userID) && str_eqb (of_UserID f) userID
  else false.

Definition GetOrderForScope (orderID scene tenantID userID : string) (db : pay_db) : result pay_error pay_order :=
  match find_key po_OrderID orderID (p_orders db) with
  | Some o => if orderOwnedByScope o scene tenantID userID then Ok o else Err ErrPaymentOrderNotFound
  | None => Err ErrPaymentOrderNotFound
  end.

(** ** Settlement *)

(** [wechat.QueryResult] *)
Record QueryResult := MkQuery {
  qr_TradeState : string;
  qr_TransactionID : string;
  qr_OutTradeNo : string;
  qr_AmountTotal : Z;
  qr_Appid : string;
  qr_Mchid : string }.

Record settle_ids := MkSettleIds {
  si_order : string;
  si_lot : string;
  si_income_order : string;
  si_income_lot : string;
  si_cash : string }.

Definition txn_matches (cfg : MerchantConfig) (txn : QueryResult) (f : pay_offer) : bool :=
  (qr_AmountTotal txn =? of_PaymentAmountMinor f)
  && (empty_str (mc_MchID cfg) || empty_str (qr_Mchid txn) || str_eqb (qr_Mchid txn) (mc_MchID cfg))
  && (empty_str (mc_AppID cfg) || empty_str (qr_Appid txn) || str_eqb (qr_Appid txn) (mc_AppID cfg)).

Definition settle_operator : string := "system:wechatpay".
Definition primary_type (scene : string) : string :=
  if str_eqb scene SceneUserTopup then OrderTypeOnlineUserTopup else OrderTypeOnlineTenantTopup.
Definition primary_params (f : pay_offer) (txn : QueryResult) : GrantParams :=
  MkGrantParams (primary_type (of_Scene f)) (of_TenantID f) (of_UserID f) (of_CreditedAmountMicroUSD f)
    (of_PaymentAmountMinor f) (qr_TransactionID txn) (of_OrderID f) "" settle_operator
    PackageSourceOnlineTopup (of_BalanceExpiresAt f).
Definition income_params (f : pay_offer) (txn : QueryResult) : GrantParams :=
  MkGrantParams OrderTypeUserTopupIncome (of_TenantID f) "" (of_TenantIncomeMicroUSD f)
    (of_PaymentAmountMinor f) (qr_TransactionID txn) (of_OrderID f) "" settle_operator
    PackageSourceUserTopupIncome None.
Definition income_key (outTradeNo : string) : string := ("wxpay:" +:+ outTradeNo)%string.

(** The tenant's income of a user's top-up, once per merchant order. *)
Definition settle_income (db_now now : Z) (ids : settle_ids) (f : pay_offer) (txn : QueryResult) : PTx unit :=
  let! db := tx_get in
  let idemKey := income_key (of_OutTradeNo f) in
  if ExistsCashLedgerIdempotencyKey idemKey db then tx_ret tt
  else
    let! income := on_billing (GrantBalance db_now now (si_income_order ids) (si_income_lot ids) (income_params f txn)) in
    let! balanceAfter := TenantBalanceAfterTx (of_TenantID f) in
    InsertCashLedgerTx (MkCash (cash_id (si_cash ids)) (of_TenantID f) CashTxnTopupIncome
      (of_TenantIncomeMicroUSD f) balanceAfter "recharge_order" (gr_OrderID income) settle_operator ""
      (nullif idemKey)).

(** The paid path: grant, income, mark. *)
Definition settle_paid (db_now now : Z) (ids : settle_ids) (f : pay_offer) (txn : QueryResult) : PTx unit :=
  let! grant := on_billing (GrantBalance db_now now (si_order ids) (si_lot ids) (primary_params f txn)) in
  (if str_eqb (of_Scene f) SceneUserTopup && (0 <? of_TenantIncomeMicroUSD f)
   then settle_income db_now now ids f txn else tx_ret tt) ;;;
  MarkPaidTx db_now (of_OrderID f) (qr_TransactionID txn) (gr_OrderID grant).

Definition next_status (o : pay_order) (tradeState : string) : string :=
  if str_eqb tradeState TradeStateUserPaying then PayPaying
  else if str_eqb tradeState TradeStateNotPay then po_Status o
  else PayClosed.

(** [fail_text] renders the mismatch for the operator ([fmt.Sprintf]). *)
Definition Settle (fail_text : QueryResult -> string) (db_now now : Z) (ids : settle_ids) (cfg : MerchantConfig)
    (outTradeNo : string) (txn : QueryResult) : PTx unit :=
  let! db := tx_get in
  match find_key po_OutTradeNo outTradeNo (p_orders db) with
  | None => tx_fail ErrPaymentOrderNotFound
  | Some o =>
      let f := po_Offer o in
      if str_eqb (po_Status o) PayPaid then tx_ret tt
      else if negb (str_eqb (qr_TradeState txn) TradeStateSuccess) then
        if str_eqb (po_Status o) PayClosed || str_eqb (po_Status o) PayExpired then tx_ret tt
        else
          let newStatus := next_status o (qr_TradeState txn) in
          if str_eqb newStatus (po_Status o) then tx_ret tt
          else UpdateStatusTx db_now (of_OrderID f) newStatus ""
      else if negb (txn_matches cfg txn f) then
        UpdateStatusTx db_now (of_OrderID f) (po_Status o) (fail_text txn)
      else settle_paid db_now now ids f txn
  end.

(** [HandleNotify]: the parsed notification names the order it settles. *)
Definition HandleNotify fail_text (db_now now : Z) ids cfg (parsed : result string QueryResult) : PTx unit :=
  match parsed with
  | Err msg => tx_fail (ErrPayGateway msg)
  | Ok r => Settle fail_text db_now now ids cfg (qr_OutTradeNo r) r
  end.

(** ** The sweep *)

Definition sweepFailureRetryBase : Z := 60 * Second.
Definition sweepFailureRetryMax : Z := Hour.
Definition sweepPendingRetryDelay : Z := 5 * 60 * Second.
Definition sweepErrorMessageLimit : Z := 2048.

(** The loop body runs while [i < attempt && delay < max]; [fuel] bounds its
    rounds. *)
Fixpoint retry_delay_loop (fuel : nat) (i attempt delay : Z) : Z :=
  match fuel with
  | O => delay
  | S fuel' =>
      if (i <? attempt) && (delay <? sweepFailureRetryMax) then
        if sweepFailureRetryMax `quot` 2 <? delay then sweepFailureRetryMax
        else retry_delay_loop fuel' (i + 1) attempt (delay * 2)
      else if sweepFailureRetryMax <? delay then sweepFailureRetryMax else delay
  end.
Definition sweepFailureRetryDelay (attempt : Z) : Z :=
  let attempt := if attempt <? 1 then 1 else attempt in
  retry_delay_loop 8 1 attempt sweepFailureRetryBase.

Definition truncateForAudit (s : string) (max : Z) : string :=
  if (max <=? 0) || (Z.of_nat (String.length s) <=? max) then s
  else (String.substring 0 (Z.to_nat max) s +:+ "...(truncated)")%string.

(** What the sweep meets outside the database while it handles one order. *)
Record sweep_io := MkSweepIO {
  io_query : result string (option QueryResult);
  io_close : option string;
  io_ids : settle_ids;
  io_db_now : Z;
  io_now : Z;
  io_fail_text : QueryResult -> string;
  io_error_text : pay_error -> string }.

Definition recordSweepFailure (io : sweep_io) (o : pay_order) (nextStatus cause : string) : PTx bool :=
  RecordSweepFailureIfCurrent (io_db_now io) (po_OrderID o) (po_Status o) nextStatus
    (io_now io + sweepFailureRetryDelay (po_SweepAttempts o + 1))
    (truncateForAudit (TrimSpace cause) sweepErrorMessageLimit).
Definition scheduleSweepRetry (io : sweep_io) (o : pay_order) : PTx bool :=
  ScheduleSweepRetryIfCurrent (io_db_now io) (po_OrderID o) (po_Status o) (io_now io + sweepPendingRetryDelay).

(** Settling from the sweep, with the failure recorded on the order. *)
Definition sweep_settle (io : sweep_io) (cfg : MerchantConfig) (o : pay_order) (r : QueryResult) (db : pay_db) : pay_db :=
  let '(db1, res) := run_tx (Settle (io_fail_text io) (io_db_now io) (io_now io) (io_ids io) cfg (po_OutTradeNo o) r) db in
  match res with
  | Ok tt => db1
  | Err e => (run_tx (recordSweepFailure io o (po_Status o) ("补偿入账: " +:+ io_error_text io e)%string) db1).1
  end.

Definition success_of (q : result string (option QueryResult)) : option QueryResult :=
  match q with
  | Ok (Some r) => if str_eqb (qr_TradeState r) TradeStateSuccess then Some r else None
  | _ => None
  end.

Definition sweepExpiredOrder (io : sweep_io) (cfg : MerchantConfig) (o : pay_order) (db : pay_db) : pay_db :=
  match success_of (io_query io) with
  | Some r => sweep_settle io cfg o r db
  | None =>
      match io_close io with
      | Some closeErr =>
          let cause := match io_query io with
                       | Err queryErr => (queryErr +:+ String "010"%char closeErr)%string
                       | Ok _ => closeErr
                       end in
          (run_tx (recordSweepFailure io o PayExpired cause) db).1
      | None => (run_tx (UpdateStatusIfCurrent (io_db_now io) (po_OrderID o) (po_Status o) PayClosed "") db).1
      end
  end.

Definition sweepInFlightOrder (io : sweep_io) (cfg : MerchantConfig) (o : pay_order) (db : pay_db) : pay_db :=
  match io_query io with
  | Err queryErr => (run_tx (recordSweepFailure io o (po_Status o) ("查询支付状态: " +:+ queryErr)%string) db).1
  | Ok _ =>
      match success_of (io_query io) with
      | None => (run_tx (scheduleSweepRetry io o) db).1
      | Some r => sweep_settle io cfg o r db
      end
  end.

(** [SweepOnce]; [io] gives what each order's round meets. *)
Definition SweepOnce (io : string -> sweep_io) (cfg : MerchantConfig) (now : Z) (db : pay_db) : pay_db :=
  let db1 := fold_left (fun db o => sweepExpiredOrder (io (po_OutTradeNo o)) cfg o db)
               (ListSweepCandidates now 100 db) db in
  fold_left (fun db o => sweepInFlightOrder (io (po_OutTradeNo o)) cfg o db)
    (ListInFlightCandidates (now - 5 * 60 * Second) now 100 db1) db1.

(** [SyncOrder]: in mock mode the gateway is first told that the order was paid. *)
Definition mock_answer (cfg : MerchantConfig) (o : pay_order) : QueryResult :=
  MkQuery TradeStateSuccess ("MOCK_" +:+ po_OutTradeNo o)%string (po_OutTradeNo o)
    (of_PaymentAmountMinor (po_Offer o)) (mc_AppID cfg) (mc_MchID cfg).
Definition SyncOrder fail_text (db_now now : Z) ids (cfg : MerchantConfig) (orderID : string)
    (query : result string QueryResult) : PTx unit :=
  let! db := tx_get in
  match find_key po_OrderID orderID (p_orders db) with
  | None => tx_fail ErrPaymentOrderNotFound
  | Some o =>
      match (if mc_Mock cfg then Ok (mock_answer cfg o) else query) with
      | Err msg => tx_fail (ErrPayGateway msg)
      | Ok r => Settle fail_text db_now now ids cfg (po_OutTradeNo o) r
      end
  end.

Definition ClosedOrderRetention : Z := 30 * 24 * Hour.
Definition closedOrderCleanupBatch : Z := 500.
(** [CleanupClosedOrders]: batches until one is not full. *)
Fixpoint cleanup_loop (fuel : nat) (skip : string -> bool) (cutoff total : Z) (db : pay_db) : pay_db * Z :=
  match fuel with
  | O => (db, total)
  | S fuel' =>
      match run_tx (DeleteStaleClosedOrders skip cutoff closedOrderCleanupBatch) db with
      | (db1, Err _) => (db1, total)
      | (db1, Ok deleted) =>
          if deleted <? closedOrderCleanupBatch then (db1, total + deleted)
          else cleanup_loop fuel' skip cutoff (total + deleted) db1
      end
  end.
Definition CleanupClosedOrders (skip : string -> bool) (now : Z) (db : pay_db) : pay_db * Z :=
  cleanup_loop (S (length (p_orders db))) skip (now - ClosedOrderRetention) 0 db.

(** ** Refunds ([refund.go]) *)

Record RecordCompletedRefundParams := MkRefundParams {
  rp_PaymentOrderID : string;
  rp_Method : string;
  rp_RefundReference : string;
  rp_ChannelRefundID : string;
  rp_RefundedAt : Z;
  rp_Reason : string;
  rp_Note : string;
  rp_OperatorID : string }.

Definition trim_refund (p : RecordCompletedRefundParams) : RecordCompletedRefundParams :=
  MkRefundParams (TrimSpace (rp_PaymentOrderID p)) (TrimSpace (rp_Method p)) (TrimSpace (rp_RefundReference p))
    (TrimSpace (rp_ChannelRefundID p)) (rp_RefundedAt p) (TrimSpace (rp_Reason p)) (TrimSpace (rp_Note p))
    (rp_OperatorID p).

Definition refund_params_bad (now : Z) (p : RecordCompletedRefundParams) : bool :=
  empty_str (rp_PaymentOrderID p) || empty_str (rp_RefundReference p) || empty_str (rp_Reason p)
  || empty_str (rp_OperatorID p) || (rp_RefundedAt p =? zero_time)
  || (negb (str_eqb (rp_Method p) RefundMethodWechat) && negb (str_eqb (rp_Method p) RefundMethodOffline))
  || (str_eqb (rp_Method p) RefundMethodWechat && empty_str (rp_ChannelRefundID p))
  || (now + 5 * 60 * Second <? rp_RefundedAt p).

Definition same_refund (existing : Refund) (p : RecordCompletedRefundParams) : bool :=
  str_eqb (rf_Method existing) (rp_Method p) && str_eqb (rf_RefundReference existing) (rp_RefundReference p)
  && str_eqb (rf_ChannelRefundID existing) (rp_ChannelRefundID p).

(** [loadRechargeGrantsForRefund]: the order's own grant first. *)
Definition grants_leb (text_leb : string -> string -> bool) (primary : string) (a b : recharge_order) : bool :=
  match str_eqb (ro_order_id a) primary, str_eqb (ro_order_id b) primary with
  | true, false => true
  | false, true => false
  | _, _ => text_leb (ro_order_id a) (ro_order_id b)
  end.
Definition loadRechargeGrantsForRefund text_leb (paymentOrderID primary : string) (db : pay_db) : list recharge_order :=
  order_by (grants_leb text_leb primary) (links_of paymentOrderID (b_orders (p_billing db))).

(** The loop of [validateRefundGrants] with its two flags. *)
Fixpoint refund_grants_loop (o : pay_order) (primaryFound incomeFound : bool) (grants : list recharge_order) : bool :=
  let f := po_Offer o in
  match grants with
  | [] => primaryFound && negb ((0 <? of_TenantIncomeMicroUSD f) && negb incomeFound)
  | g :: rest =>
      if negb (str_eqb (ro_status g) OrderStatusActive) || negb (str_eqb (ro_tenant_id g) (of_TenantID f)) then false
      else if str_eqb (ro_order_id g) (default ""%string (po_BalanceOrderID o)) then
        if negb (str_eqb (ro_order_type g) (primary_type (of_Scene f)))
           || negb (ro_credit_amount g =? of_CreditedAmountMicroUSD f) then false
        else refund_grants_loop o true incomeFound rest
      else if str_eqb (ro_order_type g) OrderTypeUserTopupIncome && negb incomeFound then
        if negb (ro_credit_amount g =? of_TenantIncomeMicroUSD f) then false
        else refund_grants_loop o primaryFound true rest
      else false
  end.
Definition validateRefundGrants (o : pay_order) (grants : list recharge_order) : bool :=
  let expected := if 0 <? of_TenantIncomeMicroUSD (po_Offer o) then 2 else 1 in
  (Z.of_nat (length grants) =? expected) && refund_grants_loop o false false grants.

(** [InsertRefundTx]: a unique violation is [ErrDuplicateRequest]. *)
Definition InsertRefundTx (r : Refund) : PTx unit :=
  let! db := tx_get in
  tx_guard (existsb (fun x => str_eqb (rf_RefundID x) (rf_RefundID r)
                              || str_eqb (rf_PaymentOrderID x) (rf_PaymentOrderID r)
                              || (str_eqb (rf_Method x) (rf_Method r)
                                  && str_eqb (rf_RefundReference x) (rf_RefundReference r))
                              || (negb (empty_str (rf_ChannelRefundID r))
                                  && str_eqb (rf_ChannelRefundID x) (rf_ChannelRefundID r))) (p_refunds db))
    ErrDuplicateRequest ;;;
  tx_guard ((rf_RefundAmountMinor r <=? 0)
            || negb (str_eqb (rf_Method r) RefundMethodOffline || negb (blank (rf_ChannelRefundID r))))
    (ErrPaySQL "pay_refunds check") ;;;
  tx_put (set_refunds (p_refunds db ++ [r]) db).

Definition effect_row_ok (e : RefundReversalEffect) : bool :=
  (0 <? re_CreditAmountMicroUSD e) && (0 <=? re_AvailableReclaimedMicroUSD e)
  && (0 <=? re_NonAvailableDebitMicroUSD e) && (0 <=? re_ExpiredAmountMicroUSD e)
  && (0 <=? re_AccountDebitMicroUSD e)
  && (re_AvailableReclaimedMicroUSD e + re_NonAvailableDebitMicroUSD e + re_ExpiredAmountMicroUSD e
      =? re_CreditAmountMicroUSD e)
  && (re_AvailableReclaimedMicroUSD e + re_NonAvailableDebitMicroUSD e =? re_AccountDebitMicroUSD e).
Definition InsertRefundReversalEffectTx (e : RefundReversalEffect) : PTx unit :=
  let! db := tx_get in
  tx_guard (negb (effect_row_ok e)
            || bool_decide (re_ReversalID e ∈ (re_ReversalID <$> p_effects db))
            || bool_decide (re_RechargeOrderID e ∈ (re_RechargeOrderID <$> p_effects db)))
    (ErrPaySQL "bill_refund_reversal_effects") ;;;
  tx_put (set_effects (p_effects db ++ [e]) db).

Record refund_ids := MkRefundIds {
  ri_refund : string;
  ri_reversal : string -> string;
  ri_cash : string;
  ri_repair : string }.

(** A ledger error of the reversal as [RecordCompletedRefund] reports it. *)
Definition refund_ledger_error (e : ledger_error) : pay_error :=
  match e with
  | ErrRefundReversalUnreconciled _ => ErrPaymentRefundNotAllowed
  | e => ErrPayBilling (ErrBillingLedger e)
  end.
Definition on_refund_ledger {A} (m : LTx A) : PTx A :=
  tx_zoom (fun db => b_ledger (p_billing db)) (fun l db => set_billing (set_ledger l (p_billing db)) db)
    (tx_map_err refund_ledger_error m).

Definition refund_reason_prefix : string := "退款冲正: ".
Definition refund_cash_note : string := "用户在线充值退款收入冲正: ".

(** [UPDATE bill_recharge_orders SET status = 'reversed' ... WHERE order_id] *)
Definition reverse_grant_row (now : Z) (p : RecordCompletedRefundParams) (effect : RefundReversal) (id : string)
    : PTx unit :=
  let! db := tx_get in
  let mark := mark_reversed now (rp_OperatorID p) (refund_reason_prefix +:+ rp_Reason p)%string
                (AvailableReclaimedMicro effect) (NonAvailableDebitMicro effect) in
  tx_guard (existsb (fun g => has_key ro_order_id id g && negb (order_row_ok (mark g))) (b_orders (p_billing db)))
    (ErrPaySQL "bill_recharge_orders check") ;;;
  tx_put (set_billing (set_orders (update_where (has_key ro_order_id id) mark (b_orders (p_billing db)))
                         (p_billing db)) db).

Definition grant_account (g : recharge_order) : string :=
  match ro_user_id g with Some u => if empty_str u then ro_tenant_id g else u | None => ro_tenant_id g end.

(** The loop body for one grant. *)
Definition refund_grant (db_now now : Z) (ids : refund_ids) (p : RecordCompletedRefundParams) (refundID : string)
    (g : recharge_order) : PTx RefundReversal :=
  let! effect := on_refund_ledger (ReverseGrantForRefund db_now (grant_account g) (ro_order_id g) (ro_credit_amount g)) in
  reverse_grant_row now p effect (ro_order_id g) ;;;
  InsertRefundReversalEffectTx (MkEffect ("RVR_" +:+ String.substring 0 24 (ri_reversal ids (ro_order_id g)))
    refundID (ro_order_id g) (grant_account g) (ro_credit_amount g) (AvailableReclaimedMicro effect)
    (NonAvailableDebitMicro effect) (ExpiredMicro effect) (AccountDebitMicro effect) (BalanceAfterMicro effect)) ;;;
  (if str_eqb (ro_order_type g) OrderTypeUserTopupIncome
   then InsertCashLedgerTx (MkCash (cash_id (ri_cash ids)) (ro_tenant_id g) CashTxnRefundReversal
          (- ro_credit_amount g) (BalanceAfterMicro effect) "refund" refundID (rp_OperatorID p)
          (refund_cash_note +:+ rp_Reason p) (nullif ("refund:" +:+ refundID)))
   else tx_ret tt) ;;;
  tx_ret effect.

Definition with_refunded (now : Z) (o : pay_order) : pay_order :=
  MkPayOrder (po_Offer o) (po_CodeURL o) (po_TransactionID o) (po_Status o) FulfillmentStatusReversed
    RefundStatusRefunded (po_PaidAt o) (po_BalanceOrderID o) (po_FailNote o) (po_SweepAttempts o)
    (po_SweepNextAttemptAt o) (po_SweepLastAttemptAt o) (po_SweepLastError o) now.

(** [audit.Append] of the [payment_refund] event. *)
Definition append_refund_audit (e : refund_audit) : PTx unit :=
  tx_guard (blank (ra_repair_id e) || blank (ra_idempotency_key e) || blank (ra_target_id e)
            || blank (ra_operator_id e) || blank (ra_reason e)) ErrPayInvalidEvent ;;;
  let! db := tx_get in
  tx_guard (existsb (fun x => str_eqb (ra_repair_id x) (ra_repair_id e)
                              || str_eqb (ra_idempotency_key x) (ra_idempotency_key e)) (p_audits db)
            || existsb (fun x => str_eqb (ev_repair_id x) (ra_repair_id e)
                                 || str_eqb (ev_idempotency_key x) (ra_idempotency_key e)) (b_audits (p_billing db)))
    (ErrPaySQL "append billing repair audit") ;;;
  tx_put (set_pay_audits (p_audits db ++ [e]) db).

(** Everything after the checks: the refund row, each grant, the order, the audit. *)
Definition apply_refund text_leb (db_now now : Z) (ids : refund_ids) (p : RecordCompletedRefundParams)
    (o : pay_order) : PTx Refund :=
  let! db := tx_get in
  let grants := loadRechargeGrantsForRefund text_leb (po_OrderID o) (default ""%string (po_BalanceOrderID o)) db in
  tx_guard (negb (validateRefundGrants o grants)) ErrPaymentRefundNotAllowed ;;;
  let refundID := ("RFD_" +:+ String.substring 0 24 (ri_refund ids))%string in
  let refund := MkRefund refundID (po_OrderID o) (rp_Method p) (rp_RefundReference p) (rp_ChannelRefundID p)
    (of_PaymentAmountMinor (po_Offer o)) (rp_RefundedAt p) (rp_Reason p) (rp_Note p) (rp_OperatorID p) now in
  InsertRefundTx refund ;;;
  let! effects := tx_fold (fun acc g => let! e := refund_grant db_now now ids p refundID g in tx_ret (acc ++ [e]))
                    grants [] in
  update_pay (po_OrderID o) any_order (with_refunded now) ;;;
  append_refund_audit (MkRefundAudit ("REPAIR_" +:+ String.substring 0 24 (ri_repair ids))
    ("payment-refund:" +:+ po_OrderID o) (po_OrderID o) (rp_OperatorID p) (rp_Reason p) o grants refundID effects) ;;;
  tx_ret refund.

Definition RecordCompletedRefund text_leb (clock db_now now : Z) (ids : refund_ids) (p0 : RecordCompletedRefundParams)
    : PTx Refund :=
  let p := trim_refund p0 in
  tx_guard (refund_params_bad clock p) ErrPayBadRequest ;;;
  let! db := tx_get in
  match find_key po_OrderID (rp_PaymentOrderID p) (p_orders db) with
  | None => tx_fail ErrPaymentOrderNotFound
  | Some o =>
      match find_key rf_PaymentOrderID (po_OrderID o) (p_refunds db) with
      | Some existing => if same_refund existing p then tx_ret existing else tx_fail ErrPaymentAlreadyRefunded
      | None =>
          tx_guard (negb (has_status PayPaid o) || negb (str_eqb (po_FulfillmentStatus o) FulfillmentStatusCredited)
                    || negb (str_eqb (po_RefundStatus o) RefundStatusNone)) ErrPaymentRefundNotAllowed ;;;
          tx_guard (match po_PaidAt o with None => true | Some t => rp_RefundedAt p <? t end)
            ErrPaymentRefundNotAllowed ;;;
          apply_refund text_leb db_now now ids p o
      end
  end.
