(* ===== verification/PaymentFacts.v ===== *)
(** * The invariant of the payment tables and what each transaction keeps of it

    A payment order and the recharge orders, refunds and cash entries that
    refer to it agree at every moment: an unpaid order has none, a paid one has
    exactly the grants its offer promises.  The CHECK constraints of the tables
    carry part of the argument. *)

From S2P Require Import Prelude GoStrings CivilTime Ledger Recharge RechargeProps Topup Payment.

(** ** The invariant *)

Definition link_view (r : recharge_order) :=
  (ro_order_type r, ro_tenant_id r, ro_user_id r, ro_credit_amount r, ro_status r).

Definition has_income (f : pay_offer) : bool :=
  str_eqb (of_Scene f) SceneUserTopup && (0 <? of_TenantIncomeMicroUSD f).
Definition link_status (o : pay_order) : string :=
  if str_eqb (po_RefundStatus o) RefundStatusNone then OrderStatusActive else OrderStatusReversed.
Definition is_paid (o : pay_order) : bool := has_status PayPaid o.

(** The recharge orders an order must have: none before it is paid; the grant
    to its target and, for a user's top-up, the tenant's income after. *)
Definition expected_links (o : pay_order) :=
  let f := po_Offer o in
  if is_paid o then
    (primary_type (of_Scene f), of_TenantID f, nullif (of_UserID f), of_CreditedAmountMicroUSD f, link_status o)
    :: (if has_income f
        then [(OrderTypeUserTopupIncome, of_TenantID f, None, of_TenantIncomeMicroUSD f, link_status o)] else [])
  else [].

Definition cash_has (key : string) (cash : list CashLedgerEntry) : bool :=
  existsb (fun e => bool_decide (ce_IdempotencyKey e = Some key)) cash.

Record pay_order_ok (recharges : list recharge_order) (refunds : list Refund) (cash : list CashLedgerEntry)
    (o : pay_order) : Prop := PayOrderOk {
  oo_row : pay_row_ok o = true;
  oo_links : link_view <$> links_of (po_OrderID o) recharges = expected_links o;
  oo_primary : is_paid o = true -> ro_order_id <$> head (links_of (po_OrderID o) recharges) = po_BalanceOrderID o;
  oo_refund : po_RefundStatus o = RefundStatusRefunded <->
    exists r, r ∈ refunds /\ rf_PaymentOrderID r = po_OrderID o;
  oo_cash : cash_has (income_key (po_OutTradeNo o)) cash = is_paid o && has_income (po_Offer o) }.
Definition order_ok_in (db : pay_db) : pay_order -> Prop :=
  pay_order_ok (b_orders (p_billing db)) (p_refunds db) (p_cash db).

Record pay_ok (db : pay_db) : Prop := PayOk {
  pk_ids : NoDup (po_OrderID <$> p_orders db);
  pk_trade : NoDup (po_OutTradeNo <$> p_orders db);
  pk_recharge : NoDup (ro_order_id <$> b_orders (p_billing db));
  pk_fk : forall r id, r ∈ b_orders (p_billing db) -> ro_payment_order_id r = Some id ->
    id <> ""%string /\ id ∈ po_OrderID <$> p_orders db;
  pk_refunds : forall r, r ∈ p_refunds db -> rf_PaymentOrderID r ∈ po_OrderID <$> p_orders db;
  pk_cash : forall e t, e ∈ p_cash db -> ce_IdempotencyKey e = Some (income_key t) ->
    t ∈ po_OutTradeNo <$> p_orders db;
  pk_rows : forall o, o ∈ p_orders db -> order_ok_in db o }.

(** Only four tables matter. *)
Definition same_tables (db db' : pay_db) : Prop :=
  p_orders db' = p_orders db /\ b_orders (p_billing db') = b_orders (p_billing db) /\
  p_refunds db' = p_refunds db /\ p_cash db' = p_cash db.
Lemma same_tables_refl db : same_tables db db.
Proof. done. Qed.

Lemma pay_ok_same db db' : same_tables db db' -> pay_ok db -> pay_ok db'.
Proof.
  intros (Ho & Hb & Hr & Hc) [H1 H2 H3 H4 H5 H6 H7].
  split; rewrite ?Ho, ?Hb, ?Hr, ?Hc; try done.
  intros o Hin. unfold order_ok_in. rewrite Hb, Hr, Hc. by apply H7.
Qed.

(** ** Rows *)

Lemma row_paid_iff o :
  pay_row_ok o = true -> (is_paid o = true <-> po_FulfillmentStatus o <> FulfillmentStatusPending).
Proof.
  unfold pay_row_ok, is_paid, has_status. intros H. apply andb_true_iff in H as [H _].
  apply andb_true_iff in H as [_ H].
  destruct (str_eqb (po_Status o) PayPaid); unfold str_eqb in H; bool_prop.
  - split; [|done]. intros _ He. rewrite He in H. by apply (bool_decide_eq_true_2 _) in H.
  - rewrite H. split; done.
Qed.

Lemma row_refund_none o : pay_row_ok o = true -> is_paid o = false -> po_RefundStatus o = RefundStatusNone.
Proof.
  unfold pay_row_ok, is_paid, has_status. intros H Hp. apply andb_true_iff in H as [_ H]. rewrite Hp in H.
  rewrite andb_false_r, orb_false_r in H. unfold str_eqb in H. by bool_prop.
Qed.

Lemma row_refund_cases o :
  pay_row_ok o = true -> po_RefundStatus o = RefundStatusNone \/ po_RefundStatus o = RefundStatusRefunded.
Proof.
  unfold pay_row_ok. intros H. apply andb_true_iff in H as [_ H]. unfold str_eqb in H.
  apply orb_true_iff in H as [H | H]; bool_prop; eauto.
Qed.

(** What the statements that are not settlements leave alone. *)
Definition keeps (o o' : pay_order) : Prop :=
  po_Offer o' = po_Offer o /\ po_FulfillmentStatus o' = po_FulfillmentStatus o /\
  po_RefundStatus o' = po_RefundStatus o /\ po_BalanceOrderID o' = po_BalanceOrderID o.

Lemma keeps_paid o o' : keeps o o' -> pay_row_ok o = true -> pay_row_ok o' = true -> is_paid o' = is_paid o.
Proof.
  intros (_ & Hf & _) H H'. apply row_paid_iff in H. apply row_paid_iff in H'. rewrite Hf in H'.
  destruct (is_paid o), (is_paid o'); try done; [by destruct H' as [_ ->]; [|apply H] | by destruct H as [_ ->]; [|apply H']].
Qed.

Lemma update_pay_ok id cond f db n db' :
  update_pay id cond f db = Ok (n, db') ->
  (n = 0 /\ db' = db) \/
  (exists o, n = 1 /\ find_key po_OrderID id (p_orders db) = Some o /\ cond o = true /\ pay_row_ok (f o) = true /\
     db' = set_pay_orders (update_where (has_key po_OrderID id) f (p_orders db)) db).
Proof.
  unfold update_pay. intros H. rewrite tx_get_bind in H.
  destruct (find_key po_OrderID id (p_orders db)) as [o|] eqn:Hf; [|left; by injection H as <- <-].
  destruct (cond o) eqn:Hc; [|left; by injection H as <- <-].
  apply tx_bind_ok in H as (? & ? & Hg & H). apply tx_guard_ok in Hg as [Hg ->]. apply negb_false_iff in Hg.
  apply tx_bind_ok in H as (? & ? & Hg2 & H). apply tx_guard_ok in Hg2 as [_ ->].
  injection H as <- <-. right. by exists o.
Qed.

Lemma update_pay_found id cond f db n db' o :
  update_pay id cond f db = Ok (n, db') -> find_key po_OrderID id (p_orders db) = Some o -> cond o = true ->
  pay_row_ok (f o) = true /\
  db' = set_pay_orders (update_where (has_key po_OrderID id) f (p_orders db)) db.
Proof.
  unfold update_pay. intros H Hf Hc. rewrite tx_get_bind, Hf, Hc in H.
  apply tx_bind_ok in H as (? & ? & Hg & H). apply tx_guard_ok in Hg as [Hg%negb_false_iff ->].
  apply tx_bind_ok in H as (? & ? & Hg2 & H). apply tx_guard_ok in Hg2 as [_ ->]. by injection H as _ <-.
Qed.

(** Replacing one order by one with the same offer. *)
Section OneOrder.
Context (db : pay_db) (o : pay_order) (f : pay_order -> pay_order).
Context (Hin : o ∈ p_orders db) (Hoffer : forall x, po_Offer (f x) = po_Offer x).
Let orders' := update_where (has_key po_OrderID (po_OrderID o)) f (p_orders db).

Lemma update_order_ids : po_OrderID <$> orders' = po_OrderID <$> p_orders db.
Proof. apply keys_update_where. intros x. unfold po_OrderID. by rewrite Hoffer. Qed.
Lemma update_order_trades : po_OutTradeNo <$> orders' = po_OutTradeNo <$> p_orders db.
Proof. apply (keys_update_where po_OutTradeNo). intros x. unfold po_OutTradeNo. by rewrite Hoffer. Qed.

(** The invariant of the new tables, given that of the changed row and of the
    others. *)
Lemma pay_ok_update_order db' :
  pay_ok db -> p_orders db' = orders' ->
  NoDup (ro_order_id <$> b_orders (p_billing db')) ->
  (forall r id, r ∈ b_orders (p_billing db') -> ro_payment_order_id r = Some id ->
     id <> ""%string /\ id ∈ po_OrderID <$> p_orders db) ->
  (forall r, r ∈ p_refunds db' -> rf_PaymentOrderID r ∈ po_OrderID <$> p_orders db) ->
  (forall e t, e ∈ p_cash db' -> ce_IdempotencyKey e = Some (income_key t) -> t ∈ po_OutTradeNo <$> p_orders db) ->
  (forall x, x ∈ p_orders db -> po_OrderID x <> po_OrderID o -> order_ok_in db x -> order_ok_in db' x) ->
  order_ok_in db' (f o) ->
  pay_ok db'.
Proof.
  intros [H1 H2 H3 H4 H5 H6 H7] Ho Hr Hfk Hrf Hc Hoth Hf.
  split; rewrite ?Ho, ?update_order_ids, ?update_order_trades; try done.
  intros x Hx. apply (elem_update_key po_OrderID) in Hx as [-> | [Hx Hne]]; [done| |done..].
  apply Hoth; auto.
Qed.
End OneOrder.

Lemma keeps_order_ok R F C o o' :
  keeps o o' -> pay_row_ok o' = true -> pay_order_ok R F C o -> pay_order_ok R F C o'.
Proof.
  intros Hk Hrow [P1 P2 P3 P4 P5]. pose proof (keeps_paid _ _ Hk P1 Hrow) as Hp.
  destruct Hk as (Ho & Hf & Hr & Hb).
  split; unfold expected_links, link_status, po_OrderID, po_OutTradeNo in *; rewrite ?Ho, ?Hp, ?Hr, ?Hb; done.
Qed.

Lemma update_pay_keeps id cond f db n db' :
  (forall o, keeps o (f o)) -> pay_ok db -> update_pay id cond f db = Ok (n, db') -> pay_ok db'.
Proof.
  intros Hk Hok H. apply update_pay_ok in H as [[_ ->] | (o & _ & Hf & _ & Hrow & ->)]; [done|].
  apply find_key_Some in Hf as [Hin <-]. destruct Hok as [H1 H2 H3 H4 H5 H6 H7].
  apply (pay_ok_update_order db o f); try done; [intros x; apply Hk|].
  unfold order_ok_in. simpl. eapply keeps_order_ok; [apply Hk | done |]. by apply H7.
Qed.

(** ** The order's own transactions *)

Lemma existsb_false {A} (f : A -> bool) l : existsb f l = false <-> forall x, x ∈ l -> f x = false.
Proof.
  rewrite <- not_true_iff_false, existsb_exists. split.
  - intros H x Hx. apply not_true_iff_false. intros Hf. apply H. exists x. by rewrite <- list_elem_of_In.
  - intros H (x & Hx%list_elem_of_In & Hf). by rewrite H in Hf.
Qed.

Lemma filter_false {A} (f : A -> bool) l : (forall x, x ∈ l -> f x = false) -> List.filter f l = [].
Proof.
  induction l as [|x l IH]; intros H; [done|]. simpl. rewrite (H x) by apply list_elem_of_here.
  apply IH. intros y Hy. apply H. by apply list_elem_of_further.
Qed.

(** A new order: its identifiers are unused, so nothing refers to it. *)
Lemma InsertOrder_ok now f db u db' :
  pay_ok db -> InsertOrder (new_order now f) db = Ok (u, db') -> pay_ok db'.
Proof.
  intros [H1 H2 H3 H4 H5 H6 H7] H. unfold InsertOrder in H. rewrite tx_get_bind in H.
  apply tx_bind_ok in H as (? & ? & Hg & H). apply tx_guard_ok in Hg as [Hrow%negb_false_iff ->].
  apply tx_bind_ok in H as (? & ? & Hg & H). apply tx_guard_ok in Hg as [Hnew ->].
  apply orb_false_iff in Hnew as [Hid Htr]. apply bool_decide_eq_false in Hid. apply bool_decide_eq_false in Htr.
  injection H as _ <-. set (o := new_order now f) in *.
  assert (Hmono : forall (key : pay_order -> string) y,
    y ∈ key <$> p_orders db -> y ∈ key <$> (p_orders db ++ [o]))
    by (intros key y Hx; rewrite fmap_app; apply elem_of_app; by left).
  split; simpl; try done.
  - rewrite fmap_app. apply NoDup_app. split; [done|]. split; [|apply NoDup_singleton].
    intros y Hy ->%list_elem_of_singleton. done.
  - rewrite fmap_app. apply NoDup_app. split; [done|]. split; [|apply NoDup_singleton].
    intros y Hy ->%list_elem_of_singleton. done.
  - intros r id Hr Hp. destruct (H4 r id Hr Hp) as [? ?]. auto.
  - intros r Hr. by apply Hmono, H5.
  - intros e t He Hk. by eapply Hmono, H6.
  - intros y [Hy | ->%list_elem_of_singleton]%elem_of_app; [by apply H7|]. split.
    + done.
    + unfold links_of. rewrite filter_false; [done|]. intros r Hr. apply bool_decide_false. intros Hp.
      by destruct (H4 r _ Hr Hp).
    + done.
    + split; [done|]. intros (r & Hr & He). apply H5 in Hr. rewrite He in Hr. done.
    + unfold cash_has. apply existsb_false. intros e He. apply bool_decide_false. intros Hk.
      by apply (H6 e) in Hk.
Qed.

Lemma cleanup_keeps skip before limit db n db' :
  DeleteStaleClosedOrders skip before limit db = Ok (n, db') ->
  exists gone, p_orders db' = List.filter (fun o => negb (bool_decide (po_OrderID o ∈ (po_OrderID <$> gone)))) (p_orders db) /\
    n = Z.of_nat (length gone) /\
    (forall o, o ∈ gone -> o ∈ p_orders db /\ stale before db o = true /\ skip (po_OrderID o) = false) /\
    b_orders (p_billing db') = b_orders (p_billing db) /\ p_refunds db' = p_refunds db /\ p_cash db' = p_cash db /\
    p_billing db' = p_billing db.
Proof.
  unfold DeleteStaleClosedOrders. intros H. rewrite tx_get_bind in H.
  set (gone := take _ _) in H. exists gone. injection H as <- <-.
  split; [done|]. split; [done|]. split; [|done]. intros o Ho. unfold gone in Ho.
  apply elem_of_take in Ho as (i & Ho & _). apply list_elem_of_lookup_2 in Ho.
  apply elem_of_order_by, list_elem_of_In, filter_In in Ho as [Ho Hs]. apply list_elem_of_In in Ho.
  apply andb_true_iff in Hs as [Hs Hsk]. by apply negb_true_iff in Hsk.
Qed.

(** Only orders nothing refers to are deleted. *)
Lemma DeleteStaleClosedOrders_ok skip before limit db n db' :
  pay_ok db -> DeleteStaleClosedOrders skip before limit db = Ok (n, db') -> pay_ok db'.
Proof.
  intros [H1 H2 H3 H4 H5 H6 H7] H. apply cleanup_keeps in H as (gone & Ho & _ & Hgone & Hb & Hr & Hc & _).
  set (kept := fun o => negb (bool_decide (po_OrderID o ∈ (po_OrderID <$> gone)))) in Ho.
  assert (Hin : forall o, o ∈ p_orders db' -> o ∈ p_orders db).
  { intros o Hx. rewrite Ho in Hx. apply list_elem_of_In, filter_In in Hx as [Hx _]. by apply list_elem_of_In. }
  assert (Hstay : forall o, o ∈ p_orders db -> (forall x, x ∈ gone -> po_OrderID x <> po_OrderID o) -> o ∈ p_orders db').
  { intros o Hx Hne. rewrite Ho. apply list_elem_of_In, filter_In. split; [by apply list_elem_of_In|].
    unfold kept. apply negb_true_iff, bool_decide_eq_false. intros (x & He & Hxg)%list_elem_of_fmap.
    by apply (Hne x). }
  split; rewrite ?Hb, ?Hr, ?Hc; try done.
  - rewrite Ho. by apply NoDup_filter_rows.
  - rewrite Ho. by apply (NoDup_filter_rows po_OutTradeNo).
  - intros r id Hrr Hp. destruct (H4 r id Hrr Hp) as [Hne (o & -> & Hx)%list_elem_of_fmap]. split; [done|].
    apply list_elem_of_fmap_2, Hstay; [done|]. intros x Hxg He. apply Hgone in Hxg as (_ & Hs & _).
    unfold stale in Hs. apply andb_true_iff in Hs as [Hs _]. apply andb_true_iff in Hs as [_ Hs].
    apply negb_true_iff in Hs. rewrite existsb_false in Hs. specialize (Hs r Hrr).
    rewrite He in Hs. by rewrite bool_decide_true in Hs.
  - intros r Hrr. pose proof (H5 r Hrr) as (o & He & Hx)%list_elem_of_fmap. rewrite He.
    apply list_elem_of_fmap_2, Hstay; [done|]. intros x Hxg Hxe. apply Hgone in Hxg as (_ & Hs & _).
    unfold stale in Hs. apply andb_true_iff in Hs as [_ Hs]. apply negb_true_iff in Hs.
    rewrite existsb_false in Hs. specialize (Hs r Hrr). cbv beta in Hs. unfold str_eqb in Hs. bool_prop. congruence.
  - intros e t He Hk. pose proof (H6 e t He Hk) as (o & -> & Hx)%list_elem_of_fmap.
    apply (list_elem_of_fmap_2 po_OutTradeNo), Hstay; [done|]. intros x Hxg Hxe.
    apply Hgone in Hxg as (Hx' & Hs & _). assert (x = o) as -> by (by apply (keyed_unique po_OrderID (p_orders db))).
    pose proof (oo_cash _ _ _ _ (H7 o Hx)) as Hcash. unfold stale in Hs. bool_prop.
    assert (Hpaid : is_paid o = false).
    { unfold is_paid, has_status, str_eqb in *. bool_prop. apply bool_decide_false.
    by match goal with Hst : po_Status o = _ |- _ => rewrite Hst end. }
    rewrite Hpaid in Hcash. unfold cash_has in Hcash. simpl in Hcash. rewrite existsb_false in Hcash.
    specialize (Hcash e He). by rewrite bool_decide_true in Hcash.
  - intros o Hx. unfold order_ok_in. rewrite Hb, Hr, Hc. by apply H7, Hin.
Qed.

(** ** Billing transactions *)

Lemma on_billing_ok {A} (m : BTx A) db a db' :
  on_billing m db = Ok (a, db') <->
  exists b, m (billing_view db) = Ok (a, b) /\ db' = set_billing b db.
Proof.
  unfold on_billing. rewrite tx_zoom_ok. unfold tx_map_err.
  split; intros (b & H & ->); exists b; (split; [|done]);
    destruct (m (billing_view db)) as [[]|]; by simplify_eq.
Qed.

Lemma on_pay_ledger_ok {A} (m : LTx A) db a db' :
  on_pay_ledger m db = Ok (a, db') <->
  exists l, m (b_ledger (p_billing db)) = Ok (a, l) /\ db' = set_billing (set_ledger l (billing_view db)) db.
Proof.
  unfold on_pay_ledger. rewrite on_billing_ok. split.
  - intros (b & H & ->). apply on_ledger_ok in H as (l & H & ->). by exists l.
  - intros (l & H & ->). eexists. split; [|done]. apply on_ledger_ok. by exists l.
Qed.

Lemma on_pay_ledger_same {A} (m : LTx A) db a db' :
  on_pay_ledger m db = Ok (a, db') -> same_tables db db'.
Proof. intros (l & _ & ->)%on_pay_ledger_ok. done. Qed.

(** What a grant adds to the recharge orders. *)
Lemma GrantBalance_orders db_now now u1 u2 p db r db' :
  GrantBalance db_now now u1 u2 p db = Ok (r, db') ->
  exists g, b_orders db' = b_orders db ++ [g] /\ (ro_order_id g ∉ (ro_order_id <$> b_orders db)) /\
    ro_order_id g = gr_OrderID r /\ ro_payment_order_id g = nullif (gp_PaymentOrderID p) /\
    link_view g = (gp_OrderType p, gp_TenantID p, nullif (gp_UserID p), gp_AmountMicroUSD p, OrderStatusActive) /\
    (forall id, ro_payment_order_id g = Some id -> id ∈ b_pay_orders db) /\
    (order_online (gp_OrderType p) = true -> gp_PaymentOrderID p <> ""%string).
Proof.
  intros H. unfold GrantBalance in H.
  apply tx_bind_ok in H as ([] & d0 & Hc & H). apply check_ok in Hc as [_ ->].
  apply tx_bind_ok in H as (u & d1 & Hins & H). unfold insert_order in Hins. rewrite tx_get_bind in Hins.
  apply tx_bind_ok in Hins as (? & ? & Hg & Hins). apply tx_guard_ok in Hg as [Hnew ->].
  apply tx_bind_ok in Hins as (? & ? & Hg & Hins). apply tx_guard_ok in Hg as [Hrow%negb_false_iff ->].
  apply tx_bind_ok in Hins as (? & ? & Hg & Hins). apply tx_guard_ok in Hg as [_ ->].
  apply tx_bind_ok in Hins as (? & ? & Hg & Hins). apply tx_guard_ok in Hg as [Hfk ->]. injection Hins as _ <-.
  apply tx_bind_ok in H as (b & d2 & Hbal & H). apply on_ledger_ok in Hbal as (l1 & _ & ->).
  apply tx_bind_ok in H as (lot & d3 & Hgr & H). apply on_ledger_ok in Hgr as (l2 & _ & ->).
  injection H as <- <-. apply bool_decide_eq_false in Hnew. simpl in *.
  eexists. split; [done|]. split; [exact Hnew|]. split; [done|]. split; [done|]. split; [done|].
  split; [intros id Hid; simpl in Hid; rewrite Hid in Hfk; by apply negb_false_iff, bool_decide_eq_true in Hfk|].
  intros Hon He. unfold order_row_ok in Hrow. apply andb_true_iff in Hrow as [_ Hrow]. simpl in Hrow.
  rewrite Hon, He in Hrow. unfold nullif in Hrow. by rewrite bool_decide_true in Hrow.
Qed.

Lemma links_of_app id R R' : links_of id (R ++ R') = links_of id R ++ links_of id R'.
Proof. apply List.filter_app. Qed.
Lemma links_of_other id g : ro_payment_order_id g <> Some id -> links_of id [g] = [].
Proof. intros H. unfold links_of. simpl. by rewrite bool_decide_false. Qed.
Lemma links_of_own id g : ro_payment_order_id g = Some id -> links_of id [g] = [g].
Proof. intros H. unfold links_of. simpl. by rewrite bool_decide_true. Qed.

(** A change of the recharge orders that leaves those linked to payments alone. *)
Definition links_same (R R' : list recharge_order) : Prop :=
  NoDup (ro_order_id <$> R') /\
  (forall id, id <> ""%string -> links_of id R' = links_of id R) /\
  (forall r id, r ∈ R' -> ro_payment_order_id r = Some id -> exists r0, r0 ∈ R /\ ro_payment_order_id r0 = Some id).

Lemma pay_ok_billing db b :
  pay_ok db -> links_same (b_orders (p_billing db)) (b_orders b) -> pay_ok (set_billing b db).
Proof.
  intros [H1 H2 H3 H4 H5 H6 H7] (Hnd & Hl & Hfk). split; simpl; try done.
  - intros r id Hr Hp. destruct (Hfk r id Hr Hp) as (r0 & Hr0 & Hp0). by apply (H4 r0).
  - intros o Ho. destruct (H7 o Ho) as [P1 P2 P3 P4 P5].
    destruct (decide (po_OrderID o = ""%string)) as [He | Hne].
    + assert (Hno : forall R, (forall r id, r ∈ R -> ro_payment_order_id r = Some id -> id <> ""%string) ->
                links_of ""%string R = []).
      { intros R HR. unfold links_of. apply filter_false. intros r Hr. apply bool_decide_false.
        intros Hp. by apply (HR r _ Hr Hp). }
      assert (Hnew : links_of (po_OrderID o) (b_orders b) = links_of (po_OrderID o) (b_orders (p_billing db))).
      { rewrite He, !Hno; [done | |].
        - intros r id Hr Hp. by apply (H4 r id).
        - intros r id Hr Hp. destruct (Hfk r id Hr Hp) as (r0 & Hr0 & Hp0). by apply (H4 r0). }
      split; simpl; rewrite ?Hnew; done.
    + split; simpl; rewrite ?Hl by done; done.
Qed.

Lemma NoDup_snoc {A} (l : list A) x : NoDup l -> (x ∉ l) -> NoDup (l ++ [x]).
Proof.
  intros Hl Hx. apply NoDup_app. split; [done|]. split; [|apply NoDup_singleton].
  by intros y Hy ->%list_elem_of_singleton.
Qed.

Lemma GrantManual_links db_now now u1 u2 p db r db' :
  NoDup (ro_order_id <$> b_orders db) ->
  GrantManual db_now now u1 u2 p db = Ok (r, db') -> links_same (b_orders db) (b_orders db').
Proof.
  intros Hnd H. unfold GrantManual in H.
  apply tx_bind_ok in H as ([] & d0 & Hc & H). apply check_ok in Hc as [Hval ->].
  apply tx_bind_ok in H as (? & ? & Hg & H). apply tx_guard_ok in Hg as [Hty ->]. rewrite tx_get_bind in H.
  destruct (LockManualRechargeTarget _ _ _) as [tenant | []]; [|done..].
  set (p' := if empty_str (gp_TenantID p) then _ else p) in H.
  apply tx_bind_ok in H as ([] & d0 & Hc & H). apply check_ok in Hc as [_ ->].
  apply GrantBalance_orders in H as (g & Hg & Hnew & _ & Hpay & _). rewrite Hg.
  assert (Hpay' : gp_PaymentOrderID p' = ""%string).
  { assert (gp_PaymentOrderID p' = gp_PaymentOrderID p) as -> by (unfold p'; by destruct (empty_str _)).
    unfold validateManualGrantParams, validateGrantParamsInternal, empty_str, str_eqb in *.
    repeat (case_bool_decide || case_match; simplify_eq/=; try done). }
  rewrite Hpay' in Hpay. unfold nullif in Hpay. rewrite bool_decide_true in Hpay by done.
  split; [rewrite fmap_app; by apply NoDup_snoc|]. split.
  - intros id _. rewrite links_of_app, links_of_other, app_nil_r; [done | by rewrite Hpay].
  - intros r0 id [Hr | ->%list_elem_of_singleton]%elem_of_app Hp; [by exists r0 | by rewrite Hpay in Hp].
Qed.

(** Marking rows that no payment refers to. *)
Lemma links_same_update R k (f : recharge_order -> recharge_order) :
  NoDup (ro_order_id <$> R) -> (forall r, ro_order_id (f r) = ro_order_id r) ->
  (forall r, ro_payment_order_id (f r) = ro_payment_order_id r) ->
  (forall r id, r ∈ R -> ro_order_id r = k -> ro_payment_order_id r = Some id -> id = ""%string) ->
  links_same R (update_where (has_key ro_order_id k) f R).
Proof.
  intros Hnd Hid Hpay Hk. split; [by rewrite keys_update_where|]. split.
  - intros id Hne. clear Hnd. induction R as [|r R IH]; [done|]. unfold update_where in *. rewrite fmap_cons.
    change (?x :: ?l) with ([x] ++ l). rewrite !links_of_app. f_equal.
    + destruct (has_key ro_order_id k r) eqn:Hr; [|done]. unfold has_key in Hr. bool_prop.
      rewrite !links_of_other; [done| |rewrite Hpay]; intros Hp; apply Hne; apply (Hk r id); (done || apply list_elem_of_here).
    + apply IH. intros r' id' Hin. apply Hk. by apply list_elem_of_further.
  - intros r id Hr Hp. apply elem_of_update_where in Hr as (r0 & Hr0 & ->). exists r0. split; [done|].
    destruct (has_key _ _ _); [by rewrite <- Hpay | done].
Qed.

Lemma reverseOrder_links le t now u orderID tenantID reason op db r db' :
  NoDup (ro_order_id <$> b_orders db) ->
  reverseOrder le t now u orderID tenantID reason op db = Ok (r, db') -> links_same (b_orders db) (b_orders db').
Proof.
  intros Hnd H. unfold reverseOrder in H. rewrite tx_get_bind in H.
  destruct (find_key ro_order_id orderID (b_orders db)) as [o|] eqn:Hf; [|done].
  destruct (_ && _); [done|]. destruct (str_eqb (ro_status o) OrderStatusReversed); [done|].
  destruct (negb _); [done|]. destruct (str_eqb (ro_order_type o) _); [done|].
  destruct (match ro_payment_order_id o with Some id => _ | None => _ end) eqn:Hpay in H; [done|].
  apply tx_bind_ok in H as (rev & d1 & Hrev & H). apply on_ledger_ok in Hrev as (l' & _ & ->).
  destruct (ReclaimedMicro rev =? 0); [done|].
  apply tx_bind_ok in H as (? & ? & Hg & H). apply tx_guard_ok in Hg as [_ ->]. rewrite tx_get_bind in H.
  apply tx_bind_ok in H as (? & d2 & Hput & H). injection Hput as _ <-.
  apply tx_bind_ok in H as (? & d3 & Haud & H). apply audit_Append_ok in Haud as (_ & _ & ->).
  injection H as _ <-. simpl. apply find_key_Some in Hf as [Hin Hid].
  apply links_same_update; try done. intros r' id Hr' Hk Hp.
  assert (r' = o) as -> by (apply (keyed_unique ro_order_id (b_orders db)); congruence).
  rewrite Hp in Hpay. unfold empty_str in Hpay. by bool_prop.
Qed.

(** ** Settlement *)

Lemma InsertCash_ok e db u db' :
  InsertCashLedgerTx e db = Ok (u, db') ->
  db' = set_cash (p_cash db ++ [e]) db /\
  (forall key, ce_IdempotencyKey e = Some key -> cash_has key (p_cash db) = false).
Proof.
  unfold InsertCashLedgerTx. intros H. rewrite tx_get_bind in H.
  apply tx_bind_ok in H as (? & ? & Hg & H). apply tx_guard_ok in Hg as [Hg ->]. injection H as _ <-.
  split; [done|]. intros key Hk. apply orb_false_iff in Hg as [_ Hg]. rewrite Hk in Hg. exact Hg.
Qed.

Lemma cash_has_app key c e :
  cash_has key (c ++ [e]) = cash_has key c || bool_decide (ce_IdempotencyKey e = Some key).
Proof. unfold cash_has. rewrite existsb_app. simpl. by rewrite orb_false_r. Qed.

Lemma income_key_inj t t' : income_key t = income_key t' -> t = t'.
Proof. unfold income_key. intros H. apply (f_equal (fun s => TrimPrefix s "wxpay:")) in H. by rewrite !TrimPrefix_app in H. Qed.
Lemma income_key_some t : nullif (income_key t) = Some (income_key t).
Proof. unfold nullif. by rewrite bool_decide_false. Qed.

Definition grant_view (p : GrantParams) :=
  (gp_OrderType p, gp_TenantID p, nullif (gp_UserID p), gp_AmountMicroUSD p, OrderStatusActive).

(** What [settle_income] adds: one recharge order and one cash entry, or nothing
    when the key is there. *)
Lemma settle_income_shape t now ids f txn db u db' :
  settle_income t now ids f txn db = Ok (u, db') ->
  p_orders db' = p_orders db /\ p_refunds db' = p_refunds db /\
  (if cash_has (income_key (of_OutTradeNo f)) (p_cash db) then db' = db
   else exists i e, b_orders (p_billing db') = b_orders (p_billing db) ++ [i] /\
     (ro_order_id i ∉ (ro_order_id <$> b_orders (p_billing db))) /\
     ro_payment_order_id i = nullif (of_OrderID f) /\ link_view i = grant_view (income_params f txn) /\
     p_cash db' = p_cash db ++ [e] /\ ce_IdempotencyKey e = Some (income_key (of_OutTradeNo f))).
Proof.
  unfold settle_income. intros H. rewrite tx_get_bind in H.
  change (ExistsCashLedgerIdempotencyKey ?k ?d) with (cash_has k (p_cash d)) in H. cbv zeta in H.
  destruct (cash_has _ _) eqn:Hc; [by injection H as _ <-|].
  apply tx_bind_ok in H as (g & d1 & Hg & H). apply on_billing_ok in Hg as (b & Hg & ->).
  apply GrantBalance_orders in Hg as (i & Hb & Hnew & _ & Hpay & Hview & _). simpl in Hb, Hnew.
  apply tx_bind_ok in H as (bal & d2 & Hbal & H). apply on_pay_ledger_same in Hbal as (E1 & E2 & E3 & E4).
  apply InsertCash_ok in H as [-> _]. simpl. rewrite E1, E2, E3, E4. simpl. split; [done|]. split; [done|].
  eexists i, _. split; [exact Hb|]. split; [exact Hnew|]. split; [exact Hpay|]. split; [exact Hview|].
  split; [done|]. simpl. apply income_key_some.
Qed.

(** The committed paid path. *)
Lemma settle_paid_shape t now ids o txn db u db' :
  pay_ok db -> o ∈ p_orders db -> is_paid o = false ->
  settle_paid t now ids (po_Offer o) txn db = Ok (u, db') ->
  exists g extra cash', pay_row_ok (with_paid_mark (qr_TransactionID txn) (ro_order_id g) t o) = true /\
    p_orders db' = update_where (has_key po_OrderID (po_OrderID o))
      (with_paid_mark (qr_TransactionID txn) (ro_order_id g) t) (p_orders db) /\
    p_refunds db' = p_refunds db /\
    b_orders (p_billing db') = b_orders (p_billing db) ++ g :: extra /\
    NoDup (ro_order_id <$> b_orders (p_billing db')) /\
    Forall (fun r => ro_payment_order_id r = Some (po_OrderID o)) (g :: extra) /\ po_OrderID o <> ""%string /\
    link_view <$> g :: extra = grant_view (primary_params (po_Offer o) txn) ::
      (if has_income (po_Offer o) then [grant_view (income_params (po_Offer o) txn)] else []) /\
    p_cash db' = p_cash db ++ cash' /\
    (forall key, existsb (fun e => bool_decide (ce_IdempotencyKey e = Some key)) cash' =
       has_income (po_Offer o) && bool_decide (key = income_key (po_OutTradeNo o))).
Proof.
  intros Hok Hin Hnp H. unfold settle_paid in H.
  apply tx_bind_ok in H as (gr & d1 & Hg & H). apply on_billing_ok in Hg as (b & Hg & ->).
  apply GrantBalance_orders in Hg as (g & Hb & Hnew & Hgid & Hpay & Hview & _ & Hne). simpl in Hb, Hnew, Hpay, Hne.
  assert (Hne' : po_OrderID o <> ""%string) by (apply Hne; unfold primary_type; by destruct (str_eqb _ _)).
  unfold nullif in Hpay. rewrite bool_decide_false in Hpay by done.
  pose proof (oo_cash _ _ _ _ (pk_rows _ Hok o Hin)) as Hcash. rewrite Hnp in Hcash. simpl in Hcash.
  apply tx_bind_ok in H as ([] & d2 & Hi & H). fold (has_income (po_Offer o)) in Hi.
  assert (Hshape : p_orders d2 = p_orders db /\ p_refunds d2 = p_refunds db /\ exists extra cash',
    b_orders (p_billing d2) = b_orders (p_billing db) ++ g :: extra /\
    NoDup (ro_order_id <$> b_orders (p_billing d2)) /\
    Forall (fun r => ro_payment_order_id r = Some (po_OrderID o)) extra /\
    link_view <$> extra = (if has_income (po_Offer o) then [grant_view (income_params (po_Offer o) txn)] else []) /\
    p_cash d2 = p_cash db ++ cash' /\
    (forall key, existsb (fun e => bool_decide (ce_IdempotencyKey e = Some key)) cash' =
       has_income (po_Offer o) && bool_decide (key = income_key (po_OutTradeNo o)))).
  { assert (Hnd1 : NoDup (ro_order_id <$> (b_orders (p_billing db) ++ [g])))
      by (rewrite fmap_app; apply NoDup_snoc; [apply Hok | done]).
    destruct (has_income (po_Offer o)).
    - apply settle_income_shape in Hi as (E1 & E2 & Hi). simpl in Hi. unfold po_OutTradeNo in Hcash.
      rewrite Hcash in Hi. destruct Hi as (i & e & Hbi & Hnewi & Hpayi & Hviewi & Hc & Hkey).
      rewrite Hb in Hbi, Hnewi. split; [done|]. split; [done|]. exists [i], [e].
      rewrite Hbi, <- app_assoc. split; [done|]. split.
      { rewrite app_assoc, fmap_app. by apply NoDup_snoc. }
      split; [apply Forall_singleton; rewrite Hpayi; unfold nullif; by rewrite bool_decide_false|].
      split; [simpl; by rewrite Hviewi|]. split; [done|].
      intros key. simpl. rewrite orb_false_r, Hkey. apply bool_decide_ext. unfold po_OutTradeNo. split; congruence.
    - injection Hi as <-. split; [done|]. split; [done|]. exists [], []. simpl. rewrite app_nil_r, Hb. done. }
  destruct Hshape as (E1 & E2 & extra & cash' & Hb2 & Hnd2 & Hall & Hviews & Hc2 & Hkeys).
  unfold MarkPaidTx in H. apply tx_bind_ok in H as (n & d3 & Hm & H). injection H as _ <-.
  rewrite <- Hgid in Hm. apply (update_pay_found _ _ _ _ _ _ o) in Hm as [Hrow ->];
    [| rewrite E1; apply (find_key_elem po_OrderID); [apply Hok | done] | done].
  exists g, extra, cash'. split; [exact Hrow|]. split; [simpl; by rewrite E1|]. split; [exact E2|].
  split; [exact Hb2|]. split; [exact Hnd2|]. split; [by constructor|]. split; [done|].
  split; [rewrite fmap_cons, Hview, Hviews; done|]. split; [exact Hc2 | exact Hkeys].
Qed.

Lemma links_all id l : Forall (fun r => ro_payment_order_id r = Some id) l -> links_of id l = l.
Proof.
  induction 1 as [|r l Hr _ IH]; [done|]. change (r :: l) with ([r] ++ l).
  by rewrite links_of_app, links_of_own, IH.
Qed.
Lemma links_none id id' l :
  id <> id' -> Forall (fun r => ro_payment_order_id r = Some id) l -> links_of id' l = [].
Proof.
  intros Hne. induction 1 as [|r l Hr _ IH]; [done|]. change (r :: l) with ([r] ++ l).
  rewrite links_of_app, links_of_other, IH; [done | congruence].
Qed.

Lemma settle_paid_ok t now ids o txn db u db' :
  pay_ok db -> o ∈ p_orders db -> is_paid o = false ->
  settle_paid t now ids (po_Offer o) txn db = Ok (u, db') -> pay_ok db'.
Proof.
  intros Hok Hin Hnp H. pose proof (settle_paid_shape _ _ _ _ _ _ _ _ Hok Hin Hnp H)
    as (g & extra & cash' & Hrow & Ho & Hr & Hb & Hnd & Hall & Hne & Hview & Hc & Hkeys).
  set (f := with_paid_mark (qr_TransactionID txn) (ro_order_id g) t) in *.
  destruct (pk_rows _ Hok o Hin) as [P1 P2 P3 P4 P5]. unfold expected_links in P2. rewrite Hnp in P2, P5.
  apply fmap_nil_inv in P2. simpl in P5.
  apply (pay_ok_update_order db o f Hin (fun x => eq_refl) db' Hok Ho Hnd); rewrite ?Hr, ?Hc.
  - intros r id Hr' Hp. rewrite Hb in Hr'. apply elem_of_app in Hr' as [Hr' | Hr'].
    + by apply (pk_fk _ Hok r).
    + rewrite Forall_forall in Hall. rewrite (Hall r Hr') in Hp. injection Hp as <-. split; [done|].
      by apply list_elem_of_fmap_2.
  - apply Hok.
  - intros e key [He | He]%elem_of_app Hk; [by apply (pk_cash _ Hok e)|].
    pose proof (Hkeys (income_key key)) as Hex. assert (Htrue : existsb
      (fun e => bool_decide (ce_IdempotencyKey e = Some (income_key key))) cash' = true).
    { apply existsb_exists. exists e. split; [by apply list_elem_of_In | by apply bool_decide_eq_true]. }
    rewrite Htrue in Hex. symmetry in Hex. apply andb_true_iff in Hex as [_ Hex].
    apply bool_decide_eq_true, income_key_inj in Hex as ->. by apply (list_elem_of_fmap_2 po_OutTradeNo).
  - intros x Hx Hxo [Q1 Q2 Q3 Q4 Q5].
    assert (Hl : links_of (po_OrderID x) (b_orders (p_billing db')) = links_of (po_OrderID x) (b_orders (p_billing db))).
    { rewrite Hb, links_of_app, (links_none (po_OrderID o) _ (g :: extra)) by done. apply app_nil_r. }
    split; rewrite ?Hl, ?Hr, ?Hc; try done.
    unfold cash_has in *. rewrite existsb_app, Q5, Hkeys, bool_decide_false.
    + by rewrite andb_false_r, orb_false_r.
    + intros Heq. apply income_key_inj in Heq. apply Hxo. f_equal.
      by apply (keyed_unique po_OutTradeNo (p_orders db)); [apply Hok|..].
  - assert (Hl : links_of (po_OrderID o) (b_orders (p_billing db')) = g :: extra).
    { rewrite Hb, links_of_app, P2, links_all by done. done. }
    pose proof (row_refund_none _ P1 Hnp) as Hnone.
    split; change (po_OrderID (f o)) with (po_OrderID o); change (po_OutTradeNo (f o)) with (po_OutTradeNo o);
      rewrite ?Hl, ?Hr, ?Hc; try done.
    + rewrite Hview. unfold expected_links, link_status. simpl. rewrite Hnone. done.
    + unfold cash_has in *. rewrite existsb_app, P5, Hkeys, bool_decide_true by done. by rewrite andb_true_r.
Qed.

Lemma UpdateStatusTx_ok t id status note db u db' :
  pay_ok db -> UpdateStatusTx t id status note db = Ok (u, db') -> pay_ok db'.
Proof.
  intros Hok H. unfold UpdateStatusTx in H. apply tx_bind_ok in H as (n & d & Hu & H). injection H as _ <-.
  by eapply update_pay_keeps in Hu.
Qed.

Lemma Settle_ok fail_text t now ids cfg otn txn db u db' :
  pay_ok db -> Settle fail_text t now ids cfg otn txn db = Ok (u, db') -> pay_ok db'.
Proof.
  intros Hok H. unfold Settle in H. rewrite tx_get_bind in H.
  destruct (find_key po_OutTradeNo otn (p_orders db)) as [o|] eqn:Hf; [|done].
  apply find_key_Some in Hf as [Hin _].
  destruct (str_eqb (po_Status o) PayPaid) eqn:Hp; [by injection H as _ <-|].
  destruct (negb _).
  - destruct (_ || _); [by injection H as _ <-|]. cbv zeta in H.
    destruct (str_eqb (next_status _ _) _) in H; [by injection H as _ <- | by eapply UpdateStatusTx_ok].
  - destruct (negb _); [by eapply UpdateStatusTx_ok | by eapply settle_paid_ok].
Qed.

(** ** Withdrawals *)

Lemma CreateWithdrawal_tables wid cid p db w db' :
  CreateWithdrawal wid cid p db = Ok (w, db') ->
  p_orders db' = p_orders db /\ b_orders (p_billing db') = b_orders (p_billing db) /\ p_refunds db' = p_refunds db /\
  exists e, p_cash db' = p_cash db ++ [e] /\
    ce_IdempotencyKey e = Some ("withdrawal:" +:+ wd_WithdrawalID w)%string.
Proof.
  unfold CreateWithdrawal. intros H.
  apply tx_bind_ok in H as (? & ? & Hg & H). apply tx_guard_ok in Hg as [_ ->].
  apply tx_bind_ok in H as (? & ? & Hg & H). apply tx_guard_ok in Hg as [_ ->]. rewrite tx_get_bind in H.
  destruct (load_global db) as [g|]; [|done]. destruct (withdrawal_amounts _ _ _) as [[[fee ded] pay]|]; [|done].
  apply tx_bind_ok in H as (bal & d & Hb & H). unfold GetBalanceAccountForUpdate in Hb. rewrite tx_get_bind in Hb.
  destruct (bill_accounts _ !! _); [|done]. injection Hb as _ <-.
  apply tx_bind_ok in H as (? & ? & Hg & H). apply tx_guard_ok in Hg as [_ ->].
  apply tx_bind_ok in H as (? & d2 & Hd & H).
  destruct (DeductTenantBalanceTx _ _ db) as [[? d3]|] eqn:Hded; [|done]. injection Hd as _ <-.
  apply on_pay_ledger_same in Hded as (E1 & E2 & E3 & E4).
  apply tx_bind_ok in H as (? & d4 & Hw & H). unfold InsertWithdrawalTx in Hw. rewrite tx_get_bind in Hw.
  apply tx_bind_ok in Hw as (? & ? & Hg & Hw). apply tx_guard_ok in Hg as [_ ->].
  apply tx_bind_ok in Hw as (? & ? & Hg & Hw). apply tx_guard_ok in Hg as [_ ->]. injection Hw as _ <-.
  apply tx_bind_ok in H as (ba & d5 & Hba & H). apply on_pay_ledger_same in Hba as (F1 & F2 & F3 & F4).
  apply tx_bind_ok in H as (? & d6 & Hc & H). apply InsertCash_ok in Hc as [-> _]. injection H as <- <-.
  simpl in *. rewrite F1, F2, F3, F4, E1, E2, E3, E4. split; [done|]. split; [done|]. split; [done|].
  eexists. split; [done|]. simpl. unfold nullif. by rewrite bool_decide_false.
Qed.

(** Appending a cash entry that is not an income. *)
Lemma pay_ok_cash db db' e :
  pay_ok db -> p_orders db' = p_orders db -> b_orders (p_billing db') = b_orders (p_billing db) ->
  p_refunds db' = p_refunds db -> p_cash db' = p_cash db ++ [e] ->
  (forall t, ce_IdempotencyKey e <> Some (income_key t)) -> pay_ok db'.
Proof.
  intros [H1 H2 H3 H4 H5 H6 H7] Ho Hb Hr Hc Hne. split; rewrite ?Ho, ?Hb, ?Hr, ?Hc; try done.
  - intros x t [Hx | ->%list_elem_of_singleton]%elem_of_app Hk; [by eapply H6 | by destruct (Hne t)].
  - intros o Hin. destruct (H7 o Hin) as [P1 P2 P3 P4 P5]. unfold order_ok_in. rewrite Hb, Hr, Hc.
    split; try done. rewrite cash_has_app, P5, bool_decide_false by apply Hne. apply orb_false_r.
Qed.

Lemma CreateWithdrawal_ok wid cid p db w db' :
  pay_ok db -> CreateWithdrawal wid cid p db = Ok (w, db') -> pay_ok db'.
Proof.
  intros Hok H. apply CreateWithdrawal_tables in H as (Ho & Hb & Hr & e & Hc & Hk).
  eapply pay_ok_cash; [done..|]. intros t. rewrite Hk. unfold income_key. intros [= He].
Qed.

(** ** Refunds *)

(** One recharge order reversed, everything else of it kept. *)
Definition reversed_as (r r' : recharge_order) : Prop :=
  ro_order_id r' = ro_order_id r /\ ro_payment_order_id r' = ro_payment_order_id r /\
  link_view r' = (ro_order_type r, ro_tenant_id r, ro_user_id r, ro_credit_amount r, OrderStatusReversed).
Definition reversal_of (ids : list string) (r r' : recharge_order) : Prop :=
  if bool_decide (ro_order_id r ∈ ids) then reversed_as r r' else r' = r.
Definition reversing (ids : list string) : list recharge_order -> list recharge_order -> Prop :=
  Forall2 (reversal_of ids).

Lemma reversal_of_keys ids r r' :
  reversal_of ids r r' -> ro_order_id r' = ro_order_id r /\ ro_payment_order_id r' = ro_payment_order_id r.
Proof. unfold reversal_of. case_bool_decide; [by intros (? & ? & _) | by intros ->]. Qed.

Lemma reversing_refl R : reversing [] R R.
Proof. unfold reversing. induction R; constructor; [|done]. unfold reversal_of. by rewrite bool_decide_false by apply not_elem_of_nil. Qed.

Lemma reversing_mark k (mark : recharge_order -> recharge_order) R :
  (forall r, reversed_as r (mark r)) -> reversing [k] R (update_where (has_key ro_order_id k) mark R).
Proof.
  intros Hm. unfold reversing, update_where. induction R as [|r R IH]; [constructor|]. rewrite fmap_cons.
  constructor; [|exact IH]. unfold reversal_of, has_key.
  destruct (decide (ro_order_id r = k)) as [He | He].
  - rewrite !bool_decide_true; [apply Hm | done | by apply list_elem_of_singleton].
  - rewrite !bool_decide_false; [done | done | by rewrite list_elem_of_singleton].
Qed.

Lemma reversing_trans k ids R R1 R2 : reversing [k] R R1 -> reversing ids R1 R2 -> reversing (k :: ids) R R2.
Proof.
  intros H1. revert R2. induction H1 as [|r r1 R R1 Hr _ IH]; intros R2 H2; [by inversion H2; constructor|].
  apply Forall2_cons_inv_l in H2 as (r2 & R2' & Hr2 & H2 & ->). constructor; [|by apply IH].
  unfold reversal_of in *. destruct (reversal_of_keys [k] r r1 Hr) as [Hid _]. rewrite Hid in Hr2.
  destruct (decide (ro_order_id r = k)) as [Hk | Hk].
  - rewrite bool_decide_true in Hr by (by apply list_elem_of_singleton).
    rewrite bool_decide_true by (rewrite Hk; apply list_elem_of_here).
    destruct Hr as (E1 & E2 & E3). case_bool_decide.
    + destruct Hr2 as (F1 & F2 & F3). unfold link_view in *. injection E3 as X1 X2 X3 X4 _. rewrite X1, X2, X3, X4 in F3.
      split; [congruence|]. split; [congruence | done].
    + by subst r2.
  - rewrite bool_decide_false in Hr by (by rewrite list_elem_of_singleton). subst r1.
    destruct (decide (ro_order_id r ∈ ids)) as [Hin | Hin].
    + rewrite bool_decide_true in Hr2 by done. rewrite bool_decide_true by (by apply list_elem_of_further). done.
    + rewrite bool_decide_false in Hr2 by done. rewrite bool_decide_false; [done|].
      intros [?|?]%elem_of_cons; done.
Qed.

Lemma reversing_links ids id R R' :
  reversing ids R R' -> reversing ids (links_of id R) (links_of id R').
Proof.
  unfold reversing. induction 1 as [|r r' R R' Hr _ IH]; [constructor|].
  change (r :: R) with ([r] ++ R). change (r' :: R') with ([r'] ++ R'). rewrite !links_of_app.
  apply Forall2_app; [|exact IH]. destruct (reversal_of_keys _ _ _ Hr) as [_ Hp].
  destruct (decide (ro_payment_order_id r = Some id)) as [He | He].
  - rewrite !links_of_own by congruence. by constructor.
  - rewrite !links_of_other by congruence. constructor.
Qed.

Lemma reversing_ids ids R R' : reversing ids R R' -> ro_order_id <$> R' = ro_order_id <$> R.
Proof.
  unfold reversing. induction 1 as [|r r' R R' Hr _ IH]; [done|]. rewrite !fmap_cons, IH.
  by destruct (reversal_of_keys _ _ _ Hr) as [-> _].
Qed.
Lemma reversing_none ids R R' : reversing ids R R' -> (forall r, r ∈ R -> (ro_order_id r ∉ ids)) -> R' = R.
Proof.
  unfold reversing. induction 1 as [|r r' R R' Hr _ IH]; intros Hn; [done|].
  rewrite IH by (intros x Hx; apply Hn; by apply list_elem_of_further).
  unfold reversal_of in Hr. rewrite bool_decide_false in Hr by (apply Hn, list_elem_of_here). by rewrite Hr.
Qed.
Lemma reversing_all ids R R' :
  reversing ids R R' -> (forall r, r ∈ R -> ro_order_id r ∈ ids) ->
  link_view <$> R' = (fun '(ty, t, u, c, _) => (ty, t, u, c, OrderStatusReversed)) <$> (link_view <$> R).
Proof.
  unfold reversing. induction 1 as [|r r' R R' Hr _ IH]; intros Hn; [done|].
  rewrite !fmap_cons, IH by (intros x Hx; apply Hn; by apply list_elem_of_further). f_equal.
  unfold reversal_of in Hr. rewrite bool_decide_true in Hr by (apply Hn, list_elem_of_here).
  by destruct Hr as (_ & _ & ->).
Qed.
Lemma reversing_elem ids R R' r' :
  reversing ids R R' -> r' ∈ R' -> exists r, r ∈ R /\ ro_payment_order_id r' = ro_payment_order_id r.
Proof.
  intros H Hr. apply list_elem_of_lookup in Hr as [i Hi].
  destruct (Forall2_lookup_r _ _ _ _ _ H Hi) as (r & Hl & Hrr). exists r.
  split; [by apply list_elem_of_lookup_2 in Hl | by destruct (reversal_of_keys _ _ _ Hrr)].
Qed.

Definition no_income (es : list CashLedgerEntry) : Prop :=
  forall e t, e ∈ es -> ce_IdempotencyKey e <> Some (income_key t).

Lemma refund_grant_shape t now ids p refundID g db e db' :
  refund_grant t now ids p refundID g db = Ok (e, db') ->
  p_orders db' = p_orders db /\ p_refunds db' = p_refunds db /\
  reversing [ro_order_id g] (b_orders (p_billing db)) (b_orders (p_billing db')) /\
  (exists es, p_cash db' = p_cash db ++ es /\ no_income es) /\
  exists l, ReverseGrantForRefund t (grant_account g) (ro_order_id g) (ro_credit_amount g) (b_ledger (p_billing db)) = Ok (e, l) /\
    b_ledger (p_billing db') = l.
Proof.
  unfold refund_grant. intros H.
  apply tx_bind_ok in H as (e0 & d1 & Hl & H). unfold on_refund_ledger in Hl. apply tx_zoom_ok in Hl as (l & Hl & ->).
  unfold tx_map_err in Hl. destruct (ReverseGrantForRefund _ _ _ _ _) as [[e1 l1]|] eqn:Hrun; [|done]. injection Hl as -> ->.
  apply tx_bind_ok in H as (? & d2 & Hm & H). unfold reverse_grant_row in Hm. rewrite tx_get_bind in Hm.
  apply tx_bind_ok in Hm as (? & ? & Hg & Hm). apply tx_guard_ok in Hg as [_ ->]. injection Hm as _ <-.
  apply tx_bind_ok in H as (? & d3 & He & H). unfold InsertRefundReversalEffectTx in He. rewrite tx_get_bind in He.
  apply tx_bind_ok in He as (? & ? & Hg & He). apply tx_guard_ok in Hg as [_ ->]. injection He as _ <-.
  apply tx_bind_ok in H as (? & d4 & Hc & H). injection H as <- <-.
  assert (Hsh : p_orders d4 = p_orders db /\ p_refunds d4 = p_refunds db /\
    p_billing d4 = set_orders (update_where (has_key ro_order_id (ro_order_id g))
      (mark_reversed now (rp_OperatorID p) (refund_reason_prefix +:+ rp_Reason p)%string
         (AvailableReclaimedMicro e0) (NonAvailableDebitMicro e0)) (b_orders (p_billing db))) (set_ledger l (p_billing db)) /\
    exists es, p_cash d4 = p_cash db ++ es /\ no_income es).
  { destruct (str_eqb _ _).
    - apply InsertCash_ok in Hc as [-> _]. split; [done|]. split; [done|]. split; [done|]. eexists. split; [done|].
      intros y key ->%list_elem_of_singleton. simpl. unfold nullif. rewrite bool_decide_false by done.
      unfold income_key. intros [= He].
    - injection Hc as _ <-. split; [done|]. split; [done|]. split; [done|]. exists []. simpl. rewrite app_nil_r.
      split; [done|]. intros y key Hx. by apply not_elem_of_nil in Hx. }
  destruct Hsh as (E1 & E2 & E3 & E4). rewrite E3. split; [done|]. split; [done|]. split.
  - simpl. apply reversing_mark. intros r. by split_and!.
  - split; [exact E4|]. exists l. done.
Qed.

Lemma refund_fold_shape t now ids p refundID grants : forall acc db effects db',
  tx_fold (fun acc g => let! e := refund_grant t now ids p refundID g in tx_ret (acc ++ [e])) grants acc db
    = Ok (effects, db') ->
  p_orders db' = p_orders db /\ p_refunds db' = p_refunds db /\
  reversing (ro_order_id <$> grants) (b_orders (p_billing db)) (b_orders (p_billing db')) /\
  exists es, p_cash db' = p_cash db ++ es /\ no_income es.
Proof.
  induction grants as [|g grants IH]; intros acc db effects db' H; cbn [tx_fold] in H.
  - injection H as _ <-. split; [done|]. split; [done|]. split; [apply reversing_refl|]. exists [].
    rewrite app_nil_r. split; [done|]. intros y key Hx. by apply not_elem_of_nil in Hx.
  - apply tx_bind_ok in H as (acc' & d1 & Hg & H). apply tx_bind_ok in Hg as (e & d2 & Hg & Hr). injection Hr as _ <-.
    apply refund_grant_shape in Hg as (E1 & E2 & E3 & (es & E4 & E5) & _).
    apply IH in H as (F1 & F2 & F3 & (es' & F4 & F5)).
    split; [congruence|]. split; [congruence|]. split; [by eapply reversing_trans|].
    exists (es ++ es'). rewrite F4, E4, app_assoc. split; [done|].
    intros y key [Hx | Hx]%elem_of_app; [by apply E5 | by apply F5].
Qed.

(** The parts of a committed refund: the checks passed, the refund row was
    inserted, the grants were reversed one by one, the order was marked. *)
Definition completed_refund (now : Z) (ids : refund_ids) (p : RecordCompletedRefundParams) (o : pay_order) : Refund :=
  MkRefund ("RFD_" +:+ String.substring 0 24 (ri_refund ids)) (po_OrderID o) (rp_Method p) (rp_RefundReference p)
    (rp_ChannelRefundID p) (of_PaymentAmountMinor (po_Offer o)) (rp_RefundedAt p) (rp_Reason p) (rp_Note p)
    (rp_OperatorID p) now.
Lemma apply_refund_run le t now ids p o db r db' :
  NoDup (po_OrderID <$> p_orders db) -> o ∈ p_orders db ->
  apply_refund le t now ids p o db = Ok (r, db') ->
  let grants := loadRechargeGrantsForRefund le (po_OrderID o) (default ""%string (po_BalanceOrderID o)) db in
  exists effects d2 a, r = completed_refund now ids p o /\ validateRefundGrants o grants = true /\
    (forall x, x ∈ p_refunds db -> rf_PaymentOrderID x <> po_OrderID o) /\
    tx_fold (fun acc g => let! e := refund_grant t now ids p (rf_RefundID r) g in tx_ret (acc ++ [e])) grants []
      (set_refunds (p_refunds db ++ [r]) db) = Ok (effects, d2) /\
    pay_row_ok (with_refunded now o) = true /\
    db' = set_pay_audits (p_audits d2 ++ [a])
            (set_pay_orders (update_where (has_key po_OrderID (po_OrderID o)) (with_refunded now) (p_orders db)) d2).
Proof.
  intros Hnd Hin H grants. unfold apply_refund in H. rewrite tx_get_bind in H. fold grants in H.
  apply tx_bind_ok in H as (? & ? & Hg & H). apply tx_guard_ok in Hg as [Hv%negb_false_iff ->].
  apply tx_bind_ok in H as (? & d1 & Hi & H). unfold InsertRefundTx in Hi. rewrite tx_get_bind in Hi.
  apply tx_bind_ok in Hi as (? & ? & Hg & Hi). apply tx_guard_ok in Hg as [Hu ->].
  apply tx_bind_ok in Hi as (? & ? & Hg & Hi). apply tx_guard_ok in Hg as [_ ->]. injection Hi as _ <-.
  apply tx_bind_ok in H as (effects & d2 & Hf & H).
  pose proof Hf as Ho. apply refund_fold_shape in Ho as (E1 & _). simpl in E1.
  apply tx_bind_ok in H as (n & d3 & Hup & H). apply (update_pay_found _ _ _ _ _ _ o) in Hup as [Hrow ->];
    [| rewrite E1; by apply (find_key_elem po_OrderID) | done].
  apply tx_bind_ok in H as (? & d4 & Ha & H). injection H as <- <-. unfold append_refund_audit in Ha.
  apply tx_bind_ok in Ha as (? & ? & Hg & Ha). apply tx_guard_ok in Hg as [_ ->]. rewrite tx_get_bind in Ha.
  apply tx_bind_ok in Ha as (? & ? & Hg & Ha). apply tx_guard_ok in Hg as [_ ->]. injection Ha as _ <-.
  eexists effects, d2, _. split; [done|]. split; [done|]. split.
  { rewrite existsb_false in Hu. intros y Hy Heq. specialize (Hu y Hy). cbv beta in Hu.
    apply orb_false_iff in Hu as [Hu _]. apply orb_false_iff in Hu as [Hu _]. apply orb_false_iff in Hu as [_ Hu].
    unfold str_eqb in Hu. apply bool_decide_eq_false in Hu. by apply Hu. }
  split; [done|]. split; [done|]. by rewrite E1.
Qed.

(** The committed refund. *)
Lemma apply_refund_ok le t now ids p o db r db' :
  pay_ok db -> o ∈ p_orders db -> is_paid o = true -> po_RefundStatus o = RefundStatusNone ->
  apply_refund le t now ids p o db = Ok (r, db') -> pay_ok db'.
Proof.
  intros Hok Hin Hp Hnone H. apply apply_refund_run in H as (effects & d2 & a & -> & _ & _ & Hf & Hrow & ->);
    [|apply Hok | done]. apply refund_fold_shape in Hf as (E1 & E2 & E3 & (es & E4 & E5)).
  simpl in E1, E2, E3, E4. set (grants := loadRechargeGrantsForRefund le (po_OrderID o) _ db) in *.
  assert (Hids : forall r, r ∈ links_of (po_OrderID o) (b_orders (p_billing db)) -> ro_order_id r ∈ ro_order_id <$> grants).
  { intros r0 Hr0. apply list_elem_of_fmap_2. unfold grants, loadRechargeGrantsForRefund. by apply elem_of_order_by. }
  assert (Hgr : forall id, id ∈ ro_order_id <$> grants -> exists r, r ∈ b_orders (p_billing db) /\ ro_order_id r = id /\
                  ro_payment_order_id r = Some (po_OrderID o)).
  { intros id (r0 & -> & Hr0)%list_elem_of_fmap. unfold grants, loadRechargeGrantsForRefund in Hr0.
    apply elem_of_order_by, list_elem_of_In, filter_In in Hr0 as [Hr0 Hb]. apply bool_decide_eq_true in Hb.
    exists r0. split; [by apply list_elem_of_In | done]. }
  destruct (pk_rows _ Hok o Hin) as [P1 P2 P3 P4 P5].
  eapply pay_ok_same; [|apply (pay_ok_update_order db o (with_refunded now) Hin (fun x => eq_refl)
    (set_pay_orders (update_where (has_key po_OrderID (po_OrderID o)) (with_refunded now) (p_orders db)) d2) Hok eq_refl)];
    simpl; rewrite ?E1, ?E2, ?E4.
  - by split_and!; simpl; rewrite ?E1.
  - rewrite (reversing_ids _ _ _ E3). apply Hok.
  - intros r0 id Hr0 Hpay. destruct (reversing_elem _ _ _ _ E3 Hr0) as (r1 & Hr1 & Hpe).
    apply (pk_fk _ Hok r1); congruence.
  - intros r0 [Hr0 | ->%list_elem_of_singleton]%elem_of_app; [by apply Hok|].
    change (po_OrderID o ∈ po_OrderID <$> p_orders db). by apply list_elem_of_fmap_2.
  - intros e key [He | He]%elem_of_app Hk; [by apply (pk_cash _ Hok e) | by destruct (E5 e key He)].
  - intros y Hx Hxo [Q1 Q2 Q3 Q4 Q5].
    assert (Hl : links_of (po_OrderID y) (b_orders (p_billing d2)) = links_of (po_OrderID y) (b_orders (p_billing db))).
    { eapply reversing_none; [by apply reversing_links|]. intros r0 Hr0 Hid.
      apply Hgr in Hid as (r1 & Hr1 & Hid1 & Hp1). apply list_elem_of_In, filter_In in Hr0 as [Hr0 Hb].
      apply list_elem_of_In in Hr0. apply bool_decide_eq_true in Hb.
      assert (r1 = r0) as -> by (by apply (keyed_unique ro_order_id (b_orders (p_billing db))); [apply Hok|..]).
      rewrite Hb in Hp1. by injection Hp1. }
    split; simpl; rewrite ?Hl, ?E2, ?E4; try done.
    + rewrite Q4. split; intros (r0 & Hr0 & He); exists r0; (split; [|done]).
      * apply elem_of_app. by left.
      * apply elem_of_app in Hr0 as [Hr0 | ->%list_elem_of_singleton]; [done | by simpl in He].
    + unfold cash_has in *. rewrite existsb_app, Q5. assert (Hes : existsb (fun e =>
        bool_decide (ce_IdempotencyKey e = Some (income_key (po_OutTradeNo y)))) es = false)
        by (apply existsb_false; intros e He; by apply bool_decide_false, E5). by rewrite Hes, orb_false_r.
  - pose proof (reversing_links _ (po_OrderID o) _ _ E3) as Hrl.
    split; simpl; rewrite ?E2, ?E4; try done.
    + change (po_OrderID (with_refunded now o)) with (po_OrderID o).
      rewrite (reversing_all _ _ _ Hrl Hids), P2. unfold expected_links.
      change (is_paid (with_refunded now o)) with (is_paid o). rewrite Hp. unfold link_status. rewrite Hnone. simpl.
      by destruct (has_income (po_Offer o)).
    + intros _. change (po_OrderID (with_refunded now o)) with (po_OrderID o). rewrite <- (P3 Hp).
      pose proof (reversing_ids _ _ _ Hrl) as Hh. clear -Hh.
      destruct (links_of _ (b_orders (p_billing d2))), (links_of _ (b_orders (p_billing db))); simplify_eq/=; congruence.
    + split; [|done]. intros _. eexists. split; [apply elem_of_app; right; apply list_elem_of_here | done].
    + unfold cash_has in *. rewrite existsb_app. change (po_OutTradeNo (with_refunded now o)) with (po_OutTradeNo o).
      change (is_paid (with_refunded now o)) with (is_paid o). rewrite P5. assert (Hes : existsb (fun e =>
        bool_decide (ce_IdempotencyKey e = Some (income_key (po_OutTradeNo o)))) es = false)
        by (apply existsb_false; intros e He; by apply bool_decide_false, E5). by rewrite Hes, orb_false_r.
Qed.

Lemma RecordCompletedRefund_ok le clock t now ids p db r db' :
  pay_ok db -> RecordCompletedRefund le clock t now ids p db = Ok (r, db') -> pay_ok db'.
Proof.
  intros Hok H. unfold RecordCompletedRefund in H.
  apply tx_bind_ok in H as (? & ? & Hg & H). apply tx_guard_ok in Hg as [_ ->]. rewrite tx_get_bind in H.
  destruct (find_key po_OrderID _ _) as [o|] eqn:Hf; [|done]. apply find_key_Some in Hf as [Hin _].
  destruct (find_key rf_PaymentOrderID _ _) as [ex|]; [destruct (same_refund _ _); [by injection H as _ <- | done]|].
  apply tx_bind_ok in H as (? & ? & Hg & H). apply tx_guard_ok in Hg as [Hs ->].
  apply tx_bind_ok in H as (? & ? & Hg & H). apply tx_guard_ok in Hg as [_ ->].
  apply orb_false_iff in Hs as [Hs Hnone]. apply orb_false_iff in Hs as [Hs _].
  apply negb_false_iff in Hs. apply negb_false_iff, bool_decide_eq_true in Hnone. by eapply apply_refund_ok.
Qed.

(** What a committed refund does to the orders. *)
Lemma refund_orders le clock t now ids p db r db' :
  pay_ok db -> RecordCompletedRefund le clock t now ids p db = Ok (r, db') ->
  p_orders db' = p_orders db \/
  exists o, o ∈ p_orders db /\ is_paid o = true /\
    p_orders db' = update_where (has_key po_OrderID (po_OrderID o)) (with_refunded now) (p_orders db).
Proof.
  intros Hok H. unfold RecordCompletedRefund in H.
  apply tx_bind_ok in H as (? & ? & Hg & H). apply tx_guard_ok in Hg as [_ ->]. rewrite tx_get_bind in H.
  destruct (find_key po_OrderID _ _) as [o|] eqn:Hf; [|done]. apply find_key_Some in Hf as [Hin _].
  destruct (find_key rf_PaymentOrderID _ _) as [ex|]; [destruct (same_refund _ _); [by injection H as _ <-; left | done]|].
  apply tx_bind_ok in H as (? & ? & Hg & H). apply tx_guard_ok in Hg as [Hs ->].
  apply tx_bind_ok in H as (? & ? & Hg & H). apply tx_guard_ok in Hg as [_ ->].
  apply orb_false_iff in Hs as [Hs _]. apply orb_false_iff in Hs as [Hs _]. apply negb_false_iff in Hs.
  right. exists o. split; [done|]. split; [exact Hs|].
  by apply apply_refund_run in H as (effects & d2 & a & _ & _ & _ & _ & _ & ->); [|apply Hok|].
Qed.
