(* ===== verification/PaymentSystem.v ===== *)
(** * The payment system under concurrency

    Orders, notifications, sweeps, clean-ups, withdrawals, refunds and the rest of
    the billing run at once, one transaction at a time and in any order.  In every
    state they reach an order is credited exactly once or not at all, and a paid
    order stays paid; the programs of several transactions ([CreateTopupOrder],
    the sweep, the clean-up) only make such steps. *)

From S2P Require Import Prelude GoStrings CivilTime Ledger LedgerFacts LedgerProps Recharge RechargeProps Topup TopupProps Payment PaymentFacts.

(** ** The steps *)

Definition set_pay_settings (s : settings_db) (db : pay_db) : pay_db :=
  PayDB (p_billing db) (p_orders db) (p_refunds db) (p_effects db) (p_cash db) (p_withdrawals db) (p_audits db) s.

(** One committed transaction, with arbitrary arguments. *)
Inductive pay_step (db db' : pay_db) : Prop :=
| pstep_insert now f u : InsertOrder (new_order now f) db = Ok (u, db') -> pay_step db db'
| pstep_code_url now id url u : SetCodeURL now id url db = Ok (u, db') -> pay_step db db'
| pstep_failed now id note u : MarkPayOrderFailed now id note db = Ok (u, db') -> pay_step db db'
| pstep_status now id expected status note b :
    UpdateStatusIfCurrent now id expected status note db = Ok (b, db') -> pay_step db db'
| pstep_sweep_failure now id expected status next cause b :
    RecordSweepFailureIfCurrent now id expected status next cause db = Ok (b, db') -> pay_step db db'
| pstep_sweep_retry now id expected next b :
    ScheduleSweepRetryIfCurrent now id expected next db = Ok (b, db') -> pay_step db db'
| pstep_settle fail_text t now ids cfg outTradeNo txn u :
    Settle fail_text t now ids cfg outTradeNo txn db = Ok (u, db') -> pay_step db db'
| pstep_cleanup skip before limit n : DeleteStaleClosedOrders skip before limit db = Ok (n, db') -> pay_step db db'
| pstep_withdraw wid cid p w : CreateWithdrawal wid cid p db = Ok (w, db') -> pay_step db db'
| pstep_refund le clock t now ids p r : RecordCompletedRefund le clock t now ids p db = Ok (r, db') -> pay_step db db'
| pstep_manual t now u1 u2 p r : on_billing (GrantManual t now u1 u2 p) db = Ok (r, db') -> pay_step db db'
| pstep_reverse le t now u orderID tenantID reason op r :
    on_billing (reverseOrder le t now u orderID tenantID reason op) db = Ok (r, db') -> pay_step db db'
| pstep_ledger A (m : LTx A) a : on_pay_ledger m db = Ok (a, db') -> pay_step db db'
| pstep_settings s : db' = set_pay_settings s db -> pay_step db db'.

(** What no step undoes. *)
Definition paid_as (o o' : pay_order) : Prop :=
  po_Offer o' = po_Offer o /\ is_paid o' = true /\ po_BalanceOrderID o' = po_BalanceOrderID o /\
  (po_RefundStatus o = RefundStatusRefunded -> po_RefundStatus o' = RefundStatusRefunded).
Definition paid_kept (db db' : pay_db) : Prop :=
  forall o, o ∈ p_orders db -> is_paid o = true -> exists o', o' ∈ p_orders db' /\ paid_as o o'.

Lemma paid_kept_same db db' : p_orders db' = p_orders db -> paid_kept db db'.
Proof. intros He o Ho Hp. exists o. by rewrite He. Qed.
#[export] Instance paid_kept_trans : PreOrder paid_kept.
Proof.
  split; [intros db; by apply paid_kept_same|].
  intros d1 d2 d3 H12 H23 o Ho Hp. destruct (H12 o Ho Hp) as (o2 & Ho2 & E1 & E2 & E3 & E4).
  destruct (H23 o2 Ho2 E2) as (o3 & Ho3 & F1 & F2 & F3 & F4). exists o3.
  split; [done|]. split_and!; [congruence | done | congruence | auto].
Qed.

(** An update of one row that keeps what the row promised, if it was paid. *)
Lemma paid_kept_update db db' k f :
  p_orders db' = update_where (has_key po_OrderID k) f (p_orders db) ->
  (forall o, o ∈ p_orders db -> po_OrderID o = k -> is_paid o = true -> paid_as o (f o)) -> paid_kept db db'.
Proof.
  intros He Hf o Ho Hp. exists (if has_key po_OrderID k o then f o else o). rewrite He. split.
  - unfold update_where. by apply (list_elem_of_fmap_2 (fun a => if has_key po_OrderID k a then f a else a)).
  - destruct (has_key _ _ _) eqn:Hk; [|done]. unfold has_key in Hk. bool_prop. by apply Hf.
Qed.

Lemma paid_kept_pay db id cond f n db' :
  pay_ok db -> (forall o, keeps o (f o)) -> update_pay id cond f db = Ok (n, db') -> paid_kept db db'.
Proof.
  intros Hok Hk H. apply update_pay_ok in H as [[_ ->] | (o & _ & Hf & _ & Hrow & ->)]; [by apply paid_kept_same|].
  apply (paid_kept_update _ _ id f); [done|]. intros x Hx Hid Hp. apply find_key_Some in Hf as [Ho Hoid].
  assert (x = o) as -> by (apply (keyed_unique po_OrderID (p_orders db)); [apply Hok | done | done | congruence]).
  pose proof (keeps_paid o (f o) (Hk o) (oo_row _ _ _ _ (pk_rows _ Hok o Ho)) Hrow) as Hpaid.
  destruct (Hk o) as (K1 & K2 & K3 & K4). unfold paid_as. by rewrite K1, K3, K4, Hpaid.
Qed.

Lemma paid_kept_status db t id status note u db' :
  pay_ok db -> UpdateStatusTx t id status note db = Ok (u, db') -> paid_kept db db'.
Proof.
  intros Hok H. unfold UpdateStatusTx in H. apply tx_bind_ok in H as (n & d & Hu & H). injection H as _ <-.
  eapply paid_kept_pay; [exact Hok | | exact Hu]. done.
Qed.

Lemma paid_kept_settle db fail_text t now ids cfg otn txn u db' :
  pay_ok db -> Settle fail_text t now ids cfg otn txn db = Ok (u, db') -> paid_kept db db'.
Proof.
  intros Hok H. unfold Settle in H. rewrite tx_get_bind in H.
  destruct (find_key po_OutTradeNo otn (p_orders db)) as [o|] eqn:Hf; [|done].
  apply find_key_Some in Hf as [Hin _].
  destruct (str_eqb (po_Status o) PayPaid) eqn:Hp; [injection H as _ <-; by apply paid_kept_same|].
  destruct (negb _).
  - destruct (_ || _); [injection H as _ <-; by apply paid_kept_same|]. cbv zeta in H.
    destruct (str_eqb (next_status _ _) _) in H; [injection H as _ <-; by apply paid_kept_same|].
    by eapply paid_kept_status.
  - destruct (negb _); [by eapply paid_kept_status|].
    apply settle_paid_shape in H as (g & extra & cash' & _ & Ho & _); [|done..].
    apply (paid_kept_update _ _ _ _ Ho). intros x Hx Hid Hpx.
    assert (x = o) as -> by (by apply (keyed_unique po_OrderID (p_orders db)); [apply Hok|..]).
    unfold is_paid, has_status in Hpx. congruence.
Qed.

Lemma paid_kept_cleanup db skip before limit n db' :
  pay_ok db -> DeleteStaleClosedOrders skip before limit db = Ok (n, db') -> paid_kept db db'.
Proof.
  intros Hok H. apply cleanup_keeps in H as (gone & Ho & _ & Hgone & _). intros o Hin Hp. exists o.
  split; [|done]. rewrite Ho. apply list_elem_of_In, filter_In. split; [by apply list_elem_of_In|].
  apply negb_true_iff, bool_decide_eq_false. intros (x & Hid & Hx)%list_elem_of_fmap.
  destruct (Hgone x Hx) as (Hxin & Hst & _).
  assert (x = o) as -> by (by apply (keyed_unique po_OrderID (p_orders db)); [apply Hok|..]).
  unfold stale, has_status, str_eqb in Hst. unfold is_paid, has_status, str_eqb in Hp. bool_prop.
  match goal with H1 : po_Status o = PayClosed, H2 : po_Status o = PayPaid |- _ => by rewrite H1 in H2 end.
Qed.

Lemma paid_kept_refund db le clock t now ids p r db' :
  pay_ok db -> RecordCompletedRefund le clock t now ids p db = Ok (r, db') -> paid_kept db db'.
Proof.
  intros Hok H. apply refund_orders in H as [He | (o & Ho & Hp & He)]; [by apply paid_kept_same | | done].
  apply (paid_kept_update _ _ _ _ He). intros x Hx Hid Hpx. by split_and!.
Qed.

(** ** The invariant of the system *)

Lemma pay_step_kept db db' : pay_step db db' -> pay_ok db -> paid_kept db db'.
Proof.
  destruct 1 as [? ? ? H|? ? ? ? H|? ? ? ? H|? ? ? ? ? ? H|? ? ? ? ? ? ? H|? ? ? ? ? H|? ? ? ? ? ? ? ? H|? ? ? ? H
    |? ? ? ? H|? ? ? ? ? ? ? H|? ? ? ? ? ? H|? ? ? ? ? ? ? ? ? H|? ? ? H|? H]; intros Hok.
  - unfold InsertOrder in H. rewrite tx_get_bind in H.
    apply tx_bind_ok in H as (? & ? & Hg & H). apply tx_guard_ok in Hg as [_ ->].
    apply tx_bind_ok in H as (? & ? & Hg & H). apply tx_guard_ok in Hg as [_ ->]. injection H as _ <-.
    intros o Ho Hp. exists o. split; [|done]. apply elem_of_app. by left.
  - apply tx_bind_ok in H as (? & ? & H & Hr). injection Hr as _ <-.
    eapply paid_kept_pay; [exact Hok | | exact H]. done.
  - apply tx_bind_ok in H as (? & ? & H & Hr). injection Hr as _ <-.
    eapply paid_kept_pay; [exact Hok | | exact H]. done.
  - apply tx_bind_ok in H as (? & ? & H & Hr). injection Hr as _ <-.
    eapply paid_kept_pay; [exact Hok | | exact H]. done.
  - apply tx_bind_ok in H as (? & ? & H & Hr). injection Hr as _ <-.
    eapply paid_kept_pay; [exact Hok | | exact H]. done.
  - apply tx_bind_ok in H as (? & ? & H & Hr). injection Hr as _ <-.
    eapply paid_kept_pay; [exact Hok | | exact H]. done.
  - by eapply paid_kept_settle.
  - by eapply paid_kept_cleanup.
  - apply CreateWithdrawal_tables in H as [He _]. by apply paid_kept_same.
  - by eapply paid_kept_refund.
  - apply on_billing_ok in H as (b & _ & ->). by apply paid_kept_same.
  - apply on_billing_ok in H as (b & _ & ->). by apply paid_kept_same.
  - apply on_pay_ledger_same in H as [He _]. by apply paid_kept_same.
  - subst. by apply paid_kept_same.
Qed.

Lemma pay_step_ok db db' : pay_step db db' -> pay_ok db -> pay_ok db'.
Proof.
  destruct 1 as [? ? ? H|? ? ? ? H|? ? ? ? H|? ? ? ? ? ? H|? ? ? ? ? ? ? H|? ? ? ? ? H|? ? ? ? ? ? ? ? H|? ? ? ? H
    |? ? ? ? H|? ? ? ? ? ? ? H|? ? ? ? ? ? H|? ? ? ? ? ? ? ? ? H|? ? ? H|? H]; intros Hok.
  - by eapply InsertOrder_ok.
  - apply tx_bind_ok in H as (? & ? & H & Hr). injection Hr as _ <-. by eapply update_pay_keeps in H.
  - apply tx_bind_ok in H as (? & ? & H & Hr). injection Hr as _ <-. by eapply update_pay_keeps in H.
  - apply tx_bind_ok in H as (? & ? & H & Hr). injection Hr as _ <-. by eapply update_pay_keeps in H.
  - apply tx_bind_ok in H as (? & ? & H & Hr). injection Hr as _ <-. by eapply update_pay_keeps in H.
  - apply tx_bind_ok in H as (? & ? & H & Hr). injection Hr as _ <-. by eapply update_pay_keeps in H.
  - by eapply Settle_ok.
  - by eapply DeleteStaleClosedOrders_ok.
  - by eapply CreateWithdrawal_ok.
  - by eapply RecordCompletedRefund_ok.
  - apply on_billing_ok in H as (b & H & ->). apply pay_ok_billing; [done|].
    apply GrantManual_links in H; [done | apply Hok].
  - apply on_billing_ok in H as (b & H & ->). apply pay_ok_billing; [done|].
    apply reverseOrder_links in H; [done | apply Hok].
  - apply on_pay_ledger_same in H. by eapply pay_ok_same.
  - subst. by apply (pay_ok_same db).
Qed.

Lemma pay_steps_ok db db' : rtc pay_step db db' -> pay_ok db -> pay_ok db' /\ paid_kept db db'.
Proof.
  induction 1 as [db|db d1 db' Hs _ IH]; intros Hok; [done|].
  pose proof (pay_step_ok _ _ Hs Hok) as Hok1. destruct (IH Hok1) as [Hok' Hk]. split; [done|].
  etransitivity; [by apply pay_step_kept | done].
Qed.

(** The system before the first payment. *)
Definition no_payments (db : pay_db) : Prop :=
  p_orders db = [] /\ b_orders (p_billing db) = [] /\ p_refunds db = [] /\ p_cash db = [].
Lemma no_payments_ok db : no_payments db -> pay_ok db.
Proof.
  intros (E1 & E2 & E3 & E4). split; rewrite ?E1, ?E2, ?E3, ?E4; try constructor;
    intros; by match goal with H : _ ∈ [] |- _ => apply not_elem_of_nil in H end.
Qed.

(** C3: a payment is credited exactly once or not at all.  In every state the
    system reaches from one without payments, whatever the gateway answers, in
    whatever order notifications, sweeps, closures, withdrawals, refunds and
    clean-ups run, the recharge orders that refer to a payment order are none
    while it is not paid, and once it is, exactly one of its full credit to its
    target (the one it names) and, for a user's top-up with an income, one of that
    income to the tenant, all of them active or, after a refund, all reversed; the
    tenant's cash entry exists exactly when the income does, and the order is
    marked refunded exactly when there is a refund. *)
Theorem payments_credited_once db0 db o :
  no_payments db0 -> rtc pay_step db0 db -> o ∈ p_orders db ->
  let links := links_of (po_OrderID o) (b_orders (p_billing db)) in
  let f := po_Offer o in
  (po_Status o <> PayPaid -> links = []) /\
  (po_Status o = PayPaid ->
     exists g rest, links = g :: rest /\ po_BalanceOrderID o = Some (ro_order_id g) /\
       ro_credit_amount g = of_CreditedAmountMicroUSD f /\ ro_tenant_id g = of_TenantID f /\
       ro_user_id g = nullif (of_UserID f) /\ ro_status g = link_status o /\
       link_view <$> rest = (if has_income f then
         [(OrderTypeUserTopupIncome, of_TenantID f, None, of_TenantIncomeMicroUSD f, link_status o)] else [])) /\
  ExistsCashLedgerIdempotencyKey (income_key (of_OutTradeNo f)) db = has_status PayPaid o && has_income f /\
  (po_RefundStatus o = RefundStatusRefunded <-> exists r, r ∈ p_refunds db /\ rf_PaymentOrderID r = po_OrderID o).
Proof.
  intros H0 Hrun Ho links f.
  destruct (pay_steps_ok _ _ Hrun (no_payments_ok _ H0)) as [Hok _].
  destruct (pk_rows _ Hok o Ho) as [_ P2 P3 P4 P5]. fold links in P2, P3.
  split; [|split; [|by split]].
  - intros Hnp. apply fmap_nil_inv with (f := link_view). rewrite P2. unfold expected_links, is_paid, has_status, str_eqb.
    by rewrite bool_decide_false.
  - intros Hp. assert (Hpd : is_paid o = true) by (by apply bool_decide_eq_true). specialize (P3 Hpd).
    unfold expected_links in P2. rewrite Hpd in P2. destruct links as [|g rest]; [done|].
    cbn [fmap list_fmap] in P2. injection P2 as E1 E2 E3 E4 E5 E6. exists g, rest. by split_and!.
Qed.

(** A payment is final.  Once an order is paid, no later transaction of the
    system removes it, takes the paid mark away, changes what was offered or moves
    it to another recharge order, and a refunded order stays refunded. *)
Theorem paid_is_final db0 db db' o :
  no_payments db0 -> rtc pay_step db0 db -> rtc pay_step db db' -> o ∈ p_orders db -> po_Status o = PayPaid ->
  exists o', o' ∈ p_orders db' /\ po_Offer o' = po_Offer o /\ po_Status o' = PayPaid /\
    po_BalanceOrderID o' = po_BalanceOrderID o /\
    (po_RefundStatus o = RefundStatusRefunded -> po_RefundStatus o' = RefundStatusRefunded).
Proof.
  intros H0 Hrun Hlater Ho Hp. destruct (pay_steps_ok _ _ Hrun (no_payments_ok _ H0)) as [Hok _].
  destruct (pay_steps_ok _ _ Hlater Hok) as [_ Hk].
  destruct (Hk o Ho) as (o' & Ho' & E1 & E2 & E3 & E4); [by apply bool_decide_eq_true|].
  apply bool_decide_eq_true in E2. by exists o'.
Qed.

(** ** Programs of several transactions *)

Lemma run_step {A} (m : PTx A) db :
  (forall a db', m db = Ok (a, db') -> pay_step db db') -> rtc pay_step db (run_tx m db).1.
Proof.
  intros Hm. unfold run_tx. destruct (m db) as [[a db']|e] eqn:H; [by eapply rtc_once, Hm | constructor].
Qed.

Lemma CreateTopupOrder_steps t1 t2 now uuid otn cfg p prepay db :
  rtc pay_step db (CreateTopupOrder t1 t2 now uuid otn cfg p prepay db).1.
Proof.
  unfold CreateTopupOrder. destruct (topup_offer _ _ _ _ _ _ _) as [f|e]; [|constructor]. cbv zeta.
  pose proof (run_step (InsertOrder (new_order t1 f)) db (fun a d H => pstep_insert _ _ _ _ _ H)) as Hi.
  destruct (run_tx _ db) as [d1 [[]|e]]; [|exact Hi]. simpl in Hi. destruct prepay as [url|msg].
  - pose proof (run_step (SetCodeURL t2 (po_OrderID (new_order t1 f)) url) d1
      (fun a d H => pstep_code_url _ _ _ _ _ _ H)) as Hc.
    destruct (run_tx _ d1) as [d2 r2]. by etransitivity.
  - etransitivity; [exact Hi|]. apply run_step. intros a d H. by eapply pstep_failed.
Qed.

Lemma record_failure_steps io o status cause db : rtc pay_step db (run_tx (recordSweepFailure io o status cause) db).1.
Proof. apply run_step. intros a d H. by eapply pstep_sweep_failure. Qed.

Lemma sweep_settle_steps io cfg o r db : rtc pay_step db (sweep_settle io cfg o r db).
Proof.
  unfold sweep_settle.
  pose proof (run_step (Settle (io_fail_text io) (io_db_now io) (io_now io) (io_ids io) cfg (po_OutTradeNo o) r) db
    (fun a d H => pstep_settle _ _ _ _ _ _ _ _ _ _ H)) as Hs.
  destruct (run_tx _ db) as [d1 [[]|e]]; [exact Hs|]. simpl in Hs.
  etransitivity; [exact Hs | apply record_failure_steps].
Qed.

Lemma sweepExpiredOrder_steps io cfg o db : rtc pay_step db (sweepExpiredOrder io cfg o db).
Proof.
  unfold sweepExpiredOrder. destruct (success_of _); [apply sweep_settle_steps|].
  destruct (io_close io); [apply record_failure_steps|]. apply run_step. intros a d H. by eapply pstep_status.
Qed.

Lemma sweepInFlightOrder_steps io cfg o db : rtc pay_step db (sweepInFlightOrder io cfg o db).
Proof.
  unfold sweepInFlightOrder. destruct (io_query io) as [q|msg]; [|apply record_failure_steps].
  destruct (success_of _); [apply sweep_settle_steps|]. apply run_step. intros a d H. by eapply pstep_sweep_retry.
Qed.

Lemma fold_steps {A} (f : pay_db -> A -> pay_db) l :
  (forall d x, rtc pay_step d (f d x)) -> forall db, rtc pay_step db (fold_left f l db).
Proof.
  intros Hf. induction l as [|x l IH]; intros db; simpl; [constructor|]. etransitivity; [apply Hf | apply IH].
Qed.

Lemma SweepOnce_steps io cfg now db : rtc pay_step db (SweepOnce io cfg now db).
Proof.
  unfold SweepOnce. cbv zeta. etransitivity; [| apply (fold_steps (A := pay_order))]; [apply (fold_steps (A := pay_order))|];
    intros d o; [apply sweepExpiredOrder_steps | apply sweepInFlightOrder_steps].
Qed.

Lemma SyncOrder_steps fail_text t now ids cfg id q db :
  rtc pay_step db (run_tx (SyncOrder fail_text t now ids cfg id q) db).1.
Proof.
  apply run_step. intros a d H. unfold SyncOrder in H. rewrite tx_get_bind in H.
  destruct (find_key _ _ _); [|done]. destruct (if mc_Mock cfg then _ else _); [by eapply pstep_settle | done].
Qed.

Lemma HandleNotify_steps fail_text t now ids cfg q db :
  rtc pay_step db (run_tx (HandleNotify fail_text t now ids cfg q) db).1.
Proof.
  apply run_step. intros a d H. unfold HandleNotify in H. destruct q; [by eapply pstep_settle | done].
Qed.

Lemma cleanup_loop_steps skip cutoff fuel : forall total db, rtc pay_step db (cleanup_loop fuel skip cutoff total db).1.
Proof.
  induction fuel as [|fuel IH]; intros total db; cbn [cleanup_loop]; [constructor|].
  pose proof (run_step (DeleteStaleClosedOrders skip cutoff closedOrderCleanupBatch) db
    (fun a d H => pstep_cleanup _ _ _ _ _ _ H)) as Hs.
  destruct (run_tx _ db) as [d1 [n|e]]; [|exact Hs]. simpl in Hs. destruct (_ <? _); [exact Hs|].
  etransitivity; [exact Hs | apply IH].
Qed.

(** The sweep is safe whatever it meets.  From every reachable state, a whole
    [SweepOnce] — any answers and errors of the gateway for any of its orders, any
    failure of its transactions — and then a whole clean-up leave every paid order
    paid with its grants, and the books of every order consistent. *)
Theorem sweep_and_cleanup_safe db0 db io cfg now skip now' :
  no_payments db0 -> rtc pay_step db0 db ->
  let db' := (CleanupClosedOrders skip now' (SweepOnce io cfg now db)).1 in
  (forall o, o ∈ p_orders db -> po_Status o = PayPaid ->
     exists o', o' ∈ p_orders db' /\ po_Offer o' = po_Offer o /\ po_Status o' = PayPaid) /\
  (forall o, o ∈ p_orders db' ->
     link_view <$> links_of (po_OrderID o) (b_orders (p_billing db')) = expected_links o).
Proof.
  intros H0 Hrun db'. destruct (pay_steps_ok _ _ Hrun (no_payments_ok _ H0)) as [Hok _].
  assert (Hs : rtc pay_step db db').
  { etransitivity; [apply (SweepOnce_steps io cfg now) | apply cleanup_loop_steps]. }
  destruct (pay_steps_ok _ _ Hs Hok) as [Hok' Hk]. split.
  - intros o Ho Hp. destruct (Hk o Ho) as (o' & Ho' & E1 & E2 & _); [by apply bool_decide_eq_true|].
    apply bool_decide_eq_true in E2. by exists o'.
  - intros o Ho. by destruct (pk_rows _ Hok' o Ho).
Qed.

(** ** A demonstration

    A user's top-up of ten dollars: created, paid by a notification that is
    delivered twice, refunded. *)

Definition pay_refs : list Ref := [user_ref; MkRef KindTenant "T" "T"].
Definition demo_accounts : ledger_db :=
  fold_left (fun db r => match EnsureAccount r db with Ok (_, db') => db' | Err _ => db end) pay_refs empty_ledger.
Definition demo_pay : pay_db :=
  PayDB (BillingDB demo_accounts [] [] ["T"] [IamAccount "U" (Some "T") 4 "active"] []) [] [] [] [] [] []
    demo_settings.
Definition demo_merchant : MerchantConfig := MkMerchant true false "wx-app" "mch-1" (30 * 60 * Second).
Definition demo_topup : CreateTopupOrderParams := MkTopupOrder SceneUserTopup "T" "U" 10000000 "".
Definition demo_unpaid : pay_db :=
  (CreateTopupOrder 1000 1001 1000 uuid_a "N1" demo_merchant demo_topup (Ok "weixin://pay"%string) demo_pay).1.

Definition demo_ids : settle_ids := MkSettleIds uuid_a uuid_a uuid_b uuid_b uuid_a.
Definition demo_answer : QueryResult := MkQuery TradeStateSuccess "TX1" "N1" 1000 "wx-app" "mch-1".
Definition demo_notify (db : pay_db) : pay_db * result pay_error unit :=
  run_tx (HandleNotify (fun _ => "mismatch"%string) 2000 2000 demo_ids demo_merchant (Ok demo_answer)) db.
Definition demo_paid : pay_db := (demo_notify demo_unpaid).1.

Definition demo_refund_params : RecordCompletedRefundParams :=
  MkRefundParams "PAY_aaaaaaaa-aaaa-4aaa-8aaa-" RefundMethodWechat "R1" "CR1" 3000 "asked" "" "op".
Definition demo_refund_ids : refund_ids :=
  MkRefundIds uuid_a (fun id => if str_eqb id "ORD_aaaaaaaa-aaaa-4aaa-8aaa-" then uuid_a else uuid_b) uuid_b uuid_a.
Definition demo_refund : pay_db * result pay_error Refund :=
  run_tx (RecordCompletedRefund String.leb 4000 4000 4000 demo_refund_ids demo_refund_params) demo_paid.
Definition demo_order_of (db : pay_db) : pay_order :=
  default (new_order 0 (MkOffer "" "" "" "" "" "" "" "" "" 0 0 0 0 0 0 0 None 0 0)) (head (p_orders db)).

Lemma demo_no_payments : no_payments demo_pay.
Proof. done. Qed.
Lemma demo_unpaid_steps : rtc pay_step demo_pay demo_unpaid.
Proof. apply CreateTopupOrder_steps. Qed.
Lemma demo_paid_steps : rtc pay_step demo_pay demo_paid.
Proof. etransitivity; [apply demo_unpaid_steps | apply HandleNotify_steps]. Qed.
Lemma demo_refund_steps : rtc pay_step demo_paid demo_refund.1.
Proof. apply run_step. intros a d H. by eapply pstep_refund. Qed.
Lemma demo_paid_order : demo_order_of demo_paid ∈ p_orders demo_paid.
Proof. vm_compute. apply list_elem_of_here. Qed.

(** Paid, with the two grants; the second delivery changed nothing. *)
Lemma payments_credited_once_witness :
  (demo_notify demo_paid = (demo_paid, Ok tt)) /\
  exists g i, links_of "PAY_aaaaaaaa-aaaa-4aaa-8aaa-"%string (b_orders (p_billing demo_paid)) = [g; i] /\
    ro_credit_amount g = 9840000 /\ ro_user_id g = Some "U"%string /\ ro_credit_amount i = 10000000.
Proof.
  split; [vm_compute; reflexivity|].
  assert (Hv : po_Status (demo_order_of demo_paid) = PayPaid /\ has_income (po_Offer (demo_order_of demo_paid)) = true /\
    of_CreditedAmountMicroUSD (po_Offer (demo_order_of demo_paid)) = 9840000 /\
    nullif (of_UserID (po_Offer (demo_order_of demo_paid))) = Some "U"%string /\
    of_TenantIncomeMicroUSD (po_Offer (demo_order_of demo_paid)) = 10000000 /\
    po_OrderID (demo_order_of demo_paid) = "PAY_aaaaaaaa-aaaa-4aaa-8aaa-"%string)
    by (vm_compute; split_and!; reflexivity).
  destruct (payments_credited_once demo_pay demo_paid (demo_order_of demo_paid) demo_no_payments demo_paid_steps
    demo_paid_order) as (_ & Hp & _).
  revert Hv Hp. generalize (demo_order_of demo_paid). generalize demo_paid. intros db o (E1 & E2 & E3 & E4 & E5 & E6) Hp.
  destruct (Hp E1) as (g & rest & Hl & _ & Hc & _ & Hu & _ & Hr). rewrite E2 in Hr.
  destruct rest as [|i [|]]; [discriminate Hr | | discriminate Hr].
  cbn [fmap list_fmap] in Hr. unfold link_view in Hr. injection Hr as _ _ _ E _.
  exists g, i. rewrite <- E6. split; [exact Hl|]. by rewrite Hc, Hu, E.
Defined.

Lemma paid_is_final_witness :
  exists o, o ∈ p_orders demo_refund.1 /\ po_Status o = PayPaid /\
    po_BalanceOrderID o = Some "ORD_aaaaaaaa-aaaa-4aaa-8aaa-"%string.
Proof.
  destruct (paid_is_final demo_pay demo_paid demo_refund.1 (demo_order_of demo_paid) demo_no_payments demo_paid_steps
    demo_refund_steps demo_paid_order) as (o & Ho & _ & Hs & Hb & _); [vm_compute; reflexivity|].
  exists o. split; [exact Ho|]. split; [exact Hs | exact Hb].
Defined.

(** The sweep of an expired order which the gateway reports paid, then a clean-up
    far in the future. *)
Definition demo_io (outTradeNo : string) : sweep_io :=
  MkSweepIO (Ok (Some demo_answer)) None demo_ids 2000000000000 2000000000000 (fun _ => ""%string) (fun _ => ""%string).
Lemma sweep_and_cleanup_safe_witness :
  let db' := (CleanupClosedOrders (fun _ => false) (9000 * Hour)
                (SweepOnce demo_io demo_merchant 2000000000000 demo_unpaid)).1 in
  po_Status <$> p_orders db' = [PayPaid] /\
  (forall o, o ∈ p_orders db' ->
     link_view <$> links_of (po_OrderID o) (b_orders (p_billing db')) = expected_links o).
Proof.
  split; [vm_compute; reflexivity|].
  apply (sweep_and_cleanup_safe demo_pay demo_unpaid demo_io demo_merchant 2000000000000 (fun _ => false)
    (9000 * Hour) demo_no_payments demo_unpaid_steps).
Defined.
