(* ===== verification/PaymentProps.v ===== *)
(** * What settlement, withdrawals, refunds and the clean-up do

    The functional behaviour of the payment transactions on the money: the exact
    change of every balance, the fees, and what a repeated delivery does. *)

From S2P Require Import Prelude GoStrings CivilTime Ledger LedgerFacts LedgerProps Recharge RechargeProps Topup TopupProps Payment PaymentFacts PaymentSystem.

Definition pay_ledger (db : pay_db) : ledger_db := b_ledger (p_billing db).
Definition pay_balances (db : pay_db) : gmap string Z := balances_of (pay_ledger db).

(** ** Settlement *)

Definition grant_target (f : pay_offer) : string := ref_id (GrantRef (of_TenantID f) (of_UserID f)).
(** What a settled order adds to an account. *)
Definition settled_credit (f : pay_offer) (id : string) : Z :=
  (if str_eqb id (grant_target f) then of_CreditedAmountMicroUSD f else 0)
  + (if has_income f && str_eqb id (of_TenantID f) then of_TenantIncomeMicroUSD f else 0).

Definition no_min_balance (m : gmap string Z) : Prop := forall id, m !! id <> Some int64_min.

(** A grant inside a payment transaction moves one balance. *)
Lemma grant_balances t now u1 u2 p db r b :
  ledger_ok (b_ledger db) -> gp_AmountMicroUSD p <= int64_max -> no_min_balance (balances_of (b_ledger db)) ->
  GrantBalance t now u1 u2 p db = Ok (r, b) ->
  ledger_ok (b_ledger b) /\ no_min_balance (balances_of (b_ledger b)) /\
  forall id, balances_of (b_ledger b) !! id =
    (fun x => x + (if str_eqb id (ref_id (GrantRef (gp_TenantID p) (gp_UserID p))) then gp_AmountMicroUSD p else 0))
      <$> balances_of (b_ledger db) !! id.
Proof.
  intros Hok Hmax Hmin H. apply GrantBalance_run in H as (x & o & Hv & Hx & Hb & Hok' & _); [|done|done|apply Hmin].
  assert (Hpos : 0 < gp_AmountMicroUSD p).
  { unfold validateGrantParams, validateGrantParamsInternal in Hv. destruct (_ && _); [done|].
    destruct (empty_str (gp_OperatorID p)); [done|]. destruct (Z.leb_spec (gp_AmountMicroUSD p) 0); [done | done]. }
  assert (Hrange : int64_min <= x).
  { rewrite balances_of_lookup in Hx. destruct (bill_accounts (b_ledger db) !! _) as [a|] eqn:Ha; [|done].
    injection Hx as <-. by apply (ok_range _ Hok _ _ Ha). }
  split; [done|]. rewrite Hb. split; intros id; unfold str_eqb.
  - rewrite lookup_insert. case_decide; [|apply Hmin]. intros [= He]. lia.
  - rewrite lookup_insert. case_decide as He; [|rewrite bool_decide_false by congruence;
      destruct (balances_of (b_ledger db) !! id); simpl; f_equal; lia].
    subst id. by rewrite Hx, bool_decide_true.
Qed.

Lemma cash_billing e db u db' : InsertCashLedgerTx e db = Ok (u, db') -> p_billing db' = p_billing db.
Proof. intros H. by apply InsertCash_ok in H as [-> _]. Qed.

Lemma tenant_balance_read tenant db b db' :
  TenantBalanceAfterTx tenant db = Ok (b, db') ->
  pay_ledger db' = pay_ledger db /\ p_orders db' = p_orders db /\ p_cash db' = p_cash db /\
  pay_balances db !! tenant = Some b.
Proof.
  intros H. apply on_pay_ledger_ok in H as (l & Hb & ->). apply Balance_ok in Hb as [-> Hb]. done.
Qed.

Lemma update_pay_billing id cond f db n db' : update_pay id cond f db = Ok (n, db') -> p_billing db' = p_billing db.
Proof. intros H. by apply update_pay_ok in H as [[_ ->] | (o & _ & _ & _ & _ & ->)]. Qed.

Lemma settle_paid_balances t now ids o txn db u db' :
  pay_ok db -> ledger_ok (pay_ledger db) -> o ∈ p_orders db -> is_paid o = false ->
  of_CreditedAmountMicroUSD (po_Offer o) <= int64_max -> of_TenantIncomeMicroUSD (po_Offer o) <= int64_max ->
  no_min_balance (pay_balances db) ->
  settle_paid t now ids (po_Offer o) txn db = Ok (u, db') ->
  ledger_ok (pay_ledger db') /\
  forall id, pay_balances db' !! id = (fun b => b + settled_credit (po_Offer o) id) <$> pay_balances db !! id.
Proof.
  intros Hok Hl Hin Hnp Hc Hi Hmin H. unfold settle_paid in H.
  pose proof (oo_cash _ _ _ _ (pk_rows _ Hok o Hin)) as Hcash. rewrite Hnp in Hcash. simpl in Hcash.
  apply tx_bind_ok in H as (gr & d1 & Hg & H). apply on_billing_ok in Hg as (b & Hg & ->).
  apply grant_balances in Hg as (Hok1 & Hmin1 & Hbal1); [|done..].
  apply tx_bind_ok in H as ([] & d2 & Hinc & H). fold (has_income (po_Offer o)) in Hinc.
  unfold MarkPaidTx in H. apply tx_bind_ok in H as (n & d3 & Hm & H). injection H as _ <-.
  apply update_pay_billing in Hm. unfold pay_balances, pay_ledger. rewrite Hm.
  assert (Hstep : ledger_ok (pay_ledger d2) /\ forall id, pay_balances d2 !! id =
    (fun x => x + (if has_income (po_Offer o) && str_eqb id (of_TenantID (po_Offer o))
                   then of_TenantIncomeMicroUSD (po_Offer o) else 0)) <$> balances_of (b_ledger b) !! id).
  { destruct (has_income (po_Offer o)).
    2:{ injection Hinc as <-. split; [done|]. intros id. unfold pay_balances, pay_ledger. simpl.
        destruct (_ !! id); simpl; f_equal; lia. }
    unfold settle_income in Hinc. rewrite tx_get_bind in Hinc. cbv zeta in Hinc.
    change (ExistsCashLedgerIdempotencyKey ?k ?d) with (cash_has k (p_cash d)) in Hinc.
    simpl in Hinc. unfold po_OutTradeNo in Hcash. rewrite Hcash in Hinc.
    apply tx_bind_ok in Hinc as (gi & e1 & Hg & Hinc). apply on_billing_ok in Hg as (bi & Hg & ->).
    apply grant_balances in Hg as (Hok2 & _ & Hbal2); [|done..].
    apply tx_bind_ok in Hinc as (bal & e2 & Hb & Hinc). apply tenant_balance_read in Hb as (Hb & _).
    apply cash_billing in Hinc. unfold pay_ledger in Hb. unfold pay_balances, pay_ledger. rewrite Hinc, Hb. done. }
  destruct Hstep as [Hok2 Hbal2]. split; [done|]. intros id. unfold pay_balances, pay_ledger in Hbal2. rewrite Hbal2, Hbal1.
  unfold settled_credit, grant_target. simpl.
  change (balances_of (b_ledger (p_billing db)) !! id) with (pay_balances db !! id).
  destruct (pay_balances db !! id); simpl; f_equal; lia.
Qed.

Definition accepted (cfg : MerchantConfig) (txn : QueryResult) (o : pay_order) : bool :=
  negb (is_paid o) && str_eqb (qr_TradeState txn) TradeStateSuccess && txn_matches cfg txn (po_Offer o).

(** The status an answer that is no accepted payment leaves. *)
Definition answered_status (txn : QueryResult) (o : pay_order) : string :=
  if str_eqb (qr_TradeState txn) TradeStateSuccess || str_eqb (po_Status o) PayPaid
     || str_eqb (po_Status o) PayClosed || str_eqb (po_Status o) PayExpired
  then po_Status o else next_status o (qr_TradeState txn).

Lemma find_update_trade (f : pay_order -> pay_order) l o :
  NoDup (po_OutTradeNo <$> l) -> NoDup (po_OrderID <$> l) -> o ∈ l -> (forall x, po_Offer (f x) = po_Offer x) ->
  find_key po_OutTradeNo (po_OutTradeNo o) (update_where (has_key po_OrderID (po_OrderID o)) f l) = Some (f o).
Proof.
  intros Hnd Hid Hin Hf. replace (po_OutTradeNo o) with (po_OutTradeNo (f o)) by (unfold po_OutTradeNo; by rewrite Hf).
  apply find_key_elem.
  - rewrite (keys_update_where po_OutTradeNo); [done|]. intros x. unfold po_OutTradeNo. by rewrite Hf.
  - apply (elem_update_key po_OrderID); [done | done | by left].
Qed.

Lemma settle_paid_find t now ids o txn db u db' :
  pay_ok db -> o ∈ p_orders db -> is_paid o = false ->
  settle_paid t now ids (po_Offer o) txn db = Ok (u, db') ->
  exists o', find_key po_OutTradeNo (po_OutTradeNo o) (p_orders db') = Some o' /\ po_Offer o' = po_Offer o /\
    po_Status o' = PayPaid /\ po_TransactionID o' = Some (qr_TransactionID txn) /\ po_PaidAt o' = Some t.
Proof.
  intros Hok Hin Hnp H. apply settle_paid_shape in H as (g & extra & cash' & _ & Ho & _); [|done..].
  eexists. rewrite Ho. split; [apply find_update_trade; try done; apply Hok|]. done.
Qed.

Lemma UpdateStatusTx_find t status note o db u db' :
  pay_ok db -> o ∈ p_orders db -> UpdateStatusTx t (po_OrderID o) status note db = Ok (u, db') ->
  p_billing db' = p_billing db /\
  exists o', find_key po_OutTradeNo (po_OutTradeNo o) (p_orders db') = Some o' /\ po_Offer o' = po_Offer o /\
    po_Status o' = status.
Proof.
  intros Hok Hin H. unfold UpdateStatusTx in H. apply tx_bind_ok in H as (n & d & Hu & H). injection H as _ <-.
  split; [by eapply update_pay_billing|]. apply (update_pay_found _ _ _ _ _ _ o) in Hu as [_ ->];
    [|apply (find_key_elem po_OrderID); [apply Hok | done] | done].
  eexists. split; [apply find_update_trade; try done; apply Hok|]. done.
Qed.

(** C35: what a settlement does.  The answer of the gateway for an order is
    accepted exactly when the order is not paid, the trade state is SUCCESS and the
    amount and the merchant match.  An accepted answer adds the credited amount to
    the order's target and a user's top-up's income to the tenant, nothing to any
    other account, and marks the order paid with the transaction; any later
    settlement of that order, whatever its answer, succeeds and changes nothing.
    An answer that is not accepted moves no balance and leaves the status the
    answer calls for: that of a paid, closed or expired order never changes. *)
Theorem Settle_correct fail_text t now ids cfg otn txn db o db' :
  pay_ok db -> ledger_ok (pay_ledger db) -> no_min_balance (pay_balances db) ->
  find_key po_OutTradeNo otn (p_orders db) = Some o ->
  of_CreditedAmountMicroUSD (po_Offer o) <= int64_max -> of_TenantIncomeMicroUSD (po_Offer o) <= int64_max ->
  Settle fail_text t now ids cfg otn txn db = Ok (tt, db') ->
  (forall id, pay_balances db' !! id =
     (fun b => b + (if accepted cfg txn o then settled_credit (po_Offer o) id else 0)) <$> pay_balances db !! id) /\
  exists o', find_key po_OutTradeNo otn (p_orders db') = Some o' /\ po_Offer o' = po_Offer o /\
    if accepted cfg txn o
    then po_Status o' = PayPaid /\ po_TransactionID o' = Some (qr_TransactionID txn) /\ po_PaidAt o' = Some t /\
         forall ft2 t2 now2 ids2 cfg2 txn2, Settle ft2 t2 now2 ids2 cfg2 otn txn2 db' = Ok (tt, db')
    else po_Status o' = answered_status txn o.
Proof.
  intros Hok Hl Hmin Hf Hc Hi H. pose proof (find_key_Some _ _ _ _ Hf) as [Hin <-].
  unfold Settle in H. rewrite tx_get_bind, Hf in H.
  assert (Hsame : forall d : pay_db, p_billing d = p_billing db -> forall id, pay_balances d !! id =
    (fun b => b + 0) <$> pay_balances db !! id).
  { intros d Hd id. unfold pay_balances, pay_ledger. rewrite Hd. destruct (_ !! id); simpl; f_equal; lia. }
  unfold accepted, answered_status, is_paid, has_status.
  destruct (str_eqb (po_Status o) PayPaid) eqn:Hp.
  { injection H as <-. rewrite orb_true_r. simpl. split; [by apply Hsame | by exists o]. }
  simpl. destruct (str_eqb (qr_TradeState txn) TradeStateSuccess) eqn:Hs; simpl in H |- *.
  - destruct (txn_matches cfg txn (po_Offer o)); simpl in H |- *.
    + pose proof H as H2. apply settle_paid_balances in H2 as [_ Hbal]; [|done..]. split; [done|].
      apply settle_paid_find in H as (o' & Hf' & E1 & E2 & E3 & E4); [|done..].
      exists o'. split_and!; try done. intros. unfold Settle. rewrite tx_get_bind, Hf', E2. done.
    + change (of_OrderID (po_Offer o)) with (po_OrderID o) in H.
      apply UpdateStatusTx_find in H as (Hb & o' & E); [|done..]. split; [by apply Hsame | by exists o'].
  - destruct (str_eqb (po_Status o) PayClosed) eqn:Hcl; simpl in H |- *.
    { injection H as <-. split; [by apply Hsame | by exists o]. }
    destruct (str_eqb (po_Status o) PayExpired) eqn:Hex; simpl in H |- *.
    { injection H as <-. split; [by apply Hsame | by exists o]. }
    destruct (str_eqb (next_status o (qr_TradeState txn)) (po_Status o)) eqn:Hn.
    { injection H as <-. apply bool_decide_eq_true in Hn. split; [by apply Hsame | by exists o]. }
    change (of_OrderID (po_Offer o)) with (po_OrderID o) in H.
    apply UpdateStatusTx_find in H as (Hb & o' & E); [|done..]. split; [by apply Hsame | by exists o'].
Qed.

(** ** Withdrawals *)

Lemma CreateWithdrawal_run wid cid p db w db' :
  CreateWithdrawal wid cid p db = Ok (w, db') ->
  let tenant := TrimSpace (cw_TenantID p) in
  exists global fee ded pay bal d l, load_global db = Ok global /\ 0 < cw_AmountMicroUSD p /\
    (withdrawal_mode p = WithdrawalFeeFromBalance \/ withdrawal_mode p = WithdrawalFeeFromPayout) /\
    withdrawal_amounts (withdrawal_mode p) (cw_AmountMicroUSD p) (gs_TenantWithdrawFeeBp global) = Ok (fee, ded, pay) /\
    ChargeIfFunded (tenant_ref tenant) ded (pay_ledger db) = Ok (tt, l) /\
    pay_ledger d = l /\ pay_balances d !! tenant = Some bal /\ pay_ledger db' = l /\
    (wd_AmountMicroUSD w, wd_FeeAmountMicroUSD w, wd_PayoutAmountMicroUSD w, wd_TenantID w) = (ded, fee, pay, tenant) /\
    p_withdrawals db' = p_withdrawals db ++ [w] /\
    exists e, p_cash db' = p_cash db ++ [e] /\ ce_AmountMicroUSD e = - ded /\ ce_BalanceAfterMicroUSD e = bal /\
      ce_TenantID e = tenant /\ ce_RefID e = wd_WithdrawalID w.
Proof.
  intros H tenant. unfold CreateWithdrawal in H. fold tenant in H.
  apply tx_bind_ok in H as (? & ? & Hg & H). apply tx_guard_ok in Hg as [Hmode ->].
  apply tx_bind_ok in H as (? & ? & Hg & H). apply tx_guard_ok in Hg as [Hamt ->]. rewrite tx_get_bind in H.
  destruct (load_global db) as [g|] eqn:Hgl; [|done].
  destruct (withdrawal_amounts _ _ _) as [[[fee ded] pay]|] eqn:Hwa; [|done].
  apply tx_bind_ok in H as (b0 & d & Hb & H). unfold GetBalanceAccountForUpdate in Hb. rewrite tx_get_bind in Hb.
  destruct (bill_accounts _ !! _); [|done]. injection Hb as _ <-.
  apply tx_bind_ok in H as (? & ? & Hg & H). apply tx_guard_ok in Hg as [_ ->].
  apply tx_bind_ok in H as (? & d2 & Hd & H).
  destruct (DeductTenantBalanceTx _ _ db) as [[[] d3]|] eqn:Hded; [|done]. injection Hd as _ <-.
  apply on_pay_ledger_ok in Hded as (l & Hrun & ->).
  apply tx_bind_ok in H as (? & d4 & Hw & H). unfold InsertWithdrawalTx in Hw. rewrite tx_get_bind in Hw.
  apply tx_bind_ok in Hw as (? & ? & Hg & Hw). apply tx_guard_ok in Hg as [_ ->].
  apply tx_bind_ok in Hw as (? & ? & Hg & Hw). apply tx_guard_ok in Hg as [_ ->]. injection Hw as _ <-.
  apply tx_bind_ok in H as (bal & d5 & Hba & H). apply on_pay_ledger_ok in Hba as (l' & Hba & ->).
  apply Balance_ok in Hba as [-> Hba]. simpl in Hba.
  apply tx_bind_ok in H as (? & d6 & Hc & H). apply InsertCash_ok in Hc as [-> _]. injection H as <- <-.
  exists g, fee, ded, pay, bal, (set_billing (set_ledger l (billing_view db)) db), l.
  apply orb_false_iff in Hamt as [_ Hamt]. apply Z.leb_gt in Hamt.
  split; [done|]. split; [done|]. split.
  { unfold str_eqb in Hmode. destruct (decide (withdrawal_mode p = WithdrawalFeeFromBalance)); [by left|].
    right. rewrite bool_decide_false in Hmode by done. simpl in Hmode. by apply negb_false_iff, bool_decide_eq_true in Hmode. }
  split_and!; try done. by eexists.
Qed.

(** A withdrawal.  When it is recorded, the fee is the requested amount's
    share in basis points, rounded up; the balance is charged the amount plus the
    fee when the fee is paid on top and the amount when it is paid out of it, and
    in both cases exactly what is paid out plus the fee; the tenant had that much,
    no other balance moves, and the cash entry records the charge with the balance
    after it.  With a smaller balance the request is refused as unfunded. *)
Theorem CreateWithdrawal_correct wid cid p db w db' :
  ledger_ok (pay_ledger db) -> cw_AmountMicroUSD p <= int64_max ->
  CreateWithdrawal wid cid p db = Ok (w, db') ->
  let tenant := TrimSpace (cw_TenantID p) in
  exists global b e, load_global db = Ok global /\
    ceil_fee (cw_AmountMicroUSD p) (gs_TenantWithdrawFeeBp global) (wd_FeeAmountMicroUSD w) /\
    wd_AmountMicroUSD w = wd_PayoutAmountMicroUSD w + wd_FeeAmountMicroUSD w /\
    (if str_eqb (withdrawal_mode p) WithdrawalFeeFromPayout
     then wd_PayoutAmountMicroUSD w = cw_AmountMicroUSD p else wd_AmountMicroUSD w = cw_AmountMicroUSD p) /\
    pay_balances db !! tenant = Some b /\ 0 < wd_AmountMicroUSD w <= b /\
    pay_balances db' = <[tenant := b - wd_AmountMicroUSD w]> (pay_balances db) /\ ledger_ok (pay_ledger db') /\
    p_withdrawals db' = p_withdrawals db ++ [w] /\ p_cash db' = p_cash db ++ [e] /\
    ce_AmountMicroUSD e = - wd_AmountMicroUSD w /\ ce_BalanceAfterMicroUSD e = b - wd_AmountMicroUSD w /\
    ce_RefID e = wd_WithdrawalID w /\
    (forall db2, p_settings db2 = p_settings db ->
       (exists b2, pay_balances db2 !! tenant = Some b2 /\ b2 < wd_AmountMicroUSD w) ->
       CreateWithdrawal wid cid p db2 = Err ErrCashInsufficientBalance).
Proof.
  intros Hok Hmax H tenant. pose proof H as H0. apply CreateWithdrawal_run in H
    as (g & fee & ded & pay & bal & d & l & Hg & Hpos & Hmode & Hwa & Hrun & Hd & Hbal & Hl & Hw & Hws & e & Hc & Ea & Eb & _ & Er).
  fold tenant in Hrun, Hbal, Hw. injection Hw as E1 E2 E3 E4.
  assert (Hamounts : ceil_fee (cw_AmountMicroUSD p) (gs_TenantWithdrawFeeBp g) fee /\ ded = pay + fee /\ 0 < ded /\
    (if str_eqb (withdrawal_mode p) WithdrawalFeeFromPayout then pay = cw_AmountMicroUSD p else ded = cw_AmountMicroUSD p)).
  { unfold withdrawal_amounts in Hwa. destruct (ApplyBasisPointsCeil _ _) as [f|] eqn:Hfee; [|done].
    apply ApplyBasisPointsCeil_inv in Hfee; [|done]. pose proof Hfee as [Hr _].
    destruct (str_eqb _ _); [destruct (_ <? _); [done|]|]; injection Hwa as <- <- <-; split; try done; lia. }
  destruct Hamounts as (Hfee & Hsum & Hded & Hwhich).
  pose proof (ChargeIfFunded_refines_spec (pay_ledger db) (tenant_ref tenant) ded Hok) as Hspec.
  rewrite Hrun in Hspec. simpl in Hspec. unfold spec_charge_if_funded in Hspec.
  rewrite (proj2 (Z.ltb_ge ded 0)), (proj2 (Z.eqb_neq ded 0)) in Hspec by lia.
  destruct (bool_decide (tenant = "")); [done|].
  fold (pay_balances db) in Hspec. destruct (pay_balances db !! tenant) as [b|] eqn:Hb; [|done].
  destruct (Z.leb_spec ded b); [|done]. injection Hspec as Hspec.
  assert (bal = b - ded) as ->.
  { unfold pay_balances in Hbal. rewrite Hd, Hspec, lookup_insert in Hbal. rewrite decide_True in Hbal by done. congruence. }
  assert (Hb' : pay_balances db' = <[tenant := b - ded]> (pay_balances db)) by (unfold pay_balances at 1; by rewrite Hl).
  exists g, b, e. rewrite E1, E2, E3, Hb', Hl.
  split_and!; try done; [by eapply ChargeIfFunded_ok|].
  intros db2 Hset (b2 & Hb2 & Hlt). unfold CreateWithdrawal in H0 |- *.
  apply tx_bind_ok in H0 as (? & ? & Hgd & H0). apply tx_guard_ok in Hgd as [Hm ->].
  apply tx_bind_ok in H0 as (? & ? & Hgd & H0). apply tx_guard_ok in Hgd as [Ht ->].
  rewrite tx_guard_pass by exact Hm. rewrite tx_guard_pass by exact Ht. rewrite tx_get_bind.
  replace (load_global db2) with (Ok (E := pay_error) g) by (unfold load_global in *; by rewrite Hset).
  cbv zeta. rewrite Hwa. unfold pay_balances in Hb2. rewrite balances_of_lookup in Hb2. unfold pay_ledger in Hb2.
  assert (Hget : GetBalanceAccountForUpdate tenant db2 = Ok (b2, db2)).
  { unfold GetBalanceAccountForUpdate. rewrite tx_get_bind.
    destruct (bill_accounts (b_ledger (p_billing db2)) !! tenant); [|done]. by injection Hb2 as <-. }
  unfold tx_bind at 1. fold tenant. rewrite Hget. apply tx_guard_stop. lia.
Qed.

(** ** Refunds *)

Lemma lockAccounts_ok ids db u db' : lockAccounts ids db = Ok (u, db') -> db' = db.
Proof.
  unfold lockAccounts. revert u. induction ids as [|id ids IH]; intros u H; simpl in H; [by injection H as _ <-|].
  apply tx_bind_ok in H as (? & d & Hg & H). rewrite tx_get_bind in Hg. destruct (bill_accounts db !! id); [|done].
  injection Hg as _ <-. by eapply IH.
Qed.

Lemma lockAccounts_found ids db u db' :
  lockAccounts ids db = Ok (u, db') -> forall id, id ∈ ids -> exists a, bill_accounts db !! id = Some a.
Proof.
  unfold lockAccounts. revert u. induction ids as [|k ids IH]; intros u H id Hin; [by apply not_elem_of_nil in Hin|].
  simpl in H. apply tx_bind_ok in H as (? & d & Hg & H). rewrite tx_get_bind in Hg.
  destruct (bill_accounts db !! k) as [a|] eqn:Ha; [|done]. injection Hg as _ <-.
  apply elem_of_cons in Hin as [-> | Hin]; [by exists a | by eapply IH].
Qed.

(** What a committed reversal did to the balances, from any ledger. *)
Lemma ReverseGrantForRefund_balances now acct order credit db r db' :
  ReverseGrantForRefund now acct order credit db = Ok (r, db') ->
  exists b, balances_of db !! acct = Some b /\
    balances_of db' = <[acct := b - AccountDebitMicro r]> (balances_of db) /\
    BalanceAfterMicro r = b - AccountDebitMicro r.
Proof.
  unfold ReverseGrantForRefund. destruct (_ || _); [done|]. intros H.
  apply tx_bind_ok in H as (? & d & Hl & H). pose proof (lockAccounts_found _ _ _ _ Hl acct) as [a Ha];
    [apply list_elem_of_here|]. apply lockAccounts_ok in Hl as ->. rewrite tx_get_bind in H.
  cbv zeta in H. destruct (refund_lots _ _ _) as [acc|]; [|done]. destruct (credit <? _); [done|].
  destruct (negb _); [done|]. apply tx_bind_ok in H as (n & d & Hu & H).
  apply (update_balance_ok _ _ _ _ _ _ a) in Hu as (_ & Hrange & ->); [|done..]. rewrite tx_get_bind in H.
  simpl in H. rewrite lookup_insert, decide_True in H by done.
  apply tx_bind_ok in H as (? & d & Hu & H). injection H as <- <-. injection Hu as _ <-.
  exists (balance_micro a). simpl. rewrite balances_of_lookup, Ha, <- Z.add_opp_r. split; [done|]. split; [|done].
  by eapply balances_of_set.
Qed.

(** The debit of an effect on an account. *)
Definition effect_debit (id : string) (e : RefundReversalEffect) : Z :=
  if str_eqb id (re_AccountID e) then re_AccountDebitMicroUSD e else 0.
(** An effect row of a grant: its parts add up to the grant's credit. *)
Definition effect_of (refundID : string) (g : recharge_order) (e : RefundReversalEffect) : Prop :=
  re_RefundID e = refundID /\ re_RechargeOrderID e = ro_order_id g /\ re_AccountID e = grant_account g /\
  re_CreditAmountMicroUSD e = ro_credit_amount g /\ effect_row_ok e = true.
Definition debited (db db' : pay_db) (effects : list RefundReversalEffect) : Prop :=
  forall id, pay_balances db' !! id = (fun b => b - sumZ (effect_debit id) effects) <$> pay_balances db !! id.

Lemma refund_grant_money t now ids p refundID g db r db' :
  refund_grant t now ids p refundID g db = Ok (r, db') ->
  exists e, p_effects db' = p_effects db ++ [e] /\ effect_of refundID g e /\ debited db db' [e].
Proof.
  unfold refund_grant. intros H.
  apply tx_bind_ok in H as (e0 & d1 & Hl & H). unfold on_refund_ledger in Hl. apply tx_zoom_ok in Hl as (l & Hl & ->).
  unfold tx_map_err in Hl. destruct (ReverseGrantForRefund _ _ _ _ _) as [[e1 l1]|] eqn:Hrun; [|done]. injection Hl as -> ->.
  apply ReverseGrantForRefund_balances in Hrun as (b & Hb & Hb' & _).
  apply tx_bind_ok in H as (? & d2 & Hm & H). unfold reverse_grant_row in Hm. rewrite tx_get_bind in Hm.
  apply tx_bind_ok in Hm as (? & ? & Hg & Hm). apply tx_guard_ok in Hg as [_ ->]. injection Hm as _ <-.
  apply tx_bind_ok in H as (? & d3 & He & H). unfold InsertRefundReversalEffectTx in He. rewrite tx_get_bind in He.
  apply tx_bind_ok in He as (? & ? & Hg & He). apply tx_guard_ok in Hg as [Hg ->]. injection He as _ <-.
  apply orb_false_iff in Hg as [Hg _]. apply orb_false_iff in Hg as [Hg%negb_false_iff _].
  apply tx_bind_ok in H as (? & d4 & Hc & H). injection H as <- <-.
  match goal with H : effect_row_ok ?e = true |- _ => exists e end.
  match type of Hc with ?m ?d3 = _ =>
    assert (Hd4 : p_effects d4 = p_effects d3 /\ pay_ledger d4 = pay_ledger d3);
    [destruct (str_eqb _ _) in Hc; [by apply InsertCash_ok in Hc as [-> _] | by injection Hc as _ <-]|] end.
  destruct Hd4 as [-> Hl4]. split; [done|]. split; [done|]. intros id. unfold pay_balances. rewrite Hl4. simpl.
  unfold pay_ledger. simpl. rewrite Hb', lookup_insert. unfold effect_debit, str_eqb. simpl.
  case_decide as Hid.
  - subst id. by rewrite Hb, bool_decide_true, Z.add_0_r by done.
  - rewrite bool_decide_false by congruence. destruct (_ !! id); simpl; f_equal; lia.
Qed.

Lemma debited_trans d1 d2 d3 es es' : debited d1 d2 es -> debited d2 d3 es' -> debited d1 d3 (es ++ es').
Proof.
  intros H1 H2 id. rewrite H2, H1, sumZ_app. destruct (pay_balances d1 !! id); simpl; f_equal; lia.
Qed.

Lemma refund_fold_money t now ids p refundID grants : forall acc db rs db',
  tx_fold (fun acc g => let! e := refund_grant t now ids p refundID g in tx_ret (acc ++ [e])) grants acc db
    = Ok (rs, db') ->
  exists effects, p_effects db' = p_effects db ++ effects /\ Forall2 (effect_of refundID) grants effects /\
    debited db db' effects.
Proof.
  induction grants as [|g grants IH]; intros acc db rs db' H; cbn [tx_fold] in H.
  - injection H as _ <-. exists []. rewrite app_nil_r. split; [done|]. split; [constructor|].
    intros id. simpl. destruct (_ !! id); simpl; f_equal; lia.
  - apply tx_bind_ok in H as (acc' & d1 & Hg & H). apply tx_bind_ok in Hg as (e & d2 & Hg & Hr). injection Hr as _ <-.
    apply refund_grant_money in Hg as (x & E1 & E2 & E3). apply IH in H as (es & F1 & F2 & F3).
    exists (x :: es). rewrite F1, E1, <- app_assoc. split; [done|]. split; [by constructor|].
    by apply (debited_trans _ d2 _ [x] es).
Qed.

(** What [RecordCompletedRefund] checks before it applies a refund. *)
Definition refundable (p : RecordCompletedRefundParams) (o : pay_order) : Prop :=
  po_Status o = PayPaid /\ po_FulfillmentStatus o = FulfillmentStatusCredited /\ po_RefundStatus o = RefundStatusNone /\
  exists t, po_PaidAt o = Some t /\ t <= rp_RefundedAt p.

Lemma RecordCompletedRefund_run le clock t now ids p db r db' o :
  find_key po_OrderID (TrimSpace (rp_PaymentOrderID p)) (p_orders db) = Some o ->
  RecordCompletedRefund le clock t now ids p db = Ok (r, db') ->
  match find_key rf_PaymentOrderID (po_OrderID o) (p_refunds db) with
  | Some ex => r = ex /\ db' = db /\ same_refund ex (trim_refund p) = true
  | None => refundable (trim_refund p) o /\ apply_refund le t now ids (trim_refund p) o db = Ok (r, db')
  end.
Proof.
  intros Hf H. unfold RecordCompletedRefund in H.
  apply tx_bind_ok in H as (? & ? & Hg & H). apply tx_guard_ok in Hg as [_ ->]. rewrite tx_get_bind in H.
  change (rp_PaymentOrderID (trim_refund p)) with (TrimSpace (rp_PaymentOrderID p)) in H. rewrite Hf in H.
  destruct (find_key rf_PaymentOrderID _ _) as [ex|].
  - destruct (same_refund _ _) eqn:Hs; [by injection H as <- <- | done].
  - apply tx_bind_ok in H as (? & ? & Hg & H). apply tx_guard_ok in Hg as [Hs ->].
    apply tx_bind_ok in H as (? & ? & Hg & H). apply tx_guard_ok in Hg as [Ht ->]. split; [|done].
    unfold has_status, str_eqb in Hs. bool_prop. unfold refundable. destruct (po_PaidAt o) as [tp|]; [|done].
    split_and!; try done. exists tp. split; [done | by apply Z.ltb_ge in Ht].
Qed.

Lemma RecordCompletedRefund_again le clock t now ids p db o x :
  find_key po_OrderID (TrimSpace (rp_PaymentOrderID p)) (p_orders db) = Some o ->
  find_key rf_PaymentOrderID (po_OrderID o) (p_refunds db) = Some x ->
  RecordCompletedRefund le clock t now ids p db =
    if refund_params_bad clock (trim_refund p) then Err ErrPayBadRequest
    else if same_refund x (trim_refund p) then Ok (x, db) else Err ErrPaymentAlreadyRefunded.
Proof.
  intros Hf Hx. unfold RecordCompletedRefund. destruct (refund_params_bad _ _) eqn:Hb.
  - by rewrite tx_guard_stop.
  - rewrite tx_guard_pass, tx_get_bind by done. change (rp_PaymentOrderID (trim_refund p)) with (TrimSpace (rp_PaymentOrderID p)).
    rewrite Hf, Hx. by destruct (same_refund _ _).
Qed.

(** C36: a completed refund.  The first one that is recorded for an order finds it
    paid, credited, not refunded and paid before the refund; it reverses exactly
    the grants of the order, one effect each whose reclaimed, charged and expired
    parts add up to the grant's credit, debits exactly those effects from their
    accounts and no other balance, and marks the order.  Recording it again with
    the same method and references returns the stored refund and changes nothing;
    with others it is refused. *)
Theorem RecordCompletedRefund_correct le clock t now ids p db r db' o :
  pay_ok db -> find_key po_OrderID (TrimSpace (rp_PaymentOrderID p)) (p_orders db) = Some o ->
  (forall x, x ∈ p_refunds db -> rf_PaymentOrderID x <> po_OrderID o) ->
  RecordCompletedRefund le clock t now ids p db = Ok (r, db') ->
  refundable (trim_refund p) o /\ p_refunds db' = p_refunds db ++ [r] /\
  rf_RefundAmountMinor r = of_PaymentAmountMinor (po_Offer o) /\
  (exists o', find_key po_OrderID (po_OrderID o) (p_orders db') = Some o' /\ po_Offer o' = po_Offer o /\
     po_RefundStatus o' = RefundStatusRefunded /\ po_FulfillmentStatus o' = FulfillmentStatusReversed) /\
  (exists grants effects, grants ≡ₚ links_of (po_OrderID o) (b_orders (p_billing db)) /\
     p_effects db' = p_effects db ++ effects /\ Forall2 (effect_of (rf_RefundID r)) grants effects /\
     debited db db' effects) /\
  forall le2 clock2 t2 now2 ids2 p2, TrimSpace (rp_PaymentOrderID p2) = po_OrderID o ->
    refund_params_bad clock2 (trim_refund p2) = false ->
    RecordCompletedRefund le2 clock2 t2 now2 ids2 p2 db' =
      if same_refund r (trim_refund p2) then Ok (r, db') else Err ErrPaymentAlreadyRefunded.
Proof.
  intros Hok Hf Hno H. pose proof (RecordCompletedRefund_run _ _ _ _ _ _ _ _ _ _ Hf H) as Hrun.
  assert (Hnone : find_key rf_PaymentOrderID (po_OrderID o) (p_refunds db) = None).
  { destruct (find_key rf_PaymentOrderID _ _) as [ex|] eqn:He; [|done].
    apply find_key_Some in He as [Hin Hk]. by destruct (Hno ex Hin). }
  rewrite Hnone in Hrun. destruct Hrun as [Hcan Hrun]. pose proof (find_key_Some _ _ _ _ Hf) as [Hin Hid].
  apply apply_refund_run in Hrun as (rs & d2 & a & Hr & _ & _ & Hfold & _ & ->); [|apply Hok | done].
  assert (Hk : forall x, x = r -> rf_PaymentOrderID x = po_OrderID o) by (intros x ->; by rewrite Hr).
  pose proof (refund_fold_shape _ _ _ _ _ _ _ _ _ _ Hfold) as (_ & E2 & _). simpl in E2.
  apply refund_fold_money in Hfold as (effects & F1 & F2 & F3). simpl in F1.
  assert (Hfind : find_key po_OrderID (po_OrderID o) (update_where (has_key po_OrderID (po_OrderID o))
                    (with_refunded now) (p_orders db)) = Some (with_refunded now o)).
  { rewrite find_key_update by done. rewrite (find_key_elem po_OrderID); [done | apply Hok | done]. }
  split; [done|]. split; [done|]. split; [by rewrite Hr|]. split; [by eexists|]. split.
  - eexists _, effects. split; [|split; [exact F1 | split; [exact F2 | exact F3]]].
    unfold loadRechargeGrantsForRefund. apply order_by_Permutation.
  - intros le2 clock2 t2 now2 ids2 p2 Hid2 Hbad.
    rewrite (RecordCompletedRefund_again _ _ _ _ _ _ _ (with_refunded now o) r); [by rewrite Hbad| by rewrite Hid2 |].
    simpl. rewrite E2, find_key_app. change (po_OrderID (with_refunded now o)) with (po_OrderID o). rewrite Hnone.
    unfold find_key. simpl. unfold has_key. by rewrite (Hk r eq_refl), bool_decide_true.
Qed.

(** Runs the loop of [validateRefundGrants] on known grants. *)
Ltac refund_loop P3 Hinc :=
  cbn [length refund_grants_loop]; rewrite <- ?P3, <- ?Hinc; unfold str_eqb; cbn [default from_option id];
  repeat first [rewrite bool_decide_true by congruence | rewrite bool_decide_false by congruence
               | progress cbn [negb andb orb]];
  repeat match goal with |- context [?a =? ?b] =>
    replace (a =? b) with true by (symmetry; apply Z.eqb_eq; first [reflexivity | congruence]) end;
  reflexivity.

(** The consistency check of a refund never stands in the way.  For every paid
    order of the system that is not refunded, and whose offer promises a tenant's
    income only on a user's top-up as [CreateTopupOrder] writes it, the grants a
    refund loads, in whatever order the database sorts text, are exactly those the
    check of [validateRefundGrants] asks for. *)
Theorem refund_check_accepts db0 db o le :
  no_payments db0 -> rtc pay_step db0 db -> o ∈ p_orders db -> po_Status o = PayPaid ->
  po_RefundStatus o = RefundStatusNone ->
  (of_Scene (po_Offer o) = SceneUserTopup \/ of_TenantIncomeMicroUSD (po_Offer o) = 0) ->
  validateRefundGrants o (loadRechargeGrantsForRefund le (po_OrderID o) (default ""%string (po_BalanceOrderID o)) db)
    = true.
Proof.
  intros H0 Hrun Ho Hp Hn Hfair. destruct (pay_steps_ok _ _ Hrun (no_payments_ok _ H0)) as [Hok _].
  destruct (pk_rows _ Hok o Ho) as [_ P2 P3 _ _]. assert (Hpd : is_paid o = true) by (by apply bool_decide_eq_true).
  specialize (P3 Hpd). unfold expected_links, link_status in P2. rewrite Hpd, Hn in P2.
  change (str_eqb RefundStatusNone RefundStatusNone) with true in P2. cbv beta iota in P2.
  unfold loadRechargeGrantsForRefund. set (leb := grants_leb _ _).
  assert (Hnd : NoDup (ro_order_id <$> links_of (po_OrderID o) (b_orders (p_billing db))))
    by (apply NoDup_filter_rows, Hok).
  assert (Hinc : has_income (po_Offer o) = (0 <? of_TenantIncomeMicroUSD (po_Offer o))).
  { unfold has_income, str_eqb. destruct Hfair as [-> | ->]; [by rewrite bool_decide_true | by rewrite andb_false_r]. }
  pose proof (order_by_Permutation leb (links_of (po_OrderID o) (b_orders (p_billing db)))) as Hperm.
  destruct (links_of (po_OrderID o) _) as [|g rest]; [done|]. cbn [fmap list_fmap] in P2. injection P2 as Ety Et Eu Ec Est Er.
  simpl in P3. unfold validateRefundGrants. rewrite <- Hinc. symmetry in Hperm.
  destruct (has_income (po_Offer o)).
  - destruct rest as [|i [|]]; [discriminate Er | | discriminate Er]. cbn [fmap list_fmap] in Er. injection Er as Ity It Iu Ic Ist.
    cbn [fmap list_fmap] in Hnd. apply NoDup_cons in Hnd as [Hne _]. rewrite list_elem_of_singleton in Hne.
    apply Permutation_length_2_inv in Hperm as [-> | ->]; refund_loop P3 Hinc.
  - destruct rest; [|discriminate Er]. apply Permutation_length_1_inv in Hperm as ->. refund_loop P3 Hinc.
Qed.

(** ** The sweep's delays and the clean-up *)

(** The sweep backs off exponentially.  The delay after the n-th failure is a
    minute doubled n - 1 times, never more than an hour, and a zero or negative
    count is taken as the first failure; the loop never needs more than eight
    rounds. *)
Theorem sweepFailureRetryDelay_closed attempt :
  let delay := Z.min (sweepFailureRetryBase * 2 ^ (Z.max 1 attempt - 1)) sweepFailureRetryMax in
  sweepFailureRetryDelay attempt = delay /\
  forall fuel, (8 <= fuel)%nat -> retry_delay_loop fuel 1 (Z.max 1 attempt) sweepFailureRetryBase = delay.
Proof.
  set (n := Z.max 1 attempt).
  assert (Hloop : forall fuel, (8 <= fuel)%nat -> retry_delay_loop fuel 1 n sweepFailureRetryBase =
    Z.min (sweepFailureRetryBase * 2 ^ (n - 1)) sweepFailureRetryMax).
  { intros fuel Hf. destruct (Nat.le_exists_sub 8 fuel Hf) as (k & -> & _). rewrite Nat.add_comm.
    assert (Hn : n = 1 \/ n = 2 \/ n = 3 \/ n = 4 \/ n = 5 \/ n = 6 \/ 7 <= n) by lia.
    destruct Hn as [-> | [-> | [-> | [-> | [-> | [-> | Hn]]]]]]; [reflexivity..|].
    assert (Hlt : forall i, i <= 6 -> (i <? n) = true) by (intros; apply Z.ltb_lt; lia).
    cbn [Nat.add retry_delay_loop]. rewrite !Hlt by done. cbn [andb].
    assert (Hp : 2 ^ 6 <= 2 ^ (n - 1)) by (apply Z.pow_le_mono_r; lia).
    rewrite Z.min_r; [reflexivity|]. change (2 ^ 6) with 64 in Hp.
    change sweepFailureRetryMax with (60 * sweepFailureRetryBase).
    assert (0 < sweepFailureRetryBase) by (vm_compute; done). nia. }
  split; [|exact Hloop]. unfold sweepFailureRetryDelay. cbv zeta.
  replace (if attempt <? 1 then 1 else attempt) with n; [apply Hloop; lia|].
  unfold n. destruct (Z.ltb_spec attempt 1); lia.
Qed.

(** The orders a clean-up with this cutoff takes. *)
Definition doomed (skip : string -> bool) (cutoff : Z) (db : pay_db) (o : pay_order) : bool :=
  stale cutoff db o && negb (skip (po_OrderID o)).
Definition cleaned (skip : string -> bool) (cutoff : Z) (db : pay_db) : pay_db :=
  set_pay_orders (List.filter (fun o => negb (doomed skip cutoff db o)) (p_orders db)) db.

Lemma cleanup_round skip cutoff db :
  NoDup (po_OrderID <$> p_orders db) ->
  exists gone, DeleteStaleClosedOrders skip cutoff closedOrderCleanupBatch db =
      Ok (Z.of_nat (length gone), set_pay_orders
        (List.filter (fun o => negb (bool_decide (po_OrderID o ∈ po_OrderID <$> gone))) (p_orders db)) db) /\
    NoDup (po_OrderID <$> gone) /\ (forall x, x ∈ gone -> x ∈ p_orders db /\ doomed skip cutoff db x = true) /\
    Z.of_nat (length gone) =
      Z.min closedOrderCleanupBatch (Z.of_nat (length (List.filter (doomed skip cutoff db) (p_orders db)))).
Proof.
  intros Hnd. set (l := List.filter (doomed skip cutoff db) (p_orders db)).
  exists (take (Z.to_nat closedOrderCleanupBatch) (order_by updated_leb l)). split; [reflexivity|].
  assert (Hp : order_by updated_leb l ≡ₚ l) by apply order_by_Permutation. split; [|split].
  - assert (Hl : NoDup (po_OrderID <$> order_by updated_leb l)) by (rewrite Hp; by apply NoDup_filter_rows).
    rewrite <- (take_drop (Z.to_nat closedOrderCleanupBatch) (order_by updated_leb l)), fmap_app in Hl.
    by apply NoDup_app in Hl as [Hl _].
  - intros x (i & Hx%list_elem_of_lookup_2 & _)%elem_of_take. rewrite elem_of_order_by in Hx. by apply elem_of_filter_rows in Hx as [Hx1 Hx2].
  - rewrite length_take, (Permutation_length Hp). unfold closedOrderCleanupBatch. lia.
Qed.

Lemma cleanup_loop_run skip cutoff fuel : forall total db,
  NoDup (po_OrderID <$> p_orders db) -> (length (p_orders db) < fuel)%nat ->
  cleanup_loop fuel skip cutoff total db =
    (cleaned skip cutoff db, total + Z.of_nat (length (List.filter (doomed skip cutoff db) (p_orders db)))).
Proof.
  induction fuel as [|fuel IH]; intros total db Hnd Hf; [lia|]. cbn [cleanup_loop].
  destruct (cleanup_round skip cutoff db Hnd) as (gone & Hrun & Hgn & Hg & Hlen). unfold run_tx. rewrite Hrun.
  destruct (filter_remove po_OrderID (doomed skip cutoff db) _ _ Hnd Hgn Hg) as [Hrest Hcount].
  set (kept := List.filter _ (p_orders db)) in *. unfold cleaned.
  pose proof (List.filter_length (doomed skip cutoff db) kept) as Hk.
  pose proof (List.filter_length (doomed skip cutoff db) (p_orders db)) as Hall.
  destruct (Z.ltb_spec (Z.of_nat (length gone)) closedOrderCleanupBatch).
  - assert (Hnil : length (List.filter (doomed skip cutoff db) kept) = 0%nat) by lia.
    rewrite <- Hrest. f_equal; [|f_equal; lia]. f_equal. symmetry. apply List.forallb_filter_id, List.forallb_forall.
    intros x Hx%list_elem_of_In. destruct (doomed skip cutoff db x) eqn:Hd; [|done]. exfalso.
    apply List.length_zero_iff_nil in Hnil. assert (Hin : x ∈ List.filter (doomed skip cutoff db) kept)
      by (by apply elem_of_filter_rows). rewrite Hnil in Hin. by apply not_elem_of_nil in Hin.
  - rewrite IH.
    + change (p_orders (set_pay_orders kept db)) with kept. unfold cleaned.
      change (doomed skip cutoff (set_pay_orders kept db)) with (doomed skip cutoff db).
      change (p_orders (set_pay_orders kept db)) with kept. rewrite Hrest. f_equal. lia.
    + by apply NoDup_filter_rows.
    + simpl. rewrite Hrest in Hk. unfold closedOrderCleanupBatch in *. lia.
Qed.

(** The clean-up terminates and is exact.  Its batches remove, from any table,
    exactly the orders that were closed unpaid for longer than the retention, have
    no payment, grant or refund and are not locked by others, in place and without
    touching anything else, and it reports how many; more rounds than there are
    orders are never needed. *)
Theorem CleanupClosedOrders_exact skip now db :
  NoDup (po_OrderID <$> p_orders db) ->
  let cutoff := now - ClosedOrderRetention in
  let removed := Z.of_nat (length (List.filter (doomed skip cutoff db) (p_orders db))) in
  CleanupClosedOrders skip now db = (cleaned skip cutoff db, removed) /\
  forall fuel, (length (p_orders db) < fuel)%nat ->
    cleanup_loop fuel skip cutoff 0 db = (cleaned skip cutoff db, removed).
Proof.
  intros Hnd cutoff removed. unfold CleanupClosedOrders. fold cutoff.
  split; [|intros fuel Hf]; rewrite cleanup_loop_run; try done; lia.
Qed.

(** ** Witnesses *)

Lemma demo_accounts_ok : ledger_ok demo_accounts.
Proof.
  eapply (ledger_step_ok (state_of (EnsureAccount user_ref empty_ledger))).
  { apply (step_ensure (MkRef KindTenant "T" "T")). vm_compute. reflexivity. }
  eapply (ledger_step_ok empty_ledger); [|apply empty_ledger_ok]. apply (step_ensure user_ref). vm_compute. reflexivity.
Qed.
Lemma demo_unpaid_ledger : pay_ledger demo_unpaid = demo_accounts.
Proof. vm_compute. reflexivity. Qed.
Lemma demo_unpaid_range : no_min_balance (pay_balances demo_unpaid).
Proof.
  intros id H. assert (Hall : map_Forall (fun _ b => b <> int64_min) (pay_balances demo_unpaid))
    by (apply (bool_decide_unpack _); vm_compute; done).
  by apply (Hall id int64_min H).
Qed.
Lemma demo_unpaid_ok : pay_ok demo_unpaid.
Proof. by apply (pay_steps_ok demo_pay demo_unpaid demo_unpaid_steps), no_payments_ok. Qed.
Lemma demo_paid_ok : pay_ok demo_paid.
Proof. by apply (pay_steps_ok demo_pay demo_paid demo_paid_steps), no_payments_ok. Qed.

Definition demo_run (db : pay_db) :=
  Settle (fun _ => "mismatch"%string) 2000 2000 demo_ids demo_merchant "N1" demo_answer db.

(** The user gets 9.84 dollars, the tenant 10. *)
Lemma Settle_correct_witness :
  demo_run demo_unpaid = Ok (tt, demo_paid) /\
  pay_balances demo_paid !! "U"%string = Some 9840000 /\ pay_balances demo_paid !! "T"%string = Some 10000000 /\
  demo_run demo_paid = Ok (tt, demo_paid).
Proof.
  assert (Hrun : demo_run demo_unpaid = Ok (tt, demo_paid)) by (vm_compute; reflexivity).
  assert (Hacc : accepted demo_merchant demo_answer (demo_order_of demo_unpaid) = true) by (vm_compute; reflexivity).
  destruct (Settle_correct (fun _ => "mismatch"%string) 2000 2000 demo_ids demo_merchant "N1" demo_answer
    demo_unpaid (demo_order_of demo_unpaid) demo_paid demo_unpaid_ok
    (eq_ind_r ledger_ok demo_accounts_ok demo_unpaid_ledger) demo_unpaid_range) as (Hb & o' & _ & _ & Hp);
    [vm_compute; reflexivity | vm_compute; discriminate | vm_compute; discriminate | exact Hrun |].
  rewrite Hacc in Hp, Hb. destruct Hp as (_ & _ & _ & Hagain).
  split; [exact Hrun|]. split; [rewrite Hb; vm_compute; reflexivity|].
  split; [rewrite Hb; vm_compute; reflexivity | apply Hagain].
Defined.

(** The tenant withdraws 5 dollars with the default fee on top. *)
Definition demo_withdrawal : CreateWithdrawalParams :=
  MkWithdrawalParams " T " 5000000 WithdrawalFeeFromPayout "name" "bank" "no" "" "op" "ref".
Definition demo_withdrawn : result pay_error (Withdrawal * pay_db) := CreateWithdrawal uuid_b uuid_b demo_withdrawal demo_paid.
Lemma demo_paid_ledger_ok : ledger_ok (pay_ledger demo_paid).
Proof.
  apply (settle_paid_balances 2000 2000 demo_ids (demo_order_of demo_unpaid) demo_answer demo_unpaid tt demo_paid
    demo_unpaid_ok (eq_ind_r ledger_ok demo_accounts_ok demo_unpaid_ledger)); try (vm_compute; (reflexivity || discriminate)).
  - vm_compute. apply list_elem_of_here.
  - apply demo_unpaid_range.
Qed.

Lemma CreateWithdrawal_correct_witness :
  exists w db', demo_withdrawn = Ok (w, db') /\
    wd_PayoutAmountMicroUSD w = 5000000 /\ wd_AmountMicroUSD w = wd_PayoutAmountMicroUSD w + wd_FeeAmountMicroUSD w /\
    exists b, pay_balances demo_paid !! "T"%string = Some b /\
      pay_balances db' = <["T"%string := b - wd_AmountMicroUSD w]> (pay_balances demo_paid).
Proof.
  destruct demo_withdrawn as [[w db']|e] eqn:H; [|vm_compute in H; discriminate H].
  exists w, db'. split; [reflexivity|].
  destruct (CreateWithdrawal_correct uuid_b uuid_b demo_withdrawal demo_paid w db' demo_paid_ledger_ok)
    as (g & b & e & _ & _ & Hsum & Hp & Hb & _ & Hb' & _); [vm_compute; discriminate | exact H|].
  split; [exact Hp|]. split; [exact Hsum|]. exists b. split; [exact Hb | exact Hb'].
Defined.

Lemma RecordCompletedRefund_correct_witness :
  exists r, RecordCompletedRefund String.leb 4000 4000 4000 demo_refund_ids demo_refund_params demo_paid
      = Ok (r, demo_refund.1) /\ rf_RefundAmountMinor r = 1000 /\
    RecordCompletedRefund String.leb 5000 5000 5000 demo_refund_ids demo_refund_params demo_refund.1
      = Ok (r, demo_refund.1).
Proof.
  destruct (RecordCompletedRefund String.leb 4000 4000 4000 demo_refund_ids demo_refund_params demo_paid)
    as [[r db']|e] eqn:H; [|vm_compute in H; discriminate H].
  assert (Hdb : demo_refund.1 = db') by (unfold demo_refund, run_tx; by rewrite H). rewrite Hdb.
  exists r. split; [reflexivity|].
  destruct (RecordCompletedRefund_correct String.leb 4000 4000 4000 demo_refund_ids demo_refund_params demo_paid r db'
    (demo_order_of demo_paid) demo_paid_ok) as (_ & _ & Ha & _ & _ & Hagain).
  - vm_compute. reflexivity.
  - assert (Hnil : p_refunds demo_paid = []) by (vm_compute; reflexivity). rewrite Hnil.
    intros x Hx. destruct (not_elem_of_nil x Hx).
  - exact H.
  - split; [rewrite Ha; vm_compute; reflexivity|].
    rewrite (Hagain String.leb 5000 5000 5000 demo_refund_ids demo_refund_params); [|vm_compute; reflexivity..].
    vm_compute in H. injection H as <- _. vm_compute. reflexivity.
Defined.

Lemma refund_check_accepts_witness :
  validateRefundGrants (demo_order_of demo_paid)
    (loadRechargeGrantsForRefund String.leb "PAY_aaaaaaaa-aaaa-4aaa-8aaa-" "ORD_aaaaaaaa-aaaa-4aaa-8aaa-" demo_paid) = true.
Proof.
  apply (refund_check_accepts demo_pay demo_paid (demo_order_of demo_paid) String.leb demo_no_payments demo_paid_steps
    demo_paid_order); [vm_compute; reflexivity | vm_compute; reflexivity | left; vm_compute; reflexivity].
Defined.

(** The order expired, was closed and is old. *)
Definition demo_closed : pay_db :=
  (run_tx (UpdateStatusIfCurrent 3000 "PAY_aaaaaaaa-aaaa-4aaa-8aaa-" PayCreated PayClosed "") demo_unpaid).1.
Lemma CleanupClosedOrders_exact_witness :
  CleanupClosedOrders (fun _ => false) (ClosedOrderRetention + 4000) demo_closed
    = (cleaned (fun _ => false) 4000 demo_closed, 1) /\ p_orders (cleaned (fun _ => false) 4000 demo_closed) = [].
Proof.
  destruct (CleanupClosedOrders_exact (fun _ => false) (ClosedOrderRetention + 4000) demo_closed) as [H _].
  - apply (bool_decide_unpack _). vm_compute. exact I.
  - split; [exact H | vm_compute; reflexivity].
Defined.

Lemma sweepFailureRetryDelay_closed_witness :
  sweepFailureRetryDelay <$> [0; 1; 2; 6; 7; 1000] =
    [60 * Second; 60 * Second; 120 * Second; 1920 * Second; Hour; Hour] /\
  retry_delay_loop 9 1 (Z.max 1 3) sweepFailureRetryBase = 240 * Second.
Proof.
  split; [vm_compute; reflexivity|]. rewrite (proj2 (sweepFailureRetryDelay_closed 3)) by lia. vm_compute. reflexivity.
Defined.
