(* ===== verification/Decimal.v ===== *)
(** * Exact decimal arithmetic of charges

    Models [src/internal/ai/domain/fixed_decimal.go].  Money is computed on exact
    rationals and rounded once.  A [float64] is represented by what the code
    reads of it: whether it is finite, and the exact value of its shortest
    decimal text ([strconv.FormatFloat(v, 'f', -1, 64)]), which has the sign of
    the float.  A [*big.Rat] is a [Q]; its fraction need not be reduced, and no
    result depends on it (the [Proper] instances). *)

From Stdlib Require Import QArith Qround Qabs Lqa.
From S2P Require Import Prelude.
#[global] Open Scope Z_scope.

Inductive float64 :=
| Finite (decimal : Q)
| PosInf
| NegInf
| NaN.

(** [v < 0], [v <= 0] and [v > 0]: comparisons with NaN are false. *)
Definition float_neg (v : float64) : bool :=
  match v with Finite d => negb (Qle_bool 0 d) | NegInf => true | PosInf | NaN => false end.
Definition float_nonpos (v : float64) : bool :=
  match v with Finite d => Qle_bool d 0 | NegInf => true | PosInf | NaN => false end.
Definition float_pos (v : float64) : bool :=
  match v with Finite d => negb (Qle_bool d 0) | PosInf => true | NegInf | NaN => false end.
Definition is_nan (v : float64) : bool := match v with NaN => true | _ => false end.
Definition is_inf (v : float64) : bool := match v with PosInf | NegInf => true | _ => false end.

(** [DecimalRat] *)
Definition DecimalRat (v : float64) : Q :=
  if is_nan v || is_inf v then 0%Q
  else match v with Finite d => d | _ => 0%Q end.

(** [RoundHalfUpRatToInt64] of a rational (the callers' pointers are not nil). *)
Definition RoundHalfUpRatToInt64 (v : Q) : Z :=
  if Qnum v <=? 0 then 0
  else
    let q := Z.quot (Qnum v) (Z.pos (Qden v)) in
    let rem := Z.rem (Qnum v) (Z.pos (Qden v)) in
    let q := if Z.pos (Qden v) <=? Z.shiftl rem 1 then q + 1 else q in
    if negb (in_int64 q) then int64_max else q.

(** [for _, multiplier := range multipliers], the running product [r] so far. *)
Fixpoint scale_loop (r : Q) (multipliers : list float64) : option Q :=
  match multipliers with
  | [] => Some r
  | m :: rest => if float_nonpos m then None else scale_loop (r * DecimalRat m)%Q rest
  end.

(** [ScaleInt64HalfUp] *)
Definition ScaleInt64HalfUp (value : Z) (multipliers : list float64) : Z :=
  if value <=? 0 then 0
  else match scale_loop (inject_Z value) multipliers with
       | None => 0
       | Some r => RoundHalfUpRatToInt64 r
       end.

(** ** The rounding specification *)

(** Nearest integer, halves up, kept within 0 and the largest [int64]. *)
Definition half_up (v : Q) : Z := Z.max 0 (Z.min int64_max (Qfloor (v + (1 # 2)))).

Lemma Qfloor_half v : Qfloor (v + (1 # 2)) = (2 * Qnum v + Z.pos (Qden v)) / (2 * Z.pos (Qden v)).
Proof.
  destruct v as [n d]. unfold Qfloor, Qplus. cbn [Qnum Qden]. f_equal; [lia|].
  rewrite Pos2Z.inj_mul. lia.
Qed.

Lemma round_half_up_spec v : RoundHalfUpRatToInt64 v = half_up v.
Proof.
  unfold RoundHalfUpRatToInt64, half_up. rewrite Qfloor_half. destruct v as [n d]. cbn [Qnum Qden].
  assert (Hd : 0 < Z.pos d) by lia. set (D := Z.pos d) in *. clearbody D. clear d.
  destruct (Z.leb_spec n 0) as [Hn | Hn].
  - assert ((2 * n + D) / (2 * D) <= 0); [|unfold int64_max; lia].
    assert ((2 * n + D) / (2 * D) < 1); [|lia]. apply Z.div_lt_upper_bound; lia.
  - rewrite Z.quot_div_nonneg, Z.rem_mod_nonneg, Z.shiftl_mul_pow2 by lia.
    change (2 ^ 1) with 2.
    assert (Hq : (2 * n + D) / (2 * D) = if D <=? n mod D * 2 then n / D + 1 else n / D).
    { pose proof (Z.div_mod n D ltac:(lia)) as Hdm. pose proof (Z.mod_pos_bound n D Hd) as Hb.
      destruct (Z.leb_spec D (n mod D * 2)) as [Hh | Hh].
      - symmetry. apply Z.div_unique with (2 * (n mod D) - D); lia.
      - symmetry. apply Z.div_unique with (2 * (n mod D) + D); lia. }
    rewrite <- Hq. set (q := (2 * n + D) / (2 * D)).
    assert (0 <= q) by (apply Z.div_pos; lia).
    unfold in_int64, int64_min, int64_max in *.
    destruct (Z.leb_spec (- 2 ^ 63) q); destruct (Z.leb_spec q (2 ^ 63 - 1)); simpl; lia.
Qed.

#[global] Instance half_up_Proper : Proper (Qeq ==> eq) half_up.
Proof. intros x y Hxy. unfold half_up. by rewrite Hxy. Qed.
#[global] Instance RoundHalfUp_Proper : Proper (Qeq ==> eq) RoundHalfUpRatToInt64.
Proof. intros x y Hxy. by rewrite !round_half_up_spec, Hxy. Qed.

Lemma half_up_range v : 0 <= half_up v <= int64_max.
Proof. unfold half_up, int64_max. lia. Qed.

(** Within half a unit of the exact value, unless it saturates. *)
Lemma half_up_error v : (0 <= v)%Q -> (v < inject_Z int64_max + (1 # 2))%Q ->
  (inject_Z (half_up v) - (1 # 2) <= v /\ v < inject_Z (half_up v) + (1 # 2))%Q.
Proof.
  intros H0 Hm. pose proof (Qfloor_le (v + (1 # 2))) as Hl. pose proof (Qlt_floor (v + (1 # 2))) as Hu.
  assert (Hf0 : 0 <= Qfloor (v + (1 # 2))).
  { change 0 with (Qfloor 0). apply Qfloor_resp_le. lra. }
  assert (Hfm : Qfloor (v + (1 # 2)) <= int64_max).
  { apply Z.lt_succ_r. rewrite Zlt_Qlt. eapply Qle_lt_trans; [exact Hl|].
    unfold Z.succ. rewrite inject_Z_plus. change (inject_Z 1) with 1%Q. lra. }
  assert (half_up v = Qfloor (v + (1 # 2))) as -> by (unfold half_up; lia).
  rewrite inject_Z_plus in Hu. change (inject_Z 1) with 1%Q in Hu. lra.
Qed.

Lemma half_up_saturates v : (inject_Z int64_max + (1 # 2) <= v)%Q -> half_up v = int64_max.
Proof.
  intros H. unfold half_up.
  assert (int64_max + 1 <= Qfloor (v + (1 # 2))).
  { rewrite <- (Qfloor_Z (int64_max + 1)). apply Qfloor_resp_le.
    rewrite inject_Z_plus. change (inject_Z 1) with 1%Q. lra. }
  unfold int64_max in *. lia.
Qed.

Lemma half_up_mono v w : (v <= w)%Q -> half_up v <= half_up w.
Proof.
  intros H. unfold half_up. assert (Qfloor (v + (1 # 2)) <= Qfloor (w + (1 # 2))); [|lia].
  apply Qfloor_resp_le. lra.
Qed.

Lemma half_up_nonpos v : (v <= 0)%Q -> half_up v = 0.
Proof.
  intros H. unfold half_up. assert (Qfloor (v + (1 # 2)) <= 0); [|lia].
  change 0 with (Qfloor (0 + (1 # 2))). apply Qfloor_resp_le. lra.
Qed.

Lemma half_up_int z : 0 <= z <= int64_max -> half_up (inject_Z z) = z.
Proof.
  intros H. unfold half_up. rewrite Qfloor_half. cbn [inject_Z Qnum Qden].
  replace ((2 * z + 1) / (2 * 1)) with z; [lia|]. apply Z.div_unique with 1; lia.
Qed.

Lemma DecimalRat_nonneg v : float_neg v = false -> (0 <= DecimalRat v)%Q.
Proof.
  destruct v as [d | | |]; simpl; intros H; try discriminate H.
  - apply negb_false_iff in H. by apply Qle_bool_iff.
  - vm_compute; discriminate.
  - vm_compute; discriminate.
Qed.
