(* ===== verification/PriceTiers.v ===== *)
(** * Price tiers

    Models [src/internal/ai/core/billing]: the token price tiers of a price-book
    entry, their validation and selection, the classification of requested image
    sizes, and the row of [domain.PriceBookEntry] that carries the prices.  An [int] is a 64-bit integer. *)

From Stdlib Require Import QArith.
From S2P Require Import Prelude GoStrings Decimal.
#[global] Open Scope Z_scope.

(** [TokenPriceTier]; [UpToInputTokens] is a nil-able pointer. *)
Record TokenPriceTier := MkTier {
  UpToInputTokens : option Z;
  InputPerToken : float64;
  OutputPerToken : float64;
  CacheWritePerToken : float64;
  CacheReadPerToken : float64 }.

(** [domain.ResolutionUSDPrice] and [domain.PriceBookEntry] *)
Record ResolutionUSDPrice := MkResPrice { rp_Resolution : string; rp_Price : float64 }.
Record PriceBookEntry := MkEntry {
  en_ID : string;
  en_PriceBookID : string;
  en_ModelCode : string;
  en_CapabilityType : string;
  en_TokenPriceTiers : list TokenPriceTier;
  en_ImageDefaultPrice : float64;
  en_VideoDefaultPrice : float64;
  en_ImagePrices : list ResolutionUSDPrice;
  en_VideoPrices : list ResolutionUSDPrice;
  en_AudioTTSPerChar : float64;
  en_AudioSTTPerMinute : float64;
  en_Source : string;
  en_ManuallyEdited : bool }.

Inductive tier_error :=
| ErrTiersRequired
| ErrTierPrice (index : Z) (name : string)
| ErrTierUnboundedBeforeEnd (index : Z)
| ErrTierLimitNotPositive (index : Z)
| ErrTierLimitNotIncreasing (index : Z)
| ErrTierTerminalRequired
| ErrPromptNegative
| ErrNoTierMatched.

(** [IsTokenPricedCapability] *)
Definition IsTokenPricedCapability (capability : string) : bool :=
  bool_decide (capability ∈ ["chat"; "embedding"; "rerank"]%string).

(** [price.value < 0 || math.IsNaN(price.value) || math.IsInf(price.value, 0)] *)
Definition price_invalid (v : float64) : bool := float_neg v || is_nan v || is_inf v.

(** [validateTierPrices] *)
Fixpoint check_prices (index : Z) (prices : list (string * float64)) : result tier_error unit :=
  match prices with
  | [] => Ok tt
  | (name, v) :: rest => if price_invalid v then Err (ErrTierPrice index name)
                         else check_prices index rest
  end.
Definition validateTierPrices (index : Z) (tier : TokenPriceTier) : result tier_error unit :=
  check_prices index
    [("input_per_token", InputPerToken tier); ("output_per_token", OutputPerToken tier);
     ("cache_write_per_token", CacheWritePerToken tier);
     ("cache_read_per_token", CacheReadPerToken tier)]%string.

(** The loop of [ValidateTokenPriceTiers] over the tiers from [index] on, of [n]. *)
Fixpoint validate_loop (n index previousLimit : Z) (tiers : list TokenPriceTier)
    : result tier_error unit :=
  match tiers with
  | [] => Ok tt
  | tier :: rest =>
      match validateTierPrices index tier with
      | Err e => Err e
      | Ok _ =>
          match UpToInputTokens tier with
          | None => if negb (index =? n - 1) then Err (ErrTierUnboundedBeforeEnd index)
                    else validate_loop n (index + 1) previousLimit rest
          | Some limit =>
              if limit <=? 0 then Err (ErrTierLimitNotPositive index)
              else if limit <=? previousLimit then Err (ErrTierLimitNotIncreasing index)
              else validate_loop n (index + 1) limit rest
          end
      end
  end.

(** [ValidateTokenPriceTiers] *)
Definition ValidateTokenPriceTiers (tiers : list TokenPriceTier) : result tier_error unit :=
  match last tiers with
  | None => Err ErrTiersRequired
  | Some final =>
      match validate_loop (Z.of_nat (length tiers)) 0 0 tiers with
      | Err e => Err e
      | Ok _ => match UpToInputTokens final with
                | Some _ => Err ErrTierTerminalRequired
                | None => Ok tt
                end
      end
  end.

Fixpoint select_loop (index promptTokens : Z) (tiers : list TokenPriceTier)
    : result tier_error (TokenPriceTier * Z) :=
  match tiers with
  | [] => Err ErrNoTierMatched
  | tier :: rest =>
      match UpToInputTokens tier with
      | None => Ok (tier, index)
      | Some upper => if promptTokens <=? upper then Ok (tier, index)
                      else select_loop (index + 1) promptTokens rest
      end
  end.

(** [SelectTokenPriceTier] *)
Definition SelectTokenPriceTier (tiers : list TokenPriceTier) (promptTokens : Z)
    : result tier_error (TokenPriceTier * Z) :=
  match ValidateTokenPriceTiers tiers with
  | Err e => Err e
  | Ok _ => if promptTokens <? 0 then Err ErrPromptNegative
            else select_loop 0 promptTokens tiers
  end.

(** ** Image sizes *)

Definition ImageResolution1K : string := "1k".
Definition ImageResolution2K : string := "2k".
Definition ImageResolution4K : string := "4k".
Definition openAIImage1KPixels : Z := 1024 * 1024.
Definition openAIImage2KPixels : Z := 2048 * 2048.
Definition openAIImage4KPixels : Z := 3840 * 2160.

(** [ClassifyOpenAIImagePriceTier]; [None] is the result ["", false]. *)
Definition ClassifyOpenAIImagePriceTier (size : string) : option string :=
  if EqualFold (TrimSpace size) "auto" then Some ImageResolution4K
  else
    match cut_bytes 120 (bytes_of (ToLower (TrimSpace size))) with
    | None => None
    | Some (widthText, heightText) =>
        if bool_decide (120 ∈ heightText) then None
        else match atoi_bytes (trim_bytes widthText), atoi_bytes (trim_bytes heightText) with
             | Some width, Some height =>
                 if (width <? 1) || (height <? 1) || (openAIImage4KPixels / height <? width)
                 then None
                 else
                   let pixels := width * height in
                   if pixels <=? openAIImage1KPixels then Some ImageResolution1K
                   else if pixels <=? openAIImage2KPixels then Some ImageResolution2K
                   else if pixels <=? openAIImage4KPixels then Some ImageResolution4K
                   else None
             | _, _ => None
             end
    end.

Example classify_examples :
  ClassifyOpenAIImagePriceTier "auto" = Some "4k"%string /\
  ClassifyOpenAIImagePriceTier " 1536X1024 " = Some "2k"%string /\
  ClassifyOpenAIImagePriceTier "3840x2160" = Some "4k"%string /\
  ClassifyOpenAIImagePriceTier "4096x4096" = None /\
  ClassifyOpenAIImagePriceTier "100000000x100000000" = None.
Proof. split_and!; vm_compute; reflexivity. Qed.

(** ** What validation accepts *)

Definition price_ok (v : float64) : Prop := exists d, v = Finite d /\ (0 <= d)%Q.
Definition tier_prices_ok (t : TokenPriceTier) : Prop :=
  price_ok (InputPerToken t) /\ price_ok (OutputPerToken t) /\
  price_ok (CacheWritePerToken t) /\ price_ok (CacheReadPerToken t).

(** The tiers split the non-negative integers into consecutive intervals
    [(lower, upper]], the last of them unbounded; [lower] is where they start. *)
Fixpoint tiers_from (lower : Z) (tiers : list TokenPriceTier) : Prop :=
  match tiers with
  | [] => False
  | t :: rest => tier_prices_ok t /\
      match UpToInputTokens t with
      | None => rest = []
      | Some upper => lower < upper /\ tiers_from upper rest
      end
  end.

Lemma price_invalid_spec v : price_invalid v = false <-> price_ok v.
Proof.
  unfold price_invalid, price_ok. destruct v as [d | | |]; simpl.
  2-4: split; [done | intros (d & [=] & _)].
  rewrite !orb_false_r, negb_false_iff, Qle_bool_iff. split; [eauto | by intros (? & [= ->] & ?)].
Qed.

Lemma check_prices_ok index l :
  check_prices index l = Ok tt <-> Forall (fun '(_, v) => price_ok v) l.
Proof.
  induction l as [|[name v] l IH]; simpl; [by split|]. rewrite Forall_cons, <- price_invalid_spec.
  destruct (price_invalid v); [by split; [|intros [? _]]|]. rewrite IH. tauto.
Qed.

Lemma validateTierPrices_ok index t : validateTierPrices index t = Ok tt <-> tier_prices_ok t.
Proof.
  unfold validateTierPrices, tier_prices_ok. rewrite check_prices_ok, !Forall_cons.
  split; [intros (? & ? & ? & ? & _); done | intros (? & ? & ? & ?); split_and!; try done; constructor].
Qed.

Lemma result_unit {E} (r : result E unit) : (exists u, r = Ok u) <-> r = Ok tt.
Proof. split; [by intros [[] ->] | eauto]. Qed.

Lemma validate_loop_spec n : forall tiers index lower final, 0 <= lower ->
  index + Z.of_nat (length tiers) = n -> last tiers = Some final ->
  (validate_loop n index lower tiers = Ok tt /\ UpToInputTokens final = None) <-> tiers_from lower tiers.
Proof.
  induction tiers as [|t tiers IH]; intros index lower final H0 Hn Hlast; [done|].
  cbn [validate_loop tiers_from]. cbn [length] in Hn.
  rewrite <- (validateTierPrices_ok index t).
  destruct (validateTierPrices index t) as [[] | e]; [|by split; [intros [? _] | intros [? _]]].
  destruct (UpToInputTokens t) as [upper|] eqn:Hu.
  - destruct tiers as [|t2 tiers].
    { simpl in Hlast. injection Hlast as <-. rewrite Hu. split; [by intros [_ ?] | by intros (_ & _ & ?)]. }
    rewrite last_cons_cons in Hlast.
    destruct (Z.leb_spec upper 0); [split; [by intros [? _] | lia]|].
    destruct (Z.leb_spec upper lower); [split; [by intros [? _] | lia]|].
    rewrite (IH (index + 1) upper final) by (done || lia).
    split; [done | by intros (_ & _ & ?)].
  - destruct (Z.eqb_spec index (n - 1)) as [He | He]; cbn [negb].
    + assert (tiers = []) as -> by (destruct tiers; [done | cbn [length] in Hn; lia]).
      simpl in Hlast. injection Hlast as <-. split; done.
    + split; [by intros [? _]|]. intros [_ ->]. cbn [length] in Hn. lia.
Qed.

Lemma ValidateTokenPriceTiers_spec tiers :
  ValidateTokenPriceTiers tiers = Ok tt <-> tiers_from 0 tiers.
Proof.
  unfold ValidateTokenPriceTiers. destruct (last tiers) as [final|] eqn:Hl.
  - rewrite <- (validate_loop_spec (Z.of_nat (length tiers)) tiers 0 0 final) by (done || lia).
    destruct (validate_loop _ 0 0 tiers) as [[] | e]; [|by split; [|intros [? _]]].
    destruct (UpToInputTokens final); split; intros H; try done. by destruct H.
  - apply last_None in Hl as ->. by split.
Qed.

(** Reference selection: the tier whose interval holds the prompt. *)
Fixpoint tier_holds (lower p : Z) (tiers : list TokenPriceTier) (i : nat) (t : TokenPriceTier) : Prop :=
  match tiers with
  | [] => False
  | t0 :: rest =>
      match i with
      | O => t = t0 /\ (lower < p \/ p = 0 /\ lower = 0) /\
             (forall upper, UpToInputTokens t0 = Some upper -> p <= upper)
      | S j => exists upper, UpToInputTokens t0 = Some upper /\ tier_holds upper p rest j t
      end
  end.

Lemma tier_holds_lower tiers : forall lower p i t, 0 <= lower ->
  tiers_from lower tiers -> tier_holds lower p tiers i t -> lower < p \/ p = 0 /\ lower = 0.
Proof.
  induction tiers as [|t0 tiers IH]; intros lower p i t H0 Hok Hh; [done|].
  destruct i as [|i]; [by destruct Hh as (_ & ? & _)|].
  destruct Hok as [_ Hok], Hh as (upper & Hu & Hh). rewrite Hu in Hok. destruct Hok as [Hlt Hok].
  apply IH in Hh; [|lia|done]. lia.
Qed.

Lemma select_loop_spec tiers : forall lower p index t i, 0 <= lower ->
  tiers_from lower tiers -> lower < p \/ p = 0 /\ lower = 0 ->
  select_loop index p tiers = Ok (t, index + Z.of_nat i) <-> tier_holds lower p tiers i t.
Proof.
  induction tiers as [|t0 tiers IH]; intros lower p index t i H0 Hok Hp; [done|].
  pose proof Hok as Hok'. destruct Hok' as [_ Hrest].
  cbn [select_loop tier_holds]. destruct (UpToInputTokens t0) as [upper|] eqn:Hu.
  - destruct Hrest as [Hlt Hrest]. destruct (Z.leb_spec p upper) as [Hle | Hgt].
    + destruct i as [|i].
      * split; [intros [= ->]; split_and!; [done | done | by intros ? [= <-]]|].
        intros (-> & _ & _). by rewrite Z.add_0_r.
      * split; [intros [= _ ?]; lia|]. intros (u & [= <-] & Hh).
        apply tier_holds_lower in Hh; [lia | lia | done].
    + destruct i as [|i].
      * split.
        -- intros Hs. exfalso. assert (Hmono : forall l k t' k', select_loop k p l = Ok (t', k') -> k <= k').
           { clear. induction l as [|a l IHl]; intros k t' k'; simpl; [done|].
             destruct (UpToInputTokens a) as [u|]; [destruct (p <=? u)|]; intros H; try (injection H; lia).
             apply IHl in H. lia. }
           apply Hmono in Hs. lia.
        -- intros (_ & _ & Hle). specialize (Hle _ eq_refl). lia.
      * replace (index + Z.of_nat (S i)) with (index + 1 + Z.of_nat i) by lia.
        rewrite (IH upper) by (done || lia). split; [eauto | by intros (u & [= <-] & ?)].
  - destruct i as [|i].
    + split; [intros [= ->]; by split_and!|]. intros (-> & _ & _). by rewrite Z.add_0_r.
    + split; [intros [= _ ?]; lia | by intros (u & [=] & _)].
Qed.

Lemma select_loop_total tiers : forall lower p index, tiers_from lower tiers ->
  exists t i, select_loop index p tiers = Ok (t, index + Z.of_nat i).
Proof.
  induction tiers as [|t0 tiers IH]; intros lower p index Hok; [done|]. destruct Hok as [_ Hrest].
  cbn [select_loop]. destruct (UpToInputTokens t0) as [upper|].
  - destruct (p <=? upper); [exists t0, O; by rewrite Z.add_0_r|].
    destruct Hrest as [_ Hrest]. destruct (IH upper p (index + 1) Hrest) as (t & i & ->).
    exists t, (S i). do 2 f_equal. lia.
  - exists t0, O. by rewrite Z.add_0_r.
Qed.

Lemma select_ok_valid tiers p t i :
  SelectTokenPriceTier tiers p = Ok (t, i) -> tiers_from 0 tiers /\ 0 <= p /\ select_loop 0 p tiers = Ok (t, i).
Proof.
  unfold SelectTokenPriceTier. rewrite <- ValidateTokenPriceTiers_spec.
  destruct (ValidateTokenPriceTiers tiers) as [[] | e]; [|done].
  destruct (Z.ltb_spec p 0); [done|]. done.
Qed.

Lemma select_total tiers p : tiers_from 0 tiers -> 0 <= p ->
  exists t i, SelectTokenPriceTier tiers p = Ok (t, Z.of_nat i).
Proof.
  intros Hv Hp. unfold SelectTokenPriceTier. pose proof Hv as Hv'.
  apply ValidateTokenPriceTiers_spec in Hv' as ->. destruct (Z.ltb_spec p 0); [lia|].
  destruct (select_loop_total tiers 0 p 0 Hv) as (t & i & ->). by exists t, i.
Qed.

Lemma tiers_from_elem tiers : forall lower t, tiers_from lower tiers -> t ∈ tiers -> tier_prices_ok t.
Proof.
  induction tiers as [|t0 tiers IH]; intros lower t Hok Hin; [done|]. destruct Hok as [Hp Hok].
  apply elem_of_cons in Hin as [-> | Hin]; [done|].
  destruct (UpToInputTokens t0); [destruct Hok as [_ Hok]; by eapply IH|].
  subst tiers. by apply not_elem_of_nil in Hin.
Qed.

Lemma select_loop_elem tiers : forall p k t i, select_loop k p tiers = Ok (t, i) -> t ∈ tiers.
Proof.
  induction tiers as [|t0 tiers IH]; intros p k t i; simpl; [done|].
  assert (t0 ∈ t0 :: tiers) by apply list_elem_of_here.
  destruct (UpToInputTokens t0) as [u|]; [destruct (p <=? u)|]; intros H'; try (by injection H' as <- _).
  apply list_elem_of_further. by eapply IH.
Qed.

(** The interval of tier [i] holds the prompt: it is within the tier's bound and
    above the previous tier's. *)
Definition tier_covers (tiers : list TokenPriceTier) (p : Z) (i : nat) (t : TokenPriceTier) : Prop :=
  tiers !! i = Some t /\
  (forall u, UpToInputTokens t = Some u -> p <= u) /\
  (forall j, i = S j -> exists t' u, tiers !! j = Some t' /\ UpToInputTokens t' = Some u /\ u < p).

Lemma tiers_from_above tiers : forall lower j t u,
  tiers_from lower tiers -> tiers !! j = Some t -> UpToInputTokens t = Some u -> lower < u.
Proof.
  induction tiers as [|t0 tiers IH]; intros lower j t u Hok Hj Hu; [done|]. destruct Hok as [_ Hok].
  destruct j as [|j]; simpl in Hj.
  - injection Hj as ->. rewrite Hu in Hok. tauto.
  - destruct (UpToInputTokens t0) as [u0|]; [|by subst tiers].
    destruct Hok as [Hlt Hok]. specialize (IH _ _ _ _ Hok Hj Hu). lia.
Qed.

Lemma tier_holds_covers tiers : forall lower p i t, 0 <= lower -> tiers_from lower tiers ->
  lower < p \/ p = 0 /\ lower = 0 ->
  tier_holds lower p tiers i t <-> tier_covers tiers p i t.
Proof.
  induction tiers as [|t0 tiers IH]; intros lower p i t H0 Hok Hp; [done|].
  destruct i as [|i]; cbn [tier_holds].
  - unfold tier_covers. simpl. split.
    + intros (-> & _ & Hu). done.
    + intros ([= ->] & Hu & _). done.
  - pose proof Hok as [_ Hrest]. split.
    + intros (u0 & Hu0 & Hh). rewrite Hu0 in Hrest. destruct Hrest as [Hlt Hrest].
      assert (Hb : u0 < p \/ p = 0 /\ u0 = 0) by (apply (tier_holds_lower tiers u0 p i t); [lia | done | done]).
      apply IH in Hh as (Hi & Hup & Hlow); [|lia|done|done].
      split; [done|]. split; [done|]. intros j [= <-].
      destruct i as [|i]; [exists t0, u0; split_and!; [done | done | lia]|]. by apply Hlow.
    + intros (Hi & Hup & Hlow). destruct (Hlow i eq_refl) as (t' & u' & Ht' & Hu' & Hlt').
      destruct (UpToInputTokens t0) as [u0|] eqn:Hu0; [|by subst tiers].
      destruct Hrest as [Hlt Hrest]. exists u0. split; [done|].
      assert (u0 < p) as Hup0.
      { destruct i as [|i]; simpl in Ht'; [injection Ht' as ->; congruence|].
        pose proof (tiers_from_above _ _ _ _ _ Hrest Ht' Hu'). lia. }
      apply IH; [lia | done | by left|]. split; [done|]. split; [done|].
      intros j ->. by exists t', u'.
Qed.


Lemma SelectTokenPriceTier_spec tiers p t i :
  SelectTokenPriceTier tiers p = Ok (t, Z.of_nat i) <->
  tiers_from 0 tiers /\ 0 <= p /\ tier_covers tiers p i t.
Proof.
  assert (Hl : tiers_from 0 tiers -> 0 <= p ->
    select_loop 0 p tiers = Ok (t, Z.of_nat i) <-> tier_covers tiers p i t).
  { intros Hv Hp. rewrite <- (tier_holds_covers tiers 0) by (done || lia).
    exact (select_loop_spec tiers 0 p 0 t i ltac:(lia) Hv ltac:(lia)). }
  split.
  - intros (Hv & Hp & Hs)%select_ok_valid. split; [done|]. split; [done|]. by apply Hl.
  - intros (Hv & Hp & Hc). unfold SelectTokenPriceTier. apply Hl in Hc; [|done|done].
    apply ValidateTokenPriceTiers_spec in Hv as ->. by destruct (Z.ltb_spec p 0); [lia|].
Qed.

Lemma tier_covers_total tiers p : tiers_from 0 tiers -> 0 <= p -> exists t i, tier_covers tiers p i t.
Proof.
  intros Hv Hp. destruct (select_total tiers p Hv Hp) as (t & i & Hs).
  apply SelectTokenPriceTier_spec in Hs as (_ & _ & Hc). eauto.
Qed.

Lemma tier_covers_unique tiers p i t i' t' : tiers_from 0 tiers -> 0 <= p ->
  tier_covers tiers p i t -> tier_covers tiers p i' t' -> i = i' /\ t = t'.
Proof.
  intros Hv Hp H1 H2.
  assert (SelectTokenPriceTier tiers p = Ok (t, Z.of_nat i)) as E1 by (by apply SelectTokenPriceTier_spec).
  assert (SelectTokenPriceTier tiers p = Ok (t', Z.of_nat i')) as E2 by (by apply SelectTokenPriceTier_spec).
  rewrite E1 in E2. injection E2 as -> Hi. split; [lia | done].
Qed.
