(* ===== verification/UsageEvidence.v ===== *)
(** * Reported usage

    Models [src/internal/ai/formats/usage_evidence.go] ([ObserveUsage]) and
    [src/internal/ai/domain/usage_evidence.go]: the token counters a provider
    reports, frame by frame, and what a request is metered on.  A frame is the
    decoded JSON document ([None] when the bytes are not JSON): [encoding/json]
    keeps the last of several members of one name, and reads into an [int] only
    integer literals in range. *)

From S2P Require Import Prelude GoStrings.

Inductive json :=
| JNull
| JBool (b : bool)
| JNumber (literal : option Z)  (** [None]: a fraction or an exponent *)
| JString (s : string)
| JArray (l : list json)
| JObject (members : list (string * json)).

Definition ProtocolOpenAIResponses : string := "openai_responses".
Definition ProtocolOpenAIEmbeddings : string := "openai_embeddings".
Definition ProtocolAnthropicMessages : string := "anthropic_messages".
Definition ProtocolGeminiGenerate : string := "gemini_generate".
Definition ProtocolGeminiEmbeddings : string := "gemini_embeddings".
Definition CapabilityChat : string := "chat".
Definition CapabilityImage : string := "image".
Definition CapabilityVideo : string := "video".
Definition CapabilityEmbedding : string := "embedding".
Definition CapabilityRerank : string := "rerank".

(** [domain.UsageEvidence] *)
Record UsageEvidence := MkEvidence {
  ue_Protocol : string;
  ue_Fields : gmap string Z;
  ue_Event : string;
  ue_Terminal : bool;
  ue_IgnoredZeroTerminal : bool;
  ue_InvalidFields : list string }.

Definition no_evidence : UsageEvidence := MkEvidence "" ∅ "" false false [].

(** [domain.TokenUsage]; the video duration is a decimal in the pricing model. *)
Record TokenCounts := MkTokens {
  tk_Prompt : Z; tk_Completion : Z; tk_CacheWrite : Z; tk_CacheRead : Z; tk_Reasoning : Z }.

(** [UsageEvidence.Reported] *)
Definition Reported (e : UsageEvidence) : bool := negb (bool_decide (ue_Fields e = ∅)).

(** A counter that is absent reads as zero. *)
Definition counter (f : gmap string Z) (k : string) : Z := default 0 (f !! k).

Definition is_gemini (protocol : string) : bool :=
  bool_decide (protocol = ProtocolGeminiGenerate) || bool_decide (protocol = ProtocolGeminiEmbeddings).

(** [UsageEvidence.Tokens] *)
Definition Tokens (e : UsageEvidence) : TokenCounts :=
  let f := ue_Fields e in
  let u := MkTokens (counter f "input_tokens") (counter f "output_tokens")
             (counter f "cache_write_tokens") (counter f "cache_read_tokens")
             (counter f "reasoning_tokens") in
  let u := if bool_decide (ue_Protocol e = ProtocolAnthropicMessages)
           then MkTokens (wrap64 (tk_Prompt u + wrap64 (tk_CacheRead u + tk_CacheWrite u)))
                  (tk_Completion u) (tk_CacheWrite u) (tk_CacheRead u) (tk_Reasoning u)
           else u in
  if is_gemini (ue_Protocol e)
  then MkTokens (tk_Prompt u) (wrap64 (tk_Completion u + tk_Reasoning u))
         (tk_CacheWrite u) (tk_CacheRead u) (tk_Reasoning u)
  else u.

(** [UsageEvidence.HasTokens] *)
Definition HasTokens (e : UsageEvidence) : bool :=
  existsb (fun '(_, v) => 0 <? v) (map_to_list (ue_Fields e)).

(** [domain.UsesReportedTokenBilling] *)
Definition UsesReportedTokenBilling (capability : string) : bool :=
  bool_decide (capability ∈ [""; CapabilityChat; CapabilityEmbedding; CapabilityRerank]%string).

(** ** Reading a frame *)

Abbreviation object := (list (string * json)).

(** [m[key]] of a decoded (possibly nil) object *)
Fixpoint last_member (k : string) (m : object) : option json :=
  match m with
  | [] => None
  | (k', v) :: rest => match last_member k rest with
                       | Some w => Some w
                       | None => if bool_decide (k' = k) then Some v else None
                       end
  end.
Definition member (m : option object) (k : string) : option json := m ≫= last_member k.

(** [obj(raw)]: [None] is the nil map. *)
Definition obj (raw : option json) : option object :=
  match raw with Some (JObject m) => Some m | _ => None end.

Definition or_else {A} (a b : option A) : option A := match a with Some x => Some x | None => b end.

Definition maxCounter : Z := 1000000000000.

(** The closure [read]; the state is the pair [fields], [invalid]. *)
Fixpoint read (dst : string) (m : option object) (keys : list string)
    (st : gmap string Z * list string) : gmap string Z * list string :=
  match keys with
  | [] => st
  | key :: rest =>
      match member m key with
      | None | Some JNull => read dst m rest st
      | Some (JNumber (Some n)) =>
          if (n <? 0) || (maxCounter <? n) || negb (in_int64 n)
          then (st.1, if Z.of_nat (length st.2) <? 16 then st.2 ++ [key] else st.2)
          else (<[dst := n]> st.1, st.2)
      | Some _ => (st.1, if Z.of_nat (length st.2) <? 16 then st.2 ++ [key] else st.2)
      end
  end.

(** The event of the frame: the transport's, else the document's [type]. *)
Definition frame_event (root : object) (event : string) : string :=
  let event := if bool_decide (event = "") then
                 match member (Some root) "type" with Some (JString s) => s | _ => "" end
               else event in
  if bool_decide (event = "") then "json"%string else event.

Definition terminal_event (event : string) : bool :=
  bool_decide (event ∈ ["json"; "message_delta"; "message_stop"; "response.done"; "response.failed";
                        "response.incomplete"; "response.cancelled"; "response.canceled"]%string)
  || String.prefix "response.completed" event.

(** The usage object of the document. *)
Definition usage_object (root : object) (protocol : string) : option object :=
  let root := Some root in
  if is_gemini protocol then
    or_else (obj (member root "usageMetadata"))
            (obj (member (obj (member root "response")) "usageMetadata"))
  else
    let usage := or_else (obj (member root "usage"))
                   (obj (member (obj (member root "response")) "usage")) in
    if bool_decide (protocol = ProtocolAnthropicMessages)
    then or_else usage (obj (member (obj (member root "message")) "usage"))
    else usage.

(** The [switch protocol] that reads the counters. *)
Definition read_fields (protocol capability : string) (u : object)
    (st : gmap string Z * list string) : gmap string Z * list string :=
  let usage := Some u in
  if is_gemini protocol then
    let st := read "input_tokens" usage ["promptTokenCount"%string] st in
    let st := read "output_tokens" usage ["candidatesTokenCount"%string] st in
    let st := read "cache_read_tokens" usage ["cachedContentTokenCount"%string] st in
    read "reasoning_tokens" usage ["thoughtsTokenCount"%string] st
  else if bool_decide (protocol = ProtocolAnthropicMessages) then
    let st := read "input_tokens" usage ["input_tokens"%string] st in
    let st := read "output_tokens" usage ["output_tokens"%string] st in
    let st := read "cache_read_tokens" usage ["cache_read_input_tokens"%string] st in
    read "cache_write_tokens" usage ["cache_creation_input_tokens"%string] st
  else
    let st := read "input_tokens" usage ["input_tokens"; "prompt_tokens"]%string st in
    let st := read "output_tokens" usage ["output_tokens"; "completion_tokens"]%string st in
    let inputDetails := or_else (obj (member usage "input_tokens_details"))
                          (obj (member usage "prompt_tokens_details")) in
    let outputDetails := or_else (obj (member usage "output_tokens_details"))
                           (obj (member usage "completion_tokens_details")) in
    let st := read "cache_read_tokens" inputDetails ["cached_tokens"%string] st in
    let st := read "cache_write_tokens" inputDetails
                ["cache_write_tokens"; "cache_creation_tokens"]%string st in
    let st := read "cache_read_tokens" usage ["cache_read_input_tokens"%string] st in
    let st := read "cache_write_tokens" usage ["cache_creation_input_tokens"%string] st in
    let st := read "reasoning_tokens" outputDetails ["reasoning_tokens"%string] st in
    if bool_decide (st.1 !! "input_tokens"%string = None) &&
       (bool_decide (protocol = ProtocolOpenAIEmbeddings) || bool_decide (capability = CapabilityRerank))
    then read "input_tokens" usage ["total_tokens"%string] st
    else st.

(** The loops building [merged]. *)
Definition merge_counter (protocol : string) (old new : option Z) : option Z :=
  match new with
  | None => old
  | Some v => if negb (bool_decide (protocol = ProtocolOpenAIResponses)) || (0 <? v)
                 || (default 0 old =? 0)
              then Some v else old
  end.
Definition merge_fields (protocol : string) (prev fields : gmap string Z) : gmap string Z :=
  merge (merge_counter protocol) prev fields.

Definition with_invalid (invalid : list string) (e : UsageEvidence) : UsageEvidence :=
  MkEvidence (ue_Protocol e) (ue_Fields e) (ue_Event e) (ue_Terminal e)
    (ue_IgnoredZeroTerminal e) invalid.
Definition ignored_zero (e : UsageEvidence) : UsageEvidence :=
  MkEvidence (ue_Protocol e) (ue_Fields e) (ue_Event e) (ue_Terminal e) true (ue_InvalidFields e).
Definition with_fields (f : gmap string Z) (e : UsageEvidence) : UsageEvidence :=
  MkEvidence (ue_Protocol e) f (ue_Event e) (ue_Terminal e) (ue_IgnoredZeroTerminal e)
    (ue_InvalidFields e).

(** [ObserveUsage] *)
Definition ObserveUsage (prev : UsageEvidence) (data : option json) (event protocol capability : string)
    : UsageEvidence :=
  match data with
  | Some (JObject root) =>
      let event := frame_event root event in
      let terminal := terminal_event event in
      match usage_object root protocol with
      | None => prev
      | Some usage =>
          let '(fields, invalid) := read_fields protocol capability usage (∅, ue_InvalidFields prev) in
          let prev := with_invalid invalid prev in
          if bool_decide (fields = ∅) then prev
          else
            let next := MkEvidence protocol fields event terminal (ue_IgnoredZeroTerminal prev) invalid in
            if bool_decide (protocol = ProtocolOpenAIResponses) && terminal then
              if negb (HasTokens next) && HasTokens prev then ignored_zero prev else next
            else with_fields (merge_fields protocol (ue_Fields prev) fields) next
      end
  | _ => prev
  end.

(** ** Facts *)

(** Counters in the range one report is accepted in. *)
Definition counters_ok (f : gmap string Z) : Prop := map_Forall (fun _ v => 0 <= v <= maxCounter) f.

Lemma read_ok dst m keys : forall st, counters_ok st.1 -> counters_ok (read dst m keys st).1.
Proof.
  induction keys as [|key keys IH]; intros st Hst; [done|]. cbn [read].
  destruct (member m key) as [[| b | [n|] | s | l | o]|]; try done; try (by apply IH).
  destruct ((n <? 0) || (maxCounter <? n) || negb (in_int64 n)) eqn:Hg; [done|].
  apply map_Forall_insert_2; [bool_prop; lia | done].
Qed.

Lemma read_fields_ok protocol capability u st :
  counters_ok st.1 -> counters_ok (read_fields protocol capability u st).1.
Proof.
  intros H. unfold read_fields. cbv zeta. repeat case_match; repeat (apply read_ok); done.
Qed.

Lemma merge_counter_cases protocol old new v :
  merge_counter protocol old new = Some v -> old = Some v \/ new = Some v.
Proof. unfold merge_counter. destruct new as [w|]; [case_match; auto | auto]. Qed.

Lemma lookup_merge_fields protocol prev fields k :
  merge_fields protocol prev fields !! k = merge_counter protocol (prev !! k) (fields !! k).
Proof. unfold merge_fields. rewrite lookup_merge. by destruct (prev !! k), (fields !! k). Qed.

Lemma merge_fields_ok protocol prev fields :
  counters_ok prev -> counters_ok fields -> counters_ok (merge_fields protocol prev fields).
Proof.
  intros H1 H2 k v. rewrite lookup_merge_fields.
  intros [Hk | Hk]%merge_counter_cases; [by eapply H1 | by eapply H2].
Qed.

Definition evidence_ok (e : UsageEvidence) : Prop := counters_ok (ue_Fields e).

Lemma ObserveUsage_ok prev data event protocol capability :
  evidence_ok prev -> evidence_ok (ObserveUsage prev data event protocol capability).
Proof.
  unfold evidence_ok, ObserveUsage. intros H. destruct data as [[]|]; try done.
  destruct (usage_object _ _) as [u|]; [|done].
  destruct (read_fields _ _ _ _) as [fields invalid] eqn:Hr.
  assert (Hf : counters_ok fields).
  { change fields with (fields, invalid).1. rewrite <- Hr. apply read_fields_ok. apply map_Forall_empty. }
  case_bool_decide; [done|]. destruct (bool_decide _ && _).
  - by destruct (negb _ && _).
  - simpl. by apply merge_fields_ok.
Qed.

Lemma counter_ok f k : counters_ok f -> 0 <= counter f k <= maxCounter.
Proof.
  intros H. unfold counter. destruct (f !! k) eqn:Hk; simpl; [by apply (H k)|].
  unfold maxCounter. lia.
Qed.

Lemma counters_wrap z : 0 <= z <= 3 * maxCounter -> wrap64 z = z.
Proof. intros H. apply wrap64_id. unfold maxCounter, int64_min, int64_max in *. lia. Qed.

(** The metered counters are far from the ends of [int]. *)
Lemma Tokens_ok e : evidence_ok e ->
  let u := Tokens e in
  0 <= tk_Prompt u <= 3 * maxCounter /\ 0 <= tk_Completion u <= 2 * maxCounter /\
  0 <= tk_CacheWrite u <= maxCounter /\ 0 <= tk_CacheRead u <= maxCounter /\
  0 <= tk_Reasoning u <= maxCounter.
Proof.
  intros H. pose proof (fun k => counter_ok _ k H) as Hc. unfold Tokens. cbv zeta.
  pose proof (Hc "input_tokens"%string). pose proof (Hc "output_tokens"%string).
  pose proof (Hc "cache_write_tokens"%string). pose proof (Hc "cache_read_tokens"%string).
  pose proof (Hc "reasoning_tokens"%string). clear Hc.
  assert (0 < maxCounter) by done.
  destruct (bool_decide _); cbn [tk_Prompt tk_Completion tk_CacheWrite tk_CacheRead tk_Reasoning];
    destruct (is_gemini _); cbn [tk_Prompt tk_Completion tk_CacheWrite tk_CacheRead tk_Reasoning];
    rewrite ?(counters_wrap (counter _ "cache_read_tokens" + _)) by lia;
    rewrite ?(counters_wrap (counter _ "input_tokens" + _)) by lia;
    rewrite ?(counters_wrap (counter _ "output_tokens" + _)) by lia; lia.
Qed.
