(* ===== verification/Request.v ===== *)
(** * A request of the gateway

    Models the facts a served request carries to its settlement:
    [src/internal/ai/serving] ([settlement_state.go], [request_outcome.go],
    [usage_evidence.go], [subscription_billing.go], [steps_subscription.go]) on
    the fields of [serving.Request] and [domain.RouteCandidate] that billing
    reads.  A nil [*Request] is [None] where the code tests for it. *)

From Stdlib Require Import QArith.
From S2P Require Import Prelude GoStrings Decimal PriceTiers UsageEvidence.
#[global] Open Scope Z_scope.

Definition ProviderTerminalUnknown : string := "unknown".
Definition ProviderTerminalCompleted : string := "completed".
Definition ProviderTerminalFailed : string := "failed".
Definition ProviderTerminalCancelled : string := "cancelled".
Definition ProviderTerminalIncomplete : string := "incomplete".
Definition ClientDeliveryUnknown : string := "unknown".
Definition ClientDeliveryDisconnected : string := "disconnected".
Definition ClientDeliveryWriteFailed : string := "write_failed".
Definition CancellationNone : string := "none".
Definition CancellationClient : string := "client".
Definition CancellationProvider : string := "provider".
Definition ResponseSummaryUnavailable : string := "unavailable".
Definition RequestFailed : string := "failed".
Definition RequestCancelled : string := "cancelled".
Definition ScopeUser : string := "user".
Definition BillingSourcePayg : string := "payg".
Definition BillingSourceSubscription : string := "subscription".
Definition ExecutionModeAsync : string := "async".
Definition TokenUsageSourceMissing : string := "missing".
Definition TokenUsageSourceUpstream : string := "upstream".
Definition ServiceTierStandard : string := "standard".

(** [domain.TokenUsage] *)
Record TokenUsage := MkUsage {
  PromptTokens : Z;
  CompletionTokens : Z;
  CacheWriteTokens : Z;
  CacheReadTokens : Z;
  ReasoningTokens : Z;
  ImageCount : Z;
  ImageResolution : string;
  VideoSeconds : float64;
  VideoResolution : string }.

Definition no_usage : TokenUsage := MkUsage 0 0 0 0 0 0 "" (Finite 0) "".

Definition usage_of (t : TokenCounts) : TokenUsage :=
  MkUsage (tk_Prompt t) (tk_Completion t) (tk_CacheWrite t) (tk_CacheRead t) (tk_Reasoning t)
    0 "" (Finite 0) "".

(** [TokenUsage.TotalTokens] *)
Definition TotalTokens (u : TokenUsage) : Z := wrap64 (PromptTokens u + CompletionTokens u).

(** [domain.BillingSnapshot] *)
Record BillingSnapshot := MkSnapshot {
  sn_RetailEntry : PriceBookEntry;
  sn_AccountEntry : PriceBookEntry;
  sn_GroupName : string;
  sn_GroupDefaultUserMultiplier : float64;
  sn_UserMultiplierOverride : option float64;
  sn_EffectiveUserMultiplier : float64;
  sn_ServiceTier : string }.

(** [domain.BillingResult], without the JSON rendering of the breakdown and the
    display label. *)
Record BillingResult := MkBilling {
  CatalogBaseMicro : Z;
  TenantPayableMicro : Z;
  RetailBaseMicro : Z;
  UserPayableMicro : Z;
  UserChargedMicro : Z;
  APIKeyQuotaCostMicro : Z;
  br_ServiceTier : string;
  BillableUnits : Z;
  BillableUnitType : string;
  GroupNameSnapshot : string;
  br_GroupDefaultUserMultiplier : float64;
  br_UserMultiplierOverride : option float64;
  br_EffectiveUserMultiplier : float64 }.

Definition no_billing : BillingResult :=
  MkBilling 0 0 0 0 0 0 "" 0 "" "" (Finite 0) None (Finite 0).

(** [coreidentity.Subject] *)
Record Subject := MkSubject {
  sj_AuthMethod : string;
  sj_RequestSource : string;
  sj_Scope : string;
  sj_TenantID : string;
  sj_UserID : string;
  sj_APIKeyID : string;
  sj_GroupID : string;
  sj_AllowedModels : list string;
  sj_QuotaLimit : option Z;
  sj_QuotaUsed : Z;
  sj_ForcedGroupID : string }.

(** [domain.RouteCandidate] *)
Record RouteCandidate := MkCandidate {
  rc_CandidateID : string;
  rc_RouteID : string;
  rc_ModelCode : string;
  rc_CapabilityType : string;
  rc_Protocol : string;
  rc_AccountPriceBookID : string;
  rc_TenantMultiplier : float64;
  rc_GroupID : string;
  rc_GroupName : string;
  rc_RetailPriceBookID : string;
  rc_GroupDefaultUserMultiplier : float64;
  rc_GroupRank : Z;
  rc_TargetPriority : Z;
  rc_ConversionBucket : Z;
  rc_RoutePolicy : string;
  rc_Operation : string;
  rc_AccountID : string;
  rc_EndpointID : string;
  rc_UpstreamModel : string;
  rc_UpstreamConcurrencyLimit : option Z;
  rc_MaxDuration : Z;
  rc_PoolID : string;
  rc_PoolUpstreamModel : string;
  rc_FixedProviderType : string;
  rc_OAuthStrategy : string;
  rc_CredentialID : string;
  rc_PoolCredentialCount : Z;
  rc_ImageMaxOutputCount : Z;
  rc_ImageEditMaxOutputCount : Z }.

(** [RouteCandidate.Key] *)
Definition Key (c : RouteCandidate) : string :=
  if negb (bool_decide (rc_CandidateID c = "")) then rc_CandidateID c else rc_RouteID c.

(** [serving.Request]: the fields settlement reads and writes.  [rq_Attempts]
    counts the upstream calls on record. *)
Record Request := MkRequest {
  rq_RequestID : string;
  rq_CapabilityType : string;
  rq_ExecutionMode : string;
  rq_ServiceTier : string;
  rq_Subject : option Subject;
  rq_Candidate : option RouteCandidate;
  rq_Attempts : Z;
  rq_MediaUsageConfirmed : bool;
  rq_TokenUsage : TokenUsage;
  rq_UsageEvidence : UsageEvidence;
  rq_TokenCountSource : string;
  rq_BillingSnapshots : gmap string BillingSnapshot;
  rq_BillingResult : BillingResult;
  rq_BillingSource : string;
  rq_SubscriptionID : string;
  rq_GroupMultipliers : gmap string float64;
  rq_RequestStatus : string;
  rq_ProviderTerminalState : string;
  rq_ClientDeliveryState : string;
  rq_CancellationOrigin : string;
  rq_BillingReason : string;
  rq_ResponseSummaryState : string;
  rq_HTTPStatus : Z;
  rq_ErrorCode : string;
  rq_ErrorMessage : string;
  rq_FailedStep : string }.

(** Assignments to the fields. *)
Definition set_usage (x0 : TokenUsage) (r : Request) : Request :=
  MkRequest (rq_RequestID r) (rq_CapabilityType r) (rq_ExecutionMode r) (rq_ServiceTier r)
    (rq_Subject r) (rq_Candidate r) (rq_Attempts r) (rq_MediaUsageConfirmed r) x0
    (rq_UsageEvidence r) (rq_TokenCountSource r) (rq_BillingSnapshots r) (rq_BillingResult r)
    (rq_BillingSource r) (rq_SubscriptionID r) (rq_GroupMultipliers r) (rq_RequestStatus r)
    (rq_ProviderTerminalState r) (rq_ClientDeliveryState r) (rq_CancellationOrigin r)
    (rq_BillingReason r) (rq_ResponseSummaryState r) (rq_HTTPStatus r) (rq_ErrorCode r)
    (rq_ErrorMessage r) (rq_FailedStep r).
Definition set_observed (x0 : TokenUsage) (x1 : string) (r : Request) : Request :=
  MkRequest (rq_RequestID r) (rq_CapabilityType r) (rq_ExecutionMode r) (rq_ServiceTier r)
    (rq_Subject r) (rq_Candidate r) (rq_Attempts r) (rq_MediaUsageConfirmed r) x0
    (rq_UsageEvidence r) x1 (rq_BillingSnapshots r) (rq_BillingResult r) (rq_BillingSource r)
    (rq_SubscriptionID r) (rq_GroupMultipliers r) (rq_RequestStatus r)
    (rq_ProviderTerminalState r) (rq_ClientDeliveryState r) (rq_CancellationOrigin r)
    (rq_BillingReason r) (rq_ResponseSummaryState r) (rq_HTTPStatus r) (rq_ErrorCode r)
    (rq_ErrorMessage r) (rq_FailedStep r).
Definition set_evidence (x0 : UsageEvidence) (r : Request) : Request :=
  MkRequest (rq_RequestID r) (rq_CapabilityType r) (rq_ExecutionMode r) (rq_ServiceTier r)
    (rq_Subject r) (rq_Candidate r) (rq_Attempts r) (rq_MediaUsageConfirmed r) (rq_TokenUsage r)
    x0 (rq_TokenCountSource r) (rq_BillingSnapshots r) (rq_BillingResult r) (rq_BillingSource r)
    (rq_SubscriptionID r) (rq_GroupMultipliers r) (rq_RequestStatus r)
    (rq_ProviderTerminalState r) (rq_ClientDeliveryState r) (rq_CancellationOrigin r)
    (rq_BillingReason r) (rq_ResponseSummaryState r) (rq_HTTPStatus r) (rq_ErrorCode r)
    (rq_ErrorMessage r) (rq_FailedStep r).
Definition set_media (x0 : bool) (r : Request) : Request :=
  MkRequest (rq_RequestID r) (rq_CapabilityType r) (rq_ExecutionMode r) (rq_ServiceTier r)
    (rq_Subject r) (rq_Candidate r) (rq_Attempts r) x0 (rq_TokenUsage r) (rq_UsageEvidence r)
    (rq_TokenCountSource r) (rq_BillingSnapshots r) (rq_BillingResult r) (rq_BillingSource r)
    (rq_SubscriptionID r) (rq_GroupMultipliers r) (rq_RequestStatus r)
    (rq_ProviderTerminalState r) (rq_ClientDeliveryState r) (rq_CancellationOrigin r)
    (rq_BillingReason r) (rq_ResponseSummaryState r) (rq_HTTPStatus r) (rq_ErrorCode r)
    (rq_ErrorMessage r) (rq_FailedStep r).
Definition set_result (x0 : BillingResult) (r : Request) : Request :=
  MkRequest (rq_RequestID r) (rq_CapabilityType r) (rq_ExecutionMode r) (rq_ServiceTier r)
    (rq_Subject r) (rq_Candidate r) (rq_Attempts r) (rq_MediaUsageConfirmed r) (rq_TokenUsage r)
    (rq_UsageEvidence r) (rq_TokenCountSource r) (rq_BillingSnapshots r) x0 (rq_BillingSource r)
    (rq_SubscriptionID r) (rq_GroupMultipliers r) (rq_RequestStatus r)
    (rq_ProviderTerminalState r) (rq_ClientDeliveryState r) (rq_CancellationOrigin r)
    (rq_BillingReason r) (rq_ResponseSummaryState r) (rq_HTTPStatus r) (rq_ErrorCode r)
    (rq_ErrorMessage r) (rq_FailedStep r).
Definition set_states (x0 : string) (x1 : string) (x2 : string) (x3 : string) (r : Request) : Request :=
  MkRequest (rq_RequestID r) (rq_CapabilityType r) (rq_ExecutionMode r) (rq_ServiceTier r)
    (rq_Subject r) (rq_Candidate r) (rq_Attempts r) (rq_MediaUsageConfirmed r) (rq_TokenUsage r)
    (rq_UsageEvidence r) (rq_TokenCountSource r) (rq_BillingSnapshots r) (rq_BillingResult r)
    (rq_BillingSource r) (rq_SubscriptionID r) (rq_GroupMultipliers r) (rq_RequestStatus r) x0 x1
    x2 (rq_BillingReason r) x3 (rq_HTTPStatus r) (rq_ErrorCode r) (rq_ErrorMessage r)
    (rq_FailedStep r).
Definition set_status (x0 : string) (x1 : string) (r : Request) : Request :=
  MkRequest (rq_RequestID r) (rq_CapabilityType r) (rq_ExecutionMode r) (rq_ServiceTier r)
    (rq_Subject r) (rq_Candidate r) (rq_Attempts r) (rq_MediaUsageConfirmed r) (rq_TokenUsage r)
    (rq_UsageEvidence r) (rq_TokenCountSource r) (rq_BillingSnapshots r) (rq_BillingResult r)
    (rq_BillingSource r) (rq_SubscriptionID r) (rq_GroupMultipliers r) x0
    (rq_ProviderTerminalState r) (rq_ClientDeliveryState r) (rq_CancellationOrigin r) x1
    (rq_ResponseSummaryState r) (rq_HTTPStatus r) (rq_ErrorCode r) (rq_ErrorMessage r)
    (rq_FailedStep r).
Definition set_source (x0 : string) (x1 : string) (x2 : gmap string float64) (r : Request) : Request :=
  MkRequest (rq_RequestID r) (rq_CapabilityType r) (rq_ExecutionMode r) (rq_ServiceTier r)
    (rq_Subject r) (rq_Candidate r) (rq_Attempts r) (rq_MediaUsageConfirmed r) (rq_TokenUsage r)
    (rq_UsageEvidence r) (rq_TokenCountSource r) (rq_BillingSnapshots r) (rq_BillingResult r) x0
    x1 x2 (rq_RequestStatus r) (rq_ProviderTerminalState r) (rq_ClientDeliveryState r)
    (rq_CancellationOrigin r) (rq_BillingReason r) (rq_ResponseSummaryState r) (rq_HTTPStatus r)
    (rq_ErrorCode r) (rq_ErrorMessage r) (rq_FailedStep r).
Definition set_execution (x0 : string) (x1 : Z) (x2 : string) (x3 : string) (x4 : string) (x5 : string) (r : Request) : Request :=
  MkRequest (rq_RequestID r) (rq_CapabilityType r) (rq_ExecutionMode r) (rq_ServiceTier r)
    (rq_Subject r) (rq_Candidate r) (rq_Attempts r) (rq_MediaUsageConfirmed r) (rq_TokenUsage r)
    (rq_UsageEvidence r) (rq_TokenCountSource r) (rq_BillingSnapshots r) (rq_BillingResult r)
    (rq_BillingSource r) (rq_SubscriptionID r) (rq_GroupMultipliers r) x0
    (rq_ProviderTerminalState r) (rq_ClientDeliveryState r) (rq_CancellationOrigin r) x5
    (rq_ResponseSummaryState r) x1 x2 x3 x4.

Definition set_snapshots (x0 : gmap string BillingSnapshot) (r : Request) : Request :=
  MkRequest (rq_RequestID r) (rq_CapabilityType r) (rq_ExecutionMode r) (rq_ServiceTier r)
    (rq_Subject r) (rq_Candidate r) (rq_Attempts r) (rq_MediaUsageConfirmed r) (rq_TokenUsage r)
    (rq_UsageEvidence r) (rq_TokenCountSource r) x0 (rq_BillingResult r) (rq_BillingSource r)
    (rq_SubscriptionID r) (rq_GroupMultipliers r) (rq_RequestStatus r) (rq_ProviderTerminalState r)
    (rq_ClientDeliveryState r) (rq_CancellationOrigin r) (rq_BillingReason r)
    (rq_ResponseSummaryState r) (rq_HTTPStatus r) (rq_ErrorCode r) (rq_ErrorMessage r)
    (rq_FailedStep r).
Definition set_route (x0 : option RouteCandidate) (x1 : Z) (r : Request) : Request :=
  MkRequest (rq_RequestID r) (rq_CapabilityType r) (rq_ExecutionMode r) (rq_ServiceTier r)
    (rq_Subject r) x0 x1 (rq_MediaUsageConfirmed r) (rq_TokenUsage r) (rq_UsageEvidence r)
    (rq_TokenCountSource r) (rq_BillingSnapshots r) (rq_BillingResult r) (rq_BillingSource r)
    (rq_SubscriptionID r) (rq_GroupMultipliers r) (rq_RequestStatus r) (rq_ProviderTerminalState r)
    (rq_ClientDeliveryState r) (rq_CancellationOrigin r) (rq_BillingReason r)
    (rq_ResponseSummaryState r) (rq_HTTPStatus r) (rq_ErrorCode r) (rq_ErrorMessage r)
    (rq_FailedStep r).

(** ** Settlement state ([settlement_state.go]) *)

Definition if_empty (s d : string) : string := if bool_decide (s = "") then d else s.

(** [initializeSettlementState] and [EnsureSettlementState] *)
Definition initializeSettlementState (r : Request) : Request :=
  set_states (if_empty (rq_ProviderTerminalState r) ProviderTerminalUnknown)
    (if_empty (rq_ClientDeliveryState r) ClientDeliveryUnknown)
    (if_empty (rq_CancellationOrigin r) CancellationNone)
    (if_empty (rq_ResponseSummaryState r) ResponseSummaryUnavailable) r.

Definition set_terminal (state : string) (r : Request) : Request :=
  set_states state (rq_ClientDeliveryState r) (rq_CancellationOrigin r) (rq_ResponseSummaryState r) r.

(** [markProviderTerminal] *)
Definition markProviderTerminal (state : string) (r : Request) : Request :=
  let r := initializeSettlementState r in
  let cur := rq_ProviderTerminalState r in
  if bool_decide (cur = ProviderTerminalFailed) && negb (bool_decide (state = ProviderTerminalFailed))
  then r
  else if bool_decide (state = ProviderTerminalCompleted) &&
          bool_decide (cur ∈ [ProviderTerminalFailed; ProviderTerminalIncomplete; ProviderTerminalCancelled])
  then r
  else set_terminal state r.

(** [markClientDelivery] *)
Definition markClientDelivery (state : string) (r : Request) : Request :=
  let r := initializeSettlementState r in
  set_states (rq_ProviderTerminalState r) state (rq_CancellationOrigin r) (rq_ResponseSummaryState r) r.

(** [markClientCancellation] *)
Definition markClientCancellation (r : Request) : Request :=
  let r := initializeSettlementState r in
  let r := set_states (rq_ProviderTerminalState r) (rq_ClientDeliveryState r) CancellationClient
             (rq_ResponseSummaryState r) r in
  let r := markClientDelivery ClientDeliveryDisconnected r in
  if bool_decide (rq_ProviderTerminalState r ∈ [ProviderTerminalCompleted; ProviderTerminalFailed])
  then set_status RequestFailed "client_delivery_failed_after_terminal" r
  else set_status RequestCancelled "client_disconnect_before_terminal" r.

(** [markUpstreamCancellation] *)
Definition markUpstreamCancellation (r : Request) : Request :=
  let r := initializeSettlementState r in
  set_status RequestFailed "upstream_cancelled"
    (set_states ProviderTerminalIncomplete (rq_ClientDeliveryState r) CancellationProvider
       (rq_ResponseSummaryState r) r).

(** ** Reported usage ([usage_evidence.go]) *)

(** [ApplyReportedUsage] *)
Definition ApplyReportedUsage (r : Request) : Request :=
  if negb (UsesReportedTokenBilling (rq_CapabilityType r)) then r
  else set_observed (usage_of (Tokens (rq_UsageEvidence r)))
         (if Reported (rq_UsageEvidence r) then TokenUsageSourceUpstream else TokenUsageSourceMissing) r.

(** [observeReportedUsage] *)
Definition observeReportedUsage (data : option json) (event : string) (r : Request) : Request :=
  match rq_Candidate r with
  | None => r
  | Some c =>
      if negb (UsesReportedTokenBilling (rq_CapabilityType r)) then r
      else ApplyReportedUsage
             (set_evidence (ObserveUsage (rq_UsageEvidence r) data event (rc_Protocol c)
                              (rq_CapabilityType r)) r)
  end.

Definition with_media_zero (u : TokenUsage) : TokenUsage :=
  MkUsage (PromptTokens u) (CompletionTokens u) (CacheWriteTokens u) (CacheReadTokens u)
    (ReasoningTokens u) 0 (ImageResolution u) (Finite 0) (VideoResolution u).

(** [resetAttemptUsage] *)
Definition resetAttemptUsage (r : Request) : Request :=
  let r := if negb (UsesReportedTokenBilling (rq_CapabilityType r))
           then set_media false (set_usage (with_media_zero (rq_TokenUsage r)) r) else r in
  let r := ApplyReportedUsage (set_evidence no_evidence r) in
  set_execution "" 0 "" "" "" ""
    (set_states ProviderTerminalUnknown ClientDeliveryUnknown CancellationNone
       ResponseSummaryUnavailable r).

(** ** The completion decision ([request_outcome.go]) *)

Record RequestFailure := MkFailure {
  rf_Origin : string; rf_Stage : string; rf_Code : string; rf_Message : string }.
Record CompletionDecision := MkDecision {
  EndReason : string; ChargeReason : string; Billable : bool; cd_Error : option RequestFailure }.

(** The connection to the client went away: what the code calls [delivery]. *)
Definition delivery_lost (r : Request) : bool :=
  (bool_decide (rq_CancellationOrigin r = CancellationClient)
   || bool_decide (rq_ErrorCode r = "client_disconnected"%string))
  || bool_decide (rq_ErrorCode r = "stream_write_error"%string).

Definition decision_failed (r : Request) : bool :=
  bool_decide (rq_ProviderTerminalState r = ProviderTerminalFailed)
  || ((400 <=? rq_HTTPStatus r) && negb (rq_HTTPStatus r =? 499))
  || (negb (delivery_lost r) &&
      (negb (bool_decide (rq_ErrorCode r = ""))
       || bool_decide (rq_ProviderTerminalState r = ProviderTerminalIncomplete)
       || bool_decide (rq_ProviderTerminalState r = ProviderTerminalCancelled))).

Definition failure_of (r : Request) : RequestFailure :=
  MkFailure
    (if bool_decide (rq_ProviderTerminalState r = ProviderTerminalFailed)
        || bool_decide (rq_ProviderTerminalState r = ProviderTerminalIncomplete)
        || bool_decide (rq_CancellationOrigin r = CancellationProvider)
     then "upstream" else "gateway")
    (if_empty (rq_FailedStep r) "execute")
    (if bool_decide (rq_ErrorCode r = "") || delivery_lost r then "provider_terminal_error"
     else rq_ErrorCode r)
    (if delivery_lost r && bool_decide (rq_ProviderTerminalState r = ProviderTerminalFailed)
     then "上游明确报错，本次未计费" else rq_ErrorMessage r).

(** [DecideCompletion] *)
Definition DecideCompletion (req : option Request) : CompletionDecision :=
  match req with
  | None => MkDecision "unconfirmed" "unconfirmed_execution" false None
  | Some r =>
      if decision_failed r
      then MkDecision "request_error" "request_error_waived" false (Some (failure_of r))
      else
        let interrupted := delivery_lost r || (rq_HTTPStatus r =? 499) in
        let ended := (if interrupted then "client_interrupted" else "completed")%string in
        let reason := (if interrupted then "reported_usage_before_disconnect"
                       else "reported_usage")%string in
        if UsesReportedTokenBilling (rq_CapabilityType r) then
          if negb (Reported (rq_UsageEvidence r)) then MkDecision ended "missing_usage" false None
          else MkDecision ended reason true None
        else if negb (bool_decide (rq_ProviderTerminalState r = ProviderTerminalCompleted))
                || negb (rq_MediaUsageConfirmed r)
        then MkDecision ended "missing_media_evidence" false None
        else MkDecision ended "confirmed_media_output" true None
  end.

(** [shouldVoidBilling] *)
Definition shouldVoidBilling (req : option Request) : bool := negb (Billable (DecideCompletion req)).

(** ** Subscription coverage ([subscription_billing.go], [steps_subscription.go]) *)

(** [SubscriptionDebitMicro]: the amount and whether it is metered. *)
Definition SubscriptionDebitMicro (r : Request) : Z * bool :=
  let base := RetailBaseMicro (rq_BillingResult r) in
  match rq_Candidate r with
  | None => (0, false)
  | Some c =>
      if base <=? 0 then (0, false)
      else match rq_GroupMultipliers r !! rc_GroupID c with
           | None => (0, false)
           | Some weight => if float_nonpos weight then (0, false)
                            else (ScaleInt64HalfUp base [weight], true)
           end
  end.

(** [subscription.GateDecision] as the port answers it. *)
Record SubscriptionDecision := MkSubDecision {
  sd_Covered : bool; sd_SubscriptionID : string; sd_Multipliers : gmap string float64 }.

Inductive gate_error := ErrSubscriptionStateUnavailable.

(** [SubscriptionGateStep.Execute], given the answer of [ResolveForGate] (called
    only for a user-scoped synchronous request); [None] is a failed call and
    [subs] tells whether the port is configured. *)
Definition SubscriptionGate (subs : bool) (resolve : string -> string -> option SubscriptionDecision)
    (r : Request) : result gate_error Request :=
  let r := set_source BillingSourcePayg "" (rq_GroupMultipliers r) r in
  if negb subs || bool_decide (rq_ExecutionMode r = ExecutionModeAsync) then Ok r
  else match rq_Subject r with
  | None => Ok r
  | Some sj =>
      if negb (bool_decide (sj_Scope sj = ScopeUser)) || bool_decide (sj_TenantID sj = "")
         || bool_decide (sj_UserID sj = "")
      then Ok r
      else match resolve (sj_TenantID sj) (sj_UserID sj) with
      | None => Err ErrSubscriptionStateUnavailable
      | Some d =>
          let weights := sd_Multipliers d in
          let outside g := negb (bool_decide (g = "")) && negb (bool_decide (is_Some (weights !! g))) in
          if negb (sd_Covered d) || bool_decide (weights = ∅)
             || outside (sj_ForcedGroupID sj) || outside (sj_GroupID sj)
          then Ok r
          else Ok (set_source BillingSourceSubscription (sd_SubscriptionID d) weights r)
      end
  end.

(** ** Facts *)

Lemma ApplyReportedUsage_fields r :
  let r' := ApplyReportedUsage r in
  rq_CapabilityType r' = rq_CapabilityType r /\ rq_UsageEvidence r' = rq_UsageEvidence r /\
  rq_Subject r' = rq_Subject r /\ rq_Candidate r' = rq_Candidate r /\
  rq_MediaUsageConfirmed r' = rq_MediaUsageConfirmed r /\
  rq_BillingSource r' = rq_BillingSource r /\ rq_BillingSnapshots r' = rq_BillingSnapshots r /\
  rq_GroupMultipliers r' = rq_GroupMultipliers r.
Proof. unfold ApplyReportedUsage. destruct (negb _); done. Qed.

Lemma ApplyReportedUsage_idem r : ApplyReportedUsage (ApplyReportedUsage r) = ApplyReportedUsage r.
Proof.
  unfold ApplyReportedUsage.
  destruct (UsesReportedTokenBilling (rq_CapabilityType r)) eqn:H; simpl; [by rewrite H | by rewrite H].
Qed.
