(* ===== verification/ConcurrencyLimit.v ===== *)
(** * Concurrency limits

    Models [src/internal/ai/adapters/redis]: [ratelimit.go], which caps the requests
    of a tenant, a user or an API key that are in flight, and
    [upstream_concurrency.go], which caps the calls of one upstream account.  Both
    keep a Redis sorted set per scope: one member per slot, scored by the instant its
    lease ends.  Times are milliseconds; the Redis commands the scripts use are
    written out over a store whose keys may expire. *)

From stdpp Require Import pretty.
From S2P Require Import Prelude GoStrings Decimal UsageEvidence Request.
#[global] Open Scope Z_scope.

(** ** The Redis store *)

(** A sorted set and the instant its key expires. *)
Record zkey := MkZKey { zk_Members : gmap string Z; zk_Expires : option Z }.
Abbreviation redis := (gmap string zkey).

Section Commands.
Context (server : Z).
Implicit Types (key member : string) (r : redis).

(** A key is gone once the server clock has passed its expiry. *)
Definition zlive (z : zkey) : bool :=
  match zk_Expires z with Some at_ => server <=? at_ | None => true end.
Definition zread key r : option zkey :=
  match r !! key with Some z => if zlive z then Some z else None | None => None end.
(** A set without members is no key. *)
Definition zwrite key (z : zkey) r : redis :=
  if bool_decide (zk_Members z = ∅) then delete key r else <[key := z]> r.

Definition ZMEMBERS key r : gmap string Z :=
  match zread key r with Some z => zk_Members z | None => ∅ end.
Definition ZSCORE key member r : option Z := ZMEMBERS key r !! member.
Definition ZCARD key r : Z := Z.of_nat (size (ZMEMBERS key r)).
Definition ZCOUNT key (least : Z) r : Z :=
  Z.of_nat (size (filter (fun e : string * Z => least <= e.2) (ZMEMBERS key r))).
Definition ZREMRANGEBYSCORE key (upto : Z) r : redis :=
  match zread key r with
  | Some z => zwrite key (MkZKey (filter (fun e : string * Z => upto < e.2) (zk_Members z)) (zk_Expires z)) r
  | None => delete key r
  end.
Definition ZADD key (score : Z) member r : redis :=
  match zread key r with
  | Some z => <[key := MkZKey (<[member := score]> (zk_Members z)) (zk_Expires z)]> r
  | None => <[key := MkZKey {[member := score]} None]> r
  end.
Definition ZREM key member r : redis :=
  match zread key r with
  | Some z => zwrite key (MkZKey (delete member (zk_Members z)) (zk_Expires z)) r
  | None => delete key r
  end.
Definition PEXPIRE key (ttl : Z) r : redis :=
  match zread key r with
  | Some z => if ttl <=? 0 then delete key r
              else <[key := MkZKey (zk_Members z) (Some (server + ttl))]> r
  | None => delete key r
  end.

(** ** The scripts: the size of the set and whether a slot was taken *)

(** [concurrencyAcquireScript] ([ratelimit.go]) *)
Definition concurrencyAcquireScript key (now_ms expires_ms limit : Z) member (ttl_ms : Z) r
    : (Z * Z) * redis :=
  let r := ZREMRANGEBYSCORE key now_ms r in
  if bool_decide (is_Some (ZSCORE key member r)) then
    let r := PEXPIRE key ttl_ms r in ((ZCARD key r, 1), r)
  else
    let current := ZCARD key r in
    if limit <=? current then ((current, 0), r)
    else
      let r := ZADD key expires_ms member r in
      let r := PEXPIRE key ttl_ms r in
      ((current + 1, 1), r).

(** [upstreamConcurrencyAcquireScript] ([upstream_concurrency.go]) *)
Definition upstreamConcurrencyAcquireScript key (now_ms expires_ms limit : Z) member (ttl_ms : Z) r
    : (Z * Z) * redis :=
  let r := ZREMRANGEBYSCORE key now_ms r in
  if bool_decide (is_Some (ZSCORE key member r)) then
    let r := ZADD key expires_ms member r in
    let r := PEXPIRE key ttl_ms r in
    ((ZCARD key r, 1), r)
  else
    let current := ZCARD key r in
    if limit <=? current then
      let r := PEXPIRE key ttl_ms r in ((current, 0), r)
    else
      let r := ZADD key expires_ms member r in
      let r := PEXPIRE key ttl_ms r in
      ((current + 1, 1), r).
End Commands.

(** ** Calls over the network *)

(** A command reaches the server and is answered, runs but its reply is lost, or
    never runs. *)
Inductive delivery := Answered | ReplyLost | NotSent.
#[global] Instance delivery_eq_dec : EqDecision delivery.
Proof. solve_decision. Defined.

(** One command: the server's clock and its fate. *)
Record link := MkLink { lk_Server : Z; lk_Fate : delivery }.

Definition send {A} (l : link) (cmd : Z -> redis -> A * redis) (r : redis) : option A * redis :=
  match lk_Fate l with
  | Answered => let '(a, r) := cmd (lk_Server l) r in (Some a, r)
  | ReplyLost => (None, (cmd (lk_Server l) r).2)
  | NotSent => (None, r)
  end.

Inductive limit_error := ErrRateLimitExceeded | ErrRateLimiterUnavailable.
#[global] Instance limit_error_eq_dec : EqDecision limit_error.
Proof. solve_decision. Defined.

(** ** Upstream accounts ([UpstreamConcurrencyLimiter]) *)

Definition minute : Z := 60 * 1000.

Definition upstream_key (accountID : string) : string :=
  "ratelimit:upstream-account:" +:+ accountID +:+ ":concurrency".

(** [upstreamSlot] *)
Record upstreamSlot := MkSlot { us_Key : string; us_Member : string }.

(** [Acquire] of a configured limiter: [now] is the caller's clock, [anonymous] the
    name it makes up for a request without one.  [None] is no limit configured. *)
Definition UpstreamAcquire (now : Z) (l : link) (anonymous accountID requestID : string)
    (limit ttl : Z) (r : redis) : result limit_error (option upstreamSlot) * redis :=
  if (limit <=? 0) || bool_decide (accountID = "") then (Ok None, r)
  else
    let ttl := if ttl <=? 0 then minute else ttl in
    let key := upstream_key accountID in
    let member := if_empty requestID anonymous in
    let '(reply, r) := send l (fun server =>
      upstreamConcurrencyAcquireScript server key now (now + ttl) limit member (ttl + minute)) r in
    match reply with
    | None => (Err ErrRateLimiterUnavailable, r)
    | Some (_, granted) =>
        if granted =? 0 then (Err ErrRateLimitExceeded, r) else (Ok (Some (MkSlot key member)), r)
    end.

(** [upstreamSlot.Release] *)
Definition UpstreamRelease (l : link) (slot : option upstreamSlot) (r : redis) : redis :=
  match slot with
  | None => r
  | Some s => if bool_decide (us_Key s = "") then r
              else (send l (fun server r => (tt, ZREM server (us_Key s) (us_Member s) r)) r).2
  end.

(** [Available]: whether the account has a free slot. *)
Definition UpstreamAvailable (now : Z) (l : link) (accountID : string) (limit : Z) (r : redis) : option bool :=
  if limit <=? 0 then Some true
  else (fun n => n <? limit) <$>
       (send l (fun server r => (ZCOUNT server (upstream_key accountID) (now + 1) r, r)) r).1.

(** [upstreamSlotLeaseTTL] ([serving/execute_attempt.go]) *)
Definition upstreamSlotLeaseTTL (candidate : option RouteCandidate) : Z :=
  let ttl := match candidate with Some c => rc_MaxDuration c | None => 0 end in
  (if ttl <=? 0 then 5 * minute else ttl) + minute.

(** ** Callers ([RateLimiter]) *)

(** A row of [ai_runtime_limit_policies] *)
Record LimitPolicy := MkLimitPolicy {
  lp_ID : option string; lp_ScopeType : string; lp_ScopeID : string;
  lp_ConcurrencyLimit : option Z; lp_Status : string }.

(** [ListActiveRuntimeLimitPolicies] *)
Definition ListActiveRuntimeLimitPolicies (tenant user apiKey : string) (rows : list LimitPolicy)
    : list LimitPolicy :=
  order_by (fun a b => String.leb (lp_ScopeType a) (lp_ScopeType b))
    (List.filter (fun p => bool_decide (lp_Status p = "active") &&
      ((bool_decide (lp_ScopeType p = "tenant") && bool_decide (lp_ScopeID p = tenant)) ||
       (bool_decide (lp_ScopeType p = "user") && bool_decide (lp_ScopeID p = user)) ||
       (bool_decide (lp_ScopeType p = "api_key") && bool_decide (lp_ScopeID p = apiKey)))) rows).

Definition DefaultInFlightPerAccount : Z := 32.
(** [WithDefaultInFlight] *)
Definition WithDefaultInFlight (limit : Z) : Z := if limit <? 0 then 0 else limit.

(** The most a request may take, retries included ([domain.DefaultRouteTimeoutPreset]). *)
Definition defaultRetryMaxElapsed : Z := 15 * minute.
(** [RequestLeaseTTL] ([serving/budget.go]) *)
Definition RequestLeaseTTL : Z :=
  (if defaultRetryMaxElapsed <? minute then minute else defaultRetryMaxElapsed) + 2 * minute.

(** [uuidString] *)
Definition uuidString (id : option string) : string := default "" id.

Definition default_key (scope id : string) : string :=
  "ratelimit:default:" +:+ scope +:+ ":" +:+ id +:+ ":concurrency".
Definition policy_key (p : LimitPolicy) : string :=
  "ratelimit:" +:+ uuidString (lp_ID p) +:+ ":concurrency".

(** The positive limit of a policy. *)
Definition policy_limit (p : LimitPolicy) : option Z :=
  match lp_ConcurrencyLimit p with Some n => if 0 <? n then Some n else None | None => None end.

(** [configured]: a scope with an explicit limit. *)
Definition configured (policies : list LimitPolicy) (scope : string) : bool :=
  existsb (fun p => bool_decide (lp_ScopeType p = scope) && bool_decide (is_Some (policy_limit p))) policies.

Definition uses_api_key (sj : Subject) : bool := bool_decide (sj_AuthMethod sj = "api_key").

(** The slots [Acquire] takes, in its order: the default ones, then the policies'. *)
Definition wanted_slots (defaultInFlight : Z) (sj : Subject) (policies : list LimitPolicy)
    : list (string * Z) :=
  let defaults :=
    if (0 <? defaultInFlight) && negb (bool_decide (sj_TenantID sj = "")) then
      (if configured policies "tenant" then []
       else [(default_key "tenant" (sj_TenantID sj), defaultInFlight)]) ++
      (if bool_decide (sj_UserID sj = "") || configured policies "user" then []
       else [(default_key "user" (sj_UserID sj), defaultInFlight)])
    else [] in
  defaults ++
  omap (fun p =>
    if bool_decide (lp_ScopeType p = "api_key") && negb (uses_api_key sj) then None
    else (fun n => (policy_key p, n)) <$> policy_limit p) policies.

(** [concurrencyLease] *)
Record concurrencyLease := MkLease { cl_RequestID : string; cl_Keys : list string }.

(** [concurrencyLease.Release]: one [ZREM] per key, each with its own fate. *)
Definition LeaseRelease (links : nat -> link) (lease : concurrencyLease) (r : redis) : redis :=
  foldl (fun r '(l, key) => (send l (fun server r => (tt, ZREM server key (cl_RequestID lease) r)) r).2)
    r (imap (fun i key => (links i, key)) (cl_Keys lease)).

(** The closure [acquire]. *)
Definition acquire_slot (now : Z) (l : link) (key : string) (limit : Z) (lease : concurrencyLease)
    (r : redis) : result limit_error concurrencyLease * redis :=
  let ttl := RequestLeaseTTL in
  let '(reply, r) := send l (fun server =>
    concurrencyAcquireScript server key now (now + ttl) limit (cl_RequestID lease) (ttl + minute)) r in
  match reply with
  | None => (Err ErrRateLimiterUnavailable, r)
  | Some (_, granted) =>
      if granted =? 0 then (Err ErrRateLimitExceeded, r)
      else (Ok (MkLease (cl_RequestID lease) (cl_Keys lease ++ [key])), r)
  end.

(** The slots in turn; a failure releases those taken ([releaseOnError]). *)
Fixpoint acquire_slots (now : Z) (links released : nat -> link) (slots : list (string * Z))
    (lease : concurrencyLease) (r : redis) : result limit_error concurrencyLease * redis :=
  match slots with
  | [] => (Ok lease, r)
  | (key, limit) :: slots =>
      let '(res, r) := acquire_slot now (links (length (cl_Keys lease))) key limit lease r in
      match res with
      | Ok lease => acquire_slots now links released slots lease r
      | Err e => (Err e, LeaseRelease released lease r)
      end
  end.

(** [RateLimiter.Acquire]: [policies] is what the query answered ([None] a failure).
    [Ok None] is a request that needs no slot. *)
Definition RateLimiterAcquire (defaultInFlight now : Z) (links released : nat -> link)
    (anonymous : string) (subject : option Subject) (requestID : string)
    (policies : option (list LimitPolicy)) (r : redis)
    : result limit_error (option concurrencyLease) * redis :=
  match subject with
  | None => (Ok None, r)
  | Some sj =>
      match policies with
      | None => (Err ErrRateLimiterUnavailable, r)
      | Some policies =>
          let lease := MkLease (if_empty requestID anonymous) [] in
          let '(res, r) := acquire_slots now links released (wanted_slots defaultInFlight sj policies) lease r in
          match res with
          | Err e => (Err e, r)
          | Ok lease => (Ok (if bool_decide (cl_Keys lease = []) then None else Some lease), r)
          end
      end
  end.
