(* ===== verification/ConcurrencyFacts.v ===== *)
(** * Concurrency limits: the store, the scripts and the system of their callers

    What each command leaves of the sorted sets, what the two scripts answer, and the
    step relation of processes that take slots, give them back, lose replies and
    crash. *)

From S2P Require Import Prelude GoStrings Decimal UsageEvidence Request ConcurrencyLimit.
#[global] Open Scope Z_scope.

(** ** Commands *)

Section Commands.
Context (t : Z).
Implicit Types (k m : string) (r : redis).

Lemma ZMEMBERS_insert k z r : zlive t z = true -> ZMEMBERS t k (<[k := z]> r) = zk_Members z.
Proof. intros Hl. unfold ZMEMBERS, zread. by rewrite lookup_insert_eq, Hl. Qed.
Lemma ZMEMBERS_delete k r : ZMEMBERS t k (delete k r) = ∅.
Proof. unfold ZMEMBERS, zread. by rewrite lookup_delete_eq. Qed.

Lemma ZMEMBERS_write k z r : zlive t z = true -> ZMEMBERS t k (zwrite k z r) = zk_Members z.
Proof.
  intros Hl. unfold zwrite. case_bool_decide as H.
  - by rewrite ZMEMBERS_delete.
  - by apply ZMEMBERS_insert.
Qed.

Lemma zread_live k r z : zread t k r = Some z -> r !! k = Some z /\ zlive t z = true.
Proof. unfold zread. destruct (r !! k) as [z'|]; [|done]. destruct (zlive t z') eqn:H; [|done]. by intros [= ->]. Qed.

Lemma ZMEMBERS_read k r z : zread t k r = Some z -> ZMEMBERS t k r = zk_Members z.
Proof. unfold ZMEMBERS. by intros ->. Qed.
Lemma ZMEMBERS_none k r : zread t k r = None -> ZMEMBERS t k r = ∅.
Proof. unfold ZMEMBERS. by intros ->. Qed.

Lemma ZREMRANGE_members k u r :
  ZMEMBERS t k (ZREMRANGEBYSCORE t k u r) = filter (fun e : string * Z => u < e.2) (ZMEMBERS t k r).
Proof.
  unfold ZREMRANGEBYSCORE. destruct (zread t k r) as [z|] eqn:H.
  - rewrite (ZMEMBERS_read k r z H). apply ZMEMBERS_write.
    apply zread_live in H as [_ H]. done.
  - rewrite (ZMEMBERS_none k r H), map_filter_empty. by rewrite ZMEMBERS_delete.
Qed.

Lemma ZADD_members k s m r : ZMEMBERS t k (ZADD t k s m r) = <[m := s]> (ZMEMBERS t k r).
Proof.
  unfold ZADD. destruct (zread t k r) as [z|] eqn:H.
  - rewrite (ZMEMBERS_read k r z H). apply zread_live in H as [_ H].
    by rewrite ZMEMBERS_insert.
  - rewrite (ZMEMBERS_none k r H). by rewrite ZMEMBERS_insert.
Qed.

Lemma ZREM_members k m r : ZMEMBERS t k (ZREM t k m r) = delete m (ZMEMBERS t k r).
Proof.
  unfold ZREM. destruct (zread t k r) as [z|] eqn:H.
  - rewrite (ZMEMBERS_read k r z H). apply ZMEMBERS_write. by apply zread_live in H as [_ H].
  - rewrite (ZMEMBERS_none k r H), delete_empty. by rewrite ZMEMBERS_delete.
Qed.

Lemma PEXPIRE_members k d r : 0 < d -> ZMEMBERS t k (PEXPIRE t k d r) = ZMEMBERS t k r.
Proof.
  intros Hd. unfold PEXPIRE. destruct (zread t k r) as [z|] eqn:H.
  - destruct (Z.leb_spec d 0); [lia|]. rewrite (ZMEMBERS_read k r z H).
    rewrite ZMEMBERS_insert; [done|]. unfold zlive. simpl. apply Z.leb_le. lia.
  - rewrite (ZMEMBERS_none k r H). by rewrite ZMEMBERS_delete.
Qed.

(** A command touches its own key only. *)
Definition local k (f : redis -> redis) : Prop := forall r k', k' <> k -> f r !! k' = r !! k'.

Lemma ZREMRANGE_local k u : local k (ZREMRANGEBYSCORE t k u).
Proof.
  intros r k' H. unfold ZREMRANGEBYSCORE, zwrite. repeat case_match; by rewrite ?lookup_delete_ne, ?lookup_insert_ne.
Qed.
Lemma ZADD_local k s m : local k (ZADD t k s m).
Proof. intros r k' H. unfold ZADD. repeat case_match; by rewrite ?lookup_insert_ne. Qed.
Lemma ZREM_local k m : local k (ZREM t k m).
Proof. intros r k' H. unfold ZREM, zwrite. repeat case_match; by rewrite ?lookup_delete_ne, ?lookup_insert_ne. Qed.
Lemma PEXPIRE_local k d : local k (PEXPIRE t k d).
Proof. intros r k' H. unfold PEXPIRE. repeat case_match; by rewrite ?lookup_delete_ne, ?lookup_insert_ne. Qed.
End Commands.

Lemma ZMEMBERS_ext t k (r r' : redis) : r !! k = r' !! k -> ZMEMBERS t k r = ZMEMBERS t k r'.
Proof. intros H. unfold ZMEMBERS, zread. by rewrite H. Qed.

(** ** The scripts *)

(** The slots of a key whose lease has not ended. *)
Definition leases (now : Z) (k : string) (r : redis) : gmap string Z :=
  filter (fun e : string * Z => now < e.2) (ZMEMBERS now k r).

Inductive script_kind := CallerScript | UpstreamScript.
Definition run_script (kind : script_kind) (now : Z) (k : string) (limit : Z) (m : string) (ttl : Z)
    (r : redis) : (Z * Z) * redis :=
  match kind with
  | CallerScript => concurrencyAcquireScript now k now (now + ttl) limit m (ttl + minute) r
  | UpstreamScript => upstreamConcurrencyAcquireScript now k now (now + ttl) limit m (ttl + minute) r
  end.

(** What a script leaves of its key: the slots it keeps and the one it adds. *)
Definition script_members (kind : script_kind) (now : Z) (k : string) (limit : Z) (m : string) (ttl : Z)
    (r : redis) : bool * gmap string Z :=
  let old := leases now k r in
  match old !! m with
  | Some _ => (true, match kind with CallerScript => old | UpstreamScript => <[m := now + ttl]> old end)
  | None => if limit <=? Z.of_nat (size old) then (false, old) else (true, <[m := now + ttl]> old)
  end.

Section Scripts.
Context (kind : script_kind) (now : Z) (k : string) (limit : Z) (m : string) (ttl : Z) (r : redis).
Context (Httl : 0 < ttl).

#[local] Lemma minute_pos : 0 < ttl + minute.
Proof using Httl. unfold minute. lia. Qed.

(** The answer and the slots after it. *)
Lemma script_spec :
  let '((_, granted), r') := run_script kind now k limit m ttl r in
  let '(ok, after) := script_members kind now k limit m ttl r in
  granted = (if ok then 1 else 0) /\ ZMEMBERS now k r' = after.
Proof using Httl.
  pose proof minute_pos as Hp.
  unfold run_script, script_members, concurrencyAcquireScript, upstreamConcurrencyAcquireScript.
  set (r1 := ZREMRANGEBYSCORE now k now r).
  assert (ZMEMBERS now k r1 = leases now k r) as H1 by apply ZREMRANGE_members.
  unfold ZSCORE, ZCARD. rewrite H1.
  destruct (leases now k r !! m) as [s|] eqn:Hm.
  - rewrite bool_decide_true by done.
    destruct kind; split; try done; rewrite PEXPIRE_members, ?ZADD_members, H1; done.
  - rewrite bool_decide_false by (by intros [? ?]).
    destruct kind; destruct (limit <=? _) eqn:Hl;
      split; try done; rewrite ?PEXPIRE_members, ?ZADD_members, ?H1; done.
Qed.

Lemma script_local : local k (fun r => (run_script kind now k limit m ttl r).2).
Proof.
  clear r. intros r k' H.
  unfold run_script, concurrencyAcquireScript, upstreamConcurrencyAcquireScript.
  destruct kind; repeat case_match; cbn [snd];
    rewrite ?(PEXPIRE_local _ _ _ _ _ H), ?(ZADD_local _ _ _ _ _ _ H); by apply ZREMRANGE_local.
Qed.
End Scripts.

(** ** The record of a key after a command *)

Section Records.
Context (t : Z).
Implicit Types (k m : string) (r : redis).

Lemma PEXPIRE_record k d r z :
  0 < d -> PEXPIRE t k d r !! k = Some z ->
  zk_Members z = ZMEMBERS t k r /\ zk_Expires z = Some (t + d).
Proof.
  intros Hd. unfold PEXPIRE, ZMEMBERS. destruct (zread t k r) as [z0|]; [|by rewrite lookup_delete_eq].
  destruct (Z.leb_spec d 0); [lia|]. rewrite lookup_insert_eq. by intros [= <-].
Qed.

Lemma ZREMRANGE_record k u r z :
  ZREMRANGEBYSCORE t k u r !! k = Some z ->
  exists z0, r !! k = Some z0 /\ zk_Expires z = zk_Expires z0 /\
    zk_Members z = filter (fun e : string * Z => u < e.2) (zk_Members z0) /\
    zk_Members z0 = ZMEMBERS t k r.
Proof.
  unfold ZREMRANGEBYSCORE, ZMEMBERS. destruct (zread t k r) as [z0|] eqn:H; [|by rewrite lookup_delete_eq].
  apply zread_live in H as [H _]. unfold zwrite. case_bool_decide.
  - by rewrite lookup_delete_eq.
  - rewrite lookup_insert_eq. intros [= <-]. eauto.
Qed.

Lemma ZREM_record k m r z :
  ZREM t k m r !! k = Some z ->
  exists z0, r !! k = Some z0 /\ zk_Expires z = zk_Expires z0 /\ zk_Members z = delete m (zk_Members z0).
Proof.
  unfold ZREM. destruct (zread t k r) as [z0|] eqn:H; [|by rewrite lookup_delete_eq].
  apply zread_live in H as [H _]. unfold zwrite. case_bool_decide.
  - by rewrite lookup_delete_eq.
  - rewrite lookup_insert_eq. intros [= <-]. eauto.
Qed.
End Records.

Lemma script_record kind now k limit m ttl r z :
  0 < ttl -> (run_script kind now k limit m ttl r).2 !! k = Some z ->
  zk_Members z = (script_members kind now k limit m ttl r).2 /\
  (zk_Expires z = Some (now + (ttl + minute)) \/
   exists z0, r !! k = Some z0 /\ zk_Expires z = zk_Expires z0 /\ zk_Members z ⊆ zk_Members z0).
Proof.
  intros Httl. assert (0 < ttl + minute) as Hp by (unfold minute; lia).
  unfold run_script, script_members, concurrencyAcquireScript, upstreamConcurrencyAcquireScript.
  set (r1 := ZREMRANGEBYSCORE now k now r).
  assert (ZMEMBERS now k r1 = leases now k r) as H1 by apply ZREMRANGE_members.
  unfold ZSCORE, ZCARD. rewrite H1.
  destruct (leases now k r !! m) as [s|] eqn:Hm;
    [rewrite bool_decide_true by done | rewrite bool_decide_false by (by intros [? ?])].
  - destruct kind; cbn [snd]; intros [HM HE]%PEXPIRE_record; try done;
      rewrite ?ZADD_members, H1 in HM; eauto.
  - destruct kind; destruct (limit <=? _); cbn [snd].
    + intros (z0 & Hz & HE & HM & HM0)%ZREMRANGE_record. rewrite HM0 in HM. split; [exact HM|]. right.
      exists z0. split_and!; [done..|]. rewrite HM, HM0. apply map_filter_subseteq.
    + intros [HM HE]%PEXPIRE_record; [|done]. rewrite ZADD_members, H1 in HM. eauto.
    + intros [HM HE]%PEXPIRE_record; [|done]. rewrite H1 in HM. eauto.
    + intros [HM HE]%PEXPIRE_record; [|done]. rewrite ZADD_members, H1 in HM. eauto.
Qed.

(** ** The system *)

Section System.
(** Every lease lasts [ttl]; no caller asks for more than [ceiling] slots of a key. *)
Context (ttl : Z) (ceiling : string -> Z).

(** [y_held]: who is at work on a slot, with the instant its lease ends;
    [y_names]: the names taken so far (a request identity is registered once, an
    upstream attempt has a fresh UUID). *)
Record sys := MkSys {
  y_now : Z; y_store : redis; y_held : list (string * string * Z); y_names : gset (string * string) }.

Definition sys_start : sys := MkSys 0 ∅ [] ∅.

(** A new name asks for a slot. *)
Definition take (kind : script_kind) (k m : string) (limit : Z) (fate : delivery) (y : sys) : sys :=
  let '((_, granted), r) := run_script kind (y_now y) k limit m ttl (y_store y) in
  MkSys (y_now y) (match fate with NotSent => y_store y | _ => r end)
    (if bool_decide (fate = Answered) && (granted =? 1) then (k, m, y_now y + ttl) :: y_held y else y_held y)
    ({[(k, m)]} ∪ y_names y).

(** A name stops and gives its slot back, perhaps once more, or crashes ([reached]
    false). *)
Definition give (k m : string) (reached : bool) (y : sys) : sys :=
  MkSys (y_now y) (if reached then ZREM (y_now y) k m (y_store y) else y_store y)
    (List.filter (fun h => negb (bool_decide (h.1 = (k, m)))) (y_held y)) (y_names y).

Definition pass (d : Z) (y : sys) : sys := MkSys (y_now y + d) (y_store y) (y_held y) (y_names y).

Inductive step (y : sys) : sys -> Prop :=
| step_take kind k m limit fate :
    (k, m) ∉ y_names y -> limit <= ceiling k -> step y (take kind k m limit fate y)
| step_give k m reached : step y (give k m reached y)
| step_pass d : 0 <= d -> step y (pass d y).

Inductive reachable : sys -> Prop :=
| reachable_start : reachable sys_start
| reachable_step y y' : reachable y -> step y y' -> reachable y'.

(** ** The invariant *)

(** A key outlives its leases by a minute, and no lease ends later than a new one
    would. *)
Record key_ok (now : Z) (k : string) (z : zkey) : Prop := {
  key_expires : exists e, zk_Expires z = Some e /\
    forall m s, zk_Members z !! m = Some s -> s <= now + ttl /\ s + minute <= e;
  key_size : Z.of_nat (size (zk_Members z)) <= Z.max 0 (ceiling k) }.

Record sys_ok (y : sys) : Prop := {
  ok_keys : forall k z, y_store y !! k = Some z -> key_ok (y_now y) k z;
  ok_named : forall k z m, y_store y !! k = Some z -> is_Some (zk_Members z !! m) -> (k, m) ∈ y_names y;
  ok_held : forall k m d, (k, m, d) ∈ y_held y ->
    (k, m) ∈ y_names y /\ d <= y_now y + ttl /\
    (y_now y < d -> exists z, y_store y !! k = Some z /\ zk_Members z !! m = Some d);
  ok_distinct : NoDup (y_held y).*1 }.

Lemma live_key now k z m s :
  key_ok now k z -> zk_Members z !! m = Some s -> now < s -> zlive now z = true.
Proof.
  intros [(e & He & Hs) _] Hm Hn. unfold zlive. rewrite He. apply Z.leb_le.
  apply Hs in Hm as [_ Hm]. unfold minute in Hm. lia.
Qed.

(** A held lease that has not ended is one of the key's slots. *)
Lemma held_lease y k m d :
  sys_ok y -> (k, m, d) ∈ y_held y -> y_now y < d -> leases (y_now y) k (y_store y) !! m = Some d.
Proof.
  intros Hok Hh Hd. destruct (ok_held y Hok k m d Hh) as (_ & _ & H). destruct (H Hd) as (z & Hz & Hm).
  unfold leases. apply map_lookup_filter_Some. split; [|done].
  pose proof (live_key _ _ _ _ _ (ok_keys y Hok k z Hz) Hm Hd) as Hl.
  unfold ZMEMBERS, zread. by rewrite Hz, Hl.
Qed.

Lemma leases_record y k m s :
  leases (y_now y) k (y_store y) !! m = Some s ->
  exists z, y_store y !! k = Some z /\ zk_Members z !! m = Some s /\ y_now y < s.
Proof.
  unfold leases, ZMEMBERS. intros [H Hs]%map_lookup_filter_Some.
  destruct (zread (y_now y) k (y_store y)) as [z|] eqn:Hz; [|done].
  apply zread_live in Hz as [Hz _]. eauto.
Qed.

Lemma leases_size y k : sys_ok y -> Z.of_nat (size (leases (y_now y) k (y_store y))) <= Z.max 0 (ceiling k).
Proof.
  intros Hok. unfold leases, ZMEMBERS.
  destruct (zread (y_now y) k (y_store y)) as [z|] eqn:Hz.
  - apply zread_live in Hz as [Hz _]. pose proof (key_size _ _ _ (ok_keys y Hok k z Hz)).
    pose proof (map_size_filter (fun e : string * Z => y_now y < e.2) (zk_Members z)). lia.
  - rewrite map_filter_empty, map_size_empty. lia.
Qed.

Lemma fresh_lease y k m : sys_ok y -> (k, m) ∉ y_names y -> leases (y_now y) k (y_store y) !! m = None.
Proof.
  intros Hok Hm. apply eq_None_not_Some. intros [s Hs].
  destruct (leases_record y k m s Hs) as (z & Hz & Hzm & _).
  apply Hm. apply (ok_named y Hok k z m); [done | by eexists].
Qed.

Lemma take_fresh kind y k m limit :
  sys_ok y -> (k, m) ∉ y_names y ->
  script_members kind (y_now y) k limit m ttl (y_store y) =
    let old := leases (y_now y) k (y_store y) in
    if limit <=? Z.of_nat (size old) then (false, old) else (true, <[m := y_now y + ttl]> old).
Proof. intros Hok Hm. unfold script_members. by rewrite fresh_lease. Qed.

Context (Httl : 0 < ttl).

(** What a script leaves of the key of a fresh name. *)
Lemma take_record kind y k m limit z :
  sys_ok y -> (k, m) ∉ y_names y -> limit <= ceiling k ->
  (run_script kind (y_now y) k limit m ttl (y_store y)).2 !! k = Some z ->
  key_ok (y_now y) k z /\ forall m', is_Some (zk_Members z !! m') -> (k, m') ∈ {[(k, m)]} ∪ y_names y.
Proof using Httl.
  intros Hok Hm Hlim Hz.
  destruct (script_record kind _ k limit m ttl _ z Httl Hz) as [HM HE].
  rewrite take_fresh in HM by done. cbn zeta in HM.
  pose proof (leases_size y k Hok) as Hsize. pose proof (fresh_lease y k m Hok Hm) as Hnone.
  assert (forall m' s, zk_Members z !! m' = Some s ->
    (m' = m /\ s = y_now y + ttl) \/ leases (y_now y) k (y_store y) !! m' = Some s) as Hmem.
  { intros m' s Hs. rewrite HM in Hs. destruct (limit <=? _); cbn [snd] in Hs; [by right|].
    apply lookup_insert_Some in Hs as [[<- <-]|[_ Hs]]; [by left | by right]. }
  assert (forall m' s, zk_Members z !! m' = Some s -> s <= y_now y + ttl) as Hle.
  { intros m' s [[_ ->]|Hs]%Hmem; [lia|].
    destruct (leases_record y k m' s Hs) as (z0 & Hz0 & Hs0 & _).
    destruct (key_expires _ _ _ (ok_keys y Hok k z0 Hz0)) as (e & _ & He).
    by destruct (He m' s Hs0). }
  split; [split|].
  - destruct HE as [HE|(z0 & Hz0 & HE & Hsub)].
    + exists (y_now y + (ttl + minute)). split; [exact HE|]. intros m' s Hs. apply Hle in Hs. lia.
    + destruct (key_expires _ _ _ (ok_keys y Hok k z0 Hz0)) as (e & He & Hall).
      exists e. split; [congruence|]. intros m' s Hs. apply (Hall m').
      by apply (lookup_weaken (zk_Members z)).
  - rewrite HM. destruct (limit <=? _) eqn:Hlt; cbn [snd]; [done|]. apply Z.leb_gt in Hlt.
    rewrite map_size_insert_None by done. lia.
  - intros m' [s [[-> _]|Hs]%Hmem]; [by apply elem_of_union_l, elem_of_singleton|].
    destruct (leases_record y k m' s Hs) as (z0 & Hz0 & Hs0 & _).
    apply elem_of_union_r, (ok_named y Hok k z0 m'); [done | by eexists].
Qed.

(** A lease that has not ended survives a script run for a fresh name. *)
Lemma take_keeps kind y k m limit k' m' d :
  sys_ok y -> (k, m) ∉ y_names y -> (k', m') ∈ y_names y -> y_now y < d ->
  (exists z, y_store y !! k' = Some z /\ zk_Members z !! m' = Some d) ->
  exists z, (run_script kind (y_now y) k limit m ttl (y_store y)).2 !! k' = Some z /\
            zk_Members z !! m' = Some d.
Proof using Httl.
  intros Hok Hm Hm' Hd (z & Hz & Hzm).
  destruct (decide (k' = k)) as [->|Hk];
    [|exists z; split; [rewrite (script_local kind _ k limit m ttl _ k' Hk); exact Hz | exact Hzm]].
  pose proof (script_spec kind (y_now y) k limit m ttl (y_store y) Httl) as Hspec.
  pose proof (take_fresh kind y k m limit Hok Hm) as Hfresh.
  destruct (run_script kind (y_now y) k limit m ttl (y_store y)) as [[n granted] r'].
  rewrite Hfresh in Hspec. cbn zeta in Hspec. cbn [snd].
  assert (leases (y_now y) k (y_store y) !! m' = Some d) as Hl.
  { unfold leases, ZMEMBERS, zread. rewrite Hz.
    rewrite (live_key _ k z m' d (ok_keys y Hok k z Hz) Hzm Hd). by apply map_lookup_filter_Some. }
  assert (m' <> m) as Hne by (intros ->; by apply Hm).
  assert (ZMEMBERS (y_now y) k r' !! m' = Some d) as Hfinal.
  { destruct (limit <=? _); destruct Hspec as [_ ->]; [done|]. by rewrite lookup_insert_ne. }
  unfold ZMEMBERS in Hfinal. destruct (zread (y_now y) k r') as [z'|] eqn:Hz'; [|done].
  apply zread_live in Hz' as [Hz' _]. eauto.
Qed.

Lemma key_ok_later now d k z : 0 <= d -> key_ok now k z -> key_ok (now + d) k z.
Proof.
  intros Hd [(e & He & Hall) Hs]. split; [|done]. exists e. split; [done|].
  intros m s H. apply Hall in H. lia.
Qed.

Lemma ok_take kind k m limit fate y :
  sys_ok y -> (k, m) ∉ y_names y -> limit <= ceiling k -> sys_ok (take kind k m limit fate y).
Proof using Httl.
  intros Hok Hm Hlim. unfold take.
  pose proof (take_record kind y k m limit) as Hrec. pose proof (take_keeps kind y k m limit) as Hkeep.
  pose proof (script_spec kind (y_now y) k limit m ttl (y_store y) Httl) as Hspec.
  pose proof (script_local kind (y_now y) k limit m ttl) as Hloc.
  specialize (fun k' => Hloc (y_store y) k'). cbn beta in Hloc.
  rewrite (take_fresh kind y k m limit Hok Hm) in Hspec. cbn zeta in Hspec.
  destruct (run_script kind (y_now y) k limit m ttl (y_store y)) as [[n granted] r] eqn:Hrun. cbn [snd] in *.
  split; cbn [y_now y_store y_held y_names].
  - intros k' z Hz. destruct fate; try apply (ok_keys y Hok k' z Hz);
      (destruct (decide (k' = k)) as [->|Hk]; [by destruct (Hrec z Hok Hm Hlim Hz) | apply (ok_keys y Hok); by rewrite <- Hloc]).
  - intros k' z m' Hz Hin.
    assert (y_store y !! k' = Some z -> (k', m') ∈ {[(k, m)]} ∪ y_names y) as Hold
      by (intros; by apply elem_of_union_r, (ok_named y Hok k' z m')).
    destruct fate; auto;
      (destruct (decide (k' = k)) as [->|Hk]; [by destruct (Hrec z Hok Hm Hlim Hz) as [_ Hr]; apply Hr | apply Hold; by rewrite <- Hloc]).
  - intros k' m' d Hin.
    assert ((k', m', d) ∈ y_held y \/ (k' = k /\ m' = m /\ d = y_now y + ttl /\ fate = Answered /\ granted = 1)) as
      [Hold|(-> & -> & -> & -> & ->)].
    { destruct (bool_decide (fate = Answered) && (granted =? 1)) eqn:Hg; [|by left]. apply andb_true_iff in Hg as [Hf%bool_decide_eq_true Hg%Z.eqb_eq].
      apply elem_of_cons in Hin as [[= -> -> ->]|Hin]; [right | by left]. by split_and!. }
    + destruct (ok_held y Hok k' m' d Hold) as (Hn & Hle & Hlive). split_and!; [by apply elem_of_union_r | done|].
      intros Hd. specialize (Hkeep k' m' d Hok Hm Hn Hd (Hlive Hd)). destruct fate; auto.
    + split_and!; [by apply elem_of_union_l, elem_of_singleton | lia|]. intros _.
      destruct (limit <=? _); destruct Hspec as [Hg HM]; [done|].
      unfold ZMEMBERS in HM. destruct (zread (y_now y) k r) as [z|] eqn:Hz.
      * apply zread_live in Hz as [Hz _]. exists z. rewrite HM, lookup_insert_eq. done.
      * by apply (f_equal (fun M => M !! m)) in HM; rewrite lookup_insert_eq in HM.
  - destruct (bool_decide (fate = Answered) && _); [|apply (ok_distinct y Hok)]. rewrite fmap_cons. apply NoDup_cons. split; [|apply (ok_distinct y Hok)].
    intros ([[k' m'] d] & Heq & Hin)%list_elem_of_fmap. simpl in Heq. injection Heq as <- <-.
    by destruct (ok_held y Hok k m d Hin) as [? _].
Qed.

Lemma ok_give k m reached y : sys_ok y -> sys_ok (give k m reached y).
Proof.
  intros Hok. unfold give. split; cbn [y_now y_store y_held y_names].
  - intros k' z Hz. destruct reached; [|by apply (ok_keys y Hok)].
    destruct (decide (k' = k)) as [->|Hk]; [|apply (ok_keys y Hok); by rewrite <- (ZREM_local (y_now y) k m)].
    apply ZREM_record in Hz as (z0 & Hz0 & HE & HM). destruct (ok_keys y Hok k z0 Hz0) as [(e & He & Hall) Hs].
    split.
    + exists e. split; [congruence|]. intros m' s. rewrite HM. intros [_ H]%lookup_delete_Some. eauto.
    + rewrite HM. pose proof (map_subseteq_size _ _ (delete_subseteq (zk_Members z0) m)). lia.
  - intros k' z m' Hz Hin. destruct reached; [|by apply (ok_named y Hok k' z)].
    destruct (decide (k' = k)) as [->|Hk]; [|apply (ok_named y Hok k' z); [by rewrite <- (ZREM_local (y_now y) k m) | done]].
    apply ZREM_record in Hz as (z0 & Hz0 & HE & HM). apply (ok_named y Hok k z0); [done|].
    destruct Hin as [s Hin]. rewrite HM in Hin. apply lookup_delete_Some in Hin as [_ Hin]. by eexists.
  - intros k' m' d [Hne Hin]%elem_of_filter_rows. apply negb_true_iff, bool_decide_eq_false in Hne. simpl in Hne.
    destruct (ok_held y Hok k' m' d Hin) as (Hn & Hle & Hlive). split_and!; [done..|].
    intros Hd. destruct (Hlive Hd) as (z & Hz & Hzm). destruct reached; [|eauto].
    destruct (decide (k' = k)) as [->|Hk]; [|exists z; split; [by rewrite (ZREM_local (y_now y) k m) | done]].
    pose proof (live_key _ k z m' d (ok_keys y Hok k z Hz) Hzm Hd) as Hl.
    unfold ZREM, zread. rewrite Hz, Hl. unfold zwrite. rewrite bool_decide_false.
    + rewrite lookup_insert_eq. eexists. split; [done|]. cbn [zk_Members]. rewrite lookup_delete_ne; [done|congruence].
    + intros HM. apply (f_equal (fun M => M !! m')) in HM. cbn [zk_Members] in HM.
      rewrite lookup_delete_ne, Hzm in HM; [done | congruence].
  - pose proof (ok_distinct y Hok) as H. revert H.
    generalize (y_held y) as l. induction l as [|h l IH]; [done|]. cbn [List.filter]. rewrite fmap_cons.
    intros [Hh Hl]%NoDup_cons. case_match; [|auto]. rewrite fmap_cons. apply NoDup_cons. split; [|auto].
    intros (h' & Heq & Hin)%list_elem_of_fmap. apply Hh. rewrite Heq. apply list_elem_of_fmap_2.
    by apply elem_of_filter_rows in Hin as [_ ?].
Qed.

Lemma ok_pass d y : 0 <= d -> sys_ok y -> sys_ok (pass d y).
Proof.
  intros Hd [Hk Hn Hh Hdist]. split; cbn [pass y_now y_store y_held y_names]; [|exact Hn| |exact Hdist].
  - intros k z Hz. by apply key_ok_later, Hk.
  - intros k m e Hin. destruct (Hh k m e Hin) as (? & ? & Hlive). split_and!; [done | lia|].
    intros. apply Hlive. lia.
Qed.

Lemma sys_reachable_ok y : reachable y -> sys_ok y.
Proof using Httl.
  induction 1 as [|y y' _ IH Hs].
  - split; cbn; [by setoid_rewrite lookup_empty.. | | constructor]. by intros ??? ?%elem_of_nil.
  - destruct Hs; [by apply ok_take | by apply ok_give | by apply ok_pass].
Qed.
End System.
