(* ===== verification/ConcurrencyProps.v ===== *)
(** * Concurrency limits: properties

    The work in flight never exceeds a limit, an abandoned slot comes back, and the
    limiters of the code take and return slots exactly as the step relation does. *)

From S2P Require Import Prelude GoStrings Decimal UsageEvidence Request ConcurrencyLimit ConcurrencyFacts.
#[global] Open Scope Z_scope.

(** ** Counting holders *)

Lemma NoDup_submap (l : list (string * Z)) (M : gmap string Z) :
  NoDup l.*1 -> (forall m d, (m, d) ∈ l -> M !! m = Some d) -> (length l <= size M)%nat.
Proof.
  intros Hnd Hin. rewrite <- (length_map fst l).
  transitivity (size (dom M)); [|by rewrite size_dom].
  transitivity (size (list_to_set l.*1 : gset string)).
  - by rewrite size_list_to_set.
  - apply subseteq_size. intros m Hm. apply elem_of_list_to_set, list_elem_of_fmap in Hm as ([m' d] & -> & Hm).
    apply elem_of_dom. exists d. by apply Hin.
Qed.

Section System.
Context (ttl : Z) (ceiling : string -> Z).

(** The holders of a key whose lease has not ended. *)
Definition holders (k : string) (y : sys) : list (string * Z) :=
  (fun h : string * string * Z => (h.1.2, h.2)) <$>
  List.filter (fun h => bool_decide (h.1.1 = k) && (y_now y <? h.2)) (y_held y).

Lemma elem_of_holders k y m d : (m, d) ∈ holders k y <-> (k, m, d) ∈ y_held y /\ y_now y < d.
Proof.
  unfold holders. rewrite list_elem_of_fmap. split.
  - intros ([[k' m'] d'] & [= -> ->] & [H Hin]%elem_of_filter_rows). simpl in H.
    apply andb_true_iff in H as [->%bool_decide_eq_true H%Z.ltb_lt]. done.
  - intros [Hin Hd]. exists (k, m, d). split; [done|]. apply elem_of_filter_rows. split; [|done].
    simpl. rewrite bool_decide_true by done. by apply Z.ltb_lt.
Qed.

Lemma holders_distinct k y : NoDup (y_held y).*1 -> NoDup (holders k y).*1.
Proof.
  unfold holders. generalize (y_held y) as l. intros l.
  rewrite <- list_fmap_compose. induction l as [|[[k' m] d] l IH]; [constructor|].
  rewrite fmap_cons. intros [Hn Hl]%NoDup_cons. cbn [List.filter fst snd].
  destruct (bool_decide (k' = k) && _) eqn:Hb; [|auto]. rewrite fmap_cons. apply NoDup_cons. split; [|auto].
  apply andb_true_iff in Hb as [->%bool_decide_eq_true _].
  intros ([[k1 m1] d1] & Heq & [Hb Hin]%elem_of_filter_rows)%list_elem_of_fmap. simpl in Heq, Hb. subst m1.
  apply andb_true_iff in Hb as [->%bool_decide_eq_true _].
  apply Hn, list_elem_of_fmap. by exists (k, m, d1).
Qed.

Lemma holders_le_leases k y :
  sys_ok ttl ceiling y -> (length (holders k y) <= size (leases (y_now y) k (y_store y)))%nat.
Proof.
  intros Hok. apply NoDup_submap; [apply holders_distinct, (ok_distinct _ _ _ Hok)|].
  intros m d [Hin Hd]%elem_of_holders. by eapply held_lease.
Qed.

Context (Httl : 0 < ttl).

(** C18: whatever is acquired, released, lost on the way or abandoned by a crash, the
    holders of a key whose lease has not ended never outnumber the largest limit asked of
    that key, and each of them still owns a slot in Redis; and once [ttl] has
    passed without a new slot taken every slot is free again, those of crashed
    holders included, so that a new request is granted one. *)
Theorem slots_bounded y (Hr : reachable ttl ceiling y) :
  (forall k, Z.of_nat (length (holders k y)) <= Z.max 0 (ceiling k)) /\
  (forall k m d, (k, m, d) ∈ y_held y -> y_now y < d ->
     leases (y_now y) k (y_store y) !! m = Some d) /\
  (forall kind k m limit d, ttl <= d -> 1 <= limit <= ceiling k -> (k, m) ∉ y_names y ->
     let y' := take ttl kind k m limit Answered (pass d y) in
     (m, y_now y' + ttl) ∈ holders k y').
Proof using Httl.
  pose proof (sys_reachable_ok ttl ceiling Httl y Hr) as Hok. split_and!.
  - intros k. pose proof (holders_le_leases k y Hok). pose proof (leases_size ttl ceiling y k Hok). lia.
  - intros k m d. by apply held_lease with (ttl := ttl) (ceiling := ceiling).
  - intros kind k m limit d Hd Hlim Hm.
    assert (0 <= d) as Hd0 by lia.
    pose proof (ok_pass ttl ceiling d y Hd0 Hok) as Hok'.
    assert (leases (y_now (pass d y)) k (y_store (pass d y)) = ∅) as Hempty.
    { apply map_empty. intros m'. apply eq_None_not_Some. intros [s Hs].
      destruct (leases_record _ _ _ _ Hs) as (z & Hz & Hzm & Hlt). cbn [pass y_now y_store] in *.
      destruct (key_expires _ _ _ _ _ (ok_keys _ _ _ Hok k z Hz)) as (e & _ & Hall).
      apply Hall in Hzm as [? _]. lia. }
    pose proof (script_spec kind (y_now (pass d y)) k limit m ttl (y_store (pass d y)) Httl) as Hspec.
    rewrite (take_fresh ttl ceiling kind (pass d y) k m limit Hok' Hm), Hempty in Hspec.
    cbn zeta in Hspec. rewrite map_size_empty in Hspec.
    destruct (Z.leb_spec limit (Z.of_nat 0)) as [|_]; [lia|].
    cbn zeta. unfold take. destruct (run_script _ _ _ _ _ _ _) as [[n granted] r]. destruct Hspec as [-> _].
    rewrite bool_decide_true by done. apply elem_of_holders. cbn [y_held y_now pass andb Z.eqb Pos.eqb].
    split; [by constructor | lia].
Qed.
End System.

(** ** The limiters are the steps of the system *)

Lemma script_answer kind now k limit m ttl r : 0 < ttl ->
  (run_script kind now k limit m ttl r).1.2 = 0 \/ (run_script kind now k limit m ttl r).1.2 = 1.
Proof.
  intros Httl. pose proof (script_spec kind now k limit m ttl r Httl) as H.
  destruct (run_script _ _ _ _ _ _ _) as [[n g] r']. destruct (script_members _ _ _ _ _ _ _) as [[] after];
    destruct H as [-> _]; auto.
Qed.

(** ** [UpstreamConcurrencyLimiter] *)

(** [UpstreamConcurrencyLimiter.Acquire] is one step of the system, whatever
    becomes of its command: the store it leaves is that of [take], the caller holds a
    slot exactly when it gets one, and with the reply at hand it gets one exactly when
    [Available] would have said so (fewer leases than the limit). *)
Theorem upstream_slot_correct ttl ceiling y fate anonymous account attempt limit
    (Httl : 0 < ttl) (Hok : sys_ok ttl ceiling y)
    (Hnew : (upstream_key account, attempt) ∉ y_names y) (Hacc : account <> "") (Hatt : attempt <> "")
    (Hlim : 0 < limit) :
  let key := upstream_key account in
  let y' := take ttl UpstreamScript key attempt limit fate y in
  let '(res, r) := UpstreamAcquire (y_now y) (MkLink (y_now y) fate) anonymous account attempt limit ttl (y_store y) in
  r = y_store y' /\
  match res with
  | Ok slot => slot = Some (MkSlot key attempt) /\ y_held y' = (key, attempt, y_now y + ttl) :: y_held y
  | Err e => y_held y' = y_held y /\ (fate = Answered <-> e = ErrRateLimitExceeded)
  end /\
  (fate = Answered ->
     UpstreamAvailable (y_now y) (MkLink (y_now y) Answered) account limit (y_store y)
     = Some (match res with Ok _ => true | Err _ => false end)).
Proof.
  cbn zeta. unfold UpstreamAcquire, UpstreamAvailable, take.
  destruct (Z.leb_spec limit 0); [lia|]. rewrite bool_decide_false by done. cbn [orb].
  destruct (Z.leb_spec ttl 0); [lia|]. unfold if_empty. rewrite bool_decide_false by done.
  unfold send. cbn [lk_Fate lk_Server].
  change (upstreamConcurrencyAcquireScript (y_now y) (upstream_key account) (y_now y) (y_now y + ttl) limit
    attempt (ttl + minute) (y_store y))
    with (run_script UpstreamScript (y_now y) (upstream_key account) limit attempt ttl (y_store y)).
  pose proof (script_spec UpstreamScript (y_now y) (upstream_key account) limit attempt ttl (y_store y) Httl) as Hspec.
  rewrite (take_fresh ttl ceiling UpstreamScript y (upstream_key account) attempt limit Hok Hnew) in Hspec.
  destruct (run_script _ _ _ _ _ _ _) as [[n granted] r].
  assert (forall b, ((b = true <-> granted = 1) /\ (b = false <-> granted = 0)) ->
    Some (ZCOUNT (y_now y) (upstream_key account) (y_now y + 1) (y_store y) <? limit) = Some b) as Hav.
  { intros b [Hb1 Hb0]. f_equal.
    assert (ZCOUNT (y_now y) (upstream_key account) (y_now y + 1) (y_store y)
            = Z.of_nat (size (leases (y_now y) (upstream_key account) (y_store y)))) as ->.
    { unfold ZCOUNT, leases. do 2 f_equal. apply map_filter_ext. intros i s _. simpl. lia. }
    cbn zeta in Hspec. destruct (limit <=? _) eqn:Hl; destruct Hspec as [-> _];
      [apply Z.leb_le in Hl | apply Z.leb_gt in Hl].
    - destruct b; [by destruct Hb1 as [Hb1 _]; specialize (Hb1 eq_refl) | apply Z.ltb_ge; lia].
    - destruct b; [apply Z.ltb_lt; lia | by destruct Hb0 as [Hb0 _]; specialize (Hb0 eq_refl)]. }
  assert (granted = 0 \/ granted = 1) as Hg by (cbn zeta in Hspec; destruct (limit <=? _); destruct Hspec; auto).
  destruct fate; cbn [fst snd fmap option_fmap option_map]; [|split_and!; try done..].
  destruct Hg as [-> | ->]; cbn [Z.eqb Pos.eqb]; rewrite bool_decide_true by done; split_and!; try done;
    intros _; apply Hav; split; split; done.
Qed.

(** ** [RateLimiter] *)

Section Caller.
Context (ceiling : string -> Z) (id : string).
#[local] Abbreviation T := RequestLeaseTTL.
#[local] Abbreviation steps := (rtc (step T ceiling)).

Lemma lease_positive : 0 < T.
Proof. reflexivity. Qed.

Lemma steps_reachable y y' : steps y y' -> reachable T ceiling y -> reachable T ceiling y'.
Proof. induction 1; [done|]. intros Hr. by apply IHrtc, (reachable_step _ _ x). Qed.

(** Links of this instant. *)
Definition at_now (y : sys) (links : nat -> link) : Prop := forall i, lk_Server (links i) = y_now y.

Lemma release_steps ks : forall links y, at_now y links ->
  exists y', steps y y' /\ y_now y' = y_now y /\ y_names y' = y_names y /\
    y_store y' = LeaseRelease links (MkLease id ks) (y_store y) /\
    (forall h, h ∈ y_held y' <-> h ∈ y_held y /\ forall k, k ∈ ks -> h.1 <> (k, id)) /\
    ((forall i, lk_Fate (links i) = Answered) ->
     forall k, leases (y_now y) k (y_store y')
       = if bool_decide (k ∈ ks) then delete id (leases (y_now y) k (y_store y)) else leases (y_now y) k (y_store y)).
Proof.
  induction ks as [|key ks IH]; intros links y Hnow.
  { exists y. split; [reflexivity|]. do 3 (split; [done|]). split.
    - intros h. split; [|by intros []]. intros Hh. split; [done|]. by intros ? ?%elem_of_nil.
    - intros _ k. by rewrite bool_decide_false by apply not_elem_of_nil. }
  set (reached := negb (bool_decide (lk_Fate (links 0%nat) = NotSent))).
  destruct (IH (fun i => links (S i)) (give key id reached y)) as (y' & Hs & Ht & Hn & Hst & Hh & Hl).
  { intros i. apply Hnow. }
  exists y'. split_and!.
  - eapply rtc_l; [apply (step_give T ceiling y key id reached) | done].
  - done.
  - done.
  - rewrite Hst. unfold LeaseRelease. cbn [cl_Keys cl_RequestID]. rewrite imap_cons. cbn [foldl]. f_equal.
    unfold give, send, reached. cbn [y_store]. rewrite (Hnow 0%nat). by destruct (lk_Fate (links 0%nat)).
  - intros h. rewrite Hh. unfold give. cbn [y_held]. rewrite elem_of_filter_rows, negb_true_iff, bool_decide_eq_false.
    setoid_rewrite elem_of_cons. split.
    + intros [[Hne Hin] Hks]. split; [done|]. intros k [->|Hk]; [done | by apply Hks].
    + intros [Hin Hks]. split; [split; [apply Hks; by left | done]|]. intros k Hk. apply Hks. by right.
  - intros Hans k. rewrite Hl by auto. cbn [give y_store y_now]. unfold reached. rewrite (Hans 0%nat).
    assert (leases (y_now y) k (ZREM (y_now y) key id (y_store y))
      = if bool_decide (k = key) then delete id (leases (y_now y) k (y_store y)) else leases (y_now y) k (y_store y)) as Hz.
    { unfold leases. case_bool_decide as Hk; [subst k|].
      - by rewrite ZREM_members, map_filter_delete.
      - by rewrite (ZMEMBERS_ext _ _ _ _ (ZREM_local (y_now y) key id (y_store y) k Hk)). }
    rewrite (bool_decide_false (Answered = NotSent)) by done. cbn [negb]. rewrite Hz.
    rewrite (bool_decide_ext (k ∈ key :: ks) (k = key \/ k ∈ ks)) by apply elem_of_cons.
    rewrite bool_decide_or. case_bool_decide; case_bool_decide; cbn [orb]; by rewrite ?delete_delete_eq.
Qed.

Lemma acquire_slot_take y l key limit ks :
  sys_ok T ceiling y -> (key, id) ∉ y_names y -> lk_Server l = y_now y ->
  let y' := take T CallerScript key id limit (lk_Fate l) y in
  let '(res, r) := acquire_slot (y_now y) l key limit (MkLease id ks) (y_store y) in
  r = y_store y' /\
  match res with
  | Ok lease => lease = MkLease id (ks ++ [key]) /\ y_held y' = (key, id, y_now y + T) :: y_held y
  | Err e => y_held y' = y_held y /\
      (lk_Fate l = Answered -> e = ErrRateLimitExceeded /\
         forall k, leases (y_now y) k r = leases (y_now y) k (y_store y))
  end.
Proof.
  intros Hok Hnew Hl. cbn zeta. unfold acquire_slot, take, send. cbn [cl_RequestID cl_Keys]. rewrite Hl.
  change (concurrencyAcquireScript (y_now y) key (y_now y) (y_now y + T) limit id (T + minute) (y_store y))
    with (run_script CallerScript (y_now y) key limit id T (y_store y)).
  pose proof (script_spec CallerScript (y_now y) key limit id T (y_store y) lease_positive) as Hspec.
  rewrite (take_fresh T ceiling CallerScript y key id limit Hok Hnew) in Hspec. cbn zeta in Hspec.
  pose proof (script_local CallerScript (y_now y) key limit id T (y_store y)) as Hloc. cbn beta in Hloc.
  destruct (run_script _ _ _ _ _ _ _) as [[n granted] r]. cbn [snd] in Hloc.
  destruct (lk_Fate l); cbn [fst snd]; [|split_and!; try done..].
  destruct (limit <=? _); destruct Hspec as [-> HM]; cbn [Z.eqb Pos.eqb]; rewrite bool_decide_true by done.
  - split_and!; try done. intros _. split; [done|]. intros k. destruct (decide (k = key)) as [->|Hk].
    + unfold leases at 1. rewrite HM. unfold leases. by rewrite map_filter_filter_l by (by intros).
    + unfold leases. by rewrite (ZMEMBERS_ext _ _ _ _ (Hloc k Hk)).
  - by split_and!.
Qed.

(** Other keys' slots are untouched, and taking a slot back leaves the key's others. *)
Lemma take_elsewhere y key limit fate k : k <> key ->
  leases (y_now y) k (y_store (take T CallerScript key id limit fate y)) = leases (y_now y) k (y_store y).
Proof.
  intros Hk. unfold take.
  pose proof (script_local CallerScript (y_now y) key limit id T (y_store y) k Hk) as Hloc. cbn beta in Hloc.
  destruct (run_script _ _ _ _ _ _ _) as [[n g] r]. cbn [snd y_store] in *.
  unfold leases. destruct fate; by rewrite ?(ZMEMBERS_ext _ _ _ _ Hloc).
Qed.

Lemma take_back y key limit fate :
  sys_ok T ceiling y -> (key, id) ∉ y_names y ->
  delete id (leases (y_now y) key (y_store (take T CallerScript key id limit fate y)))
  = delete id (leases (y_now y) key (y_store y)).
Proof.
  intros Hok Hnew. unfold take.
  pose proof (script_spec CallerScript (y_now y) key limit id T (y_store y) lease_positive) as Hspec.
  rewrite (take_fresh T ceiling CallerScript y key id limit Hok Hnew) in Hspec. cbn zeta in Hspec.
  destruct (run_script _ _ _ _ _ _ _) as [[n g] r]. cbn [y_store].
  assert (delete id (leases (y_now y) key r) = delete id (leases (y_now y) key (y_store y))) as H.
  { unfold leases at 1. destruct (limit <=? _); destruct Hspec as [_ ->].
    - unfold leases. by rewrite map_filter_filter_l by (by intros).
    - rewrite <- map_filter_delete, delete_insert_eq, map_filter_delete. f_equal.
      unfold leases. by rewrite map_filter_filter_l by (by intros). }
  by destruct fate.
Qed.

(** The slots in turn, from a state where [ks] are held already. *)
Lemma acquire_slots_steps links released slots : forall ks y,
  reachable T ceiling y -> at_now y links -> at_now y released -> NoDup slots.*1 ->
  (forall k n, (k, n) ∈ slots -> n <= ceiling k /\ (k, id) ∉ y_names y) ->
  let '(res, r) := acquire_slots (y_now y) links released slots (MkLease id ks) (y_store y) in
  exists y', steps y y' /\ y_now y' = y_now y /\ y_store y' = r /\
    match res with
    | Ok lease => lease = MkLease id (ks ++ slots.*1) /\
        forall h, h ∈ y_held y' <-> h ∈ y_held y \/ exists k, k ∈ slots.*1 /\ h = (k, id, y_now y + T)
    | Err e =>
        (forall h, h ∈ y_held y' <-> h ∈ y_held y /\ forall k, k ∈ ks -> h.1 <> (k, id)) /\
        ((forall i, lk_Fate (links i) = Answered /\ lk_Fate (released i) = Answered) ->
         e = ErrRateLimitExceeded /\
         forall k, leases (y_now y) k r
           = if bool_decide (k ∈ ks) then delete id (leases (y_now y) k (y_store y))
             else leases (y_now y) k (y_store y))
    end.
Proof.
  induction slots as [|[key limit] slots IH]; intros ks y Hr Hnow Hrel Hnd Hslots; cbn [acquire_slots].
  { exists y. split; [reflexivity|]. split_and!; [done..| |].
    - by rewrite app_nil_r.
    - intros h. split; [by left|]. intros [Hh|(k & Hk & _)]; [done | by apply elem_of_nil in Hk]. }
  cbn [cl_Keys]. rewrite fmap_cons in Hnd. apply NoDup_cons in Hnd as [Hkey Hnd].
  destruct (Hslots key limit) as [Hlim Hnew]; [by left|].
  pose proof (sys_reachable_ok T ceiling lease_positive y Hr) as Hok.
  pose proof (acquire_slot_take y (links (length ks)) key limit ks Hok Hnew (Hnow _)) as Hone.
  destruct (acquire_slot _ _ _ _ _ _) as [res r]. destruct Hone as [-> Hone].
  set (fate := lk_Fate (links (length ks))) in *. set (y1 := take T CallerScript key id limit fate y) in *.
  assert (step T ceiling y y1) as Hstep by (by apply step_take).
  assert (y_now y1 = y_now y /\ y_names y1 = {[(key, id)]} ∪ y_names y) as [Hn1 Hm1].
  { unfold y1, take. by destruct (run_script _ _ _ _ _ _ _) as [[] ]. }
  destruct res as [lease|e].
  - destruct Hone as [-> Hh1].
    specialize (IH (ks ++ [key]) y1). rewrite Hn1 in IH.
    specialize (IH (reachable_step T ceiling y y1 Hr Hstep)).
    destruct (acquire_slots _ _ _ _ _ _) as [res r].
    destruct IH as (y' & Hs & Ht & Hst & Hres).
    { intros i. by rewrite Hn1. } { intros i. by rewrite Hn1. } { done. }
    { intros k n Hin. destruct (Hslots k n) as [Hl Hk]; [by right|]. split; [done|].
      rewrite Hm1, not_elem_of_union, not_elem_of_singleton. split; [|done].
      intros [= ->]. apply Hkey. by apply (list_elem_of_fmap_2 fst) in Hin. }
    exists y'. split; [by eapply rtc_l|]. split; [done|]. split; [done|].
    destruct res as [lease|e].
    + destruct Hres as [-> Hh]. split; [by rewrite fmap_cons, <- app_assoc|].
      intros h. rewrite Hh, Hh1, fmap_cons. setoid_rewrite elem_of_cons. split.
      * intros [[->|Hin]|(k & Hk & ->)]; [right; exists key; auto | by left | right; exists k; auto].
      * intros [Hin|(k & [->|Hk] & ->)]; [left; by right | left; by left | right; eauto].
    + destruct Hres as [Hh Hans]. split.
      * intros h. rewrite Hh, Hh1. setoid_rewrite elem_of_app. setoid_rewrite elem_of_cons. split.
        -- intros [[->|Hin] Hks]; [exfalso; apply (Hks key); [right; by left | done]|].
           split; [done|]. intros k Hk. apply Hks. by left.
        -- intros [Hin Hks]. split; [by right|]. intros k [Hk|[->|Hk]]; [by apply Hks | | by apply elem_of_nil in Hk].
           intros Heq. destruct h as [[k' m'] d]. simpl in Heq. injection Heq as -> ->.
           by destruct (ok_held _ _ _ Hok key id d Hin).
      * intros Hall. destruct (Hans Hall) as [-> Hl]. split; [done|]. intros k. rewrite Hl.
        destruct (decide (k = key)) as [->|Hk].
        -- rewrite bool_decide_true by (apply elem_of_app; right; by left).
           unfold y1. rewrite (take_back y key limit fate Hok Hnew).
           case_bool_decide; [done|]. apply delete_id, fresh_lease with (ttl := T) (ceiling := ceiling); done.
        -- rewrite (bool_decide_ext (k ∈ ks ++ [key]) (k ∈ ks))
             by (rewrite elem_of_app, list_elem_of_singleton; tauto).
           unfold y1. by rewrite (take_elsewhere y key limit fate k Hk).
  - destruct Hone as [Hh1 Hans].
    destruct (release_steps ks released y1) as (y' & Hs & Ht & _ & Hst & Hh & Hl).
    { intros i. by rewrite Hn1. }
    exists y'. split; [by eapply rtc_l|]. split; [by rewrite Ht|]. split; [done|]. split.
    + intros h. by rewrite Hh, Hh1.
    + intros Hall. destruct (Hans (proj1 (Hall _))) as [-> Hsame]. split; [done|]. intros k.
      rewrite <- Hst, <- (Hsame k). rewrite <- Hn1. rewrite (Hl (fun i => proj2 (Hall i)) k). done.
Qed.

(** [RateLimiter.Acquire] is a run of the system and takes all its slots or none,
    whatever the network does: on success the request holds exactly one slot of every
    scope that limits it, and releasing the lease leaves the holders as they were; on
    an error it holds nothing, and when every command was answered the error is an
    exhausted limit and no key has changed a lease. *)
Theorem Acquire_all_or_nothing y defaultInFlight links released anonymous sj policies
    (Hr : reachable T ceiling y) (Hid : id <> "") (Hnow : at_now y links) (Hrel : at_now y released)
    (Hnd : NoDup (wanted_slots defaultInFlight sj policies).*1)
    (Hslots : forall k n, (k, n) ∈ wanted_slots defaultInFlight sj policies ->
       n <= ceiling k /\ (k, id) ∉ y_names y) :
  let slots := wanted_slots defaultInFlight sj policies in
  let '(res, r) := RateLimiterAcquire defaultInFlight (y_now y) links released anonymous (Some sj) id
                     (Some policies) (y_store y) in
  exists y', reachable T ceiling y' /\ y_now y' = y_now y /\ y_store y' = r /\
    match res with
    | Ok lease =>
        lease = (if bool_decide (slots = []) then None else Some (MkLease id slots.*1)) /\
        (forall h, h ∈ y_held y' <-> h ∈ y_held y \/ exists k, k ∈ slots.*1 /\ h = (k, id, y_now y + T)) /\
        exists y'', reachable T ceiling y'' /\
          y_store y'' = LeaseRelease released (MkLease id slots.*1) r /\
          forall h, h ∈ y_held y'' <-> h ∈ y_held y
    | Err e =>
        (forall h, h ∈ y_held y' <-> h ∈ y_held y) /\
        ((forall i, lk_Fate (links i) = Answered /\ lk_Fate (released i) = Answered) ->
         e = ErrRateLimitExceeded /\
         forall k, leases (y_now y) k r = leases (y_now y) k (y_store y))
    end.
Proof.
  cbn zeta. unfold RateLimiterAcquire, if_empty. rewrite bool_decide_false by done.
  set (slots := wanted_slots defaultInFlight sj policies) in *.
  pose proof (acquire_slots_steps links released slots [] y Hr Hnow Hrel Hnd Hslots) as H.
  destruct (acquire_slots _ _ _ _ _ _) as [res r]. destruct H as (y' & Hs & Ht & Hst & Hres).
  pose proof (steps_reachable _ _ Hs Hr) as Hr'.
  destruct res as [lease|e]; exists y'; (split; [done|]; split; [done|]; split; [done|]).
  - destruct Hres as [-> Hh]. cbn [cl_Keys app]. split; [|split; [done|]].
    + destruct slots; [by rewrite !bool_decide_true | by rewrite !bool_decide_false].
    + destruct (release_steps slots.*1 released y') as (y'' & Hs' & _ & _ & Hst' & Hh' & _).
      { intros i. by rewrite Ht. }
      exists y''. split; [by eapply steps_reachable|]. split; [by rewrite Hst', Hst|].
      intros h. rewrite Hh', Hh. split.
      * intros [[Hin|(k & Hk & ->)] Hks]; [done | by destruct (Hks k Hk)].
      * intros Hin. split; [by left|]. intros k Hk Heq.
        apply list_elem_of_fmap in Hk as ([k' n] & -> & Hk). destruct (Hslots k' n Hk) as [_ Hnew]. apply Hnew.
        destruct h as [[k1 m1] d]. simpl in Heq. injection Heq as -> ->.
        by destruct (ok_held _ _ _ (sys_reachable_ok T ceiling lease_positive y Hr) k' id d Hin).
  - destruct Hres as [Hh Hans]. split.
    + intros h. rewrite Hh. split; [by intros [] | intros; split; [done | by intros ? ?%elem_of_nil]].
    + intros Hall. destruct (Hans Hall) as [-> Hl]. split; [done|]. intros k. rewrite Hl.
      by rewrite bool_decide_false by apply not_elem_of_nil.
Qed.
End Caller.

(** ** A concrete run *)

Definition demo_caller : Subject := MkSubject "jwt" "web_chat" "user" "t1" "u1" "" "" [] None 0 "".
Definition demo_key : string := default_key "tenant" "t1".
Definition demo_link (i : nat) : link := MkLink 0 Answered.

Definition granted {E A} (r : result E A) : bool := match r with Ok _ => true | Err _ => false end.

(** Two slots of the tenant: the third request of the tenant is refused, one released
    slot is enough for the next. *)
Example demo_limit :
  let acquire id r := RateLimiterAcquire 2 0 demo_link demo_link "" (Some demo_caller) id (Some []) r in
  let '(r1, w1) := acquire "a" ∅ in
  let '(r2, w2) := acquire "b" w1 in
  let '(r3, w3) := acquire "c" w2 in
  let '(r4, _) := acquire "d" (LeaseRelease demo_link (MkLease "a" [demo_key; default_key "user" "u1"]) w3) in
  (granted r1, granted r2, r3, granted r4) = (true, true, Err ErrRateLimitExceeded, true).
Proof. vm_compute. reflexivity. Qed.

Definition demo_sys : sys := take 1000 UpstreamScript "k" "a" 1 Answered sys_start.

Lemma demo_sys_reachable : reachable 1000 (fun _ => 1) demo_sys.
Proof. eapply reachable_step; [constructor|]. by apply step_take. Qed.

Lemma slots_bounded_witness :
  Z.of_nat (length (holders "k" demo_sys)) <= 1 /\ holders "k" demo_sys = [("a"%string, 1000)] /\
  ("b"%string, 2000) ∈ holders "k" (take 1000 CallerScript "k" "b" 1 Answered (pass 1000 demo_sys)).
Proof.
  destruct (slots_bounded 1000 (fun _ => 1) ltac:(lia) demo_sys demo_sys_reachable) as (H1 & _ & H3).
  split; [apply (H1 "k"%string)|]. split; [vm_compute; reflexivity|].
  apply (H3 CallerScript "k"%string "b"%string 1 1000); [lia | lia|].
  vm_compute. by intros [=].
Defined.
