(* ===== verification/CommercialDB.v ===== *)
(** * The commercial tables

    The rows behind a tenant's groups and the price books they sell from:
    [src/internal/db/init.sql] with the types of [src/internal/ai/commercial]
    ([types.go], [repository.go]), [src/internal/ai/domain/price_book.go] and
    [src/internal/ai/core/surface].  Identities are the canonical text of UUID
    columns; timestamps nobody reads are left out. *)

From Stdlib Require Import QArith.
From S2P Require Import Prelude GoStrings Decimal PriceTiers.
#[global] Open Scope Z_scope.

Definition str_eq (a b : string) : bool := bool_decide (a = b).

(** ** Surfaces ([surface.go]) *)

Definition OpenAIChat : string := "openai_chat".
Definition OpenAIResponses : string := "openai_responses".
Definition OpenAIEmbeddings : string := "openai_embeddings".
Definition AnthropicMessages : string := "anthropic_messages".
Definition GeminiText : string := "gemini_text".
Definition GeminiEmbeddings : string := "gemini_embeddings".
Definition OpenAIImages : string := "openai_images".
Definition GeminiImages : string := "gemini_images".

(** [Known], [IsKnown] *)
Definition Known : list string :=
  [OpenAIChat; OpenAIResponses; OpenAIEmbeddings; AnthropicMessages; GeminiText; GeminiEmbeddings;
   OpenAIImages; GeminiImages].
Definition IsKnown (id : string) : bool := bool_decide (id ∈ Known).

(** ** Rows *)

Definition StatusActive : string := "active".
Definition StatusDisabled : string := "disabled".

(** [ai_groups] *)
Record Group := MkGroup {
  gr_ID : string;
  gr_TenantID : string;
  gr_Name : string;
  gr_Description : string;
  gr_RetailPriceBookID : string;
  gr_DefaultUserMultiplier : float64;
  gr_UserDefaultVisible : bool;
  gr_AllowProtocolConversion : bool;
  gr_RoutePolicy : string;
  gr_RoutePolicyVersion : Z;
  gr_Status : string;
  gr_SortOrder : Z }.

(** [ai_group_client_surfaces] *)
Record GroupClientSurface := MkSurface {
  cs_GroupID : string; cs_Surface : string; cs_BridgeEnabled : bool; cs_Status : string }.

(** [ai_group_targets] *)
Record GroupTarget := MkTarget {
  gt_ID : string; gt_GroupID : string; gt_TargetKind : string; gt_TargetID : string;
  gt_Priority : Z; gt_Status : string }.

(** [ai_group_model_dispatch_rules] *)
Record DispatchRule := MkRule {
  dr_ID : string; dr_GroupID : string; dr_ClientSurface : string; dr_MatchType : string;
  dr_MatchValue : string; dr_TargetModelID : string; dr_Priority : Z; dr_Status : string;
  dr_Notes : string; dr_CreatedAt : Z }.

(** [ai_user_groups] *)
Record UserGroupBinding := MkUserBinding {
  ub_TenantID : string; ub_UserID : string; ub_GroupID : string;
  ub_UserMultiplierOverride : option float64 }.

(** [ai_price_books] *)
Record PriceBook := MkBook {
  pb_ID : string; pb_OwnerType : string; pb_OwnerTenantID : string; pb_Name : string;
  pb_Description : string; pb_Status : string; pb_Revision : Z }.

(** The view [ai_upstream_resources], as far as the groups read it. *)
Record Resource := MkResource {
  rs_Kind : string; rs_ID : string; rs_Status : string; rs_Public : bool }.

(** The tables.  The last five are written elsewhere: resources and the tenants they are
    granted to, and the rows that refer to a group or a price book (API keys, the
    groups of subscription plans, upstream accounts and credential pools). *)
Record cdb := MkCDB {
  c_groups : list Group;
  c_surfaces : list GroupClientSurface;
  c_targets : list GroupTarget;
  c_rules : list DispatchRule;
  c_users : list UserGroupBinding;
  c_books : list PriceBook;
  c_entries : list PriceBookEntry;
  c_resources : list Resource;
  c_granted : list (string * string * string);   (* kind, resource, tenant *)
  c_key_groups : list string;
  c_plan_groups : list (string * string);   (* plan, group *)
  c_cost_books : list string }.

Definition with_groups (x : list Group) (d : cdb) : cdb :=
  MkCDB x (c_surfaces d) (c_targets d) (c_rules d) (c_users d) (c_books d) (c_entries d) (c_resources d)
    (c_granted d) (c_key_groups d) (c_plan_groups d) (c_cost_books d).
Definition with_surfaces (x : list GroupClientSurface) (d : cdb) : cdb :=
  MkCDB (c_groups d) x (c_targets d) (c_rules d) (c_users d) (c_books d) (c_entries d) (c_resources d)
    (c_granted d) (c_key_groups d) (c_plan_groups d) (c_cost_books d).
Definition with_targets (x : list GroupTarget) (d : cdb) : cdb :=
  MkCDB (c_groups d) (c_surfaces d) x (c_rules d) (c_users d) (c_books d) (c_entries d) (c_resources d)
    (c_granted d) (c_key_groups d) (c_plan_groups d) (c_cost_books d).
Definition with_rules (x : list DispatchRule) (d : cdb) : cdb :=
  MkCDB (c_groups d) (c_surfaces d) (c_targets d) x (c_users d) (c_books d) (c_entries d) (c_resources d)
    (c_granted d) (c_key_groups d) (c_plan_groups d) (c_cost_books d).
Definition with_users (x : list UserGroupBinding) (d : cdb) : cdb :=
  MkCDB (c_groups d) (c_surfaces d) (c_targets d) (c_rules d) x (c_books d) (c_entries d) (c_resources d)
    (c_granted d) (c_key_groups d) (c_plan_groups d) (c_cost_books d).
Definition with_books (x : list PriceBook) (d : cdb) : cdb :=
  MkCDB (c_groups d) (c_surfaces d) (c_targets d) (c_rules d) (c_users d) x (c_entries d) (c_resources d)
    (c_granted d) (c_key_groups d) (c_plan_groups d) (c_cost_books d).
Definition with_entries (x : list PriceBookEntry) (d : cdb) : cdb :=
  MkCDB (c_groups d) (c_surfaces d) (c_targets d) (c_rules d) (c_users d) (c_books d) x (c_resources d)
    (c_granted d) (c_key_groups d) (c_plan_groups d) (c_cost_books d).

(** ** Errors *)

(** [ErrConflict] is a unique violation, [ErrCheck] a CHECK constraint; a price
    conflict lists the rules without a price. *)
Inductive com_error :=
| ErrValidation (field : string)
| ErrNotFound
| ErrConflict
| ErrCheck
| ErrOutOfRange
| ErrRoutePolicyConflict (groupID : string) (expected actual : Z)
| ErrRulePriceConflict (rules : list string)
| ErrGroupInUse (groupID : string)
| ErrStillReferenced (n : Z).

Abbreviation CTx := (Tx cdb com_error).

(** [SELECT ... ] that must find a row. *)
Definition tx_row {A} (r : option A) : CTx A :=
  match r with Some a => tx_ret a | None => tx_fail ErrNotFound end.

(** ** Columns *)

(** [floatToNumeric] through its text form; an infinity has none the driver takes. *)
Definition floatToNumeric (v : float64) : option float64 :=
  match v with PosInf | NegInf => None | _ => Some v end.

(** A non-negative value stored in a NUMERIC column with [scale] decimals (as a power
    of ten) and at most [digits] digits in all. *)
Definition numeric_column (scale : positive) (digits : Z) (v : float64) : CTx float64 :=
  match v with
  | Finite q =>
      let n := RoundHalfUpRatToInt64 (Qmult q (inject_Z (Z.pos scale))) in
      if n <? 10 ^ digits then tx_ret (Finite (Qmake n scale)) else tx_fail ErrOutOfRange
  | _ => tx_ret v
  end.
Definition numeric_10_4 : float64 -> CTx float64 := numeric_column 10000 10.

(** ** Queries shared by the repositories *)

(** [dispatchRequiredCapability] ([dispatch_integrity.go]) *)
Definition dispatchRequiredCapability (apiFormat : string) : string :=
  if str_eq apiFormat "openai_embeddings" || str_eq apiFormat "gemini_embeddings" then "embedding"
  else if str_eq apiFormat "openai_images" || str_eq apiFormat "gemini_images" then "image"
  else "chat".

Definition entry_at (book model capability : string) (e : PriceBookEntry) : bool :=
  str_eq (en_PriceBookID e) book && str_eq (en_ModelCode e) model && str_eq (en_CapabilityType e) capability.
Definition has_price (d : cdb) (book model capability : string) : bool :=
  existsb (entry_at book model capability) (c_entries d).

Definition find_book (id : string) (d : cdb) : option PriceBook := find_key pb_ID id (c_books d).
Definition tenant_group (tenant id : string) (g : Group) : bool :=
  str_eq (gr_ID g) id && str_eq (gr_TenantID g) tenant.
Definition find_group (tenant id : string) (d : cdb) : option Group :=
  List.find (tenant_group tenant id) (c_groups d).

(** A book a tenant may sell from. *)
Definition book_usable (tenant : string) (b : PriceBook) : bool :=
  str_eq (pb_Status b) "active" &&
  (str_eq (pb_OwnerType b) "platform" ||
   (str_eq (pb_OwnerType b) "tenant" && str_eq (pb_OwnerTenantID b) tenant)).

(** ** Facts *)

Lemma str_eq_true a b : str_eq a b = true <-> a = b.
Proof. apply bool_decide_eq_true. Qed.
Lemma str_eq_false a b : str_eq a b = false <-> a <> b.
Proof. apply bool_decide_eq_false. Qed.
Lemma str_eq_refl a : str_eq a a = true.
Proof. by apply str_eq_true. Qed.
