(* ===== verification/Surfaces.v ===== *)
(** * Surfaces, protocols and the bridge matrix

    The translation between the surfaces of the control plane and the protocols of the
    serving pipeline ([src/internal/ai/runtimecompat]), and which pairs of surfaces the
    bridge runtime converts and in what order it prefers them
    ([src/internal/ai/adapters/bridgefmt/runtime.go],
    [src/internal/ai/core/bridge/registry.go], [src/internal/ai/formats/matrix.go],
    [src/internal/ai/adapters/postgres/bridge_support.go]). *)

From S2P Require Import Prelude GoStrings UsageEvidence CommercialDB.
#[global] Open Scope Z_scope.

(** ** Capabilities and protocols *)

(** [catalog.Capability] *)
Definition CoreChat : string := "chat".
Definition CoreEmbedding : string := "embedding".
Definition CapabilityImageGeneration : string := "image_generation".
Definition CapabilityImageEdit : string := "image_edit".
Definition CoreAudioTTS : string := "audio_tts".
Definition CoreAudioSTT : string := "audio_stt".
Definition CapabilityVideoGeneration : string := "video_generation".

(** [CapabilityToCore]: from [domain.CapabilityType]. *)
Definition CapabilityToCore (capability : string) : string :=
  if str_eq capability "embedding" then CoreEmbedding
  else if str_eq capability "image" then CapabilityImageGeneration
  else if str_eq capability "audio_tts" then CoreAudioTTS
  else if str_eq capability "audio_stt" then CoreAudioSTT
  else if str_eq capability "video" then CapabilityVideoGeneration
  else CoreChat.

(** [CapabilityFromCore] *)
Definition CapabilityFromCore (capability : string) : string :=
  if str_eq capability CoreEmbedding then "embedding"
  else if str_eq capability CapabilityImageGeneration || str_eq capability CapabilityImageEdit then "image"
  else if str_eq capability CoreAudioTTS then "audio_tts"
  else if str_eq capability CoreAudioSTT then "audio_stt"
  else if str_eq capability CapabilityVideoGeneration then "video"
  else "chat".

Definition image_capability (capability : string) : bool :=
  str_eq capability CapabilityImageGeneration || str_eq capability CapabilityImageEdit.

(** [domain.UpstreamProtocol]; the others are in [UsageEvidence]. *)
Definition ProtocolOpenAIChat : string := "openai_chat".
Definition ProtocolOpenAIImages : string := "openai_images".

(** [ProtocolToSurface]: [None] is an unsupported protocol. *)
Definition ProtocolToSurface (protocol : string) : option string :=
  if str_eq protocol ProtocolOpenAIChat then Some OpenAIChat
  else if str_eq protocol ProtocolOpenAIResponses then Some OpenAIResponses
  else if str_eq protocol ProtocolOpenAIEmbeddings then Some OpenAIEmbeddings
  else if str_eq protocol ProtocolAnthropicMessages then Some AnthropicMessages
  else if str_eq protocol ProtocolGeminiGenerate then Some GeminiText
  else if str_eq protocol ProtocolGeminiEmbeddings then Some GeminiEmbeddings
  else if str_eq protocol ProtocolOpenAIImages then Some OpenAIImages
  else None.

(** [ProtocolToSurfaceForCapability] *)
Definition ProtocolToSurfaceForCapability (protocol capability : string) : option string :=
  if str_eq protocol ProtocolGeminiGenerate then
    if image_capability capability then Some GeminiImages else Some GeminiText
  else ProtocolToSurface protocol.

(** [SurfaceToProtocol] *)
Definition SurfaceToProtocol (id : string) : option string :=
  if str_eq id OpenAIChat then Some ProtocolOpenAIChat
  else if str_eq id OpenAIResponses then Some ProtocolOpenAIResponses
  else if str_eq id OpenAIEmbeddings then Some ProtocolOpenAIEmbeddings
  else if str_eq id AnthropicMessages then Some ProtocolAnthropicMessages
  else if str_eq id GeminiText then Some ProtocolGeminiGenerate
  else if str_eq id GeminiEmbeddings then Some ProtocolGeminiEmbeddings
  else if str_eq id OpenAIImages then Some ProtocolOpenAIImages
  else None.

(** [SurfaceToProtocolForCapability] *)
Definition SurfaceToProtocolForCapability (id capability : string) : option string :=
  if str_eq id GeminiImages then
    if image_capability capability then Some ProtocolGeminiGenerate else None
  else SurfaceToProtocol id.

(** ** The bridge registry ([registry.go]) *)

Definition IRKindChat : string := "chat".
Definition IRKindImage : string := "image".
Definition IRKindEmbedding : string := "embedding".

(** [Definition]: kind, source and target. *)
Record BridgeDefinition := MkDefinition { bd_Kind : string; bd_Source : string; bd_Target : string }.
#[export] Instance BridgeDefinition_eq_dec : EqDecision BridgeDefinition.
Proof. solve_decision. Defined.

(** [Runtime]: the registered definitions, and those that have a request handler, a
    response handler, a stream provider and a stream emitter. *)
Record BridgeRuntime := MkRuntime {
  bt_definitions : list BridgeDefinition;
  bt_requestHandlers : list BridgeDefinition;
  bt_responseHandlers : list BridgeDefinition;
  bt_streamProviders : list BridgeDefinition;
  bt_streamEmitters : list BridgeDefinition }.

Definition has_def (l : list BridgeDefinition) (d : BridgeDefinition) : bool := bool_decide (d ∈ l).

(** [Registry.Supports], [Registry.Register] *)
Definition Supports (r : BridgeRuntime) (d : BridgeDefinition) : bool := has_def (bt_definitions r) d.
Definition registry_Register (d : BridgeDefinition) (l : list BridgeDefinition) : list BridgeDefinition :=
  if has_def l d then l else l ++ [d].

(** [registerBridge]; the flags tell which of the four functions are given. *)
Definition registerBridge (d : BridgeDefinition) (request response provider emitter : bool) (r : BridgeRuntime)
    : BridgeRuntime :=
  let add (b : bool) l := if b then d :: l else l in
  MkRuntime (registry_Register d (bt_definitions r)) (add request (bt_requestHandlers r))
    (add response (bt_responseHandlers r)) (add provider (bt_streamProviders r)) (add emitter (bt_streamEmitters r)).

Definition textSurfaces : list string := [OpenAIChat; OpenAIResponses; AnthropicMessages; GeminiText].

(** [registerTextBridges] *)
Definition registerTextBridges (r : BridgeRuntime) : BridgeRuntime :=
  foldl (fun r source =>
    foldl (fun r target =>
      if str_eq source target then r
      else registerBridge (MkDefinition IRKindChat source target) true true true true r) r textSurfaces)
    r textSurfaces.

(** [registerEmbeddingBridges], [registerImageBridges]: no streams. *)
Definition registerEmbeddingBridges (r : BridgeRuntime) : BridgeRuntime :=
  registerBridge (MkDefinition IRKindEmbedding GeminiEmbeddings OpenAIEmbeddings) true true false false
    (registerBridge (MkDefinition IRKindEmbedding OpenAIEmbeddings GeminiEmbeddings) true true false false r).
Definition registerImageBridges (r : BridgeRuntime) : BridgeRuntime :=
  registerBridge (MkDefinition IRKindImage GeminiImages OpenAIImages) true true false false
    (registerBridge (MkDefinition IRKindImage OpenAIImages GeminiImages) true true false false r).

(** [NewRuntime] *)
Definition NewRuntime : BridgeRuntime :=
  registerImageBridges (registerEmbeddingBridges (registerTextBridges (MkRuntime [] [] [] [] []))).

(** [lookupRequestHandler], [lookupResponseHandler], [lookupStreamProviderFactory],
    [lookupStreamEmitterFactory] *)
Definition lookup_in (handlers : BridgeRuntime -> list BridgeDefinition) (r : BridgeRuntime)
    (kind source target : string) : bool :=
  let d := MkDefinition kind source target in Supports r d && has_def (handlers r) d.
Definition lookupRequestHandler := lookup_in bt_requestHandlers.
Definition lookupResponseHandler := lookup_in bt_responseHandlers.
Definition lookupStreamProviderFactory := lookup_in bt_streamProviders.
Definition lookupStreamEmitterFactory := lookup_in bt_streamEmitters.

(** ** Preferences ([matrix.go], [runtime.go]) *)

(** [FormatID]s: [formatIDForSurface], with [formatFamilyKind]; the formats are those
    of [standardFormatOrder], all of them generation formats. *)
Definition formatIDForSurface (id : string) : option string :=
  if str_eq id OpenAIChat then Some "openai:chat"
  else if str_eq id OpenAIResponses then Some "openai:responses"
  else if str_eq id AnthropicMessages then Some "claude:messages"
  else if str_eq id GeminiText then Some "gemini:generate"
  else None.
Definition standardFormatOrder : list string :=
  ["openai:chat"; "openai:responses"; "claude:messages"; "gemini:generate"].
Definition formatFamilyKind (f : string) : string * string :=
  if str_eq f "openai:chat" then ("openai", "chat")
  else if str_eq f "openai:responses" then ("openai", "responses")
  else if str_eq f "claude:messages" then ("claude", "messages")
  else if str_eq f "gemini:generate" then ("gemini", "generate")
  else ("", "").
Definition IsGenerationFormat (f : string) : bool := bool_decide (f ∈ standardFormatOrder).

Fixpoint index_of (s : string) (l : list string) : option Z :=
  match l with
  | [] => None
  | x :: l => if str_eq x s then Some 0 else Z.succ <$> index_of s l
  end.

(** [CandidatePreference]: bucket and priority. *)
Definition CandidatePreference (client provider : string) : option (Z * Z) :=
  if negb (IsGenerationFormat client) || negb (IsGenerationFormat provider) then None
  else
    let '(cf, ck) := formatFamilyKind client in
    let '(pf, pk) := formatFamilyKind provider in
    let bucket := if str_eq client provider then 0 else if str_eq ck pk then 1 else if str_eq cf pf then 2 else 3 in
    Some (bucket, default 0 (index_of provider standardFormatOrder)).

(** [textSurfacePreference] *)
Definition textSurfacePreference (client provider : string) : option (Z * Z) :=
  match formatIDForSurface client, formatIDForSurface provider with
  | Some c, Some p => CandidatePreference c p
  | _, _ => None
  end.

(** [pairPreference], [surfacePriority] *)
Definition pairPreference (client provider : string) (ordered : list string) : option (Z * Z) :=
  if str_eq client provider then Some (0, 0)
  else match index_of provider ordered with Some priority => Some (1, priority) | None => None end.

(** [bridgeKindForCapability] *)
Definition bridgeKindForCapability (capability : string) : string :=
  if image_capability capability then IRKindImage
  else if str_eq capability CoreEmbedding then IRKindEmbedding
  else IRKindChat.

(** [SupportMatrix]: what the binder asks of a bridge runtime. *)
Class SupportMatrix := {
  NeedsBridge : string -> string -> bool;
  PreferenceForCapability : string -> string -> string -> bool -> option (Z * Z) }.

(** The runtime's [NeedsBridge] and [PreferenceForCapability] *)
Definition runtime_NeedsBridge (client provider : string) : bool := negb (str_eq client provider).
Definition runtime_Preference (r : BridgeRuntime) (capability client provider : string) (stream : bool)
    : option (Z * Z) :=
  if negb (runtime_NeedsBridge client provider) then Some (0, 0)
  else
    let kind := bridgeKindForCapability capability in
    if negb (lookupRequestHandler r kind client provider) then None
    else if str_eq kind IRKindChat then
      if (if stream then lookupStreamProviderFactory r kind provider client
                         && lookupStreamEmitterFactory r kind provider client
          else lookupResponseHandler r kind provider client)
      then textSurfacePreference client provider else None
    else if str_eq kind IRKindImage then
      if lookupResponseHandler r kind provider client
      then pairPreference client provider [GeminiImages; OpenAIImages] else None
    else if str_eq kind IRKindEmbedding then
      if stream then None
      else if lookupResponseHandler r kind provider client
      then pairPreference client provider [GeminiEmbeddings; OpenAIEmbeddings] else None
    else None.

#[export] Instance runtime_support : SupportMatrix :=
  { NeedsBridge := runtime_NeedsBridge; PreferenceForCapability := runtime_Preference NewRuntime }.

(** ** Choosing a protocol ([bridge_support.go]) *)

Section Choose.
Context {support : SupportMatrix}.

(** The preference of a provider protocol; [None] skips it. *)
Definition protocol_preference (capability client : string) (stream : bool) (p : string) : option (Z * Z) :=
  match ProtocolToSurfaceForCapability p capability with
  | Some provider => PreferenceForCapability capability client provider stream
  | None => None
  end.

(** The loop over the protocols: the best so far with its bucket and priority. *)
Definition better (x best : Z * Z) : bool := (x.1 <? best.1) || ((x.1 =? best.1) && (x.2 <? best.2)).
Fixpoint choose_best (pref : string -> option (Z * Z)) (best : Z * Z) (provider : string) (supported : list string)
    : string * Z :=
  match supported with
  | [] => (provider, best.1)
  | p :: rest =>
      match pref p with
      | Some x => if better x best then choose_best pref x p rest else choose_best pref best provider rest
      | None => choose_best pref best provider rest
      end
  end.
Definition unset : Z := 2 ^ 30.

(** [chooseProviderProtocolWithSupport]: the protocol and its bucket. *)
Definition chooseProviderProtocolWithSupport (capType clientProtocol : string) (supported : list string)
    (allowConversion stream : bool) : option (string * Z) :=
  if bool_decide (clientProtocol ∈ supported) then Some (clientProtocol, 0)
  else if negb allowConversion then None
  else
    let capability := CapabilityToCore capType in
    match ProtocolToSurfaceForCapability clientProtocol capability with
    | None => None
    | Some client =>
        let '(provider, bucket) := choose_best (protocol_preference capability client stream) (unset, unset) "" supported in
        if str_eq provider "" then None else Some (provider, bucket)
    end.

(** [bridgeSurfaceSupportedForCapability] *)
Definition bridgeSurfaceSupportedForCapability (client provider capability : string) (stream : bool) : bool :=
  if negb (NeedsBridge client provider) then true
  else bool_decide (is_Some (PreferenceForCapability capability client provider stream)).
End Choose.

(** ** Facts *)

Ltac str_case :=
  match goal with
  | H : context [if str_eq ?a ?b then _ else _] |- _ =>
      let E := fresh "E" in destruct (str_eq a b) eqn:E; [apply str_eq_true in E; subst|]
  | |- context [if str_eq ?a ?b then _ else _] =>
      let E := fresh "E" in destruct (str_eq a b) eqn:E; [apply str_eq_true in E; subst|]
  end.

(** A protocol is told back from its surface. *)
Lemma surface_roundtrip p capability s :
  ProtocolToSurfaceForCapability p capability = Some s -> SurfaceToProtocolForCapability s capability = Some p.
Proof.
  unfold ProtocolToSurfaceForCapability, ProtocolToSurface, SurfaceToProtocolForCapability. intros H.
  destruct (str_eq p ProtocolGeminiGenerate) eqn:Hg; [apply str_eq_true in Hg; subst|].
  - by destruct (image_capability capability); simplify_eq.
  - repeat str_case; simplify_eq; try done.
Qed.
Lemma ProtocolToSurface_known p capability s : ProtocolToSurfaceForCapability p capability = Some s -> IsKnown s = true.
Proof.
  unfold ProtocolToSurfaceForCapability, ProtocolToSurface. intros H.
  destruct (str_eq p ProtocolGeminiGenerate); [destruct (image_capability capability) | repeat str_case]; by simplify_eq.
Qed.

(** What the loop keeps: the first of the best. *)
Lemma better_trans x y z : better x y = true -> better z y = false -> better x z = true.
Proof.
  unfold better. destruct x as [x1 x2], y as [y1 y2], z as [z1 z2]; simpl.
  intros Hx Hz. apply orb_true_iff in Hx. apply orb_false_iff in Hz as [Hz1 Hz2]. apply Z.ltb_ge in Hz1.
  rewrite andb_true_iff in Hx. apply andb_false_iff in Hz2. apply orb_true_iff. rewrite andb_true_iff.
  rewrite ?Z.ltb_lt, ?Z.eqb_eq, ?Z.ltb_ge, ?Z.eqb_neq in *. lia.
Qed.
Lemma better_asym x y : better x y = true -> better y x = false.
Proof.
  unfold better. destruct x as [x1 x2], y as [y1 y2]; simpl. intros Hx. apply orb_true_iff in Hx.
  rewrite andb_true_iff in Hx. apply orb_false_iff. rewrite andb_false_iff.
  rewrite ?Z.ltb_lt, ?Z.eqb_eq, ?Z.ltb_ge, ?Z.eqb_neq in *. lia.
Qed.

Lemma choose_best_spec pref best p0 supported p b :
  choose_best pref best p0 supported = (p, b) ->
  (p = p0 /\ b = best.1 /\ forall q x, q ∈ supported -> pref q = Some x -> better x best = false) \/
  (exists x, p ∈ supported /\ pref p = Some x /\ b = x.1 /\ better x best = true /\
     forall q y, q ∈ supported -> pref q = Some y -> better y x = false).
Proof.
  revert best p0. induction supported as [|q rest IH]; intros best p0 H; cbn [choose_best] in H.
  { simplify_eq. left. split_and!; [done..|]. by intros ? ? ?%elem_of_nil. }
  destruct (pref q) as [x|] eqn:Hq; [destruct (better x best) eqn:Hb|].
  - right. apply IH in H as [(-> & -> & Hall) | (y & Hy & Hpy & -> & Hbx & Hall)].
    + exists x. split_and!; [left | done..|]. intros z w [->|Hz]%elem_of_cons Hw; [|by eapply Hall].
      simplify_eq. destruct (better x x) eqn:Hxx; [|done]. by rewrite (better_asym _ _ Hxx) in Hxx.
    + exists y. split_and!; [by right | done | done | |].
      * destruct (better y best) eqn:Hyb; [done|]. exfalso.
        pose proof (better_trans x best y Hb Hyb) as Hxy. by rewrite (better_asym _ _ Hxy) in Hbx.
      * intros z w [->|Hz]%elem_of_cons Hw; [|by eapply Hall]. simplify_eq. by apply better_asym.
  - apply IH in H as [(-> & -> & Hall) | (y & Hy & Hpy & -> & Hbx & Hall)].
    + left. split_and!; [done..|]. intros z w [->|Hz]%elem_of_cons Hw; [by simplify_eq | by eapply Hall].
    + right. exists y. split_and!; [by right | done..|]. intros z w [->|Hz]%elem_of_cons Hw; [|by eapply Hall].
      rewrite Hq in Hw. injection Hw as <-. destruct (better x y) eqn:Hwy; [|done]. exfalso.
      pose proof (better_trans y best x Hbx Hb) as Hyw. by rewrite (better_asym _ _ Hyw) in Hwy.
  - apply IH in H as [(-> & -> & Hall) | (y & Hy & Hpy & -> & Hbx & Hall)].
    + left. split_and!; [done..|]. intros z w [->|Hz]%elem_of_cons Hw; [by simplify_eq | by eapply Hall].
    + right. exists y. split_and!; [by right | done..|]. intros z w [->|Hz]%elem_of_cons Hw; [by simplify_eq | by eapply Hall].
Qed.

(** What a preference of the runtime means: the request is converted there, and the
    response, whole or as a stream, is converted back. *)
Definition converts (r : BridgeRuntime) (capability client provider : string) (stream : bool) : Prop :=
  let kind := bridgeKindForCapability capability in
  lookupRequestHandler r kind client provider = true /\
  (if str_eq kind IRKindChat && stream
   then lookupStreamProviderFactory r kind provider client = true /\ lookupStreamEmitterFactory r kind provider client = true
   else lookupResponseHandler r kind provider client = true).

Lemma index_of_bound s l z : index_of s l = Some z -> 0 <= z < Z.of_nat (length l).
Proof.
  revert z. induction l as [|x l IH]; intros z H; cbn [index_of] in H; [done|].
  destruct (str_eq x s); [simplify_eq; simpl; lia|].
  destruct (index_of s l) as [y|]; [|done]. simpl in H. simplify_eq. specialize (IH y eq_refl). simpl. lia.
Qed.

Lemma Preference_converts r capability client provider stream x :
  runtime_Preference r capability client provider stream = Some x -> client <> provider ->
  converts r capability client provider stream.
Proof.
  unfold runtime_Preference, runtime_NeedsBridge, converts. intros H Hne.
  destruct (str_eq client provider) eqn:He; [by apply str_eq_true in He|]. simpl in H.
  destruct (lookupRequestHandler r _ client provider) eqn:Hreq; [|done]. simpl in H.
  set (kind := bridgeKindForCapability capability) in *. split; [done|].
  destruct (str_eq kind IRKindChat) eqn:Hc.
  - destruct stream; simpl.
    + destruct (lookupStreamProviderFactory _ _ _ _ && lookupStreamEmitterFactory _ _ _ _) eqn:Hs; [|done].
      by apply andb_true_iff in Hs.
    + by destruct (lookupResponseHandler r kind provider client).
  - simpl. destruct (str_eq kind IRKindImage); [by destruct (lookupResponseHandler r kind provider client)|].
    destruct (str_eq kind IRKindEmbedding); [|done]. destruct stream; [done|].
    by destruct (lookupResponseHandler r kind provider client).
Qed.
Lemma Preference_bounded r capability client provider stream x :
  runtime_Preference r capability client provider stream = Some x -> 0 <= x.1 <= 3 /\ 0 <= x.2 <= 3.
Proof.
  unfold runtime_Preference. destruct (negb (runtime_NeedsBridge _ _)); [by intros [= <-]|].
  destruct (negb (lookupRequestHandler _ _ _ _)); [done|].
  assert (Hpair : forall l, (length l <= 4)%nat -> pairPreference client provider l = Some x -> 0 <= x.1 <= 3 /\ 0 <= x.2 <= 3).
  { intros l Hl H. unfold pairPreference in H. destruct (str_eq client provider); [by simplify_eq|].
    destruct (index_of provider l) as [z|] eqn:Hi; [|done]. apply index_of_bound in Hi. simplify_eq. simpl. lia. }
  assert (Htext : textSurfacePreference client provider = Some x -> 0 <= x.1 <= 3 /\ 0 <= x.2 <= 3).
  { unfold textSurfacePreference. destruct (formatIDForSurface client) as [c|]; [|done].
    destruct (formatIDForSurface provider) as [p|]; [|done]. unfold CandidatePreference.
    destruct (negb _ || negb _); [done|]. destruct (formatFamilyKind c) as [cf ck], (formatFamilyKind p) as [pf pk].
    pose proof (index_of_bound p standardFormatOrder) as Hi. set (l := standardFormatOrder) in *.
    assert (Hl : Z.of_nat (length l) = 4) by done. clearbody l.
    intros [= <-]. cbn [fst snd]. split; [by repeat destruct (str_eq _ _)|].
    destruct (index_of p l) as [z|]; [|simpl; lia]. specialize (Hi z eq_refl). simpl. lia. }
  destruct (str_eq _ IRKindChat).
  { destruct (if stream then _ else _); [exact Htext | done]. }
  destruct (str_eq _ IRKindImage).
  { destruct (lookupResponseHandler _ _ _ _); [|done]. apply Hpair. simpl. lia. }
  destruct (str_eq _ IRKindEmbedding); [|done]. destruct stream; [done|].
  destruct (lookupResponseHandler _ _ _ _); [|done]. apply Hpair. simpl. lia.
Qed.
