(* ===== verification/PriceBooks.v ===== *)
(** * Price books

    Models [src/internal/ai/billingcontrol/service.go], who may edit a price book and
    what an entry must look like, over the transactions of
    [adapters/postgres/pricebook_repo.go] and [dispatch_integrity.go], which keep the
    rules of the groups that sell from a book priced.  A statement sequence that
    gives up its locks between two steps is two definitions. *)

From Stdlib Require Import QArith.
From S2P Require Import Prelude GoStrings Decimal PriceTiers CommercialDB.
#[global] Open Scope Z_scope.

Definition OwnerPlatform : string := "platform".
Definition OwnerTenant : string := "tenant".

(** ** Validation ([service.go]) *)

Definition above_max_price (v : float64) : bool :=
  match v with Finite q => negb (Qle_bool q 1) | PosInf => true | NegInf | NaN => false end.

(** [validatePrice] *)
Definition validatePrice (field : string) (v : float64) : option com_error :=
  if float_neg v || is_inf v || is_nan v then Some (ErrValidation field)
  else if above_max_price v then Some (ErrValidation field)
  else None.

(** The loop of [validateResolutions] with its [seen] set. *)
Fixpoint validate_resolutions (field : string) (seen : gset string) (rs : list ResolutionUSDPrice)
    : option com_error :=
  match rs with
  | [] => None
  | r :: rest =>
      let res := TrimSpace (rp_Resolution r) in
      if str_eq res "" then Some (ErrValidation field)
      else if bool_decide (res ∈ seen) then Some (ErrValidation field)
      else match validatePrice field (rp_Price r) with
           | Some e => Some e
           | None => validate_resolutions field ({[res]} ∪ seen) rest
           end
  end.
Definition validateResolutions (field : string) (rs : list ResolutionUSDPrice) : option com_error :=
  validate_resolutions field ∅ rs.

(** The loop of [validateImagePriceTiers]. *)
Fixpoint validate_image_tiers (seen : gset string) (prices : list ResolutionUSDPrice) : option com_error :=
  match prices with
  | [] => None
  | p :: rest =>
      let tier := TrimSpace (rp_Resolution p) in
      if negb (str_eq (rp_Resolution p) tier) then Some (ErrValidation "image_prices")
      else if negb (bool_decide (tier ∈ ["1k"; "2k"; "4k"]%string)) then Some (ErrValidation "image_prices")
      else if bool_decide (tier ∈ seen) then Some (ErrValidation "image_prices")
      else match validatePrice "image_prices" (rp_Price p) with
           | Some e => Some e
           | None => validate_image_tiers ({[tier]} ∪ seen) rest
           end
  end.
Definition validateImagePriceTiers (prices : list ResolutionUSDPrice) : option com_error :=
  validate_image_tiers ∅ prices.

Definition validCapabilities : list string :=
  ["chat"; "image"; "video"; "embedding"; "audio_tts"; "audio_stt"; "rerank"]%string.

Fixpoint first_invalid (checks : list (option com_error)) : option com_error :=
  match checks with
  | [] => None
  | Some e :: _ => Some e
  | None :: rest => first_invalid rest
  end.

(** [validateEntry] *)
Definition validateEntry (e : PriceBookEntry) : option com_error :=
  if blank (en_PriceBookID e) then Some (ErrValidation "price_book_id")
  else if blank (en_ModelCode e) then Some (ErrValidation "model_code")
  else if negb (bool_decide (en_CapabilityType e ∈ validCapabilities)) then Some (ErrValidation "capability_type")
  else first_invalid
    [validatePrice "image_default_price" (en_ImageDefaultPrice e);
     validatePrice "video_default_price" (en_VideoDefaultPrice e);
     validatePrice "audio_tts_per_char" (en_AudioTTSPerChar e);
     validatePrice "audio_stt_per_minute" (en_AudioSTTPerMinute e);
     (if IsTokenPricedCapability (en_CapabilityType e) then
        match ValidateTokenPriceTiers (en_TokenPriceTiers e) with
        | Err _ => Some (ErrValidation "token_price_tiers")
        | Ok _ =>
            if existsb (fun t => existsb above_max_price
                 [InputPerToken t; OutputPerToken t; CacheWritePerToken t; CacheReadPerToken t])
                 (en_TokenPriceTiers e)
            then Some (ErrValidation "token_price_tiers") else None
        end
      else None);
     (if str_eq (en_CapabilityType e) "image" then
        if float_nonpos (en_ImageDefaultPrice e) then Some (ErrValidation "image_default_price")
        else validateImagePriceTiers (en_ImagePrices e)
      else if str_eq (en_CapabilityType e) "video" && float_nonpos (en_VideoDefaultPrice e)
      then Some (ErrValidation "video_default_price")
      else None);
     validateResolutions "video_prices" (en_VideoPrices e)].

(** ** Statements ([pricebook_repo.go]) *)

Definition bump_revision (b : PriceBook) : PriceBook :=
  MkBook (pb_ID b) (pb_OwnerType b) (pb_OwnerTenantID b) (pb_Name b) (pb_Description b) (pb_Status b)
    (pb_Revision b + 1).

(** [bumpPriceBookRevision] *)
Definition bumpPriceBookRevision (book : string) : CTx unit :=
  let! d := tx_get in
  tx_guard (existsb (fun b => str_eq (pb_ID b) book && negb (in_int64 (pb_Revision b + 1))) (c_books d)) ErrOutOfRange ;;;
  tx_put (with_books (update_where (has_key pb_ID book) bump_revision (c_books d)) d).

(** [repo.CreatePriceBook]: [uuid] is the generated key. *)
Definition repo_CreatePriceBook (uuid ownerType ownerTenantID name description : string) : CTx PriceBook :=
  let! d := tx_get in
  let row := MkBook uuid ownerType ownerTenantID name description "active" 1 in
  tx_guard (existsb (fun b => str_eq (pb_ID b) uuid) (c_books d)) ErrConflict ;;;
  tx_guard (negb ((str_eq ownerType "platform" && str_eq ownerTenantID "") ||
                  (str_eq ownerType "tenant" && negb (str_eq ownerTenantID "")))) ErrCheck ;;;
  tx_guard (existsb (fun b => str_eq (pb_OwnerType b) ownerType && str_eq (pb_OwnerTenantID b) ownerTenantID
                              && str_eq (pb_Name b) name) (c_books d)) ErrConflict ;;;
  tx_put (with_books (c_books d ++ [row]) d) ;;;
  tx_ret row.

(** [repo.GetPriceBook] *)
Definition repo_GetPriceBook (id : string) : CTx PriceBook :=
  let! d := tx_get in tx_row (find_book id d).

(** [lockGroupsForPriceBook]: the groups that sell from the book. *)
Definition lockGroupsForPriceBook (book : string) (d : cdb) : list Group :=
  List.filter (fun g => str_eq (gr_RetailPriceBookID g) book) (c_groups d).

(** [repo.UpdatePriceBook] *)
Definition repo_UpdatePriceBook (id name description status : string) : CTx PriceBook :=
  let! d := tx_get in
  let! b := tx_row (find_book id d) in
  tx_guard (str_eq status "disabled" && negb (Nat.eqb (length (lockGroupsForPriceBook id d)) 0))
    (ErrRulePriceConflict []) ;;;
  tx_guard (negb (in_int64 (pb_Revision b + 1))) ErrOutOfRange ;;;
  tx_guard (existsb (fun x => negb (str_eq (pb_ID x) id) && str_eq (pb_OwnerType x) (pb_OwnerType b)
                              && str_eq (pb_OwnerTenantID x) (pb_OwnerTenantID b) && str_eq (pb_Name x) name)
              (c_books d)) ErrConflict ;;;
  let row := MkBook id (pb_OwnerType b) (pb_OwnerTenantID b) name description status (pb_Revision b + 1) in
  tx_put (with_books (update_where (has_key pb_ID id) (fun _ => row) (c_books d)) d) ;;;
  tx_ret row.

(** [repo.CountPriceBookReferences] *)
Definition CountPriceBookReferences (id : string) (d : cdb) : Z :=
  count_where (str_eq id) (c_cost_books d) +
  count_where (fun g => str_eq (gr_RetailPriceBookID g) id) (c_groups d).

(** [repo.DeletePriceBook] *)
Definition repo_DeletePriceBook (id : string) : CTx unit :=
  let! d := tx_get in
  tx_put (with_books (List.filter (fun b => negb (str_eq (pb_ID b) id)) (c_books d))
    (with_entries (List.filter (fun e => negb (str_eq (en_PriceBookID e) id)) (c_entries d)) d)).

(** The prices of a row as its columns hold them. *)
Definition stored_entry (uuid source : string) (edited : bool) (e : PriceBookEntry) : CTx PriceBookEntry :=
  let column v := numeric_column 1000000000000 20 (default (Finite (Qmake 0 1)) (floatToNumeric v)) in
  let! image := column (en_ImageDefaultPrice e) in
  let! video := column (en_VideoDefaultPrice e) in
  let! tts := column (en_AudioTTSPerChar e) in
  let! stt := column (en_AudioSTTPerMinute e) in
  tx_ret (MkEntry uuid (en_PriceBookID e) (en_ModelCode e) (en_CapabilityType e) (en_TokenPriceTiers e)
    image video (en_ImagePrices e) (en_VideoPrices e) tts stt source edited).

(** CHECK constraints of [ai_price_book_entries]. *)
Definition entry_row_check (e : PriceBookEntry) : bool :=
  negb (existsb float_neg [en_ImageDefaultPrice e; en_VideoDefaultPrice e; en_AudioTTSPerChar e; en_AudioSTTPerMinute e])
  && negb (IsTokenPricedCapability (en_CapabilityType e) && bool_decide (en_TokenPriceTiers e = []))
  && negb (str_eq (en_CapabilityType e) "image" && float_nonpos (en_ImageDefaultPrice e))
  && negb (str_eq (en_CapabilityType e) "video" && float_nonpos (en_VideoDefaultPrice e)).

Definition same_entry (e x : PriceBookEntry) : bool :=
  entry_at (en_PriceBookID e) (en_ModelCode e) (en_CapabilityType e) x.

(** [INSERT ... ON CONFLICT (price_book_id, model_code, capability_type) DO UPDATE]:
    the row keeps its identity. *)
Definition upsert_entry (row : PriceBookEntry) (entries : list PriceBookEntry) : list PriceBookEntry :=
  if existsb (same_entry row) entries
  then update_where (same_entry row) (fun x => MkEntry (en_ID x) (en_PriceBookID x) (en_ModelCode x)
         (en_CapabilityType x) (en_TokenPriceTiers row) (en_ImageDefaultPrice row) (en_VideoDefaultPrice row)
         (en_ImagePrices row) (en_VideoPrices row) (en_AudioTTSPerChar row) (en_AudioSTTPerMinute row)
         (en_Source row) (en_ManuallyEdited row)) entries
  else entries ++ [row].

(** [repo.UpsertEntry] *)
Definition repo_UpsertEntry (uuid : string) (e : PriceBookEntry) : CTx unit :=
  let! row := stored_entry uuid "manual" true e in
  tx_guard (negb (entry_row_check row)) ErrCheck ;;;
  let! d := tx_get in
  tx_put (with_entries (upsert_entry row (c_entries d)) d) ;;;
  bumpPriceBookRevision (en_PriceBookID e).

(** Equality of the stored JSON documents. *)
Definition float_eqb (a b : float64) : bool :=
  match a, b with
  | Finite x, Finite y => Qeq_bool x y
  | PosInf, PosInf | NegInf, NegInf | NaN, NaN => true
  | _, _ => false
  end.
Definition tier_eqb (a b : TokenPriceTier) : bool :=
  bool_decide (UpToInputTokens a = UpToInputTokens b) && float_eqb (InputPerToken a) (InputPerToken b)
  && float_eqb (OutputPerToken a) (OutputPerToken b)
  && float_eqb (CacheWritePerToken a) (CacheWritePerToken b)
  && float_eqb (CacheReadPerToken a) (CacheReadPerToken b).
Fixpoint tiers_eqb (a b : list TokenPriceTier) : bool :=
  match a, b with
  | [], [] => true
  | x :: a, y :: b => tier_eqb x y && tiers_eqb a b
  | _, _ => false
  end.

Definition zero_price : float64 := Finite (Qmake 0 1).

(** The row [ImportLiteLLMEntry] inserts; the other prices take their defaults. *)
Definition imported_entry (uuid : string) (e : PriceBookEntry) : PriceBookEntry :=
  MkEntry uuid (en_PriceBookID e) (en_ModelCode e) (en_CapabilityType e) (en_TokenPriceTiers e)
    zero_price zero_price [] [] zero_price zero_price "litellm" false.

(** [ImportLiteLLMEntry]: the rows it changed. *)
Definition ImportLiteLLMEntry (uuid : string) (e : PriceBookEntry) : CTx Z :=
  let! d := tx_get in
  match List.find (same_entry e) (c_entries d) with
  | None =>
      let row := imported_entry uuid e in
      tx_guard (negb (entry_row_check row)) ErrCheck ;;;
      tx_put (with_entries (c_entries d ++ [row]) d) ;;;
      tx_ret 1
  | Some x =>
      if en_ManuallyEdited x then tx_ret 0
      else if tiers_eqb (en_TokenPriceTiers x) (en_TokenPriceTiers e) && str_eq (en_Source x) "litellm" then tx_ret 0
      else
        let row := MkEntry (en_ID x) (en_PriceBookID x) (en_ModelCode x) (en_CapabilityType x)
          (en_TokenPriceTiers e) (en_ImageDefaultPrice x) (en_VideoDefaultPrice x) (en_ImagePrices x)
          (en_VideoPrices x) (en_AudioTTSPerChar x) (en_AudioSTTPerMinute x) "litellm" (en_ManuallyEdited x) in
        tx_guard (negb (entry_row_check row)) ErrCheck ;;;
        tx_put (with_entries (update_where (same_entry e) (fun _ => row) (c_entries d)) d) ;;;
        tx_ret 1
  end.

(** [repo.ImportEntries]: each entry with the key its row would get. *)
Definition repo_ImportEntries (book : string) (entries : list (string * PriceBookEntry)) : CTx Z :=
  match entries with
  | [] => tx_ret 0
  | _ =>
      let! d := tx_get in
      let! _ := tx_row (find_book book d) in
      let! changed := tx_fold (fun changed '(uuid, e) =>
        tx_guard (negb (str_eq (en_PriceBookID e) book)) (ErrValidation "price_book_id") ;;;
        let! n := ImportLiteLLMEntry uuid e in
        tx_ret (changed + n)) entries 0 in
      (if 0 <? changed then bumpPriceBookRevision book else tx_ret tt) ;;;
      tx_ret changed
  end.

(** [priceEntryReferenceConflicts]: the active rules, of groups selling from the book,
    whose price the entry is. *)
Definition priceEntryReferenceConflicts (book model capability : string) (d : cdb) : list string :=
  g ← lockGroupsForPriceBook book d;
  dr_ID <$> List.filter (fun r => str_eq (dr_GroupID r) (gr_ID g) && str_eq (dr_Status r) "active"
     && str_eq (dr_TargetModelID r) model
     && str_eq (dispatchRequiredCapability (dr_ClientSurface r)) capability) (c_rules d).

(** [repo.DeleteEntry]: the check, which locks the groups of the book alone, and the
    deletion. *)
Definition DeleteEntry_check (book model capability : string) : CTx unit :=
  let! d := tx_get in
  let conflicts := priceEntryReferenceConflicts book model capability d in
  tx_guard (negb (Nat.eqb (length conflicts) 0)) (ErrRulePriceConflict conflicts).
Definition DeleteEntry_apply (book model capability : string) : CTx unit :=
  let! d := tx_get in
  tx_put (with_entries (List.filter (fun e => negb (entry_at book model capability e)) (c_entries d)) d) ;;;
  bumpPriceBookRevision book.
Definition repo_DeleteEntry (book model capability : string) : CTx unit :=
  DeleteEntry_check book model capability ;;; DeleteEntry_apply book model capability.

(** ** The service ([service.go]) *)

(** [requireOwner] *)
Definition requireOwner (id ownerType ownerTenantID : string) : CTx unit :=
  let! book := repo_GetPriceBook id in
  tx_guard (negb (str_eq (pb_OwnerType book) ownerType) ||
            negb (str_eq (pb_OwnerTenantID book) (TrimSpace ownerTenantID))) ErrNotFound.

(** [createPriceBook], [CreatePriceBook] and [CreateTenantPriceBook] *)
Definition createPriceBook (uuid ownerType ownerTenantID name description : string) : CTx PriceBook :=
  let name := TrimSpace name in
  tx_guard (str_eq name "") (ErrValidation "name") ;;;
  repo_CreatePriceBook uuid ownerType ownerTenantID name (TrimSpace description).
Definition CreatePriceBook (uuid name description : string) : CTx PriceBook :=
  createPriceBook uuid OwnerPlatform "" name description.
Definition CreateTenantPriceBook (uuid tenantID name description : string) : CTx PriceBook :=
  let tenantID := TrimSpace tenantID in
  tx_guard (str_eq tenantID "") (ErrValidation "tenant_id") ;;;
  createPriceBook uuid OwnerTenant tenantID name description.

(** [GetVisiblePriceBook] *)
Definition GetVisiblePriceBook (tenantID id : string) : CTx PriceBook :=
  let! book := repo_GetPriceBook id in
  if str_eq (pb_OwnerType book) OwnerPlatform ||
     (str_eq (pb_OwnerType book) OwnerTenant && str_eq (pb_OwnerTenantID book) (TrimSpace tenantID))
  then tx_ret book else tx_fail ErrNotFound.

(** [updatePriceBook] *)
Definition updatePriceBook (ownerType ownerTenantID id name description status : string) : CTx PriceBook :=
  let name := TrimSpace name in
  tx_guard (str_eq name "") (ErrValidation "name") ;;;
  tx_guard (negb (str_eq status "active") && negb (str_eq status "disabled")) (ErrValidation "status") ;;;
  requireOwner id ownerType ownerTenantID ;;;
  repo_UpdatePriceBook id name (TrimSpace description) status.

(** [deletePriceBook]: the references are counted in one statement, and the book is
    deleted by a transaction of its own. *)
Definition deletePriceBook_check (ownerType ownerTenantID id : string) : CTx unit :=
  requireOwner id ownerType ownerTenantID ;;;
  let! d := tx_get in
  let refs := CountPriceBookReferences id d in
  tx_guard (0 <? refs) (ErrStillReferenced refs).
Definition deletePriceBook (ownerType ownerTenantID id : string) : CTx unit :=
  deletePriceBook_check ownerType ownerTenantID id ;;; repo_DeletePriceBook id.

(** [upsertEntry] *)
Definition upsertEntry (ownerType ownerTenantID uuid : string) (e : PriceBookEntry) : CTx unit :=
  match validateEntry e with
  | Some err => tx_fail err
  | None =>
      tx_map_err (fun _ => ErrValidation "price_book_id") (requireOwner (en_PriceBookID e) ownerType ownerTenantID) ;;;
      repo_UpsertEntry uuid e
  end.

(** [DeleteEntry] and [DeleteTenantEntry] *)
Definition deleteEntry (ownerType ownerTenantID book model capability : string) : CTx unit :=
  requireOwner book ownerType ownerTenantID ;;; repo_DeleteEntry book model capability.

(** [repo.ListEntries] *)
Definition ListEntries (book : string) (d : cdb) : list PriceBookEntry :=
  order_by (fun a b => String.ltb (en_ModelCode a) (en_ModelCode b) ||
      (str_eq (en_ModelCode a) (en_ModelCode b) && String.leb (en_CapabilityType a) (en_CapabilityType b)))
    (List.filter (fun e => str_eq (en_PriceBookID e) book) (c_entries d)).

(** A call that commits before the next one runs. *)
Definition commit {A} (m : CTx A) (d : cdb) : cdb * result com_error A := run_tx m d.

(** The copies of [CloneVisiblePriceBook], one transaction each. *)
Fixpoint clone_entries (tenantID clone : string) (uuids : nat -> string) (i : nat) (entries : list PriceBookEntry)
    (d : cdb) : cdb * option com_error :=
  match entries with
  | [] => (d, None)
  | e :: rest =>
      let e := MkEntry "" clone (en_ModelCode e) (en_CapabilityType e) (en_TokenPriceTiers e)
        (en_ImageDefaultPrice e) (en_VideoDefaultPrice e) (en_ImagePrices e) (en_VideoPrices e)
        (en_AudioTTSPerChar e) (en_AudioSTTPerMinute e) (en_Source e) (en_ManuallyEdited e) in
      let '(d, r) := commit (upsertEntry OwnerTenant tenantID (uuids i) e) d in
      match r with
      | Err err => (d, Some err)
      | Ok _ => clone_entries tenantID clone uuids (S i) rest d
      end
  end.

(** [CloneVisiblePriceBook] *)
Definition CloneVisiblePriceBook (tenantID sourceID name uuid : string) (uuids : nat -> string) (d : cdb)
    : cdb * result com_error PriceBook :=
  match run_tx (GetVisiblePriceBook tenantID sourceID) d with
  | (d, Err e) => (d, Err e)
  | (d, Ok source) =>
      let name := if blank name then pb_Name source +:+ " copy" else name in
      match commit (CreateTenantPriceBook uuid tenantID name (pb_Description source)) d with
      | (d, Err e) => (d, Err e)
      | (d, Ok clone) =>
          match clone_entries tenantID (pb_ID clone) uuids 0 (ListEntries sourceID d) d with
          | (d, Some e) => (d, Err e)
          | (d, None) => run_tx (repo_GetPriceBook (pb_ID clone)) d
          end
      end
  end.
