(* ===== verification/Commercial.v ===== *)
(** * A tenant's groups

    The commercial control plane: [src/internal/ai/commercial/service.go], which
    normalizes what a tenant writes, over the transactions of
    [adapters/postgres] ([commercial_groups.go], [commercial_targets.go],
    [commercial_dispatch.go], [commercial_bindings.go], [dispatch_integrity.go],
    [group_repo.go]).  Every write of a group's routing bumps its version. *)

From Stdlib Require Import QArith.
From S2P Require Import Prelude GoStrings PathMatch Decimal PriceTiers CommercialDB.
#[global] Open Scope Z_scope.

(** ** What is written ([repository.go]) *)

Record GroupWrite := MkGroupWrite {
  gw_Code : string;
  gw_Name : string;
  gw_Description : string;
  gw_RetailPriceBookID : string;
  gw_DefaultUserMultiplier : float64;
  gw_UserDefaultVisible : bool;
  gw_AllowProtocolConversion : bool;
  gw_RoutePolicy : string;
  gw_ExpectedRoutePolicyVersion : Z;
  gw_Status : string;
  gw_SortOrder : Z }.
Record GroupTargetWrite := MkTargetWrite {
  tw_TargetKind : string; tw_TargetID : string; tw_Priority : option Z; tw_Status : string }.
Record GroupClientSurfaceWrite := MkSurfaceWrite {
  sw_Surface : string; sw_BridgeEnabled : bool; sw_Status : string }.
Record DispatchRuleWrite := MkRuleWrite {
  rw_ClientSurface : string; rw_MatchType : string; rw_MatchValue : string;
  rw_TargetModelID : string; rw_Priority : Z; rw_Notes : string }.
Record UserGroupBindingWrite := MkBindingWrite {
  bw_TenantID : string; bw_UserID : string; bw_GroupID : string;
  bw_UserMultiplierOverride : option float64 }.

(** ** Normalization ([service.go]) *)

Definition Res : Type -> Type := result com_error.
Definition res_bind {A B} (m : Res A) (k : A -> Res B) : Res B :=
  match m with Ok a => k a | Err e => Err e end.
Definition invalid_if (bad : bool) (field : string) : Res unit :=
  if bad then Err (ErrValidation field) else Ok tt.
Notation "'do!' x ':=' m 'in' k" := (res_bind m (fun x => k))
  (at level 10, x pattern, m at level 200, k at level 200).
Definition lift {A} (m : Res A) : CTx A :=
  match m with Ok a => tx_ret a | Err e => tx_fail e end.

Definition RoutePolicyBalanced : string := "balanced".
Definition RoutePolicies : list string := ["balanced"; "cost"; "latency"; "stability"]%string.
Definition TargetKindDirectUpstream : string := "direct_upstream".
Definition TargetKindOAuthPool : string := "oauth_pool".
Definition TargetKinds : list string := [TargetKindDirectUpstream; TargetKindOAuthPool].
Definition DispatchMatchExact : string := "exact".
Definition DispatchMatchPrefix : string := "prefix".
Definition DispatchMatchWildcard : string := "wildcard".
Definition DispatchMatchRegex : string := "regex".
Definition MatchTypes : list string :=
  [DispatchMatchExact; DispatchMatchPrefix; DispatchMatchWildcard; DispatchMatchRegex].
Definition DefaultGroupTargetPriority : Z := 100.

Definition str_in (s : string) (l : list string) : bool := bool_decide (s ∈ l).

(** [normalizeStatus] *)
Definition normalizeStatus (status : string) : Res string :=
  if str_eq status "" then Ok StatusActive
  else if str_in status [StatusActive; StatusDisabled] then Ok status
  else Err (ErrValidation "status").

(** [normalizeTenantGroupScope] *)
Definition normalizeTenantGroupScope (tenant group : string) : Res (string * string) :=
  let tenant := TrimSpace tenant in
  let group := TrimSpace group in
  do! _ := invalid_if (str_eq tenant "") "tenant_id" in
  do! _ := invalid_if (str_eq group "") "group_id" in
  Ok (tenant, group).

(** [normalizeGroupRoutePolicyWrite] *)
Definition normalizeGroupRoutePolicyWrite (policy : string) : Res string :=
  let policy := if str_eq policy "" then RoutePolicyBalanced else policy in
  do! _ := invalid_if (negb (str_in policy RoutePolicies)) "route_policy" in
  Ok policy.

(** [isFiniteNonNegative]; [maxGroupPolicyNumber] is 999999.9999. *)
Definition isFiniteNonNegative (v : float64) : bool :=
  negb (is_nan v) && negb (is_inf v) && negb (float_neg v) &&
  match v with Finite q => Qle_bool q (Qmake 9999999999 10000) | _ => false end.

(** [normalizeGroupWrite] *)
Definition normalizeGroupWrite (w : GroupWrite) : Res GroupWrite :=
  do! _ := invalid_if (gw_ExpectedRoutePolicyVersion w <? 0) "route_policy_version" in
  let code := TrimSpace (gw_Code w) in
  let name := TrimSpace (gw_Name w) in
  do! policy := (if str_eq (gw_RoutePolicy w) "" then Ok (gw_RoutePolicy w)
                 else normalizeGroupRoutePolicyWrite (gw_RoutePolicy w)) in
  let book := TrimSpace (gw_RetailPriceBookID w) in
  do! _ := invalid_if (str_eq name "" && str_eq code "") "name" in
  let name := if str_eq name "" then code else name in
  let code := if str_eq code "" then name else code in
  do! _ := invalid_if (str_eq book "") "retail_price_book_id" in
  do! status := normalizeStatus (gw_Status w) in
  do! _ := invalid_if (negb (isFiniteNonNegative (gw_DefaultUserMultiplier w))) "default_user_multiplier" in
  do! _ := invalid_if (gw_SortOrder w <? 0) "sort_order" in
  Ok (MkGroupWrite code name (TrimSpace (gw_Description w)) book (gw_DefaultUserMultiplier w)
        (gw_UserDefaultVisible w) (gw_AllowProtocolConversion w) policy
        (gw_ExpectedRoutePolicyVersion w) status (gw_SortOrder w)).

(** [normalizeGroupTargetWrite] *)
Definition normalizeGroupTargetWrite (w : GroupTargetWrite) : Res GroupTargetWrite :=
  let id := TrimSpace (tw_TargetID w) in
  do! _ := invalid_if (str_eq id "") "target_id" in
  do! _ := invalid_if (negb (str_in (tw_TargetKind w) TargetKinds)) "target_kind" in
  do! _ := invalid_if (match tw_Priority w with Some p => p <? 0 | None => false end) "priority" in
  do! status := normalizeStatus (tw_Status w) in
  Ok (MkTargetWrite (tw_TargetKind w) id (tw_Priority w) status).

(** [normalizeUserBindingWrite] *)
Definition normalizeUserBindingWrite (w : UserGroupBindingWrite) : Res UserGroupBindingWrite :=
  let tenant := TrimSpace (bw_TenantID w) in
  let user := TrimSpace (bw_UserID w) in
  let group := TrimSpace (bw_GroupID w) in
  do! _ := invalid_if (str_eq tenant "") "tenant_id" in
  do! _ := invalid_if (str_eq user "") "user_id" in
  do! _ := invalid_if (str_eq group "") "group_id" in
  do! _ := invalid_if (match bw_UserMultiplierOverride w with Some v => float_neg v | None => false end)
             "multiplier_override" in
  Ok (MkBindingWrite tenant user group (bw_UserMultiplierOverride w)).

(** [path.Match] refuses a pattern. *)
Definition bad_glob (pattern : string) : bool := match Match pattern "" with None => true | Some _ => false end.

(** [normalizeDispatchRuleWrite].  [bad_regexp] tells that [regexp.Compile] refuses a
    pattern. *)
Definition normalizeDispatchRuleWrite (bad_regexp : string -> bool) (w : DispatchRuleWrite)
    : Res DispatchRuleWrite :=
  let surface := TrimSpace (rw_ClientSurface w) in
  let value := TrimSpace (rw_MatchValue w) in
  let model := TrimSpace (rw_TargetModelID w) in
  do! _ := invalid_if (negb (IsKnown surface)) "client_surface" in
  do! _ := invalid_if (negb (str_in (rw_MatchType w) MatchTypes)) "match_type" in
  do! _ := invalid_if (str_eq value "") "match_value" in
  do! _ := invalid_if (str_eq model "") "target_model_id" in
  do! _ := invalid_if (str_eq (rw_MatchType w) DispatchMatchWildcard && bad_glob value) "match_value" in
  do! _ := invalid_if (str_eq (rw_MatchType w) DispatchMatchRegex && bad_regexp value) "match_value" in
  do! _ := invalid_if (rw_Priority w <? 0) "priority" in
  Ok (MkRuleWrite surface (rw_MatchType w) value model (rw_Priority w) (TrimSpace (rw_Notes w))).

(** ** Statements *)

(** [commercialStatusOrDefault], [commercialNameOrCode] ([commercial_helpers.go]) *)
Definition commercialStatusOrDefault (status : string) : string :=
  if str_eq status StatusDisabled then StatusDisabled else StatusActive.
Definition commercialNameOrCode (name code : string) : string :=
  let name := TrimSpace name in
  let code := TrimSpace code in
  if negb (blank name) then name else if negb (blank code) then code else "".

(** [lockGroupForTenant] *)
Definition lockGroupForTenant (tenant id : string) : CTx Group :=
  let! d := tx_get in tx_row (find_group tenant id d).

(** [UPDATE ai_groups SET ..., route_policy_version = route_policy_version + 1] of one
    group of a tenant. *)
Definition next_version (f : Group -> Group) (g : Group) : Group :=
  let g' := f g in
  MkGroup (gr_ID g) (gr_TenantID g) (gr_Name g') (gr_Description g') (gr_RetailPriceBookID g')
    (gr_DefaultUserMultiplier g') (gr_UserDefaultVisible g') (gr_AllowProtocolConversion g')
    (gr_RoutePolicy g') (gr_RoutePolicyVersion g + 1) (gr_Status g') (gr_SortOrder g').
Definition update_group (tenant id : string) (f : Group -> Group) : CTx unit :=
  let! d := tx_get in
  tx_guard (existsb (fun g => tenant_group tenant id g && negb (in_int64 (gr_RoutePolicyVersion g + 1))) (c_groups d))
    ErrOutOfRange ;;;
  tx_put (with_groups (update_where (tenant_group tenant id) (next_version f) (c_groups d)) d).

(** [bumpGroupRoutePolicyVersion] *)
Definition bumpGroupRoutePolicyVersion (tenant id : string) : CTx unit := update_group tenant id (fun g => g).

(** [validateVisibleActivePriceBook] *)
Definition validateVisibleActivePriceBook (tenant book : string) : CTx unit :=
  let! d := tx_get in
  tx_guard (negb (match find_book book d with Some b => book_usable tenant b | None => false end))
    (ErrRulePriceConflict []).

(** [validateRulePrice] *)
Definition validateRulePrice (g : Group) (ruleID apiFormat targetModel : string) : CTx unit :=
  let! d := tx_get in
  tx_guard (negb (has_price d (gr_RetailPriceBookID g) targetModel (dispatchRequiredCapability apiFormat)))
    (ErrRulePriceConflict [ruleID]).

(** [validateActiveRulesAgainstBook] *)
Definition validateActiveRulesAgainstBook (groupID book : string) : CTx unit :=
  let! d := tx_get in
  let conflicts := dr_ID <$> List.filter (fun r => str_eq (dr_GroupID r) groupID && str_eq (dr_Status r) "active"
    && negb (has_price d book (dr_TargetModelID r) (dispatchRequiredCapability (dr_ClientSurface r)))) (c_rules d) in
  tx_guard (negb (Nat.eqb (length conflicts) 0)) (ErrRulePriceConflict conflicts).

(** CHECK constraints of [ai_groups]. *)
Definition group_row_check (g : Group) : bool :=
  negb (float_neg (gr_DefaultUserMultiplier g)) && str_in (gr_RoutePolicy g) RoutePolicies
  && (0 <? gr_RoutePolicyVersion g).
Definition group_name_taken (tenant id name : string) (d : cdb) : bool :=
  existsb (fun g => negb (str_eq (gr_ID g) id) && str_eq (gr_TenantID g) tenant && str_eq (gr_Name g) name) (c_groups d).

(** ** Groups ([commercial_groups.go]) *)

Definition default_multiplier (v : float64) : float64 := default (Finite (Qmake 0 1)) (floatToNumeric v).

(** [repo.CreateGroup] *)
Definition repo_CreateGroup (uuid tenant : string) (w : GroupWrite) : CTx Group :=
  let name := commercialNameOrCode (gw_Name w) (gw_Code w) in
  validateVisibleActivePriceBook tenant (gw_RetailPriceBookID w) ;;;
  let! multiplier := numeric_10_4 (default_multiplier (gw_DefaultUserMultiplier w)) in
  let row := MkGroup uuid tenant name (gw_Description w) (gw_RetailPriceBookID w) multiplier
    (gw_UserDefaultVisible w) (gw_AllowProtocolConversion w) (gw_RoutePolicy w) 1
    (commercialStatusOrDefault (gw_Status w)) (wrap32 (gw_SortOrder w)) in
  let! d := tx_get in
  tx_guard (existsb (fun g => str_eq (gr_ID g) uuid) (c_groups d)) ErrConflict ;;;
  tx_guard (negb (group_row_check row)) ErrCheck ;;;
  tx_guard (group_name_taken tenant uuid name d) ErrConflict ;;;
  tx_put (with_groups (c_groups d ++ [row]) d) ;;;
  tx_ret row.

(** [repo.UpdateGroup] *)
Definition repo_UpdateGroup (tenant id : string) (w : GroupWrite) : CTx unit :=
  let! current := lockGroupForTenant tenant id in
  tx_guard ((0 <? gw_ExpectedRoutePolicyVersion w) &&
            negb (gr_RoutePolicyVersion current =? gw_ExpectedRoutePolicyVersion w))
    (ErrRoutePolicyConflict id (gw_ExpectedRoutePolicyVersion w) (gr_RoutePolicyVersion current)) ;;;
  let name := commercialNameOrCode (gw_Name w) (gw_Code w) in
  validateVisibleActivePriceBook tenant (gw_RetailPriceBookID w) ;;;
  let nextStatus := commercialStatusOrDefault (gw_Status w) in
  (if negb (str_eq (gr_RetailPriceBookID current) (gw_RetailPriceBookID w)) ||
      (negb (str_eq (gr_Status current) "active") && str_eq nextStatus "active")
   then validateActiveRulesAgainstBook (gr_ID current) (gw_RetailPriceBookID w) else tx_ret tt) ;;;
  let routePolicy := if str_eq (gw_RoutePolicy w) "" then gr_RoutePolicy current else gw_RoutePolicy w in
  let! multiplier := numeric_10_4 (default_multiplier (gw_DefaultUserMultiplier w)) in
  let edit g := MkGroup (gr_ID g) (gr_TenantID g) name (gw_Description w) (gw_RetailPriceBookID w) multiplier
    (gw_UserDefaultVisible w) (gw_AllowProtocolConversion w) routePolicy (gr_RoutePolicyVersion g)
    nextStatus (wrap32 (gw_SortOrder w)) in
  let! d := tx_get in
  tx_guard (negb (group_row_check (edit current))) ErrCheck ;;;
  tx_guard (group_name_taken tenant id name d) ErrConflict ;;;
  update_group tenant id edit.

Definition set_group_policy (policy : string) (g : Group) : Group :=
  MkGroup (gr_ID g) (gr_TenantID g) (gr_Name g) (gr_Description g) (gr_RetailPriceBookID g)
    (gr_DefaultUserMultiplier g) (gr_UserDefaultVisible g) (gr_AllowProtocolConversion g) policy
    (gr_RoutePolicyVersion g) (gr_Status g) (gr_SortOrder g).
Definition set_group_status (status : string) (g : Group) : Group :=
  MkGroup (gr_ID g) (gr_TenantID g) (gr_Name g) (gr_Description g) (gr_RetailPriceBookID g)
    (gr_DefaultUserMultiplier g) (gr_UserDefaultVisible g) (gr_AllowProtocolConversion g) (gr_RoutePolicy g)
    (gr_RoutePolicyVersion g) status (gr_SortOrder g).

(** [repo.UpdateGroupRoutePolicy] *)
Definition repo_UpdateGroupRoutePolicy (tenant id policy : string) (expected : Z) : CTx unit :=
  let! g := lockGroupForTenant tenant id in
  tx_guard (negb (gr_RoutePolicyVersion g =? expected))
    (ErrRoutePolicyConflict id expected (gr_RoutePolicyVersion g)) ;;;
  tx_guard (negb (str_in policy RoutePolicies)) ErrCheck ;;;
  update_group tenant id (set_group_policy policy).

(** [repo.UpdateGroupStatus] *)
Definition repo_UpdateGroupStatus (tenant id status : string) : CTx unit :=
  let! g := lockGroupForTenant tenant id in
  let nextStatus := commercialStatusOrDefault status in
  (if str_eq nextStatus "active" then
     validateVisibleActivePriceBook tenant (gr_RetailPriceBookID g) ;;;
     validateActiveRulesAgainstBook (gr_ID g) (gr_RetailPriceBookID g)
   else tx_ret tt) ;;;
  update_group tenant id (set_group_status nextStatus).

(** [repo.DeleteGroup] *)
Definition repo_DeleteGroup (tenant id : string) : CTx unit :=
  let! g := lockGroupForTenant tenant id in
  let! d := tx_get in
  let of_group x := str_eq x id in
  let deps := count_where (fun u => of_group (ub_GroupID u)) (c_users d) + count_where of_group (c_key_groups d)
    + Z.of_nat (length (remove_dups (List.filter (fun p => of_group p.2) (c_plan_groups d)).*1)) in
  tx_guard (0 <? deps) (ErrGroupInUse id) ;;;
  tx_put (with_surfaces (List.filter (fun s => negb (of_group (cs_GroupID s))) (c_surfaces d))
         (with_rules (List.filter (fun r => negb (of_group (dr_GroupID r))) (c_rules d))
         (with_targets (List.filter (fun t => negb (of_group (gt_GroupID t))) (c_targets d))
         (with_groups (List.filter (fun g => negb (tenant_group tenant id g)) (c_groups d)) d)))).

(** ** Surfaces and targets ([commercial_targets.go]) *)

(** [repo.ReplaceGroupClientSurfaces] *)
Definition repo_ReplaceGroupClientSurfaces (tenant id : string) (entries : list GroupClientSurfaceWrite) : CTx unit :=
  let! _ := lockGroupForTenant tenant id in
  let! d := tx_get in
  tx_put (with_surfaces (List.filter (fun s => negb (str_eq (cs_GroupID s) id)) (c_surfaces d)) d) ;;;
  tx_iter (fun e =>
    let! d := tx_get in
    tx_guard (existsb (fun s => str_eq (cs_GroupID s) id && str_eq (cs_Surface s) (sw_Surface e)) (c_surfaces d))
      ErrConflict ;;;
    tx_put (with_surfaces (c_surfaces d ++ [MkSurface id (sw_Surface e) (sw_BridgeEnabled e)
                             (commercialStatusOrDefault (sw_Status e))]) d)) entries ;;;
  bumpGroupRoutePolicyVersion tenant id.

(** [repo.ListGroupClientSurfaces] *)
Definition repo_ListGroupClientSurfaces (tenant id : string) (d : cdb) : list GroupClientSurface :=
  order_by (fun a b => String.leb (cs_Surface a) (cs_Surface b))
    (List.filter (fun s => str_eq (cs_GroupID s) id && bool_decide (is_Some (find_group tenant id d))) (c_surfaces d)).

(** The status of a resource, and whether the tenant may use it. *)
Definition resource_state (kind id tenant : string) (d : cdb) : option (string * bool) :=
  (fun r => (rs_Status r, rs_Public r || bool_decide ((kind, id, tenant) ∈ c_granted d))) <$>
  List.find (fun r => str_eq (rs_Kind r) kind && str_eq (rs_ID r) id) (c_resources d).

Definition target_row_check (t : GroupTarget) : bool :=
  str_in (gt_TargetKind t) TargetKinds && (0 <=? gt_Priority t).
Definition target_taken (group kind target : string) (d : cdb) : bool :=
  existsb (fun t => str_eq (gt_GroupID t) group && str_eq (gt_TargetKind t) kind && str_eq (gt_TargetID t) target)
    (c_targets d).

(** [INSERT INTO ai_group_targets] *)
Definition insert_target (row : GroupTarget) : CTx unit :=
  let! d := tx_get in
  tx_guard (negb (target_row_check row)) ErrCheck ;;;
  tx_guard (existsb (fun t => str_eq (gt_ID t) (gt_ID row)) (c_targets d)) ErrConflict ;;;
  tx_guard (target_taken (gt_GroupID row) (gt_TargetKind row) (gt_TargetID row) d) ErrConflict ;;;
  tx_put (with_targets (c_targets d ++ [row]) d).

(** [repo.AddGroupTarget] *)
Definition repo_AddGroupTarget (uuid tenant group : string) (w : GroupTargetWrite) : CTx GroupTarget :=
  tx_guard (negb (str_in (tw_TargetKind w) TargetKinds)) (ErrValidation "target_kind") ;;;
  tx_guard (blank (tw_TargetID w)) (ErrValidation "target_id") ;;;
  let! _ := lockGroupForTenant tenant group in
  let! d := tx_get in
  match resource_state (tw_TargetKind w) (tw_TargetID w) tenant d with
  | None => tx_fail (ErrValidation "target_id")
  | Some (status, allowed) =>
      tx_guard (negb (str_eq status StatusActive)) (ErrValidation "target_id") ;;;
      tx_guard (negb allowed) (ErrValidation "target_id") ;;;
      let row := MkTarget uuid group (tw_TargetKind w) (tw_TargetID w)
        (default DefaultGroupTargetPriority (tw_Priority w)) (commercialStatusOrDefault (tw_Status w)) in
      insert_target row ;;;
      bumpGroupRoutePolicyVersion tenant group ;;;
      tx_ret row
  end.

(** [groupTargetBatchPriority] *)
Definition groupTargetBatchPriority (w : GroupTargetWrite) : Z := default DefaultGroupTargetPriority (tw_Priority w).

Definition target_key (kind id : string) : string * string := (kind, id).
Definition key_of_target (t : GroupTarget) : string * string := target_key (gt_TargetKind t) (gt_TargetID t).
Definition key_of_write (w : GroupTargetWrite) : string * string := target_key (tw_TargetKind w) (tw_TargetID w).

(** The first loop of [repo.ReplaceGroupTargets]: the desired targets, checked. *)
Fixpoint check_desired (tenant : string) (current : list GroupTarget) (seen : gset (string * string))
    (desired : list GroupTargetWrite) (d : cdb) : option com_error :=
  match desired with
  | [] => None
  | w :: rest =>
      if negb (str_in (tw_TargetKind w) TargetKinds) then Some (ErrValidation "target_kind")
      else if bool_decide (key_of_write w ∈ seen) then Some (ErrValidation "targets")
      else match resource_state (tw_TargetKind w) (tw_TargetID w) tenant d with
      | None => Some (ErrValidation "target_id")
      | Some (status, allowed) =>
          let existing := bool_decide (key_of_write w ∈ key_of_target <$> current) in
          let active := str_eq (commercialStatusOrDefault (tw_Status w)) StatusActive in
          if negb existing && negb (str_eq status StatusActive) then Some (ErrValidation "target_id")
          else if active && negb allowed then Some (ErrValidation "target_id")
          else if active && negb (str_eq status StatusActive) then Some (ErrValidation "target_id")
          else check_desired tenant current ({[key_of_write w]} ∪ seen) rest d
      end
  end.

Definition retarget (status : string) (priority : Z) (t : GroupTarget) : GroupTarget :=
  MkTarget (gt_ID t) (gt_GroupID t) (gt_TargetKind t) (gt_TargetID t) priority status.

(** One desired target: kept, changed or inserted; tells whether it changed anything. *)
Definition apply_target (group uuid : string) (current : list GroupTarget) (w : GroupTargetWrite) : CTx bool :=
  let status := commercialStatusOrDefault (tw_Status w) in
  let priority := groupTargetBatchPriority w in
  match List.find (fun t => bool_decide (key_of_target t = key_of_write w)) current with
  | Some t =>
      if str_eq (gt_Status t) status && (gt_Priority t =? priority) then tx_ret false
      else
        let! d := tx_get in
        tx_guard (priority <? 0) ErrCheck ;;;
        tx_put (with_targets (update_where (fun x => str_eq (gt_ID x) (gt_ID t) && str_eq (gt_GroupID x) group)
                  (retarget status priority) (c_targets d)) d) ;;;
        tx_ret true
  | None =>
      insert_target (MkTarget uuid group (tw_TargetKind w) (tw_TargetID w) priority status) ;;;
      tx_ret true
  end.

(** [repo.ReplaceGroupTargets]: [uuids] are the keys new rows get.  The map of
    desired targets is walked in an order Go does not fix; the list is one order. *)
Definition repo_ReplaceGroupTargets (uuids : nat -> string) (tenant group : string) (expected : Z)
    (desired : list GroupTargetWrite) : CTx (Z * list GroupTarget) :=
  let! g := lockGroupForTenant tenant group in
  let actual := gr_RoutePolicyVersion g in
  tx_guard (negb (actual =? expected)) (ErrRoutePolicyConflict group expected actual) ;;;
  let! d := tx_get in
  let current := List.filter (fun t => str_eq (gt_GroupID t) group) (c_targets d) in
  match check_desired tenant current ∅ desired d with
  | Some e => tx_fail e
  | None =>
      let kept t := bool_decide (key_of_target t ∈ key_of_write <$> desired) in
      tx_put (with_targets (List.filter (fun t => negb (str_eq (gt_GroupID t) group) || kept t) (c_targets d)) d) ;;;
      let removed := existsb (fun t => negb (kept t)) current in
      let! changed := tx_fold (fun changed '(uuid, w) =>
        let! c := apply_target group uuid current w in tx_ret (changed || c))
        (imap (fun i w => (uuids i, w)) desired)
        (negb (Nat.eqb (length current) (length desired)) || removed) in
      (if changed then bumpGroupRoutePolicyVersion tenant group else tx_ret tt) ;;;
      let! d := tx_get in
      tx_ret (if changed then actual + 1 else actual,
              order_by (fun a b => (gt_Priority a <? gt_Priority b) || ((gt_Priority a =? gt_Priority b) &&
                  (String.ltb (gt_TargetKind a) (gt_TargetKind b) ||
                   (str_eq (gt_TargetKind a) (gt_TargetKind b) && String.leb (gt_TargetID a) (gt_TargetID b)))))
                (List.filter (fun t => str_eq (gt_GroupID t) group) (c_targets d)))
  end.

(** [repo.UpdateGroupTarget] *)
Definition repo_UpdateGroupTarget (tenant group id : string) (w : GroupTargetWrite) : CTx unit :=
  let! _ := lockGroupForTenant tenant group in
  let! d := tx_get in
  let! t := tx_row (List.find (fun t => str_eq (gt_ID t) id && str_eq (gt_GroupID t) group) (c_targets d)) in
  tx_guard (negb (str_eq (tw_TargetKind w) "") && negb (str_eq (tw_TargetKind w) (gt_TargetKind t)))
    (ErrValidation "target_kind") ;;;
  tx_guard (negb (blank (tw_TargetID w)) && negb (str_eq (TrimSpace (tw_TargetID w)) (gt_TargetID t)))
    (ErrValidation "target_id") ;;;
  let! state := tx_row (resource_state (gt_TargetKind t) (gt_TargetID t) tenant d) in
  let status := commercialStatusOrDefault (tw_Status w) in
  tx_guard (str_eq status StatusActive && negb (str_eq state.1 StatusActive)) (ErrValidation "target_id") ;;;
  tx_guard (str_eq status StatusActive && negb state.2) (ErrValidation "target_id") ;;;
  let priority := default (gt_Priority t) (tw_Priority w) in
  tx_guard (priority <? 0) ErrCheck ;;;
  tx_put (with_targets (update_where (fun x => str_eq (gt_ID x) id && str_eq (gt_GroupID x) group)
            (retarget status priority) (c_targets d)) d) ;;;
  bumpGroupRoutePolicyVersion tenant group.

(** [repo.DeleteGroupTarget] *)
Definition repo_DeleteGroupTarget (tenant group id : string) : CTx unit :=
  let! d := tx_get in
  let! t := tx_row (List.find (fun t => str_eq (gt_ID t) id && bool_decide (is_Some (find_group tenant (gt_GroupID t) d)))
                      (c_targets d)) in
  tx_guard (negb (str_eq (gt_GroupID t) group)) ErrNotFound ;;;
  let! _ := lockGroupForTenant tenant group in
  tx_put (with_targets (List.filter (fun x => negb (str_eq (gt_ID x) id && str_eq (gt_GroupID x) group)) (c_targets d)) d) ;;;
  bumpGroupRoutePolicyVersion tenant group.

(** ** Rules ([commercial_dispatch.go]) *)

Definition rule_of (id group : string) (r : DispatchRule) : bool := str_eq (dr_ID r) id && str_eq (dr_GroupID r) group.

(** [repo.AddDispatchRule] *)
Definition repo_AddDispatchRule (now : Z) (uuid tenant group : string) (w : DispatchRuleWrite) : CTx DispatchRule :=
  let! g := lockGroupForTenant tenant group in
  validateRulePrice g "" (rw_ClientSurface w) (rw_TargetModelID w) ;;;
  let! d := tx_get in
  tx_guard (negb (in_int32 (rw_Priority w))) ErrOutOfRange ;;;
  tx_guard (rw_Priority w <? 0) ErrCheck ;;;
  tx_guard (existsb (fun r => str_eq (dr_ID r) uuid) (c_rules d)) ErrConflict ;;;
  let row := MkRule uuid group (rw_ClientSurface w) (rw_MatchType w) (rw_MatchValue w) (rw_TargetModelID w)
    (rw_Priority w) "active" (rw_Notes w) now in
  tx_put (with_rules (c_rules d ++ [row]) d) ;;;
  bumpGroupRoutePolicyVersion tenant group ;;;
  tx_ret row.

(** [repo.UpdateDispatchRule] *)
Definition repo_UpdateDispatchRule (tenant group id : string) (w : DispatchRuleWrite) : CTx unit :=
  let! g := lockGroupForTenant tenant group in
  let! d := tx_get in
  let! r := tx_row (List.find (rule_of id group) (c_rules d)) in
  (if str_eq (dr_Status r) StatusActive then validateRulePrice g id (rw_ClientSurface w) (rw_TargetModelID w)
   else tx_ret tt) ;;;
  tx_guard (negb (in_int32 (rw_Priority w))) ErrOutOfRange ;;;
  tx_guard (rw_Priority w <? 0) ErrCheck ;;;
  tx_put (with_rules (update_where (rule_of id group) (fun x => MkRule (dr_ID x) (dr_GroupID x) (rw_ClientSurface w)
            (rw_MatchType w) (rw_MatchValue w) (rw_TargetModelID w) (rw_Priority w) (dr_Status x) (rw_Notes w)
            (dr_CreatedAt x)) (c_rules d)) d) ;;;
  bumpGroupRoutePolicyVersion tenant group.

(** [repo.UpdateDispatchRuleStatus] *)
Definition repo_UpdateDispatchRuleStatus (tenant group id status : string) : CTx unit :=
  let! g := lockGroupForTenant tenant group in
  let! d := tx_get in
  let! r := tx_row (List.find (rule_of id group) (c_rules d)) in
  (if str_eq status StatusActive then validateRulePrice g id (dr_ClientSurface r) (dr_TargetModelID r)
   else tx_ret tt) ;;;
  tx_put (with_rules (update_where (rule_of id group) (fun x => MkRule (dr_ID x) (dr_GroupID x) (dr_ClientSurface x)
            (dr_MatchType x) (dr_MatchValue x) (dr_TargetModelID x) (dr_Priority x) status (dr_Notes x)
            (dr_CreatedAt x)) (c_rules d)) d) ;;;
  bumpGroupRoutePolicyVersion tenant group.

(** [repo.DeleteDispatchRule] *)
Definition repo_DeleteDispatchRule (tenant group id : string) : CTx unit :=
  let! d := tx_get in
  let! r := tx_row (List.find (fun r => str_eq (dr_ID r) id && bool_decide (is_Some (find_group tenant (dr_GroupID r) d)))
                      (c_rules d)) in
  tx_guard (negb (str_eq (dr_GroupID r) group)) ErrNotFound ;;;
  let! _ := lockGroupForTenant tenant group in
  tx_put (with_rules (List.filter (fun x => negb (rule_of id group x)) (c_rules d)) d) ;;;
  bumpGroupRoutePolicyVersion tenant group.

(** ** Bindings of users ([group_repo.go]) *)

(** [UpsertUserGroup] *)
Definition repo_UpsertUserGroup (w : UserGroupBindingWrite) : CTx unit :=
  let! d := tx_get in
  let! _ := tx_row (find_group (bw_TenantID w) (bw_GroupID w) d) in
  let! override := (match bw_UserMultiplierOverride w ≫= floatToNumeric with
                    | Some v => let! v := numeric_10_4 v in tx_ret (Some v)
                    | None => tx_ret None
                    end) in
  tx_guard (match override with Some v => float_neg v | None => false end) ErrCheck ;;;
  let same u := str_eq (ub_TenantID u) (bw_TenantID w) && str_eq (ub_UserID u) (bw_UserID w)
                && str_eq (ub_GroupID u) (bw_GroupID w) in
  let row := MkUserBinding (bw_TenantID w) (bw_UserID w) (bw_GroupID w) override in
  tx_put (with_users (if existsb same (c_users d) then update_where same (fun _ => row) (c_users d)
                      else c_users d ++ [row]) d).

(** [DeleteUserGroup] *)
Definition repo_DeleteUserGroup (tenant user group : string) : CTx unit :=
  let! d := tx_get in
  tx_put (with_users (List.filter (fun u => negb (str_eq (ub_TenantID u) tenant && str_eq (ub_UserID u) user
                                                 && str_eq (ub_GroupID u) group)) (c_users d)) d).

(** [ListUserGroups] *)
Definition repo_ListUserBindings (tenant user : string) (d : cdb) : list UserGroupBinding :=
  List.filter (fun u => str_eq (ub_TenantID u) tenant && str_eq (ub_UserID u) user
    && bool_decide (is_Some (find_group tenant (ub_GroupID u) d))) (c_users d).
