(* ===== verification/CommercialService.v ===== *)
(** * What a tenant may ask of its groups

    The operations of [src/internal/ai/commercial/service.go] that write: each trims and
    checks what it is given and runs one transaction of [Commercial].  The policy of
    client surfaces reads, replaces and reads again, each in a transaction of its own.
    [ApplyGroupImport] ([adapters/postgres/group_transfer.go]) writes one group of an
    imported bundle as its preview planned it, and [DeleteTenant] takes all a tenant has.
    [exec] is one committed call of the control plane, [reachable] any history of them
    with whatever the rest of the program does to its own tables. *)

From Stdlib Require Import QArith.
From S2P Require Import Prelude GoStrings Decimal PriceTiers CommercialDB PriceBooks Commercial.
#[global] Open Scope Z_scope.

(** [CreateGroup] *)
Definition CreateGroup (uuid tenantID : string) (w : GroupWrite) : CTx Group :=
  let tenantID := TrimSpace tenantID in
  tx_guard (str_eq tenantID "") (ErrValidation "tenant_id") ;;;
  let policy := if str_eq (gw_RoutePolicy w) "" then RoutePolicyBalanced else gw_RoutePolicy w in
  let! w := lift (normalizeGroupWrite
    (MkGroupWrite (gw_Code w) (gw_Name w) (gw_Description w) (gw_RetailPriceBookID w) (gw_DefaultUserMultiplier w)
       (gw_UserDefaultVisible w) (gw_AllowProtocolConversion w) policy (gw_ExpectedRoutePolicyVersion w)
       (gw_Status w) (gw_SortOrder w))) in
  repo_CreateGroup uuid tenantID w.

(** [UpdateGroup] *)
Definition UpdateGroup (tenant group : string) (w : GroupWrite) : CTx unit :=
  let! scope := lift (normalizeTenantGroupScope tenant group) in
  let! w := lift (normalizeGroupWrite w) in
  repo_UpdateGroup scope.1 scope.2 w.

(** [UpdateGroupRoutePolicy] *)
Definition UpdateGroupRoutePolicy (tenant group policy : string) (expected : Z) : CTx unit :=
  let! scope := lift (normalizeTenantGroupScope tenant group) in
  let! policy := lift (normalizeGroupRoutePolicyWrite policy) in
  tx_guard (expected <=? 0) (ErrValidation "expected_version") ;;;
  repo_UpdateGroupRoutePolicy scope.1 scope.2 policy expected.

(** [UpdateGroupStatus] *)
Definition UpdateGroupStatus (tenant group status : string) : CTx unit :=
  let! scope := lift (normalizeTenantGroupScope tenant group) in
  let! status := lift (normalizeStatus status) in
  repo_UpdateGroupStatus scope.1 scope.2 status.

(** [DeleteGroup] *)
Definition DeleteGroup (tenant group : string) : CTx unit :=
  let! scope := lift (normalizeTenantGroupScope tenant group) in
  repo_DeleteGroup scope.1 scope.2.

(** ** Client surfaces *)

Definition GroupClientSurfacePolicyAll : string := "all".
Definition GroupClientSurfacePolicyRestricted : string := "restricted".
Record GroupClientSurfacePolicy := MkPolicy {
  sp_GroupID : string; sp_Mode : string; sp_AllowedSurfaces : list string }.

(** The policy the stored entries of a group stand for. *)
Definition surface_policy (group : string) (entries : list GroupClientSurface) : GroupClientSurfacePolicy :=
  match entries with
  | [] => MkPolicy group GroupClientSurfacePolicyAll []
  | _ =>
      let allowed := cs_Surface <$> List.filter (fun e => str_eq (cs_Status e) StatusActive) entries in
      if Nat.eqb (length allowed) (length Known) then MkPolicy group GroupClientSurfacePolicyAll []
      else MkPolicy group GroupClientSurfacePolicyRestricted allowed
  end.

(** [GetGroupClientSurfacePolicy] *)
Definition GetGroupClientSurfacePolicy (tenant group : string) : CTx GroupClientSurfacePolicy :=
  let! scope := lift (normalizeTenantGroupScope tenant group) in
  let! d := tx_get in
  let! _ := tx_row (find_group scope.1 scope.2 d) in
  tx_ret (surface_policy scope.2 (repo_ListGroupClientSurfaces scope.1 scope.2 d)).

(** The loop over the allowed surfaces of a restricted policy. *)
Fixpoint select_surfaces (raw : list string) (selected : gset string) : Res (gset string) :=
  match raw with
  | [] => Ok selected
  | r :: rest =>
      let s := TrimSpace r in
      do! _ := invalid_if (negb (IsKnown s)) "allowed_surfaces" in
      select_surfaces rest ({[s]} ∪ selected)
  end.
Definition selected_surfaces (mode : string) (raw : list string) : Res (gset string) :=
  if str_eq mode GroupClientSurfacePolicyAll then Ok (list_to_set Known)
  else if str_eq mode GroupClientSurfacePolicyRestricted then
    do! _ := invalid_if (Nat.eqb (length raw) 0) "allowed_surfaces" in
    select_surfaces raw ∅
  else Err (ErrValidation "mode").

(** The entries written: every known surface, active when it is selected, with the
    bridge it had. *)
Definition bridge_by_surface (current : list GroupClientSurface) : gmap string bool :=
  foldl (fun m e => <[cs_Surface e := cs_BridgeEnabled e]> m) ∅ current.
Definition surface_entries (selected : gset string) (current : list GroupClientSurface) : list GroupClientSurfaceWrite :=
  (fun s => MkSurfaceWrite s (default true (bridge_by_surface current !! s))
              (if bool_decide (s ∈ selected) then StatusActive else StatusDisabled)) <$> Known.

(** [ReplaceGroupClientSurfacePolicy] *)
Definition ReplaceGroupClientSurfacePolicy (tenant group mode : string) (raw : list string) (d : cdb)
    : cdb * result com_error GroupClientSurfacePolicy :=
  match normalizeTenantGroupScope tenant group with
  | Err e => (d, Err e)
  | Ok (tenant, group) =>
      match selected_surfaces mode raw with
      | Err e => (d, Err e)
      | Ok selected =>
          let current := repo_ListGroupClientSurfaces tenant group d in
          match run_tx (repo_ReplaceGroupClientSurfaces tenant group (surface_entries selected current)) d with
          | (d, Err e) => (d, Err e)
          | (d, Ok _) => run_tx (GetGroupClientSurfacePolicy tenant group) d
          end
      end
  end.

(** ** Targets *)

(** [AddGroupTarget] *)
Definition AddGroupTarget (uuid tenant group : string) (w : GroupTargetWrite) : CTx GroupTarget :=
  let! scope := lift (normalizeTenantGroupScope tenant group) in
  let! w := lift (normalizeGroupTargetWrite w) in
  repo_AddGroupTarget uuid scope.1 scope.2 w.

(** [UpdateGroupTarget], [DeleteGroupTarget] *)
Definition UpdateGroupTarget (tenant group id : string) (w : GroupTargetWrite) : CTx unit :=
  let! scope := lift (normalizeTenantGroupScope tenant group) in
  tx_guard (blank id) (ErrValidation "id") ;;;
  let! w := lift (normalizeGroupTargetWrite w) in
  repo_UpdateGroupTarget scope.1 scope.2 id w.
Definition DeleteGroupTarget (tenant group id : string) : CTx unit :=
  let! scope := lift (normalizeTenantGroupScope tenant group) in
  tx_guard (blank id) (ErrValidation "id") ;;;
  repo_DeleteGroupTarget scope.1 scope.2 id.

(** The loop of [ReplaceGroupTargets]. *)
Fixpoint normalize_targets (seen : gset (string * string)) (targets : list GroupTargetWrite) : Res (list GroupTargetWrite) :=
  match targets with
  | [] => Ok []
  | t :: rest =>
      match normalizeGroupTargetWrite t with
      | Err _ => Err (ErrValidation "targets")
      | Ok item =>
          do! _ := invalid_if (bool_decide (key_of_write item ∈ seen)) "targets" in
          do! items := normalize_targets ({[key_of_write item]} ∪ seen) rest in
          Ok (item :: items)
      end
  end.

(** [ReplaceGroupTargets] *)
Definition ReplaceGroupTargets (uuids : nat -> string) (tenant group : string) (expected : Z)
    (targets : list GroupTargetWrite) : CTx (Z * list GroupTarget) :=
  let! scope := lift (normalizeTenantGroupScope tenant group) in
  tx_guard (expected <=? 0) (ErrValidation "expected_version") ;;;
  let! desired := lift (normalize_targets ∅ targets) in
  repo_ReplaceGroupTargets uuids scope.1 scope.2 expected desired.

(** ** Rules *)

Section Rules.
(** What [path.Match] and [regexp.Compile] refuse. *)
Context (bad_regexp : string -> bool).

(** [AddDispatchRule], [UpdateDispatchRule] *)
Definition AddDispatchRule (now : Z) (uuid tenant group : string) (w : DispatchRuleWrite) : CTx DispatchRule :=
  let! scope := lift (normalizeTenantGroupScope tenant group) in
  let! w := lift (normalizeDispatchRuleWrite bad_regexp w) in
  repo_AddDispatchRule now uuid scope.1 scope.2 w.
Definition UpdateDispatchRule (tenant group id : string) (w : DispatchRuleWrite) : CTx unit :=
  let! scope := lift (normalizeTenantGroupScope tenant group) in
  tx_guard (blank id) (ErrValidation "id") ;;;
  let! w := lift (normalizeDispatchRuleWrite bad_regexp w) in
  repo_UpdateDispatchRule scope.1 scope.2 id w.
End Rules.

(** [UpdateDispatchRuleStatus], [DeleteDispatchRule] *)
Definition UpdateDispatchRuleStatus (tenant group id status : string) : CTx unit :=
  let! scope := lift (normalizeTenantGroupScope tenant group) in
  tx_guard (blank id) (ErrValidation "id") ;;;
  let! status := lift (normalizeStatus status) in
  repo_UpdateDispatchRuleStatus scope.1 scope.2 id status.
Definition DeleteDispatchRule (tenant group id : string) : CTx unit :=
  let! scope := lift (normalizeTenantGroupScope tenant group) in
  tx_guard (blank id) (ErrValidation "id") ;;;
  repo_DeleteDispatchRule scope.1 scope.2 id.

(** ** Bindings *)

(** [UpsertUserBinding], [DeleteUserBinding] *)
Definition UpsertUserBinding (w : UserGroupBindingWrite) : CTx unit :=
  let! w := lift (normalizeUserBindingWrite w) in repo_UpsertUserGroup w.
Definition DeleteUserBinding (tenant user group : string) : CTx unit :=
  tx_guard (blank tenant) (ErrValidation "tenant_id") ;;;
  tx_guard (blank user) (ErrValidation "user_id") ;;;
  tx_guard (blank group) (ErrValidation "group_id") ;;;
  repo_DeleteUserGroup tenant user group.

(** ** Importing a group's configuration ([group_transfer.go]) *)

(** A group as a bundle has it; the fields the bundle has besides are only reported. *)
Record GroupTransferDispatchRule := MkTransferRule {
  td_ClientSurface : string; td_MatchType : string; td_MatchValue : string; td_TargetModelID : string;
  td_Priority : Z; td_Status : string; td_Notes : string }.
Record GroupTransferClientSurfacePolicy := MkTransferPolicy {
  tp_Mode : string; tp_AllowedSurfaces : list string }.
Record GroupTransferGroup := MkTransferGroup {
  tg_Name : string;
  tg_Description : string;
  tg_DefaultUserMultiplier : float64;
  tg_UserDefaultVisible : bool;
  tg_AllowProtocolConversion : bool;
  tg_RoutePolicy : string;
  tg_SortOrder : Z;
  tg_Status : string;
  tg_ClientSurfacePolicy : GroupTransferClientSurfacePolicy;
  tg_DispatchRules : list GroupTransferDispatchRule }.

(** What a preview decided for a group, without its messages. *)
Record GroupImportPreviewItem := MkImportItem {
  ii_SourceName : string; ii_TargetName : string; ii_Action : string; ii_TargetGroupID : string;
  ii_PriceBookID : string; ii_SourceStatus : string; ii_AppliedStatus : string }.
Record PlannedGroupImport := MkPlannedImport {
  pi_Source : GroupTransferGroup; pi_Preview : GroupImportPreviewItem }.
Record AppliedGroupImport := MkAppliedImport { ai_GroupID : string; ai_Status : string }.

Definition GroupImportActionCreate : string := "create".
Definition GroupImportActionUpdate : string := "update".
Definition GroupImportActionCopy : string := "copy".

(** A price book with the capabilities it prices of each model. *)
Record GroupImportPriceBook := MkImportBook {
  ib_ID : string; ib_Status : string; ib_Models : gmap string (list string) }.

(** [transferCapabilityForSurface] *)
Definition transferCapabilityForSurface (id : string) : string :=
  if str_in id [OpenAIChat; OpenAIResponses; AnthropicMessages; GeminiText] then "chat"
  else if str_in id [OpenAIEmbeddings; GeminiEmbeddings] then "embedding"
  else if str_in id [OpenAIImages; GeminiImages] then "image"
  else "".

(** [SupportsModel]: the model exists, and for the surface. *)
Definition SupportsModel (p : GroupImportPriceBook) (model surface : string) : bool * bool :=
  match ib_Models p !! model with
  | None => (false, false)
  | Some capabilities =>
      let expected := transferCapabilityForSurface surface in
      if str_eq expected "" then (true, true) else (true, str_in expected capabilities)
  end.

(** [loadGroupImportPriceBooks] of one book. *)
Definition add_model (m : gmap string (list string)) (e : PriceBookEntry) : gmap string (list string) :=
  if str_eq (en_ModelCode e) "" then m
  else <[en_ModelCode e := default [] (m !! en_ModelCode e) ++ [en_CapabilityType e]]> m.
Definition visible_book (tenant : string) (b : PriceBook) : bool :=
  str_eq (pb_OwnerType b) "platform" || (str_eq (pb_OwnerType b) "tenant" && str_eq (pb_OwnerTenantID b) tenant).
Definition loadGroupImportPriceBook (tenant id : string) (d : cdb) : option GroupImportPriceBook :=
  match find_book id d with
  | Some b =>
      if visible_book tenant b then
        Some (MkImportBook id (pb_Status b)
          (foldl add_model ∅ (List.filter (fun e => str_eq (en_PriceBookID e) id) (c_entries d))))
      else None
  | None => None
  end.

Definition active_targets (group : string) (d : cdb) : Z :=
  count_where (fun t => str_eq (gt_GroupID t) group && str_eq (gt_Status t) "active") (c_targets d).

(** The rules of the plan the book does not support. *)
Definition unsupported (b : GroupImportPriceBook) (rules : list GroupTransferDispatchRule) : bool :=
  existsb (fun r => str_eq (td_Status r) StatusActive && negb (SupportsModel b (td_TargetModelID r) (td_ClientSurface r)).2)
    rules.

(** The first part of [ApplyGroupImport], up to the status the group gets: a group to
    update is locked, the book is only read. *)
Definition ApplyGroupImport_check (tenant : string) (item : PlannedGroupImport) : CTx string :=
  let p := pi_Preview item in
  let! d := tx_get in
  let! targets := (if str_eq (ii_Action p) GroupImportActionUpdate then
                     let! _ := lockGroupForTenant tenant (ii_TargetGroupID p) in
                     tx_ret (active_targets (ii_TargetGroupID p) d)
                   else tx_ret 0) in
  match loadGroupImportPriceBook tenant (ii_PriceBookID p) d with
  | None => tx_fail (ErrValidation "price_book_id")
  | Some b =>
      tx_guard (negb (str_eq (ib_Status b) StatusActive)) (ErrValidation "price_book_id") ;;;
      let applied := if unsupported b (tg_DispatchRules (pi_Source item)) then StatusDisabled
                     else ii_AppliedStatus p in
      tx_ret (if negb (str_eq (ii_Action p) GroupImportActionUpdate) || (targets =? 0) then StatusDisabled
              else applied)
  end.

(** A number written to a NUMERIC(10,4) column as it is: infinities do not fit, and a
    negative one is rounded away from zero like its opposite. *)
Definition signed_numeric_10_4 (v : float64) : CTx float64 :=
  match v with
  | PosInf | NegInf => tx_fail ErrOutOfRange
  | Finite q =>
      if Qle_bool 0 q then numeric_10_4 v
      else
        let! m := numeric_10_4 (Finite (Qopp q)) in
        tx_ret (match m with Finite q => Finite (Qopp q) | x => x end)
  | NaN => tx_ret v
  end.

(** The row of [ai_groups] a plan writes. *)
Definition import_row (item : PlannedGroupImport) (multiplier : float64) (status : string) (g : Group) : Group :=
  let s := pi_Source item in
  let p := pi_Preview item in
  MkGroup (gr_ID g) (gr_TenantID g) (ii_TargetName p) (tg_Description s) (ii_PriceBookID p) multiplier
    (tg_UserDefaultVisible s) (tg_AllowProtocolConversion s)
    (if str_eq (tg_RoutePolicy s) "" then RoutePolicyBalanced else tg_RoutePolicy s)
    (gr_RoutePolicyVersion g) status (tg_SortOrder s).

(** INSERT INTO [ai_groups], or the UPDATE of the target, which must find its row; the
    key of the group. *)
Definition import_group (uuid tenant : string) (item : PlannedGroupImport) (status : string) : CTx string :=
  let p := pi_Preview item in
  let s := pi_Source item in
  tx_guard (negb (in_int32 (tg_SortOrder s))) ErrOutOfRange ;;;
  let! d := tx_get in
  if str_eq (ii_Action p) GroupImportActionCreate || str_eq (ii_Action p) GroupImportActionCopy then
    let! multiplier := signed_numeric_10_4 (tg_DefaultUserMultiplier s) in
    let row := import_row item multiplier status (MkGroup uuid tenant "" "" "" multiplier false false "" 1 "" 0) in
    tx_guard (existsb (fun g => str_eq (gr_ID g) uuid) (c_groups d)) ErrConflict ;;;
    tx_guard (negb (group_row_check row)) ErrCheck ;;;
    tx_guard (group_name_taken tenant uuid (ii_TargetName p) d) ErrConflict ;;;
    tx_put (with_groups (c_groups d ++ [row]) d) ;;;
    tx_ret uuid
  else
    let id := ii_TargetGroupID p in
    let! current := lockGroupForTenant tenant id in
    let! multiplier := signed_numeric_10_4 (tg_DefaultUserMultiplier s) in
    tx_guard (negb (group_row_check (import_row item multiplier status current))) ErrCheck ;;;
    tx_guard (group_name_taken tenant id (ii_TargetName p) d) ErrConflict ;;;
    update_group tenant id (import_row item multiplier status) ;;;
    tx_ret id.

(** The surfaces of the plan, each with the bridge it had. *)
Definition import_selected (p : GroupTransferClientSurfacePolicy) : gset string :=
  if str_eq (tp_Mode p) GroupClientSurfacePolicyAll then list_to_set Known else list_to_set (tp_AllowedSurfaces p).
Definition import_surfaces (group : string) (p : GroupTransferClientSurfacePolicy) (d : cdb) : cdb :=
  let of_group s := str_eq (cs_GroupID s) group in
  with_surfaces (List.filter (fun s => negb (of_group s)) (c_surfaces d) ++
    ((fun e => MkSurface group (sw_Surface e) (sw_BridgeEnabled e) (sw_Status e)) <$>
      surface_entries (import_selected p) (List.filter of_group (c_surfaces d)))) d.

(** INSERT INTO [ai_group_model_dispatch_rules]: the rule as the bundle has it. *)
Definition import_rule (now : Z) (group : string) (x : string * GroupTransferDispatchRule) : CTx unit :=
  let r := x.2 in
  let! d := tx_get in
  tx_guard (negb (in_int32 (td_Priority r))) ErrOutOfRange ;;;
  tx_guard (td_Priority r <? 0) ErrCheck ;;;
  tx_guard (existsb (fun y => str_eq (dr_ID y) x.1) (c_rules d)) ErrConflict ;;;
  tx_put (with_rules (c_rules d ++ [MkRule x.1 group (td_ClientSurface r) (td_MatchType r) (td_MatchValue r)
    (td_TargetModelID r) (td_Priority r) (td_Status r) (td_Notes r) now]) d).

(** The rest of [ApplyGroupImport]. *)
Definition ApplyGroupImport_apply (now : Z) (uuid : string) (uuids : nat -> string) (tenant : string)
    (item : PlannedGroupImport) (status : string) : CTx AppliedGroupImport :=
  let! id := import_group uuid tenant item status in
  let! d := tx_get in
  let d := import_surfaces id (tg_ClientSurfacePolicy (pi_Source item)) d in
  tx_put (with_rules (List.filter (fun r => negb (str_eq (dr_GroupID r) id)) (c_rules d)) d) ;;;
  tx_iter (import_rule now id) (imap (fun i r => (uuids i, r)) (tg_DispatchRules (pi_Source item))) ;;;
  tx_ret (MkAppliedImport id status).

(** [ApplyGroupImport]: one group of an import, as the preview planned it. *)
Definition ApplyGroupImport (now : Z) (uuid : string) (uuids : nat -> string) (tenant : string)
    (item : PlannedGroupImport) : CTx AppliedGroupImport :=
  let! status := ApplyGroupImport_check tenant item in
  ApplyGroupImport_apply now uuid uuids tenant item status.

(** ** Deleting a tenant ([tenant/pg/repository.go]) *)

(** The statements of [DeleteTenant] on the groups and books of [CommercialDB], which it
    runs when the tenant [exists_]; the answer is whether it does. *)
Definition tenant_owns_book (tenant id : string) (d : cdb) : bool :=
  existsb (fun b => str_eq (pb_ID b) id && str_eq (pb_OwnerType b) "tenant" && str_eq (pb_OwnerTenantID b) tenant)
    (c_books d).
Definition tenant_owns_group (tenant id : string) (d : cdb) : bool :=
  existsb (fun g => str_eq (gr_ID g) id && str_eq (gr_TenantID g) tenant) (c_groups d).
Definition DeleteTenant (exists_ : bool) (tenant : string) : CTx bool :=
  if negb exists_ then tx_ret false else
  let! d := tx_get in
  let owned id := tenant_owns_group tenant id d in
  tx_put (with_entries (List.filter (fun e => negb (tenant_owns_book tenant (en_PriceBookID e) d)) (c_entries d))
         (with_books (List.filter (fun b => negb (str_eq (pb_OwnerType b) "tenant" && str_eq (pb_OwnerTenantID b) tenant))
                        (c_books d))
         (with_users (List.filter (fun u => negb (str_eq (ub_TenantID u) tenant)) (c_users d))
         (with_rules (List.filter (fun r => negb (owned (dr_GroupID r))) (c_rules d))
         (with_surfaces (List.filter (fun s => negb (owned (cs_GroupID s))) (c_surfaces d))
         (with_targets (List.filter (fun t => negb (owned (gt_GroupID t))) (c_targets d))
         (with_groups (List.filter (fun g => negb (str_eq (gr_TenantID g) tenant)) (c_groups d)) d))))))) ;;;
  tx_ret true.

(** ** Histories *)

(** One call that commits: every writer of the groups, their rules and the price books.
    The plan of an import is any plan. *)
Inductive call :=
| call_CreateGroup (uuid tenant : string) (w : GroupWrite)
| call_UpdateGroup (tenant group : string) (w : GroupWrite)
| call_UpdateGroupRoutePolicy (tenant group policy : string) (expected : Z)
| call_UpdateGroupStatus (tenant group status : string)
| call_DeleteGroup (tenant group : string)
| call_ReplaceSurfaces (tenant group : string) (entries : list GroupClientSurfaceWrite)
| call_AddGroupTarget (uuid tenant group : string) (w : GroupTargetWrite)
| call_UpdateGroupTarget (tenant group id : string) (w : GroupTargetWrite)
| call_DeleteGroupTarget (tenant group id : string)
| call_ReplaceGroupTargets (uuids : nat -> string) (tenant group : string) (expected : Z) (ts : list GroupTargetWrite)
| call_AddDispatchRule (now : Z) (uuid tenant group : string) (w : DispatchRuleWrite)
| call_UpdateDispatchRule (tenant group id : string) (w : DispatchRuleWrite)
| call_UpdateDispatchRuleStatus (tenant group id status : string)
| call_DeleteDispatchRule (tenant group id : string)
| call_UpsertUserBinding (w : UserGroupBindingWrite)
| call_DeleteUserBinding (tenant user group : string)
| call_createPriceBook (uuid ownerType ownerTenantID name description : string)
| call_updatePriceBook (ownerType ownerTenantID id name description status : string)
| call_deletePriceBook (ownerType ownerTenantID id : string)
| call_upsertEntry (ownerType ownerTenantID uuid : string) (e : PriceBookEntry)
| call_deleteEntry (ownerType ownerTenantID book model capability : string)
| call_ImportEntries (book : string) (entries : list (string * PriceBookEntry))
| call_ApplyGroupImport (now : Z) (uuid : string) (uuids : nat -> string) (tenant : string) (item : PlannedGroupImport)
| call_DeleteTenant (exists_ : bool) (tenant : string).

Definition ignore {A} (m : CTx A) : CTx unit := m ;;; tx_ret tt.

Section System.
Context (bad_regexp : string -> bool).

Definition exec (c : call) : CTx unit :=
  match c with
  | call_CreateGroup uuid tenant w => ignore (CreateGroup uuid tenant w)
  | call_UpdateGroup tenant group w => UpdateGroup tenant group w
  | call_UpdateGroupRoutePolicy tenant group policy expected => UpdateGroupRoutePolicy tenant group policy expected
  | call_UpdateGroupStatus tenant group status => UpdateGroupStatus tenant group status
  | call_DeleteGroup tenant group => DeleteGroup tenant group
  | call_ReplaceSurfaces tenant group entries => repo_ReplaceGroupClientSurfaces tenant group entries
  | call_AddGroupTarget uuid tenant group w => ignore (AddGroupTarget uuid tenant group w)
  | call_UpdateGroupTarget tenant group id w => UpdateGroupTarget tenant group id w
  | call_DeleteGroupTarget tenant group id => DeleteGroupTarget tenant group id
  | call_ReplaceGroupTargets uuids tenant group expected ts =>
      ignore (ReplaceGroupTargets uuids tenant group expected ts)
  | call_AddDispatchRule now uuid tenant group w =>
      ignore (AddDispatchRule bad_regexp now uuid tenant group w)
  | call_UpdateDispatchRule tenant group id w => UpdateDispatchRule bad_regexp tenant group id w
  | call_UpdateDispatchRuleStatus tenant group id status => UpdateDispatchRuleStatus tenant group id status
  | call_DeleteDispatchRule tenant group id => DeleteDispatchRule tenant group id
  | call_UpsertUserBinding w => UpsertUserBinding w
  | call_DeleteUserBinding tenant user group => DeleteUserBinding tenant user group
  | call_createPriceBook uuid ownerType ownerTenantID name description =>
      ignore (createPriceBook uuid ownerType ownerTenantID name description)
  | call_updatePriceBook ownerType ownerTenantID id name description status =>
      ignore (updatePriceBook ownerType ownerTenantID id name description status)
  | call_deletePriceBook ownerType ownerTenantID id => deletePriceBook ownerType ownerTenantID id
  | call_upsertEntry ownerType ownerTenantID uuid e => upsertEntry ownerType ownerTenantID uuid e
  | call_deleteEntry ownerType ownerTenantID book model capability =>
      deleteEntry ownerType ownerTenantID book model capability
  | call_ImportEntries book entries => ignore (repo_ImportEntries book entries)
  | call_ApplyGroupImport now uuid uuids tenant item => ignore (ApplyGroupImport now uuid uuids tenant item)
  | call_DeleteTenant exists_ tenant => ignore (DeleteTenant exists_ tenant)
  end.

(** What the rest of the program writes between calls. *)
Record outside := MkOutside {
  o_resources : list Resource;
  o_granted : list (string * string * string);
  o_key_groups : list string;
  o_plan_groups : list (string * string);
  o_cost_books : list string }.
Definition with_outside (o : outside) (d : cdb) : cdb :=
  MkCDB (c_groups d) (c_surfaces d) (c_targets d) (c_rules d) (c_users d) (c_books d) (c_entries d)
    (o_resources o) (o_granted o) (o_key_groups o) (o_plan_groups o) (o_cost_books o).

Definition empty_cdb : cdb := MkCDB [] [] [] [] [] [] [] [] [] [] [] [].

(** Every call takes effect at one point.  The source makes it so for most: they lock
    the group or the price book whose state they rely on.  [deletePriceBook],
    [repo_DeleteEntry], [ApplyGroupImport] and [DeleteTenant] rely on rows they do not
    lock; what can come of an interleaving with the first three is shown beside the
    theorems on [com_reachable]. *)
Inductive com_reachable : cdb -> Prop :=
| com_start : com_reachable empty_cdb
| com_call c d : com_reachable d -> com_reachable (run_tx (exec c) d).1
| com_outside o d : com_reachable d -> com_reachable (with_outside o d).
End System.
