(* ===== verification/CommercialFacts.v ===== *)
(** * Lemmas on the commercial control plane

    The invariant of the tables of [CommercialDB], in the four parts that the setters
    of one table leave alone, and that every transaction of [Commercial], [PriceBooks]
    and [CommercialService] keeps it. *)

From Stdlib Require Import QArith.
From S2P Require Import Prelude GoStrings Decimal PriceTiers CommercialDB PriceBooks Commercial CommercialService.
#[global] Open Scope Z_scope.

(** ** Rows *)

Lemma existsb_none {A} (p : A -> bool) l : existsb p l = false -> forall x, x ∈ l -> p x = false.
Proof.
  intros H x Hx. destruct (p x) eqn:Hp; [|done].
  assert (existsb p l = true) by (apply existsb_exists; exists x; split; [by apply list_elem_of_In | done]).
  congruence.
Qed.

Section Rows.
Context {A K : Type} (key : A -> K).

Lemma NoDup_snoc_row l x :
  NoDup (key <$> l) -> (forall y, y ∈ l -> key y <> key x) -> NoDup (key <$> (l ++ [x])).
Proof.
  intros Hnd Hx. rewrite fmap_app. apply NoDup_app. split; [done|]. split; [|apply NoDup_singleton].
  intros k (y & -> & Hy)%list_elem_of_fmap Hk%list_elem_of_singleton. by apply (Hx y).
Qed.

Lemma NoDup_update_where (p : A -> bool) (f : A -> A) l :
  NoDup (key <$> l) ->
  (forall a b, a ∈ l -> b ∈ l -> p a = true -> p b = false -> key (f a) <> key b) ->
  (forall a b, a ∈ l -> b ∈ l -> p a = true -> p b = true -> key (f a) = key (f b) -> key a = key b) ->
  NoDup (key <$> update_where p f l).
Proof.
  induction l as [|x l IH]; intros Hnd Hd Hs; [done|].
  apply NoDup_cons in Hnd as [Hx Hnd]. apply NoDup_cons. fold (update_where p f l). split.
  - intros (y & Hk & (z & Hz & ->)%elem_of_update_where)%list_elem_of_fmap.
    pose proof (list_elem_of_here x l) as Hhere. pose proof (list_elem_of_further z x l Hz) as Hthere.
    apply Hx. apply list_elem_of_fmap. exists z. split; [|done].
    destruct (p x) eqn:Hpx, (p z) eqn:Hpz.
    + by apply Hs.
    + by destruct (Hd x z Hhere Hthere Hpx Hpz).
    + by destruct (Hd z x Hthere Hhere Hpz Hpx).
    + done.
  - apply IH; [done| |]; intros a b Ha Hb; [apply Hd | apply Hs]; by apply list_elem_of_further.
Qed.
End Rows.

(** ** The invariant *)

Definition group_name (g : Group) : string * string := (gr_TenantID g, gr_Name g).
Definition entry_key (e : PriceBookEntry) : string * string * string :=
  (en_PriceBookID e, en_ModelCode e, en_CapabilityType e).
Definition target_place (t : GroupTarget) : string * (string * string) := (gt_GroupID t, key_of_target t).
Definition surface_place (s : GroupClientSurface) : string * string := (cs_GroupID s, cs_Surface s).
Definition sells (d : cdb) (g : Group) : Prop :=
  exists b, find_book (gr_RetailPriceBookID g) d = Some b /\ book_usable (gr_TenantID g) b = true.
Definition in_group (d : cdb) (id : string) (g : Group) : Prop := g ∈ c_groups d /\ gr_ID g = id.
Definition rule_priced (d : cdb) (g : Group) (r : DispatchRule) : Prop :=
  has_price d (gr_RetailPriceBookID g) (dr_TargetModelID r) (dispatchRequiredCapability (dr_ClientSurface r)) = true.

(** What an active rule of an active group owes: a surface that is not known reaches the
    table only by an import, which takes any price of the model for it. *)
Definition owed (d : cdb) (g : Group) (r : DispatchRule) : Prop :=
  gr_Status g = StatusActive -> dr_Status r = StatusActive -> IsKnown (dr_ClientSurface r) = true -> rule_priced d g r.

(** Groups are unique by key and by name, and each sells from a book its tenant may
    sell from. *)
Record groups_ok (d : cdb) : Prop := MkGroupsOk {
  ok_group_ids : NoDup (gr_ID <$> c_groups d);
  ok_group_names : NoDup (group_name <$> c_groups d);
  ok_group_rows : forall g, g ∈ c_groups d -> group_row_check g = true;
  ok_book_ids : NoDup (pb_ID <$> c_books d);
  ok_sells : forall g, g ∈ c_groups d -> sells d g }.
(** Each rule belongs to a group, whose book prices it while both are active. *)
Record rules_ok (d : cdb) : Prop := MkRulesOk {
  ok_rule_ids : NoDup (dr_ID <$> c_rules d);
  ok_rules : forall r, r ∈ c_rules d ->
    exists g, in_group d (dr_GroupID r) g /\ owed d g r }.
Record targets_ok (d : cdb) : Prop := MkTargetsOk {
  ok_target_ids : NoDup (gt_ID <$> c_targets d);
  ok_target_places : NoDup (target_place <$> c_targets d);
  ok_targets : forall t, t ∈ c_targets d -> target_row_check t = true /\ exists g, in_group d (gt_GroupID t) g }.
Record surfaces_ok (d : cdb) : Prop := MkSurfacesOk {
  ok_surface_places : NoDup (surface_place <$> c_surfaces d);
  ok_surfaces : forall s, s ∈ c_surfaces d -> exists g, in_group d (cs_GroupID s) g }.

Record com_ok (d : cdb) : Prop := MkComOk {
  ok_g : groups_ok d; ok_r : rules_ok d; ok_t : targets_ok d; ok_s : surfaces_ok d }.

Lemma in_group_unique d id g h : groups_ok d -> in_group d id g -> in_group d id h -> g = h.
Proof. intros [Hnd _ _ _ _] [Hg <-] [Hh Heq]. by apply (keyed_unique gr_ID (c_groups d)). Qed.

Lemma find_group_Some tenant id d g :
  find_group tenant id d = Some g -> in_group d id g /\ gr_TenantID g = tenant.
Proof.
  intros [Hin Hp]%List.find_some. unfold tenant_group in Hp. bool_prop.
  split; [split; [by apply list_elem_of_In|]|]; by apply str_eq_true.
Qed.
Lemma tenant_group_true tenant id g : tenant_group tenant id g = true <-> gr_ID g = id /\ gr_TenantID g = tenant.
Proof. unfold tenant_group. by rewrite andb_true_iff, !str_eq_true. Qed.

Lemma lock_ok tenant id d g d' :
  lockGroupForTenant tenant id d = Ok (g, d') -> d' = d /\ in_group d id g /\ gr_TenantID g = tenant.
Proof.
  unfold lockGroupForTenant, tx_row. intros H. tx_inv H. split; [done|]. by apply find_group_Some.
Qed.
Lemma tx_row_ok {A} (o : option A) d a d' : tx_row o d = Ok (a, d') -> o = Some a /\ d' = d.
Proof. unfold tx_row. destruct o; intros H; tx_inv H. done. Qed.
Lemma lift_ok {A} (m : Res A) (d : cdb) a d' : lift m d = Ok (a, d') -> m = Ok a /\ d' = d.
Proof. unfold lift. destruct m; intros H; tx_inv H. done. Qed.
Lemma numeric_ok p n v d v' d' : numeric_column p n v d = Ok (v', d') -> d' = d.
Proof. unfold numeric_column. destruct v; [|intros H; tx_inv H; done..]. cbv zeta. intros H. tx_inv H. done. Qed.
Lemma signed_numeric_ok v d v' d' : signed_numeric_10_4 v d = Ok (v', d') -> d' = d.
Proof.
  unfold signed_numeric_10_4. destruct v as [q| | |]; intros H; [|by tx_inv H..].
  destruct (Qle_bool 0 q); [by apply numeric_ok in H|].
  tx_inv H. match goal with H : numeric_10_4 _ _ = Ok _ |- _ => by apply numeric_ok in H end.
Qed.

Lemma book_check_ok tenant book d u d' :
  validateVisibleActivePriceBook tenant book d = Ok (u, d') ->
  d' = d /\ exists b, find_book book d = Some b /\ book_usable tenant b = true.
Proof.
  unfold validateVisibleActivePriceBook. intros H. tx_inv H. bool_prop.
  split; [done|]. destruct (find_book book d) as [b|]; [eauto | done].
Qed.
Lemma rule_check_ok g id surface model d u d' :
  validateRulePrice g id surface model d = Ok (u, d') ->
  d' = d /\ has_price d (gr_RetailPriceBookID g) model (dispatchRequiredCapability surface) = true.
Proof. unfold validateRulePrice. intros H. tx_inv H. bool_prop. done. Qed.
Lemma rules_check_ok group book d u d' :
  validateActiveRulesAgainstBook group book d = Ok (u, d') ->
  d' = d /\ forall r, r ∈ c_rules d -> dr_GroupID r = group -> dr_Status r = StatusActive ->
    has_price d book (dr_TargetModelID r) (dispatchRequiredCapability (dr_ClientSurface r)) = true.
Proof.
  unfold validateActiveRulesAgainstBook. intros H. tx_inv H. bool_prop. split; [done|].
  rename select (Nat.eqb _ _ = true) into Hlen. rewrite length_fmap in Hlen.
  apply Nat.eqb_eq, length_zero_iff_nil in Hlen.
  intros r Hr Hg Hs. destruct (has_price _ _ _ _) eqn:Hp; [done|].
  assert (r ∈ (@nil DispatchRule)) as []%not_elem_of_nil.
  rewrite <- Hlen. apply elem_of_filter_rows. split; [|done].
  by rewrite Hg, Hs, Hp, !str_eq_refl.
Qed.

Ltac com_step :=
  match goal with
  | H : lockGroupForTenant _ _ _ = Ok _ |- _ => apply lock_ok in H as (-> & ? & ?)
  | H : tx_row _ _ = Ok _ |- _ => apply tx_row_ok in H as [? ->]
  | H : lift _ _ = Ok _ |- _ => apply lift_ok in H as [? ->]
  | H : numeric_10_4 _ _ = Ok _ |- _ => apply numeric_ok in H as ->
  | H : numeric_column _ _ _ _ = Ok _ |- _ => apply numeric_ok in H as ->
  | H : signed_numeric_10_4 _ _ = Ok _ |- _ => apply signed_numeric_ok in H as ->
  | H : validateVisibleActivePriceBook _ _ _ = Ok _ |- _ => apply book_check_ok in H as (-> & ? & ? & ?)
  | H : validateRulePrice _ _ _ _ _ = Ok _ |- _ => apply rule_check_ok in H as [-> ?]
  | H : validateActiveRulesAgainstBook _ _ _ = Ok _ |- _ => apply rules_check_ok in H as [-> ?]
  end.
Ltac com_inv H := tx_inv H; repeat com_step.

(** A part of the invariant reads none of the tables that changed. *)
Ltac frame H := destruct H; constructor; assumption.

(** ** Updating one group *)

Definition rules_priced (d : cdb) (id : string) (g : Group) : Prop :=
  forall r, r ∈ c_rules d -> dr_GroupID r = id -> owed d g r.
Definition name_free (d : cdb) (id tenant name : string) : Prop :=
  forall h, h ∈ c_groups d -> gr_ID h <> id -> group_name h <> (tenant, name).

Lemma next_version_check (f : Group -> Group) g :
  group_row_check g = true -> group_row_check (f g) = true -> group_row_check (next_version f g) = true.
Proof.
  unfold group_row_check, next_version. cbn [gr_DefaultUserMultiplier gr_RoutePolicy gr_RoutePolicyVersion].
  rewrite !andb_true_iff, !Z.ltb_lt. intros [_ ?] [[? ?] _]. repeat split; try done. lia.
Qed.

Section UpdateGroup.
Context (tenant id : string) (f : Group -> Group) (d : cdb) (Hd : com_ok d).
Let groups' := update_where (tenant_group tenant id) (next_version f) (c_groups d).
Let d' := with_groups groups' d.

Lemma in_group_update x g :
  in_group d x g ->
  exists g', in_group d' x g' /\ (g' = g \/ (g' = next_version f g /\ x = id /\ gr_TenantID g = tenant)).
Proof.
  intros [Hin Hx]. exists (if tenant_group tenant id g then next_version f g else g).
  assert (Hin' : (if tenant_group tenant id g then next_version f g else g) ∈ groups')
    by (apply elem_of_update_where; by exists g).
  destruct (tenant_group tenant id g) eqn:Ht; (split; [split; done|]); [right | by left].
  apply tenant_group_true in Ht as [? ?]. split; [done|]. split; congruence.
Qed.

Context (Hrow : forall g, in_group d id g -> gr_TenantID g = tenant -> group_row_check (f g) = true)
  (Hname : forall g, in_group d id g -> gr_TenantID g = tenant -> name_free d id tenant (gr_Name (f g)))
  (Hsells : forall g, in_group d id g -> gr_TenantID g = tenant -> sells d (next_version f g))
  (Hpriced : forall g, in_group d id g -> gr_TenantID g = tenant -> rules_priced d id (next_version f g)).

Lemma groups_update : groups_ok d'.
Proof.
  destruct Hd as [[Hi Hn Hc Hb Hs] _ _ _].
  assert (Hone : forall a, a ∈ c_groups d -> tenant_group tenant id a = true -> in_group d id a /\ gr_TenantID a = tenant)
    by (intros a Ha [? ?]%tenant_group_true; done).
  constructor; [| | |done|].
  - unfold d', groups'. cbn [c_groups with_groups]. by rewrite (keys_update_where gr_ID).
  - apply NoDup_update_where; [done| |].
    + intros a b Ha Hb' Hpa Hpb Heq. destruct (Hone a Ha Hpa) as [Hga Hta].
      refine (Hname a Hga Hta b Hb' _ _).
      * intros Hid. assert (a = b) as ->; [|congruence].
        apply (keyed_unique gr_ID (c_groups d)); try done. destruct Hga; congruence.
      * by rewrite <- Heq, <- Hta.
    + intros a b Ha Hb' Hpa Hpb _. destruct (Hone a Ha Hpa) as [[_ ?] _], (Hone b Hb' Hpb) as [[_ ?] _].
      f_equal. apply (keyed_unique gr_ID (c_groups d)); try done. congruence.
  - intros g (a & Ha & ->)%elem_of_update_where. destruct (tenant_group tenant id a) eqn:Ht; [|by apply Hc].
    destruct (Hone a Ha Ht). apply next_version_check; [by apply Hc | by apply Hrow].
  - intros g (a & Ha & ->)%elem_of_update_where. destruct (tenant_group tenant id a) eqn:Ht; [|by apply Hs].
    destruct (Hone a Ha Ht). by apply Hsells.
Qed.

Lemma com_update : com_ok d'.
Proof.
  split; [by apply groups_update| | |]; destruct Hd as [Hg [Hri Hr] [Hti Htp Ht] [Hsp Hs]].
  - constructor; [done|]. intros r Hin. destruct (Hr r Hin) as (g & Hgr & Hp).
    destruct (in_group_update _ _ Hgr) as (g0 & Hg0 & [-> | (-> & Hid & Htn)]);
      [by exists g|]. exists (next_version f g). split; [done|].
    rewrite Hid in Hgr. by apply (Hpriced g).
  - constructor; [done..|]. intros t Hin. destruct (Ht t Hin) as (Hc & g & Hgr). split; [done|].
    destruct (in_group_update _ _ Hgr) as (g' & Hg' & _). by exists g'.
  - constructor; [done|]. intros s Hin. destruct (Hs s Hin) as (g & Hgr).
    destruct (in_group_update _ _ Hgr) as (g' & Hg' & _). by exists g'.
Qed.
End UpdateGroup.

Lemma update_group_ok tenant id f d u d' :
  update_group tenant id f d = Ok (u, d') ->
  d' = with_groups (update_where (tenant_group tenant id) (next_version f) (c_groups d)) d.
Proof. unfold update_group. intros H. tx_inv H. done. Qed.

(** An update that keeps the name and the book, and activates the group only with its
    rules priced. *)
Lemma com_update_keep tenant id f d u d' :
  com_ok d ->
  (forall g, gr_Name (f g) = gr_Name g /\ gr_RetailPriceBookID (f g) = gr_RetailPriceBookID g) ->
  (forall g, in_group d id g -> gr_TenantID g = tenant -> group_row_check (f g) = true) ->
  (forall g, in_group d id g -> gr_TenantID g = tenant ->
     gr_Status (f g) = gr_Status g \/ rules_priced d id (next_version f g)) ->
  update_group tenant id f d = Ok (u, d') -> com_ok d'.
Proof.
  intros Hd Hkeep Hrow Hst ->%update_group_ok. pose proof Hd as [[Hi Hn Hc Hb Hs] [Hri Hr] Ht Hsf].
  apply com_update; try done; intros g Hg Htn.
  - intros h Hh Hne Heq. destruct (Hkeep g) as [Hname _]. rewrite Hname, <- Htn in Heq.
    apply Hne. destruct Hg as [Hg <-]. f_equal. by apply (keyed_unique group_name (c_groups d)).
  - destruct (Hs g (proj1 Hg)) as (b & Hfind & Hu). exists b. simpl. destruct (Hkeep g) as [_ ->]. done.
  - destruct (Hst g Hg Htn) as [Hsame | ]; [|done].
    intros r Hrin Hrg Ha. destruct (Hr r Hrin) as (h & Hh & Hp). rewrite Hrg in Hh.
    assert (h = g) as -> by (eapply in_group_unique; [constructor|..]; done).
    unfold rule_priced. simpl in *. destruct (Hkeep g) as [_ ->]. apply Hp. by rewrite <- Hsame.
Qed.

Lemma bump_ok tenant id : preserves com_ok (bumpGroupRoutePolicyVersion tenant id).
Proof.
  intros d u d' Hd H. eapply com_update_keep; [done| | | |done]; [done| |by left].
  intros g [Hin _] _. by apply Hd.
Qed.
#[export] Hint Resolve bump_ok : tx_preserves.

Lemma row_with_policy p g : str_in p RoutePolicies = true -> group_row_check g = true -> group_row_check (set_group_policy p g) = true.
Proof.
  unfold group_row_check, set_group_policy. cbn [gr_DefaultUserMultiplier gr_RoutePolicy gr_RoutePolicyVersion].
  intros ->. rewrite !andb_true_iff. intros [[? ?] ?]. done.
Qed.

Lemma UpdateGroupRoutePolicy_ok tenant id p v : preserves com_ok (repo_UpdateGroupRoutePolicy tenant id p v).
Proof.
  intros d u d' Hd H. unfold repo_UpdateGroupRoutePolicy in H. com_inv H. bool_prop.
  eapply com_update_keep; [done| | | |done]; [done| |by left].
  intros g [Hin _] _. apply row_with_policy; [done|]. by apply Hd.
Qed.

Lemma UpdateGroupStatus_ok tenant id s : preserves com_ok (repo_UpdateGroupStatus tenant id s).
Proof.
  intros d u d' Hd H. unfold repo_UpdateGroupStatus in H. com_inv H; repeat com_step.
  all: eapply com_update_keep; [done| | | |done]; [done| |].
  all: try (intros g [Hin _] _; exact (ok_group_rows _ (ok_g _ Hd) g Hin)).
  all: intros g Hgr _; right; intros rl Hrin Hrg Hact; simpl in Hact; bool_prop.
  - match goal with H : in_group d id ?h |- _ => assert (h = g) as -> by (eapply in_group_unique; [apply Hd|..]; done) end.
    intros Ha _. destruct Hgr as [_ Hid]. unfold rule_priced. simpl. eauto with congruence.
  - by rewrite Hact in *.
Qed.

Lemma name_free_ok d id tenant name : group_name_taken tenant id name d = false -> name_free d id tenant name.
Proof.
  intros Hf h Hh Hne Heq. apply (existsb_none _ _ Hf) in Hh. unfold group_name in Heq.
  injection Heq as Ht Hn. rewrite Ht, Hn, !str_eq_refl in Hh. apply str_eq_false in Hne. by rewrite Hne in Hh.
Qed.

Lemma UpdateGroup_ok tenant id w : preserves com_ok (repo_UpdateGroup tenant id w).
Proof.
  intros d u d' Hd H. unfold repo_UpdateGroup in H. cbv zeta in H. com_inv H; repeat com_step; bool_prop.
  all: match goal with H : update_group _ _ _ _ = Ok _ |- _ => apply update_group_ok in H as -> end.
  all: match goal with H : in_group _ _ ?r, Ht : gr_TenantID ?r = _ |- _ => rename H into Hcur, Ht into Htn; rename r into g end.
  all: apply com_update; [done|..]; intros h Hh Hht; assert (h = g) as -> by (eapply in_group_unique; [apply Hd|..]; done).
  all: try done.
  all: try by apply name_free_ok.
  all: try by (exists x; simpl; rewrite Htn).
  - intros r Hr Hrg _ Ha _. unfold rule_priced. simpl. destruct Hcur as [_ Hid]. by eauto with congruence.
  - intros r Hr Hrg Hnext Ha Hk. unfold rule_priced. simpl in *.
    destruct (ok_rules _ (ok_r _ Hd) r Hr) as (h & Hin & Hp). rewrite Hrg in Hin.
    assert (h = g) as -> by (eapply in_group_unique; [apply Hd|..]; done).
    match goal with H : str_eq (gr_RetailPriceBookID g) _ = true |- _ => apply str_eq_true in H; rewrite <- H end.
    apply Hp; [|done..]. rewrite Hnext in *.
    match goal with H : negb _ && _ = false |- _ => rewrite andb_true_r in H; apply negb_false_iff, str_eq_true in H end.
    done.
Qed.

Lemma in_group_grow x d id g : in_group d id g -> in_group (with_groups (c_groups d ++ [x]) d) id g.
Proof. intros [Hin Hid]. split; [|done]. apply elem_of_app. by left. Qed.

Lemma insert_row_ok row d :
  com_ok d -> (forall h, h ∈ c_groups d -> gr_ID h <> gr_ID row) ->
  name_free d (gr_ID row) (gr_TenantID row) (gr_Name row) -> group_row_check row = true -> sells d row ->
  com_ok (with_groups (c_groups d ++ [row]) d).
Proof.
  intros Hd Hfresh Hname Hrow Hsell.
  pose proof Hd as [[Hi Hn Hc Hb Hs] [Hri Hr] [Hti Htp Ht] [Hsp Hsf]]. split; constructor; try done.
  - by apply NoDup_snoc_row.
  - apply NoDup_snoc_row; [done|]. intros h Hh. by apply Hname, Hfresh.
  - intros g [Hold | ->%list_elem_of_singleton]%elem_of_app; [by apply Hc | done].
  - intros g [Hold | ->%list_elem_of_singleton]%elem_of_app; [by apply Hs | done].
  - intros rl Hrin. destruct (Hr rl Hrin) as (g & Hin & Hp). exists g. split; [by apply in_group_grow | done].
  - intros t Htin. destruct (Ht t Htin) as (Hck & g & Hgin). split; [done|]. exists g. by apply in_group_grow.
  - intros s Hsin. destruct (Hsf s Hsin) as (g & Hgin). exists g. by apply in_group_grow.
Qed.

Lemma CreateGroup_ok uuid tenant w : preserves com_ok (repo_CreateGroup uuid tenant w).
Proof.
  intros d u d' Hd H. unfold repo_CreateGroup in H. com_inv H; repeat com_step. bool_prop.
  match goal with H : existsb _ _ = false |- _ => pose proof (existsb_none _ _ H) as Hnew; cbn beta in Hnew end.
  apply insert_row_ok; [done | | by apply name_free_ok | done | by exists x].
  intros h Hh. by apply str_eq_false, Hnew.
Qed.

Lemma in_group_delete tenant id d x g :
  groups_ok d -> (exists h, in_group d id h /\ gr_TenantID h = tenant) -> x <> id -> in_group d x g ->
  in_group (with_groups (List.filter (fun g => negb (tenant_group tenant id g)) (c_groups d)) d) x g.
Proof.
  intros Hd (h & Hh & Ht) Hne [Hin Hid]. split; [|done]. apply elem_of_filter_rows. split; [|done].
  apply negb_true_iff, not_true_iff_false. intros [Hg _]%tenant_group_true. congruence.
Qed.

Lemma DeleteGroup_ok tenant id : preserves com_ok (repo_DeleteGroup tenant id).
Proof.
  intros d u d' Hd H. unfold repo_DeleteGroup in H. cbv zeta in H. com_inv H; repeat com_step. bool_prop.
  pose proof Hd as [[Hi Hn Hc Hb Hs] [Hri Hr] [Hti Htp Ht] [Hsp Hsf]].
  assert (Hex : exists h, in_group d id h /\ gr_TenantID h = tenant) by eauto.
  split; constructor; try by apply NoDup_filter_rows.
  - intros g [_ Hgin]%elem_of_filter_rows. by apply Hc.
  - done.
  - intros g [_ Hgin]%elem_of_filter_rows. by apply Hs.
  - intros r' [Hne Hrin]%elem_of_filter_rows. bool_prop. apply str_eq_false in Hne.
    destruct (Hr r' Hrin) as (g & Hgin & Hp). exists g. split; [|done]. by apply (in_group_delete tenant id d).
  - intros t [Hne Htin]%elem_of_filter_rows. bool_prop. apply str_eq_false in Hne.
    destruct (Ht t Htin) as (Hck & g & Hgin). split; [done|]. exists g. by apply (in_group_delete tenant id d).
  - intros s [Hne Hsin]%elem_of_filter_rows. bool_prop. apply str_eq_false in Hne.
    destruct (Hsf s Hsin) as (g & Hgin). exists g. by apply (in_group_delete tenant id d).
Qed.

(** ** Rules *)

Lemma rules_change rules d :
  com_ok d -> NoDup (dr_ID <$> rules) ->
  (forall r, r ∈ rules -> exists g, in_group d (dr_GroupID r) g /\ owed d g r) ->
  com_ok (with_rules rules d).
Proof. intros [Hg Hr Ht Hs] Hnd H. split; [by frame Hg | by constructor | by frame Ht | by frame Hs]. Qed.

Lemma rules_subset p d : com_ok d -> com_ok (with_rules (List.filter p (c_rules d)) d).
Proof.
  intros Hd. apply rules_change; [done| |].
  - by apply NoDup_filter_rows, Hd.
  - intros r [_ Hr]%elem_of_filter_rows. by apply Hd.
Qed.

Lemma rule_of_true id group r : rule_of id group r = true <-> dr_ID r = id /\ dr_GroupID r = group.
Proof. unfold rule_of. by rewrite andb_true_iff, !str_eq_true. Qed.

(** An update of one rule that stays in its group and, when active, is priced by it. *)
Lemma rules_update id group f d :
  com_ok d ->
  (forall r, dr_ID (f r) = dr_ID r /\ dr_GroupID (f r) = dr_GroupID r) ->
  (forall r g, r ∈ c_rules d -> rule_of id group r = true -> in_group d group g ->
     dr_Status (f r) = StatusActive -> rule_priced d g (f r)) ->
  com_ok (with_rules (update_where (rule_of id group) f (c_rules d)) d).
Proof.
  intros Hd Hf Hp. apply rules_change; [done| |].
  - rewrite (keys_update_where dr_ID); [by apply Hd|]. intros a. by destruct (Hf a).
  - intros r (a & Ha & ->)%elem_of_update_where. destruct (ok_rules _ (ok_r _ Hd) a Ha) as (g & Hg & Hag).
    destruct (rule_of id group a) eqn:Hof; [|by exists g].
    exists g. destruct (Hf a) as [_ ->]. split; [done|]. intros _ Hact _. apply Hp; try done.
    apply rule_of_true in Hof as [_ <-]. done.
Qed.

Lemma AddDispatchRule_ok now uuid tenant group w : preserves com_ok (repo_AddDispatchRule now uuid tenant group w).
Proof.
  intros d u d' Hd H. unfold repo_AddDispatchRule in H. cbv zeta in H. com_inv H; repeat com_step. bool_prop.
  match goal with H : bumpGroupRoutePolicyVersion _ _ _ = Ok _ |- _ => eapply bump_ok, H end.
  match goal with H : existsb _ _ = false |- _ => pose proof (existsb_none _ _ H) as Hnew; cbn beta in Hnew end.
  apply rules_change; [done| |].
  - apply NoDup_snoc_row; [by apply Hd|]. intros y Hy. simpl. by apply str_eq_false, Hnew.
  - intros r' [Hr | ->%list_elem_of_singleton]%elem_of_app; [by apply Hd|]. eexists. split; [done|]. by intros _ _ _.
Qed.

Ltac same_group Hd g h :=
  assert (h = g) as -> by (eapply in_group_unique; [apply Hd|..]; done).

Lemma UpdateDispatchRule_ok tenant group id w : preserves com_ok (repo_UpdateDispatchRule tenant group id w).
Proof.
  intros d u d' Hd H. unfold repo_UpdateDispatchRule in H. cbv zeta in H. com_inv H; repeat com_step; bool_prop.
  all: match goal with H : bumpGroupRoutePolicyVersion _ _ _ = Ok _ |- _ => eapply bump_ok, H end.
  all: match goal with H : List.find _ _ = Some _ |- _ => apply List.find_some in H as [Hin%list_elem_of_In [Hid Hgr]%rule_of_true] end.
  all: apply rules_update; [done | done |]; intros r' g Hr' [Hid' _]%rule_of_true Hgn Hact; simpl in Hact.
  - same_group Hd r g. done.
  - match goal with H : str_eq (dr_Status ?a) _ = false |- _ => apply str_eq_false in H as Hs;
      assert (r' = a) as -> by (apply (keyed_unique dr_ID (c_rules d)); [by apply Hd|done|done|congruence]) end.
    done.
Qed.

Lemma UpdateDispatchRuleStatus_ok tenant group id s : preserves com_ok (repo_UpdateDispatchRuleStatus tenant group id s).
Proof.
  intros d u d' Hd H. unfold repo_UpdateDispatchRuleStatus in H. cbv zeta in H. com_inv H; repeat com_step; bool_prop.
  all: match goal with H : bumpGroupRoutePolicyVersion _ _ _ = Ok _ |- _ => eapply bump_ok, H end.
  all: match goal with H : List.find _ _ = Some _ |- _ => apply List.find_some in H as [Hin%list_elem_of_In [Hid Hgr]%rule_of_true] end.
  all: apply rules_update; [done | done |]; intros r' g Hr' [Hid' _]%rule_of_true Hgn Hact; simpl in Hact.
  - match goal with H : in_group d group ?x |- _ => same_group Hd x g end.
    match goal with H : dr_ID ?a = id, _ : ?a ∈ c_rules d, _ : dr_ID r' = id |- _ =>
      assert (r' = a) as -> by (apply (keyed_unique dr_ID (c_rules d)); [by apply Hd|done|done|congruence]) end.
    done.
  - match goal with H : str_eq s _ = false |- _ => by apply str_eq_false in H end.
Qed.

Lemma DeleteDispatchRule_ok tenant group id : preserves com_ok (repo_DeleteDispatchRule tenant group id).
Proof.
  intros d u d' Hd H. unfold repo_DeleteDispatchRule in H. com_inv H; repeat com_step.
  eapply bump_ok; [|done]. by apply rules_subset.
Qed.

(** ** Targets and surfaces *)

Lemma targets_change targets d :
  com_ok d -> NoDup (gt_ID <$> targets) -> NoDup (target_place <$> targets) ->
  (forall t, t ∈ targets -> target_row_check t = true /\ exists g, in_group d (gt_GroupID t) g) ->
  com_ok (with_targets targets d).
Proof. intros [Hg Hr Ht Hs] ???. split; [by frame Hg | by frame Hr | by constructor | by frame Hs]. Qed.

Lemma targets_subset p d : com_ok d -> com_ok (with_targets (List.filter p (c_targets d)) d).
Proof.
  intros Hd. apply targets_change; [done| | |].
  - by apply NoDup_filter_rows, Hd.
  - by apply NoDup_filter_rows, Hd.
  - intros t [_ Ht]%elem_of_filter_rows. by apply (ok_targets _ (ok_t _ Hd)).
Qed.

Lemma target_taken_false group kind id d :
  target_taken group kind id d = false ->
  forall t, t ∈ c_targets d -> target_place t <> (group, (kind, id)).
Proof.
  intros Hf t Ht Heq. apply (existsb_none _ _ Hf) in Ht. unfold target_place, key_of_target, target_key in Heq.
  injection Heq as Hg Hk Hi. by rewrite Hg, Hk, Hi, !str_eq_refl in Ht.
Qed.

(** A group that is there. *)
Definition has_group (id : string) (d : cdb) : Prop := exists g, in_group d id g.
Definition ok_with (id : string) (d : cdb) : Prop := com_ok d /\ has_group id d.

Lemma insert_target_ok row : preserves (ok_with (gt_GroupID row)) (insert_target row).
Proof.
  intros d u d' [Hd Hg] H. unfold insert_target in H. tx_inv H. bool_prop. split; [|done].
  match goal with H : existsb _ _ = false |- _ => pose proof (existsb_none _ _ H) as Hnew; cbn beta in Hnew end.
  match goal with H : target_taken _ _ _ _ = false |- _ => pose proof (target_taken_false _ _ _ _ H) as Hfree end.
  apply targets_change; [done| | |].
  - apply NoDup_snoc_row; [by apply Hd|]. intros y Hy. by apply str_eq_false, Hnew.
  - apply NoDup_snoc_row; [by apply Hd|]. intros y Hy. by apply Hfree.
  - intros t [Ht | ->%list_elem_of_singleton]%elem_of_app; [by apply (ok_targets _ (ok_t _ Hd)) | done].
Qed.

Lemma AddGroupTarget_ok uuid tenant group w : preserves com_ok (repo_AddGroupTarget uuid tenant group w).
Proof.
  intros d u d' Hd H. unfold repo_AddGroupTarget in H. cbv zeta in H. com_inv H; repeat com_step.
  match goal with H : bumpGroupRoutePolicyVersion _ _ _ = Ok _ |- _ => eapply bump_ok, H end.
  match goal with H : insert_target ?row _ = Ok _ |- _ => eapply (insert_target_ok row), H end.
  split; [done|]. by eexists.
Qed.

(** A change of the priority and the status of targets. *)
Lemma targets_retarget p status priority d :
  com_ok d -> 0 <= priority -> com_ok (with_targets (update_where p (retarget status priority) (c_targets d)) d).
Proof.
  intros Hd Hp. apply targets_change; [done| | |].
  - rewrite (keys_update_where gt_ID); [by apply Hd | done].
  - rewrite (keys_update_where target_place); [by apply Hd | done].
  - intros t (a & Ha & ->)%elem_of_update_where. destruct (ok_targets _ (ok_t _ Hd) a Ha) as [Hck Hg].
    destruct (p a); [|done]. split; [|done]. unfold target_row_check in *. simpl. bool_prop.
    apply andb_true_iff. split; [done | by apply Z.leb_le].
Qed.

Lemma UpdateGroupTarget_ok tenant group id w : preserves com_ok (repo_UpdateGroupTarget tenant group id w).
Proof.
  intros d u d' Hd H. unfold repo_UpdateGroupTarget in H. cbv zeta in H. com_inv H; repeat com_step; bool_prop.
  all: eapply bump_ok; [|done]; by apply targets_retarget.
Qed.

Lemma DeleteGroupTarget_ok tenant group id : preserves com_ok (repo_DeleteGroupTarget tenant group id).
Proof.
  intros d u d' Hd H. unfold repo_DeleteGroupTarget in H. com_inv H; repeat com_step.
  eapply bump_ok; [|done]. by apply targets_subset.
Qed.

Lemma preserves_fold {S E A V} (I : S -> Prop) (f : V -> A -> Tx S E V) l :
  (forall v a, preserves I (f v a)) -> forall v, preserves I (tx_fold f l v).
Proof.
  intros Hf. induction l as [|a l IH]; intros v; simpl; [apply preserves_ret | by apply preserves_bind].
Qed.

Lemma preserves_iter_elem {S E A} (I : S -> Prop) (f : A -> Tx S E unit) l :
  (forall x, x ∈ l -> preserves I (f x)) -> preserves I (tx_iter f l).
Proof.
  induction l as [|x l IH]; intros Hf; simpl; [apply preserves_ret | apply preserves_bind].
  - apply Hf, list_elem_of_here.
  - intros _. apply IH. intros y Hy. by apply Hf, list_elem_of_further.
Qed.

Lemma apply_target_ok group uuid current w : preserves (ok_with group) (apply_target group uuid current w).
Proof.
  unfold apply_target. cbv zeta. destruct (List.find _ _) as [t|].
  - destruct (_ && _); [apply preserves_ret|]. intros d b d' [Hd Hg] H. tx_inv H. bool_prop.
    split; [by apply targets_retarget | done].
  - apply preserves_bind; [|intros; apply preserves_ret]. apply (insert_target_ok (MkTarget _ group _ _ _ _)).
Qed.

Lemma ReplaceGroupTargets_ok uuids tenant group v ts : preserves com_ok (repo_ReplaceGroupTargets uuids tenant group v ts).
Proof.
  intros d u d' Hd H. unfold repo_ReplaceGroupTargets in H. cbv zeta in H. com_inv H; repeat com_step; bool_prop.
  all: match goal with H : tx_fold ?f ?l ?v ?d0 = Ok (?r, ?d1) |- _ => assert (ok_with group d1) as [Hok _]
    by (refine (preserves_fold (ok_with group) f l _ v d0 r d1 _ H);
        [intros v0 [i w0]; apply preserves_bind; [apply apply_target_ok | intros; apply preserves_ret]
        | split; [by apply targets_subset | by eexists]]) end.
  - by eapply bump_ok.
  - done.
Qed.

Lemma surfaces_change surfaces d :
  com_ok d -> NoDup (surface_place <$> surfaces) ->
  (forall s, s ∈ surfaces -> exists g, in_group d (cs_GroupID s) g) -> com_ok (with_surfaces surfaces d).
Proof. intros [Hg Hr Ht Hs] ??. split; [by frame Hg | by frame Hr | by frame Ht | by constructor]. Qed.

Lemma ReplaceGroupClientSurfaces_ok tenant group es : preserves com_ok (repo_ReplaceGroupClientSurfaces tenant group es).
Proof.
  intros d u d' Hd H. unfold repo_ReplaceGroupClientSurfaces in H. com_inv H; repeat com_step.
  eapply bump_ok; [|done].
  match goal with H : tx_iter ?f ?l ?d0 = Ok (?r, ?d1) |- _ => assert (ok_with group d1) as [? _]; [|done];
    refine (preserves_iter (ok_with group) f l _ d0 r d1 _ H); clear H end.
  - intros e s a s' [Hs Hg] Hi. tx_inv Hi. split; [|done].
    match goal with H : existsb _ _ = false |- _ => pose proof (existsb_none _ _ H) as Hnew; cbn beta in Hnew end.
    apply surfaces_change; [done| |].
    + apply NoDup_snoc_row; [by apply Hs|]. intros y Hy [= Hy1 Hy2]. apply Hnew in Hy.
      simpl in Hy1, Hy2. by rewrite Hy1, Hy2, !str_eq_refl in Hy.
    + intros x [Hx | ->%list_elem_of_singleton]%elem_of_app; [by apply (ok_surfaces _ (ok_s _ Hs)) | done].
  - split; [|by eexists]. apply surfaces_change; [done| |].
    + by apply NoDup_filter_rows, Hd.
    + intros x [_ Hx]%elem_of_filter_rows. by apply (ok_surfaces _ (ok_s _ Hd)).
Qed.

Lemma users_change users d : com_ok d -> com_ok (with_users users d).
Proof. intros [Hg Hr Ht Hs]. split; [by frame Hg | by frame Hr | by frame Ht | by frame Hs]. Qed.

Lemma UpsertUserGroup_ok w : preserves com_ok (repo_UpsertUserGroup w).
Proof.
  intros d u d' Hd H. unfold repo_UpsertUserGroup in H. cbv zeta in H. com_inv H; repeat com_step; by apply users_change.
Qed.
Lemma DeleteUserGroup_ok tenant user group : preserves com_ok (repo_DeleteUserGroup tenant user group).
Proof. intros d u d' Hd H. unfold repo_DeleteUserGroup in H. com_inv H. by apply users_change. Qed.

Lemma outside_ok o d : com_ok d -> com_ok (with_outside o d).
Proof. intros [Hg Hr Ht Hs]. split; [by frame Hg | by frame Hr | by frame Ht | by frame Hs]. Qed.

(** ** Price books *)

Lemma books_change books d :
  com_ok d -> NoDup (pb_ID <$> books) ->
  (forall g, g ∈ c_groups d -> sells (with_books books d) g) -> com_ok (with_books books d).
Proof.
  intros [Hg Hr Ht Hs] ??. split; [destruct Hg; by constructor | by frame Hr | by frame Ht | by frame Hs].
Qed.

Lemma books_update id f d :
  com_ok d -> (forall b, pb_ID (f b) = pb_ID b) ->
  (forall g b, g ∈ c_groups d -> gr_RetailPriceBookID g = id -> find_book id d = Some b ->
     book_usable (gr_TenantID g) b = true -> book_usable (gr_TenantID g) (f b) = true) ->
  com_ok (with_books (update_where (has_key pb_ID id) f (c_books d)) d).
Proof.
  intros Hd Hf Hu. apply books_change; [done | rewrite keys_update_where by done; by apply Hd |].
  intros g Hg. destruct (ok_sells _ (ok_g _ Hd) g Hg) as (b & Hb & Hub).
  unfold sells, find_book. cbn [c_books with_books].
  destruct (decide (gr_RetailPriceBookID g = id)) as [<- | Hne].
  - exists (f b). rewrite find_key_update by done. unfold find_book in Hb. rewrite Hb. split; [done|].
    by apply Hu.
  - exists b. by rewrite find_key_update_other by done.
Qed.

Lemma bump_book_ok id : preserves com_ok (bumpPriceBookRevision id).
Proof.
  intros d u d' Hd H. unfold bumpPriceBookRevision in H. tx_inv H. by apply books_update.
Qed.
#[export] Hint Resolve bump_book_ok : tx_preserves.

Lemma CreatePriceBook_ok uuid ot otn name desc : preserves com_ok (repo_CreatePriceBook uuid ot otn name desc).
Proof.
  intros d u d' Hd H. unfold repo_CreatePriceBook in H. tx_inv H. bool_prop.
  match goal with H : existsb (fun b => str_eq (pb_ID b) uuid) _ = false |- _ =>
    pose proof (existsb_none _ _ H) as Hnew; cbn beta in Hnew end.
  apply books_change; [done| |].
  - apply NoDup_snoc_row; [by apply Hd|]. intros y Hy. by apply str_eq_false, Hnew.
  - intros g Hgin. destruct (ok_sells _ (ok_g _ Hd) g Hgin) as (b & Hb & Hub).
    exists b. unfold find_book in *. simpl. by rewrite find_key_app, Hb.
Qed.

Lemma update_where_ext {A} (p : A -> bool) f g (l : list A) :
  (forall a, p a = true -> f a = g a) -> update_where p f l = update_where p g l.
Proof. intros H. apply list_fmap_ext. intros i a _. destruct (p a) eqn:Hp; [by apply H | done]. Qed.

Lemma updatePriceBook_ok ot otn id name desc status : preserves com_ok (updatePriceBook ot otn id name desc status).
Proof.
  intros d u d' Hd H. unfold updatePriceBook, requireOwner, repo_GetPriceBook, repo_UpdatePriceBook in H.
  cbv zeta in H. com_inv H; repeat com_step; bool_prop.
  match goal with H : find_book id d = Some ?b |- _ => rename b into b0; rename H into Hfind end.
  pose proof (find_key_Some _ _ _ _ Hfind) as [_ Hid].
  set (row := MkBook id _ _ _ _ _ _).
  rewrite (update_where_ext _ _ (fun b => if has_key pb_ID id b then row else b)) by (intros a ->; done).
  apply books_update; [done| |].
  - intros b. destruct (has_key pb_ID id b) eqn:Hk; [|done]. unfold has_key in Hk. by bool_prop.
  - intros g b Hgin Hbook Hb Hu. assert (b = b0) as -> by congruence.
    unfold has_key. rewrite bool_decide_true by done. unfold book_usable in *. simpl. bool_prop.
    apply andb_true_iff. split; [|done].
    destruct (str_eq status "active"); [done|]. destruct (str_eq status "disabled"); [|done].
    match goal with H : true && negb (Nat.eqb _ _) = false |- _ => apply negb_false_iff, Nat.eqb_eq, length_zero_iff_nil in H as Hnil end.
    assert (g ∈ lockGroupsForPriceBook id d) as Hl
      by (apply elem_of_filter_rows; split; [by apply str_eq_true | done]).
    rewrite Hnil in Hl. by apply not_elem_of_nil in Hl.
Qed.

Lemma priced_true d book model cap :
  has_price d book model cap = true <-> exists e, e ∈ c_entries d /\ entry_key e = (book, model, cap).
Proof.
  unfold has_price, entry_key. rewrite existsb_exists. split; intros (e & He & Hk); exists e; (split; [by apply list_elem_of_In|]).
  - unfold entry_at in Hk. bool_prop. repeat match goal with H : str_eq _ _ = true |- _ => apply str_eq_true in H end. congruence.
  - injection Hk as <- <- <-. unfold entry_at. by rewrite !str_eq_refl.
Qed.

Lemma entries_change entries d :
  com_ok d ->
  (forall r g, r ∈ c_rules d -> in_group d (dr_GroupID r) g -> dr_Status r = StatusActive ->
     rule_priced d g r -> rule_priced (with_entries entries d) g r) ->
  com_ok (with_entries entries d).
Proof.
  intros [Hg Hr Ht Hs] H. split; [by frame Hg | | by frame Ht | by frame Hs].
  destruct Hr as [Hi Hr]. constructor; [done|]. intros r Hin. destruct (Hr r Hin) as (g & Hgr & Hp).
  exists g. split; [done|]. intros Hga Ha Hk. by apply H, Hp.
Qed.

(** Writing entries without losing a key. *)
Lemma entries_grow entries d :
  com_ok d -> (forall e, e ∈ c_entries d -> exists e', e' ∈ entries /\ entry_key e' = entry_key e) ->
  com_ok (with_entries entries d).
Proof.
  intros Hd H. apply entries_change; [done|]. intros r g _ _ _ (e & He & Hk)%priced_true.
  apply priced_true. destruct (H e He) as (e' & He' & Hk'). exists e'. split; [done | congruence].
Qed.
Lemma entries_update p f d :
  com_ok d -> (forall e, p e = true -> entry_key (f e) = entry_key e) ->
  com_ok (with_entries (update_where p f (c_entries d)) d).
Proof.
  intros Hd Hf. apply entries_grow; [done|]. intros e He. exists (if p e then f e else e). split.
  - apply elem_of_update_where. by exists e.
  - destruct (p e) eqn:Hp; [by apply Hf | done].
Qed.
Lemma entries_snoc e d : com_ok d -> com_ok (with_entries (c_entries d ++ [e]) d).
Proof. intros Hd. apply entries_grow; [done|]. intros x Hx. exists x. split; [|done]. apply elem_of_app. by left. Qed.

Lemma UpsertEntry_ok uuid e : preserves com_ok (repo_UpsertEntry uuid e).
Proof.
  intros d u d' Hd H. unfold repo_UpsertEntry, stored_entry in H. cbv zeta in H. com_inv H; repeat com_step.
  eapply bump_book_ok; [|done]. unfold upsert_entry. destruct (existsb _ _); [|by apply entries_snoc].
  by apply entries_update.
Qed.

Lemma same_entry_key e x : same_entry e x = true -> entry_key x = entry_key e.
Proof.
  unfold same_entry, entry_at, entry_key. intros H. bool_prop.
  repeat match goal with H : str_eq _ _ = true |- _ => apply str_eq_true in H end. congruence.
Qed.

Lemma ImportLiteLLMEntry_ok uuid e : preserves com_ok (ImportLiteLLMEntry uuid e).
Proof.
  intros d u d' Hd H. unfold ImportLiteLLMEntry in H. cbv zeta in H. com_inv H.
  all: try done; try by apply entries_snoc.
  match goal with H : List.find _ _ = Some _ |- _ => apply List.find_some in H as [_ Hk] end.
  apply entries_update; [done|]. intros x Hx. apply same_entry_key in Hx as ->. by apply same_entry_key in Hk.
Qed.

Lemma import_fold_ok book entries v :
  preserves com_ok (tx_fold (fun (changed : Z) '(uuid, e) =>
    tx_guard (negb (str_eq (en_PriceBookID e) book)) (ErrValidation "price_book_id") ;;;
    let! n := ImportLiteLLMEntry uuid e in
    tx_ret (changed + n)) entries v).
Proof.
  apply preserves_fold. intros v0 [uuid e]. apply preserves_bind; [apply preserves_guard|]. intros _.
  apply preserves_bind; [apply ImportLiteLLMEntry_ok | intros; apply preserves_ret].
Qed.

Lemma ImportEntries_ok book entries : preserves com_ok (repo_ImportEntries book entries).
Proof.
  intros d u d' Hd H. unfold repo_ImportEntries in H. destruct entries as [|x entries]; [by com_inv H|].
  com_inv H; repeat com_step.
  - eapply bump_book_ok; [|done]. by eapply import_fold_ok.
  - by eapply import_fold_ok.
Qed.

Lemma deletePriceBook_ok ot otn id : preserves com_ok (deletePriceBook ot otn id).
Proof.
  intros d u d' Hd H. unfold deletePriceBook, deletePriceBook_check, requireOwner, repo_GetPriceBook, repo_DeletePriceBook in H.
  cbv zeta in H. com_inv H; repeat com_step. bool_prop.
  assert (Hfree : forall g, g ∈ c_groups d -> gr_RetailPriceBookID g <> id).
  { intros g Hgin Heq. unfold CountPriceBookReferences, count_where in *.
    pose proof (sumZ_elem_le (fun g => if str_eq (gr_RetailPriceBookID g) id then 1 else 0) (c_groups d) g) as Hle.
    cbn beta in Hle. rewrite Heq, str_eq_refl in Hle.
    pose proof (sumZ_nonneg (fun x => if str_eq id x then 1 else 0) (c_cost_books d)) as Hnn.
    assert (forall p : bool, 0 <= (if p then 1 else 0)) as Hb by (intros []; lia).
    specialize (Hle ltac:(intros; apply Hb) Hgin). specialize (Hnn ltac:(intros; apply Hb)). lia. }
  assert (com_ok (with_entries (List.filter (fun e => negb (str_eq (en_PriceBookID e) id)) (c_entries d)) d)) as He.
  { apply entries_change; [done|]. intros rl g _ [Hgin _] _ (e & Hein & Hk)%priced_true.
    apply priced_true. exists e. split; [|done]. apply elem_of_filter_rows. split; [|done].
    apply negb_true_iff, str_eq_false. injection Hk as -> _ _. by apply Hfree. }
  apply (books_change _ _ He); [by apply NoDup_filter_rows, Hd|].
  intros g Hgin. destruct (ok_sells _ (ok_g _ Hd) g Hgin) as (b & Hb & Hub). exists b. split; [|done].
  apply find_key_Some in Hb as [Hbin Hbid]. unfold find_book. cbn [c_books with_books]. rewrite <- Hbid.
  apply find_key_elem; [by apply NoDup_filter_rows, Hd|]. apply elem_of_filter_rows. split; [|done].
  apply negb_true_iff, str_eq_false. rewrite Hbid. by apply Hfree.
Qed.

Lemma DeleteEntry_apply_ok book model cap d u d' :
  com_ok d -> priceEntryReferenceConflicts book model cap d = [] ->
  DeleteEntry_apply book model cap d = Ok (u, d') -> com_ok d'.
Proof.
  intros Hd Hnil H. unfold DeleteEntry_apply in H. com_inv H. eapply bump_book_ok; [|done].
  apply entries_change; [done|]. intros r g Hr [Hgin Hgid] Ha (e & Hein & Hk)%priced_true.
  apply priced_true. exists e. split; [|done]. apply elem_of_filter_rows. split; [|done].
  apply negb_true_iff, not_true_iff_false. intros Hat. unfold entry_at in Hat. bool_prop.
  repeat match goal with H : str_eq _ _ = true |- _ => apply str_eq_true in H end.
  injection Hk as Hk1 Hk2 Hk3.
  assert (dr_ID r ∈ priceEntryReferenceConflicts book model cap d) as Hin; [|by rewrite Hnil in Hin; apply not_elem_of_nil in Hin].
  unfold priceEntryReferenceConflicts. apply list_elem_of_bind. exists g. split.
  - apply list_elem_of_fmap_2. apply elem_of_filter_rows. split; [|done].
    rewrite <- Hgid, Ha, <- Hk2, <- Hk3. rewrite !andb_true_iff, !str_eq_true. repeat split; congruence.
  - apply elem_of_filter_rows. split; [|done]. apply str_eq_true. congruence.
Qed.

Lemma DeleteEntry_ok book model cap : preserves com_ok (repo_DeleteEntry book model cap).
Proof.
  intros d u d' Hd H. unfold repo_DeleteEntry, DeleteEntry_check in H. tx_inv H. bool_prop.
  eapply DeleteEntry_apply_ok; [done| |done].
  match goal with H : Nat.eqb _ _ = true |- _ => by apply Nat.eqb_eq, length_zero_iff_nil in H end.
Qed.

(** ** Imports *)

Lemma known_capability s : IsKnown s = true -> transferCapabilityForSurface s = dispatchRequiredCapability s.
Proof.
  intros Hk%bool_decide_eq_true. revert s Hk. apply Forall_forall. unfold Known.
  repeat (constructor; [vm_compute; reflexivity|]). constructor.
Qed.
Lemma known_requires s : dispatchRequiredCapability s <> ""%string.
Proof. unfold dispatchRequiredCapability. by destruct (_ || _); [|destruct (_ || _)]. Qed.

Lemma add_model_elem entries m model cap :
  cap ∈ default [] (foldl add_model m entries !! model) ->
  cap ∈ default [] (m !! model) \/ exists e, e ∈ entries /\ en_ModelCode e = model /\ en_CapabilityType e = cap.
Proof.
  revert m. induction entries as [|e entries IH]; intros m H; [by left|]. cbn [foldl] in H.
  destruct (IH _ H) as [Hm | (x & Hx & ?)]; [|right; exists x; split; [by apply list_elem_of_further | done]].
  unfold add_model in Hm. destruct (str_eq (en_ModelCode e) ""); [by left|].
  destruct (decide (en_ModelCode e = model)) as [<- | Hne]; [|rewrite lookup_insert_ne in Hm by done; by left].
  rewrite lookup_insert_eq in Hm. cbn [default] in Hm.
  apply elem_of_app in Hm as [? | ->%list_elem_of_singleton]; [by left | right].
  exists e. split; [apply list_elem_of_here | done].
Qed.

Lemma loaded_book_priced tenant id d b model surface :
  loadGroupImportPriceBook tenant id d = Some b ->
  IsKnown surface = true -> (SupportsModel b model surface).2 = true ->
  has_price d id model (dispatchRequiredCapability surface) = true.
Proof.
  unfold loadGroupImportPriceBook. destruct (find_book id d) as [pb|]; [|done].
  destruct (visible_book tenant pb); [|done]. intros [= <-] Hk. unfold SupportsModel. cbn [ib_Models].
  destruct (_ !! model) as [caps|] eqn:Hm; [|done]. rewrite known_capability by done. cbv zeta.
  rewrite (proj2 (str_eq_false _ _) (known_requires surface)). cbn [snd]. intros Hin%bool_decide_eq_true.
  destruct (add_model_elem (List.filter (fun e => str_eq (en_PriceBookID e) id) (c_entries d)) ∅ model
              (dispatchRequiredCapability surface)) as [H | (e & [He Hin']%elem_of_filter_rows & Hmod & Hcap)];
    [by rewrite Hm | by rewrite lookup_empty in H; apply not_elem_of_nil in H|].
  apply priced_true. exists e. split; [done|]. unfold entry_key. apply str_eq_true in He. congruence.
Qed.

Lemma loaded_book_sells tenant id d b :
  loadGroupImportPriceBook tenant id d = Some b -> ib_Status b = StatusActive ->
  exists pb, find_book id d = Some pb /\ book_usable tenant pb = true.
Proof.
  unfold loadGroupImportPriceBook. destruct (find_book id d) as [pb|]; [|done].
  destruct (visible_book tenant pb) eqn:Hv; [|done]. intros [= <-] Hs. exists pb. split; [done|].
  unfold book_usable. cbn [ib_Status] in Hs. rewrite Hs. exact Hv.
Qed.

(** What the first part of an import has seen. *)
Definition import_checked (tenant : string) (item : PlannedGroupImport) (status : string) (d : cdb) : Prop :=
  (exists b, find_book (ii_PriceBookID (pi_Preview item)) d = Some b /\ book_usable tenant b = true) /\
  (status = StatusActive -> forall t, t ∈ tg_DispatchRules (pi_Source item) -> td_Status t = StatusActive ->
     IsKnown (td_ClientSurface t) = true ->
     has_price d (ii_PriceBookID (pi_Preview item)) (td_TargetModelID t)
       (dispatchRequiredCapability (td_ClientSurface t)) = true).

Lemma import_check_ok tenant item d status d' :
  ApplyGroupImport_check tenant item d = Ok (status, d') -> d' = d /\ import_checked tenant item status d.
Proof.
  intros H. unfold ApplyGroupImport_check in H. cbv zeta in H. rewrite tx_get_bind in H.
  apply tx_bind_ok in H as (targets & d0 & Ht & H). assert (d0 = d) as -> by (com_inv Ht; done). clear Ht.
  destruct (loadGroupImportPriceBook _ _ d) as [b|] eqn:Hload; [|done].
  apply tx_bind_ok in H as ([] & d0 & [Hact ->]%tx_guard_ok & H). unfold tx_ret in H. injection H as Hst ->.
  apply negb_false_iff, str_eq_true in Hact. split; [done|]. split; [by eapply loaded_book_sells|].
  intros -> t Ht Hta Hk. destruct (negb _ || _) in Hst; [done|]. destruct (unsupported _ _) eqn:Hun in Hst; [done|].
  eapply loaded_book_priced; [done..|]. unfold unsupported in Hun. apply (existsb_none _ _ Hun) in Ht.
  rewrite Hta, str_eq_refl in Ht. by apply negb_false_iff in Ht.
Qed.

(** The second part writes a group, then what hangs off it. *)
Definition without_rules (id : string) (d : cdb) : cdb :=
  with_rules (List.filter (fun r => negb (str_eq (dr_GroupID r) id)) (c_rules d)) d.
Lemma without_rules_ok id d : com_ok d -> com_ok (without_rules id d).
Proof. apply rules_subset. Qed.
Lemma without_rules_priced id g d : rules_priced (without_rules id d) id g.
Proof. intros r [Hr _]%elem_of_filter_rows Heq. by rewrite Heq, str_eq_refl in Hr. Qed.

(** The group an import writes, of the book it names, its old rules aside. *)
Definition imports_group (tenant : string) (item : PlannedGroupImport) (status id : string) (d d1 : cdb) : Prop :=
  com_ok (without_rules id d1) /\ c_entries d1 = c_entries d /\
  exists g, in_group d1 id g /\ gr_RetailPriceBookID g = ii_PriceBookID (pi_Preview item) /\ gr_Status g = status.

Lemma import_group_ok uuid tenant item status d id d1 :
  com_ok d -> import_checked tenant item status d ->
  import_group uuid tenant item status d = Ok (id, d1) -> imports_group tenant item status id d d1.
Proof.
  intros Hd [Hbook _] H. unfold import_group in H. cbv zeta in H. apply tx_bind_ok in H as ([] & d0 & [_ ->]%tx_guard_ok & H).
  rewrite tx_get_bind in H. destruct (_ || _) in H; com_inv H; repeat com_step; bool_prop.
  - match goal with H : existsb _ _ = false |- _ => pose proof (existsb_none _ _ H) as Hnew; cbn beta in Hnew end.
    split; [apply without_rules_ok, insert_row_ok|split; [done|]]; try done.
    + intros h Hh. by apply str_eq_false, Hnew.
    + by apply name_free_ok.
    + eexists. split; [split; [apply elem_of_app; right; apply list_elem_of_here|]|]; done.
  - match goal with H : update_group _ ?i _ _ = Ok _ |- _ => apply update_group_ok in H as ->; set (id := i) in * end.
    match goal with H : in_group d id ?x |- _ => rename x into g, H into Hgi end.
    match goal with H : context [import_row item ?m status] |- _ => set (f := import_row item m status) in * end.
    assert (Hone : forall h, in_group d id h -> h = g) by (intros h Hh; eapply in_group_unique; [apply Hd|..]; done).
    split; [|split; [done|]].
    + apply (com_update tenant id f (without_rules id d)); [by apply without_rules_ok|..]; intros h Hh Ht;
        rewrite (Hone h Hh).
      * done.
      * by apply name_free_ok.
      * destruct Hbook as (b & Hb & Hu). exists b. split; [exact Hb|]. simpl. by subst tenant.
      * apply without_rules_priced.
    + exists (next_version f g). split; [|done]. split; [|by destruct Hgi].
      apply elem_of_update_where. exists g. destruct Hgi as [Hin Hid]. split; [done|].
      by rewrite (proj2 (tenant_group_true tenant id g)).
Qed.

(** The rest of the import, for the group it wrote. *)
Definition importing (id book : string) (status : string) (entries : list PriceBookEntry) (d : cdb) : Prop :=
  com_ok d /\ c_entries d = entries /\
  exists g, in_group d id g /\ gr_RetailPriceBookID g = book /\ gr_Status g = status.

Lemma import_surfaces_ok id p d :
  com_ok (without_rules id d) -> has_group id d -> com_ok (without_rules id (import_surfaces id p d)).
Proof.
  intros Hd Hg. unfold import_surfaces.
  assert (Hkeep : forall l, com_ok (with_surfaces l (without_rules id d)) -> com_ok (without_rules id (with_surfaces l d)))
    by done.
  apply Hkeep, surfaces_change; [done| |].
  - rewrite fmap_app. apply NoDup_app. split; [by apply NoDup_filter_rows, (ok_s _ Hd)|]. split.
    + intros k (s & -> & [Hs _]%elem_of_filter_rows)%list_elem_of_fmap (s' & Hk & (e & -> & _)%list_elem_of_fmap)%list_elem_of_fmap.
      injection Hk as Hid _. by rewrite Hid, str_eq_refl in Hs.
    + unfold surface_entries. rewrite <- !list_fmap_compose. apply (NoDup_fmap_2 (fun s => (id, s))).
      by apply (bool_decide_eq_true_1 (NoDup Known)).
  - intros s [[_ Hs]%elem_of_filter_rows | (e & -> & _)%list_elem_of_fmap]%elem_of_app; [|done].
    by apply (ok_surfaces _ (ok_s _ Hd)).
Qed.

Lemma import_rule_ok now id book status entries x :
  (status = StatusActive -> td_Status x.2 = StatusActive -> IsKnown (td_ClientSurface x.2) = true ->
     exists e, e ∈ entries /\ entry_key e = (book, td_TargetModelID x.2, dispatchRequiredCapability (td_ClientSurface x.2))) ->
  preserves (importing id book status entries) (import_rule now id x).
Proof.
  intros Hx d u d' (Hd & He & g & Hg & Hb & Hs) H. unfold import_rule in H. cbv zeta in H. tx_inv H. bool_prop.
  split; [|split; [done | by exists g]].
  match goal with H : existsb _ _ = false |- _ => pose proof (existsb_none _ _ H) as Hnew; cbn beta in Hnew end.
  apply rules_change; [done| |].
  - apply NoDup_snoc_row; [by apply Hd|]. intros y Hy. simpl. by apply str_eq_false, Hnew.
  - intros r' [Hr | ->%list_elem_of_singleton]%elem_of_app; [by apply Hd|].
    exists g. split; [done|]. intros Hga Hra Hk. apply priced_true. rewrite He, Hb. apply Hx; [congruence | done..].
Qed.

Lemma import_apply_ok now uuid uuids tenant item status d a d' :
  com_ok d -> import_checked tenant item status d ->
  ApplyGroupImport_apply now uuid uuids tenant item status d = Ok (a, d') -> com_ok d'.
Proof.
  intros Hd Hchk H. unfold ApplyGroupImport_apply in H. apply tx_bind_ok in H as (id & d1 & Hgrp & H).
  pose proof (import_group_ok _ _ _ _ _ _ _ Hd Hchk Hgrp) as (Hok & He & g & Hg & Hb & Hs).
  rewrite tx_get_bind in H. cbv zeta in H. apply tx_bind_ok in H as ([] & d2 & Hput & H).
  unfold tx_put in Hput. injection Hput as <-. apply tx_bind_ok in H as ([] & d2 & Hiter & H).
  unfold tx_ret in H. injection H as _ <-.
  match type of Hiter with tx_iter ?f ?l ?d0 = _ =>
    assert (importing id (ii_PriceBookID (pi_Preview item)) status (c_entries d) d2) as [? _]; [|done];
    refine (preserves_iter_elem (importing id (ii_PriceBookID (pi_Preview item)) status (c_entries d)) f l _ d0 tt d2 _ Hiter) end.
  - intros [u r] (i & Hi)%list_elem_of_lookup_1. rewrite list_lookup_imap in Hi.
    apply fmap_Some in Hi as (t & Ht & [= -> ->]). apply import_rule_ok. intros Hst Hra Hk.
    apply priced_true. cbn [snd]. apply Hchk; try done. by eapply list_elem_of_lookup_2.
  - split; [|split; [done | by exists g]]. apply (import_surfaces_ok id _ d1); [done | by exists g].
Qed.
Lemma ApplyGroupImport_ok now uuid uuids tenant item : preserves com_ok (ApplyGroupImport now uuid uuids tenant item).
Proof.
  intros d a d' Hd H. unfold ApplyGroupImport in H. apply tx_bind_ok in H as (status & d0 & Hchk & H).
  apply import_check_ok in Hchk as [-> Hchk]. by eapply import_apply_ok.
Qed.


(** ** The deletion of a tenant *)

Section DeleteTenant.
Context (tenant : string) (d : cdb) (Hd : com_ok d).

Let keeps_group (g : Group) : Prop := g ∈ c_groups d /\ gr_TenantID g <> tenant.

(** The book another tenant's group sells from is not the tenant's. *)
Lemma sold_book_kept g :
  keeps_group g ->
  exists b, find_book (gr_RetailPriceBookID g) d = Some b /\ book_usable (gr_TenantID g) b = true /\
    str_eq (pb_OwnerType b) "tenant" && str_eq (pb_OwnerTenantID b) tenant = false.
Proof.
  intros [Hg Hne]. destruct (ok_sells _ (ok_g _ Hd) g Hg) as (b & Hb & Hu). exists b. split_and!; [done..|].
  apply not_true_iff_false. intros [Ht Ho]%andb_true_iff. unfold book_usable in Hu.
  apply str_eq_true in Ht, Ho. rewrite Ht, Ho in Hu. bool_prop.
  rename select (_ || _ = true) into Hor. simpl in Hor. apply str_eq_true in Hor. congruence.
Qed.
Lemma sold_book_not_owned g : keeps_group g -> tenant_owns_book tenant (gr_RetailPriceBookID g) d = false.
Proof.
  intros Hg. destruct (sold_book_kept g Hg) as (b & [Hb Hid]%find_key_Some & _ & Hno).
  apply not_true_iff_false. intros (x & Hx%list_elem_of_In & Hown)%existsb_exists. bool_prop.
  repeat match goal with H : str_eq _ _ = true |- _ => apply str_eq_true in H end.
  assert (x = b) as -> by (apply (keyed_unique pb_ID (c_books d)); [by apply Hd|done..|congruence]).
  apply not_true_iff_false in Hno. apply Hno. by rewrite andb_true_iff, !str_eq_true.
Qed.
Lemma group_not_owned id g : in_group d id g -> tenant_owns_group tenant id d = false -> keeps_group g.
Proof.
  intros [Hin Hid] Hno. split; [done|]. intros Ht. apply (existsb_none _ _ Hno) in Hin.
  by rewrite Hid, Ht, !str_eq_refl in Hin.
Qed.
Lemma in_group_kept d' id g :
  c_groups d' = List.filter (fun g => negb (str_eq (gr_TenantID g) tenant)) (c_groups d) ->
  in_group d id g -> tenant_owns_group tenant id d = false -> in_group d' id g.
Proof.
  intros Heq Hg Hno. destruct (group_not_owned id g Hg Hno) as [? ?]. split; [|by destruct Hg].
  rewrite Heq. apply elem_of_filter_rows. split; [|done]. by apply negb_true_iff, str_eq_false.
Qed.

Lemma DeleteTenant_run_ok exists_ u d' : DeleteTenant exists_ tenant d = Ok (u, d') -> com_ok d'.
Proof.
  intros H. unfold DeleteTenant in H. cbv zeta in H. destruct exists_; cbn [negb] in H; tx_inv H; [|done].
  split; constructor; cbn; try (apply NoDup_filter_rows; by apply Hd).
  - intros g [_ Hg]%elem_of_filter_rows. by apply (ok_group_rows _ (ok_g _ Hd)).
  - intros g [Hne%negb_true_iff%str_eq_false Hg]%elem_of_filter_rows.
    destruct (sold_book_kept g) as (b & [Hb Hid]%find_key_Some & Hu & Hno); [done|]. exists b. split; [|done].
    unfold find_book. cbn. rewrite <- Hid. apply find_key_elem; [apply NoDup_filter_rows; by apply Hd|].
    apply elem_of_filter_rows. by rewrite Hno.
  - intros r [Hno%negb_true_iff Hr]%elem_of_filter_rows. destruct (ok_rules _ (ok_r _ Hd) r Hr) as (g & Hg & Hp).
    exists g. split; [by eapply in_group_kept|]. intros Hga Hra Hk.
    destruct (proj1 (priced_true _ _ _ _) (Hp Hga Hra Hk)) as (e & He & Hkey). apply priced_true. exists e. split; [|done].
    apply elem_of_filter_rows. split; [|done]. injection Hkey as -> _ _.
    by rewrite sold_book_not_owned by (by eapply group_not_owned).
  - intros t [Hno%negb_true_iff Ht]%elem_of_filter_rows. destruct (ok_targets _ (ok_t _ Hd) t Ht) as (Hc & g & Hg).
    split; [done|]. exists g. by eapply in_group_kept.
  - intros s [Hno%negb_true_iff Hs]%elem_of_filter_rows. destruct (ok_surfaces _ (ok_s _ Hd) s Hs) as (g & Hg).
    exists g. by eapply in_group_kept.
Qed.
End DeleteTenant.
Lemma DeleteTenant_ok exists_ tenant : preserves com_ok (DeleteTenant exists_ tenant).
Proof. intros d u d' Hd H. by eapply DeleteTenant_run_ok. Qed.

(** ** Every call *)

Lemma preserves_lift {A} (I : cdb -> Prop) (m : Res A) : preserves I (lift m).
Proof. intros d a d' HI [_ ->]%lift_ok. done. Qed.
Lemma preserves_row {A} (I : cdb -> Prop) (o : option A) : preserves I (tx_row o).
Proof. intros d a d' HI [_ ->]%tx_row_ok. done. Qed.
Lemma preserves_map_err {S E E' A} (I : S -> Prop) (h : E -> E') (m : Tx S E A) :
  preserves I m -> preserves I (tx_map_err h m).
Proof. intros Hm d a d' HI H. unfold tx_map_err in H. destruct (m d) as [[x s]|] eqn:Hrun; simplify_eq. by eapply Hm. Qed.
Lemma requireOwner_ok id ot otn : preserves com_ok (requireOwner id ot otn).
Proof. unfold requireOwner, repo_GetPriceBook. eauto using preserves_row with tx_preserves. Qed.

#[export] Hint Resolve preserves_lift preserves_row preserves_map_err requireOwner_ok
  CreateGroup_ok UpdateGroup_ok UpdateGroupRoutePolicy_ok UpdateGroupStatus_ok DeleteGroup_ok
  ReplaceGroupClientSurfaces_ok AddGroupTarget_ok UpdateGroupTarget_ok DeleteGroupTarget_ok ReplaceGroupTargets_ok
  AddDispatchRule_ok UpdateDispatchRule_ok UpdateDispatchRuleStatus_ok DeleteDispatchRule_ok
  UpsertUserGroup_ok DeleteUserGroup_ok CreatePriceBook_ok updatePriceBook_ok deletePriceBook_ok
  UpsertEntry_ok DeleteEntry_ok ImportEntries_ok ApplyGroupImport_ok DeleteTenant_ok : tx_preserves.

Lemma exec_ok bad_regexp c : preserves com_ok (exec bad_regexp c).
Proof.
  destruct c; cbn [exec]; unfold ignore, CreateGroup, UpdateGroup, UpdateGroupRoutePolicy, UpdateGroupStatus,
    DeleteGroup, AddGroupTarget, UpdateGroupTarget, DeleteGroupTarget, ReplaceGroupTargets, AddDispatchRule,
    UpdateDispatchRule, UpdateDispatchRuleStatus, DeleteDispatchRule, UpsertUserBinding, DeleteUserBinding,
    createPriceBook, upsertEntry, deleteEntry; cbv zeta;
    try destruct (validateEntry e); eauto 20 with tx_preserves.
Qed.

Lemma reachable_ok bad_regexp d : com_reachable bad_regexp d -> com_ok d.
Proof.
  induction 1 as [|c d _ IH|o d _ IH].
  - split; constructor; cbn; try apply NoDup_nil_2; intros x Hx; by apply not_elem_of_nil in Hx.
  - by apply preserves_run_tx; [apply exec_ok|].
  - by apply outside_ok.
Qed.
