(* ===== verification/CommercialTargets.v ===== *)
(** * Replacing the targets of a group

    Lemmas on the batch of [repo_ReplaceGroupTargets]: what its loop leaves in the
    table, and that a loop which reports no change made none. *)

From S2P Require Import Prelude GoStrings Decimal PriceTiers CommercialDB PriceBooks Commercial CommercialService.
From S2P Require Import CommercialFacts.
#[global] Open Scope Z_scope.

(** The row a desired target ends up as: the one it had, or a new one. *)
Definition placed (group : string) (current : list GroupTarget) (uw : string * GroupTargetWrite) : GroupTarget :=
  let status := commercialStatusOrDefault (tw_Status uw.2) in
  let priority := groupTargetBatchPriority uw.2 in
  match List.find (fun t => bool_decide (key_of_target t = key_of_write uw.2)) current with
  | Some t => retarget status priority t
  | None => MkTarget uw.1 group (tw_TargetKind uw.2) (tw_TargetID uw.2) priority status
  end.

Section Loop.
Context (group : string) (current : list GroupTarget).

Definition loop (items : list (string * GroupTargetWrite)) (changed : bool) : CTx bool :=
  tx_fold (fun changed '(uuid, w) =>
    let! c := apply_target group uuid current w in tx_ret (changed || c)) items changed.

(** What the loop still has to find in the table. *)
Definition pending (items : list (string * GroupTargetWrite)) (d : cdb) : Prop :=
  forall uw t, uw ∈ items ->
    List.find (fun t => bool_decide (key_of_target t = key_of_write uw.2)) current = Some t ->
    t ∈ c_targets d /\ gt_GroupID t = group.

Lemma retarget_same t status priority :
  str_eq (gt_Status t) status && (gt_Priority t =? priority) = true -> retarget status priority t = t.
Proof. intros H. bool_prop. apply str_eq_true in H as <-. rename select (gt_Priority t = _) into Hp.
  rewrite <- Hp. by destruct t. Qed.

(** One step: the table after it, and that it reports what it did. *)
Lemma apply_target_spec uuid w d c d' :
  ok_with group d -> pending [(uuid, w)] d -> apply_target group uuid current w d = Ok (c, d') ->
  (forall x, x ∈ c_targets d' <->
     (x ∈ c_targets d /\ target_place x <> (group, key_of_write w)) \/ x = placed group current (uuid, w)) /\
  (c = false -> d' = d) /\ d' = with_targets (c_targets d') d.
Proof.
  intros [Hd _] Hpend. specialize (Hpend (uuid, w)). unfold apply_target, placed. cbv zeta. cbn [fst snd] in *.
  destruct (List.find _ current) as [t|] eqn:Hfind.
  - destruct (Hpend t) as [Hin Hgt]; [by apply list_elem_of_here | done|].
    apply List.find_some in Hfind as [_ Hk]. bool_prop.
    assert (Hplace : target_place t = (group, key_of_write w)) by (unfold target_place; congruence).
    assert (Hsplit : forall x, x ∈ c_targets d <->
      (x ∈ c_targets d /\ target_place x <> (group, key_of_write w)) \/ x = t).
    { intros x. split; [|by intros [[? _] | ->]]. intros Hx.
      destruct (decide (target_place x = (group, key_of_write w))) as [He|]; [right | by left].
      apply (keyed_unique target_place (c_targets d)); try done; [by apply Hd | congruence]. }
    destruct (_ && _) eqn:Hsame; intros H; tx_inv H.
    + rewrite (retarget_same _ _ _ Hsame). split; [exact Hsplit|]. split; [done|]. by destruct d.
    + split; [|done]. intros x. cbn [c_targets with_targets]. rewrite elem_of_update_where. split.
      * intros (a & Ha & ->). destruct (str_eq (gt_ID a) (gt_ID t) && str_eq (gt_GroupID a) group) eqn:Hp.
        -- right. bool_prop. apply str_eq_true in H. f_equal.
           apply (keyed_unique gt_ID (c_targets d)); try done. by apply Hd.
        -- left. split; [done|]. intros He. assert (a = t) as ->
             by (apply (keyed_unique target_place (c_targets d)); try done; [by apply Hd | congruence]).
           by rewrite Hgt, !str_eq_refl in Hp.
      * intros [[Hx Hne] | ->].
        -- exists x. split; [done|].
           destruct (str_eq (gt_ID x) (gt_ID t) && str_eq (gt_GroupID x) group) eqn:Hp; [|done]. bool_prop. apply str_eq_true in H.
           destruct Hne. rewrite <- Hplace. f_equal. apply (keyed_unique gt_ID (c_targets d)); try done. by apply Hd.
        -- exists t. by rewrite Hgt, !str_eq_refl.
  - intros H. unfold insert_target in H. tx_inv H. bool_prop.
    match goal with H : target_taken _ _ _ _ = false |- _ => pose proof (target_taken_false _ _ _ _ H) as Hfree end.
    split; [|done]. intros x. cbn [c_targets with_targets]. rewrite elem_of_app, list_elem_of_singleton. split.
    + intros [Hx | ->]; [left; split; [done | by apply Hfree] | by right].
    + intros [[Hx _] | ->]; [by left | by right].
Qed.

Lemma placed_key uw : key_of_target (placed group current uw) = key_of_write uw.2.
Proof.
  unfold placed. cbv zeta. destruct (List.find _ current) as [t|] eqn:Hfind; [|done].
  apply List.find_some in Hfind as [_ Hk]. bool_prop. done.
Qed.

Lemma loop_spec items changed d r d' :
  ok_with group d -> pending items d -> NoDup (key_of_write <$> items.*2) ->
  loop items changed d = Ok (r, d') ->
  (forall x, x ∈ c_targets d' <->
     (x ∈ c_targets d /\ ~ (gt_GroupID x = group /\ key_of_target x ∈ key_of_write <$> items.*2)) \/
     exists uw, uw ∈ items /\ x = placed group current uw) /\
  (r = false -> changed = false /\ d' = d) /\ (changed = true -> r = true) /\ d' = with_targets (c_targets d') d.
Proof.
  revert changed d. induction items as [|[uuid w] items IH]; intros changed d Hok Hpend Hnd H.
  - unfold loop in H. simpl in H. tx_inv H. split; [|repeat split; try done; by destruct d].
    intros x. split; [|by intros [[? _] | (uw & []%not_elem_of_nil & _)]].
    intros Hx. left. split; [done|]. intros [_ []%not_elem_of_nil].
  - unfold loop in H. cbn [tx_fold] in H. apply tx_bind_ok in H as (b & d2 & H1 & H2).
    apply tx_bind_ok in H1 as (c & d1 & Hone & Hret). tx_inv Hret.
    rewrite !fmap_cons, NoDup_cons in Hnd. destruct Hnd as [Hnew Hnd]. cbn [snd] in Hnew.
    assert (Hok1 : ok_with group d1) by (by eapply apply_target_ok).
    apply apply_target_spec in Hone as (Hspec & Hsame & Hd1); [|done|].
    2: { intros uw t ->%list_elem_of_singleton. apply (Hpend (uuid, w)), list_elem_of_here. }
    specialize (IH (changed || c) d1 Hok1). apply IH in H2 as (Hrest & Hr & Hc & Hd'); [| |done].
    2: { intros uw t Huw Hfind. destruct (Hpend uw t (list_elem_of_further _ _ _ Huw) Hfind) as [Hin Hgt].
      split; [|done]. apply Hspec. left. split; [done|]. intros Hk%(f_equal snd). cbn [target_place snd] in Hk. apply Hnew.
      apply List.find_some in Hfind as [_ Hk']. bool_prop. rewrite <- Hk, Hk'.
      by apply list_elem_of_fmap_2, list_elem_of_fmap_2. }
    split; [|split; [|split]].
    + intros x. rewrite Hrest, Hspec, fmap_cons, fmap_cons, elem_of_cons. unfold target_place. cbn [snd]. split.
      * intros [[[[Hx Hne] | ->] Hno] | (uw & Huw & ->)].
        -- left. split; [done|]. intros [Hg [Hk | Hk]]; [apply Hne; congruence | by apply Hno].
        -- right. exists (uuid, w). split; [apply list_elem_of_here | done].
        -- right. exists uw. split; [by apply list_elem_of_further | done].
      * intros [[Hx Hno] | (uw & [-> | Huw]%elem_of_cons & ->)].
        -- left. split; [left; split; [done|] |].
           ++ intros He. apply Hno. split; [by apply (f_equal fst) in He|]. left. by apply (f_equal snd) in He.
           ++ intros [Hg Hk]. apply Hno. auto.
        -- left. split; [by right|]. intros [_ Hk]. apply Hnew. by rewrite placed_key in Hk.
        -- right. by exists uw.
    + intros Hf. destruct (Hr Hf) as [[-> ->]%orb_false_iff ->]. auto.
    + intros ->. by apply Hc.
    + rewrite Hd', Hd1. done.
Qed.
End Loop.

(** ** The batch *)

Definition targets_of (group : string) (d : cdb) : list GroupTarget :=
  List.filter (fun t => str_eq (gt_GroupID t) group) (c_targets d).
Lemma elem_targets_of group d t : t ∈ targets_of group d <-> t ∈ c_targets d /\ gt_GroupID t = group.
Proof. unfold targets_of. rewrite elem_of_filter_rows, str_eq_true. tauto. Qed.

(** What [check_desired] lets pass. *)
Definition desired_ok (tenant : string) (d : cdb) (w : GroupTargetWrite) : Prop :=
  commercialStatusOrDefault (tw_Status w) = StatusActive ->
  resource_state (tw_TargetKind w) (tw_TargetID w) tenant d = Some (StatusActive, true).

Lemma check_desired_ok tenant current seen desired d :
  check_desired tenant current seen desired d = None ->
  NoDup (key_of_write <$> desired) /\ (forall w, w ∈ desired -> key_of_write w ∉ seen) /\
  (forall w, w ∈ desired -> desired_ok tenant d w).
Proof.
  revert seen. induction desired as [|w desired IH]; intros seen H; cbn [check_desired] in H.
  { split; [constructor|]. split; intros w []%not_elem_of_nil. }
  destruct (negb (str_in _ _)); [done|]. case_bool_decide as Hseen; [done|].
  destruct (resource_state _ _ _ _) as [[status allowed]|] eqn:Hres; [|done].
  destruct (negb _ && negb _); [done|]. destruct (_ && negb allowed) eqn:Hallow; [done|].
  destruct (_ && negb (str_eq status _)) eqn:Hact; [done|].
  apply IH in H as (Hnd & Hout & Hok). split; [|split].
  - rewrite fmap_cons, NoDup_cons. split; [|done].
    intros (w' & Hk & Hw')%list_elem_of_fmap. apply (Hout w' Hw'). rewrite <- Hk. by apply elem_of_union_l, elem_of_singleton.
  - intros w' [-> | Hw']%elem_of_cons; [done|]. intros Hin. apply (Hout w' Hw'). by apply elem_of_union_r.
  - intros w' [-> | Hw']%elem_of_cons; [|by apply Hok]. intros Hs. rewrite Hs in Hallow, Hact.
    rewrite str_eq_refl in Hallow, Hact. simpl in Hallow, Hact. bool_prop. apply str_eq_true in Hact as ->.
    by rewrite Hres, Hallow.
Qed.

Definition batch_items (uuids : nat -> string) (desired : list GroupTargetWrite) : list (string * GroupTargetWrite) :=
  imap (fun i w => (uuids i, w)) desired.
Lemma batch_items_writes uuids desired : (batch_items uuids desired).*2 = desired.
Proof.
  unfold batch_items. rewrite fmap_imap. induction desired as [|w desired IH] in uuids |- *; [done|].
  cbn [imap]. f_equal. apply (IH (uuids ∘ S)).
Qed.
Lemma elem_batch_items uuids desired uw :
  uw ∈ batch_items uuids desired <-> exists i w, desired !! i = Some w /\ uw = (uuids i, w).
Proof.
  unfold batch_items. rewrite list_elem_of_lookup. split.
  - intros (i & Hi). rewrite list_lookup_imap in Hi. destruct (desired !! i) as [w|] eqn:Hw; [|done].
    exists i, w. split; [done|]. by injection Hi.
  - intros (i & w & Hw & ->). exists i. by rewrite list_lookup_imap, Hw.
Qed.

Lemma filter_all {A} (p : A -> bool) l : (forall x, x ∈ l -> p x = true) -> List.filter p l = l.
Proof.
  induction l as [|x l IH]; intros H; simpl; [done|]. rewrite H by apply list_elem_of_here. f_equal.
  apply IH. intros y Hy. apply H. by apply list_elem_of_further.
Qed.

(** The table after a batch: the other groups' rows, and one row for each desired
    target. *)
Definition batch_rows (uuids : nat -> string) (group : string) (desired : list GroupTargetWrite) (d d' : cdb) : Prop :=
  forall x, x ∈ c_targets d' <->
    (x ∈ c_targets d /\ gt_GroupID x <> group) \/
    exists i w, desired !! i = Some w /\ x = placed group (targets_of group d) (uuids i, w).

Lemma batch_loop uuids group desired d b r d1 :
  let current := targets_of group d in
  let kept t := bool_decide (key_of_target t ∈ key_of_write <$> desired) in
  let gone := with_targets (List.filter (fun t => negb (str_eq (gt_GroupID t) group) || kept t) (c_targets d)) d in
  ok_with group d -> NoDup (key_of_write <$> desired) -> (b = false -> existsb (fun t => negb (kept t)) current = false) ->
  loop group current (batch_items uuids desired) b gone = Ok (r, d1) ->
  batch_rows uuids group desired d d1 /\ (r = false -> d1 = d) /\ d1 = with_targets (c_targets d1) d.
Proof.
  intros current kept gone Hok Hnd Hb H. apply loop_spec in H as (Hrows & Hr & _ & Hd1).
  - split; [|split].
    + intros x. rewrite Hrows, batch_items_writes. unfold gone. cbn [c_targets with_targets]. rewrite elem_of_filter_rows.
      split.
      * intros [[[Hk Hx] Hno] | (uw & (i & w & Hw & ->)%elem_batch_items & ->)]; [left | right; by exists i, w].
        split; [done|]. intros Hg. apply str_eq_true in Hg as Hg'. rewrite Hg' in Hk. unfold kept in Hk.
        simpl in Hk. bool_prop. by apply Hno.
      * intros [[Hx Hg] | (i & w & Hw & ->)]; [left | right].
        -- apply str_eq_false in Hg as Hg'. rewrite Hg'. split; [done|]. by intros [? _].
        -- exists (uuids i, w). split; [|done]. apply elem_batch_items. by exists i, w.
    + intros Hf. destruct (Hr Hf) as [Hbf ->]. specialize (Hb Hbf). unfold gone.
      rewrite filter_all; [by destruct d|]. intros t Ht.
      destruct (str_eq (gt_GroupID t) group) eqn:Hg; [|done]. simpl.
      pose proof (existsb_none _ _ Hb t) as Hkept. cbn beta in Hkept.
      apply negb_false_iff, Hkept, elem_targets_of. split; [done | by apply str_eq_true].
    + by rewrite Hd1 at 1.
  - split; [by apply targets_subset, Hok | apply Hok].
  - intros uw t Huw Hfind. apply List.find_some in Hfind as [Hin Hk]. bool_prop. apply list_elem_of_In, elem_targets_of in Hin as [Hin Hg].
    split; [|done]. apply elem_of_filter_rows. split; [|done]. apply orb_true_iff. right.
    apply bool_decide_eq_true. rewrite Hk. apply elem_batch_items in Huw as (i & w & Hw & ->).
    by apply list_elem_of_fmap_2, list_elem_of_lookup_2 with i.
  - by rewrite batch_items_writes.
Qed.

Lemma scope_ok tenant group scope :
  normalizeTenantGroupScope tenant group = Ok scope -> scope = (TrimSpace tenant, TrimSpace group).
Proof.
  unfold normalizeTenantGroupScope, invalid_if, res_bind. cbv zeta.
  destruct (str_eq (TrimSpace tenant) ""); [done|]. destruct (str_eq (TrimSpace group) ""); [done|]. by intros [= <-].
Qed.

Lemma bump_group tenant id d u d' g :
  bumpGroupRoutePolicyVersion tenant id d = Ok (u, d') -> in_group d id g -> gr_TenantID g = tenant ->
  in_group d' id (next_version (fun g => g) g) /\ c_targets d' = c_targets d.
Proof.
  intros ->%update_group_ok [Hin Hid] Ht. split; [|done]. split; [|done]. apply elem_of_update_where.
  exists g. split; [done|]. by rewrite (proj2 (tenant_group_true tenant id g)).
Qed.

Lemma repo_ReplaceGroupTargets_spec uuids tenant group v desired d v' rows d' :
  com_ok d -> repo_ReplaceGroupTargets uuids tenant group v desired d = Ok ((v', rows), d') ->
  exists g, in_group d group g /\ gr_RoutePolicyVersion g = v /\ batch_rows uuids group desired d d' /\
    (forall w, w ∈ desired -> desired_ok tenant d w) /\ rows ≡ₚ targets_of group d' /\
    ((v' = v /\ d' = d) \/ (v' = v + 1 /\ exists g', in_group d' group g' /\ gr_RoutePolicyVersion g' = v + 1)).
Proof.
  intros Hd H. unfold repo_ReplaceGroupTargets in H. cbv zeta in H.
  apply tx_bind_ok in H as (g & d0 & Hlock & H). apply lock_ok in Hlock as (-> & Hg & Ht).
  apply tx_bind_ok in H as (u0 & d0 & Hver & H). apply tx_guard_ok in Hver as [Hver ->]. bool_prop.
  rewrite tx_get_bind in H. fold (targets_of group d) in H.
  destruct (check_desired _ _ _ _ _) as [e|] eqn:Hcheck; [tx_inv H|].
  apply check_desired_ok in Hcheck as (Hnd & _ & Hres).
  apply tx_bind_ok in H as (u1 & d1 & Hput & H). unfold tx_put in Hput. injection Hput as _ <-.
  apply tx_bind_ok in H as (changed & d1 & Hloop & H).
  apply (batch_loop uuids group desired d) in Hloop as (Hrows & Hsame & Hd1);
    [|split; [done | by exists g]|done|by intros [_ ?]%orb_false_iff].
  exists g. split; [done|]. split; [done|].
  apply tx_bind_ok in H as (u2 & d2 & Hbump & H). rewrite tx_get_bind in H. unfold tx_ret in H. injection H as <- <- <-.
  assert (c_targets d2 = c_targets d1 /\ (changed = true -> exists g', in_group d2 group g' /\ gr_RoutePolicyVersion g' = v + 1)
          /\ (changed = false -> d2 = d)) as (Ht2 & Hc & Hnc).
  { destruct changed.
    - assert (Hg1 : in_group d1 group g) by (rewrite Hd1; done).
      destruct (bump_group _ _ _ _ _ _ Hbump Hg1 Ht) as [Hg2 ->]. split; [done|]. split; [|done].
      intros _. exists (next_version (fun g => g) g). split; [done|]. simpl. lia.
    - tx_inv Hbump. split; [done|]. split; [done|]. auto. }
  split; [|split; [done|split]].
  - intros x. rewrite Ht2. apply Hrows.
  - rewrite order_by_Permutation. unfold targets_of. done.
  - destruct changed; [right; split; [lia | auto] | left; split; [lia | auto]].
Qed.
