(* ===== verification/CommercialVersion.v ===== *)
(** * The version of a group's routing

    Lemmas for the optimistic lock of the control plane: what a call leaves as it was,
    and that whatever it changes of one group moves that group's version by one. *)

From S2P Require Import Prelude GoStrings Decimal PriceTiers CommercialDB PriceBooks Commercial CommercialService.
From S2P Require Import CommercialFacts CommercialTargets.
#[global] Open Scope Z_scope.

(** What hangs off a group. *)
Definition rules_of (id : string) (d : cdb) : list DispatchRule := List.filter (fun r => str_eq (dr_GroupID r) id) (c_rules d).
Definition surfaces_of (id : string) (d : cdb) : list GroupClientSurface :=
  List.filter (fun s => str_eq (cs_GroupID s) id) (c_surfaces d).
Definition routing (id : string) (d : cdb) : list GroupTarget * list DispatchRule * list GroupClientSurface :=
  (targets_of id d, rules_of id d, surfaces_of id d).

Definition same_at (id : string) (d d' : cdb) : Prop :=
  (forall g, in_group d id g -> in_group d' id g) /\ routing id d' = routing id d.
Definition bumped_at (id : string) (d d' : cdb) : Prop :=
  forall g, in_group d id g -> exists g', in_group d' id g' /\ gr_RoutePolicyVersion g' = gr_RoutePolicyVersion g + 1.
Definition gone_at (id : string) (d' : cdb) : Prop := forall g, ~ in_group d' id g.
Definition evolves (d d' : cdb) : Prop := forall id, same_at id d d' \/ bumped_at id d d' \/ gone_at id d'.

Definition tables (d : cdb) := (c_groups d, c_targets d, c_rules d, c_surfaces d).
Lemma evolves_tables d d' : tables d' = tables d -> evolves d d'.
Proof.
  unfold tables. intros [= Hg Ht Hr Hs] id. left. unfold same_at, in_group, routing, targets_of, rules_of, surfaces_of.
  rewrite Hg, Ht, Hr, Hs. done.
Qed.

(** ** Calls that write elsewhere *)

Definition elsewhere {A} (m : CTx A) : Prop := forall T, preserves (fun d => tables d = T) m.

Lemma elsewhere_evolves {A} (m : CTx A) d a d' : elsewhere m -> m d = Ok (a, d') -> evolves d d'.
Proof. intros Hm H. apply evolves_tables. by eapply (Hm (tables d)). Qed.

Lemma put_users_elsewhere f : elsewhere (tx_bind tx_get (fun d => tx_put (with_users (f d) d))).
Proof. intros T d a d' HT H. tx_inv H. done. Qed.
Lemma bump_book_elsewhere book : elsewhere (bumpPriceBookRevision book).
Proof. intros T d a d' HT H. unfold bumpPriceBookRevision in H. tx_inv H. done. Qed.
Lemma UpsertUserGroup_elsewhere w : elsewhere (repo_UpsertUserGroup w).
Proof.
  intros T d a d' HT H. unfold repo_UpsertUserGroup in H. cbv zeta in H. com_inv H; repeat com_step; done.
Qed.
Lemma DeleteUserGroup_elsewhere tenant user group : elsewhere (repo_DeleteUserGroup tenant user group).
Proof. intros T d a d' HT H. unfold repo_DeleteUserGroup in H. tx_inv H. done. Qed.
Lemma CreatePriceBook_elsewhere uuid ot otn name desc : elsewhere (repo_CreatePriceBook uuid ot otn name desc).
Proof. intros T d a d' HT H. unfold repo_CreatePriceBook in H. cbv zeta in H. tx_inv H. done. Qed.
Lemma UpdatePriceBook_elsewhere id name desc status : elsewhere (repo_UpdatePriceBook id name desc status).
Proof. intros T d a d' HT H. unfold repo_UpdatePriceBook in H. cbv zeta in H. com_inv H; repeat com_step; done. Qed.
Lemma DeletePriceBook_elsewhere id : elsewhere (repo_DeletePriceBook id).
Proof. intros T d a d' HT H. unfold repo_DeletePriceBook in H. tx_inv H. done. Qed.
Lemma put_entries_elsewhere f : elsewhere (tx_bind tx_get (fun d => tx_put (with_entries (f d) d))).
Proof. intros T d a d' HT H. tx_inv H. done. Qed.
Lemma ImportLiteLLMEntry_elsewhere uuid e : elsewhere (ImportLiteLLMEntry uuid e).
Proof. intros T d a d' HT H. unfold ImportLiteLLMEntry in H. cbv zeta in H. tx_inv H; done. Qed.
Lemma stored_entry_elsewhere uuid source edited e : elsewhere (stored_entry uuid source edited e).
Proof. intros T d a d' HT H. unfold stored_entry in H. cbv zeta in H. com_inv H; repeat com_step; done. Qed.
Lemma lift_elsewhere {A} (m : Res A) : elsewhere (lift m).
Proof. intros T. apply preserves_lift. Qed.
Lemma fold_elsewhere {A V} (f : V -> A -> CTx V) l v : (forall v a, elsewhere (f v a)) -> elsewhere (tx_fold f l v).
Proof. intros Hf T. apply preserves_fold. intros v0 a. apply Hf. Qed.
Lemma bind_elsewhere {A B} (m : CTx A) (k : A -> CTx B) : elsewhere m -> (forall a, elsewhere (k a)) -> elsewhere (tx_bind m k).
Proof. intros Hm Hk T. apply preserves_bind; [apply Hm | intros; apply Hk]. Qed.
Lemma ret_elsewhere {A} (a : A) : elsewhere (tx_ret a).
Proof. intros T. apply preserves_ret. Qed.
Lemma get_elsewhere : elsewhere tx_get.
Proof. intros T. apply preserves_get. Qed.
Lemma guard_elsewhere b e : elsewhere (tx_guard b e).
Proof. intros T. apply preserves_guard. Qed.
Lemma fail_elsewhere {A} e : elsewhere (A := A) (tx_fail e).
Proof. intros T. apply preserves_fail. Qed.
Lemma row_elsewhere {A} (o : option A) : elsewhere (tx_row o).
Proof. intros T. apply preserves_row. Qed.
Lemma map_err_elsewhere {A} (h : com_error -> com_error) (m : CTx A) : elsewhere m -> elsewhere (tx_map_err h m).
Proof. intros Hm T. by apply preserves_map_err. Qed.

Create HintDb elsewhere.
#[export] Hint Resolve bump_book_elsewhere UpsertUserGroup_elsewhere DeleteUserGroup_elsewhere
  CreatePriceBook_elsewhere UpdatePriceBook_elsewhere DeletePriceBook_elsewhere put_entries_elsewhere
  ImportLiteLLMEntry_elsewhere stored_entry_elsewhere lift_elsewhere fold_elsewhere bind_elsewhere ret_elsewhere
  get_elsewhere guard_elsewhere fail_elsewhere row_elsewhere map_err_elsewhere : elsewhere.

Lemma requireOwner_elsewhere id ot otn : elsewhere (requireOwner id ot otn).
Proof. unfold requireOwner, repo_GetPriceBook. auto with elsewhere. Qed.
Lemma UpsertEntry_elsewhere uuid e : elsewhere (repo_UpsertEntry uuid e).
Proof.
  intros T d a d' HT H. unfold repo_UpsertEntry in H. tx_inv H.
  match goal with H : stored_entry _ _ _ _ _ = Ok (_, ?s) |- _ =>
    assert (tables s = T) by exact (stored_entry_elsewhere _ _ _ _ T d _ s HT H) end.
  eapply bump_book_elsewhere; [|done]. done.
Qed.
Lemma DeleteEntry_elsewhere book model cap : elsewhere (repo_DeleteEntry book model cap).
Proof.
  intros T d a d' HT H. unfold repo_DeleteEntry, DeleteEntry_check, DeleteEntry_apply in H. tx_inv H.
  eapply bump_book_elsewhere; [|done]. done.
Qed.
Lemma ImportEntries_elsewhere book entries : elsewhere (repo_ImportEntries book entries).
Proof.
  unfold repo_ImportEntries. destruct entries; [apply ret_elsewhere|].
  apply bind_elsewhere; [apply get_elsewhere|]. intros d. apply bind_elsewhere; [apply row_elsewhere|]. intros b.
  apply bind_elsewhere; [|intros n; destruct (0 <? n); auto with elsewhere].
  apply fold_elsewhere. intros v [uuid e]. auto with elsewhere.
Qed.
#[export] Hint Resolve requireOwner_elsewhere UpsertEntry_elsewhere DeleteEntry_elsewhere ImportEntries_elsewhere : elsewhere.

(** ** Calls that write to one group *)

(** The tables of other groups are as they were. *)
Definition others_same (id : string) (d d' : cdb) : Prop :=
  c_groups d' = c_groups d /\ forall x, x <> id -> routing x d' = routing x d.

Lemma update_evolves tenant id f d d1 u d' g :
  groups_ok d -> in_group d id g -> gr_TenantID g = tenant -> others_same id d d1 ->
  update_group tenant id f d1 = Ok (u, d') -> evolves d d'.
Proof.
  intros Hd Hg Ht [Hgr Ho] ->%update_group_ok x. destruct (decide (x = id)) as [-> | Hne].
  - right. left. intros h Hh. assert (h = g) as -> by (by eapply in_group_unique). destruct Hg as [Hin Hid].
    exists (next_version f g). split; [|done]. split; [|done]. apply elem_of_update_where. exists g.
    rewrite Hgr. split; [done|]. by rewrite (proj2 (tenant_group_true tenant id g)).
  - left. split; [|by rewrite <- (Ho x Hne)]. intros h [Hin Hid]. split; [|done].
    apply elem_of_update_where. exists h. rewrite Hgr. split; [done|].
    destruct (tenant_group tenant id h) eqn:Hth; [|done]. apply tenant_group_true in Hth as [? _]. congruence.
Qed.

Lemma others_same_refl id d : others_same id d d.
Proof. done. Qed.

Lemma filter_update_other {A} (p q : A -> bool) f l :
  (forall x, q (f x) = q x) -> (forall x, p x = true -> q x = false) -> List.filter q (update_where p f l) = List.filter q l.
Proof.
  intros Hf Hp. induction l as [|x l IH]; [done|]. unfold update_where in *. rewrite fmap_cons. cbn [List.filter].
  destruct (p x) eqn:Hpx; [|by rewrite IH]. by rewrite Hf, (Hp x Hpx).
Qed.
Lemma filter_filter_other {A} (p q : A -> bool) l :
  (forall x, q x = true -> p x = true) -> List.filter q (List.filter p l) = List.filter q l.
Proof.
  intros H. induction l as [|x l IH]; [done|]. simpl. destruct (p x) eqn:Hp; simpl; rewrite IH; [done|].
  destruct (q x) eqn:Hq; [|done]. by rewrite (H x Hq) in Hp.
Qed.
Lemma filter_snoc_other {A} (q : A -> bool) l x : q x = false -> List.filter q (l ++ [x]) = List.filter q l.
Proof. intros H. rewrite List.filter_app. simpl. by rewrite H, app_nil_r. Qed.

Lemma rules_others id rules d :
  (forall x, x <> id -> List.filter (fun r => str_eq (dr_GroupID r) x) rules = rules_of x d) ->
  others_same id d (with_rules rules d).
Proof. intros H. split; [done|]. intros x Hx. unfold routing. f_equal. f_equal. by apply H. Qed.
Lemma targets_others id targets d :
  (forall x, x <> id -> List.filter (fun t => str_eq (gt_GroupID t) x) targets = targets_of x d) ->
  others_same id d (with_targets targets d).
Proof. intros H. split; [done|]. intros x Hx. unfold routing. f_equal. f_equal. by apply H. Qed.
Lemma surfaces_others id surfaces d :
  (forall x, x <> id -> List.filter (fun s => str_eq (cs_GroupID s) x) surfaces = surfaces_of x d) ->
  others_same id d (with_surfaces surfaces d).
Proof. intros H. split; [done|]. intros x Hx. unfold routing. f_equal. by apply H. Qed.

Lemma rule_of_other id group x r : x <> group -> rule_of id group r = true -> str_eq (dr_GroupID r) x = false.
Proof. intros Hne [_ <-]%rule_of_true. apply str_eq_false. congruence. Qed.

(** ** Every call of a group *)

Ltac by_update :=
  match goal with
  | H : bumpGroupRoutePolicyVersion _ _ _ = Ok _ |- _ => eapply update_evolves; [| | | |exact H]
  | H : update_group _ _ _ _ = Ok _ |- _ => eapply update_evolves; [| | | |exact H]
  end; [by apply ok_g | eassumption | eassumption |].

Lemma UpdateGroup_evolves tenant id w d u d' : com_ok d -> repo_UpdateGroup tenant id w d = Ok (u, d') -> evolves d d'.
Proof. intros Hd H. unfold repo_UpdateGroup in H. cbv zeta in H. com_inv H; repeat com_step; by by_update. Qed.
Lemma UpdateGroupRoutePolicy_evolves tenant id p v d u d' :
  com_ok d -> repo_UpdateGroupRoutePolicy tenant id p v d = Ok (u, d') -> evolves d d'.
Proof. intros Hd H. unfold repo_UpdateGroupRoutePolicy in H. com_inv H; by by_update. Qed.
Lemma UpdateGroupStatus_evolves tenant id s d u d' :
  com_ok d -> repo_UpdateGroupStatus tenant id s d = Ok (u, d') -> evolves d d'.
Proof. intros Hd H. unfold repo_UpdateGroupStatus in H. com_inv H; repeat com_step; by by_update. Qed.

Lemma CreateGroup_evolves uuid tenant w d u d' : repo_CreateGroup uuid tenant w d = Ok (u, d') -> evolves d d'.
Proof.
  intros H. unfold repo_CreateGroup in H. com_inv H; repeat com_step. intros z. left. split; [|done].
  intros h Hh. by apply in_group_grow.
Qed.

Lemma DeleteGroup_evolves tenant id d u d' : com_ok d -> repo_DeleteGroup tenant id d = Ok (u, d') -> evolves d d'.
Proof.
  intros Hd H. unfold repo_DeleteGroup in H. cbv zeta in H. com_inv H; repeat com_step.
  match goal with H : in_group _ id ?r |- _ => rename r into g, H into Hgi end. intros x.
  destruct (decide (x = id)) as [-> | Hne].
  - right. right. intros h [[Hk Hin]%elem_of_filter_rows Hid]. bool_prop.
    assert (h = g) as -> by (eapply in_group_unique; [apply Hd|done|done]).
    apply not_true_iff_false in Hk. by apply Hk, tenant_group_true.
  - left. split.
    + intros h Hh. destruct (in_group_delete tenant id d x h (ok_g _ Hd)) as [Hin Hx]; [by exists g|done|done|].
      by split.
    + unfold routing, targets_of, rules_of, surfaces_of. cbn [c_targets c_rules c_surfaces with_surfaces with_rules with_targets with_groups].
      rewrite !filter_filter_other; [done|..]; intros y Hy%str_eq_true; apply negb_true_iff, str_eq_false; congruence.
Qed.

Lemma AddDispatchRule_evolves now uuid tenant group w d u d' :
  com_ok d -> repo_AddDispatchRule now uuid tenant group w d = Ok (u, d') -> evolves d d'.
Proof.
  intros Hd H. unfold repo_AddDispatchRule in H. cbv zeta in H. com_inv H; repeat com_step. by_update.
  apply rules_others. intros z Hz. apply filter_snoc_other. simpl. apply str_eq_false. congruence.
Qed.
Lemma rules_update_others id group f d :
  (forall r, dr_GroupID (f r) = dr_GroupID r) ->
  others_same group d (with_rules (update_where (rule_of id group) f (c_rules d)) d).
Proof.
  intros Hf. apply rules_others. intros z Hz. apply filter_update_other; [intros r; by rewrite Hf|].
  intros r. by apply rule_of_other.
Qed.
Lemma UpdateDispatchRule_evolves tenant group id w d u d' :
  com_ok d -> repo_UpdateDispatchRule tenant group id w d = Ok (u, d') -> evolves d d'.
Proof.
  intros Hd H. unfold repo_UpdateDispatchRule in H. cbv zeta in H. com_inv H; repeat com_step; by_update;
    by apply rules_update_others.
Qed.
Lemma UpdateDispatchRuleStatus_evolves tenant group id s d u d' :
  com_ok d -> repo_UpdateDispatchRuleStatus tenant group id s d = Ok (u, d') -> evolves d d'.
Proof.
  intros Hd H. unfold repo_UpdateDispatchRuleStatus in H. cbv zeta in H. com_inv H; repeat com_step; by_update;
    by apply rules_update_others.
Qed.
Lemma DeleteDispatchRule_evolves tenant group id d u d' :
  com_ok d -> repo_DeleteDispatchRule tenant group id d = Ok (u, d') -> evolves d d'.
Proof.
  intros Hd H. unfold repo_DeleteDispatchRule in H. com_inv H; repeat com_step. by_update.
  apply rules_others. intros z Hz. apply filter_filter_other. intros y Hy%str_eq_true.
  apply negb_true_iff, not_true_iff_false. intros [_ ?]%rule_of_true. congruence.
Qed.

Lemma insert_target_others row d u d' : insert_target row d = Ok (u, d') -> others_same (gt_GroupID row) d d'.
Proof.
  intros H. unfold insert_target in H. tx_inv H. apply targets_others. intros z Hz. apply filter_snoc_other.
  apply str_eq_false. congruence.
Qed.
Lemma AddGroupTarget_evolves uuid tenant group w d u d' :
  com_ok d -> repo_AddGroupTarget uuid tenant group w d = Ok (u, d') -> evolves d d'.
Proof.
  intros Hd H. unfold repo_AddGroupTarget in H. cbv zeta in H. com_inv H; repeat com_step. by_update.
  match goal with H : insert_target _ _ = Ok _ |- _ => by apply insert_target_others in H end.
Qed.
Lemma targets_retarget_others group id s p d :
  others_same group d (with_targets (update_where (fun x => str_eq (gt_ID x) id && str_eq (gt_GroupID x) group)
    (retarget s p) (c_targets d)) d).
Proof.
  apply targets_others. intros z Hz. apply filter_update_other; [done|]. intros t Ht. bool_prop.
  rename select (str_eq (gt_GroupID t) _ = true) into Hg. apply str_eq_true in Hg as ->. apply str_eq_false. congruence.
Qed.
Lemma UpdateGroupTarget_evolves tenant group id w d u d' :
  com_ok d -> repo_UpdateGroupTarget tenant group id w d = Ok (u, d') -> evolves d d'.
Proof.
  intros Hd H. unfold repo_UpdateGroupTarget in H. cbv zeta in H. com_inv H; repeat com_step; by_update;
    apply targets_retarget_others.
Qed.
Lemma DeleteGroupTarget_evolves tenant group id d u d' :
  com_ok d -> repo_DeleteGroupTarget tenant group id d = Ok (u, d') -> evolves d d'.
Proof.
  intros Hd H. unfold repo_DeleteGroupTarget in H. com_inv H; repeat com_step. by_update.
  apply targets_others. intros z Hz. apply filter_filter_other. intros t Ht%str_eq_true.
  apply negb_true_iff, not_true_iff_false. intros [_ Hgg%str_eq_true]%andb_true_iff. congruence.
Qed.

Lemma apply_target_others d0 group uuid current w :
  preserves (others_same group d0) (apply_target group uuid current w).
Proof.
  intros d c d' [Hg0 Ho] H.
  assert (others_same group d d') as [Hg1 Ho1].
  { unfold apply_target in H. cbv zeta in H. tx_inv H; try done; [apply targets_retarget_others|].
    match goal with H : insert_target _ _ = Ok _ |- _ => by apply insert_target_others in H end. }
  split; [congruence|]. intros z Hz. by rewrite Ho1, Ho.
Qed.

Lemma ReplaceGroupTargets_evolves uuids tenant group v ts d r d' :
  com_ok d -> repo_ReplaceGroupTargets uuids tenant group v ts d = Ok (r, d') -> evolves d d'.
Proof.
  intros Hd H. pose proof H as Hspec. destruct r as [v' rows].
  apply repo_ReplaceGroupTargets_spec in Hspec as (g & _ & _ & _ & _ & _ & Hcase); [|done]. clear g.
  destruct Hcase as [[_ ->] | [Hv' _]]; [by apply evolves_tables|].
  unfold repo_ReplaceGroupTargets in H. cbv zeta in H. com_inv H; repeat com_step; bool_prop; [|lia].
  match goal with H : _ = d' |- _ => rewrite <- H end. by_update.
  match goal with H : tx_fold ?f ?l ?v ?d0 = Ok (?r, ?d1) |- _ =>
    refine (preserves_fold (others_same group d) f l _ v d0 r d1 _ H); clear H end.
  - intros v0 [i w0]. apply preserves_bind; [apply apply_target_others | intros; apply preserves_ret].
  - apply targets_others. intros z Hz. apply filter_filter_other. intros t Ht%str_eq_true.
    apply orb_true_iff. left. apply negb_true_iff, str_eq_false. congruence.
Qed.

Lemma ReplaceGroupClientSurfaces_evolves tenant group es d u d' :
  com_ok d -> repo_ReplaceGroupClientSurfaces tenant group es d = Ok (u, d') -> evolves d d'.
Proof.
  intros Hd H. unfold repo_ReplaceGroupClientSurfaces in H. com_inv H; repeat com_step. by_update.
  match goal with H : tx_iter ?f ?l ?d0 = Ok (?r, ?d1) |- _ =>
    refine (preserves_iter (others_same group d) f l _ d0 r d1 _ H); clear H end.
  - intros e s a s' [Hs Ho] Hi. tx_inv Hi. split; [done|]. intros z Hz. rewrite <- Ho by done.
    unfold routing. f_equal. apply filter_snoc_other. simpl. apply str_eq_false. congruence.
  - apply surfaces_others. intros z Hz. apply filter_filter_other. intros y Hy%str_eq_true.
    apply negb_true_iff, str_eq_false. congruence.
Qed.

(** An import writes one group, then what hangs off it. *)
Lemma import_row_bumps tenant id f d g :
  groups_ok d -> in_group d id g -> gr_TenantID g = tenant ->
  let d' := with_groups (update_where (tenant_group tenant id) (next_version f) (c_groups d)) d in
  bumped_at id d d' /\ forall x, x <> id -> same_at x d d'.
Proof.
  intros Hd Hg Ht. split.
  - intros h Hh. assert (h = g) as -> by (by eapply in_group_unique). destruct Hg as [Hin Hid].
    exists (next_version f g). split; [|done]. split; [|done]. apply elem_of_update_where. exists g.
    split; [done|]. by rewrite (proj2 (tenant_group_true tenant id g)).
  - intros x Hne. split; [|done]. intros h [Hin Hid]. split; [|done].
    apply elem_of_update_where. exists h. split; [done|].
    destruct (tenant_group tenant id h) eqn:Hth; [|done]. apply tenant_group_true in Hth as [? _]. congruence.
Qed.

Lemma import_group_bumps uuid tenant item status d id d1 :
  com_ok d -> import_group uuid tenant item status d = Ok (id, d1) ->
  bumped_at id d d1 /\ forall x, x <> id -> same_at x d d1.
Proof.
  intros Hd H. unfold import_group in H. cbv zeta in H. apply tx_bind_ok in H as ([] & d0 & [_ ->]%tx_guard_ok & H).
  rewrite tx_get_bind in H. destruct (_ || _) in H; com_inv H; repeat com_step.
  - match goal with H : existsb _ _ = false |- _ => pose proof (existsb_none _ _ H) as Hnew; cbn beta in Hnew end. split.
    + intros g [Hin Hid]. apply Hnew, str_eq_false in Hin. congruence.
    + intros x Hne. split; [|done]. intros h Hh. by apply in_group_grow.
  - match goal with H : update_group _ _ _ _ = Ok _ |- _ => apply update_group_ok in H as -> end.
    eapply import_row_bumps; [apply Hd|done|done].
Qed.

Lemma import_rule_others d0 now id x : preserves (others_same id d0) (import_rule now id x).
Proof.
  intros d u d' [Hg Ho] H. unfold import_rule in H. cbv zeta in H. tx_inv H. split; [done|].
  intros z Hz. rewrite <- Ho by done. unfold routing. f_equal. f_equal. apply filter_snoc_other. simpl.
  apply str_eq_false. congruence.
Qed.

Lemma others_trans id d1 d2 d3 : others_same id d1 d2 -> others_same id d2 d3 -> others_same id d1 d3.
Proof. intros [Hg Ho] [Hg' Ho']. split; [congruence|]. intros x Hx. by rewrite Ho', Ho. Qed.

Lemma import_surfaces_others id p d : others_same id d (import_surfaces id p d).
Proof.
  unfold import_surfaces. apply surfaces_others. intros x Hx. rewrite List.filter_app, filter_filter_other.
  - rewrite (filter_rows_none _ (_ <$> _)); [by rewrite app_nil_r|].
    intros s (e & -> & _)%list_elem_of_fmap. simpl. apply str_eq_false. congruence.
  - intros s Hs%str_eq_true. apply negb_true_iff, str_eq_false. congruence.
Qed.
Lemma without_rules_others id d : others_same id d (without_rules id d).
Proof.
  apply rules_others. intros x Hx. apply filter_filter_other. intros r Hr%str_eq_true.
  apply negb_true_iff, str_eq_false. congruence.
Qed.

Lemma ApplyGroupImport_evolves now uuid uuids tenant item d a d' :
  com_ok d -> ApplyGroupImport now uuid uuids tenant item d = Ok (a, d') -> evolves d d'.
Proof.
  intros Hd H. unfold ApplyGroupImport in H. apply tx_bind_ok in H as (status & d0 & [-> _]%import_check_ok & H).
  unfold ApplyGroupImport_apply in H. apply tx_bind_ok in H as (id & d1 & Hgrp & H).
  apply import_group_bumps in Hgrp as [Hb Hs]; [|done].
  rewrite tx_get_bind in H. cbv zeta in H. apply tx_bind_ok in H as ([] & d2 & Hput & H).
  unfold tx_put in Hput. injection Hput as <-. apply tx_bind_ok in H as ([] & d2 & Hiter & H).
  unfold tx_ret in H. injection H as _ <-.
  assert (others_same id d1 d2) as [Hg Ho].
  { refine (preserves_iter (others_same id d1) _ _ _ _ tt d2 _ Hiter); [apply import_rule_others|].
    exact (others_trans _ _ _ _ (import_surfaces_others id _ d1) (without_rules_others id (import_surfaces id _ d1))). }
  intros x. destruct (decide (x = id)) as [-> | Hne].
  - right. left. intros g Hgr. destruct (Hb g Hgr) as (g' & [Hin Hid] & Hv). exists g'. split; [|done].
    split; [by rewrite Hg | done].
  - left. destruct (Hs x Hne) as [Hin Hr]. split; [|by rewrite Ho].
    intros g Hgr. destruct (Hin g Hgr) as [Hi Hx]. split; [by rewrite Hg | done].
Qed.

Lemma DeleteTenant_evolves exists_ tenant d u d' : com_ok d -> DeleteTenant exists_ tenant d = Ok (u, d') -> evolves d d'.
Proof.
  intros Hd H x. unfold DeleteTenant in H. cbv zeta in H.
  destruct exists_; cbn [negb] in H; tx_inv H; [|by left; split; [intros g Hg|]].
  destruct (tenant_owns_group tenant x d) eqn:Hown.
  - right. right. intros g [[Hne Hg]%elem_of_filter_rows Hid]. apply existsb_exists in Hown as (h & Hh%list_elem_of_In & Ht).
    bool_prop. repeat match goal with H : str_eq _ _ = true |- _ => apply str_eq_true in H end.
    assert (g = h) as -> by (eapply in_group_unique; [apply Hd|split; done..]).
    apply str_eq_false in Hne. congruence.
  - left. split; [intros g Hg; by eapply in_group_kept|].
    unfold routing, targets_of, rules_of, surfaces_of. cbn.
    rewrite !filter_filter_other; [done|..]; intros y ->%str_eq_true; by rewrite Hown.
Qed.

Lemma exec_evolves bad_regexp c d u d' :
  com_ok d -> exec bad_regexp c d = Ok (u, d') -> evolves d d'.
Proof.
  intros Hd H. destruct c; cbn [exec] in H;
    unfold ignore, CreateGroup, UpdateGroup, UpdateGroupRoutePolicy, UpdateGroupStatus, DeleteGroup, AddGroupTarget,
      UpdateGroupTarget, DeleteGroupTarget, ReplaceGroupTargets, AddDispatchRule, UpdateDispatchRule,
      UpdateDispatchRuleStatus, DeleteDispatchRule in H; cbv zeta in H;
    try (com_inv H; repeat com_step;
         eauto using CreateGroup_evolves, UpdateGroup_evolves, UpdateGroupRoutePolicy_evolves, UpdateGroupStatus_evolves,
           DeleteGroup_evolves, ReplaceGroupClientSurfaces_evolves, AddGroupTarget_evolves, UpdateGroupTarget_evolves,
           DeleteGroupTarget_evolves, ReplaceGroupTargets_evolves, AddDispatchRule_evolves, UpdateDispatchRule_evolves,
           UpdateDispatchRuleStatus_evolves, DeleteDispatchRule_evolves, ApplyGroupImport_evolves, DeleteTenant_evolves; fail).
  all: eapply elsewhere_evolves; [|exact H]; clear H.
  all: unfold UpsertUserBinding, DeleteUserBinding, createPriceBook, updatePriceBook, deletePriceBook, deletePriceBook_check,
    upsertEntry, deleteEntry; cbv zeta; try destruct (validateEntry e); eauto 20 with elsewhere.
Qed.

(** The version a caller says it has seen, of which group. *)
Definition expected_version (c : call) : option (string * Z) :=
  match c with
  | call_UpdateGroup _ group w =>
      if 0 <? gw_ExpectedRoutePolicyVersion w then Some (TrimSpace group, gw_ExpectedRoutePolicyVersion w) else None
  | call_UpdateGroupRoutePolicy _ group _ v | call_ReplaceGroupTargets _ _ group v _ => Some (TrimSpace group, v)
  | _ => None
  end.

Lemma normalize_keeps_version w w' :
  normalizeGroupWrite w = Ok w' -> gw_ExpectedRoutePolicyVersion w' = gw_ExpectedRoutePolicyVersion w.
Proof.
  unfold normalizeGroupWrite, invalid_if. cbv zeta. intros H.
  repeat match type of H with
  | res_bind ?m _ = _ => destruct m; cbn [res_bind] in H; [|discriminate H]
  end.
  injection H as <-. done.
Qed.

Lemma expected_version_seen bad_regexp c d u d' id v g :
  com_ok d -> exec bad_regexp c d = Ok (u, d') -> expected_version c = Some (id, v) ->
  in_group d id g -> gr_RoutePolicyVersion g = v.
Proof.
  intros Hd H Hv Hg. destruct c; try done; cbn [exec expected_version] in H, Hv.
  - destruct (0 <? gw_ExpectedRoutePolicyVersion w) eqn:Hpos; [|done]. injection Hv as <- <-.
    unfold UpdateGroup in H. com_inv H. match goal with H : normalizeTenantGroupScope _ _ = Ok _ |- _ => apply scope_ok in H as -> end.
    match goal with H : normalizeGroupWrite _ = Ok _ |- _ => apply normalize_keeps_version in H as Hw end.
    match goal with H : repo_UpdateGroup _ _ _ _ = Ok _ |- _ => unfold repo_UpdateGroup in H; cbv zeta in H;
      apply tx_bind_ok in H as (h & d0 & Hlock & H); apply lock_ok in Hlock as (-> & Hh & _);
      apply tx_bind_ok in H as (u1 & d0 & Hver & _); apply tx_guard_ok in Hver as [Hver _] end.
    rewrite Hw, Hpos in Hver. simpl in Hver. bool_prop.
    assert (g = h) as -> by (eapply in_group_unique; [apply Hd|done|done]). done.
  - injection Hv as <- <-. unfold UpdateGroupRoutePolicy, repo_UpdateGroupRoutePolicy in H. com_inv H.
    match goal with H : normalizeTenantGroupScope _ _ = Ok _ |- _ => apply scope_ok in H as -> end. bool_prop.
    match goal with H : in_group d _ ?h |- _ => assert (g = h) as -> by (eapply in_group_unique; [apply Hd|done|done]) end. done.
  - injection Hv as <- <-. unfold ignore, ReplaceGroupTargets in H. com_inv H.
    match goal with H : normalizeTenantGroupScope _ _ = Ok _ |- _ => apply scope_ok in H as -> end.
    match goal with H : repo_ReplaceGroupTargets _ _ _ _ _ _ = Ok (?r, _) |- _ => destruct r;
      apply repo_ReplaceGroupTargets_spec in H as (h & Hh & Hver & _); [|done] end.
    assert (g = h) as -> by (eapply in_group_unique; [apply Hd|done|done]). done.
Qed.
