(* ===== verification/CommercialProps.v ===== *)
(** * What the commercial control plane guarantees

    Over any history of calls every group sells from a book its tenant may use and
    every active rule of an active group has a price there; a batch of targets ends
    exactly as desired; nothing of a group's routing changes without its version; and
    the policy of client surfaces reads back as it was written.  Three histories that
    interleave the parts of a call with another one end in states the calls alone never
    reach, and two imports show what a plan may leave behind. *)

From Stdlib Require Import QArith.
From S2P Require Import Prelude GoStrings Decimal PriceTiers CommercialDB PriceBooks Commercial CommercialService.
From S2P Require Import CommercialFacts CommercialTargets CommercialVersion.
#[global] Open Scope Z_scope.

(** C9: over any history of calls, each taking effect at one point, every group sells
    from a price book that exists, is active and belongs to the platform or to the
    group's own tenant; no two groups of a tenant share a name; and while the group is
    active, every active rule of it for a known client surface names a model that the
    book prices for the capability of that surface.  The calls are all the writers of
    these tables: the groups, surfaces, targets and rules of the control plane, the
    price books and their entries, the import of any plan of a group, and the deletion
    of a tenant.  The deletion of a book, of an entry or of a tenant and the import rely
    on rows they do not lock: what comes of interleaving them with another call is
    outside this theorem, and [deletePriceBook_races_CreateGroup],
    [DeleteEntry_races_UpdateGroup] and [ApplyGroupImport_races_updatePriceBook] show
    that it breaks the property.  In a disabled group an import may leave an active rule
    without a price ([import_leaves_unpriced_rule]). *)
Theorem active_rules_stay_priced bad_regexp d g :
  com_reachable bad_regexp d -> g ∈ c_groups d ->
  (exists b, b ∈ c_books d /\ pb_ID b = gr_RetailPriceBookID g /\ pb_Status b = "active"%string /\
     (pb_OwnerType b = "platform"%string \/ pb_OwnerTenantID b = gr_TenantID g)) /\
  (forall h, h ∈ c_groups d -> gr_TenantID h = gr_TenantID g -> gr_Name h = gr_Name g -> h = g) /\
  (forall r, r ∈ c_rules d -> dr_GroupID r = gr_ID g -> gr_Status g = StatusActive -> dr_Status r = StatusActive ->
     IsKnown (dr_ClientSurface r) = true ->
     exists e, e ∈ c_entries d /\ en_PriceBookID e = gr_RetailPriceBookID g /\ en_ModelCode e = dr_TargetModelID r /\
       en_CapabilityType e = dispatchRequiredCapability (dr_ClientSurface r)).
Proof.
  intros Hr%reachable_ok Hg. split; [|split].
  - destruct (ok_sells _ (ok_g _ Hr) g Hg) as (b & Hb & Hu). apply find_key_Some in Hb as [Hb Hid].
    exists b. unfold book_usable in Hu. bool_prop. repeat split; try done; [by apply str_eq_true|].
    rename select (_ || _ = true) into Hown. apply orb_true_iff in Hown as [Ho | [_ Ho]%andb_true_iff];
      apply str_eq_true in Ho; auto.
  - intros h Hh Ht Hn. apply (keyed_unique group_name (c_groups d)); try done; [by apply Hr|].
    unfold group_name. congruence.
  - intros r Hrin Hrg Hga Ha Hk. destruct (ok_rules _ (ok_r _ Hr) r Hrin) as (h & Hh & Hp).
    assert (h = g) as -> by (eapply in_group_unique; [apply Hr|done|by split]).
    destruct (proj1 (priced_true _ _ _ _) (Hp Hga Ha Hk)) as (e & He & [= <- <- <-]). by exists e.
Qed.

(** A batch that succeeds was drawn up against the group's current version, leaves
    the group with exactly one row per desired target - the old row when there was one,
    with the status and priority asked for - and the other groups' rows as they were;
    the version moves by one, unless nothing changed at all.  An active target is a
    resource in use that the tenant may use. *)
Theorem ReplaceGroupTargets_correct uuids tenant group v ts d v' rows d' :
  com_ok d -> ReplaceGroupTargets uuids tenant group v ts d = Ok ((v', rows), d') ->
  let id := TrimSpace group in
  exists g desired, normalize_targets ∅ ts = Ok desired /\ in_group d id g /\ gr_RoutePolicyVersion g = v /\
    batch_rows uuids id desired d d' /\
    (forall w, w ∈ desired -> desired_ok (TrimSpace tenant) d w) /\
    rows ≡ₚ targets_of id d' /\
    ((v' = v /\ d' = d) \/
     (v' = v + 1 /\ exists g', in_group d' id g' /\ gr_RoutePolicyVersion g' = v + 1)).
Proof.
  intros Hd H. unfold ReplaceGroupTargets in H. com_inv H.
  match goal with H : normalizeTenantGroupScope _ _ = Ok _ |- _ => apply scope_ok in H as -> end.
  match goal with H : repo_ReplaceGroupTargets _ _ _ _ ?ws _ = Ok _ |- _ =>
    apply repo_ReplaceGroupTargets_spec in H as (g & H); [|done]; exists g, ws end.
  by split.
Qed.

(** A call that succeeds either leaves a group and everything that hangs off it -
    targets, rules, client surfaces - exactly as it was, or moves the group's version by
    one, or deletes the group; and a call that names the version it was drawn up against
    succeeds only while that is the group's version.  So no writer overwrites what it
    has not seen. *)
Theorem version_counts_changes bad_regexp c d u d' id g :
  com_ok d -> exec bad_regexp c d = Ok (u, d') -> in_group d id g ->
  ((in_group d' id g /\ routing id d' = routing id d) \/
   (exists g', in_group d' id g' /\ gr_RoutePolicyVersion g' = gr_RoutePolicyVersion g + 1) \/
   gone_at id d') /\
  (forall v, expected_version c = Some (id, v) -> gr_RoutePolicyVersion g = v).
Proof.
  intros Hd H Hg. split.
  - destruct (exec_evolves _ _ _ _ _ Hd H id) as [[Hs Hr] | [Hb | Hgone]]; [left | right; left | right; right].
    + split; [by apply Hs | done].
    + by apply Hb.
    + done.
  - intros v Hv. by eapply expected_version_seen.
Qed.

(** ** Client surfaces *)

Definition stored_surface (group : string) (e : GroupClientSurfaceWrite) : GroupClientSurface :=
  MkSurface group (sw_Surface e) (sw_BridgeEnabled e) (commercialStatusOrDefault (sw_Status e)).

Lemma ReplaceGroupClientSurfaces_rows tenant group es d u d' :
  repo_ReplaceGroupClientSurfaces tenant group es d = Ok (u, d') ->
  surfaces_of group d' = stored_surface group <$> es /\ is_Some (find_group tenant group d').
Proof.
  intros H. unfold repo_ReplaceGroupClientSurfaces in H. apply tx_bind_ok in H as (g & d0 & Hlock & H).
  apply lock_ok in Hlock as (-> & Hg & Ht). rewrite tx_get_bind in H.
  apply tx_bind_ok in H as (u0 & d0 & Hput & H). unfold tx_put in Hput. injection Hput as _ <-.
  apply tx_bind_ok in H as (u1 & d1 & Hiter & Hbump).
  assert (Hrows : forall es d0 d1 u1, tx_iter (fun e =>
      let! d := tx_get in
      tx_guard (existsb (fun s => str_eq (cs_GroupID s) group && str_eq (cs_Surface s) (sw_Surface e)) (c_surfaces d))
        ErrConflict ;;;
      tx_put (with_surfaces (c_surfaces d ++ [stored_surface group e]) d)) es d0 = Ok (u1, d1) ->
    c_surfaces d1 = c_surfaces d0 ++ (stored_surface group <$> es) /\ c_groups d1 = c_groups d0).
  { clear. induction es as [|e es IH]; intros d0 d1 u1 H; cbn [tx_iter] in H.
    - tx_inv H. by rewrite app_nil_r.
    - tx_inv H. match goal with H : tx_iter _ _ _ = Ok _ |- _ => apply IH in H as [-> ->] end.
      cbn [c_surfaces with_surfaces]. by rewrite <- app_assoc. }
  apply Hrows in Hiter as [Hs Hgr].
  assert (Hg1 : in_group d1 group g) by (destruct Hg; split; [by rewrite Hgr | done]).
  destruct (bump_group _ _ _ _ _ _ Hbump Hg1 Ht) as [[Hin Hid] _].
  apply update_group_ok in Hbump as ->. unfold surfaces_of. cbn [c_surfaces with_groups]. split.
  - rewrite Hs. cbn [c_surfaces with_surfaces]. rewrite List.filter_app, filter_twice.
    replace (List.filter _ (c_surfaces d)) with (@nil GroupClientSurface).
    + apply filter_all. intros x (e & -> & _)%list_elem_of_fmap. apply str_eq_refl.
    + clear. induction (c_surfaces d) as [|x l IH]; [done|]. simpl. by destruct (str_eq (cs_GroupID x) group).
  - unfold find_group. destruct (List.find _ _) as [h|] eqn:Hf; [done|].
    pose proof (List.find_none _ _ Hf _ (proj1 (list_elem_of_In _ _) Hin)) as Hno.
    rewrite (proj2 (tenant_group_true tenant group _)) in Hno; [done|]. split; [done | exact Ht].
Qed.

Lemma active_surfaces group selected current :
  cs_Surface <$> List.filter (fun e => str_eq (cs_Status e) StatusActive)
    (stored_surface group <$> surface_entries selected current) = List.filter (fun s => bool_decide (s ∈ selected)) Known.
Proof.
  unfold surface_entries. induction Known as [|s l IH]; [done|]. rewrite !fmap_cons. cbn [List.filter].
  unfold stored_surface at 1. cbn [cs_Status sw_Status].
  destruct (bool_decide (s ∈ selected)).
  - change (str_eq (commercialStatusOrDefault StatusActive) StatusActive) with true. cbv iota.
    rewrite fmap_cons. f_equal. apply IH.
  - change (str_eq (commercialStatusOrDefault StatusDisabled) StatusActive) with false. apply IH.
Qed.

Lemma filter_full {A} (p : A -> bool) l : length (List.filter p l) = length l <-> Forall (fun x => p x = true) l.
Proof.
  induction l as [|x l IH]; [by split; [constructor|]|]. rewrite Forall_cons, <- IH. simpl.
  pose proof (List.filter_length_le p l). destruct (p x); simpl; split.
  - intros ?. split; [done | lia].
  - intros [_ ?]. lia.
  - lia.
  - by intros [? _].
Qed.

Lemma Permutation_filter_rows {A} (p : A -> bool) l k : l ≡ₚ k -> List.filter p l ≡ₚ List.filter p k.
Proof.
  induction 1 as [|x l k _ IH|x y l|l1 l2 l3 _ IH1 _ IH2]; simpl; [done| | |by etrans].
  - destruct (p x); [by constructor | done].
  - destruct (p x), (p y); done || constructor.
Qed.

Lemma replaced_policy group selected current :
  let p := surface_policy group (order_by (fun a b => String.leb (cs_Surface a) (cs_Surface b))
             (stored_surface group <$> surface_entries selected current)) in
  sp_GroupID p = group /\
  if bool_decide (Forall (fun s => bool_decide (s ∈ selected) = true) Known)
  then sp_Mode p = GroupClientSurfacePolicyAll /\ sp_AllowedSurfaces p = []
  else sp_Mode p = GroupClientSurfacePolicyRestricted /\
       sp_AllowedSurfaces p ≡ₚ List.filter (fun s => bool_decide (s ∈ selected)) Known.
Proof.
  pose proof (order_by_Permutation (fun a b => String.leb (cs_Surface a) (cs_Surface b))
    (stored_surface group <$> surface_entries selected current)) as Hperm.
  set (entries := order_by _ _) in *.
  assert (Hactive : cs_Surface <$> List.filter (fun e => str_eq (cs_Status e) StatusActive) entries
    ≡ₚ List.filter (fun s => bool_decide (s ∈ selected)) Known)
    by (rewrite <- (active_surfaces group selected current); apply fmap_Permutation, Permutation_filter_rows, Hperm).
  unfold surface_policy. destruct entries as [|e entries]; [by apply Permutation_length in Hperm|].
  cbv zeta. rewrite (Permutation_length Hactive).
  destruct (Nat.eqb _ _) eqn:Hlen; cbn [sp_GroupID sp_Mode sp_AllowedSurfaces]; (split; [done|]).
  - apply Nat.eqb_eq, filter_full in Hlen. by rewrite bool_decide_true.
  - apply Nat.eqb_neq in Hlen. rewrite bool_decide_false; [done|]. by intros ?%filter_full.
Qed.

(** A policy of client surfaces that was accepted reads back as it was written:
    the mode is restricted exactly when some known surface is not selected, and the
    allowed surfaces are then the selected ones; every known surface has one entry,
    with the bridge setting it had before, or enabled if it had none. *)
Theorem surface_policy_roundtrip tenant group mode raw d d' p :
  ReplaceGroupClientSurfacePolicy tenant group mode raw d = (d', Ok p) ->
  exists selected, selected_surfaces mode raw = Ok selected /\
    run_tx (GetGroupClientSurfacePolicy tenant group) d' = (d', Ok p) /\
    sp_GroupID p = TrimSpace group /\
    (if bool_decide (Forall (fun s => bool_decide (s ∈ selected) = true) Known)
     then sp_Mode p = GroupClientSurfacePolicyAll /\ sp_AllowedSurfaces p = []
     else sp_Mode p = GroupClientSurfacePolicyRestricted /\
          sp_AllowedSurfaces p ≡ₚ List.filter (fun s => bool_decide (s ∈ selected)) Known) /\
    (cs_Surface <$> surfaces_of (TrimSpace group) d') = Known /\
    (forall e, e ∈ surfaces_of (TrimSpace group) d' -> cs_BridgeEnabled e =
       default true (bridge_by_surface (repo_ListGroupClientSurfaces (TrimSpace tenant) (TrimSpace group) d) !! cs_Surface e)).
Proof.
  intros H. unfold ReplaceGroupClientSurfacePolicy in H.
  destruct (normalizeTenantGroupScope tenant group) as [scope|] eqn:Hscope; [|done].
  assert (Hscope2 : normalizeTenantGroupScope (TrimSpace tenant) (TrimSpace group) = normalizeTenantGroupScope tenant group)
    by (unfold normalizeTenantGroupScope; cbv zeta; by rewrite !TrimSpace_idem).
  rewrite (scope_ok _ _ _ Hscope) in H. destruct (selected_surfaces mode raw) as [selected|]; [|done].
  exists selected. split; [done|].
  destruct (run_tx _ d) as [d1 [u|]] eqn:Hrun; [|done]. unfold run_tx in Hrun.
  destruct (repo_ReplaceGroupClientSurfaces _ _ _ d) as [[u1 d2]|] eqn:Hrep; [|done]. injection Hrun as -> ->.
  apply ReplaceGroupClientSurfaces_rows in Hrep as [Hrows Hfind].
  assert (Hget : run_tx (GetGroupClientSurfacePolicy (TrimSpace tenant) (TrimSpace group)) d1 =
    (d1, Ok (surface_policy (TrimSpace group) (repo_ListGroupClientSurfaces (TrimSpace tenant) (TrimSpace group) d1)))).
  { unfold run_tx, GetGroupClientSurfacePolicy. rewrite Hscope2, Hscope, (scope_ok _ _ _ Hscope).
    cbn [lift]. unfold tx_bind at 1, tx_ret at 1. rewrite tx_get_bind. cbn [fst snd].
    destruct (find_group _ _ d1); [done|]. by destruct Hfind. }
  rewrite Hget in H. injection H as <- <-.
  assert (Hlist : repo_ListGroupClientSurfaces (TrimSpace tenant) (TrimSpace group) d1 =
    order_by (fun a b => String.leb (cs_Surface a) (cs_Surface b)) (surfaces_of (TrimSpace group) d1)).
  { unfold repo_ListGroupClientSurfaces, surfaces_of. f_equal. apply List.filter_ext. intros s.
    by rewrite bool_decide_true, andb_true_r. }
  split; [|rewrite Hlist, Hrows; split; [|split; [|split]]].
  - rewrite <- Hget. unfold GetGroupClientSurfacePolicy. by rewrite Hscope2.
  - apply replaced_policy.
  - apply replaced_policy.
  - unfold surface_entries. by rewrite <- !list_fmap_compose.
  - intros e (w & -> & (s & -> & _)%list_elem_of_fmap)%list_elem_of_fmap. done.
Qed.

(** ** A history *)

Definition no_pattern (_ : string) : bool := false.
Definition demo_price : PriceBookEntry :=
  MkEntry "" "book" "gpt" "chat"
    [MkTier None (Finite (Qmake 1 1000000)) (Finite (Qmake 2 1000000)) (Finite (Qmake 0 1)) (Finite (Qmake 0 1))]
    (Finite (Qmake 0 1)) (Finite (Qmake 0 1)) [] [] (Finite (Qmake 0 1)) (Finite (Qmake 0 1)) "" false.
Definition demo_group (name book : string) (version : Z) : GroupWrite :=
  MkGroupWrite "" name "" book (Finite (Qmake 1 1)) true false "" version "" 0.
Definition demo_dispatch_rule : DispatchRuleWrite := MkRuleWrite "openai_chat" "exact" "gpt-latest" "gpt" 10 "".
Definition demo_calls : list call :=
  [call_createPriceBook "book" "platform" "" "Standard" "";
   call_createPriceBook "spare" "platform" "" "Spare" "";
   call_upsertEntry "platform" "" "e1" demo_price;
   call_CreateGroup "g1" "t1" (demo_group "Default" "book" 0);
   call_AddDispatchRule 7 "r1" "t1" "g1" demo_dispatch_rule;
   call_AddGroupTarget "x1" "t1" "g1" (MkTargetWrite "direct_upstream" "u1" None "")].
Definition run_calls (cs : list call) (d : cdb) : cdb :=
  foldl (fun d c => (run_tx (exec no_pattern c) d).1) d cs.
Definition demo_empty : cdb :=
  with_outside (MkOutside [MkResource "direct_upstream" "u1" "active" true; MkResource "oauth_pool" "p1" "active" false]
                  [("oauth_pool", "p1", "t1")]%string [] [] []) empty_cdb.
Definition demo_cdb : cdb := run_calls demo_calls demo_empty.

Lemma run_calls_reachable cs d :
  com_reachable no_pattern d -> com_reachable no_pattern (run_calls cs d).
Proof.
  unfold run_calls. revert d. induction cs as [|c cs IH]; intros d Hd; [done|]. cbn [foldl].
  apply IH. by apply com_call.
Qed.
Lemma demo_cdb_reachable : com_reachable no_pattern demo_cdb.
Proof. unfold demo_cdb, demo_empty. apply run_calls_reachable, com_outside, com_start. Qed.

Definition demo_group_row : Group := MkGroup "g1" "t1" "Default" "" "book" (Finite (Qmake 10000 10000)) true false "balanced" 3 "active" 0.
Definition demo_rule_row : DispatchRule := MkRule "r1" "g1" "openai_chat" "exact" "gpt-latest" "gpt" 10 "active" "" 7.
Example demo_rows : c_groups demo_cdb = [demo_group_row] /\ c_rules demo_cdb = [demo_rule_row].
Proof. by vm_compute. Qed.

Lemma active_rules_stay_priced_witness :
  exists e, e ∈ c_entries demo_cdb /\ en_ModelCode e = "gpt"%string /\ en_CapabilityType e = "chat"%string.
Proof.
  destruct (active_rules_stay_priced no_pattern demo_cdb demo_group_row) as (_ & _ & Hpriced).
  - exact demo_cdb_reachable.
  - rewrite (proj1 demo_rows). apply list_elem_of_here.
  - destruct (Hpriced demo_rule_row) as (e & He & _ & Hm & Hc).
    + rewrite (proj2 demo_rows). apply list_elem_of_here.
    + reflexivity.
    + reflexivity.
    + reflexivity.
    + reflexivity.
    + exists e. split; [exact He|]. split; [exact Hm | exact Hc].
Defined.

Definition demo_batch : list GroupTargetWrite :=
  [MkTargetWrite "oauth_pool" "p1" (Some 5) ""; MkTargetWrite "direct_upstream" " u1 " None "disabled"].
Definition demo_keys (i : nat) : string := match i with O => "y0" | S O => "y1" | _ => "y2" end.
Definition batch_of (tenant : string) : result com_error ((Z * list GroupTarget) * cdb) :=
  ReplaceGroupTargets demo_keys tenant "g1" 3 demo_batch demo_cdb.

Lemma ReplaceGroupTargets_correct_witness :
  exists r d', batch_of "t1" = Ok ((4, r), d') /\ r ≡ₚ targets_of "g1" d' /\
    targets_of "g1" d' = [MkTarget "x1" "g1" "direct_upstream" "u1" 100 "disabled"; MkTarget "y0" "g1" "oauth_pool" "p1" 5 "active"].
Proof.
  destruct (batch_of "t1") as [[[v r] d']|] eqn:H; [|vm_compute in H; discriminate H].
  exists r, d'.
  destruct (ReplaceGroupTargets_correct demo_keys "t1" "g1" 3 demo_batch demo_cdb v r d'
              (reachable_ok _ _ demo_cdb_reachable) H) as (g & ws & _ & _ & _ & _ & _ & Hr & _).
  vm_compute in H. injection H as <- <- <-. split; [reflexivity|]. split; [exact Hr | vm_compute; reflexivity].
Defined.

Lemma version_counts_changes_witness :
  exists d', exec no_pattern (call_UpdateGroup "t1" "g1" (demo_group "Renamed" "book" 3)) demo_cdb = Ok (tt, d') /\
    exists g', in_group d' "g1" g' /\ gr_RoutePolicyVersion g' = 4.
Proof.
  destruct (exec no_pattern (call_UpdateGroup "t1" "g1" (demo_group "Renamed" "book" 3)) demo_cdb) as [[[] d']|] eqn:H;
    [|vm_compute in H; discriminate H].
  exists d'. split; [reflexivity|].
  assert (Hg : in_group demo_cdb "g1" demo_group_row) by (split; [rewrite (proj1 demo_rows); apply list_elem_of_here | reflexivity]).
  destruct (version_counts_changes no_pattern _ demo_cdb tt d' "g1" demo_group_row
              (reachable_ok _ _ demo_cdb_reachable) H Hg) as [[[Hs _] | [Hb | Hgone]] _].
  - exfalso. destruct Hs as [Hin _]. vm_compute in H. injection H as <-. simpl in Hin.
    apply list_elem_of_singleton in Hin. discriminate Hin.
  - exact Hb.
  - exfalso. vm_compute in H. injection H as <-. eapply Hgone. split; [apply list_elem_of_here | reflexivity].
Defined.

Definition demo_policy : GroupClientSurfacePolicy :=
  MkPolicy "g1" "restricted" ["anthropic_messages"; "openai_chat"]%string.
Example demo_replace : exists d',
  ReplaceGroupClientSurfacePolicy "t1" "g1" "restricted" ["openai_chat"; " anthropic_messages"]%string demo_cdb = (d', Ok demo_policy).
Proof. eexists. vm_compute. reflexivity. Qed.
Lemma surface_policy_roundtrip_witness :
  exists d', run_tx (GetGroupClientSurfacePolicy "t1" "g1") d' = (d', Ok demo_policy) /\
    (cs_Surface <$> surfaces_of (TrimSpace "g1") d') = Known.
Proof.
  destruct demo_replace as [d' H]. exists d'.
  destruct (surface_policy_roundtrip _ _ _ _ _ _ _ H) as (s & _ & Hget & _ & _ & Hk & _).
  split; [exact Hget | exact Hk].
Defined.

(** ** Deletions in two parts *)

(** The references of a book are counted by one statement and the book is deleted by
    another transaction: a group created in between sells from a book that is gone. *)
Theorem deletePriceBook_races_CreateGroup :
  exists d1 d2 g, com_reachable no_pattern demo_cdb /\
    deletePriceBook_check "platform" "" "spare" demo_cdb = Ok (tt, demo_cdb) /\
    exec no_pattern (call_CreateGroup "g2" "t1" (demo_group "Second" "spare" 0)) demo_cdb = Ok (tt, d1) /\
    repo_DeletePriceBook "spare" d1 = Ok (tt, d2) /\
    g ∈ c_groups d2 /\ gr_Status g = StatusActive /\ find_book (gr_RetailPriceBookID g) d2 = None.
Proof.
  exists (run_calls [call_CreateGroup "g2" "t1" (demo_group "Second" "spare" 0)] demo_cdb).
  exists (run_tx (repo_DeletePriceBook "spare") (run_calls [call_CreateGroup "g2" "t1" (demo_group "Second" "spare" 0)] demo_cdb)).1.
  exists (MkGroup "g2" "t1" "Second" "" "spare" (Finite (Qmake 10000 10000)) true false "balanced" 1 "active" 0).
  split; [exact demo_cdb_reachable|]. do 3 (split; [by vm_compute|]).
  split; [|split; by vm_compute]. vm_compute. apply list_elem_of_further, list_elem_of_here.
Qed.

(** The deletion of a price checks the groups that sell from the book, and locks only
    those: a group that moves to the book meanwhile keeps an active rule without a
    price. *)
Definition demo_second : cdb :=
  run_calls [call_upsertEntry "platform" "" "e2" (MkEntry "" "spare" "gpt" "chat" (en_TokenPriceTiers demo_price)
               (Finite (Qmake 0 1)) (Finite (Qmake 0 1)) [] [] (Finite (Qmake 0 1)) (Finite (Qmake 0 1)) "" false)] demo_cdb.
Theorem DeleteEntry_races_UpdateGroup :
  exists d1 d2 g, com_reachable no_pattern demo_second /\
    DeleteEntry_check "spare" "gpt" "chat" demo_second = Ok (tt, demo_second) /\
    exec no_pattern (call_UpdateGroup "t1" "g1" (demo_group "Default" "spare" 0)) demo_second = Ok (tt, d1) /\
    DeleteEntry_apply "spare" "gpt" "chat" d1 = Ok (tt, d2) /\
    in_group d2 (dr_GroupID demo_rule_row) g /\ demo_rule_row ∈ c_rules d2 /\ ~ rule_priced d2 g demo_rule_row.
Proof.
  exists (run_calls [call_UpdateGroup "t1" "g1" (demo_group "Default" "spare" 0)] demo_second).
  exists (run_tx (DeleteEntry_apply "spare" "gpt" "chat")
            (run_calls [call_UpdateGroup "t1" "g1" (demo_group "Default" "spare" 0)] demo_second)).1.
  exists (MkGroup "g1" "t1" "Default" "" "spare" (Finite (Qmake 10000 10000)) true false "balanced" 4 "active" 0).
  split; [unfold demo_second; apply run_calls_reachable, demo_cdb_reachable|]. do 3 (split; [by vm_compute|]).
  split; [split; [vm_compute; apply list_elem_of_here | reflexivity]|].
  split; [vm_compute; apply list_elem_of_here | vm_compute; discriminate].
Qed.

(** ** Imports *)

Definition demo_transfer_rule (value model : string) : GroupTransferDispatchRule :=
  MkTransferRule "openai_chat" "exact" value model 10 "active" "".
Definition demo_import (book : string) (rules : list GroupTransferDispatchRule) : PlannedGroupImport :=
  MkPlannedImport
    (MkTransferGroup "Default" "" (Finite (Qmake 1 1)) true false "balanced" 0 "active" (MkTransferPolicy "all" []) rules)
    (MkImportItem "Default" "Default" "update" "g1" book "active" "active").
Definition import_keys (i : nat) : string := match i with O => "q0" | _ => "q1" end.

(** An import only reads the price book it checks its rules against: when the book is
    disabled in between - nothing sells from it yet - the group ends up active on a
    disabled book. *)
Theorem ApplyGroupImport_races_updatePriceBook :
  exists d1 a d2 g b, com_reachable no_pattern demo_second /\
    let item := demo_import "spare" [demo_transfer_rule "gpt-latest" "gpt"] in
    ApplyGroupImport_check "t1" item demo_second = Ok (StatusActive, demo_second) /\
    exec no_pattern (call_updatePriceBook "platform" "" "spare" "Spare" "" "disabled") demo_second = Ok (tt, d1) /\
    ApplyGroupImport_apply 9 "g9" import_keys "t1" item StatusActive d1 = Ok (a, d2) /\
    in_group d2 "g1" g /\ gr_Status g = StatusActive /\
    find_book (gr_RetailPriceBookID g) d2 = Some b /\ pb_Status b = StatusDisabled.
Proof.
  exists (run_calls [call_updatePriceBook "platform" "" "spare" "Spare" "" "disabled"] demo_second).
  exists (MkAppliedImport "g1" "active").
  exists (run_tx (ApplyGroupImport_apply 9 "g9" import_keys "t1"
            (demo_import "spare" [demo_transfer_rule "gpt-latest" "gpt"]) StatusActive)
            (run_calls [call_updatePriceBook "platform" "" "spare" "Spare" "" "disabled"] demo_second)).1.
  exists (MkGroup "g1" "t1" "Default" "" "spare" (Finite (Qmake 10000 10000)) true false "balanced" 4 "active" 0).
  exists (MkBook "spare" "platform" "" "Spare" "" "disabled" 3).
  split; [unfold demo_second; apply run_calls_reachable, demo_cdb_reachable|]. cbv zeta. do 3 (split; [by vm_compute|]).
  split; [split; [vm_compute; apply list_elem_of_here | reflexivity]|]. split; [reflexivity|]. split; by vm_compute.
Qed.

(** A rule the book has no price for is imported all the same, active, and the group
    disabled with it. *)
Example import_leaves_unpriced_rule :
  exists d g, exec no_pattern (call_ApplyGroupImport 9 "g9" import_keys "t1" (demo_import "book" [demo_transfer_rule "any" "o9"]))
      demo_cdb = Ok (tt, d) /\
    c_groups d = [g] /\ gr_Status g = StatusDisabled /\ gr_RoutePolicyVersion g = 4 /\
    c_rules d = [MkRule "q0" "g1" "openai_chat" "exact" "any" "o9" 10 "active" "" 9].
Proof. do 2 eexists. split; [vm_compute; reflexivity|]. by vm_compute. Qed.

(** A rule is validated with the spaces around its value trimmed, and imported with
    them: the same rule added by hand matches requests the imported one does not. *)
Theorem import_keeps_padding :
  let rule := demo_transfer_rule " gpt-4 " "gpt" in
  (exists w, normalizeDispatchRuleWrite no_pattern (MkRuleWrite "openai_chat" "exact" " gpt-4 " "gpt" 10 "") = Ok w /\
     rw_MatchValue w = "gpt-4"%string) /\
  exists d g r, exec no_pattern (call_ApplyGroupImport 9 "g9" import_keys "t1" (demo_import "book" [rule])) demo_cdb = Ok (tt, d) /\
    c_groups d = [g] /\ gr_Status g = StatusActive /\ c_rules d = [r] /\ dr_MatchValue r = " gpt-4 "%string.
Proof.
  cbv zeta. split; [eexists; split; by vm_compute|]. do 3 eexists. split; [vm_compute; reflexivity|]. by vm_compute.
Qed.
