(* ===== verification/Dispatch.v ===== *)
(** * Resolving a request to groups, models and targets

    [src/internal/ai/commercial/resolution.go], which decides which of a tenant's groups
    a caller may use, which model a request is served as in each and by which targets,
    and the read behind it ([LoadDispatchData] in
    [src/internal/ai/adapters/postgres/commercial_groups.go]).  The groups, the bindings
    of the user and the dispatch data are read one after the other, so each is given the
    tables of its own moment.  Whether a regular expression compiles and matches is a
    parameter. *)

From Stdlib Require Import QArith.
From S2P Require Import Prelude GoStrings PathMatch Decimal PriceTiers UsageEvidence Request CommercialDB.
From S2P Require Import PriceBooks Commercial.
#[global] Open Scope Z_scope.

(** ** Data ([types.go]) *)

Record AccessibleGroup := MkAccessible {
  ag_Group : Group;
  ag_EffectiveUserMultiplier : float64;
  ag_UserDefaultVisible : bool;
  ag_UserBound : bool;
  ag_APIKeyBound : bool }.

Record DispatchResolution := MkResolution {
  re_Group : AccessibleGroup;
  re_RequestedModel : string;
  re_ResolvedModelID : string;
  re_MatchedRule : option DispatchRule;
  re_Targets : list GroupTarget }.

(** [DispatchData]: the maps from a group to its rows, as the rows in the order read. *)
Record DispatchData := MkData {
  dd_ClientSurfaces : list GroupClientSurface;
  dd_Rules : list DispatchRule;
  dd_Targets : list GroupTarget }.

Inductive dispatch_error :=
| ErrCommercial (e : com_error)
| ErrClientSurfaceNotAllowed
| ErrNoAccessibleGroup.

(** ** Orders *)

(** [sort.SliceStable] with a strict order. *)
Definition SliceStable {A} (less : A -> A -> bool) (l : list A) : list A :=
  order_by (fun x y => negb (less y x)) l.

(** [sortGroups] *)
Definition group_less (a b : Group) : bool :=
  if negb (gr_SortOrder a =? gr_SortOrder b) then gr_SortOrder a <? gr_SortOrder b
  else if negb (str_eq (gr_Name a) (gr_Name b)) then String.ltb (gr_Name a) (gr_Name b)
  else String.ltb (gr_ID a) (gr_ID b).
Definition sortGroups : list Group -> list Group := SliceStable group_less.

(** [sortDispatchRules] *)
Definition rule_less (a b : DispatchRule) : bool :=
  if negb (dr_Priority a =? dr_Priority b) then dr_Priority a <? dr_Priority b
  else if negb (dr_CreatedAt a =? dr_CreatedAt b) then dr_CreatedAt a <? dr_CreatedAt b
  else String.ltb (dr_ID a) (dr_ID b).
Definition sortDispatchRules : list DispatchRule -> list DispatchRule := SliceStable rule_less.

Definition target_less (a b : GroupTarget) : bool :=
  if negb (gt_Priority a =? gt_Priority b) then gt_Priority a <? gt_Priority b
  else if negb (str_eq (gt_TargetKind a) (gt_TargetKind b)) then String.ltb (gt_TargetKind a) (gt_TargetKind b)
  else String.ltb (gt_TargetID a) (gt_TargetID b).

(** ** Access *)

(** A group before the caller is looked at. *)
Definition accessible (g : Group) : AccessibleGroup :=
  MkAccessible g (gr_DefaultUserMultiplier g) (gr_UserDefaultVisible g) false false.
(** A bound user: the override replaces the group's multiplier. *)
Definition bind_user (b : UserGroupBinding) (i : AccessibleGroup) : AccessibleGroup :=
  MkAccessible (ag_Group i) (default (ag_EffectiveUserMultiplier i) (ub_UserMultiplierOverride b))
    (ag_UserDefaultVisible i) true (ag_APIKeyBound i).
Definition bind_key (i : AccessibleGroup) : AccessibleGroup :=
  MkAccessible (ag_Group i) (ag_EffectiveUserMultiplier i) (ag_UserDefaultVisible i) (ag_UserBound i) true.

(** What a user sees of a group, given the binding found. *)
Definition user_sees (binding : option UserGroupBinding) (i : AccessibleGroup) : option AccessibleGroup :=
  match binding with
  | Some b => Some (bind_user b i)
  | None => if ag_UserDefaultVisible i then Some i else None
  end.

(** [resolveForcedGroup] *)
Definition resolveForcedGroup (dg db : cdb) (s : Subject) (groupID : string) : result dispatch_error (list AccessibleGroup) :=
  match find_group (sj_TenantID s) groupID dg with
  | None => Err (ErrCommercial ErrNotFound)
  | Some g =>
      if negb (str_eq (gr_Status g) StatusActive) then Ok []
      else if str_eq (sj_UserID s) "" then Ok [accessible g]
      else
        let binding := List.find (fun b => str_eq (ub_GroupID b) groupID)
                         (repo_ListUserBindings (sj_TenantID s) (sj_UserID s) db) in
        Ok (match user_sees binding (accessible g) with Some i => [i] | None => [] end)
  end.

(** The map from a group to the user's binding: a later row replaces an earlier one. *)
Definition bindings_by_group (l : list UserGroupBinding) : gmap string UserGroupBinding :=
  foldl (fun m b => <[ub_GroupID b := b]> m) ∅ l.
(** The map from an identity to the accessible group. *)
Definition accessible_by_id (l : list AccessibleGroup) : gmap string AccessibleGroup :=
  foldl (fun m i => <[gr_ID (ag_Group i) := i]> m) ∅ l.

(** [ResolveAccessibleGroups]: the groups as of [dg], the user's bindings as of [db]. *)
Definition ResolveAccessibleGroups (dg db : cdb) (s : Subject) : result dispatch_error (list AccessibleGroup) :=
  if blank (sj_TenantID s) then Err (ErrCommercial (ErrValidation "tenant_id"))
  else if negb (blank (sj_ForcedGroupID s)) then resolveForcedGroup dg db s (TrimSpace (sj_ForcedGroupID s))
  else
    let groups := sortGroups (List.filter (fun g => str_eq (gr_TenantID g) (sj_TenantID s)) (c_groups dg)) in
    let visible := accessible <$> List.filter (fun g => str_eq (gr_Status g) StatusActive) groups in
    let visible :=
      if str_eq (sj_UserID s) "" then visible
      else
        let bindings := bindings_by_group (repo_ListUserBindings (sj_TenantID s) (sj_UserID s) db) in
        omap (fun i => user_sees (bindings !! gr_ID (ag_Group i)) i) visible in
    Ok (if str_eq (sj_GroupID s) "" then visible
        else match accessible_by_id visible !! sj_GroupID s with Some i => [bind_key i] | None => [] end).

(** ** The read ([LoadDispatchData]) *)

(** The condition of the targets' query: a resource of that kind that is public or
    granted to the tenant, whatever its status. *)
Definition target_permitted (tenant kind id : string) (d : cdb) : bool :=
  existsb (fun r => str_eq (rs_Kind r) kind && str_eq (rs_ID r) id
    && (rs_Public r || bool_decide ((kind, id, tenant) ∈ c_granted d))) (c_resources d).

Definition LoadDispatchData (tenant : string) (groupIDs : list string) (d : cdb) : DispatchData :=
  let wanted id := str_in id groupIDs && bool_decide (is_Some (find_group tenant id d)) in
  MkData
    (order_by (fun a b => String.leb (cs_Surface a) (cs_Surface b))
       (List.filter (fun s => wanted (cs_GroupID s)) (c_surfaces d)))
    (SliceStable rule_less (List.filter (fun r => wanted (dr_GroupID r)) (c_rules d)))
    (SliceStable target_less (List.filter (fun t => wanted (gt_GroupID t)
       && target_permitted tenant (gt_TargetKind t) (gt_TargetID t) d) (c_targets d))).
Definition surfaces_in (dd : DispatchData) (group : string) : list GroupClientSurface :=
  List.filter (fun s => str_eq (cs_GroupID s) group) (dd_ClientSurfaces dd).
Definition rules_in (dd : DispatchData) (group : string) : list DispatchRule :=
  List.filter (fun r => str_eq (dr_GroupID r) group) (dd_Rules dd).
Definition targets_in (dd : DispatchData) (group : string) : list GroupTarget :=
  List.filter (fun t => str_eq (gt_GroupID t) group) (dd_Targets dd).

(** ** Dispatch *)

(** [resolveGroupClientSurfacePolicy]: whether the surface is accepted, and whether the
    protocol may be converted. *)
Fixpoint surface_entry (entries : list GroupClientSurface) (clientSurface : string) (allow : bool) : bool * bool :=
  match entries with
  | [] => (false, false)
  | e :: rest =>
      if negb (str_eq (cs_Status e) StatusActive) then surface_entry rest clientSurface allow
      else if negb (str_eq (cs_Surface e) clientSurface) then surface_entry rest clientSurface allow
      else (true, allow && cs_BridgeEnabled e)
  end.
Definition resolveGroupClientSurfacePolicy (entries : list GroupClientSurface) (clientSurface : string) (allow : bool)
    : bool * bool :=
  match entries with [] => (true, allow) | _ => surface_entry entries clientSurface allow end.

Section Dispatch.
(** [regexp.Compile] succeeds on the pattern and [MatchString] holds of the model. *)
Context (regexp_match : string -> string -> bool).

(** [dispatchRuleMatches] *)
Definition dispatchRuleMatches (r : DispatchRule) (requestedModel : string) : bool :=
  let pattern := TrimSpace (dr_MatchValue r) in
  if str_eq (dr_MatchType r) DispatchMatchExact then str_eq pattern requestedModel
  else if str_eq (dr_MatchType r) DispatchMatchPrefix then String.prefix pattern requestedModel
  else if str_eq (dr_MatchType r) DispatchMatchWildcard then default false (Match pattern requestedModel)
  else if str_eq (dr_MatchType r) DispatchMatchRegex then regexp_match pattern requestedModel
  else false.

(** [matchDispatchRule] *)
Definition rule_applies (clientSurface requestedModel : string) (r : DispatchRule) : bool :=
  str_eq (dr_Status r) StatusActive && str_eq (dr_ClientSurface r) clientSurface && dispatchRuleMatches r requestedModel.
Definition matchDispatchRule (rules : list DispatchRule) (clientSurface requestedModel : string) : option DispatchRule :=
  List.find (rule_applies clientSurface requestedModel) rules.

(** [filterActiveTargets] *)
Definition filterActiveTargets (targets : list GroupTarget) : list GroupTarget :=
  List.filter (fun t => str_eq (gt_Status t) StatusActive) targets.

Definition set_conversion (allow : bool) (i : AccessibleGroup) : AccessibleGroup :=
  let g := ag_Group i in
  MkAccessible
    (MkGroup (gr_ID g) (gr_TenantID g) (gr_Name g) (gr_Description g) (gr_RetailPriceBookID g)
       (gr_DefaultUserMultiplier g) (gr_UserDefaultVisible g) allow (gr_RoutePolicy g) (gr_RoutePolicyVersion g)
       (gr_Status g) (gr_SortOrder g))
    (ag_EffectiveUserMultiplier i) (ag_UserDefaultVisible i) (ag_UserBound i) (ag_APIKeyBound i).

(** The body of the loop over the groups: [None] when the group does not accept the
    surface, otherwise the option, if the caller may use its model. *)
Definition resolve_group (dd : DispatchData) (s : Subject) (clientSurface requestedModel : string) (i : AccessibleGroup)
    : option (option DispatchResolution) :=
  let id := gr_ID (ag_Group i) in
  let '(accepted, allow) :=
    resolveGroupClientSurfacePolicy (surfaces_in dd id) clientSurface (gr_AllowProtocolConversion (ag_Group i)) in
  if negb accepted then None
  else
    let matched := matchDispatchRule (sortDispatchRules (rules_in dd id)) clientSurface requestedModel in
    let model := match matched with Some r => dr_TargetModelID r | None => requestedModel end in
    Some (if negb (bool_decide (sj_AllowedModels s = [])) && negb (str_in model (sj_AllowedModels s)) then None
          else Some (MkResolution (set_conversion allow i) requestedModel model matched
                       (filterActiveTargets (targets_in dd id)))).

(** [ResolveDispatch] (the capability it is given is not used): groups as of [dg],
    bindings as of [db], dispatch data as of [dd]. *)
Definition ResolveDispatch (dg db dd : cdb) (s : Subject) (clientSurface requestedModel : string)
    : result dispatch_error (list DispatchResolution) :=
  let requestedModel := TrimSpace requestedModel in
  if str_eq requestedModel "" then Err (ErrCommercial (ErrValidation "requested_model"))
  else if negb (IsKnown clientSurface) then Err (ErrCommercial (ErrValidation "client_surface"))
  else match ResolveAccessibleGroups dg db s with
  | Err e => Err e
  | Ok [] => Err ErrNoAccessibleGroup
  | Ok groups =>
      let data := LoadDispatchData (sj_TenantID s) ((fun i => gr_ID (ag_Group i)) <$> groups) dd in
      let resolved := omap (resolve_group data s clientSurface requestedModel) groups in
      if Nat.eqb (length resolved) 0 then Err ErrClientSurfaceNotAllowed
      else Ok (omap id resolved)
  end.
End Dispatch.
