(* ===== verification/DispatchProps.v ===== *)
(** * Dispatch: facts and properties

    The orders of groups, rules and targets, access and options; then who may use which
    group, which model and targets a request is dispatched to, and when it is
    refused. *)

From Stdlib Require Import QArith Sorted.
From S2P Require Import Prelude GoStrings PathMatch Decimal PriceTiers UsageEvidence Request CommercialDB.
From S2P Require Import Surfaces PriceBooks Commercial CommercialService CommercialFacts CommercialProps.
From S2P Require Import Dispatch.
#[global] Open Scope Z_scope.

(** ** Orders *)

(** A strict weak order, and a strict total order on keys with a decidable equality. *)
Record weak_order {A} (less : A -> A -> bool) : Prop := MkWeak {
  wo_asym : forall x y, less x y = true -> less y x = false;
  wo_cut : forall x y z, less x z = true -> less x y = true \/ less y z = true }.
Record key_order {K} (eqb ltb : K -> K -> bool) : Prop := MkKeyOrder {
  ko_eq : forall a b, eqb a b = true <-> a = b;
  ko_weak : weak_order ltb;
  ko_total : forall a b, a <> b -> ltb a b = true \/ ltb b a = true }.

Lemma weak_by_key {A K} (f : A -> K) ltb : weak_order ltb -> weak_order (fun x y => ltb (f x) (f y)).
Proof. intros [Ha Hc]. split; intros; [by apply Ha | by apply Hc]. Qed.

Lemma weak_lex {A K} (f : A -> K) eqb ltb less :
  key_order eqb ltb -> weak_order less ->
  weak_order (fun x y => if negb (eqb (f x) (f y)) then ltb (f x) (f y) else less x y).
Proof.
  intros [He [Ha Hc] Ht] [Hla Hlc].
  assert (Hf : forall a b, a <> b -> eqb a b = false) by (intros a b Hne; destruct (eqb a b) eqn:E; [by apply He in E | done]).
  assert (Hr : forall a, eqb a a = true) by (intros; by apply He).
  split.
  - intros x y H. destruct (eqb (f x) (f y)) eqn:Exy; simpl in H.
    + apply He in Exy. rewrite Exy, Hr. by apply Hla.
    + destruct (eqb (f y) (f x)) eqn:Eyx; [apply He in Eyx; rewrite Eyx, Hr in Exy; done|]. by apply Ha.
  - intros x y z H. destruct (eqb (f x) (f z)) eqn:Exz; simpl in H.
    + apply He in Exz. destruct (eqb (f x) (f y)) eqn:Exy; simpl.
      * apply He in Exy. rewrite <- Exy, Exz, Hr. simpl. by apply Hlc.
      * assert (Hne : f x <> f y) by (intros E; rewrite E, Hr in Exy; done).
        rewrite <- Exz. rewrite (Hf (f y) (f x)) by congruence. simpl. by apply Ht.
    + destruct (eqb (f x) (f y)) eqn:Exy; simpl.
      * apply He in Exy. right. rewrite <- Exy, Exz. done.
      * destruct (eqb (f y) (f z)) eqn:Eyz; simpl; [left; apply He in Eyz; by rewrite Eyz | by apply Hc].
Qed.

Lemma Z_key_order : key_order Z.eqb Z.ltb.
Proof.
  split; [intros; apply Z.eqb_eq | split | ]; intros *; rewrite ?Z.ltb_lt, ?Z.ltb_ge; [lia | lia | lia].
Qed.

(** Strings are ordered by their first difference. *)
Lemma compare_trans_lt a b c :
  String.compare a b = Lt -> String.compare b c <> Gt -> String.compare a c = Lt.
Proof.
  revert b c. induction a as [|x a IH]; intros [|y b] [|z c]; cbn [String.compare]; try done.
  unfold Ascii.compare. destruct (N.compare_spec (Ascii.N_of_ascii x) (Ascii.N_of_ascii y)) as [E|E|E]; [|intros _|done].
  - intros Hab. rewrite E. destruct (N.compare_spec (Ascii.N_of_ascii y) (Ascii.N_of_ascii z)); [by apply IH | done | done].
  - destruct (N.compare_spec (Ascii.N_of_ascii y) (Ascii.N_of_ascii z)) as [E2|E2|E2]; intros H; [| |done].
    + rewrite <- E2. by apply N.compare_lt_iff in E as ->.
    + assert ((Ascii.N_of_ascii x < Ascii.N_of_ascii z)%N) as E3 by lia. by apply N.compare_lt_iff in E3 as ->.
Qed.
Lemma string_key_order : key_order str_eq String.ltb.
Proof.
  split.
  - apply str_eq_true.
  - unfold String.ltb. split.
    + intros a b H. rewrite String.compare_antisym. by destruct (String.compare a b).
    + intros a b c H. destruct (String.compare a b) eqn:Hab; [right | by left | right].
      * apply String.compare_eq_iff in Hab. by subst.
      * rewrite String.compare_antisym in Hab. destruct (String.compare b a) eqn:Hba; try done.
        rewrite (compare_trans_lt b a c Hba); [done|]. by destruct (String.compare a c).
  - intros a b Hne. unfold String.ltb. rewrite (String.compare_antisym b a).
    destruct (String.compare a b) eqn:Hab; [|by left | by right]. by apply String.compare_eq_iff in Hab.
Qed.

Lemma group_less_weak : weak_order group_less.
Proof.
  apply (weak_lex gr_SortOrder); [apply Z_key_order|]. apply (weak_lex gr_Name); [apply string_key_order|].
  apply (weak_by_key gr_ID). apply string_key_order.
Qed.
Lemma rule_less_weak : weak_order rule_less.
Proof.
  apply (weak_lex dr_Priority); [apply Z_key_order|]. apply (weak_lex dr_CreatedAt); [apply Z_key_order|].
  apply (weak_by_key dr_ID). apply string_key_order.
Qed.
Lemma target_less_weak : weak_order target_less.
Proof.
  apply (weak_lex gt_Priority); [apply Z_key_order|]. apply (weak_lex gt_TargetKind); [apply string_key_order|].
  apply (weak_by_key gt_TargetID). apply string_key_order.
Qed.

Section Stable.
Context {A} (less : A -> A -> bool).
Definition in_order (l : list A) : Prop := StronglySorted (fun a b => less b a = false) l.

Lemma SliceStable_Permutation l : SliceStable less l ≡ₚ l.
Proof. apply order_by_Permutation. Qed.
Lemma elem_of_SliceStable l x : x ∈ SliceStable less l <-> x ∈ l.
Proof. by rewrite SliceStable_Permutation. Qed.
Lemma SliceStable_in_order l : weak_order less -> in_order (SliceStable less l).
Proof.
  intros [Ha Hc]. unfold in_order. eapply StronglySorted_ind with (P := fun l => StronglySorted _ l);
    [constructor | | apply (order_by_sorted (fun x y => negb (less y x)))].
  - intros a l' _ IH Hall. constructor; [done|]. eapply Forall_impl; [exact Hall|]. intros b Hb. by apply negb_true_iff.
  - intros x y H%negb_false_iff. by rewrite (Ha _ _ H).
  - intros x y z Hxy%negb_true_iff Hyz%negb_true_iff. apply negb_true_iff.
    destruct (less z x) eqn:Hzx; [|done]. apply (Hc z y x) in Hzx as [H|H]; congruence.
Qed.
Lemma in_order_filter p l : in_order l -> in_order (List.filter p l).
Proof.
  unfold in_order. induction 1 as [|a l Hl IH Ha]; simpl; [constructor|]. destruct (p a); [|done].
  constructor; [done|]. apply Forall_forall. intros x [_ Hx]%elem_of_filter_rows. rewrite Forall_forall in Ha. by apply Ha.
Qed.
(** The first row that satisfies a condition precedes the others that do. *)
Lemma find_first p l r : in_order l -> List.find p l = Some r ->
  r ∈ l /\ p r = true /\ forall x, x ∈ l -> p x = true -> x = r \/ less x r = false.
Proof.
  unfold in_order. intros Hl. induction Hl as [|a l Hl IH Ha]; [done|]. cbn [List.find]. destruct (p a) eqn:Hp.
  - intros [= <-]. split; [left|]. split; [done|]. intros x [->|Hx]%elem_of_cons _; [by left|]. right.
    rewrite Forall_forall in Ha. by apply Ha.
  - intros H. apply IH in H as (Hr & Hpr & Hmin). split; [by right|]. split; [done|].
    intros x [->|Hx]%elem_of_cons Hpx; [congruence | by apply Hmin].
Qed.
End Stable.

(** ** Maps built from lists: a later entry replaces an earlier one. *)

Section MapOfList.
Context {A : Type} (key : A -> string).
Definition map_of (l : list A) (m : gmap string A) : gmap string A := foldl (fun m a => <[key a := a]> m) m l.

Lemma map_of_Some l m k a : map_of l m !! k = Some a -> (a ∈ l /\ key a = k) \/ m !! k = Some a.
Proof.
  revert m. induction l as [|x l IH]; intros m H; [by right|]. apply (IH (<[key x := x]> m)) in H as [[Ha Hk]|H].
  - left. split; [by right | done].
  - apply lookup_insert_Some in H as [[Hk ->]|[_ H]]; [left; split; [left | done] | by right].
Qed.
Lemma map_of_None l m k : map_of l m !! k = None <-> m !! k = None /\ forall a, a ∈ l -> key a <> k.
Proof.
  revert m. induction l as [|x l IH]; intros m; [split; [intros H; split; [done|by intros ? ?%elem_of_nil] | by intros [? _]]|].
  change (map_of (x :: l) m) with (map_of l (<[key x := x]> m)). rewrite IH, lookup_insert_None. split.
  - intros [[Hm Hx] H]. split; [done|]. intros a [->|Ha]%elem_of_cons; [done | by apply H].
  - intros [Hm H]. split; [split; [done | apply H; left] | intros a Ha; apply H; by right].
Qed.
End MapOfList.

Lemma bindings_Some l g b : bindings_by_group l !! g = Some b -> b ∈ l /\ ub_GroupID b = g.
Proof. intros [H|H]%(map_of_Some ub_GroupID); [done|]. by rewrite lookup_empty in H. Qed.
Lemma bindings_None l g : bindings_by_group l !! g = None <-> forall b, b ∈ l -> ub_GroupID b <> g.
Proof.
  change (bindings_by_group l) with (map_of ub_GroupID l ∅). rewrite map_of_None, lookup_empty. by split; [intros [_ H] | split].
Qed.
Lemma accessible_Some l k i : accessible_by_id l !! k = Some i -> i ∈ l /\ gr_ID (ag_Group i) = k.
Proof. intros [H|H]%(map_of_Some (fun i => gr_ID (ag_Group i))); [done|]. by rewrite lookup_empty in H. Qed.
Lemma accessible_None l k : accessible_by_id l !! k = None <-> forall i, i ∈ l -> gr_ID (ag_Group i) <> k.
Proof.
  change (accessible_by_id l) with (map_of (fun i => gr_ID (ag_Group i)) l ∅). rewrite map_of_None, lookup_empty.
  by split; [intros [_ H] | split].
Qed.

(** ** Access *)

(** The rows that bind the caller's user to a group. *)
Definition binds (db : cdb) (s : Subject) (g : Group) (b : UserGroupBinding) : Prop :=
  b ∈ repo_ListUserBindings (sj_TenantID s) (sj_UserID s) db /\ ub_GroupID b = gr_ID g.
Definition visible_to (db : cdb) (s : Subject) (g : Group) : Prop :=
  sj_UserID s = "" \/ gr_UserDefaultVisible g = true \/ exists b, binds db s g b.
(** The group the request or the key is restricted to. *)
Definition in_scope (s : Subject) (g : Group) : Prop :=
  if blank (sj_ForcedGroupID s) then sj_GroupID s = "" \/ gr_ID g = sj_GroupID s
  else gr_ID g = TrimSpace (sj_ForcedGroupID s).
Definition may_use (dg db : cdb) (s : Subject) (g : Group) : Prop :=
  g ∈ c_groups dg /\ gr_TenantID g = sj_TenantID s /\ gr_Status g = StatusActive /\ visible_to db s g /\ in_scope s g.

(** The multiplier of an accessible group: the user's override, or the group's own. *)
Definition multiplier_of (db : cdb) (s : Subject) (i : AccessibleGroup) : Prop :=
  if ag_UserBound i
  then exists b, binds db s (ag_Group i) b /\
         ag_EffectiveUserMultiplier i = default (gr_DefaultUserMultiplier (ag_Group i)) (ub_UserMultiplierOverride b)
  else ag_EffectiveUserMultiplier i = gr_DefaultUserMultiplier (ag_Group i).

Lemma user_sees_Some db s g binding i :
  user_sees binding (accessible g) = Some i ->
  match binding with Some b => binds db s g b | None => True end ->
  ag_Group i = g /\ (gr_UserDefaultVisible g = true \/ exists b, binds db s g b) /\ multiplier_of db s i.
Proof.
  destruct binding as [b|]; simpl.
  - intros [= <-] Hb. split; [done|]. split; [right; by exists b | exists b; done].
  - destruct (gr_UserDefaultVisible g) eqn:Hv; [|done]. intros [= <-] _. split; [done|]. split; [by left | done].
Qed.

(** The groups of the tenant the caller's user sees, before a key restricts them. *)
Definition user_visible (dg db : cdb) (s : Subject) : list AccessibleGroup :=
  let groups := sortGroups (List.filter (fun g => str_eq (gr_TenantID g) (sj_TenantID s)) (c_groups dg)) in
  let visible := accessible <$> List.filter (fun g => str_eq (gr_Status g) StatusActive) groups in
  if str_eq (sj_UserID s) "" then visible
  else
    let bindings := bindings_by_group (repo_ListUserBindings (sj_TenantID s) (sj_UserID s) db) in
    omap (fun i => user_sees (bindings !! gr_ID (ag_Group i)) i) visible.

Lemma active_rows dg s i :
  i ∈ accessible <$> List.filter (fun g => str_eq (gr_Status g) StatusActive)
        (sortGroups (List.filter (fun g => str_eq (gr_TenantID g) (sj_TenantID s)) (c_groups dg))) <->
  exists g, i = accessible g /\ g ∈ c_groups dg /\ gr_TenantID g = sj_TenantID s /\ gr_Status g = StatusActive.
Proof.
  unfold sortGroups. split.
  - intros (g & -> & [Ha Hg]%elem_of_filter_rows)%list_elem_of_fmap.
    apply elem_of_SliceStable, elem_of_filter_rows in Hg as [Ht Hg]. exists g. by apply str_eq_true in Ha, Ht.
  - intros (g & -> & Hg & Ht & Ha). apply list_elem_of_fmap. exists g. split; [done|]. apply elem_of_filter_rows.
    rewrite Ha. split; [done|]. apply elem_of_SliceStable, elem_of_filter_rows. by rewrite Ht, str_eq_refl.
Qed.

Lemma user_visible_sound dg db s i :
  i ∈ user_visible dg db s ->
  ag_Group i ∈ c_groups dg /\ gr_TenantID (ag_Group i) = sj_TenantID s /\ gr_Status (ag_Group i) = StatusActive /\
  visible_to db s (ag_Group i) /\ multiplier_of db s i.
Proof.
  unfold user_visible. cbv zeta. destruct (str_eq (sj_UserID s) "") eqn:Hu.
  - intros (g & -> & Hg & Ht & Ha)%active_rows. split_and!; [done..| |done]. left. by apply str_eq_true.
  - intros (x & (g & -> & Hg & Ht & Ha)%active_rows & Hx)%list_elem_of_omap.
    apply (user_sees_Some db s g) in Hx as (-> & Hv & Hm); [split_and!; [done..| by right | done]|].
    simpl. destruct (bindings_by_group _ !! gr_ID g) as [b|] eqn:Hb; [|done]. by apply bindings_Some in Hb as [? ?].
Qed.
Lemma user_visible_complete dg db s g :
  g ∈ c_groups dg -> gr_TenantID g = sj_TenantID s -> gr_Status g = StatusActive -> visible_to db s g ->
  exists i, i ∈ user_visible dg db s /\ ag_Group i = g.
Proof.
  intros Hg Ht Ha Hv. unfold user_visible. cbv zeta. destruct (str_eq (sj_UserID s) "") eqn:Hu.
  - exists (accessible g). split; [|done]. apply active_rows. by exists g.
  - destruct (bindings_by_group (repo_ListUserBindings (sj_TenantID s) (sj_UserID s) db) !! gr_ID g) as [b|] eqn:Hb.
    + exists (bind_user b (accessible g)). split; [|done]. apply list_elem_of_omap. exists (accessible g).
      split; [apply active_rows; by exists g|]. simpl. by rewrite Hb.
    + destruct Hv as [Hv | [Hv | (b & Hb1 & Hb2)]].
      * by rewrite Hv, str_eq_refl in Hu.
      * exists (accessible g). split; [|done]. apply list_elem_of_omap. exists (accessible g).
        split; [apply active_rows; by exists g|]. simpl. rewrite Hb. simpl. by rewrite Hv.
      * rewrite bindings_None in Hb. by destruct (Hb b Hb1).
Qed.

Lemma ResolveAccessibleGroups_unfold dg db s :
  ResolveAccessibleGroups dg db s =
  if blank (sj_TenantID s) then Err (ErrCommercial (ErrValidation "tenant_id"))
  else if negb (blank (sj_ForcedGroupID s)) then resolveForcedGroup dg db s (TrimSpace (sj_ForcedGroupID s))
  else Ok (if str_eq (sj_GroupID s) "" then user_visible dg db s
           else match accessible_by_id (user_visible dg db s) !! sj_GroupID s with
                | Some i => [bind_key i] | None => [] end).
Proof. done. Qed.

Lemma forced_binding db s g b :
  List.find (fun b => str_eq (ub_GroupID b) (gr_ID g)) (repo_ListUserBindings (sj_TenantID s) (sj_UserID s) db) = Some b ->
  binds db s g b.
Proof. intros [Hb Hg]%List.find_some. split; [by apply list_elem_of_In | by apply str_eq_true]. Qed.

Lemma forced_sound dg db s id l i :
  resolveForcedGroup dg db s id = Ok l -> i ∈ l ->
  ag_Group i ∈ c_groups dg /\ gr_TenantID (ag_Group i) = sj_TenantID s /\ gr_Status (ag_Group i) = StatusActive /\
  visible_to db s (ag_Group i) /\ gr_ID (ag_Group i) = id /\ multiplier_of db s i.
Proof.
  unfold resolveForcedGroup. intros H Hi.
  destruct (find_group _ _ _) as [g|] eqn:Hg; [|done]. apply find_group_Some in Hg as [[Hg Hid] Ht].
  destruct (str_eq (gr_Status g) StatusActive) eqn:Ha; simpl in H; [|simplify_eq; by apply elem_of_nil in Hi].
  apply str_eq_true in Ha. destruct (str_eq (sj_UserID s) "") eqn:Hu.
  - simplify_eq. apply list_elem_of_singleton in Hi as ->. split_and!; [done..| |done|done]. left. by apply str_eq_true.
  - destruct (user_sees _ (accessible g)) as [x|] eqn:Hx; simplify_eq; [|by apply elem_of_nil in Hi].
    apply list_elem_of_singleton in Hi as ->.
    apply (user_sees_Some db s g) in Hx as (-> & Hv & Hm); [split_and!; [done..|by right|done|done]|].
    destruct (List.find _ _) as [b|] eqn:Hb; [|done]. by apply forced_binding.
Qed.
Lemma forced_complete dg db s id l g :
  NoDup (gr_ID <$> c_groups dg) -> resolveForcedGroup dg db s id = Ok l ->
  g ∈ c_groups dg -> gr_ID g = id -> gr_Status g = StatusActive -> visible_to db s g ->
  exists i, i ∈ l /\ ag_Group i = g.
Proof.
  unfold resolveForcedGroup. intros Hnd H Hg Hid Ha Hv.
  destruct (find_group _ _ _) as [h|] eqn:Hh; [|done]. apply find_group_Some in Hh as [[Hh Hhid] Ht].
  assert (h = g) as -> by (apply (keyed_unique gr_ID (c_groups dg)); [done..|congruence]).
  rewrite Ha in H. simpl in H. destruct (str_eq (sj_UserID s) "") eqn:Hu; simplify_eq.
  - exists (accessible g). split; [left | done].
  - destruct (List.find _ _) as [b|] eqn:Hb; simpl.
    + exists (bind_user b (accessible g)). split; [left | done].
    + destruct Hv as [Hv | [-> | (b & Hb1 & Hb2)]]; [by rewrite Hv in Hu | exists (accessible g); split; [left | done] |].
      exfalso. eapply List.find_none in Hb; [|by apply list_elem_of_In]. simpl in Hb. by rewrite Hb2, str_eq_refl in Hb.
Qed.

Lemma accessible_sound dg db s l i :
  ResolveAccessibleGroups dg db s = Ok l -> i ∈ l -> may_use dg db s (ag_Group i) /\ multiplier_of db s i.
Proof.
  rewrite ResolveAccessibleGroups_unfold. unfold may_use, in_scope. intros H Hi.
  destruct (blank (sj_TenantID s)); [done|].
  destruct (blank (sj_ForcedGroupID s)); simpl in H.
  - destruct (str_eq (sj_GroupID s) "") eqn:Hk.
    + simplify_eq. apply user_visible_sound in Hi as (? & ? & ? & ? & ?). split_and!; try done. left. by apply str_eq_true.
    + destruct (accessible_by_id _ !! _) as [x|] eqn:Hx; simplify_eq; [|by apply elem_of_nil in Hi].
      apply list_elem_of_singleton in Hi as ->. apply accessible_Some in Hx as [Hx Hid].
      apply user_visible_sound in Hx as (? & ? & ? & ? & ?). split_and!; try done. by right.
  - eapply forced_sound in H as (? & ? & ? & ? & ? & ?); [|done]. by split_and!.
Qed.
Lemma accessible_complete dg db s l g :
  NoDup (gr_ID <$> c_groups dg) -> ResolveAccessibleGroups dg db s = Ok l -> may_use dg db s g ->
  exists i, i ∈ l /\ ag_Group i = g.
Proof.
  rewrite ResolveAccessibleGroups_unfold. unfold may_use, in_scope. intros Hnd H (Hg & Ht & Ha & Hv & Hs).
  destruct (blank (sj_TenantID s)); [done|].
  destruct (blank (sj_ForcedGroupID s)); simpl in H; [|by eapply forced_complete].
  destruct (user_visible_complete dg db s g) as (i & Hi & Hig); [done..|].
  destruct (str_eq (sj_GroupID s) "") eqn:Hk; simplify_eq; [by exists i|].
  destruct Hs as [Hs|Hs]; [by rewrite Hs in Hk|].
  destruct (accessible_by_id _ !! _) as [x|] eqn:Hx.
  - apply accessible_Some in Hx as [Hx Hid]. exists (bind_key x). split; [left|]. simpl.
    apply user_visible_sound in Hx as [Hx _]. apply (keyed_unique gr_ID (c_groups dg)); [done..|congruence].
  - rewrite accessible_None in Hx. by destruct (Hx i Hi).
Qed.

(** The accessible groups come in the tenant's order. *)
Definition group_before (a b : AccessibleGroup) : bool := group_less (ag_Group a) (ag_Group b).

Lemma in_order_omap {A B} (lessA : A -> A -> bool) (lessB : B -> B -> bool) (f : A -> option B) l :
  (forall a a' b b', f a = Some b -> f a' = Some b' -> lessA a' a = false -> lessB b' b = false) ->
  in_order lessA l -> in_order lessB (omap f l).
Proof.
  unfold in_order. intros Hf. induction 1 as [|a l Hl IH Ha]; [constructor|]. simpl.
  destruct (f a) as [b|] eqn:Hb; [|done]. constructor; [done|].
  apply Forall_forall. intros y (x & Hx & Hy)%list_elem_of_omap. rewrite Forall_forall in Ha. eapply Hf; [done..|by apply Ha].
Qed.
Lemma user_visible_in_order dg db s : in_order group_before (user_visible dg db s).
Proof.
  unfold user_visible. cbv zeta.
  set (rows := List.filter _ (sortGroups _)).
  assert (Hrows : in_order group_less rows) by (apply in_order_filter, SliceStable_in_order, group_less_weak).
  assert (Hv : in_order group_before (accessible <$> rows)).
  { clear -Hrows. unfold in_order in *. induction Hrows as [|g l Hl IH Hg]; [constructor|]. cbn [fmap list_fmap]. constructor; [done|].
    apply Forall_forall. intros y (x & -> & Hx)%list_elem_of_fmap. rewrite Forall_forall in Hg. by apply Hg. }
  destruct (str_eq (sj_UserID s) ""); [done|]. eapply in_order_omap; [|exact Hv].
  intros a a' b b' Ha Ha' H. unfold group_before in *.
  assert (Hsame : forall o i j, user_sees o i = Some j -> ag_Group j = ag_Group i).
  { intros [bb|] i j; simpl; [by intros [= <-]|]. destruct (ag_UserDefaultVisible i); [by intros [= <-] | done]. }
  by rewrite (Hsame _ _ _ Ha), (Hsame _ _ _ Ha').
Qed.
Lemma accessible_in_order dg db s l : ResolveAccessibleGroups dg db s = Ok l -> in_order group_before l.
Proof.
  assert (Hone : forall i, in_order group_before [i]) by (intros; repeat constructor).
  assert (Hnil : in_order group_before []) by constructor.
  rewrite ResolveAccessibleGroups_unfold. intros H. destruct (blank (sj_TenantID s)); [done|].
  destruct (blank (sj_ForcedGroupID s)); simpl in H.
  - destruct (str_eq (sj_GroupID s) ""); simplify_eq; [apply user_visible_in_order|].
    by destruct (accessible_by_id _ !! _).
  - unfold resolveForcedGroup in H. repeat case_match; by simplify_eq.
Qed.

(** ** The dispatch data *)

Definition group_row {A} (group : A -> string) (rows : cdb -> list A) (tenant id : string) (d : cdb) (x : A) : Prop :=
  x ∈ rows d /\ group x = id /\ is_Some (find_group tenant id d).
Definition surface_of := group_row cs_GroupID c_surfaces.
Definition rule_in := group_row dr_GroupID c_rules.
Definition target_in := group_row gt_GroupID c_targets.

Lemma wanted_true ids tenant d id k :
  k ∈ ids -> (str_in id ids && bool_decide (is_Some (find_group tenant id d))) && str_eq id k = true <->
  id = k /\ is_Some (find_group tenant k d).
Proof.
  intros Hk. unfold str_in. rewrite !andb_true_iff, !bool_decide_eq_true, str_eq_true.
  split; [intros [[? ?] ->]; done | intros [-> ?]; done].
Qed.

Lemma surfaces_in_spec tenant ids d k x :
  k ∈ ids -> x ∈ surfaces_in (LoadDispatchData tenant ids d) k <-> surface_of tenant k d x.
Proof.
  intros Hk. unfold surfaces_in, LoadDispatchData, surface_of, group_row. cbn [dd_ClientSurfaces].
  rewrite elem_of_filter_rows, elem_of_order_by, elem_of_filter_rows.
  pose proof (wanted_true ids tenant d (cs_GroupID x) k Hk) as Hw. rewrite andb_true_iff in Hw. tauto.
Qed.
Lemma rules_in_spec tenant ids d k x :
  k ∈ ids -> x ∈ rules_in (LoadDispatchData tenant ids d) k <-> rule_in tenant k d x.
Proof.
  intros Hk. unfold rules_in, LoadDispatchData, rule_in, group_row. cbn [dd_Rules].
  rewrite elem_of_filter_rows, elem_of_SliceStable, elem_of_filter_rows.
  pose proof (wanted_true ids tenant d (dr_GroupID x) k Hk) as Hw. rewrite andb_true_iff in Hw. tauto.
Qed.
Lemma targets_in_spec tenant ids d k x :
  k ∈ ids -> x ∈ targets_in (LoadDispatchData tenant ids d) k <->
  target_in tenant k d x /\ target_permitted tenant (gt_TargetKind x) (gt_TargetID x) d = true.
Proof.
  intros Hk. unfold targets_in, LoadDispatchData, target_in, group_row. cbn [dd_Targets].
  rewrite elem_of_filter_rows, elem_of_SliceStable, elem_of_filter_rows, andb_true_iff.
  pose proof (wanted_true ids tenant d (gt_GroupID x) k Hk) as Hw. rewrite andb_true_iff in Hw. tauto.
Qed.
Lemma targets_in_order tenant ids d k : in_order target_less (targets_in (LoadDispatchData tenant ids d) k).
Proof. apply in_order_filter, SliceStable_in_order, target_less_weak. Qed.

(** The first active row for the surface decides. *)
Lemma surface_entry_spec entries cs allow ok conv :
  surface_entry entries cs allow = (ok, conv) ->
  if ok then exists x, x ∈ entries /\ cs_Status x = StatusActive /\ cs_Surface x = cs /\ conv = allow && cs_BridgeEnabled x
  else forall x, x ∈ entries -> cs_Status x = StatusActive -> cs_Surface x <> cs.
Proof.
  induction entries as [|e rest IH]; cbn [surface_entry].
  { intros [= <- <-]. by intros ? ?%elem_of_nil. }
  destruct (str_eq (cs_Status e) StatusActive) eqn:Ha; simpl; [destruct (str_eq (cs_Surface e) cs) eqn:Hs; simpl|].
  - intros [= <- <-]. exists e. apply str_eq_true in Ha, Hs. split; [left | done].
  - intros H%IH. destruct ok.
    + destruct H as (x & Hx & H). exists x. split; [by right | done].
    + intros x [->|Hx]%elem_of_cons; [|by apply H]. intros _ Heq. by rewrite Heq, str_eq_refl in Hs.
  - intros H%IH. destruct ok.
    + destruct H as (x & Hx & H). exists x. split; [by right | done].
    + intros x [->|Hx]%elem_of_cons; [|by apply H]. intros Heq. by rewrite Heq, str_eq_refl in Ha.
Qed.

(** Whether a group accepts a surface, and whether it may then convert. *)
Definition accepts (tenant : string) (d : cdb) (g : Group) (cs : string) : Prop :=
  (forall x, ~ surface_of tenant (gr_ID g) d x) \/
  exists x, surface_of tenant (gr_ID g) d x /\ cs_Status x = StatusActive /\ cs_Surface x = cs.
Definition may_convert (tenant : string) (d : cdb) (g : Group) (cs : string) (allow : bool) : Prop :=
  ((forall x, ~ surface_of tenant (gr_ID g) d x) /\ allow = gr_AllowProtocolConversion g) \/
  exists x, surface_of tenant (gr_ID g) d x /\ cs_Status x = StatusActive /\ cs_Surface x = cs /\
    allow = gr_AllowProtocolConversion g && cs_BridgeEnabled x.

Lemma surface_policy_spec tenant ids d g cs ok conv :
  gr_ID g ∈ ids ->
  resolveGroupClientSurfacePolicy (surfaces_in (LoadDispatchData tenant ids d) (gr_ID g)) cs (gr_AllowProtocolConversion g)
    = (ok, conv) ->
  if ok then accepts tenant d g cs /\ may_convert tenant d g cs conv else ~ accepts tenant d g cs.
Proof.
  intros Hk H. unfold accepts, may_convert.
  pose proof (fun x => surfaces_in_spec tenant ids d (gr_ID g) x Hk) as Hrows.
  destruct (surfaces_in _ _) as [|e rest] eqn:Hs; cbn [resolveGroupClientSurfacePolicy] in H.
  - simplify_eq. assert (Hno : forall x, ~ surface_of tenant (gr_ID g) d x) by (intros x Hx; by apply Hrows, elem_of_nil in Hx).
    split; by left.
  - apply surface_entry_spec in H. destruct ok.
    + destruct H as (x & Hx & Ha & Hc & ->). apply Hrows in Hx. split; right; by exists x.
    + intros [Hno | (x & Hx & Ha & Hc)]; [eapply Hno, Hrows; left | by eapply H; [apply Hrows|..]].
Qed.

(** ** Options *)

Section Options.
Context (regexp_match : string -> string -> bool) (tenant : string) (d : cdb) (s : Subject) (cs model : string).

(** The rule that decides: an active rule of the group for the surface that matches,
    and none of the others that do comes before it. *)
Definition decides (g : Group) (matched : option DispatchRule) : Prop :=
  match matched with
  | Some r => rule_in tenant (gr_ID g) d r /\ rule_applies regexp_match cs model r = true /\
      forall x, rule_in tenant (gr_ID g) d x -> rule_applies regexp_match cs model x = true -> x = r \/ rule_less x r = false
  | None => forall x, rule_in tenant (gr_ID g) d x -> rule_applies regexp_match cs model x = false
  end.
Definition model_of (matched : option DispatchRule) : string :=
  match matched with Some r => dr_TargetModelID r | None => model end.
Definition allowed_model (m : string) : Prop := sj_AllowedModels s = [] \/ m ∈ sj_AllowedModels s.

(** What an option promises of the group it is for. *)
Record option_ok (i : AccessibleGroup) (o : DispatchResolution) : Prop := MkOptionOk {
  oo_group : exists allow, re_Group o = set_conversion allow i /\ may_convert tenant d (ag_Group i) cs allow;
  oo_accepts : accepts tenant d (ag_Group i) cs;
  oo_requested : re_RequestedModel o = model;
  oo_rule : decides (ag_Group i) (re_MatchedRule o);
  oo_model : re_ResolvedModelID o = model_of (re_MatchedRule o);
  oo_allowed : allowed_model (re_ResolvedModelID o);
  oo_targets : forall t, t ∈ re_Targets o <-> target_in tenant (gr_ID (ag_Group i)) d t /\ gt_Status t = StatusActive /\
    target_permitted tenant (gt_TargetKind t) (gt_TargetID t) d = true;
  oo_order : in_order target_less (re_Targets o) }.

Lemma matchDispatchRule_decides ids g :
  gr_ID g ∈ ids ->
  decides g (matchDispatchRule regexp_match (sortDispatchRules (rules_in (LoadDispatchData tenant ids d) (gr_ID g))) cs model).
Proof.
  intros Hk. unfold matchDispatchRule, sortDispatchRules.
  assert (Hin : forall x, x ∈ SliceStable rule_less (rules_in (LoadDispatchData tenant ids d) (gr_ID g)) <-> rule_in tenant (gr_ID g) d x)
    by (intros x; by rewrite elem_of_SliceStable, rules_in_spec).
  pose proof (SliceStable_in_order rule_less (rules_in (LoadDispatchData tenant ids d) (gr_ID g)) rule_less_weak) as Hord.
  destruct (List.find _ _) as [r|] eqn:Hf; simpl.
  - eapply find_first in Hf as (Hr & Hp & Hmin); [|exact Hord]. split; [by apply Hin|]. split; [done|].
    intros x Hx. by apply Hmin, Hin.
  - intros x Hx. eapply List.find_none in Hf; [exact Hf|]. by apply list_elem_of_In, Hin.
Qed.

Lemma resolve_group_spec ids i :
  gr_ID (ag_Group i) ∈ ids ->
  match resolve_group regexp_match (LoadDispatchData tenant ids d) s cs model i with
  | None => ~ accepts tenant d (ag_Group i) cs
  | Some None => accepts tenant d (ag_Group i) cs /\
      exists matched, decides (ag_Group i) matched /\ ~ allowed_model (model_of matched)
  | Some (Some o) => option_ok i o
  end.
Proof.
  intros Hk. unfold resolve_group. cbv zeta.
  destruct (resolveGroupClientSurfacePolicy _ _ _) as [ok conv] eqn:Hp. apply surface_policy_spec in Hp; [|done].
  destruct ok; simpl; [destruct Hp as [Hacc Hconv] | done].
  pose proof (matchDispatchRule_decides ids (ag_Group i) Hk) as Hd.
  set (matched := matchDispatchRule _ _ _ _) in *. change (match matched with Some r => dr_TargetModelID r | None => model end) with (model_of matched).
  destruct (_ && _) eqn:Hal.
  - apply andb_true_iff in Hal as [H1%negb_true_iff%bool_decide_eq_false H2%negb_true_iff%bool_decide_eq_false].
    split; [done|]. exists matched. split; [done|]. by intros [?|?].
  - constructor; cbn [re_Group re_RequestedModel re_MatchedRule re_ResolvedModelID re_Targets]; try done.
    + by exists conv.
    + unfold allowed_model. apply andb_false_iff in Hal as [H%negb_false_iff%bool_decide_eq_true|H%negb_false_iff%bool_decide_eq_true]; tauto.
    + intros t. unfold filterActiveTargets. rewrite elem_of_filter_rows, str_eq_true, targets_in_spec by done. tauto.
    + apply in_order_filter, targets_in_order.
Qed.
End Options.

Lemma omap_id_omap {A B} (f : A -> option (option B)) (l : list A) b : b ∈ omap id (omap f l) <-> exists a, a ∈ l /\ f a = Some (Some b).
Proof.
  rewrite list_elem_of_omap. split.
  - intros (x & (a & Ha & Hf)%list_elem_of_omap & Hx). unfold id in Hx. subst. by exists a.
  - intros (a & Ha & Hf). exists (Some b). split; [|done]. apply list_elem_of_omap. by exists a.
Qed.

(** The three ways [ResolveDispatch] ends once the groups are known. *)
Lemma ResolveDispatch_cases regexp_match dg db dd s cs rm l :
  ResolveAccessibleGroups dg db s = Ok l -> TrimSpace rm <> "" -> IsKnown cs = true ->
  let ids := (fun i => gr_ID (ag_Group i)) <$> l in
  let f := resolve_group regexp_match (LoadDispatchData (sj_TenantID s) ids dd) s cs (TrimSpace rm) in
  ResolveDispatch regexp_match dg db dd s cs rm =
  if Nat.eqb (length l) 0 then Err ErrNoAccessibleGroup
  else if Nat.eqb (length (omap f l)) 0 then Err ErrClientSurfaceNotAllowed else Ok (omap id (omap f l)).
Proof.
  intros Hl Hm Hc. cbv zeta. unfold ResolveDispatch. apply str_eq_false in Hm. rewrite Hm, Hc, Hl. simpl. by destruct l.
Qed.
Lemma ResolveDispatch_Ok regexp_match dg db dd s cs rm opts :
  ResolveDispatch regexp_match dg db dd s cs rm = Ok opts ->
  TrimSpace rm <> "" /\ IsKnown cs = true /\ exists l, ResolveAccessibleGroups dg db s = Ok l.
Proof.
  unfold ResolveDispatch. destruct (str_eq _ "") eqn:Hm; [done|]. apply str_eq_false in Hm.
  destruct (IsKnown cs); [|done]. simpl. destruct (ResolveAccessibleGroups dg db s) as [l|] eqn:Hl; [|done].
  intros _. split_and!; [done..|]. by exists l.
Qed.
Lemma ResolveDispatch_option regexp_match dg db dd s cs rm opts o :
  ResolveDispatch regexp_match dg db dd s cs rm = Ok opts -> o ∈ opts ->
  exists i, may_use dg db s (ag_Group i) /\ multiplier_of db s i /\
    option_ok regexp_match (sj_TenantID s) dd s cs (TrimSpace rm) i o.
Proof.
  intros H Ho. destruct (ResolveDispatch_Ok _ _ _ _ _ _ _ _ H) as (Hm & Hc & l & Hl).
  rewrite (ResolveDispatch_cases _ _ _ _ _ _ _ l) in H by done. cbv zeta in H.
  destruct (Nat.eqb (length l) 0); [done|]. destruct (Nat.eqb _ 0); [done|]. injection H as <-.
  apply omap_id_omap in Ho as (i & Hi & Hf). exists i.
  destruct (accessible_sound _ _ _ _ _ Hl Hi) as [? ?]. split_and!; [done..|].
  pose proof (resolve_group_spec regexp_match (sj_TenantID s) dd s cs (TrimSpace rm) ((fun i => gr_ID (ag_Group i)) <$> l) i) as Hs.
  rewrite Hf in Hs. apply Hs, list_elem_of_fmap. by exists i.
Qed.

(** ** Properties *)

(** C23: every option a request is given is one the caller is entitled to.  Its group is
    an active group of the caller's tenant, is visible to everyone or bound to the user,
    and is the one group the key or the app is restricted to; the user pays that group's
    multiplier or the override of the binding; the group accepts the client's surface,
    and converts protocols only if both the group and the surface's row allow it; the
    model is the one asked for or the target of a rule, and is among the models the
    caller may use; and the targets are exactly the group's active targets on resources
    open to the tenant. *)
Theorem ResolveDispatch_authorized regexp_match dg db dd s cs rm opts o :
  ResolveDispatch regexp_match dg db dd s cs rm = Ok opts -> o ∈ opts ->
  let g := ag_Group (re_Group o) in
  let tenant := sj_TenantID s in
  (exists g0, g0 ∈ c_groups dg /\ gr_TenantID g0 = tenant /\ gr_Status g0 = StatusActive /\
     visible_to db s g0 /\ in_scope s g0 /\
     g = ag_Group (set_conversion (gr_AllowProtocolConversion g) (accessible g0)) /\
     may_convert tenant dd g0 cs (gr_AllowProtocolConversion g) /\ accepts tenant dd g0 cs /\
     (if ag_UserBound (re_Group o)
      then exists b, binds db s g0 b /\
             ag_EffectiveUserMultiplier (re_Group o) = default (gr_DefaultUserMultiplier g0) (ub_UserMultiplierOverride b)
      else ag_EffectiveUserMultiplier (re_Group o) = gr_DefaultUserMultiplier g0)) /\
  (sj_AllowedModels s = [] \/ re_ResolvedModelID o ∈ sj_AllowedModels s) /\
  re_ResolvedModelID o = match re_MatchedRule o with Some r => dr_TargetModelID r | None => TrimSpace rm end /\
  (forall t, t ∈ re_Targets o <->
     target_in tenant (gr_ID g) dd t /\ gt_Status t = StatusActive /\
     target_permitted tenant (gt_TargetKind t) (gt_TargetID t) dd = true) /\
  in_order target_less (re_Targets o).
Proof.
  intros H Ho. apply (ResolveDispatch_option _ _ _ _ _ _ _ _ o) in H as (i & (Hg & Ht & Ha & Hv & Hs) & Hm & Hok); [|done].
  destruct Hok as [(allow & Hgr & Hconv) Hacc _ _ Hmodel Hal Htg Hord]. cbv zeta. rewrite Hgr.
  split_and!; [|exact Hal | exact Hmodel | exact Htg | exact Hord].
  exists (ag_Group i). split_and!; try done; exact Hm.
Qed.

(** The rule that decides the model of an option is the first of its group, by
    priority, then age, then identity, among the active ones for the client's surface
    whose pattern the requested model matches; without one, no such rule matches. *)
Theorem first_matching_rule_decides regexp_match dg db dd s cs rm opts o :
  ResolveDispatch regexp_match dg db dd s cs rm = Ok opts -> o ∈ opts ->
  let id := gr_ID (ag_Group (re_Group o)) in
  let applies r := rule_in (sj_TenantID s) id dd r /\ dr_Status r = StatusActive /\ dr_ClientSurface r = cs /\
                   dispatchRuleMatches regexp_match r (TrimSpace rm) = true in
  match re_MatchedRule o with
  | Some r => applies r /\
      forall x, applies x -> x = r \/ dr_Priority r < dr_Priority x \/
        (dr_Priority r = dr_Priority x /\ dr_CreatedAt r < dr_CreatedAt x) \/
        (dr_Priority r = dr_Priority x /\ dr_CreatedAt r = dr_CreatedAt x /\ String.ltb (dr_ID x) (dr_ID r) = false)
  | None => forall x, ~ applies x
  end.
Proof.
  intros H Ho. apply (ResolveDispatch_option _ _ _ _ _ _ _ _ o) in H as (i & _ & _ & Hok); [|done].
  destruct Hok as [(allow & Hgr & _) _ _ Hrule _ _ _ _]. cbv zeta. rewrite Hgr. cbn [ag_Group set_conversion gr_ID].
  assert (Happ : forall x, rule_applies regexp_match cs (TrimSpace rm) x = true <->
    dr_Status x = StatusActive /\ dr_ClientSurface x = cs /\ dispatchRuleMatches regexp_match x (TrimSpace rm) = true)
    by (intros x; unfold rule_applies; rewrite !andb_true_iff, !str_eq_true; tauto).
  unfold decides in Hrule. destruct (re_MatchedRule o) as [r|].
  - destruct Hrule as (Hr & Hp & Hmin). split; [split; [done | by apply Happ]|]. intros x [Hx Hxp].
    destruct (Hmin x Hx) as [->|Hless]; [by apply Happ | by left | right].
    unfold rule_less in Hless. destruct (dr_Priority x =? dr_Priority r) eqn:Hpr; simpl in Hless.
    + apply Z.eqb_eq in Hpr. right. destruct (dr_CreatedAt x =? dr_CreatedAt r) eqn:Hcr; simpl in Hless.
      * apply Z.eqb_eq in Hcr. by right.
      * apply Z.eqb_neq in Hcr. apply Z.ltb_ge in Hless. left. lia.
    + apply Z.eqb_neq in Hpr. apply Z.ltb_ge in Hless. left. lia.
  - intros x [Hx Hxp]. apply Happ in Hxp. by rewrite (Hrule x Hx) in Hxp.
Qed.

(** C24: a request for a tenant, with a model and a known surface and not forced to a
    group, is refused for want of a group exactly when the caller may use none, refused
    for its surface exactly when none of those it may use accepts it, and is otherwise
    given an option in every group that accepts the surface and whose model for the
    request the caller may use. *)
Theorem ResolveDispatch_complete regexp_match dg db dd s cs rm :
  NoDup (gr_ID <$> c_groups dg) ->
  blank (sj_TenantID s) = false -> blank (sj_ForcedGroupID s) = true -> TrimSpace rm <> ""%string -> IsKnown cs = true ->
  match ResolveDispatch regexp_match dg db dd s cs rm with
  | Err ErrNoAccessibleGroup => forall g, ~ may_use dg db s g
  | Err ErrClientSurfaceNotAllowed =>
      (exists g, may_use dg db s g) /\ forall g, may_use dg db s g -> ~ accepts (sj_TenantID s) dd g cs
  | Err (ErrCommercial _) => False
  | Ok opts =>
      (exists g, may_use dg db s g /\ accepts (sj_TenantID s) dd g cs) /\
      forall g, may_use dg db s g -> accepts (sj_TenantID s) dd g cs ->
        (exists o, o ∈ opts /\ gr_ID (ag_Group (re_Group o)) = gr_ID g) \/
        (exists matched, decides regexp_match (sj_TenantID s) dd cs (TrimSpace rm) g matched /\
           ~ allowed_model s (model_of (TrimSpace rm) matched))
  end.
Proof.
  intros Hnd Ht Hf Hm Hc.
  assert (exists l, ResolveAccessibleGroups dg db s = Ok l) as [l Hl]
    by (rewrite ResolveAccessibleGroups_unfold, Ht, Hf; by eexists).
  rewrite (ResolveDispatch_cases _ _ _ _ _ _ _ l) by done. cbv zeta.
  set (ids := (fun i => gr_ID (ag_Group i)) <$> l). set (f := resolve_group _ _ _ _ _).
  assert (Hspec : forall i, i ∈ l -> _)
    by (intros i Hi; exact (resolve_group_spec regexp_match (sj_TenantID s) dd s cs (TrimSpace rm) ids i (list_elem_of_fmap_2 _ _ _ Hi))).
  change (resolve_group regexp_match (LoadDispatchData (sj_TenantID s) ids dd) s cs (TrimSpace rm)) with f in Hspec.
  destruct (Nat.eqb (length l) 0) eqn:Hnil.
  { apply Nat.eqb_eq, length_zero_iff_nil in Hnil. subst l. intros g Hg.
    destruct (accessible_complete _ _ _ _ g Hnd Hl Hg) as (i & Hi & _). by apply elem_of_nil in Hi. }
  destruct (Nat.eqb (length (omap f l)) 0) eqn:Hno.
  - apply Nat.eqb_eq, length_zero_iff_nil in Hno.
    split; [destruct l as [|i l']; [done|]; exists (ag_Group i); eapply accessible_sound; [exact Hl | left]|].
    intros g Hg. destruct (accessible_complete _ _ _ _ g Hnd Hl Hg) as (i & Hi & <-). specialize (Hspec i Hi).
    destruct (f i) as [o|] eqn:Hfi; [|done]. exfalso.
    assert (Hin : o ∈ omap f l) by (apply list_elem_of_omap; by exists i). rewrite Hno in Hin. by apply elem_of_nil in Hin.
  - split.
    + destruct (omap f l) as [|o rest] eqn:Ho; [done|].
      assert (o ∈ omap f l) as (i & Hi & Hfi)%list_elem_of_omap by (rewrite Ho; left).
      exists (ag_Group i). split; [by eapply accessible_sound|]. specialize (Hspec i Hi). rewrite Hfi in Hspec.
      destruct o as [o|]; [apply (oo_accepts _ _ _ _ _ _ _ _ Hspec) | apply Hspec].
    + intros g Hg Hacc. destruct (accessible_complete _ _ _ _ g Hnd Hl Hg) as (i & Hi & <-). specialize (Hspec i Hi).
      destruct (f i) as [[o|]|] eqn:Hfi; [left | right; apply Hspec | by destruct Hspec].
      exists o. split; [apply omap_id_omap; by exists i|]. by destruct (oo_group _ _ _ _ _ _ _ _ Hspec) as (allow & -> & _).
Qed.

(** Read from tables the control plane can reach, a rule never sends a request on a
    known surface to a model its group does not sell: the group's retail price book has a price for the
    rule's model and the capability of the surface, and the book is active and the
    tenant may sell from it. *)
Theorem dispatched_model_is_priced bad_regexp regexp_match d s cs rm opts o r :
  com_reachable bad_regexp d -> IsKnown cs = true ->
  ResolveDispatch regexp_match d d d s cs rm = Ok opts -> o ∈ opts -> re_MatchedRule o = Some r ->
  has_price d (gr_RetailPriceBookID (ag_Group (re_Group o))) (re_ResolvedModelID o) (dispatchRequiredCapability cs) = true /\
  exists b, find_book (gr_RetailPriceBookID (ag_Group (re_Group o))) d = Some b /\ book_usable (sj_TenantID s) b = true.
Proof.
  intros Hr%reachable_ok Hk H Ho Hm.
  apply (ResolveDispatch_option _ _ _ _ _ _ _ _ o) in H as (i & (Hg & Ht & Hga & _) & _ & Hok); [|done].
  destruct Hok as [(allow & Hgr & _) _ _ Hrule Hmodel _ _ _]. rewrite Hm in Hrule, Hmodel. rewrite Hgr, Hmodel.
  cbn [ag_Group set_conversion gr_RetailPriceBookID].
  destruct Hrule as ((Hrin & Hrg & _) & Hp & _). unfold rule_applies in Hp. bool_prop.
  rename select (str_eq (dr_Status r) _ = true) into Ha. rename select (str_eq (dr_ClientSurface r) _ = true) into Hcs.
  apply str_eq_true in Ha, Hcs. subst cs. split.
  - destruct (ok_rules _ (ok_r _ Hr) r Hrin) as (h & Hh & Hpr).
    assert (h = ag_Group i) as -> by (eapply in_group_unique; [apply Hr | done | by split]). by apply Hpr.
  - rewrite <- Ht. exact (ok_sells _ (ok_g _ Hr) _ Hg).
Qed.

(** *** Instances *)

Definition no_regexp (_ _ : string) : bool := false.
Definition demo_subject : Subject := MkSubject "api_key" "api_key" "tenant" "t1" "" "k1" "g1" [] None 0 "".
Abbreviation demo_dispatch :=
  (ResolveDispatch no_regexp demo_cdb demo_cdb demo_cdb demo_subject "openai_chat" " gpt-latest").
Definition demo_option : DispatchResolution :=
  MkResolution (set_conversion false (bind_key (accessible demo_group_row))) "gpt-latest" "gpt" (Some demo_rule_row)
    [MkTarget "x1" "g1" "direct_upstream" "u1" 100 "active"].
Example demo_dispatched : demo_dispatch = Ok [demo_option].
Proof. vm_compute. reflexivity. Qed.
Example demo_refused :
  ResolveDispatch no_regexp demo_cdb demo_cdb demo_cdb (MkSubject "api_key" "api_key" "tenant" "t2" "" "k1" "g1" [] None 0 "")
    "openai_chat" "gpt" = Err ErrNoAccessibleGroup.
Proof. vm_compute. reflexivity. Qed.

Lemma ResolveDispatch_authorized_witness :
  sj_AllowedModels demo_subject = [] \/ "gpt"%string ∈ sj_AllowedModels demo_subject.
Proof.
  destruct (ResolveDispatch_authorized no_regexp demo_cdb demo_cdb demo_cdb demo_subject "openai_chat" " gpt-latest"
    [demo_option] demo_option demo_dispatched (list_elem_of_here _ _)) as (_ & H & _). exact H.
Defined.
Lemma first_matching_rule_decides_witness : rule_in "t1" "g1" demo_cdb demo_rule_row.
Proof.
  pose proof (first_matching_rule_decides no_regexp demo_cdb demo_cdb demo_cdb demo_subject "openai_chat" " gpt-latest"
    [demo_option] demo_option demo_dispatched (list_elem_of_here _ _)) as [[H _] _]. exact H.
Defined.
Lemma demo_ids : NoDup (gr_ID <$> c_groups demo_cdb).
Proof. rewrite (proj1 demo_rows). apply NoDup_singleton. Qed.
Lemma ResolveDispatch_complete_witness : exists g, may_use demo_cdb demo_cdb demo_subject g /\ accepts "t1" demo_cdb g "openai_chat".
Proof.
  pose proof (ResolveDispatch_complete no_regexp demo_cdb demo_cdb demo_cdb demo_subject "openai_chat" " gpt-latest"
    demo_ids eq_refl eq_refl) as H. rewrite demo_dispatched in H. apply H; [discriminate | reflexivity].
Defined.
Lemma dispatched_model_is_priced_witness : has_price demo_cdb "book" "gpt" "chat" = true.
Proof.
  destruct (dispatched_model_is_priced no_pattern no_regexp demo_cdb demo_subject "openai_chat" " gpt-latest" [demo_option]
    demo_option demo_rule_row demo_cdb_reachable eq_refl demo_dispatched (list_elem_of_here _ _) eq_refl) as [H _]. exact H.
Defined.
