(* ===== verification/Upstream.v ===== *)
(** * Upstream resources and who may use them

    The tables of upstream accounts, credential pools, endpoints and model bindings
    ([src/internal/db/init.sql]), the policies that open a resource to a tenant
    ([src/internal/ai/upstreamaccess/service.go],
    [src/internal/ai/adapters/postgres/upstream_access.go]), and the check behind every
    runtime binding ([RuntimeBindingAuthorizer]). *)

From Stdlib Require Import QArith.
From S2P Require Import Prelude GoStrings Decimal PriceTiers CommercialDB Commercial CommercialFacts.
#[global] Open Scope Z_scope.

(** ** Tables *)

(** [ai_upstream_accounts]; an empty price book is NULL. *)
Record UpstreamAccount := MkAccount {
  ua_ID : string; ua_Name : string; ua_AccessMode : string; ua_ApiKeyCiphertext : string;
  ua_ConcurrencyLimit : option Z; ua_PriceBookID : string; ua_TenantMultiplier : option float64; ua_Status : string }.

(** [ai_credential_pools] *)
Record CredentialPool := MkPool {
  cp_ID : string; cp_Name : string; cp_AccessMode : string; cp_FixedProviderType : string; cp_OAuthStrategy : string;
  cp_PriceBookID : string; cp_TenantMultiplier : option float64; cp_Status : string }.

(** [ai_upstream_account_endpoints] *)
Record Endpoint := MkEndpoint {
  ep_ID : string; ep_AccountID : string; ep_APIFormat : string; ep_BaseURL : string; ep_PathOverride : string;
  ep_AuthScheme : string; ep_AuthHeader : string; ep_ExtraHeaders : gmap string string; ep_Status : string }.

(** The image policy of a binding's [config_json], as decoded: the numbers under
    [image_generation], where there are any. *)
Record ImagePolicy := MkImagePolicy { ip_max_output_count : option float64; ip_edit_max_output_count : option float64 }.

(** [ai_upstream_models] *)
Record UpstreamModel := MkUpstreamModel {
  um_Kind : string; um_UpstreamID : string; um_ModelCode : string; um_CapabilityType : string;
  um_UpstreamModelName : string; um_Status : string; um_Config : ImagePolicy }.

(** [ai_upstream_resource_tenant_policies] *)
Record TenantPolicy := MkTenantPolicy {
  tp_Kind : string; tp_ID : string; tp_TenantID : string; tp_AccessGranted : bool;
  tp_MultiplierOverride : option float64 }.

Record udb := MkUDB {
  u_accounts : list UpstreamAccount;
  u_pools : list CredentialPool;
  u_endpoints : list Endpoint;
  u_models : list UpstreamModel;
  u_policies : list TenantPolicy;
  u_entries : list PriceBookEntry }.
Definition with_policies (x : list TenantPolicy) (d : udb) : udb :=
  MkUDB (u_accounts d) (u_pools d) (u_endpoints d) (u_models d) x (u_entries d).

Definition KindDirectUpstream : string := "direct_upstream".
Definition KindOAuthPool : string := "oauth_pool".
Definition ModePublic : string := "public".
Definition ModeRestricted : string := "restricted".

(** The view [ai_upstream_resources]. *)
Record ResourceRow := MkResourceRow {
  rr_Kind : string; rr_ID : string; rr_AccessMode : string; rr_Status : string; rr_TenantMultiplier : option float64 }.
Definition resources (d : udb) : list ResourceRow :=
  ((fun a => MkResourceRow KindDirectUpstream (ua_ID a) (ua_AccessMode a) (ua_Status a) (ua_TenantMultiplier a)) <$> u_accounts d)
  ++ ((fun p => MkResourceRow KindOAuthPool (cp_ID p) (cp_AccessMode p) (cp_Status p) (cp_TenantMultiplier p)) <$> u_pools d).
Definition resource_at (kind id : string) (r : ResourceRow) : bool := str_eq (rr_Kind r) kind && str_eq (rr_ID r) id.

(** ** Policies *)

Inductive up_error := UpValidation (field : string) | UpOutOfRange | UpConflict.
Abbreviation UTx := (Tx udb up_error).

(** [TenantResourcePolicy] as written. *)
Record PolicyWrite := MkPolicyWrite {
  pw_Kind : string; pw_ID : string; pw_AccessGranted : bool; pw_MultiplierOverride : option float64 }.

(** [NormalizeMode] *)
Definition NormalizeMode (value : string) : option string :=
  let mode := TrimSpace value in
  if str_eq mode "" then Some ModePublic
  else if str_eq mode ModePublic || str_eq mode ModeRestricted then Some mode else None.

(** [validateRef] *)
Definition validateRef (kind id : string) : option string :=
  if negb (str_eq kind KindDirectUpstream) && negb (str_eq kind KindOAuthPool) then Some "resource_kind"%string
  else if str_eq id "" then Some "resource_id"%string else None.

(** The loop of [ReplacePolicies]: the policies trimmed, or the field refused. *)
Fixpoint check_policies (seen : gset (string * string)) (l : list PolicyWrite) : result string (list PolicyWrite) :=
  match l with
  | [] => Ok []
  | p :: l =>
      let kind := TrimSpace (pw_Kind p) in
      let id := TrimSpace (pw_ID p) in
      match validateRef kind id with
      | Some field => Err field
      | None =>
          if match pw_MultiplierOverride p with Some v => price_invalid v | None => false end
          then Err "tenant_multiplier_override"%string
          else if bool_decide ((kind, id) ∈ seen) then Err "policies"%string
          else match check_policies ({[ (kind, id) ]} ∪ seen) l with
          | Ok rest => Ok (MkPolicyWrite kind id (pw_AccessGranted p) (pw_MultiplierOverride p) :: rest)
          | Err e => Err e
          end
      end
  end.

(** A multiplier stored in a NUMERIC(10,4) column. *)
Definition store_10_4 (v : float64) : option float64 :=
  match v with
  | Finite q => let n := RoundHalfUpRatToInt64 (Qmult q (inject_Z 10000)) in
                if n <? 10 ^ 10 then Some (Finite (Qmake n 10000)) else None
  | _ => None
  end.

(** One [INSERT ... SELECT]: access is granted to restricted resources only; no row is
    inserted for a resource that does not exist. *)
Definition insert_policy (tenant : string) (p : PolicyWrite) : UTx unit :=
  let! d := tx_get in
  match List.find (resource_at (pw_Kind p) (pw_ID p)) (resources d) with
  | None => tx_fail (UpValidation "policies")
  | Some r =>
      let! override := (match pw_MultiplierOverride p with
                        | None => tx_ret None
                        | Some v => match store_10_4 v with Some v => tx_ret (Some v) | None => tx_fail UpOutOfRange end
                        end) in
      tx_guard (existsb (fun q => str_eq (tp_Kind q) (pw_Kind p) && str_eq (tp_ID q) (pw_ID p)
                                  && str_eq (tp_TenantID q) tenant) (u_policies d)) UpConflict ;;;
      tx_put (with_policies (u_policies d ++
        [MkTenantPolicy (pw_Kind p) (pw_ID p) tenant (str_eq (rr_AccessMode r) ModeRestricted && pw_AccessGranted p) override]) d)
  end.

(** [UpstreamAccessRepo.ReplacePolicies] *)
Definition repo_ReplacePolicies (tenant : string) (policies : list PolicyWrite) : UTx unit :=
  let! d := tx_get in
  tx_put (with_policies (List.filter (fun q => negb (str_eq (tp_TenantID q) tenant)) (u_policies d)) d) ;;;
  tx_iter (insert_policy tenant) policies.

(** [Service.ReplacePolicies] *)
Definition ReplacePolicies (tenantID : string) (policies : list PolicyWrite) : UTx unit :=
  let tenant := TrimSpace tenantID in
  if str_eq tenant "" then tx_fail (UpValidation "tenant_id")
  else match check_policies ∅ policies with
  | Err field => tx_fail (UpValidation field)
  | Ok l => repo_ReplacePolicies tenant l
  end.

(** ** Access *)

Definition granted (d : udb) (kind id tenant : string) : bool :=
  existsb (fun q => str_eq (tp_Kind q) kind && str_eq (tp_ID q) id && str_eq (tp_TenantID q) tenant && tp_AccessGranted q)
    (u_policies d).

(** [UpstreamAccessRepo.CanAccess] *)
Definition repo_CanAccess (tenant kind id : string) (d : udb) : bool :=
  match List.find (fun r => resource_at kind id r && str_eq (rr_Status r) StatusActive) (resources d) with
  | None => false
  | Some r => str_eq (rr_AccessMode r) ModePublic || granted d kind id tenant
  end.

(** [Service.CanAccess]: an error for a reference that is not one. *)
Definition CanAccess (tenantID kind id : string) (d : udb) : result up_error bool :=
  let tenant := TrimSpace tenantID in
  if str_eq tenant "" then Ok false
  else match validateRef kind id with
  | Some field => Err (UpValidation field)
  | None => Ok (repo_CanAccess tenant kind id d)
  end.

(** [ListForTenant]: access, and the effective multiplier, of each resource (unordered). *)
Record ResourceAccess := MkResourceAccess {
  ra_Kind : string; ra_ID : string; ra_AccessMode : string; ra_Status : string;
  ra_AccessGranted : bool; ra_Allowed : bool; ra_Effective : float64 }.
Definition policy_of (d : udb) (kind id tenant : string) : option TenantPolicy :=
  List.find (fun q => str_eq (tp_Kind q) kind && str_eq (tp_ID q) id && str_eq (tp_TenantID q) tenant) (u_policies d).
Definition access_row (tenant : string) (d : udb) (r : ResourceRow) : ResourceAccess :=
  let p := policy_of d (rr_Kind r) (rr_ID r) tenant in
  let granted := match p with Some p => tp_AccessGranted p | None => false end in
  MkResourceAccess (rr_Kind r) (rr_ID r) (rr_AccessMode r) (rr_Status r) granted
    (str_eq (rr_Status r) StatusActive && (str_eq (rr_AccessMode r) ModePublic || granted))
    (match p ≫= tp_MultiplierOverride with Some v => v | None => default (Finite (Qmake 1 1)) (rr_TenantMultiplier r) end).
Definition ListForTenant (tenantID : string) (d : udb) : result up_error (list ResourceAccess) :=
  let tenant := TrimSpace tenantID in
  if str_eq tenant "" then Err (UpValidation "tenant_id") else Ok (access_row tenant d <$> resources d).

(** * Properties of upstream access

    What replacing a tenant's policies does, and that what a tenant's catalogue shows as
    allowed is what the binder authorises. *)

(** Primary keys. *)
Definition resource_key (r : ResourceRow) : string * string := (rr_Kind r, rr_ID r).
Definition policy_key (p : TenantPolicy) : string * string * string := (tp_Kind p, tp_ID p, tp_TenantID p).
Record udb_ok (d : udb) : Prop := MkUdbOk {
  uo_resources : NoDup (resource_key <$> resources d);
  uo_policies : NoDup (policy_key <$> u_policies d) }.

Definition of_tenant (tenant : string) (p : TenantPolicy) : bool := str_eq (tp_TenantID p) tenant.
Definition others (tenant : string) (d : udb) : list TenantPolicy := List.filter (fun p => negb (of_tenant tenant p)) (u_policies d).
Definition theirs (tenant : string) (d : udb) : list TenantPolicy := List.filter (of_tenant tenant) (u_policies d).

(** The row written for a policy. *)
Definition row_for (d : udb) (tenant : string) (p : PolicyWrite) (q : TenantPolicy) : Prop :=
  exists r override, r ∈ resources d /\ resource_key r = (pw_Kind p, pw_ID p) /\
    q = MkTenantPolicy (pw_Kind p) (pw_ID p) tenant (str_eq (rr_AccessMode r) ModeRestricted && pw_AccessGranted p) override /\
    match pw_MultiplierOverride p with
    | None => override = None
    | Some v => exists w, store_10_4 v = Some w /\ override = Some w
    end.

Definition stored_override (v : option float64) : option (option float64) :=
  match v with None => Some None | Some v => Some <$> store_10_4 v end.

Lemma insert_policy_ok tenant p d u d' :
  insert_policy tenant p d = Ok (u, d') ->
  exists q, row_for d tenant p q /\ d' = with_policies (u_policies d ++ [q]) d /\
    (forall x, x ∈ u_policies d -> policy_key x <> policy_key q).
Proof.
  unfold insert_policy. intros H. unfold tx_bind, tx_get in H.
  destruct (List.find _ _) as [r|] eqn:Hf; [|done]. apply List.find_some in Hf as [Hr Hk].
  unfold resource_at in Hk. rewrite andb_true_iff, !str_eq_true in Hk. destruct Hk as [Hk Hid].
  assert (exists override, stored_override (pw_MultiplierOverride p) = Some override /\
    (tx_guard (existsb (fun q => str_eq (tp_Kind q) (pw_Kind p) && str_eq (tp_ID q) (pw_ID p) && str_eq (tp_TenantID q) tenant)
       (u_policies d)) UpConflict ;;;
     tx_put (with_policies (u_policies d ++ [MkTenantPolicy (pw_Kind p) (pw_ID p) tenant
       (str_eq (rr_AccessMode r) ModeRestricted && pw_AccessGranted p) override]) d)) d = Ok (u, d')) as (override & Hov & Hrun).
  { unfold stored_override. destruct (pw_MultiplierOverride p) as [v|]; [|by exists None].
    destruct (store_10_4 v) as [w|]; [by exists (Some w) | done]. }
  clear H. tx_inv Hrun. eexists. split; [|split; [reflexivity|]].
  - exists r, override. split_and!; [by apply list_elem_of_In | unfold resource_key; congruence | done|].
    unfold stored_override in Hov. destruct (pw_MultiplierOverride p) as [v|]; [|by injection Hov as <-].
    destruct (store_10_4 v) as [w|]; [|done]. injection Hov as <-. by exists w.
  - intros x Hx Heq. rename select (existsb _ _ = false) into Hno. specialize (existsb_none _ _ Hno x Hx) as Hp. cbn beta in Hp.
    unfold policy_key in Heq. simpl in Heq. injection Heq as H1 H2 H3. by rewrite H1, H2, H3, !str_eq_refl in Hp.
Qed.

Lemma insert_policies_ok tenant l d u d' :
  tx_iter (insert_policy tenant) l d = Ok (u, d') ->
  exists rows, Forall2 (row_for d tenant) l rows /\ d' = with_policies (u_policies d ++ rows) d /\
    (NoDup (policy_key <$> u_policies d) -> NoDup (policy_key <$> u_policies d')).
Proof.
  revert d. induction l as [|p l IH]; intros d H; cbn [tx_iter] in H.
  - tx_inv H. exists []. split; [constructor|]. rewrite app_nil_r. by destruct d.
  - apply tx_bind_ok in H as ([] & d1 & H1 & H2). apply insert_policy_ok in H1 as (q & Hq & -> & Hnew).
    apply IH in H2 as (rows & Hrows & -> & Hnd). exists (q :: rows). split; [constructor; [done|]|split].
    + eapply Forall2_impl; [exact Hrows|]. intros x y H. exact H.
    + cbn [u_policies with_policies]. by rewrite <- app_assoc.
    + intros Hk. apply Hnd. cbn [u_policies with_policies]. by apply NoDup_snoc_row.
Qed.

Lemma filter_rows_all {A} (p : A -> bool) l : (forall x, x ∈ l -> p x = true) -> List.filter p l = l.
Proof.
  induction l as [|x l IH]; intros H; [done|]. simpl. rewrite (H x) by left. f_equal. apply IH. intros; apply H; by right.
Qed.

(** Replacing a tenant's policies replaces exactly them.  The policies written are
    the ones asked for, in order and trimmed, one per resource, each for a resource that
    exists and granting access only where the resource is restricted; every other
    tenant's policies and every other table are as they were. *)
Theorem ReplacePolicies_correct tenantID policies d u d' :
  ReplacePolicies tenantID policies d = Ok (u, d') ->
  let tenant := TrimSpace tenantID in
  tenant <> ""%string /\
  (exists l, check_policies ∅ policies = Ok l /\ Forall2 (row_for d tenant) l (theirs tenant d')) /\
  others tenant d' = others tenant d /\ resources d' = resources d /\ u_models d' = u_models d /\
  u_endpoints d' = u_endpoints d /\
  (udb_ok d -> udb_ok d').
Proof.
  unfold ReplacePolicies. cbv zeta. destruct (str_eq (TrimSpace tenantID) "") eqn:Ht; [done|]. apply str_eq_false in Ht.
  destruct (check_policies ∅ policies) as [l|] eqn:Hl; [|done]. unfold repo_ReplacePolicies. intros H.
  apply tx_bind_ok in H as (d0 & d1 & H0 & H). injection H0 as <- <-. apply tx_bind_ok in H as ([] & d2 & H1 & H). injection H1 as <-.
  apply insert_policies_ok in H as (rows & Hrows & -> & Hnd). set (tenant := TrimSpace tenantID) in *.
  fold (others tenant d) in *.
  assert (Hrow : forall q, q ∈ rows -> of_tenant tenant q = true).
  { intros q Hq. apply list_elem_of_lookup in Hq as [n Hn]. eapply Forall2_lookup_r in Hrows as (p & _ & r & ov & _ & _ & -> & _); [|exact Hn].
    apply str_eq_refl. }
  split_and!; [done| |  | done..| ].
  - exists l. split; [done|]. unfold theirs. cbn [u_policies with_policies]. rewrite List.filter_app, (filter_rows_none _ (others tenant d)), (filter_rows_all _ rows).
    + exact Hrows.
    + done.
    + intros x [Hx _]%elem_of_filter_rows. by apply negb_true_iff.
  - unfold others at 1. cbn [u_policies with_policies]. rewrite List.filter_app, (filter_rows_none _ rows), app_nil_r.
    + apply filter_rows_all. intros x Hx. by apply elem_of_filter_rows in Hx as [Hx _].
    + intros x Hx. by rewrite (Hrow x Hx).
  - intros [Hr Hp]. split; [done|]. apply Hnd. cbn [u_policies with_policies]. by apply NoDup_filter_rows.
Qed.

(** A tenant's catalogue shows a resource as allowed exactly when the check behind
    every binding lets the tenant use it. *)
Theorem catalogue_agrees_with_access tenantID d l :
  udb_ok d -> ListForTenant tenantID d = Ok l ->
  forall a, a ∈ l -> (ra_Kind a = KindDirectUpstream \/ ra_Kind a = KindOAuthPool) /\
    (ra_ID a <> ""%string -> CanAccess tenantID (ra_Kind a) (ra_ID a) d = Ok (ra_Allowed a)).
Proof.
  unfold ListForTenant, CanAccess. cbv zeta. intros [Hr Hp] H. destruct (str_eq (TrimSpace tenantID) ""); [done|]. injection H as <-.
  set (tenant := TrimSpace tenantID). intros a (r & -> & Hin)%list_elem_of_fmap. cbn [access_row ra_Kind ra_ID ra_Allowed].
  assert (Hk : rr_Kind r = KindDirectUpstream \/ rr_Kind r = KindOAuthPool).
  { unfold resources in Hin. apply elem_of_app in Hin as [(x & -> & _)%list_elem_of_fmap | (x & -> & _)%list_elem_of_fmap]; [by left | by right]. }
  split; [done|]. intros Hid. unfold validateRef. apply str_eq_false in Hid. rewrite Hid.
  replace (negb (str_eq (rr_Kind r) KindDirectUpstream) && negb (str_eq (rr_Kind r) KindOAuthPool)) with false
    by (by destruct Hk as [-> | ->]).
  f_equal. unfold repo_CanAccess.
  assert (Hgr : granted d (rr_Kind r) (rr_ID r) tenant = match policy_of d (rr_Kind r) (rr_ID r) tenant with Some p => tp_AccessGranted p | None => false end).
  { apply eq_iff_eq_true. unfold granted. rewrite existsb_exists. unfold policy_of. split.
    - intros (p & Hpin & Hpk). apply andb_true_iff in Hpk as [Hpk Hg].
      destruct (List.find _ _) as [q|] eqn:Hq.
      + apply List.find_some in Hq as [Hqin Hqk]. rewrite !andb_true_iff, !str_eq_true in Hqk, Hpk.
        assert (p = q) as <- by (apply (keyed_unique policy_key (u_policies d)); [done | by apply list_elem_of_In.. |];
          unfold policy_key; destruct Hqk as [[-> ->] ->], Hpk as [[-> ->] ->]; done). done.
      + eapply List.find_none in Hq; [|exact Hpin]. cbn beta in Hq. by rewrite Hpk in Hq.
    - destruct (List.find _ _) as [q|] eqn:Hq; [|done]. intros Hg. apply List.find_some in Hq as [Hqin Hqk]. exists q. by rewrite Hqk. }
  destruct (List.find _ (resources d)) as [x|] eqn:Hx.
  - apply List.find_some in Hx as [Hxin Hxk]. unfold resource_at in Hxk. rewrite !andb_true_iff, !str_eq_true in Hxk.
    destruct Hxk as [[Hxk Hxi] Hxs].
    assert (x = r) as -> by (apply (keyed_unique resource_key (resources d)); [done | by apply list_elem_of_In | done |]; unfold resource_key; congruence).
    rewrite Hgr, Hxs, str_eq_refl. simpl. by destruct (policy_of _ _ _ _).
  - eapply List.find_none in Hx; [|by apply list_elem_of_In]. unfold resource_at in Hx. rewrite !str_eq_refl in Hx. simpl in Hx. by rewrite Hx.
Qed.

(** ** Instances *)

Definition demo_upstream : udb :=
  MkUDB [MkAccount "u1" "Primary" "restricted" "" None "cost" (Some (Finite (Qmake 3 2))) "active"]
    [MkPool "p1" "Codex" "public" "codex" "round_robin" "" None "active"] [] []
    [MkTenantPolicy "direct_upstream" "u1" "t1" false None; MkTenantPolicy "oauth_pool" "p1" "t2" false None] [].
Definition demo_policies : list PolicyWrite := [MkPolicyWrite "direct_upstream" " u1" true (Some (Finite (Qmake 5 4)))].
Definition demo_replaced : udb :=
  with_policies [MkTenantPolicy "oauth_pool" "p1" "t2" false None;
                 MkTenantPolicy "direct_upstream" "u1" "t1" true (Some (Finite (Qmake 12500 10000)))] demo_upstream.
Example demo_replaces : ReplacePolicies " t1" demo_policies demo_upstream = Ok (tt, demo_replaced).
Proof. vm_compute. reflexivity. Qed.
Lemma demo_upstream_ok : udb_ok demo_upstream.
Proof. split; apply (bool_decide_unpack _); vm_compute; exact I. Qed.

Lemma ReplacePolicies_correct_witness : udb_ok demo_replaced /\ others "t1" demo_replaced = others "t1" demo_upstream.
Proof.
  destruct (ReplacePolicies_correct " t1" demo_policies demo_upstream tt demo_replaced demo_replaces) as (_ & _ & Ho & _ & _ & _ & Hk).
  split; [exact (Hk demo_upstream_ok) | exact Ho].
Defined.
Lemma catalogue_agrees_with_access_witness : CanAccess "t1" "direct_upstream" "u1" demo_upstream = Ok false.
Proof.
  refine (proj2 (catalogue_agrees_with_access "t1" demo_upstream _ demo_upstream_ok eq_refl _ (list_elem_of_here _ _)) _).
  vm_compute. discriminate.
Defined.
