(* ===== verification/Binder.v ===== *)
(** * Binding a target to an upstream

    [src/internal/ai/adapters/postgres/runtime_target_binder.go]: the endpoint, the
    protocol, the model name, the price book and the multiplier a dispatch target is
    served with; [loadUpstreamModelBinding]
    ([src/internal/ai/adapters/postgres/upstream_model_bindings.go]); and the resolver
    around it, which authorises each binding and caches none in production
    ([src/internal/ai/core/runtime/binding_cache.go], [DisableCache] in
    [src/cmd/server/ai_modules.go]).  The rewriting of a stored key under a new master
    key, which a binding may cause, is left out: it changes how the key is stored only. *)

From Stdlib Require Import QArith.
From S2P Require Import Prelude GoStrings UsageEvidence Decimal PriceTiers CommercialDB Commercial Surfaces Upstream.
#[global] Open Scope Z_scope.

(** ** Data ([core/upstream]) *)

(** [RuntimeBindingRequest] *)
Record BindingRequest := MkBindingRequest {
  bq_EndpointID : string; bq_TenantID : string; bq_Capability : string; bq_ClientSurface : string;
  bq_ResolvedModelID : string; bq_Stream : bool; bq_AllowProtocolConversion : bool;
  bq_TargetMode : string; bq_TargetID : string }.
Definition with_endpoint (id : string) (q : BindingRequest) : BindingRequest :=
  MkBindingRequest id (bq_TenantID q) (bq_Capability q) (bq_ClientSurface q) (bq_ResolvedModelID q) (bq_Stream q)
    (bq_AllowProtocolConversion q) (bq_TargetMode q) (bq_TargetID q).

Definition AccessModeDirect : string := "direct".
Definition AccessModeOAuthPool : string := "oauth_pool".

(** [Upstream] *)
Record UpstreamResource := MkUpstream {
  us_ID : string; us_Code : string; us_Name : string; us_ProviderFamily : string; us_AccessMode : string;
  us_BaseURL : string; us_ConcurrencyLimit : option Z; us_Status : string }.

(** [ModelBinding] *)
Record ModelBinding := MkModelBinding {
  mb_UpstreamKind : string; mb_UpstreamID : string; mb_ModelID : string; mb_Capability : string;
  mb_RequestSurface : string; mb_ResponseSurface : string; mb_UpstreamModelName : string; mb_Config : ImagePolicy }.

(** [RuntimeBinding], without its alternatives *)
Record RuntimeBinding := MkBinding {
  rb_Upstream : UpstreamResource; rb_ModelBinding : ModelBinding; rb_EndpointID : string; rb_RequestPath : string;
  rb_EndpointAuthScheme : string; rb_EndpointAuthHeader : string; rb_ConversionBucket : Z; rb_APIKeyCiphertext : string;
  rb_ExtraHeaders : gmap string string; rb_FixedProviderType : string; rb_SelectionStrategy : string;
  rb_CostPriceBookID : string; rb_TenantMultiplier : float64; rb_CostPer1kTokens : float64 }.

(** [BindingRejectionCode] *)
Inductive rejection :=
| AccessDenied | TargetNotFound | TargetInactive | ModelBindingMissing | ProtocolIncompatible
| CredentialUnavailable | BindingInvalid.
(** A rejection, which rules the target out, or another failure. *)
Inductive bind_error := Rejected (code : rejection) | BindFailed.

(** ** The secret store: decrypting a provider key, and the secret values of a header
    map; [None] is a key that does not open. *)
Class Secrets := {
  decryptDirectProviderKey : string -> option string;
  decryptStoredEndpointHeaderMap : gmap string string -> option (gmap string string) }.

(** [upstreamProviderFamilyFromProtocol] *)
Definition upstreamProviderFamilyFromProtocol (protocol : string) : string :=
  if str_eq protocol ProtocolAnthropicMessages then "anthropic"
  else if str_eq protocol ProtocolGeminiGenerate || str_eq protocol ProtocolGeminiEmbeddings then "google"
  else if str_eq protocol ProtocolOpenAIChat || str_eq protocol ProtocolOpenAIResponses
          || str_eq protocol ProtocolOpenAIEmbeddings || str_eq protocol ProtocolOpenAIImages then "openai_compatible"
  else "other".

(** [FixedProviderProtocol], [FixedProviderBaseURL] ([domain/types.go]) *)
Definition FixedProviderProtocol (t : string) : string :=
  if str_eq t "codex" then ProtocolOpenAIResponses
  else if str_eq t "claude_oauth" then ProtocolAnthropicMessages
  else if str_eq t "gemini_cli" || str_eq t "antigravity" then ProtocolGeminiGenerate
  else ProtocolOpenAIChat.
Definition FixedProviderBaseURL (t : string) : string :=
  if str_eq t "codex" then "https://chatgpt.com/backend-api/codex"
  else if str_eq t "claude_oauth" then "https://api.anthropic.com"
  else if str_eq t "gemini_cli" || str_eq t "antigravity" then "https://cloudcode-pa.googleapis.com"
  else "".

(** ** Reads *)

(** [loadUpstreamModelBinding] *)
Definition loadUpstreamModelBinding (d : udb) (kind id model capability : string) : option UpstreamModel :=
  List.find (fun m => str_eq (um_Kind m) kind && str_eq (um_UpstreamID m) id
    && str_eq (um_ModelCode m) (TrimSpace model) && str_eq (um_CapabilityType m) capability
    && str_eq (um_Status m) "active") (u_models d).

(** [loadActiveDirectEndpoints] *)
Definition endpoint_leb (a b : Endpoint) : bool :=
  if str_eq (ep_APIFormat a) (ep_APIFormat b) then String.leb (ep_ID a) (ep_ID b)
  else String.leb (ep_APIFormat a) (ep_APIFormat b).
Definition loadActiveDirectEndpoints (d : udb) (account : string) : list Endpoint :=
  order_by endpoint_leb (List.filter (fun e => str_eq (ep_AccountID e) account && str_eq (ep_Status e) "active") (u_endpoints d)).

(** [findDirectEndpoint] *)
Definition findDirectEndpoint (items : list Endpoint) (protocol : string) : option Endpoint :=
  List.find (fun e => str_eq (ep_APIFormat e) protocol) items.

(** [resolveTenantMultiplier] *)
Definition resolveTenantMultiplier (d : udb) (tenant kind id : string) (defaultMultiplier : float64) : float64 :=
  if str_eq tenant "" then defaultMultiplier
  else match policy_of d kind id tenant with
  | Some p => default defaultMultiplier (tp_MultiplierOverride p)
  | None => defaultMultiplier
  end.

(** [loadRuntimeCostPer1k]: a cost hint from the first tier of the entry.  A price or a
    multiplier that is no number has no cost. *)
Definition loadRuntimeCostPer1k (d : udb) (book model capability : string) (multiplier : float64) : float64 :=
  if str_eq book "" || str_eq model "" then Finite 0
  else
    let multiplier := if float_neg multiplier then Finite 1 else multiplier in
    match List.find (entry_at book model capability) (u_entries d) with
    | None => Finite 0
    | Some e =>
        match en_TokenPriceTiers e with
        | [] => Finite 0
        | t :: _ =>
            match InputPerToken t, OutputPerToken t, multiplier with
            | Finite i, Finite o, Finite m => Finite (Qmult (Qmult (Qplus i o) (inject_Z 1000)) m)
            | _, _, _ => NaN
            end
        end
    end.

(** ** Binding *)

Section Bind.
Context {support : SupportMatrix} {secrets : Secrets} (d : udb).

(** What the two kinds of target share: the surface of the protocol chosen, checked
    against the client's. *)
Definition bridged_surface (q : BindingRequest) (protocol : string) : bind_error + string :=
  match ProtocolToSurfaceForCapability protocol (bq_Capability q) with
  | None => inl (Rejected BindingInvalid)
  | Some surface =>
      if NeedsBridge (bq_ClientSurface q) surface
         && negb (bridgeSurfaceSupportedForCapability (bq_ClientSurface q) surface (bq_Capability q) (bq_Stream q))
      then inl (Rejected ProtocolIncompatible) else inr surface
  end.
Definition model_name (m : UpstreamModel) (q : BindingRequest) : string :=
  if str_eq (um_UpstreamModelName m) "" then bq_ResolvedModelID q else um_UpstreamModelName m.

(** [bindDirectUpstream] *)
Definition bindDirectUpstream (q : BindingRequest) : bind_error + RuntimeBinding :=
  match List.find (fun a => str_eq (ua_ID a) (bq_TargetID q)) (u_accounts d) with
  | None => inl (Rejected TargetNotFound)
  | Some row =>
  if negb (str_eq (ua_Status row) "active") then inl (Rejected TargetInactive)
  else match SurfaceToProtocolForCapability (bq_ClientSurface q) (bq_Capability q) with
  | None => inl (Rejected BindingInvalid)
  | Some clientProtocol =>
  let capType := CapabilityFromCore (bq_Capability q) in
  match loadUpstreamModelBinding d KindDirectUpstream (ua_ID row) (bq_ResolvedModelID q) capType with
  | None => inl (Rejected ModelBindingMissing)
  | Some binding =>
  let endpoints := loadActiveDirectEndpoints d (ua_ID row) in
  let endpoints := if str_eq (bq_EndpointID q) "" then endpoints
                   else List.filter (fun e => str_eq (ep_ID e) (bq_EndpointID q)) endpoints in
  match chooseProviderProtocolWithSupport capType clientProtocol (ep_APIFormat <$> endpoints)
          (bq_AllowProtocolConversion q) (bq_Stream q) with
  | None => inl (Rejected ProtocolIncompatible)
  | Some (protocol, bucket) =>
  match findDirectEndpoint endpoints protocol with
  | None => inl (Rejected BindingInvalid)
  | Some endpoint =>
  match decryptStoredEndpointHeaderMap (ep_ExtraHeaders endpoint) with
  | None => inl (Rejected CredentialUnavailable)
  | Some headers =>
  match bridged_surface q protocol with
  | inl e => inl e
  | inr surface =>
  match (if str_eq (ua_ApiKeyCiphertext row) "" then Some ""%string else decryptDirectProviderKey (ua_ApiKeyCiphertext row)) with
  | None => inl (Rejected CredentialUnavailable)
  | Some key =>
  let multiplier := resolveTenantMultiplier d (bq_TenantID q) KindDirectUpstream (ua_ID row)
                      (default (Finite 1) (ua_TenantMultiplier row)) in
  inr (MkBinding
    (MkUpstream (ua_ID row) (ua_Name row) (ua_Name row) (upstreamProviderFamilyFromProtocol protocol) AccessModeDirect
       (ep_BaseURL endpoint) (ua_ConcurrencyLimit row) (ua_Status row))
    (MkModelBinding AccessModeDirect (ua_ID row) (bq_ResolvedModelID q) (bq_Capability q) surface surface
       (model_name binding q) (um_Config binding))
    (ep_ID endpoint) (ep_PathOverride endpoint) (ep_AuthScheme endpoint) (ep_AuthHeader endpoint) bucket key headers "" ""
    (ua_PriceBookID row) multiplier
    (loadRuntimeCostPer1k d (ua_PriceBookID row) (bq_ResolvedModelID q) (bq_Capability q) multiplier))
  end end end end end end end end.

(** [bindOAuthPool] *)
Definition bindOAuthPool (q : BindingRequest) : bind_error + RuntimeBinding :=
  match List.find (fun p => str_eq (cp_ID p) (bq_TargetID q)) (u_pools d) with
  | None => inl (Rejected TargetNotFound)
  | Some pool =>
  if negb (str_eq (cp_Status pool) "active") then inl (Rejected TargetInactive)
  else match SurfaceToProtocolForCapability (bq_ClientSurface q) (bq_Capability q) with
  | None => inl (Rejected BindingInvalid)
  | Some clientProtocol =>
  let capType := CapabilityFromCore (bq_Capability q) in
  match loadUpstreamModelBinding d KindOAuthPool (cp_ID pool) (bq_ResolvedModelID q) capType with
  | None => inl (Rejected ModelBindingMissing)
  | Some binding =>
  match chooseProviderProtocolWithSupport capType clientProtocol [FixedProviderProtocol (cp_FixedProviderType pool)]
          (bq_AllowProtocolConversion q) (bq_Stream q) with
  | None => inl (Rejected ProtocolIncompatible)
  | Some (protocol, bucket) =>
  match bridged_surface q protocol with
  | inl e => inl e
  | inr surface =>
  let multiplier := resolveTenantMultiplier d (bq_TenantID q) KindOAuthPool (cp_ID pool)
                      (default (Finite 1) (cp_TenantMultiplier pool)) in
  inr (MkBinding
    (MkUpstream (cp_ID pool) (cp_Name pool) (cp_Name pool) (upstreamProviderFamilyFromProtocol protocol) AccessModeOAuthPool
       (FixedProviderBaseURL (cp_FixedProviderType pool)) None (cp_Status pool))
    (MkModelBinding AccessModeOAuthPool (cp_ID pool) (bq_ResolvedModelID q) (bq_Capability q) surface surface
       (model_name binding q) (um_Config binding))
    "" "" "" "" bucket "" ∅ (cp_FixedProviderType pool) (cp_OAuthStrategy pool)
    (cp_PriceBookID pool) multiplier
    (loadRuntimeCostPer1k d (cp_PriceBookID pool) (bq_ResolvedModelID q) (bq_Capability q) multiplier))
  end end end end end.

(** The loop over the endpoints: the bindings found and the last rejection, or the
    failure that ends it. *)
Fixpoint bind_endpoints (q : BindingRequest) (endpoints : list Endpoint) (found : list RuntimeBinding) (rejected : option rejection)
    : bind_error + (list RuntimeBinding * option rejection) :=
  match endpoints with
  | [] => inr (found, rejected)
  | e :: rest =>
      match bindDirectUpstream (with_endpoint (ep_ID e) q) with
      | inr b => bind_endpoints q rest (found ++ [b]) rejected
      | inl (Rejected code) => bind_endpoints q rest found (Some code)
      | inl BindFailed => inl BindFailed
      end
  end.

(** [RuntimeTargetBinder.ResolveRuntimeBinding]: the binding and its alternatives. *)
Definition binder_ResolveRuntimeBinding (q : BindingRequest) : bind_error + (RuntimeBinding * list RuntimeBinding) :=
  let alone (r : bind_error + RuntimeBinding) := match r with inl e => inl e | inr b => inr (b, []) end in
  if str_eq (bq_TargetMode q) AccessModeDirect then
    if negb (str_eq (bq_EndpointID q) "") then alone (bindDirectUpstream q)
    else match bind_endpoints q (loadActiveDirectEndpoints d (bq_TargetID q)) [] None with
    | inl e => inl e
    | inr (alternatives, rejected) =>
        match order_by (fun a b => rb_ConversionBucket a <=? rb_ConversionBucket b) alternatives with
        | first :: others => inr (first, others)
        | [] => match rejected with Some code => inl (Rejected code) | None => alone (bindDirectUpstream q) end
        end
    end
  else if str_eq (bq_TargetMode q) AccessModeOAuthPool then alone (bindOAuthPool q)
  else inl (Rejected BindingInvalid).

(** [AuthorizeRuntimeBinding] *)
Definition AuthorizeRuntimeBinding (q : BindingRequest) : option bind_error :=
  let kind := if str_eq (bq_TargetMode q) AccessModeOAuthPool then KindOAuthPool else KindDirectUpstream in
  match CanAccess (bq_TenantID q) kind (bq_TargetID q) d with
  | Err _ => Some BindFailed
  | Ok false => Some (Rejected AccessDenied)
  | Ok true => None
  end.

(** [CachedBindingResolver.ResolveRuntimeBinding] with the cache disabled: authorised,
    then loaded afresh. *)
Definition ResolveRuntimeBinding (q : BindingRequest) : bind_error + (RuntimeBinding * list RuntimeBinding) :=
  match AuthorizeRuntimeBinding q with
  | Some e => inl e
  | None => binder_ResolveRuntimeBinding q
  end.
End Bind.
