(* ===== verification/Candidates.v ===== *)
(** * Route candidates and their tiers

    Models the methods of [domain.RouteCandidate] ([domain/types.go],
    [domain/candidate.go]), the fault scopes of a candidate
    ([routing/availability.go]), the manifest and quota facts of a credential
    ([domain/credential_models.go], [domain/oauth_quota.go]), and the tiers of
    [serving/execute_candidates.go]: group rank first, then the tenant's manual
    priority, then the conversion bucket. *)

From Stdlib Require Import QArith.
From S2P Require Import Prelude GoStrings Decimal Request Availability.
#[global] Open Scope Z_scope.

(** ** Methods of a candidate *)

Definition present (s : string) : bool := negb (String.eqb s "").

(** [IsPoolRoute] *)
Definition IsPoolRoute (c : RouteCandidate) : bool := present (rc_PoolID c).
(** [EffectiveAccountID] *)
Definition EffectiveAccountID (c : RouteCandidate) : string :=
  if present (rc_AccountID c) then rc_AccountID c else rc_EndpointID c.
(** [EffectiveUpstreamModel] *)
Definition EffectiveUpstreamModel (c : RouteCandidate) : string :=
  if IsPoolRoute c then rc_PoolUpstreamModel c else rc_UpstreamModel c.
(** [OperationKey] *)
Definition OperationKey (c : RouteCandidate) : string :=
  if present (rc_Operation c) then rc_Operation c else rc_Protocol c.

Definition with_identity (id cred : string) (c : RouteCandidate) : RouteCandidate :=
  MkCandidate id (rc_RouteID c) (rc_ModelCode c) (rc_CapabilityType c) (rc_Protocol c)
    (rc_AccountPriceBookID c) (rc_TenantMultiplier c) (rc_GroupID c) (rc_GroupName c)
    (rc_RetailPriceBookID c) (rc_GroupDefaultUserMultiplier c) (rc_GroupRank c)
    (rc_TargetPriority c) (rc_ConversionBucket c) (rc_RoutePolicy c) (rc_Operation c)
    (rc_AccountID c) (rc_EndpointID c) (rc_UpstreamModel c) (rc_UpstreamConcurrencyLimit c)
    (rc_MaxDuration c) (rc_PoolID c) (rc_PoolUpstreamModel c) (rc_FixedProviderType c)
    (rc_OAuthStrategy c) cred (rc_PoolCredentialCount c) (rc_ImageMaxOutputCount c)
    (rc_ImageEditMaxOutputCount c).
Definition with_pool_count (n : Z) (c : RouteCandidate) : RouteCandidate :=
  MkCandidate (rc_CandidateID c) (rc_RouteID c) (rc_ModelCode c) (rc_CapabilityType c) (rc_Protocol c)
    (rc_AccountPriceBookID c) (rc_TenantMultiplier c) (rc_GroupID c) (rc_GroupName c)
    (rc_RetailPriceBookID c) (rc_GroupDefaultUserMultiplier c) (rc_GroupRank c)
    (rc_TargetPriority c) (rc_ConversionBucket c) (rc_RoutePolicy c) (rc_Operation c)
    (rc_AccountID c) (rc_EndpointID c) (rc_UpstreamModel c) (rc_UpstreamConcurrencyLimit c)
    (rc_MaxDuration c) (rc_PoolID c) (rc_PoolUpstreamModel c) (rc_FixedProviderType c)
    (rc_OAuthStrategy c) (rc_CredentialID c) n (rc_ImageMaxOutputCount c)
    (rc_ImageEditMaxOutputCount c).

Definition nul : string := String (Ascii.ascii_of_nat 0) "".

(** [CandidateIdentity]: the parts joined with NUL bytes, under a digest ([sha256.Sum256]
    and [hex.EncodeToString]). *)
Definition CandidateIdentity (digest : string -> string) (groupTarget endpoint model operation : string) : string :=
  digest (groupTarget +:+ nul +:+ endpoint +:+ nul +:+ model +:+ nul +:+ operation).

(** [physicalTargetKey]: what two candidates share when a failure of one is a
    failure of the other. *)
Definition physicalTargetKey (c : RouteCandidate) : string :=
  if IsPoolRoute c then
    if present (rc_CredentialID c)
    then "credential:" +:+ rc_CredentialID c +:+ ":" +:+ EffectiveUpstreamModel c +:+ ":" +:+ OperationKey c
    else "pool:" +:+ rc_PoolID c
  else if present (rc_EndpointID c)
  then "endpoint:" +:+ rc_EndpointID c +:+ ":" +:+ EffectiveUpstreamModel c +:+ ":" +:+ OperationKey c
  else "route:" +:+ rc_RouteID c.

(** [credentialUseKey] *)
Definition credentialUseKey (c : RouteCandidate) (id : string) : string :=
  id +:+ nul +:+ EffectiveUpstreamModel c +:+ nul +:+ OperationKey c.

(** [domain.OAuthCredential], without its secrets. *)
Record OAuthCredential := MkCredential { cr_ID : string; cr_TokenVersion : Z }.

(** [routing.CandidateScopes] *)
Definition CandidateScopes (c : RouteCandidate) (cred : option OAuthCredential) : list FaultScope :=
  let kind := (if IsPoolRoute c then "oauth_pool" else "direct_upstream")%string in
  let resource := if IsPoolRoute c then rc_PoolID c else EffectiveAccountID c in
  let endpoint := if IsPoolRoute c then ""%string else rc_EndpointID c in
  let credential := if IsPoolRoute c then default ""%string (cr_ID <$> cred) else ""%string in
  NewFaultScope "transport" kind resource endpoint "" "" "" ::
  (if negb (IsPoolRoute c) || bool_decide (is_Some cred) then
     [NewFaultScope "authentication" kind resource "" credential "" "";
      NewFaultScope "model" kind resource endpoint credential (EffectiveUpstreamModel c) (OperationKey c);
      NewFaultScope "rate_limit" kind resource endpoint credential (EffectiveUpstreamModel c) (OperationKey c)]
   else []).

(** [scopeOfKind]; no scope is the empty key. *)
Definition scopeOfKind (scopes : list FaultScope) (kind : string) : option scope_key :=
  fs_Key <$> List.find (fun s => String.eqb (fs_Kind s) kind) scopes.

(** ** Credential facts *)

(** [domain.CredentialModelCatalog] *)
Record CredentialModelCatalog := MkCatalog {
  cm_Models : list string; cm_Source : string; cm_ValidUntil : Z }.

(** [CredentialModelCatalog.Excludes]; the catalog of an unknown credential is
    the zero value. *)
Definition Excludes (catalog : option CredentialModelCatalog) (model : string) (now : Z) : bool :=
  match catalog with
  | None => false
  | Some c =>
      if (negb (String.eqb (cm_Source c) "live") && negb (String.eqb (cm_Source c) "cache"))
         || (cm_ValidUntil c <=? now) || bool_decide (cm_Models c = [])
      then false
      else let model := TrimSpace model in
           if String.eqb model "" then false else negb (existsb (String.eqb model) (cm_Models c))
  end.

(** [domain.CredentialQuotaWindow] and [domain.CredentialQuota] *)
Record CredentialQuotaWindow := MkWindow {
  qw_UsedPercent : option Q; qw_Remaining : option Q; qw_ResetAt : Z }.
Record CredentialQuota := MkQuota {
  cq_Model : string; cq_Windows : list CredentialQuotaWindow; cq_CreditsAvailable : bool }.

Definition exhausted (w : CredentialQuotaWindow) : bool :=
  match qw_UsedPercent w with Some u => Qle_bool 100 u | None => false end
  || match qw_Remaining w with Some r => Qle_bool r 0 | None => false end.

(** [CredentialQuota.BlockedUntil] *)
Definition BlockedUntil (q : CredentialQuota) (now : Z) : Z :=
  if cq_CreditsAvailable q then 0
  else foldl (fun until w =>
         if exhausted w && (now <? qw_ResetAt w) && (until <? qw_ResetAt w) then qw_ResetAt w else until)
         0 (cq_Windows q).

(** ** Tiers ([execute_candidates.go])

    Every tier keeps, of the candidates not yet used, those with the least value
    of an attribute; the maximal [int] is the code's mark of no candidate. *)

Section Tiers.
Context (used : gset string).

Definition unused (c : RouteCandidate) : bool := negb (bool_decide (Key c ∈ used)).

Definition least (f : RouteCandidate -> Z) (l : list RouteCandidate) : Z :=
  foldl (fun m c => if unused c then if f c <? m then f c else m else m) int64_max l.

(** [activeGroupTier] *)
Definition activeGroupTier (candidates : list RouteCandidate) : list RouteCandidate :=
  let minRank := least rc_GroupRank candidates in
  if minRank =? int64_max then []
  else List.filter (fun c => unused c && (rc_GroupRank c =? minRank)) candidates.

(** [activePriorityTier]: the tier and whether a worse priority level is left. *)
Definition activePriorityTier (candidates : list RouteCandidate) : list RouteCandidate * bool :=
  let levels : gset Z := list_to_set (rc_TargetPriority <$> List.filter unused candidates) in
  let minPriority := least rc_TargetPriority candidates in
  if (size levels =? 0)%nat then ([], false)
  else (List.filter (fun c => unused c && (rc_TargetPriority c =? minPriority)) candidates,
        (1 <? size levels)%nat).

(** [activeBucketTier] *)
Definition activeBucketTier (candidates : list RouteCandidate) : list RouteCandidate :=
  let minBucket := least rc_ConversionBucket candidates in
  List.filter (fun c => unused c && (rc_ConversionBucket c =? minBucket)) candidates.

(** The tier [pickCandidate] selects in. *)
Definition activeTier (candidates : list RouteCandidate) : list RouteCandidate * bool :=
  let '(tier, manual) := activePriorityTier (activeGroupTier candidates) in
  (activeBucketTier tier, manual).

(** [filterEligible] *)
Definition filterEligible (cs : list RouteCandidate) : list RouteCandidate := List.filter unused cs.
End Tiers.

(** [exhaustPhysicalTarget]: every candidate of the failed one's physical target
    is used. *)
Definition exhaustPhysicalTarget (candidates : list RouteCandidate) (failed : RouteCandidate)
    (used : gset string) : gset string :=
  foldl (fun used c => if String.eqb (physicalTargetKey c) (physicalTargetKey failed)
                       then {[Key c]} ∪ used else used) used candidates.

(** [hasUnusedCandidate] *)
Definition hasUnusedCandidate (candidates : list RouteCandidate) (used : gset string) : bool :=
  existsb (unused used) candidates.

(** [imageOutputEligibleCandidates] *)
Definition imageOutputEligibleCandidates (capability : string) (imageCount : Z) (isEdit : bool)
    (candidates : list RouteCandidate) : list RouteCandidate :=
  if negb (String.eqb capability "image") || (imageCount <=? 1) then candidates
  else List.filter (fun c => imageCount <=? (if isEdit then rc_ImageEditMaxOutputCount c
                                             else rc_ImageMaxOutputCount c)) candidates.

(** ** Facts *)

Lemma least_unused used f l c :
  c ∈ l -> unused used c = true -> least used f l <= f c.
Proof.
  unfold least. intros Hin Hu.
  assert (Hmono : forall l m, foldl (fun m c => if unused used c then if f c <? m then f c else m else m) m l <= m).
  { clear. induction l as [|x l IH]; intros m; [simpl; lia|]. cbn [foldl].
    destruct (unused used x); [|apply IH]. destruct (f x <? m) eqn:Hlt; bool_prop; [|apply IH].
    etrans; [apply IH | lia]. }
  revert Hin. generalize int64_max. induction l as [|x l IH]; intros m Hin; [by apply not_elem_of_nil in Hin|].
  cbn [foldl]. apply elem_of_cons in Hin as [<- | Hin]; [|by apply IH].
  rewrite Hu. destruct (f c <? m) eqn:Hlt; bool_prop; etrans; [apply Hmono | lia | apply Hmono | lia].
Qed.

Lemma elem_activeBucketTier used l c :
  c ∈ activeBucketTier used l -> c ∈ l /\ unused used c = true /\
  (forall d, d ∈ l -> unused used d = true -> rc_ConversionBucket c <= rc_ConversionBucket d).
Proof.
  unfold activeBucketTier. intros [H Hin]%elem_of_filter_rows. bool_prop. split_and!; [done | done |].
  intros d Hd Hu. pose proof (least_unused used rc_ConversionBucket l d Hd Hu). lia.
Qed.

Lemma elem_activePriorityTier used l c :
  c ∈ (activePriorityTier used l).1 -> c ∈ l /\ unused used c = true /\
  (forall d, d ∈ l -> unused used d = true -> rc_TargetPriority c <= rc_TargetPriority d).
Proof.
  unfold activePriorityTier. destruct (_ =? 0)%nat; [by intros ?%not_elem_of_nil|]. cbn [fst].
  intros [H Hin]%elem_of_filter_rows. bool_prop. split_and!; [done | done |].
  intros d Hd Hu. pose proof (least_unused used rc_TargetPriority l d Hd Hu). lia.
Qed.

Lemma elem_activeGroupTier used l c :
  c ∈ activeGroupTier used l -> c ∈ l /\ unused used c = true /\
  (forall d, d ∈ l -> unused used d = true -> rc_GroupRank c <= rc_GroupRank d).
Proof.
  unfold activeGroupTier. destruct (_ =? int64_max); [by intros ?%not_elem_of_nil|].
  intros [H Hin]%elem_of_filter_rows. bool_prop. split_and!; [done | done |].
  intros d Hd Hu. pose proof (least_unused used rc_GroupRank l d Hd Hu). lia.
Qed.

(** A tier keeps every candidate at least as good as one it keeps. *)
Lemma activeGroupTier_keeps used l c d :
  c ∈ activeGroupTier used l -> d ∈ l -> unused used d = true -> rc_GroupRank d <= rc_GroupRank c ->
  d ∈ activeGroupTier used l.
Proof.
  unfold activeGroupTier. destruct (_ =? int64_max); [by intros ?%not_elem_of_nil|].
  intros [Hc _]%elem_of_filter_rows Hd Hu Hle. apply elem_of_filter_rows. bool_prop. split; [|done].
  pose proof (least_unused used rc_GroupRank l d Hd Hu). rewrite Hu. apply Z.eqb_eq. lia.
Qed.

Lemma activePriorityTier_keeps used l c d :
  c ∈ (activePriorityTier used l).1 -> d ∈ l -> unused used d = true ->
  rc_TargetPriority d <= rc_TargetPriority c -> d ∈ (activePriorityTier used l).1.
Proof.
  unfold activePriorityTier. destruct (_ =? 0)%nat; [by intros ?%not_elem_of_nil|]. cbn [fst].
  intros [Hc _]%elem_of_filter_rows Hd Hu Hle. apply elem_of_filter_rows. bool_prop. split; [|done].
  pose proof (least_unused used rc_TargetPriority l d Hd Hu). rewrite Hu. apply Z.eqb_eq. lia.
Qed.

(** The order of the tiers. *)
Definition ahead (c d : RouteCandidate) : Prop :=
  rc_GroupRank c < rc_GroupRank d \/
  (rc_GroupRank c = rc_GroupRank d /\
   (rc_TargetPriority c < rc_TargetPriority d \/
    (rc_TargetPriority c = rc_TargetPriority d /\ rc_ConversionBucket c <= rc_ConversionBucket d))).

Lemma elem_activeTier used l c :
  c ∈ (activeTier used l).1 -> c ∈ l /\ unused used c = true /\
  (forall d, d ∈ l -> unused used d = true -> ahead c d).
Proof.
  unfold activeTier. destruct (activePriorityTier _ _) as [tier manual] eqn:Htier. cbn [fst].
  pose proof (elem_activePriorityTier used (activeGroupTier used l)) as Hp.
  pose proof (activePriorityTier_keeps used (activeGroupTier used l)) as Hk. rewrite Htier in Hp, Hk.
  cbn [fst] in Hp, Hk.
  intros (Hc & Hu & Hbucket)%elem_activeBucketTier.
  destruct (Hp c Hc) as (Hg & _ & Hprio).
  destruct (elem_activeGroupTier _ _ _ Hg) as (Hl & _ & Hrank).
  split_and!; [done | done |]. intros d Hd Hud. unfold ahead.
  destruct (decide (rc_GroupRank d <= rc_GroupRank c)); [|lia].
  assert (Hdg : d ∈ activeGroupTier used l) by (by eapply activeGroupTier_keeps).
  pose proof (Hprio d Hdg Hud). pose proof (Hrank d Hd Hud).
  destruct (decide (rc_TargetPriority d <= rc_TargetPriority c)); [|lia].
  pose proof (Hbucket d (Hk c d Hc Hdg Hud ltac:(lia)) Hud). lia.
Qed.

(** The candidates that are left. *)
Definition remaining (used : gset string) (l : list RouteCandidate) : nat :=
  length (List.filter (unused used) l).

Lemma unused_spec used c : unused used c = true <-> Key c ∉ used.
Proof. unfold unused. rewrite negb_true_iff, bool_decide_eq_false. done. Qed.

Lemma remaining_mono used used' l : used ⊆ used' -> (remaining used' l <= remaining used l)%nat.
Proof.
  intros Hsub. unfold remaining. induction l as [|c l IH]; simpl; [lia|].
  destruct (unused used' c) eqn:Hu'.
  - rewrite unused_spec in Hu'.
    assert (unused used c = true) as -> by (apply unused_spec; set_solver). simpl. lia.
  - destruct (unused used c); simpl; lia.
Qed.

Lemma remaining_drop used used' l c :
  used ⊆ used' -> c ∈ l -> Key c ∉ used -> Key c ∈ used' -> (remaining used' l < remaining used l)%nat.
Proof.
  intros Hsub Hc Hn Hu. apply list_elem_of_split in Hc as (l1 & l2 & ->).
  pose proof (remaining_mono used used' l1 Hsub). pose proof (remaining_mono used used' l2 Hsub).
  unfold remaining in *. rewrite !List.filter_app, !length_app. simpl.
  assert (unused used c = true) as -> by (by apply unused_spec).
  assert (unused used' c = false) as ->.
  { destruct (unused used' c) eqn:E; [by apply unused_spec in E | done]. }
  simpl. lia.
Qed.

(** A tier is empty only when nothing is left to pick from. *)
Lemma least_attained used f l d :
  d ∈ l -> unused used d = true -> f d <= int64_max ->
  exists c, c ∈ l /\ unused used c = true /\ f c = least used f l.
Proof.
  intros Hd Hu Hf. unfold least.
  assert (Hgen : forall l m, foldl (fun m c => if unused used c then if f c <? m then f c else m else m) m l = m \/
    exists c, c ∈ l /\ unused used c = true /\
      f c = foldl (fun m c => if unused used c then if f c <? m then f c else m else m) m l).
  { clear. induction l as [|x l IH]; intros m; [by left|]. cbn [foldl].
    destruct (unused used x) eqn:Hx; [destruct (f x <? m)|].
    - destruct (IH (f x)) as [Heq | (c & ? & ?)]; [right; exists x | right; exists c]; (split; [|done]).
      + by left.
      + by right.
    - destruct (IH m) as [? | (c & ? & ?)]; [by left | right; exists c; split; [by right | done]].
    - destruct (IH m) as [? | (c & ? & ?)]; [by left | right; exists c; split; [by right | done]]. }
  destruct (Hgen l int64_max) as [Heq | ?]; [|done].
  pose proof (least_unused used f l d Hd Hu) as Hle. unfold least in Hle. rewrite Heq in Hle |- *.
  exists d. split_and!; [done | done | lia].
Qed.

(** The ranks are machine integers, the mark of no group being no rank. *)
Definition well_ranked (l : list RouteCandidate) : Prop :=
  forall d, d ∈ l -> rc_GroupRank d < int64_max /\ rc_TargetPriority d <= int64_max /\
                     rc_ConversionBucket d <= int64_max.

Lemma activeTier_nil used l d :
  well_ranked l -> (activeTier used l).1 = [] -> d ∈ l -> unused used d = false.
Proof.
  intros Hr Hnil Hd. destruct (unused used d) eqn:Hu; [exfalso | done].
  destruct (least_attained used rc_GroupRank l d Hd Hu) as (c & Hc & Huc & Hlc); [specialize (Hr d Hd); lia|].
  assert (Hg : c ∈ activeGroupTier used l).
  { unfold activeGroupTier. destruct (least _ _ _ =? int64_max) eqn:He; bool_prop.
    - specialize (Hr c Hc). lia.
    - apply elem_of_filter_rows. rewrite Huc, Hlc, Z.eqb_refl. done. }
  set (g := activeGroupTier used l) in *.
  destruct (least_attained used rc_TargetPriority g c Hg Huc) as (p & Hp & Hup & Hlp); [specialize (Hr c Hc); lia|].
  assert (Hpt : p ∈ (activePriorityTier used g).1).
  { unfold activePriorityTier. cbn zeta. destruct (size _ =? 0)%nat eqn:Hs.
    - apply Nat.eqb_eq, size_empty_inv in Hs. exfalso.
      apply (not_elem_of_empty (C := gset Z) (rc_TargetPriority p)). rewrite <- Hs.
      apply elem_of_list_to_set, list_elem_of_fmap_2, elem_of_filter_rows. done.
    - cbn [fst]. apply elem_of_filter_rows. rewrite Hup, Hlp, Z.eqb_refl. done. }
  unfold activeTier in Hnil. fold g in Hnil. destruct (activePriorityTier used g) as [t manual] eqn:Ht.
  cbn [fst] in *.
  destruct (elem_activeGroupTier used l p) as (Hpl & _); [by apply (elem_activePriorityTier used g); rewrite Ht|].
  destruct (least_attained used rc_ConversionBucket t p Hpt Hup) as (b & Hb & Hub & Hlb); [specialize (Hr p Hpl); lia|].
  apply (not_elem_of_nil b). rewrite <- Hnil. apply elem_of_filter_rows. by rewrite Hub, Hlb, Z.eqb_refl.
Qed.
