(* ===== verification/RouteSelector.v ===== *)
(** * From a request to its candidates

    The planner and the resolver of [src/internal/ai/core/runtime] ([planner.go],
    [resolver.go]), which turn the options of dispatch into bound targets, and the
    selector that turns those into the candidates the pipeline serves from
    ([src/internal/ai/gateway/runtime_route_selector.go]).  Dispatch and binding are
    interfaces here, as in the source; [RoutePlanProps] plugs in the definitions of
    [Dispatch] and [Binder].  Bindings are resolved by several workers, but each result
    is stored at the index of its request, so the order is the order of the targets.
    Candidates carry the fields of [Request.RouteCandidate]; the records of rejected
    targets, which only diagnostics read, are returned beside the result. *)

From Stdlib Require Import QArith.
From S2P Require Import Prelude GoStrings UsageEvidence Decimal PriceTiers Request Availability Classify Candidates.
From S2P Require Import CommercialDB Commercial Surfaces Dispatch Upstream Binder.
#[global] Open Scope Z_scope.

(** ** Data ([core/runtime/types.go]) *)

(** [runtime.Request]: the fields planning reads. *)
Record PlanRequest := MkPlanRequest {
  pr_Capability : string; pr_ClientSurface : string; pr_RequestedModel : string; pr_ResolvedModelID : string;
  pr_ForcedGroupID : string; pr_Stream : bool; pr_AllowedGroupIDs : list string }.

Record PlannedTarget := MkPlanned {
  pt_RouteID : string; pt_GroupRank : Z; pt_TargetPriority : Z; pt_Group : AccessibleGroup; pt_Target : GroupTarget;
  pt_ModelID : string; pt_MatchedRule : option DispatchRule; pt_Binding : RuntimeBinding }.

Inductive RejectionCode := RejectionNoActiveTarget | RejectionBinding (code : rejection).
Record RejectedTarget := MkRejected {
  rj_RouteID : string; rj_GroupRank : Z; rj_Group : AccessibleGroup; rj_ModelID : string; rj_Code : RejectionCode }.

Record RoutePlan := MkPlan { rp_Candidates : list PlannedTarget; rp_Rejections : list RejectedTarget }.

(** The errors of planning: those of dispatch; [NoRouteError] with its rejections; a
    binding that failed for another reason than a rejection; a binding no candidate can
    be made of. *)
Inductive route_error :=
| ErrDispatch (e : dispatch_error)
| ErrModelRequired
| ErrSurfaceRequired
| ErrNoDispatchOption
| ErrNoAllowedGroup
| NoRouteError (rejections : list RejectedTarget)
| ErrBinding
| ErrMissingSubject
| ErrUnsupported.

(** ** The interfaces *)

(** [CommercialDispatcher] *)
Class CommercialDispatcher :=
  dispatcher : Subject -> string -> string -> result dispatch_error (list DispatchResolution).
(** [RuntimeBindingResolver] *)
Class RuntimeBindingResolver := resolver : BindingRequest -> bind_error + (RuntimeBinding * list RuntimeBinding).

(** [commercialTargetMode] *)
Definition commercialTargetMode (kind : string) : option string :=
  if str_eq kind TargetKindDirectUpstream then Some AccessModeDirect
  else if str_eq kind TargetKindOAuthPool then Some AccessModeOAuthPool else None.

(** [buildRuntimeBindingRequest] *)
Definition buildRuntimeBindingRequest (tenant : string) (req : PlanRequest) (o : DispatchResolution) (t : GroupTarget)
    : option BindingRequest :=
  match commercialTargetMode (gt_TargetKind t) with
  | None => None
  | Some mode => Some (MkBindingRequest "" tenant (pr_Capability req) (pr_ClientSurface req) (re_ResolvedModelID o)
                         (pr_Stream req) (gr_AllowProtocolConversion (ag_Group (re_Group o))) mode (gt_TargetID t))
  end.

(** [pendingBinding] *)
Record pendingBinding := MkPending { pb_rank : Z; pb_option : DispatchResolution; pb_target : GroupTarget; pb_req : BindingRequest }.

(** [stringSet], as a list. *)
Definition stringSet (values : list string) : list string := List.filter (fun v => negb (str_eq v "")) values.

Section Resolve.
Context {dispatch : CommercialDispatcher} {binder : RuntimeBindingResolver}.

Definition set_forced (group : string) (s : Subject) : Subject :=
  MkSubject (sj_AuthMethod s) (sj_RequestSource s) (sj_Scope s) (sj_TenantID s) (sj_UserID s) (sj_APIKeyID s)
    (sj_GroupID s) (sj_AllowedModels s) (sj_QuotaLimit s) (sj_QuotaUsed s) group.

(** [Planner.Plan]: the options. *)
Definition Plan (s : Subject) (req : PlanRequest) : result route_error (list DispatchResolution) :=
  let model := TrimSpace (pr_RequestedModel req) in
  let model := if str_eq model "" then TrimSpace (pr_ResolvedModelID req) else model in
  if str_eq model "" then Err ErrModelRequired
  else if negb (IsKnown (pr_ClientSurface req)) then Err ErrSurfaceRequired
  else
    let forced := TrimSpace (pr_ForcedGroupID req) in
    let s := if str_eq forced "" then s else set_forced forced s in
    match dispatcher s (pr_ClientSurface req) model with
    | Err e => Err (ErrDispatch e)
    | Ok [] => Err ErrNoDispatchOption
    | Ok options => Ok options
    end.

(** The options with their ranks, those of groups that are not allowed left out. *)
Fixpoint ranked (rank : Z) (allowed : list string) (options : list DispatchResolution) : list (Z * DispatchResolution) :=
  match options with
  | [] => []
  | o :: rest =>
      let others := ranked (rank + 1) allowed rest in
      if bool_decide (allowed = []) || str_in (gr_ID (ag_Group (re_Group o))) allowed then (rank, o) :: others else others
  end.

(** The loop over an option's targets: rejections and bindings to resolve. *)
Definition reject (rank : Z) (o : DispatchResolution) (route : string) (code : RejectionCode) : RejectedTarget :=
  MkRejected route rank (re_Group o) (re_ResolvedModelID o) code.
Definition option_rejections (tenant : string) (req : PlanRequest) (x : Z * DispatchResolution) : list RejectedTarget :=
  match re_Targets x.2 with
  | [] => [reject x.1 x.2 "" RejectionNoActiveTarget]
  | targets => omap (fun t => match buildRuntimeBindingRequest tenant req x.2 t with
                              | None => Some (reject x.1 x.2 (gt_ID t) (RejectionBinding BindingInvalid))
                              | Some _ => None
                              end) targets
  end.
Definition option_pending (tenant : string) (req : PlanRequest) (x : Z * DispatchResolution) : list pendingBinding :=
  omap (fun t => MkPending x.1 x.2 t <$> buildRuntimeBindingRequest tenant req x.2 t) (re_Targets x.2).

(** The loop over the results. *)
Definition planned (p : pendingBinding) (b : RuntimeBinding) : PlannedTarget :=
  MkPlanned (gt_ID (pb_target p)) (pb_rank p) (gt_Priority (pb_target p)) (re_Group (pb_option p)) (pb_target p)
    (re_ResolvedModelID (pb_option p)) (re_MatchedRule (pb_option p)) b.
Definition pending_candidates (p : pendingBinding) : list PlannedTarget :=
  match resolver (pb_req p) with
  | inr (b, alternatives) => planned p <$> b :: alternatives
  | inl _ => []
  end.
Definition pending_rejections (p : pendingBinding) : list RejectedTarget :=
  match resolver (pb_req p) with
  | inl (Rejected code) => [reject (pb_rank p) (pb_option p) (gt_ID (pb_target p)) (RejectionBinding code)]
  | _ => []
  end.
Definition pending_failed (p : pendingBinding) : bool := match resolver (pb_req p) with inl BindFailed => true | _ => false end.

(** [Resolver.inspect]: the candidates, the rejections and whether a binding failed. *)
Definition inspect (s : Subject) (req : PlanRequest) : result route_error (RoutePlan * bool) :=
  match Plan s req with
  | Err e => Err e
  | Ok options =>
      let allowed := stringSet (pr_AllowedGroupIDs req) in
      let kept := ranked 0 allowed options in
      if negb (bool_decide (allowed = [])) && Nat.eqb (length kept) 0 then Err ErrNoAllowedGroup
      else
        let pending := mjoin (option_pending (sj_TenantID s) req <$> kept) in
        Ok (MkPlan (mjoin (pending_candidates <$> pending))
              (mjoin (option_rejections (sj_TenantID s) req <$> kept) ++ mjoin (pending_rejections <$> pending)),
            existsb pending_failed pending)
  end.

(** [Resolver.Resolve] *)
Definition Resolve (s : Subject) (req : PlanRequest) : result route_error RoutePlan :=
  match inspect s req with
  | Err e => Err e
  | Ok (plan, failed) =>
      if Nat.eqb (length (rp_Candidates plan)) 0
      then Err (if failed then ErrBinding else NoRouteError (rp_Rejections plan)) else Ok plan
  end.

(** ** Candidates ([runtime_route_selector.go]) *)

(** The fields of [serving.Request] that routing alone reads. *)
Record RouteInput := MkRouteInput {
  ri_RuntimeCapability : string; ri_ClientProtocol : string; ri_RequestedModel : string; ri_ModelCode : string;
  ri_IsStream : bool; ri_ClientPath : string }.

(** [normalizedTenantMultiplier] *)
Definition normalizedTenantMultiplier (v : float64) : float64 := if float_neg v then Finite 1 else v.

(** [imagePolicyInt] with the default count, over a decoded JSON number. *)
Definition DefaultImageOutputCount : Z := 1.
Definition MaxImageOutputCount : Z := 10.
Definition imagePolicyInt (v : option float64) : Z :=
  match v with
  | Some (Finite q) =>
      let n := Z.quot (Qnum q) (Z.pos (Qden q)) in
      if Qle_bool (inject_Z 1) q && Qle_bool q (inject_Z MaxImageOutputCount) && Qeq_bool q (inject_Z n)
      then n else DefaultImageOutputCount
  | _ => DefaultImageOutputCount
  end.

(** [DefaultRouteTimeoutPreset.MaxDuration], in milliseconds. *)
Definition DefaultMaxDuration : Z := 15 * 60 * 1000.

(** [sha256.Sum256] and [hex.EncodeToString]. *)
Context (digest : string -> string).
(** [plannedCandidate], with the identity it is given afterwards and the suffix of the
    operation. *)
Definition plannedCandidate (suffix : string) (p : PlannedTarget) (req : PlanRequest) : option RouteCandidate :=
  let b := pt_Binding p in
  let m := rb_ModelBinding b in
  let up := rb_Upstream b in
  match SurfaceToProtocolForCapability (mb_RequestSurface m) (pr_Capability req) with
  | None => None
  | Some protocol =>
      let model := if_empty (mb_UpstreamModelName m) (pt_ModelID p) in
      let g := ag_Group (pt_Group p) in
      let operation := mb_RequestSurface m +:+ suffix in
      let make endpoint account pool poolModel fixed strategy :=
        MkCandidate (CandidateIdentity digest (pt_RouteID p) endpoint (pt_ModelID p +:+ nul +:+ model) operation)
          (pt_RouteID p) (pt_ModelID p) (CapabilityFromCore (pr_Capability req)) protocol
          (rb_CostPriceBookID b) (normalizedTenantMultiplier (rb_TenantMultiplier b))
          (gr_ID g) (gr_Name g) (gr_RetailPriceBookID g) (gr_DefaultUserMultiplier g)
          (pt_GroupRank p) (pt_TargetPriority p) (rb_ConversionBucket b) (gr_RoutePolicy g) operation
          account endpoint model (us_ConcurrencyLimit up) DefaultMaxDuration pool poolModel fixed strategy "" 0
          (imagePolicyInt (ip_max_output_count (mb_Config m))) (imagePolicyInt (ip_edit_max_output_count (mb_Config m))) in
      if str_eq (mb_UpstreamKind m) AccessModeDirect then Some (make (rb_EndpointID b) (us_ID up) "" "" "" "")
      else if str_eq (mb_UpstreamKind m) AccessModeOAuthPool
      then Some (make "" "" (us_ID up) model (rb_FixedProviderType b) (rb_SelectionStrategy b))
      else None
  end.

(** The loop over the planned targets: the first candidate of each key. *)
Fixpoint candidates (suffix : string) (req : PlanRequest) (seen : gset string) (l : list PlannedTarget)
    : option (list RouteCandidate) :=
  match l with
  | [] => Some []
  | p :: l =>
      match plannedCandidate suffix p req with
      | None => None
      | Some c =>
          if bool_decide (Key c ∈ seen) then candidates suffix req seen l
          else cons c <$> candidates suffix req ({[ Key c ]} ∪ seen) l
      end
  end.

Definition operation_suffix (path : string) : string :=
  (if HasSuffix path "/responses/compact" then ":compact" else "")
  +:+ (if HasSuffix path "/images/edits" then ":edit" else "").

(** [SelectCandidates]: the request, whose billing source may change, the rejections
    recorded and the candidates. *)
Record Selection := MkSelection {
  sel_request : Request; sel_skipped : list RejectedTarget; sel_result : result route_error (list RouteCandidate) }.

Definition plan_request (i : RouteInput) (capability surface : string) (allowed : list string) : PlanRequest :=
  MkPlanRequest capability surface (ri_RequestedModel i) (ri_ModelCode i) "" (ri_IsStream i) allowed.

(** The request made pay-as-you-go. *)
Definition to_payg (r : Request) : Request := set_source BillingSourcePayg "" ∅ r.

Definition SelectCandidates (i : RouteInput) (r : Request) : Selection :=
  match rq_Subject r with
  | None => MkSelection r [] (Err ErrMissingSubject)
  | Some s =>
      let capability := if str_eq (ri_RuntimeCapability i) "" then CapabilityToCore (rq_CapabilityType r) else ri_RuntimeCapability i in
      match ProtocolToSurfaceForCapability (ri_ClientProtocol i) capability with
      | None => MkSelection r [] (Err ErrUnsupported)
      | Some surface =>
          let allowed := if str_eq (rq_BillingSource r) BillingSourceSubscription
                         then fst <$> map_to_list (rq_GroupMultipliers r) else [] in
          let req := plan_request i capability surface allowed in
          let '(r, req, plan) :=
            match Resolve s req with
            | Err ErrNoAllowedGroup =>
                let req := plan_request i capability surface [] in (to_payg r, req, Resolve s req)
            | plan => (r, req, plan)
            end in
          match plan with
          | Err e => MkSelection r (match e with NoRouteError l => l | _ => [] end) (Err e)
          | Ok plan =>
              match candidates (operation_suffix (ri_ClientPath i)) req ∅ (rp_Candidates plan) with
              | None => MkSelection r [] (Err ErrUnsupported)
              | Some l => MkSelection r (rp_Rejections plan) (Ok l)
              end
          end
      end
  end.
End Resolve.
