(* ===== verification/ExecState.v ===== *)
(** * Executing a request: state and ports

    The state [ExecuteStep.Execute] keeps in [serving.Request] while it tries
    upstream candidates, and the outside world it calls: [src/internal/ai/serving]
    ([pipeline.go], [execute.go], [execute_attempt.go], [classifier.go]).  The
    world is a type [W] with one operation per call that leaves the step; each
    answers and moves the world on. *)

From Stdlib Require Import QArith.
From stdpp Require Import pretty.
From S2P Require Import Prelude GoStrings Decimal UsageEvidence Request Availability Effect Classify.
From S2P Require Import Candidates.
#[global] Open Scope Z_scope.

(** ** Errors *)

(** [APIError], without its cause. *)
Record APIError := MkAPI { ae_Status : Z; ae_Code : string; ae_Message : string }.
Inductive exec_error := ApiErr (e : APIError) | OtherErr (message : string).
Definition apiError (status : Z) (code message : string) : exec_error := ApiErr (MkAPI status code message).

(** ** Attempts ([AttemptRecord]), without times and error texts *)

Record AttemptRecord := MkAttempt {
  at_Sequence : Z;
  at_CandidateID : string;
  at_AccountID : string;
  at_ModelCode : string;
  at_Operation : string;
  at_Stream : bool;
  at_RouteID : string;
  at_GroupID : string;
  at_RoutePolicy : string;
  at_GroupRank : Z;
  at_TargetPriority : Z;
  at_SelectionReason : string;
  at_TargetID : string;
  at_UpstreamModel : string;
  at_EndpointID : string;
  at_PoolID : string;
  at_CredentialID : string;
  at_HTTPStatus : Z;
  at_Outcome : ResultStatus;
  at_Score : Q;
  at_UpstreamErrorCode : string;
  at_AvailabilityOutcome : string;
  at_FailureScope : option scope_key;
  at_CooldownEntered : bool;
  at_RetryAt : Z;
  at_OutcomeFinal : bool }.

Definition at_outcome (x0 : ResultStatus) (x1 : string) (a : AttemptRecord) : AttemptRecord :=
  MkAttempt (at_Sequence a) (at_CandidateID a) (at_AccountID a) (at_ModelCode a) (at_Operation a)
    (at_Stream a) (at_RouteID a) (at_GroupID a) (at_RoutePolicy a) (at_GroupRank a)
    (at_TargetPriority a) (at_SelectionReason a) (at_TargetID a) (at_UpstreamModel a)
    (at_EndpointID a) (at_PoolID a) (at_CredentialID a) (at_HTTPStatus a) x0 (at_Score a)
    (at_UpstreamErrorCode a) x1 (at_FailureScope a) (at_CooldownEntered a) (at_RetryAt a)
    (at_OutcomeFinal a).
Definition at_verdict (x0 : ResultStatus) (x1 : string) (x2 : string) (x3 : option scope_key) (a : AttemptRecord) : AttemptRecord :=
  MkAttempt (at_Sequence a) (at_CandidateID a) (at_AccountID a) (at_ModelCode a) (at_Operation a)
    (at_Stream a) (at_RouteID a) (at_GroupID a) (at_RoutePolicy a) (at_GroupRank a)
    (at_TargetPriority a) (at_SelectionReason a) (at_TargetID a) (at_UpstreamModel a)
    (at_EndpointID a) (at_PoolID a) (at_CredentialID a) (at_HTTPStatus a) x0 (at_Score a) x1
    x2 x3 (at_CooldownEntered a) (at_RetryAt a) (at_OutcomeFinal a).
Definition at_cooldown (x0 : bool) (x1 : Z) (a : AttemptRecord) : AttemptRecord :=
  MkAttempt (at_Sequence a) (at_CandidateID a) (at_AccountID a) (at_ModelCode a) (at_Operation a)
    (at_Stream a) (at_RouteID a) (at_GroupID a) (at_RoutePolicy a) (at_GroupRank a)
    (at_TargetPriority a) (at_SelectionReason a) (at_TargetID a) (at_UpstreamModel a)
    (at_EndpointID a) (at_PoolID a) (at_CredentialID a) (at_HTTPStatus a) (at_Outcome a)
    (at_Score a) (at_UpstreamErrorCode a) (at_AvailabilityOutcome a) (at_FailureScope a) x0 x1
    (at_OutcomeFinal a).
Definition at_final (x0 : bool) (a : AttemptRecord) : AttemptRecord :=
  MkAttempt (at_Sequence a) (at_CandidateID a) (at_AccountID a) (at_ModelCode a) (at_Operation a)
    (at_Stream a) (at_RouteID a) (at_GroupID a) (at_RoutePolicy a) (at_GroupRank a)
    (at_TargetPriority a) (at_SelectionReason a) (at_TargetID a) (at_UpstreamModel a)
    (at_EndpointID a) (at_PoolID a) (at_CredentialID a) (at_HTTPStatus a) (at_Outcome a)
    (at_Score a) (at_UpstreamErrorCode a) (at_AvailabilityOutcome a) (at_FailureScope a)
    (at_CooldownEntered a) (at_RetryAt a) x0.

(** ** The request during execution

    [x_req] is the settlement state of the request; the other fields are those
    the execute step reads and writes. *)

Record Exec := MkExec {
  x_req : Request;
  x_Candidates : list RouteCandidate;
  x_Used : gset string;
  x_UsedCredentials : gset string;
  x_Prepared : gmap string OAuthCredential;
  x_Credential : option OAuthCredential;
  x_Permit : option AdmissionPermit;
  x_Result : AvailabilityOutcome;
  x_RetryAt : Z;
  x_SelectionError : bool;
  x_Attempts : list AttemptRecord;
  x_Skipped : list AttemptRecord;
  x_SelectionReason : string;
  x_ModelCode : string;
  x_Committed : bool }.

Definition set_req (x0 : Request) (x : Exec) : Exec :=
  MkExec x0 (x_Candidates x) (x_Used x) (x_UsedCredentials x) (x_Prepared x) (x_Credential x)
    (x_Permit x) (x_Result x) (x_RetryAt x) (x_SelectionError x) (x_Attempts x) (x_Skipped x)
    (x_SelectionReason x) (x_ModelCode x) (x_Committed x).
Definition set_candidates (x0 : list RouteCandidate) (x : Exec) : Exec :=
  MkExec (x_req x) x0 (x_Used x) (x_UsedCredentials x) (x_Prepared x) (x_Credential x) (x_Permit x)
    (x_Result x) (x_RetryAt x) (x_SelectionError x) (x_Attempts x) (x_Skipped x)
    (x_SelectionReason x) (x_ModelCode x) (x_Committed x).
Definition set_used (x0 : gset string) (x : Exec) : Exec :=
  MkExec (x_req x) (x_Candidates x) x0 (x_UsedCredentials x) (x_Prepared x) (x_Credential x)
    (x_Permit x) (x_Result x) (x_RetryAt x) (x_SelectionError x) (x_Attempts x) (x_Skipped x)
    (x_SelectionReason x) (x_ModelCode x) (x_Committed x).
Definition set_used_credentials (x0 : gset string) (x : Exec) : Exec :=
  MkExec (x_req x) (x_Candidates x) (x_Used x) x0 (x_Prepared x) (x_Credential x) (x_Permit x)
    (x_Result x) (x_RetryAt x) (x_SelectionError x) (x_Attempts x) (x_Skipped x)
    (x_SelectionReason x) (x_ModelCode x) (x_Committed x).
Definition set_prepared (x0 : gmap string OAuthCredential) (x : Exec) : Exec :=
  MkExec (x_req x) (x_Candidates x) (x_Used x) (x_UsedCredentials x) x0 (x_Credential x) (x_Permit
    x) (x_Result x) (x_RetryAt x) (x_SelectionError x) (x_Attempts x) (x_Skipped x)
    (x_SelectionReason x) (x_ModelCode x) (x_Committed x).
Definition set_credential (x0 : option OAuthCredential) (x : Exec) : Exec :=
  MkExec (x_req x) (x_Candidates x) (x_Used x) (x_UsedCredentials x) (x_Prepared x) x0 (x_Permit x)
    (x_Result x) (x_RetryAt x) (x_SelectionError x) (x_Attempts x) (x_Skipped x)
    (x_SelectionReason x) (x_ModelCode x) (x_Committed x).
Definition set_permit (x0 : option AdmissionPermit) (x1 : AvailabilityOutcome) (x : Exec) : Exec :=
  MkExec (x_req x) (x_Candidates x) (x_Used x) (x_UsedCredentials x) (x_Prepared x) (x_Credential
    x) x0 x1 (x_RetryAt x) (x_SelectionError x) (x_Attempts x) (x_Skipped x)
    (x_SelectionReason x) (x_ModelCode x) (x_Committed x).
Definition set_retry_at (x0 : Z) (x : Exec) : Exec :=
  MkExec (x_req x) (x_Candidates x) (x_Used x) (x_UsedCredentials x) (x_Prepared x) (x_Credential
    x) (x_Permit x) (x_Result x) x0 (x_SelectionError x) (x_Attempts x) (x_Skipped x)
    (x_SelectionReason x) (x_ModelCode x) (x_Committed x).
Definition set_selection (x0 : string) (x1 : bool) (x : Exec) : Exec :=
  MkExec (x_req x) (x_Candidates x) (x_Used x) (x_UsedCredentials x) (x_Prepared x) (x_Credential
    x) (x_Permit x) (x_Result x) (x_RetryAt x) x1 (x_Attempts x) (x_Skipped x) x0 (x_ModelCode
    x) (x_Committed x).
Definition set_attempts (x0 : list AttemptRecord) (x : Exec) : Exec :=
  MkExec (x_req x) (x_Candidates x) (x_Used x) (x_UsedCredentials x) (x_Prepared x) (x_Credential
    x) (x_Permit x) (x_Result x) (x_RetryAt x) (x_SelectionError x) x0 (x_Skipped x)
    (x_SelectionReason x) (x_ModelCode x) (x_Committed x).
Definition set_skipped (x0 : list AttemptRecord) (x : Exec) : Exec :=
  MkExec (x_req x) (x_Candidates x) (x_Used x) (x_UsedCredentials x) (x_Prepared x) (x_Credential
    x) (x_Permit x) (x_Result x) (x_RetryAt x) (x_SelectionError x) (x_Attempts x) x0
    (x_SelectionReason x) (x_ModelCode x) (x_Committed x).
Definition set_model (x0 : string) (x : Exec) : Exec :=
  MkExec (x_req x) (x_Candidates x) (x_Used x) (x_UsedCredentials x) (x_Prepared x) (x_Credential
    x) (x_Permit x) (x_Result x) (x_RetryAt x) (x_SelectionError x) (x_Attempts x) (x_Skipped
    x) (x_SelectionReason x) x0 (x_Committed x).
Definition set_committed (x0 : bool) (x : Exec) : Exec :=
  MkExec (x_req x) (x_Candidates x) (x_Used x) (x_UsedCredentials x) (x_Prepared x) (x_Credential
    x) (x_Permit x) (x_Result x) (x_RetryAt x) (x_SelectionError x) (x_Attempts x) (x_Skipped
    x) (x_SelectionReason x) (x_ModelCode x) x0.

(** What the step reads and never writes. *)
Record ExecInput := MkInput {
  in_IsStream : bool;
  in_ClientProtocol : string;
  in_StickyModelKey : string;
  in_StickyHit : bool;
  in_StickyBinding : option (string * string * string);   (* route, target kind, credential *)
  in_ConversationID : string }.

(** The collaborators that are configured, and the attempt budget. *)
Record ExecConfig := MkConfig {
  cf_Availability : bool;
  cf_CredentialModels : bool;
  cf_OAuthPool : bool;
  cf_UpstreamLimiter : bool;
  cf_Scorer : bool;
  cf_Sticky : bool;
  cf_MaxAttempts : Z }.

(** ** The outside world *)

(** What [requestContextError] finds of the two contexts. *)
Inductive context_state := CtxLive | CtxRetryDeadline | CtxClient | CtxGateway.

Inductive select_answer := Selected (id : string) | NotFound | SelectFailed.
Inductive slot_answer := SlotClaimed | SlotExceeded | SlotUnavailable.

(** A response: what the code reads of its status, headers and body, with the
    terminal state the body reports ([""] for none). *)
Record UpstreamReply := MkReply {
  up_Status : Z;
  up_Headers : header_facts;
  up_Envelope : error_envelope;
  up_JSON : option json;
  up_Text : string;
  up_Terminal : string }.

(** [clientruntime.CredentialEffect] of a call that left a trace. *)
Inductive credential_effect := EffectNone | EffectCooldown | EffectRefreshed.

(** One call: a local failure of the client runtime that sent nothing, or the
    transport error (a phase timeout in place of the error it caused) and the
    response.  [ca_ParentEnded] tells that the call failed, no phase timed out and
    the parent context has ended; [ca_Context] what ended it. *)
Inductive call_answer :=
| LocalFailure
| Called (err : option call_error) (reply : option UpstreamReply) (effect : option credential_effect)
    (parent_ended : bool) (ended_by : context_state).

(** How a relay ended: nothing usable came and nothing was committed
    ([precommitError]), or another error. *)
Inductive relay_error := RelayPre (local : bool) (status : Z) (message : string) | RelayOther (e : exec_error).

(** A relay: the request it leaves, whether the response is committed, its error,
    whether the retry deadline had passed, the phase that timed out, and the error
    envelope of the response body when [payloadIsError] holds of it. *)
Record relay_answer := MkRelay {
  rl_Request : Request;
  rl_Committed : bool;
  rl_Error : option relay_error;
  rl_Deadline : bool;
  rl_Cause : option call_error;
  rl_ErrorBody : option error_envelope }.

Class Ports (W : Type) := {
  pt_now : W -> Z * W;
  pt_context : W -> context_state * W;
  pt_sha256 : string -> string;
  pt_listCandidates : string -> W -> option (list string * Z) * W;
  pt_readModels : string -> W -> gmap string CredentialModelCatalog * W;
  pt_readQuotas : list string -> W -> option (gmap string (list CredentialQuota)) * W;
  pt_capacity : string -> Z -> W -> option bool * W;
  pt_selectEligible : string -> string -> list string -> W -> select_answer * W;
  pt_selectExcluding : string -> string -> list string -> W -> option OAuthCredential * W;
  pt_selectPinned : string -> string -> W -> option OAuthCredential * W;
  pt_selectFromPool : string -> string -> W -> option OAuthCredential * W;
  pt_avRead : list FaultScope -> W -> option (gmap scope_key AvailabilitySnapshot) * W;
  pt_avAcquire : list FaultScope -> Z -> W -> result availability_error AdmissionPermit * W;
  pt_avComplete : AdmissionPermit -> AvailabilityOutcome -> W -> option (list AvailabilitySnapshot) * W;
  pt_avTurn : string -> list string -> bool -> W -> option string * W;
  pt_scores : list RouteCandidate -> W -> (RouteCandidate -> Q) * W;
  pt_rand : W -> nat * W;
  pt_review : RouteCandidate -> Request -> W -> option exec_error * W;
  pt_prepareBody : RouteCandidate -> W -> bool * W;
  pt_supportsRuntime : string -> string -> bool;
  pt_buildRequest : RouteCandidate -> option OAuthCredential -> W -> bool * W;
  pt_acquireSlot : string -> Z -> W -> slot_answer * W;
  pt_call : RouteCandidate -> option OAuthCredential -> W -> call_answer * W;
  pt_observeQuota : RouteCandidate -> OAuthCredential -> header_facts -> W -> W;
  pt_wait : Z -> W -> W;
  pt_relay : RouteCandidate -> Request -> W -> relay_answer * W;
  pt_sticky : RouteCandidate -> option OAuthCredential -> W -> W;
  pt_observe : RouteCandidate -> AttemptRecord -> bool -> bool -> W -> W }.

(** ** The monad of the step *)

Definition Ex (W : Type) : Type -> Type := M (Exec * W).

Section Ops.
Context {W : Type}.

Definition call_port {A} (f : W -> A * W) : Ex W A := fun s =>
  let '(a, w) := f s.2 in Some (a, (s.1, w)).
Definition tell_port (f : W -> W) : Ex W unit := fun s => Some (tt, (s.1, f s.2)).
Definition look {A} (f : Exec -> A) : Ex W A := gets (fun s => f s.1).
Definition update (f : Exec -> Exec) : Ex W unit := modify (fun s => (f s.1, s.2)).
End Ops.
