(* ===== verification/RouteSelection.v ===== *)
(** * Selecting the next candidate

    Models [src/internal/ai/serving/availability.go] ([expandCredentialCandidates],
    [prepareEligible], [candidateAvailability], the admission calls),
    [pool_selection.go], [scorer.go] and [pickCandidate] of
    [execute_candidates.go].  [pickCandidate] calls itself when a pool has no
    eligible credential left; it is a function of a fuel. *)

From Stdlib Require Import QArith.
From stdpp Require Import pretty.
From S2P Require Import Prelude GoStrings Decimal UsageEvidence Request Availability Effect Classify.
From S2P Require Import Candidates ExecState.
#[global] Open Scope Z_scope.

Section Selection.
Context {W : Type} `{Ports W} (cf : ExecConfig) (inp : ExecInput).
#[local] Abbreviation Ex := (Ex W).

(** ** Records of candidates *)

(** [recordSkippedCandidate] *)
Definition recordSkippedCandidate (c : RouteCandidate) (reason : string) : Ex unit :=
  update (fun x =>
    let status := if bool_decide (reason ∈ ["no_credential"; "local_request_error";
                       "upstream_capacity_exhausted"; "credential_model_unsupported"]%string)
                  then ResultRejected else ResultCircuitOpen in
    let a := MkAttempt (Z.of_nat (length (x_Attempts x) + length (x_Skipped x)) + 1) (Key c)
      (EffectiveAccountID c) (rc_ModelCode c) (OperationKey c) (in_IsStream inp) (rc_RouteID c)
      (rc_GroupID c) (rc_RoutePolicy c) (rc_GroupRank c) (rc_TargetPriority c) (x_SelectionReason x)
      (if IsPoolRoute c then rc_PoolID c else rc_EndpointID c) (EffectiveUpstreamModel c)
      (rc_EndpointID c) (rc_PoolID c) (rc_CredentialID c) 0 status 0 "" "" None false 0 false in
    set_skipped (x_Skipped x ++ [a]) x).

Definition markUsed (c : RouteCandidate) : Ex unit :=
  update (fun x => set_used ({[Key c]} ∪ x_Used x) x).

(** The earliest time an unavailable candidate may be retried. *)
Definition earlier (at_ : Z) : Ex unit :=
  update (fun x => if (x_RetryAt x =? 0) || (at_ <? x_RetryAt x) then set_retry_at at_ x else x).

(** ** Credentials as candidates ([expandCredentialCandidates]) *)

Definition credentialClone (c : RouteCandidate) (id : string) : RouteCandidate :=
  with_identity (CandidateIdentity pt_sha256 (Key c) id (EffectiveUpstreamModel c) (OperationKey c)) id c.

Definition copySnapshot (from to : string) : Ex unit :=
  update (fun x => let m := rq_BillingSnapshots (x_req x) in
    match m !! from with
    | Some sn => set_req (set_snapshots (<[to := sn]> m) (x_req x)) x
    | None => x
    end).

(** One candidate: its expansion, and the identities read of each pool so far. *)
Definition expandOne (c : RouteCandidate) (byPool : gmap string (list string))
    : Ex (option (list RouteCandidate * gmap string (list string))) :=
  if negb (IsPoolRoute c) || present (rc_CredentialID c) then mret (Some ([c], byPool))
  else
    ids ← match byPool !! rc_PoolID c with
          | Some ids => mret (Some ids)
          | None => r ← call_port (pt_listCandidates (rc_PoolID c));
                    match r with
                    | None => mret None
                    | Some (ids, at_) => (if 0 <? at_ then earlier at_ else mret tt);; mret (Some ids)
                    end
          end;
    match ids with
    | None => mret None
    | Some ids =>
        (if bool_decide (ids = []) then recordSkippedCandidate c "no_credential" else mret tt);;
        let clones := credentialClone c <$> ids in
        foldr (fun k m => copySnapshot (Key c) (Key k);; m) (mret tt) clones;;
        mret (Some (clones, <[rc_PoolID c := ids]> byPool))
    end.

Fixpoint expandAll (cs out : list RouteCandidate) (byPool : gmap string (list string))
    : Ex (option (list RouteCandidate)) :=
  match cs with
  | [] => mret (Some out)
  | c :: cs => r ← expandOne c byPool;
               match r with
               | None => mret None
               | Some (clones, byPool) => expandAll cs (out ++ clones) byPool
               end
  end.

(** [expandCredentialCandidates]: whether it succeeded. *)
Definition expandCredentialCandidates : Ex bool :=
  if negb (cf_OAuthPool cf) then mret true
  else cs ← look x_Candidates;
       r ← expandAll cs [] ∅;
       match r with
       | None => mret false
       | Some out => update (set_candidates out);; mret true
       end.

(** ** Eligibility ([prepareEligible]) *)

(** [stickyCredentialID] *)
Definition stickyCredentialID (x : Exec) (c : RouteCandidate) : string :=
  if bool_decide (x_Attempts x <> []) || negb (in_StickyHit inp) then ""
  else match in_StickyBinding inp with
       | Some (route, kind, cred) =>
           if String.eqb kind "credential" && String.eqb route (rc_RouteID c) then cred else ""
       | None => ""
       end.

(** [credentialUsed] *)
Definition credentialUsed (x : Exec) (c : RouteCandidate) (id : string) : bool :=
  bool_decide (id ∈ x_UsedCredentials x) || bool_decide (credentialUseKey c id ∈ x_UsedCredentials x).

(** The identities to exclude of a pool that is not expanded. *)
Definition excludedCredentials (x : Exec) (c : RouteCandidate) : list string :=
  let suffix := nul +:+ EffectiveUpstreamModel c +:+ nul +:+ OperationKey c in
  omap (fun id => if negb (Contains id nul) then Some id
                  else if HasSuffix id suffix
                  then Some (String.substring 0 (String.length id - String.length suffix) id)
                  else None) (elements (x_UsedCredentials x)).

(** The latest time a scope blocks the candidate until; 0 when none does. *)
Definition blockedUntil (states : gmap scope_key AvailabilitySnapshot) : Z :=
  map_fold (fun _ s until =>
    if bool_decide (sn_Phase s = Cooling) || sn_Busy s
    then Z.max until (if sn_Busy s then sn_LeaseUntil s else sn_RetryAt s) else until) 0 states.

(** [candidateAvailability]: available, and whether a scope is recovering; [None]
    when the state cannot be read. *)
Definition candidateAvailability (c : RouteCandidate) (cred : option OAuthCredential)
    : Ex (option (bool * bool)) :=
  if negb (cf_Availability cf) then mret (Some (true, false))
  else
    r ← call_port (pt_avRead (CandidateScopes c cred));
    match r with
    | None => mret None
    | Some states =>
        let until := blockedUntil states in
        if 0 <? until then earlier until;; mret (Some (false, false))
        else mret (Some (true, existsb (fun ks => bool_decide (sn_Phase (snd ks) = Recovering))
                                  (map_to_list states)))
    end.

Inductive prepared := Skip | Fail | Eligible (trial : bool).

Definition skip (c : RouteCandidate) (reason : string) : Ex prepared :=
  recordSkippedCandidate c reason;; markUsed c;; mret Skip.

(** The credential a candidate would use: [None] skips the candidate. *)
Definition candidateCredential (c : RouteCandidate) : Ex (option (option OAuthCredential)) :=
  if present (rc_CredentialID c) then
    used ← look (fun x => credentialUsed x c (rc_CredentialID c));
    mret (if used : bool then None else Some (Some (MkCredential (rc_CredentialID c) 0)))
  else if IsPoolRoute c && cf_OAuthPool cf then
    known ← look (fun x => match x_Prepared x !! Key c with
                           | Some cred => if credentialUsed x c (cr_ID cred) then None else Some cred
                           | None => None
                           end);
    cred ← match known with
           | Some cred => mret (Some cred)
           | None => excluded ← look (fun x => excludedCredentials x c);
                     call_port (pt_selectExcluding (rc_PoolID c) (rc_OAuthStrategy c) excluded)
           end;
    match cred with
    | None => _ ← skip c "no_credential"; mret None
    | Some cred => update (fun x => set_prepared (<[Key c := cred]> (x_Prepared x)) x);;
                   mret (Some (Some cred))
    end
  else mret (Some None).

(** The latest time the quotas of a credential block a model until. *)
Definition quotaUntil (quotas : list CredentialQuota) (model : string) (now : Z) : Z :=
  foldl (fun until q => if String.eqb (cq_Model q) "" || String.eqb (cq_Model q) model
                        then Z.max until (BlockedUntil q now) else until) 0 quotas.

Definition prepareOne (models : gmap string (gmap string CredentialModelCatalog))
    (quotas : gmap string (list CredentialQuota)) (c : RouteCandidate) : Ex prepared :=
  used ← look (fun x => bool_decide (Key c ∈ x_Used x));
  if used : bool then mret Skip
  else
    ready ← match rc_UpstreamConcurrencyLimit c with
            | Some limit => if cf_UpstreamLimiter cf
                            then call_port (pt_capacity (EffectiveAccountID c) limit) else mret (Some true)
            | None => mret (Some true)
            end;
    match ready with
    | None => mret Fail
    | Some false => skip c "upstream_capacity_exhausted"
    | Some true =>
        cred ← candidateCredential c;
        match cred with
        | None => mret Skip
        | Some cred =>
            now ← call_port pt_now;
            let excluded := match cred with
              | Some cr => Excludes (models !! rc_PoolID c ≫= fun m => m !! cr_ID cr)
                             (EffectiveUpstreamModel c) now
              | None => false
              end in
            let until := match cred with
              | Some cr => quotaUntil (default [] (quotas !! cr_ID cr)) (EffectiveUpstreamModel c) now
              | None => 0
              end in
            if excluded then skip c "credential_model_unsupported"
            else if 0 <? until then (r ← skip c "quota_exhausted"; earlier until;; mret r)
            else
              r ← candidateAvailability c cred;
              match r with
              | None => mret Fail
              | Some (true, trial) => mret (Eligible trial)
              | Some (false, _) => skip c "cooling"
              end
        end
    end.

(** The loop over the candidates: the eligible ones and the keys on trial. *)
Fixpoint prepareLoop (models : gmap string (gmap string CredentialModelCatalog))
    (quotas : gmap string (list CredentialQuota)) (cs eligible : list RouteCandidate)
    (recovery : gset string) : Ex (option (list RouteCandidate * gset string)) :=
  match cs with
  | [] => mret (Some (eligible, recovery))
  | c :: cs =>
      r ← prepareOne models quotas c;
      match r with
      | Fail => mret None
      | Skip => prepareLoop models quotas cs eligible recovery
      | Eligible trial =>
          prepareLoop models quotas cs (eligible ++ [c])
            (if trial then {[Key c]} ∪ recovery else recovery)
      end
  end.

Fixpoint loadModels (cs : list RouteCandidate) (models : gmap string (gmap string CredentialModelCatalog))
    : Ex (gmap string (gmap string CredentialModelCatalog)) :=
  match cs with
  | [] => mret models
  | c :: cs =>
      used ← look (fun x => bool_decide (Key c ∈ x_Used x));
      if negb (IsPoolRoute c) || used || bool_decide (is_Some (models !! rc_PoolID c))
      then loadModels cs models
      else catalog ← call_port (pt_readModels (rc_PoolID c));
           loadModels cs (<[rc_PoolID c := catalog]> models)
  end.

(** [prepareEligible]; [None] when the state cannot be verified. *)
Definition prepareEligible : Ex (option (list RouteCandidate * gset string)) :=
  cs ← look x_Candidates;
  models ← (if cf_CredentialModels cf then loadModels cs ∅ else mret ∅);
  quotas ← (if cf_OAuthPool cf
            then call_port (pt_readQuotas (remove_dups (List.filter present (rc_CredentialID <$> cs))))
            else mret (Some ∅));
  match quotas with
  | None => mret None
  | Some quotas => prepareLoop models quotas cs [] ∅
  end.

(** ** Pools ([pool_selection.go]) *)

(** [poolTarget] *)
Definition poolTarget (c : RouteCandidate) : RouteCandidate :=
  with_identity (CandidateIdentity pt_sha256 (rc_RouteID c) ("pool:" +:+ rc_PoolID c) (EffectiveUpstreamModel c)
                   (OperationKey c)) "" c.

(** [poolSelectionTargets]: one target per pool, and the members of each. *)
Definition addTarget (acc : list RouteCandidate * gmap string (list RouteCandidate))
    (c : RouteCandidate) : list RouteCandidate * gmap string (list RouteCandidate) :=
  let '(targets, members) := acc in
  if negb (IsPoolRoute c) || negb (present (rc_CredentialID c)) then (targets ++ [c], members)
  else let target := poolTarget c in
       let options := default [] (members !! Key target) in
       (if bool_decide (options = []) then targets ++ [target] else targets,
        <[Key target := options ++ [c]]> members).

Definition poolSelectionTargets (tier : list RouteCandidate)
    : list RouteCandidate * gmap string (list RouteCandidate) :=
  if negb (cf_OAuthPool cf) then (tier, ∅)
  else
    let '(targets, members) := foldl addTarget ([], ∅) tier in
    ((fun t => match members !! Key t with
               | Some (o :: options) => with_pool_count (Z.of_nat (length (o :: options))) t
               | _ => t
               end) <$> targets, members).

(** [resolvePoolSelection] *)
Definition resolvePoolSelection (selected : RouteCandidate)
    (members : gmap string (list RouteCandidate)) : Ex (option RouteCandidate) :=
  match default [] (members !! Key selected) with
  | [] => mret (Some selected)
  | options =>
      r ← call_port (pt_selectEligible (rc_PoolID selected) (rc_OAuthStrategy selected)
                       (rc_CredentialID <$> options));
      match r with
      | NotFound => update (fun x => set_used (list_to_set (Key <$> options) ∪ x_Used x) x);; mret None
      | SelectFailed => update (fun x => set_selection (x_SelectionReason x) true x);; mret None
      | Selected id =>
          match List.find (fun o => String.eqb (rc_CredentialID o) id) options with
          | Some o => mret (Some o)
          | None => update (fun x => set_selection (x_SelectionReason x) true x);; mret None
          end
      end
  end.

(** ** The scorer ([scorer.go]) *)

(** [rand.Intn] *)
Definition Intn (n : nat) : Ex nat := r ← call_port pt_rand; mret (r mod n)%nat.

Definition score_at (scores : list Q) (i : nat) : Q := default 0%Q (scores !! i).
Definition Qltb (a b : Q) : bool := negb (Qle_bool b a).

(** The best score, ties broken at random: [i] counts the scores seen. *)
Fixpoint bestScore (scores : list Q) (i : nat) (rest : list Q) (best ties : nat) : Ex nat :=
  match rest with
  | [] => mret best
  | s :: rest =>
      if Qltb (score_at scores best) s then bestScore scores (S i) rest i 1
      else if Qeq_bool s (score_at scores best) then
        r ← Intn (S ties);
        bestScore scores (S i) rest (if (r =? 0)%nat then i else best) (S ties)
      else bestScore scores (S i) rest best ties
  end.

(** [PickWithScore] *)
Definition PickWithScore (cs : list RouteCandidate) : Ex (option RouteCandidate * Q) :=
  used ← look x_Used;
  let eligible := filterEligible used cs in
  match eligible with
  | [] => mret (None, 0%Q)
  | [c] => mret (Some c, 0%Q)
  | first :: _ =>
      score ← call_port (pt_scores eligible);
      let scores := score <$> eligible in
      if String.eqb (rc_RoutePolicy first) "balanced" || String.eqb (rc_RoutePolicy first) "" then
        a ← Intn (length eligible);
        b ← Intn (length eligible - 1);
        let b := if (a <=? b)%nat then S b else b in
        let a := if Qltb (score_at scores a) (score_at scores b) then b else a in
        mret (eligible !! a, score_at scores a)
      else
        best ← bestScore scores 1 (tail scores) 0 1;
        mret (eligible !! best, score_at scores best)
  end.

(** [routeSelectionReason] *)
Definition routeSelectionReason (c : RouteCandidate) (score : Q) : string :=
  if negb (cf_Scorer cf) then "automatic_fallback"
  else if bool_decide (rc_RoutePolicy c ∈ ["balanced"; "cost"; "latency"; "stability"]%string)
  then rc_RoutePolicy c
  else if Qltb 0 score then "balanced" else "automatic_fallback".

(** ** [pickCandidate] *)

Definition tierKey (c : RouteCandidate) : string :=
  rc_GroupID c +:+ ":" +:+ pretty (rc_TargetPriority c) +:+ ":" +:+ pretty (rc_ConversionBucket c)
    +:+ ":" +:+ in_StickyModelKey inp +:+ ":" +:+ in_ClientProtocol inp.

Definition onTrial (recovery : gset string) (c : RouteCandidate) : bool := bool_decide (Key c ∈ recovery).

(** The candidate a recovery turn names, if the availability service gives one:
    the outer [None] is a failed call. *)
Definition recoveryTurn (tier : list RouteCandidate) (recovery : gset string)
    : Ex (option (option RouteCandidate)) :=
  match tier with
  | [] => mret (Some None)
  | first :: _ =>
      if negb (cf_Availability cf) then mret (Some None)
      else
        let trials := Key <$> List.filter (onTrial recovery) tier in
        let normal := List.filter (fun c => negb (onTrial recovery c)) tier in
        r ← call_port (pt_avTurn (tierKey first) trials (negb (bool_decide (normal = []))));
        match r with
        | None => mret None
        | Some trial =>
            mret (Some (if String.eqb trial "" then None
                        else List.find (fun c => String.eqb (Key c) trial) tier))
        end
  end.

(** The sticky candidate of the first attempt. *)
Definition stickyChoice (x : Exec) (tier : list RouteCandidate) : option RouteCandidate :=
  match rq_Candidate (x_req x) with
  | Some bound =>
      if in_StickyHit inp && bool_decide (x_Attempts x = []) then
        List.find (fun c => String.eqb (Key c) (Key bound)
          || (present (rc_CredentialID c) && String.eqb (rc_CredentialID c) (stickyCredentialID x c))) tier
      else None
  | None => None
  end.

Definition selectError : Ex (option RouteCandidate * Q) :=
  update (fun x => set_selection (x_SelectionReason x) true x);; mret (None, 0%Q).

Definition chosen (reason : string) (c : RouteCandidate) : Ex (option RouteCandidate * Q) :=
  update (fun x => set_selection reason (x_SelectionError x) x);; mret (Some c, 0%Q).

(** The scorer's choice among the targets of the tier. *)
Definition scoreTier (tier : list RouteCandidate) (manualPriority : bool)
    (again : Ex (option RouteCandidate * Q)) : Ex (option RouteCandidate * Q) :=
  let '(targets, members) := poolSelectionTargets tier in
  '(cand, score) ← (if cf_Scorer cf then PickWithScore targets else mret (head targets, 0%Q));
  match cand with
  | None => mret (None, 0%Q)
  | Some target =>
      r ← resolvePoolSelection target members;
      match r with
      | None => failed ← look x_SelectionError; if failed : bool then mret (None, 0%Q) else again
      | Some c =>
          let reason := if manualPriority then "manual_priority"%string
                        else if (length tier =? 1)%nat && cf_Scorer cf then "single_candidate"%string
                        else routeSelectionReason c score in
          update (fun x => set_model (rc_ModelCode c) (set_selection reason (x_SelectionError x) x));;
          mret (Some c, score)
      end
  end.

(** A candidate on trial: a weighted pool must still select its credential. *)
Definition tryRecovery (c : RouteCandidate) (again : Ex (option RouteCandidate * Q))
    : Ex (option RouteCandidate * Q) :=
  sticky ← look (fun x => stickyCredentialID x c);
  if cf_OAuthPool cf && IsPoolRoute c && present (rc_CredentialID c)
     && String.eqb (rc_OAuthStrategy c) "weighted" && negb (String.eqb sticky (rc_CredentialID c)) then
    let target := poolTarget c in
    r ← resolvePoolSelection target {[ Key target := [c] ]};
    match r with
    | None => failed ← look x_SelectionError; if failed : bool then mret (None, 0%Q) else again
    | Some _ => chosen "recovery" c
    end
  else chosen "recovery" c.

(** The choice within a tier: a recovery turn, the sticky candidate, the scorer. *)
Definition selectInTier (tier : list RouteCandidate) (manualPriority : bool) (recovery : gset string)
    (again : Ex (option RouteCandidate * Q)) : Ex (option RouteCandidate * Q) :=
  turn ← recoveryTurn tier recovery;
  match turn with
  | None => selectError
  | Some (Some c) => tryRecovery c again
  | Some None =>
      let normal := List.filter (fun c => negb (onTrial recovery c)) tier in
      let tier := if cf_Availability cf && negb (bool_decide (normal = [])) then normal else tier in
      sticky ← look (fun x => stickyChoice x tier);
      match sticky with
      | Some c => chosen "sticky" c
      | None => scoreTier tier manualPriority again
      end
  end.

Fixpoint pickCandidate (fuel : nat) : Ex (option RouteCandidate * Q) :=
  match fuel with
  | O => out_of_fuel
  | S fuel =>
      update (set_selection "" false);;
      prepared ← (if cf_Availability cf || cf_CredentialModels cf then prepareEligible
                  else cs ← look x_Candidates; mret (Some (cs, ∅)));
      match prepared with
      | None => selectError
      | Some (candidates, recovery) =>
          used ← look x_Used;
          let '(tier, manualPriority) := activeTier used candidates in
          if bool_decide (tier = []) then mret (None, 0%Q)
          else selectInTier tier manualPriority recovery (pickCandidate fuel)
      end
  end.

(** ** Admission ([acquireAvailability] and its release) *)

(** [candidateProbeLease], in milliseconds. *)
Definition candidateProbeLease (c : RouteCandidate) : Z :=
  if rc_MaxDuration c <=? 0 then 30 * 60 * 1000 else rc_MaxDuration c + 2 * 60 * 1000.

Definition acquireAvailability (c : RouteCandidate) : Ex (option availability_error) :=
  update (set_permit None neutral_outcome);;
  if negb (cf_Availability cf) then mret None
  else
    cred ← look x_Credential;
    r ← call_port (pt_avAcquire (CandidateScopes c cred) (candidateProbeLease c));
    match r with
    | Ok p => update (set_permit (Some p) neutral_outcome);; mret None
    | Err (AdmissionDenied at_ reason) => earlier at_;; mret (Some (AdmissionDenied at_ reason))
    | Err e => mret (Some e)
    end.

Definition alter_last {A} (f : A -> A) (l : list A) : list A :=
  match l with [] => [] | _ => alter f (length l - 1)%nat l end.

(** [finishAvailability] *)
Definition finishAvailability : Ex unit :=
  permit ← look x_Permit;
  match permit with
  | None => mret tt
  | Some p =>
      if negb (cf_Availability cf) then mret tt
      else
        result ← look x_Result;
        states ← call_port (pt_avComplete p result);
        update (fun x => set_permit None (x_Result x)
          (set_attempts (alter_last (fun a =>
             foldl (fun a s =>
               if bool_decide (sn_Phase s = Cooling)
                  && (default 0 (pm_Epochs p !! fs_Key (sn_Scope s)) <? sn_Epoch s)
               then at_cooldown true (sn_RetryAt s) a else a) a (default [] states))
             (x_Attempts x)) x))
  end.

(** [releaseAvailability] *)
Definition releaseAvailability : Ex unit :=
  update (fun x => set_permit (x_Permit x) neutral_outcome x);; finishAvailability.
End Selection.
