(* ===== verification/RouteSelectionFacts.v ===== *)
(** * Selecting the next candidate: facts

    What selection may change of a request, the termination of [pickCandidate],
    and the candidate it chooses. *)

From Stdlib Require Import QArith.
From S2P Require Import Prelude GoStrings Decimal UsageEvidence Request Availability Effect Classify.
From S2P Require Import Candidates ExecState RouteSelection.
#[global] Open Scope Z_scope.

(** ** What selection leaves alone *)

Section Quiet.
Context {W : Type}.
Implicit Types s : Exec * W.

(** Selection neither calls an upstream nor touches what the attempts left. *)
Record quiet s s' : Prop := {
  q_Candidates : x_Candidates s'.1 = x_Candidates s.1;
  q_Used : x_Used s.1 ⊆ x_Used s'.1;
  q_UsedCredentials : x_UsedCredentials s'.1 = x_UsedCredentials s.1;
  q_Attempts : x_Attempts s'.1 = x_Attempts s.1;
  q_Credential : x_Credential s'.1 = x_Credential s.1;
  q_Permit : x_Permit s'.1 = x_Permit s.1;
  q_Committed : x_Committed s'.1 = x_Committed s.1;
  q_Capability : rq_CapabilityType (x_req s'.1) = rq_CapabilityType (x_req s.1) }.

#[global] Instance quiet_preorder : PreOrder quiet.
Proof.
  split.
  - intros s. by split.
  - intros s1 s2 s3 [] []. split; [congruence | set_solver | congruence..].
Qed.

Lemma does_port {A} (R : Exec * W -> Exec * W -> Prop) (f : W -> A * W) :
  (forall x w w', R (x, w) (x, w')) -> does R (call_port f).
Proof.
  intros HR [x w]. unfold wp, call_port. simpl. destruct (f w) as [a w']. apply HR.
Qed.
Lemma does_tell (R : Exec * W -> Exec * W -> Prop) (f : W -> W) :
  (forall x w w', R (x, w) (x, w')) -> does R (tell_port f).
Proof. intros HR [x w]. unfold wp, tell_port. simpl. apply HR. Qed.
Lemma does_look {A} (R : Exec * W -> Exec * W -> Prop) `{!PreOrder R} (f : Exec -> A) : does R (look f).
Proof. intros s. unfold look. apply wp_gets. reflexivity. Qed.
Lemma does_update (R : Exec * W -> Exec * W -> Prop) f :
  (forall x w, R (x, w) (f x, w)) -> does R (update f).
Proof. intros HR [x w]. unfold update. apply wp_modify, HR. Qed.

Lemma wp_look {A} (f : Exec -> A) Q s : Q (f s.1) s -> wp (look f) Q s.
Proof. done. Qed.
Lemma wp_update f (Q : unit -> Exec * W -> Prop) s : Q tt (f s.1, s.2) -> wp (update f) Q s.
Proof. done. Qed.
Lemma wp_call_port {A} (f : W -> A * W) (Q : A -> Exec * W -> Prop) s :
  (forall a w, Q a (s.1, w)) -> wp (call_port f) Q s.
Proof. intros HQ. unfold wp, call_port. destruct (f s.2) as [a w]. apply HQ. Qed.
Lemma wp_tell_port (f : W -> W) (Q : unit -> Exec * W -> Prop) s :
  (forall w, Q tt (s.1, w)) -> wp (tell_port f) Q s.
Proof. intros HQ. apply HQ. Qed.

Lemma quiet_port {A} (f : W -> A * W) : does quiet (call_port f).
Proof. apply does_port. by intros. Qed.
Lemma quiet_tell (f : W -> W) : does quiet (tell_port f).
Proof. apply does_tell. by intros. Qed.
Lemma quiet_look {A} (f : Exec -> A) : does quiet (look f).
Proof. apply does_look, _. Qed.
End Quiet.
#[export] Hint Resolve quiet_port quiet_tell quiet_look : effects.

(** Run a program by one step: a step of the monad by computation, another by the
    relation a hint knows of it, which becomes a hypothesis. *)
Ltac run :=
  lazymatch goal with
  | |- wp (@mbind _ _ _ _ _ _) _ _ => apply wp_bind; run
  | |- wp (@mret _ _ _ _) _ _ => apply wp_ret
  | |- wp (look _) _ _ => apply wp_look
  | |- wp (update _) _ _ => apply wp_update
  | |- wp (call_port _) _ _ => apply wp_call_port; intros ? ?
  | |- wp (tell_port _) _ _ => apply wp_tell_port; intros ?
  | |- wp _ _ _ => eapply wp_does; [solve [eauto with effects] | intros ? ? ?]
  end.

(** The case analysis a program starts with. *)
Ltac pick_case := lazymatch goal with |- wp (match ?x with _ => _ end) _ _ => destruct x eqn:? end.

Ltac quiet_update := apply does_update; intros ? ?; split; simpl; repeat case_match; simpl; set_solver.

Section Selection.
Context {W : Type} `{Ports W} (cf : ExecConfig) (inp : ExecInput).
#[local] Abbreviation Ex := (Ex W).

Lemma quiet_recordSkipped c reason : does quiet (recordSkippedCandidate (W := W) inp c reason).
Proof. quiet_update. Qed.
Lemma quiet_markUsed c : does quiet (markUsed (W := W) c).
Proof. quiet_update. Qed.
Lemma quiet_earlier t : does quiet (earlier (W := W) t).
Proof. quiet_update. Qed.
Lemma quiet_selection reason b :
  does quiet (update (W := W) (fun x => set_selection reason (b x) x)).
Proof. quiet_update. Qed.
#[local] Hint Resolve quiet_recordSkipped quiet_markUsed quiet_earlier quiet_selection : effects.

Lemma quiet_skip c reason : does quiet (skip (W := W) inp c reason).
Proof. unfold skip. effects. Qed.
#[local] Hint Resolve quiet_skip : effects.

Lemma quiet_candidateCredential c : does quiet (candidateCredential (W := W) cf inp c).
Proof. unfold candidateCredential. effects. quiet_update. Qed.
Lemma quiet_candidateAvailability c cred : does quiet (candidateAvailability (W := W) cf c cred).
Proof. unfold candidateAvailability. cbn zeta. effects. Qed.
#[local] Hint Resolve quiet_candidateCredential quiet_candidateAvailability : effects.

Lemma quiet_prepareOne models quotas c : does quiet (prepareOne (W := W) cf inp models quotas c).
Proof. unfold prepareOne. cbn zeta. effects. Qed.
#[local] Hint Resolve quiet_prepareOne : effects.

Lemma quiet_prepareLoop models quotas cs : forall eligible recovery,
  does quiet (prepareLoop (W := W) cf inp models quotas cs eligible recovery).
Proof. induction cs as [|c cs IH]; intros; simpl; effects. Qed.
Lemma quiet_loadModels cs : forall models, does quiet (loadModels (W := W) cs models).
Proof. induction cs as [|c cs IH]; intros; simpl; effects. Qed.
#[local] Hint Resolve quiet_prepareLoop quiet_loadModels : effects.

Lemma quiet_prepareEligible : does quiet (prepareEligible (W := W) cf inp).
Proof. unfold prepareEligible. effects. Qed.
#[local] Hint Resolve quiet_prepareEligible : effects.

Lemma quiet_resolve c members : does quiet (resolvePoolSelection (W := W) c members).
Proof. unfold resolvePoolSelection. effects; quiet_update. Qed.

Lemma quiet_Intn n : does quiet (Intn (W := W) n).
Proof. unfold Intn. effects. Qed.
#[local] Hint Resolve quiet_resolve quiet_Intn : effects.

Lemma quiet_bestScore scores rest : forall i best ties,
  does quiet (bestScore (W := W) scores i rest best ties).
Proof. induction rest as [|q rest IH]; intros; simpl; effects. Qed.
#[local] Hint Resolve quiet_bestScore : effects.
Lemma quiet_PickWithScore cs : does quiet (PickWithScore (W := W) cs).
Proof. unfold PickWithScore. cbn zeta. effects. Qed.
Lemma quiet_recoveryTurn tier recovery : does quiet (recoveryTurn (W := W) cf inp tier recovery).
Proof. unfold recoveryTurn. cbn zeta. effects. Qed.
#[local] Hint Resolve quiet_PickWithScore quiet_recoveryTurn quiet_prepareEligible : effects.

(** ** Eligibility *)

(** A candidate [prepareEligible] leaves out: it is used, or its credential is. *)
Definition gone (x : Exec) (c : RouteCandidate) : Prop :=
  Key c ∈ x_Used x \/ (present (rc_CredentialID c) = true /\ credentialUsed x c (rc_CredentialID c) = true).

Lemma gone_quiet (s s' : Exec * W) c : quiet s s' -> gone s.1 c -> gone s'.1 c.
Proof.
  intros Hq [Hk | [Hp Hc]]; [left; by apply (q_Used _ _ Hq) | right]. split; [done|].
  unfold credentialUsed in *. by rewrite (q_UsedCredentials _ _ Hq).
Qed.

Lemma skip_spec c reason s :
  wp (skip (W := W) inp c reason) (fun r s' => quiet s s' /\ r = Skip /\ gone s'.1 c) s.
Proof.
  unfold skip, markUsed. run. run. run. split_and!; [|done | left; simpl; set_solver].
  etrans; [done|]. split; simpl; try done. set_solver.
Qed.

Lemma candidateCredential_spec c s :
  wp (candidateCredential (W := W) cf inp c)
    (fun r s' => quiet s s' /\ (r = None -> gone s'.1 c)) s.
Proof.
  unfold candidateCredential. destruct (present (rc_CredentialID c)) eqn:Hp.
  - run. run. split; [reflexivity|]. destruct (credentialUsed _ _ _) eqn:Hu; [|done].
    intros _. right. done.
  - destruct (IsPoolRoute c && cf_OAuthPool cf); [|run; split; [reflexivity | done]].
    run. apply wp_bind.
    eapply (wp_mono _ (fun _ s1 => quiet s s1)).
    { pick_case; [run; reflexivity|]. run. run. done. }
    intros [cred|] s1 Hq; [run; run; split; [|done]|].
    + etrans; [done|]. split; simpl; done.
    + apply wp_bind. eapply wp_mono; [apply skip_spec|]. intros r s2 (Hq2 & _ & Hg). run.
      split; [by etrans | done].
Qed.

Lemma prepareOne_spec models quotas c s :
  wp (prepareOne (W := W) cf inp models quotas c)
    (fun r s' => quiet s s' /\ (r = Skip -> gone s'.1 c)) s.
Proof.
  unfold prepareOne. cbn zeta. run.
  destruct (bool_decide (Key c ∈ _)) eqn:Hu; [run; split; [reflexivity|] |].
  { intros _. left. by apply bool_decide_eq_true in Hu. }
  assert (Hskip : forall reason s0, quiet s s0 ->
    wp (skip (W := W) inp c reason) (fun r s' => quiet s s' /\ (r = Skip -> gone s'.1 c)) s0).
  { intros reason s0 Hq. eapply wp_mono; [apply skip_spec|]. intros r s1 (Hq1 & _ & Hg).
    split; [by etrans | done]. }
  apply wp_bind, (wp_does quiet).
  { destruct (rc_UpstreamConcurrencyLimit c); [destruct (cf_UpstreamLimiter cf)|]; effects. }
  intros [[|]|] s1 Hq1; [| by apply Hskip | run; done].
  apply wp_bind. eapply wp_mono; [apply candidateCredential_spec|]. intros [cred|] s2 [Hq2 Hg].
  2: { run. split; [by etrans | by auto]. }
  apply wp_bind, (wp_does quiet); [apply quiet_port|]. intros now s3 Hnow.
  assert (Hq : quiet s s3) by (etrans; [|done]; by etrans).
  destruct (match cred with Some _ => Excludes _ _ _ | None => false end); [by apply Hskip|].
  destruct (0 <? _).
  - apply wp_bind. eapply wp_mono; [by apply Hskip|]. intros r s4 [Hq4 Hg4]. run. run.
    split; [by etrans|]. intros Hr. eapply gone_quiet; eauto.
  - apply wp_bind, (wp_does quiet); [apply quiet_candidateAvailability|].
    intros [[[|] trial]|] s4 Hq4; [run; split; [by etrans | done] | apply Hskip; by etrans |].
    run. split; [by etrans | done].
Qed.

(** [prepareEligible] offers candidates of the request, and leaves out only those
    that are gone. *)
Lemma prepareLoop_spec models quotas cs : forall eligible recovery s,
  wp (prepareLoop (W := W) cf inp models quotas cs eligible recovery)
    (fun r s' => quiet s s' /\ forall out trials, r = Some (out, trials) ->
       (forall d, d ∈ out -> d ∈ eligible \/ d ∈ cs) /\
       (forall d, d ∈ eligible -> d ∈ out) /\
       (forall d, d ∈ cs -> d ∈ out \/ gone s'.1 d)) s.
Proof.
  induction cs as [|c cs IH]; intros eligible recovery s; cbn [prepareLoop].
  - run. split; [reflexivity|]. intros out trials [= <- <-]. split_and!; [by left | done |].
    intros d Hd. by apply not_elem_of_nil in Hd.
  - apply wp_bind. eapply wp_mono; [apply prepareOne_spec|]. intros [| |trial] s1 [Hq1 Hg1].
    + eapply wp_mono; [apply IH|]. intros r s2 [Hq2 Hr]. split; [by etrans|].
      intros out trials ->. destruct (Hr _ _ eq_refl) as (H1 & H2 & H3). split_and!.
      * intros d Hd. destruct (H1 d Hd); [by left | right; by right].
      * done.
      * intros d [-> | Hd]%elem_of_cons; [right; eauto using gone_quiet | by apply H3].
    + run. split; [done|]. done.
    + eapply wp_mono; [apply IH|]. intros r s2 [Hq2 Hr]. split; [by etrans|].
      intros out trials ->. destruct (Hr _ _ eq_refl) as (H1 & H2 & H3). split_and!.
      * intros d Hd. rewrite elem_of_cons. destruct (H1 d Hd) as [[?|?%list_elem_of_singleton]%elem_of_app | ?]; auto.
      * intros d Hd. apply H2, elem_of_app. by left.
      * intros d [-> | Hd]%elem_of_cons; [left; apply H2, elem_of_app; right; by apply list_elem_of_singleton
                                         | by apply H3].
Qed.

Lemma prepareEligible_spec s :
  wp (prepareEligible (W := W) cf inp)
    (fun r s' => quiet s s' /\ forall out trials, r = Some (out, trials) ->
       (forall d, d ∈ out -> d ∈ x_Candidates s'.1) /\
       (forall d, d ∈ x_Candidates s'.1 -> d ∈ out \/ gone s'.1 d)) s.
Proof.
  unfold prepareEligible. run.
  apply wp_bind, (wp_does quiet). { destruct (cf_CredentialModels cf); effects. }
  intros models s1 Hq1. apply wp_bind, (wp_does quiet). { destruct (cf_OAuthPool cf); effects. }
  intros [quotas|] s2 Hq2; [|run; split; [by etrans | done]].
  eapply wp_mono; [apply prepareLoop_spec|]. intros r s3 [Hq3 Hr].
  assert (Hq : quiet s s3) by (etrans; [|done]; by etrans). split; [done|].
  intros out trials ->. destruct (Hr _ _ eq_refl) as (H1 & _ & H3).
  rewrite (q_Candidates _ _ Hq). split; [|done].
  intros d Hd. destruct (H1 d Hd) as [?%not_elem_of_nil | ?]; done.
Qed.

(** ** Pools *)

(** A target is a candidate of the tier or stands for some of them. *)
Definition stands_for (tier : list RouteCandidate) (members : gmap string (list RouteCandidate))
    (t : RouteCandidate) : Prop :=
  t ∈ tier \/ (exists o os, members !! Key t = Some (o :: os)).
Definition members_of (tier : list RouteCandidate) (members : gmap string (list RouteCandidate)) : Prop :=
  forall k os, members !! k = Some os -> forall o, o ∈ os -> o ∈ tier.

Definition fair_targets tier (acc : list RouteCandidate * gmap string (list RouteCandidate)) : Prop :=
  members_of tier acc.2 /\ (forall t, t ∈ acc.1 -> stands_for tier acc.2 t).

(** Its identity is that of a candidate of the tier, or of a pool. *)
Definition identified (tier : list RouteCandidate) (t : RouteCandidate) : Prop :=
  exists c, c ∈ tier /\ (Key t = Key c \/ Key t = Key (poolTarget (W := W) c)).

Lemma addTarget_fair tier acc c :
  fair_targets tier acc -> c ∈ tier -> fair_targets tier (addTarget (W := W) acc c).
Proof.
  destruct acc as [ts ms]. intros [Hm Ht] Hc. cbn [fst snd] in *. unfold addTarget.
  destruct (_ || _).
  { split; [done|]. intros t [? | Hx]%elem_of_app; [auto | left]. by apply list_elem_of_singleton in Hx as ->. }
  set (k := Key (poolTarget c)). split; cbn [fst snd].
  - intros k' os. destruct (decide (k' = k)) as [->|Hne].
    + rewrite lookup_insert_eq. intros [= <-] o [Ho | Hx]%elem_of_app; [|by apply list_elem_of_singleton in Hx as ->].
      destruct (ms !! k) as [os|] eqn:Hk; [by eapply Hm | by apply not_elem_of_nil in Ho].
    + rewrite lookup_insert_ne by done. apply Hm.
  - assert (Hkept : forall t, stands_for tier ms t ->
              stands_for tier (<[k:=default [] (ms !! k) ++ [c]]> ms) t).
    { intros t [? | (o & os & Ho)]; [by left | right]. destruct (decide (Key t = k)) as [Heq|Hne].
      - rewrite Heq, lookup_insert_eq. rewrite Heq in Ho. rewrite Ho. simpl. eauto.
      - rewrite lookup_insert_ne by done. eauto. }
    assert (Hnew : stands_for tier (<[k:=default [] (ms !! k) ++ [c]]> ms) (poolTarget c)).
    { right. fold k. rewrite lookup_insert_eq. destruct (default [] (ms !! k)); simpl; eauto. }
    intros t Hin. case_bool_decide; [apply elem_of_app in Hin as [Hin | Hx]|]; auto.
    by apply list_elem_of_singleton in Hx as ->.
Qed.

Lemma poolSelectionTargets_spec tier targets members :
  poolSelectionTargets (W := W) cf tier = (targets, members) -> fair_targets tier (targets, members).
Proof.
  unfold poolSelectionTargets. destruct (cf_OAuthPool cf); cbn [negb].
  2: { intros [= <- <-]. split; [intros k os Hk; simpl in Hk; by rewrite lookup_empty in Hk | by left]. }
  assert (HF : forall rest acc, (forall c, c ∈ rest -> c ∈ tier) -> fair_targets tier acc ->
                 fair_targets tier (foldl (addTarget (W := W)) acc rest)).
  { induction rest as [|c rest IH]; intros acc Hrest Hacc; [done|]. cbn [foldl].
    apply IH; [intros d Hd; apply Hrest; by right|]. apply addTarget_fair; [done | apply Hrest; by left]. }
  specialize (HF tier ([], ∅) (fun _ H => H)).
  destruct (foldl _ _ tier) as [ts ms]. destruct HF as [Hm Ht].
  { split; [intros k os Hk; simpl in Hk; by rewrite lookup_empty in Hk | by intros t ?%not_elem_of_nil]. }
  intros [= <- <-]. split; [done|]. intros t (t0 & -> & H0)%list_elem_of_fmap. cbn [fst snd] in *.
  destruct (ms !! Key t0) as [[|o os]|] eqn:Hk; [by apply Ht | right; eauto | by apply Ht].
Qed.

Lemma poolSelectionTargets_identified tier targets members :
  poolSelectionTargets (W := W) cf tier = (targets, members) ->
  (forall t, t ∈ targets -> identified tier t) /\ (tier <> [] -> targets <> []).
Proof.
  unfold poolSelectionTargets. destruct (cf_OAuthPool cf); cbn [negb].
  2: { intros [= <- <-]. split; [|done]. intros t Ht. exists t. auto. }
  assert (HF : forall rest acc, (forall c, c ∈ rest -> c ∈ tier) ->
    (forall t, t ∈ acc.1 -> identified tier t) ->
    (forall k os, acc.2 !! k = Some os -> os <> [] -> acc.1 <> []) ->
    let r := foldl (addTarget (W := W)) acc rest in
    (forall t, t ∈ r.1 -> identified tier t) /\ (acc.1 <> [] \/ rest <> [] -> r.1 <> [])).
  { induction rest as [|c rest IH]; intros [ts ms] Hrest Hid Hne; cbn [foldl fst snd] in *.
    { split; [done | by intros [? | ?]]. }
    assert (Hc : c ∈ tier) by (apply Hrest; by left).
    assert (Hstep : (forall t, t ∈ (addTarget (W := W) (ts, ms) c).1 -> identified tier t) /\
                    (addTarget (W := W) (ts, ms) c).1 <> []).
    { unfold addTarget. destruct (_ || _); cbn [fst].
      - split; [|by destruct ts]. intros t [? | Ht]%elem_of_app; [by apply Hid|].
        apply list_elem_of_singleton in Ht as ->. exists c. auto.
      - case_bool_decide as Ho.
        + split; [|by destruct ts]. intros t [? | Ht]%elem_of_app; [by apply Hid|].
          apply list_elem_of_singleton in Ht as ->. exists c. auto.
        + split; [by apply Hid|]. destruct (ms !! Key (poolTarget (W := W) c)) as [os|] eqn:Hk; [|done].
          by eapply Hne. }
    destruct Hstep as [Hid' Hne']. destruct (IH (addTarget (W := W) (ts, ms) c)) as [H1 H2]; [| done | done |].
    - intros d Hd. apply Hrest. by right.
    - split; [done|]. intros _. apply H2. by left. }
  destruct (HF tier ([], ∅)) as [H1 H2]; [done | by intros t ?%not_elem_of_nil | |].
  { intros k os Hk. simpl in Hk. by rewrite lookup_empty in Hk. }
  destruct (foldl _ _ tier) as [ts ms]. cbn [fst] in *. intros [= <- <-]. split.
  - intros t (t0 & -> & H0)%list_elem_of_fmap. destruct (H1 t0 H0) as (c & ? & ?). exists c. split; [done|].
    by destruct (ms !! Key t0) as [[|o os]|].
  - intros Ht He%fmap_nil_inv. by apply H2; [right|].
Qed.

(** What the choice of a credential may do: it is a member of the tier, and a pool
    without one uses up its members. *)
Lemma resolvePoolSelection_spec tier members t s :
  members_of tier members -> stands_for tier members t ->
  wp (resolvePoolSelection (W := W) t members)
    (fun r s' => quiet s s' /\
       match r with
       | Some c => c ∈ tier /\ x_Used s'.1 = x_Used s.1
       | None => x_SelectionError s'.1 = true \/ (exists c, c ∈ tier /\ Key c ∈ x_Used s'.1)
       end) s.
Proof.
  intros Hm Ht. unfold resolvePoolSelection.
  destruct (members !! Key t) as [os|] eqn:Hk; cbn [default from_option id].
  2: { run. split; [reflexivity|]. destruct Ht as [? | (? & ? & ?)]; [done | congruence]. }
  destruct os as [|o os].
  { run. split; [reflexivity|]. destruct Ht as [? | (? & ? & ?)]; [done | congruence]. }
  apply wp_bind, wp_call_port. intros [id| |] w.
  - destruct (List.find _ _) as [c|] eqn:Hf.
    + run. split; [done|]. apply List.find_some in Hf as [Hin _]. split; [|done].
      eapply Hm; [done|]. by apply list_elem_of_In.
    + run. run. split; [done|]. by left.
  - run. run. split; [split; simpl; try done; set_solver|]. right. exists o. split; [eapply Hm; [done|]; by left|].
    simpl. set_solver.
  - run. run. split; [done|]. by left.
Qed.

(** A step of selection that uses nothing up. *)
Definition still (s s' : Exec * W) : Prop := quiet s s' /\ x_Used s'.1 = x_Used s.1.

#[global] Instance still_preorder : PreOrder still.
Proof.
  split; [by intros s; split|]. intros s1 s2 s3 [H1 E1] [H2 E2]. split; [by etrans | congruence].
Qed.

Lemma still_port {A} (f : W -> A * W) : does still (call_port f).
Proof. apply does_port. by intros. Qed.
Lemma still_look {A} (f : Exec -> A) : does still (look f).
Proof. apply does_look, _. Qed.
#[local] Hint Resolve still_port still_look : effects.
Lemma still_Intn n : does still (Intn (W := W) n).
Proof. unfold Intn. effects. Qed.
#[local] Hint Resolve still_Intn : effects.
Lemma still_bestScore scores rest : forall i best ties,
  does still (bestScore (W := W) scores i rest best ties).
Proof. induction rest as [|q rest IH]; intros; simpl; effects. Qed.
Lemma still_recoveryTurn tier recovery : does still (recoveryTurn (W := W) cf inp tier recovery).
Proof. unfold recoveryTurn. cbn zeta. effects. Qed.

Lemma Intn_spec n s : (0 < n)%nat -> wp (Intn (W := W) n) (fun i s' => still s s' /\ (i < n)%nat) s.
Proof.
  intros Hn. apply wp_and; [apply still_Intn|]. unfold Intn. run. run. apply Nat.mod_upper_bound. lia.
Qed.

Lemma bestScore_spec scores rest : forall i best ties n s,
  (best < n)%nat -> (i + length rest <= n)%nat ->
  wp (bestScore (W := W) scores i rest best ties) (fun b s' => still s s' /\ (b < n)%nat) s.
Proof.
  induction rest as [|q rest IH]; intros i best ties n s Hb Hi; simpl in *; [by run|].
  destruct (Qltb _ _); [apply IH; lia|]. destruct (Qeq_bool _ _); [|apply IH; lia].
  apply wp_bind, (wp_does still); [apply still_Intn|]. intros r s1 H1.
  eapply wp_mono; [apply (IH _ _ _ n); [destruct (r =? 0)%nat; lia | lia]|].
  intros b s2 [H2 ?]. split; [by etrans | done].
Qed.

Lemma PickWithScore_spec cs s :
  wp (PickWithScore (W := W) cs)
    (fun r s' => still s s' /\ (forall c, r.1 = Some c -> c ∈ cs) /\
       (r.1 = None -> filterEligible (x_Used s.1) cs = [])) s.
Proof.
  assert (Hin : forall used c, c ∈ filterEligible used cs -> c ∈ cs).
  { intros used c Hc. unfold filterEligible in Hc. by apply elem_of_filter_rows in Hc as [_ ?]. }
  unfold PickWithScore. run. cbn zeta. specialize (Hin (x_Used s.1)).
  destruct (filterEligible _ cs) as [|first [|second rest]]; [run | run |].
  - split_and!; [reflexivity | done | done].
  - split_and!; [reflexivity | | done]. intros c [= <-]. apply Hin. by left.
  - set (eligible := first :: second :: rest) in *.
    assert (Hlook : forall i, (i < length eligible)%nat ->
      (forall c, eligible !! i = Some c -> c ∈ cs) /\ (eligible !! i = None -> eligible = [])).
    { intros i Hi. split; [intros c Hc; by eapply Hin, list_elem_of_lookup_2|].
      intros He. apply lookup_ge_None in He. lia. }
    assert (Hlen : (2 <= length eligible)%nat) by (unfold eligible; simpl; lia).
    apply wp_bind, (wp_does still); [apply still_port|]. intros score s1 H1. destruct (_ || _).
    + apply wp_bind. eapply wp_mono; [apply Intn_spec; lia|]. intros a s2 [H2 Ha].
      apply wp_bind. eapply wp_mono; [apply Intn_spec; lia|]. intros b s3 [H3 Hb]. run.
      split; [etrans; [|done]; by etrans|]. cbn [fst]. apply Hlook.
      destruct (Qltb _ _); [destruct (a <=? b)%nat; lia | done].
    + apply wp_bind. eapply wp_mono.
      { apply (bestScore_spec _ _ _ _ _ (length eligible)); [lia|].
        unfold eligible. simpl. rewrite length_fmap. lia. }
      intros best s2 [H2 Hb]. run. split; [by etrans|]. by apply Hlook.
Qed.

(** ** The candidate that is picked *)

(** Selection gives up: the state could not be verified, every candidate is gone,
    or the identity of a pool is that of a used candidate. *)
Definition none_left (s : Exec * W) : Prop :=
  x_SelectionError s.1 = true \/
  (well_ranked (x_Candidates s.1) -> forall d, d ∈ x_Candidates s.1 -> gone s.1 d) \/
  (exists c, c ∈ x_Candidates s.1 /\ Key (poolTarget (W := W) c) ∈ x_Used s.1).

(** The candidate is unused and of the best tier of those left; there is none only
    when none is left. *)
Definition picked (s s' : Exec * W) (r : option RouteCandidate) : Prop :=
  quiet s s' /\
  (forall c, r = Some c ->
    c ∈ x_Candidates s'.1 /\ Key c ∉ x_Used s'.1 /\
    (forall d, d ∈ x_Candidates s'.1 -> gone s'.1 d \/ ahead c d)) /\
  (r = None -> none_left s').

(** A choice within the tier of the candidates that are offered. *)
Definition in_tier (s1 s' : Exec * W) (tier : list RouteCandidate) (r : option RouteCandidate) : Prop :=
  quiet s1 s' /\ forall c, r = Some c -> c ∈ tier /\ x_Used s'.1 = x_Used s1.1.

Section Again.
Context (s1 : Exec * W) (tier : list RouteCandidate) (s0 : Exec * W) (again : Ex (option RouteCandidate * Q)).
Context (tier_unused : forall c, c ∈ tier -> c ∈ x_Candidates s1.1 /\ Key c ∉ x_Used s1.1).
Context (begun : quiet s0 s1).
Context (tier_best : forall c d, c ∈ tier -> d ∈ x_Candidates s1.1 -> gone s1.1 d \/ ahead c d).
(* Selecting again, once a candidate of the tier has been used up. *)
Context (again_spec : forall s2, quiet s1 s2 -> (exists c, c ∈ tier /\ Key c ∈ x_Used s2.1) ->
  wp again (fun r s' => picked s2 s' r.1) s2).

Lemma picked_in_tier s' c : still s1 s' -> c ∈ tier -> picked s0 s' (Some c).
Proof.
  intros [Hq Hu] Hc. split_and!; [by etrans | | done]. intros ? [= <-]. rewrite (q_Candidates _ _ Hq), Hu.
  destruct (tier_unused c Hc) as [Hin Hn]. split_and!; [done | done |].
  intros d Hd. destruct (tier_best c d Hc Hd) as [Hg | Ha]; [left | by right].
  by eapply gone_quiet.
Qed.

Lemma picked_none s' : quiet s1 s' -> none_left s' -> picked s0 s' None.
Proof. intros Hq Hn. split; [by etrans | done]. Qed.

Lemma picked_again s2 : quiet s1 s2 -> (exists c, c ∈ tier /\ Key c ∈ x_Used s2.1) ->
  wp again (fun r s' => picked s0 s' r.1) s2.
Proof.
  intros Hq Hc. eapply wp_mono; [by apply again_spec|]. intros r s' [Hq2 Hr].
  split; [|done]. etrans; [done|]. by etrans.
Qed.

Lemma chosen_spec reason s2 c :
  still s1 s2 -> c ∈ tier -> wp (chosen (W := W) reason c) (fun r s' => picked s0 s' r.1) s2.
Proof.
  intros Hs Hc. unfold chosen. run. run. apply picked_in_tier; [|done]. etrans; [done|]. done.
Qed.

Lemma resolved_spec t members s2 (k : option RouteCandidate -> Ex (option RouteCandidate * Q)) tier' :
  still s1 s2 -> members_of tier' members -> stands_for tier' members t -> (forall c, c ∈ tier' -> c ∈ tier) ->
  (forall s3 c, still s1 s3 -> c ∈ tier -> wp (k (Some c)) (fun r s' => picked s0 s' r.1) s3) ->
  (forall s3, quiet s1 s3 -> x_SelectionError s3.1 = true \/ (exists c, c ∈ tier /\ Key c ∈ x_Used s3.1) ->
     wp (k None) (fun r s' => picked s0 s' r.1) s3) ->
  wp (r ← resolvePoolSelection (W := W) t members; k r) (fun r s' => picked s0 s' r.1) s2.
Proof.
  intros [Hq Hu] Hm Ht Hsub Hsome Hnone. apply wp_bind.
  eapply wp_mono; [by eapply resolvePoolSelection_spec|]. intros [c|] s3 [Hq3 Hr].
  - destruct Hr as [Hc Hu3]. apply Hsome; [split; [by etrans | congruence] | auto].
  - apply Hnone; [by etrans|]. destruct Hr as [? | (c & Hc & ?)]; [by left | right]. eauto.
Qed.

Lemma refused_spec s3 :
  quiet s1 s3 -> x_SelectionError s3.1 = true \/ (exists c, c ∈ tier /\ Key c ∈ x_Used s3.1) ->
  wp (failed ← look x_SelectionError; if failed : bool then mret (None, 0%Q) else again)
    (fun r s' => picked s0 s' r.1) s3.
Proof.
  intros Hq Hr. run. destruct (x_SelectionError s3.1) eqn:He; [run; apply picked_none; [done | by left]|].
  destruct Hr as [? | Hc]; [done | by apply picked_again].
Qed.

Lemma tryRecovery_spec s2 c :
  still s1 s2 -> c ∈ tier ->
  wp (tryRecovery cf inp c again) (fun r s' => picked s0 s' r.1) s2.
Proof.
  intros Hs Hc. unfold tryRecovery. run. destruct (_ && _); [|by apply chosen_spec].
  apply (resolved_spec _ _ _ _ [c]); [done | | | |by intros s3 d Hs3 _; apply chosen_spec | by apply refused_spec].
  - intros k os Hk. by apply lookup_singleton_Some in Hk as [_ <-].
  - right. rewrite lookup_singleton_eq. eauto.
  - intros d Hd. by apply list_elem_of_singleton in Hd as ->.
Qed.

(** Without a target, the identity of a pool is a used one. *)
Lemma scoreTier_none s2 s3 tier' targets :
  still s1 s2 -> still s1 s3 -> (forall c, c ∈ tier' -> c ∈ tier) -> tier' <> [] ->
  (forall t, t ∈ targets -> identified tier' t) -> (tier' <> [] -> targets <> []) ->
  filterEligible (x_Used s2.1) targets = [] -> none_left s3.
Proof.
  intros [_ Hu2] [Hq3 Hu3] Hsub Hne Hid Hsome Hnil. right. right.
  destruct targets as [|t ts]; [by destruct (Hsome Hne)|].
  assert (Hused : Key t ∈ x_Used s1.1).
  { unfold filterEligible in Hnil. simpl in Hnil. destruct (unused _ t) eqn:Hut; [done|].
    unfold unused in Hut. apply negb_false_iff, bool_decide_eq_true in Hut. by rewrite <- Hu2. }
  destruct (Hid t (list_elem_of_here _ _)) as (c & Hc & [Hk | Hk]); destruct (tier_unused c (Hsub c Hc)) as [Hcs Hn].
  - congruence.
  - exists c. rewrite (q_Candidates _ _ Hq3), Hu3. split; [done | congruence].
Qed.

Lemma scoreTier_spec s2 tier' manual :
  still s1 s2 -> (forall c, c ∈ tier' -> c ∈ tier) -> tier' <> [] ->
  wp (scoreTier cf tier' manual again) (fun r s' => picked s0 s' r.1) s2.
Proof.
  intros Hs Hsub Hne. unfold scoreTier.
  destruct (poolSelectionTargets cf tier') as [targets members] eqn:Hp.
  pose proof (poolSelectionTargets_identified _ _ _ Hp) as [Hid Hsome].
  apply poolSelectionTargets_spec in Hp as [Hm Ht]. cbn [fst snd] in *. apply wp_bind.
  eapply (wp_mono _ (fun r s' => still s2 s' /\ (forall c, r.1 = Some c -> c ∈ targets) /\
    (r.1 = None -> filterEligible (x_Used s2.1) targets = []))).
  { destruct (cf_Scorer cf); [apply PickWithScore_spec|]. run. split_and!; [reflexivity | |].
    - intros c Hc. destruct targets as [|t ts]; [done|]. injection Hc as <-. by left.
    - by destruct targets. }
  intros [[t|] score] s3 (Hs3 & Hin & Hnil); cbn [fst] in *.
  2: { run. assert (Hs13 : still s1 s3) by (by etrans). apply picked_none; [apply Hs13|].
       apply (scoreTier_none s2 s3 tier' targets); try done. by apply Hnil. }
  assert (Hs13 : still s1 s3) by (by etrans).
  eapply resolved_spec; [done | exact Hm | by apply Ht, Hin | done | | by apply refused_spec].
  intros s4 c Hs4 Hc. run. run. apply picked_in_tier; [|done]. etrans; [exact Hs4|]. done.
Qed.

Lemma recoveryTurn_spec recovery s :
  wp (recoveryTurn (W := W) cf inp tier recovery)
    (fun r s' => still s s' /\ forall c, r = Some (Some c) -> c ∈ tier) s.
Proof.
  unfold recoveryTurn. destruct tier as [|first rest]; [run; split; [reflexivity | done]|].
  destruct (negb _); [run; split; [reflexivity | done]|]. cbn zeta.
  apply wp_bind, (wp_does still); [apply still_port|]. intros [trial|] s2 Hs; run; (split; [done|]); [|done].
  intros c Hc%(inj Some). destruct (String.eqb trial ""); [done|].
  apply List.find_some in Hc as [Hin _]. by apply list_elem_of_In.
Qed.

Lemma stickyChoice_spec x l c : stickyChoice inp x l = Some c -> c ∈ l.
Proof.
  unfold stickyChoice. destruct (rq_Candidate _); [|done]. destruct (_ && _); [|done].
  intros [Hin _]%List.find_some. by apply list_elem_of_In.
Qed.

Lemma selectInTier_spec manual recovery :
  tier <> [] ->
  wp (selectInTier cf inp tier manual recovery again) (fun r s' => picked s0 s' r.1) s1.
Proof.
  intros Htier. unfold selectInTier. apply wp_bind. eapply wp_mono; [apply recoveryTurn_spec|].
  intros [[c|]|] s2 [Hs2 Hturn].
  - apply tryRecovery_spec; [done | by apply Hturn].
  - cbn zeta. set (tier' := if cf_Availability cf && _ then _ else tier).
    assert (Hsub : forall c, c ∈ tier' -> c ∈ tier).
    { intros c. unfold tier'. destruct (_ && _); [|done]. by intros [_ ?]%elem_of_filter_rows. }
    run. destruct (stickyChoice inp s2.1 tier') as [c|] eqn:Hc.
    + apply chosen_spec; [done|]. by eapply Hsub, stickyChoice_spec.
    + apply scoreTier_spec; [done | done |]. unfold tier'.
      destruct (_ && _) eqn:Hb; [|done]. bool_prop. done.
  - unfold selectError. run. run. apply picked_none; [etrans; [exact (proj1 Hs2)|]; done | by left].
Qed.
End Again.

(** The candidates selection starts from: all of them, or those [prepareEligible]
    offers. *)
Lemma offered_spec s :
  wp (if cf_Availability cf || cf_CredentialModels cf then prepareEligible cf inp
      else cs ← look x_Candidates; mret (Some (cs, ∅)))
    (fun r s' => quiet s s' /\ forall out (trials : gset string), r = Some (out, trials) ->
       (forall d, d ∈ out -> d ∈ x_Candidates s'.1) /\
       (forall d, d ∈ x_Candidates s'.1 -> d ∈ out \/ gone s'.1 d)) s.
Proof.
  destruct (_ || _); [apply prepareEligible_spec|]. run. run. split; [reflexivity|].
  intros out trials [= <- <-]. split; [done | by left].
Qed.

Lemma pickCandidate_spec fuel : forall s,
  (remaining (x_Used s.1) (x_Candidates s.1) < fuel)%nat ->
  wp (pickCandidate cf inp fuel) (fun r s' => picked s s' r.1) s.
Proof.
  induction fuel as [|fuel IH]; intros s Hfuel; [lia|]. cbn [pickCandidate]. run.
  apply wp_bind. eapply wp_mono; [apply offered_spec|]. intros [[cs trials]|] s1 [Hq Hcs].
  2: { unfold selectError. run. run. split_and!; [|done | by left]. etrans; [|by etrans]. split; done. }
  destruct (Hcs _ _ eq_refl) as [Hin Hall]. clear Hcs. run.
  assert (Hq1 : quiet s s1) by (etrans; [|exact Hq]; split; done). clear Hq.
  destruct (activeTier (x_Used s1.1) cs) as [tier manual] eqn:Htier.
  pose proof (elem_activeTier (x_Used s1.1) cs) as Ht. rewrite Htier in Ht. cbn [fst] in Ht.
  assert (Hunused : forall c, c ∈ tier -> c ∈ x_Candidates s1.1 /\ Key c ∉ x_Used s1.1).
  { intros c Hc. destruct (Ht c Hc) as (? & Hu & _). split; [by apply Hin | by apply unused_spec]. }
  assert (Hbest : forall c d, c ∈ tier -> d ∈ x_Candidates s1.1 -> gone s1.1 d \/ ahead c d).
  { intros c d Hc Hd. destruct (Ht c Hc) as (_ & _ & Hahead).
    destruct (decide (Key d ∈ x_Used s1.1)); [by left; left|].
    destruct (Hall d Hd) as [Hout | ?]; [right | by left]. apply Hahead; [done | by apply unused_spec]. }
  assert (Hagain : forall s2, quiet s1 s2 -> (exists c, c ∈ tier /\ Key c ∈ x_Used s2.1) ->
            wp (pickCandidate cf inp fuel) (fun r s' => picked s2 s' r.1) s2).
  { intros s2 Hq2 (c & Hc & Hk). apply IH. destruct (Hunused c Hc) as [Hc1 Hn].
    pose proof (remaining_mono _ _ (x_Candidates s.1) (q_Used _ _ Hq1)).
    rewrite (q_Candidates _ _ Hq2), (q_Candidates _ _ Hq1) in *.
    pose proof (remaining_drop _ _ _ c (q_Used _ _ Hq2) Hc1 Hn Hk). lia. }
  case_bool_decide as Hnil; [|eapply (selectInTier_spec s1 tier); eauto].
  run. split_and!; [done | done |]. intros _. right. left. intros Hr d Hd.
  destruct (Hall d Hd) as [Hout | ?]; [left | done].
  assert (Hud : unused (x_Used s1.1) d = false).
  { apply (activeTier_nil _ cs); [intros e He; by apply Hr, Hin | by rewrite Htier | done]. }
  unfold unused in Hud. by apply negb_false_iff, bool_decide_eq_true in Hud.
Qed.
End Selection.
