(* ===== verification/Execute.v ===== *)
(** * Executing a request: attempts and the retry loop

    Models [src/internal/ai/serving]: [ExecuteStep.Execute] ([execute.go]),
    [runAttempt], [acquireUpstreamSlot], [requestContextError] and the attempt
    records ([execute_attempt.go], [availability.go]), and the attempt budget
    ([budget.go]).  The loop is a function of a fuel; [ExecuteProps] shows how
    much is enough. *)

From Stdlib Require Import QArith.
From stdpp Require Import pretty.
From S2P Require Import Prelude GoStrings Decimal UsageEvidence Request Availability Effect Classify.
From S2P Require Import Candidates ExecState RouteSelection.
#[global] Open Scope Z_scope.

Definition RequestSuccess : string := "success".
Definition CancellationGateway : string := "gateway".

(** [RetryBudget.Normalize]: the cap on attempts. *)
Definition maxUpstreamAttempts : Z := 8.
Definition Normalize (MaxAttempts : Z) : Z :=
  let n := if MaxAttempts =? 0 then 3 else MaxAttempts in
  if maxUpstreamAttempts <? n then maxUpstreamAttempts else n.

(** [truncateValidUTF8] *)
Fixpoint rune_cut (s : list Z) (n : nat) : nat :=
  match n with
  | O => O
  | S m => if Z.land (nth n s 0) 192 =? 128 then rune_cut s m else n
  end.
Definition truncateValidUTF8 (s : string) (maxBytes : nat) : string :=
  if (String.length s <=? maxBytes)%nat then s
  else String.substring 0 (rune_cut (bytes_of s) maxBytes) s.

Section Execution.
Context {W : Type} `{Ports W} (cf : ExecConfig) (inp : ExecInput).
#[local] Abbreviation Ex := (Ex W).

(** ** The state of the request *)

Definition on_request (f : Request -> Request) : Ex unit := update (fun x => set_req (f (x_req x)) x).

(** [RequestStatus], [ErrorCode] and [ErrorMessage] of a failed request. *)
Definition fail_request (code message : string) : Ex unit :=
  on_request (fun r => set_execution RequestFailed (rq_HTTPStatus r) code message (rq_FailedStep r)
                         (rq_BillingReason r) r).
Definition set_error (code message : string) : Ex unit :=
  on_request (fun r => set_execution (rq_RequestStatus r) (rq_HTTPStatus r) code message (rq_FailedStep r)
                         (rq_BillingReason r) r).

(** The gateway gave the request up. *)
Definition gateway_cancelled (reason : string) : Ex unit :=
  on_request (fun r => set_status RequestFailed reason
    (set_states (rq_ProviderTerminalState r) (rq_ClientDeliveryState r) CancellationGateway
       (rq_ResponseSummaryState r) r)).

Definition deadline_error : exec_error :=
  apiError 504 "retry_deadline_exhausted" "the total upstream retry deadline was exhausted".

(** [requestContextError] *)
Definition requestContextError : Ex (option exec_error) :=
  ctx ← call_port pt_context;
  match ctx with
  | CtxLive => mret None
  | CtxRetryDeadline =>
      fail_request "retry_deadline_exhausted" "the total upstream retry deadline was exhausted";;
      mret (Some deadline_error)
  | CtxClient =>
      on_request markClientCancellation;;
      set_error "client_disconnected" "request context ended before execution completed";;
      mret (Some (apiError 504 "client_disconnected" "request context ended before execution completed"))
  | CtxGateway =>
      gateway_cancelled "execution_context_cancelled";;
      set_error "execution_context_cancelled" "the gateway execution context ended before completion";;
      mret (Some (apiError 504 "execution_context_cancelled"
        "the gateway execution context ended before completion"))
  end.

(** [SetCandidate] *)
Definition SetCandidate (c : RouteCandidate) : Ex unit :=
  update (fun x => set_model (rc_ModelCode c)
    (set_req (set_route (Some c) (rq_Attempts (x_req x)) (x_req x)) x)).

(** ** Attempt records *)

Definition on_attempt (f : AttemptRecord -> AttemptRecord) : Ex unit :=
  update (fun x => set_attempts (alter_last f (x_Attempts x)) x).

(** [recordAttempt] *)
Definition recordAttempt (c : RouteCandidate) (o : Outcome) (score : Q) : Ex unit :=
  update (fun x =>
    let cred := if IsPoolRoute c then default ""%string (cr_ID <$> x_Credential x) else ""%string in
    let target := if IsPoolRoute c then default (rc_PoolID c) (cr_ID <$> x_Credential x)
                  else rc_EndpointID c in
    let a := MkAttempt (Z.of_nat (length (x_Attempts x) + length (x_Skipped x)) + 1) (Key c)
      (EffectiveAccountID c) (rc_ModelCode c) (OperationKey c) (in_IsStream inp) (rc_RouteID c)
      (rc_GroupID c) (rc_RoutePolicy c) (rc_GroupRank c) (rc_TargetPriority c) (x_SelectionReason x)
      target (EffectiveUpstreamModel c) (rc_EndpointID c) (rc_PoolID c) cred (oc_HTTPStatus o)
      (oc_Status o) score "" "" None false 0 false in
    let l := x_Attempts x ++ [a] in
    set_req (set_route (rq_Candidate (x_req x)) (Z.of_nat (length l)) (x_req x)) (set_attempts l x)).

(** [availabilityVerdict] *)
Definition availabilityVerdict (c : RouteCandidate) (cred : option OAuthCredential) (o : Outcome)
    : AvailabilityOutcome :=
  let scopes := CandidateScopes c cred in
  let dial := match oc_Err o with Some e => ce_DNS e || ce_Dial e | None => false end in
  let '(scope, health, auth) :=
    match oc_Status o with
    | ResultNetwork => (scopeOfKind scopes "transport", true, false)
    | ResultServerError | ResultTimeout =>
        (scopeOfKind scopes (if dial then "transport" else "model"), true, false)
    | ResultUnauthorized => (scopeOfKind scopes "authentication", false, true)
    | ResultRateLimited | ResultQuotaExhausted => (scopeOfKind scopes "rate_limit", false, false)
    | ResultModelError => (scopeOfKind scopes "model", false, false)
    | _ => (None, false, false)
    end in
  MkOutcome (bool_decide (oc_Status o = ResultSuccess)) scope (status_string (oc_Status o)) health
    (oc_RetryAt o) auth.

(** [recordOutcome] *)
Definition recordOutcome (c : RouteCandidate) (o : Outcome) : Ex unit :=
  cred ← look x_Credential;
  let v := availabilityVerdict c cred o in
  update (fun x => set_permit (x_Permit x) v x);;
  on_attempt (at_verdict (oc_Status o) (oc_ErrorCode o) (status_string (oc_Status o)) (ao_FailureScope v)).

(** [markAttemptFailed] *)
Definition markAttemptFailed : Ex unit :=
  r ← look x_req;
  let lost := bool_decide (rq_ClientDeliveryState r ∈ [ClientDeliveryDisconnected; ClientDeliveryWriteFailed]) in
  on_attempt (fun a => at_outcome (if lost then ResultCanceled else ResultServerError)
                         (at_AvailabilityOutcome a) a).

(** [recordCompletedAttempt]: the final outcome of the attempt, and whether it
    counts as a success or a failure of the candidate. *)
Definition finalAttempt (r : Request) (a : AttemptRecord) : AttemptRecord :=
  let a := at_final true a in
  let a := if bool_decide (at_Outcome a = ResultSuccess)
              && negb (String.eqb (rq_RequestStatus r) RequestSuccess)
           then at_outcome ResultRejected (status_string ResultRejected) a else a in
  let a := if bool_decide (rq_ClientDeliveryState r ∈ [ClientDeliveryDisconnected; ClientDeliveryWriteFailed])
              && bool_decide (at_Outcome a = ResultSuccess)
           then at_outcome ResultCanceled (status_string ResultCanceled) a else a in
  if String.eqb (at_AvailabilityOutcome a) ""
  then at_outcome (at_Outcome a) (status_string (at_Outcome a)) a else a.

Definition attemptFailure (o : ResultStatus) : bool :=
  bool_decide (o ∈ [ResultNetwork; ResultTimeout; ResultServerError; ResultUnauthorized; ResultRateLimited;
                    ResultQuotaExhausted; ResultCapacityExhausted; ResultModelError]).

Definition recordCompletedAttempt (c : RouteCandidate) : Ex unit :=
  r ← look x_req;
  on_attempt (finalAttempt r);;
  a ← look (fun x => last (x_Attempts x));
  match a with
  | None => mret tt
  | Some a => tell_port (pt_observe c a
                (bool_decide (at_Outcome a = ResultSuccess) && String.eqb (rq_RequestStatus r) RequestSuccess)
                (attemptFailure (at_Outcome a)))
  end.

(** ** One attempt ([runAttempt]) *)

Inductive attemptResult :=
| Finished (err : option exec_error)
| Again (decision : Decision) (err : option exec_error).

(** [usesClientRuntime] *)
Definition usesClientRuntime (c : RouteCandidate) : bool :=
  IsPoolRoute c && pt_supportsRuntime (rc_FixedProviderType c) (rc_Protocol c).

(** [finishAmbiguousImageTimeout] *)
Definition finishAmbiguousImageTimeout : Ex attemptResult :=
  let message := "image generation timed out while the upstream may still be processing it"%string in
  on_request (fun r => set_execution RequestFailed 504 "upstream_timeout" message "execute"
                         (rq_BillingReason r) r);;
  mret (Finished (Some (apiError 504 "upstream_timeout" message))).

(** The attempt of a request whose context ended. *)
Definition canceledAttempt (ended_by : context_state) : Ex attemptResult :=
  releaseAvailability cf;;
  match ended_by with
  | CtxRetryDeadline =>
      gateway_cancelled "retry_deadline_exhausted";;
      set_error "retry_deadline_exhausted" "the total upstream retry deadline was exhausted";;
      mret (Finished (Some deadline_error))
  | _ =>
      let client := match ended_by with CtxClient => true | _ => false end in
      on_request (if client then markClientCancellation else markUpstreamCancellation);;
      let '(code, message) := (if client
        then ("client_disconnected", "request context ended before the upstream call completed")
        else ("upstream_cancelled", "the upstream cancelled the request before completion"))%string in
      set_error code message;;
      mret (Finished (Some (apiError 504 code message)))
  end.

(** The error body of a response that is not a success. *)
Definition observeErrorBody (reply : UpstreamReply) : Ex unit :=
  on_request (fun r =>
    if negb (UsesReportedTokenBilling (rq_CapabilityType r)) then r
    else
      let r := initializeSettlementState (observeReportedUsage (up_JSON reply) "json" r) in
      if String.eqb (up_Terminal reply) "" then r
      else
        let r := markProviderTerminal (up_Terminal reply) r in
        if bool_decide (up_Terminal reply ∈ [ProviderTerminalFailed; ProviderTerminalIncomplete;
                                             ProviderTerminalCancelled])
        then set_execution (rq_RequestStatus r) (rq_HTTPStatus r) (rq_ErrorCode r) (rq_ErrorMessage r)
               "execute" (rq_BillingReason r) r
        else r).

(** A capacity failure is retried once on the same credential, after a short wait. *)
Definition capacityRetry (c : RouteCandidate) (o : Outcome) : Ex bool :=
  attempts ← look x_Attempts;
  now ← call_port pt_now;
  let alreadyRetried := existsb (fun a => String.eqb (at_CandidateID a) (Key c)
    && bool_decide (at_Outcome a = ResultCapacityExhausted)) (removelast attempts) in
  let delay := if 0 <? oc_RetryAt o then Z.max 0 (oc_RetryAt o - now) else 1000 in
  if negb alreadyRetried && (delay <=? 2000)
  then releaseAvailability cf;; tell_port (pt_wait delay);; mret true
  else mret false.

(** The fields of the request a relay writes. *)
Definition relayed (r new : Request) : Request :=
  set_execution (rq_RequestStatus new) (rq_HTTPStatus new) (rq_ErrorCode new) (rq_ErrorMessage new)
    (rq_FailedStep new) (rq_BillingReason new)
    (set_states (rq_ProviderTerminalState new) (rq_ClientDeliveryState new) (rq_CancellationOrigin new)
       (rq_ResponseSummaryState new)
       (set_media (rq_MediaUsageConfirmed new)
          (set_observed (rq_TokenUsage new) (rq_TokenCountSource new)
             (set_evidence (rq_UsageEvidence new) r)))).

(** The relay of an accepted response. *)
Definition acceptAttempt (c : RouteCandidate) (o : Outcome) (headers : header_facts) : Ex attemptResult :=
  req ← look x_req;
  a ← call_port (pt_relay c req);
  update (fun x => set_committed (x_Committed x || rl_Committed a)
    (set_req (relayed (x_req x) (rl_Request a)) x));;
  committed ← look x_Committed;
  r ← look x_req;
  if bool_decide (is_Some (rl_Error a)) && rl_Deadline a then
    releaseAvailability cf;; markAttemptFailed;;
    if committed : bool then mret (Finished None)
    else fail_request "retry_deadline_exhausted" "the total upstream retry deadline was exhausted";;
         mret (Finished (Some deadline_error))
  else if String.eqb (rq_ErrorCode r) "completion_storage_unavailable" then
    recordOutcome c (MkAttemptOutcome "" ResultRejected 0 0 None);;
    mret (Finished (match rl_Error a with
                    | Some (RelayOther e) => Some e
                    | Some (RelayPre _ _ m) => Some (OtherErr m)
                    | None => None
                    end))
  else match rl_Error a with
  | None =>
      if bool_decide (rq_RequestStatus r ∈ [RequestFailed; RequestCancelled])
         && bool_decide (rq_ErrorCode r ∈ ["stream_write_error"; "client_disconnected"]%string)
      then releaseAvailability cf;; mret (Finished None)
      else if negb (String.eqb (rq_RequestStatus r) RequestSuccess) then
        (if String.eqb (rq_ProviderTerminalState r) ProviderTerminalFailed
         then markAttemptFailed;; recordOutcome c (MkAttemptOutcome "" ResultServerError 0 200 None)
         else releaseAvailability cf);;
        mret (Finished None)
      else
        recordOutcome c o;;
        cred ← look x_Credential;
        (if cf_Sticky cf && present (in_ConversationID inp) then tell_port (pt_sticky c cred) else mret tt);;
        mret (Finished None)
  | Some (RelayPre local status message) =>
      markAttemptFailed;;
      let v := if local then MkAttemptOutcome "" ResultRejected 0 status None
               else match rl_Cause a with
               | Some cause => ClassifyOutcome status (Some cause)
               | None =>
                   let server := MkAttemptOutcome "" ResultServerError 0 status None in
                   match rl_ErrorBody a with
                   | Some e => let classified := ClassifyResponse status headers e None in
                               if bool_decide (oc_Status classified = ResultSuccess) then server
                               else classified
                   | None => server
                   end
               end in
      recordOutcome c v;;
      if committed : bool then
        fail_request "upstream_error" message;;
        mret (Finished (Some (apiError 502 "upstream_error" message)))
      else if String.eqb (rq_CapabilityType r) CapabilityImage && bool_decide (rl_ErrorBody a = None)
      then finishAmbiguousImageTimeout
      else
        update (fun x => set_used (exhaustPhysicalTarget (x_Candidates x) c (x_Used x)) x);;
        mret (Again DecisionRetry (Some (apiError 502 "upstream_error" message)))
  | Some (RelayOther e) =>
      markAttemptFailed;;
      (if bool_decide (rq_ClientDeliveryState r ∈ [ClientDeliveryDisconnected; ClientDeliveryWriteFailed])
       then mret tt
       else recordOutcome c (match rl_Cause a with
                             | Some cause => ClassifyOutcome 200 (Some cause)
                             | None => MkAttemptOutcome "" ResultServerError 0 200 None
                             end));;
      mret (Finished None)
  end.

(** A credential that failed is not offered again. *)
Definition retireCredential (c : RouteCandidate) (o : Outcome) (cred : OAuthCredential) : Ex unit :=
  update (fun x =>
    let key := if bool_decide (oc_Status o = ResultUnauthorized) then cr_ID cred
               else credentialUseKey c (cr_ID cred) in
    set_used_credentials ({[key]} ∪ x_UsedCredentials x) x).
Definition forgetPrepared (c : RouteCandidate) : Ex unit :=
  update (fun x => set_prepared (delete (Key c) (x_Prepared x)) x).

(** What follows an attempt, by its decision. *)
Definition decideAttempt (c : RouteCandidate) (o : Outcome) (status : Z) (headers : header_facts)
    (errBody : string) (effect : option credential_effect) (decision : Decision) : Ex attemptResult :=
  cred ← look x_Credential;
  match decision with
  | DecisionAccept => acceptAttempt c o headers
  | DecisionRetryNewCred =>
      (if cf_Availability cf then
         (match effect, cred with
          | Some EffectRefreshed, _ => update (fun x => set_permit (x_Permit x) neutral_outcome x)
          | _, Some cr => retireCredential c o cr
          | _, None => mret tt
          end);; forgetPrepared c
       else mret tt);;
      mret (Again DecisionRetryNewCred (Some (apiError 502 "upstream_error" "credential rejected")))
  | DecisionRetry =>
      match cred with
      | Some cr =>
          if cf_Availability cf && IsPoolRoute c && negb (bool_decide (oc_Status o = ResultNetwork))
          then retireCredential c o cr;; forgetPrepared c;;
               mret (Again DecisionRetryNewCred
                       (Some (apiError 502 "upstream_error" "upstream credential failed")))
          else mret (Again DecisionRetry (Some (apiError (upstreamStatusToGateway status) "upstream_error"
                 ("upstream returned " +:+ pretty status +:+ ": " +:+ truncateValidUTF8 errBody 512))))
      | None => mret (Again DecisionRetry (Some (apiError (upstreamStatusToGateway status) "upstream_error"
                 ("upstream returned " +:+ pretty status +:+ ": " +:+ truncateValidUTF8 errBody 512))))
      end
  | DecisionGiveUp =>
      on_request (fun r => set_execution RequestFailed (upstreamStatusToGateway status) "upstream_http_error"
        (truncateValidUTF8 errBody 1024) "execute" (rq_BillingReason r) r);;
      mret (Finished (Some (apiError (upstreamStatusToGateway status) "upstream_error"
        ("upstream returned " +:+ pretty status))))
  | DecisionRetrySameCred => mret (Again DecisionRetry None)
  end.

(** The decision on an outcome: a call that left a trace on its credential asks for
    another one. *)
Definition effectDecision (effect : option credential_effect) (hasCredential : bool) (o : Outcome) : Decision :=
  let decision := decide_outcome o hasCredential in
  match effect with
  | Some EffectNone | None => decision
  | Some _ => if hasCredential && negb (bool_decide (oc_Status o = ResultCapacityExhausted))
              then DecisionRetryNewCred else decision
  end.

(** What [runAttempt] does once the call is on record, before its deferred work. *)
Definition judgeAttempt (c : RouteCandidate) (o : Outcome) (err : option call_error)
    (reply : option UpstreamReply) (effect : option credential_effect) (ended_by : context_state)
    : Ex attemptResult :=
  let status := match reply with Some r => up_Status r | None => 0 end in
  let headers := match reply with Some r => up_Headers r | None => no_headers end in
  if bool_decide (oc_Status o = ResultCanceled) then canceledAttempt ended_by
  else if bool_decide (oc_Status o = ResultPolicyRejected) then
    recordOutcome c o;;
    mret (Again DecisionRetry (Some (apiError 502 ProbeBlockedCode ProbeBlockedMessage)))
  else
    let body := match err, reply with None, Some r => Some r | _, _ => None end in
    o ← (if bool_decide (oc_Status o = ResultSuccess) then mret o
         else
           (match body with Some r => observeErrorBody r | None => mret tt end);;
           let envelope := match body with Some r => up_Envelope r | None => no_envelope end in
           let o := ClassifyResponse status headers envelope err in
           recordOutcome c o;; mret o);
    capability ← look (fun x => rq_CapabilityType (x_req x));
    if String.eqb capability CapabilityImage && ambiguousImageTransport o
    then finishAmbiguousImageTimeout
    else
      cred ← look x_Credential;
      let decision := effectDecision effect (bool_decide (is_Some cred)) o in
      again ← (if bool_decide (oc_Status o = ResultCapacityExhausted) then capacityRetry c o else mret false);
      if again : bool then
        mret (Again DecisionRetrySameCred (Some (apiError 503 "upstream_capacity_exhausted"
          "upstream shared capacity is temporarily exhausted")))
      else
        let errBody := match body with
          | Some r => if bool_decide (oc_Status o = ResultSuccess) then ""%string
                      else truncateValidUTF8 (up_Text r) 4096
          | None => ""%string
          end in
        decideAttempt c o status headers errBody effect decision.

(** [runAttempt], its slot already claimed. *)
Definition runAttempt (c : RouteCandidate) (score : Q) : Ex attemptResult :=
  on_request resetAttemptUsage;;
  cred ← look x_Credential;
  answer ← call_port (pt_call c cred);
  match answer with
  | LocalFailure =>
      recordSkippedCandidate inp c "local_request_error";;
      releaseAvailability cf;;
      mret (Again DecisionRetry (Some (apiError 502 "upstream_request_build_failed"
        "upstream request could not be prepared")))
  | Called err reply effect parent_ended ended_by =>
      let status := match reply with Some r => up_Status r | None => 0 end in
      let headers := match reply with Some r => up_Headers r | None => no_headers end in
      (match cred, reply, err with
       | Some cr, Some r, None => tell_port (pt_observeQuota c cr (up_Headers r))
       | _, _, _ => mret tt
       end);;
      let o := ClassifyResponse status headers no_envelope err in
      let effect := if usesClientRuntime c then effect else None in
      let o := if parent_ended then MkAttemptOutcome "" ResultCanceled 0 0 err else o in
      recordAttempt c o score;;
      r ← judgeAttempt c o err reply effect ended_by;
      finishAvailability cf;;
      recordCompletedAttempt c;;
      mret r
  end.

(** ** The loop ([Execute]) *)

(** The local variables of the loop: the route the body is built for, the last
    error and the candidate to retry. *)
Record locals := MkLocals {
  lc_builtFor : option string; lc_lastErr : option exec_error; lc_retry : option RouteCandidate }.

Inductive flow := Return (err : option exec_error) | Break (l : locals) | Continue (l : locals).

Definition exhaust (c : RouteCandidate) : Ex unit :=
  update (fun x => set_used (exhaustPhysicalTarget (x_Candidates x) c (x_Used x)) x).
Definition drop_credential : Ex unit := update (set_credential None).

(** The credential selection prepared for a pool route. *)
Definition usePrepared (c : RouteCandidate) : Ex unit :=
  x ← look id;
  if IsPoolRoute c && (cf_Availability cf || cf_CredentialModels cf)
  then update (set_credential (x_Prepared x !! Key c)) else mret tt.

(** The credential of a pool route without one: whether there is one. *)
Definition selectCredential (c : RouteCandidate) : Ex bool :=
  x ← look id;
  if IsPoolRoute c && cf_OAuthPool cf && bool_decide (x_Credential x = None) then
    r ← (if present (rc_CredentialID c) then call_port (pt_selectPinned (rc_PoolID c) (rc_CredentialID c))
         else
           let pinned := stickyCredentialID inp x c in
           p ← (if present pinned then call_port (pt_selectPinned (rc_PoolID c) pinned) else mret None);
           match p with
           | Some cr => mret (Some cr)
           | None => call_port (pt_selectFromPool (rc_PoolID c) (rc_OAuthStrategy c))
           end);
    match r with
    | Some cr => update (set_credential (Some cr));; mret true
    | None => mret false
    end
  else mret true.

(** Build the request for the candidate: whether it succeeded. *)
Definition buildBody (l : locals) (c : RouteCandidate) : Ex (option locals) :=
  if bool_decide (lc_builtFor l = Some (Key c)) then mret (Some l)
  else ok ← call_port (pt_prepareBody c);
       mret (if ok : bool then Some (MkLocals (Some (Key c)) (lc_lastErr l) (lc_retry l)) else None).

Definition buildUpstream (c : RouteCandidate) : Ex bool :=
  if usesClientRuntime c then mret true
  else cred ← look x_Credential; call_port (pt_buildRequest c cred).

(** [acquireUpstreamSlot] *)
Definition acquireUpstreamSlot (c : RouteCandidate) : Ex slot_answer :=
  match rc_UpstreamConcurrencyLimit c with
  | Some limit =>
      if negb (present (EffectiveAccountID c)) || (limit <=? 0) then mret SlotClaimed
      else if negb (cf_UpstreamLimiter cf) then mret SlotUnavailable
      else call_port (pt_acquireSlot (EffectiveAccountID c) limit)
  | None => mret SlotClaimed
  end.

Definition with_error (l : locals) (e : exec_error) : locals :=
  MkLocals (lc_builtFor l) (Some e) None.

(** A request that cannot be built: the physical target is exhausted. *)
Definition build_failed (l : locals) (c : RouteCandidate) (message : string) : Ex flow :=
  exhaust c;; drop_credential;;
  mret (Continue (with_error l (apiError 502 "upstream_request_build_failed" message))).

(** Admission, the slot and the attempt. *)
Definition admitAndRun (l : locals) (c : RouteCandidate) (score : Q) : Ex flow :=
  denied ← acquireAvailability cf c;
  match denied with
  | Some (AdmissionDenied _ reason) =>
      recordSkippedCandidate inp c reason;; markUsed c;; drop_credential;;
      mret (Continue (MkLocals (lc_builtFor l) (lc_lastErr l) None))
  | Some ErrAvailabilityUnavailable =>
      mret (Return (Some (apiError 503 "availability_state_unavailable"
        "upstream availability cannot be verified")))
  | None =>
      slot ← acquireUpstreamSlot c;
      match slot with
      | SlotExceeded =>
          releaseAvailability cf;; recordSkippedCandidate inp c "upstream_capacity_exhausted";;
          exhaust c;; drop_credential;;
          mret (Continue (with_error l (apiError 429 "upstream_capacity_exhausted"
            "all eligible upstream capacity is currently exhausted")))
      | SlotUnavailable =>
          releaseAvailability cf;;
          mret (Return (Some (apiError 503 "upstream_concurrency_limiter_unavailable"
            "unable to verify upstream account capacity")))
      | SlotClaimed =>
          r ← runAttempt c score;
          match r with
          | Finished e => mret (Return e)
          | Again decision e =>
              let next retry := MkLocals (lc_builtFor l) e retry in
              match decision with
              | DecisionRetrySameCred => mret (Continue (next (Some c)))
              | DecisionRetryNewCred => drop_credential;; mret (Continue (next None))
              | DecisionRetry => exhaust c;; drop_credential;; mret (Continue (next None))
              | _ => mret (Continue (next None))
              end
          end
      end
  end.

(** The candidate is chosen: its reviews, its credential and its request. *)
Definition tryCandidate (l : locals) (c : RouteCandidate) (score : Q) : Ex flow :=
  SetCandidate c;;
  usePrepared c;;
  req ← look x_req;
  refused ← call_port (pt_review c req);
  match refused with
  | Some e => mret (Return (Some e))
  | None =>
      selected ← selectCredential c;
      if negb selected then
        exhaust c;;
        mret (Continue (with_error l (apiError 503 "no_credential"
          "no active credential is available for this upstream pool")))
      else
        built ← buildBody l c;
        match built with
        | None => build_failed l c "unable to prepare a request for the selected upstream"
        | Some l =>
            ok ← buildUpstream c;
            if negb ok then build_failed l c "unable to construct a request for the selected upstream"
            else admitAndRun l c score
        end
  end.

(** One iteration, the budget left. *)
Definition iteration (fuel : nat) (l : locals) : Ex flow :=
  ended ← requestContextError;
  match ended with
  | Some e => mret (Return (Some e))
  | None =>
      '(cand, score) ← match lc_retry l with
                       | Some c => mret (Some c, 0%Q)
                       | None => pickCandidate cf inp fuel
                       end;
      failed ← look x_SelectionError;
      if failed : bool then mret (Return (Some (apiError 503 "availability_state_unavailable"
             "upstream availability cannot be verified")))
      else match cand with
      | None => mret (Break (MkLocals (lc_builtFor l) (lc_lastErr l) None))
      | Some c => tryCandidate (MkLocals (lc_builtFor l) (lc_lastErr l) None) c score
      end
  end.

Fixpoint attempts_loop (budget : Z) (fuel : nat) (l : locals) : Ex flow :=
  match fuel with
  | O => out_of_fuel
  | S fuel' =>
      n ← look (fun x => Z.of_nat (length (x_Attempts x)));
      if n <? budget then
        f ← iteration fuel l;
        match f with
        | Continue l => attempts_loop budget fuel' l
        | _ => mret f
        end
      else mret (Break l)
  end.

(** What [Execute] answers when no attempt finished the request. *)
Definition giveUp (budget : Z) (lastErr : option exec_error) : Ex (option exec_error) :=
  on_request (fun r => set_execution RequestFailed (rq_HTTPStatus r) (rq_ErrorCode r) (rq_ErrorMessage r)
                         (rq_FailedStep r) (rq_BillingReason r) r);;
  x ← look id;
  let n := Z.of_nat (length (x_Attempts x)) in
  if n =? 0 then
    match lastErr with
    | Some e =>
        (match e with
         | ApiErr a => on_request (fun r => set_execution (rq_RequestStatus r) (ae_Status a) (ae_Code a)
                                    (ae_Message a) (rq_FailedStep r) (rq_BillingReason r) r)
         | OtherErr _ => mret tt
         end);;
        mret (Some e)
    | None =>
        set_error "no_healthy_route" "all upstream routes are temporarily unavailable";;
        mret (Some (apiError 503 "no_healthy_route" "all upstream routes are temporarily unavailable"))
    end
  else if (budget <=? n) && hasUnusedCandidate (x_Candidates x) (x_Used x) then
    let message := "upstream attempt limit reached after " +:+ pretty n +:+ " attempts" in
    set_error "retry_budget_exhausted" message;;
    mret (Some (apiError 502 "retry_budget_exhausted" message))
  else if forallb (fun a => String.eqb (at_UpstreamErrorCode a) ProbeBlockedCode) (x_Attempts x) then
    set_error ProbeBlockedCode ProbeBlockedMessage;;
    mret (Some (apiError 502 ProbeBlockedCode ProbeBlockedMessage))
  else
    let message := "all " +:+ pretty n +:+ " available upstream routes failed" in
    set_error "all_routes_failed" message;;
    mret (Some (apiError (match lastErr with Some (ApiErr a) => ae_Status a | _ => 502 end)
      "all_routes_failed" message)).

(** [ExecuteStep.Execute] of a configured step and a request with an envelope. *)
Definition Execute (fuel : nat) : Ex (option exec_error) :=
  on_request initializeSettlementState;;
  cs ← look x_Candidates;
  if bool_decide (cs = []) then mret (Some (apiError 503 "no_available_route" "no route candidates"))
  else
    let budget := Normalize (cf_MaxAttempts cf) in
    ok ← expandCredentialCandidates cf inp;
    if negb ok then mret (Some (apiError 503 "credential_state_unavailable"
      "upstream credentials cannot be verified"))
    else
      f ← attempts_loop budget fuel (MkLocals None None None);
      match f with
      | Return e => mret e
      | Break l | Continue l => giveUp budget (lc_lastErr l)
      end.
End Execution.
