(* ===== verification/ExecuteFacts.v ===== *)
(** * Executing a request: facts

    What one attempt may change ([steady]), what it leaves when another follows
    ([judgeAttempt_spec], [runAttempt_spec]), and the invariant of the retry loop. *)

From Stdlib Require Import QArith.
From S2P Require Import Prelude GoStrings Decimal UsageEvidence Request Availability Effect Classify.
From S2P Require Import Candidates ExecState RouteSelection RouteSelectionFacts Execute.
#[global] Open Scope Z_scope.

(** ** What an attempt is of *)

(** The facts of an attempt that are fixed when it is recorded. *)
Definition ident (a : AttemptRecord) : string * string * string * string * string * string * Z :=
  (at_CandidateID a, at_RouteID a, at_EndpointID a, at_PoolID a, at_UpstreamModel a, at_Operation a,
   at_HTTPStatus a).

(** Functions on the request that keep its capability. *)
Definition keeps_capability (f : Request -> Request) : Prop :=
  forall r, rq_CapabilityType (f r) = rq_CapabilityType r.

Ltac capability := intros r; unfold set_terminal; repeat first [reflexivity | case_match | progress simpl].

Lemma keeps_initialize : keeps_capability initializeSettlementState.
Proof. done. Qed.
Lemma keeps_terminal state : keeps_capability (markProviderTerminal state).
Proof. unfold markProviderTerminal. capability. Qed.
Lemma keeps_client : keeps_capability markClientCancellation.
Proof. unfold markClientCancellation. capability. Qed.
Lemma keeps_upstream : keeps_capability markUpstreamCancellation.
Proof. done. Qed.
Lemma keeps_apply : keeps_capability ApplyReportedUsage.
Proof. unfold ApplyReportedUsage. capability. Qed.
Lemma keeps_observe data event : keeps_capability (observeReportedUsage data event).
Proof.
  intros r. unfold observeReportedUsage. destruct (rq_Candidate r); [|done].
  destruct (negb _); [done|]. by rewrite keeps_apply.
Qed.
Lemma keeps_reset : keeps_capability resetAttemptUsage.
Proof. intros r. unfold resetAttemptUsage. simpl. rewrite keeps_apply. simpl. by destruct (negb _). Qed.

Section Attempt.
Context {W : Type} `{Ports W} (cf : ExecConfig) (inp : ExecInput).
#[local] Abbreviation Ex := (Ex W).
Implicit Types s : Exec * W.

(** A step of an attempt on record: it may change the last record's outcome, not
    what it is of, and nothing selection depends on. *)
Record steady s s' : Prop := {
  st_Candidates : x_Candidates s'.1 = x_Candidates s.1;
  st_Used : x_Used s'.1 = x_Used s.1;
  st_Credential : x_Credential s'.1 = x_Credential s.1;
  st_Capability : rq_CapabilityType (x_req s'.1) = rq_CapabilityType (x_req s.1);
  st_Committed : x_Committed s'.1 = x_Committed s.1;
  st_Permit : x_Permit s'.1 = x_Permit s.1 \/ x_Permit s'.1 = None;
  st_Past : removelast (x_Attempts s'.1) = removelast (x_Attempts s.1);
  st_Ident : ident <$> x_Attempts s'.1 = ident <$> x_Attempts s.1 }.

#[local] Instance steady_preorder : PreOrder steady.
Proof.
  split; [by intros s; split; auto|].
  intros s1 s2 s3 [? ? ? ? ? Hp1 ? ?] [? ? ? ? ? Hp2 ? ?].
  split; try congruence. destruct Hp2 as [-> | ->]; [done | by right].
Qed.

(** It keeps the outcomes too. *)
Definition calm s s' : Prop := steady s s' /\ at_Outcome <$> x_Attempts s'.1 = at_Outcome <$> x_Attempts s.1.

#[local] Instance calm_preorder : PreOrder calm.
Proof.
  split; [by intros s; split|]. intros s1 s2 s3 [H1 E1] [H2 E2]. split; [by etrans | congruence].
Qed.

Lemma does_on_request (R : Exec * W -> Exec * W -> Prop) f :
  (forall x w, R (x, w) (set_req (f (x_req x)) x, w)) -> does R (on_request (W := W) f).
Proof. intros HR. apply does_update, HR. Qed.

Lemma calm_port {A} (f : W -> A * W) : does calm (call_port f).
Proof. apply does_port. intros. split; [split|]; auto. Qed.
Lemma calm_tell (f : W -> W) : does calm (tell_port f).
Proof. apply does_tell. intros. split; [split|]; auto. Qed.
Lemma calm_look {A} (f : Exec -> A) : does calm (look f).
Proof. apply does_look, _. Qed.
Lemma calm_on_request f : keeps_capability f -> does calm (on_request (W := W) f).
Proof. intros Hf. apply does_on_request. intros x w. split; [split|]; simpl; auto. Qed.
#[local] Hint Resolve calm_port calm_tell calm_look calm_on_request : effects.
#[local] Hint Resolve keeps_initialize keeps_client keeps_upstream keeps_reset : effects.
#[local] Hint Extern 1 (keeps_capability (fun r => set_execution _ _ _ _ _ _ r)) => (intros ?; reflexivity) : effects.
#[local] Hint Extern 1 (keeps_capability (fun r => set_status _ _ _)) => (intros ?; reflexivity) : effects.

Lemma alter_last_snoc {A} (f : A -> A) l a : alter_last f (l ++ [a]) = l ++ [f a].
Proof.
  unfold alter_last. rewrite length_app. simpl.
  destruct (l ++ [a]) eqn:E; [by destruct l|]. rewrite <- E, Nat.add_sub. clear E.
  by rewrite alter_app_r_alt, Nat.sub_diag by lia.
Qed.
Lemma alter_last_past {A} (f : A -> A) l : removelast (alter_last f l) = removelast l.
Proof.
  destruct (decide (l = [])) as [-> | Hl]; [done|]. destruct (exists_last Hl) as (l0 & a & ->).
  by rewrite alter_last_snoc, !removelast_last.
Qed.
Lemma alter_last_fmap {A B} (g : A -> B) (f : A -> A) l :
  (forall a, last l = Some a -> g (f a) = g a) -> g <$> alter_last f l = g <$> l.
Proof.
  destruct (decide (l = [])) as [-> | Hl]; [done|]. destruct (exists_last Hl) as (l0 & a & ->).
  rewrite last_snoc, alter_last_snoc, !fmap_app. intros Hg. simpl. by rewrite Hg.
Qed.

Lemma steady_on_attempt f : (forall a, ident (f a) = ident a) -> does steady (on_attempt (W := W) f).
Proof.
  intros Hf. apply does_update. intros x w. split; simpl; auto; [apply alter_last_past|].
  apply alter_last_fmap. auto.
Qed.

Lemma steady_of_calm {A} (m : Ex A) : does calm m -> does steady m.
Proof. apply does_mono. by intros s s' [? _]. Qed.
#[local] Hint Resolve steady_of_calm | 5 : effects.
#[local] Hint Extern 1 (forall a, ident _ = ident a) => (intros ?; reflexivity) : effects.
#[local] Hint Resolve steady_on_attempt : effects.

Lemma ident_cooldown (p : AdmissionPermit) (states : list AvailabilitySnapshot) (a : AttemptRecord) :
  let a' := foldl (fun a st => if bool_decide (sn_Phase st = Cooling)
        && (default 0 (pm_Epochs p !! fs_Key (sn_Scope st)) <? sn_Epoch st)
      then at_cooldown true (sn_RetryAt st) a else a) a states in
  ident a' = ident a /\ at_Outcome a' = at_Outcome a.
Proof.
  revert a. induction states as [|st states IH]; intros a; simpl; [done|].
  destruct (_ && _); [|apply IH]. destruct (IH (at_cooldown true (sn_RetryAt st) a)) as [-> ->]. done.
Qed.

Lemma calm_finish : does calm (finishAvailability (W := W) cf).
Proof.
  unfold finishAvailability. apply does_bind; [apply _ | apply calm_look | intros [p|]]; effects.
  apply does_update. intros x w. split; [split|]; simpl; auto.
  - apply alter_last_past.
  - apply alter_last_fmap. intros b _. apply ident_cooldown.
  - apply alter_last_fmap. intros b _. apply ident_cooldown.
Qed.
#[local] Hint Resolve calm_finish : effects.
Lemma calm_release : does calm (releaseAvailability (W := W) cf).
Proof.
  unfold releaseAvailability. effects. apply does_update. intros x w. split; [split|]; simpl; auto.
Qed.
#[local] Hint Resolve calm_release : effects.

(** Finishing leaves no permit. *)
Definition admissible s : Prop := cf_Availability cf = false -> x_Permit s.1 = None.

Lemma finish_spec s :
  admissible s -> wp (finishAvailability (W := W) cf) (fun _ s' => calm s s' /\ x_Permit s'.1 = None) s.
Proof.
  intros Ha. apply wp_and; [apply calm_finish|]. unfold finishAvailability. run.
  destruct (x_Permit s.1) eqn:Hp; [|by run].
  destruct (cf_Availability cf) eqn:Hc; cbn [negb]; [|run; by apply Ha].
  run. run. by run.
Qed.

Lemma admissible_permit s s' :
  x_Permit s'.1 = x_Permit s.1 \/ x_Permit s'.1 = None -> admissible s -> admissible s'.
Proof. intros Hp Ha Hcf. destruct Hp as [-> | ->]; [by apply Ha | done]. Qed.

Lemma release_spec s :
  admissible s -> wp (releaseAvailability (W := W) cf) (fun _ s' => calm s s' /\ x_Permit s'.1 = None) s.
Proof.
  intros Ha. apply wp_and; [apply calm_release|]. unfold releaseAvailability. run.
  eapply wp_mono; [by apply finish_spec|]. by intros _ s' [_ ?].
Qed.

(** ** One attempt *)

(** What a step of the whole attempt keeps: it may also use candidates up and
    commit the response. *)
Record tracks s s' : Prop := {
  tr_Candidates : x_Candidates s'.1 = x_Candidates s.1;
  tr_Used : x_Used s.1 ⊆ x_Used s'.1;
  tr_Credential : x_Credential s'.1 = x_Credential s.1;
  tr_Capability : rq_CapabilityType (x_req s'.1) = rq_CapabilityType (x_req s.1);
  tr_Permit : x_Permit s'.1 = x_Permit s.1 \/ x_Permit s'.1 = None;
  tr_Past : removelast (x_Attempts s'.1) = removelast (x_Attempts s.1);
  tr_Ident : ident <$> x_Attempts s'.1 = ident <$> x_Attempts s.1 }.

#[local] Instance tracks_preorder : PreOrder tracks.
Proof.
  split; [by intros s; split; auto|].
  intros s1 s2 s3 [? Hu1 ? ? Hp1 ? ?] [? Hu2 ? ? Hp2 ? ?].
  split; try congruence; [by etrans|]. destruct Hp2 as [-> | ->]; [done | by right].
Qed.

Lemma tracks_steady s s' : steady s s' -> tracks s s'.
Proof. intros []. split; try done. by rewrite st_Used0. Qed.
Lemma tracks_of_steady {A} (m : Ex A) : does steady m -> does tracks m.
Proof. apply does_mono, tracks_steady. Qed.
#[local] Hint Resolve tracks_of_steady | 4 : effects.

Lemma steady_recordOutcome c o : does steady (recordOutcome (W := W) c o).
Proof. unfold recordOutcome. cbn zeta. effects. apply does_update. by intros x w; split; auto. Qed.
Lemma steady_markAttemptFailed : does steady (markAttemptFailed (W := W)).
Proof. unfold markAttemptFailed. effects. Qed.
Lemma steady_finishAmbiguous : does steady (finishAmbiguousImageTimeout (W := W)).
Proof. unfold finishAmbiguousImageTimeout. cbn zeta. effects. Qed.
#[local] Hint Resolve steady_recordOutcome steady_markAttemptFailed steady_finishAmbiguous : effects.

Lemma steady_canceled ctx : does steady (canceledAttempt (W := W) cf ctx).
Proof. unfold canceledAttempt, gateway_cancelled, set_error. effects. Qed.

Lemma keeps_observeErrorBody reply : keeps_capability (fun r =>
    if negb (UsesReportedTokenBilling (rq_CapabilityType r)) then r
    else
      let r := initializeSettlementState (observeReportedUsage (up_JSON reply) "json" r) in
      if String.eqb (up_Terminal reply) "" then r
      else
        let r := markProviderTerminal (up_Terminal reply) r in
        if bool_decide (up_Terminal reply ∈ [ProviderTerminalFailed; ProviderTerminalIncomplete;
                                             ProviderTerminalCancelled])
        then set_execution (rq_RequestStatus r) (rq_HTTPStatus r) (rq_ErrorCode r) (rq_ErrorMessage r)
               "execute" (rq_BillingReason r) r
        else r).
Proof.
  intros r. destruct (negb _); [done|]. cbn zeta.
  destruct (String.eqb _ _); [|destruct (bool_decide _)]; simpl;
    rewrite ?keeps_terminal; simpl; apply keeps_observe.
Qed.
Lemma calm_observeErrorBody reply : does calm (observeErrorBody (W := W) reply).
Proof. apply calm_on_request, keeps_observeErrorBody. Qed.

Lemma calm_capacityRetry c o : does calm (capacityRetry (W := W) cf c o).
Proof. unfold capacityRetry. cbn zeta. effects. Qed.
#[local] Hint Resolve steady_canceled calm_observeErrorBody calm_capacityRetry : effects.

Lemma calm_retire c o cr : does calm (retireCredential (W := W) c o cr).
Proof. apply does_update. by intros x w; split; [split|]; auto. Qed.
Lemma calm_forget c : does calm (forgetPrepared (W := W) c).
Proof. apply does_update. by intros x w; split; [split|]; auto. Qed.
#[local] Hint Resolve calm_retire calm_forget : effects.

Lemma exhaust_mono cs c used : used ⊆ exhaustPhysicalTarget cs c used.
Proof.
  unfold exhaustPhysicalTarget. revert used. induction cs as [|d cs IH]; intros used; [done|]. cbn [foldl].
  destruct (String.eqb _ _); [|apply IH]. etrans; [|apply IH]. set_solver.
Qed.
Lemma exhaust_all cs c used d :
  d ∈ cs -> physicalTargetKey d = physicalTargetKey c -> Key d ∈ exhaustPhysicalTarget cs c used.
Proof.
  unfold exhaustPhysicalTarget. revert used. induction cs as [|e cs IH]; intros used Hin Heq.
  - by apply not_elem_of_nil in Hin.
  - cbn [foldl]. apply elem_of_cons in Hin as [<- | Hin]; [|by apply IH].
    rewrite Heq, String.eqb_refl. apply (exhaust_mono cs c). set_solver.
Qed.

Lemma tracks_exhaust c : does tracks (exhaust (W := W) c).
Proof. apply does_update. intros x w. split; simpl; auto. apply exhaust_mono. Qed.
#[local] Hint Resolve tracks_exhaust : effects.

Lemma tracks_accept c o h : does tracks (acceptAttempt (W := W) cf inp c o h).
Proof.
  unfold acceptAttempt, fail_request. cbn zeta. effects. apply does_update. by intros x w; split; auto.
Qed.
#[local] Hint Resolve tracks_accept : effects.

Lemma tracks_decide c o status h body effect d :
  does tracks (decideAttempt (W := W) cf inp c o status h body effect d).
Proof. unfold decideAttempt. effects; apply does_update; by intros x w; split; auto. Qed.
#[local] Hint Resolve tracks_decide : effects.

Lemma tracks_judge c o err reply effect ctx :
  does tracks (judgeAttempt (W := W) cf inp c o err reply effect ctx).
Proof. unfold judgeAttempt. cbn zeta. effects. Qed.

(** *** What an attempt leaves when another may follow *)

(** Another attempt follows only an uncommitted response. *)
Lemma acceptAttempt_spec c o h s :
  wp (acceptAttempt (W := W) cf inp c o h)
    (fun r s' => forall d e, r = Again d e -> d = DecisionRetry /\ x_Committed s'.1 = false) s.
Proof.
  unfold acceptAttempt. run. run. run. run. run. cbn [fst]. set (s1 := (_, w)).
  destruct (_ && _).
  { apply wp_bind, (wp_does steady); [effects|]. intros ? s2 H2.
    apply wp_bind, (wp_does steady); [effects|]. intros ? s3 H3.
    pick_case; [run; done|]. unfold fail_request. run; run; done. }
  destruct (String.eqb _ _); [run; run; done|].
  destruct (rl_Error _) as [[local status message|e]|].
  - apply wp_bind, (wp_does steady); [effects|]. intros ? s2 H2. cbn zeta.
    apply wp_bind, (wp_does steady); [effects|]. intros ? s3 H3.
    pick_case; [unfold fail_request; run; run; done|].
    destruct (_ && _); [unfold finishAmbiguousImageTimeout; run; run; done|].
    run. run. intros d e [= <- <-]. split; [done|]. simpl.
    rewrite (st_Committed _ _ H3), (st_Committed _ _ H2). done.
  - run. apply wp_bind, (wp_does steady); [effects|]. intros. run. done.
  - destruct (_ && _); [run; run; done|]. destruct (negb _).
    + apply wp_bind, (wp_does steady); [effects|]. intros. run. done.
    + run. run. apply wp_bind, (wp_does calm); [effects|]. intros. run. done.
Qed.

Lemma decideAttempt_spec c o status h body effect d s :
  (d = DecisionRetryNewCred -> x_Credential s.1 <> None) ->
  x_Committed s.1 = false ->
  wp (decideAttempt (W := W) cf inp c o status h body effect d)
    (fun r s' => forall d' e, r = Again d' e ->
       x_Committed s'.1 = false /\
       (d' = DecisionRetryNewCred -> x_Credential s.1 <> None) /\
       (d' = DecisionRetry \/ d' = DecisionRetryNewCred) /\
       (d <> DecisionAccept -> calm s s')) s.
Proof.
  intros Hcred Hc. unfold decideAttempt. run. destruct d.
  - eapply wp_mono; [apply acceptAttempt_spec|]. intros r s' Hr d e ->.
    destruct (Hr _ _ eq_refl) as [-> Hc']. split_and!; [done | done | by left | done].
  - destruct (x_Credential s.1) as [cr|] eqn:Hcr.
    + destruct (_ && _).
      * apply wp_bind, (wp_does calm); [effects|]. intros ? s2 H2.
        apply wp_bind, (wp_does calm); [effects|]. intros ? s3 H3. run.
        assert (H23 : calm s s3) by (by etrans).
        intros d e [= <- <-]. split_and!; [|done | by right | done].
        by rewrite (st_Committed _ _ (proj1 H23)).
      * run. intros d e [= <- <-]. split_and!; [done | done | by left | done].
    + run. intros d e [= <- <-]. split_and!; [done | done | by left | done].
  - apply wp_bind, (wp_does calm).
    { destruct (cf_Availability cf); effects; apply does_update; by intros x w; split; [split|]; auto. }
    intros ? s2 H2. run. intros d e [= <- <-]. split_and!; [| by auto | by right | done].
    by rewrite (st_Committed _ _ (proj1 H2)).
  - run. by run.
  - run. intros d e [= <- <-]. split_and!; [done | done | by left | done].
Qed.

(** The last attempt of a request. *)
Definition ends s (l : list AttemptRecord) (a : AttemptRecord) : Prop := x_Attempts s.1 = l ++ [a].

Lemma ends_tracks s s' l a : tracks s s' -> ends s l a -> exists a', ends s' l a' /\ ident a' = ident a.
Proof.
  unfold ends. intros Ht Ha. pose proof (tr_Past _ _ Ht) as Hp. pose proof (tr_Ident _ _ Ht) as Hi.
  rewrite Ha in Hp, Hi. rewrite removelast_last in Hp. rewrite fmap_app in Hi. cbn in Hi.
  destruct (decide (x_Attempts s'.1 = [])) as [He | Hne].
  { rewrite He in Hi. by destruct (ident <$> l). }
  destruct (exists_last Hne) as (l' & a' & Hl'). exists a'. rewrite Hl' in Hp, Hi |- *.
  rewrite removelast_last in Hp. subst l'. split; [done|].
  rewrite fmap_app in Hi. cbn in Hi. apply app_inj_tail in Hi as [_ Hi]. done.
Qed.

Lemma ends_steady s s' l a : steady s s' -> ends s l a -> exists a', ends s' l a' /\ ident a' = ident a.
Proof. intros Hs. apply ends_tracks, tracks_steady, Hs. Qed.

Lemma ends_calm s s' l a :
  calm s s' -> ends s l a -> exists a', ends s' l a' /\ ident a' = ident a /\ at_Outcome a' = at_Outcome a.
Proof.
  intros [Hs Ho] Ha. destruct (ends_steady _ _ _ _ Hs Ha) as (a' & Ha' & Hi).
  exists a'. split_and!; [done | done |]. rewrite Ha, Ha', !fmap_app in Ho. by apply app_inj_tail in Ho as [_ [= ->]].
Qed.

(** [recordOutcome] gives the last attempt its outcome. *)
Lemma recordOutcome_spec c o l a s :
  ends s l a ->
  wp (recordOutcome (W := W) c o)
    (fun _ s' => steady s s' /\ exists a', ends s' l a' /\ ident a' = ident a /\ at_Outcome a' = oc_Status o) s.
Proof.
  intros Ha. apply wp_and; [apply steady_recordOutcome|]. unfold recordOutcome. run. cbn zeta. run.
  unfold on_attempt. run. unfold ends in *. cbn [fst set_attempts x_Attempts set_permit]. rewrite Ha.
  exists (at_verdict (oc_Status o) (oc_ErrorCode o) (status_string (oc_Status o))
            (ao_FailureScope (availabilityVerdict c (x_Credential s.1) o)) a).
  split_and!; [apply alter_last_snoc | done | done].
Qed.

(** The short wait and the retry on the same credential happen once per candidate. *)
Lemma capacityRetry_spec c o l a s :
  ends s l a ->
  wp (capacityRetry (W := W) cf c o)
    (fun again s' => calm s s' /\
       (again = true -> forall b, b ∈ l -> at_CandidateID b = Key c -> at_Outcome b <> ResultCapacityExhausted)) s.
Proof.
  intros Ha. apply wp_and; [apply calm_capacityRetry|]. unfold capacityRetry. run. run. cbn zeta.
  unfold ends in Ha. cbn [fst]. rewrite Ha, removelast_last. destruct (negb _ && _) eqn:Hb; [|by run].
  apply wp_bind, (wp_does calm); [effects|]. intros. run. run. intros _ b Hb' Hk Ho.
  apply andb_true_iff in Hb as [Hb _]. apply negb_true_iff in Hb.
  assert (Hex : existsb (fun a => String.eqb (at_CandidateID a) (Key c)
    && bool_decide (at_Outcome a = ResultCapacityExhausted)) l = true).
  { apply existsb_exists. exists b. split; [by apply list_elem_of_In|].
    rewrite Hk, String.eqb_refl, Ho. done. }
  congruence.
Qed.

Lemma canceledAttempt_spec ctx s :
  wp (canceledAttempt (W := W) cf ctx) (fun r _ => exists e, r = Finished e) s.
Proof.
  unfold canceledAttempt, gateway_cancelled, set_error.
  apply wp_bind, (wp_does calm); [effects|]. intros ? s1 H1. destruct ctx.
  - unfold on_request. run. cbn zeta beta iota. run. run. eauto.
  - unfold on_request. run. run. run. eauto.
  - unfold on_request. run. cbn zeta beta iota. run. run. eauto.
  - unfold on_request. run. cbn zeta beta iota. run. run. eauto.
Qed.

(** The state another attempt starts from, after one of the candidate [c] that
    took the record [a] on. *)
Record follows (c : RouteCandidate) l a s (d : Decision) s' : Prop := {
  fo_Committed : x_Committed s'.1 = false;
  fo_NewCred : d = DecisionRetryNewCred -> x_Credential s.1 <> None;
  fo_Decision : d = DecisionRetry \/ d = DecisionRetryNewCred \/ d = DecisionRetrySameCred;
  fo_Last : exists a', ends s' l a' /\ ident a' = ident a /\
    (d = DecisionRetrySameCred -> x_Used s'.1 = x_Used s.1 /\ at_Outcome a' = ResultCapacityExhausted /\
       forall b, b ∈ l -> at_CandidateID b = Key c -> at_Outcome b <> ResultCapacityExhausted) /\
    (rq_CapabilityType (x_req s.1) = CapabilityImage -> at_Outcome a' = ResultTimeout ->
       at_HTTPStatus a <> 0) }.

(** The outcome on record when the attempt is decided. *)
Definition on_record l a s (o : Outcome) s1 : Prop :=
  steady s s1 /\ exists a1, ends s1 l a1 /\ ident a1 = ident a /\ at_Outcome a1 = oc_Status o /\
    (oc_Status o = ResultSuccess -> at_HTTPStatus a <> 0).

Lemma effectDecision_new_credential effect cred o :
  effectDecision effect cred o = DecisionRetryNewCred -> cred = true.
Proof.
  unfold effectDecision. cbn zeta.
  destruct effect as [[]|]; [by apply decide_new_credential | | | by apply decide_new_credential];
    (destruct cred; [done | by intros ?%decide_new_credential]).
Qed.
Lemma effectDecision_accept effect cred o :
  effectDecision effect cred o = DecisionAccept -> oc_Status o = ResultSuccess.
Proof.
  unfold effectDecision. cbn zeta.
  destruct effect as [[]|]; [by apply decide_accept | | | by apply decide_accept];
    (destruct (_ && _); [done | by apply decide_accept]).
Qed.

Lemma judgeAttempt_spec c o err reply effect ctx l a s :
  (o = ClassifyResponse (match reply with Some r => up_Status r | None => 0 end)
         (match reply with Some r => up_Headers r | None => no_headers end) no_envelope err
   \/ oc_Status o = ResultCanceled) ->
  ends s l a -> at_HTTPStatus a = oc_HTTPStatus o -> at_Outcome a = oc_Status o ->
  x_Committed s.1 = false ->
  wp (judgeAttempt (W := W) cf inp c o err reply effect ctx)
    (fun r s' => forall d e, r = Again d e -> follows c l a s d s') s.
Proof.
  intros Ho Ha Hhttp Hout Hc. unfold judgeAttempt. cbn zeta.
  set (status := match reply with Some r => up_Status r | None => 0 end) in *.
  set (headers := match reply with Some r => up_Headers r | None => no_headers end) in *.
  case_bool_decide as Hcan.
  { eapply wp_mono; [apply canceledAttempt_spec|]. intros r s' [e ->] d e' [=]. }
  destruct Ho as [Ho | ?]; [|done]. case_bool_decide as Hpol.
  { apply wp_bind. eapply wp_mono; [by apply recordOutcome_spec|]. intros _ s1 [Hs1 (a1 & Ha1 & Hi & Ho1)]. run.
    intros d e [= <- <-]. split; [by rewrite (st_Committed _ _ Hs1) | done | by left |].
    exists a1. split_and!; [done | done | done | congruence]. }
  set (body := match err with Some _ => None | None => _ end).
  apply wp_bind. eapply (wp_mono _ (on_record l a s)).
  { assert (Hok : forall h e, oc_Status (ClassifyResponse status h e err) = ResultSuccess -> at_HTTPStatus a <> 0).
    { intros h e Hs. apply ClassifyResponse_success in Hs as [-> Hs].
      rewrite Hhttp, Ho, ClassifyResponse_http. lia. }
    case_bool_decide as Hs.
    - run. split; [reflexivity|]. exists a. split_and!; [done | done | done |]. rewrite Ho. apply Hok.
    - apply wp_bind, (wp_does calm). { destruct body; effects. } intros ? s1 H1.
      destruct (ends_calm _ _ _ _ H1 Ha) as (a1 & Ha1 & Hi1 & _).
      apply wp_bind. eapply wp_mono; [by apply recordOutcome_spec|]. intros _ s2 [Hs2 (a2 & Ha2 & Hi2 & Ho2)].
      run. split; [etrans; [apply H1 | done]|]. exists a2. split_and!; [done | congruence | done | apply Hok]. }
  intros o1 s1 [Hs1 (a1 & Ha1 & Hi1 & Ho1 & Hok)]. run.
  destruct (String.eqb _ _ && _) eqn:Himg; [unfold finishAmbiguousImageTimeout; run; run; done|].
  run. set (cred := bool_decide (is_Some (x_Credential s1.1))).
  apply wp_bind. eapply (wp_mono _ (fun again s2 => calm s1 s2 /\ (again = true ->
    oc_Status o1 = ResultCapacityExhausted /\
    forall b, b ∈ l -> at_CandidateID b = Key c -> at_Outcome b <> ResultCapacityExhausted))).
  { case_bool_decide as Hcap; [|run; by split; [reflexivity|]].
    eapply wp_mono; [by eapply capacityRetry_spec|]. intros again s2 [? ?]. auto. }
  intros again s2 [Hs2 Hagain]. destruct (ends_calm _ _ _ _ Hs2 Ha1) as (a2 & Ha2 & Hi2 & Ho2).
  assert (Hs : steady s s2) by (etrans; [done | apply Hs2]).
  assert (Hlate : rq_CapabilityType (x_req s.1) = CapabilityImage -> oc_Status o1 <> ResultTimeout).
  { intros Hcap Ht. rewrite (st_Capability _ _ Hs1), Hcap in Himg. unfold ambiguousImageTransport in Himg.
    by rewrite Ht in Himg. }
  destruct again.
  { destruct (Hagain eq_refl) as [Hcapout Hl]. run. intros d e [= <- <-].
    split; [by rewrite (st_Committed _ _ Hs) | done | auto |].
    exists a2. split_and!; [done | congruence | | intros Hcap Ht; exfalso; apply (Hlate Hcap); congruence].
    intros _. split_and!; [apply (st_Used _ _ Hs) | congruence | done]. }
  clear Hagain. assert (Hcred : x_Credential s2.1 = x_Credential s.1) by apply (st_Credential _ _ Hs).
  eapply wp_mono; [apply wp_and; [apply tracks_decide | apply decideAttempt_spec]|].
  - intros Hd%effectDecision_new_credential. apply bool_decide_eq_true in Hd as [cr Hcr].
    rewrite (st_Credential _ _ (proj1 Hs2)). congruence.
  - by rewrite (st_Committed _ _ Hs).
  - intros r s3 [Hs3 Hr] d e ->. destruct (Hr _ _ eq_refl) as (Hc3 & Hn & Hd & Hcalm).
    destruct (ends_tracks _ _ _ _ Hs3 Ha2) as (a3 & Ha3 & Hi3).
    split; [done | by rewrite <- Hcred | destruct Hd; auto |].
    exists a3. split_and!; [done | congruence | by destruct Hd as [-> | ->] |]. intros Hcap Ht.
    destruct (decide (effectDecision effect cred o1 = DecisionAccept)) as [Hacc | Hacc].
    { by eapply Hok, effectDecision_accept. }
    destruct (ends_calm _ _ _ _ (Hcalm Hacc) Ha2) as (a4 & Ha4 & _ & Ho4).
    unfold ends in Ha3, Ha4. rewrite Ha3 in Ha4. apply app_inj_tail in Ha4 as [_ <-].
    exfalso. apply (Hlate Hcap). congruence.
Qed.

Lemma finalAttempt_outcome r a :
  at_Outcome (finalAttempt r a) = at_Outcome a \/
  (at_Outcome a = ResultSuccess /\
   (at_Outcome (finalAttempt r a) = ResultRejected \/ at_Outcome (finalAttempt r a) = ResultCanceled)).
Proof.
  assert (Hdone : forall b, at_Outcome (if String.eqb (at_AvailabilityOutcome b) ""
    then at_outcome (at_Outcome b) (status_string (at_Outcome b)) b else b) = at_Outcome b).
  { intros b. by destruct (String.eqb _ _). }
  unfold finalAttempt. cbn zeta. rewrite Hdone.
  destruct (decide (at_Outcome a = ResultSuccess)) as [Hs | Hs]; cbn [at_final at_Outcome].
  - rewrite (bool_decide_true _ Hs). cbn [andb].
    destruct (negb _); cbn [at_outcome at_Outcome at_final].
    + rewrite andb_false_r. cbn [at_outcome at_Outcome]. auto.
    + rewrite (bool_decide_true _ Hs), andb_true_r. destruct (bool_decide _); cbn [at_outcome at_Outcome at_final]; auto.
  - rewrite (bool_decide_false _ Hs). cbn [andb at_final at_Outcome].
    rewrite (bool_decide_false _ Hs), andb_false_r. by left.
Qed.

Lemma recordCompletedAttempt_spec c l a s :
  ends s l a ->
  wp (recordCompletedAttempt (W := W) c)
    (fun _ s' => steady s s' /\ exists a', ends s' l a' /\ ident a' = ident a /\
       (at_Outcome a' = at_Outcome a \/
        (at_Outcome a = ResultSuccess /\ (at_Outcome a' = ResultRejected \/ at_Outcome a' = ResultCanceled)))) s.
Proof.
  intros Ha. unfold recordCompletedAttempt. run.
  assert (Hf : forall r b, ident (finalAttempt r b) = ident b).
  { intros r b. unfold finalAttempt. by repeat case_match. }
  apply wp_bind. eapply (wp_mono _ (fun _ s1 => steady s s1 /\ ends s1 l (finalAttempt (x_req s.1) a))).
  { apply wp_and; [by apply steady_on_attempt|]. unfold on_attempt. run. unfold ends in *. simpl.
    by rewrite Ha, alter_last_snoc. }
  intros _ s1 [Hs1 Ha1]. run.
  apply (wp_does calm). { destruct (last _); effects. }
  intros _ s2 Hs2. destruct (ends_calm _ _ _ _ Hs2 Ha1) as (a2 & Ha2 & Hi2 & Ho2).
  split; [etrans; [done | apply Hs2]|]. exists a2. split_and!; [done | by rewrite Hi2, Hf |].
  rewrite Ho2. apply finalAttempt_outcome.
Qed.

(** An attempt of the candidate. *)
Definition attempt_of (c : RouteCandidate) (a : AttemptRecord) : Prop :=
  at_CandidateID a = Key c /\ at_RouteID a = rc_RouteID c /\ at_EndpointID a = rc_EndpointID c /\
  at_PoolID a = rc_PoolID c /\ at_UpstreamModel a = EffectiveUpstreamModel c /\
  at_Operation a = OperationKey c.

Lemma attempt_of_ident c a a' : ident a' = ident a -> attempt_of c a -> attempt_of c a'.
Proof. unfold attempt_of. intros [= -> -> -> -> -> -> _]. done. Qed.

Lemma recordAttempt_spec c o score s :
  wp (recordAttempt (W := W) inp c o score)
    (fun _ s' => (exists a, ends s' (x_Attempts s.1) a /\ attempt_of c a /\
         at_HTTPStatus a = oc_HTTPStatus o /\ at_Outcome a = oc_Status o) /\
       x_Candidates s'.1 = x_Candidates s.1 /\ x_Used s'.1 = x_Used s.1 /\
       x_Credential s'.1 = x_Credential s.1 /\ x_Permit s'.1 = x_Permit s.1 /\
       x_Committed s'.1 = x_Committed s.1 /\
       rq_CapabilityType (x_req s'.1) = rq_CapabilityType (x_req s.1)) s.
Proof.
  unfold recordAttempt. run. cbn zeta. split_and!; try done. eexists. split; [reflexivity|].
  by split_and!.
Qed.

(** What later attempts depend on: of a direct upstream, its physical target. *)
Record fact := MkFact {
  f_Candidate : string; f_Pool : string; f_Target : string; f_HTTPStatus : Z; f_Outcome : ResultStatus }.

Definition directTarget (a : AttemptRecord) : string :=
  if present (at_EndpointID a)
  then "endpoint:" +:+ at_EndpointID a +:+ ":" +:+ at_UpstreamModel a +:+ ":" +:+ at_Operation a
  else "route:" +:+ at_RouteID a.

Definition fact_of (a : AttemptRecord) : fact :=
  MkFact (at_CandidateID a) (at_PoolID a) (directTarget a) (at_HTTPStatus a) (at_Outcome a).
Definition facts s : list fact := fact_of <$> x_Attempts s.1.

Lemma calm_facts s s' : calm s s' -> facts s' = facts s.
Proof.
  intros [Hs Ho]. pose proof (st_Ident _ _ Hs) as Hi. unfold facts. revert Hi Ho.
  generalize (x_Attempts s'.1) (x_Attempts s.1).
  induction l as [|a l IH]; intros [|b l']; simpl; try done. intros [= Hc Hr He Hp Hm Hop Hh Hi] [= Hout Ho].
  f_equal; [|by apply IH]. unfold fact_of, directTarget. by rewrite Hc, Hr, He, Hp, Hm, Hop, Hh, Hout.
Qed.

Lemma ends_facts s l a : ends s l a -> facts s = (fact_of <$> l) ++ [fact_of a].
Proof. unfold facts, ends. intros ->. by rewrite fmap_app. Qed.

Lemma direct_target c a : attempt_of c a -> rc_PoolID c = "" -> directTarget a = physicalTargetKey c.
Proof.
  intros (_ & Hr & He & _ & Hm & Ho) Hp. unfold directTarget, physicalTargetKey, IsPoolRoute.
  by rewrite Hr, He, Hm, Ho, Hp.
Qed.

(** The whole attempt: the request may go on only from an uncommitted response. *)
Record attempted (c : RouteCandidate) s (r : attemptResult) s' : Prop := {
  ap_Permit : x_Permit s'.1 = None;
  ap_Candidates : x_Candidates s'.1 = x_Candidates s.1;
  ap_Used : x_Used s.1 ⊆ x_Used s'.1;
  ap_Credential : x_Credential s'.1 = x_Credential s.1;
  ap_Capability : rq_CapabilityType (x_req s'.1) = rq_CapabilityType (x_req s.1);
  ap_Committed : forall d e, r = Again d e -> x_Committed s'.1 = false;
  ap_NewCred : forall e, r = Again DecisionRetryNewCred e -> x_Credential s.1 <> None;
  ap_Decision : forall d e, r = Again d e ->
    d = DecisionRetry \/ d = DecisionRetryNewCred \/ d = DecisionRetrySameCred;
  ap_Facts : (facts s' = facts s /\ exists e, r = Again DecisionRetry e) \/
    exists f, facts s' = facts s ++ [f] /\
      f_Candidate f = Key c /\ f_Pool f = rc_PoolID c /\
      (rc_PoolID c = "" -> f_Target f = physicalTargetKey c) /\
      (forall e, r = Again DecisionRetrySameCred e ->
         x_Used s'.1 = x_Used s.1 /\ f_Outcome f = ResultCapacityExhausted /\
         forall g, g ∈ facts s -> f_Candidate g = Key c -> f_Outcome g <> ResultCapacityExhausted) /\
      (forall d e, r = Again d e -> rq_CapabilityType (x_req s.1) = CapabilityImage ->
         f_Outcome f = ResultTimeout -> f_HTTPStatus f <> 0) }.

(** The steps before the attempt change only the last outcome's cooldown. *)
Record before s s' : Prop := {
  be_Candidates : x_Candidates s'.1 = x_Candidates s.1;
  be_Used : x_Used s'.1 = x_Used s.1;
  be_Credential : x_Credential s'.1 = x_Credential s.1;
  be_Capability : rq_CapabilityType (x_req s'.1) = rq_CapabilityType (x_req s.1);
  be_Committed : x_Committed s'.1 = x_Committed s.1;
  be_Facts : facts s' = facts s }.

Lemma calm_before s s' : calm s s' -> before s s'.
Proof. intros Hs. pose proof (calm_facts _ _ Hs). by destruct Hs as [[] _]. Qed.

Lemma attempted_before c s0 s r s' : before s0 s -> attempted c s r s' -> attempted c s0 r s'.
Proof.
  intros [Hcs Hu Hcr Hcap Hcm Hf] []. rewrite Hcs, Hcr, Hcap, Hf in *. split; try done.
  - by rewrite <- Hu.
  - by rewrite <- Hu.
Qed.

Lemma local_failure_spec c s :
  admissible s -> x_Committed s.1 = false ->
  wp (recordSkippedCandidate (W := W) inp c "local_request_error";;
      releaseAvailability cf;;
      mret (Again DecisionRetry (Some (apiError 502 "upstream_request_build_failed"
        "upstream request could not be prepared")))) (attempted c s) s.
Proof.
  intros Hadm Hc. unfold recordSkippedCandidate. run.
  set (s1 := (_, s.2)). apply wp_bind. eapply (wp_mono _ (fun _ s2 => calm s1 s2 /\ x_Permit s2.1 = None)).
  { by apply release_spec. }
  intros _ s2 [H2 Hp2]. run. apply (attempted_before _ _ s1); [done|].
  pose proof (calm_facts _ _ H2). destruct H2 as [[] _].
  split; try done; [by rewrite st_Used0 | by intros; rewrite st_Committed0 | intros d e [= <- <-]; by left |].
  left. by split; [|eexists].
Qed.

(** The deferred work of an attempt: finish its admission and complete its record. *)
Lemma finish_attempt_spec c l a (r : attemptResult) s :
  admissible s -> ends s l a ->
  wp (finishAvailability (W := W) cf;; recordCompletedAttempt (W := W) c;; mret r)
    (fun r' s' => r' = r /\ steady s s' /\ x_Permit s'.1 = None /\ exists a', ends s' l a' /\ ident a' = ident a /\
       (at_Outcome a' = at_Outcome a \/
        (at_Outcome a = ResultSuccess /\ (at_Outcome a' = ResultRejected \/ at_Outcome a' = ResultCanceled)))) s.
Proof.
  intros Hadm Ha. apply wp_bind. eapply wp_mono; [by apply finish_spec|]. intros _ s1 [H1 Hp1].
  destruct (ends_calm _ _ _ _ H1 Ha) as (a1 & Ha1 & Hi1 & Ho1). apply wp_bind.
  eapply wp_mono; [by apply recordCompletedAttempt_spec|]. intros _ s2 (H2 & a2 & Ha2 & Hi2 & Ho2).
  run. split_and!; [done | etrans; [apply H1 | done] | destruct (st_Permit _ _ H2); congruence |].
  exists a2. rewrite <- Ho1. split_and!; [done | congruence | done].
Qed.

Lemma called_spec c o score err reply effect ctx s :
  (o = ClassifyResponse (match reply with Some r => up_Status r | None => 0 end)
         (match reply with Some r => up_Headers r | None => no_headers end) no_envelope err
   \/ oc_Status o = ResultCanceled) ->
  admissible s -> x_Committed s.1 = false ->
  wp (recordAttempt inp c o score;; r ← judgeAttempt cf inp c o err reply effect ctx;
      finishAvailability cf;; recordCompletedAttempt c;; mret r) (attempted c s) s.
Proof.
  intros Ho Hadm Hc. apply wp_bind. eapply wp_mono; [apply recordAttempt_spec|].
  intros _ s1 ((a & Ha & Hof & Hh & Hout) & Hcs & Hu & Hcr & Hp & Hcm & Hcap). apply wp_bind.
  eapply wp_mono; [apply wp_and; [apply tracks_judge | eapply judgeAttempt_spec; eauto; congruence]|].
  intros r s2 [Ht Hf]. destruct (ends_tracks _ _ _ _ Ht Ha) as (a2 & Ha2 & Hi2).
  assert (Hadm2 : admissible s2).
  { eapply admissible_permit; [apply (tr_Permit _ _ Ht)|]. eapply admissible_permit; [by left | done]. }
  eapply wp_mono; [by apply (finish_attempt_spec c (x_Attempts s.1) a2)|].
  intros r' s3 (-> & H3 & Hp3 & a3 & Ha3 & Hi3 & Ho3). destruct Ht, H3.
  split; try congruence.
  - rewrite st_Used0, <- Hu. done.
  - intros d e Hr. rewrite st_Committed0. eapply fo_Committed, Hf, Hr.
  - intros e Hr. rewrite <- Hcr. by eapply (fo_NewCred _ _ _ _ _ _ (Hf _ _ Hr)).
  - intros d e Hr. eapply fo_Decision, Hf, Hr.
  - right. exists (fact_of a3). rewrite (ends_facts _ _ _ Ha3). split; [done|].
    assert (Hof3 : attempt_of c a3) by (eapply attempt_of_ident; [|done]; congruence).
    assert (Hh3 : at_HTTPStatus a3 = at_HTTPStatus a).
    { rewrite Hi2 in Hi3. by injection Hi3. }
    split_and!; [by apply Hof3 | by apply Hof3 | by apply direct_target | |].
    + intros e Hr. destruct (fo_Last _ _ _ _ _ _ (Hf _ _ Hr)) as (b & Hb & _ & Hcap2 & _).
      unfold ends in Hb, Ha2. rewrite Ha2 in Hb. apply app_inj_tail in Hb as [_ <-].
      destruct (Hcap2 eq_refl) as (Hu2 & Hout2 & Hl). split_and!; [congruence | |].
      * simpl. destruct Ho3 as [-> | [? _]]; [done | congruence].
      * intros g (b & -> & Hb)%list_elem_of_fmap. by apply Hl.
    + intros d e Hr Himg. destruct (fo_Last _ _ _ _ _ _ (Hf _ _ Hr)) as (b & Hb & _ & _ & Hto).
      unfold ends in Hb, Ha2. rewrite Ha2 in Hb. apply app_inj_tail in Hb as [_ <-].
      simpl. rewrite Hh3. intros Ht. apply Hto; [congruence|]. destruct Ho3 as [? | [_ ?]]; intuition congruence.
Qed.

Lemma before_trans s1 s2 s3 : before s1 s2 -> before s2 s3 -> before s1 s3.
Proof. intros [] []. split; congruence. Qed.

Lemma runAttempt_spec c score s :
  admissible s -> x_Committed s.1 = false ->
  wp (runAttempt (W := W) cf inp c score) (attempted c s) s.
Proof.
  intros Hadm Hc. unfold runAttempt.
  apply wp_bind, (wp_does calm); [effects|]. intros _ s1 H1. run.
  apply wp_bind, (wp_does calm); [effects|]. intros answer s2 H2.
  assert (H12 : calm s s2) by (by etrans).
  assert (Hadm2 : admissible s2) by exact (admissible_permit _ _ (st_Permit _ _ (proj1 H12)) Hadm).
  destruct answer as [|err reply effect parent_ended ended_by].
  - eapply wp_mono; [apply local_failure_spec; [done|]|].
    { by rewrite (st_Committed _ _ (proj1 H12)). }
    intros r s3. by apply attempted_before, calm_before.
  - cbn zeta. apply wp_bind, (wp_does calm).
    { destruct (x_Credential s1.1), reply, err; effects. }
    intros _ s3 H3. assert (H13 : calm s s3) by (by etrans).
    eapply wp_mono; [apply called_spec|].
    + destruct parent_ended; [by right | by left].
    + eapply admissible_permit; [apply (st_Permit _ _ (proj1 H3)) | done].
    + by rewrite (st_Committed _ _ (proj1 H13)).
    + intros r s4. by apply attempted_before, calm_before.
Qed.
End Attempt.
