(* ===== verification/ExecuteLoop.v ===== *)
(** * Executing a request: the retry loop

    The invariant of [Execute]'s loop: which candidates an attempt leaves, and why
    the loop ends. *)

From Stdlib Require Import QArith.
From S2P Require Import Prelude GoStrings Decimal UsageEvidence Request Availability Effect Classify.
From S2P Require Import Candidates ExecState RouteSelection RouteSelectionFacts Execute ExecuteFacts.
#[global] Open Scope Z_scope.

(** ** The attempts on record *)

Definition direct (f : fact) : bool := String.eqb (f_Pool f) "".

(** A direct upstream is called again only after it reported exhausted capacity. *)
Definition capacity_only (l : list fact) : Prop :=
  forall i j f g, l !! i = Some f -> l !! j = Some g -> (i < j)%nat -> direct f = true -> direct g = true ->
    f_Target f = f_Target g -> f_Outcome f = ResultCapacityExhausted.

(** The attempts of a direct candidate. *)
Definition tries (k : string) (l : list fact) : nat :=
  length (List.filter (fun f => direct f && String.eqb (f_Candidate f) k) l).

(** A response came, or it is known that none will. *)
Definition certain (f : fact) : Prop := f_Outcome f = ResultTimeout -> f_HTTPStatus f <> 0.

Lemma tries_app k l l' : tries k (l ++ l') = (tries k l + tries k l')%nat.
Proof. unfold tries. by rewrite List.filter_app, length_app. Qed.

Lemma tries_none k l :
  (forall f, f ∈ l -> direct f = true -> f_Candidate f = k -> False) -> tries k l = 0%nat.
Proof.
  unfold tries. induction l as [|f l IH]; intros Hno; [done|]. simpl.
  destruct (direct f && _) eqn:Hf; [|apply IH; intros g Hg; apply Hno; by right].
  apply andb_true_iff in Hf as [Hd Hk%String.eqb_eq]. exfalso. eapply Hno; eauto. by left.
Qed.

Lemma tries_some k l :
  tries k l = 0%nat \/ (exists f, f ∈ l /\ direct f = true /\ f_Candidate f = k).
Proof.
  unfold tries. induction l as [|f l [IH | (g & ? & ? & ?)]]; [by left | | right; exists g; split; [by right|done]].
  simpl. destruct (direct f && _) eqn:Hf; [right | by left].
  apply andb_true_iff in Hf as [Hd Hk%String.eqb_eq]. exists f. split; [by left | done].
Qed.

Lemma tries_one k f :
  tries k [f] = 0%nat \/ (tries k [f] = 1%nat /\ direct f = true /\ f_Candidate f = k).
Proof.
  unfold tries. simpl. destruct (direct f && _) eqn:Hf; [right | by left].
  by apply andb_true_iff in Hf as [Hd Hk%String.eqb_eq].
Qed.

Lemma capacity_only_snoc l f :
  capacity_only l ->
  (forall g, g ∈ l -> direct g = true -> direct f = true -> f_Target g = f_Target f ->
     f_Outcome g = ResultCapacityExhausted) ->
  capacity_only (l ++ [f]).
Proof.
  intros Hl Hf i j g h Hi Hj Hlt Hg Hh Heq. pose proof (lookup_lt_Some _ _ _ Hj) as Hjl.
  rewrite length_app in Hjl. simpl in Hjl. rewrite (lookup_app_l l [f] i) in Hi by lia.
  destruct (decide (j < length l)%nat).
  - rewrite lookup_app_l in Hj by done. by eapply (Hl i j).
  - rewrite list_lookup_middle in Hj by lia. injection Hj as ->.
    eapply Hf; [by eapply list_elem_of_lookup_2 | done..].
Qed.

Section Loop.
Context {W : Type} `{Ports W} (cf : ExecConfig) (inp : ExecInput).
#[local] Abbreviation Ex := (Ex W).
Implicit Types s : Exec * W.

(** The state between two attempts: [retry] is the candidate that is tried again. *)
Record sound (retry : option RouteCandidate) s : Prop := {
  so_Permit : x_Permit s.1 = None;
  so_Committed : x_Committed s.1 = false;
  so_Credential : (forall c, retry = Some c -> rc_PoolID c = "") -> x_Credential s.1 = None;
  so_Retry : forall c, retry = Some c -> c ∈ x_Candidates s.1 /\ Key c ∉ x_Used s.1;
  so_Exhausted : forall f, f ∈ facts s -> direct f = true ->
    f_Outcome f = ResultCapacityExhausted \/
    (forall d, d ∈ x_Candidates s.1 -> physicalTargetKey d = f_Target f -> Key d ∈ x_Used s.1);
  so_Used : forall f, f ∈ facts s -> direct f = true ->
    f_Candidate f ∈ x_Used s.1 \/
    (exists c, retry = Some c /\ rc_PoolID c = "" /\ Key c = f_Candidate f /\
       f_Outcome f = ResultCapacityExhausted /\ tries (f_Candidate f) (facts s) = 1%nat);
  so_Capacity : capacity_only (facts s);
  so_Tries : forall k, (tries k (facts s) <= 2)%nat;
  so_Image : rq_CapabilityType (x_req s.1) = CapabilityImage -> Forall certain (facts s) }.

(** What is left once the loop ends. *)
Record settled s : Prop := {
  se_Permit : x_Permit s.1 = None;
  se_Capacity : capacity_only (facts s);
  se_Tries : forall k, (tries k (facts s) <= 2)%nat;
  se_Image : rq_CapabilityType (x_req s.1) = CapabilityImage -> Forall certain (removelast (facts s)) }.

Lemma Forall_removelast {A} (P : A -> Prop) l : Forall P l -> Forall P (removelast l).
Proof.
  intros Hl. destruct (decide (l = [])) as [-> | Hne]; [done|].
  destruct (exists_last Hne) as (l0 & a & ->). rewrite removelast_last. by apply Forall_app in Hl as [? _].
Qed.

Lemma sound_settled retry s : sound retry s -> settled s.
Proof. intros []. split; try done. intros Hi. by apply Forall_removelast, so_Image0. Qed.

(** A step that makes no attempt: it may use candidates up. *)
Record aside s s' : Prop := {
  as_Candidates : x_Candidates s'.1 = x_Candidates s.1;
  as_Used : x_Used s.1 ⊆ x_Used s'.1;
  as_Capability : rq_CapabilityType (x_req s'.1) = rq_CapabilityType (x_req s.1);
  as_Committed : x_Committed s'.1 = x_Committed s.1;
  as_Facts : facts s' = facts s }.

#[local] Instance aside_preorder : PreOrder aside.
Proof.
  split; [by intros s; split|]. intros s1 s2 s3 [? H1 ? ? ?] [? H2 ? ? ?].
  split; try congruence. by etrans.
Qed.

Lemma quiet_aside s s' : quiet s s' -> aside s s'.
Proof. intros []. split; try done. unfold facts. by rewrite q_Attempts. Qed.
Lemma calm_aside s s' : calm s s' -> aside s s'.
Proof. intros Hc. pose proof (calm_facts _ _ Hc). destruct Hc as [[] _]. split; try done. by rewrite st_Used. Qed.

Lemma settled_aside s s' : aside s s' -> x_Permit s'.1 = None -> settled s -> settled s'.
Proof. intros [? ? Hcap ? Hf] Hp []. split; [done | by rewrite Hf..|]. by rewrite Hcap, Hf. Qed.

(** The candidate in hand is used up, with or without its physical target: the
    state is sound for another one. *)
Lemma sound_next c s s' :
  sound (Some c) s -> aside s s' -> x_Permit s'.1 = None -> x_Credential s'.1 = None ->
  (rc_PoolID c = "" -> Key c ∈ x_Used s'.1) -> sound None s'.
Proof.
  intros [] [Hcs Hu Hcap Hcm Hf] Hp Hcr Hk.
  split; rewrite ?Hf, ?Hcs, ?Hcap, ?Hcm; try done.
  - intros f Hin Hd. destruct (so_Exhausted0 f Hin Hd) as [? | Hall]; [by left | right; auto].
  - intros f Hin Hd. left. destruct (so_Used0 f Hin Hd) as [? | (? & [= <-] & Hd' & <- & _)]; auto.
Qed.

(** The candidate in hand stays in hand. *)
Lemma sound_aside c s s' :
  sound (Some c) s -> aside s s' -> x_Permit s'.1 = None -> Key c ∉ x_Used s'.1 ->
  (rc_PoolID c = "" -> x_Credential s'.1 = None) -> sound (Some c) s'.
Proof.
  intros [] [Hcs Hu Hcap Hcm Hf] Hp Hk Hcr.
  split; rewrite ?Hf, ?Hcs, ?Hcap, ?Hcm; try done.
  - intros Hd. by apply Hcr, Hd.
  - intros d [= <-]. split; [by apply so_Retry0 | done].
  - intros f Hin Hd. destruct (so_Exhausted0 f Hin Hd) as [? | Hall]; [by left | right; auto].
  - intros f Hin Hd. destruct (so_Used0 f Hin Hd); [left; auto | by right].
Qed.

(** *** After an attempt *)

Lemma tries_in_hand c s : sound (Some c) s -> (tries (Key c) (facts s) <= 1)%nat.
Proof.
  intros []. destruct (so_Retry0 c eq_refl) as [_ Hk].
  destruct (tries_some (Key c) (facts s)) as [-> | (g & Hg & Hd & Hkg)]; [lia|].
  destruct (so_Used0 g Hg Hd) as [Hu | (d & _ & _ & _ & _ & Ht)]; [by rewrite Hkg in Hu|].
  rewrite Hkg in Ht. lia.
Qed.

Lemma direct_pool f c : f_Pool f = rc_PoolID c -> direct f = true -> rc_PoolID c = "".
Proof. unfold direct. intros <-. by intros ?%String.eqb_eq. Qed.

Lemma attempted_facts c s r s' :
  sound (Some c) s -> attempted c s r s' ->
  capacity_only (facts s') /\ (forall k, (tries k (facts s') <= 2)%nat).
Proof.
  intros Hso Hat. destruct (ap_Facts _ _ _ _ Hat) as [[-> _] | (f & -> & Hk & Hp & Ht & _)].
  { by destruct Hso. }
  pose proof (tries_in_hand _ _ Hso) as Hone. destruct Hso. split.
  - apply capacity_only_snoc; [done|]. intros g Hg Hdg Hdf Heq.
    destruct (so_Exhausted0 g Hg Hdg) as [? | Hall]; [done | exfalso].
    destruct (so_Retry0 c eq_refl) as [Hc Hu]. apply Hu, Hall; [done|].
    rewrite Heq. symmetry. apply Ht. by eapply direct_pool.
  - intros k. rewrite tries_app. specialize (so_Tries0 k).
    destruct (tries_one k f) as [-> | (-> & _ & <-)]; [lia|]. rewrite Hk in *. lia.
Qed.

Lemma attempted_settled c s r s' : sound (Some c) s -> attempted c s r s' -> settled s'.
Proof.
  intros Hso Hat. destruct (attempted_facts _ _ _ _ Hso Hat) as [Hcap Htr].
  split; [by apply Hat | done | done |]. rewrite (ap_Capability _ _ _ _ Hat). intros Hi.
  pose proof (so_Image _ _ Hso Hi) as Himg.
  destruct (ap_Facts _ _ _ _ Hat) as [[-> _] | (f & -> & _)]; [by apply Forall_removelast|].
  by rewrite removelast_last.
Qed.

Lemma attempted_image c s d e s' :
  sound (Some c) s -> attempted c s (Again d e) s' ->
  rq_CapabilityType (x_req s'.1) = CapabilityImage -> Forall certain (facts s').
Proof.
  intros Hso Hat. rewrite (ap_Capability _ _ _ _ Hat). intros Hi. pose proof (so_Image _ _ Hso Hi) as Himg.
  destruct (ap_Facts _ _ _ _ Hat) as [[-> _] | (f & -> & _ & _ & _ & _ & Hf)]; [done|].
  apply Forall_app. split; [done|]. apply Forall_singleton. intros Hto. by eapply Hf.
Qed.

(** The same candidate is tried again. *)
Lemma sound_same c s e s' :
  sound (Some c) s -> attempted c s (Again DecisionRetrySameCred e) s' -> sound (Some c) s'.
Proof.
  intros Hso Hat. destruct (attempted_facts _ _ _ _ Hso Hat) as [Hcap Htr].
  pose proof (attempted_image _ _ _ _ _ Hso Hat) as Himg. destruct Hat, Hso.
  destruct ap_Facts as [[_ [e' [=]]] | (f & Hf & Hk & Hp & Ht & Hsame & _)].
  destruct (Hsame _ eq_refl) as (Hu & Hout & Hfirst).
  assert (Hnone : tries (Key c) (facts s) = 0%nat).
  { destruct (tries_some (Key c) (facts s)) as [? | (g & Hg & Hdg & Hkg)]; [done | exfalso].
    destruct (so_Used0 g Hg Hdg) as [Hgu | (d & _ & _ & _ & Hgo & _)].
    - rewrite Hkg in Hgu. by apply (so_Retry0 c eq_refl).
    - by apply (Hfirst g Hg Hkg). }
  split; rewrite ?ap_Candidates, ?Hu; try done.
  - by eapply ap_Committed.
  - intros Hd. rewrite ap_Credential. by apply so_Credential0.
  - intros g. rewrite Hf. intros [Hg | Hg]%elem_of_app Hd; [by apply so_Exhausted0|].
    apply list_elem_of_singleton in Hg as ->. by left.
  - intros g Hg Hdg. rewrite Hf in Hg |- *. apply elem_of_app in Hg as [Hg | Hg].
    + destruct (so_Used0 g Hg Hdg) as [? | (d & [= <-] & _ & Hkd & Hgo & _)]; [by left | exfalso].
      by apply (Hfirst g Hg).
    + apply list_elem_of_singleton in Hg as ->. right. exists c.
      split_and!; [done | by eapply direct_pool | done | done |].
      rewrite tries_app, Hk, Hnone. destruct (tries_one (Key c) f) as [Hz | [-> _]]; [|done].
      unfold tries in Hz. simpl in Hz. by rewrite Hdg, Hk, String.eqb_refl in Hz.
Qed.

(** Another candidate is tried, a direct one's physical target being used up. *)
Lemma sound_other c s d e s' s2 :
  sound (Some c) s -> attempted c s (Again d e) s' -> aside s' s2 ->
  x_Permit s2.1 = None -> x_Credential s2.1 = None ->
  (rc_PoolID c = "" -> forall d, d ∈ x_Candidates s2.1 -> physicalTargetKey d = physicalTargetKey c ->
     Key d ∈ x_Used s2.1) ->
  sound None s2.
Proof.
  intros Hso Hat [Hcs2 Hu2 Hcap2 Hcm2 Hf2] Hp2 Hcr2 Hall.
  destruct (attempted_facts _ _ _ _ Hso Hat) as [Hcap Htr].
  pose proof (attempted_image _ _ _ _ _ Hso Hat) as Himg. destruct Hat, Hso.
  destruct (so_Retry0 c eq_refl) as [Hc _].
  assert (Hkc : rc_PoolID c = "" -> Key c ∈ x_Used s2.1).
  { intros Hd. apply Hall; [done | | done]. by rewrite Hcs2, ap_Candidates. }
  assert (Hold : forall f, f ∈ facts s -> direct f = true ->
    (f_Outcome f = ResultCapacityExhausted \/
     (forall d, d ∈ x_Candidates s2.1 -> physicalTargetKey d = f_Target f -> Key d ∈ x_Used s2.1)) /\
    f_Candidate f ∈ x_Used s2.1).
  { intros f Hf Hd. split.
    - destruct (so_Exhausted0 f Hf Hd) as [? | Hx]; [by left | right].
      rewrite Hcs2, ap_Candidates. intros d' Hd' Heq. by apply Hu2, ap_Used, Hx.
    - destruct (so_Used0 f Hf Hd) as [? | (d' & [= <-] & Hdc & <- & _)]; [by apply Hu2, ap_Used | by apply Hkc]. }
  assert (Hfacts : forall f, f ∈ facts s2 -> direct f = true -> f ∈ facts s \/
    (f_Candidate f = Key c /\ rc_PoolID c = "" /\ f_Target f = physicalTargetKey c)).
  { intros f. rewrite Hf2. destruct ap_Facts as [[-> _] | (g & -> & Hk & Hp & Ht & _)]; [by left|].
    intros [Hf | Hf]%elem_of_app Hd; [by left | right]. apply list_elem_of_singleton in Hf as ->.
    pose proof (direct_pool _ _ Hp Hd). auto. }
  split; try done; rewrite ?Hf2, ?Hcm2, ?Hcap2; try done.
  - by eapply ap_Committed.
  - rewrite <- Hf2. intros f Hf Hd. destruct (Hfacts f Hf Hd) as [Hf' | (_ & Hdc & Ht)].
    + by apply Hold.
    + right. intros d' Hd' Heq. apply Hall; congruence.
  - rewrite <- Hf2. intros f Hf Hd. left. destruct (Hfacts f Hf Hd) as [Hf' | (Hk & Hdc & _)].
    + by apply Hold.
    + rewrite Hk. by apply Hkc.
Qed.

(** ** One iteration *)

(** The candidates left, and the attempts made. *)
Definition left_over s : nat := remaining (x_Used s.1) (x_Candidates s.1).

(** The loop goes on with an attempt more or a candidate less. *)
Definition advances s s' : Prop :=
  x_Candidates s'.1 = x_Candidates s.1 /\
  ((length (facts s') = S (length (facts s)) /\ (left_over s' <= left_over s)%nat) \/
   (length (facts s') = length (facts s) /\ (left_over s' < left_over s)%nat)).

Definition flow_ok s (f : flow) s' : Prop :=
  match f with
  | Continue l => sound (lc_retry l) s' /\ advances s s'
  | Break _ => settled s' /\ length (facts s') = length (facts s)
  | Return e => settled s' /\ (length (facts s') <= S (length (facts s)))%nat /\
                (e = None -> (0 < length (facts s'))%nat)
  end.

Lemma aside_return s0 retry s s' e :
  sound retry s -> facts s = facts s0 -> aside s s' -> x_Permit s'.1 = None -> flow_ok s0 (Return (Some e)) s'.
Proof.
  intros Hso Hf Ha Hp. split_and!; [by eapply settled_aside, sound_settled | | done].
  rewrite (as_Facts _ _ Ha), Hf. lia.
Qed.

Lemma here_return retry s e : sound retry s -> flow_ok s (Return (Some e)) s.
Proof. intros Hso. eapply aside_return; [done | done | reflexivity | apply Hso]. Qed.

(** The candidate in hand is given up without an attempt. *)
Lemma aside_continue c s s' l :
  sound (Some c) s -> aside s s' -> x_Permit s'.1 = None -> x_Credential s'.1 = None ->
  Key c ∈ x_Used s'.1 -> lc_retry l = None -> flow_ok s (Continue l) s'.
Proof.
  intros Hso Ha Hp Hcr Hk Hl. simpl. rewrite Hl. split; [by eapply sound_next|].
  split; [apply Ha|]. right. split; [by rewrite (as_Facts _ _ Ha)|].
  destruct (so_Retry _ _ Hso c eq_refl) as [Hc Hu]. unfold left_over. rewrite (as_Candidates _ _ Ha).
  by apply (remaining_drop _ _ _ c (as_Used _ _ Ha)).
Qed.

Lemma aside_update f s :
  x_Candidates (f s.1) = x_Candidates s.1 -> x_Used s.1 ⊆ x_Used (f s.1) ->
  rq_CapabilityType (x_req (f s.1)) = rq_CapabilityType (x_req s.1) ->
  x_Committed (f s.1) = x_Committed s.1 -> x_Attempts (f s.1) = x_Attempts s.1 -> aside s (f s.1, s.2).
Proof. intros. split; try done. unfold facts. simpl. congruence. Qed.

(** [exhaust] and [drop_credential], after something that uses nothing up. *)
Lemma exhaust_continue c s s1 l :
  sound (Some c) s -> aside s s1 -> x_Permit s1.1 = None -> lc_retry l = None ->
  wp (exhaust (W := W) c;; drop_credential;; mret (Continue l)) (flow_ok s) s1.
Proof.
  intros Hso Ha Hp Hl. unfold exhaust, drop_credential. run. run. run.
  apply (aside_continue c); simpl; try done.
  - etrans; [exact Ha|]. split; simpl; try done. apply exhaust_mono.
  - apply exhaust_all; [|done]. rewrite (as_Candidates _ _ Ha). by apply (so_Retry _ _ Hso).
Qed.

Lemma acquireAvailability_spec c s :
  wp (acquireAvailability (W := W) cf c)
    (fun r s' => aside s s' /\ before s s' /\
       match r with Some _ => x_Permit s'.1 = None | None => admissible cf s' end) s.
Proof.
  unfold acquireAvailability. run. destruct (cf_Availability cf) eqn:Hcf; cbn [negb].
  2: { run. split_and!; [by split | by split | done]. }
  run. run. destruct a as [p | [|at_ reason]].
  - run. run. split_and!; [by split.. |]. congruence.
  - run. by split_and!; [split.. |].
  - unfold earlier. run. run. by destruct (_ || _); split_and!; [split.. |].
Qed.

(** After the attempt: what the loop does with its decision. *)
Lemma attempted_flow c l r s s1 :
  sound (Some c) s -> attempted c s r s1 ->
  wp (match r with
      | Finished e => mret (Return e)
      | Again decision e =>
          let next retry := MkLocals (lc_builtFor l) e retry in
          match decision with
          | DecisionRetrySameCred => mret (Continue (next (Some c)))
          | DecisionRetryNewCred => drop_credential;; mret (Continue (next None))
          | DecisionRetry => exhaust c;; drop_credential;; mret (Continue (next None))
          | _ => mret (Continue (next None))
          end
      end) (flow_ok s) s1.
Proof.
  intros Hso Hat.
  assert (Hlen : (exists e, r = Again DecisionRetry e) /\ facts s1 = facts s \/
                 length (facts s1) = S (length (facts s))).
  { destruct (ap_Facts _ _ _ _ Hat) as [[? ?] | (f & -> & _)]; [by left | right].
    rewrite length_app. simpl. lia. }
  assert (Hmono : forall u, x_Used s1.1 ⊆ u -> (remaining u (x_Candidates s.1) <= left_over s)%nat).
  { intros u Hu. apply remaining_mono. etrans; [apply (ap_Used _ _ _ _ Hat) | done]. }
  pose proof (attempted_settled _ _ _ _ Hso Hat) as Hset. destruct r as [e | d e].
  { run. simpl. split_and!; [done | destruct Hlen as [[[? [=]] _] | ->]; lia |].
    intros _. destruct Hlen as [[[? [=]] _] | ->]; lia. }
  destruct (ap_Decision _ _ _ _ Hat _ _ eq_refl) as [-> | [-> | ->]]; cbn zeta.
  - unfold exhaust, drop_credential. run. run. run. cbn [fst snd].
    assert (Hx : forall d, d ∈ x_Candidates s1.1 -> physicalTargetKey d = physicalTargetKey c ->
              Key d ∈ exhaustPhysicalTarget (x_Candidates s1.1) c (x_Used s1.1)) by (intros; by apply exhaust_all).
    split.
    + eapply sound_other; [done | done | | simpl; apply Hat | done | by intros _].
      split; simpl; try done. apply exhaust_mono.
    + split; [simpl; apply Hat|]. unfold facts, left_over in *. simpl. rewrite (ap_Candidates _ _ _ _ Hat) in *.
      destruct Hlen as [[_ ->] | ->]; [right | left]; (split; [done|]).
      * destruct (so_Retry _ _ Hso c eq_refl) as [Hc Hu]. apply (remaining_drop _ _ _ c); [|done..|by apply Hx].
        etrans; [apply (ap_Used _ _ _ _ Hat) | apply exhaust_mono].
      * apply Hmono, exhaust_mono.
  - unfold drop_credential. run. run. cbn [fst snd]. split.
    + eapply sound_other; [done | done | by split | simpl; apply Hat | done |]. intros Hd. exfalso.
      apply (ap_NewCred _ _ _ _ Hat _ eq_refl), (so_Credential _ _ Hso). by intros ? [= <-].
    + split; [simpl; apply Hat|]. left. unfold facts, left_over in *. simpl. rewrite (ap_Candidates _ _ _ _ Hat).
      destruct Hlen as [[[? [=]] _] | ->]. split; [done | by apply Hmono].
  - run. split; [by eapply sound_same|]. split; [apply Hat|]. left. unfold left_over.
    rewrite (ap_Candidates _ _ _ _ Hat). destruct Hlen as [[[? [=]] _] | ->]. split; [done | by apply Hmono].
Qed.

Lemma still_slot c : does still (acquireUpstreamSlot (W := W) cf c).
Proof.
  unfold acquireUpstreamSlot. destruct (rc_UpstreamConcurrencyLimit c); [|by intros s; run; split].
  destruct (_ || _); [by intros s; run; split|]. destruct (negb _); [by intros s; run; split|].
  apply does_port. intros. by split.
Qed.

Lemma before_still s s1 s2 : before s s1 -> still s1 s2 -> before s s2.
Proof. intros [] [[] ?]. split; try congruence. unfold facts in *. congruence. Qed.

Lemma admitAndRun_spec l c score s :
  sound (Some c) s -> lc_retry l = None ->
  wp (admitAndRun (W := W) cf inp l c score) (flow_ok s) s.
Proof.
  intros Hso Hl. unfold admitAndRun. apply wp_bind. eapply wp_mono; [apply acquireAvailability_spec|].
  intros [[|at_ reason]|] s1 (Ha & Hb & Hp).
  - run. by eapply aside_return.
  - apply wp_bind. eapply wp_mono; [apply quiet_recordSkipped|]. intros ? s2 H2.
    assert (Ha2 : aside s s2) by (etrans; [done | by apply quiet_aside]).
    unfold markUsed, drop_credential. run. run. run.
    apply (aside_continue c); simpl; try done.
    + etrans; [exact Ha2|]. split; simpl; try done. set_solver.
    + by rewrite (q_Permit _ _ H2).
    + set_solver.
  - apply wp_bind. eapply wp_mono; [apply still_slot|]. intros slot s2 H2.
    assert (Ha2 : aside s s2) by (etrans; [done | apply quiet_aside, H2]).
    assert (Hb2 : before s s2) by by eapply before_still.
    assert (Hadm : admissible cf s2) by (intros Hcf; rewrite (q_Permit _ _ (proj1 H2)); by apply Hp).
    destruct slot.
    + apply wp_bind. eapply wp_mono.
      { apply runAttempt_spec; [done|]. rewrite (be_Committed _ _ Hb2). apply Hso. }
      intros r s3 Hat. apply (attempted_flow c l r); [done | by eapply attempted_before].
    + apply wp_bind. eapply wp_mono; [by apply release_spec|]. intros _ s3 [H3 Hp3]. apply wp_bind.
      eapply wp_mono; [apply quiet_recordSkipped|]. intros ? s4 H4. apply (exhaust_continue c); [done | | | done].
      * etrans; [exact Ha2|]. etrans; [by apply calm_aside | by apply quiet_aside].
      * by rewrite (q_Permit _ _ H4).
    + apply wp_bind. eapply wp_mono; [by apply release_spec|]. intros _ s3 [H3 Hp3]. run.
      eapply aside_return; [done | done | | done]. etrans; [done | by apply calm_aside].
Qed.

(** ** A candidate in hand *)

Lemma sound_still c s s' : sound (Some c) s -> still s s' -> sound (Some c) s'.
Proof.
  intros Hso [Hq Hu]. apply (sound_aside c s); [done | by apply quiet_aside | | |].
  - rewrite (q_Permit _ _ Hq). apply Hso.
  - rewrite Hu. by apply (so_Retry _ _ Hso).
  - intros Hd. rewrite (q_Credential _ _ Hq). apply (so_Credential _ _ Hso). by intros ? [= <-].
Qed.

Lemma flow_still s s1 f s' : still s s1 -> flow_ok s1 f s' -> flow_ok s f s'.
Proof.
  intros [[] Hu]. unfold flow_ok, advances, left_over, facts. by rewrite q_Attempts, q_Candidates, Hu.
Qed.

(** A step that changes nothing of the attempts nor the candidates. *)
Definition same s s' : Prop :=
  facts s' = facts s /\ x_Candidates s'.1 = x_Candidates s.1 /\ x_Used s'.1 = x_Used s.1.

Lemma flow_same s s1 f s' : same s s1 -> flow_ok s1 f s' -> flow_ok s f s'.
Proof. intros (Hf & Hc & Hu). unfold flow_ok, advances, left_over. by rewrite Hf, Hc, Hu. Qed.

Lemma still_same s s' : still s s' -> same s s'.
Proof. intros [[] Hu]. unfold same, facts. by rewrite q_Attempts. Qed.

(** Only a pool has a credential. *)
Lemma sound_credential c cr s :
  sound (Some c) s -> IsPoolRoute c = true -> sound (Some c) (set_credential cr s.1, s.2).
Proof.
  intros Hso Hpool. apply (sound_aside c s); [done | by split | apply Hso | |].
  - by apply (so_Retry _ _ Hso).
  - intros Hd. unfold IsPoolRoute in Hpool. by rewrite Hd in Hpool.
Qed.

Lemma usePrepared_spec c s :
  sound (Some c) s -> wp (usePrepared (W := W) cf c) (fun _ s' => sound (Some c) s' /\ same s s') s.
Proof.
  intros Hso. unfold usePrepared. run. destruct (IsPoolRoute c) eqn:Hpool; cbn [andb]; [|by run].
  destruct (_ || _); [|by run]. run. split; [by apply sound_credential | done].
Qed.

Lemma selectCredential_spec c s :
  sound (Some c) s ->
  wp (selectCredential (W := W) cf inp c)
    (fun b s' => sound (Some c) s' /\ same s s' /\ (b = false -> x_Credential s'.1 = None)) s.
Proof.
  intros Hso. unfold selectCredential. run. destruct (_ && _) eqn:Hb; [|by run].
  cbn [id] in Hb. apply andb_true_iff in Hb as [[Hpool _]%andb_true_iff Hnone%bool_decide_eq_true].
  apply wp_bind, (wp_does still).
  { destruct (present _); [by apply does_port|]. cbn zeta. intros s2. apply wp_bind, (wp_does still).
    - destruct (present _); [by apply does_port|]. intros s3. by run.
    - intros [cr|] s3 H3; [by run|]. eapply wp_mono; [apply (does_port still); by split|].
      intros ? s4 H4. by etrans. }
  intros [cr|] s2 Hs2; [run; run | run]; pose proof (sound_still _ _ _ Hso Hs2) as Hso2;
    pose proof (still_same _ _ Hs2) as Hsame.
  - split_and!; [by apply sound_credential | exact Hsame | done].
  - split_and!; [done | exact Hsame |]. by rewrite (q_Credential _ _ (proj1 Hs2)).
Qed.

Lemma tryCandidate_spec l c score s :
  sound (Some c) s -> lc_retry l = None ->
  wp (tryCandidate (W := W) cf inp l c score) (flow_ok s) s.
Proof.
  intros Hso Hl. unfold tryCandidate.
  apply wp_bind, (wp_does still). { apply does_update. by intros x w; split; [split|]. }
  intros _ s0 H0. eapply wp_mono; [|intros f s'; apply (flow_same s s0), still_same, H0].
  apply wp_bind. eapply wp_mono; [apply usePrepared_spec; by eapply sound_still|]. intros _ s1 [Hso1 Hs1].
  eapply wp_mono; [|intros f s'; apply (flow_same s0 s1), Hs1]. run.
  apply wp_bind, (wp_does still); [by apply does_port|].
  intros refused s2 H2. assert (Hso2 : sound (Some c) s2) by by eapply sound_still.
  eapply wp_mono; [|intros f s'; apply (flow_same s1 s2), still_same, H2].
  destruct refused as [e|]. { run. by eapply here_return. }
  apply wp_bind. eapply wp_mono; [by apply selectCredential_spec|].
  intros selected s3 (Hso3 & Hs3 & Hnone).
  eapply wp_mono; [|intros f s'; apply (flow_same s2 s3), Hs3]. destruct selected; cbn [negb].
  2: { unfold exhaust. run. run. apply (aside_continue c); simpl; try done; [|apply Hso3 | by apply Hnone |].
       - split; simpl; try done. apply exhaust_mono.
       - apply exhaust_all; [|done]. by apply (so_Retry _ _ Hso3). }
  apply wp_bind. eapply (wp_mono _ (fun r s4 => still s3 s4 /\ forall l', r = Some l' -> lc_retry l' = None)).
  { unfold buildBody. pick_case; [run; split; [reflexivity | congruence]|].
    apply wp_bind, (wp_does still); [by apply does_port|]. intros ok s4 H4. run. split; [done|].
    intros l'. destruct ok; [by intros [= <-] | done]. }
  intros [l'|] s4 [H4 Hl'].
  2: { apply (exhaust_continue c); [done | apply quiet_aside, H4 | | done].
       rewrite (q_Permit _ _ (proj1 H4)). apply Hso3. }
  apply wp_bind, (wp_does still).
  { unfold buildUpstream. destruct (usesClientRuntime _); [by intros s9; run|].
    intros s9. run. eapply wp_mono; [apply (does_port still); by split|]. done. }
  intros ok s5 H5. assert (H35 : still s3 s5) by (by etrans).
  destruct ok; cbn [negb].
  - eapply wp_mono; [apply admitAndRun_spec; [by eapply sound_still | by apply Hl']|].
    intros f s'. by apply flow_still.
  - apply (exhaust_continue c); [done | apply quiet_aside, H35 | | done].
    rewrite (q_Permit _ _ (proj1 H35)). apply Hso3.
Qed.

(** ** The loop *)

Lemma quiet_on_request f : keeps_capability f -> does quiet (on_request (W := W) f).
Proof. intros Hf. apply does_on_request. intros x w. by split; simpl; auto. Qed.
#[local] Hint Resolve quiet_on_request keeps_client : effects.
#[local] Hint Extern 1 (keeps_capability (fun r => set_execution _ _ _ _ _ _ r)) => (intros ?; reflexivity) : effects.
#[local] Hint Extern 1 (keeps_capability (fun r => set_status _ _ _)) => (intros ?; reflexivity) : effects.

Lemma quiet_context : does quiet (requestContextError (W := W)).
Proof. unfold requestContextError, fail_request, gateway_cancelled, set_error. effects. Qed.

Lemma context_spec s :
  wp (requestContextError (W := W)) (fun r s' => still s s') s.
Proof.
  unfold requestContextError, fail_request, gateway_cancelled, set_error, on_request. run.
  destruct a; repeat run; split; try done; split; try done. simpl. by rewrite keeps_client.
Qed.

Lemma sound_none s s' : sound None s -> quiet s s' -> sound None s'.
Proof.
  intros [] Hq. pose proof (quiet_aside _ _ Hq) as [Hcs Hu Hcap Hcm Hf].
  split; rewrite ?Hf, ?Hcs, ?Hcap, ?Hcm; try done.
  - by rewrite (q_Permit _ _ Hq).
  - intros Hd. rewrite (q_Credential _ _ Hq). by apply so_Credential0.
  - intros f Hin Hd. destruct (so_Exhausted0 f Hin Hd) as [? | Hall]; [by left | right; auto].
  - intros f Hin Hd. destruct (so_Used0 f Hin Hd) as [? | (? & [=] & _)]; auto.
Qed.

Lemma sound_pick s s' c :
  sound None s -> quiet s s' -> c ∈ x_Candidates s'.1 -> Key c ∉ x_Used s'.1 -> sound (Some c) s'.
Proof.
  intros Hso Hq Hc Hk. pose proof (sound_none _ _ Hso Hq) as []. split; try done.
  - intros _. by apply so_Credential0.
  - by intros d [= <-].
  - intros f Hin Hd. destruct (so_Used0 f Hin Hd) as [? | (? & [=] & _)]; auto.
Qed.

Lemma iteration_spec fuel l s :
  sound (lc_retry l) s -> (left_over s < fuel)%nat ->
  wp (iteration (W := W) cf inp fuel l) (flow_ok s) s.
Proof.
  intros Hso Hfuel. unfold iteration. apply wp_bind. eapply wp_mono; [apply context_spec|].
  intros ended s1 H1.
  eapply wp_mono; [|intros f s'; apply (flow_still s s1 _ _ H1)].
  assert (Hso1 : sound (lc_retry l) s1).
  { destruct (lc_retry l) as [c|]; [by eapply sound_still | eapply sound_none; [done | apply H1]]. }
  assert (Hfuel1 : (left_over s1 < fuel)%nat).
  { unfold left_over in *. destruct H1 as [Hq Hu]. by rewrite Hu, (q_Candidates _ _ Hq). }
  clear Hso Hfuel H1 s. destruct ended as [e|].
  { run. by eapply here_return. }
  apply wp_bind. destruct (lc_retry l) as [c|].
  - run. run. destruct (x_SelectionError s1.1); [run; by eapply here_return|].
    by apply tryCandidate_spec.
  - eapply wp_mono; [by apply pickCandidate_spec|]. intros [r score] s2 (Hq & Hr & _). cbn [fst] in Hr.
    pose proof (sound_none _ _ Hso1 Hq) as Hso2. run.
    destruct (x_SelectionError s2.1); [run; eapply aside_return; [exact Hso1 | done | by apply quiet_aside | apply Hso2]|].
    destruct r as [c|].
    2: { run. split; [by eapply sound_settled|]. by rewrite (as_Facts _ _ (quiet_aside _ _ Hq)). }
    destruct (Hr c eq_refl) as (Hc & Hk & _).
    eapply wp_mono; [apply tryCandidate_spec; [by eapply sound_pick | done]|].
    assert (Hf : facts s2 = facts s1) by apply (as_Facts _ _ (quiet_aside _ _ Hq)).
    assert (Hm : (left_over s2 <= left_over s1)%nat).
    { unfold left_over. rewrite (q_Candidates _ _ Hq). apply remaining_mono, (q_Used _ _ Hq). }
    intros [e|l'|l'] s3; unfold flow_ok, advances; rewrite ?Hf; [done | done |]. intros [? [Hc3 Hadv]].
    split; [done|]. split; [by rewrite Hc3, (q_Candidates _ _ Hq)|]. intuition lia.
Qed.

(** The loop ends: each round makes an attempt of the budget or uses a candidate up. *)
Lemma attempts_loop_spec budget fuel : forall l s,
  sound (lc_retry l) s ->
  (Z.to_nat budget - length (facts s) + left_over s < fuel)%nat ->
  wp (attempts_loop (W := W) cf inp budget fuel l)
    (fun f s' => settled s' /\
       Z.of_nat (length (facts s')) <= Z.max budget (Z.of_nat (length (facts s))) /\
       (f = Return None -> (0 < length (facts s'))%nat)) s.
Proof.
  induction fuel as [|fuel IH]; intros l s Hso Hfuel; [lia|]. cbn [attempts_loop]. run.
  assert (Hlen : length (x_Attempts s.1) = length (facts s)) by (unfold facts; by rewrite length_fmap).
  rewrite Hlen. destruct (_ <? _) eqn:Hn; bool_prop.
  2: { run. split_and!; [by eapply sound_settled | lia | done]. }
  apply wp_bind. eapply wp_mono; [apply iteration_spec; [done | lia]|].
  intros [e|l'|l'] s1; simpl.
  - intros (? & ? & He). run. split_and!; [done | lia |]. intros [= ->]. by apply He.
  - intros [? Hf]. run. split_and!; [done | lia | done].
  - intros [Hso1 [_ Hadv]]. eapply wp_mono; [apply IH; [done | lia]|].
    intros f s2 (? & ? & ?). split_and!; [done | lia | done].
Qed.
End Loop.
