(* ===== verification/ExecuteProps.v ===== *)
(** * Executing a request: properties

    Selection picks the best candidate left, and [Execute] ends within its budget,
    completes every admission and replays only what is known not to have run.  At the
    end, a world whose upstreams answer from a script, runs of [Execute] in it, and the
    instances of the properties at them. *)

From Stdlib Require Import QArith.
From S2P Require Import Prelude GoStrings Effect Availability Classify Decimal UsageEvidence Request.
From S2P Require Import Candidates ExecState RouteSelection RouteSelectionFacts Execute ExecuteFacts.
From S2P Require Import ExecuteLoop.
#[global] Open Scope Z_scope.

Lemma filter_fmap_rows {A B} (g : A -> B) (p : B -> bool) l :
  List.filter p (g <$> l) = g <$> List.filter (fun a => p (g a)) l.
Proof. induction l as [|a l IH]; [done|]. rewrite fmap_cons. cbn [List.filter]. rewrite IH.
  by destruct (p (g a)).
Qed.

Section Execution.
Context {W : Type} `{Ports W} (cf : ExecConfig) (inp : ExecInput).
#[local] Abbreviation Ex := (Ex W).
Implicit Types s : Exec * W.

(** ** The start of a request *)

(** A request that has not been executed. *)
Definition fresh (x : Exec) : Prop :=
  x_Attempts x = [] /\ x_Permit x = None /\ x_Credential x = None /\ x_Committed x = false.

(** What reading the pools leaves alone. *)
Definition opening s s' : Prop :=
  x_Attempts s'.1 = x_Attempts s.1 /\ x_Permit s'.1 = x_Permit s.1 /\
  x_Credential s'.1 = x_Credential s.1 /\ x_Committed s'.1 = x_Committed s.1.

#[local] Instance opening_preorder : PreOrder opening.
Proof. split; [done|]. unfold opening. intros s1 s2 s3 (? & ? & ? & ?) (? & ? & ? & ?). by split_and!; etrans. Qed.

Lemma opening_port {A} (f : W -> A * W) : does opening (call_port f).
Proof. by apply does_port. Qed.
Lemma opening_look {A} (f : Exec -> A) : does opening (look f).
Proof. apply does_look, _. Qed.
Lemma opening_quiet {A} (m : Ex A) : does quiet m -> does opening m.
Proof. apply does_mono. by intros s s' []. Qed.
#[local] Hint Resolve opening_port opening_look : effects.

Lemma opening_expandOne c byPool : does opening (expandOne (W := W) inp c byPool).
Proof.
  unfold expandOne. cbn zeta. effects.
  - apply opening_quiet, quiet_earlier.
  - apply opening_quiet, quiet_recordSkipped.
  - match goal with |- does _ (foldr _ _ ?l) => induction l as [|k ks IH] end; cbn [foldr]; effects.
    apply does_update. intros x w. unfold opening. simpl. by repeat case_match.
Qed.
#[local] Hint Resolve opening_expandOne : effects.

Lemma opening_expandAll cs : forall out byPool, does opening (expandAll (W := W) inp cs out byPool).
Proof. induction cs as [|c cs IH]; intros; simpl; effects. Qed.
#[local] Hint Resolve opening_expandAll : effects.

Lemma opening_expand : does opening (expandCredentialCandidates (W := W) cf inp).
Proof. unfold expandCredentialCandidates. effects. by apply does_update. Qed.

Lemma fresh_sound s : fresh s.1 -> sound None s.
Proof.
  intros (Ha & Hp & Hcr & Hc). assert (Hf : facts s = []) by (unfold facts; by rewrite Ha).
  split; rewrite ?Hf; try done; try (by intros f ?%not_elem_of_nil).
  intros k. unfold tries. simpl. lia.
Qed.

Lemma still_on_request f : keeps_capability f -> does still (on_request (W := W) f).
Proof. intros Hf. apply does_on_request. intros x w. split; [split|]; simpl; auto. Qed.

Lemma giveUp_spec budget e s :
  wp (giveUp (W := W) budget e) (fun r s' => still s s' /\ is_Some r) s.
Proof.
  assert (Hst : forall f, keeps_capability f -> does still (on_request (W := W) f)) by apply still_on_request.
  unfold giveUp, set_error. apply wp_bind, (wp_does still); [by apply Hst|]. intros _ s1 H1. run. cbn zeta.
  destruct (_ =? 0).
  - destruct e as [[a|m]|].
    + apply wp_bind, (wp_does still); [by apply Hst|]. intros _ s2 H2. run. split; [by etrans | eauto].
    + run. run. split; [done | eauto].
    + apply wp_bind, (wp_does still); [by apply Hst|]. intros _ s2 H2. run. split; [by etrans | eauto].
  - destruct (_ && _); [|destruct (forallb _ _)];
      (apply wp_bind, (wp_does still); [by apply Hst|]; intros ? s2 H2; run; split; [by etrans | eauto]).
Qed.

(** The whole execution of a fresh request. *)
Lemma Execute_spec s :
  fresh s.1 ->
  exists n, forall fuel, (n <= fuel)%nat ->
    wp (Execute (W := W) cf inp fuel)
      (fun r s' => settled s' /\
         Z.of_nat (length (facts s')) <= Z.max 0 (Normalize (cf_MaxAttempts cf)) /\
         (r = None -> (0 < length (facts s'))%nat)) s.
Proof.
  intros Hfresh.
  set (s1 := (set_req (initializeSettlementState (x_req s.1)) s.1, s.2)).
  destruct (wp_run _ _ _ (opening_expand s1)) as (ok & s2 & Hrun & Hopen).
  assert (Hf2 : fresh s2.1).
  { destruct Hopen as (Ha & Hp & Hcr & Hc). unfold fresh. rewrite Ha, Hp, Hcr, Hc. exact Hfresh. }
  pose proof (fresh_sound _ Hf2) as Hso.
  assert (Hz : facts s2 = []) by (unfold facts; by rewrite (proj1 Hf2)).
  exists (S (Z.to_nat (Normalize (cf_MaxAttempts cf)) + left_over s2)). intros fuel Hfuel.
  unfold Execute, on_request. run. fold s1. run.
  assert (Hnone : forall e s0, fresh s0.1 -> settled s0 /\
    Z.of_nat (length (facts s0)) <= Z.max 0 (Normalize (cf_MaxAttempts cf)) /\
    (Some e = @None exec_error -> (0 < length (facts s0))%nat)).
  { intros e s0 Hf0. split_and!; [by eapply sound_settled, fresh_sound | | done].
    unfold facts. rewrite (proj1 Hf0). simpl. lia. }
  destruct (bool_decide (x_Candidates s1.1 = [])); [run; by apply Hnone|]. cbn zeta.
  apply wp_bind. unfold wp at 1. rewrite Hrun. destruct ok; cbn [negb]; [|run; by apply Hnone].
  apply wp_bind. eapply wp_mono.
  { apply attempts_loop_spec; [exact Hso | rewrite Hz; simpl; lia]. }
  intros f s3 (Hset & Hlen & Hret). rewrite Hz in Hlen. simpl in Hlen.
  assert (Hgive : forall e, wp (giveUp (W := W) (Normalize (cf_MaxAttempts cf)) e)
    (fun r s' => settled s' /\
         Z.of_nat (length (facts s')) <= Z.max 0 (Normalize (cf_MaxAttempts cf)) /\
         (r = None -> (0 < length (facts s'))%nat)) s3).
  { intros e. eapply wp_mono; [apply giveUp_spec|]. intros r s4 [[Hq Hu] [e' ->]].
    pose proof (quiet_aside _ _ Hq) as Ha. split_and!; [| rewrite (as_Facts _ _ Ha); lia | done].
    eapply settled_aside; [done | rewrite (q_Permit _ _ Hq); apply Hset | done]. }
  destruct f as [e|l|l]; [run | apply Hgive | apply Hgive].
  split_and!; [done | lia |]. intros ->. by apply Hret.
Qed.

(** ** Properties *)

(** C21: selection ends, with more fuel than candidates left, and changes no attempt.
    The candidate it picks is an unused one of the request, and no candidate that is
    still available (neither used nor of a used credential) is ahead of it by group
    rank, then manual priority, then conversion bucket.  Without a candidate the
    state could not be verified, or none is available, or a pool identity is used. *)
Theorem pickCandidate_correct fuel s :
  (remaining (x_Used s.1) (x_Candidates s.1) < fuel)%nat ->
  exists r score s', pickCandidate cf inp fuel s = Some ((r, score), s') /\
    x_Attempts s'.1 = x_Attempts s.1 /\ x_Candidates s'.1 = x_Candidates s.1 /\
    match r with
    | Some c =>
        c ∈ x_Candidates s.1 /\ Key c ∉ x_Used s.1 /\ Key c ∉ x_Used s'.1 /\
        (forall d, d ∈ x_Candidates s.1 -> gone s'.1 d \/ ahead c d)
    | None =>
        x_SelectionError s'.1 = true \/
        (well_ranked (x_Candidates s.1) -> forall d, d ∈ x_Candidates s.1 -> gone s'.1 d) \/
        (exists c, c ∈ x_Candidates s.1 /\ Key (poolTarget (W := W) c) ∈ x_Used s'.1)
    end.
Proof.
  intros Hfuel. destruct (wp_run _ _ _ (pickCandidate_spec cf inp fuel s Hfuel))
    as ([r score] & s' & Hrun & Hq & Hr & Hn).
  exists r, score, s'. cbn [fst] in *. pose proof (q_Candidates _ _ Hq) as Hc. unfold none_left in Hn.
  rewrite Hc in Hr, Hn.
  split_and!; [done | apply (q_Attempts _ _ Hq) | done |]. destruct r as [c|]; [|by apply Hn].
  destruct (Hr c eq_refl) as (Hin & Hk & Hb). split_and!; [done | | done | done].
  intros Hu. by apply Hk, (q_Used _ _ Hq).
Qed.

(** C20: [Execute] ends on every request, whatever the upstreams, the stores and the
    client do; it makes at most its budget of attempts and never more than eight, it
    leaves no admission unfinished, and it answers without an error only after an
    attempt. *)
Theorem Execute_ends s :
  fresh s.1 ->
  exists n, forall fuel, (n <= fuel)%nat ->
    exists r s', Execute cf inp fuel s = Some (r, s') /\
      Z.of_nat (length (x_Attempts s'.1)) <= Z.max 0 (Normalize (cf_MaxAttempts cf)) <= 8 /\
      x_Permit s'.1 = None /\
      (r = None -> x_Attempts s'.1 <> []).
Proof.
  intros Hf. destruct (Execute_spec s Hf) as [n Hn]. exists n. intros fuel Hle.
  destruct (wp_run _ _ _ (Hn fuel Hle)) as (r & s' & Hrun & Hset & Hlen & Hr).
  assert (Hl : length (facts s') = length (x_Attempts s'.1)) by (unfold facts; by rewrite length_fmap).
  rewrite Hl in *. exists r, s'. split_and!; [done | done | | apply Hset |].
  - unfold Normalize, maxUpstreamAttempts. destruct (8 <? _) eqn:H8; bool_prop; lia.
  - intros -> He. specialize (Hr eq_refl). rewrite He in Hr. simpl in Hr. lia.
Qed.

(** C19: what [Execute] replays.  A direct upstream is called again, for its endpoint,
    model and operation, only after it reported exhausted capacity; a direct candidate
    is tried at most twice; and no attempt follows one of an image request that timed
    out without a response, since the image may have been generated. *)
Theorem Execute_replays s :
  fresh s.1 ->
  exists n, forall fuel, (n <= fuel)%nat ->
    exists r s', Execute cf inp fuel s = Some (r, s') /\
      (forall i j a b, x_Attempts s'.1 !! i = Some a -> x_Attempts s'.1 !! j = Some b -> (i < j)%nat ->
         at_PoolID a = "" -> at_PoolID b = "" -> directTarget a = directTarget b ->
         at_Outcome a = ResultCapacityExhausted) /\
      (forall k, (length (List.filter (fun a => String.eqb (at_PoolID a) "" && String.eqb (at_CandidateID a) k)
                            (x_Attempts s'.1)) <= 2)%nat) /\
      (rq_CapabilityType (x_req s'.1) = CapabilityImage ->
         forall i a, x_Attempts s'.1 !! i = Some a -> (S i < length (x_Attempts s'.1))%nat ->
           at_Outcome a = ResultTimeout -> at_HTTPStatus a <> 0).
Proof.
  intros Hf. destruct (Execute_spec s Hf) as [n Hn]. exists n. intros fuel Hle.
  destruct (wp_run _ _ _ (Hn fuel Hle)) as (r & s' & Hrun & [Hp Hcap Htr Himg] & _).
  exists r, s'. unfold facts in *. split_and!; [done | | |].
  - intros i j a b Ha Hb Hlt Hpa Hpb Ht.
    apply (Hcap i j (fact_of a) (fact_of b)); unfold direct; simpl; [| | done | by rewrite Hpa | by rewrite Hpb | done].
    + by rewrite list_lookup_fmap, Ha.
    + by rewrite list_lookup_fmap, Hb.
  - intros k. specialize (Htr k). unfold tries in Htr. by rewrite filter_fmap_rows, length_fmap in Htr.
  - intros Hi k a Ha Hlt Ho Hs. specialize (Himg Hi). rewrite Forall_lookup in Himg.
    apply (Himg k (fact_of a)); [|done | done].
    rewrite removelast_firstn_len, lookup_take_lt by (rewrite length_fmap; lia).
    by rewrite list_lookup_fmap, Ha.
Qed.
End Execution.

(** ** Concrete runs *)

(** The script of the upstream calls. *)
Definition script : Type := list call_answer.

Definition relay_success (r : Request) : relay_answer :=
  MkRelay (set_status RequestSuccess "completed" r) true None false None None.

#[global] Instance scripted : Ports script := {
  pt_now w := (0, w);
  pt_context w := (CtxLive, w);
  pt_sha256 s := "#" +:+ s;
  pt_listCandidates _ w := (Some ([], 0), w);
  pt_readModels _ w := (∅, w);
  pt_readQuotas _ w := (Some ∅, w);
  pt_capacity _ _ w := (Some true, w);
  pt_selectEligible _ _ ids w := (match ids with id :: _ => Selected id | [] => NotFound end, w);
  pt_selectExcluding _ _ _ w := (None, w);
  pt_selectPinned _ id w := (Some (MkCredential id 1), w);
  pt_selectFromPool _ _ w := (None, w);
  pt_avRead _ w := (Some ∅, w);
  pt_avAcquire _ _ w := (Err ErrAvailabilityUnavailable, w);
  pt_avComplete _ _ w := (Some [], w);
  pt_avTurn _ _ _ w := (Some ""%string, w);
  pt_scores _ w := (fun _ => 0%Q, w);
  pt_rand w := (0%nat, w);
  pt_review _ _ w := (None, w);
  pt_prepareBody _ w := (true, w);
  pt_supportsRuntime _ _ := false;
  pt_buildRequest _ _ w := (true, w);
  pt_acquireSlot _ _ w := (SlotClaimed, w);
  pt_call _ _ w := match w with a :: w => (a, w) | [] => (LocalFailure, []) end;
  pt_observeQuota _ _ _ w := w;
  pt_wait _ w := w;
  pt_relay _ r w := (relay_success r, w);
  pt_sticky _ _ w := w;
  pt_observe _ _ _ _ w := w }.

Definition upstream (id endpoint : string) (rank : Z) : RouteCandidate :=
  MkCandidate id ("route-" +:+ id) "gpt" "chat" "openai_chat" "cost" (Finite 1) "g" "Group" "retail"
    (Finite 1) rank 100 0 "balanced" "" "acc" endpoint "gpt-up" None 1200000 "" "" "" "" "" 0 1 1.
Definition first_up : RouteCandidate := upstream "a" "ep1" 1.
Definition second_up : RouteCandidate := upstream "b" "ep2" 2.

Definition demo_start (capability : string) : Exec :=
  MkExec (MkRequest "r" capability "sync" "" None None 0 false no_usage no_evidence "" ∅ no_billing "" "" ∅
            "" "" "" "" "" "" 0 "" "" "")
    [second_up; first_up] ∅ ∅ ∅ None None neutral_outcome 0 false [] [] "" "" false.
Definition demo_config : ExecConfig := MkConfig false false false false false false 3.
Definition demo_exec_input : ExecInput := MkInput false "openai" "gpt" false None "".

Definition unreachable : call_answer :=
  Called (Some (MkCallError false false true false)) None None false CtxLive.
Definition timed_out : call_answer :=
  Called (Some (MkCallError false true false false)) None None false CtxLive.
Definition answered (status : Z) (code : string) : call_answer :=
  Called None (Some (MkReply status no_headers (MkEnvelope code "" "" "" [] 0 []) None "" "")) None false CtxLive.

Definition demo_run (capability : string) (w : script) : option (bool * list (string * Z * ResultStatus)) :=
  match Execute demo_config demo_exec_input 20 (demo_start capability, w) with
  | Some (r, (x, _)) =>
      Some (bool_decide (is_Some r),
            (fun a => (at_CandidateID a, at_HTTPStatus a, at_Outcome a)) <$> x_Attempts x)
  | None => None
  end.

(** The better group first, then the other one. *)
Example demo_failover :
  demo_run "chat" [unreachable; answered 200 ""]
  = Some (false, [("a"%string, 0, ResultNetwork); ("b"%string, 200, ResultSuccess)]).
Proof. vm_compute. reflexivity. Qed.

(** Exhausted capacity is retried once on the same upstream. *)
Example demo_capacity :
  demo_run "chat" [answered 503 "model_overloaded"; answered 503 "model_overloaded"; answered 200 ""]
  = Some (false, [("a"%string, 503, ResultCapacityExhausted); ("a"%string, 503, ResultCapacityExhausted);
                  ("b"%string, 200, ResultSuccess)]).
Proof. vm_compute. reflexivity. Qed.

(** An image request is not sent again after a timeout; a chat request is. *)
Example demo_image :
  demo_run "image" [timed_out; answered 200 ""] = Some (true, [("a"%string, 0, ResultTimeout)]) /\
  demo_run "chat" [timed_out; answered 200 ""]
  = Some (false, [("a"%string, 0, ResultTimeout); ("b"%string, 200, ResultSuccess)]).
Proof. split; vm_compute; reflexivity. Qed.

(** *** Instances of the properties *)

Lemma demo_fresh capability (w : script) : fresh (demo_start capability, w).1.
Proof. by split_and!. Qed.

Lemma pickCandidate_correct_witness :
  exists r score s', pickCandidate demo_config demo_exec_input 3 (demo_start "chat", [unreachable])
                     = Some ((r, score), s') /\ r = Some first_up.
Proof.
  destruct (pickCandidate_correct demo_config demo_exec_input 3 (demo_start "chat", [unreachable])
    ltac:(vm_compute; lia)) as (r & score & s' & Hrun & _).
  exists r, score, s'. split; [exact Hrun|].
  vm_compute in Hrun. injection Hrun as <- _ _. vm_compute. reflexivity.
Defined.

Lemma Execute_ends_witness :
  exists n, forall fuel, (n <= fuel)%nat ->
    exists r s', Execute demo_config demo_exec_input fuel (demo_start "chat", [unreachable; answered 200 ""])
                 = Some (r, s') /\ (length (x_Attempts s'.1) <= 3)%nat.
Proof.
  destruct (Execute_ends demo_config demo_exec_input (demo_start "chat", [unreachable; answered 200 ""])
    (demo_fresh _ _)) as [n Hn].
  exists n. intros fuel Hle. destruct (Hn fuel Hle) as (r & s' & Hrun & [Hlen _] & _).
  exists r, s'. split; [exact Hrun|]. unfold Normalize in Hlen. simpl in Hlen. lia.
Defined.

Lemma Execute_replays_witness :
  exists n, forall fuel, (n <= fuel)%nat ->
    exists r s', Execute demo_config demo_exec_input fuel (demo_start "image", [timed_out; answered 200 ""])
                 = Some (r, s') /\
      (forall i j a b, x_Attempts s'.1 !! i = Some a -> x_Attempts s'.1 !! j = Some b -> (i < j)%nat ->
         at_PoolID a = "" -> at_PoolID b = "" -> directTarget a = directTarget b ->
         at_Outcome a = ResultCapacityExhausted).
Proof.
  destruct (Execute_replays demo_config demo_exec_input (demo_start "image", [timed_out; answered 200 ""])
    (demo_fresh _ _)) as [n Hn].
  exists n. intros fuel Hle. destruct (Hn fuel Hle) as (r & s' & Hrun & Hcap & _).
  exists r, s'. split; [exact Hrun | exact Hcap].
Defined.
