(* ===== verification/PriceBookBilling.v ===== *)
(** * Pricing a request from a price book

    Models [src/internal/ai/adapters/postgres/pricebook_billing.go]: the two
    independent charges of a request, the tenant's from the winning upstream's
    price book and the user's from the group's, computed on the snapshot taken
    before execution and the usage reported after it.  The float64 fields that
    only display a breakdown, and its JSON rendering, are left out; every amount
    charged is computed on the exact total.  An [int] is 64-bit and wraps. *)

From Stdlib Require Import QArith Qround.
From S2P Require Import Prelude GoStrings Decimal PriceTiers UsageEvidence Request.
#[global] Open Scope Z_scope.

Definition MicroUSDPerUSD : Z := 1000000.

Inductive pricing_error :=
| ErrBillingSubjectRequired
| ErrBillingNotFound
| ErrBillingLoad (what : string)
| ErrInvalidEntry (what : string) (e : tier_error)
| ErrBillingCandidateRequired
| ErrBillingSnapshotMissing
| ErrSelectTier (what : string) (e : tier_error)
| ErrCacheExceedsPrompt.

Inductive price_error :=
| PriceTier (e : tier_error)
| PriceCacheExceedsPrompt (prompt cacheWrite cacheRead : Z).

(** [priceLineBreakdown]: its counters and the exact total. *)
Record priceLineBreakdown := MkBreakdown {
  pb_InputContextTokens : Z;
  pb_TierIndex : option Z;
  pb_TierUpper : option Z;
  pb_InputTokens : Z;
  pb_OutputTokens : Z;
  pb_CacheReadTokens : Z;
  pb_CacheWriteTokens : Z;
  pb_ReasoningTokens : Z;
  pb_ImageCount : Z;
  pb_ImageResolution : string;
  pb_ImageUnitPrice : float64;
  pb_VideoSeconds : float64;
  pb_VideoResolution : string;
  pb_VideoUnitPrice : float64;
  pb_totalExact : Q }.

Record billingCostLine := MkCostLine {
  cl_AppliedMultiplier : float64;
  cl_CostMicro : Z;
  cl_PriceLines : priceLineBreakdown }.

(** [lookupResolutionUSD] *)
Definition lookupResolutionUSD (prices : list ResolutionUSDPrice) (defaultPrice : float64)
    (resolution : string) : float64 :=
  if bool_decide (resolution = "") then defaultPrice
  else match find (fun p => bool_decide (rp_Resolution p = resolution)) prices with
       | Some p => rp_Price p
       | None => defaultPrice
       end.

(** [lookupImageUSD] *)
Definition lookupImageUSD (prices : list ResolutionUSDPrice) (defaultPrice : float64)
    (size : string) : float64 :=
  match ClassifyOpenAIImagePriceTier size with
  | None => defaultPrice
  | Some tier => lookupResolutionUSD prices defaultPrice tier
  end.

(** [decimalProduct] *)
Definition decimalProduct (values : list Q) : Q := fold_left Qmult values 1%Q.

(** [addDecimalTokenCost] *)
Definition addDecimalTokenCost (total : Q) (tokens : Z) (price : float64) : Q :=
  if (tokens <=? 0) || float_nonpos price then total
  else (total + decimalProduct [inject_Z tokens; DecimalRat price])%Q.

Definition image_breakdown (u : TokenUsage) (e : PriceBookEntry) : priceLineBreakdown :=
  let price := lookupImageUSD (en_ImagePrices e) (en_ImageDefaultPrice e) (ImageResolution u) in
  MkBreakdown 0 None None 0 0 0 0 0 (ImageCount u) (ImageResolution u) price (Finite 0) "" (Finite 0)
    (decimalProduct [DecimalRat price; inject_Z (ImageCount u)]).

Definition video_breakdown (u : TokenUsage) (e : PriceBookEntry) : priceLineBreakdown :=
  let price := lookupResolutionUSD (en_VideoPrices e) (en_VideoDefaultPrice e) (VideoResolution u) in
  MkBreakdown 0 None None 0 0 0 0 0 0 "" (Finite 0) (VideoSeconds u) (VideoResolution u) price
    (decimalProduct [DecimalRat price; DecimalRat (VideoSeconds u)]).

(** [priceBreakdown] *)
Definition priceBreakdown (u : TokenUsage) (e : PriceBookEntry)
    : result price_error priceLineBreakdown :=
  if 0 <? ImageCount u then Ok (image_breakdown u e)
  else if float_pos (VideoSeconds u) then Ok (video_breakdown u e)
  else
    match SelectTokenPriceTier (en_TokenPriceTiers e) (PromptTokens u) with
    | Err err => Err (PriceTier err)
    | Ok (tier, tierIndex) =>
        let nonCachedIn := wrap64 (wrap64 (PromptTokens u - CacheWriteTokens u) - CacheReadTokens u) in
        if nonCachedIn <? 0
        then Err (PriceCacheExceedsPrompt (PromptTokens u) (CacheWriteTokens u) (CacheReadTokens u))
        else
          let total := 0%Q in
          let total := addDecimalTokenCost total nonCachedIn (InputPerToken tier) in
          let total := addDecimalTokenCost total (CompletionTokens u) (OutputPerToken tier) in
          let total := addDecimalTokenCost total (CacheReadTokens u) (CacheReadPerToken tier) in
          let total := addDecimalTokenCost total (CacheWriteTokens u) (CacheWritePerToken tier) in
          Ok (MkBreakdown (PromptTokens u) (Some tierIndex) (UpToInputTokens tier) nonCachedIn
                (CompletionTokens u) (CacheReadTokens u) (CacheWriteTokens u) (ReasoningTokens u)
                0 "" (Finite 0) (Finite 0) "" (Finite 0) total)
    end.

(** [priceBreakdownForCapability] *)
Definition priceBreakdownForCapability (u : TokenUsage) (e : PriceBookEntry) (capability : string)
    : result price_error priceLineBreakdown :=
  if bool_decide (capability = CapabilityImage) then Ok (image_breakdown u e)
  else if bool_decide (capability = CapabilityVideo) then Ok (video_breakdown u e)
  else priceBreakdown u e.

(** [costLineFromBreakdown] *)
Definition costLineFromBreakdown (b : priceLineBreakdown) (appliedMultiplier : float64)
    : billingCostLine :=
  let appliedMultiplier := if float_neg appliedMultiplier then Finite 1 else appliedMultiplier in
  let microExact := (pb_totalExact b * DecimalRat appliedMultiplier * inject_Z MicroUSDPerUSD)%Q in
  MkCostLine appliedMultiplier (RoundHalfUpRatToInt64 microExact) b.

(** [pricedMicro] *)
Definition pricedMicro (u : TokenUsage) (e : PriceBookEntry) (multiplier : float64) : Z :=
  match priceBreakdown u e with
  | Err _ => 0
  | Ok b => cl_CostMicro (costLineFromBreakdown b multiplier)
  end.

(** [int64(v)] of a video duration, truncated towards zero (durations below 2^53,
    where the decimal and the float have the same integer part). *)
Definition int64_of_float (v : float64) : Z :=
  match v with Finite d => Z.quot (Qnum d) (Z.pos (Qden d)) | _ => int64_min end.

(** [billableUnits] *)
Definition billableUnits (u : TokenUsage) : Z * string :=
  if 0 <? ImageCount u then (ImageCount u, "image"%string)
  else if float_pos (VideoSeconds u) then (int64_of_float (VideoSeconds u), "second"%string)
  else (TotalTokens u, "token"%string).

(** [billableUnitsForCapability] *)
Definition billableUnitsForCapability (u : TokenUsage) (capability : string) : Z * string :=
  if bool_decide (capability = CapabilityImage) then (ImageCount u, "image"%string)
  else if bool_decide (capability = CapabilityVideo)
  then (int64_of_float (VideoSeconds u), "second"%string)
  else billableUnits u.

Definition with_tokens (prompt cacheWrite cacheRead : Z) (u : TokenUsage) : TokenUsage :=
  MkUsage prompt (CompletionTokens u) cacheWrite cacheRead (ReasoningTokens u) (ImageCount u)
    (ImageResolution u) (VideoSeconds u) (VideoResolution u).
Definition with_media (images : Z) (seconds : float64) (u : TokenUsage) : TokenUsage :=
  MkUsage (PromptTokens u) (CompletionTokens u) (CacheWriteTokens u) (CacheReadTokens u)
    (ReasoningTokens u) images (ImageResolution u) seconds (VideoResolution u).

(** The clamps of [settlementUsage]. *)
Definition normalize_usage (u : TokenUsage) : TokenUsage :=
  let prompt := if PromptTokens u <? 0 then 0 else PromptTokens u in
  let cacheRead := if CacheReadTokens u <? 0 then 0 else CacheReadTokens u in
  let cacheWrite := if CacheWriteTokens u <? 0 then 0 else CacheWriteTokens u in
  let cacheRead := if prompt <? cacheRead then prompt else cacheRead in
  let remaining := wrap64 (prompt - cacheRead) in
  let cacheWrite := if remaining <? cacheWrite then remaining else cacheWrite in
  with_tokens prompt cacheWrite cacheRead u.

(** [settlementUsage]: the usage, and the request it is recorded on. *)
Definition settlementUsage (r : Request) : TokenUsage * Request :=
  let r := ApplyReportedUsage r in
  let usage := normalize_usage (rq_TokenUsage r) in
  let usage :=
    if rq_MediaUsageConfirmed r then usage
    else if bool_decide (rq_CapabilityType r = CapabilityImage)
    then with_media 0 (VideoSeconds usage) usage
    else if bool_decide (rq_CapabilityType r = CapabilityVideo)
    then with_media (ImageCount usage) (Finite 0) usage
    else usage in
  (usage, set_usage usage r).

(** [runtimeSubjectOwnerType(subject) == OwnerUser] *)
Definition owner_is_user (s : option Subject) : bool :=
  match s with Some sj => bool_decide (sj_Scope sj = ScopeUser) | None => false end.

Definition select_error (what : string) (e : price_error) : pricing_error :=
  match e with
  | PriceTier t => ErrSelectTier what t
  | PriceCacheExceedsPrompt _ _ _ => ErrCacheExceedsPrompt
  end.

(** [Calculate]: the result, and the request with the usage it settled on. *)
Definition Calculate (r : Request) : result pricing_error (BillingResult * Request) :=
  match rq_Candidate r with
  | None => Err ErrBillingCandidateRequired
  | Some cand =>
      match rq_BillingSnapshots r !! Key cand with
      | None => Err ErrBillingSnapshotMissing
      | Some snapshot =>
          let '(usage, r) := settlementUsage r in
          let '(units, unitType) := billableUnitsForCapability usage (rq_CapabilityType r) in
          match priceBreakdownForCapability usage (sn_AccountEntry snapshot) (rq_CapabilityType r) with
          | Err e => Err (select_error "account" e)
          | Ok accountBreakdown =>
              match priceBreakdownForCapability usage (sn_RetailEntry snapshot) (rq_CapabilityType r) with
              | Err e => Err (select_error "retail" e)
              | Ok retailBreakdown =>
                  let accountBaseLine := costLineFromBreakdown accountBreakdown (Finite 1) in
                  let tenantChargeLine := costLineFromBreakdown accountBreakdown (rc_TenantMultiplier cand) in
                  let tenant := cl_CostMicro tenantChargeLine in
                  let userLine := costLineFromBreakdown retailBreakdown (sn_EffectiveUserMultiplier snapshot) in
                  let is_user := owner_is_user (rq_Subject r) in
                  Ok (MkBilling (cl_CostMicro accountBaseLine) tenant
                        (cl_CostMicro (costLineFromBreakdown retailBreakdown (Finite 1)))
                        (if is_user then cl_CostMicro userLine else 0)
                        (if is_user then
                           if bool_decide (rq_BillingSource r = BillingSourceSubscription) then 0
                           else cl_CostMicro userLine
                         else 0)
                        (if is_user then cl_CostMicro userLine else tenant)
                        (sn_ServiceTier snapshot) units unitType (sn_GroupName snapshot)
                        (sn_GroupDefaultUserMultiplier snapshot) (sn_UserMultiplierOverride snapshot)
                        (sn_EffectiveUserMultiplier snapshot), r)
              end
          end
      end
  end.

(** ** Before execution *)

(** [GetEntry]: the row of the unique key (book, model, capability). *)
Definition GetEntry (entries : list PriceBookEntry) (book model capability : string)
    : option PriceBookEntry :=
  find (fun e => bool_decide (en_PriceBookID e = book) && bool_decide (en_ModelCode e = model)
                 && bool_decide (en_CapabilityType e = capability)) entries.

(** A row of [ai_user_groups]: the key and the override, a nullable NUMERIC. *)
Record user_group_price := UserGroupPrice {
  ugp_tenant : string; ugp_user : string; ugp_group : string; ugp_override : option float64 }.

(** [GetUserGroup] *)
Definition GetUserGroup (rows : list user_group_price) (tenant user group : string)
    : option user_group_price :=
  find (fun g => bool_decide (ugp_tenant g = tenant) && bool_decide (ugp_user g = user)
                 && bool_decide (ugp_group g = group)) rows.

(** [validateRuntimeTokenPricing] *)
Definition validateRuntimeTokenPricing (entry : PriceBookEntry) (routedCapability : string)
    : result tier_error unit :=
  if IsTokenPricedCapability routedCapability
  then ValidateTokenPriceTiers (en_TokenPriceTiers entry) else Ok tt.

(** [billingServiceTier] *)
Definition billingServiceTier (r : Request) : string := if_empty (rq_ServiceTier r) ServiceTierStandard.

(** The fields [estimateRouteCost] decodes from the client's body, and its length. *)
Record estimate_input := MkEstimate {
  ei_length : Z; ei_MaxTokens : Z; ei_MaxOutputTokens : Z; ei_MaxCompletionTokens : Z;
  ei_N : Z; ei_Size : string }.

(** [estimateRouteCost] *)
Definition estimateRouteCost (input : estimate_input) (cand : RouteCandidate) (s : BillingSnapshot) : Z :=
  let output := 1024 in
  let output := if 0 <? ei_MaxTokens input then ei_MaxTokens input else output in
  let output := if 0 <? ei_MaxOutputTokens input then ei_MaxOutputTokens input else output in
  let output := if 0 <? ei_MaxCompletionTokens input then ei_MaxCompletionTokens input else output in
  let output := if bool_decide (rc_CapabilityType cand ∈ [CapabilityEmbedding; CapabilityRerank])
                then 0 else output in
  let images := if ei_N input <? 1 then 1 else ei_N input in
  let usage := MkUsage (Z.quot (ei_length input + 2) 3) output 0 0 0 images (ei_Size input)
                 (Finite 0) "" in
  match priceBreakdownForCapability usage (sn_AccountEntry s) (rc_CapabilityType cand) with
  | Err _ => int64_max
  | Ok b => cl_CostMicro (costLineFromBreakdown b (rc_TenantMultiplier cand))
  end.

(** [PrepareBilling]: the snapshot and the candidate's estimated cost. *)
Definition PrepareBilling (entries : list PriceBookEntry) (user_groups : list user_group_price)
    (input : estimate_input) (r : Request) (cand : option RouteCandidate)
    : result pricing_error (BillingSnapshot * Z) :=
  match rq_Subject r, cand with
  | Some subject, Some cand =>
      if bool_decide (sj_TenantID subject = "") then Err ErrBillingSubjectRequired
      else if bool_decide (rc_RetailPriceBookID cand = "") || bool_decide (rc_AccountPriceBookID cand = "")
              || bool_decide (rc_ModelCode cand = "")
      then Err ErrBillingNotFound
      else match GetEntry entries (rc_RetailPriceBookID cand) (rc_ModelCode cand) (rc_CapabilityType cand),
                 GetEntry entries (rc_AccountPriceBookID cand) (rc_ModelCode cand) (rc_CapabilityType cand) with
      | Some retailEntry, Some accountEntry =>
          match validateRuntimeTokenPricing retailEntry (rc_CapabilityType cand) with
          | Err e => Err (ErrInvalidEntry "retail" e)
          | Ok _ =>
          match validateRuntimeTokenPricing accountEntry (rc_CapabilityType cand) with
          | Err e => Err (ErrInvalidEntry "account" e)
          | Ok _ =>
              let default := rc_GroupDefaultUserMultiplier cand in
              let override :=
                if owner_is_user (Some subject) && negb (bool_decide (rc_GroupID cand = ""))
                   && negb (bool_decide (sj_UserID subject = ""))
                then g ← GetUserGroup user_groups (sj_TenantID subject) (sj_UserID subject)
                           (rc_GroupID cand);
                     ugp_override g
                else None in
              let snapshot := MkSnapshot retailEntry accountEntry
                (if_empty (rc_GroupName cand) (rc_GroupID cand)) default override
                (match override with Some m => m | None => default end) (billingServiceTier r) in
              Ok (snapshot, estimateRouteCost input cand snapshot)
          end end
      | _, _ => Err ErrBillingNotFound
      end
  | _, _ => Err ErrBillingSubjectRequired
  end.

(** ** Facts *)

Lemma addDecimalTokenCost_eq total tokens d : (0 <= d)%Q -> 0 <= tokens ->
  (addDecimalTokenCost total tokens (Finite d) == total + inject_Z tokens * d)%Q.
Proof.
  intros Hd Ht. unfold addDecimalTokenCost, decimalProduct. simpl. unfold DecimalRat. simpl.
  destruct (Z.leb_spec tokens 0); simpl.
  - replace tokens with 0 by lia. ring.
  - destruct (Qle_bool d 0) eqn:H0.
    + apply Qle_bool_iff in H0. assert (d == 0)%Q as -> by (by apply Qle_antisym). ring.
    + ring.
Qed.

(** What a token request costs in USD at one tier, before any multiplier. *)
Definition tokens_usd (t : TokenPriceTier) (u : TokenUsage) : Q :=
  (inject_Z (PromptTokens u - CacheWriteTokens u - CacheReadTokens u) * DecimalRat (InputPerToken t)
   + inject_Z (CompletionTokens u) * DecimalRat (OutputPerToken t)
   + inject_Z (CacheReadTokens u) * DecimalRat (CacheReadPerToken t)
   + inject_Z (CacheWriteTokens u) * DecimalRat (CacheWritePerToken t))%Q.

(** Counters as settlement normalises them. *)
Definition usage_ok (u : TokenUsage) : Prop :=
  0 <= CacheReadTokens u /\ 0 <= CacheWriteTokens u /\
  CacheReadTokens u + CacheWriteTokens u <= PromptTokens u <= int64_max /\ 0 <= CompletionTokens u.

Lemma price_ok_rat v : price_ok v -> exists d, v = Finite d /\ DecimalRat v = d /\ (0 <= d)%Q.
Proof. intros (d & -> & Hd). by exists d. Qed.

Lemma priceBreakdown_tokens u e i t : usage_ok u ->
  ImageCount u = 0 -> VideoSeconds u = Finite 0 -> tiers_from 0 (en_TokenPriceTiers e) ->
  tier_covers (en_TokenPriceTiers e) (PromptTokens u) i t ->
  exists b, priceBreakdown u e = Ok b /\ (pb_totalExact b == tokens_usd t u)%Q.
Proof.
  intros (Hr & Hw & Hp & Hc) Hi Hv Ht Hcov. unfold priceBreakdown. rewrite Hi, Hv. simpl.
  assert (Hsel : SelectTokenPriceTier (en_TokenPriceTiers e) (PromptTokens u) = Ok (t, Z.of_nat i)).
  { apply SelectTokenPriceTier_spec. split_and!; [done | lia | done]. }
  rewrite Hsel.
  rewrite (wrap64_id (PromptTokens u - CacheWriteTokens u)) by (unfold int64_min, int64_max in *; lia).
  rewrite wrap64_id by (unfold int64_min, int64_max in *; lia).
  destruct (Z.ltb_spec (PromptTokens u - CacheWriteTokens u - CacheReadTokens u) 0); [lia|].
  eexists. split; [reflexivity|]. cbn [pb_totalExact].
  destruct (tiers_from_elem _ 0 t Ht) as (H1 & H2 & H3 & H4).
  { destruct Hcov as [Hcov _]. by eapply list_elem_of_lookup_2. }
  unfold tokens_usd.
  destruct (price_ok_rat _ H1) as (d1 & -> & -> & ?), (price_ok_rat _ H2) as (d2 & -> & -> & ?),
    (price_ok_rat _ H3) as (d3 & -> & -> & ?), (price_ok_rat _ H4) as (d4 & -> & -> & ?).
  rewrite !addDecimalTokenCost_eq by (done || lia). ring.
Qed.

(** The factor a cost line applies: a negative multiplier counts as 1. *)
Definition multiplier_rat (m : float64) : Q := if float_neg m then 1%Q else DecimalRat m.

Lemma costLine_eq b m usd : (pb_totalExact b == usd)%Q ->
  cl_CostMicro (costLineFromBreakdown b m) =
  half_up (usd * multiplier_rat m * inject_Z MicroUSDPerUSD)%Q.
Proof.
  intros H. unfold costLineFromBreakdown, multiplier_rat. cbn [cl_CostMicro].
  rewrite round_half_up_spec, H. destruct (float_neg m); done.
Qed.

Lemma multiplier_nonneg m : (0 <= multiplier_rat m)%Q.
Proof.
  unfold multiplier_rat. destruct (float_neg m) eqn:H; [done | by apply DecimalRat_nonneg].
Qed.

Lemma normalize_usage_ok u : int64_min <= PromptTokens u <= int64_max -> 0 <= CompletionTokens u ->
  usage_ok (normalize_usage u).
Proof.
  intros Hp Hc. unfold usage_ok, normalize_usage, with_tokens.
  cbn [CacheReadTokens CacheWriteTokens PromptTokens CompletionTokens]. cbv zeta.
  destruct (Z.ltb_spec (PromptTokens u) 0), (Z.ltb_spec (CacheReadTokens u) 0),
    (Z.ltb_spec (CacheWriteTokens u) 0); repeat case_match; bool_prop;
    rewrite ?wrap64_id in * by (unfold int64_min, int64_max in *; lia); unfold int64_min, int64_max in *; lia.
Qed.
