(* ===== verification/PricingProps.v ===== *)
(** * Pricing: what a request is charged

    Theorems about the price tiers and the pricing of token requests, from the
    frames of the provider to the amounts settlement records. *)

From Stdlib Require Import QArith Qround Lqa.
From S2P Require Import Prelude GoStrings Decimal PriceTiers UsageEvidence Request PriceBookBilling.
#[global] Open Scope Z_scope.

(** The evidence of a stream of frames. *)
Definition observe_all (protocol capability : string) (frames : list (option json * string)) : UsageEvidence :=
  fold_left (fun e '(data, event) => ObserveUsage e data event protocol capability) frames no_evidence.

Lemma observe_all_ok protocol capability frames : evidence_ok (observe_all protocol capability frames).
Proof.
  unfold observe_all. assert (H : evidence_ok no_evidence) by apply map_Forall_empty.
  revert H. generalize no_evidence as e. induction frames as [|[data event] frames IH]; intros e H; [done|].
  simpl. apply IH. by apply ObserveUsage_ok.
Qed.

(** An amount of micro-USD is the exact product rounded once: within half a
    micro, halves up, never negative, saturating at the largest [int64]. *)
Definition charge_of (usd multiplier : Q) (amount : Z) : Prop :=
  let exact := (usd * multiplier * inject_Z MicroUSDPerUSD)%Q in
  0 <= amount <= int64_max /\
  ((exact < inject_Z int64_max + (1 # 2))%Q ->
   (inject_Z amount - (1 # 2) <= exact)%Q /\ (exact < inject_Z amount + (1 # 2))%Q) /\
  ((inject_Z int64_max + (1 # 2) <= exact)%Q -> amount = int64_max).

Lemma half_up_charge usd m : (0 <= usd)%Q -> (0 <= m)%Q ->
  charge_of usd m (half_up (usd * m * inject_Z MicroUSDPerUSD)%Q).
Proof.
  intros Hu Hm. unfold charge_of. cbv zeta. split; [apply half_up_range|].
  assert (0 <= usd * m * inject_Z MicroUSDPerUSD)%Q.
  { apply Qmult_le_0_compat; [by apply Qmult_le_0_compat | done]. }
  split; [intros H'; by apply half_up_error | apply half_up_saturates].
Qed.

Lemma tokens_usd_nonneg t u : tier_prices_ok t -> usage_ok u -> (0 <= tokens_usd t u)%Q.
Proof.
  intros H (Hr & Hw & Hp & Hc).
  unfold tokens_usd, tier_prices_ok in *.
  assert (Hz : forall z q, 0 <= z -> (0 <= q)%Q -> (0 <= inject_Z z * q)%Q).
  { intros z q Hz Hq. apply Qmult_le_0_compat; [by rewrite (Zle_Qle 0) in Hz | done]. }
  destruct H as (H1 & H2 & H3 & H4).
  destruct (price_ok_rat _ H1) as (d1 & _ & -> & ?), (price_ok_rat _ H2) as (d2 & _ & -> & ?),
    (price_ok_rat _ H3) as (d3 & _ & -> & ?), (price_ok_rat _ H4) as (d4 & _ & -> & ?).
  pose proof (Hz (PromptTokens u - CacheWriteTokens u - CacheReadTokens u) d1 ltac:(lia) ltac:(done)).
  pose proof (Hz (CompletionTokens u) d2 ltac:(lia) ltac:(done)).
  pose proof (Hz (CacheReadTokens u) d4 ltac:(lia) ltac:(done)).
  pose proof (Hz (CacheWriteTokens u) d3 ltac:(lia) ltac:(done)). lra.
Qed.

(** Tier selection.  Validation accepts exactly the tier lists that split the
    non-negative token counts into consecutive intervals, the last unbounded, with
    finite non-negative prices; on such a list and a non-negative prompt exactly
    one tier is selected, the one whose interval holds the prompt, and selection
    fails on every other input. *)
Theorem SelectTokenPriceTier_interval tiers p :
  (ValidateTokenPriceTiers tiers = Ok tt <-> tiers_from 0 tiers) /\
  (forall t i, SelectTokenPriceTier tiers p = Ok (t, Z.of_nat i) <->
               tiers_from 0 tiers /\ 0 <= p /\ tier_covers tiers p i t) /\
  (tiers_from 0 tiers -> 0 <= p ->
   exists t i, tier_covers tiers p i t /\
               forall t' i', tier_covers tiers p i' t' -> i' = i /\ t' = t) /\
  (~ (tiers_from 0 tiers /\ 0 <= p) -> exists e, SelectTokenPriceTier tiers p = Err e).
Proof.
  split; [apply ValidateTokenPriceTiers_spec|]. split; [apply SelectTokenPriceTier_spec|]. split.
  - intros Hv Hp. destruct (tier_covers_total tiers p Hv Hp) as (t & i & Hc). exists t, i.
    split; [done|]. intros t' i' Hc'. by apply (tier_covers_unique tiers p i' t' i t).
  - intros Hn. unfold SelectTokenPriceTier. rewrite <- ValidateTokenPriceTiers_spec in Hn.
    destruct (ValidateTokenPriceTiers tiers) as [[] | e]; [|by exists e].
    destruct (Z.ltb_spec p 0); [by eexists | tauto].
Qed.

Definition tier (upto : option Z) (i o w r : Q) : TokenPriceTier :=
  MkTier upto (Finite i) (Finite o) (Finite w) (Finite r).
Definition demo_tiers : list TokenPriceTier :=
  [tier (Some 200000) (1 # 1000000) (2 # 1000000) (1 # 1000000) (1 # 10000000);
   tier None (3 # 1000000) (4 # 1000000) (3 # 1000000) (3 # 10000000)].

Lemma demo_tiers_ok : tiers_from 0 demo_tiers.
Proof. apply ValidateTokenPriceTiers_spec. vm_compute. reflexivity. Qed.

Lemma SelectTokenPriceTier_interval_witness :
  tiers_from 0 demo_tiers /\ 0 <= 200001 /\
  SelectTokenPriceTier demo_tiers 200001 = Ok (tier None (3 # 1000000) (4 # 1000000) (3 # 1000000) (3 # 10000000), 1) /\
  (exists t i, tier_covers demo_tiers 200001 i t /\
     forall t' i', tier_covers demo_tiers 200001 i' t' -> i' = i /\ t' = t).
Proof.
  split; [exact demo_tiers_ok|]. split; [lia|]. split; [vm_compute; reflexivity|].
  apply (SelectTokenPriceTier_interval demo_tiers 200001); [exact demo_tiers_ok | lia].
Defined.

(** ** The charges of a token request *)

Lemma UsesReported_not_media c : UsesReportedTokenBilling c = true -> c <> CapabilityImage /\ c <> CapabilityVideo.
Proof. intros H. split; intros ->; vm_compute in H; discriminate H. Qed.

Lemma usage_of_tokens_ok e : evidence_ok e -> usage_ok (normalize_usage (usage_of (Tokens e))).
Proof.
  intros H. destruct (Tokens_ok e H) as (Hp & Hc & _).
  apply normalize_usage_ok; simpl; unfold int64_min, int64_max, maxCounter in *; lia.
Qed.

Lemma settlementUsage_tokens r : UsesReportedTokenBilling (rq_CapabilityType r) = true ->
  settlementUsage r = (normalize_usage (usage_of (Tokens (rq_UsageEvidence r))),
                       set_usage (normalize_usage (usage_of (Tokens (rq_UsageEvidence r)))) (ApplyReportedUsage r)).
Proof.
  intros H. pose proof (UsesReported_not_media _ H) as [Hi Hv]. unfold settlementUsage.
  destruct (ApplyReportedUsage_fields r) as (Hcap & _). rewrite Hcap, !bool_decide_false by done.
  assert (Hu : rq_TokenUsage (ApplyReportedUsage r) = usage_of (Tokens (rq_UsageEvidence r)))
    by (unfold ApplyReportedUsage; by rewrite H).
  rewrite Hu. by destruct (rq_MediaUsageConfirmed _).
Qed.

(** The pricing of a token request whose snapshot holds two valid entries. *)
Lemma Calculate_tokens r c s protocol frames :
  rq_Candidate r = Some c -> rq_BillingSnapshots r !! Key c = Some s ->
  UsesReportedTokenBilling (rq_CapabilityType r) = true ->
  rq_UsageEvidence r = observe_all protocol (rq_CapabilityType r) frames ->
  tiers_from 0 (en_TokenPriceTiers (sn_AccountEntry s)) ->
  tiers_from 0 (en_TokenPriceTiers (sn_RetailEntry s)) ->
  exists b r', Calculate r = Ok (b, r') /\
    let u := rq_TokenUsage r' in
    usage_ok u /\ PromptTokens u = tk_Prompt (Tokens (rq_UsageEvidence r)) /\
    CompletionTokens u = tk_Completion (Tokens (rq_UsageEvidence r)) /\
    exists i ta j tr,
      tier_covers (en_TokenPriceTiers (sn_AccountEntry s)) (PromptTokens u) i ta /\
      tier_covers (en_TokenPriceTiers (sn_RetailEntry s)) (PromptTokens u) j tr /\
      charge_of (tokens_usd ta u) 1 (CatalogBaseMicro b) /\
      charge_of (tokens_usd ta u) (multiplier_rat (rc_TenantMultiplier c)) (TenantPayableMicro b) /\
      charge_of (tokens_usd tr u) 1 (RetailBaseMicro b) /\
      (owner_is_user (rq_Subject r) = true ->
        charge_of (tokens_usd tr u) (multiplier_rat (sn_EffectiveUserMultiplier s)) (UserPayableMicro b) /\
        UserChargedMicro b = (if bool_decide (rq_BillingSource r = BillingSourceSubscription) then 0
                              else UserPayableMicro b) /\
        APIKeyQuotaCostMicro b = UserPayableMicro b) /\
      (owner_is_user (rq_Subject r) = false ->
        UserPayableMicro b = 0 /\ UserChargedMicro b = 0 /\ APIKeyQuotaCostMicro b = TenantPayableMicro b).
Proof.
  intros Hc Hs Hcap Hev Hta Htr.
  assert (Hok : evidence_ok (rq_UsageEvidence r)) by (rewrite Hev; apply observe_all_ok).
  unfold Calculate. rewrite Hc, Hs, (settlementUsage_tokens r Hcap).
  set (u := normalize_usage _). assert (Hu : usage_ok u) by (by apply usage_of_tokens_ok).
  destruct (ApplyReportedUsage_fields r) as (Ec & _ & Esj & _ & _ & Esrc & _).
  change (rq_CapabilityType (set_usage u (ApplyReportedUsage r))) with (rq_CapabilityType (ApplyReportedUsage r)).
  change (rq_Subject (set_usage u (ApplyReportedUsage r))) with (rq_Subject (ApplyReportedUsage r)).
  change (rq_BillingSource (set_usage u (ApplyReportedUsage r))) with (rq_BillingSource (ApplyReportedUsage r)).
  rewrite Ec, Esj, Esrc. destruct (billableUnitsForCapability u (rq_CapabilityType r)) as [units ut].
  destruct (Tokens_ok _ Hok) as (Hp & Hcm & _).
  assert (Hprompt : PromptTokens u = tk_Prompt (Tokens (rq_UsageEvidence r))).
  { unfold u, normalize_usage. simpl. destruct (Z.ltb_spec (tk_Prompt (Tokens (rq_UsageEvidence r))) 0); [lia | done]. }
  assert (Hcov : forall e, tiers_from 0 (en_TokenPriceTiers e) ->
    exists i t b, tier_covers (en_TokenPriceTiers e) (PromptTokens u) i t /\
      priceBreakdownForCapability u e (rq_CapabilityType r) = Ok b /\
      (pb_totalExact b == tokens_usd t u)%Q /\ (0 <= tokens_usd t u)%Q).
  { intros e He. destruct (UsesReported_not_media _ Hcap) as [Hi Hv].
    destruct (tier_covers_total (en_TokenPriceTiers e) (PromptTokens u) He) as (t & i & Hct); [rewrite Hprompt; lia|].
    destruct (priceBreakdown_tokens u e i t) as (b & Hb & Hx); try done.
    exists i, t, b. unfold priceBreakdownForCapability. rewrite !bool_decide_false by done.
    split_and!; try done. apply tokens_usd_nonneg; [|done]. apply (tiers_from_elem _ 0 t He).
    destruct Hct as [Hct _]. by eapply list_elem_of_lookup_2. }
  destruct (Hcov _ Hta) as (i & ta & ba & Hca & -> & Hxa & Hna).
  destruct (Hcov _ Htr) as (j & tr & br & Hcr & -> & Hxr & Hnr).
  eexists _, _. split; [reflexivity|]. cbv zeta.
  change (rq_TokenUsage (set_usage u (ApplyReportedUsage r))) with u.
  split; [done|]. split; [done|]. split; [done|]. exists i, ta, j, tr. split; [done|]. split; [done|].
  cbn [CatalogBaseMicro TenantPayableMicro RetailBaseMicro UserPayableMicro UserChargedMicro APIKeyQuotaCostMicro].
  rewrite !(costLine_eq ba _ _ Hxa), !(costLine_eq br _ _ Hxr).
  assert (Hone : multiplier_rat (Finite 1) = 1%Q) by done. rewrite Hone.
  pose proof (multiplier_nonneg (rc_TenantMultiplier c)). pose proof (multiplier_nonneg (sn_EffectiveUserMultiplier s)).
  split; [by apply half_up_charge|]. split; [by apply half_up_charge|]. split; [by apply half_up_charge|].
  split; intros Hou; rewrite Hou; [|done]. split; [by apply half_up_charge|]. by case_bool_decide.
Qed.

(** What [PrepareBilling] took from the tables. *)
Definition user_multiplier (groups : list user_group_price) (r : Request) (c : RouteCandidate) : float64 :=
  match rq_Subject r with
  | Some sj =>
      if owner_is_user (Some sj) && negb (bool_decide (rc_GroupID c = ""))
         && negb (bool_decide (sj_UserID sj = ""))
      then default (rc_GroupDefaultUserMultiplier c)
             (g ← GetUserGroup groups (sj_TenantID sj) (sj_UserID sj) (rc_GroupID c); ugp_override g)
      else rc_GroupDefaultUserMultiplier c
  | None => rc_GroupDefaultUserMultiplier c
  end.

Lemma PrepareBilling_ok entries groups input r c s est :
  PrepareBilling entries groups input r (Some c) = Ok (s, est) ->
  GetEntry entries (rc_RetailPriceBookID c) (rc_ModelCode c) (rc_CapabilityType c) = Some (sn_RetailEntry s) /\
  GetEntry entries (rc_AccountPriceBookID c) (rc_ModelCode c) (rc_CapabilityType c) = Some (sn_AccountEntry s) /\
  (IsTokenPricedCapability (rc_CapabilityType c) = true ->
   tiers_from 0 (en_TokenPriceTiers (sn_RetailEntry s)) /\
   tiers_from 0 (en_TokenPriceTiers (sn_AccountEntry s))) /\
  sn_EffectiveUserMultiplier s = user_multiplier groups r c /\
  est = estimateRouteCost input c s.
Proof.
  unfold PrepareBilling, user_multiplier. destruct (rq_Subject r) as [sj|]; [|done].
  case_bool_decide; [done|]. destruct (_ || _ || _); [done|].
  destruct (GetEntry _ (rc_RetailPriceBookID c) _ _) as [er|]; [|done].
  destruct (GetEntry _ (rc_AccountPriceBookID c) _ _) as [ea|]; [|done].
  destruct (validateRuntimeTokenPricing er _) as [[]|e] eqn:Hr; [|done].
  destruct (validateRuntimeTokenPricing ea _) as [[]|e] eqn:Ha; [|done].
  intros [= <- <-]. cbn [sn_RetailEntry sn_AccountEntry sn_EffectiveUserMultiplier].
  split; [done|]. split; [done|]. split; [|split; [|done]].
  - intros Ht. unfold validateRuntimeTokenPricing in *. rewrite Ht in Hr, Ha.
    by rewrite <- !ValidateTokenPriceTiers_spec.
  - by destruct (_ && _); [destruct (_ ≫= _)|].
Qed.

Lemma token_priced_reported c : IsTokenPricedCapability c = true -> UsesReportedTokenBilling c = true.
Proof.
  unfold IsTokenPricedCapability, UsesReportedTokenBilling. intros H. bool_prop.
  apply bool_decide_true. by apply list_elem_of_further.
Qed.

(** C5: charges of a token request.  If [PrepareBilling] took a snapshot for the
    route that served a chat, embedding or rerank request, then whatever frames
    the provider sent the request is priced: the settled counters are consistent
    (cached tokens are parts of the prompt), each side is priced at the one tier of
    its own book that holds the prompt, the tenant by the route's multiplier, the
    user by the group's or the user's override, never by their product, and each
    amount is the exact product rounded once, within half a micro-USD.  A
    subscription charges the user nothing, and a tenant key has no user side. *)
Theorem Calculate_token_charges entries groups input r c s est protocol frames :
  PrepareBilling entries groups input r (Some c) = Ok (s, est) ->
  IsTokenPricedCapability (rc_CapabilityType c) = true -> rq_CapabilityType r = rc_CapabilityType c ->
  rq_Candidate r = Some c -> rq_BillingSnapshots r !! Key c = Some s ->
  rq_UsageEvidence r = observe_all protocol (rq_CapabilityType r) frames ->
  exists b r', Calculate r = Ok (b, r') /\
    let u := rq_TokenUsage r' in
    usage_ok u /\ PromptTokens u = tk_Prompt (Tokens (rq_UsageEvidence r)) /\
    CompletionTokens u = tk_Completion (Tokens (rq_UsageEvidence r)) /\
    exists ea er i ta j tr,
      GetEntry entries (rc_AccountPriceBookID c) (rc_ModelCode c) (rc_CapabilityType c) = Some ea /\
      GetEntry entries (rc_RetailPriceBookID c) (rc_ModelCode c) (rc_CapabilityType c) = Some er /\
      tier_covers (en_TokenPriceTiers ea) (PromptTokens u) i ta /\
      tier_covers (en_TokenPriceTiers er) (PromptTokens u) j tr /\
      charge_of (tokens_usd ta u) 1 (CatalogBaseMicro b) /\
      charge_of (tokens_usd ta u) (multiplier_rat (rc_TenantMultiplier c)) (TenantPayableMicro b) /\
      charge_of (tokens_usd tr u) 1 (RetailBaseMicro b) /\
      (owner_is_user (rq_Subject r) = true ->
        charge_of (tokens_usd tr u) (multiplier_rat (user_multiplier groups r c)) (UserPayableMicro b) /\
        UserChargedMicro b = (if bool_decide (rq_BillingSource r = BillingSourceSubscription) then 0
                              else UserPayableMicro b) /\
        APIKeyQuotaCostMicro b = UserPayableMicro b) /\
      (owner_is_user (rq_Subject r) = false ->
        UserPayableMicro b = 0 /\ UserChargedMicro b = 0 /\ APIKeyQuotaCostMicro b = TenantPayableMicro b).
Proof.
  intros Hprep Htp Hcap Hc Hs Hev.
  apply PrepareBilling_ok in Hprep as (Her & Hea & Htiers & Hm & _). destruct (Htiers Htp) as [Htr Hta].
  assert (Hrep : UsesReportedTokenBilling (rq_CapabilityType r) = true)
    by (rewrite Hcap; by apply token_priced_reported).
  destruct (Calculate_tokens r c s protocol frames Hc Hs Hrep Hev Hta Htr)
    as (b & r' & Hcalc & Hu & Hp & Hcm & i & ta & j & tr & H).
  exists b, r'. split; [done|]. cbv zeta. split; [done|]. split; [done|]. split; [done|].
  rewrite Hm in H. exists (sn_AccountEntry s), (sn_RetailEntry s), i, ta, j, tr. done.
Qed.

(** A demo request: a chat completion of 210,000 prompt tokens, 50,000 of them read
    from the cache, and 1,000 completion tokens, reported in two frames. *)
Definition demo_entry (book : string) : PriceBookEntry :=
  MkEntry "e1" book "gpt" "chat" demo_tiers (Finite 0) (Finite 0) [] [] (Finite 0) (Finite 0) "manual" true.
Definition demo_candidate : RouteCandidate :=
  MkCandidate "cand" "route" "gpt" "chat" "openai_chat" "cost" (Finite (3 # 2)) "g1" "Pro" "retail"
    (Finite 2) 1 100 0 "balanced" "" "acc" "ep" "gpt-up" None 1200000 "" "" "" "" "" 0 1 1.
Definition demo_frames : list (option json * string) :=
  [(Some (JObject [("usage"%string, JObject [("prompt_tokens"%string, JNumber (Some 210000))])]), "chunk"%string);
   (Some (JObject [("usage"%string, JObject
      [("completion_tokens"%string, JNumber (Some 1000));
       ("prompt_tokens_details"%string, JObject [("cached_tokens"%string, JNumber (Some 50000))])])]), ""%string)].
Definition demo_subject : Subject := MkSubject "api_key" "api_key" "user" "t1" "u1" "k1" "" [] None 0 "".
Definition demo_snapshot : BillingSnapshot :=
  MkSnapshot (demo_entry "retail") (demo_entry "cost") "Pro" (Finite 2) (Some (Finite (1 # 2)))
    (Finite (1 # 2)) "standard".
Definition demo_request : Request :=
  MkRequest "r1" "chat" "sync" "" (Some demo_subject) (Some demo_candidate) 1 false no_usage
    (observe_all "openai_chat" "chat" demo_frames) "" {[ "cand"%string := demo_snapshot ]} no_billing
    "payg" "" ∅ "" "completed" "complete" "none" "" "" 200 "" "" "".
Definition demo_groups : list user_group_price := [UserGroupPrice "t1" "u1" "g1" (Some (Finite (1 # 2)))].
Definition demo_input : estimate_input := MkEstimate 300 0 0 0 0 "".

Example demo_charges :
  (fun '(b, _) => (CatalogBaseMicro b, TenantPayableMicro b, RetailBaseMicro b, UserChargedMicro b))
    <$> (match Calculate demo_request with Ok x => Some x | Err _ => None end)
  = Some (499000, 748500, 499000, 249500).
Proof. vm_compute. reflexivity. Qed.

Lemma Calculate_token_charges_witness :
  exists est, PrepareBilling [demo_entry "retail"; demo_entry "cost"] demo_groups demo_input demo_request
                (Some demo_candidate) = Ok (demo_snapshot, est) /\
  exists b r', Calculate demo_request = Ok (b, r') /\ usage_ok (rq_TokenUsage r') /\
    PromptTokens (rq_TokenUsage r') = 210000.
Proof.
  eexists. split; [vm_compute; reflexivity|].
  destruct (Calculate_token_charges [demo_entry "retail"; demo_entry "cost"] demo_groups demo_input
    demo_request demo_candidate demo_snapshot _ "openai_chat" demo_frames
    ltac:(vm_compute; reflexivity) eq_refl eq_refl eq_refl ltac:(vm_compute; reflexivity) eq_refl)
    as (b & r' & Hc & Hu & Hp & _).
  exists b, r'. split; [exact Hc|]. split; [exact Hu|]. rewrite Hp. vm_compute. reflexivity.
Defined.
