(* ===== verification/Settlement.v ===== *)
(** * Requests, settlements and refunds

    Models [src/internal/ai/adapters/postgres]: [request_store.go] (registration
    and sealing), [request_settlement.go] (posting and refunds) and the recovery
    and retirement of [request_maintenance.go], on the tables [ai_request_keys],
    [ai_requests], [ai_request_errors], [bill_settlements], [bill_daily_totals],
    [bill_record_control] and, through their own components, the balance ledger,
    the API keys' quota and the subscriptions.  The JSON columns that only record
    evidence, the attempt rows, the debug captures and the trigger-written
    [bill_journal] are left out.  Timestamps are nanoseconds; a transaction's
    [now] is its argument.  Row locks make each transaction atomic. *)

From Stdlib Require Import QArith.
From S2P Require Import Prelude GoStrings CivilTime PurchasePolicy Ledger Subscription Decimal PriceTiers UsageEvidence Request PriceBookBilling.
#[global] Open Scope Z_scope.

Definition StatePending : string := "pending".
Definition StatePosted : string := "posted".
Definition StateWaived : string := "waived".
Definition StateReview : string := "review".
Definition StateRefunded : string := "refunded".

(** ** Tables *)

(** [ai_request_keys], by [request_id] *)
Record request_key := RequestKey {
  rk_registered_at : Z;
  rk_lease_until : Z;
  rk_sealed_at : option Z;
  rk_tenant : string;
  rk_user : string }.

(** [ai_requests] *)
Record request_row := RequestRow {
  rr_created_at : Z;
  rr_id : string;
  rr_tenant : string;
  rr_user : string;
  rr_key : string;
  rr_end_reason : string;
  rr_delivery : string;
  rr_is_error : bool;
  rr_completed_at : option Z }.

(** [ai_request_errors], without the messages *)
Record error_row := ErrorRow {
  er_created_at : Z; er_id : string; er_origin : string; er_stage : string; er_code : string }.

(** The JSON of [subscription_windows]: the windows a posting debited. *)
Record windows := Windows {
  w5_start : option Z; w7_start : option Z; w5_debit : Z; w7_debit : Z }.

(** [bill_settlements]; [se_windows] is [None] for the default ['{}']. *)
Record settlement := Settlement {
  se_created_at : Z;
  se_id : string;
  se_tenant : string;
  se_user : string;
  se_key : string;
  se_sub : string;
  se_source : string;
  se_sealed_at : Z;
  se_interrupted : bool;
  se_state : string;
  se_reason : string;
  se_tenant_due : Z;
  se_user_due : Z;
  se_key_due : Z;
  se_sub_due : Z;
  se_tenant_charged : Z;
  se_user_charged : Z;
  se_windows : option windows;
  se_attempts : Z;
  se_available_at : Z;
  se_last_error : string;
  se_posted_at : option Z;
  se_refunded_at : option Z;
  se_refund_reason : string;
  se_refund_operator : string }.

(** [bill_daily_totals], by (day, tenant, user) *)
Record totals := Totals {
  t_requests : Z; t_errors : Z; t_interruptions : Z; t_prompt : Z; t_completion : Z;
  t_tenant_charged : Z; t_user_charged : Z; t_tenant_refunded : Z; t_user_refunded : Z }.
Definition no_totals : totals := Totals 0 0 0 0 0 0 0 0 0.

Record st_db := StDB {
  s_keys : gmap string request_key;
  s_closed_before : option Z;
  s_requests : list request_row;
  s_errors : list error_row;
  s_settlements : list settlement;
  s_daily : gmap (Z * string * string) totals;
  s_money : ledger_db;
  s_api_keys : gmap string Z;
  s_meters : list Subscription;
  s_tasks : list (string * Z) }.

Inductive st_error :=
| ErrRequestIdentity
| ErrSettleLedger (e : ledger_error)
| ErrSettleBilling (e : pricing_error)
| ErrSubscriptionEvidence
| ErrSettlementAccountMissing
| ErrRefundArguments
| ErrRefundRetention
| ErrNotRefundable (state : string)
| ErrRetentionBlocked
| ErrNoRows
| ErrSettleSQL (msg : string).

Abbreviation SETx := (Tx st_db st_error).

(** Assignments to tables and columns. *)
Definition set_keys (x0 : gmap string request_key) (db : st_db) : st_db :=
  StDB x0 (s_closed_before db) (s_requests db) (s_errors db) (s_settlements db) (s_daily db)
    (s_money db) (s_api_keys db) (s_meters db) (s_tasks db).
Definition set_closed (x0 : option Z) (db : st_db) : st_db :=
  StDB (s_keys db) x0 (s_requests db) (s_errors db) (s_settlements db) (s_daily db) (s_money db)
    (s_api_keys db) (s_meters db) (s_tasks db).
Definition set_requests (x0 : list request_row) (db : st_db) : st_db :=
  StDB (s_keys db) (s_closed_before db) x0 (s_errors db) (s_settlements db) (s_daily db)
    (s_money db) (s_api_keys db) (s_meters db) (s_tasks db).
Definition set_errors (x0 : list error_row) (db : st_db) : st_db :=
  StDB (s_keys db) (s_closed_before db) (s_requests db) x0 (s_settlements db) (s_daily db)
    (s_money db) (s_api_keys db) (s_meters db) (s_tasks db).
Definition set_settlements (x0 : list settlement) (db : st_db) : st_db :=
  StDB (s_keys db) (s_closed_before db) (s_requests db) (s_errors db) x0 (s_daily db) (s_money db)
    (s_api_keys db) (s_meters db) (s_tasks db).
Definition set_daily (x0 : gmap (Z * string * string) totals) (db : st_db) : st_db :=
  StDB (s_keys db) (s_closed_before db) (s_requests db) (s_errors db) (s_settlements db) x0
    (s_money db) (s_api_keys db) (s_meters db) (s_tasks db).
Definition set_money (x0 : ledger_db) (db : st_db) : st_db :=
  StDB (s_keys db) (s_closed_before db) (s_requests db) (s_errors db) (s_settlements db)
    (s_daily db) x0 (s_api_keys db) (s_meters db) (s_tasks db).
Definition set_api_keys (x0 : gmap string Z) (db : st_db) : st_db :=
  StDB (s_keys db) (s_closed_before db) (s_requests db) (s_errors db) (s_settlements db)
    (s_daily db) (s_money db) x0 (s_meters db) (s_tasks db).
Definition set_meters (x0 : list Subscription) (db : st_db) : st_db :=
  StDB (s_keys db) (s_closed_before db) (s_requests db) (s_errors db) (s_settlements db)
    (s_daily db) (s_money db) (s_api_keys db) x0 (s_tasks db).
Definition set_tasks (x0 : list (string * Z)) (db : st_db) : st_db :=
  StDB (s_keys db) (s_closed_before db) (s_requests db) (s_errors db) (s_settlements db)
    (s_daily db) (s_money db) (s_api_keys db) (s_meters db) x0.
Definition with_interrupted (x0 : bool) (s : settlement) : settlement :=
  Settlement (se_created_at s) (se_id s) (se_tenant s) (se_user s) (se_key s) (se_sub s)
    (se_source s) (se_sealed_at s) x0 (se_state s) (se_reason s) (se_tenant_due s) (se_user_due s)
    (se_key_due s) (se_sub_due s) (se_tenant_charged s) (se_user_charged s) (se_windows s)
    (se_attempts s) (se_available_at s) (se_last_error s) (se_posted_at s) (se_refunded_at s)
    (se_refund_reason s) (se_refund_operator s).
Definition with_windows (x0 : option windows) (s : settlement) : settlement :=
  Settlement (se_created_at s) (se_id s) (se_tenant s) (se_user s) (se_key s) (se_sub s)
    (se_source s) (se_sealed_at s) (se_interrupted s) (se_state s) (se_reason s) (se_tenant_due s)
    (se_user_due s) (se_key_due s) (se_sub_due s) (se_tenant_charged s) (se_user_charged s) x0
    (se_attempts s) (se_available_at s) (se_last_error s) (se_posted_at s) (se_refunded_at s)
    (se_refund_reason s) (se_refund_operator s).
Definition with_posting (x0 : string) (x1 : Z) (x2 : Z) (x3 : string) (x4 : option Z) (s : settlement) : settlement :=
  Settlement (se_created_at s) (se_id s) (se_tenant s) (se_user s) (se_key s) (se_sub s)
    (se_source s) (se_sealed_at s) (se_interrupted s) x0 (se_reason s) (se_tenant_due s)
    (se_user_due s) (se_key_due s) (se_sub_due s) x1 x2 (se_windows s) (se_attempts s)
    (se_available_at s) x3 x4 (se_refunded_at s) (se_refund_reason s) (se_refund_operator s).
Definition with_refund (x0 : string) (x1 : option Z) (x2 : string) (x3 : string) (s : settlement) : settlement :=
  Settlement (se_created_at s) (se_id s) (se_tenant s) (se_user s) (se_key s) (se_sub s)
    (se_source s) (se_sealed_at s) (se_interrupted s) x0 (se_reason s) (se_tenant_due s)
    (se_user_due s) (se_key_due s) (se_sub_due s) (se_tenant_charged s) (se_user_charged s)
    (se_windows s) (se_attempts s) (se_available_at s) (se_last_error s) (se_posted_at s) x1 x2 x3.
Definition with_retry (x0 : string) (x1 : Z) (x2 : Z) (x3 : string) (s : settlement) : settlement :=
  Settlement (se_created_at s) (se_id s) (se_tenant s) (se_user s) (se_key s) (se_sub s)
    (se_source s) (se_sealed_at s) (se_interrupted s) x0 (se_reason s) (se_tenant_due s)
    (se_user_due s) (se_key_due s) (se_sub_due s) (se_tenant_charged s) (se_user_charged s)
    (se_windows s) x1 x2 x3 (se_posted_at s) (se_refunded_at s) (se_refund_reason s)
    (se_refund_operator s).

(** ** Statements *)

(** The CHECK constraints of [bill_settlements], and the range of its [bigint]
    amounts. *)
Definition settlement_check (s : settlement) : bool :=
  let final := bool_decide (se_state s ∈ [StatePosted; StateRefunded]) in
  bool_decide (se_state s ∈ [StatePending; StatePosted; StateWaived; StateReview; StateRefunded]) &&
  forallb in_int64 [se_tenant_due s; se_user_due s; se_key_due s; se_sub_due s] &&
  (0 <=? se_tenant_due s) && (0 <=? se_user_due s) && (0 <=? se_key_due s) && (0 <=? se_sub_due s) &&
  (0 <=? se_tenant_charged s) && (0 <=? se_user_charged s) &&
  (negb final || bool_decide (is_Some (se_posted_at s))) &&
  (negb (bool_decide (se_state s = StateWaived)) ||
     ((se_tenant_due s =? 0) && (se_user_due s =? 0) && (se_key_due s =? 0) && (se_sub_due s =? 0))) &&
  ((se_tenant_charged s <=? se_tenant_due s) && (se_user_charged s <=? se_user_due s)) &&
  (final || ((se_tenant_charged s =? 0) && (se_user_charged s =? 0))) &&
  (negb final || ((se_tenant_charged s =? se_tenant_due s) && (se_user_charged s =? se_user_due s))) &&
  (negb (bool_decide (se_state s = StateRefunded)) || bool_decide (is_Some (se_refunded_at s))).

Definition at_key (created : Z) (id : string) (s : settlement) : bool :=
  (se_created_at s =? created) && bool_decide (se_id s = id).

(** [INSERT INTO bill_settlements] *)
Definition insert_settlement (s : settlement) : SETx unit :=
  let! db := tx_get in
  tx_guard (existsb (at_key (se_created_at s) (se_id s)) (s_settlements db))
    (ErrSettleSQL "duplicate key") ;;;
  tx_guard (negb (settlement_check s)) (ErrSettleSQL "check constraint") ;;;
  tx_put (set_settlements (s_settlements db ++ [s]) db).

(** The same with [ON CONFLICT DO NOTHING]. *)
Definition insert_settlement_once (s : settlement) : SETx unit :=
  let! db := tx_get in
  if existsb (at_key (se_created_at s) (se_id s)) (s_settlements db) then tx_ret tt
  else tx_guard (negb (settlement_check s)) (ErrSettleSQL "check constraint") ;;;
       tx_put (set_settlements (s_settlements db ++ [s]) db).

(** [UPDATE bill_settlements SET f WHERE cond]; the result is [RowsAffected]. *)
Definition update_settlements (cond : settlement -> bool) (f : settlement -> settlement) : SETx Z :=
  let! db := tx_get in
  tx_guard (existsb (fun s => cond s && negb (settlement_check (f s))) (s_settlements db))
    (ErrSettleSQL "check constraint") ;;;
  tx_put (set_settlements (update_where cond f (s_settlements db)) db) ;;;
  tx_ret (count_where cond (s_settlements db)).

Definition day_of (at_ : Z) : Z := at_ / (24 * Hour).
Definition daily_key (at_ : Z) (tenant user : string) : Z * string * string := (day_of at_, tenant, user).

Definition add_totals (a b : totals) : totals :=
  Totals (t_requests a + t_requests b) (t_errors a + t_errors b)
    (t_interruptions a + t_interruptions b) (t_prompt a + t_prompt b)
    (t_completion a + t_completion b) (t_tenant_charged a + t_tenant_charged b)
    (t_user_charged a + t_user_charged b) (t_tenant_refunded a + t_tenant_refunded b)
    (t_user_refunded a + t_user_refunded b).
Definition totals_in_range (t : totals) : bool :=
  forallb in_int64 [t_requests t; t_errors t; t_interruptions t; t_prompt t; t_completion t;
                    t_tenant_charged t; t_user_charged t; t_tenant_refunded t; t_user_refunded t].

Definition put_daily (k : Z * string * string) (t : totals) : SETx unit :=
  let! db := tx_get in
  tx_guard (negb (totals_in_range t)) (ErrSettleSQL "bigint out of range") ;;;
  tx_put (set_daily (<[k := t]> (s_daily db)) db).

(** [UPDATE bill_daily_totals SET column = column + d] of the row, if it exists. *)
Definition update_daily (k : Z * string * string) (d : totals) : SETx unit :=
  let! db := tx_get in
  match s_daily db !! k with
  | None => tx_ret tt
  | Some t => put_daily k (add_totals t d)
  end.
(** [INSERT ... ON CONFLICT DO UPDATE] adding to the row *)
Definition upsert_daily (k : Z * string * string) (d : totals) : SETx unit :=
  let! db := tx_get in
  put_daily k (add_totals (default no_totals (s_daily db !! k)) d).

Definition on_money {A} (m : LTx A) : SETx A :=
  tx_map_err ErrSettleLedger (tx_zoom s_money (fun t db => set_money t db) m).

(** [UPDATE ai_requests SET f WHERE created_at = at AND request_id = id] *)
Definition update_request (at_ : Z) (id : string) (f : request_row -> request_row) : SETx unit :=
  let! db := tx_get in
  tx_put (set_requests
    (update_where (fun r => (rr_created_at r =? at_) && bool_decide (rr_id r = id)) f (s_requests db)) db).

(** [INSERT INTO ai_request_errors], with [ON CONFLICT DO NOTHING] when [once]. *)
Definition insert_error (once : bool) (e : error_row) : SETx unit :=
  let! db := tx_get in
  if existsb (fun x => (er_created_at x =? er_created_at e) && bool_decide (er_id x = er_id e)) (s_errors db)
  then if once then tx_ret tt else tx_fail (ErrSettleSQL "duplicate key")
  else tx_put (set_errors (s_errors db ++ [e]) db).

Definition seal_key (now : Z) (id : string) : SETx unit :=
  let! db := tx_get in
  match s_keys db !! id with
  | None => tx_ret tt
  | Some k => tx_put (set_keys (<[id := RequestKey (rk_registered_at k) (rk_lease_until k) (Some now)
                                          (rk_tenant k) (rk_user k)]> (s_keys db)) db)
  end.

(** ** Registration *)

(** [requestOwners]: tenant, user and API key. *)
Definition requestOwners (r : Request) : string * string * string :=
  match rq_Subject r with
  | Some sj => (sj_TenantID sj, sj_UserID sj, sj_APIKeyID sj)
  | None => ("", "", "")%string
  end.

(** [register]: the registration time.  [origin] is [BillingOriginAt], or the
    start of the request when that is zero. *)
Definition register (now origin : Z) (fresh : bool) (r : Request) : SETx Z :=
  let id := rq_RequestID r in
  let '(tenant, user, key) := requestOwners r in
  tx_guard (bool_decide (id = "")) ErrRequestIdentity ;;;
  let! db := tx_get in
  tx_guard (match s_closed_before db with Some c => origin <? c | None => false end) ErrNoRows ;;;
  let! at_ :=
    match s_keys db !! id with
    | Some k =>
        if negb fresh && bool_decide (rk_tenant k = tenant) && bool_decide (rk_user k = user)
        then tx_ret (rk_registered_at k) else tx_fail ErrNoRows
    | None =>
        tx_put (set_keys (<[id := RequestKey now (now + 180 * Second) None tenant user]> (s_keys db)) db) ;;;
        tx_ret now
    end in
  let! db := tx_get in
  (if existsb (fun x => (rr_created_at x =? at_) && bool_decide (rr_id x = id)) (s_requests db)
   then tx_ret tt
   else tx_put (set_requests (s_requests db ++
          [RequestRow at_ id tenant user key "running" "unknown" false None]) db)) ;;;
  tx_ret at_.

(** The lease heartbeat of [Execute]. *)
Definition heartbeat (now : Z) (id : string) : SETx unit :=
  let! db := tx_get in
  match s_keys db !! id with
  | Some k =>
      match rk_sealed_at k with
      | None => tx_put (set_keys (<[id := RequestKey (rk_registered_at k) (now + 180 * Second) None
                                            (rk_tenant k) (rk_user k)]> (s_keys db)) db)
      | Some _ => tx_ret tt
      end
  | None => tx_ret tt
  end.

(** [Execute]'s admission: [accepting] and no settlement overdue or in review. *)
Definition admission_healthy (accepting : bool) (now : Z) (db : st_db) : bool :=
  accepting &&
  negb (existsb (fun s => bool_decide (se_state s = StatePending) && (se_sealed_at s <? now - 30 * Second))
          (s_settlements db)) &&
  negb (existsb (fun s => bool_decide (se_state s = StateReview)) (s_settlements db)).

(** ** Sealing *)

(** The charge a sealed request records. *)
Record charge := MkCharge {
  ch_state : string; ch_reason : string;
  ch_tenant : Z; ch_user : Z; ch_key : Z; ch_sub : Z }.

(** The start of [Log]: the request without evidence when nothing was attempted. *)
Definition log_request (r : Request) : Request :=
  let r := initializeSettlementState r in
  let r := if rq_Attempts r =? 0
           then set_media false (set_usage no_usage (set_evidence no_evidence r)) else r in
  ApplyReportedUsage r.

(** The middle of [Log]: pricing, when a biller is configured ([priced]) and an
    upstream was called. *)
Definition log_bill (priced : bool) (r : Request) : result st_error (BillingResult * Request) :=
  if priced && bool_decide (is_Some (rq_Candidate r)) && (0 <? rq_Attempts r) then
    match Calculate r with Ok (bill, r) => Ok (bill, r) | Err e => Err (ErrSettleBilling e) end
  else Ok (no_billing, r).

(** Then the amounts due. *)
Definition log_charge (priced : bool) (r : Request)
    : result st_error (Request * CompletionDecision * charge) :=
  let decision := DecideCompletion (Some r) in
  match log_bill priced r with
  | Err e => Err e
  | Ok (bill, r) =>
      let r := set_result bill r in
      let '(tenant, user, key) := requestOwners r in
      let userDue := if bool_decide (user = "") then 0 else UserChargedMicro bill in
      let keyDue := if bool_decide (key = "") then 0 else APIKeyQuotaCostMicro bill in
      let '(subDebit, metered) := SubscriptionDebitMicro r in
      let subscribed := bool_decide (rq_BillingSource r = BillingSourceSubscription) in
      if subscribed && Billable decision && (0 <? RetailBaseMicro bill)
         && (negb metered || bool_decide (rq_SubscriptionID r = ""))
      then Err ErrSubscriptionEvidence
      else
        let subDue := if subscribed then subDebit else 0 in
        let userDue := if subscribed then 0 else userDue in
        Ok (r, decision,
            if negb (Billable decision) then MkCharge StateWaived (ChargeReason decision) 0 0 0 0
            else if (TenantPayableMicro bill =? 0) && (userDue =? 0) && (keyDue =? 0) && (subDue =? 0)
            then MkCharge StateWaived "zero_charge" 0 0 0 0
            else MkCharge StatePending (ChargeReason decision) (TenantPayableMicro bill) userDue keyDue subDue)
  end.

(** [interrupted] in [Log] *)
Definition interrupted (r : Request) : bool :=
  bool_decide (rq_CancellationOrigin r = CancellationClient) ||
  bool_decide (rq_ClientDeliveryState r = ClientDeliveryDisconnected) ||
  bool_decide (rq_ClientDeliveryState r = ClientDeliveryWriteFailed).

Definition new_settlement (at_ now : Z) (r : Request) (c : charge) : settlement :=
  let '(tenant, user, key) := requestOwners r in
  Settlement at_ (rq_RequestID r) tenant user key (rq_SubscriptionID r)
    (if_empty (rq_BillingSource r) BillingSourcePayg) now (interrupted r) (ch_state c) (ch_reason c)
    (ch_tenant c) (ch_user c) (ch_key c) (ch_sub c) 0 0 None 0 now "" None None "" "".

Definition b2z (b : bool) : Z := if b then 1 else 0.

(** The end of [Log]: one transaction that seals the request, or updates the
    delivery facts of one already sealed. *)
Definition seal (now : Z) (r : Request) (d : CompletionDecision) (c : charge) : SETx unit :=
  let id := rq_RequestID r in
  let '(tenant, user, _) := requestOwners r in
  let delivery := rq_ClientDeliveryState r in
  let! db := tx_get in
  match s_keys db !! id with
  | None => tx_fail ErrNoRows
  | Some k =>
      let at_ := rk_registered_at k in
      match rk_sealed_at k with
      | Some _ =>
          update_request at_ id (fun x =>
            RequestRow (rr_created_at x) (rr_id x) (rr_tenant x) (rr_user x) (rr_key x)
              (if negb (rr_is_error x) &&
                  bool_decide (delivery ∈ [ClientDeliveryDisconnected; ClientDeliveryWriteFailed])
               then "client_interrupted" else rr_end_reason x)
              delivery (rr_is_error x) (rr_completed_at x)) ;;;
          if interrupted r then
            let! n := update_settlements (fun s => at_key at_ id s && negb (se_interrupted s))
                        (with_interrupted true) in
            if 0 <? n then update_daily (daily_key at_ tenant user) (Totals 0 0 1 0 0 0 0 0 0)
            else tx_ret tt
          else tx_ret tt
      | None =>
          update_request at_ id (fun x =>
            RequestRow (rr_created_at x) (rr_id x) (rr_tenant x) (rr_user x) (rr_key x)
              (EndReason d) delivery (bool_decide (is_Some (cd_Error d))) (Some now)) ;;;
          (match cd_Error d with
           | Some f => insert_error false (ErrorRow at_ id (rf_Origin f) (rf_Stage f) (rf_Code f))
           | None => tx_ret tt
           end) ;;;
          insert_settlement (new_settlement at_ now r c) ;;;
          seal_key now id ;;;
          upsert_daily (daily_key at_ tenant user)
            (Totals 1 (b2z (bool_decide (is_Some (cd_Error d)))) (b2z (interrupted r))
               (PromptTokens (rq_TokenUsage r)) (CompletionTokens (rq_TokenUsage r)) 0 0 0 0)
      end
  end.

(** [Log]: registration and sealing are two transactions, each with its time. *)
Definition Log (now1 now2 origin : Z) (priced rejected : bool) (r : Request) (db : st_db)
    : st_db * result st_error unit :=
  if rejected then (db, Ok tt)
  else
    let r := log_request r in
    match run_tx (register now1 origin false r) db with
    | (db, Err e) => (db, Err e)
    | (db, Ok _) =>
        match log_charge priced r with
        | Err e => (db, Err e)
        | Ok (r, d, c) => run_tx (seal now2 r d c) db
        end
    end.

(** ** Posting *)

(** [lockSettlementAccounts] *)
Definition lockSettlementAccounts (w : settlement) : SETx unit :=
  let! db := tx_get in
  let ids := se_tenant w :: (if bool_decide (se_user w = "") then [] else [se_user w]) in
  let n := length (filter (fun id => is_Some (bill_accounts (s_money db) !! id)) (remove_dups ids)) in
  tx_guard (negb (Nat.eqb n (length ids))) ErrSettlementAccountMissing.

(** One payer of the loop in [postSettlement]. *)
Definition charge_payer (tenant id : string) (kind amount : Z) : SETx unit :=
  if 0 <? amount then on_money (Charge (MkRef kind id tenant) amount) else tx_ret tt.

Definition key_used (id : string) (delta : Z) (cond : Z -> bool) : SETx unit :=
  let! db := tx_get in
  match s_api_keys db !! id with
  | None => tx_fail ErrNoRows
  | Some used =>
      tx_guard (negb (cond used)) ErrNoRows ;;;
      tx_guard (negb (in_int64 (used + delta))) (ErrSettleSQL "bigint out of range") ;;;
      tx_put (set_api_keys (<[id := used + delta]> (s_api_keys db)) db)
  end.

Definition debit_windows (micro : Z) (s : Subscription) : windows :=
  Windows (ss_Win5hStart s) (ss_Win7dStart s)
    (match ss_Window5hLimitMicro s with None => 0 | Some _ => micro end)
    (match ss_Window7dLimitMicro s with None => 0 | Some _ => micro end).

(** The subscription block of [postSettlement]. *)
Definition post_subscription (now : Z) (w : settlement) : SETx unit :=
  let! db := tx_get in
  match find_key ss_ID (se_sub w) (s_meters db) with
  | None => tx_fail ErrNoRows
  | Some s =>
      let s' := debit_sub now (se_sub_due w) s in
      tx_guard (negb (sub_counters_ok s')) (ErrSettleSQL "counter out of range") ;;;
      tx_put (set_meters (update_where (has_key ss_ID (se_sub w)) (debit_sub now (se_sub_due w))
                            (s_meters db)) db) ;;;
      update_settlements (at_key (se_created_at w) (se_id w))
        (with_windows (Some (debit_windows (se_sub_due w) s'))) ;;;
      tx_ret tt
  end.

(** [UPDATE ai_async_tasks SET caller_charge = GREATEST(caller_charge, $2)] *)
Definition charge_tasks (id : string) (due : Z) : SETx unit :=
  let! db := tx_get in
  tx_put (set_tasks (update_where (fun t => bool_decide (t.1 = id)) (fun t => (t.1, Z.max t.2 due))
                       (s_tasks db)) db).

(** [postSettlement] *)
Definition postSettlement (now : Z) (w : settlement) : SETx unit :=
  lockSettlementAccounts w ;;;
  charge_payer (se_tenant w) (se_tenant w) KindTenant (se_tenant_due w) ;;;
  charge_payer (se_tenant w) (se_user w) KindUser (se_user_due w) ;;;
  (if 0 <? se_key_due w then key_used (se_key w) (se_key_due w) (fun _ => true) else tx_ret tt) ;;;
  (if 0 <? se_sub_due w then post_subscription now w else tx_ret tt) ;;;
  update_settlements (at_key (se_created_at w) (se_id w))
    (fun s => with_posting StatePosted (se_tenant_due s) (se_user_due s) "" (Some now) s) ;;;
  update_daily (daily_key (se_created_at w) (se_tenant w) (se_user w))
    (Totals 0 0 0 0 0 (se_tenant_due w) (se_user_due w) 0 0) ;;;
  charge_tasks (se_id w) (if negb (bool_decide (se_user w = "")) then se_user_due w else se_tenant_due w).

Section Worker.
(** The collation of [request_id] and the rows other sessions hold locked. *)
Context (text_leb : string -> string -> bool).
Context (locked : string -> bool).

Definition work_leb (a b : settlement) : bool :=
  (se_created_at a <? se_created_at b) ||
  ((se_created_at a =? se_created_at b) && text_leb (se_id a) (se_id b)).

(** The row the worker takes: pending, due, unlocked, the first in order. *)
Definition next_work (now : Z) (db : st_db) : option settlement :=
  head (order_by work_leb
    (List.filter (fun s => bool_decide (se_state s = StatePending) && (se_available_at s <=? now)
                           && negb (locked (se_id s))) (s_settlements db))).

(** The UPDATE after a failed posting. *)
Definition mark_failed (now : Z) (w : settlement) (msg : string) : SETx unit :=
  update_settlements (fun s => at_key (se_created_at w) (se_id w) s && bool_decide (se_state s = StatePending))
    (fun s => with_retry (if 9 <=? se_attempts s then StateReview else StatePending)
                (se_attempts s + 1)
                (now + Z.min 60 (2 ^ Z.min (se_attempts s) 6) * Second) msg s) ;;;
  tx_ret tt.

(** One turn of the loop of [DrainSettlements]: [None] is no work left, and
    [message] renders the error of a failed posting. *)
Definition drain_once (message : st_error -> string) (now : Z) (db : st_db)
    : st_db * option (result st_error unit) :=
  match next_work now db with
  | None => (db, None)
  | Some w =>
      match run_tx (postSettlement now w) db with
      | (db, Ok _) => (db, Some (Ok tt))
      | (db, Err e) => let '(db, r) := run_tx (mark_failed now w (message e)) db in (db, Some r)
      end
  end.

(** [DrainSettlements]: at most one row per given time; the result is the count
    of turns, and the error that stopped it. *)
Fixpoint DrainSettlements (message : st_error -> string) (nows : list Z) (i : Z) (db : st_db)
    : st_db * (Z * result st_error unit) :=
  match nows with
  | [] => (db, (i, Ok tt))
  | now :: rest =>
      match drain_once message now db with
      | (db, None) => (db, (i, Ok tt))
      | (db, Some (Err e)) => (db, (i, Err e))
      | (db, Some (Ok _)) => DrainSettlements message rest (i + 1) db
      end
  end.
End Worker.

(** ** Refunds *)

(** One payer of the loop in [Refund]; [uuid] names the lot of the grant. *)
Definition grant_payer (now : Z) (uuid tenant id : string) (kind amount : Z) : SETx unit :=
  if 0 <? amount
  then on_money (Grant now uuid (MkRef kind id tenant) amount None "REFUND" "") ;;; tx_ret tt
  else tx_ret tt.

(** A window counter after a refund: only the window that was debited, and only
    while it is open, gives the amount back. *)
Definition refund_window (now len : Z) (recorded start : option Z) (debit used : Z) : Z :=
  match start, recorded with
  | Some t, Some t0 => if (t =? t0) && (now <? t + len) then Z.max 0 (used - debit) else used
  | _, _ => used
  end.

Definition refund_sub (now micro : Z) (w : option windows) (s : Subscription) : Subscription :=
  let st5 := w ≫= w5_start in let st7 := w ≫= w7_start in
  let d5 := default 0 (w5_debit <$> w) in let d7 := default 0 (w7_debit <$> w) in
  MkSub (ss_ID s) (ss_TenantID s) (ss_UserID s) (ss_PlanID s) (ss_OrderID s) (ss_DurationDays s)
    (ss_TotalLimitMicro s) (ss_Window5hLimitMicro s) (ss_Window7dLimitMicro s) (ss_Status s)
    (ss_ActivatedAt s) (ss_ExpiresAt s) (ss_TotalUsedMicro s - micro)
    (ss_Win5hStart s) (refund_window now window5h st5 (ss_Win5hStart s) d5 (ss_Win5hUsedMicro s))
    (ss_Win7dStart s) (refund_window now window7d st7 (ss_Win7dStart s) d7 (ss_Win7dUsedMicro s))
    (ss_GroupQuotaDebitMultipliers s) (ss_CreatedAt s).

Definition refund_subscription (now : Z) (w : settlement) : SETx unit :=
  let! db := tx_get in
  match find_key ss_ID (se_sub w) (s_meters db) with
  | None => tx_fail ErrNoRows
  | Some s =>
      tx_guard (ss_TotalUsedMicro s <? se_sub_due w) ErrNoRows ;;;
      tx_put (set_meters (update_where (has_key ss_ID (se_sub w))
                            (refund_sub now (se_sub_due w) (se_windows w)) (s_meters db)) db)
  end.

(** [Refund]; [cutoff] is [time.Now().AddDate(0, 0, -365)] and [uuid1], [uuid2]
    name the lots of the two grants. *)
Definition RefundSettlement (now cutoff : Z) (uuid1 uuid2 id reason operator : string) : SETx unit :=
  tx_guard (bool_decide (reason = "") || bool_decide (operator = "")) ErrRefundArguments ;;;
  let! db := tx_get in
  match find_key se_id id (s_settlements db) with
  | None => tx_fail ErrNoRows
  | Some w =>
      if bool_decide (se_state w = StateRefunded) then tx_ret tt
      else
        tx_guard (se_created_at w <? cutoff) ErrRefundRetention ;;;
        tx_guard (negb (bool_decide (se_state w = StatePosted))) (ErrNotRefundable (se_state w)) ;;;
        lockSettlementAccounts w ;;;
        grant_payer now uuid1 (se_tenant w) (se_tenant w) KindTenant (se_tenant_due w) ;;;
        grant_payer now uuid2 (se_tenant w) (se_user w) KindUser (se_user_due w) ;;;
        (if 0 <? se_key_due w then key_used (se_key w) (- se_key_due w) (fun used => se_key_due w <=? used)
         else tx_ret tt) ;;;
        (if 0 <? se_sub_due w then refund_subscription now w else tx_ret tt) ;;;
        update_settlements (at_key (se_created_at w) id)
          (with_refund StateRefunded (Some now) reason operator) ;;;
        update_daily (daily_key (se_created_at w) (se_tenant w) (se_user w))
          (Totals 0 0 0 0 0 0 0 (se_tenant_due w) (se_user_due w))
  end.

(** ** Recovery and retirement *)

Definition lease_lost (now : Z) (k : request_key) : bool :=
  match rk_sealed_at k with None => rk_lease_until k <? now | Some _ => false end.

Definition recovery_row (now : Z) (id : string) (k : request_key) : settlement :=
  Settlement (rk_registered_at k) id (rk_tenant k) (rk_user k) "" "" BillingSourcePayg now false
    StateWaived "unconfirmed_execution" 0 0 0 0 0 0 None 0 now "" None None "" "".

(** The body of the loop of [RecoverRequests]. *)
Definition recover_one (now : Z) (x : string * request_key) : SETx unit :=
  let '(id, k) := x in
  let at_ := rk_registered_at k in
  seal_key now id ;;;
  update_request at_ id (fun x =>
    RequestRow (rr_created_at x) (rr_id x) (rr_tenant x) (rr_user x) (rr_key x)
      "gateway_interrupted" (rr_delivery x) true (Some now)) ;;;
  insert_error true (ErrorRow at_ id "gateway" "execute" "runtime_lost") ;;;
  insert_settlement_once (recovery_row now id k) ;;;
  upsert_daily (daily_key at_ (rk_tenant k) (rk_user k)) (Totals 1 1 0 0 0 0 0 0 0).

(** [RecoverRequests]: [scanned] are the ids the locking scan returned. *)
Definition RecoverRequests (now : Z) (scanned : list string) : SETx unit :=
  let! db := tx_get in
  tx_iter (recover_one now)
    (take 100 (omap (fun id => k ← s_keys db !! id;
                               if lease_lost now k then Some (id, k) else None) (remove_dups scanned))).

(** The retirement of [MaintainRecords] after its checkpoint passed.  Both cutoffs
    are starts of months, so the partitions dropped hold exactly the older rows. *)
Definition RetireRecords (financial requests errors : Z) : SETx unit :=
  let! db := tx_get in
  tx_guard (existsb (fun s => (se_created_at s <? financial) &&
                              bool_decide (se_state s ∈ [StatePending; StateReview])) (s_settlements db)
            || existsb (fun '(_, k) => (rk_registered_at k <? financial) &&
                                       bool_decide (rk_sealed_at k = None)) (map_to_list (s_keys db)))
    ErrRetentionBlocked ;;;
  let db := set_settlements (List.filter (fun s => financial <=? se_created_at s) (s_settlements db)) db in
  let db := set_requests (List.filter (fun r => requests <=? rr_created_at r) (s_requests db)) db in
  let db := set_errors (List.filter (fun e => errors <=? er_created_at e) (s_errors db)) db in
  let db := set_closed (Some (match s_closed_before db with
                              | Some c => Z.max c financial | None => financial end)) db in
  tx_put (set_keys (filter (fun '(_, k) => financial <= rk_registered_at k \/ rk_sealed_at k = None)
                      (s_keys db)) db).
