(* ===== verification/SettlementFacts.v ===== *)
(** * Facts about the settlement transactions

    What each statement and transaction of [Settlement] does to the request keys
    and the settlement rows (the core), and which leave them alone. *)

From Stdlib Require Import QArith.
From S2P Require Import Prelude GoStrings CivilTime PurchasePolicy Ledger LedgerFacts Subscription Decimal PriceTiers UsageEvidence Request PriceBookBilling Settlement.
#[global] Open Scope Z_scope.

Implicit Types (db : st_db) (s w : settlement) (k : request_key).

(** ** Transactions that leave the core alone *)

Definition same_core (db db' : st_db) : Prop :=
  s_keys db' = s_keys db /\ s_settlements db' = s_settlements db /\ s_closed_before db' = s_closed_before db.

Definition keeps_core {A} (m : SETx A) : Prop := forall db a db', m db = Ok (a, db') -> same_core db db'.

Lemma same_core_refl db : same_core db db.
Proof. done. Qed.
Lemma same_core_trans db1 db2 db3 : same_core db1 db2 -> same_core db2 db3 -> same_core db1 db3.
Proof. intros (a & b & c) (x & y & z). split_and!; congruence. Qed.
#[export] Instance same_core_preorder : PreOrder same_core.
Proof. split; [exact same_core_refl | exact same_core_trans]. Qed.

Lemma core_ret {A} (a : A) : keeps_core (tx_ret a).
Proof. by intros db x db' [= <- <-]. Qed.
Lemma core_get : keeps_core tx_get.
Proof. by intros db x db' [= <- <-]. Qed.
Lemma core_fail {A} e : keeps_core (A := A) (tx_fail e).
Proof. by intros db x db'. Qed.
Lemma core_guard b e : keeps_core (tx_guard b e).
Proof. intros db x db' H. by apply tx_guard_ok in H as [_ ->]. Qed.
Lemma core_bind {A B} (m : SETx A) (q : A -> SETx B) :
  keeps_core m -> (forall a, keeps_core (q a)) -> keeps_core (tx_bind m q).
Proof.
  intros Hm Hq db b db' H. apply tx_bind_ok in H as (a & db1 & H1 & H2).
  etrans; [by eapply Hm | by eapply Hq].
Qed.
(** A statement that reads the state and then runs on it. *)
Lemma keeps_read {A} (q : st_db -> SETx A) :
  (forall db a db', q db db = Ok (a, db') -> same_core db db') -> keeps_core (tx_bind tx_get q).
Proof. intros H db a db' Hr. rewrite tx_get_bind in Hr. by eapply H. Qed.

Create HintDb core.
#[export] Hint Resolve core_ret core_get core_fail core_guard core_bind : core.

Lemma put_daily_core key t : keeps_core (put_daily key t).
Proof.
  apply keeps_read. intros db a db' H. apply tx_bind_ok in H as ([] & db1 & Hg & H).
  apply tx_guard_ok in Hg as [_ ->]. by injection H as <- <-.
Qed.
Lemma update_daily_core key t : keeps_core (update_daily key t).
Proof.
  apply keeps_read. intros db a db' H. destruct (s_daily db !! key); [by eapply put_daily_core|].
  by injection H as <- <-.
Qed.
Lemma upsert_daily_core key t : keeps_core (upsert_daily key t).
Proof. apply keeps_read. intros db a db' H. by eapply put_daily_core. Qed.
Lemma on_money_core {A} (m : LTx A) : keeps_core (on_money m).
Proof.
  intros db a db'. unfold on_money, tx_map_err, tx_zoom. destruct (m (s_money db)) as [[x t]|e]; [|done].
  by intros [= <- <-].
Qed.
Lemma update_request_core at_ id f : keeps_core (update_request at_ id f).
Proof. apply keeps_read. intros db a db' H. by injection H as <- <-. Qed.
Lemma insert_error_core once e : keeps_core (insert_error once e).
Proof.
  apply keeps_read. intros db a db' H. destruct (existsb _ _); [destruct once|]; try done; by injection H as <- <-.
Qed.
Lemma charge_payer_core t id kind amount : keeps_core (charge_payer t id kind amount).
Proof. unfold charge_payer. destruct (0 <? amount); [apply on_money_core | apply core_ret]. Qed.
Lemma grant_payer_core now u t id kind amount : keeps_core (grant_payer now u t id kind amount).
Proof.
  unfold grant_payer. destruct (0 <? amount); [|apply core_ret].
  apply core_bind; [apply on_money_core | intros; apply core_ret].
Qed.
Lemma lockSettlementAccounts_core w : keeps_core (lockSettlementAccounts w).
Proof. apply keeps_read. intros db a db' H. by apply tx_guard_ok in H as [_ ->]. Qed.
Lemma key_used_core id d c : keeps_core (key_used id d c).
Proof.
  apply keeps_read. intros db a db' H. destruct (s_api_keys db !! id) as [u|]; [|done].
  apply tx_bind_ok in H as ([] & db1 & Hg & H). apply tx_guard_ok in Hg as [_ ->].
  apply tx_bind_ok in H as ([] & db1 & Hg & H). apply tx_guard_ok in Hg as [_ ->]. by injection H as <- <-.
Qed.
Lemma charge_tasks_core id d : keeps_core (charge_tasks id d).
Proof. apply keeps_read. intros db a db' H. by injection H as <- <-. Qed.
Lemma refund_subscription_core now w : keeps_core (refund_subscription now w).
Proof.
  apply keeps_read. intros db a db' H. destruct (find_key _ _ _); [|done].
  apply tx_bind_ok in H as ([] & db1 & Hg & H). apply tx_guard_ok in Hg as [_ ->]. by injection H as <- <-.
Qed.
#[export] Hint Resolve put_daily_core update_daily_core upsert_daily_core on_money_core update_request_core
  insert_error_core charge_payer_core grant_payer_core lockSettlementAccounts_core key_used_core
  charge_tasks_core refund_subscription_core : core.

Lemma keeps_if {A} (b : bool) (m1 m2 : SETx A) :
  keeps_core m1 -> keeps_core m2 -> keeps_core (if b then m1 else m2).
Proof. by destruct b. Qed.
#[export] Hint Resolve keeps_if : core.

(** ** Statements on the settlement rows *)

Lemma update_settlements_ok cond f db n db' :
  update_settlements cond f db = Ok (n, db') ->
  n = count_where cond (s_settlements db) /\
  db' = set_settlements (update_where cond f (s_settlements db)) db /\
  (forall s, s ∈ s_settlements db -> cond s = true -> settlement_check (f s) = true).
Proof.
  unfold update_settlements. rewrite tx_get_bind. intros H.
  apply tx_bind_ok in H as ([] & db1 & Hg & H). apply tx_guard_ok in Hg as [Hg ->].
  apply tx_bind_ok in H as ([] & db1 & Hp & H). injection Hp as <-. injection H as <- <-.
  split; [done|]. split; [done|]. intros s Hs Hc.
  destruct (settlement_check (f s)) eqn:Hk; [done|].
  assert (existsb (fun s => cond s && negb (settlement_check (f s))) (s_settlements db) = true) as Ht; [|by rewrite Hg in Ht].
  apply existsb_exists. exists s. rewrite <- list_elem_of_In, Hc, Hk. done.
Qed.

Lemma insert_settlement_ok s db u db' :
  insert_settlement s db = Ok (u, db') ->
  existsb (at_key (se_created_at s) (se_id s)) (s_settlements db) = false /\
  settlement_check s = true /\ db' = set_settlements (s_settlements db ++ [s]) db.
Proof.
  unfold insert_settlement. rewrite tx_get_bind. intros H.
  apply tx_bind_ok in H as ([] & db1 & Hg & H). apply tx_guard_ok in Hg as [Hg ->].
  apply tx_bind_ok in H as ([] & db1 & Hg2 & H). apply tx_guard_ok in Hg2 as [Hg2 ->].
  apply negb_false_iff in Hg2. by injection H as <- <-.
Qed.

Lemma insert_settlement_once_ok s db u db' :
  insert_settlement_once s db = Ok (u, db') ->
  (existsb (at_key (se_created_at s) (se_id s)) (s_settlements db) = true /\ db' = db) \/
  (existsb (at_key (se_created_at s) (se_id s)) (s_settlements db) = false /\
   settlement_check s = true /\ db' = set_settlements (s_settlements db ++ [s]) db).
Proof.
  unfold insert_settlement_once. rewrite tx_get_bind. intros H.
  destruct (existsb _ _) eqn:He; [left; by injection H as <- <-|]. right.
  apply tx_bind_ok in H as ([] & db1 & Hg2 & H). apply tx_guard_ok in Hg2 as [Hg2 ->].
  apply negb_false_iff in Hg2. by injection H as <- <-.
Qed.

Lemma seal_key_ok now id db u db' :
  seal_key now id db = Ok (u, db') ->
  s_settlements db' = s_settlements db /\ s_closed_before db' = s_closed_before db /\
  s_keys db' = alter (fun k => RequestKey (rk_registered_at k) (rk_lease_until k) (Some now)
                                 (rk_tenant k) (rk_user k)) id (s_keys db).
Proof.
  unfold seal_key. rewrite tx_get_bind. destruct (s_keys db !! id) as [k|] eqn:Hk; intros [= <- <-]; simpl.
  - split_and!; try done. apply map_eq. intros i. destruct (decide (i = id)) as [-> | Hne].
    + by rewrite lookup_insert_eq, lookup_alter_eq, Hk.
    + by rewrite lookup_insert_ne, lookup_alter_ne.
  - split_and!; try done. apply map_eq. intros i. destruct (decide (i = id)) as [-> | Hne].
    + by rewrite lookup_alter_eq, Hk.
    + by rewrite lookup_alter_ne.
Qed.

(** ** Funds *)

(** What the balances, the API keys' counters and the subscriptions hold. *)
Definition funds db : ledger_db * gmap string Z * list Subscription :=
  (s_money db, s_api_keys db, s_meters db).
Definition keeps_funds {A} (m : SETx A) : Prop := forall db a db', m db = Ok (a, db') -> funds db' = funds db.

Lemma lockSettlementAccounts_funds w : keeps_funds (lockSettlementAccounts w).
Proof. intros db a db'. unfold lockSettlementAccounts. rewrite tx_get_bind. intros H. by apply tx_guard_ok in H as [_ ->]. Qed.
Lemma put_daily_funds key t : keeps_funds (put_daily key t).
Proof.
  intros db a db'. unfold put_daily. rewrite tx_get_bind. intros H. apply tx_bind_ok in H as ([] & db1 & Hg & H).
  apply tx_guard_ok in Hg as [_ ->]. by injection H as <- <-.
Qed.
Lemma update_daily_funds key t : keeps_funds (update_daily key t).
Proof.
  intros db a db'. unfold update_daily. rewrite tx_get_bind. intros H.
  destruct (s_daily db !! key); [by eapply put_daily_funds | by injection H as <- <-].
Qed.
Lemma charge_tasks_funds id d : keeps_funds (charge_tasks id d).
Proof. intros db a db'. unfold charge_tasks. rewrite tx_get_bind. intros H. by injection H as <- <-. Qed.
Lemma update_settlements_funds cond f : keeps_funds (update_settlements cond f).
Proof. intros db n db' H. by apply update_settlements_ok in H as (_ & -> & _). Qed.

Lemma on_money_ok {A} (m : LTx A) db a db' :
  on_money m db = Ok (a, db') -> exists t, m (s_money db) = Ok (a, t) /\ db' = set_money t db.
Proof.
  unfold on_money, tx_map_err, tx_zoom. destruct (m (s_money db)) as [[x t]|e]; [|done].
  intros [= <- <-]. by exists t.
Qed.

(** A balance as the ledger shows it. *)
Definition balance (id : string) (l : ledger_db) : option Z := balance_micro <$> bill_accounts l !! id.

Lemma balance_insert id id' a b l :
  bill_accounts l !! id = Some a ->
  balance_micro <$> (<[id := set_balance b a]> (bill_accounts l)) !! id' =
  (fun x => if bool_decide (id' = id) then b else x) <$> balance id' l.
Proof.
  intros Ha. unfold balance. destruct (decide (id' = id)) as [-> | Hne].
  - rewrite lookup_insert_eq, Ha. simpl. by rewrite bool_decide_true.
  - rewrite lookup_insert_ne by done. rewrite bool_decide_false by done. by destruct (bill_accounts l !! id').
Qed.

(** A committed charge took exactly its amount from its account. *)
Lemma Charge_took ref micro l u l' : ledger_ok l -> 0 < micro ->
  Charge ref micro l = Ok (u, l') ->
  ledger_ok l' /\
  forall id, balance id l' = (fun b => b - (if bool_decide (id = ref_id ref) then micro else 0)) <$> balance id l.
Proof.
  intros Hok Hm Hrun. pose proof Hrun as Hrun0. unfold Charge in Hrun.
  rewrite (proj2 (Z.ltb_ge micro 0)), (proj2 (Z.eqb_neq micro 0)) in Hrun by lia.
  case_bool_decide as Hid; [done|].
  apply tx_bind_ok in Hrun as (n & l1 & Hu & Hrun). rewrite update_balance_spec in Hu.
  destruct (bill_accounts l !! ref_id ref) as [a|] eqn:Ha; [|injection Hu as <- <-; discriminate Hrun].
  destruct (in_int64 (balance_micro a + - micro)) eqn:Hr; [|done]. apply in_int64_spec in Hr.
  destruct (Charge_run l ref micro a Hok Ha Hid Hm) as (l2 & Hrun2 & Hacc & Hok2); [lia|].
  rewrite Hrun0 in Hrun2. injection Hrun2 as _ <-. split; [done|]. intros id. unfold balance at 1. rewrite Hacc, (balance_insert _ _ a) by done.
  unfold balance. destruct (bill_accounts l !! id) as [x|] eqn:Hx; [|done]. simpl. f_equal.
  case_bool_decide as He; [|lia]. subst id. congruence.
Qed.

(** A committed grant gave exactly its amount to its account. *)
Lemma Grant_gave now uuid ref micro exp src order l lot l' : ledger_ok l -> micro <= int64_max ->
  Grant now uuid ref micro exp src order l = Ok (lot, l') ->
  ledger_ok l' /\
  forall id, balance id l' = (fun b => b + (if bool_decide (id = ref_id ref) then micro else 0)) <$> balance id l.
Proof.
  intros Hok Hm H. pose proof (Grant_ok _ _ _ _ _ _ _ _ _ _ Hok Hm H) as Hok'.
  apply Grant_run in H as (a & Ha & _ & _ & Hacc & _); [|done|done]. split; [done|].
  intros id. unfold balance at 1. rewrite Hacc, (balance_insert _ _ a) by done. unfold balance.
  destruct (bill_accounts l !! id) as [x|] eqn:Hx; [|done]. simpl. f_equal.
  case_bool_decide as He; [|lia]. subst id. congruence.
Qed.

Lemma fmap_id_eq (o : option Z) f : (forall b, f b = b) -> f <$> o = o.
Proof. intros H. destruct o; simpl; [by rewrite H | done]. Qed.

Lemma charge_payer_ok t id kind amount db u db' : ledger_ok (s_money db) -> 0 <= amount ->
  charge_payer t id kind amount db = Ok (u, db') ->
  exists l, db' = set_money l db /\ ledger_ok l /\
    forall i, balance i l = (fun b => b - (if bool_decide (i = id) then amount else 0)) <$> balance i (s_money db).
Proof.
  intros Hok Ha. unfold charge_payer. destruct (Z.ltb_spec 0 amount) as [Hp | Hz].
  - intros (l & Hrun & ->)%on_money_ok. apply Charge_took in Hrun as [Hok' Hb]; [|done|done]. by exists l.
  - intros [= <- <-]. exists (s_money db). split; [by destruct db|]. split; [done|]. intros i. symmetry.
    apply fmap_id_eq. intros b. case_bool_decide; lia.
Qed.

Lemma grant_payer_ok now uuid t id kind amount db u db' : ledger_ok (s_money db) -> 0 <= amount <= int64_max ->
  grant_payer now uuid t id kind amount db = Ok (u, db') ->
  exists l, db' = set_money l db /\ ledger_ok l /\
    forall i, balance i l = (fun b => b + (if bool_decide (i = id) then amount else 0)) <$> balance i (s_money db).
Proof.
  intros Hok Ha. unfold grant_payer. destruct (Z.ltb_spec 0 amount) as [Hp | Hz].
  - intros H. apply tx_bind_ok in H as (lot & db1 & (l & Hrun & ->)%on_money_ok & H). injection H as <- <-.
    apply Grant_gave in Hrun as [Hok' Hb]; [|done|lia]. by exists l.
  - intros [= <- <-]. exists (s_money db). split; [by destruct db|]. split; [done|]. intros i. symmetry.
    apply fmap_id_eq. intros b. case_bool_decide; lia.
Qed.

Lemma key_used_ok id d c db u db' :
  key_used id d c db = Ok (u, db') ->
  exists used, s_api_keys db !! id = Some used /\ c used = true /\
    db' = set_api_keys (<[id := used + d]> (s_api_keys db)) db.
Proof.
  unfold key_used. rewrite tx_get_bind. destruct (s_api_keys db !! id) as [used|]; [|done]. intros H.
  apply tx_bind_ok in H as ([] & db1 & Hg & H). apply tx_guard_ok in Hg as [Hc ->]. apply negb_false_iff in Hc.
  apply tx_bind_ok in H as ([] & db1 & Hg & H). apply tx_guard_ok in Hg as [_ ->]. injection H as <- <-. by exists used.
Qed.

(** What a posting and a refund owe each account, key and subscription. *)
Definition payer_share w (id : string) : Z :=
  (if bool_decide (id = se_tenant w) then se_tenant_due w else 0) +
  (if bool_decide (id = se_user w) then se_user_due w else 0).
Definition key_share w (id : string) : Z := if bool_decide (id = se_key w) then se_key_due w else 0.

Definition dues_ok w : Prop :=
  0 <= se_tenant_due w <= int64_max /\ 0 <= se_user_due w <= int64_max /\
  0 <= se_key_due w <= int64_max /\ 0 <= se_sub_due w <= int64_max.

Lemma settlement_check_dues s : settlement_check s = true -> dues_ok s.
Proof.
  unfold settlement_check. cbn [forallb]. rewrite !andb_true_iff, !in_int64_spec, !Z.leb_le. unfold dues_ok.
  intuition lia.
Qed.

Lemma post_subscription_funds now w db u db' :
  post_subscription now w db = Ok (u, db') ->
  s_money db' = s_money db /\ s_api_keys db' = s_api_keys db /\
  s_meters db' = update_where (has_key ss_ID (se_sub w)) (debit_sub now (se_sub_due w)) (s_meters db) /\
  exists sub, find_key ss_ID (se_sub w) (s_meters db) = Some sub /\
    s_settlements db' = update_where (at_key (se_created_at w) (se_id w))
      (with_windows (Some (debit_windows (se_sub_due w) (debit_sub now (se_sub_due w) sub)))) (s_settlements db).
Proof.
  unfold post_subscription. rewrite tx_get_bind. destruct (find_key _ _ _) as [s|]; [|done]. intros H.
  apply tx_bind_ok in H as ([] & db1 & Hg & H). apply tx_guard_ok in Hg as [_ ->].
  apply tx_bind_ok in H as ([] & db1 & Hp & H). injection Hp as <-.
  apply tx_bind_ok in H as (n & db2 & Hu & H). injection H as <- <-.
  apply update_settlements_ok in Hu as (_ & -> & _). simpl. eauto 8.
Qed.

Lemma key_share_insert w id used (m : gmap string Z) d : m !! se_key w = Some used ->
  (<[se_key w := used + d]> m) !! id =
  (fun x => x + (if bool_decide (id = se_key w) then d else 0)) <$> m !! id.
Proof.
  intros Hu. destruct (decide (id = se_key w)) as [-> | Hne].
  - by rewrite lookup_insert_eq, Hu, bool_decide_true.
  - rewrite lookup_insert_ne by done. rewrite bool_decide_false by done. destruct (m !! id); simpl; [f_equal; lia | done].
Qed.

(** A posting reaches its subscription block with the subscriptions as they were. *)
Lemma charge_payer_meters t id kind amount db u db' :
  charge_payer t id kind amount db = Ok (u, db') -> s_meters db' = s_meters db.
Proof.
  unfold charge_payer. destruct (0 <? amount); [|by intros [= <- <-]]. by intros (l & _ & ->)%on_money_ok.
Qed.
Lemma key_used_meters id d c db u db' : key_used id d c db = Ok (u, db') -> s_meters db' = s_meters db.
Proof. by intros (used & _ & _ & ->)%key_used_ok. Qed.

(** The effect of a committed posting. *)
Record posted_funds (now : Z) w db db' : Prop := PostedFunds {
  pf_ledger : ledger_ok (s_money db');
  pf_balance : forall id, balance id (s_money db') = (fun b => b - payer_share w id) <$> balance id (s_money db);
  pf_keys : forall id, s_api_keys db' !! id = (fun n => n + key_share w id) <$> s_api_keys db !! id;
  pf_meters : s_meters db' = (if 0 <? se_sub_due w
                then update_where (has_key ss_ID (se_sub w)) (debit_sub now (se_sub_due w)) (s_meters db)
                else s_meters db) }.

Lemma postSettlement_funds now w db u db' : ledger_ok (s_money db) -> dues_ok w ->
  postSettlement now w db = Ok (u, db') -> posted_funds now w db db'.
Proof.
  intros Hok (Ht & Hus & Hk & Hsb) H. unfold postSettlement in H.
  apply tx_bind_ok in H as (y1 & db1 & H1 & H). apply lockSettlementAccounts_funds in H1. injection H1 as M1 K1 S1.
  apply tx_bind_ok in H as (y2 & db2 & H2 & H). apply charge_payer_ok in H2 as (l2 & -> & Hok2 & B2); [|by rewrite M1|lia].
  apply tx_bind_ok in H as (y3 & db3 & H3 & H). apply charge_payer_ok in H3 as (l3 & -> & Hok3 & B3); [|done|lia].
  simpl in B3. apply tx_bind_ok in H as (y4 & db4 & H4 & H).
  assert (E4 : s_money db4 = l3 /\ s_meters db4 = s_meters db /\
    forall id, s_api_keys db4 !! id = (fun n => n + key_share w id) <$> s_api_keys db !! id).
  { destruct (Z.ltb_spec 0 (se_key_due w)).
    - apply key_used_ok in H4 as (used & Hu & _ & ->). simpl in *. rewrite K1 in *. split; [done|]. split; [done|].
      intros id. by apply key_share_insert.
    - injection H4 as <- <-. simpl. rewrite K1. split; [done|]. split; [done|]. intros id. symmetry. apply fmap_id_eq.
      intros b. unfold key_share. destruct (bool_decide (id = se_key w)); lia. }
  destruct E4 as (M4 & S4 & K4). clear H4. apply tx_bind_ok in H as (y5 & db5 & H5 & H).
  assert (E5 : s_money db5 = l3 /\ s_api_keys db5 = s_api_keys db4 /\
    s_meters db5 = if 0 <? se_sub_due w then update_where (has_key ss_ID (se_sub w)) (debit_sub now (se_sub_due w)) (s_meters db)
                   else s_meters db).
  { destruct (0 <? se_sub_due w).
    - apply post_subscription_funds in H5 as (-> & -> & -> & _). by rewrite S4.
    - injection H5 as <- <-. done. }
  destruct E5 as (M5 & K5 & S5). clear H5.
  apply tx_bind_ok in H as (y6 & db6 & H6 & H). apply update_settlements_funds in H6.
  apply tx_bind_ok in H as (y7 & db7 & H7 & H). apply update_daily_funds in H7. apply charge_tasks_funds in H.
  rewrite H7, H6 in H. injection H as M K S. split.
  - by rewrite M, M5.
  - intros id. rewrite M, M5, B3, B2, M1. destruct (balance id (s_money db)); simpl; [|done]. f_equal.
    unfold payer_share. lia.
  - intros id. by rewrite K, K5, K4.
  - by rewrite S, S5.
Qed.

(** The effect of a committed refund of the posted settlement [w]. *)
Record refunded_funds (now : Z) w db db' : Prop := RefundedFunds {
  rf_ledger : ledger_ok (s_money db');
  rf_balance : forall id, balance id (s_money db') = (fun b => b + payer_share w id) <$> balance id (s_money db);
  rf_keys : forall id, s_api_keys db' !! id = (fun n => n - key_share w id) <$> s_api_keys db !! id;
  rf_meters : s_meters db' = (if 0 <? se_sub_due w
                then update_where (has_key ss_ID (se_sub w)) (refund_sub now (se_sub_due w) (se_windows w)) (s_meters db)
                else s_meters db) }.

Lemma Refund_funds now cutoff u1 u2 id reason op w db u db' : ledger_ok (s_money db) -> dues_ok w ->
  find_key se_id id (s_settlements db) = Some w -> se_state w <> StateRefunded ->
  RefundSettlement now cutoff u1 u2 id reason op db = Ok (u, db') -> refunded_funds now w db db'.
Proof.
  intros Hok (Ht & Hus & Hk & Hsb) Hf Hst H. unfold RefundSettlement in H.
  apply tx_bind_ok in H as ([] & db1 & Hg & H). apply tx_guard_ok in Hg as [_ ->].
  rewrite tx_get_bind, Hf, bool_decide_false in H by done.
  apply tx_bind_ok in H as ([] & db1 & Hg & H). apply tx_guard_ok in Hg as [_ ->].
  apply tx_bind_ok in H as ([] & db1 & Hg & H). apply tx_guard_ok in Hg as [_ ->].
  apply tx_bind_ok in H as (y1 & db1 & H1 & H). apply lockSettlementAccounts_funds in H1. injection H1 as M1 K1 S1.
  apply tx_bind_ok in H as (y2 & db2 & H2 & H). apply grant_payer_ok in H2 as (l2 & -> & Hok2 & B2); [|by rewrite M1|lia].
  apply tx_bind_ok in H as (y3 & db3 & H3 & H). apply grant_payer_ok in H3 as (l3 & -> & Hok3 & B3); [|done|lia].
  simpl in B3. apply tx_bind_ok in H as (y4 & db4 & H4 & H).
  assert (E4 : s_money db4 = l3 /\ s_meters db4 = s_meters db /\
    forall i, s_api_keys db4 !! i = (fun n => n - key_share w i) <$> s_api_keys db !! i).
  { destruct (Z.ltb_spec 0 (se_key_due w)).
    - apply key_used_ok in H4 as (used & Hu & _ & ->). simpl in *. rewrite K1 in *. split; [done|]. split; [done|].
      intros i. rewrite (key_share_insert w i used) by done. unfold key_share. destruct (s_api_keys db !! i); [|done].
      simpl. f_equal. destruct (bool_decide (i = se_key w)); lia.
    - injection H4 as <- <-. simpl. rewrite K1. split; [done|]. split; [done|]. intros i. symmetry. apply fmap_id_eq.
      intros b. unfold key_share. destruct (bool_decide (i = se_key w)); lia. }
  destruct E4 as (M4 & S4 & K4). clear H4. apply tx_bind_ok in H as (y5 & db5 & H5 & H).
  assert (E5 : s_money db5 = l3 /\ s_api_keys db5 = s_api_keys db4 /\
    s_meters db5 = if 0 <? se_sub_due w
      then update_where (has_key ss_ID (se_sub w)) (refund_sub now (se_sub_due w) (se_windows w)) (s_meters db)
      else s_meters db).
  { destruct (0 <? se_sub_due w).
    - unfold refund_subscription in H5. rewrite tx_get_bind in H5. destruct (find_key ss_ID (se_sub w) (s_meters db4)); [|done].
      apply tx_bind_ok in H5 as ([] & db6 & Hg & H5). apply tx_guard_ok in Hg as [_ ->]. injection H5 as <- <-.
      simpl. by rewrite S4.
    - injection H5 as <- <-. done. }
  destruct E5 as (M5 & K5 & S5). clear H5.
  apply tx_bind_ok in H as (y6 & db6 & H6 & H). apply update_settlements_funds in H6.
  apply update_daily_funds in H. rewrite H6 in H. injection H as M K S. split.
  - by rewrite M, M5.
  - intros i. rewrite M, M5, B3, B2, M1. destruct (balance i (s_money db)); simpl; [|done]. f_equal.
    unfold payer_share. lia.
  - intros i. by rewrite K, K5, K4.
  - by rewrite S, S5.
Qed.
