(* ===== verification/SettlementSystem.v ===== *)
(** * The settlement system

    The transactions of [Settlement] as a step relation, and the invariant of
    every run: the rows' constraints, the match of request keys and settlements,
    and the history of postings and refunds.  At the end, the record a request leaves:
    what registration and sealing do to the tables, and the charge of a request that
    was refused before any upstream was called. *)

From Stdlib Require Import QArith.
From S2P Require Import Prelude GoStrings CivilTime PurchasePolicy Ledger LedgerFacts Subscription Decimal PriceTiers UsageEvidence Request PriceBookBilling Settlement SettlementFacts.
#[global] Open Scope Z_scope.

Implicit Types (db : st_db) (s w : settlement) (k : request_key).

(** The amounts of a settlement: tenant, user, API key, subscription. *)
Definition dues_of s : Z * Z * Z * Z :=
  (se_tenant_due s, se_user_due s, se_key_due s, se_sub_due s).

(** A posting charges the amounts due, a refund returns them. *)
Inductive st_event :=
| EvPosted (id : string) (dues : Z * Z * Z * Z)
| EvRefunded (id : string) (dues : Z * Z * Z * Z).

Definition posted_ids (h : list st_event) : list string :=
  omap (fun e => match e with EvPosted id _ => Some id | _ => None end) h.
Definition refunded_ids (h : list st_event) : list string :=
  omap (fun e => match e with EvRefunded id _ => Some id | _ => None end) h.

Section System.
Context (text_leb : string -> string -> bool).
(** [BillingOriginAt], or the start of the request: a replay of a task keeps the
    time the task was created. *)
Context (origin_of : string -> Z).

Inductive st_step : st_db -> list st_event -> st_db -> Prop :=
| step_register now fresh r at_ db db' :
    origin_of (rq_RequestID r) <= now ->
    register now (origin_of (rq_RequestID r)) fresh r db = Ok (at_, db') -> st_step db [] db'
| step_heartbeat now id db db' : heartbeat now id db = Ok (tt, db') -> st_step db [] db'
| step_seal now priced r0 r d c db db' :
    log_charge priced (log_request r0) = Ok (r, d, c) ->
    seal now r d c db = Ok (tt, db') -> st_step db [] db'
| step_post locked now w db db' :
    next_work text_leb locked now db = Some w ->
    postSettlement now w db = Ok (tt, db') -> st_step db [EvPosted (se_id w) (dues_of w)] db'
| step_mark now w msg db db' : mark_failed now w msg db = Ok (tt, db') -> st_step db [] db'
| step_refund now cutoff uuid1 uuid2 id reason operator w db db' :
    find_key se_id id (s_settlements db) = Some w ->
    RefundSettlement now cutoff uuid1 uuid2 id reason operator db = Ok (tt, db') ->
    st_step db (if bool_decide (se_state w = StateRefunded) then []
                else [EvRefunded id (dues_of w)]) db'
| step_recover now scanned db db' : RecoverRequests now scanned db = Ok (tt, db') -> st_step db [] db'
| step_retire financial requests errors db db' :
    RetireRecords financial requests errors db = Ok (tt, db') -> st_step db [] db'
| step_other money keys meters tasks db : (** every other writer of the shared tables *)
    st_step db [] (set_tasks tasks (set_meters meters (set_api_keys keys (set_money money db)))).

(** A run from tables without requests, with the history of its events. *)
Inductive st_run : st_db -> list st_event -> Prop :=
| run_start db : s_keys db = ∅ -> s_settlements db = [] -> st_run db []
| run_step db h ev db' : st_run db h -> st_step db ev db' -> st_run db' (h ++ ev).

(** ** The invariant *)

Definition is_posted s : Prop := se_state s = StatePosted \/ se_state s = StateRefunded.
Definition is_refunded s : Prop := se_state s = StateRefunded.

(** What the history says of a row. *)
Definition row_history (h : list st_event) s : Prop :=
  forall d, (EvPosted (se_id s) d ∈ h <-> d = dues_of s /\ is_posted s) /\
            (EvRefunded (se_id s) d ∈ h <-> d = dues_of s /\ is_refunded s).

Record settle_inv db (h : list st_event) : Prop := SettleInv {
  i_rows : NoDup (se_id <$> s_settlements db);
  i_check : forall s, s ∈ s_settlements db -> settlement_check s = true;
  i_key : forall s, s ∈ s_settlements db -> exists k, s_keys db !! se_id s = Some k /\
            rk_registered_at k = se_created_at s /\ is_Some (rk_sealed_at k);
  i_sealed : forall id k, s_keys db !! id = Some k -> is_Some (rk_sealed_at k) ->
               id ∈ se_id <$> s_settlements db;
  i_origin : forall id k, s_keys db !! id = Some k -> origin_of id <= rk_registered_at k;
  i_posted : NoDup (posted_ids h);
  i_refunded : NoDup (refunded_ids h);
  i_state : forall s, s ∈ s_settlements db -> row_history h s;
  i_known : forall id d, EvPosted id d ∈ h \/ EvRefunded id d ∈ h ->
              (id ∈ se_id <$> s_settlements db) \/
              (s_keys db !! id = None /\ exists c, s_closed_before db = Some c /\ origin_of id < c);
  i_both : forall id d, EvRefunded id d ∈ h -> EvPosted id d ∈ h }.

Lemma inv_core db db' h : same_core db db' -> settle_inv db h -> settle_inv db' h.
Proof.
  intros (Hk & Hs & Hc) H. destruct H as [a b c d e f g i j l].
  split; rewrite ?Hk, ?Hs, ?Hc; done.
Qed.

Lemma inv_unsealed_fresh db h id k :
  settle_inv db h -> s_keys db !! id = Some k -> rk_sealed_at k = None ->
  (id ∉ se_id <$> s_settlements db) /\ forall d, (EvPosted id d ∉ h) /\ (EvRefunded id d ∉ h).
Proof.
  intros H Hk Hs.
  assert (Hno : id ∉ se_id <$> s_settlements db).
  { intros (s & -> & Hin)%list_elem_of_fmap. destruct (i_key db h H s Hin) as (k' & Hk' & _ & Hse).
    rewrite Hk in Hk'. injection Hk' as <-. rewrite Hs in Hse. by apply is_Some_None in Hse. }
  split; [done|]. intros d. split; intros Hin.
  - destruct (i_known db h H id d (or_introl Hin)) as [? | [Hn _]]; [done | by rewrite Hk in Hn].
  - destruct (i_known db h H id d (or_intror Hin)) as [? | [Hn _]]; [done | by rewrite Hk in Hn].
Qed.

Lemma at_key_spec c id s : at_key c id s = true <-> se_created_at s = c /\ se_id s = id.
Proof. unfold at_key. by rewrite andb_true_iff, Z.eqb_eq, bool_decide_eq_true. Qed.

(** Rows updated in place, with the events the update stands for. *)
Lemma inv_update_rows db h cond f ev db' :
  settle_inv db h ->
  s_keys db' = s_keys db -> s_closed_before db' = s_closed_before db ->
  s_settlements db' = update_where cond f (s_settlements db) ->
  (forall s, se_id (f s) = se_id s /\ se_created_at (f s) = se_created_at s) ->
  (forall s, s ∈ s_settlements db -> cond s = true -> settlement_check (f s) = true) ->
  NoDup (posted_ids (h ++ ev)) -> NoDup (refunded_ids (h ++ ev)) ->
  (forall s, s ∈ s_settlements db -> row_history (h ++ ev) (if cond s then f s else s)) ->
  (forall id d, EvPosted id d ∈ ev \/ EvRefunded id d ∈ ev -> id ∈ se_id <$> s_settlements db) ->
  (forall id d, EvRefunded id d ∈ ev -> EvPosted id d ∈ h) ->
  settle_inv db' (h ++ ev).
Proof.
  intros H Hk Hc Hs Hf Hck Hnp Hnr Hst Hev Hboth.
  assert (Hids : se_id <$> s_settlements db' = se_id <$> s_settlements db)
    by (rewrite Hs; apply keys_update_where; intros s; apply Hf).
  split; rewrite ?Hids, ?Hk, ?Hc.
  - apply (i_rows db h H).
  - intros s Hin. rewrite Hs in Hin. apply elem_of_update_where in Hin as (s0 & Hin & ->).
    destruct (cond s0) eqn:Hcond; [by apply Hck | by apply (i_check db h H)].
  - intros s Hin. rewrite Hs in Hin. apply elem_of_update_where in Hin as (s0 & Hin & ->).
    destruct (i_key db h H s0 Hin) as (k & H1 & H2 & H3). exists k.
    destruct (cond s0); [destruct (Hf s0) as [-> ->]|]; done.
  - apply (i_sealed db h H).
  - apply (i_origin db h H).
  - done.
  - done.
  - intros s Hin. rewrite Hs in Hin. apply elem_of_update_where in Hin as (s0 & Hin & ->). by apply Hst.
  - intros id d Hin. rewrite !elem_of_app in Hin.
    destruct Hin as [[Hin | Hin] | [Hin | Hin]].
    + by apply (i_known db h H id d); left.
    + left. by apply (Hev id d); left.
    + by apply (i_known db h H id d); right.
    + left. by apply (Hev id d); right.
  - intros id d. rewrite !elem_of_app. intros [Hin | Hin]; left; [by apply (i_both db h H) | by apply Hboth].
Qed.

(** Updates that change neither the state class nor the amounts leave no event. *)
Lemma inv_update_quiet db h cond f db' :
  settle_inv db h ->
  s_keys db' = s_keys db -> s_closed_before db' = s_closed_before db ->
  s_settlements db' = update_where cond f (s_settlements db) ->
  (forall s, se_id (f s) = se_id s /\ se_created_at (f s) = se_created_at s /\ dues_of (f s) = dues_of s) ->
  (forall s, s ∈ s_settlements db -> cond s = true ->
     settlement_check (f s) = true /\ (is_posted (f s) <-> is_posted s) /\ (is_refunded (f s) <-> is_refunded s)) ->
  settle_inv db' h.
Proof.
  intros H Hk Hc Hs Hf Hq. rewrite <- (app_nil_r h). eapply (inv_update_rows db h cond f []); try done.
  - intros s. split; apply Hf.
  - intros s Hin Hcond. by apply Hq.
  - rewrite app_nil_r. apply (i_posted db h H).
  - rewrite app_nil_r. apply (i_refunded db h H).
  - intros s Hin. rewrite app_nil_r. destruct (cond s) eqn:Hcond; [|by apply (i_state db h H)].
    destruct (Hf s) as (Hi & _ & Hd), (Hq s Hin Hcond) as (_ & Hp & Hr).
    pose proof (i_state db h H s Hin) as Hh. intros d. rewrite Hi, Hd, Hp, Hr. apply Hh.
  - intros id d [[]%not_elem_of_nil | []%not_elem_of_nil].
  - intros id d []%not_elem_of_nil.
Qed.

(** A new row for a registered, unsealed request, which the same transaction seals. *)
Lemma inv_new_row db h id k s now db' :
  settle_inv db h -> s_keys db !! id = Some k -> rk_sealed_at k = None ->
  se_id s = id -> se_created_at s = rk_registered_at k -> settlement_check s = true ->
  ~ is_posted s ->
  s_closed_before db' = s_closed_before db -> s_settlements db' = s_settlements db ++ [s] ->
  s_keys db' = alter (fun k => RequestKey (rk_registered_at k) (rk_lease_until k) (Some now)
                                 (rk_tenant k) (rk_user k)) id (s_keys db) ->
  settle_inv db' h.
Proof.
  intros H Hk Hns Hid Hcr Hck Hnp Hc Hs Hkeys.
  destruct (inv_unsealed_fresh db h id k H Hk Hns) as [Hfresh Hev].
  assert (Hlook : forall i, i <> id -> s_keys db' !! i = s_keys db !! i)
    by (intros i Hi; by rewrite Hkeys, lookup_alter_ne).
  split; rewrite ?Hc.
  - rewrite Hs, fmap_app. apply NoDup_app. split; [apply (i_rows db h H)|]. split; [|apply NoDup_singleton].
    intros x Hx Hx'. apply list_elem_of_singleton in Hx'. rewrite Hid in Hx'. by subst x.
  - intros s' Hin. rewrite Hs in Hin. apply elem_of_app in Hin as [Hin | ->%list_elem_of_singleton];
      [by apply (i_check db h H) | done].
  - intros s' Hin. rewrite Hs in Hin. apply elem_of_app in Hin as [Hin | ->%list_elem_of_singleton].
    + rewrite Hlook; [by apply (i_key db h H)|]. intros Heq. apply Hfresh. rewrite <- Heq. by apply list_elem_of_fmap_2.
    + rewrite Hid, Hkeys, lookup_alter_eq, Hk. simpl. eexists. split; [reflexivity|]. simpl. split; [done|]. by eexists.
  - intros i k' Hk' Hse. rewrite Hs, fmap_app. apply elem_of_app.
    destruct (decide (i = id)) as [-> | Hne]; [right; apply list_elem_of_singleton; by rewrite Hid|].
    left. rewrite Hlook in Hk' by done. by eapply (i_sealed db h H).
  - intros i k' Hk'. destruct (decide (i = id)) as [-> | Hne].
    + rewrite Hkeys, lookup_alter_eq, Hk in Hk'. injection Hk' as <-. simpl. by apply (i_origin db h H).
    + rewrite Hlook in Hk' by done. by apply (i_origin db h H).
  - apply (i_posted db h H).
  - apply (i_refunded db h H).
  - intros s' Hin. rewrite Hs in Hin. apply elem_of_app in Hin as [Hin | ->%list_elem_of_singleton];
      [by apply (i_state db h H)|]. intros d. rewrite Hid. destruct (Hev d) as [H1 H2].
    split; split; [done | by intros [_ ?] | done | intros [_ Hr]; destruct Hnp; by right].
  - intros i d Hin. destruct (i_known db h H i d Hin) as [Hi | [Hn Hcl]].
    + left. rewrite Hs, fmap_app. apply elem_of_app. by left.
    + right. split; [|done]. rewrite Hlook; [done|]. intros ->. by rewrite Hk in Hn.
  - apply (i_both db h H).
Qed.

(** ** Each transaction keeps the invariant *)

Lemma inv_register db h now fresh r at_ db' :
  settle_inv db h -> origin_of (rq_RequestID r) <= now ->
  register now (origin_of (rq_RequestID r)) fresh r db = Ok (at_, db') -> settle_inv db' h.
Proof.
  intros H Ho Hrun. set (id := rq_RequestID r) in *. unfold register in Hrun. fold id in Hrun.
  destruct (requestOwners r) as [[tenant user] key].
  apply tx_bind_ok in Hrun as ([] & db1 & Hg & Hrun). apply tx_guard_ok in Hg as [_ ->].
  rewrite tx_get_bind in Hrun.
  apply tx_bind_ok in Hrun as ([] & db1 & Hg & Hrun). apply tx_guard_ok in Hg as [Hcl ->].
  apply tx_bind_ok in Hrun as (at1 & db1 & Hat & Hrun). rewrite tx_get_bind in Hrun.
  apply tx_bind_ok in Hrun as ([] & db2 & Hrow & Hrun). injection Hrun as <- <-.
  assert (Hcore : same_core db1 db2).
  { destruct (existsb _ _) in Hrow; by injection Hrow as <-. }
  apply (inv_core db1 db2); [done|]. clear Hcore Hrow.
  destruct (s_keys db !! id) as [k|] eqn:Hk.
  { destruct (_ && _ && _) in Hat; [|done]. by injection Hat as <- <-. }
  apply tx_bind_ok in Hat as ([] & db3 & Hp & Hat). injection Hp as <-. injection Hat as <- <-.
  assert (Hlook : forall i, i <> id -> s_keys (set_keys (<[id:=RequestKey now (now + 180 * Second) None tenant user]> (s_keys db)) db) !! i = s_keys db !! i)
    by (intros i Hi; simpl; by rewrite lookup_insert_ne).
  split; simpl.
  - apply (i_rows db h H).
  - apply (i_check db h H).
  - intros s Hin. destruct (i_key db h H s Hin) as (k & Hks & Hrest). exists k. split; [|done].
    rewrite lookup_insert_ne; [done|]. intros Heq. by rewrite <- Heq, Hk in Hks.
  - intros i k. destruct (decide (i = id)) as [-> | Hne].
    + rewrite lookup_insert_eq. intros [= <-] Hse. simpl in Hse. by apply is_Some_None in Hse.
    + rewrite lookup_insert_ne by done. apply (i_sealed db h H).
  - intros i k. destruct (decide (i = id)) as [-> | Hne].
    + rewrite lookup_insert_eq. by intros [= <-].
    + rewrite lookup_insert_ne by done. apply (i_origin db h H).
  - apply (i_posted db h H).
  - apply (i_refunded db h H).
  - apply (i_state db h H).
  - intros i d Hin. destruct (i_known db h H i d Hin) as [Hi | [Hn (c & Hc & Hlt)]]; [by left | right].
    destruct (decide (i = id)) as [-> | Hne].
    + rewrite Hc in Hcl. apply Z.ltb_ge in Hcl. lia.
    + rewrite lookup_insert_ne by done. eauto.
  - apply (i_both db h H).
Qed.

Lemma inv_heartbeat db h now id db' :
  settle_inv db h -> heartbeat now id db = Ok (tt, db') -> settle_inv db' h.
Proof.
  intros H. unfold heartbeat. rewrite tx_get_bind.
  destruct (s_keys db !! id) as [k|] eqn:Hk; [|by intros [= <-]].
  destruct (rk_sealed_at k) as [t|] eqn:Hs; intros [= <-]; [done|].
  split; simpl; try apply H.
  - intros s Hin. destruct (i_key db h H s Hin) as (k' & Hks & Hcr & Hse). exists k'. split; [|done].
    rewrite lookup_insert_ne; [done|]. intros Heq. rewrite <- Heq, Hk in Hks. injection Hks as <-.
    rewrite Hs in Hse. by apply is_Some_None in Hse.
  - intros i k'. destruct (decide (i = id)) as [-> | Hne].
    + rewrite lookup_insert_eq. intros [= <-] Hse. simpl in Hse. by apply is_Some_None in Hse.
    + rewrite lookup_insert_ne by done. apply (i_sealed db h H).
  - intros i k'. destruct (decide (i = id)) as [-> | Hne].
    + rewrite lookup_insert_eq. intros [= <-]. simpl. by apply (i_origin db h H).
    + rewrite lookup_insert_ne by done. apply (i_origin db h H).
  - intros i d Hin. destruct (i_known db h H i d Hin) as [Hi | [Hn Hc]]; [by left | right].
    split; [|done]. destruct (decide (i = id)) as [-> | Hne]; [by rewrite Hk in Hn|].
    by rewrite lookup_insert_ne.
Qed.

Lemma log_charge_state priced r0 r d c :
  log_charge priced r0 = Ok (r, d, c) -> ch_state c = StateWaived \/ ch_state c = StatePending.
Proof.
  unfold log_charge. cbv zeta.
  match goal with |- match ?x with _ => _ end = _ -> _ => destruct x as [[bill r1]|e] end; [|done].
  destruct (requestOwners _) as [[tenant user] key]. destruct (SubscriptionDebitMicro _) as [sd m]. cbv zeta.
  destruct (_ && (_ || _)); [done|]. intros [= <- <- <-].
  destruct (negb _); [by left|]. destruct (_ && _ && _ && _); [by left | by right].
Qed.

Lemma dues_interrupted b s :
  se_id (with_interrupted b s) = se_id s /\ se_created_at (with_interrupted b s) = se_created_at s /\
  dues_of (with_interrupted b s) = dues_of s.
Proof. done. Qed.

Lemma inv_seal db h now r d c db' :
  settle_inv db h -> ch_state c = StateWaived \/ ch_state c = StatePending ->
  seal now r d c db = Ok (tt, db') -> settle_inv db' h.
Proof.
  intros H Hst Hrun. unfold seal in Hrun. destruct (requestOwners r) as [[tenant user] key] eqn:How.
  rewrite tx_get_bind in Hrun. set (id := rq_RequestID r) in *.
  destruct (s_keys db !! id) as [k|] eqn:Hk; [|done]. cbv zeta in Hrun.
  destruct (rk_sealed_at k) as [t|] eqn:Hse.
  - apply tx_bind_ok in Hrun as (y & db1 & Hu & Hrun). apply update_request_core in Hu.
    apply (inv_core _ _ _ Hu) in H. clear Hu. destruct (interrupted r); [|by injection Hrun as <-].
    apply tx_bind_ok in Hrun as (n & db2 & Hu & Hrun).
    apply (inv_core db2).
    { destruct (0 <? n); [by eapply update_daily_core | by injection Hrun as <-]. }
    apply update_settlements_ok in Hu as (_ & -> & Hck).
    eapply (inv_update_quiet db1 h _ (with_interrupted true)); try done.
    intros s Hin Hcond. split; [by apply Hck | done].
  - apply tx_bind_ok in Hrun as (y & db1 & Hu & Hrun). apply update_request_core in Hu.
    apply tx_bind_ok in Hrun as (y' & db2 & He & Hrun).
    assert (Hcore : same_core db db2).
    { etrans; [exact Hu|]. destruct (cd_Error d); [by eapply insert_error_core | by injection He as <- <-]. }
    clear Hu He. apply tx_bind_ok in Hrun as (y'' & db3 & Hi & Hrun).
    apply tx_bind_ok in Hrun as (z & db4 & Hkey & Hrun). apply upsert_daily_core in Hrun.
    apply (inv_core db4); [done|]. apply insert_settlement_ok in Hi as (_ & Hck & ->).
    apply seal_key_ok in Hkey as (E1 & E2 & E3). destruct Hcore as (C1 & C2 & C3). simpl in *.
    apply (inv_new_row db h id k (new_settlement (rk_registered_at k) now r c) now); try done.
    + unfold new_settlement. by rewrite How.
    + unfold new_settlement. by rewrite How.
    + unfold new_settlement, is_posted. rewrite How. simpl.
      intros [Hx | Hx]; destruct Hst as [Hst | Hst]; rewrite Hst in Hx; discriminate Hx.
    + by rewrite E2.
    + by rewrite E1, C2.
    + by rewrite E3, C1.
Qed.

Lemma next_work_elem locked now db w :
  next_work text_leb locked now db = Some w -> w ∈ s_settlements db /\ se_state w = StatePending.
Proof.
  unfold next_work. intros Hh.
  assert (Hin : w ∈ order_by (work_leb text_leb) (List.filter (fun s => bool_decide (se_state s = StatePending) &&
      (se_available_at s <=? now) && negb (locked (se_id s))) (s_settlements db))).
  { destruct (order_by _ _) as [|x l]; [done|]. injection Hh as ->. apply list_elem_of_here. }
  rewrite elem_of_order_by in Hin. apply elem_of_filter_rows in Hin as [Hc Hin].
  apply andb_true_iff in Hc as [Hc _]. apply andb_true_iff in Hc as [Hc _]. by apply bool_decide_eq_true in Hc.
Qed.

(** The row a key selects. *)
Lemma at_key_row db h w s :
  settle_inv db h -> w ∈ s_settlements db -> s ∈ s_settlements db ->
  at_key (se_created_at w) (se_id w) s = true -> s = w.
Proof.
  intros H Hw Hs [_ Hid]%at_key_spec. by apply (keyed_unique se_id (s_settlements db)); [apply (i_rows db h H)|..].
Qed.
Lemma at_key_self w : at_key (se_created_at w) (se_id w) w = true.
Proof. by apply at_key_spec. Qed.

(** The row [w] moved to state class "posted" or "refunded", with its event. *)
Lemma inv_event db h w f ev db' :
  settle_inv db h -> w ∈ s_settlements db ->
  s_keys db' = s_keys db -> s_closed_before db' = s_closed_before db ->
  s_settlements db' = update_where (at_key (se_created_at w) (se_id w)) f (s_settlements db) ->
  (forall s, se_id (f s) = se_id s /\ se_created_at (f s) = se_created_at s /\ dues_of (f s) = dues_of s) ->
  settlement_check (f w) = true ->
  (ev = EvPosted (se_id w) (dues_of w) /\ ~ is_posted w /\ is_posted (f w) /\ ~ is_refunded (f w)) \/
  (ev = EvRefunded (se_id w) (dues_of w) /\ is_posted w /\ ~ is_refunded w /\ is_refunded (f w)) ->
  settle_inv db' (h ++ [ev]).
Proof.
  intros H Hw Hk Hc Hs Hf Hck Hcase.
  assert (Hother : forall s, s ∈ s_settlements db -> s <> w -> se_id s <> se_id w).
  { intros s Hin Hne Heq. apply Hne. by apply (keyed_unique se_id (s_settlements db)); [apply (i_rows db h H)|..]. }
  pose proof (i_state db h H w Hw) as Hhw.
  eapply (inv_update_rows db h (at_key (se_created_at w) (se_id w)) f [ev]); try done.
  - intros s. split; apply Hf.
  - intros s Hin Hat. by rewrite (at_key_row db h w s H Hw Hin Hat).
  - unfold posted_ids. rewrite omap_app. apply NoDup_app. split; [apply (i_posted db h H)|].
    destruct Hcase as [(-> & Hnp & _) | (-> & _)]; simpl; [|split; [by intros ? _ ?%not_elem_of_nil | constructor]].
    split; [|apply NoDup_singleton]. intros x Hx ->%list_elem_of_singleton.
    apply list_elem_of_omap in Hx as (e & He & Hm). destruct e as [i d|]; [|done]. injection Hm as ->.
    by apply (proj1 (Hhw d)) in He as [_ ?].
  - unfold refunded_ids. rewrite omap_app. apply NoDup_app. split; [apply (i_refunded db h H)|].
    destruct Hcase as [(-> & _) | (-> & _ & Hnr & _)]; simpl; [split; [by intros ? _ ?%not_elem_of_nil | constructor]|].
    split; [|apply NoDup_singleton]. intros x Hx ->%list_elem_of_singleton.
    apply list_elem_of_omap in Hx as (e & He & Hm). destruct e as [|i d]; [done|]. injection Hm as ->.
    by apply (proj2 (Hhw d)) in He as [_ ?].
  - intros s Hin. destruct (decide (se_id s = se_id w)) as [Heq | Hne].
    + assert (s = w) as -> by (by apply (keyed_unique se_id (s_settlements db)); [apply (i_rows db h H)|..]).
      rewrite at_key_self. destruct (Hf w) as (E1 & _ & E2). intros d. rewrite E1, E2, !elem_of_app, !list_elem_of_singleton.
      specialize (Hhw d). destruct Hcase as [(-> & Hnp & Hp & Hnr) | (-> & Hp & Hnr & Hr)].
      * split; split.
        -- intros [Hin' | [= ->]]; [|done]. by apply (proj1 Hhw) in Hin' as [_ ?].
        -- intros [-> _]. by right.
        -- intros [Hin' | [=]]. apply (proj2 Hhw) in Hin' as [_ Hx]. destruct Hnp. by right.
        -- by intros [_ ?].
      * split; split.
        -- intros [Hin' | [=]]. apply (proj1 Hhw) in Hin' as [-> _]. split; [done | by right].
        -- intros [-> _]. left. by apply (proj1 Hhw).
        -- intros [Hin' | [= ->]]; [|done]. by apply (proj2 Hhw) in Hin' as [_ ?].
        -- intros [-> _]. by right.
    + assert (at_key (se_created_at w) (se_id w) s = false) as ->.
      { apply not_true_is_false. by intros [_ ?]%at_key_spec. }
      intros d. rewrite !elem_of_app, !list_elem_of_singleton. destruct (i_state db h H s Hin d) as [A1 A2].
      split; [rewrite <- A1 | rewrite <- A2]; (split; [|by left]); intros [? | Hx]; try done;
        destruct Hcase as [(-> & _) | (-> & _)]; try done; injection Hx as Hx _; by destruct Hne.
  - intros id d. rewrite !list_elem_of_singleton. intros [Hx | Hx];
      destruct Hcase as [(-> & _) | (-> & _)]; try done; injection Hx as -> _; by apply list_elem_of_fmap_2.
  - intros id d Hx%list_elem_of_singleton. destruct Hcase as [(-> & _) | (-> & Hp & _)]; [done|].
    injection Hx as -> ->. by apply (proj1 (Hhw (dues_of w))).
Qed.

Lemma post_subscription_core now w db u db' :
  post_subscription now w db = Ok (u, db') ->
  s_keys db' = s_keys db /\ s_closed_before db' = s_closed_before db /\
  exists win, s_settlements db' = update_where (at_key (se_created_at w) (se_id w)) (with_windows win) (s_settlements db).
Proof.
  unfold post_subscription. rewrite tx_get_bind. intros H. destruct (find_key _ _ _) as [s|]; [|done].
  apply tx_bind_ok in H as ([] & db1 & Hg & H). apply tx_guard_ok in Hg as [_ ->].
  apply tx_bind_ok in H as ([] & db1 & Hp & H). injection Hp as <-.
  apply tx_bind_ok in H as (n & db2 & Hu & H). injection H as <- <-.
  apply update_settlements_ok in Hu as (_ & -> & _). simpl. eauto.
Qed.

Lemma update_where_compose {A} (p : A -> bool) (f g : A -> A) l :
  (forall a, p (f a) = p a) -> update_where p g (update_where p f l) = update_where p (fun a => g (f a)) l.
Proof.
  intros Hp. unfold update_where. rewrite <- list_fmap_compose. apply list_fmap_ext. intros i a _. unfold compose.
  destruct (p a) eqn:Ha; [by rewrite Hp, Ha | by rewrite Ha].
Qed.

(** What the subscription block of a posting writes on the row. *)
Definition posting_windows (now : Z) w db (g : settlement -> settlement) : Prop :=
  (0 < se_sub_due w /\ exists sub, find_key ss_ID (se_sub w) (s_meters db) = Some sub /\
     g = with_windows (Some (debit_windows (se_sub_due w) (debit_sub now (se_sub_due w) sub)))) \/
  (se_sub_due w <= 0 /\ g = id).

Lemma posting_windows_row now w db g : posting_windows now w db g ->
  forall s, exists win, g s = s \/ g s = with_windows win s.
Proof. intros [(_ & sub & _ & ->) | [_ ->]] s; [eexists; by right | exists None; by left]. Qed.

Definition post_row (now : Z) (g : settlement -> settlement) s : settlement :=
  with_posting StatePosted (se_tenant_due (g s)) (se_user_due (g s)) "" (Some now) (g s).

(** The core of a successful posting: one row's state, charges and windows. *)
Lemma postSettlement_core now w db u db' :
  postSettlement now w db = Ok (u, db') ->
  s_keys db' = s_keys db /\ s_closed_before db' = s_closed_before db /\
  exists g, posting_windows now w db g /\
    s_settlements db' = update_where (at_key (se_created_at w) (se_id w)) (post_row now g) (s_settlements db) /\
    (forall s, s ∈ s_settlements db -> at_key (se_created_at w) (se_id w) s = true ->
       settlement_check (post_row now g s) = true).
Proof.
  unfold postSettlement. intros H.
  apply tx_bind_ok in H as (y1 & db1 & H1 & H). pose proof (lockSettlementAccounts_funds _ _ _ _ H1) as M1.
  injection M1 as _ _ M1. apply lockSettlementAccounts_core in H1.
  apply tx_bind_ok in H as (y2 & db2 & H2 & H). pose proof (charge_payer_meters _ _ _ _ _ _ _ H2) as M2. apply charge_payer_core in H2.
  apply tx_bind_ok in H as (y3 & db3 & H3 & H). pose proof (charge_payer_meters _ _ _ _ _ _ _ H3) as M3. apply charge_payer_core in H3.
  apply tx_bind_ok in H as (y4 & db4 & H4 & H).
  assert (C4 : same_core db3 db4 /\ s_meters db4 = s_meters db3).
  { destruct (0 <? se_key_due w) in H4; [|by injection H4 as <- <-].
    split; [by eapply key_used_core | by eapply key_used_meters]. }
  destruct C4 as [C4 M4]. clear H4. assert (HM : s_meters db4 = s_meters db) by congruence. clear M1 M2 M3 M4.
  pose proof (same_core_trans _ _ _ (same_core_trans _ _ _ H1 H2) (same_core_trans _ _ _ H3 C4)) as (C1 & C2 & C3).
  clear H1 H2 H3 C4. apply tx_bind_ok in H as (y5 & db5 & H5 & H).
  apply tx_bind_ok in H as (n & db6 & H6 & H). apply update_settlements_ok in H6 as (_ & -> & Hck).
  apply tx_bind_ok in H as (y7 & db7 & H7 & H). apply update_daily_core in H7. apply charge_tasks_core in H.
  pose proof (same_core_trans _ _ _ H7 H) as (D1 & D2 & D3). simpl in D1, D2, D3. clear H7 H.
  assert (Hg : exists g, posting_windows now w db g /\ s_keys db5 = s_keys db4 /\ s_closed_before db5 = s_closed_before db4 /\
    s_settlements db5 = update_where (at_key (se_created_at w) (se_id w)) g (s_settlements db4)).
  { destruct (Z.ltb_spec 0 (se_sub_due w)) as [Hp | Hz].
    - pose proof (post_subscription_core _ _ _ _ _ H5) as (E1 & E2 & _).
      apply post_subscription_funds in H5 as (_ & _ & _ & sub & Hsub & E3). eexists.
      split; [left; split; [done|]; exists sub; split; [by rewrite <- HM | reflexivity]|]. done.
    - injection H5 as <- <-. exists id. split; [by right|]. split; [done|]. split; [done|].
      unfold update_where. rewrite <- (list_fmap_id (s_settlements db4)) at 1. apply list_fmap_ext.
      intros i x _. by destruct (at_key _ _ x). }
  destruct Hg as (g & Hg & E1 & E2 & E3). split; [congruence|]. split; [congruence|]. exists g. split; [done|].
  assert (Hat : forall s, at_key (se_created_at w) (se_id w) (g s) = at_key (se_created_at w) (se_id w) s).
  { intros s. destruct (posting_windows_row _ _ _ _ Hg s) as (win & [-> | ->]); done. }
  split.
  - rewrite D2, E3, C2, update_where_compose by done. done.
  - intros s Hin Hs. apply (Hck (g s)); [|by rewrite Hat]. rewrite E3, C2. apply elem_of_update_where. exists s. by rewrite Hs.
Qed.

Lemma inv_post db h locked now w db' :
  settle_inv db h -> next_work text_leb locked now db = Some w ->
  postSettlement now w db = Ok (tt, db') -> settle_inv db' (h ++ [EvPosted (se_id w) (dues_of w)]).
Proof.
  intros H Hw Hrun. apply next_work_elem in Hw as [Hw Hst].
  apply postSettlement_core in Hrun as (E1 & E2 & g & Hg0 & E3 & Hck).
  pose proof (posting_windows_row _ _ _ _ Hg0) as Hg. unfold post_row in *.
  eapply (inv_event db h w _ _ db' H Hw E1 E2 E3).
  - intros s. by destruct (Hg s) as (win & [-> | ->]).
  - apply Hck; [done | apply at_key_self].
  - left. split; [done|]. destruct (Hg w) as (win & Hgw).
    unfold is_posted, is_refunded. rewrite Hst. split; [by intros [? | ?]|].
    split; [by left | done].
Qed.

Lemma inv_mark db h now w msg db' :
  settle_inv db h -> mark_failed now w msg db = Ok (tt, db') -> settle_inv db' h.
Proof.
  intros H Hrun. unfold mark_failed in Hrun. apply tx_bind_ok in Hrun as (n & db1 & Hu & Hrun). injection Hrun as <-.
  apply update_settlements_ok in Hu as (_ & -> & Hck). eapply (inv_update_quiet db h); try done.
  intros s Hin Hc. split; [by apply Hck|].
  apply andb_true_iff in Hc as [_ Hp]. apply bool_decide_eq_true in Hp. unfold is_posted, is_refunded.
  rewrite Hp. simpl. destruct (9 <=? se_attempts s); split; split; intros Hx; try done; by destruct Hx.
Qed.

(** The core of a refund of a row that is not refunded yet. *)
Lemma Refund_core now cutoff u1 u2 id reason op w db u db' :
  find_key se_id id (s_settlements db) = Some w -> se_state w <> StateRefunded ->
  RefundSettlement now cutoff u1 u2 id reason op db = Ok (u, db') ->
  se_state w = StatePosted /\ s_keys db' = s_keys db /\ s_closed_before db' = s_closed_before db /\
  s_settlements db' = update_where (at_key (se_created_at w) (se_id w))
    (with_refund StateRefunded (Some now) reason op) (s_settlements db) /\
  settlement_check (with_refund StateRefunded (Some now) reason op w) = true.
Proof.
  intros Hf Hne Hrun. pose proof (find_key_Some se_id _ _ _ Hf) as [Hw Hid]. unfold RefundSettlement in Hrun.
  apply tx_bind_ok in Hrun as ([] & db1 & Hg & Hrun). apply tx_guard_ok in Hg as [_ ->].
  rewrite tx_get_bind, Hf, bool_decide_false in Hrun by done.
  apply tx_bind_ok in Hrun as ([] & db1 & Hg & Hrun). apply tx_guard_ok in Hg as [_ ->].
  apply tx_bind_ok in Hrun as ([] & db1 & Hg & Hrun). apply tx_guard_ok in Hg as [Hpost ->].
  apply negb_false_iff, bool_decide_eq_true in Hpost.
  apply tx_bind_ok in Hrun as (y1 & db1 & H1 & Hrun). apply lockSettlementAccounts_core in H1.
  apply tx_bind_ok in Hrun as (y2 & db2 & H2 & Hrun). apply grant_payer_core in H2.
  apply tx_bind_ok in Hrun as (y3 & db3 & H3 & Hrun). apply grant_payer_core in H3.
  apply tx_bind_ok in Hrun as (y4 & db4 & H4 & Hrun).
  assert (C4 : same_core db3 db4) by (destruct (0 <? se_key_due w) in H4; [by eapply key_used_core | by injection H4 as <- <-]).
  apply tx_bind_ok in Hrun as (y5 & db5 & H5 & Hrun).
  assert (C5 : same_core db4 db5) by (destruct (0 <? se_sub_due w) in H5; [by eapply refund_subscription_core | by injection H5 as <- <-]).
  clear H4 H5. apply tx_bind_ok in Hrun as (n & db6 & H6 & Hrun). apply update_settlements_ok in H6 as (_ & -> & Hck).
  apply update_daily_core in Hrun as (D1 & D2 & D3). simpl in D1, D2, D3.
  pose proof (same_core_trans _ _ _ (same_core_trans _ _ _ H1 H2) (same_core_trans _ _ _ H3 (same_core_trans _ _ _ C4 C5))) as (C1 & C2 & C3).
  subst id. split; [done|]. split; [congruence|]. split; [congruence|]. split; [by rewrite D2, C2|].
  apply Hck; [by rewrite C2 | apply at_key_self].
Qed.

Lemma inv_refund db h now cutoff u1 u2 id reason op w db' :
  settle_inv db h -> find_key se_id id (s_settlements db) = Some w ->
  RefundSettlement now cutoff u1 u2 id reason op db = Ok (tt, db') ->
  settle_inv db' (h ++ (if bool_decide (se_state w = StateRefunded) then [] else [EvRefunded id (dues_of w)])).
Proof.
  intros H Hf Hrun. pose proof (find_key_Some se_id _ _ _ Hf) as [Hw <-].
  destruct (decide (se_state w = StateRefunded)) as [Href | Href].
  - rewrite bool_decide_true, app_nil_r by done. unfold RefundSettlement in Hrun.
    apply tx_bind_ok in Hrun as ([] & db1 & Hg & Hrun). apply tx_guard_ok in Hg as [_ ->].
    rewrite tx_get_bind, Hf, bool_decide_true in Hrun by done. by injection Hrun as <-.
  - rewrite bool_decide_false by done.
    destruct (Refund_core _ _ _ _ _ _ _ w _ _ _ Hf Href Hrun) as (Hpost & E1 & E2 & E3 & Hck).
    eapply (inv_event db h w _ _ db' H Hw E1 E2 E3); try done.
    right. split; [done|]. split; [by left|]. split; [|done]. unfold is_refunded. by rewrite Hpost.
Qed.

Lemma recover_one_core now id k db u db' :
  recover_one now (id, k) db = Ok (u, db') ->
  s_closed_before db' = s_closed_before db /\
  s_keys db' = alter (fun k => RequestKey (rk_registered_at k) (rk_lease_until k) (Some now)
                                 (rk_tenant k) (rk_user k)) id (s_keys db) /\
  exists row, se_id row = id /\ se_created_at row = rk_registered_at k /\ ~ is_posted row /\
    ((existsb (at_key (rk_registered_at k) id) (s_settlements db) = true /\ s_settlements db' = s_settlements db) \/
     (settlement_check row = true /\ s_settlements db' = s_settlements db ++ [row])).
Proof.
  unfold recover_one. intros H. cbv zeta in H.
  apply tx_bind_ok in H as (y1 & db1 & H1 & H). apply seal_key_ok in H1 as (E1 & E2 & E3).
  apply tx_bind_ok in H as (y2 & db2 & H2 & H). apply update_request_core in H2.
  apply tx_bind_ok in H as (y3 & db3 & H3 & H). apply insert_error_core in H3.
  pose proof (same_core_trans _ _ _ H2 H3) as (C1 & C2 & C3). clear H2 H3.
  apply tx_bind_ok in H as (y4 & db4 & H4 & H). apply upsert_daily_core in H as (D1 & D2 & D3).
  assert (Hnp : ~ is_posted (recovery_row now id k)) by (intros [Hp | Hp]; discriminate Hp).
  apply insert_settlement_once_ok in H4 as [[He ->] | (He & Hck & ->)]; simpl in *;
    (split; [congruence|]; split; [congruence|]; exists (recovery_row now id k); split_and!; try done).
  - left. split; [|congruence]. by rewrite <- E1, <- C2.
  - right. split; [done|]. by rewrite D2, C2, E1.
Qed.

Lemma inv_recover_loop now l : forall db h db',
  settle_inv db h -> NoDup l.*1 -> (forall id k, (id, k) ∈ l -> s_keys db !! id = Some k /\ rk_sealed_at k = None) ->
  tx_iter (recover_one now) l db = Ok (tt, db') -> settle_inv db' h.
Proof.
  induction l as [|[id k] l IH]; intros db h db' H Hnd Hl Hrun; [by injection Hrun as <-|].
  cbn [tx_iter] in Hrun. apply tx_bind_ok in Hrun as (y & db1 & H1 & Hrun).
  apply NoDup_cons in Hnd as [Hid Hnd]. simpl in Hid. destruct (Hl id k (list_elem_of_here _ _)) as [Hk Hs].
  apply recover_one_core in H1 as (Hc & Hkeys & row & Hrid & Hrc & Hnp & Hrow).
  destruct (inv_unsealed_fresh db h id k H Hk Hs) as [Hfresh _].
  assert (Hinv : settle_inv db1 h).
  { destruct Hrow as [[He _] | [Hck Hset]].
    - apply existsb_exists in He as (s & Hin & Hat). apply list_elem_of_In in Hin. apply at_key_spec in Hat as [_ <-].
      destruct Hfresh. by apply list_elem_of_fmap_2.
    - by apply (inv_new_row db h id k row now). }
  apply (IH db1 h db' Hinv Hnd); [|done]. intros i k' Hin. rewrite Hkeys, lookup_alter_ne.
  - apply Hl. by apply list_elem_of_further.
  - intros ->. apply Hid. apply list_elem_of_fmap. by exists (i, k').
Qed.

Lemma inv_recover db h now scanned db' :
  settle_inv db h -> RecoverRequests now scanned db = Ok (tt, db') -> settle_inv db' h.
Proof.
  intros H. unfold RecoverRequests. rewrite tx_get_bind. set (l := take 100 _).
  assert (Hl : forall id k, (id, k) ∈ l -> s_keys db !! id = Some k /\ rk_sealed_at k = None).
  { intros id k Hin. apply elem_of_take in Hin as (i & Hin & _). apply list_elem_of_lookup_2 in Hin.
    apply list_elem_of_omap in Hin as (x & _ & Hx). destruct (s_keys db !! x) as [k'|] eqn:Hk; [|done]. simpl in Hx.
    unfold lease_lost in Hx. destruct (rk_sealed_at k') eqn:Hs; [done|].
    destruct (_ <? _); [|done]. injection Hx as -> ->. done. }
  apply inv_recover_loop; [done | | done].
  unfold l. rewrite fmap_take. set (xs := omap _ _).
  assert (Hnd : NoDup xs.*1); [|rewrite <- (take_drop 100 xs.*1) in Hnd; by apply NoDup_app in Hnd as [? _]].
  unfold xs. clear l Hl xs. generalize (NoDup_remove_dups scanned). generalize (remove_dups scanned) as ids.
  induction ids as [|x ids IH]; intros Hnd; [constructor|]. apply NoDup_cons in Hnd as [Hx Hnd]. simpl.
  destruct (s_keys db !! x) as [k|]; simpl; [|by apply IH]. destruct (lease_lost now k); simpl; [|by apply IH].
  apply NoDup_cons. split; [|by apply IH]. intros Hin. apply Hx.
  apply list_elem_of_fmap in Hin as ([i k'] & -> & Hin). apply list_elem_of_omap in Hin as (j & Hj & Hm).
  destruct (s_keys db !! j) as [k2|]; [|done]. simpl in Hm. destruct (lease_lost now k2); [|done].
  by injection Hm as <- _.
Qed.

Lemma inv_retire db h financial requests errors db' :
  settle_inv db h -> RetireRecords financial requests errors db = Ok (tt, db') -> settle_inv db' h.
Proof.
  intros H. unfold RetireRecords. rewrite tx_get_bind. intros Hrun.
  apply tx_bind_ok in Hrun as ([] & db1 & Hg & Hrun). apply tx_guard_ok in Hg as [_ ->]. injection Hrun as <-.
  set (keep := fun s => financial <=? se_created_at s).
  assert (Hin : forall s, s ∈ List.filter keep (s_settlements db) <-> financial <= se_created_at s /\ s ∈ s_settlements db).
  { intros s. rewrite elem_of_filter_rows. unfold keep. by rewrite Z.leb_le. }
  assert (Hids : forall s, s ∈ s_settlements db -> financial <= se_created_at s ->
    se_id s ∈ se_id <$> List.filter keep (s_settlements db)) by (intros s Hs Hf; apply list_elem_of_fmap_2, Hin; done).
  split; simpl; fold keep.
  - apply NoDup_filter_rows, (i_rows db h H).
  - intros s [_ Hs]%Hin. by apply (i_check db h H).
  - intros s [Hf Hs]%Hin. destruct (i_key db h H s Hs) as (k & Hk & Hcr & Hse). exists k. split; [|done].
    apply map_lookup_filter_Some. split; [done|]. left. lia.
  - intros id k [Hk Hc]%map_lookup_filter_Some Hse.
    pose proof (i_sealed db h H id k Hk Hse) as Hi. apply list_elem_of_fmap in Hi as (s & -> & Hs). apply Hids; [done|].
    destruct (i_key db h H s Hs) as (k' & Hk' & Hcr & _). rewrite Hk in Hk'. injection Hk' as <-.
    destruct Hc as [? | Hc]; [lia | rewrite Hc in Hse; by apply is_Some_None in Hse].
  - intros id k [Hk _]%map_lookup_filter_Some. by apply (i_origin db h H).
  - apply (i_posted db h H).
  - apply (i_refunded db h H).
  - intros s [_ Hs]%Hin. by apply (i_state db h H).
  - intros id d Hev. destruct (i_known db h H id d Hev) as [Hi | (Hn & c & Hc & Hlt)].
    + apply list_elem_of_fmap in Hi as (s & -> & Hs). destruct (decide (financial <= se_created_at s)) as [Hf | Hf];
        [left; by apply Hids | right]. destruct (i_key db h H s Hs) as (k & Hk & Hcr & Hse).
      pose proof (i_origin db h H _ _ Hk). split.
      * apply map_lookup_filter_None. right. intros k' Hk' Hc. rewrite Hk in Hk'. injection Hk' as <-.
        destruct Hc as [? | Hc]; [lia | rewrite Hc in Hse; by apply is_Some_None in Hse].
      * destruct (s_closed_before db) as [c|]; eexists; (split; [reflexivity|]); lia.
    + right. split; [apply map_lookup_filter_None; by left|]. rewrite Hc. eexists. split; [reflexivity|]. lia.
  - apply (i_both db h H).
Qed.

Lemma step_inv db h ev db' : settle_inv db h -> st_step db ev db' -> settle_inv db' (h ++ ev).
Proof.
  intros H Hs. destruct Hs; rewrite ?app_nil_r.
  - by eapply inv_register.
  - by eapply inv_heartbeat.
  - eapply inv_seal; [done | by eapply log_charge_state | done].
  - by eapply inv_post.
  - by eapply inv_mark.
  - by eapply inv_refund.
  - by eapply inv_recover.
  - by eapply inv_retire.
  - by apply (inv_core db).
Qed.

Lemma run_inv db h : st_run db h -> settle_inv db h.
Proof.
  induction 1 as [db Hk Hs | db h ev db' _ IH Hstep]; [|by eapply step_inv].
  split; rewrite ?Hs, ?Hk.
  - constructor.
  - intros s Hin. by apply not_elem_of_nil in Hin.
  - intros s Hin. by apply not_elem_of_nil in Hin.
  - intros id k Hx. by rewrite lookup_empty in Hx.
  - intros id k Hx. by rewrite lookup_empty in Hx.
  - constructor.
  - constructor.
  - intros s Hin. by apply not_elem_of_nil in Hin.
  - intros id d [Hin | Hin]; by apply not_elem_of_nil in Hin.
  - intros id d Hin. by apply not_elem_of_nil in Hin.
Qed.

End System.

(** ** The record a request leaves *)

(** *** Funds *)

Lemma funds_bind {A B} (m : SETx A) (q : A -> SETx B) :
  keeps_funds m -> (forall a, keeps_funds (q a)) -> keeps_funds (tx_bind m q).
Proof.
  intros Hm Hq db b db' H. apply tx_bind_ok in H as (a & db1 & H1 & H2).
  etrans; [by eapply Hq | by eapply Hm].
Qed.
Lemma funds_ret {A} (a : A) : keeps_funds (tx_ret a).
Proof. by intros db x db' [= <- <-]. Qed.
Lemma funds_read {A} (q : st_db -> SETx A) :
  (forall db a db', q db db = Ok (a, db') -> funds db' = funds db) -> keeps_funds (tx_bind tx_get q).
Proof. intros H db a db' Hr. rewrite tx_get_bind in Hr. by eapply H. Qed.
Lemma upsert_daily_funds key t : keeps_funds (upsert_daily key t).
Proof. apply funds_read. intros db a db' H. by eapply put_daily_funds. Qed.
Lemma update_request_funds at_ id f : keeps_funds (update_request at_ id f).
Proof. apply funds_read. intros db a db' H. by injection H as <- <-. Qed.
Lemma insert_error_funds once e : keeps_funds (insert_error once e).
Proof. apply funds_read. intros db a db' H. destruct (existsb _ _); [destruct once|]; try done; by injection H as <- <-. Qed.
Lemma seal_key_funds now id : keeps_funds (seal_key now id).
Proof. apply funds_read. intros db a db' H. destruct (s_keys db !! id); by injection H as <- <-. Qed.
Lemma insert_settlement_funds s : keeps_funds (insert_settlement s).
Proof. intros db a db' H. by apply insert_settlement_ok in H as (_ & _ & ->). Qed.
#[export] Hint Resolve funds_bind funds_ret upsert_daily_funds update_request_funds insert_error_funds seal_key_funds
  insert_settlement_funds update_settlements_funds update_daily_funds : core.

(** *** Registration *)

Lemma register_effect now origin fresh r db at_ db' :
  register now origin fresh r db = Ok (at_, db') ->
  funds db' = funds db /\ s_settlements db' = s_settlements db /\ rq_RequestID r <> ""%string /\
  (exists k, s_keys db' !! rq_RequestID r = Some k /\ rk_registered_at k = at_ /\
     (fresh = true -> at_ = now /\ s_keys db !! rq_RequestID r = None /\
        k = RequestKey now (now + 180 * Second) None (requestOwners r).1.1 (requestOwners r).1.2)) /\
  (exists x, x ∈ s_requests db' /\ rr_id x = rq_RequestID r /\ rr_created_at x = at_) /\
  (forall c, s_closed_before db = Some c -> c <= origin).
Proof.
  unfold register. set (id := rq_RequestID r). destruct (requestOwners r) as [[tenant user] key]. intros H.
  apply tx_bind_ok in H as ([] & db1 & Hg & H). apply tx_guard_ok in Hg as [Hid ->]. rewrite tx_get_bind in H.
  apply tx_bind_ok in H as ([] & db1 & Hg & H). apply tx_guard_ok in Hg as [Hcl ->].
  apply tx_bind_ok in H as (at1 & db1 & Hat & H). rewrite tx_get_bind in H.
  apply tx_bind_ok in H as ([] & db2 & Hrow & H). injection H as <- <-.
  assert (E1 : funds db1 = funds db /\ s_settlements db1 = s_settlements db /\
    exists k, s_keys db1 !! id = Some k /\ rk_registered_at k = at1 /\
      (fresh = true -> at1 = now /\ s_keys db !! id = None /\ k = RequestKey now (now + 180 * Second) None tenant user)).
  { destruct (s_keys db !! id) as [k|] eqn:Hk.
    - destruct fresh; cbn [negb andb] in Hat; [done|]. destruct (_ && _) in Hat; [|done]. injection Hat as <- <-.
      split_and!; [done..|]. by exists k.
    - apply tx_bind_ok in Hat as ([] & db3 & Hp & Hat). injection Hp as <-. injection Hat as <- <-.
      split_and!; [done..|]. eexists. simpl. rewrite lookup_insert_eq. by split_and!. }
  destruct E1 as (Hf & Hs & k & Hk & Hrest). split_and!.
  - rewrite <- Hf. destruct (existsb _ _) in Hrow; by injection Hrow as <-.
  - rewrite <- Hs. destruct (existsb _ _) in Hrow; by injection Hrow as <-.
  - intros He. by rewrite bool_decide_true in Hid.
  - exists k. split; [|done]. destruct (existsb _ _) in Hrow; by injection Hrow as <-.
  - destruct (existsb _ _) eqn:He in Hrow.
    + injection Hrow as <-. apply existsb_exists in He as (x & Hx & Hb). apply andb_true_iff in Hb as [H1 H2].
      exists x. apply list_elem_of_In in Hx. apply Z.eqb_eq in H1. apply bool_decide_eq_true in H2. done.
    + injection Hrow as <-. simpl. eexists. split; [apply elem_of_app; right; by apply list_elem_of_singleton|]. done.
  - intros c Hc. rewrite Hc in Hcl. apply Z.ltb_ge in Hcl. lia.
Qed.

(** *** Sealing *)

Lemma seal_funds now r d c : keeps_funds (seal now r d c).
Proof.
  unfold seal. destruct (requestOwners r) as [[tenant user] key]. apply funds_read. intros db a db' H.
  destruct (s_keys db !! rq_RequestID r) as [k|]; [|done]. destruct (rk_sealed_at k).
  - revert db a db' H. match goal with |- forall db a db', ?m db = _ -> _ => change (keeps_funds m) end.
    apply funds_bind; [auto with core|]. intros _.
    destruct (interrupted r); [|auto with core]. apply funds_bind; [auto with core|]. intros n. destruct (0 <? n); auto with core.
  - apply tx_bind_ok in H as (x1 & db1 & H1 & H). apply update_request_funds in H1. rewrite <- H1. clear H1.
    apply tx_bind_ok in H as (x2 & db2 & H1 & H). assert (E : funds db2 = funds db1).
    { destruct (cd_Error d); [by eapply insert_error_funds | by injection H1 as <- <-]. } rewrite <- E. clear E H1.
    apply tx_bind_ok in H as (x3 & db3 & H1%insert_settlement_funds & H). rewrite <- H1.
    apply tx_bind_ok in H as (x4 & db4 & H2%seal_key_funds & H3%upsert_daily_funds). by rewrite <- H2, <- H3.
Qed.

Lemma seal_effect now r d c db db' :
  interrupted r = false -> seal now r d c db = Ok (tt, db') ->
  (forall w, w ∈ s_settlements db' -> w ∈ s_settlements db \/ exists at_, w = new_settlement at_ now r c) /\
  exists k, s_keys db' !! rq_RequestID r = Some k /\ is_Some (rk_sealed_at k).
Proof.
  intros Hint Hrun. unfold seal in Hrun. destruct (requestOwners r) as [[tenant user] key].
  rewrite tx_get_bind in Hrun. set (id := rq_RequestID r) in *.
  destruct (s_keys db !! id) as [k|] eqn:Hk; [|done]. cbv zeta in Hrun. rewrite Hint in Hrun.
  destruct (rk_sealed_at k) as [t|] eqn:Hse.
  - apply tx_bind_ok in Hrun as (y & db1 & Hu & Hrun). apply update_request_core in Hu as (E1 & E2 & _). injection Hrun as <-.
    rewrite E2. split; [by left|]. exists k. by rewrite E1, Hk, Hse.
  - apply tx_bind_ok in Hrun as (y & db1 & Hu & Hrun). apply update_request_core in Hu.
    apply tx_bind_ok in Hrun as (y' & db2 & He & Hrun).
    assert (Hcore : same_core db db2).
    { etrans; [exact Hu|]. destruct (cd_Error d); [by eapply insert_error_core | by injection He as <- <-]. }
    apply tx_bind_ok in Hrun as (y'' & db3 & Hi & Hrun).
    apply tx_bind_ok in Hrun as (z & db4 & Hkey & Hrun). apply upsert_daily_core in Hrun as (D1 & D2 & _).
    apply insert_settlement_ok in Hi as (_ & _ & ->). apply seal_key_ok in Hkey as (E1 & _ & E3).
    destruct Hcore as (C1 & C2 & _). cbn [s_settlements s_keys set_settlements] in *.
    rewrite D1, D2, E1, E3, C1, C2. split.
    + intros w [Hw | ->%list_elem_of_singleton]%elem_of_app; [by left | right; by eexists].
    + exists (RequestKey (rk_registered_at k) (rk_lease_until k) (Some now) (rk_tenant k) (rk_user k)).
      rewrite lookup_alter_eq, Hk. simpl. eauto.
Qed.

(** *** Requests refused before any call *)

Lemma log_request_refused r : rq_Attempts r = 0 -> 400 <= rq_HTTPStatus r -> rq_HTTPStatus r <> 499 ->
  let r' := log_request r in
  rq_RequestID r' = rq_RequestID r /\ rq_Attempts r' = 0 /\ requestOwners r' = requestOwners r /\ decision_failed r' = true.
Proof.
  intros Ha Hs H9. unfold log_request. change (rq_Attempts (initializeSettlementState r)) with (rq_Attempts r). rewrite Ha. change (0 =? 0) with true. cbv iota.
  unfold ApplyReportedUsage. destruct (negb _); split_and!; try done; unfold decision_failed; simpl;
    rewrite (proj2 (Z.leb_le _ _) Hs), (proj2 (Z.eqb_neq _ _) H9); simpl; by rewrite orb_true_r.
Qed.

(** Such a request is waived, whatever it carries. *)
Lemma log_charge_refused priced r : rq_Attempts r = 0 -> 400 <= rq_HTTPStatus r -> rq_HTTPStatus r <> 499 ->
  rq_ClientDeliveryState r = ""%string -> rq_CancellationOrigin r = ""%string ->
  exists r' d, log_charge priced (log_request r) = Ok (r', d, MkCharge StateWaived "request_error_waived" 0 0 0 0) /\
    rq_RequestID r' = rq_RequestID r /\ interrupted r' = false.
Proof.
  intros Ha Hs H9 Hd Hc. pose proof (log_request_refused r Ha Hs H9) as H. cbv zeta in H. destruct H as (H1 & H2 & _ & H4).
  assert (Hi : interrupted (log_request r) = false).
  { unfold interrupted, log_request. change (rq_Attempts (initializeSettlementState r)) with (rq_Attempts r). rewrite Ha. change (0 =? 0) with true. cbv iota.
    unfold ApplyReportedUsage. destruct (negb _); simpl; rewrite Hd, Hc; reflexivity. }
  unfold log_charge, DecideCompletion. rewrite H4. cbv zeta. unfold log_bill. rewrite H2, andb_false_r.
  cbn [Billable ChargeReason negb]. destruct (requestOwners _) as [[tenant user] key].
  destruct (SubscriptionDebitMicro _) as [sub metered]. rewrite andb_false_r. cbn [andb]. eexists _, _. split_and!; [reflexivity|done|done].
Qed.

(** [Log] of a request refused before any call: nobody is charged. *)
Lemma Log_refused now1 now2 origin priced rejected r db :
  rq_Attempts r = 0 -> 400 <= rq_HTTPStatus r -> rq_HTTPStatus r <> 499 ->
  rq_ClientDeliveryState r = ""%string -> rq_CancellationOrigin r = ""%string ->
  let '(db', res) := Log now1 now2 origin priced rejected r db in
  funds db' = funds db /\
  (forall w, w ∈ s_settlements db' -> w ∈ s_settlements db \/
     (se_id w = rq_RequestID r /\ se_state w = StateWaived /\ dues_of w = (0, 0, 0, 0))) /\
  (rejected = false -> res = Ok tt -> exists k, s_keys db' !! rq_RequestID r = Some k /\ is_Some (rk_sealed_at k)).
Proof.
  intros Ha Hs H9 Hd Hc. unfold Log. destruct rejected; [by split_and!; [|left|]|]. cbv zeta.
  destruct (log_charge_refused priced r Ha Hs H9 Hd Hc) as (r' & d & Hlc & Hid & Hint).
  unfold run_tx at 1. destruct (register now1 origin false (log_request r) db) as [[at_ db1]|e] eqn:Hreg.
  2: { split_and!; [done | by left | done]. }
  apply register_effect in Hreg as (Hf & Hst & _). rewrite Hlc. unfold run_tx.
  destruct (seal now2 r' d _ db1) as [[[] db2]|e] eqn:Hse.
  2: { rewrite Hst. split_and!; [done | by left | done]. }
  pose proof (seal_funds _ _ _ _ _ _ _ Hse) as Hf2. apply seal_effect in Hse as (Hw & Hk); [|done]. rewrite Hid in Hk.
  split_and!; [by rewrite Hf2 | | done]. intros w Hin. destruct (Hw w Hin) as [Hin' | (at1 & ->)]; [left; by rewrite <- Hst|].
  right. unfold new_settlement, dues_of. destruct (requestOwners r') as [[tenant user] key]. by split_and!.
Qed.
