(* ===== verification/SettlementProps.v ===== *)
(** * Settlement: each request is charged once, and a refund undoes the charge

    Theorems about the runs of [SettlementSystem], with a demo run from the
    registration of a request to its refund. *)

From Stdlib Require Import QArith.
From S2P Require Import Prelude GoStrings CivilTime PurchasePolicy Ledger LedgerFacts Subscription SubscriptionMeter Decimal PriceTiers UsageEvidence Request PriceBookBilling PricingProps Settlement SettlementFacts SettlementSystem.
#[global] Open Scope Z_scope.

Implicit Types (db : st_db) (s w : settlement) (k : request_key).

(** C28: the tables of every run.  Request ids are unique among the settlements,
    every row satisfies its CHECK constraints, and a request key is sealed exactly
    when a settlement of that request, created at its registration, exists. *)
Theorem settlement_tables_ok text_leb origin_of db h :
  st_run text_leb origin_of db h ->
  NoDup (se_id <$> s_settlements db) /\
  (forall s, s ∈ s_settlements db -> settlement_check s = true) /\
  (forall id k, s_keys db !! id = Some k ->
     (is_Some (rk_sealed_at k) <->
      exists s, s ∈ s_settlements db /\ se_id s = id /\ se_created_at s = rk_registered_at k)) /\
  (forall s, s ∈ s_settlements db -> exists k, s_keys db !! se_id s = Some k).
Proof.
  intros H%run_inv. split; [apply (i_rows _ _ _ H)|]. split; [apply (i_check _ _ _ H)|]. split.
  - intros id k Hk. split.
    + intros Hse. pose proof (i_sealed _ _ _ H id k Hk Hse) as Hi.
      apply list_elem_of_fmap in Hi as (s & -> & Hs). exists s. split; [done|]. split; [done|].
      destruct (i_key _ _ _ H s Hs) as (k' & Hk' & Hcr & _). rewrite Hk in Hk'. by injection Hk' as ->.
    + intros (s & Hs & <- & _). destruct (i_key _ _ _ H s Hs) as (k' & Hk' & _ & Hse).
      rewrite Hk in Hk'. by injection Hk' as ->.
  - intros s Hs. destruct (i_key _ _ _ H s Hs) as (k & Hk & _). by exists k.
Qed.

(** C2: charged at most once.  Over any interleaving of registrations, replays,
    sealings, workers, refunds, recoveries and retirements, and whatever else
    writes the shared tables, each request id is posted at most once and refunded
    at most once, also after its records were retired; a refund returns exactly
    what a posting charged; and a row's state tells what happened: a waived,
    pending or reviewed settlement has charged nothing. *)
Theorem charged_at_most_once text_leb origin_of db h :
  st_run text_leb origin_of db h ->
  NoDup (posted_ids h) /\ NoDup (refunded_ids h) /\
  (forall id d, EvRefunded id d ∈ h -> EvPosted id d ∈ h) /\
  (forall s d, s ∈ s_settlements db ->
     (EvPosted (se_id s) d ∈ h <->
        d = dues_of s /\ (se_state s = StatePosted \/ se_state s = StateRefunded)) /\
     (EvRefunded (se_id s) d ∈ h <-> d = dues_of s /\ se_state s = StateRefunded)) /\
  (forall id d, EvPosted id d ∈ h ->
     (exists s, s ∈ s_settlements db /\ se_id s = id) \/
     (exists c, s_closed_before db = Some c /\ origin_of id < c)).
Proof.
  intros H%run_inv. split; [apply (i_posted _ _ _ H)|]. split; [apply (i_refunded _ _ _ H)|].
  split; [apply (i_both _ _ _ H)|]. split.
  - intros s d Hs. apply (i_state _ _ _ H s Hs).
  - intros id d Hin. destruct (i_known _ _ _ H id d (or_introl Hin)) as [Hi | [_ Hc]]; [left | by right].
    apply list_elem_of_fmap in Hi as (s & -> & Hs). by exists s.
Qed.

(** A stream whose client left before any terminal event of the provider is billed
    on the usage seen so far, whatever its terminal state says: the decision does
    not wait for a provider terminal event. *)
Lemma unconfirmed_stream_is_billed r :
  UsesReportedTokenBilling (rq_CapabilityType r) = true -> Reported (rq_UsageEvidence r) = true ->
  rq_CancellationOrigin r = CancellationClient -> rq_ProviderTerminalState r = ProviderTerminalUnknown ->
  rq_HTTPStatus r < 400 ->
  DecideCompletion (Some r) = MkDecision "client_interrupted" "reported_usage_before_disconnect" true None /\
  shouldVoidBilling (Some r) = false.
Proof.
  intros Hc Hr Ho Hp Hh. unfold shouldVoidBilling.
  assert (Hl : delivery_lost r = true) by (unfold delivery_lost; by rewrite Ho).
  assert (Hf : decision_failed r = false).
  { unfold decision_failed. rewrite Hp, Hl. destruct (Z.leb_spec 400 (rq_HTTPStatus r)); [lia | done]. }
  unfold DecideCompletion. rewrite Hf, Hl, Hc, Hr. done.
Qed.

(** ** The round trip *)

(** One window after the debit at [now] and the refund at [now2] of [m]. *)
Lemma window_round_trip limit start used len now now2 m : 0 <= used ->
  let '(st, u) := win_next limit start used len now m in
  let back := refund_window now2 len st st (match limit with None => 0 | Some _ => m end) u in
  match limit with
  | None => back = used
  | Some _ => (forall t, st = Some t -> now2 < t + len -> 0 <= m -> back = win_before start used len now)
  end.
Proof.
  intros Hu. unfold win_next, refund_window, win_before. destruct limit as [l|].
  - destruct (win_flipped start len now) eqn:Hf.
    + intros t [= <-] Hlt Hm. rewrite Z.eqb_refl. destruct (Z.ltb_spec now2 (now + len)); [simpl; lia | lia].
    + destruct start as [t|]; [|done]. intros t' [= <-] Hlt Hm. rewrite Z.eqb_refl.
      destruct (Z.ltb_spec now2 (t + len)); [simpl; lia | lia].
  - destruct start as [t|]; [|done]. rewrite Z.eqb_refl. destruct (now2 <? t + len); simpl; lia.
Qed.

Lemma find_key_update_meters id (f : Subscription -> Subscription) l :
  (forall x, ss_ID (f x) = ss_ID x) ->
  find_key ss_ID id (update_where (has_key ss_ID id) f l) = f <$> find_key ss_ID id l.
Proof. apply find_key_update. Qed.

Lemma debit_sub_id now m x : ss_ID (debit_sub now m x) = ss_ID x.
Proof. unfold debit_sub. by destruct (win_next _ _ _ _ _ _), (win_next _ _ _ _ _ _). Qed.

(** The settlement row after its posting. *)
Lemma posted_row text_leb origin_of db h locked now w u db1 :
  settle_inv origin_of db h -> next_work text_leb locked now db = Some w ->
  postSettlement now w db = Ok (u, db1) ->
  exists g, posting_windows now w db g /\
    find_key se_id (se_id w) (s_settlements db1) = Some (post_row now g w) /\
    s_settlements db1 = update_where (at_key (se_created_at w) (se_id w)) (post_row now g) (s_settlements db) /\
    w ∈ s_settlements db.
Proof.
  intros H Hw Hrun. apply next_work_elem in Hw as [Hin _].
  apply postSettlement_core in Hrun as (_ & _ & g & Hg & Hrows & _).
  pose proof (posting_windows_row _ _ _ _ Hg) as Hgr.
  assert (Hid : forall s, se_id (post_row now g s) = se_id s) by (intros s; unfold post_row; by destruct (Hgr s) as (win & [-> | ->])).
  exists g. split; [done|]. split; [|done]. rewrite <- (Hid w). apply find_key_elem.
  - rewrite Hrows, keys_update_where; [apply (i_rows _ _ _ H) | done].
  - rewrite Hrows. apply elem_of_update_where. exists w. by rewrite at_key_self.
Qed.

(** Each window of [x2], while it is open, holds what it held before the debit. *)
Definition windows_back (now now2 : Z) (x x2 : Subscription) : Prop :=
  (forall t, ss_Win5hStart x2 = Some t -> now2 < t + window5h ->
     ss_Win5hUsedMicro x2 = (match ss_Window5hLimitMicro x with None => ss_Win5hUsedMicro x
       | Some _ => win_before (ss_Win5hStart x) (ss_Win5hUsedMicro x) window5h now end)) /\
  (forall t, ss_Win7dStart x2 = Some t -> now2 < t + window7d ->
     ss_Win7dUsedMicro x2 = (match ss_Window7dLimitMicro x with None => ss_Win7dUsedMicro x
       | Some _ => win_before (ss_Win7dStart x) (ss_Win7dUsedMicro x) window7d now end)).

(** The subscription a posting debits and a refund credits, counter by counter. *)
Lemma refund_debit_sub now now2 m x :
  let win := Some (debit_windows m (debit_sub now m x)) in
  let x2 := refund_sub now2 m win (debit_sub now m x) in
  0 <= ss_Win5hUsedMicro x -> 0 <= ss_Win7dUsedMicro x -> 0 <= m ->
  ss_ID x2 = ss_ID x /\ ss_TotalUsedMicro x2 = ss_TotalUsedMicro x /\ windows_back now now2 x x2.
Proof.
  intros win x2 H5 H7 Hm. unfold x2, win. clear x2 win.
  pose proof (debit_sub_fields now m x) as (Ht & E5 & E7 & L5 & L7).
  pose proof (window_round_trip (ss_Window5hLimitMicro x) (ss_Win5hStart x) (ss_Win5hUsedMicro x) window5h now now2 m H5) as W5.
  pose proof (window_round_trip (ss_Window7dLimitMicro x) (ss_Win7dStart x) (ss_Win7dUsedMicro x) window7d now now2 m H7) as W7.
  rewrite <- E5 in W5. rewrite <- E7 in W7. unfold refund_sub, debit_windows. cbn.
  rewrite L5, L7. split; [apply debit_sub_id|]. split; [rewrite Ht; lia|].
  split; intros t Hst Hlt; [destruct (ss_Window5hLimitMicro x) | destruct (ss_Window7dLimitMicro x)]; try done;
    first [by apply (W5 t) | by apply (W7 t)].
Qed.

(** What the posting leaves alone on its row. *)
Lemma post_row_fields now w db g : posting_windows now w db g ->
  let w1 := post_row now g w in
  se_tenant w1 = se_tenant w /\ se_user w1 = se_user w /\ se_key w1 = se_key w /\ se_sub w1 = se_sub w /\
  dues_of w1 = dues_of w /\ se_state w1 = StatePosted /\ se_windows w1 = se_windows (g w) /\ se_id w1 = se_id w.
Proof. intros Hg w1. destruct (posting_windows_row _ _ _ _ Hg w) as (win & [Hgw | Hgw]); unfold w1, post_row; rewrite Hgw; done. Qed.

(** The meters of a refunded posting, row by row. *)
Lemma refunded_meters now now2 w db g id : posting_windows now w db g ->
  let m1 := if 0 <? se_sub_due w
            then update_where (has_key ss_ID (se_sub w)) (debit_sub now (se_sub_due w)) (s_meters db) else s_meters db in
  let m2 := if 0 <? se_sub_due w
            then update_where (has_key ss_ID (se_sub w)) (refund_sub now2 (se_sub_due w) (se_windows (g w))) m1 else m1 in
  find_key ss_ID id m2 =
    (fun x => if (0 <? se_sub_due w) && bool_decide (id = se_sub w)
              then refund_sub now2 (se_sub_due w) (Some (debit_windows (se_sub_due w) (debit_sub now (se_sub_due w) x)))
                     (debit_sub now (se_sub_due w) x) else x) <$> find_key ss_ID id (s_meters db).
Proof.
  intros [(Hp & sub & Hsub & ->) | [Hz ->]] m1 m2; unfold m2, m1; clear m2 m1.
  - rewrite (proj2 (Z.ltb_lt 0 (se_sub_due w)) Hp). cbn [andb se_windows with_windows].
    destruct (decide (id = se_sub w)) as [-> | Hne].
    + rewrite !find_key_update by (done || intros; apply debit_sub_id).
      rewrite Hsub, bool_decide_true by done. done.
    + rewrite !find_key_update_other by (done || intros; apply debit_sub_id).
      rewrite bool_decide_false by done. by destruct (find_key ss_ID id (s_meters db)).
  - rewrite (proj2 (Z.ltb_ge 0 (se_sub_due w)) Hz). by destruct (find_key ss_ID id (s_meters db)).
Qed.

(** The row a refund leaves. *)
Lemma refunded_row origin_of db h now g w now2 cutoff u1 u2 id reason operator db1 db2 :
  settle_inv origin_of db h -> (forall s, exists win, g s = s \/ g s = with_windows win s) ->
  s_settlements db1 = update_where (at_key (se_created_at w) (se_id w)) (post_row now g) (s_settlements db) ->
  let w1 := post_row now g w in
  find_key se_id id (s_settlements db1) = Some w1 -> se_state w1 <> StateRefunded ->
  RefundSettlement now2 cutoff u1 u2 id reason operator db1 = Ok (tt, db2) ->
  find_key se_id id (s_settlements db2) = Some (with_refund StateRefunded (Some now2) reason operator w1).
Proof.
  intros Hinv Hgr Hrows w1 Hfind Hnr Href. clearbody w1.
  destruct (Refund_core _ _ _ _ _ _ _ w1 _ _ _ Hfind Hnr Href) as (_ & _ & _ & Hrows2 & _).
  destruct (find_key_Some se_id _ _ _ Hfind) as [Hin <-].
  rewrite Hrows2. apply (find_key_elem se_id _ (with_refund _ _ _ _ w1)).
  - rewrite keys_update_where by done. rewrite Hrows, keys_update_where; [apply (i_rows _ _ _ Hinv)|].
    intros s. unfold post_row. by destruct (Hgr s) as (win & [-> | ->]).
  - apply elem_of_update_where. exists w1. by rewrite at_key_self.
Qed.

(** C27: a refund undoes its posting.  Posting the settlement the worker picked
    takes exactly the amounts due from the tenant and the user and counts them on
    the API key; refunding it then restores every balance, every key counter and
    every subscription total, gives a usage window back what it held before the
    debit while that window is open, and leaves the row refunded for the same
    amounts. *)
Theorem post_then_refund text_leb origin_of db h locked now w db1 now2 cutoff uuid1 uuid2 reason operator db2 :
  st_run text_leb origin_of db h -> ledger_ok (s_money db) ->
  next_work text_leb locked now db = Some w -> postSettlement now w db = Ok (tt, db1) ->
  RefundSettlement now2 cutoff uuid1 uuid2 (se_id w) reason operator db1 = Ok (tt, db2) ->
  (forall id, balance id (s_money db1) = (fun b => b - payer_share w id) <$> balance id (s_money db)) /\
  (forall id, s_api_keys db1 !! id = (fun n => n + key_share w id) <$> s_api_keys db !! id) /\
  (forall id, balance id (s_money db2) = balance id (s_money db)) /\
  s_api_keys db2 = s_api_keys db /\
  (forall id x, find_key ss_ID id (s_meters db) = Some x -> 0 <= ss_Win5hUsedMicro x -> 0 <= ss_Win7dUsedMicro x ->
     exists x2, find_key ss_ID id (s_meters db2) = Some x2 /\ ss_TotalUsedMicro x2 = ss_TotalUsedMicro x /\
       (0 < se_sub_due w /\ id = se_sub w -> windows_back now now2 x x2) /\
       (~ (0 < se_sub_due w /\ id = se_sub w) -> x2 = x)) /\
  exists w2, find_key se_id (se_id w) (s_settlements db2) = Some w2 /\ se_state w2 = StateRefunded /\ dues_of w2 = dues_of w.
Proof.
  intros Hrun Hok Hw Hpost Href. pose proof (run_inv _ _ _ _ Hrun) as Hinv.
  destruct (posted_row _ _ _ _ _ _ _ _ _ Hinv Hw Hpost) as (g & Hg & Hfind & Hrows & Hin).
  assert (Hdue : dues_ok w) by (apply settlement_check_dues, (i_check _ _ _ Hinv), Hin).
  destruct (postSettlement_funds _ _ _ _ _ Hok Hdue Hpost) as [Hok1 B1 K1 M1].
  destruct (post_row_fields _ _ _ _ Hg) as (Et & Eu & Ek & Es & Ed & Est & Ewin & Eid).
  assert (Hnr : se_state (post_row now g w) <> StateRefunded) by (by rewrite Est).
  pose proof (refunded_row _ _ _ _ _ _ _ _ _ _ _ _ _ _ _ Hinv (posting_windows_row _ _ _ _ Hg) Hrows Hfind Hnr Href) as Hrow.
  set (w1 := post_row now g w) in *. clearbody w1.
  assert (Hdue1 : dues_ok w1) by (unfold dues_of in Ed; injection Ed as D1 D2 D3 D4; unfold dues_ok; by rewrite D1, D2, D3, D4).
  destruct (Refund_funds _ _ _ _ _ _ _ w1 _ _ _ Hok1 Hdue1 Hfind Hnr Href) as [_ B2 K2 M2].
  unfold dues_of in Ed. injection Ed as D1 D2 D3 D4.
  assert (Hps : forall id, payer_share w1 id = payer_share w id) by (intros id; unfold payer_share; by rewrite Et, Eu, D1, D2).
  assert (Hks : forall id, key_share w1 id = key_share w id) by (intros id; unfold key_share; by rewrite Ek, D3).
  rewrite M1, D4, Es, Ewin in M2.
  split; [done|]. split; [done|]. split; [|split; [|split]].
  - intros id. rewrite B2, B1, Hps. destruct (balance id (s_money db)); simpl; [f_equal; lia | done].
  - apply map_eq. intros id. rewrite K2, K1, Hks. destruct (s_api_keys db !! id); simpl; [f_equal; lia | done].
  - intros id x Hx Hu5 Hu7. rewrite M2, (refunded_meters _ now2 _ _ _ id Hg), Hx. cbn [fmap option_fmap option_map]. eexists. split; [reflexivity|].
    destruct (Z.ltb_spec 0 (se_sub_due w)) as [Hp | Hz]; [destruct (decide (id = se_sub w)) as [-> | Hne]|].
    + rewrite bool_decide_true by done. cbn [andb].
      destruct (refund_debit_sub now now2 (se_sub_due w) x Hu5 Hu7 ltac:(lia)) as (_ & Htot & Hback).
      split; [done|]. split; [by intros _|]. intros []. done.
    + rewrite bool_decide_false by done. split; [done|]. split; [intros [_ ?] | intros _]; done.
    + cbn [andb]. split; [done|]. split; [intros [? _]; lia | done].
  - eexists. split; [exact Hrow|]. split; [done|]. unfold dues_of. simpl. congruence.
Qed.

(** ** A demo run

    A subscribed user's chat request is registered, sealed, posted and refunded. *)

Definition demo_origin (_ : string) : Z := 0.
Definition demo_leb (_ _ : string) : bool := true.
Definition no_lock (_ : string) : bool := false.
Definition demo_subscription : Subscription :=
  MkSub "s1" "t1" "u1" "plan" "o1" 30 100000000 (Some 10000000) None SubActive (Some 0)
    (Some (days_ns 30)) 0 None 0 None 0 [] 0.
Definition demo_covered : Request :=
  set_source BillingSourceSubscription "s1" {[ "g1"%string := Finite 1 ]} demo_request.
Definition demo_money : ledger_db :=
  LedgerDB {[ "t1"%string := Account KindTenant "t1" 0; "u1"%string := Account KindUser "t1" 0 ]} [].
Definition demo_db0 : st_db :=
  StDB ∅ None [] [] [] ∅ demo_money {[ "k1"%string := 0 ]} [demo_subscription] [].

Definition state_after {A} (r : result st_error (A * st_db)) : st_db :=
  match r with Ok (_, db) => db | Err _ => demo_db0 end.
Definition demo_sealed : result st_error (Request * CompletionDecision * charge) :=
  log_charge true (log_request demo_covered).
Definition demo_db1 : st_db := state_after (register 1000 0 true demo_covered demo_db0).
Definition demo_db2 : st_db :=
  match demo_sealed with Ok (r, d, c) => state_after (seal 2000 r d c demo_db1) | Err _ => demo_db0 end.
Definition demo_work : settlement :=
  default (recovery_row 0 "" (RequestKey 0 0 None "" "")) (next_work demo_leb no_lock 3000 demo_db2).
Definition demo_db3 : st_db := state_after (postSettlement 3000 demo_work demo_db2).
Definition demo_db4 : st_db := state_after (RefundSettlement 4000 0 "uuid-1" "uuid-2" "r1" "complaint" "op" demo_db3).

Lemma demo_register : register 1000 0 true demo_covered demo_db0 = Ok (1000, demo_db1).
Proof. vm_compute. reflexivity. Qed.
Lemma demo_seal : exists r d c, demo_sealed = Ok (r, d, c) /\ seal 2000 r d c demo_db1 = Ok (tt, demo_db2).
Proof. eexists _, _, _. split; [vm_compute; reflexivity | vm_compute; reflexivity]. Qed.
Lemma demo_next : next_work demo_leb no_lock 3000 demo_db2 = Some demo_work.
Proof. vm_compute. reflexivity. Qed.
Lemma demo_post : postSettlement 3000 demo_work demo_db2 = Ok (tt, demo_db3).
Proof. vm_compute. reflexivity. Qed.
Lemma demo_refund : RefundSettlement 4000 0 "uuid-1" "uuid-2" "r1" "complaint" "op" demo_db3 = Ok (tt, demo_db4).
Proof. vm_compute. reflexivity. Qed.
Lemma demo_work_fields : se_id demo_work = "r1"%string /\ dues_of demo_work = (748500, 0, 249500, 499000) /\
  se_state demo_work = StatePending.
Proof. split_and!; vm_compute; reflexivity. Qed.

Lemma demo_run2 : st_run demo_leb demo_origin demo_db2 [].
Proof.
  destruct demo_seal as (r & d & c & Hl & Hs). change [] with (@nil st_event ++ []).
  eapply run_step; [|by eapply step_seal]. change (@nil st_event) with (@nil st_event ++ []).
  eapply run_step; [by apply (run_start _ _ demo_db0)|].
  apply (step_register _ _ 1000 true demo_covered 1000); [|exact demo_register]. vm_compute. discriminate.
Qed.

Lemma demo_accounts id a : bill_accounts demo_money !! id = Some a -> balance_micro a = 0.
Proof.
  unfold demo_money. cbn [bill_accounts]. intros [[_ <-] | [_ Ha]]%lookup_insert_Some; [done|].
  by apply lookup_singleton_Some in Ha as [_ <-].
Qed.
Lemma demo_ledger_ok : ledger_ok demo_money.
Proof.
  split.
  - split; [constructor | intros l Hl; by apply not_elem_of_nil in Hl].
  - intros id a ->%demo_accounts. unfold int64_min, int64_max. lia.
  - intros id a ->%demo_accounts. done.
Qed.

Lemma settlement_tables_ok_witness :
  st_run demo_leb demo_origin demo_db2 [] /\ NoDup (se_id <$> s_settlements demo_db2) /\
  settlement_check demo_work = true.
Proof.
  split; [exact demo_run2|].
  destruct (settlement_tables_ok demo_leb demo_origin demo_db2 [] demo_run2) as (Hnd & Hck & _).
  split; [exact Hnd|]. apply Hck. apply (next_work_elem demo_leb no_lock 3000). exact demo_next.
Defined.

Lemma demo_run4 : st_run demo_leb demo_origin demo_db4
  (([] ++ [EvPosted (se_id demo_work) (dues_of demo_work)]) ++ [EvRefunded "r1" (748500, 0, 249500, 499000)]).
Proof.
  assert (Hrow : exists w, find_key se_id "r1"%string (s_settlements demo_db3) = Some w /\
    se_state w = StatePosted /\ dues_of w = (748500, 0, 249500, 499000)).
  { eexists. split; [vm_compute; reflexivity|]. split; vm_compute; reflexivity. }
  destruct Hrow as (w & Hw & Hst & Hd). pose proof demo_refund as Hr.
  pose proof (step_refund demo_leb demo_origin _ _ _ _ _ _ _ _ _ _ Hw Hr) as Hstep.
  rewrite Hst, Hd in Hstep. eapply run_step; [|exact Hstep].
  eapply run_step; [exact demo_run2 | exact (step_post _ _ no_lock 3000 _ _ _ demo_next demo_post)].
Qed.

Lemma charged_at_most_once_witness :
  st_run demo_leb demo_origin demo_db4
    (([] ++ [EvPosted (se_id demo_work) (dues_of demo_work)]) ++ [EvRefunded "r1" (748500, 0, 249500, 499000)]) /\
  NoDup (posted_ids (([] ++ [EvPosted (se_id demo_work) (dues_of demo_work)]) ++
                     [EvRefunded "r1" (748500, 0, 249500, 499000)])).
Proof.
  split; [exact demo_run4|].
  exact (proj1 (charged_at_most_once demo_leb demo_origin demo_db4 _ demo_run4)).
Defined.

Lemma post_then_refund_witness :
  balance "t1" (s_money demo_db3) = Some (-748500) /\ balance "t1" (s_money demo_db4) = Some 0 /\
  s_api_keys demo_db4 = s_api_keys demo_db2.
Proof.
  assert (Hm : s_money demo_db2 = demo_money) by (vm_compute; reflexivity).
  destruct (post_then_refund demo_leb demo_origin demo_db2 [] no_lock 3000 demo_work demo_db3 4000 0
    "uuid-1" "uuid-2" "complaint" "op" demo_db4 demo_run2 ltac:(rewrite Hm; exact demo_ledger_ok)
    demo_next demo_post demo_refund) as (Hb & _ & Hback & Hkeys & _).
  split; [rewrite Hb, Hm; vm_compute; reflexivity|].
  split; [rewrite Hback, Hm; vm_compute; reflexivity | exact Hkeys].
Defined.
