(* ===== verification/AsyncTask.v ===== *)
(** * The asynchronous task queue: tables and statements

    Models [src/internal/ai/asynctask/store.go] and [store_postgres.go] on the
    tables [ai_async_tasks] and [ai_async_task_deliveries], and the column of
    [ai_request_keys] its guards read.  Every SQL statement, or the one explicit
    transaction of [insert], is one [KTx] with its [now()] as an argument.  Row
    locks of other sessions are a predicate on ids that [SKIP LOCKED] skips.

    Nullable text and JSON columns are strings whose empty value is NULL, as the
    [NULLIF]/[COALESCE] of the statements convert them; UUIDs are their canonical
    lower-case text, whose byte order is PostgreSQL's.  Rows tied in an
    [ORDER BY] keep the order of the table.  The messages of errors are left
    out where they only report. *)

From stdpp Require Import pretty.
From S2P Require Import Prelude GoStrings.

Definition TaskPending : string := "pending".
Definition TaskRunning : string := "running".
Definition TaskCompleted : string := "completed".
Definition TaskFailed : string := "failed".
Definition TaskCancelled : string := "cancelled".
Definition DeliveryPending : string := "pending".
Definition DeliveryRunning : string := "running".
Definition DeliveryDelivered : string := "delivered".
Definition DeliveryFailed : string := "failed".

Definition second : Z := 1000000000.

(** ** Rows *)

(** The reference to the submitter ([auth_*], [tenant_id], [user_id],
    [api_key_id]). *)
Record SubjectRef := MkSubjectRef {
  sr_AuthMethod : string;
  sr_TenantID : string;
  sr_UserID : string;
  sr_APIKeyID : string;
  sr_JWTAuthUserID : string;
  sr_JWTAuthUserType : Z;
  sr_JWTSessionID : string;
  sr_JWTCredentialVersion : Z }.

(** What a terminal state writes besides its status. *)
Record Failure := MkFailure {
  f_Code : string; f_Message : string; f_InternalDetail : string; f_Step : string }.
Definition no_failure : Failure := MkFailure "" "" "" "".

(** The columns a claim, a lease and a completion write. *)
Record schedule := Schedule {
  sc_status : string;
  sc_worker : option string;
  sc_lease : option Z;
  sc_available : Z;
  sc_attempts : Z;
  sc_started : option Z;
  sc_completed : option Z;
  sc_request : option string }.
Record outcome := Outcome {
  oc_output : string;
  oc_failure : Failure;
  oc_charge : Z }.

(** [ai_async_tasks] *)
Record task := MkTask {
  t_id : string;
  t_type : string;
  t_ref : SubjectRef;
  t_model : string;
  t_input : string;
  t_metadata : string;
  t_webhook : string;
  t_idem_key : string;
  t_idem_scope : string;
  t_fingerprint : string;
  t_max : Z;
  t_created : Z;
  t_expires : option Z;
  t_sched : schedule;
  t_out : outcome }.

Definition t_tenant (t : task) : string := sr_TenantID (t_ref t).
Definition t_user (t : task) : string := sr_UserID (t_ref t).
Definition t_status (t : task) : string := sc_status (t_sched t).
Definition t_attempts (t : task) : Z := sc_attempts (t_sched t).

Definition with_sched (s : schedule) (t : task) : task :=
  MkTask (t_id t) (t_type t) (t_ref t) (t_model t) (t_input t) (t_metadata t) (t_webhook t)
    (t_idem_key t) (t_idem_scope t) (t_fingerprint t) (t_max t) (t_created t) (t_expires t) s (t_out t).
Definition with_out (o : outcome) (t : task) : task :=
  MkTask (t_id t) (t_type t) (t_ref t) (t_model t) (t_input t) (t_metadata t) (t_webhook t)
    (t_idem_key t) (t_idem_scope t) (t_fingerprint t) (t_max t) (t_created t) (t_expires t) (t_sched t) o.

(** The JSON object of a notification. *)
Record payload := Payload { pd_source : string; pd_event : string; pd_task_id : string }.

(** [ai_async_task_deliveries] *)
Record delivery := MkDelivery {
  d_id : string;
  d_task : string;
  d_url : string;
  d_payload : payload;
  d_max : Z;
  d_created : Z;
  d_status : string;
  d_attempts : Z;
  d_available : Z;
  d_lease : option Z;
  d_worker : option string;
  d_code : Z;
  d_error : string;
  d_completed : option Z }.

Definition with_delivery (status : string) (attempts available : Z) (lease : option Z) (worker : option string)
    (code : Z) (error : string) (completed : option Z) (d : delivery) : delivery :=
  MkDelivery (d_id d) (d_task d) (d_url d) (d_payload d) (d_max d) (d_created d)
    status attempts available lease worker code error completed.

Record task_db := TaskDB {
  k_tasks : list task;
  k_deliveries : list delivery;
  k_request_keys : gset string }.

Definition set_task_rows (l : list task) (db : task_db) : task_db :=
  TaskDB l (k_deliveries db) (k_request_keys db).
Definition set_deliveries (l : list delivery) (db : task_db) : task_db :=
  TaskDB (k_tasks db) l (k_request_keys db).
Definition set_request_keys (s : gset string) (db : task_db) : task_db :=
  TaskDB (k_tasks db) (k_deliveries db) s.

(** ** Errors *)

(** [APIError] is the [Error] of [errors.go]; [HandlerError] is any error of a
    handler that is not one. *)
Inductive task_error :=
| ErrTaskNotFound
| APIError (status : Z) (code : string)
| HandlerError (msg : string)
| ErrTaskSQL (msg : string).

Abbreviation KTx := (Tx task_db task_error).

(** ** Records that cross the seam *)

Record insertRecord := InsertRecord {
  ir_Type : string;
  ir_SubjectRef : SubjectRef;
  ir_ModelCode : string;
  ir_Input : string;
  ir_Metadata : string;
  ir_WebhookURL : string;
  ir_MaxAttempts : Z;
  ir_MaxInFlightPerTenant : Z;
  ir_ExpiresAt : option Z;
  ir_IdempotencyKey : string;
  ir_IdempotencyScope : string;
  ir_IdempotencyFingerprint : string }.

Record claimedTask := ClaimedTask {
  ct_ID : string; ct_Type : string; ct_SubjectRef : SubjectRef; ct_ModelCode : string;
  ct_Input : string; ct_Attempt : Z; ct_RequestID : string; ct_CreatedAt : Z }.

(** A terminal result: [Result] of [handler.go]. *)
Record Result := MkResult {
  rs_Status : string; rs_Output : string; rs_CallerCharge : Z; rs_Failure : option Failure }.

Record deliveryOutcome := DeliveryOutcome {
  do_Status : string; do_StatusCode : Z; do_LastError : string; do_RetryAfter : Z }.

Record claimedDelivery := ClaimedDelivery {
  cd_ID : string; cd_TaskID : string; cd_URL : string; cd_Payload : payload;
  cd_Attempt : Z; cd_MaxAttempts : Z }.

(** ** Submission *)

Definition text_eq (a b : string) : bool := bool_decide (a = b).
Definition live_status (s : string) : bool := text_eq s TaskPending || text_eq s TaskRunning.

(** [status IN ('pending', 'running')] of one tenant *)
Definition in_flight (tenant : string) (l : list task) : Z :=
  count_where (fun t => text_eq (t_tenant t) tenant && live_status (t_status t)) l.

Definition countInFlight (tenant : string) : KTx Z :=
  let! db := tx_get in tx_ret (in_flight tenant (k_tasks db)).

(** A row under an idempotency key; the NULL key of a task without one equals
    nothing. *)
Definition same_key (scope key : string) (t : task) : bool :=
  negb (text_eq key "") && text_eq (t_idem_scope t) scope && text_eq (t_idem_key t) key.

(** The CHECK constraints of the table on a new row. *)
Definition ref_check (r : SubjectRef) : bool :=
  (let ty := sr_JWTAuthUserType r in (0 <=? ty) && (ty <=? 4)) && (0 <=? sr_JWTCredentialVersion r).

Definition new_schedule (now : Z) : schedule := Schedule TaskPending None None now 0 None None None.

Definition new_task (now : Z) (uuid : string) (rec : insertRecord) : task :=
  MkTask uuid (ir_Type rec) (ir_SubjectRef rec) (ir_ModelCode rec) (ir_Input rec) (ir_Metadata rec)
    (ir_WebhookURL rec) (ir_IdempotencyKey rec) (ir_IdempotencyScope rec) (ir_IdempotencyFingerprint rec)
    (ir_MaxAttempts rec) now (ir_ExpiresAt rec) (new_schedule now) (Outcome "" no_failure 0).

(** No row was inserted: a replay of the key, or no room. *)
Definition insert_refused (rec : insertRecord) : KTx (string * bool) :=
  let! db := tx_get in
  if existsb (same_key (ir_IdempotencyScope rec) (ir_IdempotencyKey rec)) (k_tasks db)
  then tx_ret (""%string, false)
  else tx_fail (APIError 429 "too_many_tasks_in_flight").

Definition insert (now : Z) (uuid : string) (rec : insertRecord) : KTx (string * bool) :=
  let! db := tx_get in
  let cap := ir_MaxInFlightPerTenant rec in
  if (cap <=? 0) || (in_flight (sr_TenantID (ir_SubjectRef rec)) (k_tasks db) <? cap) then
    tx_guard (negb (ref_check (ir_SubjectRef rec)) || (ir_MaxAttempts rec <? 1))
      (ErrTaskSQL "insert async task: check constraint") ;;;
    if existsb (same_key (ir_IdempotencyScope rec) (ir_IdempotencyKey rec)) (k_tasks db)
    then insert_refused rec
    else
      tx_guard (existsb (has_key t_id uuid) (k_tasks db)) (ErrTaskSQL "insert async task: duplicate id") ;;;
      tx_put (set_task_rows (k_tasks db ++ [new_task now uuid rec]) db) ;;;
      tx_ret (uuid, true)
  else insert_refused rec.

(** The row of a reused key: its id, type and fingerprint. *)
Definition findByIdempotencyKey (scope key : string) : KTx (option (string * string * string)) :=
  let! db := tx_get in
  tx_ret ((fun t => (t_id t, t_type t, t_fingerprint t)) <$> List.find (same_key scope key) (k_tasks db)).

(** ** Claims and leases *)

(** [ORDER BY created_at, id] *)
Definition queue_leb (a b : task) : bool :=
  (t_created a <? t_created b) || ((t_created a =? t_created b) && String.leb (t_id a) (t_id b)).

Definition claimable (now : Z) (types : list string) (t : task) : bool :=
  text_eq (t_status t) TaskPending && (sc_available (t_sched t) <=? now)
  && bool_decide (t_type t ∈ types).

Definition lease_live (now : Z) (t : task) : bool :=
  text_eq (t_status t) TaskRunning
  && match sc_lease (t_sched t) with Some e => now <? e | None => false end.

(** [row_number() OVER (PARTITION BY tenant_id ORDER BY created_at, id)] plus
    what the tenant has running. *)
Definition tenant_rank (now : Z) (types : list string) (l : list task) (t : task) : Z :=
  count_where (fun u => claimable now types u && text_eq (t_tenant u) (t_tenant t) && queue_leb u t) l
  + count_where (fun u => text_eq (t_tenant u) (t_tenant t) && lease_live now u) l.

(** The rows the window query ranks within the cap, oldest first. *)
Definition claim_queue (now : Z) (types : list string) (cap : Z) (l : list task) : list task :=
  order_by queue_leb (List.filter (fun t => claimable now types t && (tenant_rank now types l t <=? cap)) l).

Definition request_id_of (id : string) (attempt : Z) : string :=
  ("atsk_" +:+ id +:+ "_" +:+ pretty attempt)%string.

Definition claim_row (now : Z) (worker : string) (lease : Z) (t : task) : task :=
  let s := t_sched t in
  with_sched (Schedule TaskRunning (Some worker) (Some (now + lease)) (sc_available s) (sc_attempts s + 1)
    (match sc_started s with Some x => Some x | None => Some now end) (sc_completed s)
    (Some (request_id_of (t_id t) (sc_attempts s + 1)))) t.

Definition claimed_of (t : task) : claimedTask :=
  ClaimedTask (t_id t) (t_type t) (t_ref t) (t_model t) (t_input t) (t_attempts t)
    (default ""%string (sc_request (t_sched t))) (t_created t).

Definition claim (now : Z) (locked : string -> bool) (types : list string) (cap : Z) (worker : string) (lease : Z)
    : KTx (option claimedTask) :=
  match types with
  | [] => tx_ret None
  | _ =>
      let! db := tx_get in
      match List.find (fun t => negb (locked (t_id t))) (claim_queue now types cap (k_tasks db)) with
      | None => tx_ret None
      | Some t =>
          tx_put (set_task_rows (update_where (has_key t_id (t_id t)) (claim_row now worker lease) (k_tasks db)) db) ;;;
          tx_ret (Some (claimed_of (claim_row now worker lease t)))
      end
  end.

(** [WHERE id = $1 AND worker_id = $2 AND status = 'running'] *)
Definition held_by_worker (id worker : string) (t : task) : bool :=
  has_key t_id id t && bool_decide (sc_worker (t_sched t) = Some worker) && text_eq (t_status t) TaskRunning.

Definition renew (now lease : Z) (t : task) : task :=
  let s := t_sched t in
  with_sched (Schedule (sc_status s) (sc_worker s) (Some (now + lease)) (sc_available s) (sc_attempts s)
    (sc_started s) (sc_completed s) (sc_request s)) t.

Definition task_heartbeat (now : Z) (id worker : string) (lease : Z) : KTx bool :=
  let! db := tx_get in
  tx_put (set_task_rows (update_where (held_by_worker id worker) (renew now lease) (k_tasks db)) db) ;;;
  tx_ret (existsb (held_by_worker id worker) (k_tasks db)).

(** ** Terminal states and their notification *)

(** [INSERT INTO ai_async_task_deliveries ... ON CONFLICT (task_id) DO NOTHING]
    for one row that turned terminal; [gen] is [gen_random_uuid()]. *)
Definition new_delivery (now : Z) (uuid : string) (t : task) : delivery :=
  MkDelivery uuid (t_id t) (t_webhook t) (Payload "D-AI" ("task." +:+ t_status t) (t_id t))
    6 now DeliveryPending 0 now None None 0 "" None.

Definition enqueue (now : Z) (gen : string -> string) (t : task) : KTx unit :=
  let! db := tx_get in
  if text_eq (t_webhook t) "" || existsb (has_key d_task (t_id t)) (k_deliveries db) then tx_ret tt
  else
    tx_guard (existsb (has_key d_id (gen (t_id t))) (k_deliveries db)) (ErrTaskSQL "duplicate delivery id") ;;;
    tx_put (set_deliveries (k_deliveries db ++ [new_delivery now (gen (t_id t)) t]) db).

(** An [UPDATE ... RETURNING] that makes rows terminal, and the CTE that enqueues
    their notifications; the value is the number of rows. *)
Definition finish_rows (now : Z) (gen : string -> string) (p : task -> bool) (f : task -> task) : KTx Z :=
  let! db := tx_get in
  let done := f <$> List.filter p (k_tasks db) in
  tx_put (set_task_rows (update_where p f (k_tasks db)) db) ;;;
  tx_iter (enqueue now gen) done ;;;
  tx_ret (Z.of_nat (length done)).

(** The columns a terminal state resets. *)
Definition finished (now : Z) (status : string) (t : task) : task :=
  let s := t_sched t in
  with_sched (Schedule status None None (sc_available s) (sc_attempts s) (sc_started s) (Some now) (sc_request s)) t.

Definition completed (now : Z) (res : Result) (t : task) : task :=
  with_out (Outcome (rs_Output res) (default no_failure (rs_Failure res))
    (Z.max (oc_charge (t_out t)) (rs_CallerCharge res))) (finished now (rs_Status res) t).

Definition task_status_check (s : string) : bool :=
  bool_decide (s ∈ [TaskPending; TaskRunning; TaskCompleted; TaskFailed; TaskCancelled]).

Definition complete (now : Z) (gen : string -> string) (id worker : string) (res : Result) : KTx bool :=
  let! db := tx_get in
  tx_guard (existsb (held_by_worker id worker) (k_tasks db) && negb (task_status_check (rs_Status res)))
    (ErrTaskSQL "complete async task: check constraint") ;;;
  let! n := finish_rows now gen (held_by_worker id worker) (completed now res) in
  tx_ret (0 <? n).

Definition worker_lost : Failure :=
  MkFailure "worker_lost" "task worker stopped renewing its lease" "" "lease".

(** [reapDeadSQL] leaves [result_payload] and [internal_error_detail] alone. *)
Definition lost (now : Z) (t : task) : task :=
  let o := t_out t in
  with_out (Outcome (oc_output o)
    (MkFailure (f_Code worker_lost) (f_Message worker_lost) (f_InternalDetail (oc_failure o)) (f_Step worker_lost))
    (oc_charge o)) (finished now TaskFailed t).

Definition cancelled_row (now : Z) (t : task) : task :=
  let o := t_out t in
  with_out (Outcome (oc_output o)
    (MkFailure "cancelled" "cancelled by user" (f_InternalDetail (oc_failure o)) (f_Step (oc_failure o)))
    (oc_charge o)) (finished now TaskCancelled t).

Definition cancel (now : Z) (gen : string -> string) (id : string) : KTx bool :=
  let! n := finish_rows now gen (fun t => has_key t_id id t && live_status (t_status t)) (cancelled_row now) in
  tx_ret (0 <? n).

(** ** Orphans *)

Definition lease_expired (now : Z) (t : task) : bool :=
  text_eq (t_status t) TaskRunning
  && match sc_lease (t_sched t) with Some e => e <? now | None => false end.

(** [EXISTS (SELECT 1 FROM ai_request_keys u WHERE u.request_id = t.request_id)] *)
Definition billed (keys : gset string) (t : task) : bool :=
  match sc_request (t_sched t) with Some r => bool_decide (r ∈ keys) | None => false end.

Definition lease_key (t : task) : Z := default 0 (sc_lease (t_sched t)).
Definition by_lease (a b : task) : bool := lease_key a <=? lease_key b.

(** The ids a locking sub-select takes: [ORDER BY lease_expires_at ... SKIP
    LOCKED LIMIT]. *)
Definition oldest_leases (locked : string -> bool) (limit : Z) (p : task -> bool) (l : list task) : list task :=
  take (Z.to_nat limit) (List.filter (fun t => negb (locked (t_id t))) (order_by by_lease (List.filter p l))).

Definition selected (batch : list task) (t : task) : bool := bool_decide (t_id t ∈ t_id <$> batch).

(** [least(300, 5 * (1 << least(attempt_count, 6)))] seconds *)
Definition retry_backoff (attempts : Z) : Z := Z.min 300 (5 * Z.shiftl 1 (Z.min attempts 6)) * second.

Definition requeued (now : Z) (t : task) : task :=
  let s := t_sched t in
  with_sched (Schedule TaskPending None None (now + retry_backoff (sc_attempts s)) (sc_attempts s)
    (sc_started s) (sc_completed s) (sc_request s)) t.

(** An orphan that may run again. *)
Definition retryable (now : Z) (keys : gset string) (t : task) : bool :=
  lease_expired now t && (t_attempts t <? t_max t) && negb (billed keys t).

Definition limit_guard (limit : Z) : KTx unit :=
  tx_guard (limit <? 0) (ErrTaskSQL "LIMIT must not be negative").

Definition reapRetryable (now : Z) (locked : string -> bool) (limit : Z) : KTx Z :=
  limit_guard limit ;;;
  let! db := tx_get in
  let batch := oldest_leases locked limit (retryable now (k_request_keys db)) (k_tasks db) in
  tx_put (set_task_rows (update_where (selected batch) (requeued now) (k_tasks db)) db) ;;;
  tx_ret (Z.of_nat (length batch)).

Definition reapDead (now : Z) (locked : string -> bool) (gen : string -> string) (limit : Z) : KTx Z :=
  limit_guard limit ;;;
  let! db := tx_get in
  finish_rows now gen (selected (oldest_leases locked limit (lease_expired now) (k_tasks db))) (lost now).

Definition released (t : task) : task :=
  let s := t_sched t in
  with_sched (Schedule TaskPending None None (sc_available s) (Z.max (sc_attempts s - 1) 0)
    None (sc_completed s) (sc_request s)) t.

Definition of_worker (worker : string) (keys : gset string) (t : task) : bool :=
  bool_decide (sc_worker (t_sched t) = Some worker) && text_eq (t_status t) TaskRunning && negb (billed keys t).

Definition releaseWorker (worker : string) : KTx Z :=
  let! db := tx_get in
  let p := of_worker worker (k_request_keys db) in
  tx_put (set_task_rows (update_where p released (k_tasks db)) db) ;;;
  tx_ret (count_where p (k_tasks db)).

(** ** Reads and removal *)

Definition get_task (id : string) : KTx task :=
  let! db := tx_get in
  match find_key t_id id (k_tasks db) with
  | Some t => tx_ret t
  | None => tx_fail ErrTaskNotFound
  end.

Record listCursor := ListCursor { lc_CreatedAt : Z; lc_ID : string }.
Record listRecord := ListRecord {
  li_TenantID : string; li_OwnerScope : string; li_UserID : string; li_Types : list string;
  li_Status : string; li_Limit : Z; li_Cursor : option listCursor }.

Definition TaskScopeTenant : string := "tenant".
Definition TaskScopeUser : string := "user".

(** The owner clause of the [WHERE]. *)
Definition owner_where (scope user : string) (t : task) : bool :=
  text_eq scope ""
  || (text_eq scope TaskScopeTenant && text_eq (t_user t) "")
  || (text_eq scope TaskScopeUser && (text_eq user "" || text_eq (t_user t) user) && negb (text_eq (t_user t) "")).

Definition unexpired (now : Z) (t : task) : bool :=
  match t_expires t with Some e => now <? e | None => true end.

(** [(created_at, id) < (c.created_at, c.id)] *)
Definition before_cursor (c : option listCursor) (t : task) : bool :=
  match c with
  | None => true
  | Some c => (t_created t <? lc_CreatedAt c)
              || ((t_created t =? lc_CreatedAt c) && negb (String.leb (lc_ID c) (t_id t)))
  end.

Definition list_where (now : Z) (r : listRecord) (t : task) : bool :=
  text_eq (t_tenant t) (li_TenantID r) && owner_where (li_OwnerScope r) (li_UserID r) t
  && bool_decide (t_type t ∈ li_Types r) && (text_eq (li_Status r) "" || text_eq (t_status t) (li_Status r))
  && unexpired now t && before_cursor (li_Cursor r) t.

(** [ORDER BY created_at DESC, id DESC] *)
Definition newest_leb (a b : task) : bool := queue_leb b a.

Definition list_tasks (now : Z) (r : listRecord) : KTx (list task) :=
  let! db := tx_get in
  if bool_decide (li_Types r = []) || (li_Limit r <=? 0) then tx_ret []
  else tx_ret (take (Z.to_nat (li_Limit r)) (order_by newest_leb (List.filter (list_where now r) (k_tasks db)))).

Definition expired (now : Z) (t : task) : bool :=
  match t_expires t with Some e => e <? now | None => false end.
Definition by_expiry (a b : task) : bool := default 0 (t_expires a) <=? default 0 (t_expires b).

Definition listExpired (now limit : Z) : KTx (list task) :=
  limit_guard limit ;;;
  let! db := tx_get in
  tx_ret (take (Z.to_nat limit) (order_by by_expiry (List.filter (expired now) (k_tasks db)))).

Definition deleteTask (id : string) : KTx unit :=
  let! db := tx_get in
  tx_put (set_task_rows (List.filter (fun t => negb (has_key t_id id t)) (k_tasks db))
           (set_deliveries (List.filter (fun d => negb (has_key d_task id d)) (k_deliveries db)) db)).

(** ** Webhook deliveries *)

Definition delivery_expired (now : Z) (d : delivery) : bool :=
  text_eq (d_status d) DeliveryRunning && match d_lease d with Some e => e <? now | None => false end.

Definition delivery_due (now : Z) (d : delivery) : bool :=
  ((text_eq (d_status d) DeliveryPending && (d_available d <=? now)) || delivery_expired now d)
  && (d_attempts d <? d_max d).

(** [ORDER BY available_at, created_at, id] *)
Definition delivery_leb (a b : delivery) : bool :=
  (d_available a <? d_available b)
  || ((d_available a =? d_available b)
      && ((d_created a <? d_created b) || ((d_created a =? d_created b) && String.leb (d_id a) (d_id b)))).

Definition claim_delivery_row (now : Z) (worker : string) (lease : Z) (d : delivery) : delivery :=
  with_delivery DeliveryRunning (d_attempts d + 1) (d_available d) (Some (now + lease)) (Some worker)
    (d_code d) (d_error d) (d_completed d) d.

Definition claimDelivery (now : Z) (locked : string -> bool) (worker : string) (lease : Z)
    : KTx (option claimedDelivery) :=
  let! db := tx_get in
  match List.find (fun d => negb (locked (d_id d)))
          (order_by delivery_leb (List.filter (delivery_due now) (k_deliveries db))) with
  | None => tx_ret None
  | Some d =>
      tx_put (set_deliveries
        (update_where (has_key d_id (d_id d)) (claim_delivery_row now worker lease) (k_deliveries db)) db) ;;;
      tx_ret (Some (ClaimedDelivery (d_id d) (d_task d) (d_url d) (d_payload d) (d_attempts d + 1) (d_max d)))
  end.

Definition delivery_held (id worker : string) (d : delivery) : bool :=
  has_key d_id id d && bool_decide (d_worker d = Some worker) && text_eq (d_status d) DeliveryRunning.

Definition finished_delivery (now : Z) (o : deliveryOutcome) (d : delivery) : delivery :=
  with_delivery (do_Status o) (d_attempts d)
    (if text_eq (do_Status o) DeliveryPending then now + do_RetryAfter o else d_available d)
    None None (do_StatusCode o) (do_LastError o)
    (if text_eq (do_Status o) DeliveryDelivered || text_eq (do_Status o) DeliveryFailed then Some now else None) d.

Definition delivery_status_check (s : string) : bool :=
  bool_decide (s ∈ [DeliveryPending; DeliveryRunning; DeliveryDelivered; DeliveryFailed]).

Definition finishDelivery (now : Z) (id worker : string) (o : deliveryOutcome) : KTx bool :=
  let! db := tx_get in
  let p := delivery_held id worker in
  tx_guard (existsb p (k_deliveries db) && negb (delivery_status_check (do_Status o)))
    (ErrTaskSQL "finish delivery: check constraint") ;;;
  tx_put (set_deliveries (update_where p (finished_delivery now o) (k_deliveries db)) db) ;;;
  tx_ret (existsb p (k_deliveries db)).

Definition delivery_lease_key (d : delivery) : Z := default 0 (d_lease d).

Definition dead_delivery (now : Z) (d : delivery) : bool :=
  delivery_expired now d && (d_max d <=? d_attempts d).

Definition lost_delivery (now : Z) (d : delivery) : delivery :=
  with_delivery DeliveryFailed (d_attempts d) (d_available d) None None (d_code d)
    "webhook worker stopped after the final attempt" (Some now) d.

Definition reapDeadDeliveries (now : Z) (locked : string -> bool) (limit : Z) : KTx Z :=
  limit_guard limit ;;;
  let! db := tx_get in
  let batch := take (Z.to_nat limit) (List.filter (fun d => negb (locked (d_id d)))
    (order_by (fun a b => delivery_lease_key a <=? delivery_lease_key b)
      (List.filter (dead_delivery now) (k_deliveries db)))) in
  tx_put (set_deliveries (update_where (fun d => bool_decide (d_id d ∈ d_id <$> batch)) (lost_delivery now)
    (k_deliveries db)) db) ;;;
  tx_ret (Z.of_nat (length batch)).

Definition released_delivery (now : Z) (d : delivery) : delivery :=
  with_delivery DeliveryPending (Z.max (d_attempts d - 1) 0) now None None (d_code d) (d_error d) (d_completed d) d.

Definition delivery_of_worker (worker : string) (d : delivery) : bool :=
  bool_decide (d_worker d = Some worker) && text_eq (d_status d) DeliveryRunning.

Definition releaseDeliveries (now : Z) (worker : string) : KTx Z :=
  let! db := tx_get in
  tx_put (set_deliveries (update_where (delivery_of_worker worker) (released_delivery now) (k_deliveries db)) db) ;;;
  tx_ret (count_where (delivery_of_worker worker) (k_deliveries db)).
