(* ===== verification/AsyncTaskEngine.v ===== *)
(** * The asynchronous task engine

    Models [src/internal/ai/asynctask]: [asynctask.go] (configuration, [Stop]),
    [registry.go], [submit.go], [worker.go], [reaper.go], [query.go],
    [subject.go], [errors.go] and the delivery half of [webhook.go], on top of the
    statements of [AsyncTask].

    An engine call that runs several statements is their sequence in one [KTx]
    when it runs alone; the statements are the steps of [AsyncTaskSystem], where
    they interleave.  Parameters: the handlers' [Prepare] and [Execute], the
    resolution of a subject, the redaction, SHA-256, the signer and the sender of
    webhooks, and [net/url] as the pair of its parser and its printer.
    Goroutines, tickers, wake-up channels and log lines are left out. *)

From stdpp Require Import pretty.
From S2P Require Import Prelude GoStrings AsyncTask.

(** ** Configuration *)

Record Config := MkConfig {
  cf_Workers : Z; cf_PollInterval : Z; cf_LeaseTTL : Z; cf_MaxInFlightPerTenant : Z; cf_Retention : Z;
  cf_ReapInterval : Z; cf_ReapBatch : Z; cf_WebhookWorkers : Z; cf_WebhookPollInterval : Z;
  cf_WebhookLeaseTTL : Z }.

Definition or_default (x d : Z) : Z := if x <=? 0 then d else x.

Definition withDefaults (c : Config) : Config :=
  let poll := or_default (cf_PollInterval c) (2 * second) in
  MkConfig (or_default (cf_Workers c) 2) poll (or_default (cf_LeaseTTL c) (60 * second))
    (or_default (cf_MaxInFlightPerTenant c) 16) (or_default (cf_Retention c) (24 * 3600 * second))
    (or_default (cf_ReapInterval c) (30 * second)) (or_default (cf_ReapBatch c) 64)
    (or_default (cf_WebhookWorkers c) 2) (or_default (cf_WebhookPollInterval c) poll)
    (if cf_WebhookLeaseTTL c <? 15 * second then 30 * second else cf_WebhookLeaseTTL c).

(** ** Registry *)

Record Options := MkOptions { op_MaxAttempts : Z; op_TTL : Z }.
Record registry := Registry { rg_entries : gmap string Options; rg_frozen : bool }.
Definition newRegistry : registry := Registry ∅ false.

(** [None] is a panic; [has_handler] is [h != nil]. *)
Definition register_type (taskType : string) (has_handler : bool) (opts : Options) (r : registry) : option registry :=
  if text_eq taskType "" then None
  else if negb has_handler then None
  else if rg_frozen r then None
  else match rg_entries r !! taskType with
       | Some _ => None
       | None =>
           let opts := if op_MaxAttempts opts <=? 0 then MkOptions 1 (op_TTL opts) else opts in
           Some (Registry (<[taskType := opts]> (rg_entries r)) (rg_frozen r))
       end.
Definition freeze (r : registry) : registry := Registry (rg_entries r) true.
Definition types (r : registry) : list string := order_by String.leb (map_to_list (rg_entries r)).*1.

Definition maxAttempts (r : registry) (taskType : string) : Z :=
  match rg_entries r !! taskType with Some o => op_MaxAttempts o | None => 1 end.

(** ** Callers *)

(** The fields of [identity.Subject] the engine reads. *)
Record TaskSubject := MkTaskSubject {
  su_AuthMethod : string; su_Scope : string; su_TenantID : string; su_UserID : string; su_APIKeyID : string;
  su_JWTAuthUserID : string; su_JWTAuthUserType : Z; su_JWTSessionID : string; su_JWTCredentialVersion : Z }.

Definition SubjectRefFrom (s : TaskSubject) : SubjectRef :=
  MkSubjectRef (su_AuthMethod s) (su_TenantID s) (su_UserID s) (su_APIKeyID s)
    (su_JWTAuthUserID s) (su_JWTAuthUserType s) (su_JWTSessionID s) (su_JWTCredentialVersion s).

Record Submission := MkSubmission {
  sb_Subject : TaskSubject; sb_Type : string; sb_Body : string; sb_ContentType : string }.
Record Prepared := MkPrepared { pr_Input : string; pr_ModelCode : string; pr_TTL : Z }.
Record SubmitRequest := MkSubmitRequest {
  sq_Subject : TaskSubject; sq_Type : string; sq_Body : string; sq_ContentType : string; sq_Metadata : string;
  sq_WebhookURL : string; sq_IdempotencyKey : string }.
Definition submission (r : SubmitRequest) : Submission :=
  MkSubmission (sq_Subject r) (sq_Type r) (sq_Body r) (sq_ContentType r).
Record SubmitResult := MkSubmitResult { sm_ID : string; sm_Duplicate : bool }.

(** The parts of a parsed [url.URL] the checks read; [ul_rest] is the rest of it. *)
Record URL := MkURL {
  ul_Scheme : string; ul_Host : string; ul_Hostname : string; ul_Opaque : string;
  ul_has_user : bool; ul_Fragment : string; ul_rest : string }.

(** A handler either returns a result or an error, which [Retryable] may mark. *)
Inductive handler_return :=
| HandlerResult (r : Result)
| HandlerFailed (retryable : bool) (msg : string).

Section Engine.
Context (url_parse : string -> option URL) (url_string : URL -> string).
Context (prepare : Submission -> result task_error Prepared).
Context (sha256 : string -> string).
Context (redact : string -> string).

Definition normalizeWebhookURL (raw : string) : option string :=
  match url_parse (TrimSpace raw) with
  | None => None
  | Some u =>
      if negb (EqualFold (ul_Scheme u) "https") || text_eq (ul_Host u) "" || text_eq (ul_Hostname u) ""
         || negb (text_eq (ul_Opaque u) "") then None
      else if ul_has_user u then None
      else if negb (text_eq (ul_Fragment u) "") then None
      else Some (url_string (MkURL "https" (ul_Host u) (ul_Hostname u) (ul_Opaque u) (ul_has_user u)
                               (ul_Fragment u) (ul_rest u)))
  end.

(** ** Submission *)

Definition idempotencyScope (ref : SubjectRef) : string :=
  if negb (text_eq (sr_APIKeyID ref) "") then "key:" +:+ sr_APIKeyID ref
  else "user:" +:+ sr_TenantID ref +:+ ":" +:+ sr_UserID ref.

Definition nul : string := String (Ascii.ascii_of_nat 0) "".
Definition idempotencyFingerprint (taskType input : string) : string := sha256 (taskType +:+ nul +:+ input).

(** [Submit] up to the insertion, at the wall clock [clock]. *)
Definition prepare_submission (cfg : Config) (reg : registry) (clock : Z) (req : SubmitRequest)
    : result task_error insertRecord :=
  match rg_entries reg !! sq_Type req with
  | None => Err (APIError 400 "unsupported_task_type")
  | Some opts =>
      let ref := SubjectRefFrom (sq_Subject req) in
      if text_eq (sr_TenantID ref) "" then Err (APIError 401 "unauthenticated") else
      match (if text_eq (sq_WebhookURL req) "" then Some ""%string else normalizeWebhookURL (sq_WebhookURL req)) with
      | None => Err (APIError 400 "invalid_webhook_url")
      | Some webhookURL =>
          match prepare (submission req) with
          | Err e => Err e
          | Ok prepared =>
              if text_eq (pr_Input prepared) "" then Err (APIError 500 "internal_error") else
              let ttl := or_default (or_default (pr_TTL prepared) (op_TTL opts)) (cf_Retention cfg) in
              let keyed := negb (text_eq (sq_IdempotencyKey req) "") in
              Ok (InsertRecord (sq_Type req) ref (pr_ModelCode prepared) (pr_Input prepared) (sq_Metadata req)
                    webhookURL (op_MaxAttempts opts) (cf_MaxInFlightPerTenant cfg) (Some (clock + ttl))
                    (sq_IdempotencyKey req)
                    (if keyed then idempotencyScope ref else "")
                    (if keyed then idempotencyFingerprint (sq_Type req) (pr_Input prepared) else ""))
          end
      end
  end.

Definition resolveIdempotentDuplicate (rec : insertRecord) : KTx SubmitResult :=
  let! hit := findByIdempotencyKey (ir_IdempotencyScope rec) (ir_IdempotencyKey rec) in
  match hit with
  | None => tx_fail (APIError 409 "idempotency_key_conflict")
  | Some (id, ty, fingerprint) =>
      if negb (text_eq ty (ir_Type rec)) || negb (text_eq fingerprint (ir_IdempotencyFingerprint rec))
      then tx_fail (APIError 409 "idempotency_key_reuse")
      else tx_ret (MkSubmitResult id true)
  end.

Definition Submit (cfg : Config) (reg : registry) (clock now : Z) (uuid : string) (req : SubmitRequest)
    : KTx SubmitResult :=
  match prepare_submission cfg reg clock req with
  | Err e => tx_fail e
  | Ok rec =>
      let! r := insert now uuid rec in
      if r.2 then tx_ret (MkSubmitResult r.1 false) else resolveIdempotentDuplicate rec
  end.

(** ** Workers *)

(** [execute]: [subject] is the answer of the resolver, [run] the handler. *)
Definition execute (reg : registry) (subject : result string TaskSubject)
    (run : TaskSubject -> claimedTask -> handler_return) (c : claimedTask) : handler_return :=
  match rg_entries reg !! ct_Type c with
  | None => HandlerFailed false "no handler registered"
  | Some _ =>
      match subject with
      | Err detail => HandlerResult (MkResult TaskFailed "" 0 (Some (MkFailure "subject_unavailable"
          "the credential that submitted this task is no longer valid" detail "authn")))
      | Ok s => run s c
      end
  end.

Definition execution_failed (detail step : string) : Failure :=
  MkFailure "task_execution_failed" "the task could not be executed" detail step.

(** What [writeTerminal] makes of a handler's result before it is stored. *)
Definition terminal_result (res : Result) : Result :=
  let res := if text_eq (rs_Status res) TaskCompleted || text_eq (rs_Status res) TaskFailed then res
             else MkResult TaskFailed "" 0 (Some (execution_failed "" "execute")) in
  if text_eq (rs_Status res) TaskFailed then
    let f := default (execution_failed "" "") (rs_Failure res) in
    MkResult TaskFailed (rs_Output res) (rs_CallerCharge res)
      (Some (MkFailure (f_Code f) (f_Message f) (redact (f_InternalDetail f)) (f_Step f)))
  else res.

(** [runClaimed]: [None] leaves the lease to expire. *)
Definition attempt_result (reg : registry) (c : claimedTask) (answer : handler_return) : option Result :=
  match answer with
  | HandlerResult res => Some (terminal_result res)
  | HandlerFailed retry detail =>
      if retry && (ct_Attempt c <? maxAttempts reg (ct_Type c)) then None
      else Some (terminal_result (MkResult TaskFailed "" 0 (Some (execution_failed detail "execute"))))
  end.

Definition writeTerminal (now : Z) (gen : string -> string) (worker : string) (c : claimedTask) (res : Result)
    : KTx bool :=
  complete now gen (ct_ID c) worker res.

(** One round of [claimAndRun], the handler answering [answer] for the task it is
    given; the lease is not renewed in between. *)
Definition claimAndRun (cfg : Config) (reg : registry) (now now' : Z) (locked : string -> bool)
    (gen : string -> string) (worker : string) (answer : claimedTask -> handler_return) : KTx bool :=
  let! c := claim now locked (types reg) (cf_MaxInFlightPerTenant cfg) worker (cf_LeaseTTL cfg) in
  match c with
  | None => tx_ret false
  | Some c =>
      match attempt_result reg c (answer c) with
      | None => tx_ret true
      | Some res => writeTerminal now' gen worker c res ;;; tx_ret true
      end
  end.
End Engine.

(** ** Reaper and shutdown *)

(** What one statement finds: its [now()], the locked rows, fresh UUIDs. *)
Record stmt_env := StmtEnv { se_now : Z; se_locked : string -> bool; se_gen : string -> string }.

(** [reapOnce]: three statements, the first error ends the round. *)
Definition reapOnce (e1 e2 e3 : stmt_env) (batch : Z) (db : task_db) : task_db :=
  let '(db1, r1) := run_tx (reapRetryable (se_now e1) (se_locked e1) batch) db in
  match r1 with
  | Err _ => db1
  | Ok _ =>
      let '(db2, r2) := run_tx (reapDead (se_now e2) (se_locked e2) (se_gen e2) batch) db1 in
      match r2 with
      | Err _ => db2
      | Ok _ => (run_tx (reapDeadDeliveries (se_now e3) (se_locked e3) batch) db2).1
      end
  end.

(** [sweepExpired]: the expiry hooks are logged whatever they answer. *)
Definition sweepExpired (now batch : Z) (db : task_db) : task_db :=
  let '(db1, r) := run_tx (listExpired now batch) db in
  match r with
  | Err _ => db1
  | Ok rows => foldl (fun db t => (run_tx (deleteTask (t_id t)) db).1) db1 rows
  end.

(** The hand-back of [Stop], once the workers are done. *)
Definition release_all (now : Z) (worker : string) (db : task_db) : task_db :=
  let db1 := (run_tx (releaseWorker worker) db).1 in
  (run_tx (releaseDeliveries now worker) db1).1.

(** ** Queries *)

(** A tenant-scoped caller sees the whole tenant, a user-scoped one its own tasks. *)
Definition visible (viewer : TaskSubject) (t : task) : bool :=
  if text_eq (su_TenantID viewer) "" || negb (text_eq (su_TenantID viewer) (t_tenant t)) then false
  else if text_eq (su_Scope viewer) TaskScopeUser
  then negb (text_eq (su_UserID viewer) "") && text_eq (su_UserID viewer) (t_user t)
  else true.

(** [row.ExpiresAt != nil && !row.ExpiresAt.After(time.Now())] *)
Definition hidden (clock : Z) (t : task) : bool := negb (unexpired clock t).

Definition Inspect (clock : Z) (id : string) : KTx task :=
  let! t := get_task id in
  tx_guard (hidden clock t) ErrTaskNotFound ;;;
  tx_ret t.

Definition Get (clock : Z) (viewer : TaskSubject) (id : string) : KTx task :=
  let! t := get_task id in
  tx_guard (hidden clock t) ErrTaskNotFound ;;;
  tx_guard (negb (visible viewer t)) ErrTaskNotFound ;;;
  tx_ret t.

Record ListFilter := MkListFilter {
  lf_Types : list string; lf_Status : string; lf_OwnerScope : string; lf_OwnerUserID : string;
  lf_Limit : Z; lf_StartingAfter : string }.

Definition normalizeOwnerFilter (viewer : TaskSubject) (f : ListFilter) : result task_error (string * string) :=
  if text_eq (su_Scope viewer) TaskScopeUser then
    Ok (TaskScopeUser, if text_eq (su_UserID viewer) "" then ""%string else su_UserID viewer)
  else if text_eq (su_Scope viewer) TaskScopeTenant then
    let userID := lf_OwnerUserID f in
    let scope := if text_eq (lf_OwnerScope f) "" && negb (text_eq userID "") then TaskScopeUser else lf_OwnerScope f in
    if negb (text_eq scope "") && negb (text_eq scope TaskScopeTenant) && negb (text_eq scope TaskScopeUser)
    then Err (APIError 400 "invalid_owner_scope")
    else if text_eq scope TaskScopeTenant && negb (text_eq userID "") then Err (APIError 400 "invalid_owner_filter")
    else Ok (scope, userID)
  else Err (APIError 401 "unauthenticated").

Definition matchesOwnerFilter (t : task) (scope userID : string) : bool :=
  if text_eq scope TaskScopeTenant then text_eq (t_user t) ""
  else if text_eq scope TaskScopeUser then
    if text_eq userID "" then negb (text_eq (t_user t) "") else text_eq (t_user t) userID
  else true.

Definition containsTaskType (l : list string) (want : string) : bool := existsb (fun x => text_eq x want) l.

Definition list_limit (n : Z) : Z := let n := if n <=? 0 then 20 else n in if 100 <? n then 100 else n.

(** The cursor of a page: any failure to read the task hides it. *)
Definition cursor_ok (clock : Z) (viewer : TaskSubject) (f : ListFilter) (scope user : string) (t : task) : bool :=
  visible viewer t && containsTaskType (lf_Types f) (t_type t) && matchesOwnerFilter t scope user
  && (text_eq (lf_Status f) "" || text_eq (t_status t) (lf_Status f)) && negb (hidden clock t).

Definition page_cursor (clock : Z) (viewer : TaskSubject) (f : ListFilter) (scope user : string)
    : KTx (option listCursor) :=
  if text_eq (lf_StartingAfter f) "" then tx_ret None
  else
    let! db := tx_get in
    match find_key t_id (lf_StartingAfter f) (k_tasks db) with
    | Some t => if cursor_ok clock viewer f scope user t then tx_ret (Some (ListCursor (t_created t) (t_id t)))
                else tx_fail (APIError 400 "invalid_cursor")
    | None => tx_fail (APIError 400 "invalid_cursor")
    end.

Definition List_ (clock now : Z) (viewer : TaskSubject) (f : ListFilter) : KTx (list task * bool) :=
  if text_eq (su_TenantID viewer) "" then tx_fail (APIError 401 "unauthenticated")
  else if text_eq (su_Scope viewer) TaskScopeUser && text_eq (su_UserID viewer) "" then tx_ret ([], false)
  else
    let limit := list_limit (lf_Limit f) in
    if bool_decide (lf_Types f = []) then tx_ret ([], false)
    else
      match normalizeOwnerFilter viewer f with
      | Err e => tx_fail e
      | Ok (scope, user) =>
          let! cursor := page_cursor clock viewer f scope user in
          let! rows := list_tasks now (ListRecord (su_TenantID viewer) scope user (lf_Types f) (lf_Status f)
                                         (limit + 1) cursor) in
          let hasMore := bool_decide (limit < Z.of_nat (length rows)) in
          tx_ret (if hasMore then take (Z.to_nat limit) rows else rows, hasMore)
      end.

Definition Cancel (clock now : Z) (gen : string -> string) (viewer : TaskSubject) (id : string) : KTx task :=
  let! t := get_task id in
  tx_guard (hidden clock t) ErrTaskNotFound ;;;
  tx_guard (negb (visible viewer t)) ErrTaskNotFound ;;;
  tx_guard (negb (live_status (t_status t))) (APIError 409 "task_not_cancellable") ;;;
  let! cancelled := cancel now gen id in
  if cancelled : bool then get_task id
  else (get_task id ;;; tx_fail (APIError 409 "task_not_cancellable")).

Definition isTerminal (status : string) : bool :=
  text_eq status TaskCompleted || text_eq status TaskFailed || text_eq status TaskCancelled.

(** [hook] is the answer of the type's [OnExpire], if it has one. *)
Definition DeleteTerminal (clock : Z) (hook : string -> option bool) (viewer : TaskSubject) (id : string) : KTx unit :=
  let! t := get_task id in
  tx_guard (hidden clock t) ErrTaskNotFound ;;;
  tx_guard (negb (visible viewer t)) ErrTaskNotFound ;;;
  tx_guard (negb (isTerminal (t_status t))) (APIError 409 "task_not_deletable") ;;;
  tx_guard (bool_decide (hook (t_type t) = Some false)) (APIError 500 "task_cleanup_failed") ;;;
  deleteTask (t_id t).

(** ** Webhook delivery *)

(** [webhookRetryDelay]: [None] when there is no further retry. *)
Definition webhookRetryDelay (attempt : Z) : option Z :=
  let delays := [10; 60; 5 * 60; 30 * 60; 2 * 3600] in
  if (attempt <? 1) || (Z.of_nat (length delays) <? attempt) then None
  else (fun d => d * second) <$> delays !! Z.to_nat (attempt - 1).

Inductive send_error := UnsafeTarget (msg : string) | SendFailed (msg : string).
#[export] Instance send_error_eq_dec : EqDecision send_error. Proof. solve_decision. Defined.
Definition send_error_text (e : send_error) : string := match e with UnsafeTarget m | SendFailed m => m end.

Definition classifyWebhookResult (attempt maxAttempts_ statusCode : Z) (err : option send_error) : deliveryOutcome :=
  if bool_decide (err = None) && ((200 <=? statusCode) && (statusCode <? 300))
  then DeliveryOutcome DeliveryDelivered statusCode "" 0
  else
    let lastError := match err with Some e => send_error_text e
                     | None => "webhook returned HTTP " +:+ pretty statusCode end in
    if (statusCode =? 410) || match err with Some (UnsafeTarget _) => true | _ => false end
    then DeliveryOutcome DeliveryFailed statusCode lastError 0
    else match webhookRetryDelay attempt with
         | Some delay =>
             if maxAttempts_ <=? attempt then DeliveryOutcome DeliveryFailed statusCode lastError 0
             else DeliveryOutcome DeliveryPending statusCode lastError delay
         | None => DeliveryOutcome DeliveryFailed statusCode lastError 0
         end.

Definition finishWebhookDelivery (now : Z) (worker : string) (d : claimedDelivery) (o : deliveryOutcome) : KTx bool :=
  finishDelivery now (cd_ID d) worker
    (DeliveryOutcome (do_Status o) (do_StatusCode o) (String.substring 0 1024 (do_LastError o)) (do_RetryAfter o)).

(** ** Webhook targets

    [netip.Addr]: the zero value, an IPv4 address as its 32 bits, an IPv6 address
    as its 128 bits with the presence of a zone.  The predicates are those of
    package [net/netip]. *)
Inductive Addr := AddrZero | Addr4 (n : Z) | Addr6 (n : Z) (zone : bool).
#[export] Instance Addr_eq_dec : EqDecision Addr. Proof. solve_decision. Defined.

Definition Unmap (a : Addr) : Addr :=
  match a with
  | Addr6 n _ => if Z.shiftr n 32 =? 65535 then Addr4 (n mod 2 ^ 32) else a
  | _ => a
  end.

(** The top [len] of [width] bits. *)
Definition top (width len n : Z) : Z := Z.shiftr n (width - len).
(** An IPv4 prefix by its octets, an IPv6 prefix by its 16-bit groups. *)
Definition octets (a b c d : Z) : Z := ((a * 256 + b) * 256 + c) * 256 + d.
Definition groups (a b c : Z) : Z := ((a * 65536 + b) * 65536 + c) * 2 ^ 80.
Definition in4 (net len n : Z) : bool := top 32 len n =? top 32 len net.
Definition in6 (net len n : Z) : bool := top 128 len n =? top 128 len net.

Definition IsLoopback (a : Addr) : bool :=
  match a with AddrZero => false | Addr4 n => in4 (octets 127 0 0 0) 8 n | Addr6 n _ => n =? 1 end.
Definition IsMulticast (a : Addr) : bool :=
  match a with AddrZero => false | Addr4 n => in4 (octets 224 0 0 0) 4 n | Addr6 n _ => in6 (groups 65280 0 0) 8 n end.
Definition IsLinkLocalUnicast (a : Addr) : bool :=
  match a with AddrZero => false | Addr4 n => in4 (octets 169 254 0 0) 16 n | Addr6 n _ => in6 (groups 65152 0 0) 10 n end.
(** IPv6: the first group masked with [0xff0f] is [0xff02]. *)
Definition IsLinkLocalMulticast (a : Addr) : bool :=
  match a with
  | AddrZero => false
  | Addr4 n => in4 (octets 224 0 0 0) 24 n
  | Addr6 n _ => Z.land (top 128 16 n) 65295 =? 65282
  end.
Definition IsPrivate (a : Addr) : bool :=
  match a with
  | AddrZero => false
  | Addr4 n => in4 (octets 10 0 0 0) 8 n || in4 (octets 172 16 0 0) 12 n || in4 (octets 192 168 0 0) 16 n
  | Addr6 n _ => in6 (groups 64512 0 0) 7 n
  end.
Definition IsUnspecified (a : Addr) : bool :=
  match a with AddrZero => false | Addr4 n => n =? 0 | Addr6 n z => (n =? 0) && negb z end.
Definition IsGlobalUnicast (a : Addr) : bool :=
  match a with
  | AddrZero => false
  | _ => negb (match a with Addr4 n => (n =? 0) || (n =? 2 ^ 32 - 1) | _ => false end)
         && negb (IsUnspecified a) && negb (IsLoopback a) && negb (IsMulticast a) && negb (IsLinkLocalUnicast a)
  end.

(** [disallowedWebhookPrefixes] *)
Definition disallowed4 : list (Z * Z) :=
  [(octets 0 0 0 0, 8); (octets 100 64 0 0, 10); (octets 192 0 0 0, 24); (octets 192 0 2 0, 24);
   (octets 198 18 0 0, 15); (octets 198 51 100 0, 24); (octets 203 0 113 0, 24); (octets 240 0 0 0, 4)].
Definition disallowed6 : list (Z * Z) :=
  [(groups 100 65435 0, 96); (groups 100 65435 1, 48); (groups 8193 0 0, 32); (groups 8193 3512 0, 32);
   (groups 8194 0 0, 16); (groups 65216 0 0, 10)].

(** [prefix.Contains] is false of an address with a zone. *)
Definition disallowed (a : Addr) : bool :=
  match a with
  | AddrZero => false
  | Addr4 n => existsb (fun p => in4 p.1 p.2 n) disallowed4
  | Addr6 n zone => negb zone && existsb (fun p => in6 p.1 p.2 n) disallowed6
  end.

Definition isPublicWebhookAddr (a : Addr) : bool :=
  let a := Unmap a in
  if bool_decide (a = AddrZero) || negb (IsGlobalUnicast a) || IsLoopback a || IsPrivate a || IsLinkLocalUnicast a
     || IsLinkLocalMulticast a || IsMulticast a || IsUnspecified a then false
  else negb (disallowed a).

(** The dialer connects only when every resolved address is public. *)
Definition dial_allowed (addrs : list Addr) : bool :=
  negb (bool_decide (addrs = [])) && forallb isPublicWebhookAddr addrs.
