(* ===== verification/AsyncTaskSystem.v ===== *)
(** * The task queue as a system

    The statements of [AsyncTask] as a step relation that any number of engines,
    callers, workers, reapers and webhook senders interleave, the invariant of
    every reachable state, how the updates of [AsyncTask] keep it, and what the attempt
    counters of tasks and notifications count. *)

From stdpp Require Import pretty.
From S2P Require Import Prelude GoStrings AsyncTask AsyncTaskEngine.

Implicit Types (t u : task) (d : delivery) (db : task_db).

(** A task handed to a handler, a task row deleted, a notification handed to the
    sender, and a task or a notification a worker that stops gives back. *)
Inductive tk_event :=
| EvHanded (id rid worker : string) (attempt max : Z)
| EvDeleted (id : string)
| EvSent (delivery_id task_id : string) (attempt : Z)
| EvReleased (id : string)
| EvUnsent (task_id : string).

Definition max_of (id : string) db : Z := match find_key t_id id (k_tasks db) with Some t => t_max t | None => 0 end.

(** What a posting of [Settlement] does to the tasks of a request. *)
Definition charge_request (rid : string) (amount : Z) db : task_db :=
  set_task_rows (update_where (fun t => bool_decide (sc_request (t_sched t) = Some rid))
    (fun t => with_out (Outcome (oc_output (t_out t)) (oc_failure (t_out t)) (Z.max (oc_charge (t_out t)) amount)) t)
    (k_tasks db)) db.

Section System.
(** [MaxInFlightPerTenant], the same on every instance. *)
Context (cap : Z).

Inductive tk_step : task_db -> list tk_event -> task_db -> Prop :=
| tk_submit now uuid rec r db db' :
    ir_MaxInFlightPerTenant rec = cap -> insert now uuid rec db = Ok (r, db') -> tk_step db [] db'
| tk_claim now locked types worker lease c db db' :
    claim now locked types cap worker lease db = Ok (Some c, db') ->
    tk_step db [EvHanded (ct_ID c) (ct_RequestID c) worker (ct_Attempt c) (max_of (ct_ID c) db)] db'
| tk_heartbeat now id worker lease r db db' :
    task_heartbeat now id worker lease db = Ok (r, db') -> tk_step db [] db'
| tk_complete now gen id worker redact res r db db' :
    complete now gen id worker (terminal_result redact res) db = Ok (r, db') -> tk_step db [] db'
| tk_cancel now gen id r db db' : cancel now gen id db = Ok (r, db') -> tk_step db [] db'
| tk_reap_retryable now locked limit r db db' :
    reapRetryable now locked limit db = Ok (r, db') -> tk_step db [] db'
| tk_reap_dead now locked gen limit r db db' :
    reapDead now locked gen limit db = Ok (r, db') -> tk_step db [] db'
| tk_release worker r db db' :
    releaseWorker worker db = Ok (r, db') ->
    tk_step db ((fun t => EvReleased (t_id t)) <$> List.filter (of_worker worker (k_request_keys db)) (k_tasks db)) db'
| tk_delete id r db db' : deleteTask id db = Ok (r, db') -> tk_step db [EvDeleted id] db'
| tk_claim_delivery now locked worker lease c db db' :
    claimDelivery now locked worker lease db = Ok (Some c, db') ->
    tk_step db [EvSent (cd_ID c) (cd_TaskID c) (cd_Attempt c)] db'
| tk_finish_delivery now worker c code err r db db' :
    finishWebhookDelivery now worker c (classifyWebhookResult (cd_Attempt c) (cd_MaxAttempts c) code err) db
      = Ok (r, db') -> tk_step db [] db'
| tk_reap_deliveries now locked limit r db db' :
    reapDeadDeliveries now locked limit db = Ok (r, db') -> tk_step db [] db'
| tk_release_deliveries now worker r db db' :
    releaseDeliveries now worker db = Ok (r, db') ->
    tk_step db ((fun d => EvUnsent (d_task d)) <$> List.filter (delivery_of_worker worker) (k_deliveries db)) db'
| tk_charge rid amount db : 0 <= amount -> tk_step db [] (charge_request rid amount db)
| tk_request_keys keys db : tk_step db [] (set_request_keys keys db). (** registrations, retirement *)

Inductive tk_run : task_db -> list tk_event -> Prop :=
| tk_start keys : tk_run (TaskDB [] [] keys) []
| tk_next db h ev db' : tk_run db h -> tk_step db ev db' -> tk_run db' (h ++ ev).

(** Any further steps from a state. *)
Inductive tk_steps : task_db -> list tk_event -> task_db -> Prop :=
| tk_here db : tk_steps db [] db
| tk_more db h db1 ev db2 : tk_steps db h db1 -> tk_step db1 ev db2 -> tk_steps db (h ++ ev) db2.

(** ** The invariant *)

Definition row_pending t : Prop :=
  t_status t = TaskPending /\ sc_worker (t_sched t) = None /\ sc_lease (t_sched t) = None /\
  sc_completed (t_sched t) = None /\ 0 <= t_attempts t < t_max t.
Definition row_running t : Prop :=
  t_status t = TaskRunning /\ is_Some (sc_worker (t_sched t)) /\ is_Some (sc_lease (t_sched t)) /\
  sc_completed (t_sched t) = None /\ sc_request (t_sched t) = Some (request_id_of (t_id t) (t_attempts t)) /\
  1 <= t_attempts t <= t_max t.
Definition row_terminal t : Prop :=
  isTerminal (t_status t) = true /\ sc_worker (t_sched t) = None /\ sc_lease (t_sched t) = None /\
  is_Some (sc_completed (t_sched t)) /\ 0 <= t_attempts t <= t_max t.

(** A row is in one of the three phases of its life, with an attempt counter within
    its limit. *)
Definition row_ok t : Prop :=
  (row_pending t \/ row_running t \/ row_terminal t) /\ 1 <= t_max t /\ 0 <= oc_charge (t_out t).

(** The columns no statement writes after the insertion. *)
Definition task_identity t :=
  (t_id t, t_type t, t_ref t, t_model t, t_input t, t_metadata t, t_webhook t,
   (t_idem_key t, t_idem_scope t, t_fingerprint t, t_max t, t_created t, t_expires t)).

Definition delivery_ok (l : list task) d : Prop :=
  (exists t, t ∈ l /\ t_id t = d_task d /\ isTerminal (t_status t) = true /\ t_webhook t = d_url d /\
     d_url d <> ""%string /\ d_payload d = Payload "D-AI" ("task." +:+ t_status t) (t_id t)) /\
  0 <= d_attempts d <= d_max d /\ d_max d = 6.

(** What holds between the two statements of a completion as well. *)
Record tables_ok db : Prop := {
  tb_ids : NoDup (t_id <$> k_tasks db);
  tb_rows : forall t, t ∈ k_tasks db -> row_ok t;
  tb_keys : forall t u, t ∈ k_tasks db -> u ∈ k_tasks db ->
    same_key (t_idem_scope t) (t_idem_key t) u = true -> t_id t = t_id u;
  tb_cap : 0 < cap -> forall tenant, in_flight tenant (k_tasks db) <= cap;
  tb_dids : NoDup (d_id <$> k_deliveries db);
  tb_dtasks : NoDup (d_task <$> k_deliveries db);
  tb_deliveries : forall d, d ∈ k_deliveries db -> delivery_ok (k_tasks db) d }.

(** Every terminal task with a webhook has its notification. *)
Definition notified db t : Prop :=
  isTerminal (t_status t) = true -> t_webhook t <> ""%string -> t_id t ∈ d_task <$> k_deliveries db.

Record queue_ok db : Prop := {
  qo_tables : tables_ok db;
  qo_notified : forall t, t ∈ k_tasks db -> notified db t }.
End System.

(** ** Lemmas on the task queue *)

Lemma text_eq_true a b : text_eq a b = true <-> a = b.
Proof. apply bool_decide_eq_true. Qed.
Lemma text_eq_false a b : text_eq a b = false <-> a <> b.
Proof. apply bool_decide_eq_false. Qed.
Lemma text_eq_refl a : text_eq a a = true.
Proof. by apply text_eq_true. Qed.

Lemma identity_fields t u : task_identity t = task_identity u ->
  t_id t = t_id u /\ t_tenant t = t_tenant u /\ t_webhook t = t_webhook u /\ t_idem_key t = t_idem_key u /\
  t_idem_scope t = t_idem_scope u /\ t_max t = t_max u.
Proof. unfold task_identity, t_tenant. intros H. injection H as -> _ -> _ _ _ -> -> -> _ -> _ _. done. Qed.

(** The three phases are told apart by the status. *)
Lemma terminal_not_live s : isTerminal s = true -> live_status s = false.
Proof.
  unfold isTerminal, live_status, text_eq. intros H.
  repeat (apply orb_true_iff in H as [H | H]); apply bool_decide_eq_true in H as ->; reflexivity.
Qed.
Lemma pending_live t : row_pending t -> live_status (t_status t) = true /\ isTerminal (t_status t) = false.
Proof. by intros (-> & _). Qed.
Lemma running_live t : row_running t -> live_status (t_status t) = true /\ isTerminal (t_status t) = false.
Proof. by intros (-> & _). Qed.

Lemma row_phase_live t : row_ok t -> live_status (t_status t) = true -> row_pending t \/ row_running t.
Proof.
  intros [[Hp | [Hr | Ht]] _] Hl; [by left | by right |].
  destruct Ht as [Ht _]. by rewrite terminal_not_live in Hl.
Qed.
Lemma row_phase_terminal t : row_ok t -> isTerminal (t_status t) = true -> row_terminal t.
Proof.
  intros [[Hp | [Hr | Ht]] _] H; [..|done].
  - apply pending_live in Hp as [_ Hp]. congruence.
  - apply running_live in Hr as [_ Hr]. congruence.
Qed.
Lemma row_is_pending t : row_ok t -> t_status t = TaskPending -> row_pending t.
Proof.
  intros H E. destruct (row_phase_live t H) as [? | (Hr & _)]; [by rewrite E | done | by rewrite E in Hr].
Qed.
Lemma row_is_running t : row_ok t -> t_status t = TaskRunning -> row_running t.
Proof.
  intros H E. destruct (row_phase_live t H) as [(Hr & _) | ?]; [by rewrite E | by rewrite E in Hr | done].
Qed.

(** *** Updates in place *)

Lemma count_update_le {A} (c p : A -> bool) (f : A -> A) l :
  (forall a, a ∈ l -> p a = true -> c (f a) = true -> c a = true) ->
  count_where c (update_where p f l) <= count_where c l.
Proof.
  unfold count_where, update_where. induction l as [|a l IH]; intros H; [done|].
  rewrite fmap_cons, !sumZ_cons.
  assert (Hl : sumZ (fun a => if c a then 1 else 0) ((fun a => if p a then f a else a) <$> l) <=
               sumZ (fun a => if c a then 1 else 0) l)
    by (apply IH; intros b Hb; apply H; by apply list_elem_of_further).
  pose proof (H a (list_elem_of_here _ _)) as Ha.
  destruct (p a); [|lia]. destruct (c (f a)); [rewrite Ha by done; lia|]. destruct (c a); lia.
Qed.

Section Update.
Context (cap : Z) (db : task_db) (p : task -> bool) (f : task -> task).
Context (Hid : forall t, task_identity (f t) = task_identity t).
Context (Hrow : forall t, t ∈ k_tasks db -> p t = true -> row_ok (f t)).
Context (Hlive : forall t, t ∈ k_tasks db -> p t = true ->
  live_status (t_status (f t)) = true -> live_status (t_status t) = true).
Context (Hterm : forall t, t ∈ k_tasks db -> p t = true ->
  isTerminal (t_status t) = true -> t_status (f t) = t_status t).

Lemma update_t_id t : t_id (if p t then f t else t) = t_id t.
Proof. destruct (p t); [by apply identity_fields | done]. Qed.

Lemma tables_update : tables_ok cap db -> tables_ok cap (set_task_rows (update_where p f (k_tasks db)) db).
Proof.
  intros [H1 H2 H3 H4 H5 H6 H7].
  assert (Hf : forall t, t_id (f t) = t_id t) by (intros t; by apply identity_fields).
  split; simpl; [| | | | done | done |].
  - by rewrite keys_update_where.
  - intros t (a & Ha & ->)%elem_of_update_where. destruct (p a) eqn:Hp; [by apply Hrow | by apply H2].
  - intros t u (a & Ha & ->)%elem_of_update_where (b & Hb & ->)%elem_of_update_where.
    assert (Hk : forall x, t_idem_key (if p x then f x else x) = t_idem_key x /\
                           t_idem_scope (if p x then f x else x) = t_idem_scope x)
      by (intros x; destruct (p x); [by destruct (identity_fields _ _ (Hid x)) as (_ & _ & _ & -> & -> & _) | done]).
    rewrite !update_t_id. unfold same_key. destruct (Hk a) as [-> ->], (Hk b) as [-> ->]. by apply H3.
  - intros Hc tenant. etransitivity; [|by apply H4]. apply count_update_le.
    intros t Ht Hp Hc'. apply andb_true_iff in Hc' as [E Hl].
    destruct (identity_fields _ _ (Hid t)) as (_ & <- & _). by rewrite E, Hlive.
  - intros d Hd. destruct (H7 d Hd) as ((t & Ht & E & Htt & Hw & Hne & Hp) & Hrest).
    split; [|done]. exists (if p t then f t else t). rewrite update_t_id.
    split; [apply elem_of_update_where; by exists t|]. split; [done|].
    destruct (p t) eqn:Hpt; [|done].
    destruct (identity_fields _ _ (Hid t)) as (_ & _ & -> & _). by rewrite (Hterm t).
Qed.

(** When no row turns terminal, every notification is still there. *)
Lemma queue_update : (forall t, t ∈ k_tasks db -> p t = true ->
    isTerminal (t_status (f t)) = true -> isTerminal (t_status t) = true) ->
  queue_ok cap db -> queue_ok cap (set_task_rows (update_where p f (k_tasks db)) db).
Proof.
  intros Hq [Hok Hn]. split; [by apply tables_update|].
  intros t (a & Ha & ->)%elem_of_update_where. unfold notified. simpl. rewrite update_t_id.
  destruct (p a) eqn:Hp; [|by apply Hn]. destruct (identity_fields _ _ (Hid a)) as (_ & _ & -> & _).
  intros Ht. apply Hn; [done|]. by apply Hq.
Qed.
End Update.

(** *** Notifications *)

Lemma existsb_key {A K} `{EqDecision K} (key : A -> K) k l :
  existsb (has_key key k) l = true <-> k ∈ key <$> l.
Proof.
  rewrite List.existsb_exists, list_elem_of_fmap. unfold has_key. split.
  - intros (a & Ha & Hk). bool_prop. exists a. by rewrite list_elem_of_In.
  - intros (a & -> & Ha). exists a. by rewrite <- list_elem_of_In, bool_decide_true.
Qed.
Lemma existsb_key_false {A K} `{EqDecision K} (key : A -> K) k l :
  existsb (has_key key k) l = false <-> (k ∉ key <$> l).
Proof. rewrite <- (existsb_key key), not_true_iff_false. done. Qed.

(** What a batch of notifications adds. *)
Record enqueued now (gen : string -> string) (l : list task) db db' : Prop := {
  en_tasks : k_tasks db' = k_tasks db;
  en_keys : k_request_keys db' = k_request_keys db;
  en_new : forall d, d ∈ k_deliveries db' ->
    d ∈ k_deliveries db \/ exists t, t ∈ l /\ t_webhook t <> ""%string /\ d = new_delivery now (gen (t_id t)) t;
  en_old : forall d, d ∈ k_deliveries db -> d ∈ k_deliveries db';
  en_ids : NoDup (d_id <$> k_deliveries db) -> NoDup (d_id <$> k_deliveries db');
  en_dtasks : NoDup (d_task <$> k_deliveries db) -> NoDup (d_task <$> k_deliveries db');
  en_all : forall t, t ∈ l -> t_webhook t <> ""%string -> t_id t ∈ d_task <$> k_deliveries db' }.

Lemma enqueue_ok now gen t db r db' : enqueue now gen t db = Ok (r, db') -> enqueued now gen [t] db db'.
Proof.
  unfold enqueue. rewrite tx_get_bind. intros H.
  destruct (text_eq (t_webhook t) "" || existsb (has_key d_task (t_id t)) (k_deliveries db)) eqn:Hskip.
  - injection H as _ <-. split; try done; [by left|].
    intros u ->%list_elem_of_singleton Hw. apply orb_true_iff in Hskip as [Hs | Hs].
    + by apply text_eq_true in Hs.
    + by apply existsb_key in Hs.
  - apply tx_bind_ok in H as (? & ? & Hg & H). apply tx_guard_ok in Hg as [Hg ->]. injection H as _ <-.
    apply orb_false_iff in Hskip as [Hw Ht]. apply text_eq_false in Hw.
    apply existsb_key_false in Ht, Hg.
    split; try done; simpl.
    + intros d [Hd | ->%list_elem_of_singleton]%elem_of_app; [by left | right]. exists t.
      split; [apply list_elem_of_here | done].
    + intros d Hd. apply elem_of_app. by left.
    + intros Hnd. rewrite fmap_app. apply NoDup_app. split; [done|]. split; [|apply NoDup_singleton].
      by intros i Hx ->%list_elem_of_singleton.
    + intros Hnd. rewrite fmap_app. apply NoDup_app. split; [done|]. split; [|apply NoDup_singleton].
      by intros i Hx ->%list_elem_of_singleton.
    + intros u ->%list_elem_of_singleton _. rewrite fmap_app. apply elem_of_app. right. apply list_elem_of_here.
Qed.

Lemma enqueue_all now gen l db r db' : tx_iter (enqueue now gen) l db = Ok (r, db') -> enqueued now gen l db db'.
Proof.
  revert db. induction l as [|t l IH]; intros db H; simpl in H.
  - injection H as _ <-. split; try done; [by left|]. intros t Ht. by apply not_elem_of_nil in Ht.
  - apply tx_bind_ok in H as (? & db1 & H1 & H). apply enqueue_ok in H1. apply IH in H.
    destruct H1 as [A1 A2 A3 A4 A5 A6 A7], H as [B1 B2 B3 B4 B5 B6 B7]. split; try congruence; auto.
    + intros d [Hd | (u & Hu & Hd)]%B3.
      * destruct (A3 d Hd) as [? | (u & Hu & ?)]; [by left | right; exists u].
        apply list_elem_of_singleton in Hu as ->. split; [apply list_elem_of_here | done].
      * right. exists u. split; [by apply list_elem_of_further | done].
    + intros u [-> | Hu]%elem_of_cons Hw; [|by apply B7].
      specialize (A7 t (list_elem_of_here _ _) Hw). apply list_elem_of_fmap in A7 as (d & -> & Hd).
      apply list_elem_of_fmap_2. by apply B4.
Qed.

(** Rows that turn terminal together with their notifications. *)
Lemma finish_rows_ok cap now gen p f db n db' :
  (forall t, task_identity (f t) = task_identity t) ->
  (forall t, t ∈ k_tasks db -> p t = true -> live_status (t_status t) = true) ->
  (forall t, t ∈ k_tasks db -> p t = true -> row_ok (f t) /\ isTerminal (t_status (f t)) = true) ->
  queue_ok cap db -> finish_rows now gen p f db = Ok (n, db') ->
  queue_ok cap db' /\ k_tasks db' = update_where p f (k_tasks db) /\ k_request_keys db' = k_request_keys db /\
  n = Z.of_nat (length (List.filter p (k_tasks db))) /\ (forall d, d ∈ k_deliveries db -> d ∈ k_deliveries db').
Proof.
  intros Hid Hlive Hfin [Hok Hnot] H. unfold finish_rows in H. rewrite tx_get_bind in H.
  apply tx_bind_ok in H as (? & db1 & H1 & H). injection H1 as _ <-.
  apply tx_bind_ok in H as (? & db2 & Hq & H). injection H as <- <-.
  apply enqueue_all in Hq as [E1 E2 E3 E4 E5 E6 E7]. simpl in *.
  assert (Hok1 : tables_ok cap (set_task_rows (update_where p f (k_tasks db)) db)).
  { apply tables_update; [done | | | |done].
    - intros t Ht Hp. by apply Hfin.
    - intros t Ht Hp. by rewrite (Hlive t).
    - intros t Ht Hp Hterm. specialize (Hlive t Ht Hp). by rewrite terminal_not_live in Hlive. }
  destruct Hok1 as [H1 H2 H3 H4 H5 H6 H7]. simpl in *.
  split; [split; [split|]|]; rewrite ?E1; auto.
  - intros d [Hd | (u & Hu & Hw & ->)]%E3; [by apply H7|].
    apply list_elem_of_fmap in Hu as (a & -> & [Hp Ha]%elem_of_filter_rows).
    split; [|simpl; lia]. exists (f a). split; [apply elem_of_update_where; exists a; by rewrite Hp|].
    destruct (Hfin a Ha Hp) as [_ Ht]. done.
  - intros t (a & Ha & ->)%elem_of_update_where Ht Hw. destruct (p a) eqn:Hp.
    + apply E7; [|done]. apply list_elem_of_fmap_2. by apply elem_of_filter_rows.
    + specialize (Hnot a Ha Ht Hw). apply list_elem_of_fmap in Hnot as (d & Hd & Hin).
      rewrite Hd. apply list_elem_of_fmap_2. by apply E4.
  - rewrite length_fmap. done.
Qed.

(** *** The statements, one by one *)

(** Rows picked by the ids of a batch are the batch. *)
Lemma selected_spec batch l t :
  NoDup (t_id <$> l) -> (forall u, u ∈ batch -> u ∈ l) -> t ∈ l -> selected batch t = true <-> t ∈ batch.
Proof.
  intros Hnd Hsub Ht. unfold selected. rewrite bool_decide_eq_true. split.
  - intros (u & Hid & Hu)%list_elem_of_fmap. rewrite (keyed_unique t_id l t u); auto.
  - intros Hin. by apply list_elem_of_fmap_2.
Qed.

Lemma oldest_leases_elem locked limit p l t : t ∈ oldest_leases locked limit p l -> t ∈ l /\ p t = true.
Proof.
  unfold oldest_leases. intros (i & Ht%list_elem_of_lookup_2 & _)%elem_of_take. apply elem_of_filter_rows in Ht as [_ Ht].
  apply elem_of_order_by, elem_of_filter_rows in Ht as [? ?]. done.
Qed.

Lemma selected_leases locked limit p l t : NoDup (t_id <$> l) -> t ∈ l ->
  selected (oldest_leases locked limit p l) t = true -> t ∈ oldest_leases locked limit p l /\ p t = true.
Proof.
  intros Hnd Ht Hs. assert (Hin : t ∈ oldest_leases locked limit p l).
  { apply (selected_spec _ l); [done | | done | done]. intros u Hu. by apply oldest_leases_elem in Hu as [? _]. }
  split; [done|]. by apply oldest_leases_elem in Hin as [_ ?].
Qed.

Lemma same_key_spec scope key t :
  same_key scope key t = true <-> key <> ""%string /\ t_idem_scope t = scope /\ t_idem_key t = key.
Proof.
  unfold same_key. rewrite !andb_true_iff, negb_true_iff, text_eq_false, !text_eq_true. tauto.
Qed.

Lemma insert_shape now uuid rec r db db' : insert now uuid rec db = Ok (r, db') ->
  (r = (""%string, false) /\ db' = db /\
     existsb (same_key (ir_IdempotencyScope rec) (ir_IdempotencyKey rec)) (k_tasks db) = true) \/
  (r = (uuid, true) /\ db' = set_task_rows (k_tasks db ++ [new_task now uuid rec]) db /\
   existsb (same_key (ir_IdempotencyScope rec) (ir_IdempotencyKey rec)) (k_tasks db) = false /\
   (uuid ∉ t_id <$> k_tasks db) /\ (ref_check (ir_SubjectRef rec) = true /\ 1 <= ir_MaxAttempts rec) /\
   (ir_MaxInFlightPerTenant rec <= 0 \/
    in_flight (sr_TenantID (ir_SubjectRef rec)) (k_tasks db) < ir_MaxInFlightPerTenant rec)).
Proof.
  unfold insert. rewrite tx_get_bind. cbv zeta. intros H.
  assert (Href : insert_refused rec db = Ok (r, db') -> r = (""%string, false) /\ db' = db /\
     existsb (same_key (ir_IdempotencyScope rec) (ir_IdempotencyKey rec)) (k_tasks db) = true).
  { unfold insert_refused. rewrite tx_get_bind.
    destruct (existsb _ (k_tasks db)); intros Hr; [by injection Hr as <- <- | discriminate Hr]. }
  destruct (_ || _) eqn:Hcap in H; [|left; by apply Href].
  apply tx_bind_ok in H as (? & ? & Hg & H). apply tx_guard_ok in Hg as [Hg ->].
  destruct (existsb (same_key _ _) (k_tasks db)) eqn:Hdup in H; [left; by apply Href|right].
  apply tx_bind_ok in H as (? & ? & Hi & H). apply tx_guard_ok in Hi as [Hi ->].
  injection H as <- <-. apply existsb_key_false in Hi. bool_prop. split_and!; try done.
  apply orb_true_iff in Hcap as [Hc | Hc]; bool_prop; auto.
Qed.

Lemma insert_queue cap now uuid rec r db db' : ir_MaxInFlightPerTenant rec = cap ->
  queue_ok cap db -> insert now uuid rec db = Ok (r, db') -> queue_ok cap db'.
Proof.
  intros Hc [[H1 H2 H3 H4 H5 H6 H7] Hn] [(-> & -> & _) | (-> & -> & Hk & Hu & [_ Hm] & Hroom)]%insert_shape; [done|].
  assert (Hnone : forall t, t ∈ k_tasks db -> same_key (ir_IdempotencyScope rec) (ir_IdempotencyKey rec) t = false).
  { intros t Ht. apply not_true_iff_false. intros Hs. rewrite <- not_true_iff_false in Hk. apply Hk.
    apply List.existsb_exists. exists t. by rewrite <- list_elem_of_In. }
  split; [split|]; simpl; try done.
  - rewrite fmap_app. apply NoDup_app. split; [done|]. split; [|apply NoDup_singleton].
    by intros i Hi ->%list_elem_of_singleton.
  - intros t [Ht | ->%list_elem_of_singleton]%elem_of_app; [by apply H2|].
    split; [left | simpl; lia]. unfold row_pending, t_attempts. simpl. split_and!; done || lia.
  - intros t u [Ht | ->%list_elem_of_singleton]%elem_of_app [Hu' | ->%list_elem_of_singleton]%elem_of_app Hs; auto.
    + exfalso. assert (Hs' : same_key (ir_IdempotencyScope rec) (ir_IdempotencyKey rec) t = true); [|by rewrite Hnone in Hs'].
      apply same_key_spec in Hs as (Hne & Hsc & Hke). simpl in *. apply same_key_spec. by rewrite Hke.
    + by rewrite Hnone in Hs.
  - intros Hpos tenant. unfold in_flight, count_where. rewrite sumZ_app. simpl.
    specialize (H4 Hpos tenant). unfold in_flight, count_where in H4, Hroom. subst cap.
    destruct (text_eq _ tenant) eqn:Ht; simpl; [|lia]. apply text_eq_true in Ht. unfold t_tenant in Ht. simpl in Ht.
    subst tenant. unfold t_tenant, t_status in *. lia.
  - intros d Hd. destruct (H7 d Hd) as ((t & Ht & Hrest) & Hd'). split; [|done].
    exists t. split; [apply elem_of_app; by left | done].
  - intros t [Ht | ->%list_elem_of_singleton]%elem_of_app; [by apply Hn | by intros Hf].
Qed.

Lemma claim_shape cap now locked types worker lease c db db' :
  claim now locked types cap worker lease db = Ok (Some c, db') ->
  exists t, t ∈ k_tasks db /\ claimable now types t = true /\ locked (t_id t) = false /\
    tenant_rank now types (k_tasks db) t <= cap /\
    c = claimed_of (claim_row now worker lease t) /\
    db' = set_task_rows (update_where (has_key t_id (t_id t)) (claim_row now worker lease) (k_tasks db)) db.
Proof.
  unfold claim. destruct types as [|ty types]; [intros H; discriminate H|].
  set (tys := ty :: types). rewrite tx_get_bind. intros H.
  destruct (List.find _ _) as [t|] eqn:Hf in H; [|discriminate H]. injection H as <- <-.
  apply List.find_some in Hf as [Hin Hl]. apply list_elem_of_In, elem_of_order_by, elem_of_filter_rows in Hin as [Hp Hin].
  bool_prop. by exists t.
Qed.

Lemma claimable_pending now types t : claimable now types t = true -> t_status t = TaskPending.
Proof. unfold claimable. intros H. apply andb_true_iff in H as [H _]. apply andb_true_iff in H as [H _]. by apply text_eq_true. Qed.

Lemma claim_row_ok now worker lease t : row_pending t -> 1 <= t_max t -> 0 <= oc_charge (t_out t) ->
  row_ok (claim_row now worker lease t).
Proof.
  intros (Hs & _ & _ & Hc & Ha) Hm Ho. split; [right; left | done].
  unfold row_running, t_attempts in *. simpl. split_and!; done || lia.
Qed.

Lemma claim_queue_ok cap now locked types worker lease c db db' :
  queue_ok cap db -> claim now locked types cap worker lease db = Ok (Some c, db') -> queue_ok cap db'.
Proof.
  intros Hok (t & Ht & Hcl & _ & _ & _ & ->)%claim_shape.
  apply claimable_pending in Hcl. pose proof (qo_tables _ _ Hok) as Htb.
  assert (Huniq : forall u, u ∈ k_tasks db -> has_key t_id (t_id t) u = true -> u = t).
  { intros u Hu Hk. unfold has_key in Hk. bool_prop. by apply (keyed_unique t_id (k_tasks db)); [apply Htb | ..]. }
  apply queue_update; try done.
  - intros u Hu ->%Huniq; [|done]. destruct (tb_rows _ _ Htb t Ht) as [Hph [Hm Ho]].
    apply claim_row_ok; [by apply row_is_pending; [apply Htb|] | done | done].
  - intros u Hu ->%Huniq _; [by rewrite Hcl | done].
  - intros u Hu ->%Huniq; [|done]. by rewrite Hcl.
Qed.

Lemma held_running id worker t : held_by_worker id worker t = true -> t_status t = TaskRunning.
Proof. unfold held_by_worker. intros H. apply andb_true_iff in H as [_ H]. by apply text_eq_true. Qed.

Lemma heartbeat_queue cap now id worker lease r db db' :
  queue_ok cap db -> task_heartbeat now id worker lease db = Ok (r, db') -> queue_ok cap db'.
Proof.
  intros Hok H. unfold task_heartbeat in H. rewrite tx_get_bind in H. injection H as _ <-.
  apply queue_update; try done. intros t Ht Hh%held_running.
  destruct (tb_rows _ _ (qo_tables _ _ Hok) t Ht) as [Hph Hrest].
  destruct (row_is_running t (conj Hph Hrest) Hh) as (E1 & E2 & _ & E3 & E4 & E5).
  split; [right; left | done]. unfold row_running, t_attempts, t_status in *. simpl. by split_and!; try lia.
Qed.

(** A live row that ends. *)
Lemma finished_ok now status o t : row_ok t -> live_status (t_status t) = true -> isTerminal status = true ->
  0 <= oc_charge o -> row_ok (with_out o (finished now status t)).
Proof.
  intros Hok Hl Hs Ho. pose proof (row_phase_live t Hok Hl) as Hph. destruct Hok as (_ & Hm & _).
  split; [right; right | done]. unfold row_terminal, t_attempts in *. simpl. split_and!; try done.
  - destruct Hph as [(_ & _ & _ & _ & ?) | (_ & _ & _ & _ & _ & ?)]; unfold t_attempts in *; lia.
  - destruct Hph as [(_ & _ & _ & _ & ?) | (_ & _ & _ & _ & _ & ?)]; unfold t_attempts in *; lia.
Qed.

Lemma terminal_result_status redact res : isTerminal (rs_Status (terminal_result redact res)) = true.
Proof.
  unfold terminal_result.
  destruct (text_eq (rs_Status res) TaskCompleted || text_eq (rs_Status res) TaskFailed) eqn:H.
  - destruct (text_eq (rs_Status res) TaskFailed) eqn:Hf; [done|]. simpl.
    rewrite orb_false_r in H. unfold isTerminal. by rewrite H.
  - done.
Qed.

Lemma complete_ok cap now gen id worker redact res r db db' :
  queue_ok cap db -> complete now gen id worker (terminal_result redact res) db = Ok (r, db') ->
  queue_ok cap db' /\
  k_tasks db' = update_where (held_by_worker id worker) (completed now (terminal_result redact res)) (k_tasks db) /\
  k_request_keys db' = k_request_keys db /\ (forall d, d ∈ k_deliveries db -> d ∈ k_deliveries db').
Proof.
  intros Hok H. unfold complete in H. rewrite tx_get_bind in H.
  apply tx_bind_ok in H as (? & ? & Hg & H). apply tx_guard_ok in Hg as [_ ->].
  apply tx_bind_ok in H as (n & db1 & Hf & H). injection H as _ <-.
  assert (Hl : forall t, t ∈ k_tasks db -> held_by_worker id worker t = true -> live_status (t_status t) = true)
    by (intros t _ Hh%held_running; by rewrite Hh).
  eapply finish_rows_ok in Hf as (? & ? & ? & _ & ?); [done | done | done | | done].
  intros t Ht Hh. pose proof (tb_rows _ _ (qo_tables _ _ Hok) t Ht) as Hrow.
  split; [|apply terminal_result_status].
  apply finished_ok; [done | by apply Hl | apply terminal_result_status |]. simpl.
  destruct Hrow as (_ & _ & Hc). lia.
Qed.

Lemma filter_nonempty {A} (p : A -> bool) l : (0 <? Z.of_nat (length (List.filter p l))) = existsb p l.
Proof.
  induction l as [|a l IH]; [done|]. simpl. destruct (p a); simpl; [apply Z.ltb_lt; lia | exact IH].
Qed.

Lemma cancel_ok cap now gen id r db db' :
  queue_ok cap db -> cancel now gen id db = Ok (r, db') ->
  queue_ok cap db' /\
  k_tasks db' = update_where (fun t => has_key t_id id t && live_status (t_status t)) (cancelled_row now) (k_tasks db) /\
  k_request_keys db' = k_request_keys db /\ (forall d, d ∈ k_deliveries db -> d ∈ k_deliveries db') /\
  r = existsb (fun t => has_key t_id id t && live_status (t_status t)) (k_tasks db).
Proof.
  intros Hok H. unfold cancel in H. apply tx_bind_ok in H as (n & db1 & Hf & H). injection H as <- <-.
  eapply finish_rows_ok in Hf as (? & ? & ? & Hn & ?);
    [split_and!; [done.. |] | done | by intros t _ [_ ?]%andb_true_iff | | done].
  - subst n. apply filter_nonempty.
  - intros t Ht [_ Hl]%andb_true_iff. pose proof (tb_rows _ _ (qo_tables _ _ Hok) t Ht) as Hrow.
    split; [|done]. apply finished_ok; [done | done | done |]. by destruct Hrow as (_ & _ & Hc).
Qed.

Lemma lease_expired_running now t : lease_expired now t = true -> t_status t = TaskRunning.
Proof. unfold lease_expired. intros H. apply andb_true_iff in H as [H _]. by apply text_eq_true. Qed.
Lemma retryable_spec now keys t : retryable now keys t = true ->
  lease_expired now t = true /\ t_attempts t < t_max t /\ billed keys t = false.
Proof. unfold retryable. intros H. bool_prop. done. Qed.

Lemma running_to_pending t s : row_ok t -> t_status t = TaskRunning ->
  sc_status s = TaskPending -> sc_worker s = None -> sc_lease s = None -> sc_completed s = sc_completed (t_sched t) ->
  0 <= sc_attempts s < t_max t -> row_ok (with_sched s t).
Proof.
  intros Hok Hs E1 E2 E3 E4 E5. pose proof (row_is_running t Hok Hs) as (_ & _ & _ & Hc & _).
  destruct Hok as [_ Hrest]. split; [left | done]. unfold row_pending, t_status, t_attempts. simpl. by rewrite E4.
Qed.

Lemma reapRetryable_ok cap now locked limit r db db' :
  queue_ok cap db -> reapRetryable now locked limit db = Ok (r, db') ->
  queue_ok cap db' /\
  let batch := oldest_leases locked limit (retryable now (k_request_keys db)) (k_tasks db) in
  db' = set_task_rows (update_where (selected batch) (requeued now) (k_tasks db)) db /\
  r = Z.of_nat (length batch).
Proof.
  intros Hok H. unfold reapRetryable in H. apply tx_bind_ok in H as (? & ? & Hg & H). apply tx_guard_ok in Hg as [_ ->].
  rewrite tx_get_bind in H. injection H as <- <-. split; [|done].
  set (batch := oldest_leases _ _ _ _). pose proof (qo_tables _ _ Hok) as Htb.
  assert (Hsel : forall t, t ∈ k_tasks db -> selected batch t = true -> retryable now (k_request_keys db) t = true).
  { intros t Ht Hs. by apply selected_leases in Hs as [_ Hs]; [|apply Htb|]. }
  apply queue_update; try done.
  - intros t Ht (Hr & Hlt & _)%Hsel%retryable_spec; [|done]. apply lease_expired_running in Hr.
    pose proof (tb_rows _ _ Htb t Ht) as Hrow. apply running_to_pending; try done.
    pose proof (row_is_running t Hrow Hr) as (_ & _ & _ & _ & _ & ?). unfold t_attempts in *. simpl. lia.
  - intros t Ht (Hr & _)%Hsel%retryable_spec _; [|done]. apply lease_expired_running in Hr. by rewrite Hr.
  - intros t Ht (Hr & _)%Hsel%retryable_spec Hf; [|done]. apply lease_expired_running in Hr. by rewrite Hr in Hf.
Qed.

Lemma reapDead_ok cap now locked gen limit r db db' :
  queue_ok cap db -> reapDead now locked gen limit db = Ok (r, db') ->
  let batch := oldest_leases locked limit (lease_expired now) (k_tasks db) in
  queue_ok cap db' /\ k_tasks db' = update_where (selected batch) (lost now) (k_tasks db) /\
  k_request_keys db' = k_request_keys db /\ (forall d, d ∈ k_deliveries db -> d ∈ k_deliveries db').
Proof.
  intros Hok H batch. unfold reapDead in H. apply tx_bind_ok in H as (? & ? & Hg & H). apply tx_guard_ok in Hg as [_ ->].
  rewrite tx_get_bind in H. fold batch in H. pose proof (qo_tables _ _ Hok) as Htb.
  assert (Hsel : forall t, t ∈ k_tasks db -> selected batch t = true -> t_status t = TaskRunning).
  { intros t Ht Hs. apply (lease_expired_running now). by apply selected_leases in Hs as [_ Hs]; [|apply Htb|]. }
  eapply finish_rows_ok in H as (? & ? & ? & _ & ?); [done | done | | | done].
  - intros t Ht Hs%Hsel; [|done]. by rewrite Hs.
  - intros t Ht Hs%Hsel; [|done]. pose proof (tb_rows _ _ Htb t Ht) as Hrow.
    split; [|done]. apply finished_ok; [done | by rewrite Hs | done |]. by destruct Hrow as (_ & _ & Hc).
Qed.

Lemma releaseWorker_ok cap worker r db db' :
  queue_ok cap db -> releaseWorker worker db = Ok (r, db') ->
  queue_ok cap db' /\
  db' = set_task_rows (update_where (of_worker worker (k_request_keys db)) released (k_tasks db)) db.
Proof.
  intros Hok H. unfold releaseWorker in H. rewrite tx_get_bind in H. injection H as _ <-. split; [|done].
  assert (Hp : forall t, of_worker worker (k_request_keys db) t = true -> t_status t = TaskRunning).
  { unfold of_worker. intros t H. apply andb_true_iff in H as [H _]. apply andb_true_iff in H as [_ H].
    by apply text_eq_true. }
  apply queue_update; try done.
  - intros t Ht Hs%Hp. pose proof (tb_rows _ _ (qo_tables _ _ Hok) t Ht) as Hrow.
    apply running_to_pending; try done.
    pose proof (row_is_running t Hrow Hs) as (_ & _ & _ & _ & _ & ?). unfold t_attempts in *. simpl. lia.
  - intros t Ht Hs%Hp _. by rewrite Hs.
  - intros t Ht Hs%Hp Hf. by rewrite Hs in Hf.
Qed.

Lemma count_filter_le {A} (c p : A -> bool) l : count_where c (List.filter p l) <= count_where c l.
Proof.
  unfold count_where. induction l as [|a l IH]; [done|]. simpl. destruct (p a); simpl; destruct (c a); lia.
Qed.

Lemma deleteTask_queue cap id r db db' :
  queue_ok cap db -> deleteTask id db = Ok (r, db') ->
  queue_ok cap db' /\ k_tasks db' = List.filter (fun t => negb (has_key t_id id t)) (k_tasks db).
Proof.
  intros [[H1 H2 H3 H4 H5 H6 H7] Hn] H. unfold deleteTask in H. rewrite tx_get_bind in H. injection H as _ <-.
  split; [|done]. split; [split|]; simpl.
  - by apply NoDup_filter_rows.
  - by intros t [_ ?]%elem_of_filter_rows; apply H2.
  - intros t u [_ Ht]%elem_of_filter_rows [_ Hu]%elem_of_filter_rows. by apply H3.
  - intros Hc tenant. etransitivity; [apply count_filter_le | by apply H4].
  - by apply NoDup_filter_rows.
  - by apply NoDup_filter_rows.
  - intros d [Hd Hin]%elem_of_filter_rows. destruct (H7 d Hin) as ((t & Ht & Hid & Hrest) & ?).
    split; [|done]. exists t. split; [|done]. apply elem_of_filter_rows. split; [|done].
    unfold has_key in *. by rewrite Hid.
  - intros t [Ht Hin]%elem_of_filter_rows Hterm Hw. specialize (Hn t Hin Hterm Hw).
    apply list_elem_of_fmap in Hn as (d & Hd & Hdin). unfold notified. rewrite Hd. simpl.
    apply list_elem_of_fmap_2, elem_of_filter_rows. split; [|done]. unfold has_key in *. by rewrite <- Hd.
Qed.

(** Statements on deliveries that only move their scheduling columns. *)
Definition delivery_identity d := (d_id d, d_task d, d_url d, d_payload d, d_max d, d_created d).

Lemma update_deliveries_ok cap p f db :
  (forall d, delivery_identity (f d) = delivery_identity d) ->
  (forall d, d ∈ k_deliveries db -> p d = true -> 0 <= d_attempts d <= d_max d -> 0 <= d_attempts (f d) <= d_max d) ->
  queue_ok cap db -> queue_ok cap (set_deliveries (update_where p f (k_deliveries db)) db).
Proof.
  intros Hid Hatt [[H1 H2 H3 H4 H5 H6 H7] Hn].
  assert (Hf : forall d, d_id (f d) = d_id d /\ d_task (f d) = d_task d /\ d_url (f d) = d_url d /\
            d_payload (f d) = d_payload d /\ d_max (f d) = d_max d).
  { intros d. specialize (Hid d). unfold delivery_identity in Hid. by injection Hid as -> -> -> -> -> _. }
  split; [split|]; simpl; try done.
  - rewrite keys_update_where; [done | intros d; apply Hf].
  - rewrite keys_update_where; [done | intros d; apply Hf].
  - intros d (a & Ha & ->)%elem_of_update_where. destruct (H7 a Ha) as (Ht & Hr & Hm).
    destruct (p a) eqn:Hp; [|done]. destruct (Hf a) as (_ & Ht' & Hu & Hp' & Hm').
    unfold delivery_ok. rewrite Ht', Hu, Hp', Hm'. split_and!; [done | by apply Hatt.. | done].
  - intros t Ht Hterm Hw. unfold notified. simpl. rewrite keys_update_where; [by apply Hn | intros d; apply Hf].
Qed.

Lemma delivery_due_attempts now d : delivery_due now d = true -> d_attempts d < d_max d.
Proof. unfold delivery_due. intros H. apply andb_true_iff in H as [_ H]. by apply Z.ltb_lt. Qed.

Lemma claimDelivery_shape now locked worker lease c db db' :
  claimDelivery now locked worker lease db = Ok (Some c, db') ->
  exists d, d ∈ k_deliveries db /\ delivery_due now d = true /\
    c = ClaimedDelivery (d_id d) (d_task d) (d_url d) (d_payload d) (d_attempts d + 1) (d_max d) /\
    db' = set_deliveries (update_where (has_key d_id (d_id d)) (claim_delivery_row now worker lease) (k_deliveries db)) db.
Proof.
  unfold claimDelivery. rewrite tx_get_bind. intros H.
  destruct (List.find _ _) as [d|] eqn:Hf in H; [|discriminate H]. injection H as <- <-.
  apply List.find_some in Hf as [Hin _]. apply list_elem_of_In, elem_of_order_by, elem_of_filter_rows in Hin as [Hp Hin].
  by exists d.
Qed.

Lemma claimDelivery_queue cap now locked worker lease c db db' :
  queue_ok cap db -> claimDelivery now locked worker lease db = Ok (Some c, db') -> queue_ok cap db'.
Proof.
  intros Hok (d & Hd & Hdue & _ & ->)%claimDelivery_shape. apply update_deliveries_ok; [done | | done].
  intros x Hx Hk Hr. unfold has_key in Hk. bool_prop.
  assert (x = d) as -> by (by apply (keyed_unique d_id (k_deliveries db)); [apply (qo_tables _ _ Hok)|..]).
  apply delivery_due_attempts in Hdue. simpl. lia.
Qed.

Lemma charge_request_queue cap rid n db : 0 <= n -> queue_ok cap db -> queue_ok cap (charge_request rid n db).
Proof.
  intros Hn Hok. apply queue_update; try done. intros t Ht _.
  destruct (tb_rows _ _ (qo_tables _ _ Hok) t Ht) as (Hph & Hm & Hc). split; [done|]. split; [done|]. simpl. lia.
Qed.

(** *** Every step *)

Theorem step_queue_ok cap db ev db' : queue_ok cap db -> tk_step cap db ev db' -> queue_ok cap db'.
Proof.
  intros Hok Hstep. destruct Hstep as [now uuid rec r db db' Hc H | now locked types worker lease c db db' H
    | now id worker lease r db db' H | now gen id worker redact res r db db' H | now gen id r db db' H
    | now locked limit r db db' H | now locked gen limit r db db' H | worker r db db' H | id r db db' H
    | now locked worker lease c db db' H | now worker c code err r db db' H | now locked limit r db db' H
    | now worker r db db' H | rid amount db Hn | keys db].
  - by eapply insert_queue.
  - by eapply claim_queue_ok.
  - by eapply heartbeat_queue.
  - by eapply complete_ok.
  - by eapply cancel_ok.
  - by eapply reapRetryable_ok.
  - by eapply reapDead_ok.
  - by eapply releaseWorker_ok.
  - by eapply deleteTask_queue.
  - by eapply claimDelivery_queue.
  - unfold finishWebhookDelivery, finishDelivery in H. rewrite tx_get_bind in H.
    apply tx_bind_ok in H as (? & ? & Hg & H). apply tx_guard_ok in Hg as [_ ->]. injection H as _ <-.
    by apply update_deliveries_ok.
  - unfold reapDeadDeliveries in H. apply tx_bind_ok in H as (? & ? & Hg & H). apply tx_guard_ok in Hg as [_ ->].
    rewrite tx_get_bind in H. injection H as _ <-. by apply update_deliveries_ok.
  - unfold releaseDeliveries in H. rewrite tx_get_bind in H. injection H as _ <-.
    apply update_deliveries_ok; [done | | done]. intros d _ _ Hr. simpl. lia.
  - by apply charge_request_queue.
  - destruct Hok as [[H1 H2 H3 H4 H5 H6 H7] Hn]. by split.
Qed.

Lemma empty_queue_ok cap keys : queue_ok cap (TaskDB [] [] keys).
Proof.
  split; [split|]; simpl; try apply NoDup_nil_2; try (by intros ? ?%not_elem_of_nil).
  - by intros ? ? ?%not_elem_of_nil.
  - lia.
Qed.

Lemma run_queue_ok cap db h : tk_run cap db h -> queue_ok cap db.
Proof. induction 1 as [keys | db h ev db' _ IH Hs]; [apply empty_queue_ok | by eapply step_queue_ok]. Qed.

(** ** What the attempt counters count

    The queue keeps one counter per task and one per notification.  Handing the row out
    raises it and giving the row back - a worker that stops does, [releaseWorker] and
    [releaseDeliveries] - lowers it; nothing else writes it.  So over any run a counter
    is the number of times its row was handed out less the times it was given back. *)

(** ** Events of one task *)

Definition handed (id : string) : list tk_event -> Z :=
  count_where (fun e => match e with EvHanded i _ _ _ _ => text_eq i id | _ => false end).
Definition returned (id : string) : list tk_event -> Z :=
  count_where (fun e => match e with EvReleased i => text_eq i id | _ => false end).
Definition sent (id : string) : list tk_event -> Z :=
  count_where (fun e => match e with EvSent _ i _ => text_eq i id | _ => false end).
Definition unsent (id : string) : list tk_event -> Z :=
  count_where (fun e => match e with EvUnsent i => text_eq i id | _ => false end).

Lemma count_where_none {A} (p : A -> bool) l : (forall a, a ∈ l -> p a = false) -> count_where p l = 0.
Proof. intros H. apply sumZ_zero. intros a Ha. by rewrite H. Qed.
Lemma count_where_fmap {A B} (p : B -> bool) (f : A -> B) l : count_where p (f <$> l) = count_where (fun a => p (f a)) l.
Proof. induction l as [|a l IH]; [done|]. rewrite fmap_cons. unfold count_where in *. rewrite !sumZ_cons. by rewrite IH. Qed.

(** ** Counted rows *)

Section Counted.
Context {A : Type} (key : A -> string) (count : A -> Z).
Implicit Types (plus minus : string -> Z) (gone : string -> Prop) (l : list A).

(** From the rows [l] to the rows [l'], a counter moves by what [plus] and [minus] say of
    its key, and a new row starts at zero; the keys in [gone] are let go. *)
Record counted (plus minus : string -> Z) (gone : string -> Prop) (l l' : list A) : Prop := {
  cn_row : forall a', a' ∈ l' -> ~ gone (key a') ->
    (exists a, a ∈ l /\ key a = key a' /\ count a' = count a + plus (key a') - minus (key a')) \/
    ((key a' ∉ key <$> l) /\ count a' = 0 /\ plus (key a') = 0 /\ minus (key a') = 0);
  cn_absent : forall k, (k ∉ key <$> l') -> ~ gone k -> (k ∉ key <$> l) /\ plus k = 0 /\ minus k = 0 }.

Lemma counted_same plus minus gone l :
  (forall i, ~ gone i -> plus i = 0 /\ minus i = 0) -> counted plus minus gone l l.
Proof.
  intros H. split.
  - intros a Ha Hg. left. exists a. destruct (H _ Hg) as [-> ->]. split_and!; [done | done | lia].
  - intros k Hk Hg. split; [done | by apply H].
Qed.

Lemma counted_update plus minus gone (p : A -> bool) (f : A -> A) l :
  (forall a, key (f a) = key a) ->
  (forall a, a ∈ l -> count (if p a then f a else a) = count a + plus (key a) - minus (key a)) ->
  (forall k, (k ∉ key <$> l) -> plus k = 0 /\ minus k = 0) ->
  counted plus minus gone l (update_where p f l).
Proof.
  intros Hk Hc Hout.
  assert (Hif : forall a, key (if p a then f a else a) = key a) by (intros a; destruct (p a); [apply Hk | done]).
  split.
  - intros a' (a & Ha & ->)%elem_of_update_where _. left. exists a. rewrite Hif. split_and!; [done | done | by apply Hc].
  - intros k Hn _. rewrite keys_update_where in Hn by done. split; [done | by apply Hout].
Qed.

(** Nothing is counted, and rows are only added, at zero. *)
Lemma counted_grow plus minus gone l l' :
  (forall k, plus k = 0 /\ minus k = 0) -> NoDup (key <$> l') -> (forall a, a ∈ l -> a ∈ l') ->
  (forall a, a ∈ l' -> a ∈ l \/ count a = 0) -> counted plus minus gone l l'.
Proof.
  intros Hz Hnd Hold Hnew. split.
  - intros a Ha _. destruct (Hz (key a)) as [-> ->]. destruct (decide (key a ∈ key <$> l)) as [Hin | Hno].
    + left. apply list_elem_of_fmap in Hin as (b & Hb & Hbin). exists b. split; [done|]. split; [done|].
      assert (a = b) as -> by (by apply (keyed_unique key l'); [| | apply Hold|]). lia.
    + right. destruct (Hnew a Ha) as [Hin | H0]; [|by split_and!]. destruct Hno. by apply list_elem_of_fmap_2.
  - intros k Hk _. split; [|apply Hz]. intros (a & -> & Ha)%list_elem_of_fmap. by apply Hk, list_elem_of_fmap_2, Hold.
Qed.

Lemma counted_trans_same plus minus gone l l1 l' :
  counted plus minus gone l l1 -> counted (fun _ => 0) (fun _ => 0) gone l1 l' -> counted plus minus gone l l'.
Proof.
  intros [R1 A1] [R2 A2]. split.
  - intros a Ha Hg. destruct (R2 a Ha Hg) as [(b & Hb & Hk & Hc) | (Hno & Hc & _)].
    + rewrite <- Hk in *. destruct (R1 b Hb) as [(x & Hx & Hkx & Hcx) | (Hn & Hcb & Hp & Hm)]; [done| |].
      * left. exists x. split_and!; [done | congruence | lia].
      * right. split_and!; [done | lia | done | done].
    + right. destruct (A1 _ Hno Hg) as (? & ? & ?). done.
  - intros k Hk Hg. destruct (A2 k Hk Hg) as (Hk1 & _). by apply A1.
Qed.
End Counted.

(** ** The counters of one step *)

(** A notification in the hands of a sender has been handed out. *)
Definition deliveries_started db : Prop :=
  forall d, d ∈ k_deliveries db -> d_status d = DeliveryRunning -> 1 <= d_attempts d.

Record step_counts (ev : list tk_event) db db' : Prop := {
  sc_tasks : counted t_id t_attempts (fun k => handed k ev) (fun k => returned k ev) (fun k => EvDeleted k ∈ ev)
    (k_tasks db) (k_tasks db');
  sc_deliveries : counted d_task d_attempts (fun k => sent k ev) (fun k => unsent k ev) (fun k => EvDeleted k ∈ ev)
    (k_deliveries db) (k_deliveries db');
  sc_started : deliveries_started db -> deliveries_started db' }.

(** No event: rows keep their counters, new rows start at zero. *)
Lemma quiet_update {A} (key : A -> string) (count : A -> Z) (gone : string -> Prop) (p : A -> bool) (f : A -> A) l :
  (forall a, key (f a) = key a) -> (forall a, count (f a) = count a) ->
  counted key count (fun _ => 0) (fun _ => 0) gone l (update_where p f l).
Proof. intros Hk Hc. apply counted_update; [done | | done]. intros a _. destruct (p a); rewrite ?Hc; lia. Qed.

(** Only notifications are added. *)
Definition only_adds db db' : Prop :=
  (forall d, d ∈ k_deliveries db -> d ∈ k_deliveries db') /\
  (forall d, d ∈ k_deliveries db' -> d ∈ k_deliveries db \/ (d_attempts d = 0 /\ d_status d = DeliveryPending)).

Lemma only_adds_same db db' : k_deliveries db' = k_deliveries db -> only_adds db db'.
Proof. intros E. split; rewrite E; auto. Qed.
Lemma finish_rows_adds now gen p f db n db' : finish_rows now gen p f db = Ok (n, db') -> only_adds db db'.
Proof.
  intros H. unfold finish_rows in H. rewrite tx_get_bind in H.
  apply tx_bind_ok in H as (? & db1 & H1 & H). injection H1 as _ <-.
  apply tx_bind_ok in H as (? & db2 & Hq & H). injection H as _ <-.
  apply enqueue_all in Hq as [_ _ Hnew Hold _ _ _]. split; [exact Hold|].
  intros d Hd. destruct (Hnew d Hd) as [? | (t & _ & _ & ->)]; [by left | by right].
Qed.

Lemma quiet_step cap db db' p f :
  queue_ok cap db' -> (forall t, t_id (f t) = t_id t /\ t_attempts (f t) = t_attempts t) ->
  k_tasks db' = update_where p f (k_tasks db) -> only_adds db db' -> step_counts [] db db'.
Proof.
  intros Hok Hf Ht [Hold Hnew]. split.
  - rewrite Ht. apply quiet_update; apply Hf.
  - apply (counted_grow d_task d_attempts); [done | apply (qo_tables _ _ Hok) | done |].
    intros d Hd. destruct (Hnew d Hd) as [? | [? _]]; auto.
  - intros Hs d Hd Hr. destruct (Hnew d Hd) as [? | [_ Hp]]; [by apply Hs|]. rewrite Hp in Hr. discriminate Hr.
Qed.

(** Only the columns of notifications move, and no counter. *)
Lemma quiet_deliveries db p f :
  (forall d, d_task (f d) = d_task d /\ d_attempts (f d) = d_attempts d) ->
  (forall d, d ∈ k_deliveries db -> p d = true -> d_status (f d) = DeliveryRunning -> d_status d = DeliveryRunning) ->
  step_counts [] db (set_deliveries (update_where p f (k_deliveries db)) db).
Proof.
  intros Hf Hrun. split; [by apply counted_same | apply quiet_update; apply Hf |].
  intros Hs d (a & Ha & ->)%elem_of_update_where. destruct (p a) eqn:Hp; [|by apply Hs].
  intros Hr. destruct (Hf a) as [_ ->]. apply Hs; [done|]. by apply Hrun.
Qed.
Lemma counted_one {A} (key : A -> string) (count : A -> Z) (gone : string -> Prop) (a : A) (f : A -> A) (p : A -> bool) l (plus : string -> Z) :
  (forall x, key (f x) = key x) -> count (f a) = count a + 1 -> a ∈ l -> NoDup (key <$> l) ->
  (forall x, x ∈ l -> p x = true <-> x = a) -> (forall k, plus k = if text_eq (key a) k then 1 else 0) ->
  counted key count plus (fun _ => 0) gone l (update_where p f l).
Proof.
  intros Hk Hc Ha Hnd Hp Hplus. apply counted_update; [done| |].
  - intros x Hx. rewrite Hplus. destruct (p x) eqn:Hpx.
    + apply Hp in Hpx as ->; [|done]. rewrite text_eq_refl. lia.
    + destruct (text_eq (key a) (key x)) eqn:E; [|lia]. apply text_eq_true in E.
      assert (x = a) as Heq by (by apply (keyed_unique key l)). apply Hp in Heq; [congruence | done].
  - intros k Hno. rewrite Hplus. split; [|done]. destruct (text_eq (key a) k) eqn:E; [|done].
    apply text_eq_true in E as <-. by destruct Hno; apply list_elem_of_fmap_2.
Qed.

(** The rows given back, one event each. *)
Lemma count_key {A} (key : A -> string) (p : A -> bool) l x :
  NoDup (key <$> l) -> x ∈ l -> count_where (fun y => text_eq (key y) (key x)) (List.filter p l) = if p x then 1 else 0.
Proof.
  induction l as [|y l IH]; intros Hnd Hx; [by apply not_elem_of_nil in Hx|]. apply NoDup_cons in Hnd as [Hy Hnd].
  assert (Hother : forall z, z ∈ l -> text_eq (key z) (key y) = false)
    by (intros z Hz; apply text_eq_false; intros E; apply Hy; rewrite <- E; by apply list_elem_of_fmap_2).
  apply elem_of_cons in Hx as [-> | Hx]; simpl.
  - assert (Hrest : count_where (fun z => text_eq (key z) (key y)) (List.filter p l) = 0)
      by (apply count_where_none; intros z [_ Hz]%elem_of_filter_rows; by apply Hother).
    destruct (p y); [|done]. unfold count_where in *. rewrite sumZ_cons, Hrest, text_eq_refl. done.
  - rewrite <- (IH Hnd Hx). destruct (p y); [|done]. unfold count_where. rewrite sumZ_cons.
    rewrite (proj2 (text_eq_false _ _)); [done|]. intros E. apply Hy. rewrite E. by apply list_elem_of_fmap_2.
Qed.

Lemma counted_back {A} (key : A -> string) (count : A -> Z) (gone : string -> Prop) (p : A -> bool) (f : A -> A) l (plus minus : string -> Z) :
  (forall x, key (f x) = key x) -> (forall x, x ∈ l -> p x = true -> count (f x) = count x - 1) -> NoDup (key <$> l) ->
  (forall k, plus k = 0) -> (forall k, minus k = count_where (fun x => text_eq (key x) k) (List.filter p l)) ->
  counted key count plus minus gone l (update_where p f l).
Proof.
  intros Hk Hc Hnd Hz Hm. apply counted_update; [done| |].
  - intros x Hx. rewrite Hz, Hm, count_key by done. destruct (p x) eqn:Hp; [rewrite Hc by done|]; lia.
  - intros k Hno. split; [apply Hz|]. rewrite Hm. apply count_where_none. intros x [_ Hx]%elem_of_filter_rows.
    apply text_eq_false. intros <-. by apply Hno, list_elem_of_fmap_2.
Qed.

(** The rows a deletion leaves. *)
Lemma counted_delete {A} (key : A -> string) (count : A -> Z) id l :
  counted key count (fun _ => 0) (fun _ => 0) (fun k => EvDeleted k ∈ [EvDeleted id]) l
    (List.filter (fun a => negb (has_key key id a)) l).
Proof.
  split.
  - intros a [_ Ha]%elem_of_filter_rows _. left. exists a. split_and!; [done | done | lia].
  - intros k Hk Hg. split; [|done]. intros (a & -> & Ha)%list_elem_of_fmap. apply Hk, list_elem_of_fmap_2.
    apply elem_of_filter_rows. split; [|done]. unfold has_key. rewrite bool_decide_false; [done|].
    intros E. apply Hg. rewrite E. apply list_elem_of_here.
Qed.

Lemma claim_counts cap now locked types worker lease c db db' :
  queue_ok cap db -> claim now locked types cap worker lease db = Ok (Some c, db') ->
  step_counts [EvHanded (ct_ID c) (ct_RequestID c) worker (ct_Attempt c) (max_of (ct_ID c) db)] db db'.
Proof.
  intros [Htb _] (t & Ht & _ & _ & _ & -> & ->)%claim_shape. split.
  - eapply counted_one; [done | done | exact Ht | apply Htb | |].
    + intros u Hu. unfold has_key. rewrite bool_decide_eq_true. split; [|by intros ->].
      intros E. by apply (keyed_unique t_id (k_tasks db)); [apply Htb|..].
    + intros k. unfold handed, count_where. simpl. by destruct (text_eq (t_id t) k).
  - by apply counted_same.
  - done.
Qed.

Lemma claimDelivery_counts cap now locked worker lease c db db' :
  queue_ok cap db -> claimDelivery now locked worker lease db = Ok (Some c, db') ->
  step_counts [EvSent (cd_ID c) (cd_TaskID c) (cd_Attempt c)] db db'.
Proof.
  intros [Htb _] (d & Hd & _ & -> & ->)%claimDelivery_shape.
  assert (Hone : forall x, x ∈ k_deliveries db -> has_key d_id (d_id d) x = true <-> x = d).
  { intros x Hx. unfold has_key. rewrite bool_decide_eq_true. split; [|by intros ->].
    intros E. by apply (keyed_unique d_id (k_deliveries db)); [apply Htb|..]. }
  split.
  - by apply counted_same.
  - eapply counted_one; [done | done | exact Hd | apply Htb | exact Hone |].
    intros k. unfold sent, count_where. simpl. by destruct (text_eq (d_task d) k).
  - intros Hs x (a & Ha & ->)%elem_of_update_where. destruct (has_key d_id (d_id d) a); [|by apply Hs].
    intros _. simpl. destruct (tb_deliveries _ _ Htb a Ha) as (_ & ? & _). lia.
Qed.

Lemma events_of {A} (p : tk_event -> bool) (q : A -> bool) (ev : A -> tk_event) l :
  (forall a, p (ev a) = q a) -> count_where p (ev <$> l) = count_where q l.
Proof. intros H. rewrite count_where_fmap. unfold count_where. apply sumZ_ext. intros a _. by rewrite H. Qed.
Lemma no_events {A} (p : tk_event -> bool) (ev : A -> tk_event) l :
  (forall a, p (ev a) = false) -> count_where p (ev <$> l) = 0.
Proof. intros H. apply count_where_none. intros e (a & -> & _)%list_elem_of_fmap. apply H. Qed.

Lemma releaseWorker_counts cap worker r db db' :
  queue_ok cap db -> releaseWorker worker db = Ok (r, db') ->
  step_counts ((fun t => EvReleased (t_id t)) <$> List.filter (of_worker worker (k_request_keys db)) (k_tasks db)) db db'.
Proof.
  intros Hok H. destruct (releaseWorker_ok _ _ _ _ _ Hok H) as [_ ->]. destruct Hok as [Htb _]. split.
  - apply counted_back; [done | | apply Htb | intros k; by apply no_events | intros k; by apply events_of].
    intros t Ht Hp. unfold of_worker in Hp. apply andb_true_iff in Hp as [[_ Hp%text_eq_true]%andb_true_iff _].
    destruct (row_is_running t (tb_rows _ _ Htb t Ht) Hp) as (_ & _ & _ & _ & _ & ?). unfold t_attempts in *. simpl. lia.
  - apply counted_same. intros k _. split; by apply no_events.
  - done.
Qed.

Lemma releaseDeliveries_counts cap now worker r db db' :
  queue_ok cap db -> deliveries_started db -> releaseDeliveries now worker db = Ok (r, db') ->
  step_counts ((fun d => EvUnsent (d_task d)) <$> List.filter (delivery_of_worker worker) (k_deliveries db)) db db'.
Proof.
  intros [Htb _] Hst H. unfold releaseDeliveries in H. rewrite tx_get_bind in H. injection H as _ <-. split.
  - apply counted_same. intros k _. split; by apply no_events.
  - apply counted_back; [done | | apply Htb | intros k; by apply no_events | intros k; by apply events_of].
    intros d Hd Hp. unfold delivery_of_worker in Hp. apply andb_true_iff in Hp as [_ Hp%text_eq_true].
    specialize (Hst d Hd Hp). simpl. lia.
  - intros _ d (a & Ha & ->)%elem_of_update_where. destruct (delivery_of_worker worker a); [done | by apply Hst].
Qed.

Theorem step_counted cap db ev db' :
  queue_ok cap db -> deliveries_started db -> tk_step cap db ev db' -> step_counts ev db db'.
Proof.
  intros Hok Hst Hstep. pose proof (step_queue_ok _ _ _ _ Hok Hstep) as Hok'.
  destruct Hstep as [now uuid rec r db db' Hc H | now locked types worker lease c db db' H
    | now id worker lease r db db' H | now gen id worker redact res r db db' H | now gen id r db db' H
    | now locked limit r db db' H | now locked gen limit r db db' H | worker r db db' H | id r db db' H
    | now locked worker lease c db db' H | now worker c code err r db db' H | now locked limit r db db' H
    | now worker r db db' H | rid amount db Hn | keys db].
  - apply insert_shape in H as [(_ & -> & _) | (_ & -> & _)]; [split; [by apply counted_same.. | done]|].
    split; [|by apply counted_same | done]. apply (counted_grow t_id t_attempts); [done | apply (qo_tables _ _ Hok') | |].
    + intros t Ht. apply elem_of_app. by left.
    + intros t [Ht | ->%list_elem_of_singleton]%elem_of_app; [by left | by right].
  - by eapply claim_counts.
  - unfold task_heartbeat in H. rewrite tx_get_bind in H. injection H as _ <-.
    by eapply quiet_step; [done | | done | by apply only_adds_same].
  - destruct (complete_ok _ _ _ _ _ _ _ _ _ _ Hok H) as (_ & Ht & _). eapply quiet_step; [done | | exact Ht |]; [done|].
    unfold complete in H. rewrite tx_get_bind in H. apply tx_bind_ok in H as (? & ? & [_ ->]%tx_guard_ok & H).
    apply tx_bind_ok in H as (? & ? & H & [= _ <-]). by eapply finish_rows_adds.
  - destruct (cancel_ok _ _ _ _ _ _ _ Hok H) as (_ & Ht & _). eapply quiet_step; [done | | exact Ht |]; [done|].
    unfold cancel in H. apply tx_bind_ok in H as (? & ? & H & [= _ <-]). by eapply finish_rows_adds.
  - destruct (reapRetryable_ok _ _ _ _ _ _ _ Hok H) as (_ & -> & _).
    by eapply quiet_step; [done | | done | by apply only_adds_same].
  - destruct (reapDead_ok _ _ _ _ _ _ _ _ Hok H) as (_ & Ht & _). eapply quiet_step; [done | | exact Ht |]; [done|].
    unfold reapDead in H. apply tx_bind_ok in H as (? & ? & [_ ->]%tx_guard_ok & H). rewrite tx_get_bind in H.
    by eapply finish_rows_adds.
  - by eapply releaseWorker_counts.
  - destruct (deleteTask_queue _ _ _ _ _ Hok H) as (_ & Ht). unfold deleteTask in H. rewrite tx_get_bind in H.
    injection H as _ <-. split; [apply (counted_delete t_id) | apply (counted_delete d_task) |].
    intros Hs d [_ Hd]%elem_of_filter_rows. by apply Hs.
  - by eapply claimDelivery_counts.
  - unfold finishWebhookDelivery, finishDelivery in H. rewrite tx_get_bind in H.
    apply tx_bind_ok in H as (? & ? & [_ ->]%tx_guard_ok & H). injection H as _ <-. apply quiet_deliveries; [done|].
    intros d _ Hp _. unfold delivery_held in Hp. apply andb_true_iff in Hp as [_ Hp]. by apply text_eq_true.
  - unfold reapDeadDeliveries in H. apply tx_bind_ok in H as (? & ? & [_ ->]%tx_guard_ok & H).
    rewrite tx_get_bind in H. injection H as _ <-. apply quiet_deliveries; [done|]. intros d _ _ Hr. discriminate Hr.
  - by eapply releaseDeliveries_counts.
  - by eapply quiet_step; [done | | done | by apply only_adds_same].
  - split; [by apply counted_same.. | done].
Qed.

(** ** Every run *)

(** The counter of a row that was never let go is what was handed out less what came
    back. *)
Record tallied {A} (key : A -> string) (count : A -> Z) (out back : string -> list tk_event -> Z) (h : list tk_event)
    (l : list A) : Prop := {
  ta_row : forall a, a ∈ l -> (EvDeleted (key a) ∉ h) -> out (key a) h = count a + back (key a) h;
  ta_absent : forall k, (k ∉ key <$> l) -> (EvDeleted k ∉ h) -> out k h = 0 /\ back k h = 0 }.

Lemma tallied_step {A} (key : A -> string) (count : A -> Z) out back h ev l l' :
  (forall k h1 h2, out k (h1 ++ h2) = out k h1 + out k h2) -> (forall k h1 h2, back k (h1 ++ h2) = back k h1 + back k h2) ->
  tallied key count out back h l ->
  counted key count (fun k => out k ev) (fun k => back k ev) (fun k => EvDeleted k ∈ ev) l l' ->
  tallied key count out back (h ++ ev) l'.
Proof.
  intros Ho Hb [R A0] [CR CA]. split.
  - intros a Ha Hdel. rewrite elem_of_app in Hdel. rewrite Ho, Hb.
    destruct (CR a Ha) as [(b & Hin & Hk & Hc) | (Hno & Hc & Hp & Hm)]; [tauto| |].
    + specialize (R b Hin). rewrite Hk in R. specialize (R ltac:(tauto)). lia.
    + destruct (A0 _ Hno) as [-> ->]; [tauto|]. lia.
  - intros k Hk Hdel. rewrite elem_of_app in Hdel. destruct (CA k Hk) as (Hno & Hp & Hm); [tauto|].
    rewrite Ho, Hb, Hp, Hm. destruct (A0 k Hno) as [-> ->]; [tauto | done].
Qed.

Record run_counts db (h : list tk_event) : Prop := {
  rc_tasks : tallied t_id t_attempts handed returned h (k_tasks db);
  rc_deliveries : tallied d_task d_attempts sent unsent h (k_deliveries db);
  rc_started : deliveries_started db }.

Lemma run_counted cap db h : tk_run cap db h -> run_counts db h.
Proof.
  induction 1 as [keys | db h ev db' Hrun [Ht Hd Hs] Hstep].
  - split; [split; [by intros ? ?%not_elem_of_nil | done].. | by intros ? ?%not_elem_of_nil].
  - destruct (step_counted _ _ _ _ (run_queue_ok _ _ _ Hrun) Hs Hstep) as [Ct Cd Cs].
    split; [| | by apply Cs]; (eapply tallied_step; [| | eassumption | eassumption]; intros; apply count_where_app).
Qed.
