(* ===== verification/AsyncTaskProps.v ===== *)
(** * What the task queue guarantees

    The invariant of every run, what a task can cost together with the request
    settlement, the finality of outcomes, one round of the reaper, and submission
    under an idempotency key. *)

From Stdlib Require Import Ascii String.
From stdpp Require Import pretty sorting.
From S2P Require Import Prelude GoStrings CivilTime PurchasePolicy Ledger Subscription Decimal PriceTiers UsageEvidence Request PriceBookBilling Settlement SettlementSystem.
From S2P Require Import AsyncTask AsyncTaskEngine AsyncTaskSystem.
#[global] Open Scope Z_scope.

Implicit Types (t u : task) (d : delivery) (db : task_db).

(** ** Request ids *)

Lemma app_inj_mark {A} (x : A) (l1 l2 r1 r2 : list A) :
  (x ∉ r1) -> (x ∉ r2) -> l1 ++ x :: r1 = l2 ++ x :: r2 -> l1 = l2 /\ r1 = r2.
Proof.
  revert l2. induction l1 as [|a l1 IH]; intros [|b l2] H1 H2 H; simpl in H.
  - by injection H.
  - injection H as -> ->. destruct H1. apply elem_of_app. right. apply list_elem_of_here.
  - injection H as -> <-. destruct H2. apply elem_of_app. right. apply list_elem_of_here.
  - injection H as -> H. by destruct (IH l2 H1 H2 H) as [-> ->].
Qed.

(** The digits of a number contain no underscore. *)
Definition digit_string (s : string) : bool :=
  forallb (fun a => (48 <=? byte_of a) && (byte_of a <=? 57)) (list_ascii_of_string s).

Lemma pretty_N_digits (x : N) (s : string) : digit_string s = true -> digit_string (pretty_N_go x s) = true.
Proof.
  revert s. induction (N.lt_wf_0 x) as [x _ IH]; intros s Hs.
  destruct (decide (0 < x)%N) as [Hx | Hx].
  - rewrite pretty_N_go_step by done. apply IH; [by apply N.div_lt|].
    cbn [digit_string list_ascii_of_string]. unfold digit_string in *. simpl. rewrite Hs, andb_true_r.
    assert (Hm : (x `mod` 10 < 10)%N) by (by apply N.mod_lt).
    destruct (x `mod` 10)%N as [|p]; [done|].
    do 4 (destruct p as [p|p|]; try done).
  - assert (x = 0%N) as -> by lia. by rewrite pretty_N_go_0.
Qed.

Lemma pretty_Z_digits n : 0 <= n -> digit_string (pretty n) = true.
Proof.
  intros Hn. destruct n as [|p|p]; [done | | lia]. unfold pretty, pretty_Z, pretty, pretty_positive, pretty, pretty_N.
  rewrite decide_False by done. by apply pretty_N_digits.
Qed.

Lemma list_ascii_app s1 s2 :
  list_ascii_of_string (s1 +:+ s2) = list_ascii_of_string s1 ++ list_ascii_of_string s2.
Proof. induction s1 as [|a s1 IH]; [done|]. simpl. by rewrite IH. Qed.

Lemma digit_no_mark s : digit_string s = true -> "_"%char ∉ list_ascii_of_string s.
Proof.
  unfold digit_string. rewrite List.forallb_forall. intros H Hin.
  specialize (H "_"%char (proj1 (list_elem_of_In _ _) Hin)). done.
Qed.

(** A request id names its task and its attempt. *)
Lemma request_id_inj id1 n1 id2 n2 : 0 <= n1 -> 0 <= n2 ->
  request_id_of id1 n1 = request_id_of id2 n2 -> id1 = id2 /\ n1 = n2.
Proof.
  intros H1 H2 H. unfold request_id_of in H. apply (f_equal list_ascii_of_string) in H.
  rewrite !list_ascii_app in H. apply app_inv_head in H. simpl in H.
  apply app_inj_mark in H as [Ha Hb]; [|by apply digit_no_mark, pretty_Z_digits..].
  apply (f_equal string_of_list_ascii) in Ha, Hb. rewrite !string_of_list_ascii_of_string in Ha, Hb.
  split; [done|]. by apply (inj pretty).
Qed.

(** ** The invariant and the cost of a task *)

Lemma max_of_elem cap db t : tables_ok cap db -> t ∈ k_tasks db -> max_of (t_id t) db = t_max t.
Proof. intros Htb Ht. unfold max_of. by rewrite (find_key_elem t_id _ t) by (done || apply Htb). Qed.

(** What a handler is given. *)
Definition handed_ok (e : tk_event) : Prop :=
  match e with
  | EvHanded id rid _ a m => rid = request_id_of id a /\ 1 <= a <= m
  | _ => True
  end.

Lemma step_handed cap db ev db' e : queue_ok cap db -> tk_step cap db ev db' -> e ∈ ev -> handed_ok e.
Proof.
  intros Hok Hstep He. destruct Hstep; try (by apply not_elem_of_nil in He);
    try (apply list_elem_of_fmap in He as (? & -> & _); done);
    apply list_elem_of_singleton in He as ->; try done.
  apply claim_shape in H as (t & Ht & Hcl & _ & _ & -> & ->). apply claimable_pending in Hcl.
  pose proof (qo_tables _ _ Hok) as Htb.
  destruct (row_is_pending t (tb_rows _ _ Htb t Ht) Hcl) as (_ & _ & _ & _ & Ha).
  unfold handed_ok. simpl. rewrite (max_of_elem cap) by done. unfold t_attempts in *. split; [done | simpl; lia].
Qed.

Lemma run_handed cap db h e : tk_run cap db h -> e ∈ h -> handed_ok e.
Proof.
  induction 1 as [keys | db h ev db' Hrun IH Hs]; [by intros ?%not_elem_of_nil|].
  intros [He | He]%elem_of_app; [by apply IH|]. eapply step_handed; [|done..]. by eapply run_queue_ok.
Qed.

Lemma attempts_bounded t : row_ok t -> t_attempts t <= t_max t.
Proof. intros [[(_ & _ & _ & _ & ?) | [(_ & _ & _ & _ & _ & ?) | (_ & _ & _ & _ & ?)]] _]; lia. Qed.

(** C40: the task queue.  Whatever engines, workers, callers and reapers do at once, in
    every reachable state each task is pending, running under a lease or finished, with
    the columns its phase needs; an idempotency key names one task; no tenant has more
    tasks pending or running than the cap; and each finished task with a webhook has
    exactly one notification, which carries its status.  The attempt counter of a task
    stays within its limit and that of a notification within six, and each counts, for a
    task that was never deleted, how often it was handed to a handler (to the sender)
    less how often it was given back: a worker that stops gives back what it holds
    ([releaseWorker], [releaseDeliveries]).  So a task is handed out at most as often as
    its limit allows plus once per release, and a notification six times plus once per
    release; without releases the limits bound the hand-outs themselves. *)
Theorem task_queue_ok cap db h : tk_run cap db h ->
  queue_ok cap db /\
  (forall t, t ∈ k_tasks db -> (EvDeleted (t_id t) ∉ h) ->
     handed (t_id t) h = t_attempts t + returned (t_id t) h /\ handed (t_id t) h <= t_max t + returned (t_id t) h) /\
  (forall d, d ∈ k_deliveries db -> (EvDeleted (d_task d) ∉ h) ->
     sent (d_task d) h = d_attempts d + unsent (d_task d) h /\ sent (d_task d) h <= 6 + unsent (d_task d) h).
Proof.
  intros Hrun. pose proof (run_queue_ok _ _ _ Hrun) as Hok. pose proof (qo_tables _ _ Hok) as Htb.
  destruct (run_counted _ _ _ Hrun) as [Ht Hd _]. split; [done|]. split.
  - intros t Hin Hdel. rewrite (ta_row _ _ _ _ _ _ Ht t Hin Hdel). split; [done|].
    pose proof (attempts_bounded t (tb_rows _ _ Htb t Hin)). lia.
  - intros d Hin Hdel. rewrite (ta_row _ _ _ _ _ _ Hd d Hin Hdel). split; [done|].
    destruct (tb_deliveries _ _ Htb d Hin) as (_ & ? & ?). lia.
Qed.

Definition handed_requests (id : string) (h : list tk_event) : list string :=
  omap (fun e => match e with EvHanded i rid _ _ _ => if text_eq i id then Some rid else None | _ => None end) h.

Lemma elem_of_handed id h rid : rid ∈ handed_requests id h <-> exists w a m, EvHanded id rid w a m ∈ h.
Proof.
  unfold handed_requests. rewrite list_elem_of_omap. split.
  - intros (e & He & Hr). destruct e as [i r w a m | | | |]; try done. destruct (text_eq i id) eqn:Hi; [|done].
    apply text_eq_true in Hi as ->. injection Hr as ->. by exists w, a, m.
  - intros (w & a & m & He). exists (EvHanded id rid w a m). by rewrite text_eq_refl.
Qed.

(** C22: what a task can cost.  A task that may run [n] times is charged at most [n]
    times, whatever crashes, zombies, releases and re-queues happen: the request
    ids its attempts run under are [n] fixed names, of which the settlement posts
    each at most once; and no other task shares one of them.  All task types of
    the program are registered with [n = 1]. *)
Theorem task_charged_at_most_n cap db h text_leb origin_of sdb hs id n :
  tk_run cap db h -> st_run text_leb origin_of sdb hs -> 0 <= n ->
  (forall rid w a m, EvHanded id rid w a m ∈ h -> m <= n) ->
  Z.of_nat (length (List.filter (fun r => bool_decide (r ∈ handed_requests id h)) (posted_ids hs))) <= n /\
  (forall id' rid, rid ∈ handed_requests id h -> rid ∈ handed_requests id' h -> id' = id).
Proof.
  intros Hrun Hst Hn Hm. split.
  - set (names := (fun k => request_id_of id (Z.of_nat k)) <$> seq 1 (Z.to_nat n)).
    assert (Hsub : forall r, r ∈ List.filter (fun r => bool_decide (r ∈ handed_requests id h)) (posted_ids hs) ->
      r ∈ names).
    { intros r [Hr _]%elem_of_filter_rows. bool_prop. apply elem_of_handed in Hr as (w & a & m & He).
      specialize (Hm r w a m He). destruct (run_handed _ _ _ _ Hrun He) as [-> Ha].
      apply list_elem_of_fmap. exists (Z.to_nat a). rewrite Z2Nat.id by lia. split; [done|].
      apply elem_of_seq. lia. }
    assert (Hnd : NoDup (List.filter (fun r => bool_decide (r ∈ handed_requests id h)) (posted_ids hs))).
    { rewrite <- (list_fmap_id (List.filter _ _)). apply NoDup_filter_rows. rewrite list_fmap_id.
      apply (i_posted _ _ _ (run_inv _ _ _ _ Hst)). }
    pose proof (submseteq_length _ _ (NoDup_submseteq _ _ Hnd Hsub)) as Hlen.
    unfold names in Hlen. rewrite length_fmap, length_seq in Hlen. lia.
  - intros id' rid (w & a & m & H1)%elem_of_handed (w' & a' & m' & H2)%elem_of_handed.
    destruct (run_handed _ _ _ _ Hrun H1) as [-> Ha], (run_handed _ _ _ _ Hrun H2) as [E Ha'].
    apply request_id_inj in E as [-> _]; [done | lia | lia].
Qed.

(** ** Outcomes are final *)

(** What may still happen to a row: a finished one only learns its charge. *)
Definition follows t t' : Prop :=
  task_identity t' = task_identity t /\ oc_charge (t_out t) <= oc_charge (t_out t') /\
  (isTerminal (t_status t) = true ->
     t_sched t' = t_sched t /\ oc_output (t_out t') = oc_output (t_out t) /\ oc_failure (t_out t') = oc_failure (t_out t)).

Lemma follows_refl t : follows t t.
Proof. split; [done|]. split; [lia | done]. Qed.
Lemma follows_trans t1 t2 t3 : follows t1 t2 -> follows t2 t3 -> follows t1 t3.
Proof.
  intros (A1 & A2 & A3) (B1 & B2 & B3). split; [congruence|]. split; [lia|].
  intros Ht. destruct (A3 Ht) as (E1 & E2 & E3). destruct B3 as (F1 & F2 & F3); [unfold t_status in *; by rewrite E1|].
  split_and!; congruence.
Qed.
Lemma follows_live t t' : task_identity t' = task_identity t -> oc_charge (t_out t) <= oc_charge (t_out t') ->
  live_status (t_status t) = true -> follows t t'.
Proof. intros H1 H2 H3. split; [done|]. split; [done|]. intros Ht. by rewrite terminal_not_live in H3. Qed.

Lemma follows_update t l p f : t ∈ l -> (p t = true -> follows t (f t)) ->
  exists t', t' ∈ update_where p f l /\ follows t t'.
Proof.
  intros Ht Hf. exists (if p t then f t else t). split; [apply elem_of_update_where; by exists t|].
  destruct (p t) eqn:Hp; [by apply Hf | apply follows_refl].
Qed.

Lemma running_live_status t : t_status t = TaskRunning -> live_status (t_status t) = true.
Proof. by intros ->. Qed.

Lemma step_follows cap db ev db' t : queue_ok cap db -> tk_step cap db ev db' -> t ∈ k_tasks db ->
  (EvDeleted (t_id t) ∉ ev) -> exists t', t' ∈ k_tasks db' /\ follows t t'.
Proof.
  intros Hok Hstep Ht Hdel. pose proof (qo_tables _ _ Hok) as Htb.
  assert (Hsame : forall l, l = k_tasks db -> exists t', t' ∈ l /\ follows t t')
    by (intros l ->; exists t; split; [done | apply follows_refl]).
  destruct Hstep as [now uuid rec r db db' Hc H | now locked types worker lease c db db' H
    | now id worker lease r db db' H | now gen id worker redact res r db db' H | now gen id r db db' H
    | now locked limit r db db' H | now locked gen limit r db db' H | worker r db db' H | id r db db' H
    | now locked worker lease c db db' H | now worker c code err r db db' H | now locked limit r db db' H
    | now worker r db db' H | rid amount db Hn | keys db].
  - apply insert_shape in H as [(_ & -> & _) | (_ & -> & _)]; [by apply Hsame|].
    exists t. split; [apply elem_of_app; by left | apply follows_refl].
  - apply claim_shape in H as (u & Hu & Hcl & _ & _ & _ & ->). apply follows_update; [done|].
    intros Hk. unfold has_key in Hk. bool_prop.
    assert (t = u) as -> by (by apply (keyed_unique t_id (k_tasks db)); [apply Htb|..]).
    apply follows_live; [done | simpl; lia |]. by rewrite (claimable_pending _ _ _ Hcl).
  - unfold task_heartbeat in H. rewrite tx_get_bind in H. injection H as _ <-. apply follows_update; [done|].
    intros Hk%held_running. apply follows_live; [done | simpl; lia | by apply running_live_status].
  - destruct (complete_ok _ _ _ _ _ _ _ _ _ _ Hok H) as (_ & -> & _). apply follows_update; [done|].
    intros Hk%held_running. apply follows_live; [done | simpl; lia | by apply running_live_status].
  - destruct (cancel_ok _ _ _ _ _ _ _ Hok H) as (_ & -> & _). apply follows_update; [done|].
    intros [_ Hk]%andb_true_iff. apply follows_live; [done | simpl; lia | done].
  - destruct (reapRetryable_ok _ _ _ _ _ _ _ Hok H) as (_ & -> & _). apply follows_update; [done|].
    intros [_ Hk]%selected_leases; [|apply Htb | done]. apply retryable_spec in Hk as (Hk%lease_expired_running & _).
    apply follows_live; [done | simpl; lia | by apply running_live_status].
  - destruct (reapDead_ok _ _ _ _ _ _ _ _ Hok H) as (_ & -> & _). apply follows_update; [done|].
    intros [_ Hk%lease_expired_running]%selected_leases; [|apply Htb | done].
    apply follows_live; [done | simpl; lia | by apply running_live_status].
  - destruct (releaseWorker_ok _ _ _ _ _ Hok H) as (_ & ->). apply follows_update; [done|].
    intros Hk. unfold of_worker in Hk. apply andb_true_iff in Hk as [Hk _]. apply andb_true_iff in Hk as [_ Hk].
    apply text_eq_true in Hk. apply follows_live; [done | simpl; lia | by apply running_live_status].
  - destruct (deleteTask_queue _ _ _ _ _ Hok H) as (_ & ->). exists t. split; [|apply follows_refl].
    apply elem_of_filter_rows. split; [|done]. unfold has_key. rewrite bool_decide_false; [done|].
    intros E. apply Hdel. rewrite E. apply list_elem_of_here.
  - apply claimDelivery_shape in H as (d & _ & _ & _ & ->). by apply Hsame.
  - unfold finishWebhookDelivery, finishDelivery in H. rewrite tx_get_bind in H.
    apply tx_bind_ok in H as (? & ? & Hg & H). apply tx_guard_ok in Hg as [_ ->]. injection H as _ <-. by apply Hsame.
  - unfold reapDeadDeliveries in H. apply tx_bind_ok in H as (? & ? & Hg & H). apply tx_guard_ok in Hg as [_ ->].
    rewrite tx_get_bind in H. injection H as _ <-. by apply Hsame.
  - unfold releaseDeliveries in H. rewrite tx_get_bind in H. injection H as _ <-. by apply Hsame.
  - apply follows_update; [done|]. intros _. split; [done|]. split; [simpl; lia | done].
  - by apply Hsame.
Qed.

Lemma steps_queue_ok cap db h db' : queue_ok cap db -> tk_steps cap db h db' -> queue_ok cap db'.
Proof. intros Hok. induction 1 as [db | db h db1 ev db2 _ IH Hs]; [done|]. eapply step_queue_ok; [by apply IH | done]. Qed.

Lemma steps_follow cap db h db' t : queue_ok cap db -> tk_steps cap db h db' -> t ∈ k_tasks db ->
  (EvDeleted (t_id t) ∉ h) -> exists t', t' ∈ k_tasks db' /\ follows t t'.
Proof.
  intros Hok Hsteps. revert Hok. induction Hsteps as [db | db h db1 ev db2 Hs IH Hstep]; intros Hok Ht Hdel.
  - exists t. split; [done | apply follows_refl].
  - rewrite elem_of_app in Hdel. destruct (IH Hok Ht) as (t1 & Ht1 & F1); [tauto|].
    assert (Hid : t_id t1 = t_id t) by (by apply identity_fields, F1).
    destruct (step_follows cap db1 ev db2 t1) as (t2 & Ht2 & F2); [by eapply steps_queue_ok | done | done | rewrite Hid; tauto|].
    exists t2. split; [done | by eapply follows_trans].
Qed.

(** An outcome is final.  Once a task is completed, failed or cancelled, no
    later step of the system — a zombie worker's completion, a late heartbeat or
    cancellation, the reaper, a shutdown — changes its status, result or error,
    however many there are; only its recorded charge can still grow, and only its
    deletion removes it. *)
Theorem outcome_is_final cap db h h' db' t :
  tk_run cap db h -> tk_steps cap db h' db' -> t ∈ k_tasks db -> isTerminal (t_status t) = true ->
  (EvDeleted (t_id t) ∉ h') ->
  exists t', t' ∈ k_tasks db' /\ task_identity t' = task_identity t /\ t_sched t' = t_sched t /\
    oc_output (t_out t') = oc_output (t_out t) /\ oc_failure (t_out t') = oc_failure (t_out t) /\
    oc_charge (t_out t) <= oc_charge (t_out t').
Proof.
  intros Hrun%run_queue_ok Hsteps Ht Hterm Hdel.
  destruct (steps_follow _ _ _ _ _ Hrun Hsteps Ht Hdel) as (t' & Ht' & Hid & Hc & Hf).
  destruct (Hf Hterm) as (? & ? & ?). by exists t'.
Qed.

(** ** One round of the reaper *)

Lemma count_length {A} (p : A -> bool) l : count_where p l = Z.of_nat (length (List.filter p l)).
Proof. unfold count_where. induction l as [|a l IH]; [done|]. simpl. destruct (p a); simpl; lia. Qed.

Lemma filter_true {A} (p : A -> bool) l : (forall a, a ∈ l -> p a = true) -> List.filter p l = l.
Proof.
  induction l as [|a l IH]; intros H; [done|]. simpl. rewrite H by apply list_elem_of_here.
  f_equal. apply IH. intros b Hb. apply H. by apply list_elem_of_further.
Qed.

(** Counting after an update that moves the selected rows out of, or into, a class. *)
Lemma count_update {A} (c p : A -> bool) f l n :
  (forall a, a ∈ l -> p a = true -> (if c (f a) then 1 else 0) = (if c a then 1 else 0) + n) ->
  count_where c (update_where p f l) = count_where c l + n * count_where p l.
Proof.
  unfold count_where, update_where. induction l as [|a l IH]; intros H; [simpl; lia|].
  rewrite fmap_cons, !sumZ_cons. rewrite IH by (intros b Hb; apply H; by apply list_elem_of_further).
  pose proof (H a (list_elem_of_here _ _)) as Ha. destruct (p a); [rewrite Ha by done|]; lia.
Qed.

Section Batch.
Context (limit : Z) (p : task -> bool) (l : list task).
Context (Hl : 0 <= limit) (Hnd : NoDup (t_id <$> l)).
Definition free_batch : list task := oldest_leases (fun _ => false) limit p l.

Lemma free_batch_eq : free_batch = take (Z.to_nat limit) (order_by by_lease (List.filter p l)).
Proof. unfold free_batch, oldest_leases. by rewrite filter_true. Qed.

Lemma free_batch_length : Z.of_nat (length free_batch) = Z.min limit (count_where p l).
Proof.
  rewrite free_batch_eq, length_take, order_by_Permutation, count_length. lia.
Qed.

Lemma free_batch_NoDup : NoDup (t_id <$> free_batch).
Proof.
  rewrite free_batch_eq.
  assert (H : NoDup (t_id <$> order_by by_lease (List.filter p l)))
    by (rewrite order_by_Permutation; by apply NoDup_filter_rows).
  rewrite <- (take_drop (Z.to_nat limit) (order_by _ _)), fmap_app in H. by apply NoDup_app in H as [H _].
Qed.

Lemma free_batch_count : count_where (selected free_batch) l = Z.min limit (count_where p l).
Proof.
  rewrite <- free_batch_length, count_length. f_equal. apply Permutation_length, NoDup_Permutation.
  - by eapply (NoDup_fmap_1 t_id), NoDup_filter_rows.
  - by eapply (NoDup_fmap_1 t_id), free_batch_NoDup.
  - intros t. rewrite elem_of_filter_rows. split.
    + intros [Hs Ht]. by apply selected_leases in Hs as [? _].
    + intros Hin. pose proof (oldest_leases_elem _ _ _ _ _ Hin) as [Ht _]. split; [|done].
      unfold selected. apply bool_decide_true. by apply list_elem_of_fmap_2.
Qed.

Lemma free_batch_all t : count_where p l <= limit -> t ∈ l -> p t = true -> selected free_batch t = true.
Proof.
  intros Hc Ht Hp. unfold selected. apply bool_decide_true, list_elem_of_fmap_2.
  rewrite free_batch_eq, take_ge; [by apply elem_of_order_by, elem_of_filter_rows|].
  rewrite order_by_Permutation. rewrite count_length in Hc. lia.
Qed.

Lemma free_batch_none t : t ∈ l -> p t = false -> selected free_batch t = false.
Proof.
  intros Ht Hp. apply not_true_iff_false. intros Hs. apply selected_leases in Hs as [_ Hs]; [congruence | done | done].
Qed.
End Batch.

(** [gen_random_uuid()] gives the notifications ids of their own. *)
Definition fresh_ids (gen : string -> string) db : Prop :=
  NoDup ((fun t => gen (t_id t)) <$> k_tasks db) /\
  (forall t, t ∈ k_tasks db -> gen (t_id t) ∉ d_id <$> k_deliveries db).

Lemma enqueue_total now gen l db :
  NoDup ((fun t => gen (t_id t)) <$> l) -> (forall t, t ∈ l -> gen (t_id t) ∉ d_id <$> k_deliveries db) ->
  exists db', tx_iter (enqueue now gen) l db = Ok (tt, db').
Proof.
  revert db. induction l as [|t l IH]; intros db Hnd Hf; [by eexists|]. simpl in Hnd. apply NoDup_cons in Hnd as [Ht Hnd].
  cbn [tx_iter]. unfold tx_bind at 1. unfold enqueue at 1. rewrite tx_get_bind.
  destruct (_ || _).
  - apply IH; [done|]. intros u Hu. apply Hf. by apply list_elem_of_further.
  - rewrite tx_guard_pass by (apply existsb_key_false, Hf, list_elem_of_here). unfold tx_put. apply IH; [done|].
    intros u Hu. simpl. rewrite fmap_app, not_elem_of_app. split; [apply Hf; by apply list_elem_of_further|].
    intros He%list_elem_of_singleton. apply Ht. simpl in He. rewrite <- He. by apply (list_elem_of_fmap_2 (fun t => gen (t_id t))).
Qed.

Lemma NoDup_fmap_filter {A B} (f : A -> B) p l : NoDup (f <$> l) -> NoDup (f <$> List.filter p l).
Proof. apply NoDup_filter_rows. Qed.

Lemma reapDead_total now locked gen limit db : 0 <= limit -> fresh_ids gen db ->
  exists r db', reapDead now locked gen limit db = Ok (r, db').
Proof.
  intros Hl [Hnd Hf]. unfold reapDead, limit_guard. rewrite tx_guard_pass by (apply Z.ltb_ge; lia).
  rewrite tx_get_bind. set (p := selected _). unfold finish_rows. rewrite tx_get_bind. unfold tx_bind, tx_put.
  destruct (enqueue_total now gen (lost now <$> List.filter p (k_tasks db))
    (set_task_rows (update_where p (lost now) (k_tasks db)) db)) as [db' Hrun].
  - rewrite <- list_fmap_compose. by apply (NoDup_filter_rows (fun t => gen (t_id t))).
  - intros t (u & -> & [_ Hu]%elem_of_filter_rows)%list_elem_of_fmap. simpl. by apply Hf.
  - rewrite Hrun. by eexists _, _.
Qed.

(** A round that finds no row locked: its two updates of the tasks. *)
Lemma reap_round_shape cap db now gen e3 b : queue_ok cap db -> 0 <= b -> fresh_ids gen db ->
  let e := StmtEnv now (fun _ => false) gen in
  let rows1 := update_where (selected (free_batch b (retryable now (k_request_keys db)) (k_tasks db)))
                 (requeued now) (k_tasks db) in
  k_tasks (reapOnce e e e3 b db) =
    update_where (selected (free_batch b (lease_expired now) rows1)) (lost now) rows1.
Proof.
  intros Hok Hb Hfr e rows1. unfold reapOnce, run_tx. simpl.
  assert (H1 : exists r, reapRetryable now (fun _ => false) b db = Ok (r, set_task_rows rows1 db)).
  { unfold reapRetryable, limit_guard. rewrite tx_guard_pass by (apply Z.ltb_ge; lia). rewrite tx_get_bind.
    by eexists. }
  destruct H1 as [r1 H1]. rewrite H1.
  destruct (reapRetryable_ok _ _ _ _ _ _ _ Hok H1) as [Hok1 _].
  assert (Hfr1 : fresh_ids gen (set_task_rows rows1 db)).
  { destruct Hfr as [Hn Hf]. split; simpl.
    - unfold rows1. by rewrite (keys_update_where (fun t => gen (t_id t))).
    - intros t (u & Hu & ->)%elem_of_update_where. rewrite update_t_id by done. by apply Hf. }
  destruct (reapDead_total now (fun _ => false) gen b _ Hb Hfr1) as (r2 & db2 & H2). rewrite H2.
  destruct (reapDead_ok _ _ _ _ _ _ _ _ Hok1 H2) as (_ & Htasks & _).
  unfold reapDeadDeliveries, limit_guard. rewrite tx_guard_pass by (apply Z.ltb_ge; lia).
  rewrite tx_get_bind. exact Htasks.
Qed.

Definition status_is (s : string) t : bool := text_eq (t_status t) s.

Lemma requeued_not_expired now t : lease_expired now (requeued now t) = false.
Proof. done. Qed.

(** One round of the reaper, exactly.  Let [R] orphans deserve another attempt
    (attempts left, not billed) out of [X] whose lease ran out.  A round without
    row locks requeues min(b, R) of them and then fails min(b, X - min(b, R)) of
    all the others; it touches no task whose lease is live.  So while [R] is within
    the batch every deserving task runs again and only undeserving ones fail, all
    of them when they fit the batch too; but of more than [b] deserving orphans the
    surplus is failed in the same round. *)
Theorem reap_round_exact cap db h now gen e3 b :
  tk_run cap db h -> 0 <= b -> fresh_ids gen db ->
  let e := StmtEnv now (fun _ => false) gen in
  let db' := reapOnce e e e3 b db in
  let deserving := retryable now (k_request_keys db) in
  let R := count_where deserving (k_tasks db) in
  let X := count_where (lease_expired now) (k_tasks db) in
  count_where (status_is TaskPending) (k_tasks db') = count_where (status_is TaskPending) (k_tasks db) + Z.min b R /\
  count_where (status_is TaskFailed) (k_tasks db') =
    count_where (status_is TaskFailed) (k_tasks db) + Z.min b (X - Z.min b R) /\
  (forall t, t ∈ k_tasks db -> lease_expired now t = false -> t ∈ k_tasks db') /\
  (R <= b -> forall t, t ∈ k_tasks db -> deserving t = true -> requeued now t ∈ k_tasks db') /\
  (R <= b -> X - R <= b -> forall t, t ∈ k_tasks db -> lease_expired now t = true -> deserving t = false ->
     lost now t ∈ k_tasks db').
Proof.
  intros Hrun%run_queue_ok Hb Hfr e db' deserving R X. pose proof (qo_tables _ _ Hrun) as Htb.
  pose proof (reap_round_shape cap db now gen e3 b Hrun Hb Hfr) as Hshape. cbv zeta in Hshape. fold e db' deserving in Hshape.
  rewrite Hshape. clear Hshape db'. pose proof (tb_ids _ _ Htb) as Hnd.
  set (b1 := free_batch b deserving (k_tasks db)).
  set (rows1 := update_where (selected b1) (requeued now) (k_tasks db)).
  assert (Hnd1 : NoDup (t_id <$> rows1)) by (unfold rows1; by rewrite keys_update_where).
  set (b2 := free_batch b (lease_expired now) rows1).
  assert (Hs1 : forall t, t ∈ k_tasks db -> selected b1 t = true -> deserving t = true /\ t_status t = TaskRunning /\ lease_expired now t = true).
  { intros t Ht [_ Hd]%selected_leases; [|done..]. split; [done|]. apply retryable_spec in Hd as (Hd & _).
    split; [by eapply lease_expired_running | done]. }
  assert (Hs2 : forall t, t ∈ rows1 -> selected b2 t = true -> t_status t = TaskRunning).
  { intros t Ht [_ Hd]%selected_leases; [|done..]. by eapply lease_expired_running. }
  assert (HX : count_where (lease_expired now) rows1 = X - Z.min b R).
  { unfold rows1. rewrite (count_update _ _ _ _ (-1)); [unfold b1; rewrite free_batch_count by done; fold R X; lia|].
    intros t Ht Hs. destruct (Hs1 t Ht Hs) as (_ & _ & ->). by rewrite requeued_not_expired. }
  assert (Hkeep : forall t, t ∈ rows1 -> lease_expired now t = false -> t ∈ update_where (selected b2) (lost now) rows1).
  { intros t Ht He. apply elem_of_update_where. exists t. unfold b2. by rewrite free_batch_none. }
  split_and!.
  - rewrite (count_update _ _ _ _ 0).
    + unfold rows1. rewrite (count_update _ _ _ _ 1); [unfold b1; rewrite free_batch_count by done; fold R; lia|].
      intros t Ht Hs. destruct (Hs1 t Ht Hs) as (_ & Hr & _). unfold status_is. by rewrite Hr.
    + intros t Ht Hs%Hs2; [|done]. unfold status_is. by rewrite Hs.
  - rewrite (count_update _ _ _ _ 1).
    + unfold b2. rewrite free_batch_count, HX by done. unfold rows1. rewrite (count_update _ _ _ _ 0); [lia|].
      intros t Ht Hs. destruct (Hs1 t Ht Hs) as (_ & Hr & _). unfold status_is. by rewrite Hr.
    + intros t Ht Hs%Hs2; [|done]. unfold status_is. by rewrite Hs.
  - intros t Ht He. apply Hkeep; [|done]. apply elem_of_update_where. exists t. split; [done|].
    destruct (selected b1 t) eqn:Hs; [|done]. apply Hs1 in Hs as (_ & _ & Hs); [congruence | done].
  - intros HR t Ht Hd. apply Hkeep; [|done]. apply elem_of_update_where. exists t.
    unfold b1. by rewrite free_batch_all.
  - intros HR HXR t Ht He Hd. apply elem_of_update_where. exists t.
    assert (Ht1 : t ∈ rows1) by (apply elem_of_update_where; exists t; unfold b1; by rewrite free_batch_none).
    split; [done|]. unfold b2. by rewrite free_batch_all by (done || lia).
Qed.

(** ** Submission under an idempotency key *)

Lemma find_same_key cap db scope key t : tables_ok cap db -> t ∈ k_tasks db -> same_key scope key t = true ->
  List.find (same_key scope key) (k_tasks db) = Some t.
Proof.
  intros Htb Ht Hs. destruct (List.find _ _) as [u|] eqn:Hf.
  - apply List.find_some in Hf as [Hu Hsu]. apply list_elem_of_In in Hu. f_equal.
    apply (keyed_unique t_id (k_tasks db)); [apply Htb | done | done |].
    apply (tb_keys _ _ Htb u t Hu Ht). apply same_key_spec in Hs as (? & Hsc & Hk), Hsu as (_ & Hsc' & Hk').
    apply same_key_spec. by rewrite Hk', Hsc', Hk, Hsc.
  - apply List.find_none with (x := t) in Hf; [congruence | by apply list_elem_of_In].
Qed.

Definition insertable (rec : insertRecord) : Prop :=
  ref_check (ir_SubjectRef rec) = true /\ 1 <= ir_MaxAttempts rec.

(** A key that is taken never inserts, whatever room there is. *)
Lemma insert_known now uuid rec db t : insertable rec -> t ∈ k_tasks db ->
  same_key (ir_IdempotencyScope rec) (ir_IdempotencyKey rec) t = true ->
  insert now uuid rec db = Ok ((""%string, false), db).
Proof.
  intros [Hr Hm] Ht Hs.
  assert (He : existsb (same_key (ir_IdempotencyScope rec) (ir_IdempotencyKey rec)) (k_tasks db) = true)
    by (apply List.existsb_exists; exists t; by rewrite <- list_elem_of_In).
  unfold insert. rewrite tx_get_bind. cbv zeta.
  assert (Href : insert_refused rec db = Ok ((""%string, false), db))
    by (unfold insert_refused; by rewrite tx_get_bind, He).
  destruct (_ || _); [|done]. rewrite tx_guard_pass; [by rewrite He|].
  rewrite Hr. simpl. apply Z.ltb_ge. lia.
Qed.

Section Submit.
Context (url_parse : string -> option URL) (url_string : URL -> string)
  (prepare : Submission -> result task_error Prepared) (sha256 : string -> string) (cfg : Config) (reg : registry).

Let prep := prepare_submission url_parse url_string prepare sha256 cfg reg.
Let Sub := Submit url_parse url_string prepare sha256 cfg reg.

(** The wall clock only reaches the expiry. *)
Lemma prepare_clock clock clock' req rec : prep clock req = Ok rec ->
  exists rec', prep clock' req = Ok rec' /\ ir_Type rec' = ir_Type rec /\ ir_SubjectRef rec' = ir_SubjectRef rec /\
    ir_MaxAttempts rec' = ir_MaxAttempts rec /\ ir_IdempotencyKey rec' = ir_IdempotencyKey rec /\
    ir_IdempotencyScope rec' = ir_IdempotencyScope rec /\
    ir_IdempotencyFingerprint rec' = ir_IdempotencyFingerprint rec.
Proof.
  unfold prep, prepare_submission. destruct (rg_entries reg !! sq_Type req) as [opts|]; [|done].
  destruct (text_eq (sr_TenantID _) ""); [done|]. destruct (if text_eq (sq_WebhookURL req) "" then _ else _); [|done].
  destruct (prepare (submission req)) as [p|]; [|done]. destruct (text_eq (pr_Input p) ""); [done|].
  intros [= <-]. by eexists.
Qed.

Lemma prepare_key clock req rec : prep clock req = Ok rec ->
  ir_IdempotencyKey rec = sq_IdempotencyKey req /\ ir_MaxInFlightPerTenant rec = cf_MaxInFlightPerTenant cfg.
Proof.
  unfold prep, prepare_submission. destruct (rg_entries reg !! sq_Type req) as [opts|]; [|done].
  destruct (text_eq (sr_TenantID _) ""); [done|]. destruct (if text_eq (sq_WebhookURL req) "" then _ else _); [|done].
  destruct (prepare (submission req)) as [p|]; [|done]. destruct (text_eq (pr_Input p) ""); [done|].
  by intros [= <-].
Qed.

(** What [Submit] answers when the key is taken. *)
Lemma Submit_known cap clock now uuid req rec db t :
  tables_ok cap db -> prep clock req = Ok rec -> insertable rec -> t ∈ k_tasks db ->
  same_key (ir_IdempotencyScope rec) (ir_IdempotencyKey rec) t = true ->
  Sub clock now uuid req db =
    if negb (text_eq (t_type t) (ir_Type rec)) || negb (text_eq (t_fingerprint t) (ir_IdempotencyFingerprint rec))
    then Err (APIError 409 "idempotency_key_reuse") else Ok (MkSubmitResult (t_id t) true, db).
Proof.
  intros Htb Hp Hins Ht Hs. unfold Sub, Submit. fold prep. rewrite Hp. unfold tx_bind at 1.
  rewrite (insert_known now uuid rec db t) by done. cbn [snd].
  unfold resolveIdempotentDuplicate, findByIdempotencyKey. unfold tx_bind at 1. rewrite tx_get_bind.
  unfold tx_ret at 1. rewrite (find_same_key cap db _ _ t) by done. simpl. by destruct (_ || _).
Qed.

(** Submissions are idempotent.  After a submission with an idempotency key has
    created a task, and whatever the system did since — other submissions up to
    the tenant's cap, runs, crashes, cancellations — as long as that task was not
    deleted, the same submission again answers with the id of that task, marked a
    duplicate, and changes nothing; and any other submission under the same scope
    and key, of another type or with another input fingerprint, is refused with a
    conflict. *)
Theorem submission_idempotent cap db h clock now uuid req id db1 h' db2 :
  tk_run cap db h -> cap = cf_MaxInFlightPerTenant cfg ->
  Sub clock now uuid req db = Ok (MkSubmitResult id false, db1) -> sq_IdempotencyKey req <> ""%string ->
  tk_steps cap db1 h' db2 -> (EvDeleted id ∉ h') ->
  (forall clock' now' uuid', Sub clock' now' uuid' req db2 = Ok (MkSubmitResult id true, db2)) /\
  (forall rec clock' now' uuid' req' rec', prep clock req = Ok rec -> prep clock' req' = Ok rec' -> insertable rec' ->
     ir_IdempotencyScope rec' = ir_IdempotencyScope rec -> ir_IdempotencyKey rec' = ir_IdempotencyKey rec ->
     (ir_Type rec', ir_IdempotencyFingerprint rec') <> (ir_Type rec, ir_IdempotencyFingerprint rec) ->
     Sub clock' now' uuid' req' db2 = Err (APIError 409 "idempotency_key_reuse")).
Proof.
  intros Hrun%run_queue_ok Hcap H Hkey Hsteps Hdel. unfold Sub, Submit in H. fold prep in H.
  destruct (prep clock req) as [rec|] eqn:Hp; [|discriminate H].
  apply tx_bind_ok in H as (r & db0 & Hi & H). destruct (prepare_key _ _ _ Hp) as [Hk Hc].
  rewrite <- Hcap in Hc.
  pose proof (insert_queue cap _ _ _ _ _ _ Hc Hrun Hi) as Hok0.
  apply insert_shape in Hi as [(-> & _) | (-> & E0 & _ & _ & Hins & _)].
  { exfalso. simpl in H. unfold resolveIdempotentDuplicate in H. apply tx_bind_ok in H as (hit & ? & _ & H).
    destruct hit as [[[? ?] ?]|]; [|done]. by destruct (_ || _) in H. }
  injection H as -> <-. subst db0.
  assert (Hnew : new_task now id rec ∈ k_tasks (set_task_rows (k_tasks db ++ [new_task now id rec]) db))
    by (apply elem_of_app; right; apply list_elem_of_here).
  destruct (steps_follow _ _ _ _ _ Hok0 Hsteps Hnew Hdel) as (t & Ht & Hid & _).
  pose proof (qo_tables _ _ (steps_queue_ok _ _ _ _ Hok0 Hsteps)) as Htb.
  unfold task_identity in Hid. injection Hid as Eid Ety _ _ _ _ _ Ekey Esc Efp _ _ _. simpl in *.
  split.
  - intros clock' now' uuid'. destruct (prepare_clock _ clock' _ _ Hp) as (rec' & Hp' & R1 & R2 & R3 & R4 & R5 & R6).
    rewrite (Submit_known cap _ _ _ _ rec' _ t); try done.
    + rewrite R1, R6, Ety, Efp, !text_eq_refl. simpl. by rewrite Eid.
    + unfold insertable. by rewrite R2, R3.
    + apply same_key_spec. rewrite R4, R5, Ekey, Esc. by rewrite Hk.
  - intros rec1 clock' now' uuid' req' rec' [= <-] Hp' Hins' Esc' Ekey' Hdiff.
    rewrite (Submit_known cap _ _ _ _ rec' _ t); try done.
    + destruct (_ || _) eqn:Hd; [done|]. apply orb_false_iff in Hd as [H1 H2].
      apply negb_false_iff, text_eq_true in H1, H2. destruct Hdiff. congruence.
    + apply same_key_spec. rewrite Ekey', Esc', Ekey, Esc. by rewrite Hk.
Qed.
End Submit.
