(* ===== verification/AsyncTaskPages.v ===== *)
(** * Lists of tasks and webhooks

    The order of ids and tasks, the agreement of the SQL filter with the checks of
    the cursor, and the completeness of a walk over the pages of
    [AsyncTaskEngine.List_].  Then the addresses
    [AsyncTaskEngine.isPublicWebhookAddr] lets the dialer connect to, as ranges, and
    the retries of a delivery. *)

From Stdlib Require Import Ascii String.
From stdpp Require Import pretty sorting.
From S2P Require Import Prelude GoStrings AsyncTask AsyncTaskEngine AsyncTaskSystem AsyncTaskProps.
#[global] Open Scope Z_scope.

Implicit Types (t u : task) (db : task_db).

(** ** The order of tasks *)

Lemma ascii_compare_lt a b : Ascii.compare a b = Lt <-> byte_of a < byte_of b.
Proof. unfold Ascii.compare, byte_of. rewrite N.compare_lt_iff. lia. Qed.
Lemma string_leb_cons a s b s' :
  String.leb (String a s) (String b s') = (byte_of a <? byte_of b) || ((byte_of a =? byte_of b) && String.leb s s').
Proof.
  unfold String.leb. simpl. destruct (Ascii.compare a b) eqn:H.
  - apply Ascii.compare_eq_iff in H as ->. rewrite Z.ltb_irrefl, Z.eqb_refl. done.
  - apply ascii_compare_lt in H. by rewrite (proj2 (Z.ltb_lt _ _) H).
  - assert (Hg : byte_of b < byte_of a) by (apply ascii_compare_lt; by rewrite Ascii.compare_antisym, H).
    rewrite (proj2 (Z.ltb_ge _ _)), (proj2 (Z.eqb_neq _ _)) by lia. done.
Qed.

Lemma string_leb_trans s1 s2 s3 : String.leb s1 s2 = true -> String.leb s2 s3 = true -> String.leb s1 s3 = true.
Proof.
  revert s2 s3. induction s1 as [|a s1 IH]; intros [|b s2] [|c s3]; try done.
  rewrite !string_leb_cons. intros H1 H2.
  apply orb_true_iff in H1 as [H1 | [H1 H1']%andb_true_iff], H2 as [H2 | [H2 H2']%andb_true_iff]; bool_prop;
    apply orb_true_iff; rewrite andb_true_iff, Z.ltb_lt, Z.eqb_eq.
  - left. lia.
  - left. lia.
  - left. lia.
  - right. split; [lia | by eapply IH].
Qed.

Lemma queue_leb_spec t u : queue_leb t u = true <->
  t_created t < t_created u \/ (t_created t = t_created u /\ String.leb (t_id t) (t_id u) = true).
Proof. unfold queue_leb. by rewrite orb_true_iff, andb_true_iff, Z.ltb_lt, Z.eqb_eq. Qed.
Lemma queue_leb_total t u : queue_leb t u = false -> queue_leb u t = true.
Proof.
  intros H. apply queue_leb_spec. rewrite <- not_true_iff_false, queue_leb_spec in H.
  destruct (String.leb_total (t_id t) (t_id u)) as [Hl | Hl]; [|].
  - left. destruct (Z.lt_trichotomy (t_created t) (t_created u)) as [? | [? | ?]]; [tauto | tauto | done].
  - destruct (Z.lt_trichotomy (t_created t) (t_created u)) as [? | [? | ?]]; [tauto | by right | by left].
Qed.
Lemma queue_leb_trans t u v : queue_leb t u = true -> queue_leb u v = true -> queue_leb t v = true.
Proof.
  rewrite !queue_leb_spec. intros [? | [E1 L1]] [? | [E2 L2]]; [left; lia | left; lia | left; lia |].
  right. split; [lia | by eapply string_leb_trans].
Qed.
Lemma queue_leb_antisym t u : queue_leb t u = true -> queue_leb u t = true -> t_id t = t_id u.
Proof.
  rewrite !queue_leb_spec. intros [? | [E1 L1]] [? | [E2 L2]]; [lia | lia | lia |]. by apply String.leb_antisym.
Qed.
Lemma queue_leb_refl t : queue_leb t t = true.
Proof. destruct (queue_leb t t) eqn:H; [done|]. by rewrite (queue_leb_total _ _ H) in H. Qed.

Lemma before_cursor_spec t u :
  before_cursor (Some (ListCursor (t_created t) (t_id t))) u = negb (queue_leb t u).
Proof.
  unfold before_cursor, queue_leb. simpl.
  destruct (Z.lt_trichotomy (t_created t) (t_created u)) as [H | [H | H]].
  - rewrite (proj2 (Z.ltb_ge (t_created u) _)), (proj2 (Z.eqb_neq (t_created u) _)), (proj2 (Z.ltb_lt _ _) H) by lia. done.
  - rewrite H, Z.ltb_irrefl, Z.eqb_refl. done.
  - rewrite (proj2 (Z.ltb_lt _ _) H), (proj2 (Z.ltb_ge (t_created t) _)), (proj2 (Z.eqb_neq (t_created t) _)) by lia. done.
Qed.

(** Sorting the rows after a row gives what follows it in the sorted rows. *)
#[export] Instance filter_rows_Permutation {A} (p : A -> bool) : Proper ((≡ₚ) ==> (≡ₚ)) (List.filter p).
Proof.
  induction 1 as [|a l1 l2 _ IH|a b l|l1 l2 l3 _ IH1 _ IH2]; simpl; [done | | | by etransitivity].
  - destruct (p a); by rewrite IH.
  - destruct (p a), (p b); try done. apply Permutation_swap.
Qed.

Section Sorted.
Context (l : list task) (q : task -> bool) (Hnd : NoDup (t_id <$> l)).
Let newest (a b : task) : Prop := newest_leb a b = true.

Lemma newest_sorted m : StronglySorted newest (order_by newest_leb m).
Proof.
  apply order_by_sorted; unfold newest_leb; intros; [by apply queue_leb_total | by eapply queue_leb_trans].
Qed.

Lemma sorted_filter (p : task -> bool) m : StronglySorted newest m -> StronglySorted newest (List.filter p m).
Proof.
  induction 1 as [|a m Hm IH Ha]; simpl; [constructor|]. destruct (p a); [|done]. constructor; [done|].
  apply Forall_forall. intros x [_ Hx]%elem_of_filter_rows. by eapply Forall_forall in Ha.
Qed.

Lemma order_filter (p : task -> bool) :
  order_by newest_leb (List.filter (fun t => q t && p t) l) = List.filter p (order_by newest_leb (List.filter q l)).
Proof.
  apply (StronglySorted_unique_strong newest); [| apply newest_sorted | apply sorted_filter, newest_sorted |].
  - intros a b Ha%elem_of_order_by Hb H1 H2. apply elem_of_filter_rows in Ha as [_ Ha].
    apply elem_of_filter_rows in Hb as [_ Hb%elem_of_order_by]. apply elem_of_filter_rows in Hb as [_ Hb].
    apply (keyed_unique t_id l); try done. by apply queue_leb_antisym.
  - rewrite order_by_Permutation, <- filter_twice. by rewrite (order_by_Permutation newest_leb (List.filter q l)).
Qed.

Lemma filter_after pre x post : order_by newest_leb (List.filter q l) = pre ++ x :: post ->
  order_by newest_leb (List.filter (fun t => q t && before_cursor (Some (ListCursor (t_created x) (t_id x))) t) l) = post.
Proof.
  intros HS. rewrite order_filter, HS. pose proof (newest_sorted (List.filter q l)) as Hs. rewrite HS in Hs.
  assert (Hin : forall t, t ∈ pre ++ x :: post -> t ∈ l)
    by (intros t Ht; rewrite <- HS in Ht; by apply elem_of_order_by, elem_of_filter_rows in Ht as [_ ?]).
  assert (Hn : NoDup (pre ++ x :: post)).
  { rewrite <- HS, order_by_Permutation. by eapply (NoDup_fmap_1 t_id), NoDup_filter_rows. }
  apply NoDup_app in Hn as (_ & _ & [Hx _]%NoDup_cons).
  apply StronglySorted_app in Hs as (Hpre & _ & Hpost). apply StronglySorted_inv in Hpost as [_ Hpost].
  rewrite List.filter_app. cbn [List.filter]. rewrite before_cursor_spec, queue_leb_refl. cbn [negb].
  rewrite (filter_rows_none _ pre), filter_true; [done | |].
  - intros y Hy. rewrite before_cursor_spec. apply negb_true_iff, not_true_iff_false. intros Hxy.
    eapply Forall_forall in Hpost; [|exact Hy]. assert (x = y) as ->; [|done].
    apply (keyed_unique t_id l); [done | | |].
    + apply Hin, elem_of_app. right. apply list_elem_of_here.
    + apply Hin, elem_of_app. right. by apply list_elem_of_further.
    + by apply queue_leb_antisym.
  - intros y Hy. rewrite before_cursor_spec. apply negb_false_iff.
    apply (Hpre y x Hy), list_elem_of_here.
Qed.
End Sorted.

(** ** The oldest task first

    While every submission respects the cap, the fairness clause of a claim never
    holds a task back: a claim takes the oldest due task that is not locked. *)

Definition claim_oldest (now : Z) (locked : string -> bool) (types : list string) (l : list task) : option task :=
  List.find (fun t => negb (locked (t_id t))) (order_by queue_leb (List.filter (claimable now types) l)).

Lemma count_pair_le {A} (p q r : A -> bool) l :
  (forall a, a ∈ l -> p a = true -> r a = true /\ q a = false) -> (forall a, a ∈ l -> q a = true -> r a = true) ->
  count_where p l + count_where q l <= count_where r l.
Proof.
  unfold count_where. induction l as [|a l IH]; intros H1 H2; [done|]. rewrite !sumZ_cons.
  assert (Hl : sumZ (fun a => if p a then 1 else 0) l + sumZ (fun a => if q a then 1 else 0) l <=
               sumZ (fun a => if r a then 1 else 0) l)
    by (apply IH; intros b Hb; [apply H1 | apply H2]; by apply list_elem_of_further).
  pose proof (H1 a (list_elem_of_here _ _)) as Ha1. pose proof (H2 a (list_elem_of_here _ _)) as Ha2.
  destruct (p a); [destruct (Ha1 eq_refl) as [-> ->]; lia|]. destruct (q a); [rewrite Ha2 by done; lia|].
  destruct (r a); lia.
Qed.

Lemma tenant_rank_le now types l t : tenant_rank now types l t <= in_flight (t_tenant t) l.
Proof.
  unfold tenant_rank, in_flight. apply count_pair_le.
  - intros u _ Hu. apply andb_true_iff in Hu as [Hu _]. apply andb_true_iff in Hu as [Hc ->].
    apply claimable_pending in Hc. unfold lease_live. by rewrite Hc.
  - intros u _ [-> Hl]%andb_true_iff. unfold lease_live in Hl. apply andb_true_iff in Hl as [Hl _].
    apply text_eq_true in Hl. by rewrite Hl.
Qed.

Theorem claim_takes_oldest cap db h now locked types worker lease :
  tk_run cap db h -> 0 < cap -> types <> [] ->
  match claim_oldest now locked types (k_tasks db) with
  | None => claim now locked types cap worker lease db = Ok (None, db)
  | Some t => exists db', claim now locked types cap worker lease db = Ok (Some (claimed_of (claim_row now worker lease t)), db')
  end.
Proof.
  intros Hrun%run_queue_ok Hcap Hty. unfold claim, claim_oldest, claim_queue.
  destruct types as [|ty types]; [done|]. set (tys := ty :: types). rewrite tx_get_bind.
  assert (E : List.filter (fun t => claimable now tys t && (tenant_rank now tys (k_tasks db) t <=? cap)) (k_tasks db) =
              List.filter (claimable now tys) (k_tasks db)).
  { apply List.filter_ext. intros t. pose proof (tenant_rank_le now tys (k_tasks db) t).
    pose proof (tb_cap _ _ (qo_tables _ _ Hrun) Hcap (t_tenant t)).
    rewrite (proj2 (Z.leb_le _ cap)) by lia. by rewrite andb_true_r. }
  rewrite E. destruct (List.find _ _) as [t|]; [by eexists | done].
Qed.

(** ** Pages *)

Definition start_after (id : string) (f : ListFilter) : ListFilter :=
  MkListFilter (lf_Types f) (lf_Status f) (lf_OwnerScope f) (lf_OwnerUserID f) (lf_Limit f) id.

(** A client that follows the pages: each starts after the last task of the one
    before, until no more are announced. *)
Fixpoint follow_pages (fuel : nat) (now : Z) (viewer : TaskSubject) (f : ListFilter) (after : string) db
    : option (list task) :=
  match fuel with
  | O => None
  | S n =>
      match List_ now now viewer (start_after after f) db with
      | Err _ => None
      | Ok ((rows, more), _) =>
          if more : bool then
            match last rows with
            | Some t => app rows <$> follow_pages n now viewer f (t_id t) db
            | None => None
            end
          else Some rows
      end
  end.

(** What a caller may see of a filter, newest first. *)
Definition visible_tasks (now : Z) (viewer : TaskSubject) (f : ListFilter) (scope user : string) db : list task :=
  order_by newest_leb (List.filter (cursor_ok now viewer f scope user) (k_tasks db)).

Lemma contains_type l x : containsTaskType l x = bool_decide (x ∈ l).
Proof.
  apply eq_true_iff_eq. unfold containsTaskType. rewrite List.existsb_exists, bool_decide_eq_true.
  split; [intros (y & Hy & ->%text_eq_true); by apply list_elem_of_In|].
  intros Hx. exists x. by rewrite <- list_elem_of_In, text_eq_refl.
Qed.

Lemma text_eq_sym a b : text_eq a b = text_eq b a.
Proof. apply bool_decide_ext. by split; intros ->. Qed.

Lemma owner_where_matches scope user t : scope = ""%string \/ scope = TaskScopeTenant \/ scope = TaskScopeUser ->
  owner_where scope user t = matchesOwnerFilter t scope user.
Proof.
  unfold owner_where, matchesOwnerFilter. intros [-> | [-> | ->]]; cbn; [done | by rewrite orb_false_r |].
  destruct (text_eq user "") eqn:Hu; [done|]. simpl. destruct (text_eq (t_user t) user) eqn:Ht; [|done].
  apply text_eq_true in Ht as ->. by rewrite Hu.
Qed.

Lemma normalize_owner viewer f scope user : normalizeOwnerFilter viewer f = Ok (scope, user) ->
  (scope = ""%string \/ scope = TaskScopeTenant \/ scope = TaskScopeUser) /\
  (su_Scope viewer = TaskScopeUser -> scope = TaskScopeUser /\ user = su_UserID viewer).
Proof.
  unfold normalizeOwnerFilter. destruct (text_eq (su_Scope viewer) TaskScopeUser) eqn:Hs.
  - intros [= <- <-]. split; [by right; right|]. intros _. split; [done|].
    destruct (text_eq (su_UserID viewer) "") eqn:Hu; [by apply text_eq_true in Hu|done].
  - apply text_eq_false in Hs. destruct (text_eq (su_Scope viewer) TaskScopeTenant); [|done].
    destruct (text_eq (lf_OwnerScope f) "" && negb (text_eq (lf_OwnerUserID f) "")).
    + intros H. split; [|done]. right. right. cbn in H. by injection H as <- _.
    + intros H. split; [|done]. destruct (text_eq (lf_OwnerScope f) "") eqn:E1.
      { apply text_eq_true in E1. left. rewrite E1 in H. cbn in H. by injection H as <- _. }
      destruct (text_eq (lf_OwnerScope f) TaskScopeTenant) eqn:E2.
      { apply text_eq_true in E2. right. left. rewrite E2 in H. cbn in H.
        destruct (negb _) in H; [done | by injection H as <- _]. }
      destruct (text_eq (lf_OwnerScope f) TaskScopeUser) eqn:E3; [|done].
      apply text_eq_true in E3. right. right. rewrite E3 in H. cbn in H. by injection H as <- _.
Qed.

(** The SQL filter of a page and the Go checks of a cursor agree. *)
Lemma where_is_visible now viewer f scope user n t : su_TenantID viewer <> ""%string ->
  (su_Scope viewer = TaskScopeUser -> su_UserID viewer <> ""%string) ->
  normalizeOwnerFilter viewer f = Ok (scope, user) ->
  list_where now (ListRecord (su_TenantID viewer) scope user (lf_Types f) (lf_Status f) n None) t =
  cursor_ok now viewer f scope user t.
Proof.
  intros Ht Hu [Hsc Huser]%normalize_owner. unfold list_where, cursor_ok, hidden. simpl.
  rewrite contains_type, negb_involutive, andb_true_r, owner_where_matches by done.
  assert (Ho : text_eq (t_tenant t) (su_TenantID viewer) && matchesOwnerFilter t scope user =
               visible viewer t && matchesOwnerFilter t scope user).
  { unfold visible. rewrite (proj2 (text_eq_false _ _) Ht), (text_eq_sym (t_tenant t)). cbn [orb].
    destruct (text_eq (su_TenantID viewer) (t_tenant t)); [cbn [andb negb] | done].
    destruct (text_eq (su_Scope viewer) TaskScopeUser) eqn:Hs; [|done]. apply text_eq_true in Hs.
    destruct (Huser Hs) as [-> ->]. specialize (Hu Hs). unfold matchesOwnerFilter.
    change (text_eq TaskScopeUser TaskScopeTenant) with false. change (text_eq TaskScopeUser TaskScopeUser) with true.
    rewrite (proj2 (text_eq_false _ _) Hu). cbn [negb andb]. rewrite (text_eq_sym (su_UserID viewer)).
    by destruct (text_eq (t_user t) (su_UserID viewer)). }
  rewrite Ho. destruct (visible viewer t), (matchesOwnerFilter t scope user), (bool_decide (t_type t ∈ lf_Types f)); done.
Qed.

Section Pages.
Context (now : Z) (viewer : TaskSubject) (f : ListFilter) (scope user : string) (db : task_db).
Context (Hnd : NoDup (t_id <$> k_tasks db)) (Hids : forall t, t ∈ k_tasks db -> t_id t <> ""%string).
Context (Ht : su_TenantID viewer <> ""%string) (Hu : su_Scope viewer = TaskScopeUser -> su_UserID viewer <> ""%string).
Context (Htypes : lf_Types f <> []) (Hn : normalizeOwnerFilter viewer f = Ok (scope, user)).

Let all : list task := visible_tasks now viewer f scope user db.
Let limit : Z := list_limit (lf_Limit f).

Lemma list_limit_range : 1 <= limit <= 100.
Proof.
  unfold limit, list_limit. destruct (Z.leb_spec (lf_Limit f) 0); [done|].
  destruct (Z.ltb_spec 100 (lf_Limit f)); lia.
Qed.

(** The cursor [after] stands before [rest]. *)
Definition at_cursor (after : string) (rest : list task) : Prop :=
  (after = ""%string /\ rest = all) \/ (exists pre x, all = pre ++ x :: rest /\ after = t_id x).

Lemma all_elem x : x ∈ all -> x ∈ k_tasks db /\ cursor_ok now viewer f scope user x = true.
Proof. intros Hx%elem_of_order_by. by apply elem_of_filter_rows in Hx as [? ?]. Qed.

Lemma at_cursor_query after rest : at_cursor after rest ->
  exists c, page_cursor now viewer (start_after after f) scope user db = Ok (c, db) /\
    order_by newest_leb (List.filter (list_where now (ListRecord (su_TenantID viewer) scope user (lf_Types f)
      (lf_Status f) (limit + 1) c)) (k_tasks db)) = rest.
Proof.
  assert (Hw : forall c t, list_where now (ListRecord (su_TenantID viewer) scope user (lf_Types f) (lf_Status f) (limit + 1) c) t =
     cursor_ok now viewer f scope user t && before_cursor c t).
  { intros c t. rewrite <- (where_is_visible now viewer f scope user (limit + 1)) by done. unfold list_where. simpl.
    by rewrite andb_true_r. }
  intros [[-> ->] | (pre & x & Hall & ->)].
  - exists None. split; [done|]. unfold all, visible_tasks. f_equal. apply List.filter_ext. intros t.
    by rewrite Hw, andb_true_r.
  - assert (Hx : x ∈ all) by (rewrite Hall; apply elem_of_app; right; apply list_elem_of_here).
    apply all_elem in Hx as [Hx Hok]. exists (Some (ListCursor (t_created x) (t_id x))). split.
    + unfold page_cursor. cbn [lf_StartingAfter start_after]. rewrite (proj2 (text_eq_false _ _) (Hids x Hx)).
      rewrite tx_get_bind, (find_key_elem t_id _ x) by done.
      change (cursor_ok now viewer (start_after (t_id x) f) scope user x) with (cursor_ok now viewer f scope user x).
      by rewrite Hok.
    + rewrite (List.filter_ext _ _ (Hw _)). by apply (filter_after _ _ Hnd pre).
Qed.

Lemma list_page after rest : at_cursor after rest ->
  List_ now now viewer (start_after after f) db =
    let more := bool_decide (limit < Z.of_nat (length rest)) in
    Ok ((if more then take (Z.to_nat limit) rest else rest, more), db).
Proof.
  intros (c & Hc & Hrows)%at_cursor_query. unfold List_. rewrite (proj2 (text_eq_false _ _) Ht).
  assert (Hs : text_eq (su_Scope viewer) TaskScopeUser && text_eq (su_UserID viewer) "" = false).
  { destruct (text_eq (su_Scope viewer) TaskScopeUser) eqn:Hs; [|done]. apply text_eq_true in Hs.
    by apply text_eq_false, Hu. }
  rewrite Hs. cbn [lf_Types lf_Limit start_after lf_Status]. rewrite bool_decide_false by done.
  change (normalizeOwnerFilter viewer (start_after after f)) with (normalizeOwnerFilter viewer f). rewrite Hn.
  unfold tx_bind at 1. rewrite Hc. unfold list_tasks. unfold tx_bind at 1. rewrite tx_get_bind.
  cbn [li_Types li_Limit]. fold limit. pose proof list_limit_range as Hl.
  rewrite bool_decide_false by done. rewrite (proj2 (Z.leb_gt (limit + 1) 0)) by lia. cbn [orb].
  rewrite Hrows. unfold tx_ret. rewrite length_take.
  destruct (decide (limit < Z.of_nat (length rest))) as [Hm | Hm].
  - rewrite !bool_decide_true by lia. rewrite take_take. do 3 f_equal. f_equal. lia.
  - rewrite !bool_decide_false by lia. rewrite take_ge by lia. done.
Qed.

Lemma follow_rest fuel after rest : (length rest < fuel)%nat -> at_cursor after rest ->
  follow_pages fuel now viewer f after db = Some rest.
Proof.
  revert after rest. induction fuel as [|fuel IH]; intros after rest Hf Hc; [lia|]. cbn [follow_pages].
  rewrite (list_page _ _ Hc). cbv zeta. pose proof list_limit_range as Hl.
  destruct (decide (limit < Z.of_nat (length rest))) as [Hm | Hm]; [|by rewrite !bool_decide_false].
  rewrite !bool_decide_true by done.
  destruct (last (take (Z.to_nat limit) rest)) as [x|] eqn:Hlast.
  - apply last_Some in Hlast as (pre & Hpre).
    assert (Hc' : at_cursor (t_id x) (drop (Z.to_nat limit) rest)).
    { right. assert (Hsplit : rest = pre ++ x :: drop (Z.to_nat limit) rest).
      { rewrite <- (take_drop (Z.to_nat limit) rest) at 1. by rewrite Hpre, <- app_assoc. }
      destruct Hc as [[_ Hr] | (pre0 & y & Hall & _)].
      - exists pre, x. by rewrite <- Hr, <- Hsplit.
      - exists (pre0 ++ y :: pre), x. by rewrite Hall, <- app_assoc, <- app_comm_cons, <- Hsplit. }
    rewrite (IH (t_id x) (drop (Z.to_nat limit) rest)); [|rewrite length_drop; lia | done]. simpl. by rewrite take_drop.
  - apply last_None in Hlast. apply (f_equal length) in Hlast. rewrite length_take in Hlast. simpl in Hlast. lia.
Qed.
End Pages.

(** Pages are complete and isolated.  In every reachable state a caller who
    follows the pages of a list, whatever limit it asks for, gets exactly the tasks
    that match its filter and that it may see — its tenant's, and only its own for
    a user — each once and newest first; and the walk ends. *)
Theorem pages_complete cap db h now viewer f scope user :
  tk_run cap db h -> (forall t, t ∈ k_tasks db -> t_id t <> ""%string) ->
  su_TenantID viewer <> ""%string -> (su_Scope viewer = TaskScopeUser -> su_UserID viewer <> ""%string) ->
  lf_Types f <> [] -> normalizeOwnerFilter viewer f = Ok (scope, user) ->
  exists l, follow_pages (S (length (k_tasks db))) now viewer f "" db = Some l /\
    NoDup (t_id <$> l) /\ StronglySorted (fun a b => newest_leb a b = true) l /\
    (forall t, t ∈ l <-> t ∈ k_tasks db /\ visible viewer t = true /\ t_type t ∈ lf_Types f /\
       matchesOwnerFilter t scope user = true /\ (lf_Status f = ""%string \/ t_status t = lf_Status f) /\
       unexpired now t = true).
Proof.
  intros Hrun%run_queue_ok Hids Ht Hu Hty Hn. pose proof (tb_ids _ _ (qo_tables _ _ Hrun)) as Hnd.
  exists (visible_tasks now viewer f scope user db). split_and!.
  - apply (follow_rest now viewer f scope user); try done; [|by left].
    unfold visible_tasks. rewrite order_by_Permutation.
    pose proof (List.filter_length_le (cursor_ok now viewer f scope user) (k_tasks db)). lia.
  - unfold visible_tasks. rewrite order_by_Permutation. by apply NoDup_filter_rows.
  - apply newest_sorted.
  - intros t. unfold visible_tasks. rewrite (elem_of_order_by newest_leb), elem_of_filter_rows.
    unfold cursor_ok, hidden. rewrite negb_involutive, contains_type, !andb_true_iff, orb_true_iff, !text_eq_true.
    rewrite bool_decide_eq_true. tauto.
Qed.

(** ** Webhooks *)

(** A prefix is an interval. *)
Lemma prefix_interval width len net n : 0 <= len <= width -> 0 <= net ->
  net mod 2 ^ (width - len) = 0 ->
  (top width len n =? top width len net) = (net <=? n) && (n <? net + 2 ^ (width - len)).
Proof.
  intros Hl Hnet Hm. unfold top. rewrite !Z.shiftr_div_pow2 by lia.
  assert (Hp : 0 < 2 ^ (width - len)) by (apply Z.pow_pos_nonneg; lia). set (p := 2 ^ (width - len)) in *. clearbody p.
  apply eq_true_iff_eq. rewrite andb_true_iff, Z.eqb_eq, Z.leb_le, Z.ltb_lt.
  pose proof (Z.div_mod n p ltac:(lia)). pose proof (Z.div_mod net p ltac:(lia)). pose proof (Z.mod_pos_bound n p Hp).
  rewrite Hm in *. split; [nia|]. intros Hr. symmetry. apply (Z.div_unique n p (net / p) (n - net)); nia.
Qed.

(** The IPv4 ranges no webhook may reach, first and last address. *)
Definition reserved4 : list (Z * Z) :=
  [(octets 0 0 0 0, octets 0 255 255 255); (octets 10 0 0 0, octets 10 255 255 255);
   (octets 100 64 0 0, octets 100 127 255 255); (octets 127 0 0 0, octets 127 255 255 255);
   (octets 169 254 0 0, octets 169 254 255 255); (octets 172 16 0 0, octets 172 31 255 255);
   (octets 192 0 0 0, octets 192 0 0 255); (octets 192 0 2 0, octets 192 0 2 255);
   (octets 192 168 0 0, octets 192 168 255 255); (octets 198 18 0 0, octets 198 19 255 255);
   (octets 198 51 100 0, octets 198 51 100 255); (octets 203 0 113 0, octets 203 0 113 255);
   (octets 224 0 0 0, octets 255 255 255 255)].
Definition in_ranges (l : list (Z * Z)) (n : Z) : bool := existsb (fun r => (r.1 <=? n) && (n <=? r.2)) l.

Lemma if_negb (b c : bool) : (if b then false else c) = negb b && c.
Proof. by destruct b. Qed.

(** Prefixes to intervals with their bounds computed. *)
Ltac eval_bounds :=
  repeat match goal with
  | |- context [octets ?a ?b ?c ?d] =>
      let v := eval vm_compute in (octets a b c d) in change (octets a b c d) with v
  | |- context [groups ?a ?b ?c] => let v := eval vm_compute in (groups a b c) in change (groups a b c) with v
  end;
  unfold in4, in6; rewrite ?prefix_interval by (vm_compute; (done || (split; done)));
  repeat match goal with |- context [2 ^ ?e] => let v := eval vm_compute in (2 ^ e) in change (2 ^ e) with v end.

(** An IPv4 address is public exactly when it is in none of the reserved ranges. *)
Theorem public_ipv4 n : 0 <= n < 2 ^ 32 -> isPublicWebhookAddr (Addr4 n) = negb (in_ranges reserved4 n).
Proof.
  unfold isPublicWebhookAddr, Unmap. rewrite bool_decide_false by done.
  unfold IsGlobalUnicast, IsLoopback, IsPrivate, IsLinkLocalUnicast, IsLinkLocalMulticast, IsMulticast, IsUnspecified,
    disallowed, disallowed4, in_ranges, reserved4. cbn [existsb fst snd orb andb]. rewrite if_negb.
  eval_bounds. lia.
Qed.

(** An IPv4 address in IPv6 clothing is judged as the IPv4 address it is. *)
Theorem public_mapped n zone : 0 <= n < 2 ^ 32 ->
  isPublicWebhookAddr (Addr6 (65535 * 2 ^ 32 + n) zone) = isPublicWebhookAddr (Addr4 n).
Proof.
  intros Hn. assert (H : Unmap (Addr6 (65535 * 2 ^ 32 + n) zone) = Addr4 n).
  { unfold Unmap. rewrite Z.shiftr_div_pow2 by lia.
    rewrite <- (Z.div_unique (65535 * 2 ^ 32 + n) (2 ^ 32) 65535 n) by lia.
    rewrite <- (Z.mod_unique (65535 * 2 ^ 32 + n) (2 ^ 32) 65535 n) by lia. done. }
  unfold isPublicWebhookAddr. by rewrite H.
Qed.

(** The NAT64 range [64:ff9b::/96], whose addresses reach any IPv4 address behind
    a translator, is refused, but the same address written with a zone is public:
    the prefix list does not contain addresses with zones. *)
Theorem zone_escapes_prefixes n : 0 <= n < 2 ^ 32 ->
  isPublicWebhookAddr (Addr6 (groups 100 65435 0 + n) false) = false /\
  isPublicWebhookAddr (Addr6 (groups 100 65435 0 + n) true) = true.
Proof.
  intros Hn. assert (Hu : forall z, Unmap (Addr6 (groups 100 65435 0 + n) z) = Addr6 (groups 100 65435 0 + n) z).
  { intros z. unfold Unmap. rewrite Z.shiftr_div_pow2 by lia. rewrite (proj2 (Z.eqb_neq _ 65535)); [done|].
    intros H. pose proof (Z.div_mod (groups 100 65435 0 + n) (2 ^ 32) ltac:(lia)) as Hd.
    pose proof (Z.mod_pos_bound (groups 100 65435 0 + n) (2 ^ 32) ltac:(lia)). rewrite H in Hd.
    remember ((groups 100 65435 0 + n) mod 2 ^ 32) as r. revert Hd. eval_bounds. lia. }
  assert (Htop : top 128 16 (groups 100 65435 0 + n) = 100).
  { unfold top. rewrite Z.shiftr_div_pow2 by lia. symmetry.
    apply (Z.div_unique _ _ _ (65435 * 2 ^ 96 + n)); [|unfold groups; lia]. left. revert Hn. eval_bounds. lia. }
  unfold isPublicWebhookAddr. rewrite !Hu, !bool_decide_false by done.
  unfold IsGlobalUnicast, IsLoopback, IsPrivate, IsLinkLocalUnicast, IsLinkLocalMulticast, IsMulticast, IsUnspecified,
    disallowed, disallowed6. cbn [existsb fst snd orb andb negb]. rewrite !Htop, !if_negb.
  change (Z.land 100 65295 =? 65282) with false.
  revert Hn. eval_bounds. lia.
Qed.

(** *** Retries *)

(** A delivery is tried again exactly when the answer is neither a success nor
    final and it has attempts left of both the row's limit and the schedule. *)
Theorem retry_exactly attempt maxAttempts_ code err : 1 <= attempt ->
  do_Status (classifyWebhookResult attempt maxAttempts_ code err) = DeliveryPending <->
  ~ (err = None /\ 200 <= code < 300) /\ code <> 410 /\ (forall m, err <> Some (UnsafeTarget m)) /\
  attempt < maxAttempts_ /\ attempt <= 5.
Proof.
  intros Ha.
  assert (Hd : forall delay, webhookRetryDelay attempt = Some delay -> attempt <= 5).
  { unfold webhookRetryDelay. simpl length. intros delay. destruct (_ || _) eqn:H; [done|]. bool_prop. lia. }
  assert (Hs : attempt <= 5 -> exists delay, webhookRetryDelay attempt = Some delay).
  { intros H5. assert (attempt = 1 \/ attempt = 2 \/ attempt = 3 \/ attempt = 4 \/ attempt = 5)
      as [-> | [-> | [-> | [-> | ->]]]] by lia; by eexists. }
  unfold classifyWebhookResult.
  destruct (bool_decide (err = None) && _) eqn:Hok.
  { simpl. split; [done|]. intros (Hn & _). bool_prop. tauto. }
  assert (Hno : ~ (err = None /\ 200 <= code < 300)).
  { intros [-> Hc]. rewrite bool_decide_true, (proj2 (Z.leb_le _ _)), (proj2 (Z.ltb_lt _ _)) in Hok by (done || lia). done. }
  destruct (Z.eqb_spec code 410) as [Hg | Hg]; [simpl; split; [done | tauto]|].
  destruct err as [[m | m]|]; cbn [orb].
  - simpl. split; [done|]. intros (_ & _ & Hm & _). by destruct (Hm m).
  - destruct (webhookRetryDelay attempt) as [delay|] eqn:Hw.
    + specialize (Hd _ eq_refl). destruct (Z.leb_spec maxAttempts_ attempt); simpl; [split; [done | lia]|].
      split; [intros _; split_and!; done || lia | done].
    + simpl. split; [done|]. intros (_ & _ & _ & _ & H5). by destruct (Hs H5).
  - destruct (webhookRetryDelay attempt) as [delay|] eqn:Hw.
    + specialize (Hd _ eq_refl). destruct (Z.leb_spec maxAttempts_ attempt); simpl; [split; [done | lia]|].
      split; [intros _; split_and!; done || lia | done].
    + simpl. split; [done|]. intros (_ & _ & _ & _ & H5). by destruct (Hs H5).
Qed.
