(* ===== verification/AsyncTaskDemo.v ===== *)
(** * A run of the task queue

    One image task with a webhook: submitted, claimed, charged, completed and
    notified; a second one whose worker dies.  The witnesses of the theorems of
    [AsyncTaskProps] and [AsyncTaskPages]. *)

From Stdlib Require Import QArith.
From S2P Require Import Prelude GoStrings CivilTime PurchasePolicy Ledger Subscription Decimal PriceTiers UsageEvidence Request PriceBookBilling PricingProps Settlement SettlementSystem SettlementProps.
From S2P Require Import AsyncTask AsyncTaskEngine AsyncTaskSystem AsyncTaskProps AsyncTaskPages.
#[global] Open Scope Z_scope.

Definition image_subject : TaskSubject := MkTaskSubject "api_key" TaskScopeUser "t1" "u1" "k1" "" 0 "" 0.
Definition image_config : Config :=
  withDefaults (MkConfig 0 0 0 2 0 0 1 0 0 0).
Definition image_registry : registry := freeze (Registry {[ "image"%string := MkOptions 1 0 ]} false).
Definition image_request : SubmitRequest :=
  MkSubmitRequest image_subject "image" "a cat" "application/json" "" "https://h/" "key-1".
Definition image_url (s : string) : option URL := Some (MkURL "https" "h" "h" "" false "" "/").
Definition url_text (u : URL) : string := "https://h/".
Definition image_prepare (s : Submission) : result task_error Prepared := Ok (MkPrepared (sb_Body s) "img-1" 0).
Definition image_hash (s : string) : string := s.
Definition image_gen (id : string) : string := "d" +:+ id.
Definition nobody (_ : string) : bool := false.

Definition image_record : insertRecord :=
  match prepare_submission image_url url_text image_prepare image_hash image_config image_registry 0 image_request with
  | Ok rec => rec
  | Err _ => InsertRecord "" (SubjectRefFrom image_subject) "" "" "" "" 1 2 None "" "" ""
  end.
Definition image_answer : Result := MkResult TaskCompleted "{}" 499000 None.

Definition tasks_after {A} (r : result task_error (A * task_db)) : task_db :=
  match r with Ok (_, db) => db | Err _ => TaskDB [] [] ∅ end.
Definition answer_of {A} (d : A) (r : result task_error (A * task_db)) : A :=
  match r with Ok (a, _) => a | Err _ => d end.

Definition tdb0 : task_db := TaskDB [] [] ∅.
Definition tdb1 : task_db := tasks_after (insert 0 "a" image_record tdb0).
Definition claim1 := claim 10 nobody ["image"%string] 2 "w" 60 tdb1.
Definition tdb2 : task_db := tasks_after claim1.
Definition handed1 : claimedTask :=
  default (ClaimedTask "" "" (SubjectRefFrom image_subject) "" "" 0 "" 0) (answer_of None claim1).
Definition tdb3 : task_db := tasks_after (complete 20 image_gen "a" "w" (terminal_result id image_answer) tdb2).
Definition tdb4 : task_db := tasks_after (cancel 30 image_gen "a" tdb3).

Lemma step_a : tk_step 2 tdb0 [] tdb1.
Proof. eapply (tk_submit 2 0 "a" image_record ("a"%string, true)); vm_compute; reflexivity. Qed.
Lemma step_b : tk_step 2 tdb1 [EvHanded "a" (request_id_of "a" 1) "w" 1 1] tdb2.
Proof.
  assert (H : claim 10 nobody ["image"%string] 2 "w" 60 tdb1 = Ok (Some handed1, tdb2)) by (vm_compute; reflexivity).
  pose proof (tk_claim 2 _ _ _ _ _ _ _ _ H) as Hs.
  replace [EvHanded (ct_ID handed1) (ct_RequestID handed1) "w" (ct_Attempt handed1) (max_of (ct_ID handed1) tdb1)]
    with [EvHanded "a" (request_id_of "a" 1) "w" 1 1] in Hs by (vm_compute; reflexivity). exact Hs.
Qed.
Lemma step_c : tk_step 2 tdb2 [] tdb3.
Proof. eapply (tk_complete 2 20 image_gen "a" "w" id image_answer true). vm_compute. reflexivity. Qed.
Lemma step_d : tk_step 2 tdb3 [] tdb4.
Proof. eapply (tk_cancel 2 30 image_gen "a" false). vm_compute. reflexivity. Qed.

Definition history1 : list tk_event := [EvHanded "a" (request_id_of "a" 1) "w" 1 1].

Lemma run_1 : tk_run 2 tdb1 [].
Proof. change [] with (@nil tk_event ++ []). eapply tk_next; [apply (tk_start 2 ∅) | exact step_a]. Qed.
Lemma run_2 : tk_run 2 tdb2 history1.
Proof. change history1 with ([] ++ history1). eapply tk_next; [exact run_1 | exact step_b]. Qed.
Lemma run_3 : tk_run 2 tdb3 history1.
Proof. change history1 with (history1 ++ []). eapply tk_next; [exact run_2 | exact step_c]. Qed.

(** A worker takes the task, stops and gives it back, and another one takes it: the task
    may run once, and was handed out twice. *)
Definition gdb3 : task_db := tasks_after (releaseWorker "w" tdb2).
Definition claim2 := claim 30 nobody ["image"%string] 2 "v" 60 gdb3.
Definition handed2 : claimedTask :=
  default (ClaimedTask "" "" (SubjectRefFrom image_subject) "" "" 0 "" 0) (answer_of None claim2).
Definition gdb4 : task_db := tasks_after claim2.
Definition history_released : list tk_event :=
  (history1 ++ [EvReleased "a"]) ++ [EvHanded "a" (request_id_of "a" 1) "v" 1 1].

Lemma run_released : tk_run 2 gdb4 history_released.
Proof.
  assert (H : releaseWorker "w" tdb2 = Ok (1, gdb3)) by (vm_compute; reflexivity).
  assert (H2 : claim 30 nobody ["image"%string] 2 "v" 60 gdb3 = Ok (Some handed2, gdb4)) by (vm_compute; reflexivity).
  unfold history_released. eapply tk_next; [eapply tk_next; [exact run_2|]|].
  - pose proof (tk_release 2 _ _ _ _ H) as Hs.
    replace (_ <$> _) with [EvReleased "a"] in Hs by (vm_compute; reflexivity). exact Hs.
  - pose proof (tk_claim 2 _ _ _ _ _ _ _ _ H2) as Hs.
    replace [EvHanded (ct_ID handed2) (ct_RequestID handed2) "v" (ct_Attempt handed2) (max_of (ct_ID handed2) gdb3)]
      with [EvHanded "a" (request_id_of "a" 1) "v" 1 1] in Hs by (vm_compute; reflexivity). exact Hs.
Qed.

Definition released_task : task := default (new_task 0 "" image_record) (find_key t_id "a"%string (k_tasks gdb4)).
Lemma task_queue_ok_witness :
  (length (k_deliveries tdb3) = 1%nat /\ queue_ok 2 tdb3) /\
  t_max released_task = 1 /\ handed "a" history_released = 2 /\ handed "a" history_released = t_attempts released_task + 1.
Proof.
  split; [split; [vm_compute; reflexivity | exact (proj1 (task_queue_ok 2 tdb3 history1 run_3))]|].
  assert (H : find_key t_id "a"%string (k_tasks gdb4) = Some released_task) by (vm_compute; reflexivity).
  destruct (task_queue_ok 2 gdb4 history_released run_released) as (_ & Hcount & _).
  destruct (Hcount released_task) as [Hc _].
  - by apply (find_key_Some t_id _ _ _ H).
  - intros Hin. apply list_elem_of_In in Hin. vm_compute in Hin. by repeat destruct Hin as [Hin | Hin].
  - split; [vm_compute; reflexivity|]. split; [vm_compute; reflexivity|].
    etransitivity; [exact Hc | vm_compute; reflexivity].
Defined.

Definition image_task : task :=
  default (new_task 0 "" image_record) (find_key t_id "a"%string (k_tasks tdb3)).

Lemma image_task_in : image_task ∈ k_tasks tdb3 /\ isTerminal (t_status image_task) = true /\ t_id image_task = "a"%string.
Proof.
  assert (H : find_key t_id "a"%string (k_tasks tdb3) = Some image_task) by (vm_compute; reflexivity).
  split; [by apply (find_key_Some t_id _ _ _ H) | split; vm_compute; reflexivity].
Qed.

(** A cancellation after the completion changes nothing. *)
Lemma outcome_is_final_witness : exists t', t' ∈ k_tasks tdb4 /\ t_sched t' = t_sched image_task.
Proof.
  destruct image_task_in as (Hin & Hterm & _).
  destruct (outcome_is_final 2 tdb3 history1 ([] ++ []) tdb4 image_task run_3
    (tk_more 2 tdb3 [] tdb3 [] tdb4 (tk_here 2 tdb3) step_d) Hin Hterm (not_elem_of_nil _)) as (t' & Ht' & _ & Hs & _).
  exists t'. split; [exact Ht' | exact Hs].
Defined.

(** ** The charge of the task *)

Definition task_request : Request :=
  set_source BillingSourceSubscription "s1" {[ "g1"%string := Finite 1 ]}
    (MkRequest (request_id_of "a" 1) "chat" "sync" "" (Some demo_subject) (Some demo_candidate) 1 false no_usage
      (observe_all "openai_chat" "chat" demo_frames) "" {[ "cand"%string := demo_snapshot ]} no_billing
      "payg" "" ∅ "" "completed" "complete" "none" "" "" 200 "" "" "").
Definition task_sealed : result st_error (Request * CompletionDecision * charge) :=
  log_charge true (log_request task_request).
Definition sdb1 : st_db := state_after (Settlement.register 1000 0 true task_request demo_db0).
Definition sdb2 : st_db :=
  match task_sealed with Ok (r, d, c) => state_after (seal 2000 r d c sdb1) | Err _ => demo_db0 end.
Definition task_work : settlement :=
  default (recovery_row 0 "" (RequestKey 0 0 None "" "")) (next_work demo_leb no_lock 3000 sdb2).
Definition sdb3 : st_db := state_after (postSettlement 3000 task_work sdb2).
Definition task_charges : list st_event := [] ++ [EvPosted (se_id task_work) (dues_of task_work)].

Lemma task_run_posted : st_run demo_leb demo_origin sdb3 task_charges.
Proof.
  assert (Hseal : exists r d c, task_sealed = Ok (r, d, c) /\ seal 2000 r d c sdb1 = Ok (tt, sdb2))
    by (eexists _, _, _; split; [vm_compute; reflexivity | vm_compute; reflexivity]).
  destruct Hseal as (r & d & c & Hl & Hs).
  assert (Hnext : next_work demo_leb no_lock 3000 sdb2 = Some task_work) by (vm_compute; reflexivity).
  assert (Hpost : postSettlement 3000 task_work sdb2 = Ok (tt, sdb3)) by (vm_compute; reflexivity).
  assert (Hreg : Settlement.register 1000 0 true task_request demo_db0 = Ok (1000, sdb1)) by (vm_compute; reflexivity).
  eapply run_step; [|exact (step_post _ _ no_lock 3000 _ _ _ Hnext Hpost)].
  change (@nil st_event) with (@nil st_event ++ []). eapply run_step; [|by eapply step_seal].
  change (@nil st_event) with (@nil st_event ++ []). eapply run_step; [by apply (run_start _ _ demo_db0)|].
  apply (step_register _ _ 1000 true task_request 1000); [vm_compute; discriminate | exact Hreg].
Qed.

Lemma handed_once rid w a m : EvHanded "a" rid w a m ∈ history1 -> m <= 1.
Proof. intros Hin%list_elem_of_singleton. injection Hin as _ _ _ ->. lia. Qed.

Lemma task_charged_at_most_n_witness :
  length (List.filter (fun r => bool_decide (r ∈ handed_requests "a" history1)) (posted_ids task_charges)) = 1%nat /\
  Z.of_nat (length (List.filter (fun r => bool_decide (r ∈ handed_requests "a" history1)) (posted_ids task_charges))) <= 1.
Proof.
  split; [vm_compute; reflexivity|].
  exact (proj1 (task_charged_at_most_n 2 tdb3 history1 demo_leb demo_origin sdb3 task_charges "a" 1
    run_3 task_run_posted ltac:(lia) handed_once)).
Defined.

(** ** Two orphans that deserve another attempt *)

Definition retry_record (key : string) : insertRecord :=
  InsertRecord "image" (SubjectRefFrom image_subject) "img-1" "a cat" "" "" 2 2 None key "key:k1" "".
Definition rdb1 : task_db := tasks_after (insert 0 "a" (retry_record "ka") tdb0).
Definition rdb2 : task_db := tasks_after (insert 1 "b" (retry_record "kb") rdb1).
Definition rdb3 : task_db := tasks_after (claim 10 nobody ["image"%string] 2 "w" 60 rdb2).
Definition rdb4 : task_db := tasks_after (claim 20 nobody ["image"%string] 2 "w" 60 rdb3).
Definition claimed_or (o : option claimedTask) : claimedTask := default handed1 o.
Definition history2 : list tk_event :=
  let c1 := claimed_or (answer_of None (claim 10 nobody ["image"%string] 2 "w" 60 rdb2)) in
  let c2 := claimed_or (answer_of None (claim 20 nobody ["image"%string] 2 "w" 60 rdb3)) in
  ((([] ++ []) ++ []) ++ [EvHanded (ct_ID c1) (ct_RequestID c1) "w" (ct_Attempt c1) (max_of (ct_ID c1) rdb2)])
   ++ [EvHanded (ct_ID c2) (ct_RequestID c2) "w" (ct_Attempt c2) (max_of (ct_ID c2) rdb3)].

Lemma run_orphans : tk_run 2 rdb4 history2.
Proof.
  assert (H1 : insert 0 "a" (retry_record "ka") tdb0 = Ok (("a"%string, true), rdb1)) by (vm_compute; reflexivity).
  assert (H2 : insert 1 "b" (retry_record "kb") rdb1 = Ok (("b"%string, true), rdb2)) by (vm_compute; reflexivity).
  assert (H3 : claim 10 nobody ["image"%string] 2 "w" 60 rdb2 =
    Ok (Some (claimed_or (answer_of None (claim 10 nobody ["image"%string] 2 "w" 60 rdb2))), rdb3)) by (vm_compute; reflexivity).
  assert (H4 : claim 20 nobody ["image"%string] 2 "w" 60 rdb3 =
    Ok (Some (claimed_or (answer_of None (claim 20 nobody ["image"%string] 2 "w" 60 rdb3))), rdb4)) by (vm_compute; reflexivity).
  unfold history2. eapply tk_next; [|exact (tk_claim 2 _ _ _ _ _ _ _ _ H4)].
  eapply tk_next; [|exact (tk_claim 2 _ _ _ _ _ _ _ _ H3)].
  eapply tk_next; [|by eapply tk_submit, H2]. eapply tk_next; [apply (tk_start 2 ∅) | by eapply tk_submit, H1].
Qed.

Definition quiet (now : Z) : stmt_env := StmtEnv now nobody image_gen.

Lemma orphans_fresh : fresh_ids image_gen rdb4.
Proof.
  split; [|].
  { replace ((fun t => image_gen (t_id t)) <$> k_tasks rdb4) with ["da"; "db"]%string by (vm_compute; reflexivity).
    apply NoDup_cons. split; [|apply NoDup_singleton]. intros Hin%list_elem_of_singleton. discriminate Hin. }
  intros t _. apply not_elem_of_nil.
Qed.

(** Both deserve another attempt; a batch of one fails the second. *)
Lemma reap_round_exact_witness :
  count_where (retryable 1000 (k_request_keys rdb4)) (k_tasks rdb4) = 2 /\
  count_where (status_is TaskPending) (k_tasks (reapOnce (quiet 1000) (quiet 1000) (quiet 1000) 1 rdb4)) = 1 /\
  count_where (status_is TaskFailed) (k_tasks (reapOnce (quiet 1000) (quiet 1000) (quiet 1000) 1 rdb4)) = 1.
Proof.
  split; [vm_compute; reflexivity|].
  destruct (reap_round_exact 2 rdb4 history2 1000 image_gen (quiet 1000) 1 run_orphans ltac:(lia) orphans_fresh)
    as (Hp & Hf & _).
  split; [etransitivity; [exact Hp | vm_compute; reflexivity] | etransitivity; [exact Hf | vm_compute; reflexivity]].
Defined.

(** ** The same submission again *)

Definition submit_image := Submit image_url url_text image_prepare image_hash image_config image_registry.

Lemma submission_idempotent_witness :
  submit_image 0 0 "a" image_request tdb0 = Ok (MkSubmitResult "a" false, tdb1) /\
  submit_image 99 99 "b" image_request tdb3 = Ok (MkSubmitResult "a" true, tdb3).
Proof.
  assert (H : submit_image 0 0 "a" image_request tdb0 = Ok (MkSubmitResult "a" false, tdb1)) by (vm_compute; reflexivity).
  split; [exact H|].
  assert (Hsteps : tk_steps 2 tdb1 (([] ++ history1) ++ []) tdb3)
    by (eapply tk_more; [eapply tk_more; [apply tk_here | exact step_b] | exact step_c]).
  refine (proj1 (submission_idempotent image_url url_text image_prepare image_hash image_config image_registry
    2 tdb0 [] 0 0 "a" image_request "a" tdb1 _ tdb3 (tk_start 2 ∅) _ H _ Hsteps _) 99 99 "b"%string).
  - vm_compute. reflexivity.
  - discriminate.
  - intros Hin%list_elem_of_singleton. discriminate Hin.
Defined.

(** ** Pages of one task *)

Definition by_one : ListFilter := MkListFilter ["image"%string] "" "" "" 1 "".

Lemma rdb4_ids t : t ∈ k_tasks rdb4 -> t_id t <> ""%string.
Proof.
  intros Ht. assert (Hin : t_id t ∈ t_id <$> k_tasks rdb4) by (by apply list_elem_of_fmap_2).
  replace (t_id <$> k_tasks rdb4) with ["a"; "b"]%string in Hin by (vm_compute; reflexivity).
  intros E. rewrite E in Hin. apply (bool_decide_eq_true_2 _) in Hin. vm_compute in Hin. discriminate Hin.
Qed.

Lemma pages_complete_witness :
  follow_pages 3 1000 image_subject by_one "" rdb4 = Some (rev (k_tasks rdb4)) /\
  exists l, follow_pages 3 1000 image_subject by_one "" rdb4 = Some l /\ NoDup (t_id <$> l).
Proof.
  split; [vm_compute; reflexivity|].
  destruct (pages_complete 2 rdb4 history2 1000 image_subject by_one TaskScopeUser "u1" run_orphans rdb4_ids)
    as (l & Hl & Hn & _); [discriminate | discriminate | discriminate | vm_compute; reflexivity |].
  exists l. split; [exact Hl | exact Hn].
Defined.
