(* ===== verification/Pipeline.v ===== *)
(** * The serving pipeline

    [src/internal/ai/serving/pipeline.go]: the steps a request passes in order, the
    rollback of those that completed when one fails, and the finalizers that run either
    way; the gates ([steps.go], [steps_subscription.go], [steps_balance_gate.go],
    [steps_billing_guard.go]); the registration of the request
    ([RequestStore.Execute], [src/internal/ai/adapters/postgres/request_store.go]); and
    the admission gate of queued tasks ([admission.go]).  The steps are wired in the
    order of [src/cmd/server/ai_modules.go].

    The state of a run is the request, with the fields execution adds, the two stores a
    pipeline writes itself ([redis] and the settlement tables, which hold the ledger),
    and the outside world [W] of the execute step.  What the collaborators of the gates
    answer is given by the interfaces below.  Logs, spans, times of completion, the
    moderation step, which execution calls as a review, and the audit payload are left
    out. *)

From Stdlib Require Import QArith.
From S2P Require Import Prelude GoStrings UsageEvidence Decimal PriceTiers Request Availability Effect Classify.
From S2P Require Import ConcurrencyLimit Candidates ExecState Execute PriceBookBilling Ledger Settlement.
From S2P Require Import CommercialDB Commercial Surfaces Dispatch Binder RouteSelector.
#[global] Open Scope Z_scope.

(** ** Steps ([Step], [Pipeline.Run]) *)

Section Run.
Context {S : Type}.

(** [Step]: [step_Execute] answers an error or none. *)
Record Step := MkStep {
  step_Name : string; step_Execute : M S (option exec_error); step_Rollback : S -> S }.

(** The loop of [Run]: the steps completed, the last one first. *)
Fixpoint run_steps (completed steps : list Step) : M S (option (string * exec_error)) :=
  match steps with
  | [] => mret None
  | st :: rest =>
      e ← step_Execute st;
      match e with
      | None => run_steps (st :: completed) rest
      | Some e =>
          modify (fun s => foldl (fun s st => step_Rollback st s) s completed);;
          mret (Some (step_Name st, e))
      end
  end.

(** [Run]: [normalize] and the finalizers run last, when there are any. *)
Definition Run (normalize : option (string * exec_error) -> S -> S) (finalizers : list (S -> S))
    (steps : list Step) : M S (option (string * exec_error)) :=
  e ← run_steps [] steps;
  modify (fun s => if bool_decide (length finalizers = 0%nat) then s
                   else foldl (fun s finalize => finalize s) (normalize e s) finalizers);;
  mret e.

(** A step without effects to undo. *)
Definition plain_step (name : string) (f : S -> S * option exec_error) : Step :=
  MkStep name (fun s => let '(s, e) := f s in Some (e, s)) (fun s => s).
End Run.
Arguments Step : clear implicits.

(** ** What the gates ask *)

(** [APIKeyResolver]: the subject of a token. *)
Class APIKeyResolver := ResolveSubject : string -> option Subject.
(** [Subscriptions]; [None] is a failed lookup. *)
Class Subscriptions := resolve_subscription : string -> string -> option SubscriptionDecision.
(** [AccountBalances] and [AccountBalanceResolver]; [None] is an error. *)
Record AccountBalances := MkBalances { ab_TenantMicroUSD : Z; ab_UserMicroUSD : Z; ab_UserPresent : bool }.
Class AccountBalanceResolver := ResolveBalances : string -> string -> ledger_db -> option AccountBalances.
(** [BillingSnapshotResolver] *)
Class BillingSnapshotResolver := prepare_billing : Request -> RouteCandidate -> result pricing_error (BillingSnapshot * Z).
(** [routing.StickyBinding] and the store's [GetBinding]; [None] is an error. *)
Record StickyBinding := MkSticky { sb_TargetKind : string; sb_EndpointID : string; sb_CredentialID : string; sb_RouteID : string }.
Class StickyStore := GetBinding : string -> string -> string -> string -> option (option StickyBinding).

(** [RuntimeBalanceResolver] ([src/internal/ai/adapters/postgres/balance_gate.go]), its
    query answered. *)
Definition ledger_balances (tenantID userID : string) (db : ledger_db) : option AccountBalances :=
  let refs := MkRef KindTenant tenantID tenantID :: (if str_eq userID "" then [] else [MkRef KindUser userID tenantID]) in
  let balances := Balances refs db in
  match balances !! tenantID with
  | None => None
  | Some tenant =>
      if str_eq userID "" then Some (MkBalances tenant 0 false)
      else Some (MkBalances tenant (default 0 (balances !! userID)) (bool_decide (is_Some (balances !! userID))))
  end.

(** ** The state of a run *)

Record Pipe (W : Type) := MkPipe {
  p_x : Exec;
  p_StickyHit : bool;
  p_StickyBinding : option StickyBinding;
  p_PlanningSkipped : list RejectedTarget;
  p_Lease : option concurrencyLease;
  p_RegistrationRejected : bool;
  p_CompletionFailed : bool;
  p_redis : redis;
  p_db : st_db;
  p_world : W }.
Arguments MkPipe {W}.
Arguments p_x {W}. Arguments p_StickyHit {W}. Arguments p_StickyBinding {W}. Arguments p_PlanningSkipped {W}.
Arguments p_Lease {W}. Arguments p_RegistrationRejected {W}. Arguments p_CompletionFailed {W}.
Arguments p_redis {W}. Arguments p_db {W}. Arguments p_world {W}.

(** What a run is given: the fields of the request no step writes, and what the
    clocks, the network and the queries of this run answer. *)
Record PipeInput := MkPipeInput {
  pi_route : RouteInput;
  pi_Authorization : option string;       (* the header, when there is an envelope *)
  pi_ConversationID : string;
  pi_accepting : bool;                     (* [bill_record_control.accepting] *)
  pi_now : Z;
  pi_origin : Z;                           (* [BillingOriginAt], or the start of the request *)
  pi_anonymous : string;
  pi_links : nat -> link;
  pi_released : nat -> link;
  pi_policies : option (list LimitPolicy);
  pi_now_log : Z;
  pi_now_seal : Z }.

(** The collaborators that are configured. *)
Record PipeConfig := MkPipeConfig {
  pc_Subs : bool; pc_Balance : bool; pc_Billing : bool; pc_Sticky : bool; pc_Limiter : bool;
  pc_Priced : bool; pc_DefaultInFlight : Z; pc_Exec : ExecConfig }.

Definition set_subject (sj : option Subject) (r : Request) : Request :=
  MkRequest (rq_RequestID r) (rq_CapabilityType r) (rq_ExecutionMode r) (rq_ServiceTier r) sj
    (rq_Candidate r) (rq_Attempts r) (rq_MediaUsageConfirmed r) (rq_TokenUsage r) (rq_UsageEvidence r)
    (rq_TokenCountSource r) (rq_BillingSnapshots r) (rq_BillingResult r) (rq_BillingSource r)
    (rq_SubscriptionID r) (rq_GroupMultipliers r) (rq_RequestStatus r) (rq_ProviderTerminalState r)
    (rq_ClientDeliveryState r) (rq_CancellationOrigin r) (rq_BillingReason r) (rq_ResponseSummaryState r)
    (rq_HTTPStatus r) (rq_ErrorCode r) (rq_ErrorMessage r) (rq_FailedStep r).

Section Setters.
Context {W : Type}.
Definition p_set_x (x : Exec) (s : Pipe W) : Pipe W :=
  MkPipe x (p_StickyHit s) (p_StickyBinding s) (p_PlanningSkipped s) (p_Lease s) (p_RegistrationRejected s)
    (p_CompletionFailed s) (p_redis s) (p_db s) (p_world s).
Definition p_set_world (x : Exec) (w : W) (s : Pipe W) : Pipe W :=
  MkPipe x (p_StickyHit s) (p_StickyBinding s) (p_PlanningSkipped s) (p_Lease s) (p_RegistrationRejected s)
    (p_CompletionFailed s) (p_redis s) (p_db s) w.
Definition p_set_sticky (hit : bool) (b : option StickyBinding) (s : Pipe W) : Pipe W :=
  MkPipe (p_x s) hit b (p_PlanningSkipped s) (p_Lease s) (p_RegistrationRejected s)
    (p_CompletionFailed s) (p_redis s) (p_db s) (p_world s).
Definition p_set_skipped (l : list RejectedTarget) (s : Pipe W) : Pipe W :=
  MkPipe (p_x s) (p_StickyHit s) (p_StickyBinding s) l (p_Lease s) (p_RegistrationRejected s)
    (p_CompletionFailed s) (p_redis s) (p_db s) (p_world s).
Definition p_set_lease (l : option concurrencyLease) (r : redis) (s : Pipe W) : Pipe W :=
  MkPipe (p_x s) (p_StickyHit s) (p_StickyBinding s) (p_PlanningSkipped s) l (p_RegistrationRejected s)
    (p_CompletionFailed s) r (p_db s) (p_world s).
Definition p_set_db (rejected failed : bool) (db : st_db) (s : Pipe W) : Pipe W :=
  MkPipe (p_x s) (p_StickyHit s) (p_StickyBinding s) (p_PlanningSkipped s) (p_Lease s) rejected failed
    (p_redis s) db (p_world s).
Definition p_req (s : Pipe W) : Request := x_req (p_x s).
Definition p_set_req (r : Request) (s : Pipe W) : Pipe W := p_set_x (set_req r (p_x s)) s.

(** [SetCandidate], with a new set of used candidates. *)
Definition p_set_candidates (l : list RouteCandidate) (s : Pipe W) : Pipe W :=
  let x := set_used ∅ (set_candidates l (p_x s)) in
  p_set_x (match l with
           | [] => x
           | c :: _ => set_model (rc_ModelCode c) (set_req (set_route (Some c) (rq_Attempts (x_req x)) (x_req x)) x)
           end) s.
End Setters.

(** ** The gates *)

Section Steps.
Context {W : Type} `{Ports W} {dispatch : CommercialDispatcher} {binder : RuntimeBindingResolver}.
Context {keys : APIKeyResolver} {subs : Subscriptions} {balances : AccountBalanceResolver}
  {billing : BillingSnapshotResolver} {sticky : StickyStore}.
Context (cf : PipeConfig) (inp : PipeInput).
#[local] Abbreviation Pipe := (Pipe W).
Implicit Types s : Pipe.

(** [bearerToken] *)
Definition bearerToken (header : string) : string :=
  if (String.length header <=? 7)%nat then ""
  else if str_eq (String.substring 0 7 header) "Bearer "
  then String.substring 7 (String.length header - 7) header else "".

(** [AuthNStep] *)
Definition AuthN s : Pipe * option exec_error :=
  match rq_Subject (p_req s) with
  | Some _ => (s, None)
  | None =>
      match pi_Authorization inp with
      | None => (s, Some (apiError 500 "missing_envelope" "request envelope not set"))
      | Some header =>
          let token := bearerToken header in
          if str_eq token "" then (s, Some (apiError 401 "missing_api_key" "API key required"))
          else match ResolveSubject token with
          | None => (s, Some (apiError 401 "invalid_api_key" "invalid or expired API key"))
          | Some sj => (p_set_req (set_subject (Some sj) (p_req s)) s, None)
          end
      end
  end.

(** [runtimeSubjectUsesAPIKeyQuota] *)
Definition runtimeSubjectUsesAPIKeyQuota (subject : option Subject) : bool :=
  match subject with
  | Some sj => str_eq (sj_AuthMethod sj) "api_key" && negb (str_eq (sj_APIKeyID sj) "")
  | None => false
  end.

(** [QuotaCheckStep] *)
Definition QuotaCheck s : Pipe * option exec_error :=
  match rq_Subject (p_req s) with
  | Some sj =>
      if negb (runtimeSubjectUsesAPIKeyQuota (Some sj)) then (s, None)
      else match sj_QuotaLimit sj with
      | None => (s, None)
      | Some limit =>
          if wrap64 (limit - sj_QuotaUsed sj) <=? 0
          then (s, Some (apiError 402 "quota_exceeded" "API key quota exhausted")) else (s, None)
      end
  | None => (s, None)
  end.

(** [SubscriptionGateStep]; the request of a failed lookup is pay-as-you-go. *)
Definition SubscriptionGateStep s : Pipe * option exec_error :=
  match SubscriptionGate (pc_Subs cf) resolve_subscription (p_req s) with
  | Ok r => (p_set_req r s, None)
  | Err ErrSubscriptionStateUnavailable =>
      (p_set_req (set_source BillingSourcePayg "" (rq_GroupMultipliers (p_req s)) (p_req s)) s,
       Some (apiError 503 "subscription_state_unavailable" "unable to determine subscription billing state"))
  end.

Definition insufficient (message : string) : exec_error := apiError 402 "insufficient_balance" message.
Definition balance_unknown (message : string) : exec_error := apiError 503 "balance_state_unavailable" message.

(** [BalanceGateStep] *)
Definition balance_verdict (r : Request) (db : ledger_db) : option exec_error :=
  if negb (pc_Balance cf) then Some (balance_unknown "unable to determine account balance")
  else match rq_Subject r with
  | None => None
  | Some sj =>
      if str_eq (sj_TenantID sj) "" then None
      else
        let userID := if str_eq (sj_Scope sj) ScopeUser then sj_UserID sj else ""%string in
        match ResolveBalances (sj_TenantID sj) userID db with
        | None => Some (balance_unknown "unable to determine account balance")
        | Some b =>
            if ab_TenantMicroUSD b <=? 0
            then Some (insufficient "tenant USD balance is exhausted; recharge before continuing")
            else if str_eq userID "" then None
            else if negb (ab_UserPresent b) then Some (balance_unknown "unable to determine user balance")
            else if str_eq (rq_BillingSource r) BillingSourceSubscription then
              if ab_UserMicroUSD b <? 0
              then Some (insufficient "user account has outstanding debt; recharge before continuing") else None
            else if ab_UserMicroUSD b <=? 0
            then Some (insufficient "user USD balance is exhausted; recharge before continuing") else None
        end
  end.
Definition BalanceGate s : Pipe * option exec_error := (s, balance_verdict (p_req s) (s_money (p_db s))).

(** ** Routes ([RouteCandidatesStep]) *)

Context (digest : string -> string).

Definition eligible_routes (r : Request) (l : list RouteCandidate) : list RouteCandidate :=
  imageOutputEligibleCandidates (rq_CapabilityType r) (ImageCount (rq_TokenUsage r))
    (Contains (ri_ClientPath (pi_route inp)) "/images/edits") l.

(** [unsupportedImageOutputCountError] *)
Definition unsupportedImageOutputCountError : exec_error :=
  apiError 400 "image_count_not_supported"
    "no available upstream route supports the number of output images of this request".

(** [routePlanningError], and what the step makes of any other error. *)
Definition route_failure (e : route_error) : exec_error :=
  match e with
  | ErrDispatch ErrNoAccessibleGroup => apiError 403 "no_accessible_group" "no group is accessible to this caller"
  | ErrDispatch ErrClientSurfaceNotAllowed =>
      apiError 403 "endpoint_not_allowed" "this API endpoint is not enabled for the accessible groups"
  | ErrNoDispatchOption | NoRouteError _ =>
      apiError 503 "no_available_route" "no available upstream route for this request"
  | _ => apiError 503 "no_available_route" "unable to resolve an available upstream route"
  end.

(** [runtimeSubjectStickyKey] *)
Definition runtimeSubjectStickyKey (sj : Subject) : string :=
  if negb (str_eq (sj_APIKeyID sj) "") then sj_APIKeyID sj
  else sj_RequestSource sj +:+ ":" +:+ sj_Scope sj +:+ ":" +:+ sj_TenantID sj +:+ ":" +:+ sj_UserID sj.

(** [StickyModelKey] *)
Definition StickyModelKey s : string := if_empty (ri_RequestedModel (pi_route inp)) (x_ModelCode (p_x s)).

(** [findStickyCandidate] *)
Definition sticky_matches (b : StickyBinding) (c : RouteCandidate) : bool :=
  str_eq (rc_RouteID c) (sb_RouteID b) &&
  ((str_eq (sb_TargetKind b) "endpoint" || str_eq (sb_TargetKind b) "account") && str_eq (rc_EndpointID c) (sb_EndpointID b)
   || str_eq (sb_TargetKind b) "credential" && IsPoolRoute c).
Fixpoint findStickyCandidate (l : list RouteCandidate) (b : StickyBinding) : option nat :=
  match l with
  | [] => None
  | c :: l => if sticky_matches b c then Some O else Datatypes.S <$> findStickyCandidate l b
  end.

(** The candidate found and the first one exchanged. *)
Definition promote (i : nat) (l : list RouteCandidate) : list RouteCandidate :=
  match l, l !! i with
  | first :: _, Some found => <[i := first]> (<[O := found]> l)
  | _, _ => l
  end.

Definition promote_sticky s (l : list RouteCandidate) : list RouteCandidate * Pipe :=
  match rq_Subject (p_req s) with
  | Some sj =>
      if negb (pc_Sticky cf) || str_eq (pi_ConversationID inp) "" then (l, s)
      else match GetBinding (sj_TenantID sj) (runtimeSubjectStickyKey sj) (StickyModelKey s) (pi_ConversationID inp) with
      | Some (Some b) =>
          match findStickyCandidate l b with
          | Some i => (promote i l, p_set_sticky true (Some b) s)
          | None => (l, s)
          end
      | _ => (l, s)
      end
  | None => (l, s)
  end.

(** The fields the selector reads: the model code is the request's. *)
Definition route_input s : RouteInput :=
  let i := pi_route inp in
  MkRouteInput (ri_RuntimeCapability i) (ri_ClientProtocol i) (ri_RequestedModel i) (x_ModelCode (p_x s))
    (ri_IsStream i) (ri_ClientPath i).

Definition RouteCandidates s : Pipe * option exec_error :=
  match x_Candidates (p_x s) with
  | _ :: _ as l =>
      let l := eligible_routes (p_req s) l in
      match l with
      | [] => (p_set_x (set_candidates [] (p_x s)) s, Some unsupportedImageOutputCountError)
      | c :: _ =>
          let x := set_candidates l (p_x s) in
          (p_set_x (match rq_Candidate (x_req x) with
                    | Some _ => x
                    | None => set_model (rc_ModelCode c) (set_req (set_route (Some c) (rq_Attempts (x_req x)) (x_req x)) x)
                    end) s, None)
      end
  | [] =>
      let sel := SelectCandidates digest (route_input s) (p_req s) in
      let s := p_set_skipped (sel_skipped sel) (p_set_req (sel_request sel) s) in
      match sel_result sel with
      | Err e => (s, Some (route_failure e))
      | Ok [] => (s, Some (apiError 503 "no_available_route" "no healthy upstream route available for this model"))
      | Ok l =>
          match eligible_routes (p_req s) l with
          | [] => (s, Some unsupportedImageOutputCountError)
          | l => let '(l, s) := promote_sticky s l in (p_set_candidates l s, None)
          end
      end
  end.

(** ** Prices ([BillingGuardStep]) *)

(** The loop over the candidates: the snapshots, the candidates priced, and the error
    that ends it. *)
Fixpoint price_candidates (r : Request) (l : list RouteCandidate) (snapshots : gmap string BillingSnapshot)
    : gmap string BillingSnapshot * list RouteCandidate * bool :=
  match l with
  | [] => (snapshots, [], false)
  | c :: rest =>
      match prepare_billing r c with
      | Err ErrBillingNotFound => price_candidates r rest snapshots
      | Err _ => (snapshots, [], true)
      | Ok (snapshot, _) =>
          let '(snapshots, billable, failed) := price_candidates r rest (<[Key c := snapshot]> snapshots) in
          (snapshots, c :: billable, failed)
      end
  end.

Definition snapshot_failed (message : string) : exec_error := apiError 503 "billing_snapshot_failed" message.

Definition BillingGuard s : Pipe * option exec_error :=
  if negb (pc_Billing cf) then (s, None)
  else match rq_Subject (p_req s) with
  | None => (s, None)
  | Some sj =>
      if str_eq (sj_TenantID sj) "" then (s, None)
      else match x_Candidates (p_x s) with
      | [] => (s, Some (snapshot_failed "no route candidates available for pricing"))
      | _ :: _ =>
          let '(snapshots, billable, failed) := price_candidates (p_req s) (x_Candidates (p_x s)) ∅ in
          let previous := rq_Candidate (p_req s) in
          let s := p_set_req (set_snapshots snapshots (p_req s)) s in
          if failed : bool then (s, Some (snapshot_failed "unable to resolve billing snapshot"))
          else match billable with
          | [] => (s, Some (apiError 402 "no_price_configured"
                       "complete retail and upstream account pricing is required for an available route"))
          | c :: _ =>
              let s := p_set_candidates billable s in
              (match previous with
               | Some p => if str_eq (Key p) (Key c) then s else p_set_sticky false (p_StickyBinding s) s
               | None => s
               end, None)
          end
      end
  end.

(** ** Registration, limits and execution *)

(** [RequestStore.Execute]; its heartbeat is a step of the settlement system. *)
Definition request_registration s : Pipe * option exec_error :=
  if negb (admission_healthy (pi_accepting inp) (pi_now inp) (p_db s))
  then (s, Some (apiError 503 "settlement_unavailable" "billing is temporarily unavailable"))
  else match run_tx (register (pi_now inp) (pi_origin inp) true (p_req s)) (p_db s) with
  | (db, Ok _) => (p_set_db (p_RegistrationRejected s) (p_CompletionFailed s) db s, None)
  | (db, Err _) => (p_set_db true (p_CompletionFailed s) db s,
                    Some (apiError 503 "request_registration_failed" "request storage is temporarily unavailable"))
  end.

(** [RateLimitStep] *)
Definition RateLimit s : Pipe * option exec_error :=
  if negb (pc_Limiter cf) then (s, None)
  else match RateLimiterAcquire (pc_DefaultInFlight cf) (pi_now inp) (pi_links inp) (pi_released inp) (pi_anonymous inp)
               (rq_Subject (p_req s)) (rq_RequestID (p_req s)) (pi_policies inp) (p_redis s) with
  | (Ok lease, r) => (p_set_lease lease r s, None)
  | (Err e, r) =>
      (p_set_lease (p_Lease s) r s,
       Some (match e with
             | ErrRateLimiterUnavailable => apiError 503 "rate_limiter_unavailable" "unable to verify runtime limits"
             | ErrRateLimitExceeded => apiError 429 "rate_limit_exceeded" "request rate limit exceeded"
             end))
  end.

(** [releaseRateLimitLease]: the rollback of the step, and a finalizer. *)
Definition releaseRateLimitLease s : Pipe :=
  match p_Lease s with
  | None => s
  | Some lease => p_set_lease None (LeaseRelease (pi_released inp) lease (p_redis s)) s
  end.

(** What the execute step reads of the request. *)
Definition exec_input s : ExecInput :=
  MkInput (ri_IsStream (pi_route inp)) (ri_ClientProtocol (pi_route inp)) (StickyModelKey s) (p_StickyHit s)
    ((fun b => (sb_RouteID b, sb_TargetKind b, sb_CredentialID b)) <$> p_StickyBinding s) (pi_ConversationID inp).

Definition execute_step (fuel : nat) : M Pipe (option exec_error) := fun s =>
  match Execute (pc_Exec cf) (exec_input s) fuel (p_x s, p_world s) with
  | Some (e, (x, w)) => Some (e, p_set_world x w s)
  | None => None
  end.

(** ** The end of a run *)

(** [normalizePipelineError] *)
Definition normalizePipelineError (e : option (string * exec_error)) s : Pipe :=
  let r := p_req s in
  p_set_req
    (match e with
     | None => set_execution (if_empty (rq_RequestStatus r) RequestSuccess) (rq_HTTPStatus r) (rq_ErrorCode r)
                 (rq_ErrorMessage r) (rq_FailedStep r) (rq_BillingReason r) r
     | Some (name, cause) =>
         let '(status, code) := match cause with ApiErr a => (ae_Status a, ae_Code a) | OtherErr _ => (500, "internal_error"%string) end in
         set_execution (if_empty (rq_RequestStatus r) RequestFailed)
           (if rq_HTTPStatus r =? 0 then status else rq_HTTPStatus r) (if_empty (rq_ErrorCode r) code)
           (rq_ErrorMessage r) (if_empty (rq_FailedStep r) name) (rq_BillingReason r) r
     end) s.

(** [UsageLogFinalizer] over the request store *)
Definition usage_completion s : Pipe :=
  let '(db, res) := Log (pi_now_log inp) (pi_now_seal inp) (pi_origin inp) (pc_Priced cf) (p_RegistrationRejected s)
                      (p_req s) (p_db s) in
  p_set_db (p_RegistrationRejected s) (match res with Ok _ => false | Err _ => true end) db s.

(** ** The pipeline *)

Definition gates : list (Step Pipe) :=
  [plain_step "quota_check" QuotaCheck; plain_step "subscription_gate" SubscriptionGateStep;
   plain_step "balance_gate" BalanceGate; plain_step "route_candidates" RouteCandidates;
   plain_step "billing_guard" BillingGuard].

(** The steps before execution, and all of them. *)
Definition checks : list (Step Pipe) :=
  plain_step "authn" AuthN :: gates ++
  [plain_step "request_registration" request_registration;
   MkStep "rate_limit" (step_Execute (plain_step "rate_limit" RateLimit)) releaseRateLimitLease].
Definition pipeline_steps (fuel : nat) : list (Step Pipe) :=
  checks ++ [MkStep "execute" (execute_step fuel) (fun s => s)].

Definition serve (fuel : nat) : M Pipe (option (string * exec_error)) :=
  Run normalizePipelineError [usage_completion; releaseRateLimitLease] (pipeline_steps fuel).
End Steps.

(** ** Queued tasks ([AdmissionGate.Admit]) *)

(** [AdmissionInput] *)
Record AdmissionInput := MkAdmission {
  ai_Subject : Subject; ai_ModelCode : string; ai_RequestedModel : string; ai_RuntimeCapability : string;
  ai_CapabilityType : string; ai_ClientProtocol : string }.

(** The request it makes up. *)
Definition admission_request (a : AdmissionInput) : Request :=
  MkRequest "" (ai_CapabilityType a) ExecutionModeAsync "" (Some (ai_Subject a)) None 0 false no_usage no_evidence ""
    ∅ no_billing "" "" ∅ "" "" "" "" "" "" 0 "" "" "".
Definition new_exec (r : Request) (model : string) : Exec :=
  MkExec r [] ∅ ∅ ∅ None None neutral_outcome 0 false [] [] "" model false.
Definition admission_input (a : AdmissionInput) (inp : PipeInput) : PipeInput :=
  MkPipeInput (MkRouteInput (ai_RuntimeCapability a) (ai_ClientProtocol a) (ai_RequestedModel a) (ai_ModelCode a) false "")
    None "" (pi_accepting inp) (pi_now inp) (pi_origin inp) (pi_anonymous inp) (pi_links inp) (pi_released inp)
    (pi_policies inp) (pi_now_log inp) (pi_now_seal inp).

Section Admission.
Context {W : Type} {dispatch : CommercialDispatcher} {binder : RuntimeBindingResolver}.
Context {subs : Subscriptions} {balances : AccountBalanceResolver}
  {billing : BillingSnapshotResolver} {sticky : StickyStore}.
Context (cf : PipeConfig) (inp : PipeInput) (digest : string -> string).

(** [Admit]: the gates in turn, on a request of their own. *)
Fixpoint run_gates (gates : list (Step (Pipe W))) (s : Pipe W) : option exec_error :=
  match gates with
  | [] => None
  | g :: gates =>
      match step_Execute g s with
      | Some (None, s) => run_gates gates s
      | Some (Some e, _) => Some e
      | None => None
      end
  end.
Definition Admit (a : AdmissionInput) (s : Pipe W) : option exec_error :=
  run_gates (gates cf (admission_input a inp) digest)
    (MkPipe (new_exec (admission_request a) (ai_ModelCode a)) false None [] None false false (p_redis s) (p_db s) (p_world s)).
End Admission.
