(* ===== verification/RouteFacts.v ===== *)
(** * Facts about binding, planning and selecting

    What a binding of [Binder] is; and planning and selecting against the interfaces:
    [DispatcherLaws] and [BinderLaws] state what planning relies on, and [RoutePlanProps]
    has their instances for [Dispatch] and [Binder]. *)

From Stdlib Require Import QArith Sorted.
From stdpp Require Import sorting.
From S2P Require Import Prelude GoStrings Availability Classify Decimal PriceTiers UsageEvidence Request.
From S2P Require Import CommercialDB Surfaces Commercial CommercialFacts Dispatch DispatchProps Upstream.
From S2P Require Import Binder Candidates RouteSelector.
#[global] Open Scope Z_scope.

(** ** Bindings *)

(** *** Surfaces and formats *)

Lemma format_inj a b f : formatIDForSurface a = Some f -> formatIDForSurface b = Some f -> a = b.
Proof.
  unfold formatIDForSurface. intros Ha Hb. repeat str_case; simplify_eq; done.
Qed.
Lemma textSurfacePreference_zero c p x : textSurfacePreference c p = Some (0, x) -> c = p.
Proof.
  unfold textSurfacePreference. destruct (formatIDForSurface c) as [fc|] eqn:Hc; [|done].
  destruct (formatIDForSurface p) as [fp|] eqn:Hp; [|done]. unfold CandidatePreference.
  destruct (_ || _); [done|]. destruct (formatFamilyKind fc) as [cf ck], (formatFamilyKind fp) as [pf pk].
  destruct (str_eq fc fp) eqn:He; [|repeat (destruct (str_eq _ _)); done].
  intros _. apply str_eq_true in He. subst. by eapply format_inj.
Qed.
Lemma pairPreference_zero c p l x : pairPreference c p l = Some (0, x) -> c = p.
Proof. unfold pairPreference. destruct (str_eq c p) eqn:He; [by intros _; apply str_eq_true | by destruct (index_of _ _)]. Qed.
Lemma Preference_zero r capability c p stream x : runtime_Preference r capability c p stream = Some (0, x) -> c = p.
Proof.
  unfold runtime_Preference, runtime_NeedsBridge. destruct (str_eq c p) eqn:He; [by intros _; apply str_eq_true|]. simpl.
  intros H. repeat case_match; try done; by eauto using textSurfacePreference_zero, pairPreference_zero.
Qed.

Lemma SurfaceToProtocol_image s capability p q :
  SurfaceToProtocolForCapability s capability = Some p -> ProtocolToSurfaceForCapability p capability = Some q ->
  q = s \/ (s = GeminiText /\ q = GeminiImages /\ image_capability capability = true).
Proof.
  unfold SurfaceToProtocolForCapability, SurfaceToProtocol, ProtocolToSurfaceForCapability, ProtocolToSurface. intros Hp Hq.
  destruct (str_eq s GeminiImages) eqn:Hi; [apply str_eq_true in Hi; subst|].
  - destruct (image_capability capability); [|done]. simplify_eq. left. vm_compute in Hq. by simplify_eq.
  - repeat str_case; simplify_eq; try (by left).
    destruct (image_capability capability); vm_compute in Hq; simplify_eq; [by right | by left].
Qed.
Lemma no_text_image_bridge stream capability :
  image_capability capability = true -> runtime_Preference NewRuntime capability GeminiText GeminiImages stream = None.
Proof. intros H. unfold runtime_Preference, bridgeKindForCapability. rewrite H. vm_compute. done. Qed.

(** *** Choosing *)

Lemma choose_in capType cp supported allow stream p b :
  chooseProviderProtocolWithSupport (support := runtime_support) capType cp supported allow stream = Some (p, b) ->
  p ∈ supported /\
  ((p = cp /\ b = 0) \/
   (cp ∉ supported /\ allow = true /\ exists client x,
      ProtocolToSurfaceForCapability cp (CapabilityToCore capType) = Some client /\
      protocol_preference (support := runtime_support) (CapabilityToCore capType) client stream p = Some x /\ b = x.1 /\
      forall q y, q ∈ supported ->
        protocol_preference (support := runtime_support) (CapabilityToCore capType) client stream q = Some y -> better y x = false)).
Proof.
  unfold chooseProviderProtocolWithSupport. case_bool_decide as Hin; [intros [= -> ->]; split; [done|]; by left|].
  destruct allow; [|done]. simpl. destruct (ProtocolToSurfaceForCapability cp _) as [client|]; [|done].
  destruct (choose_best _ _ _ _) as [p' b'] eqn:Hc. destruct (str_eq p' "") eqn:He; [done|]. intros [= -> ->].
  apply choose_best_spec in Hc as [(-> & _) | (x & Hx & Hp & -> & _ & Hall)]; [by rewrite str_eq_refl in He|].
  split; [done|]. right. split_and!; [done..|]. by exists client, x.
Qed.

Lemma protocol_surface_inj p q capability s :
  ProtocolToSurfaceForCapability p capability = Some s -> ProtocolToSurfaceForCapability q capability = Some s -> p = q.
Proof. intros Hp%surface_roundtrip Hq%surface_roundtrip. congruence. Qed.

Lemma protocol_preference_zero capability cp client stream p x :
  ProtocolToSurfaceForCapability cp capability = Some client ->
  protocol_preference (support := runtime_support) capability client stream p = Some (0, x) -> p = cp.
Proof.
  unfold protocol_preference. intros Hc Hp. destruct (ProtocolToSurfaceForCapability p capability) as [s|] eqn:Hs; [|done].
  apply Preference_zero in Hp as ->. by eapply protocol_surface_inj.
Qed.

Lemma choose_zero capType cp supported allow stream p :
  chooseProviderProtocolWithSupport (support := runtime_support) capType cp supported allow stream = Some (p, 0) -> p = cp.
Proof.
  intros [_ [[-> _] | (_ & _ & client & [x1 x2] & Hc & Hp & Hx & _)]]%choose_in; [done|].
  simpl in Hx. subst x1. by eapply protocol_preference_zero.
Qed.
Lemma choose_client capType cp supported allow stream b :
  chooseProviderProtocolWithSupport (support := runtime_support) capType cp supported allow stream = Some (cp, b) -> b = 0.
Proof. by intros [Hin [[_ ->] | (Hno & _)]]%choose_in. Qed.

(** *** The surface of a binding *)

Section Bound.
Context {secrets : Secrets} (d : udb).

(** How the binding speaks to the upstream: in the client's own surface, in the first
    bucket, or in one the bridge converts from and to it, if that is allowed. *)
Definition speaks (q : BindingRequest) (surface : string) (bucket : Z) : Prop :=
  (surface = bq_ClientSurface q <-> bucket = 0) /\
  (surface <> bq_ClientSurface q ->
     bq_AllowProtocolConversion q = true /\ converts NewRuntime (bq_Capability q) (bq_ClientSurface q) surface (bq_Stream q)).

Lemma bridged_speaks q cp supported protocol bucket surface :
  SurfaceToProtocolForCapability (bq_ClientSurface q) (bq_Capability q) = Some cp ->
  chooseProviderProtocolWithSupport (support := runtime_support) (CapabilityFromCore (bq_Capability q)) cp supported
    (bq_AllowProtocolConversion q) (bq_Stream q) = Some (protocol, bucket) ->
  bridged_surface (support := runtime_support) q protocol = inr surface ->
  speaks q surface bucket.
Proof.
  intros Hcp Hch Hs. unfold bridged_surface in Hs.
  destruct (ProtocolToSurfaceForCapability protocol (bq_Capability q)) as [s|] eqn:Hps; [|done].
  destruct (_ && _) eqn:Hb; [done|]. simplify_eq.
  assert (Hconv : surface <> bq_ClientSurface q -> exists x,
    runtime_Preference NewRuntime (bq_Capability q) (bq_ClientSurface q) surface (bq_Stream q) = Some x).
  { intros Hne. unfold bridgeSurfaceSupportedForCapability in Hb. cbn [NeedsBridge PreferenceForCapability runtime_support] in Hb.
    unfold runtime_NeedsBridge in Hb. destruct (str_eq (bq_ClientSurface q) surface) eqn:He; [apply str_eq_true in He; congruence|].
    simpl in Hb. apply negb_false_iff, bool_decide_eq_true in Hb as [x Hx]. by exists x. }
  assert (Hclient : protocol = cp -> surface = bq_ClientSurface q).
  { intros ->. destruct (SurfaceToProtocol_image _ _ _ _ Hcp Hps) as [?|(Hc & Hg & Hi)]; [done|]. exfalso.
    destruct Hconv as [x Hx]; [rewrite Hc, Hg; done|]. rewrite Hc, Hg in Hx. by rewrite no_text_image_bridge in Hx. }
  split; [split|].
  - intros ->. assert (protocol = cp) as -> by (apply surface_roundtrip in Hps; congruence). by eapply choose_client.
  - intros ->. apply Hclient. by eapply choose_zero.
  - intros Hne. split.
    + apply choose_in in Hch as [_ [[-> _] | (_ & Ha & _)]]; [by destruct Hne; apply Hclient | done].
    + destruct (Hconv Hne) as [x Hx]. eapply Preference_converts; [exact Hx | congruence].
Qed.

Definition kind_of (q : BindingRequest) : string :=
  if str_eq (bq_TargetMode q) AccessModeDirect then KindDirectUpstream else KindOAuthPool.
(** The account or pool behind a target, with its price book and own multiplier. *)
Definition resource_prices (kind id book : string) (own : option float64) : Prop :=
  (kind = KindDirectUpstream /\ exists a, a ∈ u_accounts d /\ ua_ID a = id /\ book = ua_PriceBookID a /\ own = ua_TenantMultiplier a) \/
  (kind = KindOAuthPool /\ exists p, p ∈ u_pools d /\ cp_ID p = id /\ book = cp_PriceBookID p /\ own = cp_TenantMultiplier p).

(** What every binding of a request is. *)
Record bound (q : BindingRequest) (b : RuntimeBinding) : Prop := MkBound {
  bd_target : us_ID (rb_Upstream b) = bq_TargetID q /\ us_Status (rb_Upstream b) = "active"%string;
  bd_model : exists m, m ∈ u_models d /\ um_Kind m = kind_of q /\
    um_UpstreamID m = bq_TargetID q /\ um_ModelCode m = TrimSpace (bq_ResolvedModelID q) /\
    um_CapabilityType m = CapabilityFromCore (bq_Capability q) /\ um_Status m = "active"%string /\
    mb_UpstreamModelName (rb_ModelBinding b) = model_name m q /\ mb_Config (rb_ModelBinding b) = um_Config m;
  bd_names : mb_ModelID (rb_ModelBinding b) = bq_ResolvedModelID q /\ mb_UpstreamID (rb_ModelBinding b) = bq_TargetID q /\
    mb_UpstreamKind (rb_ModelBinding b) = bq_TargetMode q;
  bd_speaks : speaks q (mb_RequestSurface (rb_ModelBinding b)) (rb_ConversionBucket b);
  bd_protocol : exists p, ProtocolToSurfaceForCapability p (bq_Capability q) = Some (mb_RequestSurface (rb_ModelBinding b)) /\
    (bq_TargetMode q = AccessModeDirect -> exists e, e ∈ u_endpoints d /\ ep_ID e = rb_EndpointID b /\
       ep_AccountID e = bq_TargetID q /\ ep_Status e = "active"%string /\ ep_APIFormat e = p);
  bd_price : exists own, resource_prices (kind_of q) (bq_TargetID q) (rb_CostPriceBookID b) own /\
    rb_TenantMultiplier b = resolveTenantMultiplier d (bq_TenantID q) (kind_of q) (bq_TargetID q) (default (Finite 1) own) }.

Lemma loadUpstreamModelBinding_Some kind id model capability m :
  loadUpstreamModelBinding d kind id model capability = Some m ->
  m ∈ u_models d /\ um_Kind m = kind /\ um_UpstreamID m = id /\ um_ModelCode m = TrimSpace model /\
  um_CapabilityType m = capability /\ um_Status m = "active"%string.
Proof.
  intros [Hm Hp]%List.find_some. rewrite !andb_true_iff, !str_eq_true in Hp.
  split; [by apply list_elem_of_In|]. tauto.
Qed.

Lemma bridged_surface_known q protocol surface :
  bridged_surface (support := runtime_support) q protocol = inr surface ->
  ProtocolToSurfaceForCapability protocol (bq_Capability q) = Some surface.
Proof.
  unfold bridged_surface. destruct (ProtocolToSurfaceForCapability _ _); [|done]. destruct (_ && _); [done|]. by intros [= ->].
Qed.

Lemma loadActiveDirectEndpoints_elem id e :
  e ∈ loadActiveDirectEndpoints d id <-> e ∈ u_endpoints d /\ ep_AccountID e = id /\ ep_Status e = "active"%string.
Proof.
  unfold loadActiveDirectEndpoints. rewrite elem_of_order_by, elem_of_filter_rows, andb_true_iff, !str_eq_true. tauto.
Qed.

Lemma bindDirectUpstream_bound q b :
  bq_TargetMode q = AccessModeDirect -> bindDirectUpstream (support := runtime_support) d q = inr b -> bound q b.
Proof.
  intros Hmode H. unfold bindDirectUpstream in H.
  destruct (List.find _ (u_accounts d)) as [row|] eqn:Hrow; [|done]. apply List.find_some in Hrow as [Hrow Hid%str_eq_true].
  apply list_elem_of_In in Hrow. destruct (str_eq (ua_Status row) "active") eqn:Hst; [|done]. apply str_eq_true in Hst. cbn [negb] in H.
  destruct (SurfaceToProtocolForCapability _ _) as [cp|] eqn:Hcp; [|done]. cbv zeta in H.
  destruct (loadUpstreamModelBinding _ _ _ _ _) as [m|] eqn:Hm; [|done].
  set (endpoints := if str_eq (bq_EndpointID q) "" then _ else _) in *.
  assert (Hep : forall e, e ∈ endpoints -> e ∈ u_endpoints d /\ ep_AccountID e = ua_ID row /\ ep_Status e = "active"%string).
  { intros e He. unfold endpoints in He. destruct (str_eq (bq_EndpointID q) ""); [|apply elem_of_filter_rows in He as [_ He]];
      by apply loadActiveDirectEndpoints_elem. }
  destruct (chooseProviderProtocolWithSupport _ _ _ _ _) as [[protocol bucket]|] eqn:Hch; [|done].
  destruct (findDirectEndpoint _ _) as [e|] eqn:He; [|done]. apply List.find_some in He as [He Hfmt%str_eq_true].
  apply list_elem_of_In, Hep in He. destruct (decryptStoredEndpointHeaderMap _) as [headers|]; [|done].
  destruct (bridged_surface _ _) as [|surface] eqn:Hs; [done|]. destruct (if str_eq (ua_ApiKeyCiphertext row) "" then _ else _) as [key|]; [|done].
  injection H as <-. apply loadUpstreamModelBinding_Some in Hm as (Hm & Hk & Hu & Hc & Hcap & Hms).
  assert (Hkind : kind_of q = KindDirectUpstream) by (unfold kind_of; rewrite Hmode; done).
  pose proof (bridged_speaks _ _ _ _ _ _ Hcp Hch Hs) as Hspeaks. apply bridged_surface_known in Hs.
  destruct He as (He1 & He2 & He3).
  constructor; cbn [rb_Upstream rb_ModelBinding rb_EndpointID rb_ConversionBucket rb_CostPriceBookID rb_TenantMultiplier
    us_ID us_Status mb_UpstreamKind mb_UpstreamID mb_ModelID mb_RequestSurface mb_UpstreamModelName mb_Config].
  - done.
  - exists m. rewrite Hkind. split_and!; congruence.
  - by split_and!.
  - exact Hspeaks.
  - exists protocol. split; [done|]. intros _. exists e. split_and!; congruence.
  - exists (ua_TenantMultiplier row). rewrite Hkind. split; [left; split; [done | exists row; by split_and!] | by rewrite Hid].
Qed.

Lemma bindOAuthPool_bound q b :
  bq_TargetMode q = AccessModeOAuthPool -> bindOAuthPool (support := runtime_support) d q = inr b -> bound q b.
Proof.
  intros Hmode H. unfold bindOAuthPool in H.
  destruct (List.find _ (u_pools d)) as [row|] eqn:Hrow; [|done]. apply List.find_some in Hrow as [Hrow Hid%str_eq_true].
  apply list_elem_of_In in Hrow. destruct (str_eq (cp_Status row) "active") eqn:Hst; [|done]. apply str_eq_true in Hst. cbn [negb] in H.
  destruct (SurfaceToProtocolForCapability _ _) as [cp|] eqn:Hcp; [|done]. cbv zeta in H.
  destruct (loadUpstreamModelBinding _ _ _ _ _) as [m|] eqn:Hm; [|done].
  destruct (chooseProviderProtocolWithSupport _ _ _ _ _) as [[protocol bucket]|] eqn:Hch; [|done].
  destruct (bridged_surface _ _) as [|surface] eqn:Hs; [done|].
  injection H as <-. apply loadUpstreamModelBinding_Some in Hm as (Hm & Hk & Hu & Hc & Hcap & Hms).
  assert (Hkind : kind_of q = KindOAuthPool) by (unfold kind_of; rewrite Hmode; done).
  pose proof (bridged_speaks _ _ _ _ _ _ Hcp Hch Hs) as Hspeaks. apply bridged_surface_known in Hs.
  constructor; cbn [rb_Upstream rb_ModelBinding rb_EndpointID rb_ConversionBucket rb_CostPriceBookID rb_TenantMultiplier
    us_ID us_Status mb_UpstreamKind mb_UpstreamID mb_ModelID mb_RequestSurface mb_UpstreamModelName mb_Config].
  - done.
  - exists m. rewrite Hkind. split_and!; congruence.
  - by split_and!.
  - exact Hspeaks.
  - exists protocol. split; [done|]. intros Hd. by rewrite Hmode in Hd.
  - exists (cp_TenantMultiplier row). rewrite Hkind. split; [right; split; [done | exists row; by split_and!] | by rewrite Hid].
Qed.
Lemma bound_endpoint id q b : bound (with_endpoint id q) b -> bound q b.
Proof. by intros [? ? ? ? ? ?]; constructor. Qed.

Lemma bind_endpoints_bound q endpoints found rejected l r :
  bq_TargetMode q = AccessModeDirect -> Forall (bound q) found ->
  bind_endpoints (support := runtime_support) d q endpoints found rejected = inr (l, r) -> Forall (bound q) l.
Proof.
  intros Hmode. revert found rejected. induction endpoints as [|e rest IH]; intros found rejected Hf H; cbn [bind_endpoints] in H.
  { by simplify_eq. }
  destruct (bindDirectUpstream _ _) as [[code|]|b] eqn:Hb; [by eapply IH | done |].
  eapply IH; [|exact H]. apply Forall_app. split; [done|]. apply Forall_singleton.
  eapply bound_endpoint, bindDirectUpstream_bound; [exact Hmode | exact Hb].
Qed.

Definition bucket_leb (a b : RuntimeBinding) : bool := rb_ConversionBucket a <=? rb_ConversionBucket b.

(** The alternatives are bindings of the same target, the one that converts least
    first. *)
Lemma binder_bound q b alts :
  binder_ResolveRuntimeBinding (support := runtime_support) d q = inr (b, alts) ->
  Forall (bound q) (b :: alts) /\ StronglySorted (fun x y => bucket_leb x y = true) (b :: alts).
Proof.
  unfold binder_ResolveRuntimeBinding. cbv zeta. intros H.
  assert (Hone : forall x, bound q x -> Forall (bound q) [x] /\ StronglySorted (fun x y => bucket_leb x y = true) [x])
    by (intros x Hx; split; [by apply Forall_singleton | repeat constructor]).
  assert (Hdirect : bq_TargetMode q = AccessModeDirect ->
    match bindDirectUpstream (support := runtime_support) d q with inl e => inl e | inr b => inr (b, []) end = inr (b, alts) ->
    Forall (bound q) (b :: alts) /\ StronglySorted (fun x y => bucket_leb x y = true) (b :: alts)).
  { intros Hm Hx. destruct (bindDirectUpstream _ _) as [|x] eqn:Hb; [done|]. injection Hx as <- <-.
    by apply Hone, bindDirectUpstream_bound. }
  destruct (str_eq (bq_TargetMode q) AccessModeDirect) eqn:Hm; [apply str_eq_true in Hm|].
  - destruct (negb _); [by apply Hdirect|].
    destruct (bind_endpoints _ _ _ _ _) as [|[l rejected]] eqn:Hl; [done|]. apply bind_endpoints_bound in Hl; [|done|constructor].
    pose proof (order_by_sorted bucket_leb) as Hs. pose proof (order_by_Permutation bucket_leb l) as Hp.
    change (fun a b => rb_ConversionBucket a <=? rb_ConversionBucket b) with bucket_leb in H.
    destruct (order_by bucket_leb l) as [|first others] eqn:Ho.
    + destruct rejected; [done | by apply Hdirect].
    + injection H as <- <-. split; [by rewrite Hp|]. rewrite <- Ho. apply Hs.
      * unfold bucket_leb. intros x y. rewrite Z.leb_gt, Z.leb_le. lia.
      * unfold bucket_leb. intros x y z. rewrite !Z.leb_le. lia.
  - destruct (str_eq (bq_TargetMode q) AccessModeOAuthPool) eqn:Ho; [|done]. apply str_eq_true in Ho.
    destruct (bindOAuthPool _ _) as [|x] eqn:Hb; [done|]. injection H as <- <-. by apply Hone, bindOAuthPool_bound.
Qed.

(** A target the tenant may use: an active resource that is public or granted to it. *)
Definition usable (tenant kind id : string) : Prop :=
  exists r, r ∈ resources d /\ rr_Kind r = kind /\ rr_ID r = id /\ rr_Status r = StatusActive /\
    (rr_AccessMode r = ModePublic \/
     exists p, p ∈ u_policies d /\ tp_Kind p = kind /\ tp_ID p = id /\ tp_TenantID p = tenant /\ tp_AccessGranted p = true).

Lemma granted_true kind id tenant :
  granted d kind id tenant = true <->
  exists p, p ∈ u_policies d /\ tp_Kind p = kind /\ tp_ID p = id /\ tp_TenantID p = tenant /\ tp_AccessGranted p = true.
Proof.
  unfold granted. rewrite existsb_exists. split.
  - intros (p & Hp & H). rewrite !andb_true_iff, !str_eq_true in H. exists p. split; [by apply list_elem_of_In | tauto].
  - intros (p & Hp & H). exists p. rewrite !andb_true_iff, !str_eq_true. split; [by apply list_elem_of_In | tauto].
Qed.
Lemma repo_CanAccess_usable tenant kind id : repo_CanAccess tenant kind id d = true -> usable tenant kind id.
Proof.
  unfold repo_CanAccess. destruct (List.find _ _) as [r|] eqn:Hr; [|done]. apply List.find_some in Hr as [Hr Hp].
  unfold resource_at in Hp. rewrite !andb_true_iff, !str_eq_true in Hp. rewrite orb_true_iff, str_eq_true, granted_true.
  intros H. exists r. split; [by apply list_elem_of_In | tauto].
Qed.
Lemma authorized_usable q :
  AuthorizeRuntimeBinding d q = None ->
  usable (TrimSpace (bq_TenantID q)) (if str_eq (bq_TargetMode q) AccessModeOAuthPool then KindOAuthPool else KindDirectUpstream) (bq_TargetID q).
Proof.
  unfold AuthorizeRuntimeBinding, CanAccess. cbv zeta. destruct (str_eq (TrimSpace _) ""); [done|].
  destruct (validateRef _ _); [done|]. destruct (repo_CanAccess _ _ _ _) eqn:H; [|done]. intros _. by apply repo_CanAccess_usable.
Qed.
End Bound.

(** ** Planning and selecting *)

(** Dispatch gives each option's targets in the order of their priorities. *)
Class DispatcherLaws (dispatch : CommercialDispatcher) : Prop :=
  dispatcher_order : forall s cs model opts o, dispatcher s cs model = Ok opts -> o ∈ opts -> in_order target_less (re_Targets o).
(** A binding is of the mode asked for, and its surface is one a candidate can have. *)
Class BinderLaws (binder : RuntimeBindingResolver) : Prop := {
  binder_mode : forall q b alternatives c, resolver q = inr (b, alternatives) -> c ∈ b :: alternatives ->
    mb_UpstreamKind (rb_ModelBinding c) = bq_TargetMode q;
  binder_surface : forall q b alternatives c, resolver q = inr (b, alternatives) -> c ∈ b :: alternatives ->
    is_Some (SurfaceToProtocolForCapability (mb_RequestSurface (rb_ModelBinding c)) (bq_Capability q));
  binder_buckets : forall q b alternatives, resolver q = inr (b, alternatives) ->
    StronglySorted (fun x y => rb_ConversionBucket x <= rb_ConversionBucket y) (b :: alternatives) }.

Section Facts.
Context {dispatch : CommercialDispatcher} {binder : RuntimeBindingResolver}.

(** The subject dispatch is asked for. *)
Definition planning_subject (s : Subject) (req : PlanRequest) : Subject :=
  if str_eq (TrimSpace (pr_ForcedGroupID req)) "" then s else set_forced (TrimSpace (pr_ForcedGroupID req)) s.
Definition planning_model (req : PlanRequest) : string :=
  if str_eq (TrimSpace (pr_RequestedModel req)) "" then TrimSpace (pr_ResolvedModelID req) else TrimSpace (pr_RequestedModel req).

Lemma Plan_Ok s req options :
  Plan s req = Ok options ->
  dispatcher (planning_subject s req) (pr_ClientSurface req) (planning_model req) = Ok options /\ options <> [].
Proof.
  unfold Plan, planning_subject, planning_model. cbv zeta. intros H.
  destruct (str_eq (if str_eq _ "" then _ else _) ""); [done|]. destruct (IsKnown _); [|done]. simpl in H.
  destruct (dispatcher _ _ _) as [[|o l]|]; [done| |done]. by injection H as <-.
Qed.

Lemma ranked_spec allowed options k o r :
  (k, o) ∈ ranked r allowed options <->
  exists i, options !! i = Some o /\ k = r + Z.of_nat i /\ (allowed = [] \/ gr_ID (ag_Group (re_Group o)) ∈ allowed).
Proof.
  revert r. induction options as [|x rest IH]; intros r; cbn [ranked].
  { split; [by intros ?%elem_of_nil | by intros (i & H & _)]. }
  assert (Hrest : (k, o) ∈ ranked (r + 1) allowed rest <->
    exists i, rest !! i = Some o /\ k = r + Z.of_nat (S i) /\ (allowed = [] \/ gr_ID (ag_Group (re_Group o)) ∈ allowed)).
  { rewrite IH. split; intros (i & H & -> & Ha); exists i; (split; [done|]; split; [lia | done]). }
  destruct (bool_decide (allowed = []) || str_in _ allowed) eqn:Hk.
  - apply orb_true_iff in Hk as [Hk|Hk]; apply bool_decide_eq_true in Hk; rewrite elem_of_cons, Hrest.
    all: split; [intros [[= -> ->]|(i & H & -> & Ha)]; [exists 0%nat; split; [done|]; split; [lia | tauto] | by exists (S i)]|].
    all: intros ([|i] & H & -> & Ha); [left; simpl in H; simplify_eq; f_equal; lia | right; by exists i].
  - apply orb_false_iff in Hk as [Hk1%bool_decide_eq_false Hk2%bool_decide_eq_false]. rewrite Hrest. split.
    + intros (i & H). by exists (S i).
    + intros ([|i] & H & Hr & Ha); [simpl in H; simplify_eq; by destruct Ha | by exists i].
Qed.
Lemma ranked_sorted allowed options r :
  StronglySorted (fun a b => a.1 < b.1) (ranked r allowed options).
Proof.
  revert r. induction options as [|x rest IH]; intros r; cbn [ranked]; [constructor|].
  destruct (_ || _); [|apply IH]. constructor; [apply IH|]. apply Forall_forall. intros [k o] (i & _ & -> & _)%ranked_spec. simpl. lia.
Qed.

(** Where a planned target comes from. *)
Record comes_from (s : Subject) (req : PlanRequest) (options : list DispatchResolution) (p : PlannedTarget)
    (i : nat) (o : DispatchResolution) (t : GroupTarget) (q : BindingRequest) : Prop := MkComesFrom {
  cf_option : options !! i = Some o;
  cf_allowed : stringSet (pr_AllowedGroupIDs req) = [] \/ gr_ID (ag_Group (re_Group o)) ∈ stringSet (pr_AllowedGroupIDs req);
  cf_target : t ∈ re_Targets o;
  cf_request : buildRuntimeBindingRequest (sj_TenantID s) req o t = Some q;
  cf_binding : exists b alternatives, resolver q = inr (b, alternatives) /\ pt_Binding p ∈ b :: alternatives;
  cf_planned : p = planned (MkPending (Z.of_nat i) o t q) (pt_Binding p) }.

Lemma option_pending_spec tenant req k o p :
  p ∈ option_pending tenant req (k, o) <->
  exists t q, t ∈ re_Targets o /\ buildRuntimeBindingRequest tenant req o t = Some q /\ p = MkPending k o t q.
Proof.
  unfold option_pending. rewrite list_elem_of_omap. cbn [fst snd]. split.
  - intros (t & Ht & H). destruct (buildRuntimeBindingRequest _ _ _ _) as [q|] eqn:Hq; [|done]. injection H as <-. by exists t, q.
  - intros (t & q & Ht & Hq & ->). exists t. by rewrite Hq.
Qed.
Lemma pending_candidates_spec p x :
  x ∈ pending_candidates p <-> exists b alternatives c, resolver (pb_req p) = inr (b, alternatives) /\ c ∈ b :: alternatives /\ x = planned p c.
Proof.
  unfold pending_candidates. destruct (resolver (pb_req p)) as [e|[b alternatives]].
  - split; [by intros ?%elem_of_nil | by intros (? & ? & ? & ? & _)].
  - rewrite list_elem_of_fmap. split; [intros (c & -> & Hc); by exists b, alternatives, c | intros (? & ? & c & [= <- <-] & Hc & ->); by exists c].
Qed.

Lemma inspect_Ok s req plan failed :
  inspect s req = Ok (plan, failed) ->
  exists options, Plan s req = Ok options /\
    let kept := ranked 0 (stringSet (pr_AllowedGroupIDs req)) options in
    let pending := mjoin (option_pending (sj_TenantID s) req <$> kept) in
    rp_Candidates plan = mjoin (pending_candidates <$> pending) /\ failed = existsb pending_failed pending.
Proof.
  unfold inspect. destruct (Plan s req) as [options|]; [|done]. cbv zeta. destruct (_ && _); [done|].
  intros [= <- <-]. by exists options.
Qed.
Lemma elem_of_mjoin_fmap {A B} (f : A -> list B) (l : list A) x : x ∈ mjoin (f <$> l) <-> exists a, a ∈ l /\ x ∈ f a.
Proof.
  rewrite list_elem_of_join. split.
  - intros (y & Hx & (a & -> & Ha)%list_elem_of_fmap). by exists a.
  - intros (a & Ha & Hx). exists (f a). split; [done|]. by apply list_elem_of_fmap_2.
Qed.
Lemma inspect_candidate s req plan failed p :
  inspect s req = Ok (plan, failed) -> p ∈ rp_Candidates plan ->
  exists options i o t q, Plan s req = Ok options /\ comes_from s req options p i o t q.
Proof.
  intros (options & Hplan & Hc & _)%inspect_Ok Hp. cbv zeta in Hc. rewrite Hc in Hp.
  apply elem_of_mjoin_fmap in Hp as (w & Hw & Hp). apply elem_of_mjoin_fmap in Hw as ([k o] & Hk & Hw).
  apply ranked_spec in Hk as (i & Hi & -> & Ha). apply option_pending_spec in Hw as (t & q & Ht & Hq & ->).
  apply pending_candidates_spec in Hp as (b & alternatives & c & Hb & Hin & ->).
  exists options, i, o, t, q. split; [done|]. constructor; try done. by exists b, alternatives.
Qed.

(** *** Order *)

Lemma sorted_mjoin {A B} (R : B -> B -> Prop) (S : A -> A -> Prop) (f : A -> list B) (l : list A) :
  StronglySorted S l ->
  (forall a, a ∈ l -> StronglySorted R (f a)) ->
  (forall a a' x y, a ∈ l -> a' ∈ l -> S a a' -> x ∈ f a -> y ∈ f a' -> R x y) ->
  StronglySorted R (mjoin (f <$> l)).
Proof.
  intros Hl. induction Hl as [|a l Hl IH Ha]; intros Hone Htwo; [constructor|]. cbn [fmap list_fmap mjoin list_join].
  apply StronglySorted_app_2; [|apply Hone; left|].
  2: { apply IH; [intros; apply Hone; by right | intros; eapply Htwo; try done; by right]. }
  - intros x y Hx Hy. apply elem_of_mjoin_fmap in Hy as (a' & Ha' & Hy). rewrite Forall_forall in Ha.
    eapply Htwo; [left | by right | by apply Ha | done | done].
Qed.

(** The order of the route: by the rank of the group, then by priority. *)
Definition route_order (a b : PlannedTarget) : Prop :=
  pt_GroupRank a < pt_GroupRank b \/ (pt_GroupRank a = pt_GroupRank b /\ pt_TargetPriority a <= pt_TargetPriority b).

Lemma target_less_priority a b : target_less b a = false -> gt_Priority a <= gt_Priority b.
Proof.
  unfold target_less. destruct (gt_Priority b =? gt_Priority a) eqn:E; simpl; [apply Z.eqb_eq in E; lia|].
  intros H%Z.ltb_ge. lia.
Qed.

Lemma StronglySorted_omap {A B} (R : A -> A -> Prop) (S : B -> B -> Prop) (f : A -> option B) l :
  (forall a a' b b', f a = Some b -> f a' = Some b' -> R a a' -> S b b') -> StronglySorted R l -> StronglySorted S (omap f l).
Proof.
  intros Hf. induction 1 as [|a l Hl IH Ha]; [constructor|]. simpl. destruct (f a) as [b|] eqn:Hb; [|done]. constructor; [done|].
  apply Forall_forall. intros y (x & Hx & Hy)%list_elem_of_omap. rewrite Forall_forall in Ha. eapply Hf; [done..|by apply Ha].
Qed.

Lemma inspect_sorted `{!DispatcherLaws dispatch} s req plan failed :
  inspect s req = Ok (plan, failed) -> StronglySorted route_order (rp_Candidates plan).
Proof.
  intros (options & Hplan & -> & _)%inspect_Ok. apply Plan_Ok in Hplan as [Hd _].
  set (before := fun a b : pendingBinding => pb_rank a < pb_rank b \/
    (pb_rank a = pb_rank b /\ gt_Priority (pb_target a) <= gt_Priority (pb_target b))).
  apply (sorted_mjoin route_order before).
  - apply (sorted_mjoin before (fun a b => a.1 < b.1)); [apply ranked_sorted | |].
    + intros [k o] (i & Hi & -> & _)%ranked_spec. unfold option_pending. cbn [fst snd].
      eapply StronglySorted_omap; [|apply (dispatcher_order _ _ _ _ o Hd); by eapply list_elem_of_lookup_2].
      intros a b x y Hx Hy Hab. destruct (buildRuntimeBindingRequest _ _ _ a); [|done]. destruct (buildRuntimeBindingRequest _ _ _ b); [|done].
      injection Hx as <-. injection Hy as <-. right. split; [done|]. by apply target_less_priority.
    + intros [k o] [k' o'] x y _ _ Hk (t & q & _ & _ & ->)%option_pending_spec (t' & q' & _ & _ & ->)%option_pending_spec. by left.
  - intros p _. unfold pending_candidates. destruct (resolver (pb_req p)) as [e|[b alternatives]]; [constructor|].
    induction (b :: alternatives) as [|c l IH]; [constructor|]. cbn [fmap list_fmap]. constructor; [exact IH|].
    apply Forall_forall. intros y (z & -> & _)%list_elem_of_fmap. right. split; [done|]. simpl. lia.
  - intros a b x y _ _ Hab (? & ? & ? & _ & _ & ->)%pending_candidates_spec (? & ? & ? & _ & _ & ->)%pending_candidates_spec. exact Hab.
Qed.

(** *** Candidates *)

Context (digest : string -> string).

Lemma plannedCandidate_fields suffix p req c :
  plannedCandidate digest suffix p req = Some c ->
  rc_RouteID c = pt_RouteID p /\ rc_GroupRank c = pt_GroupRank p /\ rc_TargetPriority c = pt_TargetPriority p /\
  rc_ModelCode c = pt_ModelID p /\ rc_GroupID c = gr_ID (ag_Group (pt_Group p)) /\
  rc_RetailPriceBookID c = gr_RetailPriceBookID (ag_Group (pt_Group p)) /\
  rc_GroupDefaultUserMultiplier c = gr_DefaultUserMultiplier (ag_Group (pt_Group p)) /\
  rc_AccountPriceBookID c = rb_CostPriceBookID (pt_Binding p) /\
  rc_TenantMultiplier c = normalizedTenantMultiplier (rb_TenantMultiplier (pt_Binding p)) /\
  rc_ConversionBucket c = rb_ConversionBucket (pt_Binding p) /\ rc_RoutePolicy c = gr_RoutePolicy (ag_Group (pt_Group p)) /\
  rc_CapabilityType c = CapabilityFromCore (pr_Capability req) /\
  SurfaceToProtocolForCapability (mb_RequestSurface (rb_ModelBinding (pt_Binding p))) (pr_Capability req) = Some (rc_Protocol c) /\
  (IsPoolRoute c = true -> rc_PoolID c = us_ID (rb_Upstream (pt_Binding p)) /\ rc_AccountID c = ""%string) /\
  (IsPoolRoute c = false -> rc_AccountID c = us_ID (rb_Upstream (pt_Binding p)) \/ us_ID (rb_Upstream (pt_Binding p)) = ""%string).
Proof.
  unfold plannedCandidate. cbv zeta. destruct (SurfaceToProtocolForCapability _ _) as [protocol|]; [|done].
  destruct (str_eq _ AccessModeDirect); [|destruct (str_eq _ AccessModeOAuthPool); [|done]]; intros [= <-]; split_and!; try done.
  - by intros _; left.
  - cbn. unfold IsPoolRoute, present. cbn. intros H%negb_false_iff%String.eqb_eq. by right.
Qed.

Lemma candidates_spec suffix req seen l out :
  candidates digest suffix req seen l = Some out ->
  (forall c, c ∈ out -> exists p, p ∈ l /\ plannedCandidate digest suffix p req = Some c) /\
  (forall c, c ∈ out -> Key c ∉ seen) /\ NoDup (Key <$> out) /\
  (forall p, p ∈ l -> exists c, plannedCandidate digest suffix p req = Some c /\ (Key c ∈ seen \/ exists c', c' ∈ out /\ Key c' = Key c)).
Proof.
  revert seen out. induction l as [|p l IH]; intros seen out H; cbn [candidates] in H.
  { simplify_eq. split_and!; [by intros ? ?%elem_of_nil..|constructor|by intros ? ?%elem_of_nil]. }
  destruct (plannedCandidate digest suffix p req) as [c|] eqn:Hc; [|done]. case_bool_decide as Hs.
  - apply IH in H as (H1 & H2 & H3 & H4). split_and!; [|done|done|].
    + intros x Hx. apply H1 in Hx as (y & Hy & Hx). exists y. split; [by right | done].
    + intros y [->|Hy]%elem_of_cons; [exists c; split; [done | by left] | by apply H4].
  - destruct (candidates _ _ _ _ l) as [rest|] eqn:Hr; [|done]. injection H as <-. apply IH in Hr as (H1 & H2 & H3 & H4). split_and!.
    + intros x [->|Hx]%elem_of_cons; [exists p; split; [left | done]|]. apply H1 in Hx as (y & Hy & Hx). exists y. split; [by right | done].
    + intros x [->|Hx]%elem_of_cons; [done|]. intros Hin. apply (H2 x Hx). by apply elem_of_union_r.
    + cbn [fmap list_fmap]. apply NoDup_cons. split; [|done]. intros (y & Hk & Hy)%list_elem_of_fmap.
      apply (H2 y Hy). rewrite <- Hk. by apply elem_of_union_l, elem_of_singleton.
    + intros y [->|Hy]%elem_of_cons; [exists c; split; [done|]; right; exists c; split; [left | done]|].
      destruct (H4 y Hy) as (c' & Hc' & [Hin | (z & Hz & Hk)]); exists c'; (split; [done|]).
      * apply elem_of_union in Hin as [Hin%elem_of_singleton | Hin]; [right; exists c; split; [left | done] | by left].
      * right. exists z. split; [by right | done].
Qed.
Lemma candidates_sorted (R : PlannedTarget -> PlannedTarget -> Prop) (S : RouteCandidate -> RouteCandidate -> Prop) suffix req seen l out :
  (forall p p' c c', plannedCandidate digest suffix p req = Some c -> plannedCandidate digest suffix p' req = Some c' -> R p p' -> S c c') ->
  StronglySorted R l -> candidates digest suffix req seen l = Some out -> StronglySorted S out.
Proof.
  intros Hf Hl. revert seen out. induction Hl as [|p l Hl IH Hp]; intros seen out H; cbn [candidates] in H.
  { simplify_eq. constructor. }
  destruct (plannedCandidate digest suffix p req) as [c|] eqn:Hc; [|done]. case_bool_decide; [by eapply IH|].
  destruct (candidates _ _ _ _ l) as [rest|] eqn:Hr; [|done]. injection H as <-. constructor; [by eapply IH|].
  apply Forall_forall. intros x Hx. apply candidates_spec in Hr as (H1 & _). apply H1 in Hx as (y & Hy & Hx).
  rewrite Forall_forall in Hp. eapply Hf; [done..|by apply Hp].
Qed.
End Facts.
