(* ===== verification/RoutePlanProps.v ===== *)
(** * Properties of routing

    The selector of [RouteSelector] over the dispatch of [Dispatch] and the binder of
    [Binder]: what a candidate may be, in what order the candidates come, and what
    becomes of the billing source. *)

From Stdlib Require Import QArith Sorted.
From S2P Require Import Prelude GoStrings PathMatch UsageEvidence Decimal PriceTiers Request Availability Classify Candidates.
From S2P Require Import CommercialDB PriceBooks Commercial Surfaces Dispatch DispatchProps Upstream Binder.
From S2P Require Import RouteSelector RouteFacts.
#[global] Open Scope Z_scope.

(** ** The implementations keep the laws of the interfaces. *)

Section Wiring.
Context (regexp_match : string -> string -> bool) {secrets : Secrets} (dg db dd : cdb) (u : udb).

#[local] Instance commercial_dispatcher : CommercialDispatcher := ResolveDispatch regexp_match dg db dd.
#[local] Instance target_binder : RuntimeBindingResolver := ResolveRuntimeBinding (support := runtime_support) u.

#[local] Instance commercial_dispatcher_laws : DispatcherLaws commercial_dispatcher.
Proof.
  intros s cs model opts o H Ho. unfold dispatcher, commercial_dispatcher in H.
  apply (ResolveDispatch_option _ _ _ _ _ _ _ _ o) in H as (i & _ & _ & Hok); [|done]. apply (oo_order _ _ _ _ _ _ _ _ Hok).
Qed.

Lemma target_binder_bound q b alternatives :
  target_binder q = inr (b, alternatives) ->
  AuthorizeRuntimeBinding u q = None /\ Forall (bound u q) (b :: alternatives) /\
  StronglySorted (fun x y => bucket_leb x y = true) (b :: alternatives).
Proof.
  unfold target_binder, ResolveRuntimeBinding. destruct (AuthorizeRuntimeBinding u q); [done|].
  intros H. split; [done|]. by apply binder_bound.
Qed.
#[local] Instance target_binder_laws : BinderLaws target_binder.
Proof.
  split; unfold resolver.
  - intros q b l c (_ & Hf & _)%target_binder_bound Hc. rewrite Forall_forall in Hf. apply (bd_names _ _ _ (Hf c Hc)).
  - intros q b l c (_ & Hf & _)%target_binder_bound Hc. rewrite Forall_forall in Hf.
    destruct (bd_protocol _ _ _ (Hf c Hc)) as (p & Hp & _). exists p. by apply surface_roundtrip.
  - intros q b l (_ & _ & Hs)%target_binder_bound. unfold bucket_leb in Hs. revert Hs. generalize (b :: l) as m.
    induction 1 as [|x m Hm IH Hx]; constructor; [done|]. eapply Forall_impl; [exact Hx|]. simpl. intros y. apply Z.leb_le.
Qed.

Context (digest : string -> string).
Definition selected (i : RouteInput) (r : Request) : Selection := SelectCandidates digest i r.

(** The plan behind the candidates: made for the request as it came, or, when no group
    of the subscription is open, for the request made pay-as-you-go. *)
Definition input_capability (i : RouteInput) (r : Request) : string :=
  if str_eq (ri_RuntimeCapability i) "" then CapabilityToCore (rq_CapabilityType r) else ri_RuntimeCapability i.
Lemma selected_Ok i r l :
  sel_result (selected i r) = Ok l ->
  exists s surface allowed plan, rq_Subject r = Some s /\
    ProtocolToSurfaceForCapability (ri_ClientProtocol i) (input_capability i r) = Some surface /\
    let req := plan_request i (input_capability i r) surface allowed in
    Resolve s req = Ok plan /\
    candidates digest (operation_suffix (ri_ClientPath i)) req ∅ (rp_Candidates plan) = Some l /\
    ((sel_request (selected i r) = r /\
      allowed = (if str_eq (rq_BillingSource r) BillingSourceSubscription then fst <$> map_to_list (rq_GroupMultipliers r) else [])) \/
     (sel_request (selected i r) = to_payg r /\ allowed = [])).
Proof.
  unfold selected, SelectCandidates. fold (input_capability i r). destruct (rq_Subject r) as [s|]; [|done].
  destruct (ProtocolToSurfaceForCapability _ _) as [surface|]; [|done]. cbv zeta.
  set (allowed := if str_eq (rq_BillingSource r) _ then _ else _).
  destruct (Resolve s (plan_request i _ surface allowed)) as [p|e] eqn:Hr.
  - destruct (candidates _ _ _ _ _) as [out|] eqn:Hc; [|done]. cbn [sel_result]. intros [= <-].
    exists s, surface, allowed, p. split_and!; [done..|]. by left.
  - destruct e; try done. destruct (Resolve s (plan_request i _ surface [])) as [p|e] eqn:Hr'; [|by destruct e].
    destruct (candidates _ _ _ _ _) as [out|] eqn:Hc; [|done]. cbn [sel_result]. intros [= <-].
    exists s, surface, [], p. split_and!; [done..|]. by right.
Qed.

Lemma Resolve_Ok s req plan : Resolve s req = Ok plan -> exists failed, inspect s req = Ok (plan, failed) /\ rp_Candidates plan <> [].
Proof.
  unfold Resolve. destruct (inspect s req) as [[p failed]|]; [|done]. destruct (Nat.eqb _ 0) eqn:Hn; [done|].
  intros [= <-]. exists failed. split; [done|]. intros H. by rewrite H in Hn.
Qed.

Lemma planning_subject_same i capability surface allowed s : planning_subject s (plan_request i capability surface allowed) = s.
Proof. done. Qed.

(** Where a candidate comes from. *)
Lemma selected_candidate i r l c :
  sel_result (selected i r) = Ok l -> c ∈ l ->
  exists s surface allowed options p n o t q,
    rq_Subject r = Some s /\ ProtocolToSurfaceForCapability (ri_ClientProtocol i) (input_capability i r) = Some surface /\
    let req := plan_request i (input_capability i r) surface allowed in
    ResolveDispatch regexp_match dg db dd s surface (planning_model req) = Ok options /\
    comes_from s req options p n o t q /\
    plannedCandidate digest (operation_suffix (ri_ClientPath i)) p req = Some c.
Proof.
  intros (s & surface & allowed & plan & Hs & Hsf & Hr & Hc & _)%selected_Ok Hin. cbv zeta in *.
  apply candidates_spec in Hc as (Hc & _). apply Hc in Hin as (p & Hp & Hpc).
  apply Resolve_Ok in Hr as (failed & Hi & _). eapply inspect_candidate in Hi as (options & n & o & t & q & Hplan & Hfrom); [|done].
  exists s, surface, allowed, options, p, n, o, t, q. split_and!; try done. by apply Plan_Ok in Hplan as [Hplan _].
Qed.

(** C10: every candidate a request is served from is one the caller is entitled to, all
    the way down: its group is an active group of the tenant that the caller may use and
    that accepts the client's surface; its target is an active target of that group on
    a resource that is active and public or granted to the tenant; the resource has an
    active binding for the model and the capability; the model is one the caller may
    use; the upstream is spoken to in the client's surface, or the group allows
    conversion and the bridge converts the request and its response; and the price
    books and multipliers are those of the group and of the resource, the tenant's
    override before the resource's own. *)
Theorem candidates_are_entitled i r l c :
  sel_result (selected i r) = Ok l -> c ∈ l ->
  exists s surface g t own b,
    rq_Subject r = Some s /\ ProtocolToSurfaceForCapability (ri_ClientProtocol i) (input_capability i r) = Some surface /\
    (may_use dg db s g /\ accepts (sj_TenantID s) dd g surface /\ rc_GroupID c = gr_ID g /\
     rc_RetailPriceBookID c = gr_RetailPriceBookID g /\ rc_GroupDefaultUserMultiplier c = gr_DefaultUserMultiplier g) /\
    (target_in (sj_TenantID s) (gr_ID g) dd t /\ gt_Status t = StatusActive /\ rc_RouteID c = gt_ID t /\
     rc_TargetPriority c = gt_Priority t /\ usable u (TrimSpace (sj_TenantID s)) (gt_TargetKind t) (gt_TargetID t)) /\
    (exists m, m ∈ u_models u /\ um_Kind m = gt_TargetKind t /\ um_UpstreamID m = gt_TargetID t /\
       um_ModelCode m = TrimSpace (rc_ModelCode c) /\ um_CapabilityType m = rc_CapabilityType c /\ um_Status m = "active"%string) /\
    (sj_AllowedModels s = [] \/ rc_ModelCode c ∈ sj_AllowedModels s) /\
    (SurfaceToProtocolForCapability b (input_capability i r) = Some (rc_Protocol c) /\
     (b = surface <-> rc_ConversionBucket c = 0) /\
     (b <> surface -> gr_AllowProtocolConversion g = true /\ converts NewRuntime (input_capability i r) surface b (ri_IsStream i))) /\
    (resource_prices u (gt_TargetKind t) (gt_TargetID t) (rc_AccountPriceBookID c) own /\
     rc_TenantMultiplier c = normalizedTenantMultiplier
       (resolveTenantMultiplier u (sj_TenantID s) (gt_TargetKind t) (gt_TargetID t) (default (Finite 1) own))).
Proof.
  intros Hsel Hc. destruct (selected_candidate _ _ _ _ Hsel Hc) as
    (s & surface & allowed & options & p & n & o & t & q & Hs & Hsf & Hd & [Ho _ Ht Hq (b & alternatives & Hb & Hin) Hp] & Hpc).
  apply list_elem_of_lookup_2 in Ho.
  apply (ResolveDispatch_option _ _ _ _ _ _ _ _ o) in Hd as (ai & Hmay & _ & Hok); [|done].
  destruct Hok as [(allow & Hgr & Hconv) Hacc _ _ _ Hal Htg _]. apply Htg in Ht as (Ht & Hta & _).
  apply target_binder_bound in Hb as (Hauth & Hbound & _). rewrite Forall_forall in Hbound. specialize (Hbound _ Hin).
  apply authorized_usable in Hauth.
  assert (Hkind : kind_of q = gt_TargetKind t /\ bq_TargetID q = gt_TargetID t /\ bq_TenantID q = sj_TenantID s /\
    (if str_eq (bq_TargetMode q) AccessModeOAuthPool then KindOAuthPool else KindDirectUpstream) = gt_TargetKind t /\
    bq_ResolvedModelID q = re_ResolvedModelID o /\ bq_Capability q = input_capability i r /\ bq_ClientSurface q = surface /\
    bq_Stream q = ri_IsStream i /\ bq_AllowProtocolConversion q = allow).
  { unfold buildRuntimeBindingRequest, commercialTargetMode in Hq.
    destruct (str_eq (gt_TargetKind t) TargetKindDirectUpstream) eqn:Hk1; [apply str_eq_true in Hk1|
      destruct (str_eq (gt_TargetKind t) TargetKindOAuthPool) eqn:Hk2; [apply str_eq_true in Hk2|done]];
      injection Hq as <-; rewrite Hgr; by split_and!. }
  destruct Hkind as (Hk & Hid & Hten & Hk' & Hmod & Hcap & Hcs & Hst & Hall). rewrite Hk', Hid, Hten in Hauth.
  destruct Hbound as [_ Hmodel _ Hsp _ Hprice]. rewrite Hk, Hid, Hmod, Hcap in Hmodel. rewrite Hk, Hid, Hten in Hprice.
  apply plannedCandidate_fields in Hpc as (F1 & _ & F3 & F4 & F5 & F6 & F7 & F8 & F9 & F10 & _ & F12 & F13 & _).
  rewrite Hp in F1, F3, F4, F5, F6, F7. unfold planned in F1, F3, F4, F5, F6, F7.
  cbn [pt_RouteID pt_TargetPriority pt_ModelID pt_Group pb_target pb_option] in F1, F3, F4, F5, F6, F7. rewrite Hgr in F5, F6, F7.
  cbn [pr_Capability plan_request] in F12, F13. destruct Hprice as (own & Hprice & Hmult).
  unfold speaks in Hsp. rewrite Hcs, Hst, Hall, Hcap in Hsp.
  exists s, surface, (ag_Group ai), t, own, (mb_RequestSurface (rb_ModelBinding (pt_Binding p))). split_and!; try done.
  - destruct Hmodel as (m & H1 & H2 & H3 & H4 & H5 & H6 & _). exists m. rewrite F4, F12. by split_and!.
  - rewrite F4. exact Hal.
  - rewrite F10. apply Hsp.
  - intros Hne. destruct (proj2 Hsp Hne) as [Ha Hcv]. split; [|done].
    destruct Hconv as [[_ Heq] | (x & _ & _ & _ & Heq)]; rewrite Ha in Heq; symmetry in Heq; [done|]. by apply andb_true_iff in Heq as [? _].
  - by rewrite F8.
  - by rewrite F9, Hmult.
Qed.

(** A selection that succeeds has candidates, no two with one identity, in the order
    of their groups' ranks and, within a group, of the tenant's priorities. *)
Theorem candidates_are_ordered i r l :
  sel_result (selected i r) = Ok l ->
  l <> [] /\ NoDup (Key <$> l) /\
  StronglySorted (fun a b => rc_GroupRank a < rc_GroupRank b \/
    (rc_GroupRank a = rc_GroupRank b /\ rc_TargetPriority a <= rc_TargetPriority b)) l.
Proof.
  intros (s & surface & allowed & plan & _ & _ & Hr & Hc & _)%selected_Ok. cbv zeta in *.
  apply Resolve_Ok in Hr as (failed & Hi & Hne). pose proof (inspect_sorted _ _ _ _ Hi) as Hord.
  split; [|split].
  - apply candidates_spec in Hc as (_ & _ & _ & H). destruct (rp_Candidates plan) as [|p rest]; [done|].
    destruct (H p) as (c & _ & [Hin | (c' & Hin & _)]); [left | by apply elem_of_empty in Hin|]. intros ->. by apply elem_of_nil in Hin.
  - by apply candidates_spec in Hc as (_ & _ & Hnd & _).
  - eapply candidates_sorted; [|exact Hord|exact Hc]. intros p p' c c' H H'.
    apply plannedCandidate_fields in H as (_ & -> & -> & _). by apply plannedCandidate_fields in H' as (_ & -> & -> & _).
Qed.

Lemma allowed_of_weights (weights : gmap string float64) :
  weights <> ∅ -> weights !! ""%string = None ->
  stringSet (fst <$> map_to_list weights) <> [] /\
  forall g, g ∈ stringSet (fst <$> map_to_list weights) <-> is_Some (weights !! g).
Proof.
  intros Hne Hempty.
  assert (Hin : forall g, g ∈ stringSet (fst <$> map_to_list weights) <-> is_Some (weights !! g)).
  { intros g. unfold stringSet. rewrite elem_of_filter_rows, list_elem_of_fmap. split.
    - intros [_ ([k w] & -> & Hk)]. apply elem_of_map_to_list in Hk. by exists w.
    - intros [w Hw]. split.
      + apply negb_true_iff, str_eq_false. intros ->. by rewrite Hempty in Hw.
      + exists (g, w). split; [done|]. by apply elem_of_map_to_list. }
  split; [|done]. intros Hnil. destruct (map_choose weights Hne) as (k & w & Hk).
  assert (k ∈ stringSet (fst <$> map_to_list weights)) as Hk' by (apply Hin; by exists w).
  rewrite Hnil in Hk'. by apply elem_of_nil in Hk'.
Qed.

Lemma Resolve_unrestricted s req : stringSet (pr_AllowedGroupIDs req) = [] -> Resolve s req <> Err ErrNoAllowedGroup.
Proof.
  intros Ha. unfold Resolve, inspect. destruct (Plan s req) as [options|e] eqn:Hp.
  - cbv zeta. rewrite Ha. simpl. destruct (Nat.eqb _ 0); [|done]. by destruct (existsb pending_failed _).
  - intros [= ->]. unfold Plan in Hp. repeat case_match; done.
Qed.
Lemma Resolve_not_allowed s req :
  Resolve s req = Err ErrNoAllowedGroup ->
  exists options, Plan s req = Ok options /\
    forall o, o ∈ options -> gr_ID (ag_Group (re_Group o)) ∉ stringSet (pr_AllowedGroupIDs req).
Proof.
  unfold Resolve. destruct (inspect s req) as [[p failed]|e] eqn:Hi; [by destruct (Nat.eqb _ 0), failed|]. intros [= ->].
  unfold inspect in Hi. destruct (Plan s req) as [options|e] eqn:Hp.
  - cbv zeta in Hi. destruct (_ && _) eqn:Hk; [|done]. apply andb_true_iff in Hk as [_ Hk%Nat.eqb_eq%length_zero_iff_nil].
    exists options. split; [done|]. intros o (n & Hn)%list_elem_of_lookup Ha.
    assert ((0 + Z.of_nat n, o) ∈ ranked 0 (stringSet (pr_AllowedGroupIDs req)) options) as Hin
      by (apply ranked_spec; exists n; split; [done|]; split; [done | by right]).
    rewrite Hk in Hin. by apply elem_of_nil in Hin.
  - injection Hi as ->. unfold Plan in Hp. repeat case_match; done.
Qed.

(** C11: routing keeps a request that a subscription covers within the groups the plan
    pays for, each with the weight its use is metered by; when none of those is open to
    the request it is made pay-as-you-go instead, loses its subscription, and is served
    by the others. *)
Theorem subscription_stays_in_plan i r l :
  rq_BillingSource r = BillingSourceSubscription -> rq_GroupMultipliers r <> ∅ -> rq_GroupMultipliers r !! ""%string = None ->
  sel_result (selected i r) = Ok l ->
  (sel_request (selected i r) = r /\ forall c, c ∈ l -> is_Some (rq_GroupMultipliers r !! rc_GroupID c)) \/
  (rq_BillingSource (sel_request (selected i r)) = BillingSourcePayg /\ rq_SubscriptionID (sel_request (selected i r)) = ""%string /\
   rq_GroupMultipliers (sel_request (selected i r)) = ∅ /\
   exists s surface options, rq_Subject r = Some s /\
     ProtocolToSurfaceForCapability (ri_ClientProtocol i) (input_capability i r) = Some surface /\
     ResolveDispatch regexp_match dg db dd s surface (planning_model (plan_request i (input_capability i r) surface [])) = Ok options /\
     forall o, o ∈ options -> rq_GroupMultipliers r !! gr_ID (ag_Group (re_Group o)) = None).
Proof.
  intros Hsub Hne Hempty Hok. destruct (allowed_of_weights _ Hne Hempty) as [Hall Hin].
  unfold selected, SelectCandidates in *. fold (input_capability i r) in *. destruct (rq_Subject r) as [s|]; [|done].
  destruct (ProtocolToSurfaceForCapability _ _) as [surface|] eqn:Hsf; [|done]. cbv zeta in *.
  rewrite Hsub in *. change (str_eq BillingSourceSubscription BillingSourceSubscription) with true in *. cbv iota in *.
  set (weights := fst <$> map_to_list (rq_GroupMultipliers r)) in *.
  destruct (Resolve s (plan_request i _ surface weights)) as [plan|e] eqn:Hr.
  - left. destruct (candidates _ _ _ _ _) as [out|] eqn:Hc; [|done]. cbn [sel_result sel_request] in *. injection Hok as ->.
    split; [done|]. intros c Hcl. apply candidates_spec in Hc as (Hc & _). apply Hc in Hcl as (p & Hp & Hpc).
    apply Resolve_Ok in Hr as (failed & Hi & _). eapply inspect_candidate in Hi as (options & n & o & t & q & _ & Hfrom); [|done].
    destruct Hfrom as [_ Ha _ _ _ Hpp]. destruct Ha as [Ha|Ha]; [by destruct Hall|].
    assert (Hg : pt_Group p = re_Group o) by (by rewrite Hpp).
    apply plannedCandidate_fields in Hpc as (_ & _ & _ & _ & -> & _). rewrite Hg. by apply Hin.
  - destruct e; try done. right. apply Resolve_not_allowed in Hr as (options & Hp & Ha). apply Plan_Ok in Hp as [Hp _].
    assert (Hreq : forall X : result route_error RoutePlan, sel_request
      (match X with
       | Ok plan => match candidates digest (operation_suffix (ri_ClientPath i)) (plan_request i (input_capability i r) surface []) ∅ (rp_Candidates plan) with
                    | Some l => MkSelection (to_payg r) (rp_Rejections plan) (Ok l) | None => MkSelection (to_payg r) [] (Err ErrUnsupported) end
       | Err e => MkSelection (to_payg r) (match e with NoRouteError l => l | _ => [] end) (Err e)
       end) = to_payg r) by (intros [plan|e]; [destruct (candidates _ _ _ _ _)|]; done).
    rewrite Hreq. split_and!; [done..|]. exists s, surface, options. split_and!; [done..|].
    intros o Ho. specialize (Ha o Ho). cbn [pr_AllowedGroupIDs plan_request] in Ha. rewrite Hin in Ha.
    by apply eq_None_not_Some.
Qed.

(** Selecting never fails for want of a way to express a binding: with a subject and
    a protocol that has a surface, the only failures are those of planning, and no route
    is reported only when every target of every option open to the request was
    rejected. *)
Theorem selection_fails_only_in_planning i r e :
  sel_result (selected i r) = Err e ->
  (e = ErrMissingSubject <-> rq_Subject r = None) /\
  (e = ErrUnsupported <-> rq_Subject r <> None /\ ProtocolToSurfaceForCapability (ri_ClientProtocol i) (input_capability i r) = None) /\
  e <> ErrNoAllowedGroup.
Proof.
  assert (Hconv : forall s req plan, Resolve s req = Ok plan -> candidates digest (operation_suffix (ri_ClientPath i)) req ∅ (rp_Candidates plan) <> None).
  { intros s req plan (failed & Hi & _)%Resolve_Ok.
    assert (Hall : forall p, p ∈ rp_Candidates plan -> plannedCandidate digest (operation_suffix (ri_ClientPath i)) p req <> None).
    { intros p Hp. eapply inspect_candidate in Hi as (options & n & o & t & q & _ & [_ _ _ Hq (b & al & Hb & Hin) _]); [|exact Hp].
      pose proof (binder_mode q b al _ Hb Hin) as Hmode. pose proof (binder_surface q b al _ Hb Hin) as [protocol Hsf].
      assert (Hm : (bq_TargetMode q = AccessModeDirect \/ bq_TargetMode q = AccessModeOAuthPool) /\ bq_Capability q = pr_Capability req).
      { unfold buildRuntimeBindingRequest, commercialTargetMode in Hq.
        destruct (str_eq (gt_TargetKind t) TargetKindDirectUpstream); [|destruct (str_eq (gt_TargetKind t) TargetKindOAuthPool); [|done]];
          injection Hq as <-; (split; [|done]); [by left | by right]. }
      destruct Hm as [Hm Hcap]. rewrite Hcap in Hsf. unfold plannedCandidate. rewrite Hsf, Hmode. cbv zeta. by destruct Hm as [-> | ->]. }
    clear Hi. generalize (∅ : gset string). induction (rp_Candidates plan) as [|p l IH]; intros seen; cbn [candidates]; [done|].
    destruct (plannedCandidate _ _ p req) eqn:Hp; [|by destruct (Hall p); [left|]].
    assert (Hl : forall seen, candidates digest (operation_suffix (ri_ClientPath i)) req seen l <> None) by (intros ?; apply IH; intros; apply Hall; by right).
    case_bool_decide; [apply Hl|]. specialize (Hl ({[Key r0]} ∪ seen)). by destruct (candidates _ _ _ _ l). }
  assert (Hplan : forall s req e, Resolve s req = Err e -> e <> ErrMissingSubject /\ e <> ErrUnsupported).
  { intros s req e'. unfold Resolve, inspect. destruct (Plan s req) as [o|e0] eqn:Hp.
    - cbv zeta. destruct (_ && _); [by intros [= <-]|]. destruct (Nat.eqb _ 0); [|done]. destruct (existsb pending_failed _); by intros [= <-].
    - intros [= <-]. unfold Plan in Hp. repeat case_match; by simplify_eq. }
  unfold selected, SelectCandidates. fold (input_capability i r). 
  destruct (rq_Subject r) as [s|]; [|intros [= <-]; split; [done|]; split; [split; [done | by intros [Hx _]] | done]].
  destruct (ProtocolToSurfaceForCapability _ _) as [surface|]; [|intros [= <-]; by repeat split]. cbv zeta.
  set (allowed := if str_eq (rq_BillingSource r) _ then _ else _).
  assert (Hdone : forall req x l, Resolve s req = Ok x ->
    sel_result (match candidates digest (operation_suffix (ri_ClientPath i)) req ∅ (rp_Candidates x) with
                | Some l0 => MkSelection l (rp_Rejections x) (Ok l0) | None => MkSelection l [] (Err ErrUnsupported) end) = Err e -> False).
  { intros req x l0 Hx. specialize (Hconv s req x Hx). by destruct (candidates _ _ _ _ _). }
  destruct (Resolve s (plan_request i _ surface allowed)) as [p|e0] eqn:Hr; [by intros ?%Hdone|].
  pose proof (Hplan _ _ _ Hr) as Hne.
  assert (Hrest : e0 <> ErrNoAllowedGroup -> e0 = e -> (e = ErrMissingSubject <-> Some s = None) /\
    (e = ErrUnsupported <-> Some s <> None /\ Some surface = None) /\ e <> ErrNoAllowedGroup).
  { intros H <-. destruct Hne. split; [done|]. split; [split; [done | by intros [_ ?]] | done]. }
  destruct e0; try (cbn [sel_result]; intros [= H]; by apply Hrest).
  destruct (Resolve s (plan_request i _ surface [])) as [p|e1] eqn:Hr'; [by intros ?%Hdone|]. intros [= ->].
  pose proof (Hplan _ _ _ Hr') as [? ?]. split; [done|]. split; [split; [done | by intros [_ ?]]|].
  intros ->. by apply Resolve_unrestricted in Hr'.
Qed.
End Wiring.

(** ** Instances *)

#[local] Instance demo_secrets : Secrets :=
  { decryptDirectProviderKey := fun s => Some s; decryptStoredEndpointHeaderMap := fun m => Some m }.
Definition demo_udb : udb :=
  MkUDB
    [MkAccount "u1" "Primary" "public" "" (Some 4) "cost" (Some (Finite (Qmake 3 2))) "active"]
    []
    [MkEndpoint "e1" "u1" "anthropic_messages" "https://example.test" "" "bearer" "" ∅ "active"]
    [MkUpstreamModel "direct_upstream" "u1" "gpt" "chat" "" "active" (MkImagePolicy None None)]
    [MkTenantPolicy "direct_upstream" "u1" "t1" false (Some (Finite (Qmake 2 1)))]
    [].
Definition demo_digest (s : string) : string := s.
Definition demo_no_regexp (_ _ : string) : bool := false.
Definition demo_allow (g : Group) : Group := ag_Group (set_conversion true (accessible g)).
Definition demo_tables : cdb :=
  MkCDB [MkGroup "g1" "t1" "Default" "" "book" (Finite 1) true true "balanced" 3 "active" 0] []
    [MkTarget "x1" "g1" "direct_upstream" "u1" 100 "active"]
    [MkRule "r1" "g1" "openai_chat" "wildcard" "gpt-*" "gpt" 10 "active" "" 7] [] [] []
    [MkResource "direct_upstream" "u1" "active" true] [] [] [] [].
Definition demo_caller : Subject := MkSubject "api_key" "api_key" "user" "t1" "user1" "k1" "g1" [] None 0 "".
Definition demo_input : RouteInput := MkRouteInput "" "openai_chat" "gpt-latest" "gpt-latest" true "/v1/chat/completions".
Definition demo_request_of (source : string) (weights : gmap string float64) : Request :=
  MkRequest "req1" "chat" "sync" "standard" (Some demo_caller) None 0 false no_usage
    no_evidence "" ∅ no_billing source "" weights "" "" "" "" "" "" 0 "" "" "".
Abbreviation demo_selected source weights :=
  (selected demo_no_regexp demo_tables demo_tables demo_tables demo_udb demo_digest demo_input (demo_request_of source weights)).
Definition demo_candidates : list RouteCandidate :=
  Eval vm_compute in match sel_result (demo_selected "payg" ∅) with Ok l => l | Err _ => [] end.
Example demo_selects : sel_result (demo_selected "payg" ∅) = Ok demo_candidates.
Proof. vm_compute. reflexivity. Qed.
Example demo_candidate_fields :
  (fun c => (rc_GroupID c, rc_Protocol c, rc_ModelCode c, rc_ConversionBucket c, rc_TenantMultiplier c)) <$> demo_candidates
  = [("g1", "anthropic_messages", "gpt", 3, Finite (Qmake 2 1))]%string.
Proof. vm_compute. reflexivity. Qed.
(** The plan pays for another group only. *)
Definition demo_weights (g : string) : gmap string float64 := {[ g := Finite 1 ]}.
Example demo_covered : sel_request (demo_selected "subscription" (demo_weights "g1")) = demo_request_of "subscription" (demo_weights "g1").
Proof. vm_compute. reflexivity. Qed.
Example demo_selects_covered : sel_result (demo_selected "subscription" (demo_weights "g1")) = Ok demo_candidates.
Proof. vm_compute. reflexivity. Qed.
Example demo_fallback : rq_BillingSource (sel_request (demo_selected "subscription" (demo_weights "g2"))) = BillingSourcePayg.
Proof. vm_compute. reflexivity. Qed.
Example demo_selects_fallback : sel_result (demo_selected "subscription" (demo_weights "g2")) = Ok demo_candidates.
Proof. vm_compute. reflexivity. Qed.

Lemma candidates_are_entitled_witness :
  exists g t, may_use demo_tables demo_tables demo_caller g /\ usable demo_udb "t1" (gt_TargetKind t) (gt_TargetID t).
Proof.
  destruct (candidates_are_entitled demo_no_regexp demo_tables demo_tables demo_tables demo_udb demo_digest demo_input
    (demo_request_of "payg" ∅) demo_candidates _ demo_selects (list_elem_of_here _ _))
    as (s & surface & g & t & own & b & Hs & _ & (Hm & _) & (_ & _ & _ & _ & Hu) & _).
  injection Hs as <-. exists g, t. split; [exact Hm | exact Hu].
Defined.
Lemma candidates_are_ordered_witness : NoDup (Key <$> demo_candidates).
Proof.
  destruct (candidates_are_ordered demo_no_regexp demo_tables demo_tables demo_tables demo_udb demo_digest demo_input
    (demo_request_of "payg" ∅) demo_candidates demo_selects) as (_ & H & _). exact H.
Defined.
Lemma subscription_stays_in_plan_witness :
  exists o, gr_ID (ag_Group (re_Group o)) = "g1"%string /\ demo_weights "g2" !! gr_ID (ag_Group (re_Group o)) = None.
Proof.
  destruct (subscription_stays_in_plan demo_no_regexp demo_tables demo_tables demo_tables demo_udb demo_digest demo_input
    (demo_request_of "subscription" (demo_weights "g2")) demo_candidates eq_refl) as [[H _] | (_ & _ & _ & s & surface & options & Hs & Hf & Hd & Ho)].
  - vm_compute. discriminate.
  - vm_compute. reflexivity.
  - exact demo_selects_fallback.
  - exfalso. apply (f_equal rq_BillingSource) in H. rewrite demo_fallback in H. discriminate H.
  - injection Hs as <-. vm_compute in Hf. injection Hf as <-. vm_compute in Hd. injection Hd as <-.
    eexists. split; [|apply Ho, list_elem_of_here]. reflexivity.
Defined.
Definition demo_closed : Request := demo_request_of "payg" ∅.
Example demo_no_route :
  sel_result (selected demo_no_regexp demo_tables demo_tables demo_tables (MkUDB [] [] [] [] [] []) demo_digest demo_input demo_closed)
  = Err (NoRouteError [MkRejected "x1" 0 (set_conversion true (bind_key (accessible (MkGroup "g1" "t1" "Default" "" "book" (Finite 1) true true "balanced" 3 "active" 0)))) "gpt" (RejectionBinding AccessDenied)]).
Proof. vm_compute. reflexivity. Qed.
Lemma selection_fails_only_in_planning_witness : rq_Subject demo_closed <> None.
Proof.
  destruct (selection_fails_only_in_planning demo_no_regexp demo_tables demo_tables demo_tables (MkUDB [] [] [] [] [] []) demo_digest
    demo_input demo_closed _ demo_no_route) as [[_ H] _]. intros Hn. specialize (H Hn). discriminate H.
Defined.
