(* ===== verification/PipelineFacts.v ===== *)
(** * The steps of the pipeline, one by one

    A run of the steps before execution as a chain of calls, what each of them leaves of
    the state, how a run of the whole pipeline follows from it, and what each gate has
    made sure of when it lets a request through. *)

From Stdlib Require Import QArith.
From S2P Require Import Prelude GoStrings UsageEvidence Decimal PriceTiers Request Availability Effect Classify.
From S2P Require Import ConcurrencyLimit Candidates ExecState Execute ExecuteProps PriceBookBilling Ledger Settlement.
From S2P Require Import CommercialDB Commercial Surfaces Dispatch Binder RouteSelector RouteFacts Pipeline.
#[global] Open Scope Z_scope.

Section Facts.
Context {W : Type} `{Ports W} {dispatch : CommercialDispatcher} {binder : RuntimeBindingResolver}.
Context {keys : APIKeyResolver} {subs : Subscriptions} {balances : AccountBalanceResolver}
  {billing : BillingSnapshotResolver} {sticky : StickyStore}.
Context (cf : PipeConfig) (inp : PipeInput) (digest : string -> string).
#[local] Abbreviation Pipe := (Pipe W).
Implicit Types s : Pipe.

(** ** Chains of checks *)

(** The calls in turn, up to the first error. *)
Fixpoint chain (l : list (string * (Pipe -> Pipe * option exec_error))) s : Pipe * option (string * exec_error) :=
  match l with
  | [] => (s, None)
  | (name, f) :: l =>
      let '(s, e) := f s in
      match e with None => chain l s | Some e => (s, Some (name, e)) end
  end.

Definition gate_calls : list (string * (Pipe -> Pipe * option exec_error)) :=
  [("quota_check", QuotaCheck); ("subscription_gate", SubscriptionGateStep cf); ("balance_gate", BalanceGate cf);
   ("route_candidates", RouteCandidates cf inp digest); ("billing_guard", BillingGuard cf)]%string.
Definition check_calls : list (string * (Pipe -> Pipe * option exec_error)) :=
  ("authn", AuthN inp)%string :: gate_calls ++
  [("request_registration", request_registration inp); ("rate_limit", RateLimit cf inp)]%string.

Ltac step_eqn :=
  match goal with |- context [let '(_, _) := ?f ?s in _] => destruct (f s) as [? [?|]] eqn:? end.

(** A run of the checks is their chain: none of those that can complete before another
    fails has anything to undo. *)
Lemma run_checks s : run_steps [] (checks cf inp digest) s = (let '(s, e) := chain check_calls s in Some (e, s)).
Proof.
  unfold checks, gates, check_calls, gate_calls. cbn [app run_steps chain]. unfold mbind, M_bind, plain_step, modify.
  cbn [step_Execute step_Name step_Rollback].
  repeat (step_eqn; [reflexivity|]; cbv beta iota; cbn [step_Execute step_Name step_Rollback]). reflexivity.
Qed.

Definition finish (e : option (string * exec_error)) s : Pipe :=
  releaseRateLimitLease inp (usage_completion cf inp (normalizePipelineError e s)).

(** A run of the pipeline: its checks, then execution, then the end. *)
Lemma serve_run fuel s :
  serve cf inp digest fuel s =
  match chain check_calls s with
  | (s, Some e) => Some (Some e, finish (Some e) s)
  | (s, None) =>
      match execute_step cf inp fuel s with
      | None => None
      | Some (None, s) => Some (None, finish None s)
      | Some (Some e, s) =>
          let e := Some ("execute"%string, e) in Some (e, finish e (releaseRateLimitLease inp s))
      end
  end.
Proof.
  unfold serve, Run, pipeline_steps, checks, gates, check_calls, gate_calls. cbn [app run_steps chain].
  unfold mbind, M_bind, plain_step, modify. cbn [step_Execute step_Name step_Rollback].
  repeat (step_eqn; [reflexivity|]; cbv beta iota; cbn [step_Execute step_Name step_Rollback]).
  match goal with |- context [execute_step cf inp fuel ?s] => destruct (execute_step cf inp fuel s) as [[[e|] s']|] end; reflexivity.
Qed.

(** ** What the checks leave alone *)

(** What becomes of the request, and its identity. *)
Definition outcome (r : Request) :=
  (rq_RequestID r, rq_CapabilityType r, rq_ExecutionMode r, rq_ServiceTier r, rq_Attempts r, rq_TokenUsage r, rq_RequestStatus r,
   rq_ProviderTerminalState r, rq_ClientDeliveryState r, rq_CancellationOrigin r, rq_HTTPStatus r, rq_ErrorCode r, rq_FailedStep r).
Definition exec_frame (x : Exec) :=
  (outcome (x_req x), x_Attempts x, x_Permit x, x_Credential x, x_Committed x).
(** All the checks leave alone but the stores. *)
Definition frame s := (exec_frame (p_x s), p_world s, p_Lease s).
Definition stores s := (p_redis s, p_db s, p_RegistrationRejected s).

(** The errors of the checks: answers of at least 400 other than the 499 of a client
    that left. *)
Definition refusal (e : exec_error) : Prop :=
  exists a, e = ApiErr a /\ 400 <= ae_Status a /\ ae_Status a <> 499.

Lemma frame_set_req r s : outcome r = outcome (p_req s) -> frame (p_set_req r s) = frame s.
Proof. unfold frame, exec_frame, p_set_req, p_set_x, p_req. simpl. by intros ->. Qed.
Lemma frame_set_candidates l s : frame (p_set_candidates l s) = frame s.
Proof. by destruct l. Qed.
Lemma frame_promote l s : frame (promote_sticky cf inp s l).2 = frame s.
Proof. unfold promote_sticky. by repeat case_match. Qed.
Lemma stores_promote l s : stores (promote_sticky cf inp s l).2 = stores s.
Proof. unfold promote_sticky. by repeat case_match. Qed.
Lemma stores_set_candidates l s : stores (p_set_candidates l s) = stores s.
Proof. by destruct l. Qed.

(** A step that keeps the stores too and whose errors are refusals. *)
Definition gate (f : Pipe -> Pipe * option exec_error) : Prop := forall s,
  frame (f s).1 = frame s /\ stores (f s).1 = stores s /\ forall e, (f s).2 = Some e -> refusal e.

Ltac refuse := let H := fresh in intros ? H; injection H as <-; eexists; split; [reflexivity|]; simpl; lia.

Lemma gate_AuthN : gate (AuthN inp).
Proof. intros s. unfold AuthN. repeat case_match; split_and!; try done; refuse. Qed.
Lemma gate_QuotaCheck : gate QuotaCheck.
Proof. intros s. unfold QuotaCheck. repeat case_match; split_and!; try done; refuse. Qed.
Lemma SubscriptionGate_outcome b f r r' : SubscriptionGate b f r = Ok r' ->
  outcome r' = outcome r /\ rq_Subject r' = rq_Subject r /\ rq_Candidate r' = rq_Candidate r.
Proof. unfold SubscriptionGate. repeat case_match; by intros [= <-]. Qed.
Lemma gate_SubscriptionGateStep : gate (SubscriptionGateStep cf).
Proof.
  intros s. unfold SubscriptionGateStep. destruct (SubscriptionGate _ _ _) as [r|[]] eqn:Hg.
  - apply SubscriptionGate_outcome in Hg as [Ho _]. split_and!; [by apply frame_set_req | done | done].
  - split_and!; [by apply frame_set_req | done | refuse].
Qed.
Lemma gate_BalanceGate : gate (BalanceGate cf).
Proof.
  intros s. unfold BalanceGate. split_and!; [done..|]. simpl. unfold balance_verdict, insufficient, balance_unknown.
  repeat case_match; try done; refuse.
Qed.
Lemma SelectCandidates_outcome i r : outcome (sel_request (SelectCandidates digest i r)) = outcome r /\
  rq_Subject (sel_request (SelectCandidates digest i r)) = rq_Subject r /\
  rq_Candidate (sel_request (SelectCandidates digest i r)) = rq_Candidate r.
Proof. unfold SelectCandidates. repeat case_match; simplify_eq; done. Qed.
Lemma gate_RouteCandidates : gate (RouteCandidates cf inp digest).
Proof.
  intros s. unfold RouteCandidates. destruct (x_Candidates (p_x s)) as [|c0 l0].
  - set (sel := SelectCandidates _ _ _). set (s1 := p_set_skipped _ _).
    assert (Hf : frame s1 = frame s) by (apply frame_set_req, SelectCandidates_outcome).
    assert (Hs : stores s1 = stores s) by done.
    destruct (sel_result sel) as [[|c l]|e]; [split_and!; [done..|refuse]| |].
    + destruct (eligible_routes inp (p_req s1) (c :: l)) as [|c' l']; [split_and!; [done..|refuse]|].
      pose proof (frame_promote (c' :: l') s1) as Hp. pose proof (stores_promote (c' :: l') s1) as Hp'.
      destruct (promote_sticky cf inp s1 (c' :: l')) as [l2 s2]. cbn [fst snd] in *.
      rewrite frame_set_candidates, stores_set_candidates, Hp, Hp'. split_and!; done.
    + split_and!; [done..|]. unfold route_failure. repeat case_match; refuse.
  - destruct (eligible_routes _ _ _); [split_and!; [done..|refuse]|]. repeat case_match; split_and!; done.
Qed.
Lemma gate_BillingGuard : gate (BillingGuard cf).
Proof.
  intros s. unfold BillingGuard. destruct (negb (pc_Billing cf)); [done|]. destruct (rq_Subject (p_req s)); [|done].
  destruct (str_eq _ _); [done|]. destruct (x_Candidates (p_x s)); [split_and!; [done..|refuse]|].
  destruct (price_candidates _ _ _) as [[snapshots billable] failed]. destruct failed; [split_and!; [done..|refuse]|].
  destruct billable as [|c bs]; [split_and!; [done..|refuse]|].
  assert (Hf : frame (p_set_candidates (c :: bs) (p_set_req (set_snapshots snapshots (p_req s)) s)) = frame s) by done.
  assert (Hs : stores (p_set_candidates (c :: bs) (p_set_req (set_snapshots snapshots (p_req s)) s)) = stores s) by done.
  repeat case_match; split_and!; done.
Qed.

Lemma chain_gates l : Forall gate l.*2 -> forall s,
  frame (chain l s).1 = frame s /\ stores (chain l s).1 = stores s /\
  forall name e, (chain l s).2 = Some (name, e) -> refusal e /\ name ∈ l.*1.
Proof.
  induction l as [|[name f] l IH]; intros Hall s; [done|]. inversion_clear Hall as [|? ? Hg Hl]. specialize (Hg s).
  cbn [chain]. destruct (f s) as [s1 [e|]]; cbn [fst snd] in *; destruct Hg as (Hf & Hs & He).
  - split_and!; [done..|]. intros n e' [= <- <-]. split; [by apply He | left].
  - destruct (IH Hl s1) as (Hf1 & Hs1 & He1). rewrite Hf1, Hs1. split_and!; [done..|].
    intros n e Hn. destruct (He1 n e Hn). split; [done | by right].
Qed.

(** ** The checks that write *)

Lemma chain_app l1 l2 s :
  chain (l1 ++ l2) s = match chain l1 s with (s, None) => chain l2 s | r => r end.
Proof.
  revert s. induction l1 as [|[name f] l1 IH]; intros s; [done|]. cbn [app chain]. destruct (f s) as [s1 [e|]]; [done | apply IH].
Qed.

Definition reading_calls : list (string * (Pipe -> Pipe * option exec_error)) := ("authn", AuthN inp)%string :: gate_calls.
Lemma check_calls_split : check_calls = reading_calls ++
  [("request_registration", request_registration inp); ("rate_limit", RateLimit cf inp)]%string.
Proof. done. Qed.
Lemma gate_reading : Forall gate reading_calls.*2.
Proof.
  unfold reading_calls, gate_calls. cbn [fmap list_fmap snd].
  repeat (apply Forall_cons; split); [apply gate_AuthN | apply gate_QuotaCheck | apply gate_SubscriptionGateStep |
    apply gate_BalanceGate | apply gate_RouteCandidates | apply gate_BillingGuard | apply Forall_nil_2].
Qed.

Definition acquired s : result limit_error (option concurrencyLease) * redis :=
  RateLimiterAcquire (pc_DefaultInFlight cf) (pi_now inp) (pi_links inp) (pi_released inp) (pi_anonymous inp)
    (rq_Subject (p_req s)) (rq_RequestID (p_req s)) (pi_policies inp) (p_redis s).
Definition registers s (at_ : Z) (db : st_db) : Prop :=
  admission_healthy (pi_accepting inp) (pi_now inp) (p_db s) = true /\
  register (pi_now inp) (pi_origin inp) true (p_req s) (p_db s) = Ok (at_, db).

(** The checks up to registration pass, in the state [s1]. *)
Definition read_ok s s1 : Prop := chain reading_calls s = (s1, None) /\ frame s1 = frame s /\ stores s1 = stores s.

(** What the slots of a request make of the state. *)
Definition limited s (db : st_db) s' : Prop :=
  if pc_Limiter cf then exists lease r, acquired s = (Ok lease, r) /\ s' = p_set_lease lease r (p_set_db (p_RegistrationRejected s) (p_CompletionFailed s) db s)
  else s' = p_set_db (p_RegistrationRejected s) (p_CompletionFailed s) db s.

Lemma checks_passed s s' :
  chain check_calls s = (s', None) -> exists s1 at_ db, read_ok s s1 /\ registers s1 at_ db /\ limited s1 db s'.
Proof.
  rewrite check_calls_split, chain_app. pose proof (chain_gates _ gate_reading s) as (Hf & Hs & _).
  destruct (chain reading_calls s) as [s1 [e|]] eqn:Hc; [done|]. cbn [fst snd chain] in *.
  unfold request_registration. destruct (admission_healthy _ _ _) eqn:Hh; [|done]. cbn [negb].
  unfold run_tx. destruct (register _ _ _ _ _) as [[at_ db]|e] eqn:Hr; [|done]. unfold RateLimit.
  intros H0. exists s1, at_, db. split; [done|]. split; [done|]. revert H0. unfold limited, acquired.
  destruct (pc_Limiter cf); cbn [negb].
  - change (p_req (p_set_db _ _ _ s1)) with (p_req s1). change (p_redis (p_set_db _ _ _ s1)) with (p_redis s1).
    destruct (RateLimiterAcquire _ _ _ _ _ _ _ _ _) as [[lease|e] r]; [|done]. intros [= <-]. by exists lease, r.
  - by intros [= <-].
Qed.

(** What the checks leave when one fails: the stores as they were; a registration the
    store refused; or a request registered but not given its slots. *)
Definition refused s s' : Prop :=
  stores s' = stores s \/
  (p_redis s' = p_redis s /\ p_db s' = p_db s /\ p_RegistrationRejected s' = true) \/
  (p_RegistrationRejected s' = p_RegistrationRejected s /\ exists at_ e s1,
     p_req s1 = p_req s' /\ stores s1 = stores s /\ registers s1 at_ (p_db s') /\ acquired s1 = (Err e, p_redis s')).

Lemma checks_refused s s' name e :
  chain check_calls s = (s', Some (name, e)) ->
  frame s' = frame s /\ refusal e /\ name <> "execute"%string /\ name <> ""%string /\ refused s s'.
Proof.
  rewrite check_calls_split, chain_app. pose proof (chain_gates _ gate_reading s) as (Hf & Hs & He).
  destruct (chain reading_calls s) as [s1 [[n e1]|]] eqn:Hc; cbn [fst snd] in *.
  - intros [= -> -> ->]. destruct (He _ _ eq_refl) as [Hr Hn]. split_and!; [done..| | |by left].
    1-2: intros ->; revert Hn; apply (bool_decide_unpack (_ ∉ _)); vm_compute; exact I.
  - cbn [chain]. unfold request_registration. destruct (admission_healthy _ _ _) eqn:Hh; cbn [negb].
    2: { intros [= <- <- <-]. split_and!; try done; [by eexists; split; [reflexivity|]; simpl; lia | by left]. }
    unfold run_tx. destruct (register _ _ _ _ _) as [[at_ db]|e1] eqn:Hr.
    2: { intros [= <- <- <-]. split_and!; try done; [by eexists; split; [reflexivity|]; simpl; lia|]. right. left.
         injection Hs as E1 E2 _. split_and!; [exact E1 | exact E2 | done]. }
    unfold RateLimit. destruct (pc_Limiter cf) eqn:Hl; [|done]. cbn [negb].
    change (p_req (p_set_db _ _ _ s1)) with (p_req s1). change (p_redis (p_set_db _ _ _ s1)) with (p_redis s1).
    change (RateLimiterAcquire _ _ _ _ _ _ _ _ _) with (acquired s1).
    destruct (acquired s1) as [[lease|e1] r] eqn:Ha; [done|]. intros [= <- <- <-].
    split_and!; try done; [destruct e1; eexists; (split; [reflexivity|]); simpl; lia|].
    right. right. split; [by injection Hs|]. by exists at_, e1, s1.
Qed.
End Facts.

(** ** What a request that passed the gates has passed *)

Section Gates.
Context {W : Type} `{Ports W} {dispatch : CommercialDispatcher} {binder : RuntimeBindingResolver}.
Context {keys : APIKeyResolver} {subs : Subscriptions} {balances : AccountBalanceResolver}
  {billing : BillingSnapshotResolver} {sticky : StickyStore}.
Context (cf : PipeConfig) (inp : PipeInput) (digest : string -> string).
#[local] Abbreviation Pipe := (Pipe W).
Implicit Types s : Pipe.

(** *** Sticky promotion *)

Lemma swap_perm {A} (first found : A) l : forall i, l !! i = Some found -> found :: <[i:=first]> l ≡ₚ first :: l.
Proof.
  induction l as [|x l IH]; intros [|i] Hi; simplify_eq/=; [apply perm_swap|].
  rewrite (perm_swap x found), (IH i Hi). apply perm_swap.
Qed.
Lemma promote_perm i l : promote i l ≡ₚ l.
Proof.
  destruct l as [|c l]; [done|]. unfold promote. destruct ((c :: l) !! i) as [found|] eqn:Hi; [|done].
  destruct i as [|i]; simplify_eq/=; [done|]. by apply swap_perm.
Qed.
Lemma promote_sticky_perm s l : (promote_sticky cf inp s l).1 ≡ₚ l /\ p_x (promote_sticky cf inp s l).2 = p_x s.
Proof. unfold promote_sticky. repeat case_match; simpl; auto using promote_perm. Qed.

(** *** The gates that only read *)

(** Who the caller is: given with the request, or the owner of its token. *)
Definition authenticated s (sj : Subject) : Prop :=
  rq_Subject (p_req s) = Some sj \/
  (rq_Subject (p_req s) = None /\ exists header, pi_Authorization inp = Some header /\
     bearerToken header <> ""%string /\ ResolveSubject (bearerToken header) = Some sj).
Lemma AuthN_ok s s' : AuthN inp s = (s', None) ->
  exists sj, authenticated s sj /\ s' = p_set_req (set_subject (Some sj) (p_req s)) s.
Proof.
  unfold AuthN, authenticated. destruct (rq_Subject (p_req s)) as [sj|] eqn:Hs.
  - intros [= <-]. exists sj. split; [by left|]. destruct s as [[[] ] ]. unfold p_req in *. cbn in *. unfold p_set_req, p_set_x, p_req, set_req, set_subject. cbn. by rewrite <- Hs.
  - destruct (pi_Authorization inp) as [h|]; [|done]. destruct (str_eq (bearerToken h) "") eqn:Hb; [done|].
    destruct (ResolveSubject (bearerToken h)) as [sj|] eqn:Hr; [|done]. intros [= <-]. exists sj. split; [|done].
    right. split; [done|]. exists h. apply str_eq_false in Hb. done.
Qed.

Definition within_quota (sj : Subject) : Prop :=
  runtimeSubjectUsesAPIKeyQuota (Some sj) = true -> forall limit, sj_QuotaLimit sj = Some limit ->
  0 < wrap64 (limit - sj_QuotaUsed sj).
Lemma QuotaCheck_ok s s' sj : rq_Subject (p_req s) = Some sj -> QuotaCheck s = (s', None) -> s' = s /\ within_quota sj.
Proof.
  unfold QuotaCheck, within_quota. intros ->. destruct (runtimeSubjectUsesAPIKeyQuota _); cbn [negb]; [|by intros [= <-]].
  destruct (sj_QuotaLimit sj) as [limit|]; [|by intros [= <-]]. destruct (_ <=? 0) eqn:Hq; [done|].
  intros [= <-]. split; [done|]. intros _ l [= <-]. apply Z.leb_gt in Hq. lia.
Qed.

(** The coverage the gate decides: pay-as-you-go, or a subscription that pays for the
    groups of its plan. *)
Lemma SubscriptionGateStep_ok s s' : SubscriptionGateStep cf s = (s', None) ->
  exists r, SubscriptionGate (pc_Subs cf) resolve_subscription (p_req s) = Ok r /\ s' = p_set_req r s.
Proof. unfold SubscriptionGateStep. destruct (SubscriptionGate _ _ _) as [r|[]]; [|done]. intros [= <-]. by exists r. Qed.
Lemma SubscriptionGate_covered b f r r' : SubscriptionGate b f r = Ok r' ->
  rq_BillingSource r' = BillingSourceSubscription ->
  exists sj d, rq_Subject r = Some sj /\ sj_Scope sj = ScopeUser /\ f (sj_TenantID sj) (sj_UserID sj) = Some d /\ sd_Covered d = true /\
    rq_SubscriptionID r' = sd_SubscriptionID d /\ rq_GroupMultipliers r' = sd_Multipliers d /\ sd_Multipliers d <> ∅.
Proof.
  unfold SubscriptionGate. destruct (negb b || _); [by intros [= <-]|]. cbn [set_source rq_Subject].
  destruct (rq_Subject r) as [sj|]; [|by intros [= <-]]. destruct (negb _ || _ || _) eqn:Hu; [by intros [= <-]|].
  destruct (f _ _) as [d|] eqn:Hf; [|done]. destruct (negb (sd_Covered d) || _ || _ || _) eqn:Hc; [by intros [= <-]|].
  intros [= <-] _. apply orb_false_iff in Hu as [[Hu _]%orb_false_iff _]. apply negb_false_iff, bool_decide_eq_true in Hu.
  apply orb_false_iff in Hc as [[[Hc He]%orb_false_iff _]%orb_false_iff _]. apply negb_false_iff in Hc.
  apply bool_decide_eq_false in He. by exists sj, d.
Qed.

(** Money in the accounts a request draws on, at the gate. *)
Definition user_of (sj : Subject) : string := if str_eq (sj_Scope sj) ScopeUser then sj_UserID sj else ""%string.
Definition funded (r : Request) (sj : Subject) (db : ledger_db) : Prop :=
  sj_TenantID sj <> ""%string ->
  exists b, ResolveBalances (sj_TenantID sj) (user_of sj) db = Some b /\ 0 < ab_TenantMicroUSD b /\
    (user_of sj <> ""%string -> ab_UserPresent b = true /\ 0 <= ab_UserMicroUSD b /\
       (ab_UserMicroUSD b = 0 -> rq_BillingSource r = BillingSourceSubscription)).
Lemma BalanceGate_ok s s' sj : rq_Subject (p_req s) = Some sj -> BalanceGate cf s = (s', None) ->
  s' = s /\ pc_Balance cf = true /\ funded (p_req s) sj (s_money (p_db s)).
Proof.
  unfold BalanceGate, balance_verdict, funded. intros Hs. rewrite Hs. fold (user_of sj).
  destruct (pc_Balance cf); cbn [negb]; [|done]. intros Hg. injection Hg as <- Hg. split_and!; [done..|].
  intros Ht%str_eq_false. rewrite Ht in Hg. destruct (ResolveBalances _ _ _) as [b|]; [|done]. exists b. split; [done|].
  destruct (ab_TenantMicroUSD b <=? 0) eqn:Hp; [done|]. apply Z.leb_gt in Hp. split; [lia|].
  intros Hu%str_eq_false. rewrite Hu in Hg. destruct (ab_UserPresent b); cbn [negb] in Hg; [|done]. split; [done|].
  destruct (str_eq (rq_BillingSource _) _) eqn:Hb.
  - apply str_eq_true in Hb. destruct (_ <? 0) eqn:H0; [done|]. apply Z.ltb_ge in H0. done.
  - destruct (ab_UserMicroUSD b <=? 0) eqn:H0; [done|]. apply Z.leb_gt in H0. split; lia.
Qed.

(** *** Routes and prices *)

(** What a request is billed by. *)
Definition terms (r : Request) :=
  (rq_Subject r, rq_CapabilityType r, rq_ServiceTier r, rq_TokenUsage r, rq_BillingSource r, rq_SubscriptionID r, rq_GroupMultipliers r).
Lemma SelectCandidates_terms i r : let r' := sel_request (SelectCandidates digest i r) in r' = r \/ r' = to_payg r.
Proof. cbv zeta. unfold SelectCandidates. repeat case_match; simplify_eq; auto. Qed.

Lemma SelectCandidates_NoDup i r l : sel_result (SelectCandidates digest i r) = Ok l -> NoDup (Key <$> l).
Proof.
  unfold SelectCandidates. destruct (rq_Subject r) as [s|]; [|done]. destruct (ProtocolToSurfaceForCapability _ _); [|done].
  match goal with |- context [let '(_, _) := ?x in _] => destruct x as [[r1 req] [plan|e]] end; [|done].
  destruct (candidates _ _ _ _ _) as [l1|] eqn:Hc; [|done]. intros [= <-]. by apply candidates_spec in Hc as (_ & _ & Hnd & _).
Qed.

Lemma eligible_sub r l : exists l', eligible_routes inp r l = l' /\ (forall c, c ∈ l' -> c ∈ l) /\ (NoDup (Key <$> l) -> NoDup (Key <$> l')).
Proof.
  unfold eligible_routes, imageOutputEligibleCandidates. eexists. split; [reflexivity|]. destruct (_ || _); [done|].
  split; [by intros c [_ Hc]%elem_of_filter_rows|]. generalize (Contains (ri_ClientPath (pi_route inp)) "/images/edits"). intros e.
  induction l as [|c l IH]; [done|]. intros [Hc Hnd]%NoDup_cons. cbn [List.filter]. destruct (_ <=? _); [|by apply IH].
  rewrite fmap_cons. apply NoDup_cons. split; [|by apply IH]. intros (d & Hd & [_ Hin]%elem_of_filter_rows)%list_elem_of_fmap.
  apply Hc, list_elem_of_fmap. by exists d.
Qed.

Lemma RouteCandidates_ok s s' : x_Candidates (p_x s) = [] -> RouteCandidates cf inp digest s = (s', None) ->
  exists l, sel_result (SelectCandidates digest (route_input inp s) (p_req s)) = Ok l /\
    x_Candidates (p_x s') <> [] /\ (forall c, c ∈ x_Candidates (p_x s') -> c ∈ l) /\ NoDup (Key <$> x_Candidates (p_x s')) /\
    terms (p_req s') = terms (sel_request (SelectCandidates digest (route_input inp s) (p_req s))) /\ p_db s' = p_db s.
Proof.
  intros Hno. unfold RouteCandidates. rewrite Hno. set (sel := SelectCandidates _ _ _). set (s1 := p_set_skipped _ _).
  destruct (sel_result sel) as [[|c0 l0]|e] eqn:Hsel; [done| |done].
  destruct (eligible_sub (p_req s1) (c0 :: l0)) as (l' & -> & Hin & Hnd). destruct l' as [|c l]; [done|].
  pose proof (promote_sticky_perm s1 (c :: l)) as [Hp Hx]. pose proof (stores_promote cf inp (c :: l) s1) as Hst.
  destruct (promote_sticky cf inp s1 (c :: l)) as [l2 s2]. cbn [fst snd] in *. intros [= <-].
  exists (c0 :: l0). split; [done|].
  assert (Hl2 : x_Candidates (p_x (p_set_candidates l2 s2)) = l2 /\ terms (p_req (p_set_candidates l2 s2)) = terms (p_req s2) /\
    p_db (p_set_candidates l2 s2) = p_db s2) by (by destruct l2).
  destruct Hl2 as (-> & -> & ->). unfold p_req. rewrite Hx. injection Hst as _ Hdb _. rewrite Hdb.
  split_and!; [| | | done | done].
  - intros ->. by apply Permutation_nil_cons in Hp.
  - intros d Hd. apply Hin. by rewrite <- Hp.
  - rewrite Hp. apply Hnd. by eapply SelectCandidates_NoDup.
Qed.

Lemma price_candidates_spec r l : NoDup (Key <$> l) -> forall m m' b, price_candidates r l m = (m', b, false) ->
  (forall k, k ∉ Key <$> l -> m' !! k = m !! k) /\
  forall c, c ∈ b -> c ∈ l /\ exists snapshot cost, prepare_billing r c = Ok (snapshot, cost) /\ m' !! Key c = Some snapshot.
Proof.
  induction l as [|c l IH]; intros Hnd m m' b; [intros [= <- <-]; split; [done | by intros c ?%not_elem_of_nil]|].
  apply NoDup_cons in Hnd as [Hc Hnd]. cbn [price_candidates]. destruct (prepare_billing r c) as [[snapshot cost]|e] eqn:Hp.
  - destruct (price_candidates r l _) as [[m1 b1] failed] eqn:Hr. intros [= <- <- ->].
    destruct (IH Hnd _ _ _ Hr) as [Hk Hb]. split.
    + intros k Hkn. rewrite fmap_cons, not_elem_of_cons in Hkn. destruct Hkn as [Hne Hkn].
      rewrite (Hk k Hkn), lookup_insert_ne; [done | congruence].
    + intros d [-> | Hd]%elem_of_cons.
      * split; [left|]. exists snapshot, cost. split; [done|]. by rewrite (Hk _ Hc), lookup_insert_eq.
      * destruct (Hb d Hd) as [Hin Hrest]. split; [by right | done].
  - destruct e; try (intros; discriminate). intros Hr. destruct (IH Hnd _ _ _ Hr) as [Hk Hb]. split.
    + intros k Hkn. rewrite fmap_cons, not_elem_of_cons in Hkn. by apply Hk, Hkn.
    + intros d Hd. destruct (Hb d Hd) as [Hin Hrest]. split; [by right | done].
Qed.

Lemma BillingGuard_ok s s' sj : pc_Billing cf = true -> rq_Subject (p_req s) = Some sj -> NoDup (Key <$> x_Candidates (p_x s)) ->
  x_Candidates (p_x s) <> [] -> BillingGuard cf s = (s', None) ->
  x_Candidates (p_x s') <> [] /\ (forall c, c ∈ x_Candidates (p_x s') -> c ∈ x_Candidates (p_x s)) /\
  terms (p_req s') = terms (p_req s) /\ p_db s' = p_db s /\
  (sj_TenantID sj <> ""%string -> forall c, c ∈ x_Candidates (p_x s') ->
     exists snapshot cost, prepare_billing (p_req s) c = Ok (snapshot, cost) /\ rq_BillingSnapshots (p_req s') !! Key c = Some snapshot).
Proof.
  unfold BillingGuard. intros -> Hs Hnd Hne. rewrite Hs. cbn [negb]. destruct (str_eq (sj_TenantID sj) "") eqn:Ht.
  { intros [= <-]. apply str_eq_true in Ht. by split_and!. }
  destruct (x_Candidates (p_x s)) as [|c0 l0]; [done|]. destruct (price_candidates _ _ _) as [[m b] failed] eqn:Hp.
  destruct failed; [done|]. destruct b as [|c b]; [done|]. intros Hr.
  destruct (price_candidates_spec _ _ Hnd _ _ _ Hp) as [_ Hb].
  assert (E : x_Candidates (p_x s') = c :: b /\ terms (p_req s') = terms (p_req s) /\
    p_db s' = p_db s /\ rq_BillingSnapshots (p_req s') = m).
  { injection Hr as <-. repeat case_match; by split_and!. }
  destruct E as (-> & -> & -> & ->). split_and!; try done.
  - intros d Hd. by apply Hb.
  - intros _ d Hd. destruct (Hb d Hd) as [_ (snapshot & cost & ? & ?)]. by exists snapshot, cost.
Qed.
End Gates.
