(* ===== verification/PipelineProps.v ===== *)
(** * The serving pipeline: theorems

    What a request that reaches execution has passed, what one that is refused leaves
    behind, that every run ends and gives its slots back, and that the admission gate of
    queued tasks gives the verdict the pipeline will.  At the end the pipeline runs over
    the dispatch of [RoutePlanProps], the balances of a ledger, a price book and the
    scripted upstreams of [ExecuteProps], where the theorems have their instances. *)

From Stdlib Require Import QArith.
From S2P Require Import Prelude GoStrings UsageEvidence Decimal PriceTiers Request Availability Effect Classify.
From S2P Require Import ConcurrencyLimit Candidates ExecState RouteSelection RouteSelectionFacts Execute ExecuteFacts ExecuteLoop ExecuteProps PriceBookBilling Ledger.
From S2P Require Import Settlement SettlementFacts SettlementSystem.
From S2P Require Import CommercialDB Commercial Surfaces Dispatch Upstream Binder RouteSelector RouteFacts.
From S2P Require Import RoutePlanProps Pipeline PipelineFacts.
#[global] Open Scope Z_scope.

Section Props.
Context {W : Type} `{Ports W} {dispatch : CommercialDispatcher} {binder : RuntimeBindingResolver}.
Context {keys : APIKeyResolver} {subs : Subscriptions} {balances : AccountBalanceResolver}
  {billing : BillingSnapshotResolver} {sticky : StickyStore}.
Context (cf : PipeConfig) (inp : PipeInput) (digest : string -> string).
#[local] Abbreviation Pipe := (Pipe W).
Implicit Types s : Pipe.

(** A request as the engine builds it: nothing has happened to it. *)
Definition new_outcome (r : Request) : Prop :=
  rq_Attempts r = 0 /\ rq_HTTPStatus r = 0 /\ rq_RequestStatus r = ""%string /\ rq_ErrorCode r = ""%string /\
  rq_FailedStep r = ""%string /\ rq_ClientDeliveryState r = ""%string /\ rq_CancellationOrigin r = ""%string.
Definition new_request s : Prop :=
  fresh (p_x s) /\ p_Lease s = None /\ p_RegistrationRejected s = false /\
  new_outcome (p_req s).

Lemma frame_new s s1 : frame s1 = frame s -> new_outcome (p_req s) ->
  rq_RequestID (p_req s1) = rq_RequestID (p_req s) /\ new_outcome (p_req s1).
Proof.
  intros Hf. injection Hf as F1 F2 F3 F4 F5 F6 F7 F8 F9 F10 F11 F12 F13 F14 F15 F16 F17 F18 F19.
  unfold new_outcome, p_req. by rewrite F1, F5, F7, F9, F10, F11, F12, F13.
Qed.

(** ** The end of a run *)

Lemma usage_completion_req s : p_req (usage_completion cf inp s) = p_req s /\ p_world (usage_completion cf inp s) = p_world s /\
  p_redis (usage_completion cf inp s) = p_redis s /\ p_Lease (usage_completion cf inp s) = p_Lease s /\
  p_RegistrationRejected (usage_completion cf inp s) = p_RegistrationRejected s /\ p_x (usage_completion cf inp s) = p_x s.
Proof. unfold usage_completion. by destruct (Log _ _ _ _ _ _ _). Qed.
Lemma release_none s : p_Lease s = None -> releaseRateLimitLease inp s = s.
Proof. unfold releaseRateLimitLease. intros E. by rewrite E. Qed.
Lemma release_lease s : p_Lease (releaseRateLimitLease inp s) = None.
Proof. unfold releaseRateLimitLease. destruct (p_Lease s) eqn:E; [done | exact E]. Qed.

Lemma finish_slots e s : p_Lease (finish cf inp e s) = None /\
  p_redis (finish cf inp e s) = match p_Lease s with
                                | Some lease => LeaseRelease (pi_released inp) lease (p_redis s) | None => p_redis s end.
Proof.
  unfold finish. split; [apply release_lease|]. unfold releaseRateLimitLease.
  destruct (usage_completion_req (normalizePipelineError e s)) as (_ & _ & Er & El & _).
  rewrite El. change (p_Lease (normalizePipelineError e s)) with (p_Lease s).
  destruct (p_Lease s); [|exact Er]. simpl. by rewrite Er.
Qed.

(** ** Refusals *)

Lemma refused_stores s s1 : refused cf inp s s1 ->
  funds (p_db s1) = funds (p_db s) /\ s_settlements (p_db s1) = s_settlements (p_db s).
Proof.
  intros [E | [(_ & E & _) | (_ & at_ & e & s2 & _ & Hs & [_ Hr] & _)]]; [by injection E as _ -> _ | by rewrite E|].
  apply register_effect in Hr as (Hf & Hst & _). injection Hs as _ Hs _. by rewrite Hf, Hst, Hs.
Qed.

(** The end of a run that was refused in the state [s], without slots. *)
Lemma finish_refused s name a :
  new_outcome (p_req s) -> p_Lease s = None -> 400 <= ae_Status a -> ae_Status a <> 499 ->
  let s' := finish cf inp (Some (name, ApiErr a)) s in
  p_world s' = p_world s /\ funds (p_db s') = funds (p_db s) /\
  (forall w, w ∈ s_settlements (p_db s') -> w ∈ s_settlements (p_db s) \/
     (se_id w = rq_RequestID (p_req s) /\ se_state w = StateWaived /\ dues_of w = (0, 0, 0, 0))) /\
  (p_RegistrationRejected s' = false -> p_CompletionFailed s' = false ->
     exists k, s_keys (p_db s') !! rq_RequestID (p_req s) = Some k /\ is_Some (rk_sealed_at k)) /\
  rq_RequestStatus (p_req s') = RequestFailed /\ rq_FailedStep (p_req s') = name /\
  rq_HTTPStatus (p_req s') = ae_Status a /\ rq_ErrorCode (p_req s') = ae_Code a.
Proof.
  intros (Ha & Hh & Hst & Hec & Hfs & Hd & Hc) Hl Hge H9. cbv zeta. unfold finish.
  set (s1 := normalizePipelineError _ s).
  destruct (usage_completion_req s1) as (Hreq & Hw & _ & Hlease & Hrj & _).
  rewrite release_none by (rewrite Hlease; exact Hl). rewrite Hreq, Hw, Hrj.
  assert (E : rq_Attempts (p_req s1) = 0 /\ rq_HTTPStatus (p_req s1) = ae_Status a /\ rq_RequestStatus (p_req s1) = RequestFailed /\
    rq_ErrorCode (p_req s1) = ae_Code a /\ rq_FailedStep (p_req s1) = name /\ rq_ClientDeliveryState (p_req s1) = ""%string /\
    rq_CancellationOrigin (p_req s1) = ""%string /\ rq_RequestID (p_req s1) = rq_RequestID (p_req s)).
  { unfold s1, normalizePipelineError, p_req, p_set_req, p_set_x in *. simpl. rewrite Hh, Hst, Hec, Hfs. by split_and!. }
  destruct E as (E1 & E2 & E3 & E4 & E5 & E6 & E7 & E8).
  unfold usage_completion. pose proof (Log_refused (pi_now_log inp) (pi_now_seal inp) (pi_origin inp) (pc_Priced cf)
    (p_RegistrationRejected s1) (p_req s1) (p_db s1) E1 ltac:(by rewrite E2) ltac:(by rewrite E2) E6 E7) as HL.
  destruct (Log _ _ _ _ _ _ _) as [db res]. destruct HL as (Hf & Hs & Hk). rewrite E8 in Hs, Hk.
  split_and!; try done. simpl. intros Hr Hres. apply Hk; [done|]. by destruct res as [[]|].
Qed.

(** C7: a request that fails before execution costs nobody anything.  It calls no
    upstream and keeps no slot; no balance, no counter of an API key and no
    subscription changes; the only settlement it can leave is its own, waived and for
    nothing; it is on record as failed in that step with the status, at least 400, and
    the code its caller is answered; and unless registration was refused or the record
    could not be written, its key is sealed. *)
Theorem refused_request_costs_nothing fuel s name e s' :
  new_request s -> serve cf inp digest fuel s = Some (Some (name, e), s') -> name <> "execute"%string ->
  p_world s' = p_world s /\ p_Lease s' = None /\
  funds (p_db s') = funds (p_db s) /\
  (forall w, w ∈ s_settlements (p_db s') -> w ∈ s_settlements (p_db s) \/
     (se_id w = rq_RequestID (p_req s) /\ se_state w = StateWaived /\ dues_of w = (0, 0, 0, 0))) /\
  (p_RegistrationRejected s' = false -> p_CompletionFailed s' = false ->
     exists k, s_keys (p_db s') !! rq_RequestID (p_req s) = Some k /\ is_Some (rk_sealed_at k)) /\
  rq_RequestStatus (p_req s') = RequestFailed /\ rq_FailedStep (p_req s') = name /\
  exists a, e = ApiErr a /\ 400 <= ae_Status a /\
    rq_HTTPStatus (p_req s') = ae_Status a /\ rq_ErrorCode (p_req s') = ae_Code a.
Proof.
  intros (_ & Hlease & Hrej & Hr) Hrun Hname. rewrite serve_run in Hrun.
  destruct (chain (check_calls cf inp digest) s) as [s1 [[n e1]|]] eqn:Hc.
  2: { destruct (execute_step cf inp fuel s1) as [[[e2|] s2]|]; [|done..]. by injection Hrun as <-. }
  injection Hrun as -> -> <-. apply checks_refused in Hc as (Hf & (a & -> & Hst & H499) & _ & _ & Href).
  destruct (frame_new s s1 Hf Hr) as [Hid Hr1].
  assert (Hl : p_Lease s1 = None) by (rewrite <- Hlease; by injection Hf).
  destruct (finish_refused s1 name a Hr1 Hl Hst H499) as (Hw & Hfu & Hse & Hk & H1 & H2 & H3 & H4).
  apply refused_stores in Href as [R1 R2]. rewrite Hid, R2 in *.
  split_and!; try done.
  - rewrite Hw. by injection Hf.
  - apply finish_slots.
  - by rewrite Hfu.
  - by exists a.
Qed.

(** ** The end of every run *)

Lemma limited_exec s1 db s2 : limited cf inp s1 db s2 ->
  exec_frame (p_x s2) = exec_frame (p_x s1) /\ p_world s2 = p_world s1 /\ p_req s2 = p_req s1 /\
  ((p_Lease s2 = p_Lease s1 /\ p_redis s2 = p_redis s1) \/ acquired cf inp s1 = (Ok (p_Lease s2), p_redis s2)).
Proof.
  unfold limited. destruct (pc_Limiter cf); [intros (lease & r & Ha & ->) | intros ->]; split_and!; try done; [by right | by left].
Qed.

(** What the slots of a run are when it ends: never asked for, or given back. *)
Definition slots_returned s s' : Prop :=
  p_redis s' = p_redis s \/
  exists sj res r, RateLimiterAcquire (pc_DefaultInFlight cf) (pi_now inp) (pi_links inp) (pi_released inp) (pi_anonymous inp)
      sj (rq_RequestID (p_req s)) (pi_policies inp) (p_redis s) = (res, r) /\
    p_redis s' = match res with Ok (Some lease) => LeaseRelease (pi_released inp) lease r | _ => r end.

Lemma refused_slots s s1 s' : refused cf inp s s1 -> rq_RequestID (p_req s1) = rq_RequestID (p_req s) ->
  p_redis s' = p_redis s1 -> slots_returned s s'.
Proof.
  unfold slots_returned.
  intros [E | [(E & _) | (_ & at_ & e & s2 & Hq & Hst & _ & Ha)]] Hid ->; [left; by injection E | by left|].
  right. exists (rq_Subject (p_req s2)), (Err e), (p_redis s1). split; [|done].
  unfold acquired in Ha. injection Hst as Hst _ _. by rewrite <- Ha, Hst, <- Hid, Hq.
Qed.

(** The upstream call fails or not: the slots are released once. *)
Lemma served_slots s2 e : 
  p_redis (finish cf inp e (match e with Some _ => releaseRateLimitLease inp s2 | None => s2 end))
  = match p_Lease s2 with Some lease => LeaseRelease (pi_released inp) lease (p_redis s2) | None => p_redis s2 end.
Proof.
  destruct (finish_slots e (match e with Some _ => releaseRateLimitLease inp s2 | None => s2 end)) as [_ ->].
  destruct e; [|done]. unfold releaseRateLimitLease. destruct (p_Lease s2) eqn:El; simpl; [done | by rewrite El].
Qed.

Lemma finish_exec e s : p_x (finish cf inp e s) = p_x (normalizePipelineError e s).
Proof.
  unfold finish. rewrite <- (proj2 (proj2 (proj2 (proj2 (proj2 (usage_completion_req (normalizePipelineError e s))))))).
  unfold releaseRateLimitLease. by destruct (p_Lease _).
Qed.
Lemma release_exec s : p_x (releaseRateLimitLease inp s) = p_x s.
Proof. unfold releaseRateLimitLease. by destruct (p_Lease s). Qed.

(** C8: every run ends, whatever its collaborators answer: a request calls upstreams at
    most as often as its budget allows and never more than eight times, it succeeds
    only if it called one, and when it ends it holds no admission to an upstream and no
    slot; if it asked for slots, what it was given it has given back, once. *)
Theorem run_ends_and_gives_back s :
  new_request s ->
  exists n, forall fuel, (n <= fuel)%nat ->
    exists e s', serve cf inp digest fuel s = Some (e, s') /\
      Z.of_nat (length (x_Attempts (p_x s'))) <= Z.max 0 (Normalize (cf_MaxAttempts (pc_Exec cf))) <= 8 /\
      (e = None -> x_Attempts (p_x s') <> []) /\
      x_Permit (p_x s') = None /\ p_Lease s' = None /\ slots_returned s s'.
Proof.
  intros (Hfresh & Hlease & _ & Hr).
  assert (H8 : Z.max 0 (Normalize (cf_MaxAttempts (pc_Exec cf))) <= 8)
    by (unfold Normalize, maxUpstreamAttempts; destruct (8 <? _) eqn:H8; bool_prop; lia).
  destruct (chain (check_calls cf inp digest) s) as [s1 [[n e]|]] eqn:Hc.
  - exists 0%nat. intros fuel _. rewrite serve_run, Hc. eexists _, _. split; [reflexivity|].
    apply checks_refused in Hc as (Hf & _ & _ & _ & Href). destruct (frame_new s s1 Hf Hr) as [Hid _].
    rewrite finish_exec. injection Hf as F1 F2 F3 F4 F5 F6 F7 F8 F9 F10 F11 F12 F13 F14 F15 F16 F17 F18 F19.
    change (p_x (normalizePipelineError (Some (n, e)) s1)) with (set_req (p_req (normalizePipelineError (Some (n, e)) s1)) (p_x s1)).
    cbn [x_Attempts x_Permit set_req]. rewrite F14, F15. destruct Hfresh as (-> & -> & _ & _).
    split_and!; [simpl; lia | done | done | done | apply finish_slots|].
    eapply refused_slots; [exact Href | exact Hid|]. destruct (finish_slots (Some (n, e)) s1) as [_ ->].
    by rewrite F19, Hlease.
  - pose proof Hc as Hp. apply checks_passed in Hp as (s0 & at_ & db & (_ & Hf & Hst) & _ & Hlim).
    apply limited_exec in Hlim as (Hx & Hw & Hq & Hslots).
    destruct (frame_new s s0 Hf Hr) as [Hid _].
    assert (Hfr : fresh (p_x s1)).
    { injection Hf as F1 F2 F3 F4 F5 F6 F7 F8 F9 F10 F11 F12 F13 F14 F15 F16 F17 F18 F19.
      injection Hx as G1 G2 G3 G4 G5 G6 G7 G8 G9 G10 G11 G12 G13 G14 G15 G16 G17.
      unfold fresh in *. by rewrite G14, G15, G16, G17, F14, F15, F16, F17. }
    destruct (Execute_spec (pc_Exec cf) (exec_input inp s1) (p_x s1, p_world s1) Hfr) as [n Hn]. exists n. intros fuel Hle.
    destruct (wp_run _ _ _ (Hn fuel Hle)) as (e & [x w] & Hrun & Hset & Hlen & Hnone).
    assert (Hl : length (facts (x, w)) = length (x_Attempts x)) by (unfold facts; by rewrite length_fmap).
    rewrite Hl in *. rewrite serve_run, Hc. unfold execute_step. rewrite Hrun. set (s2 := p_set_world x w s1).
    set (e' := (fun e => ("execute"%string, e)) <$> e).
    exists e', (finish cf inp e' (match e' with Some _ => releaseRateLimitLease inp s2 | None => s2 end)).
    split; [by destruct e|]. rewrite finish_exec.
    assert (Hex : forall e0 s3, p_x s3 = x -> x_Attempts (p_x (normalizePipelineError e0 s3)) = x_Attempts x /\
      x_Permit (p_x (normalizePipelineError e0 s3)) = x_Permit x) by (by intros e0 s3 <-).
    destruct (Hex e' (match e' with Some _ => releaseRateLimitLease inp s2 | None => s2 end)) as [-> ->].
    { destruct e'; [by rewrite release_exec | done]. }
    split_and!; [done | done | | apply Hset | apply finish_slots|].
    + intros He Hnil. rewrite Hnil in Hnone. destruct e; [done|]. specialize (Hnone eq_refl). simpl in Hnone. lia.
    + unfold slots_returned. rewrite served_slots. change (p_Lease s2) with (p_Lease s1). change (p_redis s2) with (p_redis s1).
      injection Hst as Hst _ _. destruct Hslots as [[E1 E2] | Ha].
      * left. rewrite E1, E2, Hst. by injection Hf as _ _ _ _ _ _ _ _ _ _ _ _ _ _ _ _ _ _ ->; rewrite Hlease.
      * right. exists (rq_Subject (p_req s0)), (Ok (p_Lease s1)), (p_redis s1). split; [|by destruct (p_Lease s1)].
        unfold acquired in Ha. by rewrite <- Ha, Hst, Hid.
Qed.

(** ** What a request that reaches execution has passed *)

(** The gates that only read, all passed. *)
Definition admitted s s1 : Prop :=
  exists sj gate l,
    authenticated inp s sj /\ within_quota sj /\
    SubscriptionGate (pc_Subs cf) resolve_subscription (set_subject (Some sj) (p_req s)) = Ok gate /\
    funded gate sj (s_money (p_db s)) /\
    sel_result (SelectCandidates digest (route_input inp s) gate) = Ok l /\
    (terms (p_req s1) = terms gate \/ terms (p_req s1) = terms (to_payg gate)) /\
    x_Candidates (p_x s1) <> [] /\
    (forall c, c ∈ x_Candidates (p_x s1) -> c ∈ l /\
       (sj_TenantID sj <> ""%string -> exists priced snapshot cost, terms priced = terms (p_req s1) /\
          prepare_billing priced c = Ok (snapshot, cost) /\ rq_BillingSnapshots (p_req s1) !! Key c = Some snapshot)).

Lemma reading_admitted s s1 :
  x_Candidates (p_x s) = [] -> pc_Billing cf = true -> chain (reading_calls cf inp digest) s = (s1, None) -> admitted s s1.
Proof.
  intros Hno Hb. unfold reading_calls, gate_calls. cbn [chain].
  destruct (AuthN inp s) as [sa [?|]] eqn:HA; [done|]. apply AuthN_ok in HA as (sj & Hau & ->).
  destruct (QuotaCheck _) as [sb [?|]] eqn:HQ; [done|]. apply (QuotaCheck_ok _ _ sj) in HQ as [-> Hq]; [|done].
  destruct (SubscriptionGateStep _ _) as [sc [?|]] eqn:HS; [done|]. apply SubscriptionGateStep_ok in HS as (gate & Hg & ->).
  change (p_req (p_set_req ?r s)) with r in Hg. pose proof (SubscriptionGate_outcome _ _ _ _ Hg) as (_ & Hsj & _).
  destruct (BalanceGate _ _) as [sd [?|]] eqn:HB; [done|]. apply (BalanceGate_ok _ _ _ sj) in HB as (-> & _ & Hf); [|exact Hsj].
  destruct (RouteCandidates _ _ _ _) as [se [?|]] eqn:HR; [done|].
  apply RouteCandidates_ok in HR as (l & Hl & Hne & Hin & Hnd & Ht & _); [|exact Hno].
  assert (Hsj' : rq_Subject (p_req se) = Some sj).
  { injection Ht as -> _ _ _ _ _ _. destruct (SelectCandidates_terms digest (route_input inp s) gate) as [E | E].
    - etrans; [exact (f_equal rq_Subject E) | exact Hsj].
    - etrans; [exact (f_equal rq_Subject E) | exact Hsj]. }
  destruct (BillingGuard _ _) as [sf [?|]] eqn:HG; [done|]. intros [= <-].
  apply (BillingGuard_ok _ _ _ sj) in HG as (Hne' & Hin' & Ht' & _ & Hp); [|done..].
  exists sj, gate, l. split_and!; try done.
  - rewrite Ht', Ht. destruct (SelectCandidates_terms digest (route_input inp s) gate) as [E | E]; [left | right]; exact (f_equal terms E).
  - intros c Hc. split; [by apply Hin, Hin'|]. intros Hten. destruct (Hp Hten c Hc) as (snapshot & cost & H1 & H2).
    by exists (p_req se), snapshot, cost.
Qed.

(** C6: a request reaches execution only when its caller is known, by the request or
    by its token, has quota left, and draws on accounts that are in credit, but for the
    user of a subscription, who need only owe nothing; every route it may be sent on is
    one the selector chose for that caller under the subscription found, none is left
    without a price, and the prices it will be charged at are fixed; and it has been
    entered, not sealed, under an identifier never used before, without touching any
    money. *)
Theorem admitted_request s s' :
  x_Candidates (p_x s) = [] -> pc_Billing cf = true ->
  run_steps [] (checks cf inp digest) s = Some (None, s') ->
  admitted s s' /\
  s_keys (p_db s) !! rq_RequestID (p_req s) = None /\
  (exists k, s_keys (p_db s') !! rq_RequestID (p_req s) = Some k /\ rk_sealed_at k = None /\ rk_registered_at k = pi_now inp) /\
  admission_healthy (pi_accepting inp) (pi_now inp) (p_db s) = true /\
  funds (p_db s') = funds (p_db s) /\ s_settlements (p_db s') = s_settlements (p_db s).
Proof.
  intros Hno Hb. rewrite run_checks. destruct (chain _ s) as [s2 e] eqn:Hc. intros [= -> ->].
  apply checks_passed in Hc as (s1 & at_ & db & (Hread & Hf & Hst) & [Hh Hr] & Hlim).
  apply reading_admitted in Hread; [|done..]. apply register_effect in Hr as (Hfu & Hse & _ & (k & Hk & Hat & Hfresh) & _).
  assert (E : p_db s' = db /\ p_x s' = p_x s1).
  { unfold limited in Hlim. destruct (pc_Limiter cf); [by destruct Hlim as (? & ? & _ & ->) | by rewrite Hlim]. }
  destruct E as [-> Ex]. injection Hst as _ Hdb _. rewrite Hdb in *.
  assert (Hid : rq_RequestID (p_req s1) = rq_RequestID (p_req s)) by (by injection Hf).
  rewrite Hid in *. destruct (Hfresh eq_refl) as (-> & Hold & ->).
  split_and!; try done; [|by eexists].
  unfold admitted, p_req in *. by rewrite Ex.
Qed.
End Props.

(** ** The admission gate of queued tasks *)

Section Admission.
Context {W : Type} `{Ports W} {dispatch : CommercialDispatcher} {binder : RuntimeBindingResolver}.
Context {keys : APIKeyResolver} {subs : Subscriptions} {balances : AccountBalanceResolver}
  {billing : BillingSnapshotResolver} {sticky : StickyStore}.
Context (cf : PipeConfig) (inp : PipeInput) (digest : string -> string) (a : AdmissionInput).
Implicit Types s : Pipe W.

(** The state its gates run in. *)
Definition admission_start s : Pipe W :=
  MkPipe (new_exec (admission_request a) (ai_ModelCode a)) false None [] None false false (p_redis s) (p_db s) (p_world s).

Lemma Admit_chain s : Admit cf inp digest a s =
  snd <$> (chain (reading_calls cf (admission_input a inp) digest) (admission_start s)).2.
Proof.
  unfold Admit, reading_calls. fold (admission_start s). cbn [chain].
  change (AuthN _ (admission_start s)) with (admission_start s, @None exec_error). cbv beta iota.
  generalize (admission_start s) as s0. intros s0. unfold gates, gate_calls, plain_step. cbn [run_gates chain step_Execute].
  repeat (match goal with |- context [let '(_, _) := ?f ?s in _] => destruct (f s) as [? [?|]] eqn:? end; [reflexivity|];
          cbv beta iota; cbn [step_Execute]). reflexivity.
Qed.

(** C32: the gate that admits a queued task gives the verdict the pipeline would: what
    it answers is what a run of the pipeline on the request it makes up ends with,
    refused by one of the same gates, and a task it lets through is one whose owner has
    quota, is in credit and has a priced route. *)
Theorem admission_is_the_pipelines_verdict s :
  pc_Billing cf = true ->
  match Admit cf inp digest a s with
  | Some e => exists name, name ∈ step_Name <$> gates (W := W) cf (admission_input a inp) digest /\
      forall fuel, exists s', serve cf (admission_input a inp) digest fuel (admission_start s) = Some (Some (name, e), s')
  | None => exists s1, admitted cf (admission_input a inp) digest (admission_start s) s1
  end.
Proof.
  intros Hb. rewrite Admit_chain. set (inp' := admission_input a inp). set (s0 := admission_start s).
  pose proof (chain_gates _ (gate_reading cf inp' digest) s0) as (_ & _ & Hn).
  destruct (chain (reading_calls cf inp' digest) s0) as [s1 [[name e]|]] eqn:Hc; cbn [fst snd] in *.
  - cbn [fmap option_fmap option_map snd]. destruct (Hn name e eq_refl) as [_ Hin]. exists name. split.
    + unfold reading_calls in Hin. cbn [fmap list_fmap fst] in Hin. apply elem_of_cons in Hin as [-> | Hin]; [|exact Hin].
      exfalso. revert Hc. unfold reading_calls. cbn [chain]. change (AuthN inp' s0) with (s0, @None exec_error). cbv beta iota.
      intros Hc. pose proof (chain_gates (gate_calls cf inp' digest) (proj2 (Forall_cons_1 _ _ _ (gate_reading cf inp' digest))) s0) as (_ & _ & Hm).
      rewrite Hc in Hm. destruct (Hm _ _ eq_refl) as [_ Hin]. revert Hin. apply (bool_decide_unpack (_ ∉ _)). vm_compute. exact I.
    + intros fuel. rewrite serve_run, check_calls_split, chain_app, Hc. by eexists.
  - exists s1. by apply reading_admitted.
Qed.
End Admission.

(** ** Concrete runs *)

#[local] Instance demo_dispatcher : CommercialDispatcher := ResolveDispatch demo_no_regexp demo_tables demo_tables demo_tables.
Definition demo_direct_udb : udb :=
  MkUDB [MkAccount "u1" "Primary" "public" "" None "cost" (Some (Finite 1)) "active"] [] [MkEndpoint "e1" "u1" "openai_chat" "https://example.test" "" "bearer" "" ∅ "active"]
    (u_models demo_udb) (u_policies demo_udb) [].
#[local] Instance demo_binder : RuntimeBindingResolver :=
  ResolveRuntimeBinding (secrets := demo_secrets) (support := runtime_support) demo_direct_udb.
(** A key of the user that names no group. *)
Definition demo_pipe_caller : Subject := MkSubject "api_key" "api_key" "user" "t1" "user1" "k1" "" [] None 0 "".
#[local] Instance demo_keys : APIKeyResolver := fun token =>
  if str_eq token "sk-demo" then Some demo_pipe_caller else None.
(** The user's plan pays for the group [g2] only. *)
#[local] Instance demo_subs : Subscriptions := fun _ _ =>
  Some (MkSubDecision true "s1" (demo_weights "g2")).
#[local] Instance demo_balances : AccountBalanceResolver := ledger_balances.
Definition demo_tier : TokenPriceTier :=
  MkTier None (Finite (Qmake 1 1000000)) (Finite (Qmake 2 1000000)) (Finite 0) (Finite 0).
Definition demo_price (book : string) : PriceBookEntry :=
  MkEntry "e" book "gpt" "chat" [demo_tier] (Finite 0) (Finite 0) [] [] (Finite 0) (Finite 0) "manual" true.
#[local] Instance demo_billing : BillingSnapshotResolver := fun r c =>
  PrepareBilling [demo_price "book"; demo_price "cost"] [] (MkEstimate 300 0 0 0 0 "") r (Some c).
#[local] Instance demo_sticky : StickyStore := fun _ _ _ _ => Some None.

Definition demo_pipe_config : PipeConfig := MkPipeConfig true true true false true true 2 demo_config.
Definition demo_pipe_link (i : nat) : link := MkLink 0 Answered.
Definition demo_pipe_input (token : string) : PipeInput :=
  MkPipeInput demo_input (Some ("Bearer " +:+ token)) "" true 1000 0 "anon" demo_pipe_link demo_pipe_link (Some []) 2000 3000.
Definition demo_accounts (user : Z) : ledger_db :=
  LedgerDB {[ "t1"%string := Account KindTenant "t1" 5000000; "user1"%string := Account KindUser "t1" user ]} [].
Definition demo_store (user : Z) : st_db := StDB ∅ None [] [] [] ∅ (demo_accounts user) {[ "k1"%string := 0 ]} [] [].
Definition demo_new (user : Z) (w : script) : Pipe script :=
  MkPipe (new_exec (MkRequest "req1" "chat" "sync" "standard" None None 0 false no_usage no_evidence "" ∅ no_billing "" "" ∅
                      "" "" "" "" "" "" 0 "" "" "") "gpt-latest")
    false None [] None false false ∅ (demo_store user) w.

Abbreviation demo_serve token user w := (serve demo_pipe_config (demo_pipe_input token) demo_digest 20 (demo_new user w)).
Abbreviation demo_checked token user := (chain (check_calls demo_pipe_config (demo_pipe_input token) demo_digest) (demo_new user [])).

(** The step that failed, the status, and what the run leaves of the slots. *)
Definition demo_summary (r : option (option (string * exec_error) * Pipe script)) : option (string * string * Z * string * bool) :=
  match r with
  | Some (e, s) => Some (default ""%string (fst <$> e), rq_RequestStatus (p_req s), rq_HTTPStatus (p_req s),
                         rq_BillingSource (p_req s), bool_decide (p_redis s = ∅))
  | None => None
  end.
Example demo_served : demo_summary (demo_serve "sk-demo" 7000000 [answered 200 ""])
  = Some (""%string, RequestSuccess, 0, BillingSourcePayg, true).
Proof. vm_compute. reflexivity. Qed.
Example demo_unknown_key : demo_summary (demo_serve "sk-other" 7000000 [])
  = Some ("authn"%string, RequestFailed, 401, ""%string, true).
Proof. vm_compute. reflexivity. Qed.
Example demo_in_debt : demo_summary (demo_serve "sk-demo" (-1) [])
  = Some ("balance_gate"%string, RequestFailed, 402, BillingSourceSubscription, true).
Proof. vm_compute. reflexivity. Qed.
(** An upstream that cannot be reached: the request fails in execution. *)
Example demo_unreachable : demo_summary (demo_serve "sk-demo" 7000000 [unreachable])
  = Some ("execute"%string, RequestFailed, 502, BillingSourcePayg, true).
Proof. vm_compute. reflexivity. Qed.

(** A user whose balance is exactly zero passes the balance gate as a subscriber, falls
    back to pay-as-you-go when the plan pays for no open group, and is served; made
    pay-as-you-go to begin with, the same request is refused. *)
Lemma zero_balance_is_served_payg :
  demo_summary (demo_serve "sk-demo" 0 [answered 200 ""]) = Some (""%string, RequestSuccess, 0, BillingSourcePayg, true) /\
  forall r, rq_Subject r = Some demo_pipe_caller -> rq_BillingSource r = BillingSourcePayg ->
    balance_verdict demo_pipe_config r (demo_accounts 0) = Some (insufficient "user USD balance is exhausted; recharge before continuing").
Proof.
  split; [vm_compute; reflexivity|]. intros r Hs Hb. unfold balance_verdict. rewrite Hs, Hb. vm_compute. reflexivity.
Qed.

(** *** Instances of the properties *)

Lemma demo_is_new user w : new_request (demo_new user w).
Proof. by split_and!. Qed.

Definition demo_debt_error : exec_error := insufficient "user account has outstanding debt; recharge before continuing".
Lemma demo_debt_answer : fst <$> demo_serve "sk-demo" (-1) [] = Some (Some ("balance_gate"%string, demo_debt_error)).
Proof. vm_compute. reflexivity. Qed.
Lemma demo_debt_run : exists s, demo_serve "sk-demo" (-1) [] = Some (Some ("balance_gate"%string, demo_debt_error), s).
Proof.
  pose proof demo_debt_answer as Ha. apply fmap_Some in Ha as ([e s] & Hrun & He). exists s. cbn [fst] in He. rewrite He. exact Hrun.
Qed.
Lemma refused_request_costs_nothing_witness :
  exists s : Pipe script, funds (p_db s) = funds (demo_store (-1)) /\ rq_FailedStep (p_req s) = "balance_gate"%string.
Proof.
  destruct demo_debt_run as [s Hrun].
  destruct (refused_request_costs_nothing demo_pipe_config (demo_pipe_input "sk-demo") demo_digest 20 (demo_new (-1) []) _ _ s
    (demo_is_new _ _) Hrun) as (_ & _ & Hf & _ & _ & _ & Hs & _); [discriminate|].
  exists s. split; [exact Hf | exact Hs].
Defined.

Lemma run_ends_and_gives_back_witness :
  exists n, forall fuel, (n <= fuel)%nat ->
    exists e s', serve demo_pipe_config (demo_pipe_input "sk-demo") demo_digest fuel (demo_new 7000000 [answered 200 ""]) = Some (e, s') /\
      p_Lease s' = None.
Proof.
  destruct (run_ends_and_gives_back demo_pipe_config (demo_pipe_input "sk-demo") demo_digest _ (demo_is_new 7000000 [answered 200 ""])) as [n Hn].
  exists n. intros fuel Hle. destruct (Hn fuel Hle) as (e & s' & Hrun & _ & _ & _ & Hl & _). exists e, s'. split; [exact Hrun | exact Hl].
Defined.

Definition demo_admitted : Pipe script := Eval vm_compute in (demo_checked "sk-demo" 7000000).1.
Lemma demo_checks : run_steps [] (checks demo_pipe_config (demo_pipe_input "sk-demo") demo_digest) (demo_new 7000000 []) = Some (None, demo_admitted).
Proof. vm_compute. reflexivity. Qed.
Lemma admitted_request_witness :
  x_Candidates (p_x (demo_new 7000000 [])) = [] /\ s_settlements (p_db demo_admitted) = [] /\
  exists sj, authenticated (demo_pipe_input "sk-demo") (demo_new 7000000 []) sj.
Proof.
  destruct (admitted_request demo_pipe_config (demo_pipe_input "sk-demo") demo_digest (demo_new 7000000 []) demo_admitted
    eq_refl eq_refl demo_checks) as ((sj & gate & l & Ha & _) & _ & _ & _ & _ & Hs).
  split; [reflexivity|]. split; [exact Hs | exists sj; exact Ha].
Defined.

(** A task whose owner is in debt. *)
Definition demo_admission : AdmissionInput := MkAdmission demo_pipe_caller "gpt-latest" "gpt-latest" "" "chat" "openai_chat".
Example demo_admits : Admit demo_pipe_config (demo_pipe_input "") demo_digest demo_admission (demo_new 7000000 []) = None.
Proof. vm_compute. reflexivity. Qed.
Example demo_admits_not : Admit demo_pipe_config (demo_pipe_input "") demo_digest demo_admission (demo_new 0 [])
  = Some (insufficient "user USD balance is exhausted; recharge before continuing").
Proof. vm_compute. reflexivity. Qed.
Lemma admission_is_the_pipelines_verdict_witness :
  exists name s', serve demo_pipe_config (admission_input demo_admission (demo_pipe_input "")) demo_digest 0
    (admission_start demo_admission (demo_new 0 [])) = Some (Some (name, insufficient "user USD balance is exhausted; recharge before continuing"), s').
Proof.
  pose proof (admission_is_the_pipelines_verdict demo_pipe_config (demo_pipe_input "") demo_digest demo_admission (demo_new 0 []) eq_refl) as Hv.
  rewrite demo_admits_not in Hv. destruct Hv as (name & _ & Hs). destruct (Hs 0%nat) as [s' Hrun]. exists name, s'. exact Hrun.
Defined.
