(* ===== verification/Auth.v ===== *)
(** * Accounts, sessions and credentials

    The tables behind signing in ([src/internal/db/init.sql], [src/internal/auth]): the
    accounts of tenants, sessions with their refresh tokens ([SessionService],
    [session.go]), one-time activation tokens ([ActivationService], [activation.go]), the
    enrolment of a second factor ([mfa.go]), the writers of accounts and tenants
    ([auth/pg], [user/pg], [tenant/pg]) and the trigger that revokes the sessions of an
    account that changed; the validation of access tokens ([jwt.go]) and of queued tasks
    ([gateway/runtime_owner.go]).

    A transaction is a [Tx] on the tables.  Raw tokens appear as their hashes; random
    tokens and ids, the clock, bcrypt and the parsing of UUIDs are arguments.  Names,
    e-mail addresses and other columns no check reads are left out. *)

From S2P Require Import Prelude GoStrings.
#[global] Open Scope Z_scope.

(** ** Tables *)

Record account_row := MkAccountRow {
  ia_tenant : option string; ia_username : string; ia_password : string; ia_type : Z;
  ia_status : string; ia_cv : Z; ia_cstate : string;
  ia_mfa_secret : option string; ia_mfa_enabled : bool }.
Record auth_session := MkSession {
  as_user : string; as_cv : Z; as_status : string; as_expires : Z;
  as_revoked : option Z; as_reason : option string }.
Record refresh_token := MkRefresh {
  rt_session : string; rt_status : string; rt_expires : Z;
  rt_consumed : option Z; rt_replaced : option string }.
Record activation_token := MkActivation {
  ac_user : string; ac_purpose : string; ac_expires : Z; ac_consumed : option Z; ac_created : Z }.

Record auth_db := AuthDB {
  d_tenants : gmap string string;          (* the status of each tenant *)
  d_accounts : gmap string account_row;
  d_sessions : gmap string auth_session;
  d_refresh : gmap string refresh_token;   (* by hash *)
  d_activation : gmap string activation_token }.
Definition set_tenants x db := AuthDB x (d_accounts db) (d_sessions db) (d_refresh db) (d_activation db).
Definition set_account_rows x db := AuthDB (d_tenants db) x (d_sessions db) (d_refresh db) (d_activation db).
Definition set_sessions x db := AuthDB (d_tenants db) (d_accounts db) x (d_refresh db) (d_activation db).
Definition set_refresh x db := AuthDB (d_tenants db) (d_accounts db) (d_sessions db) x (d_activation db).
Definition set_activation x db := AuthDB (d_tenants db) (d_accounts db) (d_sessions db) (d_refresh db) x.

Inductive auth_error :=
| ErrInvalidRefreshToken
| ErrRefreshTokenReused
| ErrSessionInactive
| ErrAccountInactive
| ErrTenantInactive
| ErrInvalidActivationToken
| ErrExpiredActivationToken
| ErrUsedActivationToken
| ErrWeakPassword
| ErrMFAUnavailable
| ErrInvalidMFACode
| ErrMFAAlreadyEnabled
| ErrAuthNoRows
| ErrNoSigningKey
| ErrAuthSQL (what : string).
Abbreviation ATx := (Tx auth_db auth_error).

Definition Active : string := "active".
Definition Revoked : string := "revoked".
Definition Consumed : string := "consumed".
Definition PendingActivation : string := "pending_activation".
Definition Deleted : string := "deleted".
Definition InheritedDisabled : string := "inherited_disabled".
Definition col_eq (x y : string) : bool := bool_decide (x = y).

(** ** Constraints and the trigger *)

(** [iam_accounts_status_check], [iam_accounts_tenant_pairing_check] and the checks of
    the columns. *)
Definition status_allowed (type : Z) (status : string) : bool :=
  if (type =? 1) || (type =? 2) then col_eq status Active || col_eq status "disabled"
  else if type =? 3 then col_eq status Active || col_eq status "disabled" || col_eq status InheritedDisabled
  else if type =? 4 then
    col_eq status Active || col_eq status "disabled" || col_eq status "locked" || col_eq status InheritedDisabled || col_eq status Deleted
  else false.
Definition account_check (a : account_row) : bool :=
  status_allowed (ia_type a) (ia_status a) &&
  eqb (bool_decide (is_Some (ia_tenant a))) ((ia_type a =? 3) || (ia_type a =? 4)) &&
  (0 <? ia_cv a) && (ia_cv a <=? int64_max) &&
  (col_eq (ia_cstate a) Active || col_eq (ia_cstate a) PendingActivation) &&
  negb (col_eq (ia_username a) "").
(** The rows, [ux_iam_accounts_username_normalized] and the reference to the tenant. *)
Definition accounts_check (tenants : gmap string string) (accounts : gmap string account_row) : bool :=
  let rows := snd <$> map_to_list accounts in
  forallb account_check rows &&
  forallb (fun a => match ia_tenant a with Some t => bool_decide (is_Some (tenants !! t)) | None => true end) rows &&
  bool_decide (NoDup ((fun a => ToLower (ia_username a)) <$> rows)).

(** [auth_revoke_sessions_on_account_change] *)
Definition account_changed (old new : account_row) : bool :=
  negb (col_eq (ia_status new) (ia_status old)) || negb (ia_cv new =? ia_cv old) ||
  negb (ia_type new =? ia_type old) || negb (bool_decide (ia_tenant new = ia_tenant old)).
Definition change_reason (old new : account_row) : string :=
  if negb (col_eq (ia_status new) (ia_status old)) then "account_status_changed"
  else if negb (ia_cv new =? ia_cv old) then "credential_changed"
  else if negb (ia_type new =? ia_type old) then "account_role_changed"
  else "tenant_scope_changed".
Definition revoke (now : Z) (reason : string) (s : auth_session) : auth_session :=
  MkSession (as_user s) (as_cv s) Revoked (as_expires s)
    (match as_revoked s with Some t => Some t | None => Some now end) (Some reason).
Definition trigger_session (now : Z) (old new : gmap string account_row) (s : auth_session) : auth_session :=
  match old !! as_user s, new !! as_user s with
  | Some a, Some b => if account_changed a b && col_eq (as_status s) Active then revoke now (change_reason a b) s else s
  | _, _ => s
  end.

(** [UPDATE iam_accounts SET ... WHERE ...]: the number of rows. *)
Definition update_accounts (now : Z) (p : string -> account_row -> bool) (f : account_row -> account_row) : ATx Z :=
  let! db := tx_get in
  let old := d_accounts db in
  let new := map_imap (fun id a => Some (if p id a then f a else a)) old in
  tx_guard (negb (accounts_check (d_tenants db) new)) (ErrAuthSQL "constraint of iam_accounts") ;;;
  tx_put (set_sessions (trigger_session now old new <$> d_sessions db) (set_account_rows new db)) ;;;
  tx_ret (Z.of_nat (size (filter (fun '(id, a) => p id a = true) old))).

(** [INSERT INTO iam_accounts] *)
Definition insert_account (id : string) (a : account_row) : ATx unit :=
  let! db := tx_get in
  let new := <[id := a]> (d_accounts db) in
  tx_guard (bool_decide (is_Some (d_accounts db !! id)) || negb (accounts_check (d_tenants db) new))
    (ErrAuthSQL "constraint of iam_accounts") ;;;
  tx_put (set_account_rows new db).

(** [DELETE FROM iam_accounts WHERE ...], which cascades to the sessions, their refresh
    tokens and the activation tokens. *)
Definition drop_sessions (p : string -> auth_session -> bool) (db : auth_db) : auth_db :=
  let kept := filter (fun '(id, s) => p id s = false) (d_sessions db) in
  set_refresh (filter (fun '(_, t) => is_Some (kept !! rt_session t)) (d_refresh db)) (set_sessions kept db).
Definition delete_accounts (p : string -> account_row -> bool) : ATx Z :=
  let! db := tx_get in
  let kept := filter (fun '(id, a) => p id a = false) (d_accounts db) in
  tx_put (set_activation (filter (fun '(_, t) => is_Some (kept !! ac_user t)) (d_activation db))
    (drop_sessions (fun _ s => negb (bool_decide (is_Some (kept !! as_user s)))) (set_account_rows kept db))) ;;;
  tx_ret (Z.of_nat (size (d_accounts db)) - Z.of_nat (size kept)).

(** ** Sessions ([SessionService]) *)

Definition DaySeconds : Z := 86400.
Definition Sec : Z := 1000000000.

(** [Principal], the fields sessions use. *)
Record Principal := MkPrincipal {
  pr_UserID : string; pr_TenantID : string; pr_UserType : Z; pr_CredentialVersion : Z }.
(** [Claims] of an access token. *)
Record Claims := MkClaims {
  cl_SessionID : string; cl_UserID : string; cl_CredentialVersion : Z; cl_UserType : Z; cl_TenantID : string;
  cl_TenantOperations : bool; cl_OperatorID : string; cl_OperatorUserType : Z; cl_ExpiresAt : Z }.

(** [COALESCE(t.status, 'active')] of the account's tenant. *)
Definition tenant_status (db : auth_db) (a : account_row) : string :=
  match ia_tenant a with Some t => default Active (d_tenants db !! t) | None => Active end.
Definition tenant_id (a : account_row) : string := default ""%string (ia_tenant a).

(** [GenerateAccessToken], given that a key can sign. *)
Definition GenerateAccessToken (now ttl : Z) (p : Principal) (sid : string) : Claims :=
  MkClaims sid (pr_UserID p) (pr_CredentialVersion p) (pr_UserType p) (pr_TenantID p) false "" 0 (now + ttl).

(** [INSERT INTO auth_refresh_tokens], with [ux_auth_refresh_tokens_active_session]. *)
Definition active_in (sid : string) (t : refresh_token) : bool := col_eq (rt_session t) sid && col_eq (rt_status t) Active.
Definition insert_refresh (hash sid : string) (expires : Z) : ATx unit :=
  let! db := tx_get in
  tx_guard (bool_decide (is_Some (d_refresh db !! hash)) || existsb (fun '(_, t) => active_in sid t) (map_to_list (d_refresh db)))
    (ErrAuthSQL "constraint of auth_refresh_tokens") ;;;
  tx_put (set_refresh (<[hash := MkRefresh sid Active expires None None]> (d_refresh db)) db).

Section Sessions.
(** Whether this replica holds a signing key, and the lifetime of its access tokens. *)
Context (can_sign : bool) (accessTTL : Z).

(** [Create] *)
Definition sessions_Create (now refreshTTL : Z) (sid hash : string) (p : Principal) : ATx Claims :=
  let! db := tx_get in
  match d_accounts db !! pr_UserID p with
  | None => tx_fail ErrAccountInactive
  | Some a =>
      tx_guard (negb (col_eq (ia_status a) Active) || negb (col_eq (ia_cstate a) Active) ||
                negb (ia_cv a =? pr_CredentialVersion p)) ErrAccountInactive ;;;
      tx_guard ((3 <=? pr_UserType p) && negb (col_eq (tenant_status db a) Active)) ErrTenantInactive ;;;
      tx_guard (bool_decide (is_Some (d_sessions db !! sid))) (ErrAuthSQL "constraint of auth_sessions") ;;;
      tx_put (set_sessions (<[sid := MkSession (pr_UserID p) (pr_CredentialVersion p) Active (now + refreshTTL) None None]>
                (d_sessions db)) db) ;;;
      insert_refresh hash sid (now + refreshTTL) ;;;
      tx_guard (negb can_sign) ErrNoSigningKey ;;;
      tx_ret (GenerateAccessToken now accessTTL p sid)
  end.

(** [revokeSessionTx] *)
Definition consume (now : Z) (t : refresh_token) : refresh_token :=
  MkRefresh (rt_session t) Consumed (rt_expires t)
    (match rt_consumed t with Some c => Some c | None => Some now end) (rt_replaced t).
Definition revokeSessionTx (now : Z) (reason sid : string) : ATx unit :=
  let! db := tx_get in
  tx_put (set_refresh ((fun t => if active_in sid t then consume now t else t) <$> d_refresh db)
    (set_sessions (alter (revoke now reason) sid (d_sessions db)) db)).

(** What makes a refresh token unusable, in the order of the switch. *)
Definition refresh_verdict (now : Z) (db : auth_db) (t : refresh_token) (s : auth_session) (a : account_row)
    : option (string * auth_error) :=
  if (rt_expires t <=? now) || (as_expires s <=? now) then Some ("session_expired"%string, ErrInvalidRefreshToken)
  else if negb (col_eq (ia_status a) Active) then Some ("account_inactive"%string, ErrAccountInactive)
  else if negb (col_eq (ia_cstate a) Active) then Some ("credential_inactive"%string, ErrSessionInactive)
  else if negb (as_cv s =? ia_cv a) then Some ("credential_changed"%string, ErrSessionInactive)
  else if (3 <=? ia_type a) && negb (col_eq (tenant_status db a) Active) then Some ("tenant_inactive"%string, ErrTenantInactive)
  else None.

(** [Rotate]: an error that is answered after a commit is a value. *)
Definition sessions_Rotate (now : Z) (presentedHash newHash : string) : ATx (result auth_error Claims) :=
  let! db := tx_get in
  match d_refresh db !! presentedHash with
  | None => tx_fail ErrInvalidRefreshToken
  | Some t =>
      match d_sessions db !! rt_session t with
      | None => tx_fail ErrInvalidRefreshToken
      | Some s =>
          match d_accounts db !! as_user s with
          | None => tx_fail ErrInvalidRefreshToken
          | Some a =>
              if negb (col_eq (as_status s) Active) then tx_fail ErrSessionInactive
              else if negb (col_eq (rt_status t) Active) then
                revokeSessionTx now "refresh_token_reused" (rt_session t) ;;; tx_ret (Err ErrRefreshTokenReused)
              else match refresh_verdict now db t s a with
              | Some (reason, e) => revokeSessionTx now reason (rt_session t) ;;; tx_ret (Err e)
              | None =>
                  tx_guard (negb can_sign) ErrNoSigningKey ;;;
                  tx_put (set_refresh (<[presentedHash := MkRefresh (rt_session t) Consumed (rt_expires t) (Some now) (Some newHash)]>
                            (d_refresh db)) db) ;;;
                  insert_refresh newHash (rt_session t) (as_expires s) ;;;
                  tx_ret (Ok (GenerateAccessToken now accessTTL
                                (MkPrincipal (as_user s) (tenant_id a) (ia_type a) (ia_cv a)) (rt_session t)))
              end
          end
      end
  end.
End Sessions.

(** [Revoke]; [parse] is the parsing of the id. *)
Definition sessions_Revoke (parse : string -> option string) (now : Z) (sid reason : string) : ATx unit :=
  match parse sid with None => tx_fail ErrSessionInactive | Some id => revokeSessionTx now reason id end.

(** [DeleteExpired]: the sessions that expired first, in batches. *)
Definition expired_sessions (now : Z) (db : auth_db) : list (string * auth_session) :=
  order_by (fun x y => as_expires x.2 <=? as_expires y.2)
    (List.filter (fun '(_, s) => as_expires s <=? now) (map_to_list (d_sessions db))).
Definition sessions_DeleteExpired (now limit : Z) : ATx Z :=
  let! db := tx_get in
  let limit := if limit <=? 0 then 1000 else limit in
  let victims := fst <$> take (Z.to_nat limit) (expired_sessions now db) in
  tx_put (drop_sessions (fun id _ => bool_decide (id ∈ victims)) db) ;;;
  tx_ret (Z.of_nat (length victims)).

(** ** Access tokens ([validateAccessSession]) *)

(** The conditions both queries share. *)
Definition session_open (now : Z) (sid user : string) (version type : Z) (db : auth_db) : option account_row :=
  match d_sessions db !! sid with
  | Some s =>
      match d_accounts db !! as_user s with
      | Some a =>
          if col_eq (as_user s) user && col_eq (as_status s) Active && (now <? as_expires s) && (as_cv s =? version)
             && (ia_cv a =? version) && (ia_type a =? type) && col_eq (ia_status a) Active && col_eq (ia_cstate a) Active
          then Some a else None
      | None => None
      end
  | None => None
  end.
Definition tenant_active (db : auth_db) (t : string) : bool := bool_decide (d_tenants db !! t = Some Active).

(** [validateTenantOperationsSession] *)
Definition validateTenantOperationsSession (now : Z) (c : Claims) (db : auth_db) : bool :=
  negb (col_eq (cl_OperatorID c) "") && col_eq (cl_OperatorID c) (cl_UserID c) &&
  ((cl_OperatorUserType c =? 1) || (cl_OperatorUserType c =? 2)) && (cl_UserType c =? 3) && negb (col_eq (cl_TenantID c) "") &&
  match session_open now (cl_SessionID c) (cl_OperatorID c) (cl_CredentialVersion c) (cl_OperatorUserType c) db with
  | Some a => col_eq (tenant_id a) "" && tenant_active db (cl_TenantID c)
  | None => false
  end.
Definition validateAccessSession (now : Z) (c : Claims) (db : auth_db) : bool :=
  if col_eq (cl_SessionID c) "" || (cl_CredentialVersion c <=? 0) then false
  else if cl_TenantOperations c then validateTenantOperationsSession now c db
  else match session_open now (cl_SessionID c) (cl_UserID c) (cl_CredentialVersion c) (cl_UserType c) db with
  | Some a => col_eq (tenant_id a) (cl_TenantID c) &&
              ((ia_type a <? 3) || match ia_tenant a with Some t => tenant_active db t | None => false end)
  | None => false
  end.

(** What [ParseToken] relies on of the JWT library: [exp_valid e now], the check at [now]
    of a token signed to expire at [e], refuses from [e] on, and accepts before it, up to
    the fraction of a second the claim drops. *)
Record jwt_expiry (exp_valid : Z -> Z -> bool) : Prop := MkJwtExpiry {
  jwt_refused : forall e t, e <= t -> exp_valid e t = false;
  jwt_accepted : forall e t, t < e - Sec -> exp_valid e t = true }.

(** [ParseToken] of an access token of a user that a known key signed for this issuer:
    the library checks its expiry, then its session is looked up. *)
Definition ParseToken (exp_valid : Z -> Z -> bool) (now : Z) (c : Claims) (db : auth_db) : bool :=
  exp_valid (cl_ExpiresAt c) now && validateAccessSession now c db.

(** [GenerateTenantOperationsAccessToken]: [None] is an error. *)
Definition GenerateTenantOperationsAccessToken (now : Z) (operator : Claims) (tenantID : string) : option Claims :=
  if cl_TenantOperations operator || negb ((cl_UserType operator =? 1) || (cl_UserType operator =? 2)) then None
  else if col_eq (cl_SessionID operator) "" || col_eq (cl_UserID operator) "" || (cl_CredentialVersion operator <=? 0) ||
          col_eq tenantID "" then None
  else
    let expiresAt := Z.min (cl_ExpiresAt operator) (now + 3600 * Sec) in
    if expiresAt - now <=? 0 then None
    else Some (MkClaims (cl_SessionID operator) (cl_UserID operator) (cl_CredentialVersion operator) 3 tenantID true
                 (cl_UserID operator) (cl_UserType operator) expiresAt).

(** [verifyRuntimeJWTTaskSubject]: the session of the user who queued a task. *)
Definition task_session_valid (now : Z) (tenantID authUser : string) (authType : Z) (sid : string) (version : Z) (userID : string)
    (db : auth_db) : bool :=
  if col_eq tenantID "" || col_eq authUser "" || (authType <? 1) || (4 <? authType) || col_eq sid "" || (version <=? 0) then false
  else match session_open now sid authUser version authType db with
  | Some a =>
      tenant_active db tenantID &&
      ((negb (col_eq userID "") && (authType =? 4) && col_eq userID authUser && bool_decide (ia_tenant a = Some tenantID)) ||
       (col_eq userID "" && (authType =? 3) && bool_decide (ia_tenant a = Some tenantID)) ||
       (col_eq userID "" && ((authType =? 1) || (authType =? 2)) && col_eq (tenant_id a) ""))
  | None => false
  end.

(** ** Activation tokens ([ActivationService]) *)

Record ActivationCredential := MkCredential {
  cr_TokenHash : string; cr_PasswordHash : string; cr_ExpiresAt : Z }.

(** The pending tokens of a user, consumed. *)
Definition consume_pending (now : Z) (user : string) (m : gmap string activation_token) : gmap string activation_token :=
  (fun t => match ac_consumed t with
            | None => if col_eq (ac_user t) user then MkActivation (ac_user t) (ac_purpose t) (ac_expires t) (Some now) (ac_created t) else t
            | Some _ => t
            end) <$> m.
(** [Store] *)
Definition activation_Store (now : Z) (userID purpose : string) (c : ActivationCredential) : ATx unit :=
  let! db := tx_get in
  let m := consume_pending now userID (d_activation db) in
  tx_guard (bool_decide (is_Some (m !! cr_TokenHash c)) || negb (bool_decide (is_Some (d_accounts db !! userID))))
    (ErrAuthSQL "constraint of auth_activation_tokens") ;;;
  tx_put (set_activation (<[cr_TokenHash c := MkActivation userID purpose (cr_ExpiresAt c) None now]> m) db).

Definition new_credential (password state : string) (a : account_row) : account_row :=
  MkAccountRow (ia_tenant a) (ia_username a) password (ia_type a) (ia_status a) (ia_cv a + 1) state (ia_mfa_secret a) (ia_mfa_enabled a).
(** [Reset] *)
Definition activation_Reset (now : Z) (userID : string) (c : ActivationCredential) : ATx unit :=
  let! n := update_accounts now (fun id a => col_eq id userID && negb (col_eq (ia_status a) Deleted))
              (new_credential (cr_PasswordHash c) PendingActivation) in
  tx_guard (negb (n =? 1)) ErrAuthNoRows ;;;
  activation_Store now userID "password_reset" c.

(** [Activate]: the policy and bcrypt are arguments. *)
Definition activation_Activate (ValidatePassword : string -> string -> bool) (bcrypt : string -> string)
    (now : Z) (tokenHash password : string) : ATx unit :=
  let! db := tx_get in
  match d_activation db !! tokenHash with
  | None => tx_fail ErrInvalidActivationToken
  | Some t =>
      match d_accounts db !! ac_user t with
      | None => tx_fail ErrInvalidActivationToken
      | Some a =>
          tx_guard (bool_decide (is_Some (ac_consumed t))) ErrUsedActivationToken ;;;
          tx_guard (ac_expires t <=? now) ErrExpiredActivationToken ;;;
          tx_guard (col_eq (ia_status a) Deleted || negb (col_eq (ia_cstate a) PendingActivation)) ErrInvalidActivationToken ;;;
          tx_guard (negb (ValidatePassword password (ia_username a))) ErrWeakPassword ;;;
          update_accounts now (fun id _ => col_eq id (ac_user t)) (new_credential (bcrypt password) Active) ;;;
          let! db := tx_get in
          tx_put (set_activation (consume_pending now (ac_user t) (d_activation db)) db)
      end
  end.

(** [ActivationService.DeleteExpired] *)
Definition dead_activation (now : Z) (t : activation_token) : bool :=
  (ac_expires t <? now - DaySeconds * Sec) ||
  match ac_consumed t with Some c => c <? now - DaySeconds * Sec | None => false end.
Definition activation_DeleteExpired (now limit : Z) : ATx Z :=
  let! db := tx_get in
  let limit := if limit <=? 0 then 5000 else limit in
  let victims := fst <$> take (Z.to_nat limit)
    (order_by (fun x y => ac_created x.2 <=? ac_created y.2)
       (List.filter (fun '(_, t) => dead_activation now t) (map_to_list (d_activation db)))) in
  tx_put (set_activation (filter (fun '(h, _) => h ∉ victims) (d_activation db)) db) ;;;
  tx_ret (Z.of_nat (length victims)).

(** ** The second factor ([MFAService]) *)

Definition is_admin (a : account_row) : bool := (ia_type a =? 1) || (ia_type a =? 2).
Definition set_mfa (secret : option string) (enabled : bool) (version : Z) (a : account_row) : account_row :=
  MkAccountRow (ia_tenant a) (ia_username a) (ia_password a) (ia_type a) (ia_status a) version (ia_cstate a) secret enabled.
(** [Enroll]: [fresh] is the new secret, encrypted; an enrolment begun before whose
    secret can still be decrypted is answered again. *)
Definition mfa_Enroll (decrypts : string -> bool) (now : Z) (userID fresh : string) : ATx string :=
  let! db := tx_get in
  match d_accounts db !! userID with
  | Some a =>
      if negb (is_admin a) then tx_fail ErrAuthNoRows
      else if ia_mfa_enabled a then tx_fail ErrMFAAlreadyEnabled
      else match ia_mfa_secret a with
      | Some s => if negb (col_eq s "") && decrypts s then tx_ret s
                  else update_accounts now (fun id b => col_eq id userID && is_admin b)
                         (fun b => set_mfa (Some fresh) false (ia_cv b) b) ;;; tx_ret fresh
      | None => update_accounts now (fun id b => col_eq id userID && is_admin b)
                  (fun b => set_mfa (Some fresh) false (ia_cv b) b) ;;; tx_ret fresh
      end
  | None => tx_fail ErrAuthNoRows
  end.
(** [ConfirmEnrollment]: [verify] is the check of a code against an encrypted secret. *)
Definition mfa_ConfirmEnrollment (verify : string -> option bool) (now : Z) (userID : string) : ATx unit :=
  let! db := tx_get in
  match d_accounts db !! userID with
  | Some a =>
      if negb (is_admin a) then tx_fail ErrMFAUnavailable
      else
        let secret := default ""%string (ia_mfa_secret a) in
        if col_eq secret "" then tx_fail ErrInvalidMFACode
        else match verify secret with
        | None => tx_fail (ErrAuthSQL "decrypt")
        | Some false => tx_fail ErrInvalidMFACode
        | Some true =>
            update_accounts now (fun id b => col_eq id userID && is_admin b)
              (fun b => set_mfa (ia_mfa_secret b) true (ia_cv b + 1) b) ;;; tx_ret tt
        end
  | None => tx_fail ErrMFAUnavailable
  end.

(** ** Writers of accounts and tenants *)

Definition at_status (status : string) (a : account_row) : account_row :=
  MkAccountRow (ia_tenant a) (ia_username a) (ia_password a) (ia_type a) status (ia_cv a) (ia_cstate a) (ia_mfa_secret a) (ia_mfa_enabled a).
Definition not_deleted (id userID : string) (a : account_row) : bool := col_eq id userID && negb (col_eq (ia_status a) Deleted).

(** [UpdatePassword] *)
Definition account_UpdatePassword (now : Z) (userID : string) (userType : Z) (passwordHash : string) : ATx bool :=
  let! n := update_accounts now (fun id a => not_deleted id userID a && (ia_type a =? userType))
              (fun a => new_credential passwordHash (ia_cstate a) a) in
  tx_ret (n =? 1).
(** [UpdateProfile] *)
Definition account_UpdateProfile (now : Z) (userID : string) (userType : Z) (username : option string) : ATx bool :=
  let! n := update_accounts now (fun id a => not_deleted id userID a && (ia_type a =? userType))
              (fun a => MkAccountRow (ia_tenant a) (default (ia_username a) username) (ia_password a) (ia_type a) (ia_status a)
                          (ia_cv a + 1) (ia_cstate a) (ia_mfa_secret a) (ia_mfa_enabled a)) in
  tx_ret (n =? 1).
(** [UpdateEndUserStatus] *)
Definition UpdateEndUserStatus (now : Z) (userID tenantID status : string) : ATx bool :=
  let! n := update_accounts now
    (fun id a => not_deleted id userID a && (ia_type a =? 4) && (col_eq tenantID "" || bool_decide (ia_tenant a = Some tenantID)))
    (at_status status) in
  tx_ret (n =? 1).
(** [DeleteEndUser], its balance read from the ledger ([None] without an account): found
    and deleted. *)
Definition DeleteEndUser (now : Z) (userID tenantID : string) (balance : option Z) : ATx (bool * bool) :=
  let! db := tx_get in
  match d_accounts db !! userID with
  | Some a =>
      if negb ((ia_type a =? 4) && (col_eq tenantID "" || bool_decide (ia_tenant a = Some tenantID))) || col_eq (ia_status a) Deleted
      then tx_ret (false, false)
      else if negb (default 0 balance =? 0) then tx_ret (true, false)
      else update_accounts now (fun id _ => col_eq id userID) (at_status Deleted) ;;; tx_ret (true, true)
  | None => tx_ret (false, false)
  end.
(** [UpdateSystemAdmin]: the type is read before; [UpdateTenantUser] and
    [UpdateTenantUserStatus]. *)
Definition UpdateSystemAdmin (now : Z) (userID status : string) : ATx bool :=
  let! n := update_accounts now (fun id a => col_eq id userID && (ia_type a =? 2)) (at_status status) in tx_ret (n =? 1).
Definition UpdateTenantUserStatus (now : Z) (userID status : string) : ATx bool :=
  let! n := update_accounts now (fun id a => col_eq id userID && (ia_type a =? 3)) (at_status status) in tx_ret (n =? 1).
(** [DeleteSystemAdmin] *)
Definition DeleteSystemAdmin (userID : string) : ATx bool :=
  let! n := delete_accounts (fun id a => col_eq id userID && (ia_type a =? 2)) in tx_ret (n =? 1).

(** An account as the creating repositories insert it ([CreateEndUser], [create] of the
    administrators' repository, the initial user of [CreateTenant]), with its activation
    token; and as a registration does ([RegisterEndUser]), with its password. *)
Definition new_account (tenantID : option string) (username password : string) (type : Z) (state : string) : account_row :=
  MkAccountRow tenantID username password type Active 1 state None false.
Definition CreateAccount (now : Z) (userID : string) (tenantID : option string) (username : string) (type : Z)
    (c : ActivationCredential) : ATx unit :=
  insert_account userID (new_account tenantID username (cr_PasswordHash c) type PendingActivation) ;;;
  activation_Store now userID "account_activation" c.
Definition register_account (userID tenantID username passwordHash : string) : ATx unit :=
  insert_account userID (new_account (Some tenantID) username passwordHash 4 Active).

(** [CreateTenant] without its initial user, [UpdateStatus] with its cascade,
    [RequestDeletion] and [CancelDeletion] ([pending]: a pending job was cancelled), and
    the purge. *)
Definition tenant_status_ok (status : string) : bool :=
  bool_decide (status ∈ [Active; "disabled"; "suspended"; "deleting"; "purging"]%string).
Definition tenant_Create (tenantID status : string) : ATx unit :=
  let! db := tx_get in
  tx_guard (bool_decide (is_Some (d_tenants db !! tenantID)) || negb (tenant_status_ok status)) (ErrAuthSQL "constraint of iam_tenants") ;;;
  tx_put (set_tenants (<[tenantID := status]> (d_tenants db)) db).
Definition put_tenant (tenantID status : string) : ATx unit :=
  let! db := tx_get in tx_put (set_tenants (<[tenantID := status]> (d_tenants db)) db).
Definition tenant_UpdateStatus (now : Z) (tenantID status : string) : ATx bool :=
  let! db := tx_get in
  if negb (bool_decide (is_Some (d_tenants db !! tenantID))) then tx_ret false
  else
    tx_guard (negb (tenant_status_ok status)) (ErrAuthSQL "constraint of iam_tenants") ;;;
    put_tenant tenantID status ;;;
    let members a := bool_decide (ia_tenant a = Some tenantID) && ((ia_type a =? 3) || (ia_type a =? 4)) in
    (if col_eq status "disabled"
     then update_accounts now (fun _ a => members a && col_eq (ia_status a) Active) (at_status InheritedDisabled)
     else update_accounts now (fun _ a => members a && col_eq (ia_status a) InheritedDisabled) (at_status Active)) ;;;
    tx_ret true.
Definition tenant_RequestDeletion (tenantID : string) : ATx unit :=
  let! db := tx_get in
  match d_tenants db !! tenantID with
  | None => tx_fail ErrAuthNoRows
  | Some status => if col_eq status "deleting" || col_eq status "purging" then tx_ret tt else put_tenant tenantID "deleting"
  end.
Definition tenant_CancelDeletion (pending : bool) (tenantID : string) : ATx bool :=
  let! db := tx_get in
  if negb pending then tx_ret false
  else match d_tenants db !! tenantID with
  | Some status => (if col_eq status "deleting" then put_tenant tenantID "disabled" else tx_ret tt) ;;; tx_ret true
  | None => tx_ret true
  end.
Definition tenant_Purge (tenantID : string) : ATx bool :=
  let! db := tx_get in
  if negb (bool_decide (is_Some (d_tenants db !! tenantID))) then tx_ret false
  else
    delete_accounts (fun _ a => bool_decide (ia_tenant a = Some tenantID)) ;;;
    let! db := tx_get in
    tx_put (set_tenants (delete tenantID (d_tenants db)) db) ;;;
    tx_ret true.
