(* ===== verification/AuthSystem.v ===== *)
(** * Sign-in as a system

    The transactions of [Auth] as calls that any number of replicas interleave, the
    constraints every run keeps, and the order in which sessions and tokens die: a
    session or token that is gone, revoked or consumed never comes back, and a session
    stays active only while its account stays as it was. *)

From S2P Require Import Prelude GoStrings Auth.
#[global] Open Scope Z_scope.

Implicit Types (db : auth_db) (s : auth_session) (t : refresh_token) (a : account_row) (k : activation_token).

(** ** The invariant of the tables *)

Lemma NoDup_fmap_inj_on {X Y} (f : X -> Y) (l : list X) x y : NoDup (f <$> l) -> x ∈ l -> y ∈ l -> f x = f y -> x = y.
Proof.
  induction l as [|z l IH]; cbn; [set_solver|]. intros [Hn Hd]%NoDup_cons Hx Hy E. set_unfold. destruct Hx as [-> | Hx], Hy as [-> | Hy]; [done | | | by apply IH].
  - destruct Hn. exists y. by split.
  - destruct Hn. exists x. by split.
Qed.

Definition live_session s : Prop := as_status s = Active.
Definition live_token t : Prop := rt_status t = Active.
Definition pending_token k : Prop := ac_consumed k = None.

(** The constraints of [iam_accounts], row by row. *)
Definition accounts_ok (tenants : gmap string string) (m : gmap string account_row) : Prop :=
  (forall id a, m !! id = Some a -> account_check a = true /\ forall x, ia_tenant a = Some x -> is_Some (tenants !! x)) /\
  (forall i j a b, m !! i = Some a -> m !! j = Some b -> ToLower (ia_username a) = ToLower (ia_username b) -> i = j).

Lemma accounts_check_spec tenants m : accounts_check tenants m = true <-> accounts_ok tenants m.
Proof.
  unfold accounts_check, accounts_ok. rewrite !andb_true_iff, !forallb_forall, bool_decide_eq_true, <- list_fmap_compose.
  assert (Hrow : forall a, In a (snd <$> map_to_list m) <-> exists id, m !! id = Some a).
  { intros a. rewrite <- list_elem_of_In, list_elem_of_fmap. split.
    - intros ([id b] & -> & Hin). exists id. by apply elem_of_map_to_list.
    - intros [id Ha]. exists (id, a). split; [done|]. by apply elem_of_map_to_list. }
  split.
  - intros [[H1 H2] H3]. split.
    + intros id a Ha. split; [apply H1, Hrow; by exists id|]. intros t Ht. specialize (H2 a). rewrite Ht in H2.
      by apply bool_decide_eq_true in H2; [|apply Hrow; exists id].
    + intros i j a b Ha Hb E. apply elem_of_map_to_list in Ha, Hb.
      by pose proof (NoDup_fmap_inj_on _ _ (i, a) (j, b) H3 Ha Hb E) as [= ->].
  - intros [H1 H2]. split_and!.
    + intros a [id Ha]%Hrow. by apply (H1 id).
    + intros a [id Ha]%Hrow. destruct (ia_tenant a) eqn:Ht; [|done]. by apply bool_decide_eq_true, (H1 id a).
    + apply NoDup_fmap_2_strong; [|apply NoDup_map_to_list]. intros [i a] [j b] Ha%elem_of_map_to_list Hb%elem_of_map_to_list E.
      pose proof (H2 _ _ _ _ Ha Hb E). by simplify_eq.
Qed.

Record auth_ok db : Prop := MkAuthOk {
  ao_accounts : accounts_ok (d_tenants db) (d_accounts db);
  ao_session : forall sid s, d_sessions db !! sid = Some s -> is_Some (d_accounts db !! as_user s);
  ao_refresh : forall h t, d_refresh db !! h = Some t ->
    exists s, d_sessions db !! rt_session t = Some s /\ rt_expires t = as_expires s;
  ao_one_refresh : forall h1 h2 t1 t2, d_refresh db !! h1 = Some t1 -> d_refresh db !! h2 = Some t2 ->
    live_token t1 -> live_token t2 -> rt_session t1 = rt_session t2 -> h1 = h2;
  ao_activation : forall h k, d_activation db !! h = Some k -> is_Some (d_accounts db !! ac_user k);
  ao_one_pending : forall h1 h2 k1 k2, d_activation db !! h1 = Some k1 -> d_activation db !! h2 = Some k2 ->
    pending_token k1 -> pending_token k2 -> ac_user k1 = ac_user k2 -> h1 = h2;
  ao_live : forall sid s a, d_sessions db !! sid = Some s -> live_session s -> d_accounts db !! as_user s = Some a ->
    as_cv s = ia_cv a /\ ia_status a = Active /\ ia_cstate a = Active }.

(** ** What may become of sessions and tokens *)

(** The columns of an account a session depends on. *)
Definition standing a := (ia_status a, ia_cv a, ia_type a, ia_tenant a, ia_cstate a).
Definition session_id s := (as_user s, as_cv s, as_expires s).

(** The sessions [S], the refresh tokens [H] and the activation tokens [A] that have been
    created: none of them comes back. *)
Record ages (S H A : gset string) db db' : Prop := MkAges {
  ag_session : forall sid s', sid ∈ S -> d_sessions db' !! sid = Some s' ->
    exists s, d_sessions db !! sid = Some s /\ session_id s = session_id s' /\
      (live_session s' -> live_session s /\ standing <$> d_accounts db !! as_user s = standing <$> d_accounts db' !! as_user s);
  ag_refresh : forall h t', h ∈ H -> d_refresh db' !! h = Some t' ->
    exists t, d_refresh db !! h = Some t /\ rt_session t = rt_session t' /\ (live_token t' -> live_token t);
  ag_activation : forall h k', h ∈ A -> d_activation db' !! h = Some k' ->
    exists k, d_activation db !! h = Some k /\ ac_user k = ac_user k' /\ (pending_token k' -> pending_token k) }.

#[local] Instance ages_preorder S H A : PreOrder (ages S H A).
Proof.
  split.
  - intros db. split; intros x y _ ->; by eexists.
  - intros d1 d2 d3 [s1 r1 a1] [s2 r2 a2]. split.
    + intros sid s3 Hin H3. destruct (s2 _ _ Hin H3) as (x2 & H2 & E2 & L2). destruct (s1 _ _ Hin H2) as (x1 & H1 & E1 & L1).
      exists x1. split; [done|]. split; [congruence|]. intros Hl. destruct (L2 Hl) as [Hl2 Q2]. destruct (L1 Hl2) as [Hl1 Q1].
      split; [done|]. rewrite Q1. unfold session_id in E1. by injection E1 as -> _ _.
    + intros h t3 Hin H3. destruct (r2 _ _ Hin H3) as (x2 & H2 & E2 & L2). destruct (r1 _ _ Hin H2) as (x1 & H1 & E1 & L1).
      exists x1. split; [done|]. split; [congruence | auto].
    + intros h t3 Hin H3. destruct (a2 _ _ Hin H3) as (x2 & H2 & E2 & L2). destruct (a1 _ _ Hin H2) as (x1 & H1 & E1 & L1).
      exists x1. split; [done|]. split; [congruence | auto].
Qed.

(** A transaction that keeps the invariant and only lets things age. *)
Definition steady_tx (S H A : gset string) {B} (m : ATx B) : Prop := forall db b db',
  auth_ok db -> m db = Ok (b, db') -> auth_ok db' /\ ages S H A db db'.

Create HintDb auth_steady.
Section Steady.
Context (S H A : gset string).
Lemma steady_ret {B} (b : B) : steady_tx S H A (tx_ret b).
Proof. intros db x db' Hok Hr. tx_inv Hr. by split. Qed.
Lemma steady_get : steady_tx S H A tx_get.
Proof. intros db x db' Hok Hr. tx_inv Hr. by split. Qed.
Lemma steady_fail {B} e : steady_tx (B := B) S H A (tx_fail e).
Proof. intros db x db' Hok Hr. tx_inv Hr. Qed.
Lemma steady_guard b e : steady_tx S H A (tx_guard b e).
Proof. intros db x db' Hok Hr. tx_inv Hr. by split. Qed.
Lemma steady_bind {B C} (m : ATx B) (q : B -> ATx C) :
  steady_tx S H A m -> (forall b, steady_tx S H A (q b)) -> steady_tx S H A (tx_bind m q).
Proof.
  intros Hm Hq db c db' Hok Hr. apply tx_bind_ok in Hr as (b & db1 & H1 & H2).
  destruct (Hm _ _ _ Hok H1) as [Hok1 Ha1]. destruct (Hq b _ _ _ Hok1 H2) as [Hok2 Ha2]. split; [done | by etrans].
Qed.
(** Reading the state: the rest may depend on what was read. *)
Lemma steady_read {C} (q : auth_db -> ATx C) :
  (forall db c db', auth_ok db -> q db db = Ok (c, db') -> auth_ok db' /\ ages S H A db db') -> steady_tx S H A (tx_bind tx_get q).
Proof. intros Hq db c db' Hok Hr. rewrite tx_get_bind in Hr. by eapply Hq. Qed.
End Steady.
#[export] Hint Resolve steady_ret steady_get steady_fail steady_guard steady_bind : auth_steady.

(** ** Accounts *)

(** What an update leaves of the credential state when the trigger does not see it. *)
Definition seen_by_trigger (f : account_row -> account_row) : Prop :=
  forall a, account_changed a (f a) = false -> standing (f a) = standing a.

Lemma account_changed_false a b : account_changed a b = false ->
  ia_status b = ia_status a /\ ia_cv b = ia_cv a /\ ia_type b = ia_type a /\ ia_tenant b = ia_tenant a.
Proof.
  unfold account_changed, col_eq. intros H. apply orb_false_iff in H as [[[H1 H2]%orb_false_iff H3]%orb_false_iff H4].
  bool_prop. done.
Qed.

Section Accounts.
Context (S H A : gset string).

Lemma steady_update now p f : seen_by_trigger f -> steady_tx S H A (update_accounts now p f).
Proof.
  intros Hf. apply steady_read. intros db n db' Hok Hr. cbv zeta in Hr.
  set (old := d_accounts db) in *. set (new := map_imap _ old) in *.
  apply tx_bind_ok in Hr as ([] & db1 & Hg & Hr). apply tx_guard_ok in Hg as [Hg ->]. apply negb_false_iff in Hg.
  tx_inv Hr. set (db' := set_sessions _ _).
  assert (Hnew : forall id, new !! id = (fun a => if p id a then f a else a) <$> old !! id)
    by (intros id; unfold new; rewrite map_lookup_imap; by destruct (old !! id)).
  assert (Hsess : forall sid s', d_sessions db' !! sid = Some s' -> exists s, d_sessions db !! sid = Some s /\
            session_id s = session_id s' /\ (live_session s' -> s' = s /\ standing <$> old !! as_user s = standing <$> new !! as_user s)).
  { intros sid s' Hs. unfold db' in Hs. cbn [set_sessions d_sessions] in Hs. rewrite lookup_fmap in Hs.
    destruct (d_sessions db !! sid) as [s|] eqn:Hs0; [|done]. injection Hs as <-. exists s. split; [done|].
    unfold trigger_session. rewrite Hnew. destruct (old !! as_user s) as [a|] eqn:Ha; [|done]. cbn [fmap option_fmap option_map].
    destruct (account_changed a (if p (as_user s) a then f a else a) && col_eq (as_status s) Active) eqn:Hc.
    - split; [done|]. unfold live_session. cbn. done.
    - split; [done|]. intros Hl. split; [done|]. f_equal. destruct (p (as_user s) a); [|done]. symmetry. apply Hf.
      apply andb_false_iff in Hc as [Hc | Hc]; [done|]. unfold col_eq in Hc. bool_prop. by destruct Hc. }
  split.
  - destruct Hok as [O1 O2 O3 O4 O5 O6 O7]. split.
    + by apply accounts_check_spec.
    + intros sid s' Hs. destruct (Hsess _ _ Hs) as (s & Hs0 & E & _). injection E as E _ _. rewrite <- E.
      change (d_accounts db') with new. rewrite Hnew. destruct (O2 _ _ Hs0) as [a Ha]. change (d_accounts db) with old in Ha. rewrite Ha. by eexists.
    + intros h t Ht. destruct (O3 _ _ Ht) as (s & Hs & He). change (d_sessions db') with (trigger_session now old new <$> d_sessions db).
      rewrite lookup_fmap, Hs. cbn. eexists. split; [done|]. rewrite He. unfold trigger_session. by repeat case_match.
    + exact O4.
    + intros h k Hk. change (d_accounts db') with new. rewrite Hnew. destruct (O5 _ _ Hk) as [a Ha]. change (d_accounts db) with old in Ha. rewrite Ha. by eexists.
    + exact O6.
    + intros sid s' a' Hs Hl Ha. destruct (Hsess _ _ Hs) as (s & Hs0 & E & Hlive). destruct (Hlive Hl) as [-> Hst].
      change (d_accounts db') with new in Ha. rewrite Ha in Hst. destruct (old !! as_user s) as [a|] eqn:Ha0; [|done].
      destruct (O7 _ _ _ Hs0 Hl Ha0) as (E1 & E2 & E3). injection Hst as F1 F2 _ _ F3. by rewrite <- F1, <- F2, <- F3.
  - split; [|by intros h t _ Ht; eexists | by intros h k _ Hk; eexists].
    intros sid s' _ Hs. destruct (Hsess _ _ Hs) as (s & Hs0 & E & Hlive). exists s. split; [done|]. split; [done|].
    intros Hl. destruct (Hlive Hl) as [-> Hst]. done.
Qed.

Lemma steady_insert id a : steady_tx S H A (insert_account id a).
Proof.
  apply steady_read. intros db n db' Hok Hr. cbv zeta in Hr. apply tx_bind_ok in Hr as ([] & db1 & Hg & Hr).
  apply tx_guard_ok in Hg as [[Hnone Hc]%orb_false_iff ->]. apply bool_decide_eq_false in Hnone. apply negb_false_iff in Hc.
  unfold tx_put in Hr. injection Hr as <- <-.
  assert (Hacc : forall id', is_Some (d_accounts db !! id') -> (<[id := a]> (d_accounts db)) !! id' = d_accounts db !! id')
    by (intros id' Hs; apply lookup_insert_ne; congruence).
  destruct Hok as [O1 O2 O3 O4 O5 O6 O7]. split.
  - split; cbn; try done.
    + by apply accounts_check_spec.
    + intros sid s Hs. rewrite Hacc; by eapply O2.
    + intros h k Hk. rewrite Hacc; by eapply O5.
    + intros sid s b Hs Hl. rewrite Hacc by (by eapply O2). by eapply O7.
  - split; cbn; [|by eauto..]. intros sid s' _ Hs. exists s'. split; [done|]. split; [done|]. intros Hl. split; [done|].
    by rewrite Hacc by (by eapply O2).
Qed.
End Accounts.

(** ** Rows that go *)

Section Deletions.
Context (S H A : gset string).

Lemma drop_spec p db :
  (forall sid s, d_sessions (drop_sessions p db) !! sid = Some s <-> d_sessions db !! sid = Some s /\ p sid s = false) /\
  (forall h t, d_refresh (drop_sessions p db) !! h = Some t <->
     d_refresh db !! h = Some t /\ exists s, d_sessions db !! rt_session t = Some s /\ p (rt_session t) s = false).
Proof.
  assert (Hk : forall sid s, filter (fun '(id, s) => p id s = false) (d_sessions db) !! sid = Some s <->
            d_sessions db !! sid = Some s /\ p sid s = false) by (intros; by rewrite map_lookup_filter_Some).
  split; [exact Hk|]. intros h t. unfold drop_sessions. cbn [set_refresh d_refresh]. rewrite map_lookup_filter_Some.
  split; intros [Ht [s Hs]]; (split; [done|]); exists s; by apply Hk.
Qed.

Lemma drop_steady p db : auth_ok db -> auth_ok (drop_sessions p db) /\ ages S H A db (drop_sessions p db).
Proof.
  destruct (drop_spec p db) as [Hs Hr]. intros [O1 O2 O3 O4 O5 O6 O7]. split.
  - split; try done.
    + intros sid s [Hx _]%Hs. by eapply O2.
    + intros h t [Ht (s & Hx & Hp)]%Hr. destruct (O3 _ _ Ht) as (s0 & Hs0 & He). simplify_eq. exists s. split; [by apply Hs | done].
    + intros h1 h2 t1 t2 [H1 _]%Hr [H2 _]%Hr. by eapply O4.
    + intros sid s a [Hx _]%Hs. by eapply O7.
  - split; [| | by intros h k _ Hk; eexists].
    + intros sid s _ [Hx _]%Hs. by exists s.
    + intros h t _ [Ht _]%Hr. by exists t.
Qed.

Lemma steady_delete p : steady_tx S H A (delete_accounts p).
Proof.
  apply steady_read. intros db n db' Hok Hr. cbv zeta in Hr. tx_inv Hr.
  set (kept := filter _ (d_accounts db)). set (q := fun (_ : string) s => negb (bool_decide (is_Some (kept !! as_user s)))).
  set (db1 := set_account_rows kept db). destruct (drop_spec q db1) as [Hs Hr].
  assert (Hkept : forall id a, kept !! id = Some a -> d_accounts db !! id = Some a)
    by (intros id a Ha; by apply map_lookup_filter_Some in Ha as [? _]).
  assert (Hq : forall sid s, q sid s = false -> is_Some (kept !! as_user s)).
  { intros sid s Hx. unfold q in Hx. by bool_prop. }
  assert (Hact : forall h k, filter (fun '(_, t) => is_Some (kept !! ac_user t)) (d_activation db) !! h = Some k ->
            d_activation db !! h = Some k /\ is_Some (kept !! ac_user k)) by (intros h k Hk; by apply map_lookup_filter_Some in Hk).
  destruct Hok as [O1 O2 O3 O4 O5 O6 O7]. split.
  - split; cbn [set_activation d_accounts d_sessions d_refresh d_activation].
    + destruct O1 as [Oa Ob]. split; [intros id a Ha; by apply (Oa id), Hkept|]. intros i j a b Ha Hb. by eapply Ob; apply Hkept.
    + intros sid s [_ Hx]%Hs. by eapply Hq.
    + intros h t [Ht (s & Hx & Hp)]%Hr. destruct (O3 _ _ Ht) as (s0 & Hs0 & He).
      change (d_sessions db1) with (d_sessions db) in Hx. rewrite Hx in Hs0. injection Hs0 as <-. exists s. split; [by apply Hs | done].
    + intros h1 h2 t1 t2 [H1 _]%Hr [H2 _]%Hr. by eapply O4.
    + intros h k [_ Hk]%Hact. exact Hk.
    + intros h1 h2 k1 k2 [H1 _]%Hact [H2 _]%Hact. by eapply O6.
    + intros sid s a [Hx _]%Hs Hl Ha. eapply O7; [done..|]. by apply Hkept.
  - split; cbn [set_activation d_accounts d_sessions d_refresh d_activation].
    + intros sid s _ [Hx Hp]%Hs. exists s. split; [done|]. split; [done|]. intros Hl. split; [done|].
      destruct (Hq _ _ Hp) as [a Ha]. change (d_accounts (drop_sessions q db1)) with kept. by rewrite Ha, (Hkept _ _ Ha).
    + intros h t _ [Ht _]%Hr. by exists t.
    + intros h k _ [Hk _]%Hact. by exists k.
Qed.

Lemma steady_delete_expired now limit : steady_tx S H A (sessions_DeleteExpired now limit).
Proof. apply steady_read. intros db n db' Hok Hr. cbv zeta in Hr. tx_inv Hr. by apply drop_steady. Qed.

Lemma steady_activation_delete now limit : steady_tx S H A (activation_DeleteExpired now limit).
Proof.
  apply steady_read. intros db n db' Hok Hr. cbv zeta in Hr. tx_inv Hr. set (m := filter _ (d_activation db)).
  assert (Hm : forall h k, m !! h = Some k -> d_activation db !! h = Some k) by (intros h k Hk; by apply map_lookup_filter_Some in Hk as [? _]).
  destruct Hok as [O1 O2 O3 O4 O5 O6 O7]. split.
  - split; try done; cbn [set_activation d_activation].
    + intros h k Hk%Hm. by eapply O5.
    + intros h1 h2 k1 k2 H1%Hm H2%Hm. by eapply O6.
  - split; [by intros sid s _ Hx; exists s | by intros h t _ Ht; exists t |]. intros h k _ Hk%Hm. by exists k.
Qed.
End Deletions.

(** ** Sessions *)

Section SessionSteps.
Context (S H A : gset string) (can_sign : bool) (accessTTL : Z).

Lemma existsb_active sid db : existsb (fun '(_, t) => active_in sid t) (map_to_list (d_refresh db)) = false <->
  forall h t, d_refresh db !! h = Some t -> rt_session t = sid -> ~ live_token t.
Proof.
  unfold live_token. split.
  - intros He h t Ht Hs Hl. apply not_true_iff_false in He. apply He, existsb_exists. exists (h, t).
    split; [by apply list_elem_of_In, elem_of_map_to_list|]. unfold active_in, col_eq. by rewrite !bool_decide_true.
  - intros Hall. apply not_true_iff_false. intros ([h t] & Hin & Ha)%existsb_exists. apply list_elem_of_In, elem_of_map_to_list in Hin.
    unfold active_in, col_eq in Ha. bool_prop. by eapply Hall.
Qed.

Lemma insert_refresh_ok h sid expires db u db' :
  insert_refresh h sid expires db = Ok (u, db') ->
  d_refresh db !! h = None /\ (forall h' t, d_refresh db !! h' = Some t -> rt_session t = sid -> ~ live_token t) /\
  db' = set_refresh (<[h := MkRefresh sid Active expires None None]> (d_refresh db)) db.
Proof.
  unfold insert_refresh. intros Hr. rewrite tx_get_bind in Hr. apply tx_bind_ok in Hr as ([] & db1 & Hg & Hr).
  apply tx_guard_ok in Hg as [[Hnone Ha]%orb_false_iff ->]. tx_inv Hr. bool_prop.
  split; [by destruct (d_refresh db !! h); [destruct Hnone|]|]. split; [exact (proj1 (existsb_active sid db) Ha) | done].
Qed.

(** A token is added to a session that has its expiry. *)
Lemma steady_insert_refresh h sid expires db u db' :
  h ∉ H -> (exists s, d_sessions db !! sid = Some s /\ as_expires s = expires) ->
  auth_ok db -> insert_refresh h sid expires db = Ok (u, db') -> auth_ok db' /\ ages S H A db db'.
Proof.
  intros Hnew (s0 & Hs0 & He0) [O1 O2 O3 O4 O5 O6 O7] Hr. apply insert_refresh_ok in Hr as (Hnone & Hno & ->). split.
  - split; try done; cbn [set_refresh d_refresh].
    + intros h' t Ht. destruct (decide (h' = h)) as [-> | Hne].
      * rewrite lookup_insert_eq in Ht. injection Ht as <-. by exists s0.
      * rewrite lookup_insert_ne in Ht by done. by apply (O3 h').
    + intros h1 h2 t1 t2 H1 H2 L1 L2 E. destruct (decide (h1 = h)) as [-> | N1], (decide (h2 = h)) as [-> | N2]; [done| | |].
      * rewrite lookup_insert_eq in H1. rewrite lookup_insert_ne in H2 by done. injection H1 as <-. by destruct (Hno _ _ H2).
      * rewrite lookup_insert_eq in H2. rewrite lookup_insert_ne in H1 by done. injection H2 as <-. by destruct (Hno _ _ H1).
      * rewrite lookup_insert_ne in H1, H2 by done. by eapply O4.
  - split; [by intros sid' s _ Hx; exists s | | by intros h' k _ Hk; exists k].
    intros h' t Hin Ht. cbn [set_refresh d_refresh] in Ht. rewrite lookup_insert_ne in Ht by (intros ->; done). by exists t.
Qed.

Lemma steady_Create now refreshTTL sid h p : sid ∉ S -> h ∉ H -> steady_tx S H A (sessions_Create can_sign accessTTL now refreshTTL sid h p).
Proof.
  intros HS HH. apply steady_read. intros db c db' Hok Hr. destruct (d_accounts db !! pr_UserID p) as [a|] eqn:Ha; [|done].
  apply tx_bind_ok in Hr as ([] & db1 & Hg & Hr). apply tx_guard_ok in Hg as [[[Hst Hcs]%orb_false_iff Hcv]%orb_false_iff ->].
  apply tx_bind_ok in Hr as ([] & db1 & Hg & Hr). apply tx_guard_ok in Hg as [_ ->].
  apply tx_bind_ok in Hr as ([] & db1 & Hg & Hr). apply tx_guard_ok in Hg as [Hfree ->]. unfold col_eq in *. bool_prop.
  apply tx_bind_ok in Hr as ([] & db1 & Hp & Hr). unfold tx_put in Hp. injection Hp as <-.
  apply tx_bind_ok in Hr as ([] & db2 & Hi & Hr). apply tx_bind_ok in Hr as ([] & db3 & Hg & Hr). apply tx_guard_ok in Hg as [_ ->]. tx_inv Hr.
  set (db1 := set_sessions _ db) in *.
  assert (H1 : auth_ok db1 /\ ages S H A db db1).
  { assert (Hne : forall sid' s, d_sessions db !! sid' = Some s -> sid' <> sid) by (intros sid' s Hx ->; by destruct Hfree).
    destruct Hok as [O1 O2 O3 O4 O5 O6 O7]. split.
    - split; try done; unfold db1; cbn [set_sessions d_sessions d_accounts].
      + intros sid' s Hx. destruct (decide (sid' = sid)) as [-> | N]; [rewrite lookup_insert_eq in Hx; injection Hx as <-; by eexists|].
        rewrite lookup_insert_ne in Hx by done. by eapply O2.
      + intros h' t Ht. destruct (O3 _ _ Ht) as (s & Hx & He). exists s. split; [|done]. rewrite lookup_insert_ne; [done|].
        intros E. by apply (Hne _ _ Hx).
      + intros sid' s b Hx Hl Hb. destruct (decide (sid' = sid)) as [-> | N].
        * rewrite lookup_insert_eq in Hx. injection Hx as <-. cbn in *. simplify_eq. done.
        * rewrite lookup_insert_ne in Hx by done. by eapply O7.
    - split; [| by intros h' t _ Ht; exists t | by intros h' k _ Hk; exists k].
      intros sid' s Hin Hx. unfold db1 in Hx. cbn [set_sessions d_sessions] in Hx. rewrite lookup_insert_ne in Hx by (intros ->; done).
      by exists s. }
  destruct H1 as [Hok1 Ha1].
  assert (Hex : exists s, d_sessions db1 !! sid = Some s /\ as_expires s = now + refreshTTL) by (eexists; split; [apply lookup_insert_eq | done]).
  destruct (steady_insert_refresh _ _ _ _ _ _ HH Hex Hok1 Hi) as [Hok2 Ha2].
  split; [done | by etrans].
Qed.

(** Revoking a session, with its tokens or not. *)
Lemma steady_revoke now reason sid : steady_tx S H A (revokeSessionTx now reason sid).
Proof.
  apply steady_read. intros db n db' Hok Hr. tx_inv Hr. set (db' := set_refresh _ _).
  assert (Hs : forall i s', d_sessions db' !! i = Some s' -> exists s, d_sessions db !! i = Some s /\ session_id s = session_id s' /\
            (live_session s' -> s' = s)).
  { intros i s' Hx. unfold db' in Hx. cbn [set_refresh set_sessions d_sessions] in Hx. destruct (decide (i = sid)) as [-> | N].
    - rewrite lookup_alter_eq in Hx. destruct (d_sessions db !! sid) as [s|]; [|done]. injection Hx as <-. by exists s.
    - rewrite lookup_alter_ne in Hx by done. by exists s'. }
  assert (Ht : forall h t', d_refresh db' !! h = Some t' -> exists t, d_refresh db !! h = Some t /\ rt_session t = rt_session t' /\
            rt_expires t = rt_expires t' /\ (live_token t' -> live_token t)).
  { intros h t' Hx. unfold db' in Hx. cbn [set_refresh d_refresh] in Hx. rewrite lookup_fmap in Hx.
    destruct (d_refresh db !! h) as [t|]; [|done]. injection Hx as <-. exists t. by destruct (active_in sid t). }
  destruct Hok as [O1 O2 O3 O4 O5 O6 O7]. split.
  - split; try done.
    + intros i s' Hx. destruct (Hs _ _ Hx) as (s & Hs0 & E & _). injection E as E _ _. rewrite <- E. by eapply O2.
    + intros h t' Hx. destruct (Ht _ _ Hx) as (t & Ht0 & E1 & E2 & _). destruct (O3 _ _ Ht0) as (s & Hs0 & He).
      unfold db'. cbn [set_refresh set_sessions d_sessions]. rewrite <- E1, <- E2. destruct (decide (rt_session t = sid)) as [<- | N].
      * rewrite lookup_alter_eq, Hs0. by eexists.
      * rewrite lookup_alter_ne by done. by exists s.
    + intros h1 h2 t1 t2 H1 H2 L1 L2 E. destruct (Ht _ _ H1) as (u1 & U1 & E1 & _ & M1), (Ht _ _ H2) as (u2 & U2 & E2 & _ & M2).
      eapply O4; [done | done | by apply M1 | by apply M2 | congruence].
    + intros i s' a Hx Hl Ha. destruct (Hs _ _ Hx) as (s & Hs0 & _ & Hlive). pose proof (Hlive Hl). subst s'. by eapply O7.
  - split; [| | by intros h k _ Hk; exists k].
    + intros i s' _ Hx. destruct (Hs _ _ Hx) as (s & Hs0 & E & Hlive). exists s. split; [done|]. split; [done|].
      intros Hl. pose proof (Hlive Hl). by subst s'.
    + intros h t' _ Hx. destruct (Ht _ _ Hx) as (t & Ht0 & E1 & _ & M). by exists t.
Qed.

Lemma steady_Revoke parse now sid reason : steady_tx S H A (sessions_Revoke parse now sid reason).
Proof. unfold sessions_Revoke. destruct (parse sid); [apply steady_revoke | apply steady_fail]. Qed.
End SessionSteps.

(** A token consumed in place. *)
Lemma steady_consume S H A db h t now new :
  auth_ok db -> d_refresh db !! h = Some t ->
  let db' := set_refresh (<[h := MkRefresh (rt_session t) Consumed (rt_expires t) (Some now) (Some new)]> (d_refresh db)) db in
  auth_ok db' /\ ages S H A db db'.
Proof.
  intros [O1 O2 O3 O4 O5 O6 O7] Ht db'.
  assert (Hm : forall h' t', d_refresh db' !! h' = Some t' -> exists t0, d_refresh db !! h' = Some t0 /\ rt_session t0 = rt_session t' /\
            rt_expires t0 = rt_expires t' /\ (live_token t' -> t' = t0)).
  { intros h' t' Hx. unfold db' in Hx. cbn [set_refresh d_refresh] in Hx. destruct (decide (h' = h)) as [-> | N].
    - rewrite lookup_insert_eq in Hx. injection Hx as <-. by exists t.
    - rewrite lookup_insert_ne in Hx by done. by exists t'. }
  split.
  - split; try done.
    + intros h' t' Hx. destruct (Hm _ _ Hx) as (t0 & H0 & <- & <- & _). by apply (O3 h').
    + intros h1 h2 t1 t2 H1 H2 L1 L2 E. destruct (Hm _ _ H1) as (u1 & U1 & _ & _ & M1), (Hm _ _ H2) as (u2 & U2 & _ & _ & M2).
      rewrite (M1 L1), (M2 L2) in *. pose proof (M1 L1). pose proof (M2 L2). subst. by eapply O4.
  - split; [by intros i s _ Hs; exists s | | by intros i k _ Hk; exists k].
    intros h' t' _ Hx. destruct (Hm _ _ Hx) as (t0 & H0 & E & _ & M). exists t0. split; [done|]. split; [done|]. intros L. by rewrite <- (M L).
Qed.

(** What a rotation that is accepted or answered found and did. *)
Lemma Rotate_inv can_sign ttl now h h' db r db' :
  sessions_Rotate can_sign ttl now h h' db = Ok (r, db') ->
  exists t s a, d_refresh db !! h = Some t /\ d_sessions db !! rt_session t = Some s /\ d_accounts db !! as_user s = Some a /\ live_session s /\
    match r with
    | Ok c =>
        live_token t /\ refresh_verdict now db t s a = None /\ can_sign = true /\
        c = GenerateAccessToken now ttl (MkPrincipal (as_user s) (tenant_id a) (ia_type a) (ia_cv a)) (rt_session t) /\
        insert_refresh h' (rt_session t) (as_expires s)
          (set_refresh (<[h := MkRefresh (rt_session t) Consumed (rt_expires t) (Some now) (Some h')]> (d_refresh db)) db) = Ok (tt, db')
    | Err e =>
        exists reason, revokeSessionTx now reason (rt_session t) db = Ok (tt, db') /\
        ((~ live_token t /\ e = ErrRefreshTokenReused /\ reason = "refresh_token_reused"%string) \/
         (live_token t /\ refresh_verdict now db t s a = Some (reason, e)))
    end.
Proof.
  unfold sessions_Rotate. intros Hr. rewrite tx_get_bind in Hr. destruct (d_refresh db !! h) as [t|] eqn:Ht; [|done].
  destruct (d_sessions db !! rt_session t) as [s|] eqn:Hs; [|done]. destruct (d_accounts db !! as_user s) as [a|] eqn:Ha; [|done].
  destruct (col_eq (as_status s) Active) eqn:Hl; cbn [negb] in Hr; [|done]. exists t, s, a. do 3 (split; [done|]).
  split; [unfold col_eq in Hl; by bool_prop|]. destruct (col_eq (rt_status t) Active) eqn:Hlt; cbn [negb] in Hr; unfold col_eq in Hlt.
  - apply bool_decide_eq_true in Hlt. destruct (refresh_verdict now db t s a) as [[reason e]|] eqn:Hv.
    + apply tx_bind_ok in Hr as ([] & db1 & Hrev & Hr). injection Hr as <- <-. exists reason. split; [done | by right].
    + apply tx_bind_ok in Hr as ([] & db1 & Hg & Hr). apply tx_guard_ok in Hg as [Hg ->]. apply negb_false_iff in Hg.
      apply tx_bind_ok in Hr as ([] & db1 & Hp & Hr). unfold tx_put in Hp. injection Hp as <-.
      apply tx_bind_ok in Hr as ([] & db1 & Hi & Hr). injection Hr as <- <-. by split_and!.
  - apply bool_decide_eq_false in Hlt. apply tx_bind_ok in Hr as ([] & db1 & Hrev & Hr). injection Hr as <- <-.
    exists "refresh_token_reused"%string. split; [done | by left].
Qed.

Section TokenSteps.
Context (S H A : gset string).

Lemma steady_Rotate can_sign ttl now h h' : h' ∉ H -> steady_tx S H A (sessions_Rotate can_sign ttl now h h').
Proof.
  intros Hnew db r db' Hok Hr. apply Rotate_inv in Hr as (t & s & a & Ht & Hs & Ha & _ & Hr). destruct r as [c|e].
  - destruct Hr as (_ & _ & _ & _ & Hi). destruct (steady_consume S H A db h t now h' Hok Ht) as [Hok1 Ha1].
    eapply (steady_insert_refresh S H A) in Hi as [Hok2 Ha2]; [split; [done | by etrans] | done | by exists s | done].
  - destruct Hr as (reason & Hr & _). by eapply steady_revoke.
Qed.

Lemma consume_pending_inv now user m h k' : consume_pending now user m !! h = Some k' ->
  exists k, m !! h = Some k /\ ac_user k = ac_user k' /\ (pending_token k' -> k' = k /\ ac_user k <> user).
Proof.
  unfold consume_pending, pending_token, col_eq. rewrite lookup_fmap. destruct (m !! h) as [k|]; [|done]. cbn. intros [= <-]. exists k. split; [done|].
  destruct (ac_consumed k) eqn:Hc; [by rewrite Hc|]. case_bool_decide; done.
Qed.

Lemma steady_set_pending db now user : auth_ok db ->
  auth_ok (set_activation (consume_pending now user (d_activation db)) db) /\
  ages S H A db (set_activation (consume_pending now user (d_activation db)) db).
Proof.
  intros [O1 O2 O3 O4 O5 O6 O7]. split.
  - split; try done; cbn [set_activation d_activation d_accounts].
    + intros h k' Hk. apply consume_pending_inv in Hk as (k & Hk & <- & _). by eapply O5.
    + intros h1 h2 k1 k2 H1 H2 P1 P2 E. apply consume_pending_inv in H1 as (x1 & X1 & E1 & Q1), H2 as (x2 & X2 & E2 & Q2).
      destruct (Q1 P1) as [-> _], (Q2 P2) as [-> _]. by eapply O6.
  - split; [by intros i s _ Hs; exists s | by intros i t _ Ht; exists t |]. cbn [set_activation d_activation].
    intros h k' _ Hk. apply consume_pending_inv in Hk as (k & Hk & E & Q). exists k. split; [done|]. split; [done|].
    intros P. by destruct (Q P) as [-> _].
Qed.

Lemma steady_Store now user purpose c : cr_TokenHash c ∉ A -> steady_tx S H A (activation_Store now user purpose c).
Proof.
  intros Hnew. apply steady_read. intros db n db' Hok Hr. cbv zeta in Hr. apply tx_bind_ok in Hr as ([] & db1 & Hg & Hr).
  apply tx_guard_ok in Hg as [[Hnone Hu]%orb_false_iff ->]. unfold tx_put in Hr. injection Hr as <- <-. bool_prop.
  destruct (steady_set_pending db now user Hok) as [[O1 O2 O3 O4 O5 O6 O7] Ha]. set (m := consume_pending now user (d_activation db)) in *.
  cbn [set_activation d_activation d_accounts d_sessions d_refresh] in *. split.
  - split; try done; cbn [set_activation d_activation d_accounts].
    + intros h k Hk. destruct (decide (h = cr_TokenHash c)) as [-> | N]; [rewrite lookup_insert_eq in Hk; by injection Hk as <-|].
      rewrite lookup_insert_ne in Hk by done. by eapply O5.
    + assert (Hno : forall h k, m !! h = Some k -> pending_token k -> ac_user k <> user).
      { intros h k Hk P. apply consume_pending_inv in Hk as (k0 & _ & E & Q). by destruct (Q P) as [-> ?]. }
      intros h1 h2 k1 k2 H1 H2 P1 P2 E. destruct (decide (h1 = cr_TokenHash c)) as [-> | N1], (decide (h2 = cr_TokenHash c)) as [-> | N2]; [done| | |].
      * rewrite lookup_insert_eq in H1. rewrite lookup_insert_ne in H2 by done. injection H1 as <-. by destruct (Hno _ _ H2 P2).
      * rewrite lookup_insert_eq in H2. rewrite lookup_insert_ne in H1 by done. injection H2 as <-. by destruct (Hno _ _ H1 P1).
      * rewrite lookup_insert_ne in H1, H2 by done. by eapply O6.
  - destruct Ha as [Ag1 Ag2 Ag3]. split; [exact Ag1 | exact Ag2 |]. intros h k Hin Hk. cbn [set_activation d_activation] in Hk.
    rewrite lookup_insert_ne in Hk by (intros E; apply Hnew; by rewrite E). by apply (Ag3 h k Hin).
Qed.
End TokenSteps.

(** ** The writers *)

Lemma visible_state f : (forall a, ia_cstate (f a) = ia_cstate a) -> seen_by_trigger f.
Proof. intros Hf a (H1 & H2 & H3 & H4)%account_changed_false. unfold standing. by rewrite Hf, H1, H2, H3, H4. Qed.
Lemma visible_version f : (forall a, ia_cv (f a) = ia_cv a + 1) -> seen_by_trigger f.
Proof. intros Hf a (_ & H2 & _)%account_changed_false. rewrite Hf in H2. lia. Qed.

Section Writers.
Context (S H A : gset string).
#[local] Hint Resolve steady_update steady_insert steady_delete : auth_steady.
#[local] Hint Extern 2 (seen_by_trigger _) => (apply visible_state; intros []; reflexivity) : auth_steady.
#[local] Hint Extern 2 (seen_by_trigger _) => (apply visible_version; intros []; reflexivity) : auth_steady.

Lemma steady_Reset now user c : cr_TokenHash c ∉ A -> steady_tx S H A (activation_Reset now user c).
Proof. intros Hn. apply steady_bind; [auto with auth_steady|]. intros n. apply steady_bind; [auto with auth_steady|]. intros _. by apply steady_Store. Qed.

Lemma steady_Activate policy bcrypt now h pw : steady_tx S H A (activation_Activate policy bcrypt now h pw).
Proof.
  apply steady_read. intros db n db' Hok Hr. destruct (d_activation db !! h) as [k|] eqn:Hk; [|done].
  destruct (d_accounts db !! ac_user k) as [a|]; [|done]. do 4 (apply tx_bind_ok in Hr as ([] & ? & Hg & Hr); apply tx_guard_ok in Hg as [_ ->]).
  apply tx_bind_ok in Hr as (m & db1 & Hu & Hr). rewrite tx_get_bind in Hr. unfold tx_put in Hr. injection Hr as <- <-.
  assert (Hv : seen_by_trigger (new_credential (bcrypt pw) Active)) by (apply visible_version; by intros []).
  destruct (steady_update S H A now _ _ Hv db m db1 Hok Hu) as [Hok1 Ha1].
  destruct (steady_set_pending S H A db1 now (ac_user k) Hok1) as [Hok2 Ha2]. split; [done | by etrans].
Qed.

Lemma steady_Enroll decrypts now user fresh : steady_tx S H A (mfa_Enroll decrypts now user fresh).
Proof.
  apply steady_bind; [auto with auth_steady|]. intros db. destruct (d_accounts db !! user) as [a|]; [|auto with auth_steady].
  repeat case_match; auto 6 with auth_steady.
Qed.
Lemma steady_Confirm verify now user : steady_tx S H A (mfa_ConfirmEnrollment verify now user).
Proof.
  apply steady_bind; [auto with auth_steady|]. intros db. destruct (d_accounts db !! user) as [a|]; [|auto with auth_steady].
  destruct (negb _); [auto with auth_steady|]. cbv zeta. repeat case_match; auto 6 with auth_steady.
Qed.
Lemma steady_UpdatePassword now user type hash : steady_tx S H A (account_UpdatePassword now user type hash).
Proof. unfold account_UpdatePassword. auto 6 with auth_steady. Qed.
Lemma steady_UpdateProfile now user type name : steady_tx S H A (account_UpdateProfile now user type name).
Proof. unfold account_UpdateProfile. auto 6 with auth_steady. Qed.
Lemma steady_EndUserStatus now user tenant status : steady_tx S H A (UpdateEndUserStatus now user tenant status).
Proof. unfold UpdateEndUserStatus. auto 6 with auth_steady. Qed.
Lemma steady_SystemAdmin now user status : steady_tx S H A (UpdateSystemAdmin now user status).
Proof. unfold UpdateSystemAdmin. auto 6 with auth_steady. Qed.
Lemma steady_TenantUser now user status : steady_tx S H A (UpdateTenantUserStatus now user status).
Proof. unfold UpdateTenantUserStatus. auto 6 with auth_steady. Qed.
Lemma steady_DeleteEndUser now user tenant balance : steady_tx S H A (DeleteEndUser now user tenant balance).
Proof.
  apply steady_bind; [auto with auth_steady|]. intros db. destruct (d_accounts db !! user) as [a|]; [|auto with auth_steady].
  repeat case_match; auto 6 with auth_steady.
Qed.
Lemma steady_DeleteSystemAdmin user : steady_tx S H A (DeleteSystemAdmin user).
Proof. unfold DeleteSystemAdmin. auto 6 with auth_steady. Qed.
Lemma steady_CreateAccount now user tenant name type c : cr_TokenHash c ∉ A -> steady_tx S H A (CreateAccount now user tenant name type c).
Proof. intros Hn. apply steady_bind; [auto with auth_steady|]. intros _. by apply steady_Store. Qed.
Lemma steady_Register user tenant name pw : steady_tx S H A (register_account user tenant name pw).
Proof. apply steady_insert. Qed.

(** The statuses of tenants no session refers to; no tenant with accounts goes. *)
Lemma steady_tenants db x :
  (forall t : string, (exists id a, d_accounts db !! id = Some a /\ ia_tenant a = Some t) -> is_Some (d_tenants db !! t) -> is_Some (x !! t)) ->
  auth_ok db -> auth_ok (set_tenants x db) /\ ages S H A db (set_tenants x db).
Proof.
  intros Hx [[Oa Ob] O2 O3 O4 O5 O6 O7]. split; [|split; [by intros i s _ Hs; exists s | by intros i t _ Ht; exists t | by intros i k _ Hk; exists k]].
  split; try done. split; [|exact Ob]. intros id a Ha. destruct (Oa _ _ Ha) as [Hc Ht]. split; [done|]. intros t Hta. apply Hx; [by exists id, a | by apply Ht].
Qed.
Lemma steady_insert_tenant (t : string) status db : auth_ok db ->
  auth_ok (set_tenants (<[t := status]> (d_tenants db)) db) /\ ages S H A db (set_tenants (<[t := status]> (d_tenants db)) db).
Proof. apply steady_tenants. intros t' _ Ht'. destruct (decide (t' = t)) as [-> | N]; [rewrite lookup_insert_eq; by eexists | by rewrite lookup_insert_ne]. Qed.
Lemma steady_put_tenant tenant status : steady_tx S H A (put_tenant tenant status).
Proof. apply steady_read. intros db n db' Hok Hr. unfold tx_put in Hr. injection Hr as <- <-. by apply steady_insert_tenant. Qed.
#[local] Hint Resolve steady_put_tenant : auth_steady.

Lemma steady_tenant_Create tenant status : steady_tx S H A (tenant_Create tenant status).
Proof.
  apply steady_read. intros db n db' Hok Hr. apply tx_bind_ok in Hr as ([] & db1 & Hg & Hr). apply tx_guard_ok in Hg as [_ ->].
  unfold tx_put in Hr. injection Hr as <- <-. by apply steady_insert_tenant.
Qed.
Lemma steady_UpdateStatus now tenant status : steady_tx S H A (tenant_UpdateStatus now tenant status).
Proof.
  apply steady_bind; [auto with auth_steady|]. intros db. destruct (negb _); [auto with auth_steady|].
  do 2 (apply steady_bind; [auto with auth_steady|]; intros _). apply steady_bind; [destruct (col_eq status "disabled"); auto with auth_steady|].
  intros _. auto with auth_steady.
Qed.
Lemma steady_RequestDeletion tenant : steady_tx S H A (tenant_RequestDeletion tenant).
Proof. apply steady_bind; [auto with auth_steady|]. intros db. repeat case_match; auto with auth_steady. Qed.
Lemma steady_CancelDeletion pending tenant : steady_tx S H A (tenant_CancelDeletion pending tenant).
Proof. apply steady_bind; [auto with auth_steady|]. intros db. repeat case_match; auto 6 with auth_steady. Qed.
Lemma steady_Purge tenant : steady_tx S H A (tenant_Purge tenant).
Proof.
  apply steady_read. intros db n db' Hok Hr. destruct (negb _); [by tx_inv Hr|].
  apply tx_bind_ok in Hr as (m & db1 & Hd & Hr). destruct (steady_delete S H A _ _ _ _ Hok Hd) as [Hok1 Ha1].
  rewrite tx_get_bind in Hr. unfold tx_bind, tx_put in Hr. injection Hr as <- <-. destruct (steady_tenants db1 (delete tenant (d_tenants db1))) as [Hok2 Ha2]; [|done|].
  - intros t (id & a & Hacc & Ht) Hs. rewrite lookup_delete_ne; [done|]. intros <-. unfold delete_accounts in Hd. rewrite tx_get_bind in Hd.
    tx_inv Hd. apply map_lookup_filter_Some in Hacc as [_ Hacc]. by apply bool_decide_eq_false in Hacc.
  - split; [done | by etrans].
Qed.
End Writers.

(** ** The calls *)

(** A call and the values its replica drew: whether it can sign, the clock, and new ids
    and tokens.  [Principal]s, statuses and credentials are any. *)
Inductive op :=
| OpCreate (can_sign : bool) (accessTTL now refreshTTL : Z) (sid hash : string) (p : Principal)
| OpRotate (can_sign : bool) (accessTTL now : Z) (presentedHash newHash : string)
| OpRevoke (parse : string -> option string) (now : Z) (sid reason : string)
| OpDeleteSessions (now limit : Z)
| OpStore (now : Z) (user purpose : string) (c : ActivationCredential)
| OpReset (now : Z) (user : string) (c : ActivationCredential)
| OpActivate (policy : string -> string -> bool) (bcrypt : string -> string) (now : Z) (hash password : string)
| OpDeleteActivations (now limit : Z)
| OpEnroll (decrypts : string -> bool) (now : Z) (user fresh : string)
| OpConfirmEnrollment (verify : string -> option bool) (now : Z) (user : string)
| OpUpdatePassword (now : Z) (user : string) (type : Z) (hash : string)
| OpUpdateProfile (now : Z) (user : string) (type : Z) (name : option string)
| OpEndUserStatus (now : Z) (user tenant status : string)
| OpDeleteEndUser (now : Z) (user tenant : string) (balance : option Z)
| OpSystemAdmin (now : Z) (user status : string)
| OpTenantUser (now : Z) (user status : string)
| OpDeleteSystemAdmin (user : string)
| OpCreateAccount (now : Z) (user : string) (tenant : option string) (name : string) (type : Z) (c : ActivationCredential)
| OpRegister (user tenant name password : string)
| OpTenantCreate (tenant status : string)
| OpTenantStatus (now : Z) (tenant status : string)
| OpRequestDeletion (tenant : string)
| OpCancelDeletion (pending : bool) (tenant : string)
| OpPurge (tenant : string).

(** What a call did that matters later. *)
Inductive event :=
| EvIssued (c : Claims)          (* a signed access token *)
| EvRotated (hash : string)      (* a refresh token was exchanged *)
| EvReused (sid : string)        (* a spent one was presented *)
| EvActivated (hash : string).   (* an activation token set a password *)

Definition silently {B} (m : ATx B) : ATx (list event) := m ;;; tx_ret [].
Definition rotation_events (db : auth_db) (h : string) (r : result auth_error Claims) : list event :=
  match r, d_refresh db !! h with
  | Ok c, _ => [EvRotated h; EvIssued c]
  | Err ErrRefreshTokenReused, Some t => [EvReused (rt_session t)]
  | _, _ => []
  end.
Definition perform (o : op) : ATx (list event) :=
  match o with
  | OpCreate k ttl now rttl sid h p => let! c := sessions_Create k ttl now rttl sid h p in tx_ret [EvIssued c]
  | OpRotate k ttl now h h' => let! db := tx_get in let! r := sessions_Rotate k ttl now h h' in tx_ret (rotation_events db h r)
  | OpRevoke parse now sid reason => silently (sessions_Revoke parse now sid reason)
  | OpDeleteSessions now limit => silently (sessions_DeleteExpired now limit)
  | OpStore now user purpose c => silently (activation_Store now user purpose c)
  | OpReset now user c => silently (activation_Reset now user c)
  | OpActivate policy bcrypt now h pw => activation_Activate policy bcrypt now h pw ;;; tx_ret [EvActivated h]
  | OpDeleteActivations now limit => silently (activation_DeleteExpired now limit)
  | OpEnroll decrypts now user fresh => silently (mfa_Enroll decrypts now user fresh)
  | OpConfirmEnrollment verify now user => silently (mfa_ConfirmEnrollment verify now user)
  | OpUpdatePassword now user type hash => silently (account_UpdatePassword now user type hash)
  | OpUpdateProfile now user type name => silently (account_UpdateProfile now user type name)
  | OpEndUserStatus now user tenant status => silently (UpdateEndUserStatus now user tenant status)
  | OpDeleteEndUser now user tenant balance => silently (DeleteEndUser now user tenant balance)
  | OpSystemAdmin now user status => silently (UpdateSystemAdmin now user status)
  | OpTenantUser now user status => silently (UpdateTenantUserStatus now user status)
  | OpDeleteSystemAdmin user => silently (DeleteSystemAdmin user)
  | OpCreateAccount now user tenant name type c => silently (CreateAccount now user tenant name type c)
  | OpRegister user tenant name pw => silently (register_account user tenant name pw)
  | OpTenantCreate tenant status => silently (tenant_Create tenant status)
  | OpTenantStatus now tenant status => silently (tenant_UpdateStatus now tenant status)
  | OpRequestDeletion tenant => silently (tenant_RequestDeletion tenant)
  | OpCancelDeletion pending tenant => silently (tenant_CancelDeletion pending tenant)
  | OpPurge tenant => silently (tenant_Purge tenant)
  end.

(** The ids and hashes a call draws. *)
Definition born_session (o : op) : gset string := match o with OpCreate _ _ _ _ sid _ _ => {[sid]} | _ => ∅ end.
Definition born_refresh (o : op) : gset string :=
  match o with OpCreate _ _ _ _ _ h _ => {[h]} | OpRotate _ _ _ _ h => {[h]} | _ => ∅ end.
Definition born_activation (o : op) : gset string :=
  match o with
  | OpStore _ _ _ c | OpReset _ _ c | OpCreateAccount _ _ _ _ _ c => {[cr_TokenHash c]}
  | _ => ∅
  end.

(** The tables, every id and hash drawn so far, and what happened, the latest first. *)
Record auth_world := AuthWorld {
  w_db : auth_db; w_sessions : gset string; w_refresh : gset string; w_activation : gset string; w_events : list event }.
(** A call that fails changes nothing ([run_tx]). *)
Definition call_auth (o : op) (w : auth_world) : auth_world :=
  let '(db, r) := run_tx (perform o) (w_db w) in
  AuthWorld db (w_sessions w ∪ born_session o) (w_refresh w ∪ born_refresh o) (w_activation w ∪ born_activation o)
    ((match r with Ok evs => evs | Err _ => [] end) ++ w_events w).
(** Random ids and tokens do not repeat. *)
Definition draws_new (o : op) (w : auth_world) : bool :=
  bool_decide (born_session o ## w_sessions w) && bool_decide (born_refresh o ## w_refresh w) &&
  bool_decide (born_activation o ## w_activation w).
Inductive auth_step (w : auth_world) : auth_world -> Prop :=
| StepCall o : draws_new o w = true -> auth_step w (call_auth o w).
Definition auth_start : auth_world := AuthWorld (AuthDB ∅ ∅ ∅ ∅ ∅) ∅ ∅ ∅ [].
(** A script of calls, if every one draws new values. *)
Fixpoint calls (os : list op) (w : auth_world) : option auth_world :=
  match os with
  | [] => Some w
  | o :: os => if draws_new o w then calls os (call_auth o w) else None
  end.
Lemma calls_steps os w w' : calls os w = Some w' -> rtc auth_step w w'.
Proof.
  revert w. induction os as [|o os IH]; cbn; intros w Hc; [injection Hc as ->; constructor|].
  destruct (draws_new o w) eqn:Hd; [|done]. econstructor; [by constructor | by apply IH].
Qed.

(** ** Every call is steady *)

Section Performed.
Context (S H A : gset string).

Lemma steady_quiet {B} (m : ATx B) : steady_tx S H A m -> steady_tx S H A (silently m).
Proof. intros Hm. apply steady_bind; [done|]. intros _. apply steady_ret. Qed.

#[local] Hint Resolve steady_quiet steady_Create steady_Rotate steady_Revoke steady_delete_expired steady_Store steady_Reset steady_Activate
  steady_activation_delete steady_Enroll steady_Confirm steady_UpdatePassword steady_UpdateProfile steady_EndUserStatus steady_DeleteEndUser
  steady_SystemAdmin steady_TenantUser steady_DeleteSystemAdmin steady_CreateAccount steady_Register steady_tenant_Create steady_UpdateStatus
  steady_RequestDeletion steady_CancelDeletion steady_Purge : auth_steady.

Lemma perform_steady o : born_session o ## S -> born_refresh o ## H -> born_activation o ## A -> steady_tx S H A (perform o).
Proof.
  intros HS HH HA. destruct o; cbn in HS, HH, HA |- *; try (auto with auth_steady; fail).
  - apply steady_bind; [apply steady_Create; set_solver | auto with auth_steady].
  - apply steady_bind; [auto with auth_steady|]. intros db. apply steady_bind; [apply steady_Rotate; set_solver | auto with auth_steady].
  - apply steady_quiet, steady_Store. set_solver.
  - apply steady_quiet, steady_Reset. set_solver.
  - apply steady_quiet, steady_CreateAccount. set_solver.
Qed.
End Performed.

(** ** What the calls do that is recorded *)

Definition spent (m : gmap string refresh_token) (h : string) : Prop := forall t, m !! h = Some t -> ~ live_token t.
Definition used (m : gmap string activation_token) (h : string) : Prop := forall k, m !! h = Some k -> ~ pending_token k.
Definition ended (m : gmap string auth_session) (sid : string) : Prop := forall s, m !! sid = Some s -> ~ live_session s.

Definition recorded (db db' : auth_db) (ev : event) : Prop :=
  match ev with
  | EvIssued c => exists s, d_sessions db' !! cl_SessionID c = Some s
  | EvRotated h => ~ spent (d_refresh db) h /\ spent (d_refresh db') h
  | EvReused sid => is_Some (d_sessions db !! sid) /\ ended (d_sessions db') sid
  | EvActivated h => ~ used (d_activation db) h /\ used (d_activation db') h
  end.

Lemma quiet_inv {B} (m : ATx B) db evs db' : silently m db = Ok (evs, db') -> evs = [].
Proof. intros Hr. apply tx_bind_ok in Hr as (b & d1 & _ & Hr). by injection Hr as <- _. Qed.

Lemma Create_inv can_sign ttl now rttl sid h p db c db' :
  sessions_Create can_sign ttl now rttl sid h p db = Ok (c, db') ->
  exists a, d_accounts db !! pr_UserID p = Some a /\ d_sessions db !! sid = None /\
    ia_status a = Active /\ ia_cstate a = Active /\ ia_cv a = pr_CredentialVersion p /\ can_sign = true /\
    (3 <= pr_UserType p -> tenant_status db a = Active) /\
    c = GenerateAccessToken now ttl p sid /\
    db' = set_refresh (<[h := MkRefresh sid Active (now + rttl) None None]> (d_refresh db))
      (set_sessions (<[sid := MkSession (pr_UserID p) (pr_CredentialVersion p) Active (now + rttl) None None]> (d_sessions db)) db).
Proof.
  unfold sessions_Create. intros Hr. rewrite tx_get_bind in Hr. destruct (d_accounts db !! pr_UserID p) as [a|] eqn:Ha; [|done].
  apply tx_bind_ok in Hr as ([] & db1 & Hg & Hr). apply tx_guard_ok in Hg as [[[Hst Hcs]%orb_false_iff Hcv]%orb_false_iff ->].
  apply tx_bind_ok in Hr as ([] & db1 & Hg & Hr). apply tx_guard_ok in Hg as [Hten ->].
  apply tx_bind_ok in Hr as ([] & db1 & Hg & Hr). apply tx_guard_ok in Hg as [Hfree ->]. unfold col_eq in *. bool_prop.
  apply tx_bind_ok in Hr as ([] & db1 & Hp & Hr). unfold tx_put in Hp. injection Hp as <-.
  apply tx_bind_ok in Hr as ([] & db2 & Hi & Hr). apply tx_bind_ok in Hr as ([] & db3 & Hg & Hr). apply tx_guard_ok in Hg as [Hk ->]. tx_inv Hr.
  apply insert_refresh_ok in Hi as (_ & _ & ->). apply negb_false_iff in Hk.
  exists a. split_and!; try done; [by destruct (d_sessions db !! sid); [destruct Hfree|]|].
  intros Hty. destruct (decide (tenant_status db a = Active)) as [E | N]; [done|].
  rewrite (bool_decide_false _ N) in Hten. rewrite (proj2 (Z.leb_le _ _) Hty) in Hten. done.
Qed.

Lemma revoke_spec now reason sid db u db' : revokeSessionTx now reason sid db = Ok (u, db') ->
  ended (d_sessions db') sid /\ d_accounts db' = d_accounts db /\ (forall h t, d_refresh db' !! h = Some t -> rt_session t = sid -> ~ live_token t).
Proof.
  unfold revokeSessionTx. intros Hr. rewrite tx_get_bind in Hr. injection Hr as _ <-. split_and!; [|done|].
  - intros s Hs. cbn in Hs. rewrite lookup_alter_eq in Hs. destruct (d_sessions db !! sid) as [s0|]; [|done]. injection Hs as <-. unfold live_session. cbn. done.
  - intros h t Ht Hs. cbn in Ht. rewrite lookup_fmap in Ht. destruct (d_refresh db !! h) as [t0|]; [|done]. injection Ht as <-.
    destruct (active_in sid t0) eqn:Ha; unfold live_token; cbn; [done|]. intros Hl. unfold active_in, col_eq in Ha. cbn in Hs.
    rewrite Hs in Ha. rewrite !bool_decide_true in Ha; done.
Qed.

Lemma Activate_inv policy bcrypt now h pw db u db' :
  activation_Activate policy bcrypt now h pw db = Ok (u, db') ->
  exists k a n db1, d_activation db !! h = Some k /\ d_accounts db !! ac_user k = Some a /\ pending_token k /\ now < ac_expires k /\
    ia_status a <> Deleted /\ ia_cstate a = PendingActivation /\ policy pw (ia_username a) = true /\
    update_accounts now (fun id _ => col_eq id (ac_user k)) (new_credential (bcrypt pw) Active) db = Ok (n, db1) /\
    db' = set_activation (consume_pending now (ac_user k) (d_activation db1)) db1.
Proof.
  unfold activation_Activate. intros Hr. rewrite tx_get_bind in Hr. destruct (d_activation db !! h) as [k|] eqn:Hk; [|done].
  destruct (d_accounts db !! ac_user k) as [a|] eqn:Ha; [|done].
  apply tx_bind_ok in Hr as ([] & ? & Hg & Hr); apply tx_guard_ok in Hg as [Hc ->].
  apply tx_bind_ok in Hr as ([] & ? & Hg & Hr); apply tx_guard_ok in Hg as [He ->].
  apply tx_bind_ok in Hr as ([] & ? & Hg & Hr); apply tx_guard_ok in Hg as [[Hd Hp]%orb_false_iff ->].
  apply tx_bind_ok in Hr as ([] & ? & Hg & Hr); apply tx_guard_ok in Hg as [Hw ->].
  apply tx_bind_ok in Hr as (n & db1 & Hu & Hr). rewrite tx_get_bind in Hr. injection Hr as _ <-. unfold col_eq in *. bool_prop.
  exists k, a, n, db1. split_and!; try done.
  - unfold pending_token. by destruct (ac_consumed k); [destruct Hc|].
Qed.

Lemma update_activation now p f db n db' : update_accounts now p f db = Ok (n, db') -> d_activation db' = d_activation db.
Proof.
  unfold update_accounts. intros Hr. rewrite tx_get_bind in Hr. cbv zeta in Hr. apply tx_bind_ok in Hr as ([] & ? & Hg & Hr).
  apply tx_guard_ok in Hg as [_ ->]. by tx_inv Hr.
Qed.

(** At most one event of each kind comes of a call. *)
Lemma perform_recorded o db evs db' : perform o db = Ok (evs, db') ->
  evs = [] \/ exists ev, recorded db db' ev /\ (evs = [ev] \/ exists h c, ev = EvRotated h /\ evs = [ev; EvIssued c] /\ recorded db db' (EvIssued c)).
Proof.
  intros Hr. destruct o; cbn [perform] in Hr; try (left; eapply quiet_inv; exact Hr).
  - right. apply tx_bind_ok in Hr as (c & d1 & Hc & Hr). injection Hr as <- <-. exists (EvIssued c). split; [|by left].
    apply Create_inv in Hc as (a & _ & _ & _ & _ & _ & _ & _ & -> & ->). eexists. apply lookup_insert_eq.
  - rewrite tx_get_bind in Hr. apply tx_bind_ok in Hr as (r & d1 & Hc & Hr). injection Hr as <- <-.
    apply Rotate_inv in Hc as (t & s & a & Ht & Hs & Ha & Hl & Hc). destruct r as [c|e]; cbn.
    + right. exists (EvRotated presentedHash). destruct Hc as (Hlt & _ & _ & -> & Hi). apply insert_refresh_ok in Hi as (Hn & _ & ->).
      cbn [set_refresh d_refresh] in *. assert (presentedHash <> newHash) by (intros ->; by rewrite lookup_insert_eq in Hn). split.
      * split; [intros Hsp; by apply (Hsp _ Ht)|]. intros t'. cbn. rewrite lookup_insert_ne, lookup_insert_eq by done. intros [= <-]. unfold live_token. cbn. done.
      * right. eexists _, _. split; [done|]. split; [done|]. by exists s.
    + destruct e; try (by left). right. exists (EvReused (rt_session t)). rewrite Ht. split; [|by left].
      destruct Hc as (reason & Hrev & _). apply revoke_spec in Hrev as [? _]. split; [by eexists | done].
  - right. apply tx_bind_ok in Hr as (c & d1 & Hc & Hr). injection Hr as <- <-. exists (EvActivated hash). split; [|by left].
    apply Activate_inv in Hc as (k & a & n & db1 & Hk & _ & Hp & _ & _ & _ & _ & Hu & ->). split; [intros Hused; by apply (Hused _ Hk)|].
    intros k' Hk'. cbn in Hk'. apply consume_pending_inv in Hk' as (k0 & Hk0 & E & Q). intros P. destruct (Q P) as [-> N].
    rewrite (update_activation _ _ _ _ _ _ Hu) in Hk0. simplify_eq.
Qed.

(** ** Worlds *)

Definition rotated (evs : list event) : list string := omap (fun ev => match ev with EvRotated h => Some h | _ => None end) evs.
Definition activated (evs : list event) : list string := omap (fun ev => match ev with EvActivated h => Some h | _ => None end) evs.

Record world_ok (w : auth_world) : Prop := MkWorldOk {
  wo_tables : auth_ok (w_db w);
  wo_sessions : forall sid, is_Some (d_sessions (w_db w) !! sid) -> sid ∈ w_sessions w;
  wo_refresh : forall h, is_Some (d_refresh (w_db w) !! h) -> h ∈ w_refresh w;
  wo_activation : forall h, is_Some (d_activation (w_db w) !! h) -> h ∈ w_activation w;
  wo_issued : forall c, EvIssued c ∈ w_events w -> cl_SessionID c ∈ w_sessions w;
  wo_rotated : forall h, h ∈ rotated (w_events w) -> h ∈ w_refresh w /\ spent (d_refresh (w_db w)) h;
  wo_reused : forall sid, EvReused sid ∈ w_events w -> sid ∈ w_sessions w /\ ended (d_sessions (w_db w)) sid;
  wo_activated : forall h, h ∈ activated (w_events w) -> h ∈ w_activation w /\ used (d_activation (w_db w)) h;
  wo_nodup : NoDup (rotated (w_events w)) /\ NoDup (activated (w_events w)) }.

Lemma ages_ended S H A db db' sid : ages S H A db db' -> sid ∈ S -> ended (d_sessions db) sid -> ended (d_sessions db') sid.
Proof. intros [Ha _ _] Hin He s' Hs' Hl. destruct (Ha _ _ Hin Hs') as (s & Hs & _ & L). destruct (L Hl) as [Hl0 _]. by apply (He _ Hs). Qed.
Lemma ages_spent S H A db db' h : ages S H A db db' -> h ∈ H -> spent (d_refresh db) h -> spent (d_refresh db') h.
Proof. intros [_ Ha _] Hin He t' Ht' Hl. destruct (Ha _ _ Hin Ht') as (t & Ht & _ & L). by apply (He _ Ht), L. Qed.
Lemma ages_used S H A db db' h : ages S H A db db' -> h ∈ A -> used (d_activation db) h -> used (d_activation db') h.
Proof. intros [_ _ Ha] Hin He k' Hk' Hl. destruct (Ha _ _ Hin Hk') as (k & Hk & _ & L). by apply (He _ Hk), L. Qed.

(** Rows are born with their call. *)
Lemma perform_births o db evs db' : auth_ok db -> perform o db = Ok (evs, db') ->
  (forall sid, is_Some (d_sessions db' !! sid) -> sid ∈ born_session o \/ is_Some (d_sessions db !! sid)) /\
  (forall h, is_Some (d_refresh db' !! h) -> h ∈ born_refresh o \/ is_Some (d_refresh db !! h)) /\
  (forall h, is_Some (d_activation db' !! h) -> h ∈ born_activation o \/ is_Some (d_activation db !! h)).
Proof.
  intros Hok Hp. split_and!; intros x [y Hy].
  - destruct (decide (x ∈ born_session o)) as [? | N]; [by left|]. right.
    destruct (perform_steady {[x]} ∅ ∅ o ltac:(set_solver) ltac:(set_solver) ltac:(set_solver) _ _ _ Hok Hp) as [_ [Ha _ _]].
    destruct (Ha x y) as (? & ? & _); [set_solver | done | by eexists].
  - destruct (decide (x ∈ born_refresh o)) as [? | N]; [by left|]. right.
    destruct (perform_steady ∅ {[x]} ∅ o ltac:(set_solver) ltac:(set_solver) ltac:(set_solver) _ _ _ Hok Hp) as [_ [_ Ha _]].
    destruct (Ha x y) as (? & ? & _); [set_solver | done | by eexists].
  - destruct (decide (x ∈ born_activation o)) as [? | N]; [by left|]. right.
    destruct (perform_steady ∅ ∅ {[x]} o ltac:(set_solver) ltac:(set_solver) ltac:(set_solver) _ _ _ Hok Hp) as [_ [_ _ Ha]].
    destruct (Ha x y) as (? & ? & _); [set_solver | done | by eexists].
Qed.

(** What a call does to the world. *)
Lemma call_ages o w : auth_ok (w_db w) -> draws_new o w = true ->
  auth_ok (w_db (call_auth o w)) /\ ages (w_sessions w) (w_refresh w) (w_activation w) (w_db w) (w_db (call_auth o w)).
Proof.
  intros Hok [[D1 D2]%andb_true_iff D3]%andb_true_iff. bool_prop. unfold call_auth, run_tx.
  destruct (perform o (w_db w)) as [[evs db']|e] eqn:Hp; [|by split]. cbn. by eapply perform_steady.
Qed.

(** What one event records keeps the bookkeeping of the world. *)
Section Recorded.
Context (w : auth_world) (db' : auth_db) (Hok : world_ok w)
  (Hages : ages (w_sessions w) (w_refresh w) (w_activation w) (w_db w) db').
Lemma recorded_rotated h : recorded (w_db w) db' (EvRotated h) -> h ∈ w_refresh w /\ h ∉ rotated (w_events w) /\ spent (d_refresh db') h.
Proof.
  intros [Hb Ha]. split_and!; [|by intros Hin; apply Hb, (wo_rotated _ Hok) | done].
  apply (wo_refresh _ Hok). destruct (d_refresh (w_db w) !! h) eqn:E; [by eexists|]. destruct Hb. intros t Ht. congruence.
Qed.
Lemma recorded_activated h : recorded (w_db w) db' (EvActivated h) -> h ∈ w_activation w /\ h ∉ activated (w_events w) /\ used (d_activation db') h.
Proof.
  intros [Hb Ha]. split_and!; [|by intros Hin; apply Hb, (wo_activated _ Hok) | done].
  apply (wo_activation _ Hok). destruct (d_activation (w_db w) !! h) eqn:E; [by eexists|]. destruct Hb. intros k Hk. congruence.
Qed.
End Recorded.

Lemma elem_rotated h evs : h ∈ rotated evs <-> EvRotated h ∈ evs.
Proof. unfold rotated. rewrite list_elem_of_omap. split; [intros ([] & Hin & [= ->]); exact Hin | by intros Hin; exists (EvRotated h)]. Qed.
Lemma elem_activated h evs : h ∈ activated evs <-> EvActivated h ∈ evs.
Proof. unfold activated. rewrite list_elem_of_omap. split; [intros ([] & Hin & [= ->]); exact Hin | by intros Hin; exists (EvActivated h)]. Qed.

Lemma call_world_ok o w : draws_new o w = true -> world_ok w -> world_ok (call_auth o w).
Proof.
  intros Hd Hok. pose proof (wo_tables _ Hok) as Ht. destruct (call_ages o w Ht Hd) as [Hok' Hages].
  unfold call_auth, run_tx in *. destruct (perform o (w_db w)) as [[evs db']|e] eqn:Hp; cbn [w_db] in *.
  2:{ destruct Hok. split; cbn; try done; try set_solver. }
  destruct (perform_births _ _ _ _ Ht Hp) as (B1 & B2 & B3). pose proof (perform_recorded _ _ _ _ Hp) as Hrec.
  assert (Hall : forall ev, ev ∈ evs -> recorded (w_db w) db' ev).
  { destruct Hrec as [-> | (ev & Hev & [-> | (h & c & -> & -> & Hc)])]; intros ev' Hin; set_unfold; by intuition subst. }
  assert (Hnd : NoDup (rotated evs) /\ NoDup (activated evs)).
  { destruct Hrec as [-> | (ev & Hev & [-> | (h & c & -> & -> & Hc)])]; [split; constructor | | split; cbn; [apply NoDup_singleton | constructor]].
    destruct ev; split; cbn; solve [constructor | apply NoDup_singleton]. }
  pose proof Hok as Hok0. destruct Hok as [O1 O2 O3 O4 O5 O6 O7 O8 [O9 O10]]. split; cbn [w_db w_sessions w_refresh w_activation w_events].
  - done.
  - intros sid Hs. destruct (B1 _ Hs); [set_solver | apply elem_of_union_l; auto].
  - intros h Hs. destruct (B2 _ Hs); [set_solver | apply elem_of_union_l; auto].
  - intros h Hs. destruct (B3 _ Hs); [set_solver | apply elem_of_union_l; auto].
  - intros c [Hin | Hin]%elem_of_app; [|apply elem_of_union_l; auto]. destruct (Hall _ Hin) as [s Hs].
    destruct (B1 (cl_SessionID c)) as [? | ?]; [by eexists | set_solver | apply elem_of_union_l; auto].
  - intros h Hin. unfold rotated in Hin. rewrite omap_app in Hin. apply elem_of_app in Hin as [Hin | Hin].
    + apply elem_rotated, Hall in Hin. apply (recorded_rotated w db' Hok0) in Hin as (? & _ & ?). set_solver.
    + destruct (O6 _ Hin). split; [set_solver | by eapply ages_spent].
  - intros sid [Hin | Hin]%elem_of_app.
    + destruct (Hall _ Hin) as [Hs He]. split; [apply elem_of_union_l; auto | done].
    + destruct (O7 _ Hin). split; [set_solver | by eapply ages_ended].
  - intros h Hin. unfold activated in Hin. rewrite omap_app in Hin. apply elem_of_app in Hin as [Hin | Hin].
    + apply elem_activated, Hall in Hin. apply (recorded_activated w db' Hok0) in Hin as (? & _ & ?). set_solver.
    + destruct (O8 _ Hin). split; [set_solver | by eapply ages_used].
  - unfold rotated, activated in *. rewrite !omap_app. destruct Hnd. split; apply NoDup_app; split_and!; try done.
    + intros h Hin. apply elem_rotated, Hall in Hin. by apply (recorded_rotated w db' Hok0) in Hin as (_ & ? & _).
    + intros h Hin. apply elem_activated, Hall in Hin. by apply (recorded_activated w db' Hok0) in Hin as (_ & ? & _).
Qed.

Lemma start_world_ok : world_ok auth_start.
Proof. split; [split; cbn; done | ..]; cbn; try (by intros x [y Hy]); try set_solver; split; constructor. Qed.
Lemma step_world_ok w w' : rtc auth_step w w' -> world_ok w -> world_ok w'.
Proof. induction 1 as [|w w1 w2 [o Hd] _ IH]; [done|]. intros Hok. by apply IH, call_world_ok. Qed.
Lemma reachable_world_ok w : rtc auth_step auth_start w -> world_ok w.
Proof. intros Hr. by eapply step_world_ok, start_world_ok. Qed.

(** Later worlds are older. *)
Lemma steps_ages w w' : rtc auth_step w w' -> world_ok w ->
  ages (w_sessions w) (w_refresh w) (w_activation w) (w_db w) (w_db w') /\
  w_sessions w ⊆ w_sessions w' /\ w_refresh w ⊆ w_refresh w' /\ w_activation w ⊆ w_activation w' /\
  exists evs, w_events w' = evs ++ w_events w.
Proof.
  induction 1 as [w | w w1 w2 [o Hd] _ IH]; intros Hok; [split_and!; [done..|]; by exists []|].
  destruct (call_ages o w (wo_tables _ Hok) Hd) as [_ Ha]. destruct (IH (call_world_ok _ _ Hd Hok)) as ([A1 A2 A3] & S1 & S2 & S3 & evs & Hev).
  assert (Hg : w_sessions w ⊆ w_sessions (call_auth o w) /\ w_refresh w ⊆ w_refresh (call_auth o w) /\ w_activation w ⊆ w_activation (call_auth o w) /\
               exists evs, w_events (call_auth o w) = evs ++ w_events w).
  { unfold call_auth. destruct (run_tx _ _) as [db r]. cbn. split_and!; [set_solver..|]. by eexists. }
  destruct Hg as (G1 & G2 & G3 & evs0 & G4). split_and!; [|set_solver..|].
  - etrans; [exact Ha|]. split; intros; [eapply A1 | eapply A2 | eapply A3]; eauto.
  - exists (evs ++ evs0). by rewrite Hev, G4, app_assoc.
Qed.
