(* ===== verification/AuthProps.v ===== *)
(** * What signing in guarantees

    Over any interleaving of the calls of [AuthSystem]: a session that ended stays ended,
    an access token is only accepted while its account stays as it was, refresh tokens
    rotate once, activation tokens work once.  Call by call: what a rotation, an
    activation and a change of password do on every branch. *)

From S2P Require Import Prelude GoStrings Auth AuthSystem.
#[global] Open Scope Z_scope.

Implicit Types (db : auth_db) (s : auth_session) (t : refresh_token) (a : account_row) (k : activation_token) (c : Claims).

(** ** Reading a validation *)

Lemma session_open_inv now sid user version type db a :
  session_open now sid user version type db = Some a ->
  exists s, d_sessions db !! sid = Some s /\ live_session s /\ as_user s = user /\ as_cv s = version /\ now < as_expires s /\
    d_accounts db !! user = Some a /\ ia_cv a = version /\ ia_type a = type /\ ia_status a = Active /\ ia_cstate a = Active.
Proof.
  unfold session_open. intros Ho. destruct (d_sessions db !! sid) as [s|] eqn:Hs; [|done].
  destruct (d_accounts db !! as_user s) as [b|] eqn:Ha; [|done]. case_match eqn:Hc; [|done]. injection Ho as ->.
  unfold col_eq in Hc. bool_prop. destruct_and?. bool_prop. exists s. unfold live_session. subst. by split_and!.
Qed.
Lemma session_open_ended now sid user version type db :
  ended (d_sessions db) sid -> session_open now sid user version type db = None.
Proof.
  intros He. destruct (session_open _ _ _ _ _ _) eqn:Ho; [|done]. apply session_open_inv in Ho as (s & Hs & Hl & _). by destruct (He _ Hs).
Qed.
(** The account a token acts for. *)
Lemma validateAccessSession_inv now c db :
  validateAccessSession now c db = true ->
  exists a type, session_open now (cl_SessionID c) (cl_UserID c) (cl_CredentialVersion c) type db = Some a.
Proof.
  unfold validateAccessSession, validateTenantOperationsSession. intros Hv. case_match; [done|]. destruct (cl_TenantOperations c).
  - apply andb_true_iff in Hv as [Hv1 Hv2]. case_match eqn:Ho; [|done]. unfold col_eq in Hv1. bool_prop. destruct_and?. bool_prop.
    destruct_and?. bool_prop. eexists _, _. rewrite <- Ho. f_equal. congruence.
  - case_match eqn:Ho; [|done]. by eexists _, _.
Qed.

(** ** Ends are final *)

(** C14: a session that was revoked, or deleted, never lives again, whatever is called: its
    access tokens, tenant-operations tokens and queued tasks are refused and none of its
    refresh tokens is exchanged. *)
Theorem ended_session_stays_ended w w' sid :
  rtc auth_step auth_start w -> rtc auth_step w w' -> sid ∈ w_sessions w -> ended (d_sessions (w_db w)) sid ->
  ended (d_sessions (w_db w')) sid /\
  (forall now c, cl_SessionID c = sid -> validateAccessSession now c (w_db w') = false) /\
  (forall now tenant user type version uid, task_session_valid now tenant user type sid version uid (w_db w') = false) /\
  (forall can_sign ttl now h h' t, d_refresh (w_db w') !! h = Some t -> rt_session t = sid ->
     sessions_Rotate can_sign ttl now h h' (w_db w') = Err ErrSessionInactive).
Proof.
  intros Hr Hs Hin He. pose proof (reachable_world_ok _ Hr) as Hok. destruct (steps_ages _ _ Hs Hok) as [Ha _].
  pose proof (ages_ended _ _ _ _ _ _ Ha Hin He) as He'. split_and!.
  - done.
  - intros now c <-. destruct (validateAccessSession _ _ _) eqn:Hv; [|done]. apply validateAccessSession_inv in Hv as (a & type & Ho).
    by rewrite session_open_ended in Ho.
  - intros. unfold task_session_valid. case_match; [done|]. by rewrite session_open_ended.
  - intros can_sign ttl now h h' t Ht <-. pose proof (wo_tables _ (step_world_ok _ _ Hs Hok)) as [_ O2 O3 _ _ _ _].
    destruct (O3 _ _ Ht) as (s & Hs' & _). destruct (O2 _ _ Hs') as [a Hacc]. unfold sessions_Rotate. rewrite tx_get_bind, Ht, Hs', Hacc.
    destruct (col_eq (as_status s) Active) eqn:Hl; [|done]. unfold col_eq in Hl. bool_prop. by destruct (He' _ Hs').
Qed.

(** C15: a token accepted now was issued to an account that has not changed since: at every
    moment since its session existed, the session was live and the account had the status,
    the credentials, the role and the tenant it has now, all active. *)
Theorem access_token_follows_account w w' now c :
  rtc auth_step auth_start w -> rtc auth_step w w' -> cl_SessionID c ∈ w_sessions w ->
  validateAccessSession now c (w_db w') = true ->
  exists s a a', d_sessions (w_db w) !! cl_SessionID c = Some s /\ live_session s /\ as_user s = cl_UserID c /\ now < as_expires s /\
    d_accounts (w_db w) !! cl_UserID c = Some a /\ d_accounts (w_db w') !! cl_UserID c = Some a' /\ standing a = standing a' /\
    ia_status a = Active /\ ia_cstate a = Active /\ ia_cv a = cl_CredentialVersion c.
Proof.
  intros Hr Hs Hin Hv. pose proof (reachable_world_ok _ Hr) as Hok. destruct (steps_ages _ _ Hs Hok) as [[Ha _ _] _].
  apply validateAccessSession_inv in Hv as (a' & type & Ho). apply session_open_inv in Ho as (s' & Hs' & Hl & Hu & Hcv & Hexp & Ha' & Hv & _ & Hst & Hcs).
  destruct (Ha _ _ Hin Hs') as (s & Hs0 & Eid & L). destruct (L Hl) as [Hl0 Hstand]. injection Eid as E1 E2 E3.
  rewrite E1, Hu in Hstand. rewrite Ha' in Hstand. destruct (d_accounts (w_db w) !! cl_UserID c) as [a|] eqn:Hacc; [|done].
  injection Hstand as F1 F2 F3 F4 F5. exists s, a, a'. unfold standing. split_and!; congruence || lia.
Qed.

(** C16: a refresh token is exchanged at most once; presented again while its session lives, it
    ends the session and with it every token of the family. *)
Theorem refresh_token_rotates_once w :
  rtc auth_step auth_start w ->
  NoDup (rotated (w_events w)) /\
  (forall sid, EvReused sid ∈ w_events w -> ended (d_sessions (w_db w)) sid) /\
  (forall h t s can_sign ttl now h', EvRotated h ∈ w_events w -> d_refresh (w_db w) !! h = Some t ->
     d_sessions (w_db w) !! rt_session t = Some s -> live_session s ->
     exists db', sessions_Rotate can_sign ttl now h h' (w_db w) = Ok (Err ErrRefreshTokenReused, db') /\
       ended (d_sessions db') (rt_session t) /\ forall h2 t2, d_refresh db' !! h2 = Some t2 -> rt_session t2 = rt_session t -> ~ live_token t2).
Proof.
  intros Hr. pose proof (reachable_world_ok _ Hr) as Hok. split_and!; [apply Hok | intros sid; apply Hok |].
  intros h t s can_sign ttl now h' Hev Ht Hs Hl. apply elem_rotated, (wo_rotated _ Hok) in Hev as [_ Hsp].
  destruct (ao_session _ (wo_tables _ Hok) _ _ Hs) as [a Ha]. unfold sessions_Rotate. rewrite tx_get_bind, Ht, Hs, Ha.
  unfold live_session in Hl. rewrite Hl. cbn [negb col_eq]. unfold col_eq. rewrite (bool_decide_true (Active = Active)) by done. cbn [negb].
  rewrite (bool_decide_false (rt_status t = Active)) by (by apply Hsp). cbn [negb].
  destruct (revokeSessionTx now "refresh_token_reused" (rt_session t) (w_db w)) as [[[] db']|e] eqn:Hrev; [|done].
  exists db'. unfold tx_bind. rewrite Hrev. destruct (revoke_spec _ _ _ _ _ _ Hrev) as (H1 & _ & H2). by split_and!.
Qed.

(** C29: an activation token sets a password at most once, and of the tokens of an account only
    the latest can. *)
Theorem activation_token_works_once w :
  rtc auth_step auth_start w ->
  NoDup (activated (w_events w)) /\
  (forall h k policy bcrypt now pw, EvActivated h ∈ w_events w -> d_activation (w_db w) !! h = Some k ->
     activation_Activate policy bcrypt now h pw (w_db w) = Err ErrUsedActivationToken) /\
  (forall h1 h2 k1 k2, d_activation (w_db w) !! h1 = Some k1 -> d_activation (w_db w) !! h2 = Some k2 -> ac_user k1 = ac_user k2 ->
     h1 <> h2 -> pending_token k1 -> ~ pending_token k2).
Proof.
  intros Hr. pose proof (reachable_world_ok _ Hr) as Hok. split_and!; [apply Hok | |].
  - intros h k policy bcrypt now pw Hev Hk. apply elem_activated, (wo_activated _ Hok) in Hev as [_ Hu].
    destruct (ao_activation _ (wo_tables _ Hok) _ _ Hk) as [a Ha]. unfold activation_Activate. rewrite tx_get_bind, Hk, Ha.
    rewrite bool_decide_true; [done|]. destruct (ac_consumed k) eqn:E; [by eexists|]. by destruct (Hu _ Hk).
  - intros h1 h2 k1 k2 H1 H2 E N P1 P2. apply N. by eapply (ao_one_pending _ (wo_tables _ Hok)).
Qed.

(** ** A rotation, branch by branch *)

(** What [Rotate] answers for a token of a session: the account of a live session is
    active with the credentials it signed in with, so only its tenant is left to ask. *)
Definition rotation (can_sign : bool) (now : Z) (db : auth_db) (t : refresh_token) (s : auth_session) (a : account_row) : result auth_error unit :=
  if negb (bool_decide (live_session s)) then Err ErrSessionInactive
  else if negb (bool_decide (live_token t)) then Err ErrRefreshTokenReused
  else if as_expires s <=? now then Err ErrInvalidRefreshToken
  else if (3 <=? ia_type a) && negb (col_eq (tenant_status db a) Active) then Err ErrTenantInactive
  else if can_sign then Ok tt else Err ErrNoSigningKey.

(** In tables that are [auth_ok] the verdict is the rotation's. *)
Lemma refresh_verdict_live now db t s a :
  auth_ok db -> d_sessions db !! rt_session t = Some s -> live_session s -> d_accounts db !! as_user s = Some a -> rt_expires t = as_expires s ->
  refresh_verdict now db t s a =
    if as_expires s <=? now then Some ("session_expired"%string, ErrInvalidRefreshToken)
    else if (3 <=? ia_type a) && negb (col_eq (tenant_status db a) Active) then Some ("tenant_inactive"%string, ErrTenantInactive) else None.
Proof.
  intros Hok Hs Hl Ha He. destruct (ao_live _ Hok _ _ _ Hs Hl Ha) as (E1 & E2 & E3). unfold refresh_verdict.
  rewrite He, orb_diag, E1, E2, E3, Z.eqb_refl. unfold col_eq. by rewrite bool_decide_true.
Qed.

(** The exchange itself: the token is spent, its successor has the expiry of the session. *)
Definition rotated_tables (now : Z) (h h' : string) (t : refresh_token) (s : auth_session) (db : auth_db) : auth_db :=
  set_refresh (<[h' := MkRefresh (rt_session t) Active (as_expires s) None None]>
    (<[h := MkRefresh (rt_session t) Consumed (rt_expires t) (Some now) (Some h')]> (d_refresh db))) db.

Lemma insert_successor now h h' db t s :
  auth_ok db -> d_refresh db !! h = Some t -> live_token t -> d_refresh db !! h' = None ->
  insert_refresh h' (rt_session t) (as_expires s)
    (set_refresh (<[h := MkRefresh (rt_session t) Consumed (rt_expires t) (Some now) (Some h')]> (d_refresh db)) db) =
  Ok (tt, rotated_tables now h h' t s db).
Proof.
  intros Hok Ht Hl Hnew. assert (h <> h') by congruence. unfold insert_refresh. rewrite tx_get_bind, tx_guard_pass; [done|].
  apply orb_false_iff. split; [cbn [set_refresh d_refresh]; apply bool_decide_eq_false; rewrite lookup_insert_ne by done; by rewrite Hnew; intros [??]|].
  apply existsb_active. cbn [set_refresh d_refresh]. intros h2 t2 H2 E2 L2. destruct (decide (h2 = h)) as [-> | N].
  - rewrite lookup_insert_eq in H2. injection H2 as <-. unfold live_token in L2. cbn in L2. done.
  - rewrite lookup_insert_ne in H2 by done. apply N. by eapply (ao_one_refresh _ Hok).
Qed.

Lemma rotated_tables_ok now h h' db t s :
  auth_ok db -> d_refresh db !! h = Some t -> live_token t -> d_refresh db !! h' = None -> d_sessions db !! rt_session t = Some s ->
  auth_ok (rotated_tables now h h' t s db).
Proof.
  intros Hok Ht Hl Hnew Hs. destruct (steady_consume ∅ ∅ ∅ db h t now h' Hok Ht) as [Hok1 _].
  refine (proj1 (steady_insert_refresh ∅ ∅ ∅ _ _ _ _ _ _ (not_elem_of_empty h') _ Hok1 (insert_successor now h h' db t s Hok Ht Hl Hnew))).
  by exists s.
Qed.

(** A token issued for a live session of an account is accepted until the session ends. *)
Lemma issued_is_accepted now ttl later sid s a db :
  auth_ok db -> d_sessions db !! sid = Some s -> live_session s -> d_accounts db !! as_user s = Some a -> sid <> ""%string -> later < as_expires s ->
  (forall x, ia_tenant a = Some x -> d_tenants db !! x = Some Active) ->
  validateAccessSession later (GenerateAccessToken now ttl (MkPrincipal (as_user s) (tenant_id a) (ia_type a) (ia_cv a)) sid) db = true.
Proof.
  intros Hok Hs Hl Ha Hsid Hlater Hten. destruct (ao_live _ Hok _ _ _ Hs Hl Ha) as (E1 & E2 & E3).
  pose proof (proj1 (proj1 (ao_accounts _ Hok) _ _ Ha)) as Hc. unfold account_check in Hc. rewrite !andb_true_iff in Hc. destruct Hc as (((((Hc1 & Hc2) & Hc3) & _) & _) & _).
  unfold validateAccessSession, GenerateAccessToken, session_open. cbn [cl_SessionID cl_CredentialVersion cl_TenantOperations cl_UserID cl_UserType cl_TenantID pr_UserID pr_TenantID pr_UserType pr_CredentialVersion].
  unfold live_session in Hl. rewrite Hs, Ha, E1, E2, E3, Hl, !Z.eqb_refl. unfold col_eq. rewrite (bool_decide_false (sid = EmptyString)) by done. rewrite !bool_decide_true by done.
  rewrite (proj2 (Z.leb_gt _ _)), (proj2 (Z.ltb_lt later _)) by lia. cbn [orb andb negb]. rewrite bool_decide_true by done. cbn [andb].
  destruct (ia_type a <? 3) eqn:Hty; [done|]. cbn [orb]. destruct (ia_tenant a) as [x|] eqn:Hx.
  - unfold tenant_active. rewrite bool_decide_true; [done | by apply Hten].
  - apply eqb_prop in Hc2. rewrite (bool_decide_false (is_Some _)) in Hc2 by (by intros [??]). exfalso.
    unfold status_allowed in Hc1. destruct ((ia_type a =? 1) || (ia_type a =? 2)) eqn:E12; [lia|].
    destruct (ia_type a =? 3); [done|]. by destruct (ia_type a =? 4).
Qed.

Lemma member_of_active_tenant db id a x :
  auth_ok db -> d_accounts db !! id = Some a -> (3 <=? ia_type a) && negb (bool_decide (tenant_status db a = Active)) = false ->
  ia_tenant a = Some x -> d_tenants db !! x = Some Active.
Proof.
  intros Hok Ha Hst Hx. pose proof (proj1 (proj1 (ao_accounts _ Hok) _ _ Ha)) as Hc. unfold account_check in Hc. rewrite !andb_true_iff in Hc.
  destruct Hc as (((((_ & Hc) & _) & _) & _) & _). apply eqb_prop in Hc. rewrite bool_decide_true in Hc by (by rewrite Hx).
  destruct (proj2 (proj1 (ao_accounts _ Hok) _ _ Ha) _ Hx) as [st Hst']. unfold tenant_status in Hst. rewrite Hx, Hst' in Hst. cbn in Hst. rewrite Hst'. f_equal.
  apply andb_false_iff in Hst as [Hst | Hst]; [lia|]. by bool_prop.
Qed.

(** With the library's check of the expiry, it is accepted exactly until the token or the
    session expires. *)
Lemma issued_is_accepted_until exp_valid now ttl later sid s a db :
  auth_ok db -> d_sessions db !! sid = Some s -> live_session s -> d_accounts db !! as_user s = Some a -> sid <> ""%string ->
  (forall x, ia_tenant a = Some x -> d_tenants db !! x = Some Active) ->
  ParseToken exp_valid later (GenerateAccessToken now ttl (MkPrincipal (as_user s) (tenant_id a) (ia_type a) (ia_cv a)) sid) db =
    exp_valid (now + ttl) later && (later <? as_expires s).
Proof.
  intros Hok Hs Hl Ha Hsid Hten. unfold ParseToken. f_equal. destruct (Z.ltb_spec later (as_expires s)) as [Hlt | Hge].
  - by apply issued_is_accepted.
  - unfold validateAccessSession, session_open. cbn [cl_SessionID cl_CredentialVersion cl_TenantOperations GenerateAccessToken].
    destruct (_ || _); [done|]. rewrite Hs, Ha, (proj2 (Z.ltb_ge later _)) by lia.
    by rewrite andb_false_r.
Qed.

(** C17: [Rotate] in full, on any tables that satisfy the invariant [auth_ok]: an exchange
    hands out a successor that expires with the session, so no session outlives its
    sign-in, and an access token that [ParseToken] accepts, while nothing else is
    written, until its own expiry - the lifetime of access tokens from now, to the second
    - or the expiry of the session, whichever comes first, and never after; a session
    that ended, or a replica that cannot sign, leaves everything as it was; any other
    refusal commits the end of the session and of all its tokens.  The JWT library's
    check of the expiry is a parameter ([jwt_expiry]). *)
Theorem Rotate_correct exp_valid can_sign ttl now h h' db t s a :
  jwt_expiry exp_valid -> auth_ok db -> d_refresh db !! h = Some t -> d_sessions db !! rt_session t = Some s -> d_accounts db !! as_user s = Some a ->
  d_refresh db !! h' = None ->
  match rotation can_sign now db t s a with
  | Ok _ =>
      let c := GenerateAccessToken now ttl (MkPrincipal (as_user s) (tenant_id a) (ia_type a) (ia_cv a)) (rt_session t) in
      sessions_Rotate can_sign ttl now h h' db = Ok (Ok c, rotated_tables now h h' t s db) /\
      (rt_session t <> ""%string -> forall later,
         let accepted := ParseToken exp_valid later c (rotated_tables now h h' t s db) in
         (accepted = true -> later < now + ttl /\ later < as_expires s) /\
         (later < now + ttl - Sec -> later < as_expires s -> accepted = true))
  | Err e =>
      match e with
      | ErrSessionInactive | ErrNoSigningKey => sessions_Rotate can_sign ttl now h h' db = Err e
      | _ => exists db', sessions_Rotate can_sign ttl now h h' db = Ok (Err e, db') /\ ended (d_sessions db') (rt_session t) /\
             d_accounts db' = d_accounts db /\ forall h2 t2, d_refresh db' !! h2 = Some t2 -> rt_session t2 = rt_session t -> ~ live_token t2
      end
  end.
Proof.
  intros Hjwt Hok Ht Hs Ha Hnew. destruct (ao_refresh _ Hok _ _ Ht) as (s0 & Hs0 & He). rewrite Hs in Hs0. injection Hs0 as <-.
  assert (Hrev : forall reason e, let m := revokeSessionTx now reason (rt_session t) ;;; tx_ret (Err e : result auth_error Claims) in
    exists db', m db = Ok (Err e, db') /\ ended (d_sessions db') (rt_session t) /\
             d_accounts db' = d_accounts db /\ forall h2 t2, d_refresh db' !! h2 = Some t2 -> rt_session t2 = rt_session t -> ~ live_token t2).
  { intros reason e m. unfold m, tx_bind. destruct (revokeSessionTx now reason (rt_session t) db) as [[[] db']|] eqn:Hr; [|done]. exists db'.
    split; [done|]. by apply revoke_spec in Hr. }
  unfold rotation, sessions_Rotate. rewrite tx_get_bind, Ht, Hs, Ha. unfold live_session, live_token, col_eq. case_bool_decide as Hl; cbn [negb]; [|done].
  case_bool_decide as Hlt; cbn [negb]; [|apply Hrev]. rewrite (refresh_verdict_live now db t s a Hok Hs Hl Ha He). unfold col_eq.
  destruct (as_expires s <=? now) eqn:Hexp; [apply Hrev|]. destruct ((3 <=? ia_type a) && _) eqn:Hten; [apply Hrev|].
  destruct can_sign; [|done]. cbv zeta.
  assert (Hdone : forall c, (tx_guard (negb true) ErrNoSigningKey ;;;
    tx_put (set_refresh (<[h := MkRefresh (rt_session t) Consumed (rt_expires t) (Some now) (Some h')]> (d_refresh db)) db) ;;;
    insert_refresh h' (rt_session t) (as_expires s) ;;; tx_ret (Ok c : result auth_error Claims)) db = Ok (Ok c, rotated_tables now h h' t s db)).
  { intros c. rewrite tx_guard_pass by done. unfold tx_bind, tx_put. by rewrite (insert_successor now h h' db t s Hok Ht Hlt Hnew). }
  split; [apply Hdone|]. intros Hsid later.
  pose proof (rotated_tables_ok now h h' db t s Hok Ht Hlt Hnew Hs). cbv zeta. rewrite issued_is_accepted_until;
    [|done..|intros x Hx; by eapply member_of_active_tenant]. rewrite andb_true_iff, Z.ltb_lt. split.
  - intros [Hv Hse]. split; [|done]. destruct (Z.lt_ge_cases later (now + ttl)); [done|].
    by rewrite (jwt_refused _ Hjwt) in Hv.
  - intros Hv Hse. split; [by apply (jwt_accepted _ Hjwt) | done].
Qed.

(** ** Changing credentials *)

(** The sessions of a user after the trigger. *)
Definition sign_out (now : Z) (user reason : string) (m : gmap string auth_session) : gmap string auth_session :=
  (fun s => if bool_decide (as_user s = user /\ live_session s) then revoke now reason s else s) <$> m.
Definition with_account (now : Z) (user : string) (a' : account_row) (db : auth_db) : auth_db :=
  set_sessions (sign_out now user "credential_changed" (d_sessions db)) (set_account_rows (<[user := a']> (d_accounts db)) db).

Lemma accounts_ok_update tenants m user a a' :
  accounts_ok tenants m -> m !! user = Some a -> account_check a' = true -> ia_tenant a' = ia_tenant a -> ia_username a' = ia_username a ->
  accounts_ok tenants (<[user := a']> m).
Proof.
  intros [H1 H2] Ha Hc Ht Hn.
  assert (Hb : forall id b, <[user := a']> m !! id = Some b -> exists b0, m !! id = Some b0 /\ ia_tenant b = ia_tenant b0 /\ ia_username b = ia_username b0 /\
            account_check b = true).
  { intros id b Hid. destruct (decide (id = user)) as [-> | N].
    - rewrite lookup_insert_eq in Hid. injection Hid as <-. by exists a.
    - rewrite lookup_insert_ne in Hid by done. exists b. split_and!; [done..|]. by apply (H1 id). }
  split.
  - intros id b (b0 & H0 & -> & _ & Hcb)%Hb. split; [done|]. by apply (H1 id).
  - intros i j b c (b0 & Hb0 & _ & -> & _)%Hb (c0 & Hc0 & _ & -> & _)%Hb. by apply H2.
Qed.

Lemma trigger_unchanged now m s : trigger_session now m m s = s.
Proof.
  unfold trigger_session. destruct (m !! as_user s) as [a|]; [|done]. replace (account_changed a a) with false; [done|].
  unfold account_changed, col_eq. by rewrite Z.eqb_refl, Z.eqb_refl, !bool_decide_true.
Qed.

Lemma no_update now db : (tx_put (set_sessions (trigger_session now (d_accounts db) (d_accounts db) <$> d_sessions db) (set_account_rows (d_accounts db) db)) ;;;
  tx_ret (S := auth_db) (E := auth_error) 0) db = Ok (0, db).
Proof.
  unfold tx_bind, tx_put, tx_ret. do 2 f_equal. destruct db as [tn ac se rf av]. unfold set_sessions, set_account_rows. cbn. f_equal.
  rewrite <- (map_fmap_id se) at 2. apply map_fmap_ext. intros. apply trigger_unchanged.
Qed.

(** One account gets a new version of its credentials. *)
Lemma update_credential now user p q f db :
  auth_ok db -> (forall id a, p id a = col_eq id user && q a) -> (forall a, ia_cv (f a) = ia_cv a + 1 /\ ia_status (f a) = ia_status a /\ ia_tenant (f a) = ia_tenant a /\
                           ia_username (f a) = ia_username a /\ (account_check a = true -> account_check (f a) = (ia_cv a <? int64_max))) ->
  update_accounts now p f db =
    match d_accounts db !! user with
    | Some a =>
        if q a then if ia_cv a <? int64_max then Ok (1, with_account now user (f a) db) else Err (ErrAuthSQL "constraint of iam_accounts")
        else Ok (0, db)
    | None => Ok (0, db)
    end.
Proof.
  intros Hok Hp Hf. unfold update_accounts. rewrite tx_get_bind. cbv zeta. set (old := d_accounts db).
  set (hit := match old !! user with Some a => q a | None => false end).
  assert (Hnew : map_imap (fun id a => Some (if p id a then f a else a)) old =
            match old !! user with Some a => if q a then <[user := f a]> old else old | None => old end).
  { apply map_eq. intros id. rewrite map_lookup_imap. destruct (decide (id = user)) as [-> | N].
    - destruct (old !! user) as [a|] eqn:Ha; cbn; [|by rewrite Ha]. rewrite Hp. unfold col_eq. rewrite bool_decide_true by done. cbn. destruct (q a); [by rewrite lookup_insert_eq | by rewrite Ha].
    - assert (E : forall a, p id a = false) by (intros a; rewrite Hp; unfold col_eq; by rewrite bool_decide_false).
      destruct (old !! user) as [a|]; [destruct (q a)|]; rewrite ?lookup_insert_ne by done; destruct (old !! id); cbn; by rewrite ?E. }
  assert (Hsize : Z.of_nat (size (filter (fun '(id, a) => p id a = true) old)) = if hit then 1 else 0).
  { unfold hit. destruct (old !! user) as [a|] eqn:Ha; [destruct (q a) eqn:Hq|].
    - replace (filter _ old) with ({[user := a]} : gmap string account_row); [by rewrite map_size_singleton|]. symmetry. apply map_eq. intros id.
      apply option_eq. intros b. rewrite map_lookup_filter_Some, lookup_singleton_Some, Hp. unfold col_eq. rewrite andb_true_iff, bool_decide_eq_true.
      split; [intros (Hb & -> & _); by simplify_eq | intros [<- <-]; done].
    - rewrite map_empty_filter_2; [done|]. intros id b Hb. rewrite Hp. unfold col_eq. case_bool_decide as E; [subst; simplify_eq; by rewrite Hq | done].
    - rewrite map_empty_filter_2; [done|]. intros id b Hb. rewrite Hp. unfold col_eq. case_bool_decide as E; [congruence | done]. }
  rewrite Hsize, Hnew. unfold hit. destruct (old !! user) as [a|] eqn:Ha; [destruct (q a)|].
  - destruct (Hf a) as (F1 & F2 & F3 & F4 & F5). pose proof (ao_accounts _ Hok) as Hacc. pose proof (proj1 (proj1 Hacc _ _ Ha)) as Hca.
    destruct (ia_cv a <? int64_max) eqn:Hmax.
    + rewrite tx_guard_pass by (apply negb_false_iff, accounts_check_spec, (accounts_ok_update _ _ _ a); auto; by rewrite F5).
      unfold tx_bind, tx_put, tx_ret, with_account. do 3 f_equal. unfold sign_out. apply map_fmap_ext. intros sid s Hs.
      unfold trigger_session. destruct (decide (as_user s = user)) as [E | N].
      * rewrite E, lookup_insert_eq, Ha. unfold account_changed, change_reason, col_eq. rewrite F1, F2, bool_decide_true by done.
        replace (ia_cv a + 1 =? ia_cv a) with false by lia. cbn [negb orb]. rewrite bool_decide_and, (bool_decide_true (user = user)) by done. done.
      * rewrite lookup_insert_ne by done. rewrite (bool_decide_false (_ /\ _)) by tauto. apply trigger_unchanged.
    + rewrite tx_guard_stop; [done|]. apply negb_true_iff, not_true_iff_false. intros [Hall _]%accounts_check_spec.
      destruct (Hall user (f a)) as [Hc _]; [by rewrite lookup_insert_eq|]. rewrite F5 in Hc; done.
  - rewrite tx_guard_pass by (apply negb_false_iff, accounts_check_spec, Hok). apply no_update.
  - rewrite tx_guard_pass by (apply negb_false_iff, accounts_check_spec, Hok). apply no_update.
Qed.

Lemma set_credential_check pw state a :
  account_check a = true -> (state = Active \/ state = PendingActivation) -> account_check (new_credential pw state a) = (ia_cv a <? int64_max).
Proof.
  unfold account_check, new_credential. cbn. rewrite !andb_true_iff. intros (((((H1 & H2) & H3) & H4) & H5) & H6) Hs. rewrite H1, H2, H6.
  replace (0 <? ia_cv a + 1) with true by lia. cbn [andb]. rewrite andb_true_r.
  assert (Hst : col_eq state Active || col_eq state PendingActivation = true) by (by unfold col_eq; destruct Hs as [-> | ->]).
  rewrite Hst, andb_true_r. lia.
Qed.
Lemma cstate_cases a : account_check a = true -> ia_cstate a = Active \/ ia_cstate a = PendingActivation.
Proof. unfold account_check, col_eq. rewrite !andb_true_iff, orb_true_iff, !bool_decide_eq_true. tauto. Qed.

(** [UpdatePassword] changes the password of one account that is not deleted, raises its
    version and so signs it out everywhere, and touches nothing else; it reports whether
    there was such an account. *)
Theorem UpdatePassword_correct now user type hash db :
  auth_ok db ->
  account_UpdatePassword now user type hash db =
    match d_accounts db !! user with
    | Some a =>
        if negb (col_eq (ia_status a) Deleted) && (ia_type a =? type) then
          if ia_cv a <? int64_max then Ok (true, with_account now user (new_credential hash (ia_cstate a) a) db)
          else Err (ErrAuthSQL "constraint of iam_accounts")
        else Ok (false, db)
    | None => Ok (false, db)
    end.
Proof.
  intros Hok. unfold account_UpdatePassword. unfold tx_bind at 1. rewrite (update_credential now user _ (fun a => negb (col_eq (ia_status a) Deleted) && (ia_type a =? type))).
  - destruct (d_accounts db !! user) as [a|]; [|done]. destruct (_ && _); [|done]. by destruct (_ <? _).
  - done.
  - intros id a. unfold not_deleted. by rewrite andb_assoc.
  - intros a. split_and!; try by destruct a. intros Hc. by apply set_credential_check, cstate_cases.
Qed.

(** [Activate] accepts the pending token of an account that waits for it and a password the
    policy accepts: the account becomes active with that password and is signed out, its
    tokens are spent.  Everything else is refused and changes nothing. *)
Theorem Activate_correct policy bcrypt now h pw db :
  auth_ok db ->
  match d_activation db !! h with
  | None => activation_Activate policy bcrypt now h pw db = Err ErrInvalidActivationToken
  | Some k =>
      exists a, d_accounts db !! ac_user k = Some a /\
      activation_Activate policy bcrypt now h pw db =
        if bool_decide (is_Some (ac_consumed k)) then Err ErrUsedActivationToken
        else if ac_expires k <=? now then Err ErrExpiredActivationToken
        else if col_eq (ia_status a) Deleted || negb (col_eq (ia_cstate a) PendingActivation) then Err ErrInvalidActivationToken
        else if negb (policy pw (ia_username a)) then Err ErrWeakPassword
        else if ia_cv a <? int64_max then
          Ok (tt, set_activation (consume_pending now (ac_user k) (d_activation db))
                    (with_account now (ac_user k) (new_credential (bcrypt pw) Active a) db))
        else Err (ErrAuthSQL "constraint of iam_accounts")
  end.
Proof.
  intros Hok. unfold activation_Activate. rewrite tx_get_bind. destruct (d_activation db !! h) as [k|] eqn:Hk; [|done].
  destruct (ao_activation _ Hok _ _ Hk) as [a Ha]. exists a. split; [done|]. rewrite Ha.
  case_bool_decide; [done|]. destruct (ac_expires k <=? now); [done|]. destruct (_ || _); [done|]. destruct (negb _); [done|].
  do 4 (unfold tx_bind at 1; cbn [tx_guard tx_ret]). unfold tx_bind at 1. rewrite (update_credential now (ac_user k) _ (fun _ => true)).
  - rewrite Ha. by destruct (_ <? _).
  - done.
  - intros id b. by rewrite andb_true_r.
  - intros b. split_and!; try by destruct b. intros Hc. apply set_credential_check; [done | by left].
Qed.

(** ** A run

    A user is created and activated, signs in and exchanges the refresh token; the password
    is changed; the user signs in again and presents a refresh token twice. *)

Definition anything : string -> string -> bool := fun _ _ => true.
Definition signing_in : list op :=
  [OpTenantCreate "t" Active;
   OpCreateAccount 0 "u" (Some "t"%string) "ann" 4 (MkCredential "act" "none" 1000);
   OpActivate anything (fun pw => pw) 10 "act" "secret";
   OpCreate true 100 20 500 "s1" "r1" (MkPrincipal "u" "t" 4 2);
   OpRotate true 100 30 "r1" "r2"].
Definition password_changed : list op := signing_in ++ [OpUpdatePassword 40 "u" 4 "other"].
Definition signed_in_again : list op :=
  password_changed ++ [OpCreate true 100 50 500 "s2" "r3" (MkPrincipal "u" "t" 4 3); OpRotate true 100 60 "r3" "r4"].
Definition after (os : list op) : auth_world := default auth_start (calls os auth_start).
Definition u_token (sid : string) (version now : Z) : Claims := GenerateAccessToken now 100 (MkPrincipal "u" "t" 4 version) sid.

Lemma after_reached os : calls os auth_start <> None -> rtc auth_step auth_start (after os).
Proof. unfold after. destruct (calls os auth_start) eqn:Hc; [|done]. intros _. by eapply calls_steps. Qed.
Lemma calls_app os1 os2 w : calls (os1 ++ os2) w = match calls os1 w with Some w1 => calls os2 w1 | None => None end.
Proof. revert w. induction os1 as [|o os1 IH]; intros w; [done|]. cbn. by destruct (draws_new o w). Qed.
Lemma after_later os more : calls (os ++ more) auth_start <> None -> rtc auth_step (after os) (after (os ++ more)).
Proof.
  unfold after. rewrite calls_app. destruct (calls os auth_start) as [w|]; [|done]. intros Hc. cbn.
  destruct (calls more w) as [w'|] eqn:Hm; [|done]. by eapply calls_steps.
Qed.
Lemma runs : calls signing_in auth_start <> None /\ calls password_changed auth_start <> None /\ calls signed_in_again auth_start <> None.
Proof. by split_and!; vm_compute. Qed.
Definition ended_b (m : gmap string auth_session) (sid : string) : bool :=
  match m !! sid with Some s => negb (col_eq (as_status s) Active) | None => true end.
Lemma ended_b_ok m sid : ended_b m sid = true -> ended m sid.
Proof. unfold ended_b, col_eq. intros He s Hs Hl. rewrite Hs in He. by rewrite bool_decide_true in He. Qed.
Lemma tables_after os : calls os auth_start <> None -> auth_ok (w_db (after os)).
Proof. intros Hc. by apply reachable_world_ok, after_reached. Qed.
Example token_before_change : validateAccessSession 35 (u_token "s1" 2 30) (w_db (after signing_in)) = true.
Proof. vm_compute. reflexivity. Qed.
Example token_after_change : validateAccessSession 45 (u_token "s1" 2 30) (w_db (after password_changed)) = false.
Proof. vm_compute. reflexivity. Qed.

Lemma ended_session_stays_ended_witness :
  validateAccessSession 65 (u_token "s1" 2 30) (w_db (after signed_in_again)) = false /\
  sessions_Rotate true 100 65 "r2" "r9" (w_db (after signed_in_again)) = Err ErrSessionInactive.
Proof.
  destruct (ended_session_stays_ended (after password_changed) (after signed_in_again) "s1"
    (after_reached _ (proj1 (proj2 runs))) (after_later _ _ (proj2 (proj2 runs))) ltac:(by vm_compute) ltac:(by apply ended_b_ok; vm_compute)) as (_ & H1 & _ & H2).
  split; [by apply H1|]. destruct (d_refresh (w_db (after signed_in_again)) !! "r2"%string) as [t|] eqn:Ht; [|by vm_compute in Ht].
  apply (H2 _ _ _ _ _ t); [done|]. assert (Some (rt_session t) = Some "s1"%string) as [= E]; [|done].
  change (Some (rt_session t)) with (rt_session <$> Some t). rewrite <- Ht. by vm_compute.
Defined.

Lemma access_token_follows_account_witness : exists s a a',
  d_sessions (w_db (after signing_in)) !! "s1"%string = Some s /\ live_session s /\ as_user s = "u"%string /\ 35 < as_expires s /\
  d_accounts (w_db (after signing_in)) !! "u"%string = Some a /\
  d_accounts (w_db (after signing_in)) !! "u"%string = Some a' /\ standing a = standing a' /\
  ia_status a = Active /\ ia_cstate a = Active /\ ia_cv a = 2.
Proof.
  exact (access_token_follows_account (after signing_in) (after signing_in) 35 (u_token "s1" 2 30)
    (after_reached _ (proj1 runs)) (rtc_refl _ _) ltac:(by vm_compute) token_before_change).
Defined.

Lemma refresh_token_rotates_once_witness : exists db',
  sessions_Rotate true 100 70 "r3" "r5" (w_db (after signed_in_again)) = Ok (Err ErrRefreshTokenReused, db') /\ ended (d_sessions db') "s2".
Proof.
  destruct (refresh_token_rotates_once (after signed_in_again) (after_reached _ (proj2 (proj2 runs)))) as (_ & _ & H).
  destruct (d_refresh (w_db (after signed_in_again)) !! "r3"%string) as [t|] eqn:Ht; [|by vm_compute in Ht].
  assert (Et : Some (rt_session t) = Some "s2"%string).
  { change (Some (rt_session t)) with (rt_session <$> Some t). rewrite <- Ht. by vm_compute. }
  injection Et as Et. destruct (d_sessions (w_db (after signed_in_again)) !! "s2"%string) as [s|] eqn:Hs; [|by vm_compute in Hs].
  assert (Es : Some (as_status s) = Some Active).
  { change (Some (as_status s)) with (as_status <$> Some s). rewrite <- Hs. by vm_compute. }
  injection Es as Es. rewrite <- Et in Hs.
  destruct (H "r3"%string t s true 100 70 "r5"%string) as (db' & H1 & H2 & _); [|exact Ht | exact Hs | exact Es |].
  - apply elem_rotated. by vm_compute; left.
  - exists db'. split; [exact H1|]. by rewrite <- Et.
Defined.

Lemma activation_token_works_once_witness :
  activation_Activate anything (fun pw => pw) 20 "act" "again" (w_db (after signing_in)) = Err ErrUsedActivationToken.
Proof.
  destruct (activation_token_works_once (after signing_in) (after_reached _ (proj1 runs))) as (_ & H & _).
  destruct (d_activation (w_db (after signing_in)) !! "act"%string) as [k|] eqn:Hk; [|by vm_compute in Hk].
  apply (H _ k); [|exact Hk]. apply elem_activated. by vm_compute; left.
Defined.

Definition s1_session : auth_session := MkSession "u" 2 Active 520 None None.
Definition r2_token : refresh_token := MkRefresh "s1" Active 520 None None.
Definition u_account : account_row := MkAccountRow (Some "t"%string) "ann" "secret" 4 Active 2 Active None false.
Lemma signed_in_rows :
  d_refresh (w_db (after signing_in)) !! "r2"%string = Some r2_token /\ d_sessions (w_db (after signing_in)) !! "s1"%string = Some s1_session /\
  d_accounts (w_db (after signing_in)) !! "u"%string = Some u_account /\ d_refresh (w_db (after signing_in)) !! "r9"%string = None.
Proof. by split_and!; vm_compute. Qed.

(** A library that keeps whole seconds. *)
Definition whole_seconds (e t : Z) : bool := t <? e / Sec * Sec.
Lemma whole_seconds_expiry : jwt_expiry whole_seconds.
Proof.
  unfold whole_seconds. split; intros e t H; [apply Z.ltb_ge | apply Z.ltb_lt];
    pose proof (Z.mod_pos_bound e Sec ltac:(reflexivity)); pose proof (Z.div_mod e Sec ltac:(discriminate)); lia.
Qed.

(** The successor's access token lives for the rest of the session, which ends at 520: its
    own lifetime of a quarter of an hour reaches further.  One of no length is refused. *)
Definition quarter : Z := 900 * Sec.
Lemma Rotate_correct_witness :
  let c := GenerateAccessToken 80 quarter (MkPrincipal "u" "t" 4 2) "s1" in
  let after_exchange := rotated_tables 80 "r2" "r9" r2_token s1_session (w_db (after signing_in)) in
  sessions_Rotate true quarter 80 "r2" "r9" (w_db (after signing_in)) = Ok (Ok c, after_exchange) /\
  ParseToken whole_seconds 519 c after_exchange = true /\ ParseToken whole_seconds 520 c after_exchange <> true /\
  ParseToken whole_seconds 80 (GenerateAccessToken 80 0 (MkPrincipal "u" "t" 4 2) "s1") after_exchange <> true.
Proof.
  cbv zeta. destruct signed_in_rows as (Hr & Hs & Ha & Hn).
  assert (E : rotation true 80 (w_db (after signing_in)) r2_token s1_session u_account = Ok tt) by (by vm_compute).
  pose proof (Rotate_correct _ true quarter 80 "r2" "r9" _ _ _ _ whole_seconds_expiry (tables_after _ (proj1 runs)) Hr Hs Ha Hn) as H.
  pose proof (Rotate_correct _ true 0 80 "r2" "r9" _ _ _ _ whole_seconds_expiry (tables_after _ (proj1 runs)) Hr Hs Ha Hn) as H'.
  rewrite E in H, H'. destruct H as [H1 H2], H' as [_ H3]. split; [exact H1|]. split; [|split].
  - apply (H2 ltac:(done) 519); vm_compute; reflexivity.
  - intros Hp. apply (H2 ltac:(done) 520) in Hp as [_ Hp]. vm_compute in Hp. discriminate Hp.
  - intros Hp. apply (H3 ltac:(done) 80) in Hp as [Hp _]. vm_compute in Hp. discriminate Hp.
Defined.

Lemma UpdatePassword_correct_witness :
  account_UpdatePassword 40 "u" 4 "other" (w_db (after signing_in)) =
    Ok (true, with_account 40 "u" (new_credential "other" Active u_account) (w_db (after signing_in))).
Proof.
  destruct signed_in_rows as (_ & _ & Ha & _). etrans; [apply (UpdatePassword_correct 40 "u" 4 "other" _ (tables_after _ (proj1 runs)))|].
  rewrite Ha. reflexivity.
Defined.
