(* ===== verification/Invite.v ===== *)
(** * Invitations and registration

    The invitation codes of tenants ([src/internal/invite], [src/internal/tenant], table
    [iam_invitation_codes]): issuing, changing and validating a code, and the registration
    of an end user with one ([RegisterUser] of [invite/service.go], [RegisterEndUser] of
    [invite/pg/repository.go]), which creates the account in the tables of [Auth], uses the
    invitation and records the consent to the legal documents, together.

    Times are in nanoseconds.  The random bytes of codes and ids, the clock and bcrypt are
    arguments; e-mail addresses and telephone numbers are left out, as in [Auth]. *)

From S2P Require Import Prelude GoStrings Auth AuthSystem.
#[global] Open Scope Z_scope.

(** ** Tables *)

Record invitation := MkInvitation {
  iv_ID : Z; iv_TenantID : string; iv_CreatedBy : string; iv_Description : string; iv_MaxUses : Z; iv_UsedCount : Z;
  iv_Status : string; iv_ExpiresAt : option Z }.
Record legal_acceptance := MkAcceptance {
  la_UserID : string; la_TenantID : string; la_DocumentKey : string; la_Version : string; la_AcceptedAt : Z }.
Record invite_db := InviteDB {
  v_auth : auth_db;
  v_codes : gmap string invitation;     (* by code *)
  v_legal : list legal_acceptance;
  v_next : Z }.                         (* the sequence of ids *)
Definition set_auth x db := InviteDB x (v_codes db) (v_legal db) (v_next db).
Definition set_codes x db := InviteDB (v_auth db) x (v_legal db) (v_next db).
Definition set_legal x db := InviteDB (v_auth db) (v_codes db) x (v_next db).

Inductive invite_error :=
| ErrInvalidInvitationCodeFormat
| ErrInvitationCodeNotFound
| ErrInvitationCodeUnavailable
| ErrInvitationCodeTaken
| ErrUsernameExists
| ErrInvalidUsername
| ErrLegalAcceptanceRequired
| ErrPasswordRefused
| ErrInviteSQL.
Abbreviation ITx := (Tx invite_db invite_error).

(** ** Codes *)

Definition invitationCharset : string := "ABCDEFGHJKLMNPQRSTUVWXYZ23456789".
Definition all_letters : string := "0123456789ABCDEFGHIJKLMNOPQRSTUVWXYZ".
(** [rand.Int(rand.Reader, n)] gives numbers below [n]; the code they choose. *)
Definition random_code (charset : string) (draws : list Z) : string :=
  string_of_bytes ((fun n => default 0 (bytes_of charset !! Z.to_nat n)) <$> draws).
(** [generateInvitationCode] of [tenant/self_service.go], and [GenerateRandomString] of
    [domain/util.go], which [CreateCode] of [invite/service.go] uses. *)
Definition generateInvitationCode (draws : list Z) : string := random_code invitationCharset draws.
Definition GenerateRandomString (draws : list Z) : string := random_code all_letters draws.
Definition draws_below (n : Z) (draws : list Z) : bool := forallb (fun d => (0 <=? d) && (d <? n)) draws.

(** [strings.ToUpper], as far as its result is ASCII: of the other runes only the long s
    and the dotless i have upper cases there. *)
Fixpoint upper_bytes (l : list Z) : list Z :=
  match l with
  | [] => []
  | b :: l' =>
      match l with
      | 197 :: 191 :: r => 83 :: upper_bytes r
      | 196 :: 177 :: r => 73 :: upper_bytes r
      | _ => (if (97 <=? b) && (b <=? 122) then b - 32 else b) :: upper_bytes l'
      end
  end.
Definition ToUpper (s : string) : string := string_of_bytes (upper_bytes (bytes_of s)).
(** [invitationCodePattern] *)
Definition invitationCodePattern (s : string) : bool :=
  (String.length s =? 8)%nat && forallb (fun b => bool_decide (b ∈ bytes_of invitationCharset)) (bytes_of s).
Definition normalizeInvitationCode (code : string) : string := ToUpper (TrimSpace code).
Definition normalizeInvitationCodeChecked (code : string) : option string :=
  let normalized := normalizeInvitationCode code in
  if invitationCodePattern normalized then Some normalized else None.

(** ** Reading a code *)

Definition UnixMilli (t : Z) : Z := t / 1000000.
(** [GetByCode]: the tenant has to be active. *)
Definition GetByCode (code : string) (db : invite_db) : option invitation :=
  match v_codes db !! code with
  | Some iv => if tenant_active (v_auth db) (iv_TenantID iv) then Some iv else None
  | None => None
  end.
Definition past_expiry (now : Z) (iv : invitation) : bool :=
  match iv_ExpiresAt iv with Some t => UnixMilli t <? UnixMilli now | None => false end.
Definition used_up (iv : invitation) : bool := (0 <? iv_MaxUses iv) && (iv_MaxUses iv <=? iv_UsedCount iv).
(** [IsValid]; the status of a row is read by [inviteCodeStatusToInt]. *)
Definition inviteCodeStatusToInt (status : string) : Z := if col_eq status "disabled" then 2 else 1.
Definition IsValid (now : Z) (iv : invitation) : bool :=
  (inviteCodeStatusToInt (iv_Status iv) =? 1) && negb (used_up iv) && negb (past_expiry now iv).
(** [ValidateCode] *)
Definition ValidateCode (now : Z) (code : string) (db : invite_db) : result invite_error invitation :=
  match normalizeInvitationCodeChecked code with
  | None => Err ErrInvalidInvitationCodeFormat
  | Some code =>
      match GetByCode code db with
      | None => Err ErrInvitationCodeNotFound
      | Some iv => if IsValid now iv then Ok iv else Err ErrInvitationCodeUnavailable
      end
  end.
(** [DescribePublicInvitation]: the status shown and whether one can register. *)
Inductive PublicInvitationStatus := StatusActive | StatusExpired | StatusDisabled | StatusUsedUp | StatusNotFound.
Definition DescribePublicInvitation (now : Z) (code : string) (db : invite_db) : result invite_error (PublicInvitationStatus * bool) :=
  match normalizeInvitationCodeChecked code with
  | None => Err ErrInvalidInvitationCodeFormat
  | Some code =>
      match GetByCode code db with
      | None => Ok (StatusNotFound, false)
      | Some iv =>
          if negb (inviteCodeStatusToInt (iv_Status iv) =? 1) then Ok (StatusDisabled, false)
          else if past_expiry now iv then Ok (StatusExpired, false)
          else if used_up iv then Ok (StatusUsedUp, false)
          else Ok (StatusActive, true)
      end
  end.

(** ** Writing codes *)

(** [CreateInvitationCode], with the constraints of the table: [max_uses >= 0] and an
    [integer], the code unique. *)
Definition CreateInvitationCode (code tenantID createdBy description : string) (maxUses : Z) (expireTime : option Z) : ITx unit :=
  let! db := tx_get in
  tx_guard ((maxUses <? 0) || negb (in_int32 maxUses)) ErrInviteSQL ;;;
  tx_guard (bool_decide (is_Some (v_codes db !! code))) ErrInvitationCodeTaken ;;;
  tx_put (InviteDB (v_auth db)
    (<[code := MkInvitation (v_next db) tenantID createdBy description maxUses 0 Active ((fun ms => ms * 1000000) <$> expireTime)]> (v_codes db))
    (v_legal db) (v_next db + 1)).
(** [CreateInvitation]: five attempts, a new code each; every attempt is a transaction of
    its own, and a failed one changes nothing. *)
Fixpoint create_attempts (n : nat) (draws : list (list Z)) (tenantID createdBy description : string) (maxUses : Z) (expireTime : option Z)
    (last : invite_error) (db : invite_db) : invite_db * result invite_error string :=
  match n, draws with
  | S n, d :: draws =>
      let code := generateInvitationCode d in
      match CreateInvitationCode code tenantID createdBy description maxUses expireTime db with
      | Ok (_, db) => (db, Ok code)
      | Err ErrInvitationCodeTaken => create_attempts n draws tenantID createdBy description maxUses expireTime ErrInvitationCodeTaken db
      | Err e => (db, Err e)
      end
  | _, _ => (db, Err last)
  end.
Definition CreateInvitation (draws : list (list Z)) (tenantID createdBy description : string) (maxUses : Z) (expireTime : option Z)
    (db : invite_db) : invite_db * result invite_error string :=
  create_attempts 5 draws tenantID createdBy description maxUses expireTime ErrInvitationCodeTaken db.
(** [UpdateInvitationCode] *)
Definition inviteStatusFromInt (status : Z) : string := if status =? 2 then "disabled" else Active.
Definition UpdateInvitationCode (id : Z) (tenantID : string) (status : Z) (description : string) : ITx unit :=
  let! db := tx_get in
  tx_put (set_codes ((fun iv =>
    if (iv_ID iv =? id) && col_eq (iv_TenantID iv) tenantID then
      MkInvitation (iv_ID iv) (iv_TenantID iv) (iv_CreatedBy iv) (if col_eq description "" then iv_Description iv else description)
        (iv_MaxUses iv) (iv_UsedCount iv) (if status =? 0 then iv_Status iv else inviteStatusFromInt status) (iv_ExpiresAt iv)
    else iv) <$> v_codes db) db).
(** [DeleteInvitationCode] *)
Definition DeleteInvitationCode (id : Z) (tenantID : string) : ITx unit :=
  let! db := tx_get in
  tx_put (set_codes (filter (fun '(_, iv) => (iv_ID iv =? id) && col_eq (iv_TenantID iv) tenantID = false) (v_codes db)) db).

(** ** Registration *)

Record EndUserRegistration := MkRegistration {
  rg_InvitationCode : string; rg_TenantID : string; rg_UserID : string; rg_Username : string; rg_PasswordHash : string;
  rg_LegalAcceptances : list (string * string) }.

Definition username_taken (name : string) (db : auth_db) : bool :=
  existsb (fun '(_, a) => col_eq (ToLower (ia_username a)) (ToLower name)) (map_to_list (d_accounts db)).
(** The insertion of the account, its unique violations told apart. *)
Definition insert_end_user (r : EndUserRegistration) : ITx unit :=
  let! db := tx_get in
  tx_guard (bool_decide (is_Some (d_accounts (v_auth db) !! rg_UserID r))) ErrInviteSQL ;;;
  tx_guard (username_taken (rg_Username r) (v_auth db)) ErrUsernameExists ;;;
  tx_zoom v_auth set_auth (tx_map_err (fun _ => ErrInviteSQL)
    (register_account (rg_UserID r) (rg_TenantID r) (rg_Username r) (rg_PasswordHash r))).
(** The use of the invitation, which asks everything again. *)
Definition invitation_usable (now : Z) (tenantID : string) (db : auth_db) (iv : invitation) : bool :=
  col_eq (iv_TenantID iv) tenantID && col_eq (iv_Status iv) Active &&
  match iv_ExpiresAt iv with Some t => now <? t | None => true end &&
  ((iv_MaxUses iv =? 0) || (iv_UsedCount iv <? iv_MaxUses iv)) && tenant_active db (iv_TenantID iv).
Definition use_once (iv : invitation) : invitation :=
  MkInvitation (iv_ID iv) (iv_TenantID iv) (iv_CreatedBy iv) (iv_Description iv) (iv_MaxUses iv) (iv_UsedCount iv + 1) (iv_Status iv) (iv_ExpiresAt iv).
Definition use_invitation (now : Z) (r : EndUserRegistration) : ITx unit :=
  let! db := tx_get in
  match v_codes db !! rg_InvitationCode r with
  | Some iv =>
      tx_guard (negb (invitation_usable now (rg_TenantID r) (v_auth db) iv)) ErrInvitationCodeUnavailable ;;;
      tx_guard (negb (in_int32 (iv_UsedCount iv + 1))) ErrInviteSQL ;;;
      tx_put (set_codes (<[rg_InvitationCode r := use_once iv]> (v_codes db)) db)
  | None => tx_fail ErrInvitationCodeUnavailable
  end.
(** [INSERT INTO iam_user_legal_acceptances] with its constraints; SQL's [trim] removes
    spaces. *)
Definition only_spaces (s : string) : bool := forallb (Z.eqb 32) (bytes_of s).
Definition insert_acceptance (now : Z) (r : EndUserRegistration) (doc : string * string) : ITx unit :=
  let! db := tx_get in
  tx_guard (negb (col_eq doc.1 "terms" || col_eq doc.1 "privacy") || only_spaces doc.2 ||
            existsb (fun x => col_eq (la_UserID x) (rg_UserID r) && col_eq (la_DocumentKey x) doc.1 && col_eq (la_Version x) doc.2) (v_legal db))
    ErrInviteSQL ;;;
  tx_put (set_legal (v_legal db ++ [MkAcceptance (rg_UserID r) (rg_TenantID r) doc.1 doc.2 now]) db).
(** [RegisterEndUser] *)
Definition RegisterEndUser (now : Z) (r : EndUserRegistration) : ITx unit :=
  insert_end_user r ;;;
  use_invitation now r ;;;
  tx_iter (insert_acceptance now r) (rg_LegalAcceptances r).

(** [RegisterUser]: [seen] and [checked] are the states its two reads found. *)
Definition RegisterUser (ValidatePassword : string -> string -> bool) (bcrypt : string -> string) (seen checked : invite_db) (now_seen now : Z)
    (code username password userID terms privacy : string) : ITx string :=
  match normalizeInvitationCodeChecked code with
  | None => tx_fail ErrInvalidInvitationCodeFormat
  | Some code =>
      let username := TrimSpace username in
      tx_guard (col_eq username "") ErrInvalidUsername ;;;
      let terms := TrimSpace terms in let privacy := TrimSpace privacy in
      tx_guard (col_eq terms "" || col_eq privacy "") ErrLegalAcceptanceRequired ;;;
      match ValidateCode now_seen code seen with
      | Err e => tx_fail e
      | Ok iv =>
          tx_guard (username_taken username (v_auth checked)) ErrUsernameExists ;;;
          tx_guard (negb (ValidatePassword password username)) ErrPasswordRefused ;;;
          RegisterEndUser now (MkRegistration code (iv_TenantID iv) userID username (bcrypt password) [("terms"%string, terms); ("privacy"%string, privacy)]) ;;;
          tx_ret (iv_TenantID iv)
      end
  end.

(** * What a code is good for *)

(** ** Codes that are issued are accepted *)

Definition code_byte (b : Z) : Prop := b ∈ bytes_of invitationCharset.
Ltac each_code_byte := let l := eval vm_compute in (bytes_of invitationCharset) in change (bytes_of invitationCharset) with l; repeat (apply Forall_cons; split); try exact (List.Forall_nil _).
Lemma code_byte_cases (P : Z -> Prop) : Forall P (bytes_of invitationCharset) -> forall b, code_byte b -> P b.
Proof. intros H b Hb. by eapply Forall_forall in H. Qed.
Lemma code_byte_range b : code_byte b -> 0 <= b < 256.
Proof. revert b. apply code_byte_cases. each_code_byte; lia. Qed.
Lemma code_byte_no_space b l : code_byte b -> space_rune (b :: l) = O /\ space_rune_rev (b :: l) = O.
Proof. revert b. apply (code_byte_cases (fun b => space_rune (b :: l) = O /\ space_rune_rev (b :: l) = O)). each_code_byte; (split; [done|]; unfold space_rune_rev; cbn [ascii_space]; repeat (case_match; try done)). Qed.
Lemma upper_code b l : code_byte b -> upper_bytes (b :: l) = b :: upper_bytes l.
Proof. revert b. apply (code_byte_cases (fun b => upper_bytes (b :: l) = b :: upper_bytes l)). each_code_byte; done. Qed.

Lemma upper_codes l : Forall code_byte l -> upper_bytes l = l.
Proof. induction 1 as [|b l Hb Hl IH]; [done|]. by rewrite upper_code, IH. Qed.
Lemma trim_codes l : Forall code_byte l -> trim_bytes l = l.
Proof.
  intros Hl. unfold trim_bytes. assert (H1 : space_rune l = O) by (destruct Hl as [|b l Hb]; [done | exact (proj1 (code_byte_no_space b l Hb))]).
  rewrite (trim_front_zero _ _ _ H1), trim_front_zero; [apply rev_involutive|].
  assert (Hr : Forall code_byte (rev l)) by (by apply Forall_rev).
  destruct Hr as [|b r Hb]; [done | exact (proj2 (code_byte_no_space b r Hb))].
Qed.
Lemma bytes_of_codes l : Forall code_byte l -> bytes_of (string_of_bytes l) = l.
Proof. intros Hl. apply bytes_of_string_of_bytes. rewrite Forall_forall in Hl. intros b Hb. by apply code_byte_range, Hl. Qed.
Lemma length_string_of_bytes l : String.length (string_of_bytes l) = length l.
Proof. unfold string_of_bytes. induction l as [|b l IH]; [done|]. cbn. by f_equal. Qed.

Lemma generated_code_bytes draws : draws_below 32 draws = true -> Forall code_byte ((fun n => default 0 (bytes_of invitationCharset !! Z.to_nat n)) <$> draws).
Proof.
  unfold draws_below. rewrite forallb_forall. intros Hd. apply Forall_fmap, Forall_forall. intros n Hn%list_elem_of_In%Hd. unfold compose, code_byte.
  destruct (bytes_of invitationCharset !! Z.to_nat n) as [b|] eqn:E; [by apply list_elem_of_lookup_2 in E|].
  apply lookup_ge_None in E. change (length (bytes_of invitationCharset)) with 32%nat in E. lia.
Qed.
(** A code the tenant's page issues is its own normal form. *)
Lemma generated_code_accepted draws :
  length draws = 8%nat -> draws_below 32 draws = true ->
  normalizeInvitationCodeChecked (generateInvitationCode draws) = Some (generateInvitationCode draws).
Proof.
  intros Hlen Hd. pose proof (generated_code_bytes _ Hd) as Hb. unfold normalizeInvitationCodeChecked, normalizeInvitationCode, generateInvitationCode, random_code, ToUpper, TrimSpace.
  set (l := _ <$> draws) in *. assert (Hl : length l = 8%nat) by (unfold l; by rewrite length_fmap).
  rewrite (bytes_of_codes l Hb), (trim_codes l Hb), (bytes_of_codes l Hb), (upper_codes l Hb).
  replace (invitationCodePattern (string_of_bytes l)) with true; [done|]. symmetry. unfold invitationCodePattern.
  rewrite length_string_of_bytes, Hl, (bytes_of_codes l Hb). apply forallb_forall. intros b Hin. apply bool_decide_eq_true.
  rewrite Forall_forall in Hb. by apply Hb, list_elem_of_In.
Qed.
(** A code [CreateCode] makes need not be: its alphabet has letters the pattern excludes. *)
Example CreateCode_can_make_a_refused_code :
  draws_below 36 [0; 11; 12; 13; 14; 15; 16; 17] = true /\ normalizeInvitationCodeChecked (GenerateRandomString [0; 11; 12; 13; 14; 15; 16; 17]) = None.
Proof. by vm_compute. Qed.

(** ** What a registration does *)

Lemma acceptances_inv now r docs db u db' : tx_iter (insert_acceptance now r) docs db = Ok (u, db') ->
  db' = set_legal (v_legal db ++ ((fun d => MkAcceptance (rg_UserID r) (rg_TenantID r) d.1 d.2 now) <$> docs)) db.
Proof.
  revert db. induction docs as [|d docs IH]; cbn; intros db Hr; [injection Hr as _ <-; rewrite app_nil_r; by destruct db|].
  apply tx_bind_ok in Hr as ([] & db1 & Hd & Hr). apply IH in Hr as ->. unfold insert_acceptance in Hd. rewrite tx_get_bind in Hd.
  apply tx_bind_ok in Hd as ([] & db2 & Hg & Hd). apply tx_guard_ok in Hg as [_ ->]. unfold tx_put in Hd. injection Hd as <-.
  unfold set_legal. cbn. by rewrite <- app_assoc.
Qed.

(** A registration that commits found a usable invitation of the tenant and a free name,
    and did all three things. *)
Lemma RegisterEndUser_inv now r db u db' : RegisterEndUser now r db = Ok (u, db') ->
  exists iv acc, v_codes db !! rg_InvitationCode r = Some iv /\ invitation_usable now (rg_TenantID r) acc iv = true /\
    d_accounts (v_auth db) !! rg_UserID r = None /\ username_taken (rg_Username r) (v_auth db) = false /\
    register_account (rg_UserID r) (rg_TenantID r) (rg_Username r) (rg_PasswordHash r) (v_auth db) = Ok (tt, acc) /\
    db' = InviteDB acc (<[rg_InvitationCode r := use_once iv]> (v_codes db))
            (v_legal db ++ ((fun d => MkAcceptance (rg_UserID r) (rg_TenantID r) d.1 d.2 now) <$> rg_LegalAcceptances r)) (v_next db).
Proof.
  unfold RegisterEndUser. intros Hr. apply tx_bind_ok in Hr as ([] & db1 & Ha & Hr). apply tx_bind_ok in Hr as ([] & db2 & Hu & Hr).
  apply acceptances_inv in Hr as ->. unfold insert_end_user in Ha. rewrite tx_get_bind in Ha.
  apply tx_bind_ok in Ha as ([] & ? & Hg & Ha). apply tx_guard_ok in Hg as [Hid ->]. apply bool_decide_eq_false in Hid.
  apply tx_bind_ok in Ha as ([] & ? & Hg & Ha). apply tx_guard_ok in Hg as [Hname ->].
  apply tx_zoom_ok in Ha as (acc & Ha & ->). unfold tx_map_err in Ha. destruct (register_account _ _ _ _ _) as [[[] acc']|] eqn:Hacc; [|done]. injection Ha as ->.
  unfold use_invitation in Hu. rewrite tx_get_bind in Hu. cbn [set_auth v_codes v_auth] in Hu.
  destruct (v_codes db !! rg_InvitationCode r) as [iv|] eqn:Hiv; [|done].
  apply tx_bind_ok in Hu as ([] & ? & Hg & Hu). apply tx_guard_ok in Hg as [Hus ->]. apply negb_false_iff in Hus.
  apply tx_bind_ok in Hu as ([] & ? & Hg & Hu). apply tx_guard_ok in Hg as [_ ->]. unfold tx_put in Hu. injection Hu as <-.
  exists iv, acc. split_and!; try done. by destruct (d_accounts (v_auth db) !! rg_UserID r); [destruct Hid|].
Qed.

(** ** Every interleaving *)

(** The part of [DeleteTenant] that concerns these tables. *)
Definition purge_tenant (tenantID : string) : ITx unit :=
  let! db := tx_get in
  tx_put (set_legal (List.filter (fun x => negb (col_eq (la_TenantID x) tenantID)) (v_legal db))
    (set_codes (filter (fun '(_, iv) => col_eq (iv_TenantID iv) tenantID = false) (v_codes db)) db)) ;;;
  (tx_zoom v_auth set_auth (tx_map_err (fun _ => ErrInviteSQL) (tenant_Purge tenantID))) ;;; tx_ret tt.

(** The tables and who registered with which invitation, the latest first. *)
Record invite_world := InviteWorld { iw_db : invite_db; iw_uses : list (Z * string) }.
Definition invite_start : invite_world := InviteWorld (InviteDB (AuthDB ∅ ∅ ∅ ∅ ∅) ∅ [] 1) [].
Definition uses (id : Z) (l : list (Z * string)) : Z := Z.of_nat (length (List.filter (fun p => p.1 =? id) l)).

Inductive invite_step : invite_world -> invite_world -> Prop :=
| StepCreate code tenant by_ desc maxUses expire db db' l :
    CreateInvitationCode code tenant by_ desc maxUses expire db = Ok (tt, db') -> invite_step (InviteWorld db l) (InviteWorld db' l)
| StepUpdate id tenant status desc db db' l :
    UpdateInvitationCode id tenant status desc db = Ok (tt, db') -> invite_step (InviteWorld db l) (InviteWorld db' l)
| StepDelete id tenant db db' l :
    DeleteInvitationCode id tenant db = Ok (tt, db') -> invite_step (InviteWorld db l) (InviteWorld db' l)
| StepRegister now r iv db db' l :
    v_codes db !! rg_InvitationCode r = Some iv -> RegisterEndUser now r db = Ok (tt, db') ->
    invite_step (InviteWorld db l) (InviteWorld db' ((iv_ID iv, rg_UserID r) :: l))
| StepPurge tenant db db' l : purge_tenant tenant db = Ok (tt, db') -> invite_step (InviteWorld db l) (InviteWorld db' l)
| StepAuth o db evs acc l : perform o (v_auth db) = Ok (evs, acc) -> invite_step (InviteWorld db l) (InviteWorld (set_auth acc db) l).

Record invite_ok (w : invite_world) : Prop := MkInviteOk {
  io_uses : forall code iv, v_codes (iw_db w) !! code = Some iv ->
    iv_UsedCount iv = uses (iv_ID iv) (iw_uses w) /\ 0 <= iv_MaxUses iv /\ (iv_MaxUses iv = 0 \/ iv_UsedCount iv <= iv_MaxUses iv) /\ iv_ID iv < v_next (iw_db w);
  io_ids : forall c1 c2 i1 i2, v_codes (iw_db w) !! c1 = Some i1 -> v_codes (iw_db w) !! c2 = Some i2 -> iv_ID i1 = iv_ID i2 -> c1 = c2;
  io_past : forall p, p ∈ iw_uses w -> p.1 < v_next (iw_db w) }.

Lemma uses_cons id p l : uses id (p :: l) = (if p.1 =? id then 1 else 0) + uses id l.
Proof. unfold uses. cbn. destruct (p.1 =? id); cbn [length]; lia. Qed.
Lemma uses_new id l : (forall p, p ∈ l -> p.1 < id) -> uses id l = 0.
Proof.
  intros Hl. unfold uses. replace (List.filter _ l) with ([] : list (Z * string)); [done|]. symmetry. induction l as [|p l IH]; [done|]. cbn.
  rewrite (proj2 (Z.eqb_neq _ _)); [apply IH; set_solver|]. specialize (Hl p ltac:(set_solver)). lia.
Qed.

(** Changes of codes that keep what is counted. *)
Lemma invite_ok_shrink db db' l :
  v_next db' = v_next db ->
  (forall code iv', v_codes db' !! code = Some iv' -> exists iv, v_codes db !! code = Some iv /\ iv_ID iv' = iv_ID iv /\
     iv_UsedCount iv' = iv_UsedCount iv /\ iv_MaxUses iv' = iv_MaxUses iv) ->
  invite_ok (InviteWorld db l) -> invite_ok (InviteWorld db' l).
Proof.
  intros Hn Hc [O1 O2 O3]. split; cbn in *; rewrite ?Hn.
  - intros code iv' (iv & Hiv & -> & -> & ->)%Hc. by apply (O1 code).
  - intros c1 c2 i1 i2 (j1 & H1 & -> & _)%Hc (j2 & H2 & -> & _)%Hc. by apply O2.
  - done.
Qed.

Lemma invite_step_ok w w' : invite_step w w' -> invite_ok w -> invite_ok w'.
Proof.
  intros Hs Hok. destruct Hs as [code tenant by_ desc mx expire db db' l Hr | id tenant status desc db db' l Hr | id tenant db db' l Hr |
    now r iv db db' l Hiv Hr | tenant db db' l Hr | o db evs acc l Hr].
  - unfold CreateInvitationCode in Hr. rewrite tx_get_bind in Hr. apply tx_bind_ok in Hr as ([] & ? & Hg & Hr). apply tx_guard_ok in Hg as [Hmax ->].
    apply tx_bind_ok in Hr as ([] & ? & Hg & Hr). apply tx_guard_ok in Hg as [Hfree ->]. unfold tx_put in Hr. injection Hr as <-. apply bool_decide_eq_false in Hfree.
    destruct Hok as [O1 O2 O3]. split; cbn in *.
    + intros c iv Hc. destruct (decide (c = code)) as [-> | N].
      * rewrite lookup_insert_eq in Hc. injection Hc as <-. cbn. rewrite uses_new by done. split_and!; lia.
      * rewrite lookup_insert_ne in Hc by done. destruct (O1 _ _ Hc) as (? & ? & ? & ?). split_and!; try done. lia.
    + intros c1 c2 i1 i2 H1 H2 E. destruct (decide (c1 = code)) as [-> | N1], (decide (c2 = code)) as [-> | N2]; [done| | |];
        rewrite ?lookup_insert_eq, ?lookup_insert_ne in H1 by done; rewrite ?lookup_insert_eq, ?lookup_insert_ne in H2 by done.
      * injection H1 as <-. cbn in E. destruct (O1 _ _ H2) as (_ & _ & _ & ?). lia.
      * injection H2 as <-. cbn in E. destruct (O1 _ _ H1) as (_ & _ & _ & ?). lia.
      * by eapply O2.
    + intros p Hp%O3. lia.
  - unfold UpdateInvitationCode in Hr. rewrite tx_get_bind in Hr. unfold tx_put in Hr. injection Hr as <-. eapply invite_ok_shrink; [| |exact Hok]; [done|].
    cbn. intros code iv' Hc. rewrite lookup_fmap in Hc. destruct (v_codes db !! code) as [iv|]; [|done]. injection Hc as <-. exists iv. by case_match.
  - unfold DeleteInvitationCode in Hr. rewrite tx_get_bind in Hr. unfold tx_put in Hr. injection Hr as <-. eapply invite_ok_shrink; [| |exact Hok]; [done|].
    cbn. intros code iv [Hc _]%map_lookup_filter_Some. by exists iv.
  - apply RegisterEndUser_inv in Hr as (iv' & acc & Hiv' & Hus & _ & _ & _ & ->). rewrite Hiv in Hiv'. injection Hiv' as <-.
    destruct Hok as [O1 O2 O3]. cbn in *. destruct (O1 _ _ Hiv) as (U1 & U2 & U3 & U4). split; cbn.
    + intros c iv2 Hc. rewrite uses_cons. cbn. destruct (decide (c = rg_InvitationCode r)) as [-> | N].
      * rewrite lookup_insert_eq in Hc. injection Hc as <-. cbn. rewrite Z.eqb_refl. unfold invitation_usable in Hus.
        apply andb_true_iff in Hus as [Hus _]. apply andb_true_iff in Hus as [_ Hmax]. split_and!; lia.
      * rewrite lookup_insert_ne in Hc by done. destruct (O1 _ _ Hc) as (? & ? & ? & ?). rewrite (proj2 (Z.eqb_neq _ _)); [split_and!; done|].
        intros E. apply N. by eapply O2.
    + assert (Hid : forall c i, <[rg_InvitationCode r := use_once iv]> (v_codes db) !! c = Some i -> exists i0, v_codes db !! c = Some i0 /\ iv_ID i = iv_ID i0).
      { intros c i Hc. destruct (decide (c = rg_InvitationCode r)) as [-> | N]; [rewrite lookup_insert_eq in Hc; injection Hc as <-; by exists iv|].
        rewrite lookup_insert_ne in Hc by done. by exists i. }
      intros c1 c2 i1 i2 (j1 & H1 & ->)%Hid (j2 & H2 & ->)%Hid. by eapply O2.
    + intros p [-> | Hp]%elem_of_cons; [done | by apply O3].
  - unfold purge_tenant in Hr. rewrite tx_get_bind in Hr. apply tx_bind_ok in Hr as ([] & db1 & Hp & Hr). unfold tx_put in Hp. injection Hp as <-.
    apply tx_bind_ok in Hr as (b & db2 & Hz & Hr). injection Hr as <-. apply tx_zoom_ok in Hz as (acc & _ & ->).
    eapply invite_ok_shrink; [| |exact Hok]; [done|]. cbn. intros code iv [Hc _]%map_lookup_filter_Some. by exists iv.
  - eapply invite_ok_shrink; [| |exact Hok]; [done|]. cbn. intros code iv Hc. by exists iv.
Qed.

(** C30: however registrations, changes, deletions and sign-ins interleave: an invitation
    was used exactly as often as it says, by that many registrations that committed, and
    never more often than its tenant allowed. *)
Theorem invitation_uses_are_exact w code iv :
  rtc invite_step invite_start w -> v_codes (iw_db w) !! code = Some iv ->
  iv_UsedCount iv = uses (iv_ID iv) (iw_uses w) /\ (iv_MaxUses iv = 0 \/ uses (iv_ID iv) (iw_uses w) <= iv_MaxUses iv).
Proof.
  intros Hr Hc. assert (Hok : invite_ok w).
  { revert Hr. refine (rtc_ind_r invite_ok invite_start _ _ w); [|intros x y _ Hxy Hx; by eapply invite_step_ok].
    split; cbn; [by intros ? ? [=] | by intros ? ? ? ? [=] | set_solver]. }
  destruct (io_uses _ Hok _ _ Hc) as (U1 & _ & U3 & _). rewrite <- U1. done.
Qed.

(** ** From the tenant's page to an account *)

Lemma register_account_fresh db user tenant name hash :
  auth_ok db -> d_accounts db !! user = None -> username_taken name db = false -> name <> ""%string -> tenant_active db tenant = true ->
  register_account user tenant name hash db = Ok (tt, set_account_rows (<[user := new_account (Some tenant) name hash 4 Active]> (d_accounts db)) db).
Proof.
  intros Hok Hnone Hname Hne Hten. unfold register_account, insert_account. rewrite tx_get_bind. cbv zeta. rewrite tx_guard_pass; [done|].
  apply orb_false_iff. split; [apply bool_decide_eq_false; rewrite Hnone; by intros [??]|]. apply negb_false_iff, accounts_check_spec.
  destruct (ao_accounts _ Hok) as [H1 H2]. set (a := new_account (Some tenant) name hash 4 Active).
  assert (Hfree : forall id b, d_accounts db !! id = Some b -> ToLower (ia_username b) <> ToLower name).
  { intros id b Hb E. apply not_true_iff_false in Hname. apply Hname, existsb_exists. exists (id, b).
    split; [by apply list_elem_of_In, elem_of_map_to_list|]. unfold col_eq. by rewrite bool_decide_true. }
  assert (Hnew : forall id b, <[user := a]> (d_accounts db) !! id = Some b -> (id = user /\ b = a) \/ d_accounts db !! id = Some b).
  { intros id b Hb. destruct (decide (id = user)) as [-> | N]; [rewrite lookup_insert_eq in Hb; injection Hb as <-; by left | rewrite lookup_insert_ne in Hb by done; by right]. }
  split.
  - intros id b [[-> ->] | Hb]%Hnew; [|by apply (H1 id)]. split.
    + unfold a, account_check, new_account, col_eq. cbn. by rewrite (bool_decide_false (name = _)).
    + intros x [= <-]. unfold tenant_active in Hten. apply bool_decide_eq_true in Hten. by exists Active.
  - intros i j b c [[-> ->] | Hb]%Hnew [[-> ->] | Hc]%Hnew E; [done | | | by eapply H2].
    + cbn in E. by destruct (Hfree _ _ Hc).
    + cbn in E. by destruct (Hfree _ _ Hb).
Qed.

Lemma consent_recorded now r docs db :
  NoDup (fst <$> docs) -> (forall d, d ∈ docs -> (d.1 = "terms" \/ d.1 = "privacy")%string /\ only_spaces d.2 = false) ->
  (forall x, x ∈ v_legal db -> la_UserID x = rg_UserID r -> forall d, d ∈ docs -> la_DocumentKey x <> d.1) ->
  tx_iter (insert_acceptance now r) docs db =
    Ok (tt, set_legal (v_legal db ++ ((fun d => MkAcceptance (rg_UserID r) (rg_TenantID r) d.1 d.2 now) <$> docs)) db).
Proof.
  revert db. induction docs as [|d docs IH]; cbn; intros db Hnd Hdoc Hleg; [rewrite app_nil_r; by destruct db|].
  apply NoDup_cons in Hnd as [Hd Hnd]. destruct (Hdoc d ltac:(set_solver)) as [Hkey Hsp].
  unfold tx_bind at 1. unfold insert_acceptance. rewrite tx_get_bind, tx_guard_pass.
  - unfold tx_put. fold (insert_acceptance now r). rewrite IH; [unfold set_legal; cbn; by rewrite <- app_assoc | done | set_solver |].
    cbn. intros x [Hx | ->%list_elem_of_singleton]%elem_of_app Hu e He; [by apply (Hleg x Hx Hu e); set_solver|]. cbn. intros E. apply Hd.
    rewrite E. by apply list_elem_of_fmap_2.
  - rewrite Hsp, orb_false_r. apply orb_false_iff. split; [unfold col_eq; destruct Hkey as [-> | ->]; done|].
    apply not_true_iff_false. intros (x & Hx%list_elem_of_In & Hm)%existsb_exists. unfold col_eq in Hm. rewrite !andb_true_iff, !bool_decide_eq_true in Hm.
    destruct Hm as [[Hu Hk] _]. by apply (Hleg x Hx Hu d); [set_solver|].
Qed.

(** C31: a code a tenant just issued lets anyone who types it, in any case and with blanks
    around it, register under a free name while the tenant is active and the code has not
    expired: the account, the use of the invitation and the consent are written together. *)
Theorem issued_invitation_registers policy bcrypt draws typed tenant by_ desc maxUses expire now_seen now name password user terms privacy db db1 :
  auth_ok (v_auth db) -> length draws = 8%nat -> draws_below 32 draws = true ->
  CreateInvitationCode (generateInvitationCode draws) tenant by_ desc maxUses expire db = Ok (tt, db1) ->
  normalizeInvitationCode typed = generateInvitationCode draws -> tenant_active (v_auth db) tenant = true ->
  (forall ms, expire = Some ms -> now_seen < ms * 1000000 /\ now < ms * 1000000) ->
  TrimSpace name <> ""%string -> username_taken (TrimSpace name) (v_auth db) = false -> policy password (TrimSpace name) = true ->
  d_accounts (v_auth db) !! user = None -> (forall x, x ∈ v_legal db -> la_UserID x <> user) ->
  only_spaces (TrimSpace terms) = false -> only_spaces (TrimSpace privacy) = false ->
  exists db2, RegisterUser policy bcrypt db1 db1 now_seen now typed name password user terms privacy db1 = Ok (tenant, db2) /\
    d_accounts (v_auth db2) = <[user := new_account (Some tenant) (TrimSpace name) (bcrypt password) 4 Active]> (d_accounts (v_auth db)) /\
    iv_UsedCount <$> v_codes db2 !! generateInvitationCode draws = Some 1 /\
    v_legal db2 = v_legal db ++ [MkAcceptance user tenant "terms" (TrimSpace terms) now; MkAcceptance user tenant "privacy" (TrimSpace privacy) now].
Proof.
  intros Hok Hlen Hd Hc Htyped Hten Hexp Hname Hfree Hpol Hid Hleg Ht Hp.
  pose proof (generated_code_accepted _ Hlen Hd) as Hcode. set (code := generateInvitationCode draws) in *.
  assert (Hpat : invitationCodePattern code = true).
  { unfold normalizeInvitationCodeChecked in Hcode. case_match eqn:E; [|done]. injection Hcode as Hcode. by rewrite Hcode in E. }
  unfold CreateInvitationCode in Hc. rewrite tx_get_bind in Hc. apply tx_bind_ok in Hc as ([] & ? & Hg & Hc). apply tx_guard_ok in Hg as [Hmax ->].
  apply tx_bind_ok in Hc as ([] & ? & Hg & Hc). apply tx_guard_ok in Hg as [_ ->]. unfold tx_put in Hc. injection Hc as <-.
  set (iv := MkInvitation _ _ _ _ _ _ _ _). set (db1 := InviteDB _ _ _ _).
  assert (Hiv : v_codes db1 !! code = Some iv) by apply lookup_insert_eq.
  assert (Hvalid : ValidateCode now_seen code db1 = Ok iv).
  { unfold ValidateCode. rewrite Hcode. unfold GetByCode. rewrite Hiv. change (v_auth db1) with (v_auth db). cbn [iv iv_TenantID]. rewrite Hten.
    replace (IsValid now_seen iv) with true; [done|]. unfold IsValid, used_up, past_expiry, UnixMilli. cbn.
    change (inviteCodeStatusToInt Active =? 1) with true. destruct expire as [ms|]; cbn.
    - destruct (Hexp ms eq_refl) as [He _]. rewrite Z.div_mul by lia.
      assert (now_seen / 1000000 <= ms) by (apply Z.div_le_upper_bound; lia). lia.
    - lia. }
  set (r := MkRegistration code tenant user (TrimSpace name) (bcrypt password) [("terms"%string, TrimSpace terms); ("privacy"%string, TrimSpace privacy)]).
  assert (Hne : forall s, only_spaces s = false -> col_eq s "" = false).
  { intros s Hs. unfold col_eq. apply bool_decide_eq_false. by intros ->. }
  set (acc := set_account_rows (<[user := new_account (Some tenant) (TrimSpace name) (bcrypt password) 4 Active]> (d_accounts (v_auth db))) (v_auth db)).
  exists (InviteDB acc (<[code := use_once iv]> (v_codes db1)) (v_legal db ++ [MkAcceptance user tenant "terms" (TrimSpace terms) now; MkAcceptance user tenant "privacy" (TrimSpace privacy) now]) (v_next db1)).
  split; [|split; [done|]; split; [|done]; cbn [v_codes]; by rewrite lookup_insert_eq].
  unfold RegisterUser. unfold normalizeInvitationCodeChecked. rewrite Htyped, Hpat. cbv zeta.
  rewrite tx_guard_pass by (by apply bool_decide_eq_false). rewrite tx_guard_pass by (by rewrite (Hne _ Ht), (Hne _ Hp)). rewrite Hvalid.
  rewrite tx_guard_pass by done. rewrite tx_guard_pass by (by rewrite Hpol). change (iv_TenantID iv) with tenant. fold r.
  assert (Hreg : RegisterEndUser now r db1 = Ok (tt, InviteDB acc (<[code := use_once iv]> (v_codes db1)) (v_legal db ++ [MkAcceptance user tenant "terms" (TrimSpace terms) now; MkAcceptance user tenant "privacy" (TrimSpace privacy) now]) (v_next db1))).
  2:{ unfold tx_bind. by rewrite Hreg. }
  unfold RegisterEndUser. unfold tx_bind at 1.
  assert (Hins : insert_end_user r db1 = Ok (tt, set_auth acc db1)).
  { unfold insert_end_user. rewrite tx_get_bind. cbn [r rg_UserID rg_Username rg_TenantID rg_PasswordHash]. change (v_auth db1) with (v_auth db).
    rewrite tx_guard_pass by (apply bool_decide_eq_false; rewrite Hid; by intros [??]). rewrite tx_guard_pass by done.
    unfold tx_zoom, tx_map_err. change (v_auth db1) with (v_auth db). by rewrite register_account_fresh. }
  rewrite Hins. unfold tx_bind at 1.
  assert (Huse : use_invitation now r (set_auth acc db1) = Ok (tt, set_codes (<[code := use_once iv]> (v_codes db1)) (set_auth acc db1))).
  { unfold use_invitation. rewrite tx_get_bind. change (v_codes (set_auth acc db1)) with (v_codes db1). change (rg_InvitationCode r) with code. rewrite Hiv.
    rewrite tx_guard_pass; [by rewrite tx_guard_pass by done|]. apply negb_false_iff. unfold invitation_usable, col_eq.
    change (tenant_active (v_auth (set_auth acc db1)) (iv_TenantID iv)) with (tenant_active (v_auth db) tenant). rewrite Hten. cbn. rewrite !bool_decide_true by done. cbn.
    rewrite andb_true_r. apply andb_true_iff. split; [destruct expire as [ms|]; [destruct (Hexp ms eq_refl); cbn; lia | done] | lia]. }
  rewrite Huse. rewrite consent_recorded; [done | | |].
  - cbn. apply NoDup_cons. split; [set_solver | apply NoDup_singleton].
  - cbn. intros d [-> | [-> | []%elem_of_nil]%elem_of_cons]%elem_of_cons; cbn; tauto.
  - intros x Hx Hu. by destruct (Hleg x Hx).
Qed.

(** The public page offers registration for exactly the codes the service accepts. *)
Lemma description_agrees now code db :
  (exists st, DescribePublicInvitation now code db = Ok (st, true)) <-> exists iv, ValidateCode now code db = Ok iv.
Proof.
  unfold DescribePublicInvitation, ValidateCode, IsValid. destruct (normalizeInvitationCodeChecked code) as [c|]; [|by split; intros [??]].
  destruct (GetByCode c db) as [iv|]; [|by split; intros [??]]. destruct (_ =? 1); cbn; [|by split; intros [??]].
  destruct (past_expiry now iv), (used_up iv); cbn; split; intros [??]; try done; by eexists.
Qed.

(** ** A run *)

Definition tenant_t : auth_db := w_db (call_auth (OpTenantCreate "t" Active) auth_start).
Definition before_code : invite_db := InviteDB tenant_t ∅ [] 1.
Definition demo_draws : list Z := [0; 1; 2; 3; 4; 5; 6; 7].
Definition demo_code : string := generateInvitationCode demo_draws.
Definition new_state {A} (m : ITx A) (db : invite_db) : invite_db := match m db with Ok (_, db') => db' | Err _ => db end.
Definition with_code : invite_db := new_state (CreateInvitationCode demo_code "t" "boss" "friends" 1 (Some 5)) before_code.
Definition demo_registration : EndUserRegistration := MkRegistration demo_code "t" "u" "ann" "hash" [("terms"%string, "v1"%string); ("privacy"%string, "v1"%string)].
Definition registered : invite_db := new_state (RegisterEndUser 10 demo_registration) with_code.
Definition demo_invitation : invitation := MkInvitation 1 "t" "boss" "friends" 1 0 Active (Some 5000000).

Lemma demo_reached : rtc invite_step invite_start (InviteWorld registered [(1, "u"%string)]).
Proof.
  eapply rtc_l; [apply (StepAuth (OpTenantCreate "t" Active) _ [] tenant_t); vm_compute; reflexivity|].
  eapply rtc_l; [apply (StepCreate demo_code "t" "boss" "friends" 1 (Some 5) _ with_code); vm_compute; reflexivity|].
  eapply rtc_l; [apply (StepRegister 10 demo_registration demo_invitation _ registered); vm_compute; reflexivity|]. constructor.
Qed.
Lemma tenant_t_ok : auth_ok tenant_t.
Proof. apply call_ages; [apply start_world_ok | by vm_compute]. Qed.

Lemma invitation_uses_are_exact_witness : exists iv, v_codes registered !! demo_code = Some iv /\ iv_UsedCount iv = 1 /\ iv_MaxUses iv = 1.
Proof.
  destruct (v_codes registered !! demo_code) as [iv|] eqn:Hiv; [|by vm_compute in Hiv]. exists iv. split; [done|].
  destruct (invitation_uses_are_exact _ _ _ demo_reached Hiv) as [H _].
  assert (Some (iv_ID iv, iv_MaxUses iv) = Some (1, 1)) as [= E1 E2].
  { change (Some (iv_ID iv, iv_MaxUses iv)) with ((fun i => (iv_ID i, iv_MaxUses i)) <$> Some iv). rewrite <- Hiv. by vm_compute. }
  rewrite H, E1. by split.
Defined.

Lemma issued_invitation_registers_witness : exists db2,
  RegisterUser (fun _ _ => true) (fun pw => pw) with_code with_code 8 10 " abcdefgh " " ann " "secret" "u" "v1" "v1" with_code = Ok ("t"%string, db2) /\
  iv_UsedCount <$> v_codes db2 !! demo_code = Some 1.
Proof.
  destruct (issued_invitation_registers (fun _ _ => true) (fun pw => pw) demo_draws " abcdefgh " "t" "boss" "friends" 1 (Some 5) 8 10 " ann " "secret" "u" "v1" "v1"
    before_code with_code) as (db2 & H1 & _ & H2 & _);
    [exact tenant_t_ok | done | by vm_compute | by vm_compute | by vm_compute | by vm_compute | intros ms [= <-]; lia | by vm_compute | by vm_compute | done | by vm_compute
    | intros x Hx; by apply elem_of_nil in Hx | by vm_compute | by vm_compute |].
  exists db2. by split.
Defined.
