(* ===== verification/APIKeys.v ===== *)
(** * API keys and who a request acts for

    The keys callers authenticate with: their management
    ([src/internal/ai/identitycontrol/service.go], [.../adapters/postgres/apikey_repo.go]
    and the statements of [.../db/queries/api_keys.sql]), the quota settlement moves, the
    authentication of a request ([.../gateway/runtime_auth.go], [.../apikey/key.go]) and of a
    queued task at each attempt ([.../gateway/tasks_subject.go], [runtime_owner.go]), and the
    resolver the pipeline uses ([.../adapters/postgres/apikey.go]).  Owners are the accounts
    and tenants of [Auth].

    SHA-256, encryption, the parsing of UUIDs, random keys and ids, and the answer of the ban
    list are arguments.  Columns that only report (creation and change times) are left out. *)

From Stdlib Require Import String.
From S2P Require Import Prelude GoStrings Auth AuthSystem Request AsyncTask.
#[global] Open Scope Z_scope.

(** ** The table *)

Record api_key := MkKey {
  ak_OwnerType : string; ak_TenantID : string; ak_UserID : option string; ak_GroupID : string;
  ak_KeyHash : string; ak_KeyCiphertext : string; ak_LastFour : string; ak_Name : string;
  ak_QuotaLimit : option Z; ak_QuotaUsed : Z; ak_Status : string; ak_ExpiresAt : option Z;
  ak_LastUsedAt : option Z; ak_CreatedBy : option string }.
Record key_db := KeyDB {
  q_keys : gmap string api_key;              (* by id *)
  q_groups : gset (string * string);         (* tenant and id of each group *)
  q_auth : auth_db }.
Definition set_key_rows x db := KeyDB x (q_groups db) (q_auth db).

Inductive key_error := ErrKeyValidation (field : string) | ErrKeyNotFound | ErrKeyID | ErrKeyEncrypt | ErrKeySQL.
Abbreviation KeyTx := (Tx key_db key_error).

(** The constraints of a row. *)
Definition key_row_ok (groups : gset (string * string)) (k : api_key) : bool :=
  ((col_eq (ak_OwnerType k) "tenant" && bool_decide (ak_UserID k = None)) ||
   (col_eq (ak_OwnerType k) "user" && bool_decide (is_Some (ak_UserID k)))) &&
  (0 <=? ak_QuotaUsed k) && in_int64 (ak_QuotaUsed k) &&
  match ak_QuotaLimit k with Some q => (0 <=? q) && in_int64 q | None => true end &&
  bool_decide ((ak_TenantID k, ak_GroupID k) ∈ groups).
(** [idx_ai_api_keys_key_hash] *)
Definition hash_taken (id hash : string) (m : gmap string api_key) : bool :=
  existsb (fun '(i, k) => negb (col_eq i id) && col_eq (ak_KeyHash k) hash) (map_to_list m).
Definition write_key (id : string) (k : api_key) : KeyTx unit :=
  let! db := tx_get in
  tx_guard (negb (key_row_ok (q_groups db) k) || hash_taken id (ak_KeyHash k) (q_keys db)) ErrKeySQL ;;;
  tx_put (set_key_rows (<[id := k]> (q_keys db)) db).
(** [UPDATE ... WHERE id AND tenant_id RETURNING]: the row before and after. *)
Definition update_key (id tenantID : string) (f : api_key -> api_key) : KeyTx (api_key * api_key) :=
  let! db := tx_get in
  match q_keys db !! id with
  | Some k => if col_eq (ak_TenantID k) tenantID then write_key id (f k) ;;; tx_ret (k, f k) else tx_fail ErrKeyNotFound
  | None => tx_fail ErrKeyNotFound
  end.

(** ** Management ([identitycontrol]) *)

Definition APIKeyStatusActive : string := "active".
Definition APIKeyStatusDisabled : string := "disabled".
Definition normalizeAPIKeyStatus (status : string) (allowDefault : bool) : option string :=
  let status := TrimSpace status in
  if col_eq status "" then if allowDefault then Some APIKeyStatusActive else None
  else if col_eq status APIKeyStatusActive || col_eq status APIKeyStatusDisabled then Some status else None.
Definition validateOptionalAmount (v : option Z) : bool := match v with Some v => 0 <=? v | None => true end.
Definition akText (s : string) : option string := if col_eq s "" then None else Some s.
(** [LastFour] *)
Definition LastFour (key : string) : string :=
  if (String.length key <? 4)%nat then key else String.substring (String.length key - 4) 4 key.
(** [ownerScopeToLegacy] *)
Definition ownerScopeToLegacy (scope : string) : string :=
  if col_eq scope "user" then "user" else if col_eq scope "tenant" then "tenant" else "".

Record CreateInput := MkCreateInput {
  ci_OwnerScope : string; ci_TenantID : string; ci_UserID : string; ci_GroupID : string; ci_Name : string;
  ci_QuotaLimit : option Z; ci_Status : string; ci_ExpiresAt : option Z; ci_CreatedBy : string }.
Record UpdateInput := MkUpdateInput {
  ui_ID : string; ui_TenantID : string; ui_GroupID : string; ui_Name : string; ui_QuotaLimit : option Z;
  ui_QuotaLimitSet : bool; ui_Status : string; ui_ExpiresAt : option Z; ui_ExpiresAtSet : bool }.

Section Service.
Context (uuid : string -> option string) (encrypt : string -> option string) (sha : string -> string).

Definition parse_uuid (s : string) : KeyTx string := match uuid s with Some id => tx_ret id | None => tx_fail ErrKeyID end.
Definition encrypted (plaintext : string) : KeyTx string := match encrypt plaintext with Some c => tx_ret c | None => tx_fail ErrKeyEncrypt end.

(** [Service.Create] and [APIKeyRepo.Create]; [id] and [plaintext] are drawn. *)
Definition keys_Create (id plaintext : string) (input : CreateInput) : KeyTx api_key :=
  tx_guard (col_eq (ci_Name input) "") (ErrKeyValidation "name") ;;;
  tx_guard (col_eq (TrimSpace (ci_GroupID input)) "") (ErrKeyValidation "group_id") ;;;
  tx_guard (negb (validateOptionalAmount (ci_QuotaLimit input))) (ErrKeyValidation "quota_limit_micro_usd") ;;;
  match normalizeAPIKeyStatus (ci_Status input) true with
  | None => tx_fail (ErrKeyValidation "status")
  | Some status =>
      let! ciphertext := encrypted plaintext in
      let! group := parse_uuid (TrimSpace (ci_GroupID input)) in
      let k := MkKey (ownerScopeToLegacy (ci_OwnerScope input)) (ci_TenantID input) (akText (ci_UserID input)) group
                 (sha plaintext) ciphertext (LastFour plaintext) (ci_Name input) (ci_QuotaLimit input) 0 status
                 (ci_ExpiresAt input) None (akText (ci_CreatedBy input)) in
      let! db := tx_get in
      tx_guard (bool_decide (is_Some (q_keys db !! id))) ErrKeySQL ;;;
      write_key id k ;;; tx_ret k
  end.

(** [Service.Update]: the statement keeps what is not set. *)
Definition keys_Update (input : UpdateInput) : KeyTx api_key :=
  tx_guard (col_eq (ui_Name input) "") (ErrKeyValidation "name") ;;;
  tx_guard (col_eq (TrimSpace (ui_GroupID input)) "") (ErrKeyValidation "group_id") ;;;
  tx_guard (negb (validateOptionalAmount (ui_QuotaLimit input))) (ErrKeyValidation "quota_limit_micro_usd") ;;;
  let status := TrimSpace (ui_Status input) in
  tx_guard (negb (col_eq status "") && negb (bool_decide (is_Some (normalizeAPIKeyStatus status false)))) (ErrKeyValidation "status") ;;;
  let! id := parse_uuid (ui_ID input) in
  let! group := parse_uuid (TrimSpace (ui_GroupID input)) in
  let! r := update_key id (ui_TenantID input) (fun k =>
    MkKey (ak_OwnerType k) (ak_TenantID k) (ak_UserID k) group (ak_KeyHash k) (ak_KeyCiphertext k) (ak_LastFour k) (ui_Name input)
      (if ui_QuotaLimitSet input || bool_decide (is_Some (ui_QuotaLimit input)) then ui_QuotaLimit input else ak_QuotaLimit k) (ak_QuotaUsed k)
      (if col_eq status "" then ak_Status k else status)
      (if ui_ExpiresAtSet input || bool_decide (is_Some (ui_ExpiresAt input)) then ui_ExpiresAt input else ak_ExpiresAt k)
      (ak_LastUsedAt k) (ak_CreatedBy k)) in
  tx_ret r.2.

Definition key_status (status : string) (k : api_key) : api_key :=
  MkKey (ak_OwnerType k) (ak_TenantID k) (ak_UserID k) (ak_GroupID k) (ak_KeyHash k) (ak_KeyCiphertext k) (ak_LastFour k) (ak_Name k)
    (ak_QuotaLimit k) (ak_QuotaUsed k) status (ak_ExpiresAt k) (ak_LastUsedAt k) (ak_CreatedBy k).
(** [Service.UpdateStatus] *)
Definition keys_UpdateStatus (id tenantID status : string) : KeyTx api_key :=
  match normalizeAPIKeyStatus status false with
  | None => tx_fail (ErrKeyValidation "status")
  | Some status => let! id := parse_uuid id in let! r := update_key id tenantID (key_status status) in tx_ret r.2
  end.

Definition key_secret (hash ciphertext last_four : string) (k : api_key) : api_key :=
  MkKey (ak_OwnerType k) (ak_TenantID k) (ak_UserID k) (ak_GroupID k) hash ciphertext last_four (ak_Name k)
    (ak_QuotaLimit k) (ak_QuotaUsed k) (ak_Status k) (ak_ExpiresAt k) (ak_LastUsedAt k) (ak_CreatedBy k).
(** [Service.Rotate]: the hash to drop from the cache with the key. *)
Definition keys_Rotate (plaintext id tenantID : string) : KeyTx (api_key * string) :=
  let! ciphertext := encrypted plaintext in
  let! id := parse_uuid id in
  let! r := update_key id tenantID (key_secret (sha plaintext) ciphertext (LastFour plaintext)) in
  tx_ret (r.2, ak_KeyHash r.1).

(** [Service.Delete] and [Reveal]. *)
Definition keys_Delete (id tenantID : string) : KeyTx string :=
  let! id := parse_uuid id in
  let! db := tx_get in
  match q_keys db !! id with
  | Some k => if col_eq (ak_TenantID k) tenantID then tx_put (set_key_rows (delete id (q_keys db)) db) ;;; tx_ret (ak_KeyHash k) else tx_fail ErrKeyNotFound
  | None => tx_fail ErrKeyNotFound
  end.
Definition keys_Reveal (decrypt : string -> option string) (id tenantID : string) : KeyTx string :=
  let! id := parse_uuid id in
  let! db := tx_get in
  match q_keys db !! id with
  | Some k =>
      if col_eq (ak_TenantID k) tenantID then
        tx_guard (col_eq (TrimSpace (ak_KeyCiphertext k)) "") ErrKeyNotFound ;;;
        match decrypt (ak_KeyCiphertext k) with Some s => tx_ret s | None => tx_fail ErrKeyEncrypt end
      else tx_fail ErrKeyNotFound
  | None => tx_fail ErrKeyNotFound
  end.

(** What settlement does to the quota ([confirm] and [refund] of [request_settlement.go]),
    and [TouchLastUsedAt]. *)
Definition with_quota (used : Z) (k : api_key) : api_key :=
  MkKey (ak_OwnerType k) (ak_TenantID k) (ak_UserID k) (ak_GroupID k) (ak_KeyHash k) (ak_KeyCiphertext k) (ak_LastFour k) (ak_Name k)
    (ak_QuotaLimit k) used (ak_Status k) (ak_ExpiresAt k) (ak_LastUsedAt k) (ak_CreatedBy k).
Definition keys_ConfirmQuota (id : string) (due : Z) : KeyTx (Z * Z) :=
  let! db := tx_get in
  match q_keys db !! id with
  | Some k => write_key id (with_quota (ak_QuotaUsed k + due) k) ;;; tx_ret (ak_QuotaUsed k, ak_QuotaUsed k + due)
  | None => tx_fail ErrKeyNotFound
  end.
Definition keys_RefundQuota (id : string) (due : Z) : KeyTx Z :=
  let! db := tx_get in
  match q_keys db !! id with
  | Some k => if due <=? ak_QuotaUsed k then write_key id (with_quota (ak_QuotaUsed k - due) k) ;;; tx_ret (ak_QuotaUsed k - due) else tx_fail ErrKeyNotFound
  | None => tx_fail ErrKeyNotFound
  end.
Definition touched (now : Z) (k : api_key) : api_key :=
  MkKey (ak_OwnerType k) (ak_TenantID k) (ak_UserID k) (ak_GroupID k) (ak_KeyHash k) (ak_KeyCiphertext k) (ak_LastFour k) (ak_Name k)
    (ak_QuotaLimit k) (ak_QuotaUsed k) (ak_Status k) (ak_ExpiresAt k) (Some now) (ak_CreatedBy k).
Definition keys_Touch (now : Z) (id : string) : KeyTx unit :=
  let! db := tx_get in
  match q_keys db !! id with
  | Some k =>
      if match ak_LastUsedAt k with Some t => t <? now - 300 * Sec | None => true end
      then tx_put (set_key_rows (<[id := touched now k]> (q_keys db)) db) else tx_ret tt
  | None => tx_ret tt
  end.

(** ** Who a key stands for *)

(** [GetAPIKeyByHash] *)
Definition GetAPIKeyByHash (hash : string) (db : key_db) : option (string * api_key) :=
  List.find (fun '(_, k) => col_eq (ak_KeyHash k) hash) (map_to_list (q_keys db)).
(** [verifyRuntimeAPIKeyOwner] *)
Definition verifyRuntimeAPIKeyOwner (k : api_key) (db : auth_db) : bool :=
  negb (col_eq (ak_TenantID k) "") &&
  if col_eq (ak_OwnerType k) "tenant" then tenant_active db (ak_TenantID k)
  else if col_eq (ak_OwnerType k) "user" then
    match ak_UserID k with
    | Some user =>
        negb (col_eq user "") &&
        match d_accounts db !! user with
        | Some a => bool_decide (ia_tenant a = Some (ak_TenantID k)) && (ia_type a =? 4) && col_eq (ia_status a) Active && tenant_active db (ak_TenantID k)
        | None => false
        end
    | None => false
    end
  else false.
(** [buildRuntimeAuthSubjectRecord] *)
Definition buildRuntimeAuthSubjectRecord (id : string) (k : api_key) : Subject :=
  MkSubject "api_key" "api_key" (if col_eq (ak_OwnerType k) "user" then "user" else "tenant") (ak_TenantID k) (default ""%string (ak_UserID k))
    id (ak_GroupID k) [] (ak_QuotaLimit k) (ak_QuotaUsed k) "".
Definition key_expired (now : Z) (k : api_key) : bool := match ak_ExpiresAt k with Some t => t <=? now | None => false end.

(** [ExtractBearer] and [extractRuntimeAPIKey] *)
Definition Prefix : string := "sk-ai-".
Definition ExtractBearer (header : string) : option string :=
  if String.prefix "Bearer " header then
    let key := TrimSpace (TrimPrefix header "Bearer ") in
    if col_eq key "" then None else if String.prefix Prefix key then Some key else None
  else None.
Definition extractRuntimeAPIKey (Authorization x_api_key : string) : option string :=
  let authorization := TrimSpace Authorization in
  let anthropicKey := TrimSpace x_api_key in
  if col_eq authorization "" && col_eq anthropicKey "" then None
  else
    match (if col_eq authorization "" then Some "" else ExtractBearer authorization)%string with
    | None => None
    | Some bearerKey =>
        if negb (col_eq anthropicKey "") && negb (String.prefix Prefix anthropicKey) then None
        else if negb (col_eq bearerKey "") && negb (col_eq anthropicKey "") && negb (col_eq bearerKey anthropicKey) then None
        else if negb (col_eq bearerKey "") then Some bearerKey else Some anthropicKey
    end.

(** The answers of the ban list ([rejectIfBanned]). *)
Inductive ban := NotBanned | TenantBanned | UserBanned | BanUnknown.
Inductive key_refusal := InvalidKey | ExpiredKey | BanRefusal (b : ban) | NoGroup.
(** [resolveAPIKey] and [runtimeAuth] *)
Definition resolveAPIKey (hash : string) (db : key_db) : option (string * api_key) :=
  match GetAPIKeyByHash hash db with
  | Some (id, k) => if verifyRuntimeAPIKeyOwner k (q_auth db) then Some (id, k) else None
  | None => None
  end.
Definition runtimeAuth (now : Z) (banned : string -> string -> ban) (Authorization x_api_key : string) (db : key_db) : result key_refusal Subject :=
  match extractRuntimeAPIKey Authorization x_api_key with
  | None => Err InvalidKey
  | Some key =>
      match resolveAPIKey (sha key) db with
      | None => Err InvalidKey
      | Some (id, k) =>
          if negb (col_eq (ak_Status k) "active") then Err InvalidKey
          else if key_expired now k then Err ExpiredKey
          else
            let subject := buildRuntimeAuthSubjectRecord id k in
            match banned (sj_TenantID subject) (sj_UserID subject) with
            | NotBanned => if col_eq (sj_GroupID subject) "" then Err NoGroup else Ok subject
            | b => Err (BanRefusal b)
            end
      end
  end.

(** [taskSubjectResolver.Resolve]: the reference of a task is resolved anew at every
    attempt. *)
Definition jwt_subject (r : SubjectRef) : Subject :=
  MkSubject "jwt" "web_image" (if col_eq (sr_UserID r) "" then "tenant" else "user") (sr_TenantID r) (sr_UserID r) "" "" [] None 0 "".
Definition task_subject (now : Z) (r : SubjectRef) (db : key_db) : option Subject :=
  if col_eq (sr_AuthMethod r) "api_key" then
    match uuid (sr_APIKeyID r) with
    | None => None
    | Some id =>
        match q_keys db !! id with
        | Some k =>
            if negb (col_eq (ak_TenantID k) (sr_TenantID r)) || negb (col_eq (ak_Status k) "active") || key_expired now k ||
               negb (verifyRuntimeAPIKeyOwner k (q_auth db))
            then None
            else let subject := buildRuntimeAuthSubjectRecord id k in if col_eq (sj_GroupID subject) "" then None else Some subject
        | None => None
        end
    end
  else if col_eq (sr_AuthMethod r) "jwt" then
    if task_session_valid now (sr_TenantID r) (sr_JWTAuthUserID r) (sr_JWTAuthUserType r) (sr_JWTSessionID r) (sr_JWTCredentialVersion r) (sr_UserID r) (q_auth db)
    then Some (jwt_subject r) else None
  else None.

(** [APIKeyResolver.ResolveSubject], which does not ask for the owner. *)
Definition key_resolver (now : Z) (db : key_db) (token : string) : option Subject :=
  match GetAPIKeyByHash (sha token) db with
  | Some (id, k) =>
      if negb (col_eq (ak_Status k) "active") || key_expired now k then None
      else Some (buildRuntimeAuthSubjectRecord id k)
  | None => None
  end.

(** * What authentication guarantees *)

(** ** The table under every call *)

Record keys_ok (db : key_db) : Prop := MkKeysOk {
  ko_row : forall id k, q_keys db !! id = Some k -> key_row_ok (q_groups db) k = true;
  ko_hash : forall i j k l, q_keys db !! i = Some k -> q_keys db !! j = Some l -> ak_KeyHash k = ak_KeyHash l -> i = j }.

Lemma hash_free id hash m : hash_taken id hash m = false <-> forall i k, m !! i = Some k -> i <> id -> ak_KeyHash k <> hash.
Proof.
  unfold hash_taken. rewrite <- not_true_iff_false, existsb_exists. unfold col_eq. split.
  - intros Hn i k Hk N E. apply Hn. exists (i, k). split; [by apply list_elem_of_In, elem_of_map_to_list|]. by rewrite bool_decide_false, bool_decide_true.
  - intros Hall ([i k] & Hin & Hb). apply list_elem_of_In, elem_of_map_to_list in Hin. apply andb_true_iff in Hb as [Hb1 Hb2].
    bool_prop. by eapply Hall.
Qed.

Lemma write_key_ok id k db u db' : write_key id k db = Ok (u, db') ->
  key_row_ok (q_groups db) k = true /\ (forall i l, q_keys db !! i = Some l -> i <> id -> ak_KeyHash l <> ak_KeyHash k) /\
  db' = set_key_rows (<[id := k]> (q_keys db)) db.
Proof.
  unfold write_key. intros Hr. rewrite tx_get_bind in Hr. apply tx_bind_ok in Hr as ([] & ? & Hg & Hr).
  apply tx_guard_ok in Hg as [[H1 H2]%orb_false_iff ->]. unfold tx_put in Hr. injection Hr as _ <-.
  apply negb_false_iff in H1. split; [done|]. split; [by apply hash_free | done].
Qed.
Lemma write_keeps id k db u db' : keys_ok db -> write_key id k db = Ok (u, db') -> keys_ok db'.
Proof.
  intros [H1 H2] Hw. apply write_key_ok in Hw as (Hrow & Hfree & ->). split; cbn.
  - intros i l Hl. destruct (decide (i = id)) as [-> | N]; [rewrite lookup_insert_eq in Hl; by injection Hl as <- | rewrite lookup_insert_ne in Hl by done; by eapply H1].
  - intros i j l r Hl Hr E. destruct (decide (i = id)) as [-> | N1], (decide (j = id)) as [-> | N2]; [done | | |];
      rewrite ?lookup_insert_eq, ?lookup_insert_ne in Hl by done; rewrite ?lookup_insert_eq, ?lookup_insert_ne in Hr by done.
    + injection Hl as <-. by destruct (Hfree _ _ Hr N2).
    + injection Hr as <-. by destruct (Hfree _ _ Hl N1).
    + by eapply H2.
Qed.

(** A key is found by its hash, and only so. *)
Lemma GetAPIKeyByHash_spec hash db id k : keys_ok db -> GetAPIKeyByHash hash db = Some (id, k) <-> q_keys db !! id = Some k /\ ak_KeyHash k = hash.
Proof.
  intros Hok. unfold GetAPIKeyByHash. split.
  - intros [Hin Hh]%List.find_some. apply list_elem_of_In, elem_of_map_to_list in Hin. unfold col_eq in Hh. by bool_prop.
  - intros [Hk Hh]. destruct (List.find _ _) as [[j l]|] eqn:Hf.
    + apply List.find_some in Hf as [Hin Hl]. apply list_elem_of_In, elem_of_map_to_list in Hin. unfold col_eq in Hl. bool_prop.
      assert (j = id) as -> by (eapply (ko_hash _ Hok); [done | done | congruence]). by simplify_eq.
    + pose proof (List.find_none _ _ Hf (id, k)) as Hn. cbn in Hn. unfold col_eq in Hn. rewrite bool_decide_true in Hn by done.
      discriminate Hn. by apply list_elem_of_In, elem_of_map_to_list.
Qed.
End Service.

(** ** Every interleaving *)

Definition set_q_auth x db := KeyDB (q_keys db) (q_groups db) x.
(** [DELETE FROM ai_api_keys WHERE tenant_id] of [DeleteTenant]. *)
Definition keys_Purge (tenantID : string) : KeyTx unit :=
  let! db := tx_get in tx_put (set_key_rows (filter (fun '(_, k) => col_eq (ak_TenantID k) tenantID = false) (q_keys db)) db).
(** Groups come and go, as far as the reference of the keys allows. *)
Definition change_groups (groups : gset (string * string)) : KeyTx unit :=
  let! db := tx_get in
  tx_guard (negb (forallb (fun '(_, k) => bool_decide ((ak_TenantID k, ak_GroupID k) ∈ groups)) (map_to_list (q_keys db)))) ErrKeySQL ;;;
  tx_put (KeyDB (q_keys db) groups (q_auth db)).

Section System.
Context (uuid encrypt : string -> option string) (sha : string -> string).

Inductive key_op :=
| KCreate (id plaintext : string) (input : CreateInput)
| KUpdate (input : UpdateInput)
| KStatus (id tenant status : string)
| KRotate (plaintext id tenant : string)
| KDelete (id tenant : string)
| KConfirm (id : string) (due : Z)
| KRefund (id : string) (due : Z)
| KTouch (now : Z) (id : string)
| KPurge (tenant : string)
| KGroups (groups : gset (string * string))
| KAuth (o : op).
Definition discard {A} (m : KeyTx A) : KeyTx unit := m ;;; tx_ret tt.
Definition key_perform (o : key_op) : KeyTx unit :=
  match o with
  | KCreate id plaintext input => discard (keys_Create uuid encrypt sha id plaintext input)
  | KUpdate input => discard (keys_Update uuid input)
  | KStatus id tenant status => discard (keys_UpdateStatus uuid id tenant status)
  | KRotate plaintext id tenant => discard (keys_Rotate uuid encrypt sha plaintext id tenant)
  | KDelete id tenant => discard (keys_Delete uuid id tenant)
  | KConfirm id due => discard (keys_ConfirmQuota id due)
  | KRefund id due => discard (keys_RefundQuota id due)
  | KTouch now id => keys_Touch now id
  | KPurge tenant => keys_Purge tenant
  | KGroups groups => change_groups groups
  | KAuth o => discard (tx_zoom q_auth set_q_auth (tx_map_err (fun _ => ErrKeySQL) (perform o)))
  end.
Definition born_key (o : key_op) : gset string :=
  match o with KCreate _ plaintext _ | KRotate plaintext _ _ => {[sha plaintext]} | _ => ∅ end.

(** The tables and the hashes of every key drawn so far. *)
Record key_world := KeyWorld { kw_db : key_db; kw_hashes : gset string }.
Definition key_call (o : key_op) (w : key_world) : key_world :=
  KeyWorld (run_tx (key_perform o) (kw_db w)).1 (kw_hashes w ∪ born_key o).
(** Drawn keys do not repeat. *)
Inductive key_step (w : key_world) : key_world -> Prop :=
| KeyStep o : born_key o ## kw_hashes w -> key_step w (key_call o w).
Definition key_start : key_world := KeyWorld (KeyDB ∅ ∅ (w_db auth_start)) ∅.

(** What stays of a key that keeps its secret. *)
Definition same_secret (k k' : api_key) : Prop :=
  ak_KeyHash k' = ak_KeyHash k /\ ak_OwnerType k' = ak_OwnerType k /\ ak_TenantID k' = ak_TenantID k /\ ak_UserID k' = ak_UserID k.
Definition keys_kept (born : gset string) (m m' : gmap string api_key) : Prop := forall id k', m' !! id = Some k' ->
  ak_KeyHash k' ∈ born \/ exists k, m !! id = Some k /\ same_secret k k'.
Lemma keeps_refl born m : keys_kept born m m.
Proof. intros id k Hk. right. exists k. by repeat split. Qed.
Lemma keeps_insert born m id k : (ak_KeyHash k ∈ born \/ exists k0, m !! id = Some k0 /\ same_secret k0 k) -> keys_kept born m (<[id := k]> m).
Proof.
  intros H i l Hl. destruct (decide (i = id)) as [-> | N]; [rewrite lookup_insert_eq in Hl; by injection Hl as <-|].
  rewrite lookup_insert_ne in Hl by done. right. exists l. by repeat split.
Qed.
Lemma keeps_sub born m m' : m' ⊆ m -> keys_kept born m m'.
Proof. intros Hs id k Hk. right. exists k. split; [by eapply lookup_weaken | by repeat split]. Qed.

Definition keyed (o : key_op) (db db' : key_db) : Prop := keys_ok db' /\ keys_kept (born_key o) (q_keys db) (q_keys db').

Lemma written o id k db u db' : keys_ok db -> write_key id k db = Ok (u, db') ->
  (ak_KeyHash k ∈ born_key o \/ exists k0, q_keys db !! id = Some k0 /\ same_secret k0 k) -> keyed o db db'.
Proof. intros Hok Hw Hk. split; [by eapply write_keeps|]. apply write_key_ok in Hw as (_ & _ & ->). by apply keeps_insert. Qed.
Lemma updated o id tenant f db r db' : keys_ok db -> update_key id tenant f db = Ok (r, db') ->
  (forall k, ak_KeyHash (f k) ∈ born_key o \/ same_secret k (f k)) -> keyed o db db'.
Proof.
  intros Hok Hu Hf. unfold update_key in Hu. rewrite tx_get_bind in Hu. destruct (q_keys db !! id) as [k|] eqn:Hk; [|done].
  destruct (col_eq _ _); [|done]. apply tx_bind_ok in Hu as ([] & db1 & Hw & Hu). injection Hu as _ <-. eapply written; [done | done|].
  destruct (Hf k); [by left | right; by exists k].
Qed.
Lemma dropped o m db : keys_ok db -> m ⊆ q_keys db -> keyed o db (set_key_rows m db).
Proof.
  intros [H1 H2] Hs. split; [|by apply keeps_sub]. split; cbn.
  - intros id k Hk. eapply H1. by eapply lookup_weaken.
  - intros i j k l Hk Hl. eapply H2; by eapply lookup_weaken.
Qed.

Lemma discard_inv {A} (m : KeyTx A) db u db' : discard m db = Ok (u, db') -> exists a, m db = Ok (a, db').
Proof. intros Hr. apply tx_bind_ok in Hr as (a & d & Hm & Hr). injection Hr as _ <-. by exists a. Qed.
Lemma parsed_inv s db id db' : parse_uuid uuid s db = Ok (id, db') -> uuid s = Some id /\ db' = db.
Proof. unfold parse_uuid. destruct (uuid s); [intros [= -> ->]; done | done]. Qed.
Lemma encrypted_inv s db c db' : encrypted encrypt s db = Ok (c, db') -> encrypt s = Some c /\ db' = db.
Proof. unfold encrypted. destruct (encrypt s); [intros [= -> ->]; done | done]. Qed.

Lemma keys_Create_inv id plaintext input db k db' : keys_Create uuid encrypt sha id plaintext input db = Ok (k, db') ->
  write_key id k db = Ok (tt, db') /\ q_keys db !! id = None /\ ak_KeyHash k = sha plaintext /\
  ak_OwnerType k = ownerScopeToLegacy (ci_OwnerScope input) /\ ak_TenantID k = ci_TenantID input /\ ak_UserID k = akText (ci_UserID input) /\
  ak_ExpiresAt k = ci_ExpiresAt input /\ normalizeAPIKeyStatus (ci_Status input) true = Some (ak_Status k).
Proof.
  unfold keys_Create. intros Hr. do 3 (apply tx_bind_ok in Hr as ([] & ? & Hg & Hr); apply tx_guard_ok in Hg as [_ ->]).
  destruct (normalizeAPIKeyStatus (ci_Status input) true) as [status|] eqn:Hst; [|done].
  apply tx_bind_ok in Hr as (c & ? & Hc & Hr). apply encrypted_inv in Hc as [_ ->].
  apply tx_bind_ok in Hr as (g & ? & Hg & Hr). apply parsed_inv in Hg as [_ ->]. cbv zeta in Hr. rewrite tx_get_bind in Hr.
  apply tx_bind_ok in Hr as ([] & ? & Hg & Hr). apply tx_guard_ok in Hg as [Hfree ->]. apply bool_decide_eq_false in Hfree.
  apply tx_bind_ok in Hr as ([] & ? & Hw & Hr). injection Hr as <- <-. split_and!; try done.
  by destruct (q_keys db !! id); [destruct Hfree|].
Qed.

Lemma key_perform_ok o db u db' : keys_ok db -> key_perform o db = Ok (u, db') -> keyed o db db'.
Proof.
  intros Hok Hr. destruct o; cbn [key_perform] in Hr; try (apply discard_inv in Hr as [x Hr]).
  - apply keys_Create_inv in Hr as (Hw & _ & Hh & _). eapply written; [done | done|]. left. rewrite Hh. cbn. set_solver.
  - unfold keys_Update in Hr. do 3 (apply tx_bind_ok in Hr as ([] & ? & Hg & Hr); apply tx_guard_ok in Hg as [_ ->]). cbv zeta in Hr.
    apply tx_bind_ok in Hr as ([] & ? & Hg & Hr); apply tx_guard_ok in Hg as [_ ->].
    apply tx_bind_ok in Hr as (? & ? & Hg & Hr); apply parsed_inv in Hg as [_ ->].
    apply tx_bind_ok in Hr as (? & ? & Hg & Hr); apply parsed_inv in Hg as [_ ->].
    apply tx_bind_ok in Hr as (? & ? & Hu & Hr). injection Hr as _ <-. eapply updated; [done | done|]. intros k. by right.
  - unfold keys_UpdateStatus in Hr. destruct (normalizeAPIKeyStatus status false); [|done].
    apply tx_bind_ok in Hr as (? & ? & Hg & Hr); apply parsed_inv in Hg as [_ ->].
    apply tx_bind_ok in Hr as (? & ? & Hu & Hr). injection Hr as _ <-. eapply updated; [done | done|]. intros k. by right.
  - unfold keys_Rotate in Hr. apply tx_bind_ok in Hr as (? & ? & Hg & Hr); apply encrypted_inv in Hg as [_ ->].
    apply tx_bind_ok in Hr as (? & ? & Hg & Hr); apply parsed_inv in Hg as [_ ->].
    apply tx_bind_ok in Hr as (? & ? & Hu & Hr). injection Hr as _ <-. eapply updated; [done | done|]. intros k. left. cbn. set_solver.
  - unfold keys_Delete in Hr. apply tx_bind_ok in Hr as (? & ? & Hg & Hr); apply parsed_inv in Hg as [_ ->]. rewrite tx_get_bind in Hr.
    destruct (q_keys db !! _); [|done]. destruct (col_eq _ _); [|done]. injection Hr as _ <-. apply dropped; [done | apply delete_subseteq].
  - unfold keys_ConfirmQuota in Hr. rewrite tx_get_bind in Hr. destruct (q_keys db !! id) as [k|] eqn:Hk; [|done].
    apply tx_bind_ok in Hr as ([] & ? & Hw & Hr). injection Hr as _ <-. eapply written; [done | done|]. right. by exists k.
  - unfold keys_RefundQuota in Hr. rewrite tx_get_bind in Hr. destruct (q_keys db !! id) as [k|] eqn:Hk; [|done]. destruct (due <=? _); [|done].
    apply tx_bind_ok in Hr as ([] & ? & Hw & Hr). injection Hr as _ <-. eapply written; [done | done|]. right. by exists k.
  - unfold keys_Touch in Hr. rewrite tx_get_bind in Hr. assert (Hsame : keyed (KTouch now id) db db) by (split; [done | apply keeps_refl]).
    destruct (q_keys db !! id) as [k|] eqn:Hk; [|by injection Hr as _ <-]. case_match; [|by injection Hr as _ <-].
    injection Hr as _ <-. eapply (written _ id (touched now k) _ tt); [done | | right; by exists k].
    unfold write_key. rewrite tx_get_bind, tx_guard_pass; [done|]. apply orb_false_iff. split.
    + apply negb_false_iff. exact (ko_row _ Hok _ _ Hk).
    + apply hash_free. intros i l Hl N E. apply N. by eapply (ko_hash _ Hok).
  - unfold keys_Purge in Hr. rewrite tx_get_bind in Hr. injection Hr as _ <-. apply dropped; [done | apply map_filter_subseteq].
  - unfold change_groups in Hr. rewrite tx_get_bind in Hr. apply tx_bind_ok in Hr as ([] & ? & Hg & Hr). apply tx_guard_ok in Hg as [Hg ->].
    injection Hr as _ <-. apply negb_false_iff in Hg. rewrite forallb_forall in Hg. split; [|apply keeps_refl]. destruct Hok as [H1 H2]. split; [|done].
    cbn. intros id k Hk. pose proof (H1 _ _ Hk) as Hrow. unfold key_row_ok in Hrow |- *. rewrite !andb_true_iff in Hrow |- *.
    destruct Hrow as [Hrow _]. split; [done|]. apply (Hg (id, k)). by apply list_elem_of_In, elem_of_map_to_list.
  - apply tx_zoom_ok in Hr as (acc & _ & ->). split; [by destruct Hok | apply keeps_refl].
Qed.

Lemma key_step_ok w w' : key_step w w' -> keys_ok (kw_db w) -> keys_ok (kw_db w').
Proof.
  intros [o _] Hok. unfold key_call, run_tx. destruct (key_perform o (kw_db w)) as [[u db']|e] eqn:Hp; [|done].
  cbn. by eapply key_perform_ok.
Qed.
End System.

Section Guarantees.
Context (uuid encrypt : string -> option string) (sha : string -> string).
#[local] Notation key_step := (key_step uuid encrypt sha).

Lemma key_steps_keep w w' : rtc key_step w w' -> keys_ok (kw_db w) ->
  keys_ok (kw_db w') /\ kw_hashes w ⊆ kw_hashes w' /\
  forall id k', q_keys (kw_db w') !! id = Some k' -> ak_KeyHash k' ∈ kw_hashes w ->
    exists k, q_keys (kw_db w) !! id = Some k /\ same_secret k k'.
Proof.
  induction 1 as [w | w w1 w2 [o Hnew] _ IH]; intros Hok; [split_and!; [done..|]; intros id k Hk _; exists k; by repeat split|].
  pose proof (key_step_ok uuid encrypt sha _ _ (KeyStep uuid encrypt sha w o Hnew) Hok) as Hok1. destruct (IH Hok1) as (Hok2 & Hs & Hkeep).
  split; [done|]. split; [cbn in Hs; set_solver|]. intros id k2 Hk2 Hin.
  destruct (Hkeep id k2 Hk2) as (k1 & Hk1 & Hsame); [cbn; set_solver|].
  assert (Hh1 : ak_KeyHash k1 ∈ kw_hashes w) by (destruct Hsame as [<- _]; exact Hin).
  cbn in Hk1. unfold run_tx in Hk1. destruct (key_perform uuid encrypt sha o (kw_db w)) as [[u db']|e] eqn:Hp; cbn in Hk1.
  - destruct (key_perform_ok _ _ _ _ _ _ _ Hok Hp) as [_ Hkeeps]. destruct (Hkeeps _ _ Hk1) as [Hb | (k & Hk & H1)]; [set_solver|].
    exists k. split; [done|]. destruct H1 as (A1 & A2 & A3 & A4), Hsame as (B1 & B2 & B3 & B4). repeat split; congruence.
  - by exists k1.
Qed.

Lemma key_start_ok : keys_ok (kw_db key_start).
Proof. split; cbn; by intros. Qed.

(** What acceptance says of the row. *)
Lemma runtimeAuth_inv now banned Authorization x_api_key db s :
  keys_ok db -> runtimeAuth sha now banned Authorization x_api_key db = Ok s ->
  exists key id k, extractRuntimeAPIKey Authorization x_api_key = Some key /\ q_keys db !! id = Some k /\ ak_KeyHash k = sha key /\
    ak_Status k = "active"%string /\ key_expired now k = false /\ verifyRuntimeAPIKeyOwner k (q_auth db) = true /\
    banned (ak_TenantID k) (default ""%string (ak_UserID k)) = NotBanned /\ s = buildRuntimeAuthSubjectRecord id k.
Proof.
  intros Hok Hr. unfold runtimeAuth, resolveAPIKey in Hr. destruct (extractRuntimeAPIKey _ _) as [key|]; [|done].
  destruct (GetAPIKeyByHash (sha key) db) as [[id k]|] eqn:Hg; [|done]. apply (GetAPIKeyByHash_spec _ _ _ _ Hok) in Hg as [Hk Hh].
  destruct (verifyRuntimeAPIKeyOwner k (q_auth db)) eqn:Hv; [|done]. destruct (negb (col_eq (ak_Status k) "active")) eqn:Hs; [done|].
  destruct (key_expired now k) eqn:He; [done|]. cbv zeta in Hr. cbn [sj_TenantID sj_UserID sj_GroupID buildRuntimeAuthSubjectRecord] in Hr.
  destruct (banned _ _) eqn:Hb; try done. destruct (col_eq (ak_GroupID k) ""); [done|]. injection Hr as <-. apply negb_false_iff in Hs. unfold col_eq in Hs.
  bool_prop. exists key, id, k. by split_and!.
Qed.

(** The owner of a key that is accepted. *)
Definition owner_active (db : auth_db) (s : Subject) : Prop :=
  d_tenants db !! sj_TenantID s = Some Active /\
  (sj_Scope s = "user"%string -> exists a, d_accounts db !! sj_UserID s = Some a /\ ia_tenant a = Some (sj_TenantID s) /\ ia_type a = 4 /\ ia_status a = Active).
Lemma owner_verified id k db : verifyRuntimeAPIKeyOwner k db = true -> owner_active db (buildRuntimeAuthSubjectRecord id k).
Proof.
  unfold verifyRuntimeAPIKeyOwner, owner_active, tenant_active, buildRuntimeAuthSubjectRecord, col_eq. cbn. intros [_ Hv]%andb_true_iff.
  destruct (decide (ak_OwnerType k = "tenant"%string)) as [E | N].
  - rewrite bool_decide_true in Hv by done. rewrite E, bool_decide_false by done. bool_prop. done.
  - rewrite bool_decide_false in Hv by done. destruct (decide (ak_OwnerType k = "user"%string)) as [E | N2]; [|by rewrite bool_decide_false in Hv].
    rewrite bool_decide_true in Hv by done. destruct (ak_UserID k) as [u|]; [|done]. apply andb_true_iff in Hv as [_ Hv]. cbn.
    destruct (d_accounts db !! u) as [a|] eqn:Ha; [|done]. rewrite !andb_true_iff, !bool_decide_eq_true in Hv. destruct Hv as (((H1 & H2) & H3) & H4).
    split; [done|]. intros _. exists a. split_and!; try done. lia.
Qed.

(** C12: a secret only ever authenticates the key it was drawn for.  Once a key was handed out,
    whatever is called between, the secret is accepted only while that very key still has
    it, for the same tenant and user, both active at that moment: a secret that was rotated
    away, or whose key was deleted, is refused for good, and so is the key of an account or
    a tenant as long as it is not active. *)
Theorem key_authenticates_its_owner w w' now banned Authorization x_api_key key s :
  rtc key_step key_start w -> rtc key_step w w' -> extractRuntimeAPIKey Authorization x_api_key = Some key -> sha key ∈ kw_hashes w ->
  runtimeAuth sha now banned Authorization x_api_key (kw_db w') = Ok s ->
  exists k, q_keys (kw_db w) !! sj_APIKeyID s = Some k /\ ak_KeyHash k = sha key /\ ak_TenantID k = sj_TenantID s /\
    default ""%string (ak_UserID k) = sj_UserID s /\ owner_active (q_auth (kw_db w')) s.
Proof.
  intros Hr Hs Hkey Hin Hauth. destruct (key_steps_keep _ _ Hr key_start_ok) as (Hok & _). destruct (key_steps_keep _ _ Hs Hok) as (Hok' & _ & Hkeep).
  apply (runtimeAuth_inv _ _ _ _ _ _ Hok') in Hauth as (key' & id & k' & Hkey' & Hk' & Hh & _ & _ & Hv & _ & ->).
  rewrite Hkey in Hkey'. injection Hkey' as <-. destruct (Hkeep id k' Hk') as (k & Hk & E1 & E2 & E3 & E4); [by rewrite Hh|].
  exists k. cbn. rewrite <- E3, <- E4, <- Hh. split_and!; try done. by apply owner_verified.
Qed.

Ltac refused := split; [intros s; split; [done | by intros [? _]] | by intros s ?].

(** C13: the worker of a queued task asks of an API key everything the gateway asks of a
    request with the key at the same moment, but for the ban list, which the gateway reads
    ([rejectIfBanned]) and the worker never does.  Whatever the list holds: the gateway
    accepts the request as a subject exactly when the worker would run the task as that
    subject and the list has neither its tenant nor its user; a task the worker would run
    is refused to the gateway only by the list; and the resolver of the pipeline gives the
    subject of every task that runs. *)
Theorem task_and_request_agree now banned Authorization x_api_key key id k db user jwt_user jwt_type session version :
  keys_ok db -> q_keys db !! id = Some k -> uuid id = Some id -> extractRuntimeAPIKey Authorization x_api_key = Some key -> sha key = ak_KeyHash k ->
  let request := runtimeAuth sha now banned Authorization x_api_key db in
  let task := task_subject uuid now (MkSubjectRef "api_key" (ak_TenantID k) user id jwt_user jwt_type session version) db in
  (forall s, request = Ok s <-> task = Some s /\ banned (sj_TenantID s) (sj_UserID s) = NotBanned) /\
  (forall s, task = Some s ->
     request = match banned (sj_TenantID s) (sj_UserID s) with NotBanned => Ok s | b => Err (BanRefusal b) end /\
     key_resolver sha now db key = Some s).
Proof.
  intros Hok Hk Hid Hkey Hh request task.
  assert (Hg : GetAPIKeyByHash (sha key) db = Some (id, k)) by (apply GetAPIKeyByHash_spec; done).
  set (s0 := buildRuntimeAuthSubjectRecord id k).
  assert (Etask : task = if verifyRuntimeAPIKeyOwner k (q_auth db) then
            if negb (col_eq (ak_Status k) "active") || key_expired now k then None
            else if col_eq (ak_GroupID k) "" then None else Some s0 else None).
  { unfold task, task_subject. cbn [sr_AuthMethod sr_APIKeyID sr_TenantID]. rewrite Hid, Hk. unfold col_eq.
    rewrite (bool_decide_true ("api_key"%string = "api_key"%string)), (bool_decide_true (ak_TenantID k = ak_TenantID k)) by done.
    by destruct (verifyRuntimeAPIKeyOwner k (q_auth db)); cbn [negb orb]; rewrite ?orb_true_r, ?orb_false_r. }
  assert (Ereq : request = if verifyRuntimeAPIKeyOwner k (q_auth db) then
            if negb (col_eq (ak_Status k) "active") then Err InvalidKey else if key_expired now k then Err ExpiredKey
            else match banned (sj_TenantID s0) (sj_UserID s0) with
                 | NotBanned => if col_eq (ak_GroupID k) "" then Err NoGroup else Ok s0 | b => Err (BanRefusal b) end
            else Err InvalidKey).
  { unfold request, runtimeAuth, resolveAPIKey. rewrite Hkey, Hg. by destruct (verifyRuntimeAPIKeyOwner k (q_auth db)). }
  rewrite Etask, Ereq. unfold key_resolver. rewrite Hg. fold s0. clear Etask Ereq. clearbody s0. clear request task.
  destruct (verifyRuntimeAPIKeyOwner k (q_auth db)); [|refused].
  destruct (negb (col_eq (ak_Status k) "active")); cbn [orb]; [refused|].
  destruct (key_expired now k); [refused|].
  destruct (col_eq (ak_GroupID k) ""); [by destruct (banned _ _); refused|].
  split; [|by intros s [= <-]].
  intros s. destruct (banned (sj_TenantID s0) (sj_UserID s0)) eqn:Hb; split; try done; try by intros [[= <-] ?]; congruence.
  by intros [= <-].
Qed.

(** A key that was just created authenticates at once, while its owner is active. *)
Theorem created_key_authenticates id plaintext input db k db' now :
  keys_ok db -> keys_Create uuid encrypt sha id plaintext input db = Ok (k, db') ->
  TrimSpace plaintext = plaintext -> String.prefix Prefix plaintext = true ->
  ak_Status k = "active"%string -> key_expired now k = false -> verifyRuntimeAPIKeyOwner k (q_auth db) = true -> ak_GroupID k <> ""%string ->
  runtimeAuth sha now (fun _ _ => NotBanned) "" plaintext db' = Ok (buildRuntimeAuthSubjectRecord id k).
Proof.
  intros Hok Hc Htrim Hpre Hst Hexp Hown Hgr. apply keys_Create_inv in Hc as (Hw & _ & Hh & _). pose proof (write_keeps _ _ _ _ _ Hok Hw) as Hok'.
  apply write_key_ok in Hw as (_ & _ & ->). set (db' := set_key_rows _ db) in *.
  assert (Hne : plaintext <> ""%string) by (intros ->; vm_compute in Hpre; discriminate).
  assert (Hkey : extractRuntimeAPIKey "" plaintext = Some plaintext).
  { unfold extractRuntimeAPIKey. rewrite Htrim. change (TrimSpace "") with ""%string. unfold col_eq.
    rewrite (bool_decide_false (plaintext = _)) by done. rewrite bool_decide_true by done. cbn [andb negb]. by rewrite Hpre. }
  assert (Hg : GetAPIKeyByHash (sha plaintext) db' = Some (id, k)).
  { apply (GetAPIKeyByHash_spec _ _ _ _ Hok'). split; [apply lookup_insert_eq | done]. }
  unfold runtimeAuth, resolveAPIKey. rewrite Hkey, Hg. change (q_auth db') with (q_auth db). rewrite Hown, Hst, Hexp. unfold col_eq.
  rewrite bool_decide_true by done. cbn [negb buildRuntimeAuthSubjectRecord sj_GroupID]. by rewrite bool_decide_false.
Qed.
End Guarantees.

(** ** A run

    A tenant with a group and an active user; the user's key is created, used, and rotated. *)

Definition self (s : string) : string := s.
Definition user_key_input : CreateInput := MkCreateInput "user" "t" "u" "g" "laptop" None "" None "boss".
Definition key_script : list key_op :=
  [KAuth (OpTenantCreate "t" Active); KAuth (OpRegister "u" "t" "ann" "hash"); KGroups {[("t"%string, "g"%string)]};
   KCreate "k1" "sk-ai-first" user_key_input].
Fixpoint key_calls (os : list key_op) (w : key_world) : option key_world :=
  match os with
  | [] => Some w
  | o :: os => if bool_decide (born_key self o ## kw_hashes w) then key_calls os (key_call Some Some self o w) else None
  end.
Lemma key_calls_steps os w w' : key_calls os w = Some w' -> rtc (key_step Some Some self) w w'.
Proof.
  revert w. induction os as [|o os IH]; cbn; intros w Hc; [injection Hc as ->; constructor|].
  case_bool_decide as Hd; [|done]. econstructor; [by constructor | by apply IH].
Qed.
Definition demo_kw : key_world := default key_start (key_calls key_script key_start).
Definition demo_rotated : key_world := key_call Some Some self (KRotate "sk-ai-second" "k1" "t") demo_kw.

Lemma demo_kw_reached : rtc (key_step Some Some self) key_start demo_kw.
Proof. apply (key_calls_steps key_script). unfold demo_kw. destruct (key_calls key_script key_start) eqn:Hc; [done|]. by vm_compute in Hc. Qed.
Example rotated_secret_is_refused : runtimeAuth self 5 (fun _ _ => NotBanned) "Bearer sk-ai-first" "" (kw_db demo_rotated) = Err InvalidKey.
Proof. vm_compute. reflexivity. Qed.

Definition demo_key_row : api_key := MkKey "user" "t" (Some "u"%string) "g" "sk-ai-first" "sk-ai-first" "irst" "laptop" None 0 "active" None None (Some "boss"%string).
Lemma key_authenticates_its_owner_witness : exists k, q_keys (kw_db demo_kw) !! "k1"%string = Some k /\ ak_TenantID k = "t"%string /\
  owner_active (q_auth (kw_db demo_kw)) (buildRuntimeAuthSubjectRecord "k1" demo_key_row).
Proof.
  destruct (key_authenticates_its_owner Some Some self demo_kw demo_kw 5 (fun _ _ => NotBanned) "Bearer sk-ai-first" "" "sk-ai-first" (buildRuntimeAuthSubjectRecord "k1" demo_key_row)
    demo_kw_reached (rtc_refl _ _) ltac:(by vm_compute) ltac:(by vm_compute) ltac:(by vm_compute)) as (k & H1 & _ & H2 & _ & H3).
  exists k. by split_and!.
Defined.

(** The worker runs the task; so does the gateway with nobody banned, and it refuses the
    request of a banned user. *)
Lemma task_and_request_agree_witness :
  let task := task_subject Some 5 (MkSubjectRef "api_key" "t" "u" "k1" "" 0 "" 0) (kw_db demo_kw) in
  let request banned := runtimeAuth self 5 banned "Bearer sk-ai-first" "" (kw_db demo_kw) in
  task = Some (buildRuntimeAuthSubjectRecord "k1" demo_key_row) /\
  request (fun _ _ => NotBanned) = Ok (buildRuntimeAuthSubjectRecord "k1" demo_key_row) /\
  request (fun _ u => if bool_decide (u = "u"%string) then UserBanned else NotBanned) = Err (BanRefusal UserBanned).
Proof.
  cbv zeta.
  assert (Htask : task_subject Some 5 (MkSubjectRef "api_key" "t" "u" "k1" "" 0 "" 0) (kw_db demo_kw) =
    Some (buildRuntimeAuthSubjectRecord "k1" demo_key_row)) by (vm_compute; reflexivity).
  assert (Hag : forall banned, runtimeAuth self 5 banned "Bearer sk-ai-first" "" (kw_db demo_kw) =
    match banned "t"%string "u"%string with NotBanned => Ok (buildRuntimeAuthSubjectRecord "k1" demo_key_row) | b => Err (BanRefusal b) end).
  { intros banned. destruct (task_and_request_agree Some self 5 banned "Bearer sk-ai-first" "" "sk-ai-first" "k1" demo_key_row (kw_db demo_kw)
      "u" "" 0 "" 0) as [_ H]; [exact (proj1 (key_steps_keep _ _ _ _ _ demo_kw_reached key_start_ok)) | by vm_compute | done | by vm_compute | by vm_compute |].
    exact (proj1 (H _ Htask)). }
  split; [exact Htask|]. split; by rewrite Hag.
Defined.
